(* ===== verification/_CoqProject ===== *)
-Q . S2P
Prelude.v
Memory.v
Float32.v
Printf.v
Serial.v
I2c.v
Clock.v
Sht30.v
Methane.v
Node.v
AdcSensors.v
ModbusApp.v
Uart.v
Report.v
Cloud.v
EthApp.v
Lora.v
Heap.v
HeapSpec.v
Timer.v
Kernel.v
Ipc.v
IpcSpec.v
Calls.v
Mailbox.v
Event.v
Object.v
Idle.v
Startup.v
Msh.v
Shell.v
Debug.v
