(* ===== verification/Prelude.v ===== *)
(** * Pipe gallery monitoring node: verification library (root file)

    The firmware of this repository runs on an STM32H743 under RT-Thread.  It
    acquires the sensors of a utility tunnel (methane, flame, oxygen,
    temperature and humidity, water flow, displacement, stress, currents) and
    reports them over Ethernet, over an ESP8266 modem to the Huawei cloud and
    over LoRa.  This library translates its applications, the drivers under
    them and the parts of the kernel they stand on into executable Rocq
    definitions, and proves what makes each of them correct.  This file holds
    what the others share: machine integers, C strings, arrays, the state monad
    [M] with failure, list nodes, and the lemmas and hint databases on them.

    ** Conventions

    A definition has the name of the C function, type or constant it models.
    A C integer is a [Z] with its conversion written out ([u8], [u32], [s32],
    [+u32] ...).  A function with effects is in [M S A]: a state goes in, and
    [None] comes out where the C code would fail an RT_ASSERT, use an object
    that is not there or, in a function with fuel, run out of it.  The theorems
    say [Some]: that none of this happens is part of what they prove.  Code that
    is not in the repository, and registers, are parameters: type classes with
    their laws ([UartOps], [I2cBitOps], [I2cTime], [AdcHal], [Modbus] and
    [ModbusLaws]), or functions of the history (the modem of Cloud.v, the network
    of EthApp.v, the time-out functions of Timer.v); [malloc] tells the serial
    driver and the UARTs whether an allocation succeeds.  Each class whose laws are
    used has an instance.

    ** Files, from the bottom up

    - Prelude.v: this file.
    - Memory.v: bytes at 32-bit addresses; rt_memset, rt_memcpy (kservice.c).
    - Float32.v: the C type float, and the float of a register pair.
    - Printf.v: rt_vsnprintf and its callers (rt-thread/src/kservice.c), written
      once over an emission step and used on memory and on lists.
    - Clock.v: ticks and milliseconds (clock.c).
    - Kernel.v: threads and scheduler (thread.c, scheduler.c): the record of a
      thread, the ready rows and their bitmap, one Definition per kernel call,
      [kop] for whatever can happen, [run_kops] for a run, [kernel_boot].
    - Ipc.v: semaphores and mutexes (ipc.c) on Kernel.v; [iop], [event], [run_iops].
      IpcSpec.v: their contracts, over all runs.
    - Mailbox.v: mailboxes (ipc.c) on Kernel.v and the lists of Ipc.v; [mop],
      [run_mops]; its contract is the Module [Box].
    - Event.v: events (ipc.c) on Kernel.v and the lists of Ipc.v; [eop], [run_eops];
      its contract, on sets of flags, is the Module [Flags].  Calls.v: what Mailbox.v
      and Event.v share, the threads inside a blocking call.
    - Object.v: the container of kernel objects (object.c), devices and threads by
      name; its contract is the Module [Registry].
    - Idle.v: creation and end of threads with their memory (thread.c), the idle
      thread (idle.c), the start of the system (components.c), over Kernel.v and
      Object.v.
    - Timer.v: timers and the timer thread (timer.c).
    - Heap.v, HeapSpec.v: the small memory allocator (mem.c) on bytes, and its
      contract: an abstract allocator and client programs.
    - Serial.v: serial.c under device.c: the receive ring, interrupt and polling
      transmission, the console.
    - I2c.v: i2c-bit-ops.c, i2c_core.c and the delay of drv_soft_i2c.c.
    - Node.v: the globals through which acquisition and reporting threads talk.
    - Sht30.v (over I2c.v), Methane.v (over Serial.v), AdcSensors.v (oxygen and
      flame over adc.c and drv_adc.c), ModbusApp.v (water meter, displacement,
      stress, ammeter): one file per sensor application.
    - Uart.v: uartApp.c, the two module UARTs: receive interrupt, receive thread
      from its first statement and the threads that clear its buffer, as
      interleaved steps; [store] is a turn of the thread in one piece.
    - Report.v: the three reports; EthApp.v: the TCP client thread; Cloud.v: the
      AT command machine of the cloud thread over the buffer of Uart.v, where bytes
      arrive ([arrive]) before each of its accesses; Lora.v: the LoRa thread over
      UART5, statement by statement and byte by byte, with its interrupts.
    - Startup.v: main.c and the threads it starts, over Kernel.v.
    - Msh.v, Shell.v: the command shell (finsh/msh.c, finsh/shell.c): splitting,
      running and completing a line on the array that holds it; the line editor,
      one turn per character, and the editor and terminal it must look like.
    - Debug.v: the commands of debugCommands.c, message by message.

    Above the kernel the files do not share one state: each states of the layer
    below what it needs (the semaphore of one receive thread in Uart.v and the
    lock of the heap in Heap.v are the cases of Ipc.v in which one thread waits).

    ** What the theorems show

    - Threads: in every reachable state the lists, the bitmap and the records of
      the threads agree, and [rt_schedule] runs a thread no ready thread exceeds
      in priority, in turns among equals ([scheduler_invariant],
      [schedule_runs_highest]).
    - Semaphores and mutexes: a semaphore refines an abstract counter with a queue
      of waiting threads; a mutex has at most one holder, the one that took it; a
      thread that waits for a mutex served by priority waits behind no thread of
      lower priority, as long as mutexes are not nested
      ([semaphore_refines_counter], [mutex_exclusive], [priority_inheritance],
      [nested_mutex_keeps_priority], [fifo_mutex_inversion]).
    - Mailboxes: a mailbox refines a bounded queue with sleeping and woken threads,
      and loses no wake-up ([mailbox_refines_queue], [mailbox_no_lost_wakeup]).
    - Events: an event refines a set of flags with sleeping threads and what woken
      ones were granted, a flag that is cleared on receipt is received at most as
      often as it is sent, and nobody sleeps although its flags are there
      ([event_refines_flags], [event_no_lost_wakeup]).
    - Objects: the container is one list of named entries, every object on the list
      of its class has that class, and a device is found under its name and only
      there ([container_refines_registry], [container_typed], [device_found_by_name]).
    - Life of a thread: its memory is neither lost nor freed twice nor shared, and
      the idle thread gives back what ended ([threads_no_leak],
      [idle_frees_ended]).
    - Timers: a started timer fires at its tick and not before, each operation
      keeps the lists in order ([timer_fires_exactly], [timers_safe]), for times of 1
      to 2^31-2 ticks, which are needed ([zero_period_hangs], [long_time_asserts]); a
      soft timer started at one moment is lost ([soft_timer_lost]).
    - Heap: malloc, calloc, realloc and free refine a finite map of blocks; a heap
      whose blocks were all freed is as good as new; a size near 2^32 wraps
      ([heap_refines_allocator], [heap_reusable], [rt_malloc_wraps]).
    - Serial device: with the device layer it is a bounded queue of the bytes that
      arrived, which drops the oldest when it is full, and a log of those that were
      sent; it says exactly when an assertion fails (no memory for the queue, a
      256th open, an interrupt while closed) ([serial_device_refines_queue]).
    - Formatting: no write beyond the buffer, always a NUL; %d can be read back
      ([rt_snprintf_bounded], [printf_d_roundtrip]).
    - I2C: frames on the wires, termination whatever the slave does, an absent
      slave is reported, delays are long enough ([i2c_transfer_frames],
      [i2c_transfer_terminates], [i2c_nack_reported], [udelay_never_short]).
    - Sensors: only frames with a valid check are published, values are those of
      the frames, the parsers resynchronise, a failing sensor leaves the others'
      values alone (Sht30.v, Methane.v, AdcSensors.v, ModbusApp.v).
    - Receive buffer of the modules: no access outside, every byte reaches the
      buffer, a clear separates answers unless a byte arrives during it; the start
      fails an assertion on exactly the interrupts [quiet_start] excludes
      ([uart_buffer_safe], [uart_reader_drains], [uart_clear_then_receive],
      [uart_receive_stores], [uart_clear_race_false_ok]).
    - Reports and uplinks: the texts are complete in their buffers; the connect
      step, the way online and the published report of the cloud thread, with what
      a prompt during the clear does ([stale_prompt_publishes]); the TCP
      thread leaks no socket and recovers from any network, and takes a short send
      for a report ([eth_short_send]) (Report.v, Cloud.v, EthApp.v).
    - LoRa: every turn sends the complete text, and a missing UART5 stops the thread
      ([lora_sends_reports], [lora_needs_device]).
    - Startup: whatever fails and whatever comes in between, no thread but the
      Modbus poll thread overtakes main, and main starts and reports exactly the
      threads the board allows ([main_starts_threads]).
    - Command shell: for any keys it is an editor with a cursor, a history of five
      lines and a terminal that shows both, and it runs the lines entered; a tab
      completes to the longest common beginning; a line of 80 characters breaks it
      ([shell_refines_editor], [completion_longest], [shell_long_line_corrupts]).

    - Debug commands: what they show agrees with what the threads published, in
      texts the console buffer holds ([alarm_shown_agrees], [commands_fit_console],
      [o2_debug_warns]), but for the conversions of floats ([float_tests_blind]).

    ** Fuel and bounds

    Loops that are not structural take fuel, and a theorem shows it is enough:
    the format loop takes the length of the format (each turn reads a
    character); [poll_fuel] is one turn per 100 ms of the time-out; the wait for
    the clock line is [SCL_POLLS] = 4 polls with delays of half the time-out
    between them (the laws of [I2cTime] say that time passes); [heap_fuel] one turn per 12 byte header; the check of
    the timers one turn per timer; the clean-up of the idle thread one turn per
    ended thread and one to see the end; [rt_ipc_list_resume_all] one turn per waiting
    thread; the interrupt of the serial driver takes as fuel what the hardware
    holds; the loops of the shell take the length of the array they read.
    Threads, which never end, are runs of their loop body ([..._turn]) or
    step relations; a run has any finite length.

    ** Not modelled

    Register access of the peripherals, the vendor HAL and CMSIS, lwIP and the
    socket layer, FreeModbus, cJSON: not code of this firmware, or parameters.
    Stacks and context switches: assembly.  Message queues, memory pools,
    DMA and POSIX paths: not used by the
    modelled applications or compiled out.  The input device of the shell, two commands
    of huaweiCloudApp.c that probe the modem,
    wifiApp.c, whose thread is never started, and the demonstration files. *)

From Stdlib Require Import ZArith Lia String Ascii.
From stdpp Require Import base numbers list.

(* ------------------------------------------------------------------ *)
(** ** Machine integers

    A C integer of width [w] is a [Z]; [wrapu]/[wraps] are the conversions to
    the unsigned/signed type of that width (modular, two's complement, as GCC
    implements them for ARM). *)

Declare Scope c_scope.
Delimit Scope c_scope with c.
Open Scope Z_scope.

Definition wrapu (w x : Z) : Z := x mod 2 ^ w.
Definition wraps (w x : Z) : Z := (x + 2 ^ (w - 1)) mod 2 ^ w - 2 ^ (w - 1).

Abbreviation u8 := (wrapu 8).
Abbreviation u16 := (wrapu 16).
Abbreviation u32 := (wrapu 32).
Abbreviation s16 := (wraps 16).
Abbreviation s32 := (wraps 32).

Notation "x +u32 y" := (wrapu 32 (x + y)) (at level 50, left associativity) : c_scope.
Notation "x -u32 y" := (wrapu 32 (x - y)) (at level 50, left associativity) : c_scope.
Notation "x +u8 y" := (wrapu 8 (x + y)) (at level 50, left associativity) : c_scope.

Definition is_u8 (x : Z) : Prop := 0 <= x < 256.
Definition is_u16 (x : Z) : Prop := 0 <= x < 65536.
Definition is_u32 (x : Z) : Prop := 0 <= x < 4294967296.
Definition is_s32 (x : Z) : Prop := -2147483648 <= x < 2147483648.

(** [rt_err_t] results of the kernel and of the applications
    (rt-thread/include/rtdef.h). *)
Definition RT_EOK : Z := 0.
Definition RT_ERROR : Z := 1.
Definition RT_ETIMEOUT : Z := 2.
Definition RT_EFULL : Z := 3.
Definition RT_ENOSYS : Z := 6.
Definition RT_EIO : Z := 8.

(* ------------------------------------------------------------------ *)
(** ** C strings

    A C string is the list of its bytes before the terminating NUL.  [clit]
    reads a Rocq string literal as a C literal: a backquote stands for the
    double quote, and the backslash escapes n, r, e (the byte 27) and the
    backslash itself are decoded. *)

Definition chr (a : ascii) : Z := Z.of_N (N_of_ascii a).

Fixpoint clit (s : string) : list Z :=
  match s with
  | EmptyString => []
  | String "\"%char (String "n"%char r) => 10 :: clit r
  | String "\"%char (String "r"%char r) => 13 :: clit r
  | String "\"%char (String "e"%char r) => 27 :: clit r
  | String "\"%char (String "\"%char r) => 92 :: clit r
  | String "`"%char r => 34 :: clit r
  | String a r => chr a :: clit r
  end.

(** The C string held by a character array: its bytes up to the first NUL. *)
Fixpoint cstr (buf : list Z) : list Z :=
  match buf with
  | [] => []
  | c :: r => if c =? 0 then [] else c :: cstr r
  end.

Fixpoint is_prefix (p s : list Z) : bool :=
  match p, s with
  | [], _ => true
  | _ :: _, [] => false
  | a :: p', b :: s' => (a =? b) && is_prefix p' s'
  end.

(** [strstr(hay, needle) != NULL] of the C library. *)
Fixpoint contains (needle hay : list Z) : bool :=
  is_prefix needle hay ||
  match hay with
  | [] => false
  | _ :: r => contains needle r
  end.

(** [strcmp(a, b) == 0]. *)
Definition str_eqb (a b : list Z) : bool := bool_decide (a = b).

(** [atoi]: optional white space and sign, then decimal digits; the value is
    truncated to [int]. *)
Definition is_digit (c : Z) : bool := (48 <=? c) && (c <=? 57).

Fixpoint atoi_digits (s : list Z) (acc : Z) : Z :=
  match s with
  | c :: r => if is_digit c then atoi_digits r (acc * 10 + (c - 48)) else acc
  | [] => acc
  end.

Fixpoint atoi_spaces (s : list Z) : list Z :=
  match s with
  | c :: r => if (c =? 32) || ((9 <=? c) && (c <=? 13)) then atoi_spaces r else s
  | [] => []
  end.

Definition atoi (s : list Z) : Z :=
  match atoi_spaces s with
  | c :: r => if c =? 45 then s32 (- atoi_digits r 0)
              else if c =? 43 then s32 (atoi_digits r 0)
              else s32 (atoi_digits (c :: r) 0)
  | [] => 0
  end.

(* ------------------------------------------------------------------ *)
(** ** Iteration *)

(** [n] turns of a loop body. *)
Fixpoint iter_n {A} (n : nat) (f : A -> A) (x : A) : A :=
  match n with
  | O => x
  | S k => iter_n k f (f x)
  end.

(** A bounded check of all naturals below [n], for exhaustive evaluation. *)
Fixpoint all_below (n : nat) (p : Z -> bool) : bool :=
  match n with
  | O => true
  | S k => p (Z.of_nat k) && all_below k p
  end.

(** Array access: C arrays are lists; a read outside the array is [None]
    (undefined behaviour) and a write outside is refused. *)
Definition aget {A} (l : list A) (i : Z) : option A :=
  if (0 <=? i) then l !! Z.to_nat i else None.

Definition aset {A} (l : list A) (i : Z) (x : A) : option (list A) :=
  if (0 <=? i) && (i <? Z.of_nat (length l))
  then Some (<[Z.to_nat i := x]> l) else None.

(** [rt_list_remove] of a kernel list, as the list of its nodes. *)
Definition unlink (x : Z) (l : list Z) : list Z := List.filter (fun y => negb (y =? x)) l.

(** [(x & f) != 0] *)
Definition tst (x f : Z) : bool := negb (Z.land x f =? 0).

(** ** Stateful code: a state monad with failure

    [None] is undefined behaviour, a failed assertion, or a loop whose fuel
    ran out; each model says which it uses. *)
Definition M (S A : Type) : Type := S -> option (A * S).
Definition retM {S A} (a : A) : M S A := fun s => Some (a, s).
Definition failM {S A} : M S A := fun _ => None.
Definition bindM {S A B} (m : M S A) (k : A -> M S B) : M S B :=
  fun s => match m s with None => None | Some (a, s') => k a s' end.
Definition doM {S} (f : S -> S) : M S unit := fun s => Some (tt, f s).
Definition getM {S A} (f : S -> A * S) : M S A := fun s => Some (f s).

Notation "'let!' x := e 'in' k" := (bindM e (fun x => k))
  (at level 10, x name, e at level 100, k at level 200) : c_scope.
Notation "'let!' ' p := e 'in' k" := (bindM e (fun x => match x with p => k end))
  (at level 10, p pattern, e at level 100, k at level 200) : c_scope.
Notation "'do!' e 'in' k" := (bindM e (fun _ => k))
  (at level 10, e at level 100, k at level 200) : c_scope.

(* ------------------------------------------------------------------ *)
(** ** Proof automation *)

Create HintDb cint.
Create Rewrite HintDb cint.

(** Split boolean tests of the goal and of the context into propositions. *)
Ltac bdestr :=
  repeat first
    [ match goal with
      | |- context [if ?b then _ else _] =>
          let E := fresh "E" in destruct b eqn:E
      end ].

Ltac breflect :=
  repeat match goal with
  | H : (_ && _) = true |- _ => apply andb_true_iff in H as [? ?]
  | H : (_ || _) = false |- _ => apply orb_false_iff in H as [? ?]
  | H : (_ <? _) = true |- _ => apply Z.ltb_lt in H
  | H : (_ <? _) = false |- _ => apply Z.ltb_ge in H
  | H : (_ <=? _) = true |- _ => apply Z.leb_le in H
  | H : (_ <=? _) = false |- _ => apply Z.leb_gt in H
  | H : (_ =? _) = true |- _ => apply Z.eqb_eq in H
  | H : (_ =? _) = false |- _ => apply Z.eqb_neq in H
  | H : negb _ = true |- _ => apply negb_true_iff in H
  | H : negb _ = false |- _ => apply negb_false_iff in H
  end.

(* ------------------------------------------------------------------ *)
(** ** Lemmas on machine integers *)

Lemma wrapu_range w x : 0 <= w -> 0 <= wrapu w x < 2 ^ w.
Proof. intros. apply Z.mod_pos_bound. apply Z.pow_pos_nonneg; lia. Qed.

Lemma wrapu_small w x : 0 <= x < 2 ^ w -> wrapu w x = x.
Proof. apply Z.mod_small. Qed.

Lemma wraps_range w x : 0 < w -> - 2 ^ (w - 1) <= wraps w x < 2 ^ (w - 1).
Proof.
  intros. unfold wraps.
  assert (2 ^ w = 2 * 2 ^ (w - 1)) as E by (rewrite <- Z.pow_succ_r by lia; f_equal; lia).
  pose proof (Z.mod_pos_bound (x + 2 ^ (w - 1)) (2 ^ w)
                (Z.pow_pos_nonneg 2 w ltac:(lia) ltac:(lia))).
  lia.
Qed.

Lemma wraps_small w x : 0 < w -> - 2 ^ (w - 1) <= x < 2 ^ (w - 1) -> wraps w x = x.
Proof.
  intros. unfold wraps.
  assert (2 ^ w = 2 * 2 ^ (w - 1)) as E by (rewrite <- Z.pow_succ_r by lia; f_equal; lia).
  rewrite Z.mod_small; lia.
Qed.

Lemma u8_range x : is_u8 (u8 x).
Proof. exact (wrapu_range 8 x ltac:(lia)). Qed.
Lemma u16_range x : is_u16 (u16 x).
Proof. exact (wrapu_range 16 x ltac:(lia)). Qed.
Lemma u32_range x : is_u32 (u32 x).
Proof. exact (wrapu_range 32 x ltac:(lia)). Qed.
Lemma s32_range x : is_s32 (s32 x).
Proof. exact (wraps_range 32 x ltac:(lia)). Qed.
Lemma u8_small x : is_u8 x -> u8 x = x.
Proof. exact (wrapu_small 8 x). Qed.
Lemma u16_small x : is_u16 x -> u16 x = x.
Proof. exact (wrapu_small 16 x). Qed.
Lemma u32_small x : is_u32 x -> u32 x = x.
Proof. exact (wrapu_small 32 x). Qed.
Lemma s32_small x : is_s32 x -> s32 x = x.
Proof. exact (wraps_small 32 x ltac:(lia)). Qed.

#[export] Hint Resolve u8_range u16_range u32_range s32_range : cint.
#[export] Hint Rewrite u8_small u16_small u32_small s32_small
  using (unfold is_u8, is_u16, is_u32, is_s32 in *; lia) : cint.

(** Tick arithmetic: the unsigned difference of two counters is the distance
    travelled, whatever the wrap-around, as long as it fits in the width. *)
Lemma u32_diff_add a d : 0 <= d < 2 ^ 32 -> u32 (u32 (a + d) - a) = d.
Proof.
  intros. unfold wrapu. rewrite Zminus_mod_idemp_l.
  replace (a + d - a) with d by lia. apply Z.mod_small. lia.
Qed.

(* ------------------------------------------------------------------ *)
(** ** Lemmas on strings, arrays and iteration *)

Lemma cstr_no_nul b : Forall (fun c => c <> 0) (cstr b).
Proof.
  induction b as [|c r IH]; simpl; [constructor|].
  destruct (Z.eqb_spec c 0); constructor; auto.
Qed.

Lemma cstr_length b : (length (cstr b) <= length b)%nat.
Proof. induction b; simpl; [lia|]. destruct (_ =? _); simpl; lia. Qed.

Lemma cstr_app_nul s r : Forall (fun c => c <> 0) s -> cstr (s ++ 0 :: r) = s.
Proof.
  induction 1 as [|c s Hc _ IH]; simpl; [done|].
  destruct (Z.eqb_spec c 0); [done | by rewrite IH].
Qed.

Lemma is_prefix_app p s : is_prefix p (p ++ s) = true.
Proof. induction p as [|a p IH]; simpl; [done|]. by rewrite Z.eqb_refl. Qed.

Lemma is_prefix_spec p s : is_prefix p s = true <-> exists r, s = p ++ r.
Proof.
  split.
  - revert s; induction p as [|a p IH]; intros [|b s]; simpl; intros H; try done;
      [by exists [] | by exists (b :: s) |].
    apply andb_true_iff in H as [E H]. apply Z.eqb_eq in E as ->.
    apply IH in H as [r ->]. by exists r.
  - intros [r ->]. apply is_prefix_app.
Qed.

Lemma contains_spec p s : contains p s = true <-> exists a b, s = a ++ p ++ b.
Proof.
  induction s as [|c s IH]; simpl; rewrite orb_true_iff, is_prefix_spec.
  - split.
    + intros [[r E]|]; [|done]. by exists [], r.
    + intros (a & b & E). left. destruct a; [by exists b | done].
  - rewrite IH. split.
    + intros [[r E]|(a & b & ->)]; [by exists [], r | by exists (c :: a), b].
    + intros ([|x a] & b & E); simpl in E; [left; by exists b |].
      right. injection E as -> ->. by exists a, b.
Qed.

Lemma all_below_spec n p i : all_below n p = true -> 0 <= i < Z.of_nat n -> p i = true.
Proof.
  induction n as [|n IH]; simpl; [lia|].
  rewrite andb_true_iff. intros [H1 H2] Hi.
  destruct (decide (i = Z.of_nat n)) as [->|]; [done|]. apply IH; [done|lia].
Qed.

Lemma iter_n_add {A} n m (f : A -> A) x : iter_n (n + m) f x = iter_n m f (iter_n n f x).
Proof. revert x; induction n; simpl; auto. Qed.

Lemma iter_n_inv {A} (P : A -> Prop) n f x :
  (forall y, P y -> P (f y)) -> P x -> P (iter_n n f x).
Proof. intros Hf. revert x; induction n; simpl; auto. Qed.

Lemma aset_length {A} (l l' : list A) i x : aset l i x = Some l' -> length l' = length l.
Proof.
  unfold aset. destruct (_ && _); [|done]. intros [= <-]. apply length_insert.
Qed.

Lemma aset_in_range {A} (l : list A) i x :
  0 <= i < Z.of_nat (length l) -> aset l i x = Some (<[Z.to_nat i := x]> l).
Proof.
  intros [? ?]. unfold aset.
  by rewrite (proj2 (Z.leb_le _ _)), (proj2 (Z.ltb_lt _ _)) by lia.
Qed.

Lemma in_unlink x y l : In y (unlink x l) <-> In y l /\ y <> x.
Proof. unfold unlink. rewrite filter_In, negb_true_iff, Z.eqb_neq. done. Qed.

Lemma unlink_app x l1 l2 : unlink x (l1 ++ l2) = unlink x l1 ++ unlink x l2.
Proof. apply List.filter_app. Qed.

Lemma unlink_notin x l : ~ In x l -> unlink x l = l.
Proof.
  induction l as [|y l IH]; [done|]. intros Hn. unfold unlink in *. cbn [List.filter].
  rewrite (proj2 (Z.eqb_neq y x)) by (intros ->; apply Hn; by left). cbn [negb].
  f_equal. apply IH. intros Hin. apply Hn. by right.
Qed.

Lemma NoDup_unlink x l : List.NoDup l -> List.NoDup (unlink x l).
Proof. apply List.NoDup_filter. Qed.

(* ------------------------------------------------------------------ *)
(** ** Lemmas on flags and on the monad *)

Lemma tst_bit x k : 0 <= k -> tst x (2 ^ k) = Z.testbit x k.
Proof.
  intros Hk. unfold tst.
  destruct (Z.testbit x k) eqn:E.
  - apply negb_true_iff, Z.eqb_neq. intros H0.
    assert (Z.testbit (Z.land x (2 ^ k)) k = true) as Hb
      by (by rewrite Z.land_spec, E, Z.pow2_bits_true).
    by rewrite H0, Z.testbit_0_l in Hb.
  - apply negb_false_iff, Z.eqb_eq, Z.bits_inj'. intros n Hn.
    rewrite Z.land_spec, Z.testbit_0_l, Z.pow2_bits_eqb by done.
    destruct (Z.eqb_spec k n) as [->|]; [by rewrite E|]. apply andb_false_r.
Qed.

Lemma tst_lor k x y f : 0 <= k -> f = 2 ^ k -> tst (Z.lor x y) f = tst x f || tst y f.
Proof. intros Hk ->. rewrite !tst_bit by done. apply Z.lor_spec. Qed.

Lemma tst_ldiff k x y f : 0 <= k -> f = 2 ^ k ->
  tst (Z.ldiff x y) f = tst x f && negb (tst y f).
Proof. intros Hk ->. rewrite !tst_bit by done. apply Z.ldiff_spec. Qed.

Lemma bindM_some {S A B} (m : M S A) (k : A -> M S B) s a s' :
  m s = Some (a, s') -> bindM m k s = k a s'.
Proof. unfold bindM. by intros ->. Qed.

Lemma bindM_retM {S A B} (a : A) (k : A -> M S B) s : bindM (retM a) k s = k a s.
Proof. reflexivity. Qed.

Lemma bindM_doM {S B} (f : S -> S) (k : unit -> M S B) s : bindM (doM f) k s = k tt (f s).
Proof. done. Qed.

Lemma bindM_getM {S A B} (f : S -> A * S) (k : A -> M S B) s :
  bindM (getM f) k s = k (fst (f s)) (snd (f s)).
Proof. unfold bindM, getM. by destruct (f s). Qed.

Lemma bindM_assoc {S A B C} (m : M S A) (k : A -> M S B) (h : B -> M S C) s :
  bindM (bindM m k) h s = bindM m (fun a => bindM (k a) h) s.
Proof. unfold bindM. by destruct (m s) as [[a s']|]. Qed.

Lemma bindM_inv {S A B} (m : M S A) (k : A -> M S B) s r :
  bindM m k s = Some r -> exists a s', m s = Some (a, s') /\ k a s' = Some r.
Proof. unfold bindM. destruct (m s) as [[a s']|]; [|done]. eauto. Qed.

(** Assembling a word from its halves. *)
Lemma lor_shiftl_low a b k : 0 <= k -> 0 <= b < 2 ^ k -> Z.lor (Z.shiftl a k) b = a * 2 ^ k + b.
Proof.
  intros Hk Hb.
  assert (Z.land (a * 2 ^ k) b = 0) as Hl.
  { apply Z.bits_inj'. intros n Hn. rewrite Z.land_spec, Z.testbit_0_l.
    destruct (Z.lt_ge_cases n k); [by rewrite Z.mul_pow2_bits_low by lia|].
    rewrite <- (Z.mod_small b (2 ^ k)), Z.mod_pow2_bits_high by lia. apply andb_false_r. }
  rewrite Z.shiftl_mul_pow2, <- Z.lxor_lor by done. symmetry. by apply Z.add_nocarry_lxor.
Qed.
