(* ===== verification/Memory.v ===== *)
(** * Memory: bytes at 32-bit addresses

    The memory the formatter, the report builders and the heap write to, with
    the C loads and stores of little-endian words, [memset] and [memcpy]. *)

From Stdlib Require Import ZArith Lia.
From stdpp Require Import base numbers list.
From S2P Require Import Prelude.

(** Memory maps 32-bit addresses to bytes. *)
Definition memory := Z -> Z.
Definition mem_set (m : memory) (a v : Z) : memory :=
  fun x => if x =? a then v else m x.

Definition mem_read (m : memory) (addr : Z) (n : nat) : list Z :=
  map (fun i => m (addr + Z.of_nat i)) (seq 0 n).

(** A load and a store of [n] bytes, least significant first. *)
Fixpoint load (n : nat) (m : memory) (a : Z) : Z :=
  match n with
  | O => 0
  | S k => m a mod 256 + 256 * load k m (a + 1)
  end.

Fixpoint store (n : nat) (m : memory) (a v : Z) : memory :=
  match n with
  | O => m
  | S k => store k (mem_set m a (v mod 256)) (a + 1) (v / 256)
  end.

(** [rt_memset] and [rt_memcpy]. *)
Definition rt_memset (m : memory) (a c n : Z) : memory :=
  fun x => if (a <=? x) && (x <? a + n) then u8 c else m x.
Definition rt_memcpy (m : memory) (dst src n : Z) : memory :=
  fun x => if (dst <=? x) && (x <? dst + n) then m (src + (x - dst)) else m x.

(* ------------------------------------------------------------------ *)
(** ** Lemmas *)

Lemma mem_read_app m a n k : mem_read m a (n + k) = mem_read m a n ++ mem_read m (a + Z.of_nat n) k.
Proof.
  assert (forall s, map (fun i => m (a + Z.of_nat i)) (seq (n + s) k)
                  = map (fun i => m (a + Z.of_nat n + Z.of_nat i)) (seq s k)) as E.
  { induction k as [|k' IH]; intros s; [done|]. cbn [seq map]. rewrite <- IH, Nat.add_succ_r.
    f_equal. f_equal. lia. }
  unfold mem_read. rewrite seq_app, map_app. f_equal. rewrite <- E. by rewrite Nat.add_0_r.
Qed.

Lemma mem_read_ext m m' a n :
  (forall x, a <= x < a + Z.of_nat n -> m x = m' x) -> mem_read m a n = mem_read m' a n.
Proof.
  intros H. apply map_ext_in. intros i Hi. apply in_seq in Hi. apply H. lia.
Qed.

Lemma mem_read_length m a n : length (mem_read m a n) = n.
Proof. unfold mem_read. by rewrite length_map, length_seq. Qed.

Lemma mem_set_ne m a v x : x <> a -> mem_set m a v x = m x.
Proof. intros. unfold mem_set. by rewrite (proj2 (Z.eqb_neq _ _)). Qed.

Lemma store_outside n : forall m a v x, x < a \/ a + Z.of_nat n <= x -> store n m a v x = m x.
Proof.
  induction n as [|n IH]; intros m a v x Hx; [done|]. cbn [store].
  rewrite IH, mem_set_ne by lia. done.
Qed.

Lemma load_ext n : forall m m' a, (forall x, a <= x < a + Z.of_nat n -> m x = m' x) -> load n m a = load n m' a.
Proof.
  induction n as [|n IH]; intros m m' a H; [done|]. cbn [load].
  rewrite (H a), (IH m m') by lia || (intros; apply H; lia). done.
Qed.

Lemma load_store_ne n k m a b v : a + Z.of_nat n <= b \/ b + Z.of_nat k <= a ->
  load n (store k m b v) a = load n m a.
Proof. intros H. apply load_ext. intros x Hx. apply store_outside. lia. Qed.

Lemma load_store_eq n : forall m a v, 0 <= v < 256 ^ Z.of_nat n -> load n (store n m a v) a = v.
Proof.
  induction n as [|n IH]; intros m a v Hv; [cbn in *; lia|]. cbn [store load].
  rewrite Nat2Z.inj_succ, Z.pow_succ_r in Hv by lia.
  rewrite IH by (split; [apply Z.div_pos; lia | apply Z.div_lt_upper_bound; lia]).
  rewrite store_outside by lia. unfold mem_set. rewrite Z.eqb_refl, Z.mod_mod by lia.
  pose proof (Z.div_mod v 256 ltac:(lia)). lia.
Qed.
