(* ===== verification/Float32.v ===== *)
(** * Single precision floats

    The C type [float] of the target (IEEE 754 binary32 on the Cortex-M7
    FPU, [-mfloat-abi=hard], round to nearest even): the executable
    specification floats of the Standard Library at precision 24 and maximal
    exponent 128.  Conversion to [int] is the VCVT instruction the compiler
    emits: toward zero, saturating, NaN to 0. *)

From Stdlib Require Import ZArith Lia SpecFloat.
From stdpp Require Import base numbers list.
From S2P Require Import Prelude.

Abbreviation f32 := spec_float.

Definition f32_of_Z (z : Z) : f32 := binary_normalize 24 128 z 0 false.
Definition f32_add : f32 -> f32 -> f32 := SFadd 24 128.
Definition f32_sub : f32 -> f32 -> f32 := SFsub 24 128.
Definition f32_mul : f32 -> f32 -> f32 := SFmul 24 128.
Definition f32_div : f32 -> f32 -> f32 := SFdiv 24 128.
Definition f32_ltb : f32 -> f32 -> bool := SFltb.

(** A decimal literal [num/den] of the source whose numerator and denominator
    are exact binary32 values: one correctly rounded division. *)
Definition f32_lit (num den : Z) : f32 := f32_div (f32_of_Z num) (f32_of_Z den).

(** Magnitude of a finite float, truncated toward zero. *)
Definition mant_trunc (m : positive) (e : Z) : Z :=
  if 0 <=? e then Zpos m * 2 ^ e else Zpos m / 2 ^ (- e).

Definition sat_s32 (z : Z) : Z := Z.max (-2147483648) (Z.min 2147483647 z).

Definition f32_to_int (f : f32) : Z :=
  match f with
  | S754_zero _ | S754_nan => 0
  | S754_infinity s => if s then -2147483648 else 2147483647
  | S754_finite s m e =>
      let a := mant_trunc m e in sat_s32 (if s then - a else a)
  end.

(** [memcpy(&result, &combined, sizeof(float))]: the float whose bit pattern
    is [b]. *)
Definition f32_of_bits (b : Z) : f32 :=
  let s := Z.testbit b 31 in
  let ex := Z.land (Z.shiftr b 23) 255 in
  let fr := Z.land b 8388607 in
  if ex =? 0 then
    match fr with Zpos m => S754_finite s m (-149) | _ => S754_zero s end
  else if ex =? 255 then
    if fr =? 0 then S754_infinity s else S754_nan
  else
    match fr + 8388608 with Zpos m => S754_finite s m (ex - 150) | _ => S754_nan end.

(** The bit pattern of a float (NaNs collapse to the quiet NaN). *)
Definition f32_to_bits (f : f32) : Z :=
  match f with
  | S754_zero s => if s then 2147483648 else 0
  | S754_infinity s => (if s then 2147483648 else 0) + 2139095040
  | S754_nan => 2143289344
  | S754_finite s m e =>
      (if s then 2147483648 else 0) +
      if Zpos m <? 8388608 then Zpos m else (e + 150) * 8388608 + (Zpos m - 8388608)
  end.

Definition is_nan_bits (b : Z) : bool :=
  (Z.land (Z.shiftr b 23) 255 =? 255) && negb (Z.land b 8388607 =? 0).

(* ------------------------------------------------------------------ *)
(** ** Bit patterns *)

Lemma bits_split b : is_u32 b ->
  b = (if Z.testbit b 31 then 2147483648 else 0)
      + Z.land (Z.shiftr b 23) 255 * 8388608 + Z.land b 8388607
  /\ 0 <= Z.land (Z.shiftr b 23) 255 < 256 /\ 0 <= Z.land b 8388607 < 8388608.
Proof.
  intros [H0 H1].
  change 255 with (Z.ones 8). change 8388607 with (Z.ones 23).
  rewrite !Z.land_ones, Z.shiftr_div_pow2 by lia.
  assert (Z.testbit b 31 = (2147483648 <=? b)) as ->.
  { rewrite Z.testbit_eqb by lia. change (2 ^ 31) with 2147483648.
    destruct (Z.leb_spec 2147483648 b) as [Hb|Hb].
    - assert (b / 2147483648 = 1) as ->; [|done].
      symmetry. apply (Z.div_unique _ _ _ (b - 2147483648)); lia.
    - rewrite Z.div_small by lia. done. }
  change (2 ^ 23) with 8388608. change (2 ^ 8) with 256.
  split_and!; try (apply Z.mod_pos_bound; lia).
  destruct (Z.leb_spec 2147483648 b); Z.div_mod_to_equations; lia.
Qed.

(** Re-encoding a decoded bit pattern gives it back, NaNs apart. *)
Lemma f32_bits_roundtrip b :
  is_u32 b -> is_nan_bits b = false -> f32_to_bits (f32_of_bits b) = b.
Proof.
  intros Hb Hn. destruct (bits_split b Hb) as (E & Hex & Hfr).
  unfold f32_of_bits, is_nan_bits in *.
  set (ex := Z.land (Z.shiftr b 23) 255) in *.
  set (fr := Z.land b 8388607) in *.
  set (sg := Z.testbit b 31) in *. clearbody ex fr sg.
  destruct (Z.eqb_spec ex 0) as [E0|E0].
  - destruct fr as [|m|m]; cbn [f32_to_bits]; [lia| |lia].
    destruct (Z.ltb_spec (Zpos m) 8388608); lia.
  - destruct (Z.eqb_spec ex 255) as [E1|E1].
    + destruct (Z.eqb_spec fr 0) as [F|F]; cbn in Hn |- *; [lia|done].
    + destruct (fr + 8388608) as [|m|m] eqn:F; [lia| |lia].
      cbn [f32_to_bits]. destruct (Z.ltb_spec (Zpos m) 8388608); lia.
Qed.

Lemma sat_s32_range z : is_s32 (sat_s32 z).
Proof. unfold sat_s32, is_s32. lia. Qed.

Lemma f32_to_int_range f : is_s32 (f32_to_int f).
Proof.
  destruct f as [| [] | |]; simpl; try (unfold is_s32; lia). apply sat_s32_range.
Qed.
#[export] Hint Resolve f32_to_int_range : cint.

(* ------------------------------------------------------------------ *)
(** ** Rounding

    Enough of the theory of [SpecFloat]'s rounding for the bounds of the
    reports: rounding never crosses a power of two, and integers that have a
    representation are represented exactly. *)

Section Rounding.

Lemma digits2_spec m : 2 ^ (Zpos (digits2_pos m) - 1) <= Zpos m < 2 ^ Zpos (digits2_pos m).
Proof.
  induction m as [p IH|p IH|]; cbn [digits2_pos]; [| |done];
    rewrite Pos2Z.inj_succ; replace (Z.succ (Zpos (digits2_pos p)) - 1) with (Z.succ (Zpos (digits2_pos p) - 1)) by lia;
    rewrite !Z.pow_succ_r by lia; lia.
Qed.

Lemma digits2_unique m d : 0 < d -> 2 ^ (d - 1) <= Zpos m < 2 ^ d -> Zpos (digits2_pos m) = d.
Proof.
  intros Hd [H1 H2]. pose proof (digits2_spec m) as [H3 H4].
  destruct (Z.lt_trichotomy (Zpos (digits2_pos m)) d) as [L|[E|L]]; [|done|].
  - pose proof (Z.pow_le_mono_r 2 (Zpos (digits2_pos m)) (d - 1) ltac:(lia) ltac:(lia)). lia.
  - pose proof (Z.pow_le_mono_r 2 d (Zpos (digits2_pos m) - 1) ltac:(lia) ltac:(lia)). lia.
Qed.

Lemma digits2_le m d : 0 <= d -> Zpos m < 2 ^ d -> Zpos (digits2_pos m) <= d.
Proof.
  intros Hd H. destruct (Z.le_gt_cases (Zpos (digits2_pos m)) d); [done|].
  pose proof (digits2_spec m).
  pose proof (Z.pow_le_mono_r 2 d (Zpos (digits2_pos m) - 1) ltac:(lia) ltac:(lia)). lia.
Qed.

Lemma iter_pos_nat {A} (f : A -> A) p x : SpecFloat.iter_pos f p x = Nat.iter (Pos.to_nat p) f x.
Proof.
  revert x; induction p as [p IH|p IH|]; intros x; cbn [SpecFloat.iter_pos]; [| |done].
  - rewrite !IH, Pos2Nat.inj_xI. replace (S (2 * Pos.to_nat p)) with (Pos.to_nat p + (Pos.to_nat p + 1))%nat by lia.
    by rewrite !Nat.iter_add.
  - rewrite !IH, Pos2Nat.inj_xO. replace (2 * Pos.to_nat p)%nat with (Pos.to_nat p + Pos.to_nat p)%nat by lia.
    by rewrite Nat.iter_add.
Qed.

(** Shifting right [n] places: the quotient, exact if nothing is lost. *)
Lemma shr_spec m p : 0 <= m ->
  let r := SpecFloat.iter_pos shr_1 p (Build_shr_record m false false) in
  shr_m r = m / 2 ^ Zpos p /\ (m mod 2 ^ Zpos p = 0 -> shr_r r = false /\ shr_s r = false).
Proof.
  intros Hm. cbn zeta. rewrite iter_pos_nat, <- (positive_nat_Z p). generalize (Pos.to_nat p) as n. clear p.
  intros n; induction n as [|n IH]; [by rewrite Z.div_1_r|].
  cbn [Nat.iter nat_rect]. change (nat_rect _ _ _ n) with (Nat.iter n shr_1 (Build_shr_record m false false)).
  destruct (Nat.iter n shr_1 _) as [q r s]. cbn [shr_m shr_r shr_s] in IH. destruct IH as [IH1 IH2].
  rewrite Nat2Z.inj_succ, Z.pow_succ_r by lia. pose proof (Z.pow_pos_nonneg 2 (Z.of_nat n) ltac:(lia) ltac:(lia)) as HP.
  set (P := 2 ^ Z.of_nat n) in *.
  assert (0 <= q) as Hq by (subst q; by apply Z.div_pos; lia).
  rewrite Z.mul_comm, <- Z.div_div, <- IH1 by lia.
  assert (m mod (P * 2) = 0 -> q mod 2 = 0 /\ m mod P = 0) as Hmod.
  { rewrite Z.rem_mul_r by lia. rewrite <- IH1. pose proof (Z.mod_pos_bound m P HP). pose proof (Z.mod_pos_bound q 2). nia. }
  split.
  - destruct q as [|[q|q|]|]; cbn [shr_1 shr_m]; try done; try lia; Z.div_mod_to_equations; lia.
  - intros H. apply Hmod in H as [Hq2 H0]. destruct (IH2 H0) as [-> ->].
    destruct q as [|[q|q|]|]; cbn; try done; try lia; Z.div_mod_to_equations; lia.
Qed.

Lemma loc_exact r : shr_r r = false -> shr_s r = false -> loc_of_shr_record r = loc_Exact.
Proof. destruct r as [m [] []]; done. Qed.

Lemma round_ne_cases m l : round_nearest_even m l = m \/ round_nearest_even m l = m + 1.
Proof. destruct l as [|[]]; cbn; auto. destruct (Z.even m); auto. Qed.

(** A mantissa that needs no shift is kept. *)
Lemma round_aux_id s m e : fexp 24 128 (Zpos (digits2_pos m) + e) <= e -> e <= 104 ->
  binary_round_aux 24 128 s (Zpos m) e loc_Exact = S754_finite s m e.
Proof.
  intros Hf He. unfold binary_round_aux, shr_fexp. cbn [shr_record_of_loc Zdigits2].
  destruct (fexp 24 128 (Zpos (digits2_pos m) + e) - e) eqn:E; [| lia |]; cbn [shr];
    cbn [shr_m loc_of_shr_record round_nearest_even Zdigits2]; rewrite E; cbn [shr shr_m];
    rewrite (proj2 (Z.leb_le e (128 - 24))) by lia; done.
Qed.

(** [m * 2 ^ e <= 2 ^ k]; the offset keeps the exponents positive. *)
Definition mle (m e k : Z) : Prop := m * 2 ^ (e + 400) <= 2 ^ (k + 400).

Lemma mle_trunc m e k : -400 <= e -> 0 <= k -> mle (Zpos m) e k -> 0 <= mant_trunc m e <= 2 ^ k.
Proof.
  unfold mle, mant_trunc. intros He Hk H. rewrite (Z.pow_add_r 2 k) in H by lia.
  pose proof (Z.pow_pos_nonneg 2 400 ltac:(lia) ltac:(lia)).
  destruct (Z.leb_spec 0 e).
  - rewrite Z.pow_add_r in H by lia. pose proof (Z.pow_nonneg 2 e ltac:(lia)). nia.
  - split; [apply Z.div_pos; [lia|]; apply Z.pow_pos_nonneg; lia|].
    apply Z.div_le_upper_bound; [apply Z.pow_pos_nonneg; lia|].
    assert (2 ^ 400 = 2 ^ (e + 400) * 2 ^ (- e)) as E by (rewrite <- Z.pow_add_r by lia; f_equal; lia).
    pose proof (Z.pow_pos_nonneg 2 (e + 400) ltac:(lia) ltac:(lia)). nia.
Qed.

(** The second shift of the rounding, after a carry. *)
Lemma round_tail s mx e k : -400 <= e <= k -> 0 <= k <= 100 -> 0 <= mx -> mle mx e k ->
  match (let '(mrs, e') := shr_fexp 24 128 mx e loc_Exact in
         match shr_m mrs with
         | Z0 => S754_zero s
         | Zpos m => if e' <=? 128 - 24 then S754_finite s m e' else S754_infinity s
         | _ => S754_nan
         end) with
  | S754_zero _ => True
  | S754_finite s' m' e' => s' = s /\ e <= e' /\ mle (Zpos m') e' k
  | _ => False
  end.
Proof.
  intros He Hk Hm Hl. unfold shr_fexp. cbn [shr_record_of_loc].
  destruct (fexp 24 128 (Zdigits2 mx + e) - e) as [|p|p] eqn:E; cbn [shr shr_m];
    try (destruct mx as [|m|m]; [done| |lia]; rewrite (proj2 (Z.leb_le e (128 - 24))) by lia; split_and!; lia || done).
  destruct (shr_spec mx p Hm) as [Q _]. rewrite Q. clear Q.
  assert (0 <= mx / 2 ^ Zpos p) as Hq by (apply Z.div_pos; lia).
  destruct (mx / 2 ^ Zpos p) as [|q|q] eqn:Eq; [done| |lia].
  assert (Zpos q * 2 ^ Zpos p <= mx) as Hqm
    by (rewrite <- Eq, Z.mul_comm; apply Z.mul_div_le; lia).
  assert (mle (Zpos q) (e + Zpos p) k) as Hl'.
  { unfold mle in *. replace (e + Zpos p + 400) with (Zpos p + (e + 400)) by lia.
    rewrite Z.pow_add_r by lia. pose proof (Z.pow_nonneg 2 (e + 400) ltac:(lia)). nia. }
  assert (e + Zpos p <= k).
  { destruct (Z.le_gt_cases (e + Zpos p) k); [done|]. unfold mle in Hl'.
    pose proof (Z.pow_lt_mono_r 2 (k + 400) (e + Zpos p + 400) ltac:(lia) ltac:(lia) ltac:(lia)). nia. }
  rewrite (proj2 (Z.leb_le _ _)) by lia. split_and!; try done. lia.
Qed.

(** Rounding does not cross a power of two. *)
Lemma round_aux_bound s m e k : -400 <= e -> 0 <= k <= 100 -> Zpos (digits2_pos m) + e <= k ->
  match binary_round_aux 24 128 s (Zpos m) e loc_Exact with
  | S754_zero _ => True
  | S754_finite s' m' e' => s' = s /\ e <= e' /\ mle (Zpos m') e' k
  | _ => False
  end.
Proof.
  intros He Hk Hd. pose proof (digits2_spec m) as [D1 D2]. pose proof (Pos2Z.is_pos (digits2_pos m)).
  assert (mle (Zpos m) e k) as Hm.
  { unfold mle. transitivity (2 ^ (Zpos (digits2_pos m) + (e + 400))).
    - rewrite (Z.pow_add_r 2 (Zpos (digits2_pos m))) by lia. apply Z.mul_le_mono_nonneg_r; [by apply Z.pow_nonneg | lia].
    - apply Z.pow_le_mono_r; lia. }
  unfold binary_round_aux, shr_fexp at 1. cbn [shr_record_of_loc Zdigits2].
  destruct (fexp 24 128 (Zpos (digits2_pos m) + e) - e) as [|p|p] eqn:E; cbn [shr];
    [apply round_tail; try done; lia | | apply round_tail; try done; lia].
  destruct (shr_spec (Zpos m) p ltac:(lia)) as [Q _].
  set (r := SpecFloat.iter_pos shr_1 p _) in *. clearbody r.
  unfold fexp, emin in E.
  assert (0 <= shr_m r /\ mle (shr_m r + 1) (e + Zpos p) k) as [H0 H1].
  { rewrite Q. split; [apply Z.div_pos; lia|]. unfold mle.
    set (w := Z.max (Zpos (digits2_pos m) - Zpos p) 0).
    assert (Zpos m / 2 ^ Zpos p < 2 ^ w).
    { apply Z.div_lt_upper_bound; [lia|]. rewrite <- Z.pow_add_r by lia.
      eapply Z.lt_le_trans; [exact D2|]. apply Z.pow_le_mono_r; lia. }
    transitivity (2 ^ (w + (e + Zpos p + 400))); [|apply Z.pow_le_mono_r; lia].
    rewrite (Z.pow_add_r 2 w) by lia. apply Z.mul_le_mono_nonneg_r; [by apply Z.pow_nonneg | lia]. }
  assert (mle (shr_m r) (e + Zpos p) k) as H2
    by (unfold mle in *; pose proof (Z.pow_nonneg 2 (e + Zpos p + 400) ltac:(lia)); nia).
  assert (forall mx, 0 <= mx -> mle mx (e + Zpos p) k ->
    match (let '(mrs, e') := shr_fexp 24 128 mx (e + Zpos p) loc_Exact in
           match shr_m mrs with
           | Z0 => S754_zero s
           | Zpos m => if e' <=? 128 - 24 then S754_finite s m e' else S754_infinity s
           | _ => S754_nan
           end) with
    | S754_zero _ => True
    | S754_finite s' m' e' => s' = s /\ e <= e' /\ mle (Zpos m') e' k
    | _ => False
    end) as T.
  { intros mx Hx Hl. pose proof (round_tail s mx (e + Zpos p) k ltac:(lia) Hk Hx Hl) as T.
    destruct (let '(mrs, e') := _ in _); try done. destruct T as (-> & ? & ?). split_and!; try done. lia. }
  destruct (round_ne_cases (shr_m r) (loc_of_shr_record r)) as [-> | ->]; apply T; try done; lia.
Qed.

Lemma iter_xO m d : Zpos (Pos.iter xO m d) = Zpos m * 2 ^ Zpos d.
Proof.
  induction d as [|d IH] using Pos.peano_ind; [cbn; lia|].
  rewrite Pos.iter_succ, Pos2Z.inj_succ, Z.pow_succ_r by lia. lia.
Qed.

Lemma digits2_mul m n k : 0 <= k -> Zpos n = Zpos m * 2 ^ k ->
  Zpos (digits2_pos n) = Zpos (digits2_pos m) + k.
Proof.
  intros Hk E. pose proof (digits2_spec m). pose proof (Pos2Z.is_pos (digits2_pos m)).
  apply digits2_unique; [lia|]. rewrite E.
  replace (Zpos (digits2_pos m) + k - 1) with (Zpos (digits2_pos m) - 1 + k) by lia.
  rewrite !Z.pow_add_r by lia. pose proof (Z.pow_pos_nonneg 2 k ltac:(lia) ltac:(lia)). nia.
Qed.

(** Rounding a magnitude below one, after the alignment of its mantissa. *)
Lemma round_small s m e : -200 <= e -> Zpos (digits2_pos m) + e <= 0 ->
  match binary_round 24 128 s m e with
  | S754_zero _ => True
  | S754_finite s' m' e' => s' = s /\ -200 <= e' /\ mle (Zpos m') e' 0
  | _ => False
  end.
Proof.
  intros He Hd. unfold binary_round, shl_align. set (x := fexp _ _ _).
  assert (-149 <= x) as Hx by (unfold x, fexp, emin; lia).
  destruct (x - e) as [|d|d] eqn:E.
  3: { pose proof (iter_xO m d) as I. apply digits2_mul in I; [|lia].
       pose proof (round_aux_bound s (Pos.iter xO m d) x 0 ltac:(lia) ltac:(lia) ltac:(lia)) as B.
       destruct (binary_round_aux _ _ _ _ _ _); try done. destruct B as (-> & ? & ?). split_and!; done || lia. }
  all: pose proof (round_aux_bound s m e 0 ltac:(lia) ltac:(lia) ltac:(lia)) as B;
    destruct (binary_round_aux _ _ _ _ _ _); try done; destruct B as (-> & ? & ?); split_and!; done || lia.
Qed.

(** The integers with a 24-bit mantissa are converted exactly. *)
Lemma f32_of_Z_exact s a m e : -23 <= e <= 104 -> Zpos (digits2_pos m) = 24 ->
  Zpos a * 2 ^ Z.max (- e) 0 = Zpos m * 2 ^ Z.max e 0 ->
  f32_of_Z (cond_Zopp s (Zpos a)) = S754_finite s m e.
Proof.
  intros He Hd E.
  assert (Zpos (digits2_pos a) = 24 + e) as Ha.
  { destruct (Z.le_gt_cases 0 e).
    - rewrite (Z.max_r (- e)), Z.max_l, Z.mul_1_r in E by lia. rewrite (digits2_mul m a e) by (done || lia). lia.
    - rewrite (Z.max_l (- e)), Z.max_r, Z.mul_1_r in E by lia. symmetry in E.
      apply digits2_mul in E; lia. }
  assert (f32_of_Z (cond_Zopp s (Zpos a)) = binary_round 24 128 s a 0) as -> by (by destruct s).
  unfold binary_round, shl_align. rewrite Ha, Z.add_0_r, Z.sub_0_r.
  assert (fexp 24 128 (24 + e) = e) as F by (unfold fexp, emin; lia). rewrite F.
  assert (fexp 24 128 (Zpos (digits2_pos m) + e) <= e) as Fm by (rewrite Hd, F; lia).
  destruct e as [|p|p].
  - rewrite !Z.max_id, !Z.mul_1_r in E. injection E as ->. apply round_aux_id; lia.
  - unfold binary_round_aux, shr_fexp at 1. cbn [shr_record_of_loc Zdigits2].
    rewrite Ha, Z.add_0_r, F, Z.sub_0_r. cbn [shr]. rewrite (Z.max_r (- Zpos p)), Z.max_l, Z.mul_1_r in E by lia.
    destruct (shr_spec (Zpos a) p ltac:(lia)) as [Q X].
    rewrite E, Z.div_mul, Z.mod_mul in * by lia. destruct (X eq_refl) as [X1 X2].
    set (r := SpecFloat.iter_pos shr_1 p _) in *. clearbody r.
    rewrite (loc_exact r X1 X2), Q. cbn [round_nearest_even]. unfold shr_fexp. cbn [Zdigits2 shr_record_of_loc].
    rewrite Hd, Z.add_0_l, F, Z.sub_diag. cbn [shr shr_m]. by rewrite (proj2 (Z.leb_le _ _)) by lia.
  - rewrite (Z.max_l (- Zneg p)), Z.max_r, Z.mul_1_r in E by lia. pose proof (iter_xO a p) as I.
    change (- Zneg p) with (Zpos p) in E. rewrite E in I. injection I as ->. apply round_aux_id; lia.
Qed.

(** The values whose conversion to [int] does not saturate. *)
Definition f32_in_int (v : f32) : bool :=
  match v with
  | S754_zero _ => true
  | S754_finite _ m e => mant_trunc m e <? 2147483648
  | _ => false
  end.

Lemma f32_to_int_finite s m e : mant_trunc m e < 2147483648 ->
  f32_to_int (S754_finite s m e) = cond_Zopp s (mant_trunc m e).
Proof.
  intros H. unfold f32_to_int, sat_s32.
  assert (0 <= mant_trunc m e).
  { unfold mant_trunc. destruct (0 <=? e) eqn:E; [pose proof (Z.pow_nonneg 2 e ltac:(lia)); nia|].
    apply Z.div_pos; [lia|]. apply Z.pow_pos_nonneg; breflect; lia. }
  destruct s; cbn [cond_Zopp]; lia.
Qed.

Lemma shl_align_id m e : shl_align m e e = (m, e).
Proof. unfold shl_align. by rewrite Z.sub_diag. Qed.

(** What is left of a value without its integer part is below one. *)
Definition small (v : f32) : Prop :=
  match v with
  | S754_zero _ => True
  | S754_finite s m e => -200 <= e /\ mle (Zpos m) e 0
  | _ => False
  end.

Lemma mle_small m e : -400 <= e -> Zpos (digits2_pos m) + e <= 0 -> mle (Zpos m) e 0.
Proof.
  intros He Hd. unfold mle. pose proof (digits2_spec m) as [_ D]. pose proof (Pos2Z.is_pos (digits2_pos m)).
  transitivity (2 ^ (Zpos (digits2_pos m) + (e + 400))); [|apply Z.pow_le_mono_r; lia].
  rewrite (Z.pow_add_r 2 (Zpos _)) by lia. apply Z.mul_le_mono_nonneg_r; [by apply Z.pow_nonneg | lia].
Qed.

Lemma sub_int_small v : valid_binary 24 128 v = true -> f32_in_int v = true ->
  small (f32_sub v (f32_of_Z (f32_to_int v))).
Proof.
  destruct v as [s|s| |s m e]; try done; [by destruct s|].
  cbn [valid_binary f32_in_int]. unfold bounded, canonical_mantissa. intros [C Ce]%andb_true_iff Hi.
  breflect. rewrite f32_to_int_finite by done. unfold fexp, emin in C.
  pose proof (digits2_spec m) as [D1 D2]. pose proof (Pos2Z.is_pos (digits2_pos m)).
  unfold mant_trunc in *. destruct (Z.leb_spec 0 e) as [He|He].
  - assert (Zpos (digits2_pos m) = 24) as D by lia.
    pose proof (Z.pow_pos_nonneg 2 e ltac:(lia) He) as P.
    destruct (Zpos m * 2 ^ e) as [|a|a] eqn:Ea; [lia| |lia].
    rewrite (f32_of_Z_exact s a m e); [|lia|done|].
    + unfold f32_sub, SFsub. rewrite Z.min_id, shl_align_id, Z.sub_diag. done.
    + rewrite (Z.max_r (- e)), Z.max_l, Z.mul_1_r by lia. done.
  - set (P := 2 ^ (- e)) in *. assert (0 < P) as HP by (apply Z.pow_pos_nonneg; lia).
    destruct (Zpos m / P) as [|a|a] eqn:Ea.
    + assert (f32_sub (S754_finite s m e) (f32_of_Z (cond_Zopp s 0)) = S754_finite s m e) as -> by (by destruct s).
      split; [lia|]. apply mle_small; [lia|].
      assert (Zpos m < 2 ^ (- e)) as L by (pose proof (Z.div_mod (Zpos m) P ltac:(lia)); pose proof (Z.mod_pos_bound (Zpos m) P HP); unfold P in *; nia).
      apply digits2_le in L; lia.
    + pose proof (Z.div_mod (Zpos m) P ltac:(lia)) as DM. pose proof (Z.mod_pos_bound (Zpos m) P HP) as MB. rewrite Ea in DM.
      assert (2 ^ (- e) <= Zpos m) as L by (fold P; nia).
      assert (- e < Zpos (digits2_pos m)) as Lt by (apply (Z.pow_lt_mono_r_iff 2); lia).
      assert (Zpos (digits2_pos m) = 24) as D by lia.
      destruct (P * Zpos a) as [|m2|m2] eqn:Em; [lia| |lia].
      assert (Zpos (digits2_pos m2) = 24) as D'.
      { apply digits2_unique; [lia|]. rewrite D in *.
        assert (2 ^ (24 - 1) = P * 2 ^ (23 + e)) as E23 by (unfold P; rewrite <- Z.pow_add_r by lia; f_equal; lia).
        assert (2 ^ (23 + e) <= Zpos m / P) by (apply Z.div_le_lower_bound; lia).
        rewrite E23, <- Em. split; [nia|]. rewrite Em. lia. }
      rewrite (f32_of_Z_exact s a m2 e); [|lia|done|].
      2: { rewrite (Z.max_l (- e)), Z.max_r, Z.mul_1_r by lia. fold P. lia. }
      unfold f32_sub, SFsub. rewrite Z.min_id, !shl_align_id. cbn [fst].
      assert (cond_Zopp s (Zpos m) - cond_Zopp s (Zpos m2) = cond_Zopp s (Zpos m mod P)) as -> by (destruct s; cbn [cond_Zopp]; lia).
      destruct (Zpos m mod P) as [|f|f] eqn:Ef; [by destruct s| |lia].
      assert (binary_normalize 24 128 (cond_Zopp s (Zpos f)) e false = binary_round 24 128 s f e) as -> by (by destruct s).
      assert (Zpos (digits2_pos f) + e <= 0) as Df.
      { assert (Zpos (digits2_pos f) <= - e) by (apply digits2_le; [lia | fold P; lia]). lia. }
      pose proof (round_small s f e ltac:(lia) Df) as B.
      destruct (binary_round _ _ _ _ _); try done. by destruct B as (-> & ? & ?).
    + assert (0 <= Zpos m / P) by (apply Z.div_pos; lia). lia.
Qed.

(** Scaled and truncated, it stays below the next power of two. *)
Lemma small_scaled v mn en k : small v -> -200 <= en < 0 -> 0 <= k <= 30 -> Zpos mn < 2 ^ (k - en) ->
  Z.abs (f32_to_int (f32_mul v (S754_finite false mn en))) <= 2 ^ k.
Proof.
  intros Hv Hen Hk Hmn. pose proof (Z.pow_nonneg 2 k ltac:(lia)).
  destruct v as [s|s| |s m e]; try done. destruct Hv as [He Hm].
  unfold f32_mul, SFmul.
  pose proof (digits2_spec (m * mn)) as [D _].
  assert (Zpos (digits2_pos (m * mn)) + (e + en) <= k) as Hd.
  { assert (Zpos (digits2_pos (m * mn)) - 1 + (e + 400) < k - en + 400); [|lia].
    apply (Z.pow_lt_mono_r_iff 2); [lia|lia|]. unfold mle in Hm.
    pose proof (Pos2Z.is_pos (digits2_pos (m * mn))).
    rewrite (Z.pow_add_r 2 (k - en)), (Z.pow_add_r 2 (Zpos _ - 1)) by lia. rewrite Pos2Z.inj_mul in D.
    pose proof (Z.pow_pos_nonneg 2 (e + 400) ltac:(lia) ltac:(lia)) as P1. change (0 + 400) with 400 in Hm.
    pose proof (Z.pow_pos_nonneg 2 400 ltac:(lia) ltac:(lia)) as P2.
    eapply Z.le_lt_trans; [apply Z.mul_le_mono_nonneg_r; [lia | exact D]|].
    set (A := 2 ^ (e + 400)) in *. set (B := 2 ^ 400) in *. set (C := 2 ^ (k - en)) in *. clearbody A B C.
    nia. }
  pose proof (round_aux_bound (xorb s false) (m * mn) (e + en) k ltac:(lia) ltac:(lia) Hd) as R.
  destruct (binary_round_aux _ _ _ _ _ _) as [s'|s'| |s' m' e']; try done.
  destruct R as (-> & He' & Hl). destruct (mle_trunc m' e' k ltac:(lia) ltac:(lia) Hl).
  unfold f32_to_int, sat_s32. assert (2 ^ k <= 2 ^ 30) by (apply Z.pow_le_mono_r; lia).
  destruct (xorb s false); lia.
Qed.
End Rounding.
