(* ===== verification/Printf.v ===== *)
(** * The kernel's formatted output (rt-thread/src/kservice.c)

    [print_number], [rt_vsnprintf], [rt_snprintf] and the text of [rt_kprintf], with the
    compile-time switches of kservice.c: RT_PRINTF_PRECISION defined,
    RT_PRINTF_LONGLONG and RT_PRINTF_SPECIAL not.

    The C code emits every character with [if (str < end) *str = c; ++str].
    The formatter is written once over that emission step (class [Sink]): its
    instance on a pointer and a memory is the code, its instance on lists is
    the text the call means; [rt_vsnprintf_text] relates the two. *)

From Stdlib Require Import ZArith Lia String Ascii.
From stdpp Require Import base numbers list.
From S2P Require Import Prelude Memory Float32.

(** One variadic argument: an [int]-sized value (its 32-bit pattern), a
    pointer to a string, a null pointer, or a [float] promoted to [double]. *)
Inductive carg :=
  | AInt (z : Z)
  | AStr (s : list Z)
  | ANull
  | AFloat (f : f32).

(** The emission step [if (str < end) *str = c; ++str]. *)
Class Sink (W : Type) := put : Z -> W -> W.

Definition fl_ZEROPAD : Z := 1.
Definition fl_SIGN : Z := 2.
Definition fl_PLUS : Z := 4.
Definition fl_SPACE : Z := 8.
Definition fl_LEFT : Z := 16.
Definition fl_SPECIAL : Z := 32.
Definition fl_LARGE : Z := 64.

Definition has (flags f : Z) : bool := negb (Z.land flags f =? 0).

Definition _ISDIGIT (c : Z) : bool := (c - 48) mod 4294967296 <? 10.

(** The sum is an [int]; a field of more digits than it holds wraps, as the
    target's arithmetic does. *)
Fixpoint skip_atoi (s : list Z) (i : Z) : Z * list Z :=
  match s with
  | c :: r => if _ISDIGIT c then skip_atoi r (s32 (i * 10 + c - 48)) else (i, s)
  | [] => (i, s)
  end.

(** [divide]: quotient and remainder of the unsigned reading of [n], by 10
    when [base] is 10 and by 16 otherwise. *)
Definition divide (n base : Z) : Z * Z :=
  if base =? 10 then (s32 (u32 n / 10), u32 n mod 10)
  else (s32 (u32 n / 16), u32 n mod 16).

Definition small_digits : list Z := clit "0123456789abcdef".
Definition large_digits : list Z := clit "0123456789ABCDEF".
Definition digit_of (type d : Z) : Z :=
  nth (Z.to_nat d) (if has type fl_LARGE then large_digits else small_digits) 0.

(** [while (num != 0) tmp[i++] = digits[divide(&num, base)]]: the digits in
    the order of [tmp], least significant first.  The fuel is the size of
    [tmp]. *)
Fixpoint tmp_digits (fuel : nat) (num base type : Z) : list Z :=
  match fuel with
  | O => []
  | S k => if num =? 0 then []
           else let '(q, r) := divide num base in
                digit_of type r :: tmp_digits k q base type
  end.

Definition TMP_SIZE : nat := 16.

Section Formatter.
Context {W : Type} `{Sink W}.

Fixpoint put_list (l : list Z) (o : W) : W :=
  match l with
  | [] => o
  | c :: r => put_list r (put c o)
  end.

(** [while (size-- > 0) { emit c }]: the emissions and the final [size]. *)
Definition pad_while (c size : Z) (o : W) : Z * W :=
  (Z.min size 0 - 1, put_list (repeat c (Z.to_nat size)) o).

Definition print_number (o : W) (num0 base s precision0 type0 : Z) : W :=
  let precision_bak := precision0 in
  let type := if has type0 fl_LEFT then Z.ldiff type0 fl_ZEROPAD else type0 in
  let c := if has type fl_ZEROPAD then 48 else 32 in
  let neg := has type fl_SIGN && (num0 <? 0) in
  let sign := if neg then 45
              else if has type fl_SIGN && has type fl_PLUS then 43
              else if has type fl_SIGN && has type fl_SPACE then 32 else 0 in
  let num := if neg then s32 (- num0) else num0 in
  let tmp := if num =? 0 then [48] else tmp_digits TMP_SIZE num base type in
  let i := Z.of_nat (length tmp) in
  let precision := if precision0 <? i then i else precision0 in
  let size := s - precision in
  let '(size, o) :=
    if negb (has type fl_ZEROPAD || has type fl_LEFT)
    then pad_while 32 (if negb (sign =? 0) && (0 <? size) then size - 1 else size) o
    else (size, o) in
  let '(size, o) := if negb (sign =? 0) then (size - 1, put sign o) else (size, o) in
  let '(size, o) := if negb (has type fl_LEFT) then pad_while c size o else (size, o) in
  let o := put_list (repeat 48 (Z.to_nat (precision - i))) o in
  let o := if precision_bak =? 0 then o else put_list (rev tmp) o in
  snd (pad_while 32 size o).

(** The flag loop: the flags set and the rest of the format. *)
Fixpoint scan_flags (f : list Z) (flags : Z) : Z * list Z :=
  match f with
  | c :: r => if c =? 45 then scan_flags r (Z.lor flags fl_LEFT)
              else if c =? 43 then scan_flags r (Z.lor flags fl_PLUS)
              else if c =? 32 then scan_flags r (Z.lor flags fl_SPACE)
              else if c =? 35 then scan_flags r (Z.lor flags fl_SPECIAL)
              else if c =? 48 then scan_flags r (Z.lor flags fl_ZEROPAD)
              else (flags, f)
  | [] => (flags, f)
  end.

(** [va_arg(args, int)]: undefined when the next argument is missing or is
    not of that type. *)
Definition va_int (args : list carg) : option (Z * list carg) :=
  match args with AInt z :: r => Some (s32 z, r) | _ => None end.

Definition scan_width (f : list Z) (flags : Z) (args : list carg)
  : option (Z * Z * list Z * list carg) :=
  match f with
  | c :: r =>
      if _ISDIGIT c then let '(w, f') := skip_atoi f 0 in Some (w, flags, f', args)
      else if c =? 42 then
        match va_int args with
        | Some (w, args') =>
            if w <? 0 then Some (s32 (- w), Z.lor flags fl_LEFT, r, args')
            else Some (w, flags, r, args')
        | None => None
        end
      else Some (-1, flags, f, args)
  | [] => Some (-1, flags, f, args)
  end.

Definition scan_precision (f : list Z) (args : list carg)
  : option (Z * list Z * list carg) :=
  match f with
  | 46 :: r =>
      let clamp p := if p <? 0 then 0 else p in
      match r with
      | c :: r' =>
          if _ISDIGIT c then let '(p, f') := skip_atoi r 0 in Some (clamp p, f', args)
          else if c =? 42 then
            match va_int args with
            | Some (p, args') => Some (clamp p, r', args')
            | None => None
            end
          else Some (0, r, args)
      | [] => Some (0, r, args)
      end
  | _ => Some (-1, f, args)
  end.

Definition scan_qualifier (f : list Z) : Z * list Z :=
  match f with
  | c :: r => if (c =? 104) || (c =? 108) then (c, r) else (0, f)
  | [] => (0, f)
  end.

(** The integer conversions: fetch the argument by qualifier and sign. *)
Definition fetch_num (qualifier flags : Z) (args : list carg)
  : option (Z * list carg) :=
  match va_int args with
  | None => None
  | Some (v, args') =>
      let num := if qualifier =? 108 then (if has flags fl_SIGN then u32 (s32 v) else u32 v)
                 else if qualifier =? 104 then
                   (if has flags fl_SIGN then u32 (s16 (u16 v)) else u16 v)
                 else (if has flags fl_SIGN then u32 (s32 v) else u32 v) in
      (* the unsigned [num] is passed to the [long] parameter *)
      Some (s32 num, args')
  end.

Definition put_string (o : W) (s : list Z) (width precision flags : Z) : W :=
  let len := Z.of_nat (length s) in
  let len := if (0 <? precision) && (precision <? len) then precision else len in
  (* [while (len < field_width--)] *)
  let '(width, o) :=
    if has flags fl_LEFT then (width, o)
    else (Z.min width len - 1, put_list (repeat 32 (Z.to_nat (width - len))) o) in
  let o := put_list (firstn (Z.to_nat len) s) o in
  put_list (repeat 32 (Z.to_nat (width - len))) o.

Definition put_char (o : W) (c width flags : Z) : W :=
  (* [while (--field_width > 0)] *)
  let '(width, o) :=
    if has flags fl_LEFT then (width, o)
    else (Z.min (width - 1) 0, put_list (repeat 32 (Z.to_nat (width - 1))) o) in
  let o := put c o in
  put_list (repeat 32 (Z.to_nat (width - 1))) o.

(** One conversion: [f] starts at the conversion character; the rest of the
    format, of the arguments, and the output. *)
Definition convert (f : list Z) (flags width precision qualifier : Z)
  (args : list carg) (o : W) : option (list Z * list carg * W) :=
  let number base flags r :=
    match fetch_num qualifier flags args with
    | Some (num, args') => Some (r, args', print_number o num base width precision flags)
    | None => None
    end in
  match f with
  | [] => (* default, at the end of the format *) Some ([], args, put 37 o)
  | 99 :: r =>
      match va_int args with
      | Some (v, args') => Some (r, args', put_char o (u8 v) width flags)
      | None => None
      end
  | 115 :: r =>
      match args with
      | AStr s :: args' => Some (r, args', put_string o s width precision flags)
      | ANull :: args' => Some (r, args', put_string o (clit "(NULL)") width precision flags)
      | _ => None
      end
  | 112 :: r =>
      match va_int args with
      | Some (v, args') =>
          let '(width, flags) := if width =? -1 then (8, Z.lor flags fl_ZEROPAD)
                                 else (width, flags) in
          Some (r, args', print_number o v 16 width precision flags)
      | None => None
      end
  | 37 :: r => Some (r, args, put 37 o)
  | 111 :: r => number 8 flags r
  | 88 :: r => number 16 (Z.lor flags fl_LARGE) r
  | 120 :: r => number 16 flags r
  | 100 :: r | 105 :: r => number 10 (Z.lor flags fl_SIGN) r
  | 117 :: r => number 10 flags r
  | c :: r => Some (r, args, put c (put 37 o))
  end.

(** The main loop of [rt_vsnprintf] up to the final NUL.  Every turn consumes
    at least one character, so the length of the format is enough fuel. *)
Fixpoint vsn_loop (fuel : nat) (fmt : list Z) (args : list carg) (o : W) : option W :=
  match fuel with
  | O => Some o
  | S k =>
      match fmt with
      | [] => Some o
      | c :: r =>
          if negb (c =? 37) then vsn_loop k r args (put c o)
          else
            let '(flags, f) := scan_flags r 0 in
            match scan_width f flags args with
            | None => None
            | Some (width, flags, f, args) =>
                match scan_precision f args with
                | None => None
                | Some (precision, f, args) =>
                    let '(qualifier, f) := scan_qualifier f in
                    match convert f flags width precision qualifier args o with
                    | None => None
                    | Some (f, args, o) => vsn_loop k f args o
                    end
                end
            end
      end
  end.
End Formatter.

(* ------------------------------------------------------------------ *)
(** ** The text of a call *)

#[export] Instance list_sink : Sink (list Z) := fun c l => c :: l.

(** The characters a call emits, whatever the buffer; [None] when the
    arguments do not fit the format (undefined behaviour in C). *)
Definition sformat (fmt : list Z) (args : list carg) : option (list Z) :=
  match vsn_loop (length fmt) fmt args [] with
  | Some o => Some (rev o)
  | None => None
  end.

(* ------------------------------------------------------------------ *)
(** ** The code: a write pointer into memory *)

Record cursor := Cursor { cur_str : Z; cur_end : Z; cur_mem : memory }.

#[export] Instance cursor_sink : Sink cursor := fun c o =>
  {| cur_str := cur_str o + 1;
     cur_end := cur_end o;
     cur_mem := if cur_str o <? cur_end o then mem_set (cur_mem o) (cur_str o) c
                else cur_mem o |}.

(** [rt_vsnprintf(buf, size, fmt, args)]: the return value and the memory. *)
Definition rt_vsnprintf (m : memory) (buf size : Z) (fmt : list Z) (args : list carg)
  : option (Z * memory) :=
  let end0 := u32 (buf + size) in
  let '(end_, size) := if end0 <? buf then (4294967295, u32 (4294967295 - buf))
                       else (end0, size) in
  match vsn_loop (length fmt) fmt args (Cursor buf end_ m) with
  | None => None
  | Some o =>
      let m' := if 0 <? size
                then if cur_str o <? end_ then mem_set (cur_mem o) (cur_str o) 0
                     else mem_set (cur_mem o) (end_ - 1) 0
                else cur_mem o in
      Some (s32 (cur_str o - buf), m')
  end.

Definition rt_snprintf := rt_vsnprintf.

(** [rt_sprintf]: no bound, [size] is [(rt_size_t)-1]. *)
Definition rt_sprintf (m : memory) (buf : Z) (fmt : list Z) (args : list carg) :=
  rt_vsnprintf m buf 4294967295 fmt args.

(** The formatting half of [rt_kprintf]: format into [rt_log_buf] (256 bytes,
    at most 254 of them text); the new memory and the [length] bytes of the
    buffer that are written to the console.  The memory before is [log]. *)
Definition RT_CONSOLEBUF_SIZE : Z := 256.

Definition kprintf_buf (log : memory) (addr : Z) (fmt : list Z) (args : list carg)
  : option (memory * list Z) :=
  match rt_vsnprintf log addr (RT_CONSOLEBUF_SIZE - 1) fmt args with
  | None => None
  | Some (n, log') =>
      let length := if RT_CONSOLEBUF_SIZE - 1 <? u32 n then RT_CONSOLEBUF_SIZE - 1
                    else u32 n in
      Some (log', map (fun i => log' (addr + Z.of_nat i)) (seq 0 (Z.to_nat length)))
  end.

(** What of a text [l] a console message shows. *)
Definition console_text (l : list Z) : list Z :=
  firstn 254 l ++ (if (255 <=? length l)%nat then [0] else []).

(** Successive [rt_kprintf] calls: the text printed so far, [None] after a
    call whose arguments do not fit its format. *)
Definition kprint (fmt : string) (args : list carg) (out : option (list Z)) : option (list Z) :=
  match out, sformat (clit fmt) args with
  | Some o, Some l => Some (o ++ console_text l)
  | _, _ => None
  end.

(* ------------------------------------------------------------------ *)
(** ** Parametricity of the formatter in the sink *)

Section Homomorphism.
Context {W1 W2 : Type} {S1 : Sink W1} {S2 : Sink W2} (h : W1 -> W2).
Hypothesis h_put : forall c o, h (put c o) = put c (h o).

Lemma put_list_hom l o : h (put_list l o) = put_list l (h o).
Proof. revert o; induction l as [|c l IH]; intros o; simpl; [done|]. by rewrite IH, h_put. Qed.

Lemma print_number_hom o num base s precision type :
  h (print_number o num base s precision type)
  = print_number (h o) num base s precision type.
Proof.
  unfold print_number, pad_while; cbn -[has].
  repeat match goal with |- context [if ?b then (_, _) else _] => destruct b end;
    cbn -[has]; rewrite put_list_hom; f_equal;
    match goal with |- context [if ?b then _ else put_list (rev _) _] => destruct b end;
    rewrite ?put_list_hom, ?h_put, ?put_list_hom, ?h_put, ?put_list_hom; done.
Qed.

Lemma put_string_hom o s width precision flags :
  h (put_string o s width precision flags) = put_string (h o) s width precision flags.
Proof.
  unfold put_string. destruct (has flags fl_LEFT); cbn; by rewrite !put_list_hom.
Qed.

Lemma put_char_hom o c width flags :
  h (put_char o c width flags) = put_char (h o) c width flags.
Proof.
  unfold put_char.
  destruct (has flags fl_LEFT); cbn; by rewrite put_list_hom, h_put, ?put_list_hom.
Qed.

Definition hom3 (r : option (list Z * list carg * W1)) : option (list Z * list carg * W2) :=
  match r with Some (f, a, o) => Some (f, a, h o) | None => None end.

Lemma convert_hom f flags width precision qualifier args o :
  hom3 (convert f flags width precision qualifier args o)
  = convert f flags width precision qualifier args (h o).
Proof.
  unfold convert.
  repeat first
    [ progress cbn [hom3]
    | reflexivity
    | rewrite print_number_hom | rewrite put_string_hom | rewrite put_char_hom
    | rewrite h_put
    | match goal with |- context [match ?x with _ => _ end] =>
        lazymatch x with
        | context [match _ with _ => _ end] => fail
        | convert _ _ _ _ _ _ _ => fail
        | _ => destruct x
        end
      end ].
Qed.

Lemma vsn_loop_hom fuel fmt args o :
  match vsn_loop fuel fmt args o with Some o' => Some (h o') | None => None end
  = vsn_loop fuel fmt args (h o).
Proof.
  revert fmt args o. induction fuel as [|k IH]; intros fmt args o; simpl; [done|].
  destruct fmt as [|c r]; [done|].
  destruct (negb (c =? 37)); [by rewrite IH, h_put|].
  destruct (scan_flags r 0) as [fl f].
  destruct (scan_width f fl args) as [[[[w fl'] f'] a']|]; [|done].
  destruct (scan_precision f' a') as [[[p f''] a'']|]; [|done].
  destruct (scan_qualifier f'') as [q f3].
  rewrite <- convert_hom.
  destruct (convert f3 fl' w p q a'' o) as [[[f4 a4] o4]|]; cbn [hom3]; [|done].
  apply IH.
Qed.
End Homomorphism.

(* ------------------------------------------------------------------ *)
(** ** The code implements the text *)

Lemma put_list_app {W} `{Sink W} l1 l2 (o : W) :
  put_list (l1 ++ l2) o = put_list l2 (put_list l1 o).
Proof. revert o; induction l1; simpl; auto. Qed.

Lemma put_list_list l acc : put_list l acc = rev l ++ acc.
Proof.
  revert acc; induction l as [|c l IH]; intros acc; simpl; [done|].
  rewrite IH. unfold put, list_sink. by rewrite <- app_assoc.
Qed.

(** Any sink receives exactly the characters of [sformat], in order. *)
Lemma vsn_loop_sformat {W} `{Sink W} fmt args (o : W) :
  vsn_loop (length fmt) fmt args o
  = match sformat fmt args with Some l => Some (put_list l o) | None => None end.
Proof.
  unfold sformat.
  pose proof (vsn_loop_hom (fun l => put_list (rev l) o)
    (fun c l => put_list_app (rev l) [c] o) (length fmt) fmt args []) as E.
  simpl in E. rewrite <- E. by destruct (vsn_loop _ _ _ []).
Qed.

Lemma put_cursor c p e m :
  put c (Cursor p e m) = Cursor (p + 1) e (if p <? e then mem_set m p c else m).
Proof. done. Qed.

Lemma put_list_cursor l p e m :
  put_list l (Cursor p e m)
  = Cursor (p + Z.of_nat (length l)) e (cur_mem (put_list l (Cursor p e m))).
Proof.
  revert p m; induction l as [|c l IH]; intros p m; simpl; [f_equal; lia|].
  rewrite put_cursor, IH. f_equal. lia.
Qed.

Lemma put_list_mem l p e m x :
  cur_mem (put_list l (Cursor p e m)) x
  = if (p <=? x) && (x <? Z.min (p + Z.of_nat (length l)) e)
    then nth (Z.to_nat (x - p)) l 0 else m x.
Proof.
  revert p m; induction l as [|c l IH]; intros p m; simpl.
  { destruct (_ && _) eqn:E; [breflect; lia|done]. }
  rewrite put_cursor, IH.
  assert ((if p <? e then mem_set m p c else m) x
          = if p <? e then (if x =? p then c else m x) else m x) as ->
    by (by destruct (p <? e)).
  destruct (decide (x = p)) as [->|Hx].
  - rewrite Z.eqb_refl, Z.sub_diag, Z.leb_refl, (proj2 (Z.leb_gt (p + 1) p)) by lia.
    cbn [andb]. destruct (Z.ltb_spec p e), (Z.ltb_spec p (Z.min (p + Z.of_nat (S (length l))) e));
      try lia; done.
  - rewrite (proj2 (Z.eqb_neq x p)) by done.
    assert ((if p <? e then m x else m x) = m x) as -> by (by destruct (p <? e)).
    destruct (Z.leb_spec p x), (Z.leb_spec (p + 1) x); try lia; cbn [andb]; [|done].
     replace (Z.to_nat (x - p)) with (S (Z.to_nat (x - (p + 1)))) by lia.
    replace (p + 1 + Z.of_nat (length l)) with (p + Z.of_nat (S (length l))) by lia.
    done.
Qed.

(** What a bounded formatting call leaves in memory: the text cut at
    [size - 1] characters, a NUL, and every other address unchanged. *)
Definition written (m : memory) (buf size : Z) (l : list Z) : memory := fun x =>
  let n := Z.min (Z.of_nat (length l)) (size - 1) in
  if (buf <=? x) && (x <? buf + n) then nth (Z.to_nat (x - buf)) l 0
  else if x =? buf + n then 0 else m x.

Lemma rt_vsnprintf_text m buf size fmt args l :
  sformat fmt args = Some l ->
  0 <= buf -> 0 < size -> buf + size < 2 ^ 32 -> Z.of_nat (length l) < 2 ^ 31 ->
  exists m', rt_vsnprintf m buf size fmt args = Some (Z.of_nat (length l), m') /\
             forall x, m' x = written m buf size l x.
Proof.
  intros Hl Hb Hs Hw Hn. unfold rt_vsnprintf.
  rewrite (u32_small (buf + size)) by (unfold is_u32; lia).
  destruct (Z.ltb_spec (buf + size) buf); [lia|].
  rewrite vsn_loop_sformat, Hl, put_list_cursor. cbn [cur_str cur_mem].
  destruct (Z.ltb_spec 0 size); [|lia].
  eexists; split.
  { f_equal. f_equal. rewrite s32_small; [lia|]. unfold is_s32; lia. }
  intros x. unfold written.
  destruct (Z.ltb_spec (buf + Z.of_nat (length l)) (buf + size)); unfold mem_set;
    rewrite put_list_mem.
  - rewrite !Z.min_l by lia.
    destruct (Z.eqb_spec x (buf + Z.of_nat (length l))); [|done].
    subst. rewrite (proj2 (Z.ltb_ge _ _)) by lia. by rewrite andb_false_r.
  - rewrite !Z.min_r by lia.
    replace (buf + (size - 1)) with (buf + size - 1) by lia.
    destruct (Z.eqb_spec x (buf + size - 1)) as [->|].
    + rewrite (proj2 (Z.ltb_ge _ (buf + size - 1))) by lia. by rewrite andb_false_r.
    + destruct (Z.leb_spec buf x), (Z.ltb_spec x (buf + size)),
        (Z.ltb_spec x (buf + size - 1)); cbn; try lia; done.
Qed.

(** The fuel of the format loop is the length of the format; more changes
    nothing. *)
Lemma scan_flags_len f fl : (length (snd (scan_flags f fl)) <= length f)%nat.
Proof.
  revert fl; induction f as [|c r IH]; intros fl; simpl; [lia|].
  repeat match goal with |- context [if ?b then _ else _] => destruct b end;
    simpl; try lia; match goal with |- context [scan_flags r ?x] => specialize (IH x) end; lia.
Qed.

Lemma skip_atoi_len s i : (length (snd (skip_atoi s i)) <= length s)%nat.
Proof.
  revert i; induction s as [|c r IH]; intros i; simpl; [lia|].
  destruct (_ISDIGIT c); simpl; [|lia]. specialize (IH (s32 (i * 10 + c - 48))). lia.
Qed.

Lemma scan_width_len f fl a w fl' f' a' :
  scan_width f fl a = Some (w, fl', f', a') -> (length f' <= length f)%nat.
Proof.
  destruct f as [|c r]; cbn [scan_width]; [intros [=]; subst; done|].
  destruct (_ISDIGIT c).
  - pose proof (skip_atoi_len (c :: r) 0) as L.
    destruct (skip_atoi (c :: r) 0) as [i s]. intros [=]; subst. exact L.
  - destruct (c =? 42); [|intros [=]; subst; simpl; lia].
    destruct (va_int a) as [[z ?]|]; [|done].
    destruct (z <? 0); intros [=]; subst; simpl; lia.
Qed.

Lemma scan_precision_len f a p f' a' :
  scan_precision f a = Some (p, f', a') -> (length f' <= length f)%nat.
Proof.
  destruct f as [|c r]; [intros [=]; subst; done|].
  destruct (decide (c = 46)) as [->|Hc].
  2: { unfold scan_precision. repeat case_match; intros [=]; subst; try done; lia. }
  cbn [scan_precision].
  destruct r as [|c' r']; [intros [=]; subst; simpl; lia|].
  destruct (_ISDIGIT c').
  - pose proof (skip_atoi_len (c' :: r') 0) as L.
    destruct (skip_atoi (c' :: r') 0) as [i s]. intros [=]; subst. simpl in *. lia.
  - destruct (c' =? 42); [|intros [=]; subst; simpl; lia].
    destruct (va_int a) as [[z ?]|]; [|done]. intros [=]; subst. simpl. lia.
Qed.

Lemma scan_qualifier_len f : (length (snd (scan_qualifier f)) <= length f)%nat.
Proof. destruct f as [|c r]; simpl; [lia|]. destruct (_ || _); simpl; lia. Qed.

Lemma convert_len {W} `{Sink W} f fl w p q a (o : W) f' a' o' :
  convert f fl w p q a o = Some (f', a', o') -> (length f' <= pred (length f))%nat.
Proof.
  unfold convert. destruct f as [|c r]; [intros [=]; subst; done|].
  simpl pred.
  repeat match goal with
  | |- context [match ?x with _ => _ end] =>
      lazymatch x with context [match _ with _ => _ end] => fail | _ => destruct x end
  end; intros [=]; subst; simpl; lia.
Qed.

Lemma vsn_loop_fuel {W} `{Sink W} k fmt args (o : W) :
  (length fmt <= k)%nat -> vsn_loop k fmt args o = vsn_loop (length fmt) fmt args o.
Proof.
  remember (length fmt) as n eqn:En. 
  assert (length fmt <= n)%nat as Hn by lia. clear En.
  revert k fmt args o Hn. induction n as [|n IH]; intros k fmt args o Hn Hk.
  { destruct fmt; [|simpl in Hn; lia]. by destruct k. }
  destruct k as [|k]; [lia|]. simpl.
  destruct fmt as [|c r]; [done|]. simpl in Hn.
  destruct (negb (c =? 37)); [apply IH; lia|].
  pose proof (scan_flags_len r 0) as L1.
  destruct (scan_flags r 0) as [fl f]. simpl in L1.
  destruct (scan_width f fl args) as [[[[w fl'] f'] a']|] eqn:E2; [|done].
  apply scan_width_len in E2.
  destruct (scan_precision f' a') as [[[p f''] a'']|] eqn:E3; [|done].
  apply scan_precision_len in E3.
  pose proof (scan_qualifier_len f'') as L4.
  destruct (scan_qualifier f'') as [q f3]. simpl in L4.
  destruct (convert f3 fl' w p q a'' o) as [[[f4 a4] o4]|] eqn:E5; [|done].
  apply convert_len in E5. apply IH; lia.
Qed.

(* ------------------------------------------------------------------ *)
(** ** Decimal numbers: reference text and round trip *)

(** Decimal digits of [n], least significant first; the fuel bounds their
    number. *)
Fixpoint udigits (fuel : nat) (n : Z) : list Z :=
  match fuel with
  | O => []
  | S k => if n <? 10 then [48 + n] else (48 + n mod 10) :: udigits k (n / 10)
  end.

(** The decimal numeral of an unsigned and of a signed 32-bit integer. *)
Definition udec (n : Z) : list Z := rev (udigits 10 n).
Definition dec (z : Z) : list Z := if z <? 0 then 45 :: udec (- z) else udec z.

(** A number in a field: [sign] and digits [ds] padded to [width], with zeros
    after the sign or with blanks before it. *)
Definition num_field (zero : bool) (width : Z) (sign ds : list Z) : list Z :=
  let pad := Z.to_nat (width - Z.of_nat (length sign) - Z.of_nat (length ds)) in
  if zero then sign ++ repeat 48 pad ++ ds else repeat 32 pad ++ sign ++ ds.

Lemma repeat_nonpos (c z : Z) : z <= 0 -> repeat c (Z.to_nat z) = [].
Proof. intros. by rewrite Z2Nat.nonpos. Qed.

Lemma digit_of_small type d : 0 <= d < 10 -> digit_of type d = 48 + d.
Proof.
  intros. unfold digit_of.
  assert (d = 0 \/ d = 1 \/ d = 2 \/ d = 3 \/ d = 4 \/ d = 5 \/ d = 6 \/ d = 7 \/ d = 8 \/ d = 9)
    as Hd by lia.
  destruct (has type fl_LARGE); by repeat destruct Hd as [->|Hd]; try subst.
Qed.

Lemma udigits_fuel k k' n : 0 <= n < 10 ^ Z.of_nat k -> (0 < k)%nat -> (k <= k')%nat ->
  udigits k' n = udigits k n.
Proof.
  revert k' n; induction k as [|k IH]; intros k' n Hn H0 Hk; [lia|].
  destruct k' as [|k']; [lia|]. simpl.
  destruct (Z.ltb_spec n 10); [done|]. f_equal.
  rewrite Nat2Z.inj_succ, Z.pow_succ_r in Hn by lia.
  destruct (decide (k = 0)%nat) as [->|]; [simpl in Hn; lia|].
  apply IH; [|lia|lia]. split; [apply Z.div_pos; lia|].
  apply Z.div_lt_upper_bound; lia.
Qed.

Lemma tmp_digits_dec k num type :
  u32 num <> 0 -> u32 num < 10 ^ Z.of_nat k ->
  tmp_digits k num 10 type = udigits k (u32 num).
Proof.
  revert num; induction k as [|k IH]; intros num Hn0 Hk; [done|].
  assert (num <> 0) by (intros ->; done). simpl.
  rewrite (proj2 (Z.eqb_neq num 0)) by done. unfold divide. simpl.
  pose proof (u32_range num) as [R1 R2].
  rewrite digit_of_small by (apply Z.mod_pos_bound; lia).
  assert (is_u32 (u32 num / 10) /\ u32 num / 10 < 2147483648) as [Q1 Q2].
  { unfold is_u32. Z.div_mod_to_equations; lia. }
  assert (is_s32 (u32 num / 10)) by (unfold is_s32, is_u32 in *; lia).
  rewrite s32_small by done.
  destruct (Z.ltb_spec (u32 num) 10).
  - rewrite Z.div_small, Z.mod_small by lia. by destruct k.
  - f_equal. rewrite IH; rewrite ?(u32_small (_ / 10)) by done; [done| |].
    + Z.div_mod_to_equations; lia.
    + rewrite Nat2Z.inj_succ, Z.pow_succ_r in Hk by lia.
      apply Z.div_lt_upper_bound; lia.
Qed.

Lemma tmp_udec num type : is_u32 num -> num <> 0 ->
  rev (tmp_digits TMP_SIZE (s32 num) 10 type) = udec num.
Proof.
  intros Hn H0. unfold udec. f_equal.
  assert (u32 (s32 num) = num) as E.
  { unfold wrapu, wraps. rewrite Zminus_mod_idemp_l. 
    replace (num + 2 ^ (32 - 1) - 2 ^ (32 - 1)) with num by lia. by apply Z.mod_small. }
  unfold TMP_SIZE. rewrite tmp_digits_dec; rewrite E; try done.
  - apply udigits_fuel; [|lia|lia]. unfold is_u32 in Hn. simpl. lia.
  - unfold is_u32 in Hn. simpl. lia.
Qed.

Lemma udigits_length k n : (length (udigits k n) <= k)%nat.
Proof. revert n; induction k; intros n; simpl; [lia|]. destruct (_ <? _); simpl; [lia|]. specialize (IHk (n / 10)). lia. Qed.

Lemma udec_length_le n k :
  (0 < k <= 10)%nat -> 0 <= n < 10 ^ Z.of_nat k -> (length (udec n) <= k)%nat.
Proof.
  intros Hk Hn. unfold udec. rewrite length_rev, (udigits_fuel k 10) by lia.
  apply udigits_length.
Qed.

Lemma udec_nonempty n : udec n <> [].
Proof.
  unfold udec. simpl. destruct (n <? 10); simpl; [done|]. by destruct (rev _).
Qed.

Lemma udigits_digits k n : 0 <= n -> Forall (fun c => 48 <= c <= 57) (udigits k n).
Proof.
  revert n; induction k as [|k IH]; intros n Hn; simpl; [constructor|].
  destruct (Z.ltb_spec n 10); constructor; try (by constructor); [lia| |].
  - pose proof (Z.mod_pos_bound n 10). lia.
  - apply IH. apply Z.div_pos; lia.
Qed.

Lemma udec_digits n : 0 <= n -> Forall (fun c => 48 <= c <= 57) (udec n).
Proof. intros. apply Forall_rev, udigits_digits. done. Qed.

Lemma atoi_digits_snoc l d acc :
  Forall (fun c => 48 <= c <= 57) l -> 48 <= d <= 57 ->
  atoi_digits (l ++ [d]) acc = atoi_digits l acc * 10 + (d - 48).
Proof.
  revert acc; induction l as [|c l IH]; intros acc Hl Hd; simpl; unfold is_digit.
  - by rewrite (proj2 (Z.leb_le 48 d)), (proj2 (Z.leb_le d 57)) by lia.
  - inversion Hl; subst.
    rewrite (proj2 (Z.leb_le 48 c)), (proj2 (Z.leb_le c 57)) by lia. simpl. by apply IH.
Qed.

Lemma atoi_udigits k n : 0 <= n < 10 ^ Z.of_nat k -> (0 < k)%nat ->
  atoi_digits (rev (udigits k n)) 0 = n.
Proof.
  revert n; induction k as [|k IH]; intros n Hn Hk; [lia|]. simpl.
  destruct (Z.ltb_spec n 10).
  - simpl. unfold is_digit.
    rewrite (proj2 (Z.leb_le 48 (48 + n))), (proj2 (Z.leb_le (48 + n) 57)) by lia.
    cbn -[Z.add Z.sub]. lia.
  - rewrite Nat2Z.inj_succ, Z.pow_succ_r in Hn by lia.
    assert (k <> 0)%nat by (intros ->; simpl in Hn; lia).
    assert (0 <= n / 10 < 10 ^ Z.of_nat k)
      by (split; [apply Z.div_pos; lia | apply Z.div_lt_upper_bound; lia]).
    pose proof (Z.mod_pos_bound n 10 ltac:(lia)).
    simpl rev. rewrite atoi_digits_snoc, IH; [|lia|lia| |lia].
    + Z.div_mod_to_equations; lia.
    + apply Forall_rev, udigits_digits. lia.
Qed.

Lemma atoi_udec n : is_u32 n -> atoi_digits (udec n) 0 = n.
Proof. intros Hn. apply atoi_udigits; unfold is_u32 in *; simpl; lia. Qed.

(** The integer conversions of the formatter without precision and [-]:
    [%d], [%u], and their width and zero-padded forms. *)
Lemma print_number_dec {W} `{Sink W} (o : W) num width type :
  is_s32 num ->
  has type fl_LEFT = false -> has type fl_PLUS = false -> has type fl_SPACE = false ->
  print_number o num 10 width (-1) type
  = put_list (num_field (has type fl_ZEROPAD) width
                (if has type fl_SIGN && (num <? 0) then [45] else [])
                (udec (if has type fl_SIGN then Z.abs num else u32 num))) o.
Proof.
  intros Hs HL HP HS. unfold print_number. rewrite HL, HP, HS, !andb_false_r.
  set (neg := has type fl_SIGN && (num <? 0)).
  set (v := if has type fl_SIGN then Z.abs num else u32 num).
  assert (rev (if (if neg then s32 (- num) else num) =? 0 then [48]
               else tmp_digits TMP_SIZE (if neg then s32 (- num) else num) 10 type) = udec v)
    as Et.
  { subst neg v. destruct (has type fl_SIGN); cbn [andb].
    - destruct (Z.ltb_spec num 0).
      + rewrite Z.abs_neq by lia.
        assert (s32 (- num) <> 0).
        { intros E. destruct (decide (num = -2147483648)) as [->|]; [done|].
          rewrite s32_small in E; unfold is_s32 in *; lia. }
        rewrite (proj2 (Z.eqb_neq _ _)) by done.
        apply tmp_udec; unfold is_s32, is_u32 in *; lia.
      + rewrite Z.abs_eq by lia. destruct (Z.eqb_spec num 0) as [->|]; [done|].
        rewrite <- (s32_small num) at 1 by done.
        apply tmp_udec; unfold is_s32, is_u32 in *; lia.
    - destruct (Z.eqb_spec num 0) as [->|]; [done|].
      assert (s32 (u32 num) = num) as E.
      { unfold wrapu, wraps, is_s32 in *.
        rewrite <- Zplus_mod_idemp_l, Zmod_mod, Zplus_mod_idemp_l, Z.mod_small; lia. }
      rewrite <- E at 1. apply tmp_udec; [apply u32_range|].
      intros E0. rewrite E0 in E. change (0 = num) in E. lia. }
  set (tmp := if (if neg then s32 (- num) else num) =? 0 then [48]
              else tmp_digits TMP_SIZE (if neg then s32 (- num) else num) 10 type) in *.
  rewrite Et.
  assert (Z.of_nat (length tmp) = Z.of_nat (length (udec v))) as El
    by (rewrite <- Et, length_rev; done).
  rewrite El. clear El Et.
  assert (0 < Z.of_nat (length (udec v))) as Hlen
    by (pose proof (udec_nonempty v); destruct (udec v); simpl; [done|lia]).
  rewrite (proj2 (Z.ltb_lt (-1) _)), Z.sub_diag by lia.
  unfold num_field. clearbody tmp v. generalize dependent (udec v). intros D HD.
  set (n := Z.of_nat (length D)) in *. clearbody n. rewrite HL.
  unfold pad_while. change (repeat 48 (Z.to_nat 0)) with (@nil Z). change (-1 =? 0) with false.
  destruct (has type fl_ZEROPAD), neg; cbn [negb orb andb length app];
    change (45 =? 0) with false; change (0 =? 0) with true; cbn [negb andb snd];
    rewrite ?HL; cbn [negb snd put_list app]; rewrite ?put_list_app; cbn [put_list app];
    rewrite ?put_list_app; rewrite ?(repeat_nonpos _ (Z.min _ _ - 1)), 
      ?(repeat_nonpos _ (Z.min _ _ - 1 - 1)) by lia; cbn [put_list].
  - do 4 f_equal. lia.
  - do 4 f_equal. lia.
  - destruct (Z.ltb_spec 0 (width - n)).
    + do 5 f_equal. lia.
    + rewrite !repeat_nonpos by lia. done.
  - do 4 f_equal. lia.
Qed.

Lemma put_string_plain {W} `{Sink W} (o : W) s : put_string o s (-1) (-1) 0 = put_list s o.
Proof.
  unfold put_string. change (has 0 fl_LEFT) with false. cbn [andb Z.ltb Z.compare].
  rewrite !repeat_nonpos by lia. cbn [put_list].
  by rewrite Nat2Z.id, firstn_all.
Qed.

Lemma s32_s32 z : s32 (s32 z) = s32 z.
Proof. apply s32_small, s32_range. Qed.

Lemma s32_u32 z : s32 (u32 z) = s32 z.
Proof. unfold wraps, wrapu. by rewrite Zplus_mod_idemp_l. Qed.

Lemma u32_s32 z : u32 (s32 z) = u32 z.
Proof.
  unfold wraps, wrapu. rewrite Zminus_mod_idemp_l. f_equal. lia.
Qed.

(** Two and three digit fractions. *)
Definition frac (k : Z) (d : Z) : list Z :=
  num_field true k (if d <? 0 then [45] else []) (udec (Z.abs d)).

Lemma print_d {W} `{Sink W} (o : W) z :
  is_s32 z -> print_number o z 10 (-1) (-1) 2 = put_list (dec z) o.
Proof.
  intros Hz. rewrite print_number_dec by done.
  change (has 2 fl_ZEROPAD) with false. change (has 2 fl_SIGN) with true. cbn [andb].
  f_equal. unfold num_field, dec.
  destruct (Z.ltb_spec z 0); rewrite repeat_nonpos by lia; simpl; f_equal; f_equal; lia.
Qed.

Lemma print_u {W} `{Sink W} (o : W) z :
  is_u32 z -> print_number o (s32 z) 10 (-1) (-1) 0 = put_list (udec z) o.
Proof.
  intros Hz. rewrite print_number_dec by (try done; apply s32_range).
  change (has 0 fl_ZEROPAD) with false. change (has 0 fl_SIGN) with false. cbn [andb].
  unfold num_field. rewrite repeat_nonpos by (simpl; lia).
  by rewrite u32_s32, u32_small.
Qed.

Lemma print_0d {W} `{Sink W} (o : W) k z :
  is_s32 z -> print_number o z 10 k (-1) 3 = put_list (frac k z) o.
Proof.
  intros Hz. rewrite print_number_dec by done.
  change (has 3 fl_ZEROPAD) with true. change (has 3 fl_SIGN) with true. done.
Qed.

Create Rewrite HintDb fmt.
#[export] Hint Rewrite @put_string_plain @put_list_list s32_s32 s32_u32 : fmt.
#[export] Hint Rewrite @print_d @print_u @print_0d using (auto with cint) : fmt.

Lemma rev_cons_app {A} (x : A) l : rev (x :: l) = rev l ++ [x].
Proof. done. Qed.

Lemma app_assoc_r {A} (l m n : list A) : (l ++ m) ++ n = l ++ m ++ n.
Proof. by rewrite app_assoc. Qed.

#[export] Hint Rewrite @rev_cons_app @rev_app_distr @rev_involutive @app_assoc_r @app_nil_r : fmt.

(** Evaluate [sformat] on a literal format with symbolic arguments. *)
Ltac fmt_eval :=
  unfold sformat;
  lazy -[print_number put_string put_list wrapu wraps rev app dec udec frac];
  autorewrite with fmt; cbn [app rev].

Lemma sformat_d z : is_s32 z -> sformat (clit "%d") [AInt z] = Some (dec z).
Proof. intros. fmt_eval. by rewrite s32_small. Qed.

Lemma atoi_dec z : is_s32 z -> atoi (dec z) = z.
Proof.
  intros Hz. unfold dec, atoi. destruct (Z.ltb_spec z 0).
  - cbn [atoi_spaces]. change ((45 =? 32) || ((9 <=? 45) && (45 <=? 13))) with false.
    cbn iota. rewrite Z.eqb_refl, atoi_udec by (unfold is_s32, is_u32 in *; lia).
    rewrite Z.opp_involutive. by apply s32_small.
  - assert (is_u32 z) as Hu by (unfold is_s32, is_u32 in *; lia).
    pose proof (udec_digits z ltac:(lia)) as Hd. pose proof (atoi_udec z Hu) as Ha.
    pose proof (udec_nonempty z) as Hne.
    destruct (udec z) as [|c r]; [done|]. apply Forall_inv in Hd as Hc.
    cbn [atoi_spaces].
    destruct (Z.eqb_spec c 32); [lia|]. destruct (Z.leb_spec c 13); [lia|].
    rewrite andb_false_r. cbn [orb].
    destruct (Z.eqb_spec c 45); [lia|]. destruct (Z.eqb_spec c 43); [lia|].
    rewrite Ha. by apply s32_small.
Qed.

(** Without the special-prefix option a base changes nothing but [divide],
    which knows two bases. *)
Lemma tmp_digits_base fuel num b b' type : b <> 10 -> b' <> 10 ->
  tmp_digits fuel num b type = tmp_digits fuel num b' type.
Proof.
  intros Hb Hb'. revert num; induction fuel as [|k IH]; intros num; [done|]. cbn [tmp_digits].
  unfold divide. rewrite (proj2 (Z.eqb_neq b 10)), (proj2 (Z.eqb_neq b' 10)) by done.
  destruct (num =? 0); [done|]. by rewrite IH.
Qed.

Lemma print_number_base {W} `{Sink W} (o : W) num b b' s p type : b <> 10 -> b' <> 10 ->
  print_number o num b s p type = print_number o num b' s p type.
Proof. intros Hb Hb'. unfold print_number. by rewrite (tmp_digits_base _ _ b b'). Qed.

(** A formatted text read back from the memory it was written to. *)
Lemma mem_read_written m addr size l n :
  Z.of_nat (length l) <= size - 1 -> n = length l ->
  mem_read (written m addr size l) addr n = l.
Proof.
  intros Hs ->. unfold mem_read.
  apply (nth_ext _ _ 0 0); [by rewrite length_map, length_seq|].
  intros i Hi. rewrite length_map, length_seq in Hi.
  rewrite (nth_indep _ 0 (written m addr size l (addr + Z.of_nat (length l)))) by (by rewrite length_map, length_seq).
  rewrite (map_nth (fun i => written m addr size l (addr + Z.of_nat i))), seq_nth by done.
  unfold written. rewrite Z.min_l by lia.
  rewrite (proj2 (Z.leb_le _ _)), (proj2 (Z.ltb_lt _ _)) by lia. cbn [andb].
  f_equal. lia.
Qed.

(** The bytes a console message writes: at most its first 254 characters and,
    from 255 characters on, a NUL in the place of the 255th. *)
Lemma kprintf_buf_output log addr fmt args l :
  sformat fmt args = Some l ->
  0 <= addr -> addr + 255 < 2 ^ 32 -> Z.of_nat (length l) < 2 ^ 31 ->
  exists log', kprintf_buf log addr fmt args
    = Some (log', console_text l).
Proof.
  intros Hl Ha Hw Hn.
  destruct (rt_vsnprintf_text log addr (RT_CONSOLEBUF_SIZE - 1) _ _ _ Hl Ha ltac:(done)
              ltac:(unfold RT_CONSOLEBUF_SIZE; lia) Hn) as (m' & E & Hm).
  exists m'. unfold kprintf_buf, console_text. rewrite E. clear E. unfold RT_CONSOLEBUF_SIZE in *.
  rewrite u32_small by (unfold is_u32; lia).
  f_equal. f_equal. rewrite (map_ext _ (fun i => written log addr 255 l (addr + Z.of_nat i)))
    by (intros; apply Hm).
  fold (mem_read (written log addr 255 l) addr (Z.to_nat (if 256 - 1 <? Z.of_nat (length l) then 256 - 1 else Z.of_nat (length l)))).
  destruct (Nat.leb_spec 255 (length l)) as [Hge|Hlt].
  - replace (Z.to_nat _) with (254 + 1)%nat by (destruct (Z.ltb_spec (256 - 1) (Z.of_nat (length l))); lia).
    assert (length (firstn 254 l) = 254%nat) as Hf by (rewrite length_take; lia).
    unfold mem_read. rewrite seq_app, map_app. f_equal.
    + rewrite <- (mem_read_written log addr 255 (firstn 254 l) 254) by lia.
      apply map_ext_in. intros i Hi. apply in_seq in Hi. unfold written.
      rewrite Hf, !(Z.min_r (Z.of_nat (length l))) by lia. rewrite Z.min_r by lia.
      rewrite (proj2 (Z.leb_le _ _)), !(proj2 (Z.ltb_lt _ _)) by lia. cbn [andb].
      rewrite !nth_lookup, lookup_take_lt by lia. done.
    + cbn [seq map]. f_equal. unfold written. rewrite Z.min_r by lia.
      rewrite (proj2 (Z.ltb_ge _ _)), andb_false_r by lia.
      by rewrite (proj2 (Z.eqb_eq _ _)) by lia.
  - rewrite (proj2 (Z.ltb_ge _ _)) by lia. rewrite app_nil_r, take_ge by lia.
    apply mem_read_written; lia.
Qed.

(* ------------------------------------------------------------------ *)
(** ** Properties *)

(** C32: whatever the format and its arguments, a bounded formatting call
    returns the length of the complete text and writes the text cut at
    [size - 1] characters and a terminating NUL; no other byte of memory
    changes. *)
Theorem rt_snprintf_bounded m buf size fmt args l :
  sformat fmt args = Some l ->
  0 <= buf -> 0 < size -> buf + size < 2 ^ 32 -> Z.of_nat (length l) < 2 ^ 31 ->
  exists m', rt_snprintf m buf size fmt args = Some (Z.of_nat (length l), m') /\
             forall x, m' x = written m buf size l x.
Proof. apply rt_vsnprintf_text. Qed.

Lemma rt_snprintf_bounded_witness :
  exists m', rt_snprintf (fun _ => 7) 1000 8 (clit "T=%d.%02u%s") [AInt (-12); AInt 5; AStr (clit "C")]
             = Some (9, m') /\
             forall x, m' x = written (fun _ => 7) 1000 8 (clit "T=-12.05C") x.
Proof.
  apply (rt_snprintf_bounded (fun _ => 7) 1000 8 (clit "T=%d.%02u%s")
           [AInt (-12); AInt 5; AStr (clit "C")] (clit "T=-12.05C")); try lia; reflexivity.
Defined.

(** C40: every 32-bit integer printed with [%d] into a buffer that holds its
    text reads back to itself with [atoi]. *)
Theorem printf_d_roundtrip m buf size z :
  is_s32 z -> 0 <= buf -> 12 <= size -> buf + size < 2 ^ 32 ->
  exists n m', rt_snprintf m buf size (clit "%d") [AInt z] = Some (Z.of_nat n, m') /\
    m' (buf + Z.of_nat n) = 0 /\ atoi (mem_read m' buf n) = z.
Proof.
  intros Hz Hb Hs Hw. pose proof (sformat_d z Hz) as Hf.
  assert (Z.of_nat (length (dec z)) <= 11) as Hl.
  { unfold dec, udec. destruct (z <? 0); cbn [length]; rewrite length_rev;
      [pose proof (udigits_length 10 (- z)) | pose proof (udigits_length 10 z)]; lia. }
  destruct (rt_vsnprintf_text m buf size _ _ _ Hf ltac:(lia) ltac:(lia) Hw ltac:(lia)) as (m' & E & Hm).
  exists (length (dec z)), m'. split; [exact E|]. split.
  - rewrite Hm. unfold written. rewrite Z.min_l, Z.ltb_irrefl, andb_false_r, Z.eqb_refl by lia. done.
  - replace (mem_read m' buf (length (dec z))) with (mem_read (written m buf size (dec z)) buf (length (dec z)))
      by (apply map_ext; intros; by rewrite Hm).
    rewrite mem_read_written by (done || lia). by apply atoi_dec.
Qed.

Lemma printf_d_roundtrip_witness :
  exists n m', rt_snprintf (fun _ => 7) 0x20000000 16 (clit "%d") [AInt (-2147483648)] = Some (Z.of_nat n, m') /\
    m' (0x20000000 + Z.of_nat n) = 0 /\ atoi (mem_read m' 0x20000000 n) = -2147483648.
Proof. apply (printf_d_roundtrip (fun _ => 7) 0x20000000 16); unfold is_s32; lia. Defined.

(** C37: [%o] prints hexadecimal: its text is that of [%x] for every value,
    since [divide] shifts by four bits for every base but ten. *)
Theorem printf_octal_is_hex args : sformat (clit "%o") args = sformat (clit "%x") args.
Proof.
  unfold sformat. destruct args as [|[z|x| |x] r]; [reflexivity| |reflexivity..].
  lazy -[print_number wrapu wraps rev].
  by rewrite (print_number_base _ _ 8 16).
Qed.
