(* ===== verification/Serial.v ===== *)
(** * Character devices: the device layer and the serial driver

    rt-thread/src/device.c ([rt_device_init/open/close/read/write/control],
    [rt_device_set_rx_indicate]) over rt-thread/components/drivers/serial/serial.c
    in the configuration of rtconfig.h (interrupt and polling modes; the DMA
    and POSIX branches are compiled out).  The low-level driver (drv_usart.c,
    register access) is the interface [UartOps]; whether [rt_malloc] of a size
    succeeds is the argument [malloc] of an open. *)

From Stdlib Require Import ZArith Lia String.
From stdpp Require Import base numbers list.
From S2P Require Import Prelude Memory Printf.

Definition RT_DEVICE_FLAG_STANDALONE : Z := 0x008.
Definition RT_DEVICE_FLAG_ACTIVATED : Z := 0x010.
Definition RT_DEVICE_FLAG_SUSPENDED : Z := 0x020.
Definition RT_DEVICE_FLAG_STREAM : Z := 0x040.
Definition RT_DEVICE_FLAG_INT_RX : Z := 0x100.
Definition RT_DEVICE_FLAG_DMA_RX : Z := 0x200.
Definition RT_DEVICE_FLAG_INT_TX : Z := 0x400.
Definition RT_DEVICE_FLAG_DMA_TX : Z := 0x800.
Definition RT_DEVICE_OFLAG_CLOSE : Z := 0x000.
Definition RT_DEVICE_OFLAG_RDWR : Z := 0x003.
Definition RT_DEVICE_OFLAG_OPEN : Z := 0x008.
Definition RT_DEVICE_CTRL_RESUME : Z := 0x01.
Definition RT_DEVICE_CTRL_SUSPEND : Z := 0x02.
Definition RT_DEVICE_CTRL_CONFIG : Z := 0x03.
Definition RT_DEVICE_CTRL_SET_INT : Z := 0x10.
Definition RT_DEVICE_CTRL_CLR_INT : Z := 0x11.
Definition RT_EBUSY : Z := 7.

(** [struct serial_configure] *)
Record serial_configure := SerialConfigure {
  baud_rate : Z; data_bits : Z; stop_bits : Z; parity : Z;
  bit_order : Z; invert : Z; bufsz : Z }.

(** [RT_SERIAL_CONFIG_DEFAULT] with [RT_SERIAL_RB_BUFSZ] of rtconfig.h. *)
Definition RT_SERIAL_CONFIG_DEFAULT : serial_configure :=
  SerialConfigure 115200 8 0 0 0 0 128.

(** [struct rt_serial_rx_fifo] *)
Record rx_fifo := RxFifo {
  buffer : list Z; put_index : Z; get_index : Z; is_full : bool }.

(** [struct rt_uart_ops]: the low-level driver on a hardware state. *)
Class UartOps (HW : Type) := {
  op_configure : serial_configure -> HW -> Z * HW;
  op_control : Z -> Z -> HW -> Z * HW;
  op_putc : Z -> HW -> Z * HW;
  op_getc : HW -> Z * HW;
  (** blocking on the transmit completion *)
  op_tx_wait : HW -> HW }.

(** [struct rt_serial_device] and the [struct rt_device] it extends:
    [serial_rx] is the receive FIFO when one is allocated, [serial_tx] tells
    whether a transmit FIFO is; [rx_ind] whether a callback is registered. *)
Record serial (HW : Type) := Serial {
  s_flag : Z; s_open_flag : Z; s_ref_count : Z;
  s_config : serial_configure;
  s_rx : option rx_fifo; s_tx : bool;
  s_rx_ind : bool; s_hw : HW }.
Arguments Serial {HW}.
Arguments s_flag {HW}. Arguments s_open_flag {HW}. Arguments s_ref_count {HW}.
Arguments s_config {HW}. Arguments s_rx {HW}. Arguments s_tx {HW}.
Arguments s_rx_ind {HW}. Arguments s_hw {HW}.

Section Driver.
Context {HW : Type} `{UartOps HW}.
Abbreviation ser := (serial HW).

Definition set_flag v (s : ser) := Serial v (s_open_flag s) (s_ref_count s) (s_config s) (s_rx s) (s_tx s) (s_rx_ind s) (s_hw s).
Definition set_open_flag v (s : ser) := Serial (s_flag s) v (s_ref_count s) (s_config s) (s_rx s) (s_tx s) (s_rx_ind s) (s_hw s).
Definition set_ref_count v (s : ser) := Serial (s_flag s) (s_open_flag s) v (s_config s) (s_rx s) (s_tx s) (s_rx_ind s) (s_hw s).
Definition set_config v (s : ser) := Serial (s_flag s) (s_open_flag s) (s_ref_count s) v (s_rx s) (s_tx s) (s_rx_ind s) (s_hw s).
Definition set_rx v (s : ser) := Serial (s_flag s) (s_open_flag s) (s_ref_count s) (s_config s) v (s_tx s) (s_rx_ind s) (s_hw s).
Definition set_tx v (s : ser) := Serial (s_flag s) (s_open_flag s) (s_ref_count s) (s_config s) (s_rx s) v (s_rx_ind s) (s_hw s).
Definition set_rx_ind v (s : ser) := Serial (s_flag s) (s_open_flag s) (s_ref_count s) (s_config s) (s_rx s) (s_tx s) v (s_hw s).
Definition set_hw (v : HW) (s : ser) := Serial (s_flag s) (s_open_flag s) (s_ref_count s) (s_config s) (s_rx s) (s_tx s) (s_rx_ind s) v.

(** One locked turn of [_serial_int_rx]: the next byte, if any. *)
Definition fifo_take (sz : Z) (f : rx_fifo) : option (Z * rx_fifo) :=
  if (get_index f =? put_index f) && negb (is_full f) then None
  else
    let ch := nth (Z.to_nat (get_index f)) (buffer f) 0 in
    let g := get_index f + 1 in
    let g := if sz <=? g then 0 else g in
    Some (Z.land ch 255, RxFifo (buffer f) (put_index f) g false).

Fixpoint _serial_int_rx (length : nat) (sz : Z) (f : rx_fifo) : list Z * rx_fifo :=
  match length with
  | O => ([], f)
  | S k => match fifo_take sz f with
           | None => ([], f)
           | Some (c, f') => let '(l, f'') := _serial_int_rx k sz f' in (c :: l, f'')
           end
  end.

(** The locked part of the receive interrupt, for one received byte. *)
Definition fifo_put (sz : Z) (ch : Z) (f : rx_fifo) : rx_fifo :=
  let buf := <[Z.to_nat (put_index f) := u8 ch]> (buffer f) in
  let p := put_index f + 1 in
  let p := if sz <=? p then 0 else p in
  if p =? get_index f then
    let g := get_index f + 1 in
    RxFifo buf p (if sz <=? g then 0 else g) true
  else RxFifo buf p (get_index f) (is_full f).

(** [rt_hw_serial_isr], RT_SERIAL_EVENT_RX_IND: drain the hardware, then the
    length passed to the callback.  The fuel bounds the bytes one interrupt
    can drain. *)
Fixpoint isr_drain (fuel : nat) (sz : Z) (f : rx_fifo) (hw : HW) : rx_fifo * HW :=
  match fuel with
  | O => (f, hw)
  | S k => let '(ch, hw') := op_getc hw in
           if ch =? -1 then (f, hw') else isr_drain k sz (fifo_put sz ch f) hw'
  end.

Definition isr_rx_length (sz : Z) (f : rx_fifo) : Z :=
  if get_index f <=? put_index f then put_index f - get_index f
  else sz - (get_index f - put_index f).

Definition rt_hw_serial_isr_rx (fuel : nat) (s : ser) : option (ser * option Z) :=
  match s_rx s with
  | None => None (* RT_ASSERT(rx_fifo != RT_NULL) *)
  | Some f =>
      let '(f', hw') := isr_drain fuel (bufsz (s_config s)) f (s_hw s) in
      let n := isr_rx_length (bufsz (s_config s)) f' in
      Some (set_hw hw' (set_rx (Some f') s),
            if s_rx_ind s && negb (n =? 0) then Some n else None)
  end.

Fixpoint _serial_poll_rx (length : nat) (stream : bool) (hw : HW) : list Z * HW :=
  match length with
  | O => ([], hw)
  | S k => let '(ch, hw') := op_getc hw in
           if ch =? -1 then ([], hw')
           else if stream && (ch =? 10) then ([u8 ch], hw')
           else let '(l, hw'') := _serial_poll_rx k stream hw' in (u8 ch :: l, hw'')
  end.

Fixpoint _serial_poll_tx (data : list Z) (stream : bool) (hw : HW) : HW :=
  match data with
  | [] => hw
  | c :: r =>
      let hw := if (c =? 10) && stream then snd (op_putc 13 hw) else hw in
      _serial_poll_tx r stream (snd (op_putc c hw))
  end.

(** [_serial_int_tx]: a refused byte waits for the completion and is tried
    again (from the carriage return); [None] when the fuel runs out first. *)
Fixpoint _serial_int_tx (fuel : nat) (data : list Z) (stream : bool) (hw : HW) : option HW :=
  match data with
  | [] => Some hw
  | c :: r =>
      match fuel with
      | O => None
      | S k =>
          let '(e, hw1) := if (c =? 10) && stream then op_putc 13 hw else (0, hw) in
          if e =? -1 then _serial_int_tx k data stream (op_tx_wait hw1)
          else let '(e2, hw2) := op_putc c hw1 in
               if e2 =? -1 then _serial_int_tx k data stream (op_tx_wait hw2)
               else _serial_int_tx k r stream hw2
      end
  end.

Definition rt_serial_init (s : ser) : Z * ser :=
  let s := set_tx false (set_rx None s) in
  let '(r, hw) := op_configure (s_config s) (s_hw s) in (r, set_hw hw s).

Definition new_fifo (sz : Z) : rx_fifo := RxFifo (repeat 0 (Z.to_nat sz)) 0 0 false.

(** The bytes of [struct rt_serial_rx_fifo] and [struct rt_serial_tx_fifo]. *)
Definition RX_FIFO_SIZE : Z := 12.
Definition TX_FIFO_SIZE : Z := 12.

(** The receive structure, when the device has none. *)
Definition open_rx (malloc : Z -> bool) (oflag : Z) (s : ser) : option ser :=
  match s_rx s with
  | None =>
      if tst oflag RT_DEVICE_FLAG_INT_RX then
        if malloc (RX_FIFO_SIZE + bufsz (s_config s)) then
          let s := set_rx (Some (new_fifo (bufsz (s_config s)))) s in
          let s := set_open_flag (Z.lor (s_open_flag s) RT_DEVICE_FLAG_INT_RX) s in
          Some (set_hw (snd (op_control RT_DEVICE_CTRL_SET_INT RT_DEVICE_FLAG_INT_RX (s_hw s))) s)
        else None (* RT_ASSERT(rx_fifo != RT_NULL) *)
      else Some s
  | Some _ =>
      Some (if tst oflag RT_DEVICE_FLAG_INT_RX
            then set_open_flag (Z.lor (s_open_flag s) RT_DEVICE_FLAG_INT_RX) s else s)
  end.

(** The transmit structure. *)
Definition open_tx (malloc : Z -> bool) (oflag : Z) (s : ser) : option ser :=
  if negb (s_tx s) then
    if tst oflag RT_DEVICE_FLAG_INT_TX then
      if malloc TX_FIFO_SIZE then
        let s := set_tx true s in
        let s := set_open_flag (Z.lor (s_open_flag s) RT_DEVICE_FLAG_INT_TX) s in
        Some (set_hw (snd (op_control RT_DEVICE_CTRL_SET_INT RT_DEVICE_FLAG_INT_TX (s_hw s))) s)
      else None (* RT_ASSERT(tx_fifo != RT_NULL) *)
    else Some s
  else Some (if tst oflag RT_DEVICE_FLAG_INT_TX
             then set_open_flag (Z.lor (s_open_flag s) RT_DEVICE_FLAG_INT_TX) s else s).

(** [malloc n]: whether [rt_malloc] has [n] bytes at that moment. *)
Definition rt_serial_open (malloc : Z -> bool) (oflag : Z) (s : ser) : option (Z * ser) :=
  if tst oflag RT_DEVICE_FLAG_DMA_RX && negb (tst (s_flag s) RT_DEVICE_FLAG_DMA_RX) then Some (- RT_EIO, s)
  else if tst oflag RT_DEVICE_FLAG_DMA_TX && negb (tst (s_flag s) RT_DEVICE_FLAG_DMA_TX) then Some (- RT_EIO, s)
  else if tst oflag RT_DEVICE_FLAG_INT_RX && negb (tst (s_flag s) RT_DEVICE_FLAG_INT_RX) then Some (- RT_EIO, s)
  else if tst oflag RT_DEVICE_FLAG_INT_TX && negb (tst (s_flag s) RT_DEVICE_FLAG_INT_TX) then Some (- RT_EIO, s)
  else
    let stream_flag :=
      if tst oflag RT_DEVICE_FLAG_STREAM || tst (s_open_flag s) RT_DEVICE_FLAG_STREAM
      then RT_DEVICE_FLAG_STREAM else 0 in
    match open_rx malloc oflag (set_open_flag (Z.land oflag 255) s) with
    | None => None
    | Some s =>
        match open_tx malloc oflag s with
        | None => None
        | Some s => Some (RT_EOK, set_open_flag (Z.lor (s_open_flag s) stream_flag) s)
        end
    end.

(** [rt_serial_close]; [None] where the code asserts a FIFO. *)
Definition rt_serial_close (s : ser) : option (Z * ser) :=
  if 1 <? s_ref_count s then Some (RT_EOK, s)
  else
    let close_rx (s : ser) :=
      if tst (s_open_flag s) RT_DEVICE_FLAG_INT_RX then
        match s_rx s with
        | None => None
        | Some _ =>
            let s := set_rx None s in
            let s := set_open_flag (Z.ldiff (s_open_flag s) RT_DEVICE_FLAG_INT_RX) s in
            Some (set_hw (snd (op_control RT_DEVICE_CTRL_CLR_INT RT_DEVICE_FLAG_INT_RX (s_hw s))) s)
        end
      else Some s in
    let close_tx (s : ser) :=
      if tst (s_open_flag s) RT_DEVICE_FLAG_INT_TX then
        if s_tx s then
          let s := set_tx false s in
          let s := set_open_flag (Z.ldiff (s_open_flag s) RT_DEVICE_FLAG_INT_TX) s in
          Some (set_hw (snd (op_control RT_DEVICE_CTRL_CLR_INT RT_DEVICE_FLAG_INT_TX (s_hw s))) s)
        else None
      else Some s in
    match close_rx s with
    | None => None
    | Some s => match close_tx s with
                | None => None
                | Some s => Some (RT_EOK, s)
                end
    end.

Definition rt_serial_read (size : nat) (s : ser) : option (list Z * ser) :=
  if (size =? 0)%nat then Some ([], s)
  else if tst (s_open_flag s) RT_DEVICE_FLAG_INT_RX then
    match s_rx s with
    | None => None (* RT_ASSERT(rx_fifo != RT_NULL) *)
    | Some f => let '(l, f') := _serial_int_rx size (bufsz (s_config s)) f in
                Some (l, set_rx (Some f') s)
    end
  else
    let '(l, hw) := _serial_poll_rx size (tst (s_open_flag s) RT_DEVICE_FLAG_STREAM) (s_hw s) in
    Some (l, set_hw hw s).

Definition rt_serial_write (fuel : nat) (data : list Z) (s : ser) : option (Z * ser) :=
  if (length data =? 0)%nat then Some (0, s)
  else
    let stream := tst (s_open_flag s) RT_DEVICE_FLAG_STREAM in
    if tst (s_open_flag s) RT_DEVICE_FLAG_INT_TX then
      if s_tx s then
        match _serial_int_tx fuel data stream (s_hw s) with
        | None => None
        | Some hw => Some (Z.of_nat (length data), set_hw hw s)
        end
      else None (* RT_ASSERT(tx != RT_NULL) *)
    else Some (Z.of_nat (length data), set_hw (_serial_poll_tx data stream (s_hw s)) s).

(** [rt_serial_control]; [args] is the configuration passed with
    RT_DEVICE_CTRL_CONFIG. *)
Definition rt_serial_control (cmd : Z) (args : option serial_configure) (arg : Z) (s : ser)
  : Z * ser :=
  if cmd =? RT_DEVICE_CTRL_SUSPEND
  then (RT_EOK, set_flag (Z.lor (s_flag s) RT_DEVICE_FLAG_SUSPENDED) s)
  else if cmd =? RT_DEVICE_CTRL_RESUME
  then (RT_EOK, set_flag (Z.ldiff (s_flag s) RT_DEVICE_FLAG_SUSPENDED) s)
  else if cmd =? RT_DEVICE_CTRL_CONFIG then
    match args with
    | None => (RT_EOK, s)
    | Some c =>
        if negb (bufsz c =? bufsz (s_config s)) && negb (s_ref_count s =? 0)
        then (RT_EBUSY, s)
        else
          let s := set_config c s in
          if negb (s_ref_count s =? 0)
          then (RT_EOK, set_hw (snd (op_configure c (s_hw s))) s)
          else (RT_EOK, s)
    end
  else let '(r, hw) := op_control cmd arg (s_hw s) in (r, set_hw hw s).

(* ------------------------------------------------------------------ *)
(** ** The device layer *)

(** [None] is a failed assertion: that on the 8-bit reference count, or one of
    [rt_serial_open]. *)
Definition rt_device_open (malloc : Z -> bool) (oflag : Z) (s : ser) : option (Z * ser) :=
  let '(result, s) :=
    if negb (tst (s_flag s) RT_DEVICE_FLAG_ACTIVATED) then
      let '(r, s) := rt_serial_init s in
      if negb (r =? RT_EOK) then (r, s)
      else (RT_EOK, set_flag (Z.lor (s_flag s) RT_DEVICE_FLAG_ACTIVATED) s)
    else (RT_EOK, s) in
  if negb (result =? RT_EOK) then Some (result, s)
  else if tst (s_flag s) RT_DEVICE_FLAG_STANDALONE && tst (s_open_flag s) RT_DEVICE_OFLAG_OPEN
  then Some (- RT_EBUSY, s)
  else
    match rt_serial_open malloc oflag s with
    | None => None
    | Some (result, s) =>
        if (result =? RT_EOK) || (result =? - RT_ENOSYS) then
          let s := set_open_flag (Z.lor (s_open_flag s) RT_DEVICE_OFLAG_OPEN) s in
          let s := set_ref_count (u8 (s_ref_count s + 1)) s in
          if s_ref_count s =? 0 then None else Some (result, s)
        else Some (result, s)
    end.

Definition rt_device_close (s : ser) : option (Z * ser) :=
  if s_ref_count s =? 0 then Some (- RT_ERROR, s)
  else
    let s := set_ref_count (u8 (s_ref_count s - 1)) s in
    if negb (s_ref_count s =? 0) then Some (RT_EOK, s)
    else match rt_serial_close s with
         | None => None
         | Some (r, s) =>
             Some (r, if (r =? RT_EOK) || (r =? - RT_ENOSYS)
                      then set_open_flag RT_DEVICE_OFLAG_CLOSE s else s)
         end.

Definition rt_device_read (size : nat) (s : ser) : option (list Z * ser) :=
  if s_ref_count s =? 0 then Some ([], s) else rt_serial_read size s.

Definition rt_device_write (fuel : nat) (data : list Z) (s : ser) : option (Z * ser) :=
  if s_ref_count s =? 0 then Some (0, s) else rt_serial_write fuel data s.

Definition rt_device_control := rt_serial_control.

Definition rt_device_set_rx_indicate (s : ser) : ser := set_rx_ind true s.

(** [rt_kprintf] to the console device: formatted into [rt_log_buf] (at
    [addr] in the memory [log]), then written in stream mode. *)
Definition rt_kprintf (log : memory) (addr : Z) (fuel : nat) (fmt : list Z) (args : list carg) (s : ser)
  : option (memory * ser) :=
  match kprintf_buf log addr fmt args with
  | None => None
  | Some (log', bytes) =>
      let old_flag := s_open_flag s in
      match rt_device_write fuel bytes (set_open_flag (Z.lor old_flag RT_DEVICE_FLAG_STREAM) s) with
      | None => None
      | Some (_, s') => Some (log', set_open_flag old_flag s')
      end
  end.
End Driver.

(* ------------------------------------------------------------------ *)
(** ** The receive FIFO as a bounded queue that drops its oldest byte

    A FIFO of [sz] cells holds at most [sz - 1] bytes: [put_index] never
    catches up with [get_index]. *)

Definition fifo_count (sz : Z) (f : rx_fifo) : Z := (put_index f - get_index f) mod sz.

Definition fifo_bytes (sz : Z) (f : rx_fifo) : list Z :=
  map (fun i => nth (Z.to_nat ((get_index f + Z.of_nat i) mod sz)) (buffer f) 0)
      (seq 0 (Z.to_nat (fifo_count sz f))).

Record fifo_ok (sz : Z) (f : rx_fifo) : Prop := {
  ok_size : 2 <= sz;
  ok_len : Z.of_nat (length (buffer f)) = sz;
  ok_put : 0 <= put_index f < sz;
  ok_get : 0 <= get_index f < sz;
  ok_full : is_full f = true -> put_index f <> get_index f;
  ok_bytes : Forall is_u8 (buffer f) }.

(** The last [n] elements of a list. *)
Definition lastn {A} (n : nat) (l : list A) : list A := skipn (length l - n) l.

(** Hardware with [pending] bytes to deliver and the bytes it was given. *)
Record wire := Wire { pending : list Z; sent : list Z }.

#[export] Instance wire_ops : UartOps wire := {|
  op_configure _ w := (RT_EOK, w);
  op_control _ _ w := (RT_EOK, w);
  op_putc c w := (1, Wire (pending w) (sent w ++ [c]));
  op_getc w := match pending w with
               | [] => (-1, w)
               | c :: r => (c, Wire r (sent w))
               end;
  op_tx_wait w := w |}.

Definition qcap (sz : Z) : nat := Z.to_nat (sz - 1).

(** What the callers of a serial device do to it. *)
Inductive dev_op :=
  | DIrq (bytes : list Z)          (* the receive interrupt, with these bytes *)
  | DRead (n : nat)                (* rt_device_read *)
  | DOpen (mem : bool)             (* rt_device_open, RDWR | INT_RX; whether rt_malloc succeeds *)
  | DClose                         (* rt_device_close *)
  | DConfig (c : serial_configure) (* rt_device_control, RT_DEVICE_CTRL_CONFIG *)
  | DWrite (data : list Z).        (* rt_device_write *)

Definition APP_OFLAG : Z := Z.lor RT_DEVICE_OFLAG_RDWR RT_DEVICE_FLAG_INT_RX.

(** One operation: the bytes it returns to the caller and the new state; a
    failed assertion is [None]. *)
Definition dev_step (s : serial wire) (o : dev_op) : option (list Z * serial wire) :=
  match o with
  | DIrq bs =>
      match rt_hw_serial_isr_rx (S (length bs)) (set_hw (Wire bs (sent (s_hw s))) s) with
      | Some (s', _) => Some ([], s')
      | None => None
      end
  | DRead n => rt_device_read n s
  | DOpen mem => match rt_device_open (fun _ => mem) APP_OFLAG s with Some (_, s') => Some ([], s') | None => None end
  | DClose => match rt_device_close s with Some (_, s') => Some ([], s') | None => None end
  | DConfig c => Some ([], snd (rt_device_control RT_DEVICE_CTRL_CONFIG (Some c) 0 s))
  | DWrite d => match rt_device_write (length d) d s with Some (_, s') => Some ([], s') | None => None end
  end.

Fixpoint dev_run (s : serial wire) (ops : list dev_op) : option (list Z * serial wire) :=
  match ops with
  | [] => Some ([], s)
  | o :: r => match dev_step s o with
              | None => None
              | Some (l, s') => match dev_run s' r with
                                | None => None
                                | Some (l', s'') => Some (l ++ l', s'')
                                end
              end
  end.

(** The bytes waiting in a device. *)
Definition dev_bytes (s : serial wire) : list Z :=
  match s_rx s with Some f => fifo_bytes (bufsz (s_config s)) f | None => [] end.

(** The invariant of a device its users open in interrupt mode: closed, it
    has no FIFO; open, its FIFO is well formed for the configured size. *)
Record dev_ok (s : serial wire) : Prop := {
  dv_ref : 0 <= s_ref_count s < 256;
  dv_size : 2 <= bufsz (s_config s);
  dv_cap : tst (s_flag s) RT_DEVICE_FLAG_INT_RX = true;
  dv_alone : tst (s_flag s) RT_DEVICE_FLAG_STANDALONE = false;
  dv_tx : s_tx s = false;
  dv_stream : tst (s_open_flag s) RT_DEVICE_FLAG_STREAM = false;
  dv_closed : s_ref_count s = 0 -> s_rx s = None;
  dv_act : s_ref_count s <> 0 -> tst (s_flag s) RT_DEVICE_FLAG_ACTIVATED = true;
  dv_open : s_ref_count s <> 0 ->
            tst (s_open_flag s) RT_DEVICE_FLAG_INT_RX = true /\
            tst (s_open_flag s) RT_DEVICE_FLAG_INT_TX = false /\
            exists f, s_rx s = Some f /\ fifo_ok (bufsz (s_config s)) f }.

(** A text as stream mode sends it: a carriage return before each newline. *)
Definition crlf (l : list Z) : list Z :=
  concat (map (fun c => if c =? 10 then [13; 10] else [c]) l).

(** *** The abstract device: a reference count, a queue of at most [q_cap]
    bytes that drops its oldest, and the bytes transmitted. *)
Record qdev := QDev { q_ref : Z; q_cap : nat; q_bytes : list Z; q_sent : list Z }.

(** [None] is an assertion: an interrupt of a device that is not open, an open
    beyond the 255 an 8-bit count holds, a first open without memory. *)
Definition qdev_step (d : qdev) (o : dev_op) : option (list Z * qdev) :=
  let '(QDev n cap q out) := d in
  match o with
  | DIrq bs => if n =? 0 then None else Some ([], QDev n cap (lastn cap (q ++ bs)) out)
  | DRead k => Some (if n =? 0 then ([], d) else (firstn k q, QDev n cap (skipn k q) out))
  | DOpen mem => if (n =? 255) || ((n =? 0) && negb mem) then None else Some ([], QDev (n + 1) cap q out)
  | DClose => Some ([], if n =? 0 then d else QDev (n - 1) cap (if n =? 1 then [] else q) out)
  | DConfig c => Some ([], if n =? 0 then QDev n (qcap (bufsz c)) q out else d)
  | DWrite bs => Some ([], if n =? 0 then d else QDev n cap q (out ++ bs))
  end.

Fixpoint qdev_run (d : qdev) (ops : list dev_op) : option (list Z * qdev) :=
  match ops with
  | [] => Some ([], d)
  | o :: r => match qdev_step d o with
              | None => None
              | Some (l, d1) => match qdev_run d1 r with
                                | None => None
                                | Some (l', d2) => Some (l ++ l', d2)
                                end
              end
  end.

Definition qdev_of (s : serial wire) : qdev :=
  QDev (s_ref_count s) (qcap (bufsz (s_config s))) (dev_bytes s) (sent (s_hw s)).

(** What is received are bytes, and a buffer holds two or more. *)
Definition dev_op_ok (o : dev_op) : Prop :=
  match o with
  | DIrq bs => Forall is_u8 bs
  | DConfig c => 2 <= bufsz c
  | _ => True
  end.

Lemma next_index sz g : 0 <= g < sz -> (if sz <=? g + 1 then 0 else g + 1) = (g + 1) mod sz.
Proof.
  intros. destruct (Z.leb_spec sz (g + 1)).
  - replace (g + 1) with sz by lia. by rewrite Z.mod_same by lia.
  - by rewrite Z.mod_small by lia.
Qed.

Lemma fifo_count_range sz f : 2 <= sz -> 0 <= fifo_count sz f < sz.
Proof. intros. apply Z.mod_pos_bound. lia. Qed.

Lemma fifo_bytes_length sz f : length (fifo_bytes sz f) = Z.to_nat (fifo_count sz f).
Proof. unfold fifo_bytes. by rewrite length_map, length_seq. Qed.

Lemma mod_sub_one sz a : 1 < sz -> a mod sz <> 0 -> (a - 1) mod sz = a mod sz - 1.
Proof.
  intros Hs Ha. pose proof (Z.mod_pos_bound a sz ltac:(lia)).
  rewrite <- Zminus_mod_idemp_l. apply Z.mod_small. lia.
Qed.

Lemma mod_add_one sz a : 1 < sz -> a mod sz <> sz - 1 -> (a + 1) mod sz = a mod sz + 1.
Proof.
  intros Hs Ha. pose proof (Z.mod_pos_bound a sz ltac:(lia)).
  rewrite <- Zplus_mod_idemp_l. apply Z.mod_small. lia.
Qed.

Lemma count_zero sz f : fifo_ok sz f -> fifo_count sz f = 0 <-> get_index f = put_index f.
Proof.
  intros [? _ Hp Hg _ _]. unfold fifo_count. split; intros E.
  - apply Z.mod_divide in E; [|lia]. destruct E as [k E].
    assert (k = 0) by nia. lia.
  - rewrite E, Z.sub_diag. by apply Z.mod_0_l; lia.
Qed.

(** Taking a byte removes the head of the queue. *)
Lemma fifo_take_spec sz f : fifo_ok sz f ->
  match fifo_take sz f with
  | None => fifo_bytes sz f = []
  | Some (c, f') => fifo_ok sz f' /\ fifo_bytes sz f = c :: fifo_bytes sz f'
  end.
Proof.
  intros Hok. pose proof Hok as [Hs Hl Hp Hg Hf Hb]. unfold fifo_take.
  destruct (Z.eqb_spec (get_index f) (put_index f)) as [E|E].
  - destruct (is_full f) eqn:F; [by destruct (Hf eq_refl)|]. cbn [andb negb].
    unfold fifo_bytes. by rewrite (proj2 (count_zero sz f Hok) E).
  - cbn [andb]. rewrite next_index by lia.
    assert (fifo_count sz f <> 0) as Hc by (rewrite count_zero; done).
    set (f' := RxFifo _ _ _ _).
    assert (fifo_count sz f' = fifo_count sz f - 1) as Hc'.
    { unfold fifo_count; cbn. rewrite Zminus_mod_idemp_r.
      replace (put_index f - (get_index f + 1)) with (put_index f - get_index f - 1) by lia.
      apply mod_sub_one; [lia|done]. }
    split.
    + split; cbn; try done. apply Z.mod_pos_bound; lia.
    + pose proof (fifo_count_range sz f Hs).
      assert (Forall is_u8 (buffer f) -> is_u8 (nth (Z.to_nat (get_index f)) (buffer f) 0)) as Hu.
      { rewrite Forall_forall. intros HF. apply HF, list_elem_of_In, nth_In. lia. }
      unfold fifo_bytes. rewrite Hc'.
      replace (Z.to_nat (fifo_count sz f)) with (S (Z.to_nat (fifo_count sz f - 1))) by lia.
      cbn [seq map]. f_equal.
      * rewrite Z.add_0_r, Z.mod_small by lia.
        change 255 with (Z.ones 8). rewrite Z.land_ones by lia.
        symmetry. apply Z.mod_small. by apply Hu.
      * rewrite <- seq_shift, map_map. apply map_ext. intros i. cbn.
        rewrite Zplus_mod_idemp_l. do 3 f_equal. lia.
Qed.

Lemma _serial_int_rx_spec n sz f : fifo_ok sz f ->
  fst (_serial_int_rx n sz f) = firstn n (fifo_bytes sz f) /\
  fifo_bytes sz (snd (_serial_int_rx n sz f)) = skipn n (fifo_bytes sz f) /\
  fifo_ok sz (snd (_serial_int_rx n sz f)).
Proof.
  revert f; induction n as [|n IH]; intros f Hok; [done|].
  cbn [_serial_int_rx]. pose proof (fifo_take_spec sz f Hok) as T.
  destruct (fifo_take sz f) as [[c f']|].
  - destruct T as [Hok' ->]. destruct (IH f' Hok') as (E1 & E2 & E3).
    destruct (_serial_int_rx n sz f') as [l f'']. cbn in *. by rewrite E1.
  - by rewrite T.
Qed.

Lemma lastn_all {A} n (l : list A) : (length l <= n)%nat -> lastn n l = l.
Proof. intros. unfold lastn. by replace (length l - n)%nat with 0%nat by lia. Qed.

Lemma lastn_snoc {A} n (l : list A) x : (0 < n)%nat -> lastn n (lastn n l ++ [x]) = lastn n (l ++ [x]).
Proof.
  intros Hn. unfold lastn. rewrite !length_app, length_drop. simpl.
  rewrite !drop_app_le by (rewrite ?length_drop; lia). rewrite drop_drop.
  f_equal. f_equal. lia.
Qed.

Lemma lastn_length {A} n (l : list A) : (length (lastn n l) <= n)%nat.
Proof. unfold lastn. rewrite length_drop. lia. Qed.

Lemma fifo_index_eq sz f i : fifo_ok sz f -> 0 <= i < sz ->
  (get_index f + i) mod sz = put_index f <-> i = fifo_count sz f.
Proof.
  intros [Hs Hl Hp Hg _ _] Hi. unfold fifo_count. split.
  - intros E. rewrite <- E, Zminus_mod_idemp_l.
    replace (get_index f + i - get_index f) with i by lia. by rewrite Z.mod_small.
  - intros ->. rewrite Zplus_mod_idemp_r.
    replace (get_index f + (put_index f - get_index f)) with (put_index f) by lia.
    by apply Z.mod_small.
Qed.

(** Receiving a byte appends it, and drops the head of a full queue. *)
Lemma fifo_put_spec sz ch f : fifo_ok sz f ->
  fifo_ok sz (fifo_put sz ch f) /\
  fifo_bytes sz (fifo_put sz ch f)
  = lastn (Z.to_nat (sz - 1)) (fifo_bytes sz f ++ [u8 ch]).
Proof.
  intros Hok. pose proof Hok as [Hs Hl Hp Hg Hf Hb].
  unfold fifo_put. rewrite !next_index by lia.
  set (buf := <[Z.to_nat (put_index f) := u8 ch]> (buffer f)).
  assert (Z.of_nat (length buf) = sz) as Hbl by (subst buf; by rewrite length_insert).
  assert (Forall is_u8 buf) as Hbb by (apply Forall_insert; [done|apply u8_range]).
  assert (0 <= (put_index f + 1) mod sz < sz) by (apply Z.mod_pos_bound; lia).
  assert (0 <= (get_index f + 1) mod sz < sz) by (apply Z.mod_pos_bound; lia).
  pose proof (fifo_count_range sz f Hs) as Hc.
  assert (forall i, 0 <= i < sz ->
    nth (Z.to_nat ((get_index f + i) mod sz)) buf 0
    = if decide (i = fifo_count sz f) then u8 ch
      else nth (Z.to_nat ((get_index f + i) mod sz)) (buffer f) 0) as Hnth.
  { intros i Hi. pose proof (Z.mod_pos_bound (get_index f + i) sz ltac:(lia)).
    rewrite !nth_lookup. destruct (decide (i = fifo_count sz f)) as [Ei|Ei].
    - rewrite (proj2 (fifo_index_eq sz f i Hok Hi) Ei).
      subst buf. by rewrite list_lookup_insert_eq by lia.
    - subst buf. rewrite list_lookup_insert_ne; [done|].
      intros E. apply Ei, (fifo_index_eq sz f i Hok Hi). lia. }
  assert ((put_index f + 1) mod sz = get_index f <-> fifo_count sz f = sz - 1) as Hfull.
  { unfold fifo_count. split; intros E.
    - destruct (decide ((put_index f - get_index f) mod sz = sz - 1)) as [|Hne]; [done|].
      pose proof (mod_add_one sz _ ltac:(lia) Hne) as E1.
      replace (put_index f - get_index f + 1) with (put_index f + 1 - get_index f) in E1 by lia.
      rewrite <- Zminus_mod_idemp_l, E, Z.sub_diag, Z.mod_0_l in E1 by lia.
      pose proof (Z.mod_pos_bound (put_index f - get_index f) sz ltac:(lia)). lia.
    - assert ((put_index f - get_index f + 1) mod sz = 0) as E1.
      { rewrite <- Zplus_mod_idemp_l, E. replace (sz - 1 + 1) with sz by lia.
        apply Z.mod_same; lia. }
      apply Z.mod_divide in E1; [|lia]. destruct E1 as [k E1].
      replace (put_index f + 1) with (get_index f + k * sz) by lia.
      rewrite Z.mod_add by lia. by apply Z.mod_small. }
  pose proof (fifo_bytes_length sz f) as Hlen.
  destruct (Z.eqb_spec ((put_index f + 1) mod sz) (get_index f)) as [E|E].
  - apply Hfull in E as Hcnt. split.
    { split; cbn; try done. intros _. rewrite E. rewrite <- next_index by lia.
      destruct (Z.leb_spec sz (get_index f + 1)); lia. }
    set (f' := RxFifo _ _ _ _).
    assert (fifo_count sz f' = sz - 1) as Hc'.
    { unfold fifo_count; cbn. rewrite <- Hcnt. unfold fifo_count.
      rewrite <- Zminus_mod. f_equal. lia. }
    unfold lastn. rewrite length_app, Hlen, Hcnt. simpl length.
    replace (Z.to_nat (sz - 1) + 1 - Z.to_nat (sz - 1))%nat with 1%nat by lia.
    unfold fifo_bytes. rewrite Hc', Hcnt.
    replace (Z.to_nat (sz - 1)) with (S (Z.to_nat (sz - 2))) by lia.
    rewrite (seq_S (Z.to_nat (sz - 2)) 0) at 1. rewrite map_app. cbn [map seq app]. 
    rewrite skipn_cons, drop_0. f_equal.
    + rewrite <- seq_shift, map_map. apply map_ext_in. intros i Hi. cbn.
      apply in_seq in Hi. rewrite Zplus_mod_idemp_l.
      replace (get_index f + 1 + Z.of_nat i) with (get_index f + (Z.of_nat i + 1)) by lia.
      rewrite Hnth, decide_False by lia. do 3 f_equal. lia.
    + cbn. rewrite Zplus_mod_idemp_l.
      replace (get_index f + 1 + Z.of_nat (Z.to_nat (sz - 2))) with (get_index f + (sz - 1)) by lia.
      rewrite Hnth, decide_True by lia. done.
  - assert (fifo_count sz f <> sz - 1) as Hcnt by (by rewrite <- Hfull).
    split.
    { split; cbn; try done. }
    set (f' := RxFifo _ _ _ _).
    assert (fifo_count sz f' = fifo_count sz f + 1) as Hc'.
    { unfold fifo_count; cbn. rewrite Zminus_mod_idemp_l.
      replace (put_index f + 1 - get_index f) with (put_index f - get_index f + 1) by lia.
      apply mod_add_one; [lia|done]. }
    rewrite lastn_all by (rewrite length_app, Hlen; simpl; lia).
    unfold fifo_bytes. rewrite Hc'.
    replace (Z.to_nat (fifo_count sz f + 1)) with (S (Z.to_nat (fifo_count sz f))) by lia.
    rewrite seq_S, map_app. cbn [map app]. f_equal.
    + apply map_ext_in. intros i Hi. apply in_seq in Hi. cbn.
      by rewrite Hnth, decide_False by lia.
    + cbn. by rewrite Hnth, decide_True by lia.
Qed.

(* ------------------------------------------------------------------ *)
(** ** The interrupt drains the hardware into the queue *)

Lemma isr_drain_spec fuel sz f bs out :
  fifo_ok sz f -> Forall is_u8 bs -> (length bs < fuel)%nat ->
  exists f', isr_drain fuel sz f (Wire bs out) = (f', Wire [] out) /\ fifo_ok sz f' /\
             fifo_bytes sz f' = lastn (qcap sz) (fifo_bytes sz f ++ bs).
Proof.
  revert fuel f; induction bs as [|b bs IH]; intros fuel f Hok Hbs Hf;
    (destruct fuel as [|fuel]; [simpl in Hf; lia|]); cbn [isr_drain op_getc wire_ops pending].
  - exists f. rewrite app_nil_r, lastn_all; [done|].
    rewrite fifo_bytes_length. pose proof (fifo_count_range sz f (ok_size _ _ Hok)).
    unfold qcap. lia.
  - inversion Hbs as [|? ? Hb Hbs']; subst.
    destruct (Z.eqb_spec b (-1)); [unfold is_u8 in Hb; lia|].
    destruct (fifo_put_spec sz b f Hok) as [Hok' Hput].
    destruct (IH fuel (fifo_put sz b f) Hok' Hbs' ltac:(simpl in Hf; lia)) as (f' & E & Hf' & Eb).
    exists f'. split; [exact E|]. split; [done|]. rewrite Eb, Hput, u8_small by done.
    change (b :: bs) with ([b] ++ bs). rewrite (app_assoc _ [b] bs).
    pose proof (ok_size _ _ Hok).
    unfold qcap. generalize (fifo_bytes sz f ++ [b]). intros q.
    clear -H. assert (0 < Z.to_nat (sz - 1))%nat as Hn by lia. revert Hn.
    generalize (Z.to_nat (sz - 1)). clear. intros n Hn.
    induction bs as [|x bs IH] using rev_ind.
    { rewrite !app_nil_r. apply lastn_all, lastn_length. }
    rewrite !app_assoc. rewrite <- (lastn_snoc n (lastn n q ++ bs)), IH by done.
    by rewrite lastn_snoc.
Qed.

(** [rt_serial_open] by an application, on a device that supports it. *)
Lemma serial_open_app malloc (s : serial wire) :
  tst (s_flag s) RT_DEVICE_FLAG_INT_RX = true -> s_tx s = false ->
  tst (s_open_flag s) RT_DEVICE_FLAG_STREAM = false ->
  rt_serial_open malloc APP_OFLAG s
    = match s_rx s with
      | None => if malloc (RX_FIFO_SIZE + bufsz (s_config s))
                then Some (RT_EOK, set_open_flag 0x103 (set_rx (Some (new_fifo (bufsz (s_config s)))) s)) else None
      | Some _ => Some (RT_EOK, set_open_flag 0x103 s)
      end.
Proof.
  intros Hcap Htx Hst. unfold rt_serial_open, open_rx, open_tx.
  change (tst APP_OFLAG RT_DEVICE_FLAG_DMA_RX) with false.
  change (tst APP_OFLAG RT_DEVICE_FLAG_DMA_TX) with false.
  change (tst APP_OFLAG RT_DEVICE_FLAG_INT_RX) with true.
  change (tst APP_OFLAG RT_DEVICE_FLAG_INT_TX) with false.
  change (tst APP_OFLAG RT_DEVICE_FLAG_STREAM) with false.
  rewrite Hcap, Hst. cbn [andb negb orb].
  destruct s as [fl ofl rc cfg [f|] tx ind hw]; cbn -[Z.add RX_FIFO_SIZE] in Htx |- *; subst tx; [done|].
  by destruct (malloc _).
Qed.

Lemma new_fifo_ok sz : 2 <= sz -> fifo_ok sz (new_fifo sz).
Proof.
  intros. split; cbn; try done; try lia; [by rewrite repeat_length; lia|].
  apply Forall_forall. intros x Hx. apply list_elem_of_In, repeat_spec in Hx as ->. by split.
Qed.

Lemma new_fifo_bytes sz : 2 <= sz -> fifo_bytes sz (new_fifo sz) = [].
Proof. intros. unfold fifo_bytes, fifo_count. cbn. by rewrite Z.mod_0_l by lia. Qed.


(** An activated flag word keeps the device's other capabilities. *)
Lemma flag_activated fl :
  tst (Z.lor fl RT_DEVICE_FLAG_ACTIVATED) RT_DEVICE_FLAG_INT_RX = tst fl RT_DEVICE_FLAG_INT_RX /\
  tst (Z.lor fl RT_DEVICE_FLAG_ACTIVATED) RT_DEVICE_FLAG_STANDALONE = tst fl RT_DEVICE_FLAG_STANDALONE /\
  tst (Z.lor fl RT_DEVICE_FLAG_ACTIVATED) RT_DEVICE_FLAG_ACTIVATED = true.
Proof.
  split_and!.
  - rewrite (tst_lor 8) by done. apply orb_false_r.
  - rewrite (tst_lor 3) by done. apply orb_false_r.
  - rewrite (tst_lor 4) by done. apply orb_true_r.
Qed.

(** The state [rt_device_open] calls [rt_serial_open] in. *)
Lemma device_init_ok (s : serial wire) : dev_ok s ->
  exists fl, let s0 := set_flag fl (set_tx false s) in
    (if negb (tst (s_flag s) RT_DEVICE_FLAG_ACTIVATED)
     then let '(r, s) := rt_serial_init s in
          if negb (r =? RT_EOK) then (r, s)
          else (RT_EOK, set_flag (Z.lor (s_flag s) RT_DEVICE_FLAG_ACTIVATED) s)
     else (RT_EOK, s)) = (RT_EOK, s0) /\
    tst fl RT_DEVICE_FLAG_INT_RX = true /\ tst fl RT_DEVICE_FLAG_STANDALONE = false /\
    tst fl RT_DEVICE_FLAG_ACTIVATED = true.
Proof.
  intros [Hr Hs Hc Ha Ht Hst Hcl Hact Hop]. destruct s as [fl ofl rc cfg rx tx ind hw]; cbn in *.
  destruct (flag_activated fl) as (A1 & A2 & A3).
  destruct (tst fl RT_DEVICE_FLAG_ACTIVATED) eqn:A; cbn [negb].
  - exists fl. subst tx. by split_and!.
  - assert (rc = 0) as R0 by (destruct (decide (rc = 0)) as [|N]; [done|by specialize (Hact N)]).
    exists (Z.lor fl RT_DEVICE_FLAG_ACTIVATED). rewrite (Hcl R0), A1, A2. by split_and!.
Qed.

Definition step_refines (s : serial wire) (o : dev_op) : Prop :=
  match qdev_step (qdev_of s) o with
  | None => dev_step s o = None
  | Some (l, d) => exists s', dev_step s o = Some (l, s') /\ dev_ok s' /\ qdev_of s' = d
  end.

Lemma open_refines s mem : dev_ok s -> step_refines s (DOpen mem).
Proof.
  intros Hok. unfold step_refines, dev_step, rt_device_open.
  destruct (device_init_ok s Hok) as (fl & E & F1 & F2 & F3). cbn zeta in E. rewrite E. clear E.
  destruct Hok as [Hr Hs Hc Ha Ht Hst Hcl Hact Hop].
  change (negb (RT_EOK =? RT_EOK)) with false. cbn iota.
  cbn [s_flag set_flag set_tx]. rewrite F2. cbn [andb].
  rewrite serial_open_app by done. unfold qdev_of. cbn [qdev_step].
  destruct s as [fl0 ofl rc cfg rx tx ind hw]; cbn in *. subst tx.
  assert (rx = None <-> rc = 0) as Hrx.
  { split; [intros ->|done]. destruct (decide (rc = 0)) as [|N]; [done|].
    by destruct (Hop N) as (_ & _ & f & E & _). }
  destruct rx as [f|].
  - assert (rc <> 0) as N by (intros N; by apply Hrx in N). destruct (Hop N) as (_ & _ & f' & [= <-] & Hf).
    rewrite (proj2 (Z.eqb_neq rc 0)) by done. rewrite orb_false_r. cbn. destruct (Z.eqb_spec rc 255) as [->|N']; [done|].
    rewrite u8_small by (unfold is_u8; lia). rewrite (proj2 (Z.eqb_neq (rc + 1) 0)) by lia.
    eexists; split; [reflexivity|]. split; [|done]. split; cbn; try done; try lia. intros _. split_and!; try done. by exists f.
  - rewrite (proj1 Hrx eq_refl). destruct mem; cbn; [|done]. eexists; split; [reflexivity|]. split.
    + split; cbn; try done; try lia. intros _. split_and!; try done. eexists; split; [done|]. by apply new_fifo_ok.
    + unfold qdev_of, dev_bytes; cbn. by rewrite new_fifo_bytes by lia.
Qed.

(** An application opens the device. *)
Lemma device_open_ok malloc s : dev_ok s -> s_ref_count s < 255 -> malloc (RX_FIFO_SIZE + bufsz (s_config s)) = true ->
  exists s', rt_device_open malloc APP_OFLAG s = Some (RT_EOK, s') /\ dev_ok s' /\
    qdev_of s' = QDev (s_ref_count s + 1) (qcap (bufsz (s_config s))) (dev_bytes s) (sent (s_hw s)).
Proof.
  intros Hok Hr Hm. pose proof (open_refines s true Hok) as St. unfold step_refines, qdev_of in St. cbn [qdev_step dev_step] in St.
  rewrite (proj2 (Z.eqb_neq _ 255)), andb_false_r in St by lia. cbn [orb] in St. destruct St as (s' & E & Hok' & Q).
  exists s'. split; [|done]. unfold rt_device_open in *. destruct (device_init_ok s Hok) as (fl & Ei & F1 & F2 & _).
  cbn zeta in Ei. rewrite Ei in *. change (negb (RT_EOK =? RT_EOK)) with false in *. cbn iota in *.
  cbn [s_flag set_flag set_tx] in *. rewrite F2 in *. cbn [andb] in *.
  rewrite serial_open_app in *; [|done|done|apply Hok|done|done|apply Hok]. cbn [s_rx s_config set_flag set_tx] in *. rewrite Hm.
  destruct (s_rx s); cbn beta iota zeta in *; change ((RT_EOK =? RT_EOK) || (RT_EOK =? - RT_ENOSYS)) with true in *;
    cbn iota in *; destruct (s_ref_count _ =? 0); by simplify_eq.
Qed.

Lemma close_refines s : dev_ok s -> step_refines s DClose.
Proof.
  intros [Hr Hs Hc Ha Ht Hst Hcl Hact Hop].
  unfold step_refines, dev_step, rt_device_close, rt_serial_close.
  destruct s as [fl ofl rc cfg rx tx ind hw]; cbn in *. subst tx.
  destruct (Z.eqb_spec rc 0) as [->|N]; cbn.
  - eexists; split; [reflexivity|]. by split.
  - rewrite u8_small by (unfold is_u8; lia).
    destruct (Hop N) as (O1 & O2 & f & -> & Hf).
    destruct (Z.eqb_spec (rc - 1) 0) as [E|E]; cbn.
    + replace rc with 1 by lia. cbn. rewrite O1. cbn.
      rewrite (tst_ldiff 10), O2 by done. cbn.
      eexists; split; [reflexivity|]. by split.
    + rewrite (proj2 (Z.eqb_neq rc 1)) by lia. eexists; split; [reflexivity|].
      split; [|done]. split; cbn; try done; try lia; intros _; [by apply Hact|].
      split_and!; try done. by exists f.
Qed.

Lemma config_refines s c : dev_ok s -> 2 <= bufsz c -> step_refines s (DConfig c).
Proof.
  intros [Hr Hs Hc Ha Ht Hst Hcl Hact Hop] Hsz.
  unfold step_refines, dev_step, rt_device_control, rt_serial_control.
  destruct s as [fl ofl rc cfg rx tx ind hw]; cbn in *. subst tx.
  destruct (Z.eqb_spec rc 0) as [->|N]; cbn; rewrite ?andb_false_r, ?andb_true_r.
  - rewrite (Hcl eq_refl). eexists; split; [reflexivity|]. split; [|done].
    split; cbn; try done; lia.
  - destruct (Z.eqb_spec (bufsz c) (bufsz cfg)) as [E|E]; cbn;
      (eexists; split; [reflexivity|]); [|by split].
    split; [split; cbn; rewrite ?E; try done; lia|]. unfold qdev_of, dev_bytes; cbn. by rewrite E.
Qed.

Lemma poll_tx_wire data stream w :
  _serial_poll_tx data stream w
  = Wire (pending w) (sent w ++ (if stream then crlf data else data)).
Proof.
  revert w; induction data as [|c r IH]; intros [p o]; cbn [_serial_poll_tx].
  { cbn. by destruct stream; rewrite app_nil_r. }
  rewrite IH. unfold crlf. cbn [map concat].
  destruct stream; [|rewrite andb_false_r; cbn; by rewrite <- app_assoc].
  rewrite andb_true_r. destruct (Z.eqb_spec c 10) as [->|]; cbn; by rewrite <- ?app_assoc.
Qed.

Lemma write_refines s data : dev_ok s -> step_refines s (DWrite data).
Proof.
  intros [Hr Hs Hc Ha Ht Hst Hcl Hact Hop].
  unfold step_refines, dev_step, rt_device_write, rt_serial_write.
  destruct s as [fl ofl rc cfg rx tx ind [pd out]]; cbn in *. subst tx.
  destruct (Z.eqb_spec rc 0) as [->|N]; cbn; [eexists; split; [reflexivity|]; by split|].
  destruct (Hop N) as (O1 & O2 & f & -> & Hf). rewrite O2, Hst.
  destruct data as [|c r]; cbn [length Nat.eqb].
  - eexists; split; [reflexivity|]. split; [by split|]. by rewrite app_nil_r.
  - rewrite poll_tx_wire. eexists; split; [reflexivity|]. split; [by split|done].
Qed.

Lemma read_refines s n : dev_ok s -> step_refines s (DRead n).
Proof.
  intros [Hr Hs Hc Ha Ht Hst Hcl Hact Hop].
  unfold step_refines, dev_step, rt_device_read, rt_serial_read.
  destruct s as [fl ofl rc cfg rx tx ind [pd out]]; cbn in *. subst tx.
  destruct (Z.eqb_spec rc 0) as [->|N]; cbn; [eexists; split; [reflexivity|]; by split|].
  destruct (Hop N) as (O1 & O2 & f & -> & Hf).
  destruct n as [|n]; [eexists; split; [reflexivity|]; by split|].
  cbn [Nat.eqb]. rewrite O1. cbn [dev_bytes s_rx s_config].
  destruct (_serial_int_rx_spec (S n) (bufsz cfg) f Hf) as (E1 & E2 & E3).
  destruct (_serial_int_rx (S n) (bufsz cfg) f) as [l f']. cbn in E1, E2, E3. rewrite E1.
  eexists; split; [reflexivity|]. split.
  - split; cbn; try done. intros _. split_and!; try done. by exists f'.
  - unfold qdev_of, dev_bytes; cbn -[firstn skipn]. by rewrite E2.
Qed.

Lemma irq_refines s bs : dev_ok s -> Forall is_u8 bs -> step_refines s (DIrq bs).
Proof.
  intros [Hr Hs Hc Ha Ht Hst Hcl Hact Hop] Hbs.
  unfold step_refines, dev_step, rt_hw_serial_isr_rx.
  destruct s as [fl ofl rc cfg rx tx ind [pd out]]; cbn -[isr_drain] in *. subst tx.
  destruct (Z.eqb_spec rc 0) as [E|N]; [by rewrite (Hcl E)|].
  destruct (Hop N) as (O1 & O2 & f & -> & Hf).
  destruct (isr_drain_spec (S (length bs)) (bufsz cfg) f bs out Hf Hbs ltac:(lia))
    as (f' & -> & Hf' & E).
  eexists; split; [reflexivity|]. split.
  - split; cbn; try done. intros _. split_and!; try done. by exists f'.
  - unfold qdev_of, dev_bytes; cbn. by rewrite E.
Qed.

Lemma step_refines_all s o : dev_ok s -> dev_op_ok o -> step_refines s o.
Proof.
  intros Hok Ho. destruct o; cbn in Ho.
  - by apply irq_refines.
  - by apply read_refines.
  - by apply open_refines.
  - by apply close_refines.
  - by apply config_refines.
  - by apply write_refines.
Qed.

Lemma run_refines ops s : dev_ok s -> Forall dev_op_ok ops ->
  match qdev_run (qdev_of s) ops with
  | None => dev_run s ops = None
  | Some (l, d) => exists s', dev_run s ops = Some (l, s') /\ dev_ok s' /\ qdev_of s' = d
  end.
Proof.
  intros Hok Hops. revert s Hok. induction Hops as [|o ops Ho _ IH]; intros s Hok; [by exists s|].
  cbn [dev_run qdev_run]. pose proof (step_refines_all s o Hok Ho) as St. unfold step_refines in St.
  destruct (qdev_step (qdev_of s) o) as [[l d1]|]; [|by rewrite St].
  destruct St as (s1 & -> & Hok1 & <-). specialize (IH s1 Hok1).
  destruct (qdev_run (qdev_of s1) ops) as [[l' d2]|]; [|by rewrite IH].
  destruct IH as (s2 & -> & Hok2 & E2). by exists s2.
Qed.

(** A registered, never opened device ([rt_hw_serial_register] with
    RDWR | INT_RX | INT_TX). *)
Definition registered (cfg : serial_configure) : serial wire :=
  Serial 0x503 0 0 cfg None false false (Wire [] []).

Lemma registered_ok cfg : 2 <= bufsz cfg -> dev_ok (registered cfg).
Proof. intros. split; cbn; try done; lia. Qed.

(* ------------------------------------------------------------------ *)
(** ** Properties *)

(** C1: a serial device, from its registration on and under any sequence of
    opens, closes, reconfigurations, reads, writes and receive interrupts,
    behaves as a reference-counted queue that keeps the last [bufsz - 1]
    received bytes: reads return its head, an overflow drops the oldest bytes,
    the last close empties it, and a busy device refuses to change its buffer
    size.  An assertion fails in three cases and only in them, as the queue
    says: a receive interrupt while the device is not open, the 256th open, and
    a first open for which [rt_malloc] has no memory. *)
Theorem serial_device_refines_queue cfg ops :
  2 <= bufsz cfg -> Forall dev_op_ok ops ->
  match qdev_run (qdev_of (registered cfg)) ops with
  | None => dev_run (registered cfg) ops = None
  | Some (l, d) => exists s', dev_run (registered cfg) ops = Some (l, s') /\ dev_ok s' /\ qdev_of s' = d
  end.
Proof. intros Hs Hr. by apply run_refines; [apply registered_ok|]. Qed.

(** Two opens share the device; the bytes of a closed device are gone; an open
    without memory fails its assertion. *)
Lemma serial_device_refines_queue_witness :
  let ops := [DOpen true; DIrq [1; 2; 3]; DOpen false; DRead 2; DClose; DIrq [4]; DRead 9; DWrite [65]; DClose] in
  (exists s', dev_run (registered RT_SERIAL_CONFIG_DEFAULT) ops = Some ([1; 2; 3; 4], s') /\ dev_ok s' /\
     qdev_of s' = QDev 0 127 [] [65]) /\
  dev_run (registered RT_SERIAL_CONFIG_DEFAULT) (ops ++ [DOpen false]) = None.
Proof.
  intros ops. assert (Forall dev_op_ok ops) as Ho by (unfold ops, is_u8; repeat constructor; cbn; lia).
  split; [exact (serial_device_refines_queue RT_SERIAL_CONFIG_DEFAULT ops ltac:(cbn; lia) Ho)|].
  refine (serial_device_refines_queue RT_SERIAL_CONFIG_DEFAULT (ops ++ [DOpen false]) ltac:(cbn; lia) _).
  apply Forall_app. split; [done|by repeat constructor].
Defined.

(** A console message of any length, printed on an open serial console,
    sends its first 254 characters (and a NUL byte for a text of 255 or more)
    with a carriage return before each newline, and leaves the device as it
    was: mode flags, receive queue and reference count. *)
Theorem rt_kprintf_console log addr fmt args l s :
  sformat fmt args = Some l -> 0 <= addr -> addr + 255 < 2 ^ 32 -> Z.of_nat (length l) < 2 ^ 31 ->
  dev_ok s -> s_ref_count s <> 0 ->
  exists log', rt_kprintf log addr 0 fmt args s
    = Some (log', set_hw (Wire (pending (s_hw s)) (sent (s_hw s) ++ crlf (console_text l))) s).
Proof.
  intros Hf Ha Hw Hl [Hr Hs Hc Hal Ht Hst Hcl Hact Hop] N.
  destruct (kprintf_buf_output log addr fmt args l Hf Ha Hw Hl) as [log' E].
  exists log'. unfold rt_kprintf. rewrite E.
  destruct s as [fl ofl rc cfg rx tx ind [pd out]]; cbn in *.
  unfold rt_device_write, rt_serial_write. cbn. rewrite (proj2 (Z.eqb_neq rc 0)) by done.
  destruct (Hop N) as (O1 & O2 & f & -> & Hfi).
  destruct (console_text l) as [|c r]; cbn [length Nat.eqb]; [by rewrite app_nil_r|].
  rewrite (tst_lor 10), O2, (tst_lor 6), poll_tx_wire by done.
  change (tst RT_DEVICE_FLAG_STREAM RT_DEVICE_FLAG_INT_TX) with false.
  change (tst RT_DEVICE_FLAG_STREAM RT_DEVICE_FLAG_STREAM) with true. rewrite orb_true_r. done.
Qed.

Lemma rt_kprintf_console_witness :
  let s := Serial 0x513 0x10B 1 RT_SERIAL_CONFIG_DEFAULT (Some (new_fifo 128)) false true (Wire [] []) in
  exists log', rt_kprintf (fun _ => 0) 0x24000000 0 (clit "v=%d\n") [AInt 7] s
    = Some (log', set_hw (Wire [] (crlf (console_text (clit "v=7\n")))) s).
Proof.
  intros s. apply (rt_kprintf_console (fun _ => 0) 0x24000000 (clit "v=%d\n") [AInt 7] (clit "v=7\n") s);
    try lia; try reflexivity.
  - split; try done; cbn; try lia. intros _. split_and!; try done. eexists; split; [done|].
    apply new_fifo_ok. lia.
  - cbn. lia.
Defined.
