(* ===== verification/I2c.v ===== *)
(** * The I2C bus: bit-banged master, bus core and the board's pin driver

    rt-thread/components/drivers/i2c/i2c-bit-ops.c (the protocol),
    i2c_core.c (locked transfers) and the delay routine of
    drivers/drv_soft_i2c.c.  The line operations of [struct rt_i2c_bit_ops]
    are the interface [I2cBitOps]; [lines] is a bus with its observer. *)

From Stdlib Require Import ZArith Lia.
From stdpp Require Import base numbers list.
From S2P Require Import Prelude.
Open Scope c_scope.

Definition RT_I2C_RD : Z := 1.
Definition RT_I2C_ADDR_10BIT : Z := 4.
Definition RT_I2C_NO_START : Z := 16.
Definition RT_I2C_IGNORE_NACK : Z := 32.
Definition RT_I2C_NO_READ_ACK : Z := 64.
Definition RT_I2C_NO_STOP : Z := 128.

(** [struct rt_i2c_msg]; [mbuf] is the memory [buf] points to. *)
Record rt_i2c_msg := I2cMsg { maddr : Z; mflags : Z; mlen : Z; mbuf : list Z }.

(** [struct rt_i2c_bit_ops] on a hardware state, with the kernel's tick
    counter, thread delay and the bus mutex. *)
Class I2cBitOps (HW : Type) := {
  set_sda : Z -> HW -> HW;
  set_scl : Z -> HW -> HW;
  get_sda : HW -> Z * HW;
  get_scl : HW -> Z * HW;
  udelay : Z -> HW -> HW;
  rt_tick_get : HW -> Z;
  rt_thread_delay : Z -> HW -> HW;
  mutex_take : HW -> HW;
  mutex_release : HW -> HW }.

(** The data members of [struct rt_i2c_bit_ops] and [bus->retries]. *)
Record i2c_bus := I2cBus {
  delay_us : Z; op_timeout : Z; has_get_scl : bool; retries : Z }.

(** [stm32_bit_ops_default] on a bus whose [retries] is never set. *)
Definition stm32_bit_ops_default : i2c_bus := I2cBus 1 100 true 0.

Section BitBang.
Context {HW : Type} `{I2cBitOps HW}.
Variable bus : i2c_bus.
Abbreviation M := (M HW).

Definition i2c_delay : M unit := doM (udelay (Z.shiftr (delay_us bus + 1) 1)).
Definition i2c_delay2 : M unit := doM (udelay (delay_us bus)).
Definition SDA_L : M unit := doM (set_sda 0).
Definition SDA_H : M unit := doM (set_sda 1).
Definition SCL_L : M unit := doM (set_scl 0).

(** The wait of [SCL_H] for the line to rise: the result is negative when it
    timed out.  [None] when the fuel runs out. *)
Fixpoint SCL_wait (fuel : nat) (start : Z) : M Z :=
  match fuel with
  | O => failM
  | S k =>
      let! v := getM get_scl in
      if negb (v =? 0) then retM RT_EOK
      else
        let! now := getM (fun hw => (rt_tick_get hw, hw)) in
        if op_timeout bus <? now -u32 start then retM (- RT_ETIMEOUT)
        else do! doM (rt_thread_delay (Z.shiftr (op_timeout bus + 1) 1)) in
             SCL_wait k start
  end.

(** Polls of the clock line one [SCL_H] may take: the time-out passes after
    two half-time-out delays, or three. *)
Definition SCL_POLLS : nat := 4.

Definition SCL_H : M Z :=
  do! doM (set_scl 1) in
  if negb (has_get_scl bus) then do! i2c_delay in retM RT_EOK
  else
    let! start := getM (fun hw => (rt_tick_get hw, hw)) in
    let! r := SCL_wait SCL_POLLS start in
    if r =? RT_EOK then do! i2c_delay in retM RT_EOK else retM r.

Definition i2c_start : M unit :=
  do! SDA_L in do! i2c_delay in SCL_L.

Definition i2c_restart : M unit :=
  do! SDA_H in let! _r := SCL_H in do! i2c_delay in
  do! SDA_L in do! i2c_delay in SCL_L.

Definition i2c_stop : M unit :=
  do! SDA_L in do! i2c_delay in let! _r := SCL_H in do! i2c_delay in
  do! SDA_H in i2c_delay2.

Definition i2c_waitack : M Z :=
  do! SDA_H in
  do! i2c_delay in
  let! r := SCL_H in
  if r <? 0 then retM (- RT_ETIMEOUT)
  else
    let! v := getM get_sda in
    do! SCL_L in
    retM (if v =? 0 then 1 else 0).

(** The bits [i - 1 .. 0] of [data]; a time-out ends the loop. *)
Fixpoint write_bits (i : nat) (data : Z) : M Z :=
  match i with
  | O => retM RT_EOK
  | S k =>
      do! SCL_L in
      do! doM (set_sda (Z.land (Z.shiftr data (Z.of_nat k)) 1)) in
      do! i2c_delay in
      let! r := SCL_H in
      if r <? 0 then retM (- RT_ETIMEOUT) else write_bits k data
  end.

Definition i2c_writeb (data : Z) : M Z :=
  let! r := write_bits 8 data in
  if r <? 0 then retM r
  else do! SCL_L in do! i2c_delay in i2c_waitack.

Fixpoint read_bits (n : nat) (data : Z) : M Z :=
  match n with
  | O => retM data
  | S k =>
      let data := u8 (Z.shiftl data 1) in
      let! r := SCL_H in
      if r <? 0 then retM (- RT_ETIMEOUT)
      else
        let! v := getM get_sda in
        let data := if v =? 0 then data else Z.lor data 1 in
        do! SCL_L in do! i2c_delay2 in read_bits k data
  end.

Definition i2c_readb : M Z :=
  do! SDA_H in do! i2c_delay in read_bits 8 0.

(** [i2c_send_bytes]; [None] when [buf] is shorter than [count]. *)
Fixpoint i2c_send_bytes (count : nat) (buf : list Z) (ignore_nack : bool) (bytes : Z) : M Z :=
  match count with
  | O => retM bytes
  | S k =>
      match buf with
      | [] => failM
      | b :: ptr =>
          let! ret := i2c_writeb b in
          if (0 <? ret) || (ignore_nack && (ret =? 0))
          then i2c_send_bytes k ptr ignore_nack (bytes + 1)
          else if ret =? 0 then retM 0
          else retM ret
      end
  end.

Definition i2c_send_ack_or_nack (ack : Z) : M Z :=
  do! (if negb (ack =? 0) then doM (set_sda 0) else retM tt) in
  do! i2c_delay in
  let! r := SCL_H in
  if r <? 0 then retM (- RT_ETIMEOUT) else do! SCL_L in retM RT_EOK.

(** [i2c_recv_bytes]: its result and the bytes stored through [ptr]. *)
Fixpoint i2c_recv_bytes (count : nat) (flags : Z) (bytes : Z) : M (Z * list Z) :=
  match count with
  | O => retM (bytes, [])
  | S k =>
      let! val := i2c_readb in
      if 0 <=? val then
        if negb (tst flags RT_I2C_NO_READ_ACK) then
          let! e := i2c_send_ack_or_nack (Z.of_nat k) in
          if e <? 0 then retM (e, [val])
          else let! 'p := i2c_recv_bytes k flags (bytes + 1) in
               retM (fst p, val :: snd p)
        else let! 'p := i2c_recv_bytes k flags (bytes + 1) in
             retM (fst p, val :: snd p)
      else retM (bytes, [])
  end.

(** [i2c_send_address] with [turns = retries + 1] attempts. *)
Fixpoint send_address_turns (turns : nat) (addr : Z) : M Z :=
  match turns with
  | O => retM 0
  | S k =>
      let! ret := i2c_writeb addr in
      if (ret =? 1) || (k =? 0)%nat then retM ret
      else do! i2c_stop in do! i2c_delay2 in do! i2c_start in send_address_turns k addr
  end.

Definition i2c_send_address (addr : Z) (retries : Z) : M Z :=
  send_address_turns (Z.to_nat (retries + 1)) addr.

Definition i2c_bit_send_address (msg : rt_i2c_msg) : M Z :=
  let flags := mflags msg in
  let ignore_nack := tst flags RT_I2C_IGNORE_NACK in
  let retries := if ignore_nack then 0 else s32 (retries bus) in
  if tst flags RT_I2C_ADDR_10BIT then
    let addr1 := u8 (Z.lor 0xf0 (Z.land (Z.shiftr (maddr msg) 7) 0x06)) in
    let addr2 := Z.land (maddr msg) 0xff in
    let! ret := i2c_send_address addr1 retries in
    if negb (ret =? 1) && negb ignore_nack then retM (- RT_EIO)
    else
      let! ret := i2c_writeb addr2 in
      if negb (ret =? 1) && negb ignore_nack then retM (- RT_EIO)
      else if tst flags RT_I2C_RD then
        do! i2c_restart in
        let! ret := i2c_send_address (Z.lor addr1 0x01) retries in
        if negb (ret =? 1) && negb ignore_nack then retM (- RT_EIO) else retM RT_EOK
      else retM RT_EOK
  else
    let addr1 := u8 (Z.shiftl (maddr msg) 1) in
    let addr1 := if tst flags RT_I2C_RD then Z.lor addr1 1 else addr1 in
    let! ret := i2c_send_address addr1 retries in
    if negb (ret =? 1) && negb ignore_nack then retM (- RT_EIO) else retM RT_EOK.

(** One message after its address: the value of [ret] that decides whether to
    go on, and the message with what was read stored in its buffer. *)
Definition xfer_data (msg : rt_i2c_msg) : M (Z * rt_i2c_msg) :=
  if tst (mflags msg) RT_I2C_RD then
    let! 'p := i2c_recv_bytes (Z.to_nat (mlen msg)) (mflags msg) 0 in
    if Z.of_nat (length (mbuf msg)) <? Z.of_nat (length (snd p)) then failM
    else
      let msg' := I2cMsg (maddr msg) (mflags msg) (mlen msg)
                         (snd p ++ skipn (length (snd p)) (mbuf msg)) in
      retM (if fst p <? mlen msg then (if 0 <=? fst p then - RT_EIO else fst p) else fst p, msg')
  else
    let! ret := i2c_send_bytes (Z.to_nat (mlen msg)) (mbuf msg)
                               (tst (mflags msg) RT_I2C_IGNORE_NACK) 0 in
    retM (if ret <? mlen msg then (if 0 <=? ret then - RT_ERROR else ret) else ret, msg).

Definition xfer_start (i : Z) (msg : rt_i2c_msg) : M Z :=
  if negb (tst (mflags msg) RT_I2C_NO_START) then
    do! (if negb (i =? 0) then i2c_restart else i2c_start) in
    let! ret := i2c_bit_send_address msg in
    retM (if negb (ret =? RT_EOK) && negb (tst (mflags msg) RT_I2C_IGNORE_NACK) then ret else RT_EOK)
  else retM RT_EOK.

(** The message loop of [i2c_bit_xfer]: [ret], the last message looked at (the
    one [out:] reads the flags of) and the messages with their buffers. *)
Fixpoint xfer_msgs (i : Z) (last : option rt_i2c_msg) (msgs : list rt_i2c_msg)
  : M (Z * option rt_i2c_msg * list rt_i2c_msg) :=
  match msgs with
  | [] => retM (i, last, [])
  | msg :: rest =>
      let! ret := xfer_start i msg in
      if negb (ret =? RT_EOK) then retM (ret, Some msg, msg :: rest)
      else
        let! 'p := xfer_data msg in
        if fst p <? mlen msg then retM (fst p, Some msg, snd p :: rest)
        else
          let! 'q := xfer_msgs (i + 1) (Some msg) rest in
          retM (fst (fst q), snd (fst q), snd p :: snd q)
  end.

(** [None] on an empty message array, whose [msg] is uninitialised. *)
Definition i2c_bit_xfer (msgs : list rt_i2c_msg) : M (Z * list rt_i2c_msg) :=
  let! 'q := xfer_msgs 0 None msgs in
  match snd (fst q) with
  | None => failM
  | Some msg =>
      do! (if negb (tst (mflags msg) RT_I2C_NO_STOP) then i2c_stop else retM tt) in
      retM (fst (fst q), snd q)
  end.

Definition rt_i2c_transfer (msgs : list rt_i2c_msg) : M (Z * list rt_i2c_msg) :=
  do! doM mutex_take in
  let! 'r := i2c_bit_xfer msgs in
  do! doM mutex_release in
  retM r.

Definition rt_i2c_master_send (addr flags : Z) (buf : list Z) : M Z :=
  let! 'r := rt_i2c_transfer [I2cMsg addr flags (u16 (Z.of_nat (length buf))) buf] in
  retM (if 0 <? fst r then Z.of_nat (length buf) else fst r).

Definition rt_i2c_master_recv (addr flags : Z) (buf : list Z) : M (Z * list Z) :=
  let! 'r := rt_i2c_transfer
    [I2cMsg addr (Z.lor flags RT_I2C_RD) (u16 (Z.of_nat (length buf))) buf] in
  retM (if 0 <? fst r then Z.of_nat (length buf) else fst r,
        match snd r with m :: _ => mbuf m | [] => buf end).

(** drivers/drv_soft_i2c.c: the pins are released ([stm32_i2c_gpio_init]),
    then a slave that holds the data line is clocked out. *)
Definition stm32_i2c_gpio_init : M unit :=
  do! doM (set_scl 1) in doM (set_sda 1).

Fixpoint unlock_pulses (n : nat) : M unit :=
  match n with
  | O => retM tt
  | S k => do! doM (set_scl 1) in do! doM (udelay 100) in
           do! doM (set_scl 0) in do! doM (udelay 100) in unlock_pulses k
  end.

Definition stm32_i2c_bus_unlock : M Z :=
  let! v := getM get_sda in
  do! (if v =? 0 then unlock_pulses 9 else retM tt) in
  let! v := getM get_sda in
  retM (if v =? 0 then - RT_ERROR else RT_EOK).

(** [rt_hw_i2c_init] for one bus. *)
Definition rt_hw_i2c_init : M Z :=
  do! stm32_i2c_gpio_init in let! _r := stm32_i2c_bus_unlock in retM RT_EOK.
End BitBang.

(** What the kernel's time promises: an unbounded clock behind the 32-bit
    tick counter, that a delay advances by at least its argument and a line
    poll not by days (2^28 ticks are 3 days). *)
Class I2cTime (HW : Type) `{I2cBitOps HW} := {
  clk : HW -> Z;
  tick_clk : forall hw, rt_tick_get hw = u32 (clk hw);
  scl_clk : forall hw, clk hw <= clk (snd (get_scl hw)) <= clk hw + 2 ^ 28;
  delay_clk : forall d hw, clk hw + d <= clk (rt_thread_delay d hw) <= clk hw + d + 2 ^ 28 }.

(** [m] returns, whatever the state, with a result that satisfies [P]. *)
Definition returns {S A} (m : M S A) (P : A -> Prop) : Prop :=
  forall s, exists a s', m s = Some (a, s') /\ P a.

(** [stm32_udelay]: the count of elapsed SysTick cycles over the successive
    values read from the down-counter; the readings left when it returns, or
    [None] if they end before it does. *)
Fixpoint udelay_spin (reload ticks told tcnt : Z) (reads : list Z) : option (list Z) :=
  match reads with
  | [] => None
  | tnow :: r =>
      if negb (tnow =? told) then
        let tcnt := if tnow <? told then tcnt +u32 (told - tnow)
                    else tcnt +u32 (reload - tnow + told) in
        if ticks <=? tcnt then Some r else udelay_spin reload ticks tnow tcnt r
      else udelay_spin reload ticks told tcnt r
  end.

Definition udelay_ticks (reload us : Z) : Z := u32 (us * reload) / (1000000 / 1000).

Definition stm32_udelay (reload us : Z) (reads : list Z) : option (list Z) :=
  match reads with
  | [] => None
  | told :: r => udelay_spin reload (udelay_ticks reload us) told 0 r
  end.

(* ------------------------------------------------------------------ *)
(** ** A bus and its observer

    The master drives the two lines; a slave drives the data line.  [l_slots]
    lists the level the slave gives the data line in the current clock period
    (its head; 1 is released) and in the following ones: it changes its level
    on the falling edge of the clock, as the I2C specification requires.  The
    observer records START and STOP (the data line moving while the clock is
    high) and, on a falling edge, the bit of a clock pulse that held neither;
    the newest event is first. *)
Inductive bus_event := EvStart | EvStop | EvBit (b : Z) | EvTake | EvRelease.

Record lines := Lines {
  l_sda : Z; l_scl : Z; l_slots : list Z; l_cond : bool; l_ev : list bus_event; l_now : Z }.

Definition slot (sl : list Z) : Z := match sl with [] => 1 | c :: _ => c end.

Definition lines_set_sda (v : Z) (l : lines) : lines :=
  let v := if v =? 0 then 0 else 1 in
  let old := Z.land (l_sda l) (slot (l_slots l)) in
  let new := Z.land v (slot (l_slots l)) in
  if (l_scl l =? 1) && negb (old =? new)
  then Lines v (l_scl l) (l_slots l) true
             ((if new =? 0 then EvStart else EvStop) :: l_ev l) (l_now l)
  else Lines v (l_scl l) (l_slots l) (l_cond l) (l_ev l) (l_now l).

Definition lines_set_scl (v : Z) (l : lines) : lines :=
  let v := if v =? 0 then 0 else 1 in
  if (l_scl l =? 1) && (v =? 0)
  then Lines (l_sda l) 0 (tail (l_slots l)) false
             (if l_cond l then l_ev l
              else EvBit (Z.land (l_sda l) (slot (l_slots l))) :: l_ev l) (l_now l)
  else Lines (l_sda l) v (l_slots l) (l_cond l) (l_ev l) (l_now l).

#[export] Instance lines_ops : I2cBitOps lines := {|
  set_sda := lines_set_sda;
  set_scl := lines_set_scl;
  get_sda l := (Z.land (l_sda l) (slot (l_slots l)), l);
  get_scl l := (l_scl l, l);
  udelay _ l := l;
  rt_tick_get l := u32 (l_now l);
  rt_thread_delay d l := Lines (l_sda l) (l_scl l) (l_slots l) (l_cond l) (l_ev l) (l_now l + d);
  mutex_take l := Lines (l_sda l) (l_scl l) (l_slots l) (l_cond l) (EvTake :: l_ev l) (l_now l);
  mutex_release l := Lines (l_sda l) (l_scl l) (l_slots l) (l_cond l) (EvRelease :: l_ev l) (l_now l) |}.

(** *** What a transfer puts on the bus *)
Definition bits8 (b : Z) : list Z :=
  map (fun k => Z.land (Z.shiftr b k) 1) [7; 6; 5; 4; 3; 2; 1; 0].

(** A byte the master sends, with its acknowledge bit. *)
Definition sent_byte (ack : Z) (b : Z) : list bus_event := map EvBit (bits8 b) ++ [EvBit ack].

(** Bytes the master receives: it acknowledges all but the last. *)
Fixpoint received_bytes (l : list Z) : list bus_event :=
  match l with
  | [] => []
  | b :: r => map EvBit (bits8 b) ++ EvBit (match r with [] => 1 | _ => 0 end) :: received_bytes r
  end.

(** The address byte of a 7-bit message. *)
Definition addr_byte (msg : rt_i2c_msg) : Z :=
  let a := u8 (Z.shiftl (maddr msg) 1) in
  if tst (mflags msg) RT_I2C_RD then Z.lor a 1 else a.

Definition msg_events (msg : rt_i2c_msg) (data : list Z) : list bus_event :=
  EvStart :: sent_byte 0 (addr_byte msg) ++
  (if tst (mflags msg) RT_I2C_RD then received_bytes data
   else concat (map (sent_byte 0) data)).

(** What a slave does that acknowledges every byte and, when read, sends
    [data]: released before the START, then one level per clock pulse. *)
Definition msg_slots (msg : rt_i2c_msg) (data : list Z) : list Z :=
  1 :: repeat 1 8 ++ 0 ::
  (if tst (mflags msg) RT_I2C_RD then concat (map (fun b => bits8 b ++ [1]) data)
   else concat (map (fun _ => repeat 1 8 ++ [0]) data)).

(** A message a driver passes: 7-bit address, no option flag, a buffer that
    holds its [mlen] bytes; [data] is what it transfers. *)
Record msg_ok (msg : rt_i2c_msg) (data : list Z) : Prop := {
  mo_addr : tst (mflags msg) RT_I2C_ADDR_10BIT = false;
  mo_start : tst (mflags msg) RT_I2C_NO_START = false;
  mo_nack : tst (mflags msg) RT_I2C_IGNORE_NACK = false;
  mo_ack : tst (mflags msg) RT_I2C_NO_READ_ACK = false;
  mo_stop : tst (mflags msg) RT_I2C_NO_STOP = false;
  mo_len : mlen msg = Z.of_nat (length data);
  mo_data : if tst (mflags msg) RT_I2C_RD
            then Forall is_u8 data /\ (length data <= length (mbuf msg))%nat
            else exists r, mbuf msg = data ++ r }.

(** The message once transferred: a read stored its data. *)
Definition msg_done (msg : rt_i2c_msg) (data : list Z) : rt_i2c_msg :=
  if tst (mflags msg) RT_I2C_RD
  then I2cMsg (maddr msg) (mflags msg) (mlen msg) (data ++ skipn (length data) (mbuf msg))
  else msg.

(** *** Steps of the master on [lines] *)
Lemma SCL_H_lines bus sda sl c tr now :
  SCL_H bus (Lines sda 0 sl c tr now) = Some (RT_EOK, Lines sda 1 sl c tr now).
Proof. unfold SCL_H, bindM, doM. cbn. by destruct (has_get_scl bus). Qed.

Lemma land_1_cases x : Z.land x 1 = 0 \/ Z.land x 1 = 1.
Proof.
  replace (Z.land x 1) with (x mod 2) by (symmetry; exact (Z.land_ones x 1 ltac:(lia))).
  pose proof (Z.mod_pos_bound x 2 ltac:(lia)). lia.
Qed.

Lemma bit_norm x : Z.land (if Z.land x 1 =? 0 then 0 else 1) 1 = Z.land x 1.
Proof. by destruct (land_1_cases x) as [-> | ->]. Qed.

Ltac i2c_run :=
  repeat first
    [ rewrite SCL_H_lines
    | progress cbn [bindM doM retM getM SDA_L SDA_H SCL_L i2c_delay i2c_delay2 set_sda set_scl get_sda
        udelay lines_ops lines_set_sda lines_set_scl l_sda l_scl l_slots l_cond l_ev l_now
        slot tail andb negb fst snd Z.eqb Pos.eqb Z.ltb Z.compare RT_EOK ] ].

Lemma i2c_writeb_lines bus data sda ack sl tr now : ack = 0 \/ ack = 1 ->
  i2c_writeb bus data (Lines sda 0 (repeat 1 8 ++ ack :: sl) false tr now)
  = Some (1 - ack, Lines 1 0 sl false (rev (sent_byte ack data) ++ tr) now).
Proof.
  intros Ha. unfold i2c_writeb, i2c_waitack, write_bits, bindM. cbn [repeat app].
  i2c_run. rewrite !bit_norm. by destruct Ha as [-> | ->].
Qed.

Definition byte_of_bits (l : list Z) : Z :=
  fold_left (fun d x => Z.lor (u8 (Z.shiftl d 1)) x) l 0.

Lemma byte_of_bits8 b : is_u8 b -> byte_of_bits (bits8 b) = b.
Proof.
  intros Hb.
  assert (all_below 256 (fun b => byte_of_bits (bits8 b) =? b) = true)
    as E by (vm_compute; reflexivity).
  by apply Z.eqb_eq, (all_below_spec _ _ b E).
Qed.

Lemma bits8_bits b : Forall (fun x => x = 0 \/ x = 1) (bits8 b).
Proof. unfold bits8. rewrite Forall_map. apply Forall_true. intros k. apply land_1_cases. Qed.

Lemma read_bits_lines bus l d sl tr now : Forall (fun x => x = 0 \/ x = 1) l ->
  read_bits bus (length l) d (Lines 1 0 (l ++ sl) false tr now)
  = Some (fold_left (fun d x => Z.lor (u8 (Z.shiftl d 1)) x) l d,
          Lines 1 0 sl false (rev (map EvBit l) ++ tr) now).
Proof.
  intros Hl. revert d tr; induction Hl as [|x l Hx Hl IH]; intros d tr; [done|].
  cbn [length read_bits app map fold_left rev]. unfold bindM. i2c_run. rewrite IH.
  rewrite <- app_assoc. cbn [app]. destruct Hx as [-> | ->]; [|done].
  cbn [Z.land Z.eqb]. by rewrite Z.lor_0_r.
Qed.

Lemma i2c_readb_lines bus b sda c sl tr now : is_u8 b ->
  i2c_readb bus (Lines sda 0 (bits8 b ++ c :: sl) false tr now)
  = Some (b, Lines 1 0 (c :: sl) false (rev (map EvBit (bits8 b)) ++ tr) now).
Proof.
  intros Hb. rewrite <- (byte_of_bits8 b Hb) at 2. exact (read_bits_lines bus _ 0 (c :: sl) tr now (bits8_bits b)).
Qed.

Lemma send_ack_lines bus k c sl sda tr now : slot (c :: sl) = 1 -> sda = 1 ->
  i2c_send_ack_or_nack bus (Z.of_nat k) (Lines sda 0 (c :: sl) false tr now)
  = Some (RT_EOK, Lines (if (k =? 0)%nat then 1 else 0) 0 sl false
                    (EvBit (if (k =? 0)%nat then 1 else 0) :: tr) now).
Proof.
  cbn. intros -> ->. unfold i2c_send_ack_or_nack, bindM.
  replace (Z.of_nat k =? 0) with (k =? 0)%nat by (destruct k; [done|by symmetry; apply Z.eqb_neq]).
  destruct (k =? 0)%nat; i2c_run; reflexivity.
Qed.

Lemma rev_app_tr {A} (a b tr : list A) : rev b ++ rev a ++ tr = rev (a ++ b) ++ tr.
Proof. by rewrite rev_app_distr, app_assoc. Qed.

Lemma i2c_send_bytes_lines bus data buf n sda sl tr now : 
  i2c_send_bytes bus (length data) (data ++ buf) false n
    (Lines sda 0 (concat (map (fun _ => repeat 1 8 ++ [0]) data) ++ sl) false tr now)
  = Some (n + Z.of_nat (length data),
          Lines (if (length data =? 0)%nat then sda else 1) 0 sl false
            (rev (concat (map (sent_byte 0) data)) ++ tr) now).
Proof.
  revert n sda tr; induction data as [|b data IH]; intros n sda tr;
    cbn [length app map concat i2c_send_bytes].
  { by rewrite Z.add_0_r. }
  rewrite <- !app_assoc. cbn [app]. rewrite (bindM_some _ _ _ _ _ (i2c_writeb_lines bus b sda 0 _ tr now (or_introl eq_refl))).
  change (0 <? 1 - 0) with true. cbn [orb]. rewrite IH, rev_app_tr.
  cbn [Nat.eqb]. replace (n + 1 + Z.of_nat (length data)) with (n + Z.of_nat (S (length data))) by lia.
  by destruct (length data).
Qed.

Lemma i2c_recv_bytes_lines bus flags data n sda sl tr now :
  Forall is_u8 data -> tst flags RT_I2C_NO_READ_ACK = false ->
  exists sda',
  i2c_recv_bytes bus (length data) flags n
    (Lines sda 0 (concat (map (fun b => bits8 b ++ [1]) data) ++ sl) false tr now)
  = Some ((n + Z.of_nat (length data), data),
          Lines sda' 0 sl false (rev (received_bytes data) ++ tr) now).
Proof.
  intros Hd Hf. revert n sda tr; induction Hd as [|b data Hb Hd IH]; intros n sda tr;
    cbn [length app map concat i2c_recv_bytes].
  { exists sda. by rewrite Z.add_0_r. }
  rewrite <- !app_assoc. cbn [app].
  rewrite (bindM_some _ _ _ _ _ (i2c_readb_lines bus b sda 1 _ tr now Hb)).
  rewrite (proj2 (Z.leb_le 0 b)) by (unfold is_u8 in Hb; lia). rewrite Hf. cbn [negb].
  rewrite (bindM_some _ _ _ _ _ (send_ack_lines bus (length data) 1 _ 1 _ now eq_refl eq_refl)).
  cbn [RT_EOK Z.ltb Z.compare].
  destruct (IH (n + 1) (if (length data =? 0)%nat then 1 else 0)
    (EvBit (if (length data =? 0)%nat then 1 else 0) :: rev (map EvBit (bits8 b)) ++ tr)) as [sda' E].
  exists sda'. rewrite (bindM_some _ _ _ _ _ E). cbn [fst snd received_bytes]. unfold retM.
  replace (match data with [] => 1 | _ :: _ => 0 end)
    with (if (length data =? 0)%nat then 1 else 0) by (by destruct data).
  rewrite rev_app_distr. cbn [rev]. rewrite <- !app_assoc. cbn [app].
  by replace (n + 1 + Z.of_nat (length data)) with (n + Z.of_nat (S (length data))) by lia.
Qed.

Lemma i2c_start_lines bus sl c tr now sda : sda = 1 ->
  i2c_start bus (Lines sda 1 (1 :: sl) c tr now)
  = Some (tt, Lines 0 0 sl false (EvStart :: tr) now).
Proof. intros ->. reflexivity. Qed.

Lemma i2c_restart_lines bus sl sda tr now :
  i2c_restart bus (Lines sda 0 (1 :: sl) false tr now)
  = Some (tt, Lines 0 0 sl false (EvStart :: tr) now).
Proof. unfold i2c_restart, bindM. i2c_run. reflexivity. Qed.

Lemma i2c_stop_lines bus sl sda tr now :
  i2c_stop bus (Lines sda 0 (1 :: sl) false tr now)
  = Some (tt, Lines 1 1 (1 :: sl) true (EvStop :: tr) now).
Proof. unfold i2c_stop, bindM. i2c_run. reflexivity. Qed.


Lemma send_address_lines bus a sda sl tr now turns : (0 < turns)%nat ->
  send_address_turns bus turns a (Lines sda 0 (repeat 1 8 ++ 0 :: sl) false tr now)
  = Some (1, Lines 1 0 sl false (rev (sent_byte 0 a) ++ tr) now).
Proof.
  intros Ht. destruct turns as [|k]; [lia|]. cbn [send_address_turns].
  by rewrite (bindM_some _ _ _ _ _ (i2c_writeb_lines bus a sda 0 sl tr now (or_introl eq_refl))).
Qed.

(** The bus before the [i]-th message of a transfer, the slave released. *)
Definition ready (i : Z) (l : lines) : Prop :=
  if i =? 0 then l_sda l = 1 /\ l_scl l = 1 else l_scl l = 0 /\ l_cond l = false.

Lemma xfer_start_lines bus i m data l sl :
  msg_ok m data -> 0 <= s32 (retries bus) -> ready i l -> l_slots l = 1 :: repeat 1 8 ++ 0 :: sl ->
  xfer_start bus i m l
  = Some (RT_EOK, Lines 1 0 sl false
                    (rev (EvStart :: sent_byte 0 (addr_byte m)) ++ l_ev l) (l_now l)).
Proof.
  intros [Ha Hs Hn _ _ _ _] Hr Hl Hsl. unfold xfer_start. rewrite Hs. cbn [negb].
  destruct l as [sda scl slots c tr now]; cbn in Hsl |- *; subst slots.
  assert ((if negb (i =? 0) then i2c_restart bus else i2c_start bus)
            (Lines sda scl (1 :: repeat 1 8 ++ 0 :: sl) c tr now)
          = Some (tt, Lines 0 0 (repeat 1 8 ++ 0 :: sl) false (EvStart :: tr) now)) as E.
  { unfold ready in Hl. destruct (i =? 0); cbn in Hl; destruct Hl as [-> ->]; cbn [negb].
    - by apply i2c_start_lines.
    - apply i2c_restart_lines. }
  rewrite (bindM_some _ _ _ _ _ E). unfold i2c_bit_send_address. rewrite Ha, Hn. fold (addr_byte m).
  unfold i2c_send_address, bindM. rewrite send_address_lines by lia.
  reflexivity.
Qed.

Lemma xfer_data_lines bus m data sl tr now : msg_ok m data ->
  exists sda, xfer_data bus m
    (Lines 1 0 ((if tst (mflags m) RT_I2C_RD then concat (map (fun b => bits8 b ++ [1]) data)
                 else concat (map (fun _ => repeat 1 8 ++ [0]) data)) ++ sl) false tr now)
  = Some ((mlen m, msg_done m data),
          Lines sda 0 sl false
            (rev (if tst (mflags m) RT_I2C_RD then received_bytes data
                  else concat (map (sent_byte 0) data)) ++ tr) now).
Proof.
  intros [_ _ Hn Hk _ Hl Hd]. unfold xfer_data, msg_done. rewrite Hl, Nat2Z.id.
  destruct (tst (mflags m) RT_I2C_RD).
  - destruct Hd as [Hd Hlen].
    destruct (i2c_recv_bytes_lines bus (mflags m) data 0 1 sl tr now Hd Hk) as [sda E].
    exists sda. rewrite (bindM_some _ _ _ _ _ E). cbn [fst snd].
    rewrite (proj2 (Z.ltb_ge _ _)), Z.add_0_l, Z.ltb_irrefl by lia. done.
  - destruct Hd as [r Hb]. rewrite Hn, Hb. eexists.
    rewrite (bindM_some _ _ _ _ _ (i2c_send_bytes_lines bus data r 0 1 sl tr now)).
    by rewrite Z.add_0_l, Z.ltb_irrefl.
Qed.

Abbreviation slots_of := (fun p : rt_i2c_msg * list Z => msg_slots (fst p) (snd p)).
Abbreviation events_of := (fun p : rt_i2c_msg * list Z => msg_events (fst p) (snd p)).
Abbreviation done_of := (fun p : rt_i2c_msg * list Z => msg_done (fst p) (snd p)).

Lemma xfer_msgs_lines bus l i last st sl :
  Forall (fun p => msg_ok (fst p) (snd p)) l -> 0 <= s32 (retries bus) ->
  0 <= i -> ready i st -> l_slots st = concat (map slots_of l) ++ sl ->
  exists sda, xfer_msgs bus i last (map fst l) st
    = Some ((i + Z.of_nat (length l),
             match rev (map fst l) with [] => last | m :: _ => Some m end, map done_of l),
            match l with
            | [] => st
            | _ => Lines sda 0 sl false (rev (concat (map events_of l)) ++ l_ev st) (l_now st)
            end).
Proof.
  intros Hok Hr. revert i last st; induction Hok as [|[m data] l Hm Hl IH]; intros i last st Hi Hst Hsl.
  { exists 0. cbn. unfold retM. by rewrite Z.add_0_r. }
  cbn [fst snd map concat] in Hm, Hsl |- *. cbn [xfer_msgs].
  unfold msg_slots in Hsl. cbn [app] in Hsl. rewrite <- !app_assoc in Hsl. cbn [app] in Hsl.
  rewrite (bindM_some _ _ _ _ _ (xfer_start_lines bus i m data st _ Hm Hr Hst Hsl)).
  change (negb (RT_EOK =? RT_EOK)) with false. cbn iota.
  destruct (xfer_data_lines bus m data (concat (map slots_of l) ++ sl)
              (rev (EvStart :: sent_byte 0 (addr_byte m)) ++ l_ev st) (l_now st) Hm) as [sda E].
  rewrite (bindM_some _ _ _ _ _ E). cbn [fst snd]. rewrite Z.ltb_irrefl.
  rewrite rev_app_tr in *. fold (msg_events m data) in *.
  set (st1 := Lines sda 0 _ false _ _).
  destruct (IH (i + 1) (Some m) st1 ltac:(lia)) as [sda' E'].
  { unfold ready. rewrite (proj2 (Z.eqb_neq (i + 1) 0)) by lia. by split. }
  { done. }
  exists (match l with [] => sda | _ => sda' end). rewrite (bindM_some _ _ _ _ _ E'). cbn [fst snd length]. unfold retM.
  replace (i + 1 + Z.of_nat (length l)) with (i + Z.of_nat (S (length l))) by lia.
  f_equal. apply pair_eq. split.
  - do 2 f_equal. cbn [rev]. destruct (rev (map fst l)); done.
  - destruct l as [|p l']; subst st1; cbn [l_ev l_now].
    + cbn [map concat]. by rewrite app_nil_r.
    + by rewrite rev_app_tr.
Qed.

Lemma bit_xfer_lines bus l st sl :
  (0 < length l)%nat -> Forall (fun p => msg_ok (fst p) (snd p)) l -> 0 <= s32 (retries bus) ->
  ready 0 st -> l_slots st = concat (map slots_of l) ++ 1 :: sl ->
  i2c_bit_xfer bus (map fst l) st
  = Some ((Z.of_nat (length l), map done_of l),
          Lines 1 1 (1 :: sl) true
            (EvStop :: rev (concat (map events_of l)) ++ l_ev st) (l_now st)).
Proof.
  intros Hn Hok Hr Hst Hsl. unfold i2c_bit_xfer.
  destruct (xfer_msgs_lines bus l 0 None st (1 :: sl) Hok Hr ltac:(lia) Hst Hsl) as [sda E].
  rewrite (bindM_some _ _ _ _ _ E). cbn [fst snd].
  destruct (rev (map fst l)) as [|m r] eqn:R.
  { apply (f_equal (@length _)) in R. rewrite length_rev, length_map in R. simpl in R. lia. }
  assert (tst (mflags m) RT_I2C_NO_STOP = false) as ->.
  { assert (In m (map fst l)) as Hin by (rewrite in_rev, R; by left).
    apply in_map_iff in Hin as ([m' d] & <- & Hin). rewrite Forall_forall in Hok.
    apply list_elem_of_In, Hok in Hin. apply Hin. }
  cbn [negb]. destruct l as [|p l]; [simpl in Hn; lia|].
  rewrite (bindM_some _ _ _ _ _ (i2c_stop_lines bus sl sda _ _)). by rewrite Z.add_0_l.
Qed.

(* ------------------------------------------------------------------ *)
(** ** Termination on any hardware *)

Section Terminates.
Context {HW : Type} `{I2cTime HW}.
Variable bus : i2c_bus.
Hypothesis Htime : 1 <= op_timeout bus <= 2 ^ 28.
Abbreviation always := (fun _ => True).

Lemma returns_bind {A B} (m : M HW A) (k : A -> M HW B) P Q :
  returns m P -> (forall a, P a -> returns (k a) Q) -> returns (bindM m k) Q.
Proof.
  intros Hm Hk s. destruct (Hm s) as (a & s' & E & Pa). destruct (Hk a Pa s') as (b & s2 & E2 & Qb).
  exists b, s2. unfold bindM. by rewrite E.
Qed.

Lemma returns_ret {A} (a : A) (P : A -> Prop) : P a -> returns (S := HW) (retM a) P.
Proof. intros Pa s. by exists a, s. Qed.

Lemma returns_do f : returns (S := HW) (doM f) always.
Proof. intros s. by exists tt, (f s). Qed.

Lemma returns_get {A} (f : HW -> A * HW) : returns (getM f) always.
Proof. intros s. exists (fst (f s)), (snd (f s)). unfold getM. by destruct (f s). Qed.

Lemma returns_weaken {A} (m : M HW A) (P Q : A -> Prop) :
  returns m P -> (forall a, P a -> Q a) -> returns m Q.
Proof. intros Hm HPQ s. destruct (Hm s) as (a & s' & ? & ?). exists a, s'. auto. Qed.

Lemma SCL_wait_S k start : SCL_wait bus (S k) start =
  (let! v := getM get_scl in
   if negb (v =? 0) then retM RT_EOK
   else
     let! now := getM (fun hw => (rt_tick_get hw, hw)) in
     if op_timeout bus <? now -u32 start then retM (- RT_ETIMEOUT)
     else do! doM (rt_thread_delay (Z.shiftr (op_timeout bus + 1) 1)) in
          SCL_wait bus k start).
Proof. reflexivity. Qed.

(** The wait polls the line at most [SCL_POLLS] times: after [3 - n] delays
    the clock has advanced by that many half time-outs. *)
Lemma SCL_wait_returns n (start : Z) hw c0 :
  (n <= 3)%nat -> start = u32 c0 ->
  (3 - Z.of_nat n) * ((op_timeout bus + 1) / 2) <= clk hw - c0 <= (3 - Z.of_nat n) * 2 ^ 30 ->
  exists r hw', SCL_wait bus (S n) start hw = Some (r, hw').
Proof.
  assert (Z.shiftr (op_timeout bus + 1) 1 = (op_timeout bus + 1) / 2) as Hh
    by (by rewrite Z.shiftr_div_pow2).
  pose proof (Z.div_mod (op_timeout bus + 1) 2 ltac:(lia)) as Hd.
  pose proof (Z.mod_pos_bound (op_timeout bus + 1) 2 ltac:(lia)) as Hm.
  intros Hn Hs. revert hw; induction n as [|n IH]; intros hw Hc;
    rewrite SCL_wait_S; unfold bindM, getM;
    pose proof (scl_clk hw) as Hscl; destruct (get_scl hw) as [v hw1]; cbn [snd] in Hscl;
    (destruct (negb (v =? 0)); [by eexists _, _|]); cbv beta iota;
    rewrite tick_clk, Hs; unfold wrapu; rewrite <- Zminus_mod, Z.mod_small by nia.
  - rewrite (proj2 (Z.ltb_lt _ _)) by lia. by eexists _, _.
  - destruct (Z.ltb_spec (op_timeout bus) (clk hw1 - c0)); [by eexists _, _|].
    unfold doM. rewrite Hh. fold (u32 c0). rewrite <- Hs. pose proof (delay_clk ((op_timeout bus + 1) / 2) hw1).
    destruct (IH ltac:(lia) (rt_thread_delay ((op_timeout bus + 1) / 2) hw1)) as (r & hw' & E);
      [lia|]. rewrite E. by eexists _, _.
Qed.

Lemma SCL_H_returns : returns (SCL_H bus) always.
Proof.
  intros hw. unfold SCL_H, bindM, doM, getM. set (hw0 := set_scl 1 hw).
  destruct (negb (has_get_scl bus)); [by eexists _, _|].
  destruct (SCL_wait_returns 3 (rt_tick_get hw0) hw0 (clk hw0)) as (r & hw' & E);
    [lia|apply tick_clk|lia|].
  unfold SCL_POLLS. rewrite E. destruct (r =? RT_EOK); by eexists _, _.
Qed.

Create HintDb i2c.
#[local] Hint Resolve SCL_H_returns returns_do returns_get : i2c.

(** One step of a handler: its first operation returns, then the rest. *)
Ltac returns_tac :=
  repeat first
    [ apply returns_ret; first [exact I | lia]
    | match goal with |- returns (if ?b then _ else _) _ => destruct b end
    | eapply returns_bind; [solve [eauto with i2c] | intros ? ?]
    | solve [eauto with i2c] ].

Lemma i2c_start_returns : returns (i2c_start bus) always.
Proof. unfold i2c_start, SDA_L, SCL_L, i2c_delay. returns_tac. Qed.
Lemma i2c_restart_returns : returns (i2c_restart bus) always.
Proof. unfold i2c_restart, SDA_L, SDA_H, SCL_L, i2c_delay. returns_tac. Qed.
Lemma i2c_stop_returns : returns (i2c_stop bus) always.
Proof. unfold i2c_stop, SDA_L, SDA_H, i2c_delay, i2c_delay2. returns_tac. Qed.
Lemma i2c_waitack_returns : returns (i2c_waitack bus) always.
Proof. unfold i2c_waitack, SDA_H, SCL_L, i2c_delay. returns_tac. Qed.
#[local] Hint Resolve i2c_start_returns i2c_restart_returns i2c_stop_returns i2c_waitack_returns : i2c.

Lemma write_bits_returns i data : returns (write_bits bus i data) always.
Proof.
  induction i as [|i IH]; cbn [write_bits]; unfold SCL_L, i2c_delay; returns_tac.
Qed.
#[local] Hint Resolve write_bits_returns : i2c.

Lemma i2c_writeb_returns data : returns (i2c_writeb bus data) always.
Proof. unfold i2c_writeb, SCL_L, i2c_delay. returns_tac. Qed.

Lemma read_bits_returns n data : returns (read_bits bus n data) always.
Proof.
  revert data; induction n as [|n IH]; intros data; cbn [read_bits]; unfold SCL_L, i2c_delay2;
    returns_tac.
Qed.
#[local] Hint Resolve i2c_writeb_returns read_bits_returns : i2c.

Lemma i2c_readb_returns : returns (i2c_readb bus) always.
Proof. unfold i2c_readb, SDA_H, i2c_delay. returns_tac. Qed.

Lemma i2c_send_ack_returns k : returns (i2c_send_ack_or_nack bus k) always.
Proof.
  unfold i2c_send_ack_or_nack, SCL_L, i2c_delay.
  eapply returns_bind; [destruct (negb _); [apply returns_do | apply returns_ret; exact I]|].
  intros ? _. returns_tac.
Qed.
#[local] Hint Resolve i2c_readb_returns i2c_send_ack_returns : i2c.

Lemma i2c_send_bytes_returns count buf ig bytes : (count <= length buf)%nat ->
  returns (i2c_send_bytes bus count buf ig bytes) always.
Proof.
  revert buf bytes; induction count as [|k IH]; intros [|b buf] bytes Hl; cbn [i2c_send_bytes length] in *;
    try lia; try (by apply returns_ret).
  eapply returns_bind; [apply i2c_writeb_returns|]. intros r _.
  destruct (_ || _); [apply IH; lia|]. returns_tac.
Qed.

Lemma i2c_recv_bytes_returns count flags bytes :
  returns (i2c_recv_bytes bus count flags bytes) (fun p => (length (snd p) <= count)%nat).
Proof.
  revert bytes; induction count as [|k IH]; intros bytes; cbn [i2c_recv_bytes];
    [by apply returns_ret|].
  eapply returns_bind; [apply i2c_readb_returns|]. intros v _.
  assert (forall b, returns (let! 'p := i2c_recv_bytes bus k flags b in retM (fst p, v :: snd p))
            (fun p => (length (snd p) <= S k)%nat)) as Hrest.
  { intros b. eapply returns_bind; [apply IH|]. intros p Hp. apply returns_ret.
    cbn in Hp |- *. lia. }
  destruct (0 <=? v); [|apply returns_ret; cbn; lia].
  destruct (negb _); [|apply Hrest].
  eapply returns_bind; [apply i2c_send_ack_returns|]. intros e _.
  destruct (e <? 0); [apply returns_ret; cbn; lia | apply Hrest].
Qed.

Lemma send_address_turns_returns turns a : returns (send_address_turns bus turns a) always.
Proof.
  induction turns as [|k IH]; cbn [send_address_turns]; unfold i2c_delay2; returns_tac.
Qed.
#[local] Hint Resolve send_address_turns_returns : i2c.

Lemma i2c_bit_send_address_returns m : returns (i2c_bit_send_address bus m) always.
Proof. unfold i2c_bit_send_address, i2c_send_address. cbv zeta. returns_tac. Qed.
#[local] Hint Resolve i2c_bit_send_address_returns : i2c.

Lemma xfer_start_returns i m : returns (xfer_start bus i m) always.
Proof.
  unfold xfer_start. destruct (negb (tst _ _)); [|by apply returns_ret].
  eapply returns_bind; [destruct (negb (i =? 0)); eauto with i2c|]. intros ? _. returns_tac.
Qed.

Definition msg_fits (m : rt_i2c_msg) : Prop :=
  0 <= mlen m <= Z.of_nat (length (mbuf m)).

Lemma xfer_data_returns m : msg_fits m -> returns (xfer_data bus m) always.
Proof.
  intros [Hz Hl]. unfold xfer_data. destruct (tst _ _).
  - eapply returns_bind; [apply i2c_recv_bytes_returns|]. intros p Hp.
    cbn in Hp. rewrite (proj2 (Z.ltb_ge _ _)) by lia. by apply returns_ret.
  - eapply returns_bind; [apply i2c_send_bytes_returns; lia|]. intros r _. by apply returns_ret.
Qed.

Lemma xfer_msgs_returns i last msgs : Forall msg_fits msgs ->
  returns (xfer_msgs bus i last msgs)
    (fun q => snd (fst q) = None -> msgs = [] /\ last = None).
Proof.
  intros Hm. revert i last; induction Hm as [|m msgs Hm Hms IH]; intros i last; cbn [xfer_msgs];
    [by apply returns_ret|].
  eapply returns_bind; [apply xfer_start_returns|]. intros r _.
  destruct (negb _); [by apply returns_ret|].
  eapply returns_bind; [by apply xfer_data_returns|]. intros p _.
  destruct (_ <? _); [by apply returns_ret|].
  eapply returns_bind; [apply IH|]. intros q Hq. apply returns_ret. cbn. intros E.
  by destruct (Hq E).
Qed.

Lemma rt_i2c_transfer_returns msgs : Forall msg_fits msgs -> msgs <> [] ->
  returns (rt_i2c_transfer bus msgs) always.
Proof.
  intros Hm Hne. unfold rt_i2c_transfer, i2c_bit_xfer.
  eapply returns_bind; [apply returns_do|]. intros ? _.
  eapply (returns_bind _ _ always).
  - eapply returns_bind; [by apply xfer_msgs_returns|]. intros q Hq. cbn in Hq.
    destruct (snd (fst q)) as [m|]; [|by destruct (Hq eq_refl)].
    eapply (returns_bind _ _ always); [|intros; by apply returns_ret].
    destruct (negb _); [apply i2c_stop_returns | by apply returns_ret].
  - intros q _. eapply returns_bind; [apply returns_do|]. intros ? _. by apply returns_ret.
Qed.
End Terminates.

#[export] Instance lines_time : I2cTime lines.
Proof.
  refine {| clk := l_now |}; [done | intros hw; cbn; lia | intros d hw; cbn; lia].
Defined.

(** *** Refused transfers *)
Lemma rt_i2c_transfer_lines bus l sl tr c now :
  (0 < length l)%nat -> Forall (fun p => msg_ok (fst p) (snd p)) l -> 0 <= s32 (retries bus) ->
  rt_i2c_transfer bus (map fst l) (Lines 1 1 (concat (map slots_of l) ++ 1 :: sl) c tr now)
  = Some ((Z.of_nat (length l), map done_of l),
          Lines 1 1 (1 :: sl) true
            (EvRelease :: EvStop :: rev (concat (map events_of l)) ++ EvTake :: tr) now).
Proof.
  intros Hn Hok Hr. unfold rt_i2c_transfer.
  unfold doM at 1. unfold bindM at 1. cbn [mutex_take lines_ops l_sda l_scl l_slots l_cond l_ev l_now].
  rewrite (bindM_some _ _ _ _ _ (bit_xfer_lines bus l
    (Lines 1 1 (concat (map slots_of l) ++ 1 :: sl) c (EvTake :: tr) now)
    sl Hn Hok Hr (conj eq_refl eq_refl) eq_refl)).
  reflexivity.
Qed.

Lemma nack_address_lines bus m data rest sl tr c now :
  msg_ok m data -> retries bus = 0 ->
  rt_i2c_transfer bus (m :: rest) (Lines 1 1 (1 :: repeat 1 8 ++ 1 :: 1 :: sl) c tr now)
  = Some ((- RT_EIO, m :: rest),
          Lines 1 1 (1 :: sl) true
            (EvRelease :: EvStop :: rev (EvStart :: sent_byte 1 (addr_byte m)) ++ EvTake :: tr) now).
Proof.
  intros [Ha Hs Hn _ Hst _ _] Hr. unfold rt_i2c_transfer, i2c_bit_xfer. cbn [xfer_msgs].
  unfold doM at 1. unfold bindM at 1. cbn [mutex_take lines_ops l_sda l_scl l_slots l_cond l_ev l_now].
  unfold xfer_start. rewrite Hs. cbn [negb Z.eqb].
  unfold bindM. rewrite i2c_start_lines by done.
  unfold i2c_bit_send_address. rewrite Ha, Hn, Hr. fold (addr_byte m).
  unfold i2c_send_address. change (Z.to_nat (s32 0 + 1)) with 1%nat. cbn [send_address_turns].
  unfold bindM. rewrite i2c_writeb_lines by (by right).
  change (1 - 1) with 0.
  cbn [Z.eqb Pos.eqb orb negb andb Nat.eqb retM RT_EIO RT_EOK fst snd Z.opp].
  change (if negb (- RT_EIO =? RT_EOK) && true then - RT_EIO else RT_EOK) with (- RT_EIO).
  change (negb (- RT_EIO =? RT_EOK)) with true. cbn [retM fst snd].
  rewrite Hst. cbn [negb]. rewrite i2c_stop_lines. reflexivity.
Qed.

(* ------------------------------------------------------------------ *)
(** ** The microsecond delay *)

(** The values a down-counter of period [reload + 1] shows at the cycles
    [ts], counted from one at which it showed [v0]. *)
Definition systick (reload v0 t : Z) : Z := (v0 - t) mod (reload + 1).

(** Successive readings less than a period apart. *)
Fixpoint sampled (reload t : Z) (ts : list Z) : Prop :=
  match ts with
  | [] => True
  | t' :: r => t <= t' <= t + reload /\ sampled reload t' r
  end.

Lemma systick_step reload v0 t t' : 0 < reload -> t <= t' <= t + reload ->
  let told := systick reload v0 t in let tnow := systick reload v0 t' in
  (tnow = told -> t' = t) /\
  (tnow < told -> told - tnow <= t' - t) /\
  (told < tnow -> 0 <= reload - tnow + told <= t' - t).
Proof.
  intros Hr Ht told tnow. subst told tnow. unfold systick.
  pose proof (Z.div_mod (v0 - t) (reload + 1) ltac:(lia)).
  pose proof (Z.div_mod (v0 - t') (reload + 1) ltac:(lia)).
  pose proof (Z.mod_pos_bound (v0 - t) (reload + 1) ltac:(lia)).
  pose proof (Z.mod_pos_bound (v0 - t') (reload + 1) ltac:(lia)).
  set (q := (v0 - t) / (reload + 1)) in *. set (q' := (v0 - t') / (reload + 1)) in *.
  assert (q' = q \/ q' = q - 1) as [E | E] by nia; rewrite E in *; split_and!; nia.
Qed.

Lemma udelay_spin_elapsed reload v0 ticks t0 t tcnt ts left :
  0 < reload < 2 ^ 24 -> 0 < ticks -> sampled reload t ts ->
  0 <= tcnt <= t - t0 -> tcnt < ticks -> ticks + reload < 2 ^ 32 ->
  udelay_spin reload ticks (systick reload v0 t) tcnt (map (systick reload v0) ts) = Some left ->
  exists pre t', ts = pre ++ t' :: skipn (S (length pre)) ts /\
    left = map (systick reload v0) (skipn (S (length pre)) ts) /\ ticks <= t' - t0.
Proof.
  intros Hrl Htk. revert t tcnt; induction ts as [|t' ts IH]; intros t tcnt Hs Hc Hlt Hov Hrun;
    [done|]. cbn [map udelay_spin sampled] in Hs, Hrun. destruct Hs as [Ht Hs].
  destruct (systick_step reload v0 t t' ltac:(lia) Ht) as (Heq & Hdn & Hup).
  assert (0 <= systick reload v0 t <= reload) by (pose proof (Z.mod_pos_bound (v0 - t) (reload + 1)); unfold systick; lia).
  assert (0 <= systick reload v0 t' <= reload) by (pose proof (Z.mod_pos_bound (v0 - t') (reload + 1)); unfold systick; lia).
  assert (forall tcnt', 0 <= tcnt' <= t' - t0 -> tcnt' < ticks ->
    udelay_spin reload ticks (systick reload v0 t') tcnt' (map (systick reload v0) ts) = Some left ->
    exists pre t'0, t' :: ts = pre ++ t'0 :: skipn (S (length pre)) (t' :: ts) /\
      left = map (systick reload v0) (skipn (S (length pre)) (t' :: ts)) /\ ticks <= t'0 - t0) as Hrec.
  { intros tcnt' H1 H2 H3. destruct (IH t' tcnt' Hs H1 H2 Hov H3) as (pre & u & E1 & E2 & E3).
    exists (t' :: pre), u. cbn [app length skipn]. split; [by f_equal|done]. }
  destruct (Z.eqb_spec (systick reload v0 t') (systick reload v0 t)) as [E|E]; cbn [negb] in Hrun.
  - rewrite <- E in Hrun. apply (Hrec tcnt); [lia|lia|done].
  - set (tcnt1 := if _ <? _ then _ else _) in Hrun.
    assert (0 <= tcnt1 <= t' - t0) as H1.
    { subst tcnt1. destruct (Z.ltb_spec (systick reload v0 t') (systick reload v0 t));
        rewrite u32_small by (unfold is_u32; lia); lia. }
    destruct (Z.leb_spec ticks tcnt1).
    + injection Hrun as <-. exists [], t'. cbn. split; [done|]. split; [done|lia].
    + by apply (Hrec tcnt1).
Qed.

Lemma unlock_pulses_lines n l : exists l', unlock_pulses n l = Some (tt, l') /\
  ((0 < n)%nat -> l_scl l' = 0).
Proof.
  revert l; induction n as [|n IH]; intros l; [by exists l; split; [|lia]|].
  cbn [unlock_pulses]. unfold bindM, doM. set (l1 := udelay _ _).
  assert (l_scl l1 = 0) as H1.
  { subst l1. cbn. unfold lines_set_scl. cbn. by rewrite andb_true_r; destruct (_ =? 1) eqn:?; cbn. }
  destruct n as [|n]; [by exists l1|].
  destruct (IH l1) as (l' & E & E'). exists l'. split; [done|]. intros _. apply E'. lia.
Qed.

Lemma start_clock_low bus l : l_scl l = 0 ->
  exists l', i2c_start bus l = Some (tt, l') /\ l_ev l' = l_ev l.
Proof.
  intros Hl. destruct l as [sda scl sl c tr now]; cbn in Hl; subst scl.
  by eexists (Lines _ _ _ _ _ _).
Qed.

(* ------------------------------------------------------------------ *)
(** ** Properties *)

(** C29: a transfer of any sequence of 7-bit messages to a slave that
    acknowledges puts exactly the I2C frames of those messages on the bus (START or
    repeated START, address byte, data bytes most significant bit first with
    their acknowledge bits, not-acknowledge on the last byte read, one final
    STOP), under the bus lock, stores in the read buffers the bytes the slave
    sent, and returns the number of messages. *)
Theorem i2c_transfer_frames bus l sl tr c now :
  (0 < length l)%nat -> Forall (fun p => msg_ok (fst p) (snd p)) l -> 0 <= s32 (retries bus) ->
  rt_i2c_transfer bus (map fst l)
    (Lines 1 1 (concat (map (fun p => msg_slots (fst p) (snd p)) l) ++ 1 :: sl) c tr now)
  = Some ((Z.of_nat (length l), map (fun p => msg_done (fst p) (snd p)) l),
          Lines 1 1 (1 :: sl) true
            (EvRelease :: EvStop ::
             rev (concat (map (fun p => msg_events (fst p) (snd p)) l)) ++ EvTake :: tr) now).
Proof. apply rt_i2c_transfer_lines. Qed.

Lemma i2c_transfer_frames_witness :
  rt_i2c_transfer stm32_bit_ops_default
    [I2cMsg 0x44 0 2 [0x2C; 0x06]; I2cMsg 0x44 RT_I2C_RD 3 [0; 0; 0; 0]]
    (Lines 1 1 (msg_slots (I2cMsg 0x44 0 2 [0x2C; 0x06]) [0x2C; 0x06] ++
                msg_slots (I2cMsg 0x44 RT_I2C_RD 3 [0; 0; 0; 0]) [7; 8; 9] ++ [1]) false [] 0)
  = Some ((2, [I2cMsg 0x44 0 2 [0x2C; 0x06]; I2cMsg 0x44 RT_I2C_RD 3 [7; 8; 9; 0]]),
          Lines 1 1 [1] true
            (EvRelease :: EvStop :: rev (msg_events (I2cMsg 0x44 0 2 [0x2C; 0x06]) [0x2C; 0x06] ++
              msg_events (I2cMsg 0x44 RT_I2C_RD 3 [0; 0; 0; 0]) [7; 8; 9]) ++ [EvTake]) 0).
Proof.
  apply (i2c_transfer_frames stm32_bit_ops_default
           [(I2cMsg 0x44 0 2 [0x2C; 0x06], [0x2C; 0x06]);
            (I2cMsg 0x44 RT_I2C_RD 3 [0; 0; 0; 0], [7; 8; 9])] [] [] false 0).
  - cbn. lia.
  - repeat constructor; cbn; try lia. by exists [].
  - vm_compute. discriminate.
Defined.

(** C39: on any hardware, whatever levels it shows on the two lines, a
    transfer returns: each wait for the clock line gives up within
    [SCL_POLLS] polls of the line, so neither a slave that holds the clock low
    nor a shorted bus blocks the caller. *)
Theorem i2c_transfer_terminates {HW} `{I2cTime HW} (bus : i2c_bus) msgs hw :
  1 <= op_timeout bus <= 2 ^ 28 -> Forall msg_fits msgs -> msgs <> [] ->
  exists ret msgs' hw', rt_i2c_transfer bus msgs hw = Some ((ret, msgs'), hw').
Proof.
  intros Ht Hm Hne. destruct (rt_i2c_transfer_returns bus Ht msgs Hm Hne hw) as ([r m'] & hw' & E & _).
  by exists r, m', hw'.
Qed.

Lemma i2c_transfer_terminates_witness :
  exists ret msgs' hw',
    rt_i2c_transfer stm32_bit_ops_default [I2cMsg 0x44 RT_I2C_RD 6 (repeat 0 6)]
      (Lines 0 0 [0; 0] false [] 5) = Some ((ret, msgs'), hw').
Proof.
  apply (i2c_transfer_terminates stm32_bit_ops_default).
  - cbn. lia.
  - repeat constructor; cbn; lia.
  - discriminate.
Defined.

(** When no slave acknowledges the address of the first message, the
    transfer ends with a STOP, frees the lock, changes no buffer and returns
    [-RT_EIO]. *)
Theorem i2c_nack_reported bus m data rest sl tr c now :
  msg_ok m data -> retries bus = 0 ->
  rt_i2c_transfer bus (m :: rest) (Lines 1 1 (1 :: repeat 1 8 ++ 1 :: 1 :: sl) c tr now)
  = Some ((- RT_EIO, m :: rest),
          Lines 1 1 (1 :: sl) true
            (EvRelease :: EvStop :: rev (EvStart :: sent_byte 1 (addr_byte m)) ++ EvTake :: tr) now).
Proof. apply nack_address_lines. Qed.

Lemma i2c_nack_reported_witness :
  rt_i2c_transfer stm32_bit_ops_default [I2cMsg 0x44 0 1 [9]] (Lines 1 1 (1 :: repeat 1 8 ++ [1; 1]) false [] 0)
  = Some ((- RT_EIO, [I2cMsg 0x44 0 1 [9]]),
          Lines 1 1 [1] true
            (EvRelease :: EvStop :: rev (EvStart :: sent_byte 1 0x88) ++ [EvTake]) 0).
Proof.
  apply (i2c_nack_reported stm32_bit_ops_default (I2cMsg 0x44 0 1 [9]) [9] []); [|done].
  split; try done. by exists [].
Defined.

(** The microsecond delay of the bus is never too short: if its readings
    of the SysTick counter are less than a period apart, then at the reading
    it returns on, at least [us * reload / 1000] cycles have passed since the
    first one. *)
Theorem udelay_never_short reload v0 us t0 ts left :
  0 < reload < 2 ^ 24 -> 0 < udelay_ticks reload us -> sampled reload t0 ts ->
  stm32_udelay reload us (map (systick reload v0) (t0 :: ts)) = Some left ->
  exists pre t' post, ts = pre ++ t' :: post /\ left = map (systick reload v0) post /\
                      udelay_ticks reload us <= t' - t0.
Proof.
  intros Hr Ht Hs Hrun. cbn [map stm32_udelay] in Hrun.
  assert (udelay_ticks reload us + reload < 2 ^ 32).
  { unfold udelay_ticks. pose proof (u32_range (us * reload)) as [_ ?].
    pose proof (Z.div_lt_upper_bound (u32 (us * reload)) (1000000 / 1000) 4294968 ltac:(done)
                  ltac:(change (1000000 / 1000) with 1000; lia)). lia. }
  destruct (udelay_spin_elapsed reload v0 (udelay_ticks reload us) t0 t0 0 ts left)
    as (pre & t' & E1 & E2 & E3); try done; try lia.
  by exists pre, t', (skipn (S (length pre)) ts).
Qed.

Lemma udelay_never_short_witness :
  exists pre t' post, [100; 300; 500] = pre ++ t' :: post /\ [1480] = map (systick 1999 1980) post /\
                      udelay_ticks 1999 100 <= t' - 0.
Proof.
  apply (udelay_never_short 1999 1980 100 0 [100; 300; 500] [1480]).
  - lia.
  - vm_compute. reflexivity.
  - cbn. lia.
  - vm_compute. reflexivity.
Defined.

(** When the boot finds the data line held low, it clocks the slave nine
    times and leaves the clock line low: the START of the next transfer
    (data falling under a high clock) does not appear on the bus. *)
Theorem bus_unlock_loses_start bus sl c tr now :
  exists hw r hw', rt_hw_i2c_init (Lines 1 1 (0 :: sl) c tr now) = Some (r, hw) /\
    l_scl hw = 0 /\ i2c_start bus hw = Some (tt, hw') /\ l_ev hw' = l_ev hw.
Proof.
  unfold rt_hw_i2c_init, stm32_i2c_gpio_init, stm32_i2c_bus_unlock.
  set (l0 := Lines 1 1 (0 :: sl) c tr now).
  destruct (unlock_pulses_lines 9 l0) as (l1 & E1 & E2).
  exists l1, RT_EOK. destruct (start_clock_low bus l1 (E2 ltac:(lia))) as (l2 & E3 & E4).
  exists l2. split; [|by split_and!; [apply E2; lia | ..]].
  unfold bindM, doM, getM. change (set_sda 1 (set_scl 1 l0)) with l0.
  change (get_sda l0) with (0, l0). cbn iota beta. rewrite Z.eqb_refl, E1.
  cbn iota beta. by destruct (get_sda l1) eqn:E; injection E as <- <-.
Qed.
