(* ===== verification/Clock.v ===== *)
(** * Kernel time

    rt-thread/src/clock.c and the delay entry points of rt-thread/src/thread.c
    with RT_TICK_PER_SECOND = 1000. *)

From Stdlib Require Import ZArith Lia.
From stdpp Require Import base numbers list.
From S2P Require Import Prelude.
Open Scope c_scope.

Definition RT_TICK_PER_SECOND : Z := 1000.
Definition RT_WAITING_FOREVER : Z := -1.

Definition rt_tick_from_millisecond (ms : Z) : Z :=
  if ms <? 0 then u32 RT_WAITING_FOREVER
  else
    let tick := u32 (RT_TICK_PER_SECOND * (ms / 1000)) in
    tick +u32 (RT_TICK_PER_SECOND * (ms mod 1000) + 999) / 1000.

Definition rt_tick_get_millisecond (rt_tick : Z) : Z :=
  u32 (rt_tick * (1000 / RT_TICK_PER_SECOND)).

(** At this tick rate a millisecond is a tick. *)
Lemma tick_from_millisecond ms : 0 <= ms < 2 ^ 31 -> rt_tick_from_millisecond ms = ms.
Proof.
  intros H. unfold rt_tick_from_millisecond, RT_TICK_PER_SECOND.
  rewrite (proj2 (Z.ltb_ge _ _)) by lia.
  pose proof (Z.div_mod ms 1000 ltac:(lia)). pose proof (Z.mod_pos_bound ms 1000 ltac:(lia)).
  rewrite (u32_small (1000 * (ms / 1000))) by (unfold is_u32; lia).
  replace ((1000 * (ms mod 1000) + 999) / 1000) with (ms mod 1000)
    by (apply (Z.div_unique _ 1000 _ 999); lia).
  rewrite u32_small by (unfold is_u32; lia). lia.
Qed.
