(* ===== verification/Sht30.v ===== *)
(** * Temperature and humidity: the SHT30 on the I2C bus

    applications/sht30App.c over [rt_i2c_transfer] of I2c.v. *)

From Stdlib Require Import ZArith Lia.
From stdpp Require Import base numbers list.
From S2P Require Import Prelude Float32 Clock I2c.
Open Scope c_scope.

Definition SHT30_I2C_ADDR : Z := 0x44.
Definition SHT30_CMD_MEAS_HIGH_REP : list Z := [0x2C; 0x06].
Definition SHT30_READ_INTERVAL_MS : Z := 2000.

(** One turn of the inner loop of [sht30_crc8]. *)
Definition crc_bit (crc : Z) : Z :=
  if tst crc 0x80 then u8 (Z.lxor (Z.shiftl crc 1) 0x31) else u8 (Z.shiftl crc 1).

Definition sht30_crc8 (data : list Z) : Z :=
  fold_left (fun crc b => iter_n 8 crc_bit (Z.lxor crc b)) data 0xFF.

(** The globals the acquisition thread publishes. *)
Record sht30_data := Sht30Data { g_temperature_c : f32; g_humidity_rh : f32 }.

Definition sht30_temp (raw_t : Z) : f32 :=
  f32_add (f32_of_Z (-45)) (f32_div (f32_mul (f32_of_Z 175) (f32_of_Z raw_t)) (f32_of_Z 65535)).

Definition sht30_humi (raw_h : Z) : f32 :=
  f32_div (f32_mul (f32_of_Z 100) (f32_of_Z raw_h)) (f32_of_Z 65535).

(** The checks and conversions on the six bytes read: [None] is -RT_ERROR. *)
Definition sht30_parse (buf : list Z) : option (f32 * f32) :=
  let at_ i := nth i buf 0 in
  if negb (sht30_crc8 (firstn 2 buf) =? at_ 2%nat) then None
  else if negb (sht30_crc8 (firstn 2 (skipn 3 buf)) =? at_ 5%nat) then None
  else
    let raw_t := Z.lor (u16 (Z.shiftl (at_ 0%nat) 8)) (at_ 1%nat) in
    let raw_h := Z.lor (u16 (Z.shiftl (at_ 3%nat) 8)) (at_ 4%nat) in
    Some (sht30_temp raw_t, sht30_humi raw_h).

Section Sensor.
Context {HW : Type} `{I2cBitOps HW}.
Variable bus : i2c_bus.

Definition rt_thread_mdelay (ms : Z) : M HW unit :=
  doM (rt_thread_delay (rt_tick_from_millisecond ms)).

(** [sht30_read_once]: its result, with [temp_c] and [humi_rh] on success. *)
Definition sht30_read_once : M HW (Z * option (f32 * f32)) :=
  let! 'w := rt_i2c_transfer bus [I2cMsg SHT30_I2C_ADDR 0 2 SHT30_CMD_MEAS_HIGH_REP] in
  if negb (fst w =? 1) then retM (- RT_ERROR, None)
  else
    do! rt_thread_mdelay 20 in
    let! 'r := rt_i2c_transfer bus [I2cMsg SHT30_I2C_ADDR RT_I2C_RD 6 (repeat 0 6)] in
    if negb (fst r =? 1) then retM (- RT_ERROR, None)
    else
      match sht30_parse (match snd r with m :: _ => mbuf m | [] => [] end) with
      | None => retM (- RT_ERROR, None)
      | Some p => retM (RT_EOK, Some p)
      end.

(** One turn of [sht30_thread_entry]. *)
Definition sht30_thread_turn (g : sht30_data) : M HW sht30_data :=
  let! 'r := sht30_read_once in
  let g := if fst r =? RT_EOK
           then match snd r with Some (t, h) => Sht30Data t h | None => g end else g in
  do! rt_thread_mdelay SHT30_READ_INTERVAL_MS in
  retM g.

Fixpoint sht30_thread_entry (turns : nat) (g : sht30_data) : M HW sht30_data :=
  match turns with
  | O => retM g
  | S k => let! g := sht30_thread_turn g in sht30_thread_entry k g
  end.
End Sensor.

(** [sht30_init]: the kernel's answers decide; the thread is started on
    success only. *)
Definition sht30_init (i2c_bus_found thread_created : bool) : Z * bool :=
  if negb i2c_bus_found then (- RT_ERROR, false)
  else if negb thread_created then (- RT_ERROR, false)
  else (RT_EOK, true).

(* ------------------------------------------------------------------ *)
(** ** The checksum is linear *)

(** [sht30_crc8] from an initial value. *)
Definition crc_from (init : Z) (data : list Z) : Z :=
  fold_left (fun crc b => iter_n 8 crc_bit (Z.lxor crc b)) data init.

Definition xor_list (a b : list Z) : list Z := zip_with Z.lxor a b.

(** The values of two bytes with at most [n] bits set, below [2 ^ k]. *)
Fixpoint patterns (k n : nat) : list Z :=
  match k with
  | O => [0]
  | S k' => patterns k' n ++
            match n with
            | O => []
            | S n' => map (Z.lor (2 ^ Z.of_nat k')) (patterns k' n')
            end
  end.

Fixpoint popcount (k : nat) (x : Z) : nat :=
  match k with
  | O => 0
  | S k' => (if Z.testbit x (Z.of_nat k') then 1 else 0) + popcount k' x
  end%nat.

(** A group of three bytes as a 24-bit error pattern. *)
Definition err_bytes (e : Z) : list Z := [Z.land (Z.shiftr e 16) 255; Z.land (Z.shiftr e 8) 255].
Definition err_crc (e : Z) : Z := Z.land e 255.

Lemma u8_lxor x y : u8 (Z.lxor x y) = Z.lxor (u8 x) (u8 y).
Proof.
  unfold wrapu. rewrite <- !Z.land_ones by lia. apply Z.bits_inj'. intros n Hn.
  rewrite !Z.land_spec, !Z.lxor_spec, !Z.land_spec. by repeat destruct (Z.testbit _ n).
Qed.

Lemma tst_lxor x y k : 0 <= k -> tst (Z.lxor x y) (2 ^ k) = xorb (tst x (2 ^ k)) (tst y (2 ^ k)).
Proof. intros Hk. rewrite !tst_bit by done. apply Z.lxor_spec. Qed.

Lemma crc_bit_lxor x y : crc_bit (Z.lxor x y) = Z.lxor (crc_bit x) (crc_bit y).
Proof.
  unfold crc_bit. change 0x80 with (2 ^ 7). rewrite tst_lxor, Z.shiftl_lxor by lia.
  destruct (tst x (2 ^ 7)), (tst y (2 ^ 7)); cbn [xorb]; rewrite <- !u8_lxor; f_equal;
    apply Z.bits_inj'; intros n Hn; rewrite !Z.lxor_spec; by repeat destruct (Z.testbit _ n).
Qed.

Lemma crc_byte_lxor n x y :
  iter_n n crc_bit (Z.lxor x y) = Z.lxor (iter_n n crc_bit x) (iter_n n crc_bit y).
Proof. revert x y; induction n as [|n IH]; intros; simpl; [done|]. by rewrite crc_bit_lxor, IH. Qed.

Lemma crc_from_lxor a b i j : length a = length b ->
  crc_from (Z.lxor i j) (xor_list a b) = Z.lxor (crc_from i a) (crc_from j b).
Proof.
  revert b i j; induction a as [|x a IH]; intros [|y b] i j Hl; try done.
  unfold crc_from, xor_list in *. cbn [zip_with fold_left] in *.
  rewrite <- IH by (by injection Hl). f_equal. rewrite <- crc_byte_lxor. f_equal.
  apply Z.bits_inj'. intros n Hn. rewrite !Z.lxor_spec. by repeat destruct (Z.testbit _ n).
Qed.

(** Three or fewer wrong bits in a group never match. *)
Lemma crc_patterns e : e ∈ patterns 24 3 -> e <> 0 -> crc_from 0 (err_bytes e) <> err_crc e.
Proof.
  assert (forallb (fun e => (e =? 0) || negb (crc_from 0 (err_bytes e) =? err_crc e))
            (patterns 24 3) = true) as H by (vm_compute; reflexivity).
  rewrite forallb_forall in H. intros Hin Hne. apply list_elem_of_In, H in Hin.
  apply orb_true_iff in Hin as [E|E]; [by apply Z.eqb_eq in E|].
  by apply negb_true_iff, Z.eqb_neq in E.
Qed.

Lemma popcount_low k x y : (forall i, 0 <= i < Z.of_nat k -> Z.testbit x i = Z.testbit y i) ->
  popcount k x = popcount k y.
Proof.
  induction k as [|k IH]; intros Hb; [done|]. cbn [popcount].
  rewrite Hb by lia. f_equal. apply IH. intros i Hi. apply Hb. lia.
Qed.

Lemma patterns_spec k n x : 0 <= x < 2 ^ Z.of_nat k -> (popcount k x <= n)%nat -> x ∈ patterns k n.
Proof.
  revert n x; induction k as [|k IH]; intros n x Hx Hp; cbn [patterns popcount] in *.
  { apply list_elem_of_singleton. simpl in Hx. lia. }
  rewrite Nat2Z.inj_succ, Z.pow_succ_r in Hx by lia. apply elem_of_app.
  destruct (Z.testbit x (Z.of_nat k)) eqn:E.
  - right. destruct n as [|n]; [lia|]. apply list_elem_of_fmap.
    assert (forall i, 0 <= i -> Z.testbit (x mod 2 ^ Z.of_nat k) i
                                = (i <? Z.of_nat k) && Z.testbit x i) as Hm.
    { intros i Hi. destruct (Z.ltb_spec i (Z.of_nat k)).
      - by rewrite Z.mod_pow2_bits_low.
      - by rewrite Z.mod_pow2_bits_high by lia. }
    exists (x mod 2 ^ Z.of_nat k). split.
    + apply Z.bits_inj'. intros i Hi. rewrite Z.lor_spec, Z.pow2_bits_eqb, Hm by lia.
      destruct (Z.eqb_spec (Z.of_nat k) i) as [<-|]; [by rewrite E|]. cbn [orb].
      destruct (Z.ltb_spec i (Z.of_nat k)); [done|].
      destruct (decide (x = 0)) as [->|]; [by rewrite Z.testbit_0_l|].
      apply Z.bits_above_log2; [lia|]. apply Z.log2_lt_pow2; [lia|].
      eapply Z.lt_le_trans; [apply Hx|]. rewrite <- Z.pow_succ_r by lia.
      apply Z.pow_le_mono_r; lia.
    + apply IH; [apply Z.mod_pos_bound, Z.pow_pos_nonneg; lia|].
      rewrite (popcount_low k _ x); [lia|]. intros i Hi. rewrite Hm by lia.
      by rewrite (proj2 (Z.ltb_lt _ _)) by lia.
  - left. apply IH; [|lia].
    destruct (Z.lt_ge_cases x (2 ^ Z.of_nat k)) as [|Hge]; [lia|]. exfalso.
    assert (x / 2 ^ Z.of_nat k = 1) as Hq by (symmetry; apply (Z.div_unique _ _ _ (x - 2 ^ Z.of_nat k)); lia).
    rewrite Z.testbit_false, Hq in E by lia. discriminate.
Qed.

Lemma sht30_crc8_from data : sht30_crc8 data = crc_from 255 data.
Proof. reflexivity. Qed.

Lemma lxor_cancel c x y : Z.lxor c x = Z.lxor c y -> x = y.
Proof.
  intros E. apply (f_equal (Z.lxor c)) in E.
  by rewrite <- !Z.lxor_assoc, Z.lxor_nilpotent, !Z.lxor_0_l in E.
Qed.

(** The checksum detects every error of at most three bits in a group. *)
Lemma crc_detects a b c e :
  sht30_crc8 [a; b] = c -> 0 < e < 2 ^ 24 -> (popcount 24 e <= 3)%nat ->
  sht30_crc8 (xor_list [a; b] (err_bytes e)) <> Z.lxor c (err_crc e).
Proof.
  intros Hc He Hp. assert (0 <= e < 2 ^ Z.of_nat 24) as He' by lia.
  rewrite sht30_crc8_from in *.
  change (crc_from 255) with (crc_from (Z.lxor 255 0)).
  rewrite crc_from_lxor, Hc by done.
  pose proof (crc_patterns e (patterns_spec 24 3 e He' Hp) ltac:(lia)) as Hne.
  intros E. by apply lxor_cancel in E.
Qed.

(* ------------------------------------------------------------------ *)
(** ** A turn of the thread on the bus *)

Definition sht30_write : rt_i2c_msg := I2cMsg SHT30_I2C_ADDR 0 2 SHT30_CMD_MEAS_HIGH_REP.
Definition sht30_read : rt_i2c_msg := I2cMsg SHT30_I2C_ADDR RT_I2C_RD 6 (repeat 0 6).

(** The levels of a sensor that acknowledges the command and sends [frame]. *)
Definition sht30_slots (frame rest : list Z) : list Z :=
  msg_slots sht30_write SHT30_CMD_MEAS_HIGH_REP ++ msg_slots sht30_read frame ++ 1 :: rest.

Lemma msg_ok_write : msg_ok sht30_write SHT30_CMD_MEAS_HIGH_REP.
Proof. split; try done. by exists []. Qed.

Lemma msg_ok_read frame : length frame = 6%nat -> Forall is_u8 frame -> msg_ok sht30_read frame.
Proof. intros Hl Hf. split; try done; cbn; rewrite Hl; [done|by split]. Qed.

Lemma sht30_read_once_lines frame rest c tr now :
  length frame = 6%nat -> Forall is_u8 frame ->
  exists tr', sht30_read_once stm32_bit_ops_default (Lines 1 1 (sht30_slots frame rest) c tr now)
    = Some (match sht30_parse frame with
            | Some p => (RT_EOK, Some p)
            | None => (- RT_ERROR, None)
            end, Lines 1 1 (1 :: rest) true tr' (now + 20)).
Proof.
  intros Hl Hf.
  pose proof (rt_i2c_transfer_lines stm32_bit_ops_default [(sht30_write, SHT30_CMD_MEAS_HIGH_REP)]
    (tail (msg_slots sht30_read frame ++ 1 :: rest)) tr c now ltac:(simpl; lia)
    (Forall_cons_2 _ (sht30_write, SHT30_CMD_MEAS_HIGH_REP) _ msg_ok_write (Forall_nil_2 _)) ltac:(vm_compute; discriminate)) as T1.
  cbn [map concat fst snd length] in T1. rewrite app_nil_r in T1.
  set (tr1 := EvRelease :: _) in T1.
  pose proof (rt_i2c_transfer_lines stm32_bit_ops_default [(sht30_read, frame)] rest tr1 true (now + 20)
    ltac:(simpl; lia) (Forall_cons_2 _ (sht30_read, frame) _ (msg_ok_read frame Hl Hf) (Forall_nil_2 _))
    ltac:(vm_compute; discriminate)) as T2.
  cbn [map concat fst snd length] in T2. rewrite app_nil_r in T2.
  assert (mbuf (msg_done sht30_read frame) = frame) as Hb.
  { unfold msg_done. cbn. rewrite Hl. cbn. apply app_nil_r. }
  eexists. unfold sht30_read_once. fold sht30_write sht30_read. unfold sht30_slots.
  change (msg_slots sht30_read frame ++ 1 :: rest)
    with (1 :: tail (msg_slots sht30_read frame ++ 1 :: rest)).
  rewrite (bindM_some _ _ _ _ _ T1). cbn [fst]. change (negb (Z.of_nat 1 =? 1)) with false. cbn iota.
  rewrite (bindM_some _ _ _ tt
    (Lines 1 1 (msg_slots sht30_read frame ++ 1 :: rest) true tr1 (now + 20))) by reflexivity.
  rewrite (bindM_some _ _ _ _ _ T2). cbn [fst snd]. change (negb (Z.of_nat 1 =? 1)) with false. cbn iota.
  rewrite Hb. by destruct (sht30_parse frame).
Qed.

Lemma sht30_turn_lines frame rest c tr now g :
  length frame = 6%nat -> Forall is_u8 frame ->
  exists tr', sht30_thread_turn stm32_bit_ops_default g (Lines 1 1 (sht30_slots frame rest) c tr now)
    = Some (match sht30_parse frame with Some (t, h) => Sht30Data t h | None => g end,
            Lines 1 1 (1 :: rest) true tr' (now + 20 + SHT30_READ_INTERVAL_MS)).
Proof.
  intros Hl Hf. destruct (sht30_read_once_lines frame rest c tr now Hl Hf) as [tr' E].
  exists tr'. unfold sht30_thread_turn. rewrite (bindM_some _ _ _ _ _ E).
  by destruct (sht30_parse frame) as [[t h]|].
Qed.

Lemma parse_bad_group f : 
  sht30_crc8 (firstn 2 f) <> nth 2 f 0 \/ sht30_crc8 (firstn 2 (skipn 3 f)) <> nth 5 f 0 ->
  sht30_parse f = None.
Proof.
  intros Hbad. unfold sht30_parse.
  destruct (Z.eqb_spec (sht30_crc8 (firstn 2 f)) (nth 2 f 0)); [|done].
  destruct (Z.eqb_spec (sht30_crc8 (firstn 2 (skipn 3 f))) (nth 5 f 0)); [|done].
  by destruct Hbad.
Qed.

(** A measurement as the sensor sends it, with the error pattern [e] of the
    line on its temperature group and [e'] on its humidity group. *)
Definition sht30_frame (raw_t raw_h e e' : Z) : list Z :=
  let group raw e :=
    let d := [raw / 256; raw mod 256] in
    xor_list d (err_bytes e) ++ [Z.lxor (sht30_crc8 d) (err_crc e)] in
  group raw_t e ++ group raw_h e'.

Lemma lxor_u8 x y : is_u8 x -> is_u8 y -> is_u8 (Z.lxor x y).
Proof.
  intros Hx Hy. rewrite <- (u8_small x), <- (u8_small y), <- u8_lxor by done. apply u8_range.
Qed.

Lemma land_255_u8 x : is_u8 (Z.land x 255).
Proof. change 255 with (Z.ones 8). rewrite Z.land_ones by lia. apply u8_range. Qed.

Lemma crc_bit_u8 c : is_u8 (crc_bit c).
Proof. unfold crc_bit. destruct (tst _ _); apply u8_range. Qed.

Lemma crc_u8 a b : is_u8 (sht30_crc8 [a; b]).
Proof. unfold sht30_crc8. cbn [fold_left iter_n]. apply crc_bit_u8. Qed.

Lemma sht30_frame_bytes t h e e' : is_u16 t -> is_u16 h ->
  length (sht30_frame t h e e') = 6%nat /\ Forall is_u8 (sht30_frame t h e e').
Proof.
  intros Ht Hh. split; [done|].
  assert (forall raw, is_u16 raw -> is_u8 (raw / 256) /\ is_u8 (raw mod 256)) as Hd.
  { unfold is_u8, is_u16. intros raw Hr. pose proof (Z.mod_pos_bound raw 256 ltac:(lia)).
    split; [|done]. split; [apply Z.div_pos; lia | apply Z.div_lt_upper_bound; lia]. }
  destruct (Hd t Ht), (Hd h Hh).
  repeat constructor; apply lxor_u8; try done; try apply land_255_u8; apply crc_u8.
Qed.

Lemma parse_good_frame t h : is_u16 t -> is_u16 h ->
  sht30_parse (sht30_frame t h 0 0) = Some (sht30_temp t, sht30_humi h).
Proof.
  intros Ht Hh. unfold sht30_parse, sht30_frame, xor_list, err_bytes, err_crc.
  cbn [zip_with Z.shiftr Z.shiftl Z.land]. cbn [app firstn skipn nth].
  rewrite !Z.lxor_0_r, !Z.eqb_refl. cbn [negb].
  assert (forall raw, is_u16 raw -> Z.lor (u16 (Z.shiftl (raw / 256) 8)) (raw mod 256) = raw) as Hr.
  { intros raw Hraw. unfold is_u16 in Hraw. pose proof (Z.div_mod raw 256 ltac:(lia)).
    pose proof (Z.mod_pos_bound raw 256 ltac:(lia)).
    rewrite u16_small by (unfold is_u16; rewrite Z.shiftl_mul_pow2 by lia; lia).
    rewrite lor_shiftl_low by lia. change (2 ^ 8) with 256.
    lia. }
  by rewrite !Hr.
Qed.

(** An error of one to three bits on a group. *)
Definition few_errors (e : Z) : Prop := 0 < e < 2 ^ 24 /\ (popcount 24 e <= 3)%nat.

Lemma parse_errors t h e e' : few_errors e \/ few_errors e' ->
  sht30_parse (sht30_frame t h e e') = None.
Proof.
  intros He. apply parse_bad_group.
  change (sht30_crc8 (xor_list [t / 256; t mod 256] (err_bytes e))
          <> Z.lxor (sht30_crc8 [t / 256; t mod 256]) (err_crc e) \/
          sht30_crc8 (xor_list [h / 256; h mod 256] (err_bytes e'))
          <> Z.lxor (sht30_crc8 [h / 256; h mod 256]) (err_crc e')).
  destruct He as [[He Hp]|[He Hp]]; [left|right]; by apply crc_detects.
Qed.

(* ------------------------------------------------------------------ *)
(** ** Properties *)

(** C36: end to end over the I2C bus, a turn of the acquisition thread with a
    sensor that acknowledges the command and sends the raw values [t] and [h]
    with their checksums publishes the temperature -45 + 175 t / 65535 and the
    humidity 100 h / 65535 (in single precision), frees the bus and takes
    20 + 2000 ms. *)
Theorem sht30_measurement_published t h rest c tr now g :
  is_u16 t -> is_u16 h ->
  exists tr', sht30_thread_turn stm32_bit_ops_default g
                (Lines 1 1 (sht30_slots (sht30_frame t h 0 0) rest) c tr now)
    = Some (Sht30Data (sht30_temp t) (sht30_humi h), Lines 1 1 (1 :: rest) true tr' (now + 20 + 2000)).
Proof.
  intros Ht Hh. destruct (sht30_frame_bytes t h 0 0 Ht Hh) as [Hl Hf].
  destruct (sht30_turn_lines _ rest c tr now g Hl Hf) as [tr' E]. exists tr'.
  by rewrite E, parse_good_frame.
Qed.

Lemma sht30_measurement_published_witness :
  exists tr', sht30_thread_turn stm32_bit_ops_default (Sht30Data (f32_of_Z 0) (f32_of_Z 0))
                (Lines 1 1 (sht30_slots (sht30_frame 26214 32768 0 0) []) false [] 7)
    = Some (Sht30Data (sht30_temp 26214) (sht30_humi 32768), Lines 1 1 [1] true tr' (7 + 20 + 2000)).
Proof. apply (sht30_measurement_published 26214 32768 []); unfold is_u16; lia. Defined.

(** C33: a measurement one of whose groups arrives with one, two or three wrong
    bits (the other group with any errors) never reaches the published
    values: the checksum rejects it and the turn keeps the last good ones. *)
Theorem sht30_bit_errors_rejected t h e e' rest c tr now g :
  is_u16 t -> is_u16 h -> few_errors e \/ few_errors e' ->
  exists hw, sht30_thread_turn stm32_bit_ops_default g
               (Lines 1 1 (sht30_slots (sht30_frame t h e e') rest) c tr now) = Some (g, hw).
Proof.
  intros Ht Hh He. destruct (sht30_frame_bytes t h e e' Ht Hh) as [Hl Hf].
  destruct (sht30_turn_lines _ rest c tr now g Hl Hf) as [tr' E].
  rewrite E, parse_errors by done. by eexists.
Qed.

Lemma sht30_bit_errors_rejected_witness :
  let g := Sht30Data (f32_of_Z 20) (f32_of_Z 50) in
  exists hw, sht30_thread_turn stm32_bit_ops_default g
               (Lines 1 1 (sht30_slots (sht30_frame 26214 32768 0x010001 0xFFFFFF) []) false [] 0) = Some (g, hw).
Proof.
  intros g. apply (sht30_bit_errors_rejected 26214 32768 0x010001 0xFFFFFF []); try (unfold is_u16; lia).
  left. split; [lia | vm_compute; lia].
Defined.
