(* ===== verification/Methane.v ===== *)
(** * Methane: the GM-402B frames on uart2

    applications/MethaneSensorApp.c over the serial device of Serial.v: the
    frame check, the receive loop of the sensor thread and the [uart2_debug]
    command that shares its receive queue. *)

From Stdlib Require Import ZArith Lia String.
From stdpp Require Import base numbers list.
From S2P Require Import Prelude Printf Clock Serial.
Open Scope c_scope.

Definition PACKET_SIZE : Z := 19.
Definition BAUD_RATE_19200 : Z := 19200.

(** The globals of MethaneSensorApp.c. *)
Record methane := Methane {
  g_methane_ppm : Z; g_methane_lel : Z; g_methane_status : Z;
  g_methane_data_valid : bool;
  methane_valid_frames : Z; methane_invalid_frames : Z }.

Definition invalid_frame (g : methane) : methane :=
  Methane (g_methane_ppm g) (g_methane_lel g) (g_methane_status g) (g_methane_data_valid g)
          (methane_valid_frames g) (methane_invalid_frames g +u32 1).

(** The additive checksum of the first [PACKET_SIZE - 1] bytes. *)
Definition checksum (buf : list Z) : Z :=
  fold_left (fun c b => c +u8 b) (firstn 18 buf) 0.

Definition Response_FrameCheck_Uart (buffer_in : list Z) (g : methane) : bool * methane :=
  let at_ i := nth i buffer_in 0 in
  if negb (at_ 0%nat =? 0xAC) || negb (at_ 1%nat =? 0xAC) ||
     negb (at_ 2%nat =? PACKET_SIZE) || negb (at_ 3%nat =? 0xAA)
  then (false, invalid_frame g)
  else if negb (checksum buffer_in =? at_ 18%nat) then (false, invalid_frame g)
  else
    let methane := Z.lor (u16 (Z.shiftl (at_ 11%nat) 8)) (at_ 10%nat) in
    (true, Methane methane (at_ 12%nat) (at_ 13%nat) true
                   (methane_valid_frames g +u32 1) (methane_invalid_frames g)).

(** The parser's state: [data_index] and [uart2_received_data]. *)
Record rx_state := RxState { data_index : Z; uart2_received_data : list Z }.

Definition store (r : rx_state) (data : Z) : list Z :=
  <[Z.to_nat (data_index r) := data]> (uart2_received_data r).

(** One received byte in the loop of [uart2_receive_and_print]. *)
Definition rx_byte (data : Z) (rg : rx_state * methane) : rx_state * methane :=
  let '(r, g) := rg in
  if data_index r =? 0 then
    if data =? 0xAC then (RxState 1 (store r data), g) else (r, g)
  else if data_index r =? 1 then
    if data =? 0xAC then (RxState 2 (store r data), g)
    else (RxState 0 (uart2_received_data r), g)
  else
    let buf := store r data in
    let i := u8 (data_index r + 1) in
    if i =? PACKET_SIZE then (RxState 0 buf, snd (Response_FrameCheck_Uart buf g))
    else (RxState i buf, g).

(** A turn of the loop: the bytes received since the previous one and whether
    [methane_debug_active] is set. *)
Record rx_turn := RxTurn { t_irq : list Z; t_debug : bool }.

Record uart2_state := Uart2 { u_dev : serial wire; u_rx : rx_state; u_g : methane }.

(** How the loop stands after some turns: [None] is a failed assertion. *)
Inductive loop_end := Running (timeout : Z) (u : uart2_state) | Left_ (u : uart2_state).

Definition irq (bytes : list Z) (d : serial wire) : option (serial wire) :=
  match dev_step d (DIrq bytes) with Some (_, d') => Some d' | None => None end.

Fixpoint uart2_loop (turns : list rx_turn) (timeout : Z) (u : uart2_state) : option loop_end :=
  match turns with
  | [] => Some (Running timeout u)
  | t :: rest =>
      match irq (t_irq t) (u_dev u) with
      | None => None
      | Some d =>
          if t_debug t then
            uart2_loop rest timeout (Uart2 d (RxState 0 (uart2_received_data (u_rx u))) (u_g u))
          else
            match rt_device_read 1 d with
            | None => None
            | Some (data :: _, d) =>
                let '(r, g) := rx_byte data (u_rx u, u_g u) in
                uart2_loop rest timeout (Uart2 d r g)
            | Some ([], d) =>
                if 0 <? timeout then
                  if timeout - 10 <=? 0 then Some (Left_ (Uart2 d (u_rx u) (u_g u)))
                  else uart2_loop rest (timeout - 10) (Uart2 d (u_rx u) (u_g u))
                else if timeout =? 0 then Some (Left_ (Uart2 d (u_rx u) (u_g u)))
                else uart2_loop rest timeout (Uart2 d (u_rx u) (u_g u))
            end
      end
  end.

Definition uart2_config : serial_configure :=
  let c := RT_SERIAL_CONFIG_DEFAULT in
  SerialConfigure BAUD_RATE_19200 (data_bits c) (stop_bits c) (parity c) (bit_order c) (invert c) (bufsz c).

(** What [uart2_receive_and_print] returned, or where its loop stands. *)
Inductive rx_result := RxReturned (ret : Z) (u : uart2_state) | RxRunning (timeout : Z) (u : uart2_state).

Definition uart2_receive_and_print (malloc : Z -> bool) (found : bool) (turns : list rx_turn) (timeout : Z)
  (buf : list Z) (g : methane) (d : serial wire) : option rx_result :=
  let u0 := Uart2 d (RxState 0 buf) g in
  if negb found then Some (RxReturned (- RT_ERROR) u0)
  else
    match rt_device_open malloc APP_OFLAG d with
    | None => None
    | Some (e, d) =>
        if negb (e =? RT_EOK) then Some (RxReturned (- RT_ERROR) (Uart2 d (RxState 0 buf) g))
        else
          let '(e, d) := rt_device_control RT_DEVICE_CTRL_CONFIG (Some uart2_config) 0 d in
          if negb (e =? RT_EOK) then
            match rt_device_close d with
            | None => None
            | Some (_, d) => Some (RxReturned (- RT_ERROR) (Uart2 d (RxState 0 buf) g))
            end
          else
            match uart2_loop turns timeout (Uart2 d (RxState 0 buf) g) with
            | None => None
            | Some (Running t u) => Some (RxRunning t u)
            | Some (Left_ u) =>
                match rt_device_close (u_dev u) with
                | None => None
                | Some (_, d) => Some (RxReturned RT_EOK (Uart2 d (u_rx u) (u_g u)))
                end
            end
    end.

(* ------------------------------------------------------------------ *)
(** ** The uart2_debug command *)

(** A turn of the command's loop: the tick it reads and the bytes received
    since the previous turn. *)
Record dbg_turn := DbgTurn { d_tick : Z; d_irq : list Z }.

Record dbg_state := Dbg {
  b_dev : serial wire; b_frame_index : Z; b_frame : list Z; b_g : methane;
  b_count : Z; b_out : option (list Z) }.

(** One received byte in the loop of [uart2_debug]: printed, counted, and
    parsed by a second copy of the frame collector. *)
Definition dbg_byte (data : Z) (b : dbg_state) : dbg_state :=
  let out := kprint "%02X " [AInt data] (b_out b) in
  let byte_count := b_count b +u32 1 in
  let fi := b_frame_index b in
  let '(fi, frame, g, out) :=
    if fi =? 0 then
      if data =? 0xAC then (1, <[0%nat := data]> (b_frame b), b_g b, out) else (fi, b_frame b, b_g b, out)
    else if fi =? 1 then
      if data =? 0xAC then (2, <[1%nat := data]> (b_frame b), b_g b, out) else (0, b_frame b, b_g b, out)
    else
      let frame := <[Z.to_nat fi := data]> (b_frame b) in
      let fi := u8 (fi + 1) in
      if fi =? PACKET_SIZE
      then (0, frame, snd (Response_FrameCheck_Uart frame (b_g b)), kprint "\n" [] out)
      else (fi, frame, b_g b, out) in
  let out := if (byte_count mod PACKET_SIZE =? 0) && negb (fi =? 0) then kprint "\n" [] out else out in
  Dbg (b_dev b) fi frame g byte_count out.

(** The loop: [Some (true, _)] when the time is over, [Some (false, _)] when
    the turns are used up first. *)
Fixpoint dbg_loop (timeout_ms start_tick : Z) (turns : list dbg_turn) (b : dbg_state)
  : option (bool * dbg_state) :=
  match turns with
  | [] => Some (false, b)
  | t :: rest =>
      match irq (d_irq t) (b_dev b) with
      | None => None
      | Some d =>
          let b := Dbg d (b_frame_index b) (b_frame b) (b_g b) (b_count b) (b_out b) in
          if rt_tick_from_millisecond timeout_ms <=? d_tick t -u32 start_tick then Some (true, b)
          else
            match rt_device_read 1 d with
            | None => None
            | Some (data :: _, d) =>
                dbg_loop timeout_ms start_tick rest
                  (dbg_byte data (Dbg d (b_frame_index b) (b_frame b) (b_g b) (b_count b) (b_out b)))
            | Some ([], d) =>
                dbg_loop timeout_ms start_tick rest
                  (Dbg d (b_frame_index b) (b_frame b) (b_g b) (b_count b) (b_out b))
            end
      end
  end.

Definition dbg_timeout_ms (argv1 : option (list Z)) : Z :=
  match argv1 with
  | Some a => let seconds := atoi a in
              if (0 <? seconds) && (seconds <=? 60) then seconds * 1000 else 5000
  | None => 5000
  end.

Definition dbg_banner (timeout_ms : Z) : option (list Z) :=
  kprint "========================================\n\n" []
  (kprint "Expected frame: AC AC 13 AA ...(19 bytes)\n" []
  (kprint "Duration: %d seconds\n" [AInt (timeout_ms / 1000)]
  (kprint "Baud: 19200\n" []
  (kprint "Pins: PD5 (TX), PD6 (RX)\n" []
  (kprint "Device: %s\n" [AStr (clit "uart2")]
  (kprint "========================================\n" []
  (kprint "  UART2 Raw Data Debug Monitor\n" []
  (kprint "\n========================================\n" [] (Some []))))))))).

Definition dbg_report (valid_before invalid_before : Z) (b : dbg_state) : option (list Z) :=
  let g := b_g b in
  let out := kprint "Total bytes received: %d\n" [AInt (b_count b)]
               (kprint "\n\n========================================\n" [] (b_out b)) in
  let out :=
    if b_count b =? 0 then
      kprint "  4. Check if sensor is actually GM-402B module\n" []
      (kprint "  3. Sensor requires warm-up time (wait 2-3 minutes)\n" []
      (kprint "     Sensor TX -> MCU PD6 (UART2_RX)\n" []
      (kprint "  2. Wrong pin connection - should be:\n" []
      (kprint "  1. Sensor not powered (check VIN and GND)\n" []
      (kprint "Possible causes:\n" []
      (kprint "\nWARNING: No data received!\n" [] out))))))
    else
      let valid_count := methane_valid_frames g -u32 valid_before in
      let out := kprint "\nValid frames: %u\n" [AInt valid_count] out in
      let out := kprint "Invalid frames: %u\n" [AInt (methane_invalid_frames g -u32 invalid_before)] out in
      let out := if negb (b_frame_index b =? 0)
                 then kprint "Incomplete trailing bytes: %d\n" [AInt (b_frame_index b)] out else out in
      if valid_count =? 0
      then kprint "WARNING: Data received, but no valid GM-402B frame found.\n" [] out
      else kprint "Last value: %u ppm, LEL %u%%, status 0x%02X\n"
             [AInt (g_methane_ppm g); AInt (g_methane_lel g); AInt (g_methane_status g)] out in
  kprint "========================================\n\n" [] out.

(** The command after it has set [methane_debug_active] and waited: the device
    and globals it leaves (the flag is cleared on every path), the console
    text, and whether it returned within the turns given. *)
Record dbg_result := DbgResult {
  r_returned : bool; r_dev : serial wire; r_g : methane; r_out : option (list Z) }.

Definition uart2_debug (malloc : Z -> bool) (argv1 : option (list Z)) (found : bool) (start_tick : Z) (turns : list dbg_turn)
  (frame : list Z) (g : methane) (d : serial wire) : option dbg_result :=
  let timeout_ms := dbg_timeout_ms argv1 in
  let out := dbg_banner timeout_ms in
  if negb found
  then Some (DbgResult true d g (kprint "ERROR: Cannot find %s device!\n" [AStr (clit "uart2")] out))
  else
    match rt_device_open malloc APP_OFLAG d with
    | None => None
    | Some (e, d) =>
        if negb (e =? RT_EOK)
        then Some (DbgResult true d g (kprint "ERROR: Failed to open %s device!\n" [AStr (clit "uart2")] out))
        else
          let '(e, d) := rt_device_control RT_DEVICE_CTRL_CONFIG (Some uart2_config) 0 d in
          if negb (e =? RT_EOK) then
            let out := kprint "ERROR: Failed to configure UART2 baud rate!\n" [] out in
            match rt_device_close d with
            | None => None
            | Some (_, d) => Some (DbgResult true d g out)
            end
          else
            let out := kprint "Receiving data (HEX format):\n" [] out in
            match dbg_loop timeout_ms start_tick turns (Dbg d 0 frame g 0 out) with
            | None => None
            | Some (false, b) => Some (DbgResult false (b_dev b) (b_g b) (b_out b))
            | Some (true, b) =>
                match rt_device_close (b_dev b) with
                | None => None
                | Some (_, d) =>
                    Some (DbgResult true d (b_g b)
                            (dbg_report (methane_valid_frames g) (methane_invalid_frames g) b))
                end
            end
    end.

(* ------------------------------------------------------------------ *)
(** ** What the parser means *)

(** A frame on the line: header, checksum, 19 bytes. *)
Record frame_ok (f : list Z) : Prop := {
  fr_len : length f = 19%nat;
  fr_bytes : Forall is_u8 f;
  fr_head : firstn 4 f = [0xAC; 0xAC; 19; 0xAA];
  fr_sum : checksum f = nth 18 f 0 }.

(** The fields of a frame. *)
Definition frame_ppm (f : list Z) : Z := nth 11 f 0 * 256 + nth 10 f 0.
Definition frame_lel (f : list Z) : Z := nth 12 f 0.
Definition frame_status (f : list Z) : Z := nth 13 f 0.

(** Bytes read by the parser, from a state of it. *)
Definition rx_bytes (l : list Z) (rg : rx_state * methane) : rx_state * methane :=
  fold_left (fun rg b => rx_byte b rg) l rg.

(** The parser's invariant after the bytes [l]: its buffer is a whole frame's,
    its index stays inside, and what it has collected is the end of [l]. *)
Record rx_ok (l : list Z) (r : rx_state) : Prop := {
  rk_len : length (uart2_received_data r) = 19%nat;
  rk_idx : 0 <= data_index r < 19;
  rk_tail : exists p, l = p ++ firstn (Z.to_nat (data_index r)) (uart2_received_data r) }.

(** The published values are those of frame [f]. *)
Definition shows (f : list Z) (g : methane) : Prop :=
  g_methane_ppm g = frame_ppm f /\ g_methane_lel g = frame_lel f /\
  g_methane_status g = frame_status f.

(* ------------------------------------------------------------------ *)
(** ** Steps of the parser *)

Lemma store_length r b : length (store r b) = length (uart2_received_data r).
Proof. apply length_insert. Qed.

(** After storing, the collected bytes are one more. *)
Lemma store_take r b : length (uart2_received_data r) = 19%nat -> 0 <= data_index r < 19 ->
  firstn (Z.to_nat (data_index r + 1)) (store r b)
  = firstn (Z.to_nat (data_index r)) (uart2_received_data r) ++ [b].
Proof.
  intros Hl Hi. replace (Z.to_nat (data_index r + 1)) with (S (Z.to_nat (data_index r))) by lia.
  unfold store. rewrite (take_S_r _ _ b) by (rewrite list_lookup_insert_eq by lia; done).
  by rewrite take_insert_ge by lia.
Qed.

Lemma rx_byte_ok l b r g : rx_ok l r -> rx_ok (l ++ [b]) (fst (rx_byte b (r, g))).
Proof.
  intros [Hl Hi [p Hp]]. unfold rx_byte.
  assert (forall buf, length buf = 19%nat -> rx_ok (l ++ [b]) (RxState 0 buf)) as Hidle.
  { intros buf Hb. split; cbn; [done|lia|]. exists (l ++ [b]). by rewrite app_nil_r. }
  assert (data_index r + 1 < 19 -> rx_ok (l ++ [b]) (RxState (data_index r + 1) (store r b))) as Hnext.
  { intros Hlt. split; cbn; [by rewrite store_length|lia|]. exists p.
    rewrite store_take by done. by rewrite app_assoc, <- Hp. }
  destruct (Z.eqb_spec (data_index r) 0) as [E|E].
  { destruct (b =? 0xAC); cbn [fst].
    - rewrite E in Hnext. apply Hnext; lia.
    - destruct r as [i buf]; cbn in E; subst i. by apply Hidle. }
  destruct (Z.eqb_spec (data_index r) 1) as [E1|E1].
  { destruct (b =? 0xAC); cbn [fst].
    - rewrite E1 in Hnext. apply Hnext; lia.
    - by apply Hidle. }
  rewrite u8_small by (unfold is_u8; lia). unfold PACKET_SIZE.
  destruct (Z.eqb_spec (data_index r + 1) 19); cbn [fst].
  - apply Hidle. by rewrite store_length.
  - apply Hnext. lia.
Qed.

Lemma check_accepts f g : fst (Response_FrameCheck_Uart f g) = true -> length f = 19%nat ->
  Forall is_u8 f ->
  frame_ok f /\
  snd (Response_FrameCheck_Uart f g)
  = Methane (frame_ppm f) (frame_lel f) (frame_status f) true
            (methane_valid_frames g +u32 1) (methane_invalid_frames g).
Proof.
  intros Hc Hl Hb. unfold Response_FrameCheck_Uart, PACKET_SIZE in *.
  destruct (Z.eqb_spec (nth 0 f 0) 0xAC) as [E0|]; [|done].
  destruct (Z.eqb_spec (nth 1 f 0) 0xAC) as [E1|]; [|done].
  destruct (Z.eqb_spec (nth 2 f 0) 19) as [E2|]; [|done].
  destruct (Z.eqb_spec (nth 3 f 0) 0xAA) as [E3|]; [|done]. cbn [negb orb] in *.
  destruct (Z.eqb_spec (checksum f) (nth 18 f 0)) as [Es|]; [|done]. cbn [negb snd].
  assert (forall i, is_u8 (nth i f 0)) as Hn.
  { intros i. destruct (nth_in_or_default i f 0) as [Hin|E]; [|rewrite E; by unfold is_u8].
    rewrite Forall_forall in Hb. by apply Hb, list_elem_of_In. }
  split; [split; try done|].
  - do 4 (destruct f as [|? f]; [discriminate|]). cbn in E0, E1, E2, E3 |- *. by subst.
  - f_equal. unfold frame_ppm. pose proof (Hn 10%nat) as H10. pose proof (Hn 11%nat) as H11.
    unfold is_u8 in *. rewrite u16_small by (unfold is_u16; rewrite Z.shiftl_mul_pow2 by lia; lia).
    rewrite lor_shiftl_low by lia. done.
Qed.

Lemma frame_accepted f g : frame_ok f ->
  Response_FrameCheck_Uart f g
  = (true, Methane (frame_ppm f) (frame_lel f) (frame_status f) true
            (methane_valid_frames g +u32 1) (methane_invalid_frames g)).
Proof.
  intros Hf. assert (fst (Response_FrameCheck_Uart f g) = true) as Hc.
  { destruct Hf as [Hl _ Hh Hs]. unfold Response_FrameCheck_Uart. rewrite Hs, Z.eqb_refl.
    do 4 (destruct f as [|? f]; [discriminate|]). cbn in Hh. by simplify_eq. }
  destruct (check_accepts f g Hc (fr_len _ Hf) (fr_bytes _ Hf)) as [_ E]. rewrite <- E, <- Hc.
  apply surjective_pairing.
Qed.

Lemma check_rejects f g : fst (Response_FrameCheck_Uart f g) = false ->
  snd (Response_FrameCheck_Uart f g) = invalid_frame g.
Proof. unfold Response_FrameCheck_Uart. by repeat (case_match; cbn; try done). Qed.

(** One byte changes the published values only by completing a frame. *)
Lemma rx_byte_values l b r g : rx_ok l r -> Forall is_u8 (l ++ [b]) ->
  let g' := snd (rx_byte b (r, g)) in
  (g_methane_ppm g' = g_methane_ppm g /\ g_methane_lel g' = g_methane_lel g /\
   g_methane_status g' = g_methane_status g /\ g_methane_data_valid g' = g_methane_data_valid g) \/
  (exists p f, l ++ [b] = p ++ f /\ frame_ok f /\ shows f g').
Proof.
  intros [Hl Hi [p Hp]] Hb. unfold rx_byte.
  destruct (data_index r =? 0); [destruct (b =? 0xAC); by left|].
  destruct (data_index r =? 1); [destruct (b =? 0xAC); by left|].
  rewrite u8_small by (unfold is_u8; lia). unfold PACKET_SIZE.
  destruct (Z.eqb_spec (data_index r + 1) 19) as [E|]; [|by left]. cbn [snd].
  pose proof (store_take r b Hl Hi) as Hst.
  rewrite E, firstn_all2 in Hst by (rewrite store_length; lia).
  assert (l ++ [b] = p ++ store r b) as Hlb by (by rewrite Hst, app_assoc, <- Hp).
  destruct (fst (Response_FrameCheck_Uart (store r b) g)) eqn:C.
  - right. exists p, (store r b). split; [done|].
    apply check_accepts in C as [Hok ->]; [by split|by rewrite store_length|].
    rewrite Hlb in Hb. by apply Forall_app in Hb as [_ ?].
  - left. by rewrite check_rejects.
Qed.

Lemma rx_bytes_snoc l b rg : rx_bytes (l ++ [b]) rg = rx_byte b (rx_bytes l rg).
Proof. unfold rx_bytes. by rewrite fold_left_app. Qed.

Lemma rx_bytes_app l l' rg : rx_bytes (l ++ l') rg = rx_bytes l' (rx_bytes l rg).
Proof. unfold rx_bytes. by rewrite fold_left_app. Qed.

Lemma rx_bytes_ok l l0 r g : rx_ok l0 r -> rx_ok (l0 ++ l) (fst (rx_bytes l (r, g))).
Proof.
  intros Hr. induction l as [|b l IH] using rev_ind; [by rewrite app_nil_r|].
  rewrite rx_bytes_snoc, app_assoc. destruct (rx_bytes l (r, g)) as [r' g']. by apply rx_byte_ok.
Qed.

Lemma rx_fresh_ok buf : length buf = 19%nat -> rx_ok [] (RxState 0 buf).
Proof. intros. split; cbn; [done|lia|by exists []]. Qed.

Lemma rx_bytes_values l buf g : length buf = 19%nat -> Forall is_u8 l ->
  let g' := snd (rx_bytes l (RxState 0 buf, g)) in
  (g_methane_ppm g' = g_methane_ppm g /\ g_methane_lel g' = g_methane_lel g /\
   g_methane_status g' = g_methane_status g /\ g_methane_data_valid g' = g_methane_data_valid g) \/
  (exists p f q, l = p ++ f ++ q /\ frame_ok f /\ shows f g').
Proof.
  intros Hb. induction l as [|b l IH] using rev_ind; intros Hl; [by left|].
  rewrite rx_bytes_snoc. pose proof (rx_bytes_ok l [] _ g (rx_fresh_ok buf Hb)) as Hok.
  apply Forall_app in Hl as Hl'. destruct Hl' as [Hl1 _]. specialize (IH Hl1).
  destruct (rx_bytes l (RxState 0 buf, g)) as [r g1]. cbn [fst snd app] in *.
  destruct (rx_byte_values l b r g1 Hok Hl) as [(E1 & E2 & E3 & E4)|(p & f & E & Hf & Hsh)].
  - cbv zeta. unfold shows. rewrite E1, E2, E3, E4. destruct IH as [IH|(p & f & q & -> & Hf & Hsh)]; [by left|].
    right. exists p, f, (q ++ [b]). split; [|by split]. by rewrite <- !app_assoc.
  - right. exists p, f, []. rewrite app_nil_r. by split.
Qed.

(** Collecting: from index 2 on, bytes are stored whatever they are. *)
Lemma rx_collect l buf i g : length buf = 19%nat -> 2 <= i -> i + Z.of_nat (length l) < 19 ->
  exists buf', rx_bytes l (RxState i buf, g) = (RxState (i + Z.of_nat (length l)) buf', g) /\
    length buf' = 19%nat /\
    firstn (Z.to_nat (i + Z.of_nat (length l))) buf' = firstn (Z.to_nat i) buf ++ l.
Proof.
  revert i buf; induction l as [|b l IH]; intros i buf Hl Hi Hlt.
  { exists buf. cbn. by rewrite Z.add_0_r, app_nil_r. }
  cbn [length] in *. change (rx_bytes (b :: l) (RxState i buf, g)) with (rx_bytes l (rx_byte b (RxState i buf, g))).
  unfold rx_byte. cbn [data_index].
  rewrite (proj2 (Z.eqb_neq i 0)), (proj2 (Z.eqb_neq i 1)), u8_small by (unfold is_u8; lia).
  unfold PACKET_SIZE. rewrite (proj2 (Z.eqb_neq (i + 1) 19)) by lia.
  set (r := RxState i buf).
  destruct (IH (i + 1) (store r b)) as (buf' & E & Hb' & Ht); [by rewrite store_length|lia|lia|].
  replace (i + Z.of_nat (S (length l))) with (i + 1 + Z.of_nat (length l)) by lia.
  exists buf'. split; [exact E|]. split; [done|].
  rewrite Ht. change (i + 1) with (data_index r + 1). rewrite store_take by (cbn; done || lia).
  by rewrite <- app_assoc.
Qed.

(** The nineteenth byte ends the collection. *)
Lemma rx_complete l buf i g : length buf = 19%nat -> 2 <= i -> i + Z.of_nat (length l) = 19 ->
  i < 19 ->
  rx_bytes l (RxState i buf, g)
  = (RxState 0 (firstn (Z.to_nat i) buf ++ l),
     snd (Response_FrameCheck_Uart (firstn (Z.to_nat i) buf ++ l) g)).
Proof.
  intros Hb Hi Hl Hlt. destruct l as [|b l _] using rev_ind; [cbn in Hl; lia|].
  rewrite length_app in Hl; cbn in Hl. rewrite rx_bytes_snoc.
  destruct (rx_collect l buf i g Hb Hi ltac:(lia)) as (buf' & -> & Hb' & Ht).
  unfold rx_byte. cbn [data_index].
  rewrite (proj2 (Z.eqb_neq _ 0)), (proj2 (Z.eqb_neq _ 1)), u8_small by (unfold is_u8; lia).
  unfold PACKET_SIZE. rewrite (proj2 (Z.eqb_eq _ 19)) by lia.
  assert (store (RxState (i + Z.of_nat (length l)) buf') b = firstn (Z.to_nat i) buf ++ l ++ [b]) as ->;
    [|done].
  pose proof (store_take (RxState (i + Z.of_nat (length l)) buf') b Hb' ltac:(cbn; lia)) as Hs.
  cbn [data_index uart2_received_data] in Hs.
  rewrite firstn_all2 in Hs by (rewrite store_length; cbn; lia). by rewrite Hs, Ht, <- app_assoc.
Qed.

(** Out of a frame, bytes other than AC are skipped. *)
Lemma rx_idle l buf g : Forall (fun b => b <> 0xAC) l ->
  rx_bytes l (RxState 0 buf, g) = (RxState 0 buf, g).
Proof.
  induction 1 as [|b l Hb _ IH]; [done|].
  change (rx_bytes (b :: l) (RxState 0 buf, g)) with (rx_bytes l (rx_byte b (RxState 0 buf, g))).
  unfold rx_byte. cbn [data_index Z.eqb]. by rewrite (proj2 (Z.eqb_neq b 0xAC)).
Qed.

Lemma rx_idle1 b l buf g : Forall (fun b => b <> 0xAC) (b :: l) ->
  rx_bytes (b :: l) (RxState 1 buf, g) = (RxState 0 buf, g).
Proof.
  intros Hb. apply Forall_cons in Hb as [Hb Hl].
  change (rx_bytes (b :: l) (RxState 1 buf, g)) with (rx_bytes l (rx_byte b (RxState 1 buf, g))).
  unfold rx_byte. cbn [data_index Z.eqb Pos.eqb]. rewrite (proj2 (Z.eqb_neq b 0xAC)) by done.
  by apply rx_idle.
Qed.

(** A frame that arrives out of a frame is received. *)
Lemma rx_frame f buf g : frame_ok f -> length buf = 19%nat ->
  rx_bytes f (RxState 0 buf, g)
  = (RxState 0 f, Methane (frame_ppm f) (frame_lel f) (frame_status f) true
                    (methane_valid_frames g +u32 1) (methane_invalid_frames g)).
Proof.
  intros Hf Hb. pose proof (frame_accepted f g Hf) as Hacc. destruct Hf as [Hl _ Hh _].
  destruct f as [|a [|b f]]; [done|done|]. assert (a = 0xAC /\ b = 0xAC) as [-> ->].
  { destruct f as [|? [|? ?]]; cbn in Hh; by simplify_eq. }
  set (buf2 := <[1%nat := 0xAC]> (<[0%nat := 0xAC]> buf)).
  change (rx_bytes (0xAC :: 0xAC :: f) (RxState 0 buf, g)) with (rx_bytes f (RxState 2 buf2, g)).
  cbn in Hl. rewrite rx_complete; [| |lia|lia|lia].
  - assert (firstn (Z.to_nat 2) buf2 ++ f = 0xAC :: 0xAC :: f) as ->.
    { subst buf2. destruct buf as [|x [|y buf]]; [done|done|]. done. }
    by rewrite Hacc.
  - subst buf2. by rewrite !length_insert.
Qed.

(** A line: frames, each after noise without the byte AC. *)
Definition line (l : list (list Z * list Z)) : list Z := concat (map (fun nf => fst nf ++ snd nf) l).

Lemma rx_line l buf g : length buf = 19%nat ->
  Forall (fun nf => Forall (fun b => b <> 0xAC) (fst nf) /\ frame_ok (snd nf)) l ->
  exists buf', length buf' = 19%nat /\
  rx_bytes (line l) (RxState 0 buf, g)
  = (RxState 0 buf',
     match rev l with
     | [] => g
     | nf :: _ => Methane (frame_ppm (snd nf)) (frame_lel (snd nf)) (frame_status (snd nf)) true
                    (methane_valid_frames g +u32 Z.of_nat (length l)) (methane_invalid_frames g)
     end).
Proof.
  intros Hb. induction l as [|[n f] l IH] using rev_ind; intros Hl; [by exists buf|].
  apply Forall_app in Hl as [Hl Hf]. apply Forall_singleton in Hf as [Hn Hf].
  destruct (IH Hl) as (buf' & Hb' & E). unfold line in *.
  rewrite map_app, concat_app. cbn [map concat fst snd] in *. rewrite app_nil_r, !rx_bytes_app, E, rx_idle by done.
  rewrite rx_frame by done. exists f. split; [by apply fr_len|]. rewrite rev_app_distr, length_app. cbn [rev app snd length].
  do 2 f_equal. destruct (rev l) as [|nf r] eqn:R.
  - assert (length l = 0%nat) as -> by (by rewrite <- length_rev, R). done.
  - cbn [methane_valid_frames]. unfold wrapu. rewrite Zplus_mod_idemp_l. f_equal. lia.
  - by destruct (rev l).
Qed.

(** A frame whose only bytes AC are its first two brings the parser out of
    any state to the idle one. *)
Lemma rx_resync f r g : frame_ok f -> Forall (fun b => b <> 0xAC) (skipn 2 f) ->
  length (uart2_received_data r) = 19%nat -> 0 <= data_index r < 19 ->
  exists buf' g', rx_bytes f (r, g) = (RxState 0 buf', g') /\ length buf' = 19%nat.
Proof.
  intros Hf Hq Hb Hi. destruct r as [i buf]; cbn in Hb, Hi.
  destruct (decide (i = 0)) as [->|H0].
  { rewrite rx_frame by done. eexists f, _. split; [done|apply Hf]. }
  pose proof Hf as [Hl _ Hh _].
  destruct f as [|a [|b f]]; [done|done|]. assert (a = 0xAC /\ b = 0xAC) as [-> ->].
  { destruct f as [|? [|? ?]]; cbn in Hh; by simplify_eq. }
  cbn [skipn length] in Hq, Hl. assert (length f = 17%nat) as Hlf by lia.
  destruct (decide (i = 1)) as [->|H1].
  - (* the second AC is taken for the third byte *)
    set (buf1 := <[1%nat := 0xAC]> buf).
    change (rx_bytes (0xAC :: 0xAC :: f) (RxState 1 buf, g)) with (rx_bytes (0xAC :: f) (RxState 2 buf1, g)).
    rewrite <- (take_drop 16 f) in Hq |- *. rewrite app_comm_cons, rx_bytes_app.
    rewrite rx_complete; [|subst buf1; by rewrite length_insert|lia|cbn [length]; rewrite length_take; lia|lia].
    rewrite rx_idle by (by apply Forall_app in Hq as [_ ?]).
    eexists _, _. split; [done|]. rewrite length_app, length_take. cbn [length].
    rewrite length_take. subst buf1. rewrite length_insert. lia.
  - (* the current collection swallows the first 19 - i bytes *)
    set (k := Z.to_nat (19 - i)). rewrite <- (take_drop k (0xAC :: 0xAC :: f)), rx_bytes_app.
    rewrite rx_complete; [|done|lia|rewrite length_take; cbn [length]; lia|lia].
    set (buf1 := _ ++ _). set (g1 := snd _).
    assert (length buf1 = 19%nat) as Hb1.
    { subst buf1. rewrite length_app, !length_take. cbn [length]. lia. }
    destruct (decide (i = 18)) as [->|H18].
    + change k with 1%nat. cbn [skipn]. destruct f as [|c f]; [done|].
      change (rx_bytes (0xAC :: c :: f) (RxState 0 buf1, g1))
        with (rx_bytes (c :: f) (RxState 1 (<[0%nat := 0xAC]> buf1), g1)).
      rewrite rx_idle1 by done. eexists _, _. split; [done|]. by rewrite length_insert.
    + replace k with (2 + (k - 2))%nat by lia. cbn [Nat.add skipn].
      rewrite rx_idle by (by apply Forall_drop). by eexists _, _.
Qed.

(* ------------------------------------------------------------------ *)
(** ** The receive loop on the device *)

(** An open device with 128 buffer bytes, at [d], whose queue holds [q]. *)
Definition holds (d : serial wire) (n : Z) (q : list Z) (out : list Z) : Prop :=
  dev_ok d /\ n <> 0 /\ qdev_of d = QDev n 127 q out.

Lemma irq_holds d n q out bs : holds d n q out -> Forall is_u8 bs ->
  exists d', irq bs d = Some d' /\ holds d' n (lastn 127 (q ++ bs)) out.
Proof.
  intros (Hok & Hn & E) Hb. assert (s_ref_count d = n) as Hr by (by injection E).
  pose proof (irq_refines d bs Hok Hb) as St. unfold step_refines in St. rewrite E in St. cbn [qdev_step] in St.
  rewrite (proj2 (Z.eqb_neq n 0)) in St by done. destruct St as (d' & E1 & Hok' & E2).
  exists d'. unfold irq. rewrite E1. by split_and!.
Qed.

Lemma read_holds d n q out : holds d n q out ->
  exists d', rt_device_read 1 d = Some (firstn 1 q, d') /\ holds d' n (skipn 1 q) out.
Proof.
  intros (Hok & Hn & E). pose proof (read_refines d 1 Hok) as St. unfold step_refines in St.
  rewrite E in St. cbn [qdev_step dev_step] in St. rewrite (proj2 (Z.eqb_neq n 0)) in St by done.
  destruct St as (d' & E1 & Hok' & E2). exists d'. split; [exact E1|]. by split.
Qed.

(** The bytes of each turn fit in the queue with those already waiting. *)
Fixpoint fits (waiting : nat) (turns : list rx_turn) : Prop :=
  match turns with
  | [] => True
  | t :: r => (waiting + length (t_irq t) <= 127)%nat /\ fits (pred (waiting + length (t_irq t))) r
  end.

Definition quiet_turns (turns : list rx_turn) : Prop :=
  Forall (fun t => t_debug t = false /\ Forall is_u8 (t_irq t)) turns.

Definition arrived (turns : list rx_turn) : list Z := concat (map t_irq turns).

(** Waiting forever, every byte that arrives is parsed in order or waits in
    the queue. *)
Lemma loop_delivers turns timeout u n q out :
  timeout < 0 -> quiet_turns turns -> holds (u_dev u) n q out -> fits (length q) turns ->
  exists u' consumed q', uart2_loop turns timeout u = Some (Running timeout u') /\
    holds (u_dev u') n q' out /\ consumed ++ q' = q ++ arrived turns /\
    (u_rx u', u_g u') = rx_bytes consumed (u_rx u, u_g u).
Proof.
  intros Ht Hq. revert u q; induction Hq as [|t turns [Hd Hb] Hq IH]; intros u q Hu Hf.
  { exists u, [], q. unfold arrived. cbn. by rewrite app_nil_r. }
  cbn [uart2_loop fits] in Hf |- *. destruct Hf as [Hl Hf].
  destruct (irq_holds _ _ _ _ (t_irq t) Hu Hb) as (d1 & -> & H1). rewrite Hd.
  rewrite lastn_all in H1 by (rewrite length_app; lia).
  destruct (read_holds _ _ _ _ H1) as (d2 & -> & H2).
  unfold arrived. cbn [map concat]. rewrite app_assoc.
  destruct (q ++ t_irq t) as [|b q1] eqn:E; cbn [firstn skipn] in H2 |- *.
  - apply app_eq_nil in E as [-> E]. rewrite E in Hf. cbn in Hf.
    rewrite (proj2 (Z.ltb_ge 0 timeout)), (proj2 (Z.eqb_neq timeout 0)) by lia.
    apply (IH (Uart2 d2 (u_rx u) (u_g u)) []); done.
  - destruct (rx_byte b (u_rx u, u_g u)) as [r g] eqn:Er.
    destruct (IH (Uart2 d2 r g) q1 H2) as (u' & cs & q' & E1 & E2 & E3 & E4).
    { rewrite <- length_app, E in Hf. exact Hf. }
    exists u', (b :: cs), q'. split; [exact E1|]. split; [done|].
    split; [unfold arrived in E3; cbn [app]; by rewrite E3|]. rewrite E4. cbn [u_rx u_g].
    change (rx_bytes (b :: cs) (u_rx u, u_g u)) with (rx_bytes cs (rx_byte b (u_rx u, u_g u))).
    by rewrite Er.
Qed.

(** With a time-out, the loop leaves once it has had a turn for each byte and
    one for each 10 ms. *)
Lemma loop_leaves turns timeout u n q out :
  0 <= timeout -> quiet_turns turns -> holds (u_dev u) n q out ->
  (length q + length (arrived turns) + Z.to_nat (Z.max 1 ((timeout + 9) / 10)) <= length turns)%nat ->
  exists u' q', uart2_loop turns timeout u = Some (Left_ u') /\ holds (u_dev u') n q' out.
Proof.
  intros Ht Hq. revert timeout u q Ht; induction Hq as [|t turns [Hd Hb] Hq IH]; intros timeout u q Ht Hu Hl.
  { cbn in Hl. lia. }
  cbn [uart2_loop]. unfold arrived in *. cbn [map concat length] in Hl. rewrite length_app in Hl.
  destruct (irq_holds _ _ _ _ (t_irq t) Hu Hb) as (d1 & -> & H1). rewrite Hd.
  pose proof (lastn_length 127 (q ++ t_irq t)) as Hn1.
  assert (length (lastn 127 (q ++ t_irq t)) <= length q + length (t_irq t))%nat as Hn2
    by (unfold lastn; rewrite length_drop, length_app; lia).
  set (q1 := lastn 127 (q ++ t_irq t)) in *. clearbody q1.
  destruct (read_holds _ _ _ _ H1) as (d2 & -> & H2).
  destruct q1 as [|b q1]; cbn [firstn skipn length] in *.
  - destruct (Z.ltb_spec 0 timeout) as [Hpos|Hz].
    + destruct (Z.leb_spec (timeout - 10) 0); [by eexists _, _|].
      apply (IH (timeout - 10) (Uart2 d2 (u_rx u) (u_g u)) []); [lia|done|].
      cbn [length]. replace (timeout - 10 + 9) with (timeout + 9 + (-1) * 10) by lia.
      rewrite Z.div_add by lia.
      assert (2 <= (timeout + 9) / 10) by (apply Z.div_le_lower_bound; lia). lia.
    + rewrite (proj2 (Z.eqb_eq timeout 0)) by lia. by eexists _, _.
  - destruct (rx_byte b (u_rx u, u_g u)) as [r g].
    apply (IH timeout (Uart2 d2 r g) q1); [done|done|lia].
Qed.

(** Opening and configuring the device for the sensor. *)
Lemma uart2_setup malloc d : malloc (RX_FIFO_SIZE + 128) = true -> dev_ok d -> s_ref_count d < 255 -> bufsz (s_config d) = 128 ->
  exists d1 d2, rt_device_open malloc APP_OFLAG d = Some (RT_EOK, d1) /\
    rt_device_control RT_DEVICE_CTRL_CONFIG (Some uart2_config) 0 d1 = (RT_EOK, d2) /\
    holds d2 (s_ref_count d + 1) (dev_bytes d) (sent (s_hw d)).
Proof.
  intros Hm Hok Hr Hs. destruct (device_open_ok malloc d Hok Hr) as (d1 & Eo & Hok1 & Q1); [by rewrite Hs|].
  pose proof (config_refines d1 uart2_config Hok1 ltac:(cbn; lia)) as St. unfold step_refines in St.
  unfold qdev_of in Q1. rewrite Hs in Q1. injection Q1 as R1 C1 B1 W1.
  assert (bufsz (s_config d1) = 128) as C1'.
  { unfold qcap in C1. pose proof (dv_size _ Hok1). lia. }
  assert (s_ref_count d1 <> 0) as R1' by (pose proof (dv_ref _ Hok); lia).
  unfold qdev_of in St. cbn [qdev_step] in St. rewrite (proj2 (Z.eqb_neq (s_ref_count d1) 0)) in St by done.
  destruct St as (d2 & E2 & Hok2 & Q2).
  exists d1, d2. split; [done|]. split.
  - cbn [dev_step] in E2. injection E2 as E2. unfold rt_device_control, rt_serial_control in *.
    cbn in E2 |- *. rewrite C1', (proj2 (Z.eqb_neq (s_ref_count d1) 0)) in * by done.
    change (128 =? 128) with true in *. cbn in E2 |- *. by rewrite E2.
  - split; [done|]. split; [pose proof (dv_ref _ Hok); lia|]. unfold qdev_of. rewrite Q2. by rewrite R1, C1', B1, W1.
Qed.

(** The command's copy of the frame collector. *)
Lemma dbg_byte_parses b data :
  let rg := rx_byte data (RxState (b_frame_index b) (b_frame b), b_g b) in
  b_frame_index (dbg_byte data b) = data_index (fst rg) /\
  b_frame (dbg_byte data b) = uart2_received_data (fst rg) /\ b_g (dbg_byte data b) = snd rg.
Proof.
  destruct b as [d fi fr g n o]. unfold dbg_byte, rx_byte, store. cbn -[kprint wrapu].
  destruct (Z.eqb_spec fi 0) as [->|]; [by destruct (data =? 172)|].
  destruct (Z.eqb_spec fi 1) as [->|]; [by destruct (data =? 172)|].
  by destruct (u8 (fi + 1) =? PACKET_SIZE).
Qed.

Lemma dbg_bytes_parse l b :
  let b' := fold_left (fun b x => dbg_byte x b) l b in
  (RxState (b_frame_index b') (b_frame b'), b_g b')
  = rx_bytes l (RxState (b_frame_index b) (b_frame b), b_g b).
Proof.
  revert b; induction l as [|x l IH]; intros b; [done|]. cbn zeta in IH |- *.
  cbn [fold_left]. rewrite IH. unfold rx_bytes. cbn [fold_left]. f_equal.
  destruct (dbg_byte_parses b x) as (-> & -> & ->).
  by destruct (rx_byte x _) as [[i buf] g].
Qed.

Lemma close_holds d n q out : holds d n q out ->
  exists d', rt_device_close d = Some (RT_EOK, d') /\ dev_ok d' /\ s_ref_count d' = n - 1.
Proof.
  intros (Hok & Hn & E). pose proof (close_refines d Hok) as St. unfold step_refines in St. rewrite E in St. cbn [qdev_step dev_step] in St.
  rewrite (proj2 (Z.eqb_neq n 0)) in St by done. destruct St as (d' & E1 & Hok' & E2).
  assert (s_ref_count d = n) as Hr by (by injection E). exists d'.
  split; [|split; [done|by injection E2]].
  destruct (rt_device_close d) as [[e d'']|] eqn:C; [|done]. injection E1 as ->. f_equal. f_equal.
  unfold rt_device_close in C. rewrite Hr, (proj2 (Z.eqb_neq n 0)) in C by done.
  destruct (negb _) in C; [by simplify_eq|].
  unfold rt_serial_close in C. repeat case_match; by simplify_eq.
Qed.

(* ------------------------------------------------------------------ *)
(** ** Properties *)

(** C38: whatever bytes arrive, the published methane values are the initial
    ones or those of nineteen consecutive bytes of the stream with the
    header AC AC 13 AA and a correct checksum: no value is ever assembled
    from a truncated, shifted or corrupted frame. *)
Theorem methane_values_from_frames l buf g :
  length buf = 19%nat -> Forall is_u8 l ->
  let g' := snd (rx_bytes l (RxState 0 buf, g)) in
  (g_methane_ppm g' = g_methane_ppm g /\ g_methane_lel g' = g_methane_lel g /\
   g_methane_status g' = g_methane_status g /\ g_methane_data_valid g' = g_methane_data_valid g) \/
  (exists p f q, l = p ++ f ++ q /\ frame_ok f /\ shows f g').
Proof. apply rx_bytes_values. Qed.

Lemma methane_values_from_frames_witness :
  let g := Methane 0 0 0 false 0 0 in
  let l := [0xAC; 0xAC; 19; 0xAA; 1; 0; 0; 0; 0; 0; 0x2C; 1; 5; 0; 0; 0; 0; 0; 0x48; 9] in
  let g' := snd (rx_bytes l (RxState 0 (repeat 0 19), g)) in
  (g_methane_ppm g' = g_methane_ppm g /\ g_methane_lel g' = g_methane_lel g /\
   g_methane_status g' = g_methane_status g /\ g_methane_data_valid g' = g_methane_data_valid g) \/
  (exists p f q, l = p ++ f ++ q /\ frame_ok f /\ shows f g').
Proof.
  intros g l. apply (methane_values_from_frames l (repeat 0 19) g); [done|].
  subst l. unfold is_u8. repeat constructor; lia.
Defined.

(** On a line of valid frames, each preceded by any noise without the
    byte AC, every frame is counted and the last one's concentration,
    explosive limit and status are published; nothing is counted invalid. *)
Theorem methane_line_received l buf g :
  length buf = 19%nat -> l <> [] ->
  Forall (fun nf => Forall (fun b => b <> 0xAC) (fst nf) /\ frame_ok (snd nf)) l ->
  exists nf l', rev l = nf :: l' /\
  snd (rx_bytes (line l) (RxState 0 buf, g))
  = Methane (frame_ppm (snd nf)) (frame_lel (snd nf)) (frame_status (snd nf)) true
            (methane_valid_frames g +u32 Z.of_nat (length l)) (methane_invalid_frames g).
Proof.
  intros Hb Hne Hl. destruct (rx_line l buf g Hb Hl) as (buf' & _ & ->).
  destruct (rev l) as [|nf l'] eqn:R; [|by exists nf, l'].
  by apply (f_equal (@rev _)) in R; rewrite rev_involutive in R.
Qed.

Definition sample_frame : list Z :=
  [0xAC; 0xAC; 19; 0xAA; 1; 0; 0; 0; 0; 0; 0x2C; 1; 5; 0; 0; 0; 0; 0; 0x48].

Lemma sample_frame_ok : frame_ok sample_frame.
Proof. split; try reflexivity. unfold sample_frame, is_u8. repeat constructor; lia. Qed.

Lemma methane_line_received_witness :
  exists nf l', rev [([7; 8], sample_frame); ([], sample_frame)] = nf :: l' /\
  snd (rx_bytes (line [([7; 8], sample_frame); ([], sample_frame)])
         (RxState 0 (repeat 0 19), Methane 0 0 0 false 4294967295 3))
  = Methane (frame_ppm (snd nf)) (frame_lel (snd nf)) (frame_status (snd nf)) true
            (4294967295 +u32 2) 3.
Proof.
  apply (methane_line_received [([7; 8], sample_frame); ([], sample_frame)] (repeat 0 19)
           (Methane 0 0 0 false 4294967295 3)); [done|discriminate|].
  repeat constructor; try apply sample_frame_ok; cbn; lia.
Defined.

(** After any disturbance the parser loses at most one frame: from every
    state it can be in, a frame whose only bytes AC are its header (it may be
    lost) leaves it idle, and the next valid frame is received. *)
Theorem methane_resyncs l f f' r g :
  rx_ok l r -> frame_ok f -> Forall (fun b => b <> 0xAC) (skipn 2 f) -> frame_ok f' ->
  shows f' (snd (rx_bytes (f ++ f') (r, g))).
Proof.
  intros Hr Hf Hq Hf'. rewrite rx_bytes_app.
  destruct (rx_resync f r g Hf Hq (rk_len _ _ Hr) (rk_idx _ _ Hr)) as (buf' & g' & -> & Hb).
  by rewrite rx_frame.
Qed.

Lemma methane_resyncs_witness :
  shows sample_frame
    (snd (rx_bytes (sample_frame ++ sample_frame) (RxState 1 (repeat 0xAC 19), Methane 0 0 0 false 0 0))).
Proof.
  apply (methane_resyncs [0xAC]); try apply sample_frame_ok.
  - split; cbn; [done|lia|by exists []].
  - cbn. repeat constructor; lia.
Defined.

(** C28: the sensor thread (no time-out), once its device is open (there is
    memory for the receive queue), parses every byte it receives, in order and none twice, as long as the bytes between two of its turns fit
    the 127 places of the receive queue; what is not yet parsed waits in the
    queue. *)
Theorem methane_thread_delivers malloc turns timeout buf g d :
  malloc (RX_FIFO_SIZE + 128) = true -> timeout < 0 -> quiet_turns turns -> dev_ok d -> s_ref_count d < 255 ->
  bufsz (s_config d) = 128 -> fits (length (dev_bytes d)) turns ->
  exists u consumed, uart2_receive_and_print malloc true turns timeout buf g d = Some (RxRunning timeout u) /\
    consumed ++ dev_bytes (u_dev u) = dev_bytes d ++ arrived turns /\
    (u_rx u, u_g u) = rx_bytes consumed (RxState 0 buf, g).
Proof.
  intros Hm Ht Hq Hok Hr Hs Hf. destruct (uart2_setup malloc d Hm Hok Hr Hs) as (d1 & d2 & E1 & E2 & Hh).
  destruct (loop_delivers turns timeout (Uart2 d2 (RxState 0 buf) g) _ _ _ Ht Hq Hh Hf)
    as (u & cs & q' & E3 & (_ & _ & Q) & E4 & E5).
  exists u, cs. unfold uart2_receive_and_print. cbn [negb]. rewrite E1. cbn [negb Z.eqb RT_EOK].
  rewrite E2. cbn [negb Z.eqb RT_EOK]. rewrite E3. split; [done|]. split; [|done].
  injection Q as _ _ -> _. done.
Qed.

Lemma methane_thread_delivers_witness :
  let turns := [RxTurn [0xAC; 0xAC] false; RxTurn [19] false; RxTurn [] false] in
  exists u consumed,
    uart2_receive_and_print (fun _ => true) true turns (-1) (repeat 0 19) (Methane 0 0 0 false 0 0)
      (registered RT_SERIAL_CONFIG_DEFAULT) = Some (RxRunning (-1) u) /\
    consumed ++ dev_bytes (u_dev u) = dev_bytes (registered RT_SERIAL_CONFIG_DEFAULT) ++ arrived turns /\
    (u_rx u, u_g u) = rx_bytes consumed (RxState 0 (repeat 0 19), Methane 0 0 0 false 0 0).
Proof.
  intros turns. apply (methane_thread_delivers (fun _ => true) turns (-1)); try (cbn; lia); try reflexivity.
  - subst turns. unfold quiet_turns, is_u8. repeat constructor; cbn; repeat constructor; lia.
  - apply registered_ok. cbn. lia.
Defined.

(** With a time-out, the receive function returns: after one turn per
    byte received and one per 10 ms of the time-out it has closed the device
    (its reference count is back) and returned RT_EOK. *)
Theorem methane_receive_returns malloc turns timeout buf g d :
  malloc (RX_FIFO_SIZE + 128) = true -> 0 <= timeout -> quiet_turns turns -> dev_ok d -> s_ref_count d < 255 ->
  bufsz (s_config d) = 128 ->
  (length (dev_bytes d) + length (arrived turns) + Z.to_nat (Z.max 1 ((timeout + 9) / 10))
   <= length turns)%nat ->
  exists u, uart2_receive_and_print malloc true turns timeout buf g d = Some (RxReturned RT_EOK u) /\
    dev_ok (u_dev u) /\ s_ref_count (u_dev u) = s_ref_count d.
Proof.
  intros Hm Ht Hq Hok Hr Hs Hl. destruct (uart2_setup malloc d Hm Hok Hr Hs) as (d1 & d2 & E1 & E2 & Hh).
  destruct (loop_leaves turns timeout (Uart2 d2 (RxState 0 buf) g) _ _ _ Ht Hq Hh Hl)
    as (u & q' & E3 & Hu).
  destruct (close_holds _ _ _ _ Hu) as (d3 & E4 & Hok3 & R3).
  eexists. unfold uart2_receive_and_print. cbn [negb]. rewrite E1. cbn [negb Z.eqb RT_EOK].
  rewrite E2. cbn [negb Z.eqb RT_EOK]. rewrite E3, E4. split; [done|]. cbn [u_dev].
  split; [done|]. rewrite R3. lia.
Qed.

Lemma methane_receive_returns_witness :
  let turns := RxTurn [0xAC; 3] false :: repeat (RxTurn [] false) 4 in
  exists u, uart2_receive_and_print (fun _ => true) true turns 25 (repeat 0 19) (Methane 0 0 0 false 0 0)
              (registered RT_SERIAL_CONFIG_DEFAULT) = Some (RxReturned RT_EOK u) /\
    dev_ok (u_dev u) /\ s_ref_count (u_dev u) = s_ref_count (registered RT_SERIAL_CONFIG_DEFAULT).
Proof.
  intros turns. apply (methane_receive_returns (fun _ => true) turns 25); try (cbn; lia); try reflexivity.
  - subst turns. unfold quiet_turns, is_u8. repeat constructor; cbn; repeat constructor; lia.
  - apply registered_ok. cbn. lia.
Defined.

(** The [uart2_debug] command parses the stream as the sensor thread
    does: over any bytes, its own frame collector and the thread's go through
    the same states and publish the same values. *)
Theorem uart2_debug_same_parser l b :
  let b' := fold_left (fun b x => dbg_byte x b) l b in
  (RxState (b_frame_index b') (b_frame b'), b_g b')
  = rx_bytes l (RxState (b_frame_index b) (b_frame b), b_g b).
Proof. apply dbg_bytes_parse. Qed.
