(* ===== verification/Node.v ===== *)
(** * The published measurements

    The globals the acquisition threads write and the reporting threads read:
    applications/NodeApp.c ([node]), the flame channels of huaweiCloudApp.c
    and the variables of the Modbus applications. *)

From Stdlib Require Import ZArith Lia.
From stdpp Require Import base numbers list.
From S2P Require Import Prelude Float32.

(** [struct Node] *)
Record Node := MkNode {
  CH1_A : list f32;        (* three phase currents *)
  Flow : f32;
  Flame : Z;
  Methane_ : f32;
  Displacement : f32 }.

Definition NODENUM : Z := 2.

(** [Node node[NODENUM] = {0}] *)
Definition node0 : Node :=
  MkNode [f32_of_Z 0; f32_of_Z 0; f32_of_Z 0] (f32_of_Z 0) 0 (f32_of_Z 0) (f32_of_Z 0).

Definition set_Flame (v : Z) (n : Node) : Node := MkNode (CH1_A n) (Flow n) v (Methane_ n) (Displacement n).
Definition set_Flow (v : f32) (n : Node) : Node := MkNode (CH1_A n) v (Flame n) (Methane_ n) (Displacement n).
Definition set_CH1_A (v : list f32) (n : Node) : Node := MkNode v (Flow n) (Flame n) (Methane_ n) (Displacement n).
Definition set_Displacement (v : f32) (n : Node) : Node := MkNode (CH1_A n) (Flow n) (Flame n) (Methane_ n) v.
