(* ===== verification/AdcSensors.v ===== *)
(** * Oxygen and flame: the sensors on ADC1

    rt-thread/components/drivers/misc/adc.c and drivers/drv_adc.c (the ADC
    device), applications/o2SensorApp.c on top of it; applications/hal_adc.c
    and linesensor.c, which drive the same converter directly.  The vendor
    HAL is the interface [AdcHal]. *)

From Stdlib Require Import ZArith Lia.
From stdpp Require Import base numbers list.
From S2P Require Import Prelude Float32 Node.
Open Scope c_scope.

(** What the code uses of the HAL; the boolean results are [== HAL_OK] and,
    for the state, [== HAL_ADC_STATE_READY]. *)
Class AdcHal (HW : Type) := {
  HAL_ADC_ConfigChannel : Z -> HW -> bool * HW;
  HAL_ADC_Start : HW -> bool * HW;
  HAL_ADC_PollForConversion : HW -> bool * HW;
  HAL_ADC_GetValue : HW -> Z * HW;
  HAL_ADC_Stop : HW -> HW;
  HAL_ADC_Ready : HW -> bool * HW;
  ADC_Enable : HW -> HW;
  ADC_Disable : HW -> HW;
  mdelay : Z -> HW -> HW }.

Section Adc.
Context {HW : Type} `{AdcHal HW}.
Abbreviation M := (M HW).

(** [while (HAL_ADC_GetState(..) != READY && timeout > 0) { timeout--; mdelay(1); }] *)
Fixpoint wait_ready (timeout : nat) : M unit :=
  let! ready := getM HAL_ADC_Ready in
  match timeout with
  | O => retM tt
  | S k => if ready : bool then retM tt else do! doM (mdelay 1) in wait_ready k
  end.

(** [stm32_get_adc_value] (SOC_SERIES_STM32H7, channels 0 to 19): the result
    and [*value] where it is written. *)
Definition stm32_get_adc_value (channel : Z) : M (Z * option Z) :=
  if negb (channel <=? 19) then retM (- RT_ERROR, None)
  else
    do! doM HAL_ADC_Stop in
    do! wait_ready 100 in
    do! doM ADC_Disable in
    do! wait_ready 100 in
    do! doM (mdelay 3) in
    let! ok := getM (HAL_ADC_ConfigChannel channel) in
    if negb ok then retM (- RT_ERROR, None)
    else
      do! doM ADC_Enable in
      do! wait_ready 100 in
      do! doM (mdelay 2) in
      let! _s := getM HAL_ADC_Start in
      let! _p := getM HAL_ADC_PollForConversion in
      let! value := getM HAL_ADC_GetValue in
      do! doM HAL_ADC_Stop in
      do! wait_ready 100 in
      retM (RT_EOK, Some value).

Definition stm32_adc_enabled (channel : Z) (enabled : bool) : M Z :=
  do! doM (if enabled then ADC_Enable else ADC_Disable) in retM RT_EOK.

(** [rt_adc_read]: the local [value] is [None] (indeterminate) when the
    conversion did not write it; its result is not looked at. *)
Definition rt_adc_read (channel : Z) : M (option Z) :=
  let! 'r := stm32_get_adc_value channel in retM (snd r).

Definition rt_adc_enable (channel : Z) : M Z := stm32_adc_enabled channel true.
Definition rt_adc_disable (channel : Z) : M Z := stm32_adc_enabled channel false.

(** [_adc_read]: [n] values from position [pos] on, one per four bytes of
    the position; the bytes read, 0 after an error. *)
Fixpoint _adc_read (n : nat) (pos i : Z) : M (Z * list Z) :=
  match n with
  | O => retM (i, [])
  | S k =>
      let! 'r := stm32_get_adc_value (pos + i) in
      match r with
      | (0, Some v) => let! 'q := _adc_read k pos (i + 4) in
                       retM (fst q, v :: snd q)
      | _ => retM (0, [])
      end
  end.

(* ------------------------------------------------------------------ *)
(** ** Oxygen (o2SensorApp.c) *)

Definition O2_ADC_CHANNEL : Z := 18.
Definition O2_READ_INTERVAL_MS : Z := 2000.
Definition O2_ZERO_OFFSET : Z := 0.
Definition O2_FULL_SCALE_ADC : Z := 2410.
Definition O2_AIR_STABILIZE_LOW : Z := 207.
Definition O2_AIR_STABILIZE_HIGH : Z := 211.
Definition O2_AIR_STABILIZE_VALUE : Z := 209.

(** The concentration in tenths of a percent. *)
Definition o2_x10 (raw : Z) : Z :=
  let x := Z.quot (s32 (s32 (raw -u32 O2_ZERO_OFFSET) * 209)) (O2_FULL_SCALE_ADC - O2_ZERO_OFFSET) in
  if (O2_AIR_STABILIZE_LOW <=? x) && (x <=? O2_AIR_STABILIZE_HIGH)
  then O2_AIR_STABILIZE_VALUE else x.

Definition o2_percent (raw : Z) : f32 := f32_div (f32_of_Z (o2_x10 raw)) (f32_of_Z 10).

(** [o2_read_once]: its result and [*o2_percent]. *)
Definition o2_read_once : M (Z * option f32) :=
  let! raw := rt_adc_read O2_ADC_CHANNEL in
  retM (RT_EOK, option_map o2_percent raw).

(** One turn of [o2_thread_entry]; [None] is an indeterminate value. *)
Definition o2_thread_turn (g_o2_concentration : option f32) : M (option f32) :=
  let! 'r := o2_read_once in
  let g := if fst r =? RT_EOK then snd r else g_o2_concentration in
  do! doM (mdelay O2_READ_INTERVAL_MS) in
  retM g.

(** [o2_sensor_init]: whether the device was found and the thread created;
    the thread is started on success only. *)
Definition o2_sensor_init (found created : bool) : M (Z * bool) :=
  if negb found then retM (- RT_ERROR, false)
  else
    let! r := rt_adc_enable O2_ADC_CHANNEL in
    if negb (r =? RT_EOK) then retM (- RT_ERROR, false)
    else if negb created then retM (- RT_ERROR, false) else retM (RT_EOK, true).

(* ------------------------------------------------------------------ *)
(** ** Flame (hal_adc.c, linesensor.c) *)

Definition adc_read_channel (channel : Z) : M Z :=
  let! ok := getM (HAL_ADC_ConfigChannel channel) in
  if negb ok then retM 0
  else
    let! started := getM HAL_ADC_Start in
    if started : bool then
      let! done_ := getM HAL_ADC_PollForConversion in
      let! adc_value := (if done_ : bool then getM HAL_ADC_GetValue else retM 0) in
      do! doM HAL_ADC_Stop in
      retM adc_value
    else retM 0.

Definition ADC1_Read_Channel0 : M Z := adc_read_channel 0.
Definition ADC1_Read_Channel1 : M Z := adc_read_channel 15.
Definition ADC1_Read_Channel3 : M Z := adc_read_channel 3.
Definition ADC1_Read_Channel4 : M Z := adc_read_channel 19.
Definition ADC1_Read_Channel5 : M Z := adc_read_channel 5.

(** [g_adc_ch0 .. g_adc_ch5], [Flame] and [node[0]]. *)
Record flame_data := FlameData {
  g_adc_ch0 : Z; g_adc_ch1 : Z; g_adc_ch3 : Z; g_adc_ch4 : Z; g_adc_ch5 : Z;
  Flame_ : Z; f_node0 : Node }.

Definition FIRE_LEVEL : Z := 60000.

Definition fire_count (chs : list Z) : Z :=
  fold_left (fun n v => if FIRE_LEVEL <? v then n +u8 1 else n) chs 0.

(** One turn of [adc_read_thread_entry]. *)
Definition adc_read_turn (g : flame_data) : M flame_data :=
  let! adc_ch0 := ADC1_Read_Channel0 in
  let! adc_ch1 := ADC1_Read_Channel1 in
  let! adc_ch3 := ADC1_Read_Channel3 in
  let! adc_ch4 := ADC1_Read_Channel4 in
  let! adc_ch5 := ADC1_Read_Channel5 in
  let flame := if 4 <=? fire_count [adc_ch0; adc_ch1; adc_ch3; adc_ch4; adc_ch5] then 1 else 0 in
  do! doM (mdelay 500) in
  retM (FlameData adc_ch0 adc_ch1 adc_ch3 adc_ch4 adc_ch5 flame (set_Flame flame (f_node0 g))).

(** [line_sensor_init], the HAL set up: the thread is started if created. *)
Definition line_sensor_init (created : bool) : Z * bool :=
  if created then (RT_EOK, true) else (- RT_ERROR, false).
End Adc.

(* ------------------------------------------------------------------ *)
(** ** A converter *)

(** What a channel does when it is read. *)
Inductive outcome := NoConfig | NoStart | NoConversion | Value (v : Z).

(** A converter: per-channel outcomes, the channel selected, the successive
    ready answers (then always ready), whether it converts, the delays. *)
Record bench := Bench {
  b_conv : Z -> outcome; b_sel : Z; b_ready : list bool; b_running : bool; b_ms : Z }.

#[export] Instance bench_hal : AdcHal bench := {|
  HAL_ADC_ConfigChannel ch b :=
    match b_conv b ch with
    | NoConfig => (false, b)
    | _ => (true, Bench (b_conv b) ch (b_ready b) (b_running b) (b_ms b))
    end;
  HAL_ADC_Start b :=
    match b_conv b (b_sel b) with
    | NoStart => (false, b)
    | _ => (true, Bench (b_conv b) (b_sel b) (b_ready b) true (b_ms b))
    end;
  HAL_ADC_PollForConversion b :=
    match b_conv b (b_sel b) with Value _ => (true, b) | _ => (false, b) end;
  HAL_ADC_GetValue b := (match b_conv b (b_sel b) with Value v => v | _ => 0 end, b);
  HAL_ADC_Stop b := Bench (b_conv b) (b_sel b) (b_ready b) false (b_ms b);
  HAL_ADC_Ready b := (hd true (b_ready b),
                      Bench (b_conv b) (b_sel b) (tl (b_ready b)) (b_running b) (b_ms b));
  ADC_Enable b := b;
  ADC_Disable b := b;
  mdelay d b := Bench (b_conv b) (b_sel b) (b_ready b) (b_running b) (b_ms b + d) |}.

(** The value a flame channel reads: 0 when any step of it fails. *)
Definition channel_value (conv : Z -> outcome) (ch : Z) : Z :=
  match conv ch with Value v => v | _ => 0 end.

Definition FLAME_CHANNELS : list Z := [0; 15; 3; 19; 5].

(* ------------------------------------------------------------------ *)
(** ** Lemmas *)

Lemma adc_read_channel_bench ch b :
  exists b', adc_read_channel ch b = Some (channel_value (b_conv b) ch, b') /\
    b_conv b' = b_conv b /\ b_ms b' = b_ms b /\ (b_running b = false -> b_running b' = false).
Proof.
  unfold adc_read_channel, channel_value, bindM, getM, doM, retM. cbn.
  destruct (b_conv b ch) eqn:E; cbn; rewrite ?E; cbn; rewrite ?E; cbn;
    (eexists; split; [rewrite ?E; reflexivity|]); by split_and!.
Qed.

Lemma fire_count_spec chs : (length chs <= 255)%nat ->
  fire_count chs = Z.of_nat (length (List.filter (fun v => FIRE_LEVEL <? v) chs)).
Proof.
  unfold fire_count.
  assert (forall k, 0 <= k -> (k + Z.of_nat (length chs) <= 255) ->
    fold_left (fun n v => if FIRE_LEVEL <? v then n +u8 1 else n) chs k
    = k + Z.of_nat (length (List.filter (fun v => FIRE_LEVEL <? v) chs))) as Hg.
  { induction chs as [|v chs IH]; intros k Hk Hl; cbn [fold_left List.filter length] in *; [lia|].
    destruct (FIRE_LEVEL <? v).
    - rewrite u8_small by (unfold is_u8; lia). rewrite IH by lia. cbn [length]. lia.
    - apply IH; lia. }
  intros Hl. rewrite Hg; lia.
Qed.

Lemma adc_read_turn_bench g b :
  let chs := map (channel_value (b_conv b)) FLAME_CHANNELS in
  let flame := if 4 <=? fire_count chs then 1 else 0 in
  exists g' b', adc_read_turn g b = Some (g', b') /\
    [g_adc_ch0 g'; g_adc_ch1 g'; g_adc_ch3 g'; g_adc_ch4 g'; g_adc_ch5 g'] = chs /\
    Flame_ g' = flame /\ f_node0 g' = set_Flame flame (f_node0 g) /\ b_ms b' = b_ms b + 500 /\
    (b_running b = false -> b_running b' = false).
Proof.
  unfold adc_read_turn, ADC1_Read_Channel0, ADC1_Read_Channel1, ADC1_Read_Channel3,
    ADC1_Read_Channel4, ADC1_Read_Channel5.
  destruct (adc_read_channel_bench 0 b) as (b0 & E0 & C0 & T0 & R0).
  destruct (adc_read_channel_bench 15 b0) as (b1 & E1 & C1 & T1 & R1).
  destruct (adc_read_channel_bench 3 b1) as (b2 & E2 & C2 & T2 & R2).
  destruct (adc_read_channel_bench 19 b2) as (b3 & E3 & C3 & T3 & R3).
  destruct (adc_read_channel_bench 5 b3) as (b4 & E4 & C4 & T4 & R4).
  rewrite (bindM_some _ _ _ _ _ E0), (bindM_some _ _ _ _ _ E1), (bindM_some _ _ _ _ _ E2),
    (bindM_some _ _ _ _ _ E3), (bindM_some _ _ _ _ _ E4).
  rewrite C3, C2, C1, C0. eexists _, _. split; [reflexivity|]. cbn.
  split_and!; try done; [lia | auto 10].
Qed.

(** *** The ADC device *)
Lemma wait_ready_bench n b : exists b', wait_ready n b = Some (tt, b') /\
  b_conv b' = b_conv b /\ b_sel b' = b_sel b /\ b_running b' = b_running b /\
  b_ms b <= b_ms b' <= b_ms b + Z.of_nat n.
Proof.
  revert b; induction n as [|n IH]; intros b; cbn [wait_ready]; rewrite bindM_getM; cbn [HAL_ADC_Ready bench_hal fst snd].
  { eexists; split; [reflexivity|]; cbn; split_and!; (done || lia). }
  destruct (hd true (b_ready b)).
  { eexists; split; [reflexivity|]; cbn; split_and!; (done || lia). }
  rewrite bindM_doM.
  match goal with |- context [wait_ready n ?b0] => destruct (IH b0) as (b' & -> & E1 & E2 & E3 & E4) end.
  exists b'. cbn in *. split_and!; (done || lia).
Qed.

#[local] Arguments wait_ready : simpl never.
#[local] Arguments bindM : simpl never.

(** A sequence of steps on the converter, one wait at a time. *)
Ltac adc_wait :=
  match goal with
  | |- context [bindM (wait_ready ?n) ?k ?b] =>
      let b' := fresh "b" in let E := fresh "E" in
      destruct (wait_ready_bench n b) as (b' & E & ? & ? & ? & ?);
      rewrite (bindM_some _ _ _ _ _ E); clear E; cbn [b_conv b_sel b_running b_ms] in *
  end.

Lemma get_adc_value_bench ch b : 0 <= ch <= 19 ->
  exists r b', stm32_get_adc_value ch b = Some (r, b') /\
    b_conv b' = b_conv b /\ b_running b' = false /\ b_ms b <= b_ms b' <= b_ms b + 405 /\
    r = match b_conv b ch with
        | NoConfig => (- RT_ERROR, None)
        | Value v => (RT_EOK, Some v)
        | _ => (RT_EOK, Some 0)
        end.
Proof.
  intros Hc. unfold stm32_get_adc_value. rewrite (proj2 (Z.leb_le _ _)) by lia. cbn [negb].
  rewrite bindM_doM. adc_wait. rewrite bindM_doM. adc_wait.
  rewrite bindM_doM, bindM_getM. cbn in *.
  destruct (b_conv b1 ch) eqn:E.
  1: { cbn. eexists _, _. split; [reflexivity|]. cbn. replace (b_conv b ch) with NoConfig by congruence.
       split_and!; congruence || lia. }
  all: cbn; rewrite ?bindM_doM; adc_wait;
    assert (b_conv b2 (b_sel b2) = b_conv b1 ch) as E2 by congruence; rewrite E in E2;
    rewrite !bindM_doM, !bindM_getM; cbn; rewrite E2; cbn; rewrite ?E2; cbn; rewrite ?E2; cbn; rewrite bindM_doM; cbn; adc_wait;
    eexists _, _; (split; [reflexivity|]); replace (b_conv b ch) with (b_conv b1 ch) by congruence;
    rewrite E; split_and!; (congruence || lia).
Qed.

(** A conversion the HAL refuses leaves the local variable of [rt_adc_read]
    unwritten. *)
Lemma rt_adc_read_bench ch b : 0 <= ch <= 19 ->
  exists b', rt_adc_read ch b = Some (match b_conv b ch with
                                      | NoConfig => None
                                      | Value v => Some v
                                      | _ => Some 0
                                      end, b') /\
    b_running b' = false /\ b_ms b <= b_ms b' <= b_ms b + 405.
Proof.
  intros Hc. destruct (get_adc_value_bench ch b Hc) as (r & b' & E & _ & Hr & Ht & ->).
  exists b'. unfold rt_adc_read. rewrite (bindM_some _ _ _ _ _ E). by destruct (b_conv b ch).
Qed.

(* ------------------------------------------------------------------ *)
(** ** The oxygen formula *)

Lemma o2_x10_spec raw : 0 <= raw < 65536 ->
  let x := raw * 209 / 2410 in
  o2_x10 raw = if (207 <=? x) && (x <=? 211) then 209 else x.
Proof.
  intros Hr. unfold o2_x10, O2_ZERO_OFFSET, O2_FULL_SCALE_ADC. rewrite Z.sub_0_r.
  rewrite u32_small by (unfold is_u32; lia). rewrite !s32_small by (unfold is_s32; rewrite ?s32_small; unfold is_s32; lia).
  rewrite Z.quot_div_nonneg by lia. done.
Qed.

(* ------------------------------------------------------------------ *)
(** ** Properties *)

(** One turn of the flame thread publishes the five channel values and
    raises the alarm, in [Flame] and in node 0, exactly when four of them or
    more are above the fire level; a channel whose conversion fails counts as
    no fire, so two failed channels exclude an alarm. *)
Theorem flame_alarm_rule g b :
  let chs := map (channel_value (b_conv b)) FLAME_CHANNELS in
  exists g' b', adc_read_turn g b = Some (g', b') /\
    [g_adc_ch0 g'; g_adc_ch1 g'; g_adc_ch3 g'; g_adc_ch4 g'; g_adc_ch5 g'] = chs /\
    Flame_ g' = Flame (f_node0 g') /\ b_ms b' = b_ms b + 500 /\
    (Flame_ g' = 1 <-> 4 <= Z.of_nat (length (List.filter (fun v => FIRE_LEVEL <? v) chs))) /\
    (forall c d, c <> d -> In c FLAME_CHANNELS -> In d FLAME_CHANNELS ->
       channel_value (b_conv b) c = 0 -> channel_value (b_conv b) d = 0 -> Flame_ g' = 0).
Proof.
  intros chs. destruct (adc_read_turn_bench g b) as (g' & b' & E & E1 & E2 & E3 & E4 & _).
  fold chs in E1, E2, E3. exists g', b'. split; [done|]. split; [done|].
  rewrite fire_count_spec in E2, E3 by (subst chs; cbn; lia).
  set (n := length (List.filter _ chs)) in *.
  split; [rewrite E3, E2; done|]. split; [done|]. rewrite E2. split.
  - destruct (Z.leb_spec 4 (Z.of_nat n)); split; intros; (done || lia).
  - intros c d Hcd Hc Hd Vc Vd. destruct (Z.leb_spec 4 (Z.of_nat n)) as [Hn|]; [|done]. exfalso.
    enough (n <= 3)%nat by lia. subst n chs. clear -Hcd Hc Hd Vc Vd. unfold FLAME_CHANNELS in *. cbn [map] in *.
    cbn [In] in Hc, Hd.
    destruct Hc as [<-|[<-|[<-|[<-|[<-|[]]]]]], Hd as [<-|[<-|[<-|[<-|[<-|[]]]]]]; try done;
      rewrite ?Vc, ?Vd; cbn [List.filter]; change (FIRE_LEVEL <? 0) with false; cbn iota;
      repeat (destruct (FIRE_LEVEL <? _)); cbn [length]; lia.
Qed.

(** Whatever the converter answers when asked whether it is ready, one
    reading through the ADC device ends, within 405 ms of delays, with the
    converter stopped, and gives the value of the channel asked for. *)
Theorem adc_reading_bounded ch v b :
  0 <= ch <= 19 -> b_conv b ch = Value v ->
  exists b', rt_adc_read ch b = Some (Some v, b') /\ b_running b' = false /\
             b_ms b <= b_ms b' <= b_ms b + 405.
Proof.
  intros Hc Hv. destruct (rt_adc_read_bench ch b Hc) as (b' & E & Hr & Ht).
  exists b'. by rewrite Hv in E.
Qed.

Lemma adc_reading_bounded_witness :
  exists b', rt_adc_read 18 (Bench (fun _ => Value 2410) 3 (repeat false 1000) true 0) = Some (Some 2410, b') /\
             b_running b' = false /\ 0 <= b_ms b' <= 0 + 405.
Proof. apply (adc_reading_bounded 18 2410 (Bench (fun _ => Value 2410) 3 (repeat false 1000) true 0)); [lia|reflexivity]. Defined.

(** The oxygen concentration grows with the reading over the whole 16-bit
    range, is within 0.2 % of the calibration line, shows 20.9 % at the
    calibration reading and never overflows. *)
Theorem o2_conversion raw :
  0 <= raw < 65536 ->
  (forall raw', raw <= raw' < 65536 -> o2_x10 raw <= o2_x10 raw') /\
  Z.abs (o2_x10 raw - raw * 209 / 2410) <= 2 /\ 0 <= o2_x10 raw <= 5683 /\ o2_x10 2410 = 209.
Proof.
  intros Hr. rewrite (o2_x10_spec raw Hr).
  pose proof (Z.div_le_mono (raw * 209) (65535 * 209) 2410 ltac:(lia) ltac:(lia)) as Hm.
  change (65535 * 209 / 2410) with 5683 in Hm. pose proof (Z.div_pos (raw * 209) 2410 ltac:(lia) ltac:(lia)).
  split_and!; [|destruct (Z.leb_spec 207 (raw * 209 / 2410)), (Z.leb_spec (raw * 209 / 2410) 211); cbn [andb]; lia..|done].
  intros raw' Hr'. rewrite (o2_x10_spec raw') by lia.
  pose proof (Z.div_le_mono (raw * 209) (raw' * 209) 2410 ltac:(lia) ltac:(lia)).
  destruct (Z.leb_spec 207 (raw * 209 / 2410)), (Z.leb_spec (raw * 209 / 2410) 211),
    (Z.leb_spec 207 (raw' * 209 / 2410)), (Z.leb_spec (raw' * 209 / 2410) 211); cbn [andb]; lia.
Qed.

Lemma o2_conversion_witness :
  (forall raw', 1000 <= raw' < 65536 -> o2_x10 1000 <= o2_x10 raw') /\
  Z.abs (o2_x10 1000 - 1000 * 209 / 2410) <= 2 /\ 0 <= o2_x10 1000 <= 5683 /\ o2_x10 2410 = 209.
Proof. apply (o2_conversion 1000). lia. Defined.

(** A conversion the driver refuses goes unnoticed: [o2_read_once] reports
    success and the thread publishes a value that was never written. *)
Theorem o2_refused_conversion_published b g :
  b_conv b O2_ADC_CHANNEL = NoConfig ->
  exists b1 b2, o2_read_once b = Some ((RT_EOK, None), b1) /\ o2_thread_turn g b = Some (None, b2).
Proof.
  intros Hc. destruct (rt_adc_read_bench O2_ADC_CHANNEL b ltac:(unfold O2_ADC_CHANNEL; lia)) as (b' & E & _).
  rewrite Hc in E. unfold o2_thread_turn.
  assert (o2_read_once b = Some ((RT_EOK, None), b')) as E1
    by (unfold o2_read_once; by rewrite (bindM_some _ _ _ _ _ E)).
  rewrite (bindM_some _ _ _ _ _ E1). by eexists _, _.
Qed.

Lemma o2_refused_conversion_published_witness :
  exists b1 b2,
    o2_read_once (Bench (fun _ => NoConfig) 0 [] false 0) = Some ((RT_EOK, None), b1) /\
    o2_thread_turn (Some (f32_of_Z 20)) (Bench (fun _ => NoConfig) 0 [] false 0) = Some (None, b2).
Proof. by apply o2_refused_conversion_published. Defined.
