(* ===== verification/ModbusApp.v ===== *)
(** * The Modbus sensors: water meter, displacement, stress, ammeter

    applications/freeModbusApp.c (the polling thread), stressSensorApp.c and
    displacementSensorApp.c.  FreeModbus is not part of the sources: its
    requests and its register buffer are the interface [Modbus], and what the
    applications rely on is [ModbusLaws]. *)

From Stdlib Require Import ZArith Lia String SpecFloat.
From stdpp Require Import base numbers list.
From S2P Require Import Prelude Memory Float32 Printf Node.
Open Scope c_scope.

Definition MB_MRE_NO_ERR : Z := 0.
Definition SLAVE_MAX : Z := 247.

(** Requests return an [eMBMasterReqErrCode]; [usMRegHoldBuf hw row reg] is
    the register buffer, an array of [hold_rows] by [hold_regs] cells. *)
Class Modbus (HW : Type) := {
  eMBMasterReqReadHoldingRegister : Z -> Z -> Z -> HW -> Z * HW;
  eMBMasterReqWriteHoldingRegister : Z -> Z -> Z -> HW -> Z * HW;
  usMRegHoldBuf : HW -> Z -> Z -> Z;
  hold_rows : Z;
  hold_regs : Z;
  mb_mdelay : Z -> HW -> HW }.

(** [dev slave reg] is the content of a slave's holding register: a read that
    succeeds has stored the registers asked for in the row of the slave; a
    delay leaves the buffer alone. *)
Class ModbusLaws (HW : Type) `{Modbus HW} (dev : Z -> Z -> Z) := {
  dev_u16 : forall s r, is_u16 (dev s r);
  read_stores : forall slave reg num hw hw' i,
    eMBMasterReqReadHoldingRegister slave reg num hw = (MB_MRE_NO_ERR, hw') ->
    0 <= i < num -> usMRegHoldBuf hw' (slave - 1) (reg + i) = dev slave (reg + i);
  delay_keeps : forall d hw r c, usMRegHoldBuf (mb_mdelay d hw) r c = usMRegHoldBuf hw r c }.

Definition AMMETER_SLAVE_ADDR : Z := 73.
Definition VOLTAGE_REG_START : Z := 0x100.
Definition VOLTAGE_REG_NUM : Z := 6.
Definition CURRENT_REG_START : Z := 0x10E.
Definition CURRENT_REG_NUM : Z := 6.
Definition WATERMETER_SLAVE_ADDR : Z := 1.
Definition FLOW_REG_START : Z := 1.
Definition FLOW_REG_NUM : Z := 2.
Definition DISPLACEMENT_SLAVE_ADDR : Z := 2.
Definition DISPLACEMENT_REG_START : Z := 0.
Definition DISPLACEMENT_REG_NUM : Z := 2.
Definition DISPLACEMENT_ZERO_OFFSET : Z := 74.
Definition DISPLACEMENT_SCALE_FACTOR : f32 := f32_lit 25 1000.
Definition STRESS_SLAVE_ADDR : Z := 3.
Definition STRESS_STATUS_REG : Z := 0x0008.
Definition STRESS_VALUE_REG : Z := 0x0050.
Definition STRESS_VALUE_REG_NUM : Z := 2.
Definition STRESS_UNIT_REG : Z := 0x0068.
Definition STRESS_DECIMAL_MASK : Z := 0x0007.
Definition STRESS_UNIT_G : Z := 1.
Definition STRESS_UNIT_KG : Z := 2.
Definition STRESS_UNIT_T : Z := 3.
Definition STRESS_UNIT_N : Z := 4.

(** The globals of stressSensorApp.c. *)
Record stress := Stress {
  g_stress_value_n : f32; g_stress_raw_value : Z; g_stress_status : Z; g_stress_unit : Z;
  g_stress_decimal_places : Z; g_stress_sensor_online : bool; g_stress_value_valid : bool }.

(** The globals of freeModbusApp.c and displacementSensorApp.c, with node 0. *)
Record mb_data := MbData {
  Voltage : list f32; Current : list f32; Flow_ : f32; Displacement_ : f32;
  g_displacement_value : f32; g_displacement_sensor_online : bool;
  g_stress : stress; m_node0 : Node }.

Definition registers_to_float (reg1 reg2 : Z) : f32 :=
  let reg2_unsigned := Z.land reg2 0xFFFF in
  let combined := Z.lor (u32 (Z.shiftl reg1 16)) reg2_unsigned in
  f32_of_bits combined.

Definition stress_pow10_table : list Z := [1; 10; 100; 1000; 10000; 100000; 1000000; 10000000].

(** [stress_convert_to_n]: the value in newtons, [None] when it is refused. *)
Definition stress_convert_to_n (raw_value decimal_places unit : Z) : option f32 :=
  if Z.of_nat (length stress_pow10_table) <=? decimal_places then None
  else
    let displayed_value :=
      f32_div (f32_of_Z raw_value) (f32_of_Z (nth (Z.to_nat decimal_places) stress_pow10_table 0)) in
    if unit =? STRESS_UNIT_N then Some displayed_value
    else if unit =? STRESS_UNIT_T then Some (f32_mul displayed_value (f32_lit 980665 100))
    else if unit =? STRESS_UNIT_KG then Some (f32_mul displayed_value (f32_lit 980665 100000))
    else if unit =? STRESS_UNIT_G then Some (f32_mul displayed_value (f32_lit 980665 100000000))
    else None.

(** [stress_decode_measurement]: the raw value, the decimal places and the
    converted value. *)
Definition stress_decode_measurement (status unit reg_high reg_low : Z) : Z * Z * option f32 :=
  let combined := Z.lor (u32 (Z.shiftl reg_high 16)) reg_low in
  let raw_value := s32 combined in
  let decimal_places := u8 (Z.land status STRESS_DECIMAL_MASK) in
  (raw_value, decimal_places, stress_convert_to_n raw_value decimal_places unit).

Section App.
Context {HW : Type} `{Modbus HW}.
Abbreviation M := (M HW).

(** A read of the buffer; outside its bounds, [None]. *)
Definition hold_at (row reg : Z) : M Z := fun hw =>
  if (0 <=? row) && (row <? hold_rows) && (0 <=? reg) && (reg <? hold_regs)
  then Some (usMRegHoldBuf hw row reg, hw) else None.

Definition read_req (slave reg num : Z) : M Z := getM (eMBMasterReqReadHoldingRegister slave reg num).

(** [stress_read_registers]: the error code, or the four registers. *)
Definition stress_read_registers (slave_addr : Z) : M (Z + Z * Z * Z * Z) :=
  let! e := read_req slave_addr STRESS_STATUS_REG 1 in
  if negb (e =? MB_MRE_NO_ERR) then retM (inl e)
  else
    let! status := hold_at (slave_addr - 1) STRESS_STATUS_REG in
    let! e := read_req slave_addr STRESS_UNIT_REG 1 in
    if negb (e =? MB_MRE_NO_ERR) then retM (inl e)
    else
      let! unit := hold_at (slave_addr - 1) STRESS_UNIT_REG in
      let! e := read_req slave_addr STRESS_VALUE_REG STRESS_VALUE_REG_NUM in
      if negb (e =? MB_MRE_NO_ERR) then retM (inl e)
      else
        let! reg_high := hold_at (slave_addr - 1) STRESS_VALUE_REG in
        let! reg_low := hold_at (slave_addr - 1) (STRESS_VALUE_REG + 1) in
        retM (inr (status, unit, reg_high, reg_low)).

Definition stress_offline (s : stress) : stress :=
  Stress (g_stress_value_n s) (g_stress_raw_value s) (g_stress_status s) (g_stress_unit s)
         (g_stress_decimal_places s) false false.

Definition stress_measured (status unit reg_high reg_low : Z) (s : stress) : stress :=
  let '(raw_value, decimal_places, value) := stress_decode_measurement status unit reg_high reg_low in
  Stress (match value with Some v => v | None => g_stress_value_n s end)
         raw_value status unit decimal_places true
         (match value with Some _ => true | None => false end).

Definition stress_sensor_poll (s : stress) : M (Z * stress) :=
  let! r := stress_read_registers STRESS_SLAVE_ADDR in
  match r with
  | inl _ => retM (- RT_ERROR, stress_offline s)
  | inr (status, unit, reg_high, reg_low) =>
      retM (RT_EOK, stress_measured status unit reg_high reg_low s)
  end.

(** *** A turn of [send_thread_entry], one device at a time *)
Definition water_step (g : mb_data) : M mb_data :=
  let! e := read_req WATERMETER_SLAVE_ADDR FLOW_REG_START FLOW_REG_NUM in
  if e =? MB_MRE_NO_ERR then
    let! reg_high := hold_at (WATERMETER_SLAVE_ADDR - 1) FLOW_REG_START in
    let! reg_low := hold_at (WATERMETER_SLAVE_ADDR - 1) (FLOW_REG_START + 1) in
    let flow := registers_to_float reg_high reg_low in
    retM (MbData (Voltage g) (Current g) flow (Displacement_ g) (g_displacement_value g)
                 (g_displacement_sensor_online g) (g_stress g) (set_Flow flow (m_node0 g)))
  else retM g.

(** The displacement the polling thread publishes for a register value. *)
Definition poll_displacement (raw_value : Z) : f32 :=
  let adjusted_raw := raw_value - 298 in
  let adjusted_raw := if adjusted_raw <? 0 then 0 else adjusted_raw in
  f32_mul (f32_of_Z adjusted_raw) (f32_lit 25 1000).

Definition displacement_step (g : mb_data) : M mb_data :=
  let! e := read_req DISPLACEMENT_SLAVE_ADDR DISPLACEMENT_REG_START DISPLACEMENT_REG_NUM in
  if e =? MB_MRE_NO_ERR then
    let! raw_value := hold_at (DISPLACEMENT_SLAVE_ADDR - 1) (DISPLACEMENT_REG_START + 1) in
    let d := poll_displacement raw_value in
    retM (MbData (Voltage g) (Current g) (Flow_ g) d d true (g_stress g)
                 (set_Displacement d (m_node0 g)))
  else
    retM (MbData (Voltage g) (Current g) (Flow_ g) (Displacement_ g) (g_displacement_value g)
                 false (g_stress g) (m_node0 g)).

Definition stress_step (g : mb_data) : M mb_data :=
  let! 'r := stress_sensor_poll (g_stress g) in
  retM (MbData (Voltage g) (Current g) (Flow_ g) (Displacement_ g) (g_displacement_value g)
               (g_displacement_sensor_online g) (snd r) (m_node0 g)).

(** The loop [for (i = 0; i < 3; i++)] over three register pairs. *)
Fixpoint read_floats (n : nat) (row reg : Z) : M (list f32) :=
  match n with
  | O => retM []
  | S k =>
      let! reg_high := hold_at row reg in
      let! reg_low := hold_at row (reg + 1) in
      let! l := read_floats k row (reg + 2) in
      retM (registers_to_float reg_high reg_low :: l)
  end.

Definition voltage_step (g : mb_data) : M mb_data :=
  let! e := read_req AMMETER_SLAVE_ADDR VOLTAGE_REG_START VOLTAGE_REG_NUM in
  if e =? MB_MRE_NO_ERR then
    let! v := read_floats 3 (AMMETER_SLAVE_ADDR - 1) VOLTAGE_REG_START in
    retM (MbData v (Current g) (Flow_ g) (Displacement_ g) (g_displacement_value g)
                 (g_displacement_sensor_online g) (g_stress g) (m_node0 g))
  else retM g.

Definition current_step (g : mb_data) : M mb_data :=
  let! e := read_req AMMETER_SLAVE_ADDR CURRENT_REG_START CURRENT_REG_NUM in
  if e =? MB_MRE_NO_ERR then
    let! c := read_floats 3 (AMMETER_SLAVE_ADDR - 1) CURRENT_REG_START in
    retM (MbData (Voltage g) c (Flow_ g) (Displacement_ g) (g_displacement_value g)
                 (g_displacement_sensor_online g) (g_stress g) (set_CH1_A c (m_node0 g)))
  else retM g.

Definition send_turn (g : mb_data) : M mb_data :=
  let! g := water_step g in do! doM (mb_mdelay 500) in
  let! g := displacement_step g in do! doM (mb_mdelay 500) in
  let! g := stress_step g in do! doM (mb_mdelay 500) in
  let! g := voltage_step g in do! doM (mb_mdelay 500) in
  let! g := current_step g in do! doM (mb_mdelay 500) in
  retM g.

Fixpoint send_thread_entry (turns : nat) (g : mb_data) : M mb_data :=
  match turns with
  | O => retM g
  | S k => let! g := send_turn g in send_thread_entry k g
  end.

(* ------------------------------------------------------------------ *)
(** ** displacementSensorApp.c *)

(** The integer and fractional parts printed for a displacement. *)
Definition disp_int (v : f32) : Z := f32_to_int v.
Definition disp_dec (v : f32) (k : Z) : Z :=
  let d := f32_to_int (f32_mul (f32_sub v (f32_of_Z (disp_int v))) (f32_of_Z k)) in
  if d <? 0 then s32 (- d) else d.

Definition displacement_print_status (g : mb_data) (out : option (list Z)) : option (list Z) :=
  if g_displacement_sensor_online g then
    kprint "[Displacement] Online - Value: %d.%03d mm\n"
      [AInt (disp_int (g_displacement_value g)); AInt (disp_dec (g_displacement_value g) 1000)] out
  else kprint "[Displacement] Offline - No communication\n" [] out.

Definition test_displacement (raw_value : Z) : f32 :=
  let adjusted_raw := raw_value - DISPLACEMENT_ZERO_OFFSET in
  let adjusted_raw := if adjusted_raw <? 0 then 0 else adjusted_raw in
  f32_mul (f32_of_Z adjusted_raw) DISPLACEMENT_SCALE_FACTOR.

Definition disp_test_banner : option (list Z) :=
  kprint "========================================\n\n" []
  (kprint "  Scale Factor: %.3f (1 unit = 0.025mm)\n" [AFloat DISPLACEMENT_SCALE_FACTOR]
  (kprint "  Parity: None\n" []
  (kprint "  Baudrate: 9600\n" []
  (kprint "  Register Count: %d\n" [AInt DISPLACEMENT_REG_NUM]
  (kprint "  Register Start: 0x%04X\n" [AInt DISPLACEMENT_REG_START]
  (kprint "  Slave Address: %d\n" [AInt DISPLACEMENT_SLAVE_ADDR]
  (kprint "========================================\n" []
  (kprint "  Displacement Sensor Test Started\n" []
  (kprint "\n========================================\n" [] (Some [])))))))))).

(** One turn of [displacement_sensor_test_thread_entry]: the globals, the two
    counters and the console. *)
Record disp_test := DispTest { dt_g : mb_data; success_count : Z; error_count : Z; dt_out : option (list Z) }.

Definition displacement_test_turn (t : disp_test) : M disp_test :=
  let g := dt_g t in
  let! e := read_req DISPLACEMENT_SLAVE_ADDR DISPLACEMENT_REG_START DISPLACEMENT_REG_NUM in
  let! t :=
    (if e =? MB_MRE_NO_ERR then
       let! raw_value := hold_at (DISPLACEMENT_SLAVE_ADDR - 1) (DISPLACEMENT_REG_START + 1) in
       let ok := success_count t +u32 1 in
       let d := test_displacement raw_value in
       let g := MbData (Voltage g) (Current g) (Flow_ g) (Displacement_ g) d true (g_stress g) (m_node0 g) in
       retM (DispTest g ok (error_count t)
         (kprint "[%05d] Displacement: %d.%03d mm (Raw: %d) | OK: %d, ERR: %d\n"
            [AInt (ok +u32 error_count t); AInt (disp_int d); AInt (disp_dec d 1000); AInt raw_value;
             AInt ok; AInt (error_count t)] (dt_out t)))
     else
       let err := error_count t +u32 1 in
       let g := MbData (Voltage g) (Current g) (Flow_ g) (Displacement_ g) (g_displacement_value g)
                       false (g_stress g) (m_node0 g) in
       retM (DispTest g (success_count t) err
         (kprint "[%05d] Displacement Error: Code=%d | OK: %d, ERR: %d\n"
            [AInt (success_count t +u32 err); AInt e; AInt (success_count t); AInt err] (dt_out t)))) in
  do! doM (mb_mdelay 1000) in
  retM t.

Definition displacement_change_slave_address (old_addr new_addr : Z) (out : option (list Z))
  : M (Z * option (list Z)) :=
  let out := kprint "\n========================================\n" [] out in
  let out := kprint "  Displacement Sensor Address Change\n" [] out in
  let out := kprint "========================================\n" [] out in
  let out := kprint "  Old Address: %d (0x%02X)\n" [AInt old_addr; AInt old_addr] out in
  let out := kprint "  New Address: %d (0x%02X)\n" [AInt new_addr; AInt new_addr] out in
  let out := kprint "  Register: 0x0004\n" [] out in
  let out := kprint "  Baudrate: 9600, 8N1\n" [] out in
  let out := kprint "  Modbus Frame: %02X 06 00 04 00 %02X [CRC]\n" [AInt old_addr; AInt new_addr] out in
  let out := kprint "========================================\n\n" [] out in
  let out := kprint "[DISP] Sending address change command...\n" [] out in
  let! e := getM (eMBMasterReqWriteHoldingRegister old_addr 0x0004 (u16 new_addr)) in
  if e =? MB_MRE_NO_ERR then
    let out := kprint "[DISP] ✓ Address changed successfully!\n" [] out in
    let out := kprint "[DISP] ✓ New address: %d (0x%02X)\n" [AInt new_addr; AInt new_addr] out in
    let out := kprint "[DISP] ✓ Change is permanent (saved in non-volatile memory)\n" [] out in
    let out := kprint "[DISP] ! Please run 'disp_test_addr %d' to verify\n" [AInt new_addr] out in
    retM (RT_EOK, out)
  else
    let out := kprint "[DISP] ✗ Failed to change address\n" [] out in
    let out := kprint "[DISP] ✗ Error code: %d\n" [AInt e] out in
    let out := kprint "[DISP] ! Check connections and ensure no other device uses address %d\n" [AInt old_addr] out in
    retM (- RT_ERROR, out).

Definition displacement_test_address (test_addr : Z) (out : option (list Z)) : M (option (list Z)) :=
  let out := kprint "\n[DISP] Testing address %d...\n" [AInt test_addr] out in
  let! e := read_req test_addr 0 2 in
  if e =? MB_MRE_NO_ERR then
    let! raw_value := hold_at (test_addr - 1) 1 in
    let adjusted := raw_value - 74 in
    let adjusted := if adjusted <? 0 then 0 else adjusted in
    let displacement_milli := adjusted * 25 in
    let out := kprint "[DISP] ✓ Address %d responds correctly!\n" [AInt test_addr] out in
    let out := kprint "[DISP]   Raw value: %d\n" [AInt raw_value] out in
    let out := kprint "[DISP]   Displacement: %d.%03d mm\n"
                 [AInt (displacement_milli / 1000); AInt (displacement_milli mod 1000)] out in
    retM out
  else
    let out := kprint "[DISP] ✗ Address %d test failed\n" [AInt test_addr] out in
    let out := kprint "[DISP] ✗ Error code: %d\n" [AInt e] out in
    let out := kprint "[DISP] ! Device may not be at this address\n" [] out in
    retM out.

(** The shell commands; [argv] holds the arguments after the name. *)
Definition disp_set_addr (argv : list (list Z)) (out : option (list Z)) : M (option (list Z)) :=
  match argv with
  | [a1; a2] =>
      let old_addr := u8 (atoi a1) in
      let new_addr := u8 (atoi a2) in
      if (old_addr <? 1) || (247 <? old_addr) || (new_addr <? 1) || (247 <? new_addr)
      then retM (kprint "\nError: Address must be in range 1-247\n\n" [] out)
      else if old_addr =? new_addr
      then retM (kprint "\nError: Old and new addresses are the same!\n\n" [] out)
      else
        let out := kprint "\n⚠️  WARNING: Ensure all other Modbus devices are disconnected!\n" [] out in
        let out := kprint "⚠️  WARNING: Only the displacement sensor should be on the bus!\n\n" [] out in
        let! 'r := displacement_change_slave_address old_addr new_addr out in
        retM (snd r)
  | _ =>
      retM (kprint "         (Change from address 1 to address 2)\n\n" []
           (kprint "Example: disp_set_addr 1 2\n" []
           (kprint "\nUsage: disp_set_addr <old_addr> <new_addr>\n" [] out)))
  end.

Definition disp_test_addr (argv : list (list Z)) (out : option (list Z)) : M (option (list Z)) :=
  match argv with
  | [a1] =>
      let test_addr := u8 (atoi a1) in
      if (test_addr <? 1) || (247 <? test_addr)
      then retM (kprint "\nError: Address must be in range 1-247\n\n" [] out)
      else displacement_test_address test_addr out
  | _ =>
      retM (kprint "         (Test if device responds at address 2)\n\n" []
           (kprint "Example: disp_test_addr 2\n" []
           (kprint "\nUsage: disp_test_addr <address>\n" [] out)))
  end.
End App.

(* ------------------------------------------------------------------ *)
(** ** The cycle, as a function of the devices and of the error codes *)

(** A pair of registers of a slave as a float. *)
Definition dev_float (dev : Z -> Z -> Z) (slave reg : Z) : f32 :=
  f32_of_bits (dev slave reg * 65536 + dev slave (reg + 1)).

Definition dev_floats (dev : Z -> Z -> Z) (slave reg : Z) : list f32 :=
  [dev_float dev slave reg; dev_float dev slave (reg + 2); dev_float dev slave (reg + 4)].

(** The requests of one cycle, a group for each measurement: the water meter,
    the displacement, the stress (status, unit, value), voltage and current. *)
Definition cycle_plan : list (list (Z * Z * Z)) :=
  [ [(1, 1, 2)]; [(2, 0, 2)]; [(3, 8, 1); (3, 104, 1); (3, 80, 2)]; [(73, 256, 6)]; [(73, 270, 6)] ].

Section Plan.
Context {HW : Type} `{Modbus HW}.

(** The requests of a group are made in order until one fails: whether none did. *)
Fixpoint ask (group : list (Z * Z * Z)) (hw : HW) : bool * HW :=
  match group with
  | [] => (true, hw)
  | (slave, reg, num) :: r =>
      let '(e, hw) := eMBMasterReqReadHoldingRegister slave reg num hw in
      if e =? MB_MRE_NO_ERR then ask r hw else (false, hw)
  end.

(** The groups one after the other, half a second after each: which succeeded. *)
Fixpoint ask_all (plan : list (list (Z * Z * Z))) (hw : HW) : list bool * HW :=
  match plan with
  | [] => ([], hw)
  | g :: r =>
      let '(ok, hw) := ask g hw in
      let '(oks, hw) := ask_all r (mb_mdelay 500 hw) in (ok :: oks, hw)
  end.
End Plan.

(** What one cycle leaves, from the devices' registers and from which of the
    five groups of requests succeeded. *)
Definition cycle_result (dev : Z -> Z -> Z) (oks : list bool) (g : mb_data) : mb_data :=
  let ok i := nth i oks false in
  let flow := dev_float dev 1 1 in
  let d := poll_displacement (dev 2 1) in
  let v := dev_floats dev 73 256 in
  let c := dev_floats dev 73 270 in
  MbData (if ok 3%nat then v else Voltage g) (if ok 4%nat then c else Current g)
         (if ok 0%nat then flow else Flow_ g) (if ok 1%nat then d else Displacement_ g)
         (if ok 1%nat then d else g_displacement_value g) (ok 1%nat)
         (if ok 2%nat then stress_measured (dev 3 8) (dev 3 104) (dev 3 80) (dev 3 81) (g_stress g)
          else stress_offline (g_stress g))
         (MkNode (if ok 4%nat then c else CH1_A (m_node0 g)) (if ok 0%nat then flow else Flow (m_node0 g))
                 (Flame (m_node0 g)) (Methane_ (m_node0 g))
                 (if ok 1%nat then d else Displacement (m_node0 g))).

(** The thread over a number of cycles. *)
Fixpoint cycles_result {HW} `{Modbus HW} (dev : Z -> Z -> Z) (n : nat) (g : mb_data) (hw : HW) : mb_data * HW :=
  match n with
  | O => (g, hw)
  | S k => let '(oks, hw) := ask_all cycle_plan hw in cycles_result dev k (cycle_result dev oks g) hw
  end.

(** A bus of slaves that answer as scripted: each request consumes an error
    code (success when the script is over); a success copies the slave's
    registers into the buffer. *)
Record mbus := Mbus { ms_script : list Z; ms_buf : Z -> Z -> Z; ms_log : list (Z * Z * Z) }.

Definition mbus_read (dev : Z -> Z -> Z) (slave reg num : Z) (b : mbus) : Z * mbus :=
  let e := hd 0 (ms_script b) in
  (e, Mbus (tl (ms_script b))
           (if e =? 0
            then fun row r => if (row =? slave - 1) && (reg <=? r) && (r <? reg + num)
                              then dev slave r else ms_buf b row r
            else ms_buf b)
           (ms_log b ++ [(slave, reg, num)])).

Definition mbus_write (slave reg value : Z) (b : mbus) : Z * mbus :=
  (hd 0 (ms_script b), Mbus (tl (ms_script b)) (ms_buf b) (ms_log b ++ [(slave, reg, value)])).

(** A device whose registers hold small numbers. *)
Definition sample_dev (slave reg : Z) : Z := u16 (slave * 256 + reg).

#[export] Instance mbus_modbus : Modbus mbus := {|
  eMBMasterReqReadHoldingRegister := mbus_read sample_dev;
  eMBMasterReqWriteHoldingRegister := mbus_write;
  usMRegHoldBuf b := ms_buf b;
  hold_rows := 80;
  hold_regs := 300;
  mb_mdelay _ b := b |}.

#[export] Instance mbus_laws : ModbusLaws mbus sample_dev.
Proof.
  split; [intros; apply u16_range| |done].
  intros slave reg num hw hw' i E Hi. cbn in E. unfold mbus_read in E. injection E as E <-. cbn.
  rewrite E. cbn. rewrite Z.eqb_refl, (proj2 (Z.leb_le _ _)), (proj2 (Z.ltb_lt _ _)) by lia. done.
Defined.

(* ------------------------------------------------------------------ *)
(** ** The cycle *)

Lemma registers_word hi lo : is_u16 hi -> is_u16 lo ->
  Z.lor (u32 (Z.shiftl hi 16)) lo = hi * 65536 + lo.
Proof.
  unfold is_u16. intros Hh Hl. rewrite u32_small by (unfold is_u32; rewrite Z.shiftl_mul_pow2 by lia; lia).
  by apply lor_shiftl_low.
Qed.

Lemma registers_to_float_word hi lo : is_u16 hi -> is_u16 lo ->
  registers_to_float hi lo = f32_of_bits (hi * 65536 + lo).
Proof.
  intros Hh Hl. unfold registers_to_float. change 0xFFFF with (Z.ones 16).
  rewrite Z.land_ones by lia. fold (u16 lo). rewrite u16_small by done. by rewrite registers_word.
Qed.

Section Cycle.
Context {HW : Type} `{ModbusLaws HW dev}.
Hypothesis Hrows : 73 <= hold_rows (HW := HW).
Hypothesis Hregs : 276 <= hold_regs (HW := HW).

Lemma read_req_spec slave reg num (hw : HW) :
  exists e hw', eMBMasterReqReadHoldingRegister slave reg num hw = (e, hw') /\ read_req slave reg num hw = Some (e, hw') /\
    (e = 0 -> forall i, 0 <= i < num -> usMRegHoldBuf hw' (slave - 1) (reg + i) = dev slave (reg + i)).
Proof.
  unfold read_req, getM. destruct (eMBMasterReqReadHoldingRegister slave reg num hw) as [e hw'] eqn:E.
  exists e, hw'. split_and!; [done..|]. intros -> i Hi. by apply (read_stores slave reg num hw).
Qed.

Lemma hold_at_spec row reg (hw : HW) : 0 <= row < 73 -> 0 <= reg < 276 ->
  hold_at row reg hw = Some (usMRegHoldBuf hw row reg, hw).
Proof.
  intros Hr Hg. unfold hold_at.
  by rewrite !(proj2 (Z.leb_le _ _)), !(proj2 (Z.ltb_lt _ _)) by lia.
Qed.

(** A register just read by a successful request. *)
Ltac hold_reg Hv i slave :=
  match goal with |- context [bindM (hold_at ?r ?c) _ ?h] =>
    let c' := eval vm_compute in c in
    rewrite (bindM_some _ _ _ _ _ (hold_at_spec r c h ltac:(lia) ltac:(lia)));
    rewrite (Hv i ltac:(lia) : usMRegHoldBuf h r c = dev slave c')
  end.

Lemma read_floats_spec n row reg slave (hw : HW) :
  row = slave - 1 -> 0 <= row < 73 -> 0 <= reg -> reg + 2 * Z.of_nat n <= 276 ->
  (forall i, 0 <= i < 2 * Z.of_nat n -> usMRegHoldBuf hw row (reg + i) = dev slave (reg + i)) ->
  read_floats n row reg hw
  = Some (map (fun k => dev_float dev slave (reg + 2 * Z.of_nat k)) (seq 0 n), hw).
Proof.
  intros Hrow Hr. revert reg; induction n as [|n IH]; intros reg Hg Hb Hv; [done|].
  cbn [read_floats]. rewrite (bindM_some _ _ _ _ _ (hold_at_spec row reg hw ltac:(lia) ltac:(lia))).
  rewrite (bindM_some _ _ _ _ _ (hold_at_spec row (reg + 1) hw ltac:(lia) ltac:(lia))).
  rewrite (bindM_some _ _ _ _ _ (IH (reg + 2) ltac:(lia) ltac:(lia) ltac:(intros i Hi;
    replace (reg + 2 + i) with (reg + (2 + i)) by lia; apply Hv; lia))).
  unfold retM. f_equal. f_equal. cbn [seq map]. f_equal.
  - pose proof (Hv 0 ltac:(lia)) as E0. rewrite Z.add_0_r in E0.
    rewrite E0, (Hv 1) by lia. rewrite registers_to_float_word by apply dev_u16.
    unfold dev_float. by rewrite Z.mul_0_r, Z.add_0_r.
  - rewrite <- seq_shift, map_map. apply map_ext. intros k. f_equal. lia.
Qed.

Lemma stress_registers_spec (hw : HW) :
  exists r, stress_read_registers STRESS_SLAVE_ADDR hw = Some (r, snd (ask [(3, 8, 1); (3, 104, 1); (3, 80, 2)] hw)) /\
    if fst (ask [(3, 8, 1); (3, 104, 1); (3, 80, 2)] hw) then r = inr (dev 3 8, dev 3 104, dev 3 80, dev 3 81) else exists e, r = inl e.
Proof.
  unfold stress_read_registers. cbn [ask].
  destruct (read_req_spec STRESS_SLAVE_ADDR STRESS_STATUS_REG 1 hw) as (e1 & h1 & Q1 & E1 & V1).
  unfold STRESS_SLAVE_ADDR, STRESS_STATUS_REG, STRESS_UNIT_REG, STRESS_VALUE_REG, STRESS_VALUE_REG_NUM in *.
  rewrite (bindM_some _ _ _ _ _ E1), Q1. unfold MB_MRE_NO_ERR.
  destruct (Z.eqb_spec e1 0) as [->|]; cbn [negb fst snd]; [|eexists; split; [reflexivity|by eexists]].
  specialize (V1 eq_refl). hold_reg V1 0 3.
  destruct (read_req_spec 3 104 1 h1) as (e2 & h2 & Q2 & E2 & V2). rewrite (bindM_some _ _ _ _ _ E2), Q2.
  destruct (Z.eqb_spec e2 0) as [->|]; cbn [negb fst snd]; [|eexists; split; [reflexivity|by eexists]].
  specialize (V2 eq_refl). hold_reg V2 0 3.
  destruct (read_req_spec 3 80 2 h2) as (e3 & h3 & Q3 & E3 & V3). rewrite (bindM_some _ _ _ _ _ E3), Q3.
  destruct (Z.eqb_spec e3 0) as [->|]; cbn [negb fst snd]; [|eexists; split; [reflexivity|by eexists]].
  specialize (V3 eq_refl). hold_reg V3 0 3. hold_reg V3 1 3. by eexists.
Qed.

(** A step is done as its group of requests says. *)
Abbreviation step_does step group yes no := (forall g hw,
  step g hw = Some (if fst (ask group hw) then yes g else no g, snd (ask group hw))).

Lemma stress_step_spec : step_does stress_step [(3, 8, 1); (3, 104, 1); (3, 80, 2)]
  (fun g => MbData (Voltage g) (Current g) (Flow_ g) (Displacement_ g) (g_displacement_value g) (g_displacement_sensor_online g)
     (stress_measured (dev 3 8) (dev 3 104) (dev 3 80) (dev 3 81) (g_stress g)) (m_node0 g))
  (fun g => MbData (Voltage g) (Current g) (Flow_ g) (Displacement_ g) (g_displacement_value g) (g_displacement_sensor_online g)
     (stress_offline (g_stress g)) (m_node0 g)).
Proof.
  intros g hw. unfold stress_step, stress_sensor_poll. destruct (stress_registers_spec hw) as (r & E & Hr).
  unfold bindM. rewrite E. destruct (fst (ask _ hw)); [by subst r|by destruct Hr as [e ->]].
Qed.

Lemma water_step_spec : step_does water_step [(1, 1, 2)]
  (fun g => MbData (Voltage g) (Current g) (dev_float dev 1 1) (Displacement_ g) (g_displacement_value g)
     (g_displacement_sensor_online g) (g_stress g) (set_Flow (dev_float dev 1 1) (m_node0 g)))
  (fun g => g).
Proof.
  intros g hw. unfold water_step, WATERMETER_SLAVE_ADDR, FLOW_REG_START, FLOW_REG_NUM. cbn [ask].
  destruct (read_req_spec 1 1 2 hw) as (e & h & Q & E & V). rewrite (bindM_some _ _ _ _ _ E), Q.
  unfold MB_MRE_NO_ERR. destruct (Z.eqb_spec e 0) as [->|]; [|done].
  specialize (V eq_refl). hold_reg V 0 1. hold_reg V 1 1. by rewrite registers_to_float_word by apply dev_u16.
Qed.

Lemma displacement_step_spec : step_does displacement_step [(2, 0, 2)]
  (fun g => let d := poll_displacement (dev 2 1) in
     MbData (Voltage g) (Current g) (Flow_ g) d d true (g_stress g) (set_Displacement d (m_node0 g)))
  (fun g => MbData (Voltage g) (Current g) (Flow_ g) (Displacement_ g) (g_displacement_value g) false (g_stress g) (m_node0 g)).
Proof.
  intros g hw. unfold displacement_step, DISPLACEMENT_SLAVE_ADDR, DISPLACEMENT_REG_START, DISPLACEMENT_REG_NUM. cbn [ask].
  destruct (read_req_spec 2 0 2 hw) as (e & h & Q & E & V). rewrite (bindM_some _ _ _ _ _ E), Q.
  unfold MB_MRE_NO_ERR. destruct (Z.eqb_spec e 0) as [->|]; [|done].
  specialize (V eq_refl). by hold_reg V 1 2.
Qed.

Lemma voltage_step_spec : step_does voltage_step [(73, 256, 6)]
  (fun g => MbData (dev_floats dev 73 256) (Current g) (Flow_ g) (Displacement_ g) (g_displacement_value g)
     (g_displacement_sensor_online g) (g_stress g) (m_node0 g))
  (fun g => g).
Proof.
  intros g hw. unfold voltage_step, AMMETER_SLAVE_ADDR, VOLTAGE_REG_START, VOLTAGE_REG_NUM. cbn [ask].
  destruct (read_req_spec 73 256 6 hw) as (e & h & Q & E & V). rewrite (bindM_some _ _ _ _ _ E), Q.
  unfold MB_MRE_NO_ERR. destruct (Z.eqb_spec e 0) as [->|]; [|done]. specialize (V eq_refl).
  by rewrite (bindM_some _ _ _ _ _ (read_floats_spec 3 (73 - 1) 256 73 h eq_refl ltac:(lia) ltac:(lia) ltac:(lia) V)).
Qed.

Lemma current_step_spec : step_does current_step [(73, 270, 6)]
  (fun g => MbData (Voltage g) (dev_floats dev 73 270) (Flow_ g) (Displacement_ g) (g_displacement_value g)
     (g_displacement_sensor_online g) (g_stress g) (set_CH1_A (dev_floats dev 73 270) (m_node0 g)))
  (fun g => g).
Proof.
  intros g hw. unfold current_step, AMMETER_SLAVE_ADDR, CURRENT_REG_START, CURRENT_REG_NUM. cbn [ask].
  destruct (read_req_spec 73 270 6 hw) as (e & h & Q & E & V). rewrite (bindM_some _ _ _ _ _ E), Q.
  unfold MB_MRE_NO_ERR. destruct (Z.eqb_spec e 0) as [->|]; [|done]. specialize (V eq_refl).
  by rewrite (bindM_some _ _ _ _ _ (read_floats_spec 3 (73 - 1) 270 73 h eq_refl ltac:(lia) ltac:(lia) ltac:(lia) V)).
Qed.

Lemma send_turn_spec g (hw : HW) :
  send_turn g hw = let '(oks, hw') := ask_all cycle_plan hw in Some (cycle_result dev oks g, hw').
Proof.
  unfold send_turn, cycle_plan. cbn [ask_all].
  rewrite (bindM_some _ _ _ _ _ (water_step_spec g hw)), bindM_doM. destruct (ask [(1, 1, 2)] hw) as [ew h1]. cbn [fst snd].
  rewrite (bindM_some _ _ _ _ _ (displacement_step_spec _ _)), bindM_doM. destruct (ask [(2, 0, 2)] _) as [ed h2]. cbn [fst snd].
  rewrite (bindM_some _ _ _ _ _ (stress_step_spec _ _)), bindM_doM. destruct (ask [(3, 8, 1); _; _] _) as [es h3]. cbn [fst snd].
  rewrite (bindM_some _ _ _ _ _ (voltage_step_spec _ _)), bindM_doM. destruct (ask [(73, 256, 6)] _) as [ev h4]. cbn [fst snd].
  rewrite (bindM_some _ _ _ _ _ (current_step_spec _ _)), bindM_doM. destruct (ask [(73, 270, 6)] _) as [ec h5]. cbn [fst snd].
  unfold retM. f_equal. f_equal. destruct g as [v c f d dv on s [n1 n2 n3 n4 n5]]. by destruct ew, ed, es, ev, ec.
Qed.

Lemma send_thread_spec n : forall g (hw : HW), send_thread_entry n g hw = Some (cycles_result dev n g hw).
Proof.
  induction n as [|n IH]; intros g hw; [done|]. cbn [send_thread_entry cycles_result]. unfold bindM. rewrite send_turn_spec.
  destruct (ask_all cycle_plan hw) as [oks h]. apply IH.
Qed.
End Cycle.

(* ------------------------------------------------------------------ *)
(** ** Properties *)

(** C31: the polling thread, over any number of cycles and whatever requests
    fail, does what its requests say: each cycle makes the requests of the plan
    in order (a failed stress request ends its group), half a second apart; a
    device whose requests all succeeded has its measurement decoded from its
    own registers and published (globals and node 0), a device that did not
    answer keeps its last values, and the displacement and stress sensors are
    marked online exactly when they answered.  No register outside the buffer
    is read. *)
Theorem modbus_cycle_isolated {HW} `{ModbusLaws HW dev} n g (hw : HW) :
  73 <= hold_rows (HW := HW) -> 276 <= hold_regs (HW := HW) ->
  send_thread_entry n g hw = Some (cycles_result dev n g hw).
Proof. intros Hr Hg. by apply send_thread_spec. Qed.

Definition sample_mb : mb_data :=
  MbData [] [] (f32_of_Z 0) (f32_of_Z 0) (f32_of_Z 0) false
    (Stress (f32_of_Z 0) 0 0 0 0 false false) node0.

(** Two cycles: the displacement and current requests of the first fail, and
    the unit request of the second. *)
Definition sample_bus : mbus := Mbus [0; 5; 0; 0; 0; 0; 3; 0; 0; 0; 2] (fun _ _ => 0) [].

Lemma modbus_cycle_isolated_witness :
  send_thread_entry 2 sample_mb sample_bus = Some (cycles_result sample_dev 2 sample_mb sample_bus) /\
  fst (ask_all cycle_plan sample_bus) = [true; false; true; true; false] /\
  fst (ask_all cycle_plan (snd (ask_all cycle_plan sample_bus))) = [true; true; false; true; true].
Proof. split; [apply modbus_cycle_isolated; cbn; lia|]. split; vm_compute; reflexivity. Defined.

(** No bit of a float sent in two registers is lost: the decoded float
    has exactly the received pattern, for every pattern but the NaNs. *)
Theorem registers_to_float_bits hi lo :
  is_u16 hi -> is_u16 lo -> is_nan_bits (hi * 65536 + lo) = false ->
  f32_to_bits (registers_to_float hi lo) = hi * 65536 + lo.
Proof.
  intros Hh Hl Hn. rewrite registers_to_float_word by done.
  apply f32_bits_roundtrip; [unfold is_u16, is_u32 in *; lia|done].
Qed.

Lemma registers_to_float_bits_witness :
  f32_to_bits (registers_to_float 0x4366 0x8000) = 0x4366 * 65536 + 0x8000.
Proof. apply (registers_to_float_bits 0x4366 0x8000); [unfold is_u16; lia|unfold is_u16; lia|reflexivity]. Defined.

(** A poll of the stress sensor leaves a coherent state whatever the bus
    does: after a failed request the sensor is offline, its value invalid and
    every measured field is the previous one; after a success it is online,
    its value is valid exactly when the unit is one of the four known ones
    (the decimal places never exceed the table), and the published value is
    the conversion of the published raw value, or the previous one. *)
Theorem stress_poll_coherent {HW} `{Modbus HW} s (hw : HW) r s' hw' :
  stress_sensor_poll s hw = Some ((r, s'), hw') ->
  (r = - RT_ERROR /\ s' = stress_offline s) \/
  (r = RT_EOK /\ g_stress_sensor_online s' = true /\
   g_stress_decimal_places s' = Z.land (g_stress_status s') 7 /\
   (g_stress_value_valid s' = true <-> 1 <= g_stress_unit s' <= 4) /\
   (if g_stress_value_valid s'
    then stress_convert_to_n (g_stress_raw_value s') (g_stress_decimal_places s') (g_stress_unit s')
         = Some (g_stress_value_n s')
    else g_stress_value_n s' = g_stress_value_n s)).
Proof.
  unfold stress_sensor_poll. intros Hp.
  apply bindM_inv in Hp as (q & h & _ & Hp). destruct q as [e|[[[st un] hi] lo]]; injection Hp as <- <- <-; [by left|].
  right. split; [done|]. unfold stress_measured, stress_decode_measurement.
  assert (0 <= Z.land st 7 < 8) as Hd.
  { change 7 with (Z.ones 3). rewrite Z.land_ones by lia. apply Z.mod_pos_bound. lia. }
  rewrite u8_small by (unfold is_u8, STRESS_DECIMAL_MASK; lia). unfold STRESS_DECIMAL_MASK.
  set (raw := s32 _). cbn [g_stress_sensor_online g_stress_decimal_places g_stress_status g_stress_value_valid
    g_stress_unit g_stress_raw_value g_stress_value_n].
  split; [done|]. split; [done|].
  destruct (stress_convert_to_n raw (Z.land st 7) un) as [v|] eqn:E; (split; [|done]); (split; [|]); try done;
    unfold stress_convert_to_n in E;
    change (Z.of_nat (length stress_pow10_table)) with 8 in E;
    rewrite (proj2 (Z.leb_gt _ _)) in E by lia;
    unfold STRESS_UNIT_N, STRESS_UNIT_T, STRESS_UNIT_KG, STRESS_UNIT_G in E;
    destruct (Z.eqb_spec un 4), (Z.eqb_spec un 3), (Z.eqb_spec un 2), (Z.eqb_spec un 1); try done; lia.
Qed.

Lemma stress_poll_coherent_witness :
  let s := g_stress sample_mb in
  let hw := Mbus [] (fun _ _ => 0) [] in
  exists r s' hw', stress_sensor_poll s hw = Some ((r, s'), hw') /\
  ((r = - RT_ERROR /\ s' = stress_offline s) \/
   (r = RT_EOK /\ g_stress_sensor_online s' = true /\
    g_stress_decimal_places s' = Z.land (g_stress_status s') 7 /\
    (g_stress_value_valid s' = true <-> 1 <= g_stress_unit s' <= 4) /\
    (if g_stress_value_valid s'
     then stress_convert_to_n (g_stress_raw_value s') (g_stress_decimal_places s') (g_stress_unit s')
          = Some (g_stress_value_n s')
     else g_stress_value_n s' = g_stress_value_n s))).
Proof.
  intros s hw.
  assert ((if stress_sensor_poll s hw then true else false) = true) as Hs by (vm_compute; reflexivity).
  destruct (stress_sensor_poll s hw) as [[[r s'] hw']|] eqn:E; [|done].
  exists r, s', hw'. split; [done|]. exact (stress_poll_coherent s hw r s' hw' E).
Defined.

(** The address-change command checks its arguments after truncating them
    to eight bits: an old address above the valid range passes as that address minus
    256, and the command is sent to that other device. *)
Theorem disp_set_addr_truncates {HW} `{Modbus HW} (hw : HW) a n out :
  1 <= a <= 247 -> 1 <= n <= 247 -> a <> n ->
  disp_set_addr [dec (a + 256); dec n] out hw = disp_set_addr [dec a; dec n] out hw.
Proof.
  intros Ha Hn Hne. unfold disp_set_addr. rewrite !atoi_dec by (unfold is_s32; lia).
  replace (u8 (a + 256)) with (u8 a); [done|]. unfold wrapu.
  by rewrite <- Z.add_mod_idemp_r, Z_mod_same_full, Z.add_0_r by lia.
Qed.

Lemma disp_set_addr_truncates_witness :
  disp_set_addr [dec (2 + 256); dec 5] (Some []) (Mbus [] (fun _ _ => 0) [])
  = disp_set_addr [dec 2; dec 5] (Some []) (Mbus [] (fun _ _ => 0) []).
Proof. apply (disp_set_addr_truncates (Mbus [] (fun _ _ => 0) []) 2 5); lia. Defined.
