(* ===== verification/Uart.v ===== *)
(** * The module UARTs: receive threads, their buffers and their semaphore

    applications/uartApp.c over Serial.v, with the semaphore of
    rt-thread/src/ipc.c.  The receive thread, the receive interrupt and the
    threads that clear the buffer interleave: [urun] runs a schedule of
    their atomic steps (a buffer access, a load or store of the index, a
    system call) from the loop of the thread on, [trun] from its first
    statement: the open, the registration of the callback, the semaphore and
    the greeting, byte by byte, are steps too. *)

From Stdlib Require Import ZArith Lia String.
From stdpp Require Import base numbers list.
From S2P Require Import Prelude Serial.
Open Scope c_scope.

Definition UART4_RECIVED_DATA_SIZE : nat := 256.
Definition UART5_RECIVED_DATA_SIZE : nat := 128.
Definition RT_SEM_VALUE_MAX : Z := 65535.
Definition RT_EFULL : Z := 3.

(** A semaphore one thread takes: its value and whether that thread is on the
    suspend list. *)
Record rt_semaphore := Sem { sem_value : Z; sem_suspended : bool }.

Definition rt_sem_init (value : Z) : rt_semaphore := Sem (u16 value) false.

(** [rt_sem_take(sem, RT_WAITING_FOREVER)]: whether it returns at once. *)
Definition rt_sem_take (s : rt_semaphore) : bool * rt_semaphore :=
  if 0 <? sem_value s then (true, Sem (sem_value s - 1) (sem_suspended s))
  else (false, Sem (sem_value s) true).

(** [rt_sem_release]: its result, whether it resumes the thread, the semaphore. *)
Definition rt_sem_release (s : rt_semaphore) : Z * bool * rt_semaphore :=
  if sem_suspended s then (RT_EOK, true, Sem (sem_value s) false)
  else if sem_value s <? RT_SEM_VALUE_MAX then (RT_EOK, false, Sem (sem_value s + 1) false)
  else (- RT_EFULL, false, s).

(** Where the receive thread is: reading the device, before [rt_sem_take],
    suspended in it, with a byte in [uart4_buffer], past the index check, with
    the index loaded, with the index stored back and the byte not yet. *)
Inductive rpc :=
  | RRead | RTake | RBlocked | RGot (b : Z) | RChecked (b : Z)
  | RLoaded (b i : Z) | RIndexed (b i : Z).

(** Where a thread in [uart4_buffer_clear] is: out of it, [memset] at cell
    [k], before the reset of the index. *)
Inductive cpc := CIdle | CZero (k : nat) | CReset.

Record ustate := U {
  u_dev : serial wire; u_sem : rt_semaphore; u_rpc : rpc; u_cpc : cpc;
  u_data : list Z; u_idx : Z }.

#[export] Instance rpc_eq_dec : EqDecision rpc.
Proof. solve_decision. Defined.

Inductive actor := AIrq (bytes : list Z) | AReader | AClear.

Section Receive.
Variable SIZE : nat.

(** The receive indication [uart4_rx_ind], called by the interrupt. *)
Definition uart4_rx_ind (s : ustate) : ustate :=
  let '(_, resumed, sem) := rt_sem_release (u_sem s) in
  U (u_dev s) sem (if resumed then RRead else u_rpc s) (u_cpc s) (u_data s) (u_idx s).

Definition irq_step (bytes : list Z) (s : ustate) : option ustate :=
  match rt_hw_serial_isr_rx (S (length bytes)) (set_hw (Wire bytes (sent (s_hw (u_dev s)))) (u_dev s)) with
  | None => None
  | Some (d, callback) =>
      let s := U d (u_sem s) (u_rpc s) (u_cpc s) (u_data s) (u_idx s) in
      Some (match callback with Some _ => uart4_rx_ind s | None => s end)
  end.

(** A step of the receive thread in the loop of [uart4_thread_entry]. *)
Definition reader_step (s : ustate) : option ustate :=
  let goto p := U (u_dev s) (u_sem s) p (u_cpc s) (u_data s) (u_idx s) in
  match u_rpc s with
  | RRead =>
      match rt_device_read 1 (u_dev s) with
      | None => None
      | Some (l, d) =>
          Some (U d (u_sem s) (match l with [b] => RGot b | _ => RTake end) (u_cpc s) (u_data s) (u_idx s))
      end
  | RTake => let '(now, sem) := rt_sem_take (u_sem s) in
             Some (U (u_dev s) sem (if now then RRead else RBlocked) (u_cpc s) (u_data s) (u_idx s))
  | RBlocked => Some s
  | RGot b => Some (goto (if u_idx s <? Z.of_nat SIZE - 1 then RChecked b else RRead))
  | RChecked b => Some (goto (RLoaded b (u_idx s)))
  | RLoaded b i => Some (U (u_dev s) (u_sem s) (RIndexed b i) (u_cpc s) (u_data s) (i + 1))
  | RIndexed b i =>
      match aset (u_data s) i b with
      | None => None
      | Some data => Some (U (u_dev s) (u_sem s) RRead (u_cpc s) data (u_idx s))
      end
  end.

(** A step of a thread that calls [uart4_buffer_clear] again and again. *)
Definition clear_step (s : ustate) : option ustate :=
  let next c data idx := U (u_dev s) (u_sem s) (u_rpc s) c data idx in
  match u_cpc s with
  | CIdle => Some (next (CZero 0) (u_data s) (u_idx s))
  | CZero k =>
      if (k <? SIZE)%nat
      then match aset (u_data s) (Z.of_nat k) 0 with
           | None => None
           | Some data => Some (next (CZero (S k)) data (u_idx s))
           end
      else Some (next CReset (u_data s) (u_idx s))
  | CReset => Some (next CIdle (u_data s) 0)
  end.

Definition ustep (a : actor) (s : ustate) : option ustate :=
  match a with
  | AIrq bytes => irq_step bytes s
  | AReader => reader_step s
  | AClear => clear_step s
  end.

Fixpoint urun (sched : list actor) (s : ustate) : option ustate :=
  match sched with
  | [] => Some s
  | a :: r => match ustep a s with None => None | Some s' => urun r s' end
  end.

(** [uart4_init] and [uart5_init] on a device that is found. *)
Definition uart_config : serial_configure :=
  let c := RT_SERIAL_CONFIG_DEFAULT in
  SerialConfigure 115200 (data_bits c) (stop_bits c) (parity c) (bit_order c) (invert c) 256.

(** [uart4_send], [uart5_send], [uart5_send_bytes]: the string or bytes go to
    the device. *)
Definition uart_send (data : list Z) (d : serial wire) : option (serial wire) :=
  match rt_device_write (length data) data d with Some (_, d) => Some d | None => None end.

(** Before its loop the receive thread is at the open of its device (found and
    configured), at [rt_device_set_rx_indicate], at [rt_sem_init], or in the
    greeting with the bytes [todo] still to write: [rt_device_write] writes
    them one by one. *)
Inductive spc := SOpen | SIndicate | SSemInit | SHello (todo : list Z).

Record tstate := T { t_start : option spc; t_u : ustate }.

Definition with_dev (d : serial wire) (u : ustate) : ustate := U d (u_sem u) (u_rpc u) (u_cpc u) (u_data u) (u_idx u).
Definition with_sem (m : rt_semaphore) (u : ustate) : ustate := U (u_dev u) m (u_rpc u) (u_cpc u) (u_data u) (u_idx u).

Definition start_step (malloc : Z -> bool) (hello : list Z) (p : spc) (u : ustate) : option (option spc * ustate) :=
  match p with
  | SOpen =>
      let d := snd (rt_device_control RT_DEVICE_CTRL_CONFIG (Some uart_config) 0 (u_dev u)) in
      match rt_device_open malloc APP_OFLAG d with
      | None => None
      | Some (_, d) => Some (Some SIndicate, with_dev d u)
      end
  | SIndicate => Some (Some SSemInit, with_dev (rt_device_set_rx_indicate (u_dev u)) u)
  | SSemInit => Some (Some (SHello hello), with_sem (rt_sem_init 0) u)
  | SHello [] => Some (None, u)
  | SHello (c :: r) =>
      match uart_send [c] (u_dev u) with
      | None => None
      | Some d => Some (Some (SHello r), with_dev d u)
      end
  end.

(** An interrupt of a thread that has not reached its loop: before
    [rt_sem_init] the callback releases a semaphore that is no object, which
    [rt_sem_release] asserts it is. *)
Definition start_irq (p : spc) (bytes : list Z) (u : ustate) : option ustate :=
  match rt_hw_serial_isr_rx (S (length bytes)) (set_hw (Wire bytes (sent (s_hw (u_dev u)))) (u_dev u)) with
  | None => None
  | Some (d, None) => Some (with_dev d u)
  | Some (d, Some _) => match p with SHello _ => Some (uart4_rx_ind (with_dev d u)) | _ => None end
  end.

Definition tstep (malloc : Z -> bool) (hello : list Z) (a : actor) (s : tstate) : option tstate :=
  match t_start s with
  | None => option_map (T None) (ustep a (t_u s))
  | Some p =>
      match a with
      | AReader => option_map (fun pu => T (fst pu) (snd pu)) (start_step malloc hello p (t_u s))
      | AIrq bytes => option_map (T (Some p)) (start_irq p bytes (t_u s))
      | AClear => option_map (T (Some p)) (clear_step (t_u s))
      end
  end.

Fixpoint trun (malloc : Z -> bool) (hello : list Z) (sched : list actor) (s : tstate) : option tstate :=
  match sched with
  | [] => Some s
  | a :: r => match tstep malloc hello a s with None => None | Some s' => trun malloc hello r s' end
  end.

(** The thread at its first statement, on a device registered by the board,
    the buffer zeroed by the loader. *)
Definition thread_boot (cfg : serial_configure) : tstate :=
  T (Some SOpen) (U (registered cfg) (Sem 0 false) RRead CIdle (repeat 0 SIZE) 0).

(** When an interrupt may come: not before the device is open, and not in the
    two statements between [rt_device_set_rx_indicate] and [rt_sem_init]. *)
Fixpoint quiet_start (p : option spc) (sched : list actor) : bool :=
  match sched with
  | [] => true
  | a :: r =>
      match p, a with
      | Some SOpen, AIrq _ | Some SSemInit, AIrq _ => false
      | Some SOpen, AReader => quiet_start (Some SIndicate) r
      | Some SIndicate, AReader => quiet_start (Some SSemInit) r
      | Some SOpen, AClear | Some SSemInit, AClear | Some SIndicate, _ => quiet_start p r
      | _, _ => true
      end
  end.

(* ------------------------------------------------------------------ *)
(** ** The invariant *)

Record uinv (s : ustate) : Prop := {
  ui_dev : dev_ok (u_dev s);
  ui_open : s_ref_count (u_dev s) <> 0;
  ui_ind : s_rx_ind (u_dev s) = true;
  ui_cfg : bufsz (s_config (u_dev s)) = 256;
  ui_len : length (u_data s) = SIZE;
  ui_idx : 0 <= u_idx s <= Z.of_nat SIZE - 1;
  ui_nul : nth (SIZE - 1) (u_data s) 1 = 0;
  ui_pc : match u_rpc s with
          | RChecked _ => u_idx s < Z.of_nat SIZE - 1
          | RLoaded _ i | RIndexed _ i => 0 <= i < Z.of_nat SIZE - 1
          | _ => True
          end;
  ui_sem : 0 <= sem_value (u_sem s) <= RT_SEM_VALUE_MAX;
  ui_susp : sem_suspended (u_sem s) = true <-> u_rpc s = RBlocked;
  ui_wake : u_rpc s = RBlocked -> dev_bytes (u_dev s) = [];
  ui_take : u_rpc s = RTake -> dev_bytes (u_dev s) <> [] -> 0 < sem_value (u_sem s) }.

(** Interrupts deliver bytes, at least one. *)
Definition actor_ok (a : actor) : Prop :=
  match a with AIrq bs => Forall is_u8 bs /\ bs <> [] | _ => True end.
End Receive.

(* ------------------------------------------------------------------ *)
(** ** Every step preserves it *)

Lemma isr_rx_length_count sz f : fifo_ok sz f -> isr_rx_length sz f = fifo_count sz f.
Proof.
  intros [Hs _ Hp Hg _ _]. unfold isr_rx_length, fifo_count.
  destruct (Z.leb_spec (get_index f) (put_index f)).
  - by rewrite Z.mod_small by lia.
  - apply (Z.mod_unique _ _ (-1)); lia.
Qed.

(** The receive interrupt on an open device, its callback registered or not. *)
Lemma isr_any (d : serial wire) ind bs : dev_ok d -> s_ref_count d <> 0 -> s_rx_ind d = ind ->
  Forall is_u8 bs -> bs <> [] ->
  exists d' n, rt_hw_serial_isr_rx (S (length bs)) (set_hw (Wire bs (sent (s_hw d))) d) = Some (d', if ind : bool then Some n else None) /\
    dev_ok d' /\ s_ref_count d' <> 0 /\ s_rx_ind d' = ind /\ s_config d' = s_config d /\
    dev_bytes d' = lastn (qcap (bufsz (s_config d))) (dev_bytes d ++ bs).
Proof.
  intros [Hr Hs Hc Ha Ht Hst Hcl Hact Hop] N Hi Hb Hne.
  unfold rt_hw_serial_isr_rx.
  destruct d as [fl ofl rc cfg rx tx ind0 [pd out]]; cbn -[isr_drain] in *. subst tx ind0.
  destruct (Hop N) as (O1 & O2 & f & -> & Hf).
  destruct (isr_drain_spec (S (length bs)) (bufsz cfg) f bs out Hf Hb ltac:(lia)) as (f' & -> & Hf' & E).
  rewrite isr_rx_length_count by done.
  assert (fifo_count (bufsz cfg) f' <> 0) as Hn.
  { intros E0. pose proof (fifo_bytes_length (bufsz cfg) f') as L. rewrite E, E0 in L.
    unfold lastn in L. rewrite length_drop, length_app in L. unfold qcap in L.
    destruct bs; [done|]. cbn [length] in L. simpl in L. lia. }
  cbn. rewrite (proj2 (Z.eqb_neq _ _)), andb_true_r by done. eexists _, _. split; [reflexivity|].
  split; [|split_and!; try done; unfold dev_bytes; cbn; by rewrite E].
  split; cbn; try done. intros _. split_and!; try done. by exists f'.
Qed.

Lemma isr_open (d : serial wire) bs : dev_ok d -> s_ref_count d <> 0 -> s_rx_ind d = true ->
  Forall is_u8 bs -> bs <> [] ->
  exists d' n, rt_hw_serial_isr_rx (S (length bs)) (set_hw (Wire bs (sent (s_hw d))) d) = Some (d', Some n) /\
    dev_ok d' /\ s_ref_count d' <> 0 /\ s_rx_ind d' = true /\ s_config d' = s_config d /\
    dev_bytes d' = lastn (qcap (bufsz (s_config d))) (dev_bytes d ++ bs).
Proof. apply (isr_any d true). Qed.

Lemma read_open (d : serial wire) : dev_ok d -> s_ref_count d <> 0 -> s_rx_ind d = true ->
  exists d', rt_device_read 1 d = Some (firstn 1 (dev_bytes d), d') /\ dev_ok d' /\
    s_ref_count d' <> 0 /\ s_rx_ind d' = true /\ dev_bytes d' = skipn 1 (dev_bytes d) /\
    s_config d' = s_config d.
Proof.
  intros Hok N Hi. pose proof (read_refines d 1 Hok) as St. unfold step_refines, qdev_of at 1 in St. cbn [qdev_step dev_step] in St.
  rewrite (proj2 (Z.eqb_neq _ 0)) in St by done. destruct St as (d' & E & Hok' & Q).
  exists d'. split; [exact E|]. injection Q as Q1 _ Q2 _. rewrite Q1.
  assert (s_rx_ind d' = true /\ s_config d' = s_config d) as []; [|by split_and!].
  unfold rt_device_read, rt_serial_read in E. rewrite (proj2 (Z.eqb_neq _ 0)) in E by done. cbn [Nat.eqb] in E.
  repeat case_match; simplify_eq; done.
Qed.

Lemma nth_insert_nul (l : list Z) i b n : (i <> n)%nat ->
  nth n (<[i := b]> l) 1 = nth n l 1.
Proof. intros Hi. by rewrite !nth_lookup, list_lookup_insert_ne. Qed.

Lemma nth_insert_same (l : list Z) n : (n < length l)%nat -> nth n (<[n := 0]> l) 1 = 0.
Proof. intros Hn. by rewrite nth_lookup, list_lookup_insert_eq. Qed.

Section Invariant.
Context (SIZE : nat) (HSIZE : (2 <= SIZE)%nat).

Lemma irq_step_inv s bs : uinv SIZE s -> Forall is_u8 bs -> bs <> [] ->
  exists s', irq_step bs s = Some s' /\ uinv SIZE s' /\
    u_data s' = u_data s /\ u_idx s' = u_idx s /\ u_cpc s' = u_cpc s /\
    (u_rpc s' = u_rpc s \/ (u_rpc s = RBlocked /\ u_rpc s' = RRead)).
Proof.
  intros [I1 I2 I3 IC I4 I5 I6 I7 I8 I9 I10 I11] Hb Hne. unfold irq_step.
  destruct (isr_open _ bs I1 I2 I3 Hb Hne) as (d' & n & -> & D1 & D2 & D3 & DC & _).
  unfold uart4_rx_ind, rt_sem_release. cbn [u_sem u_dev u_rpc u_cpc u_data u_idx].
  destruct (sem_suspended (u_sem s)) eqn:E.
  - assert (u_rpc s = RBlocked) as E' by (by apply I9). eexists. split; [reflexivity|].
    split; [|cbn; split_and!; try done; by right]. split; cbn; rewrite ?DC; done.
  - assert (u_rpc s <> RBlocked) as Hnb by (intros X; apply I9 in X; done).
    unfold RT_SEM_VALUE_MAX in *.
    destruct (Z.ltb_spec (sem_value (u_sem s)) 65535); (eexists; split; [reflexivity|]);
      (split; [|cbn; split_and!; try done; by left]); split; cbn; try done; try lia;
      first [by rewrite E | by rewrite DC | intros; unfold RT_SEM_VALUE_MAX; lia | by intros X; apply Hnb in X].
Qed.

Lemma reader_step_inv s : uinv SIZE s -> exists s', reader_step SIZE s = Some s' /\ uinv SIZE s'.
Proof.
  intros [I1 I2 I3 IC I4 I5 I6 I7 I8 I9 I10 I11]. unfold reader_step.
  assert (u_rpc s <> RBlocked -> sem_suspended (u_sem s) <> true) as Hns by (intros H E; by apply H, I9).
  destruct (u_rpc s) as [| | |b|b|b i|b i] eqn:P.
  - destruct (read_open _ I1 I2 I3) as (d & -> & D1 & D2 & D3 & D4 & DC). eexists; split; [reflexivity|].
    destruct (dev_bytes (u_dev s)) as [|b [|b' l]]; cbn [firstn skipn] in *;
      (split; cbn; rewrite ?DC; try done; try (split; intros; try done; exfalso; by apply Hns)).
  - unfold rt_sem_take. destruct (Z.ltb_spec 0 (sem_value (u_sem s))).
    + eexists; split; [reflexivity|]. split; cbn; try done; try lia. split; intros; try done.
      exfalso; by apply Hns.
    + eexists; split; [reflexivity|]. split; cbn; try done. intros _.
      destruct (dev_bytes (u_dev s)) eqn:B; [done|]. exfalso. specialize (I11 eq_refl ltac:(done)). lia.
  - exists s. split; [done|]. split; try done; rewrite P; try done.
  - destruct (Z.ltb_spec (u_idx s) (Z.of_nat SIZE - 1)); (eexists; split; [reflexivity|]);
      (split; cbn; try done; split; intros; try done; exfalso; by apply Hns).
  - eexists; split; [reflexivity|]. split; cbn; try done; [lia|].
    split; intros; try done; exfalso; by apply Hns.
  - eexists; split; [reflexivity|]. split; cbn; try done; [lia|].
    split; intros; try done; exfalso; by apply Hns.
  - rewrite aset_in_range by lia. eexists; split; [reflexivity|].
    split; cbn; try done; [by rewrite length_insert| |].
    + by rewrite nth_insert_nul by lia.
    + split; intros; try done; exfalso; by apply Hns.
Qed.

Lemma clear_step_inv s : uinv SIZE s -> exists s', clear_step SIZE s = Some s' /\ uinv SIZE s'.
Proof.
  intros [I1 I2 I3 IC I4 I5 I6 I7 I8 I9 I10 I11]. unfold clear_step.
  destruct (u_cpc s) as [|k|].
  - eexists; split; [reflexivity|]. by split.
  - destruct (Nat.ltb_spec k SIZE).
    + rewrite aset_in_range by lia. eexists; split; [reflexivity|]. rewrite Nat2Z.id.
      split; cbn; try done; [by rewrite length_insert|].
      destruct (decide (k = SIZE - 1)%nat) as [->|]; [by rewrite nth_insert_same by lia|].
      by rewrite nth_insert_nul by lia.
    + eexists; split; [reflexivity|]. by split.
  - eexists; split; [reflexivity|]. split; cbn; try done; [lia|].
    destruct (u_rpc s); try done. lia.
Qed.

Lemma ustep_inv a s : actor_ok a -> uinv SIZE s -> exists s', ustep SIZE a s = Some s' /\ uinv SIZE s'.
Proof.
  intros Ha Hs. destruct a as [bs| |]; cbn [ustep].
  - destruct Ha as [Hb Hne]. destruct (irq_step_inv s bs Hs Hb Hne) as (s' & E & Hi & _). by exists s'.
  - by apply reader_step_inv.
  - by apply clear_step_inv.
Qed.

Lemma urun_inv sched s : Forall actor_ok sched -> uinv SIZE s ->
  exists s', urun SIZE sched s = Some s' /\ uinv SIZE s'.
Proof.
  intros Hs. revert s; induction Hs as [|a sched Ha Hs IH]; intros s Hi; [by exists s|].
  cbn [urun]. destruct (ustep_inv a s Ha Hi) as (s1 & -> & H1). by apply IH.
Qed.

(** A device as [uart4_init] leaves it. *)
Definition uart_opened (w : wire) : serial wire :=
  Serial 0x513 0x10B 1 uart_config (Some (new_fifo 256)) false true w.

Lemma uart_opened_inv hw :
  uinv SIZE (U (uart_opened (Wire [] hw)) (rt_sem_init 0) RRead CIdle (repeat 0 SIZE) 0).
Proof.
  split; cbn -[repeat]; try done; try lia.
  - split; cbn; try done; try lia. intros _. split_and!; try done. eexists; split; [done|].
    apply new_fifo_ok. lia.
  - by rewrite repeat_length.
  - rewrite (nth_indep _ 1 0) by (rewrite repeat_length; lia). apply nth_repeat.
Qed.
End Invariant.

Lemma uart_send_open data (d : serial wire) : dev_ok d -> s_ref_count d <> 0 ->
  uart_send data d = Some (set_hw (Wire (pending (s_hw d)) (sent (s_hw d) ++ data)) d).
Proof.
  intros [Hr Hs Hc Ha Ht Hst Hcl Hact Hop] N. unfold uart_send, rt_device_write, rt_serial_write.
  destruct d as [fl ofl rc cfg rx tx ind [pd out]]; cbn -[_serial_poll_tx] in *. subst tx.
  rewrite (proj2 (Z.eqb_neq _ _) N). destruct (Hop N) as (O1 & O2 & f & -> & Hf). rewrite O2, Hst.
  destruct data as [|c r]; cbn [length Nat.eqb]; [by rewrite app_nil_r|]. by rewrite poll_tx_wire.
Qed.

(** A text is sent by one call as by one call for each of its bytes. *)
Lemma uart_send_app a b (d : serial wire) : dev_ok d -> s_ref_count d <> 0 ->
  uart_send (a ++ b) d = match uart_send a d with Some d => uart_send b d | None => None end.
Proof.
  intros Hd N. rewrite !uart_send_open by done. rewrite uart_send_open; [|by destruct Hd|done]. cbn [set_hw s_hw sent pending].
  by rewrite app_assoc.
Qed.

(* ------------------------------------------------------------------ *)
(** ** The start of a receive thread *)

Section Start.
Context (SIZE : nat) (HSIZE : (2 <= SIZE)%nat) (malloc : Z -> bool) (hello : list Z).
Context (Hmem : malloc (RX_FIFO_SIZE + 256) = true).

(** An open device with a receive queue of 256 cells; [ind] tells whether its
    callback is registered. *)
Definition opened (ind : bool) (d : serial wire) : Prop :=
  dev_ok d /\ s_ref_count d <> 0 /\ s_rx_ind d = ind /\ bufsz (s_config d) = 256.

(** A thread before its loop: the buffer is as in [uinv]; the device, at each
    place. *)
Record sinv (p : spc) (u : ustate) : Prop := {
  si_len : length (u_data u) = SIZE;
  si_idx : 0 <= u_idx u <= Z.of_nat SIZE - 1;
  si_nul : nth (SIZE - 1) (u_data u) 1 = 0;
  si_rpc : u_rpc u = RRead;
  si_sem : 0 <= sem_value (u_sem u) <= RT_SEM_VALUE_MAX /\ sem_suspended (u_sem u) = false;
  si_dev : match p with
           | SOpen => exists cfg, u_dev u = registered cfg
           | SIndicate => opened false (u_dev u)
           | SSemInit | SHello _ => opened true (u_dev u)
           end }.

Definition tinv (s : tstate) : Prop := match t_start s with Some p => sinv p (t_u s) | None => uinv SIZE (t_u s) end.

Lemma sinv_uinv todo u : sinv (SHello todo) u <-> uinv SIZE u /\ u_rpc u = RRead.
Proof.
  split.
  - intros [H1 H2 H3 H4 [H5 H6] (D1 & D2 & D3 & D4)]. split; [|done]. split; try done; rewrite ?H4, ?H6; try done.
  - intros [[I1 I2 I3 IC I4 I5 I6 I7 I8 I9 I10 I11] Hr]. split; try done. split; [done|].
    destruct (sem_suspended (u_sem u)); [|done]. by rewrite (proj1 I9 eq_refl) in Hr.
Qed.

Lemma registered_open cfg : exists d,
  rt_device_open malloc APP_OFLAG (snd (rt_device_control RT_DEVICE_CTRL_CONFIG (Some uart_config) 0 (registered cfg))) = Some (RT_EOK, d) /\
  opened false d /\ dev_bytes d = [] /\ sent (s_hw d) = [].
Proof.
  assert (rt_device_control RT_DEVICE_CTRL_CONFIG (Some uart_config) 0 (registered cfg) = (RT_EOK, registered uart_config)) as ->.
  { unfold rt_device_control, rt_serial_control, registered.
    cbn [Z.eqb Pos.eqb RT_DEVICE_CTRL_CONFIG RT_DEVICE_CTRL_SUSPEND RT_DEVICE_CTRL_RESUME s_ref_count]. by rewrite andb_false_r. }
  cbn [snd]. unfold rt_device_open.
  assert (negb (tst (s_flag (registered uart_config)) RT_DEVICE_FLAG_ACTIVATED) = true) as -> by done.
  set (s0 := set_flag 0x513 (registered uart_config)).
  assert (rt_serial_init (registered uart_config) = (RT_EOK, registered uart_config)) as -> by done.
  change (negb (RT_EOK =? RT_EOK)) with false. cbn iota. change (set_flag _ (registered uart_config)) with s0.
  change (tst (s_flag s0) RT_DEVICE_FLAG_STANDALONE) with false. cbn [andb].
  rewrite serial_open_app by done. change (s_rx s0) with (@None rx_fifo). change (bufsz (s_config s0)) with 256. cbn iota. rewrite Hmem.
  eexists. split; [reflexivity|]. split; [|done]. split_and!; try done. split; cbn; try done; try lia.
  intros _. split_and!; try done. eexists. split; [done|]. apply new_fifo_ok. lia.
Qed.

Lemma opened_set_hw ind w d : opened ind d -> opened ind (set_hw w d).
Proof. intros ([? ? ? ? ? ? ? ? ?] & ? & ? & ?). split_and!; done. Qed.

(** Every statement of the start is defined and leads to the next. *)
Lemma start_step_inv p u : sinv p u -> exists p' u', start_step malloc hello p u = Some (p', u') /\ tinv (T p' u') /\
  u_rpc u' = RRead /\ dev_bytes (u_dev u') = dev_bytes (u_dev u) /\ 0 <= sem_value (u_sem u') <= sem_value (u_sem u) /\
  sent (s_hw (u_dev u')) = sent (s_hw (u_dev u)) ++ match p with SHello (c :: _) => [c] | _ => [] end.
Proof.
  intros Hs. pose proof Hs as [H1 H2 H3 H4 [H5 H6] H7]. destruct p as [| | |[|c r]]; cbn [start_step].
  - destruct H7 as [cfg ->]. destruct (registered_open cfg) as (d & -> & Ho & Eb & Es).
    eexists _, _. split; [reflexivity|]. split; [by split|]. cbn [with_dev u_dev u_rpc u_sem]. rewrite Eb, Es. split_and!; done || lia.
  - destruct H7 as (D1 & D2 & D3 & D4). eexists _, _. split; [reflexivity|]. split; [|cbn [with_dev u_dev u_rpc u_sem rt_device_set_rx_indicate set_rx_ind s_hw]; rewrite app_nil_r; split_and!; done || lia].
    split; try done. cbn [with_dev u_dev]. split_and!; try done. by destruct D1.
  - eexists _, _. split; [reflexivity|]. split; [by split|]. change (sem_value (u_sem (with_sem (rt_sem_init 0) u))) with 0. rewrite app_nil_r. split_and!; done || lia.
  - eexists _, _. split; [reflexivity|]. split; [by apply (sinv_uinv [])|]. rewrite app_nil_r. split_and!; done || lia.
  - destruct H7 as (D1 & D2 & D3 & D4). rewrite uart_send_open by done. eexists _, _. split; [reflexivity|].
    split; [|cbn [with_dev u_dev u_rpc u_sem]; split_and!; done || lia]. split; try done. by apply opened_set_hw.
Qed.

(** A clear leaves the rest alone. *)
Lemma start_clear_inv p u : sinv p u -> exists u', clear_step SIZE u = Some u' /\ sinv p u'.
Proof.
  intros [H1 H2 H3 H4 H5 H6]. unfold clear_step. destruct (u_cpc u) as [|k|].
  - eexists. split; [reflexivity|]. by split.
  - destruct (Nat.ltb_spec k SIZE).
    + rewrite aset_in_range by lia. eexists. split; [reflexivity|]. rewrite Nat2Z.id.
      split; cbn; try done; [by rewrite length_insert|].
      destruct (decide (k = SIZE - 1)%nat) as [->|]; [by rewrite nth_insert_same by lia|]. by rewrite nth_insert_nul by lia.
    + eexists. split; [reflexivity|]. by split.
  - eexists. split; [reflexivity|]. split; cbn; try done; lia.
Qed.

Lemma isr_sent (d d' : serial wire) bs cb : dev_ok d -> s_ref_count d <> 0 -> Forall is_u8 bs ->
  rt_hw_serial_isr_rx (S (length bs)) (set_hw (Wire bs (sent (s_hw d))) d) = Some (d', cb) -> sent (s_hw d') = sent (s_hw d).
Proof.
  intros Hd N Hb E. pose proof (irq_refines d bs Hd Hb) as St. unfold step_refines, qdev_of at 1 in St. cbn [qdev_step dev_step] in St.
  rewrite (proj2 (Z.eqb_neq _ 0) N), E in St. destruct St as (s' & [= <-] & _ & Q). exact (f_equal q_sent Q).
Qed.

(** In the greeting an interrupt is what it is in the loop; none changes what
    was sent. *)
Lemma start_irq_hello todo bs u : start_irq (SHello todo) bs u = irq_step bs u.
Proof. unfold start_irq, irq_step. by destruct (rt_hw_serial_isr_rx _ _) as [[d [n|]]|]. Qed.

Lemma start_irq_sent p bs u u' : sinv p u -> Forall is_u8 bs -> start_irq p bs u = Some u' ->
  sent (s_hw (u_dev u')) = sent (s_hw (u_dev u)).
Proof.
  intros Hs Hb. unfold start_irq. destruct (rt_hw_serial_isr_rx _ _) as [[d cb]|] eqn:E; [|done].
  assert (sent (s_hw d) = sent (s_hw (u_dev u))) as Ed.
  { pose proof (si_dev _ _ Hs) as Hd. destruct p as [| | |todo]; [by destruct Hd as [cfg Hc]; rewrite Hc in E| | |];
      destruct Hd as (D1 & D2 & _); exact (isr_sent _ _ _ _ D1 D2 Hb E). }
  destruct cb; [|intros [= <-]; exact Ed]. destruct p; try done. intros [= <-].
  unfold uart4_rx_ind. cbn [u_sem with_dev]. by destruct (rt_sem_release _) as [[? ?] ?].
Qed.

(** An interrupt, at each place. *)
Lemma start_irq_inv p bs u : sinv p u -> Forall is_u8 bs -> bs <> [] ->
  match p with
  | SOpen | SSemInit => start_irq p bs u = None
  | SIndicate | SHello _ => exists u', start_irq p bs u = Some u' /\ sinv p u'
  end.
Proof.
  intros Hs Hb Hne. pose proof Hs as [H1 H2 H3 H4 [H5 H6] H7]. unfold start_irq. destruct p as [| | |todo].
  - by destruct H7 as [cfg ->].
  - destruct H7 as (D1 & D2 & D3 & D4). destruct (isr_any _ false bs D1 D2 D3 Hb Hne) as (d & n & -> & E1 & E2 & E3 & E4 & _).
    eexists. split; [reflexivity|]. split; try done. split_and!; try done. cbn [with_dev u_dev]. by rewrite E4.
  - destruct H7 as (D1 & D2 & D3 & D4). by destruct (isr_any _ true bs D1 D2 D3 Hb Hne) as (d & n & -> & _).
  - destruct (proj1 (sinv_uinv todo u) Hs) as [Hi Hr]. destruct (irq_step_inv SIZE HSIZE u bs Hi Hb Hne) as (u' & E & Hi' & _ & _ & _ & Hp).
    exists u'. split.
    + destruct H7 as (D1 & D2 & D3 & D4). unfold irq_step in E. by destruct (isr_any _ true bs D1 D2 D3 Hb Hne) as (d & n & Ei & _); rewrite Ei in *.
    + apply sinv_uinv. split; [done|]. destruct Hp as [->|[? _]]; congruence.
Qed.

Lemma quiet_hello todo sched : quiet_start (Some (SHello todo)) sched = true.
Proof. by destruct sched. Qed.
Lemma quiet_loop sched : quiet_start None sched = true.
Proof. by destruct sched. Qed.

(** A schedule runs as [quiet_start] says. *)
Lemma trun_inv sched : Forall actor_ok sched -> forall s, tinv s ->
  if quiet_start (t_start s) sched then exists s', trun SIZE malloc hello sched s = Some s' /\ tinv s'
  else trun SIZE malloc hello sched s = None.
Proof.
  induction 1 as [|a sched Ha _ IH]; intros [p u] Hs; [by exists (T p u)|]. unfold tinv in Hs. cbn [trun t_start t_u] in *. unfold tstep. cbn [t_start t_u].
  destruct p as [p|].
  - destruct a as [bs| |]; cbn [quiet_start].
    + destruct Ha as [Hb Hne]. pose proof (start_irq_inv p bs u Hs Hb Hne) as Hi.
      destruct p as [| | |todo]; [by rewrite Hi| |by rewrite Hi|]; destruct Hi as (u' & -> & Hs'); cbn [option_map].
      * exact (IH (T (Some SIndicate) u') Hs').
      * specialize (IH (T (Some (SHello todo)) u') Hs'). cbn [t_start] in IH. by rewrite (quiet_hello todo sched) in IH.
    + destruct (start_step_inv p u Hs) as (p' & u' & E & Hs' & _). rewrite E. cbn [option_map fst snd]. specialize (IH (T p' u') Hs'). cbn [t_start] in IH.
      destruct p as [| | |todo]; cbn [start_step] in E.
      * destruct (rt_device_open _ _ _) as [[? ?]|]; [|done]. injection E as <- _. exact IH.
      * injection E as <- _. exact IH.
      * injection E as <- _. by rewrite quiet_hello in IH.
      * assert (quiet_start p' sched = true) as Eq; [|by rewrite Eq in IH].
        destruct todo as [|c r]; [injection E as <- _; apply quiet_loop|].
        destruct (uart_send [c] (u_dev u)); [|done]. injection E as <- _. apply quiet_hello.
    + destruct (start_clear_inv p u Hs) as (u' & -> & Hs'). cbn [option_map]. specialize (IH (T (Some p) u') Hs'). cbn [t_start] in IH.
      destruct p; try exact IH. by rewrite quiet_hello in IH.
  - destruct (ustep_inv SIZE HSIZE a u Ha Hs) as (u' & -> & Hs'). cbn [option_map]. specialize (IH (T None u') Hs'). cbn [t_start] in IH.
    rewrite quiet_loop in *. exact IH.
Qed.

Lemma boot_tinv cfg : tinv (thread_boot SIZE cfg).
Proof.
  split; cbn -[repeat]; try done; try lia; [by rewrite repeat_length| |by exists cfg].
  rewrite (nth_indep _ 1 0) by (rewrite repeat_length; lia). apply nth_repeat.
Qed.

Lemma tinv_data s : tinv s -> length (u_data (t_u s)) = SIZE /\ 0 <= u_idx (t_u s) <= Z.of_nat SIZE - 1 /\ nth (SIZE - 1) (u_data (t_u s)) 1 = 0.
Proof. unfold tinv. destruct (t_start s); intros H; [by destruct H|]. split_and!; apply H. Qed.
End Start.

(* ------------------------------------------------------------------ *)
(** ** The receive thread drains the device *)

(** An upper bound of the reader's steps until it suspends. *)
Definition reader_measure (s : ustate) : Z :=
  8 * Z.of_nat (length (dev_bytes (u_dev s))) + 2 * sem_value (u_sem s) +
  match u_rpc s with
  | RBlocked => 0 | RTake => 1 | RRead => 2 | RIndexed _ _ => 3 | RLoaded _ _ => 4
  | RChecked _ => 5 | RGot _ => 6
  end.

Section Drain.
Context (SIZE : nat) (HSIZE : (2 <= SIZE)%nat).

Lemma reader_step_decreases s s' : uinv SIZE s -> u_rpc s <> RBlocked ->
  reader_step SIZE s = Some s' -> reader_measure s' < reader_measure s.
Proof.
  intros [I1 I2 I3 IC I4 I5 I6 I7 I8 _ _ _] N. unfold reader_step, reader_measure.
  destruct (u_rpc s) as [| | |b|b|b i|b i] eqn:P; try done.
  - destruct (read_open _ I1 I2 I3) as (d & -> & _ & _ & _ & D4 & _). intros [= <-]. cbn.
    rewrite D4. destruct (dev_bytes (u_dev s)) as [|c [|c' l]]; cbn -[Z.mul Z.of_nat]; lia.
  - unfold rt_sem_take. destruct (Z.ltb_spec 0 (sem_value (u_sem s))); intros [= <-];
      cbn -[Z.mul]; lia.
  - intros [= <-]. cbn -[Z.mul]. destruct (u_idx s <? Z.of_nat SIZE - 1); lia.
  - intros [= <-]. cbn -[Z.mul]. lia.
  - intros [= <-]. cbn -[Z.mul]. lia.
  - destruct (aset (u_data s) i b); [|done]. intros [= <-]. cbn -[Z.mul]. lia.
Qed.

Lemma reader_measure_nonneg s : uinv SIZE s -> 0 <= reader_measure s.
Proof. intros Hi. pose proof (ui_sem _ _ Hi). unfold reader_measure. destruct (u_rpc s); lia. Qed.

Lemma blocked_stays n s : u_rpc s = RBlocked -> urun SIZE (repeat AReader n) s = Some s.
Proof. intros B. induction n; [done|]. cbn. unfold reader_step. by rewrite B. Qed.

Lemma reader_drains n s : uinv SIZE s -> reader_measure s <= Z.of_nat n ->
  exists s', urun SIZE (repeat AReader n) s = Some s' /\ u_rpc s' = RBlocked /\ uinv SIZE s'.
Proof.
  revert s; induction n as [|n IH]; intros s Hi Hm.
  - exists s. split_and!; try done. pose proof (ui_sem _ _ Hi). unfold reader_measure in Hm.
    destruct (u_rpc s); try done; lia.
  - destruct (decide (u_rpc s = RBlocked)) as [B|B].
    { exists s. split_and!; try done. by apply blocked_stays. }
    cbn [repeat urun ustep]. destruct (reader_step_inv SIZE HSIZE s Hi) as (s1 & E & Hi1).
    rewrite E. apply IH; [done|]. pose proof (reader_step_decreases s s1 Hi B E). lia.
Qed.
End Drain.

(** The statements before the loop. *)
Definition start_steps (hello : list Z) (p : option spc) : Z :=
  match p with
  | None => 0
  | Some (SHello todo) => 1 + Z.of_nat (length todo)
  | Some SSemInit => 2 + Z.of_nat (length hello)
  | Some SIndicate => 3 + Z.of_nat (length hello)
  | Some SOpen => 4 + Z.of_nat (length hello)
  end.

Definition thread_measure (hello : list Z) (s : tstate) : Z := start_steps hello (t_start s) + reader_measure (t_u s).

Lemma start_steps_nonneg hello p : 0 <= start_steps hello p.
Proof. destruct p as [[]|]; cbn; lia. Qed.

Section DrainStart.
Context (SIZE : nat) (HSIZE : (2 <= SIZE)%nat) (malloc : Z -> bool) (hello : list Z).
Context (Hmem : malloc (RX_FIFO_SIZE + 256) = true).

Lemma trun_loop sched u : trun SIZE malloc hello sched (T None u) = option_map (T None) (urun SIZE sched u).
Proof.
  revert u; induction sched as [|a r IH]; intros u; [done|]. cbn [trun urun]. unfold tstep. cbn [t_start t_u].
  destruct (ustep SIZE a u); [apply IH|done].
Qed.

Lemma reader_measure_tinv s : tinv SIZE s -> 0 <= reader_measure (t_u s).
Proof.
  unfold tinv. destruct (t_start s); intros H; [|by apply (reader_measure_nonneg SIZE)].
  unfold reader_measure. rewrite (si_rpc _ _ _ H). pose proof (si_sem _ _ _ H). lia.
Qed.

(** The thread alone reaches its loop and then drains the device. *)
Lemma thread_drains n : forall s, tinv SIZE s -> thread_measure hello s <= Z.of_nat n ->
  exists u, trun SIZE malloc hello (repeat AReader n) s = Some (T None u) /\ u_rpc u = RBlocked /\ uinv SIZE u.
Proof.
  induction n as [|n IH]; intros [p u] Hs Hm; unfold thread_measure in *; cbn [t_start t_u] in *.
  - pose proof (reader_measure_tinv (T p u) Hs). cbn [t_u] in *. destruct p as [p|]; [destruct p; cbn in Hm; lia|]. unfold tinv in Hs. cbn [t_start t_u] in Hs.
    destruct (reader_drains SIZE HSIZE 0 u Hs) as (u' & [= <-] & B & Hi); [cbn in *; lia|]. by exists u.
  - destruct p as [p|].
    + cbn [repeat trun]. unfold tstep. cbn [t_start t_u].
      destruct (start_step_inv SIZE HSIZE malloc hello Hmem p u Hs) as (p' & u' & E & Hs' & Hr & Hb & Hsem & _). rewrite E. cbn [option_map fst snd].
      apply IH; [done|]. unfold tinv in Hs. cbn [t_start t_u] in *.
      assert (reader_measure u' <= reader_measure u) as Hle
        by (unfold reader_measure; rewrite Hr, Hb, (si_rpc _ _ _ Hs); lia).
      assert (start_steps hello p' = start_steps hello (Some p) - 1) as ->; [|lia].
      destruct p as [| | |[|c r]]; cbn [start_step] in E.
      * destruct (rt_device_open _ _ _) as [[? ?]|]; [|done]. injection E as <- _. cbn. lia.
      * injection E as <- _. cbn. lia.
      * injection E as <- _. cbn. lia.
      * injection E as <- _. done.
      * destruct (uart_send [c] (u_dev u)); [|done]. injection E as <- _. cbn [start_steps length]. lia.
    + rewrite trun_loop. destruct (reader_drains SIZE HSIZE (S n) u Hs) as (u' & -> & B & Hi); [cbn in *; lia|]. by exists u'.
Qed.
End DrainStart.

(* ------------------------------------------------------------------ *)
(** ** What the buffer holds after a clear *)

(** The bytes the interrupts of a schedule receive. *)
Definition received (sched : list actor) : list Z :=
  concat (map (fun a => match a with AIrq bs => bs | _ => [] end) sched).

Definition is_clear (a : actor) : bool := match a with AClear => true | _ => false end.

Definition inflight (p : rpc) : list Z :=
  match p with RGot b | RChecked b | RLoaded b _ | RIndexed b _ => [b] | _ => [] end.

Section Content.
Context (SIZE : nat) (HSIZE : (2 <= SIZE)%nat).

(** [r] has been received since the clear: stored, with the receive thread, or
    in the device. *)
Definition holds (r : list Z) (s : ustate) : Prop :=
  exists st, u_data s = st ++ repeat 0 (SIZE - length st) /\
    st ++ inflight (u_rpc s) ++ dev_bytes (u_dev s) = r /\
    match u_rpc s with
    | RLoaded _ i => u_idx s = i /\ i = Z.of_nat (length st)
    | RIndexed _ i => i = Z.of_nat (length st) /\ u_idx s = i + 1
    | _ => u_idx s = Z.of_nat (length st)
    end.

Lemma store_next (st : list Z) b : (length st < SIZE)%nat ->
  <[length st := b]> (st ++ repeat 0 (SIZE - length st))
  = (st ++ [b]) ++ repeat 0 (SIZE - length (st ++ [b])).
Proof.
  intros Hl. rewrite insert_app_r_alt, Nat.sub_diag by lia.
  replace (SIZE - length st)%nat with (S (SIZE - length (st ++ [b]))) by (rewrite length_app; cbn; lia).
  cbn [repeat]. by rewrite <- app_assoc.
Qed.

Lemma irq_step_holds r s bs s' : uinv SIZE s -> Forall is_u8 bs -> bs <> [] ->
  (length (r ++ bs) <= 255)%nat -> holds r s -> irq_step bs s = Some s' -> holds (r ++ bs) s'.
Proof.
  intros Hi Hb Hne Hl (st & E1 & E2 & E3). pose proof Hi as [I1 I2 I3 IC _ _ _ _ _ _ _ _].
  destruct (irq_step_inv SIZE HSIZE s bs Hi Hb Hne) as (s2 & E & _ & D1 & D2 & D3 & D4).
  rewrite E. intros [= <-].
  assert (dev_bytes (u_dev s2) = dev_bytes (u_dev s) ++ bs) as B.
  { unfold irq_step in E. destruct (isr_open _ bs I1 I2 I3 Hb Hne) as (d' & n & Q & _ & _ & _ & _ & DB).
    rewrite Q, IC in *. rewrite lastn_all in DB; [|].
    - destruct (rt_sem_release (u_sem s)) as [[? ?] ?] eqn:R. unfold uart4_rx_ind in E. cbn in E.
      rewrite R in E. injection E as <-. exact DB.
    - subst r. rewrite !length_app in *. unfold qcap. lia. }
  exists st. rewrite D1, D2, B. split; [done|].
  destruct D4 as [->|[P ->]]; [|rewrite P in *]; (split; [|done]);
    rewrite <- E2, <- !app_assoc; done.
Qed.

Lemma reader_step_holds r s s' : uinv SIZE s -> (length r <= SIZE - 1)%nat ->
  holds r s -> reader_step SIZE s = Some s' -> holds r s'.
Proof.
  intros [I1 I2 I3 IC I4 I5 I6 I7 I8 I9 I10 I11] Hl (st & E1 & E2 & E3). unfold reader_step.
  assert (length st + length (inflight (u_rpc s)) <= SIZE - 1)%nat as Hst
    by (subst r; rewrite !length_app in Hl; lia).
  destruct (u_rpc s) as [| | |b|b|b i|b i] eqn:P; cbn [inflight length app] in *.
  - destruct (read_open _ I1 I2 I3) as (d & -> & _ & _ & _ & D4 & _). intros [= <-]. exists st.
    cbn. rewrite D4. destruct (dev_bytes (u_dev s)) as [|c [|c' l]]; by cbn.
  - destruct (rt_sem_take (u_sem s)) as [now sem]. intros [= <-]. exists st. by destruct now.
  - intros [= <-]. exists st. by rewrite P.
  - rewrite (proj2 (Z.ltb_lt _ _)) by lia. intros [= <-]. by exists st.
  - intros [= <-]. by exists st.
  - intros [= <-]. destruct E3 as [E3 ->]. exists st. cbn. split_and!; try done; lia.
  - destruct E3 as [-> E3]. rewrite aset_in_range by (rewrite I4; lia). intros [= <-].
    exists (st ++ [b]). cbn. rewrite Nat2Z.id, E1, store_next by lia.
    rewrite length_app. cbn. split_and!; try done; [by rewrite <- app_assoc | lia].
Qed.

Lemma urun_holds sched r s s' : uinv SIZE s -> Forall actor_ok sched ->
  existsb is_clear sched = false ->
  (length (r ++ received sched) <= SIZE - 1)%nat -> (length (r ++ received sched) <= 255)%nat ->
  holds r s -> urun SIZE sched s = Some s' -> holds (r ++ received sched) s'.
Proof.
  intros Hi Hs. revert r s Hi; induction Hs as [|a sched Ha Hs IH]; intros r s Hi Hc H1 H2 Hh.
  { intros [= <-]. cbn. by rewrite app_nil_r. }
  cbn [existsb] in Hc. apply orb_false_iff in Hc as [Hca Hc].
  cbn [urun]. destruct (ustep_inv SIZE HSIZE a s Ha Hi) as (s1 & E & Hi1). rewrite E.
  unfold received in *. cbn [map concat] in *. rewrite app_assoc in *.
  assert (forall (x y : list Z) n, (length (x ++ y) <= n)%nat -> (length x <= n)%nat) as La
    by (intros x y n; rewrite length_app; lia).
  apply IH; try done. destruct a as [bs| |]; cbn [ustep] in E; try done.
  - destruct Ha as [Hb Hn]. exact (irq_step_holds r s bs s1 Hi Hb Hn (La _ _ _ H2) Hh E).
  - apply La in H1. rewrite app_nil_r in *. exact (reader_step_holds r s s1 Hi H1 Hh E).
Qed.
End Content.

Lemma urun_app SIZE a b s :
  urun SIZE (a ++ b) s = match urun SIZE a s with Some s1 => urun SIZE b s1 | None => None end.
Proof.
  revert s; induction a as [|x a IH]; intros s; cbn; [done|].
  destruct (ustep SIZE x s); [apply IH|done].
Qed.

Section Clear.
Context (SIZE : nat) (HSIZE : (2 <= SIZE)%nat).

Lemma clear_zeroes k s : (k <= SIZE)%nat -> u_cpc s = CZero k -> length (u_data s) = SIZE ->
  firstn k (u_data s) = repeat 0 k ->
  urun SIZE (repeat AClear (SIZE - k)) s
  = Some (U (u_dev s) (u_sem s) (u_rpc s) (CZero SIZE) (repeat 0 SIZE) (u_idx s)).
Proof.
  intros Hk. remember (SIZE - k)%nat as n eqn:En. revert k Hk En s.
  induction n as [|n IH]; intros k Hk En s Hc Hl Hf.
  - assert (k = SIZE) as -> by lia. destruct s; cbn in *. subst.
    do 2 f_equal. rewrite <- Hf. by rewrite firstn_all.
  - cbn [repeat urun ustep]. unfold clear_step. rewrite Hc.
    destruct (Nat.ltb_spec k SIZE); [|lia]. rewrite aset_in_range, Nat2Z.id by lia.
    rewrite (IH (S k)); cbn; try done; try lia; [by rewrite length_insert|].
    rewrite (take_S_r _ k 0) by (by apply list_lookup_insert_eq; lia).
    rewrite take_insert_ge by lia. unfold firstn in Hf. fold (take (A:=Z)) in Hf.
    rewrite Hf. by rewrite <- repeat_cons.
Qed.

(** A whole call of [uart4_buffer_clear], nothing else running. *)
Lemma clear_run s : u_cpc s = CIdle -> length (u_data s) = SIZE ->
  urun SIZE (repeat AClear (SIZE + 3)) s
  = Some (U (u_dev s) (u_sem s) (u_rpc s) CIdle (repeat 0 SIZE) 0).
Proof.
  intros Hc Hl. replace (SIZE + 3)%nat with (S ((SIZE - 0) + 2)) by lia.
  cbn [repeat urun ustep]. unfold clear_step. rewrite Hc, repeat_app.
  rewrite urun_app, clear_zeroes by (done || lia). cbn [repeat urun ustep]. unfold clear_step.
  cbn [u_cpc]. rewrite Nat.ltb_irrefl. done.
Qed.
End Clear.

Lemma cstr_full_zero l n : Forall (fun c => c <> 0) l -> (0 < n)%nat -> cstr (l ++ repeat 0 n) = l.
Proof. intros Hl Hn. destruct n; [lia|]. by apply cstr_app_nul. Qed.

Lemma cstr_short (l : list Z) n : nth n l 1 = 0 -> (length (cstr l) <= n)%nat.
Proof.
  revert n; induction l as [|c l IH]; intros [|n]; cbn; intros H; try done; try lia.
  - by subst.
  - destruct (c =? 0); cbn; [lia|]. apply IH in H. lia.
Qed.

(** A byte of the loop of the receive thread, in one piece: what it does to the
    cells and the index. *)
Definition store (SIZE : nat) (s : list Z * Z) (b : Z) : list Z * Z :=
  let '(data, idx) := s in
  if idx <? Z.of_nat SIZE - 1 then (<[Z.to_nat idx := b]> data, idx + 1) else (data, idx).

Section Store.
Context (SIZE : nat) (HSIZE : (2 <= SIZE)%nat).

(** The cells and the index once the bytes underway are stored. *)
Definition settled (s : ustate) : list Z * Z :=
  fold_left (store SIZE) (dev_bytes (u_dev s))
    match u_rpc s with
    | RGot b | RChecked b => store SIZE (u_data s, u_idx s) b
    | RLoaded b i | RIndexed b i => (<[Z.to_nat i := b]> (u_data s), i + 1)
    | _ => (u_data s, u_idx s)
    end.

(** No clear came between the load of the index and its store. *)
Definition unbroken (s : ustate) : Prop :=
  match u_rpc s with RLoaded _ i => u_idx s = i | RIndexed _ i => u_idx s = i + 1 | _ => True end.

Lemma reader_step_settled s s' : uinv SIZE s -> unbroken s -> reader_step SIZE s = Some s' ->
  settled s' = settled s /\ unbroken s' /\ u_cpc s' = u_cpc s /\ (length (dev_bytes (u_dev s')) <= length (dev_bytes (u_dev s)))%nat.
Proof.
  intros [I1 I2 I3 IC I4 I5 I6 I7 I8 I9 I10 I11] Hu. unfold reader_step, settled, unbroken in *.
  destruct (u_rpc s) as [| | |b|b|b i|b i] eqn:P.
  - destruct (read_open _ I1 I2 I3) as (d & -> & _ & _ & _ & D4 & _). intros [= <-]. cbn. rewrite D4.
    destruct (dev_bytes (u_dev s)) as [|c [|c' l]]; cbn; split_and!; done || lia.
  - destruct (rt_sem_take (u_sem s)) as [now sem]. intros [= <-]. by destruct now.
  - intros [= <-]. by rewrite P.
  - intros [= <-]. cbn. by destruct (Z.ltb_spec (u_idx s) (Z.of_nat SIZE - 1)).
  - intros [= <-]. cbn. by rewrite (proj2 (Z.ltb_lt _ _)).
  - intros [= <-]. by subst.
  - rewrite aset_in_range by lia. intros [= <-]. cbn. by rewrite Hu.
Qed.

Lemma irq_step_settled s bs s' : uinv SIZE s -> unbroken s -> Forall is_u8 bs -> bs <> [] ->
  (length (dev_bytes (u_dev s) ++ bs) <= 255)%nat -> irq_step bs s = Some s' ->
  settled s' = fold_left (store SIZE) bs (settled s) /\ unbroken s' /\ u_cpc s' = u_cpc s /\ dev_bytes (u_dev s') = dev_bytes (u_dev s) ++ bs.
Proof.
  intros Hi Hu Hb Hne Hl E. pose proof Hi as [I1 I2 I3 IC _ _ _ _ _ _ _ _].
  destruct (irq_step_inv SIZE HSIZE s bs Hi Hb Hne) as (s2 & E2 & _ & D1 & D2 & D3 & D4). rewrite E in E2. injection E2 as <-.
  assert (dev_bytes (u_dev s') = dev_bytes (u_dev s) ++ bs) as B.
  { unfold irq_step in E. destruct (isr_open _ bs I1 I2 I3 Hb Hne) as (d' & n & Q & _ & _ & _ & _ & DB).
    rewrite Q, IC in *. rewrite lastn_all in DB by (unfold qcap; lia). injection E as <-. rewrite <- DB.
    unfold uart4_rx_ind. cbn [u_sem]. by destruct (rt_sem_release _) as [[? ?] ?]. }
  unfold settled, unbroken in *. rewrite B, D1, D2, fold_left_app. destruct D4 as [->|[P ->]]; [done|]. by rewrite P.
Qed.

(** Interrupts and the thread store the bytes in their order. *)
Lemma urun_settled sched s s' : uinv SIZE s -> unbroken s -> Forall actor_ok sched -> existsb is_clear sched = false ->
  (length (dev_bytes (u_dev s) ++ received sched) <= 255)%nat -> urun SIZE sched s = Some s' ->
  settled s' = fold_left (store SIZE) (received sched) (settled s) /\ u_cpc s' = u_cpc s.
Proof.
  intros Hi Hu Hs. revert s Hi Hu; induction Hs as [|a sched Ha Hs IH]; intros s Hi Hu Hc Hl; [by intros [= <-]|].
  cbn [existsb] in Hc. apply orb_false_iff in Hc as [Hca Hc]. cbn [urun].
  destruct (ustep_inv SIZE HSIZE a s Ha Hi) as (s1 & E & Hi1). rewrite E. unfold received in *. cbn [map concat] in *.
  rewrite fold_left_app. destruct a as [bs| |]; cbn [ustep app] in *; [| |done].
  - destruct Ha as [Hb Hne]. rewrite app_assoc in Hl.
    assert (length (dev_bytes (u_dev s) ++ bs) <= 255)%nat as Hl1 by (rewrite length_app in Hl; lia).
    destruct (irq_step_settled s bs s1 Hi Hu Hb Hne Hl1 E) as (<- & U1 & <- & B). rewrite <- B in Hl. by apply IH.
  - destruct (reader_step_settled s s1 Hi Hu E) as (<- & U1 & <- & B). apply IH; try done. rewrite length_app in *. lia.
Qed.
End Store.

(* ------------------------------------------------------------------ *)
(** ** Properties *)

(** A module UART from the first statement of its receive thread, under a
    schedule. *)
Definition uart_run (SIZE : nat) (malloc : Z -> bool) (hello : list Z) (sched : list actor) (cfg : serial_configure) : option tstate :=
  trun SIZE malloc hello sched (thread_boot SIZE cfg).

(** C11: under any interleaving of receive interrupts, receive-thread steps and
    buffer clears, from the first statement of the thread on (there is memory
    for the receive queue), nothing is undefined: no assertion fails, no access
    is out of the buffer, the index stays below its last cell, that cell stays
    NUL, and so the text the string functions see ends inside the buffer.  There
    is one exception, and it is exact: an interrupt before the device is open,
    or between the registration of the callback and [rt_sem_init], fails an
    assertion. *)
Theorem uart_buffer_safe SIZE malloc hello cfg sched :
  (2 <= SIZE)%nat -> malloc (RX_FIFO_SIZE + 256) = true -> Forall actor_ok sched ->
  if quiet_start (Some SOpen) sched then
    exists s, uart_run SIZE malloc hello sched cfg = Some s /\
      length (u_data (t_u s)) = SIZE /\ 0 <= u_idx (t_u s) <= Z.of_nat SIZE - 1 /\
      nth (SIZE - 1) (u_data (t_u s)) 1 = 0 /\ (length (cstr (u_data (t_u s))) < SIZE)%nat
  else uart_run SIZE malloc hello sched cfg = None.
Proof.
  intros HS Hm Ha. pose proof (trun_inv SIZE HS malloc hello Hm sched Ha (thread_boot SIZE cfg) (boot_tinv SIZE HS cfg)) as H.
  unfold uart_run. cbn [t_start thread_boot] in H. destruct (quiet_start _ _); [|exact H]. destruct H as (s & -> & Hs).
  destruct (tinv_data SIZE s Hs) as (H1 & H2 & H3). exists s. split_and!; try done; try lia. apply cstr_short in H3. lia.
Qed.

Definition sample_sched : list actor := [AReader; AIrq [7]; AReader; AReader; AIrq [8]; AReader; AReader; AReader; AIrq [79; 75]; AReader; AClear].

Lemma uart_buffer_safe_witness :
  (exists s, uart_run 4 (fun _ => true) [62; 10] sample_sched RT_SERIAL_CONFIG_DEFAULT = Some s /\
    length (u_data (t_u s)) = 4%nat /\ 0 <= u_idx (t_u s) <= Z.of_nat 4 - 1 /\
    nth (4 - 1) (u_data (t_u s)) 1 = 0 /\ (length (cstr (u_data (t_u s))) < 4)%nat) /\
  uart_run 4 (fun _ => true) [62; 10] [AReader; AReader; AIrq [7]] RT_SERIAL_CONFIG_DEFAULT = None.
Proof.
  split; [refine (uart_buffer_safe 4 (fun _ => true) [62; 10] RT_SERIAL_CONFIG_DEFAULT sample_sched _ _ _)
         |refine (uart_buffer_safe 4 (fun _ => true) [62; 10] RT_SERIAL_CONFIG_DEFAULT [AReader; AReader; AIrq [7]] _ _ _)];
    [lia|done| |lia|done|]; repeat constructor; cbn; unfold is_u8; try lia; done.
Defined.

(** C27: no wake-up is lost: in any state the thread reaches, letting it run
    takes it through its start and to suspension within [thread_measure] steps,
    and it only ever suspends with the device's receive queue empty. *)
Theorem uart_reader_drains SIZE malloc hello cfg sched s :
  (2 <= SIZE)%nat -> malloc (RX_FIFO_SIZE + 256) = true -> Forall actor_ok sched -> uart_run SIZE malloc hello sched cfg = Some s ->
  (t_start s = None -> u_rpc (t_u s) = RBlocked -> dev_bytes (u_dev (t_u s)) = []) /\
  exists u, trun SIZE malloc hello (repeat AReader (Z.to_nat (thread_measure hello s))) s = Some (T None u) /\
    u_rpc u = RBlocked /\ dev_bytes (u_dev u) = [].
Proof.
  intros HS Hm Ha E. pose proof (trun_inv SIZE HS malloc hello Hm sched Ha (thread_boot SIZE cfg) (boot_tinv SIZE HS cfg)) as H.
  unfold uart_run in E. destruct (quiet_start _ _); [|congruence]. destruct H as (s1 & E1 & Hs). rewrite E in E1. injection E1 as <-. split.
  - unfold tinv in Hs. intros Et. rewrite Et in Hs. apply (ui_wake _ _ Hs).
  - pose proof (reader_measure_tinv SIZE HS s Hs). pose proof (start_steps_nonneg hello (t_start s)).
    destruct (thread_drains SIZE HS malloc hello Hm (Z.to_nat (thread_measure hello s)) s Hs) as (u & E2 & B & Hi); [unfold thread_measure; lia|].
    exists u. split_and!; try done. by apply (ui_wake _ _ Hi).
Qed.

Lemma uart_reader_drains_witness :
  exists s, uart_run 8 (fun _ => true) [62] (sample_sched ++ [AIrq [13]; AReader]) RT_SERIAL_CONFIG_DEFAULT = Some s /\
  ((t_start s = None -> u_rpc (t_u s) = RBlocked -> dev_bytes (u_dev (t_u s)) = []) /\
  exists u, trun 8 (fun _ => true) [62] (repeat AReader (Z.to_nat (thread_measure [62] s))) s = Some (T None u) /\
    u_rpc u = RBlocked /\ dev_bytes (u_dev u) = []).
Proof.
  eexists. split; [vm_compute; reflexivity|].
  eapply (uart_reader_drains 8 (fun _ => true) [62] RT_SERIAL_CONFIG_DEFAULT (sample_sched ++ [AIrq [13]; AReader]));
    [lia | done | repeat constructor; cbn; unfold is_u8; try lia; done | vm_compute; reflexivity].
Defined.

(** After a clear that finds the receive thread suspended, whatever the
    interleaving of the interrupts that follow, the buffer reads as exactly
    the bytes received since, once the thread is suspended again (as long as
    they fit the buffer and are not NUL). *)
Theorem uart_clear_then_receive SIZE malloc hello cfg pre sched s0 s :
  (2 <= SIZE)%nat -> malloc (RX_FIFO_SIZE + 256) = true -> Forall actor_ok pre -> Forall actor_ok sched -> existsb is_clear sched = false ->
  (length (received sched) <= Nat.min (SIZE - 1) 255)%nat -> Forall (fun c => c <> 0) (received sched) ->
  uart_run SIZE malloc hello pre cfg = Some (T None s0) -> u_rpc s0 = RBlocked -> u_cpc s0 = CIdle ->
  urun SIZE (repeat AClear (SIZE + 3) ++ sched) s0 = Some s -> u_rpc s = RBlocked ->
  cstr (u_data s) = received sched.
Proof.
  intros HS Hm Hp Hs Hc Hl Hz E0 B Hcp. pose proof (trun_inv SIZE HS malloc hello Hm pre Hp (thread_boot SIZE cfg) (boot_tinv SIZE HS cfg)) as H.
  unfold uart_run in E0. destruct (quiet_start _ _); [|congruence]. destruct H as (s1 & E1 & Hi). rewrite E0 in E1. injection E1 as <-.
  unfold tinv in Hi. cbn [t_start t_u] in Hi. rewrite urun_app, clear_run by (done || apply (ui_len _ _ Hi)).
  intros E B'. destruct Hi as [I1 I2 I3 IC I4 I5 I6 I7 I8 I9 I10 I11].
  assert (uinv SIZE (U (u_dev s0) (u_sem s0) (u_rpc s0) CIdle (repeat 0 SIZE) 0)) as Hi.
  { rewrite B in *. split; cbn -[repeat]; try done; [by rewrite repeat_length | lia |].
    rewrite (nth_indep _ 1 0) by (rewrite repeat_length; lia). apply nth_repeat. }
  destruct (urun_holds SIZE HS sched [] _ s Hi Hs Hc) as (st & D1 & D2 & _); cbn [app]; try lia; try done.
  - exists []. cbn. rewrite Nat.sub_0_r, B, I10 by done. done.
  - rewrite B' in D2. destruct (urun_inv SIZE HS sched _ Hs Hi) as (s2 & E2 & Hi2).
    rewrite E2 in E. injection E as ->. rewrite (ui_wake _ _ Hi2 B') in D2. cbn in D2.
    rewrite app_nil_r in D2. subst st. rewrite D1, cstr_full_zero; [done|done|lia].
Qed.

Lemma uart_clear_then_receive_witness : exists s,
  urun 8 (repeat AClear 11 ++ AIrq [79] :: repeat AReader 3 ++ AIrq [75] :: repeat AReader 20) (U (uart_opened (Wire [] [])) (Sem 0 true) RBlocked CIdle (repeat 0 8) 0) = Some s /\
  cstr (u_data s) = [79; 75].
Proof.
  eexists. split; [vm_compute; reflexivity|].
  apply (uart_clear_then_receive 8 (fun _ => true) [] RT_SERIAL_CONFIG_DEFAULT (repeat AReader 6)
    (AIrq [79] :: repeat AReader 3 ++ AIrq [75] :: repeat AReader 20)
    (U (uart_opened (Wire [] [])) (Sem 0 true) RBlocked CIdle (repeat 0 8) 0));
    try (vm_compute; reflexivity);
    try solve [cbn; lia | repeat constructor; cbn; unfold is_u8; try lia; done].
Defined.

(** Between two accesses of another thread to the buffer the receive thread
    works in whole bytes: from one suspension to the next, whatever the
    interrupts in between, the cells and the index change by [store] for each
    byte received, in order. *)
Theorem uart_receive_stores SIZE s s' sched :
  (2 <= SIZE)%nat -> uinv SIZE s -> u_rpc s = RBlocked -> Forall actor_ok sched -> existsb is_clear sched = false ->
  (length (received sched) <= 255)%nat -> urun SIZE sched s = Some s' -> u_rpc s' = RBlocked ->
  (u_data s', u_idx s') = fold_left (store SIZE) (received sched) (u_data s, u_idx s) /\ u_cpc s' = u_cpc s /\ uinv SIZE s'.
Proof.
  intros HS Hi B Ha Hc Hl E B'. destruct (urun_inv SIZE HS sched s Ha Hi) as (s1 & E1 & Hi'). rewrite E in E1. injection E1 as <-.
  pose proof (ui_wake _ _ Hi B) as W. pose proof (ui_wake _ _ Hi' B') as W'.
  destruct (urun_settled SIZE HS sched s s' Hi) as [H Hcp]; try done; [unfold unbroken; by rewrite B|by rewrite W|].
  unfold settled in H. by rewrite B, B', W, W' in H.
Qed.

Lemma uart_receive_stores_witness : exists s',
  urun 4 (AIrq [79; 75] :: repeat AReader 6 ++ AIrq [13; 10] :: repeat AReader 30) (U (uart_opened (Wire [] [])) (Sem 0 true) RBlocked CIdle [0; 0; 7; 0] 0) = Some s' /\
  (u_data s', u_idx s') = fold_left (store 4) [79; 75; 13; 10] ([0; 0; 7; 0], 0).
Proof.
  eexists. split; [vm_compute; reflexivity|].
  eapply (uart_receive_stores 4 (U (uart_opened (Wire [] [])) (Sem 0 true) RBlocked CIdle [0; 0; 7; 0] 0) _ (AIrq [79; 75] :: repeat AReader 6 ++ AIrq [13; 10] :: repeat AReader 30));
    try (vm_compute; reflexivity); try solve [cbn; lia | repeat constructor; cbn; unfold is_u8; try lia; done].
  split; cbn; try done; try lia.
  - split; cbn; try done; try lia. intros _. split_and!; try done. eexists; split; [done|]. apply new_fifo_ok. lia.
Defined.

(** [uart4_buffer_clear] resets the index after the cells, without a
    lock: a byte stored in between survives.  Here the modem sends "X", the
    caller clears, "K" arrives inside the clear, and the caller then reads
    "OK" although only "O" was received since the clear completed. *)
Theorem uart_clear_race_false_ok : exists s,
  uart_run UART4_RECIVED_DATA_SIZE (fun _ => true) []
    (repeat AReader 6 ++ AIrq (clit "X") :: repeat AReader 8 ++
     repeat AClear 258 ++ AIrq (clit "K") :: repeat AReader 8 ++ [AClear] ++
     AIrq (clit "O") :: repeat AReader 8) RT_SERIAL_CONFIG_DEFAULT = Some (T None s) /\
  u_rpc s = RBlocked /\ u_cpc s = CIdle /\ u_idx s = 1 /\
  cstr (u_data s) = clit "OK" /\ contains (clit "OK") (cstr (u_data s)) = true.
Proof. eexists. split; [vm_compute; reflexivity|]. vm_compute. done. Qed.
