(* ===== verification/Report.v ===== *)
(** * The reports: Ethernet JSON, cloud JSON and LoRa text

    [build_sensor_json] of applications/ethApp.c, the JSON of step 7 of
    applications/huaweiCloudApp.c and [lora_build_text] of
    applications/loraApp.c, on the memory model of Printf.v. *)

From Stdlib Require Import ZArith Lia String SpecFloat.
From stdpp Require Import base numbers list.
From S2P Require Import Prelude Memory Float32 Printf Methane Node AdcSensors Sht30 ModbusApp.
Open Scope c_scope.

(** The globals the reports read. *)
Record telemetry := Telemetry {
  t_flame : flame_data; t_methane : methane; t_mb : mb_data; t_sht30 : sht30_data;
  g_o2_concentration : f32 }.

Definition fget (l : list f32) (i : nat) : f32 := nth i l (S754_zero false).

(** The integer and the fractional part printed for a [float]. *)
Definition int_part (v : f32) : Z := f32_to_int v.
Definition dec_part (v : f32) (k : Z) : Z :=
  let d := f32_to_int (f32_mul (f32_sub v (f32_of_Z (int_part v))) (f32_of_Z k)) in
  if d <? 0 then s32 (- d) else d.

(** ethApp.c [append_float], huaweiCloudApp.c [append_float_field]. *)
Definition append_float (m : memory) (buf size : Z) (key : string) (val : f32) : option (Z * memory) :=
  rt_snprintf m buf size (clit "`%s`:%d.%02d") [AStr (clit key); AInt (int_part val); AInt (dec_part val 100)].

Definition append_float_field (m : memory) (buf buf_size : Z) (key : string) (val : f32) : option (Z * memory) :=
  rt_snprintf m buf buf_size (clit "`%s`:%d.%02d") [AStr (clit key); AInt (int_part val); AInt (dec_part val 100)].

(** [pos += f(arr + pos, sizeof(arr) - pos, ...)] *)
Record jstate := J { j_pos : Z; j_mem : memory }.

Definition pos_add (arr size : Z) (f : memory -> Z -> Z -> option (Z * memory)) : M jstate unit := fun s =>
  match f (j_mem s) (u32 (arr + j_pos s)) (u32 (size - j_pos s)) with
  | None => None
  | Some (n, m) => Some (tt, J (s32 (j_pos s + n)) m)
  end.

Definition put_text (fmt : string) (args : list carg) (m : memory) (buf size : Z) : option (Z * memory) :=
  rt_snprintf m buf size (clit fmt) args.

(* ------------------------------------------------------------------ *)
(** ** The Ethernet report *)

Definition ETH_JSON_SIZE : Z := 512.
Definition ETH_DEVICE_ID : string := "pipe_gallery_node_01".

(** [build_sensor_json]; [eth_json_buf] is at [eth_json_buf]. *)
Definition build_sensor_json (eth_json_buf : Z) (t : telemetry) : M jstate Z :=
  let add := pos_add eth_json_buf ETH_JSON_SIZE in
  let fl (key : string) v := add (fun m b n => append_float m b n key v) in
  let sep := add (put_text "," []) in
  do! add (put_text "{`device_id`:`%s`,`data`:{`ch0`:%u,`ch1`:%u,`ch3`:%u,`ch4`:%u,`ch5`:%u,`methane_ppm`:%u,`methane_lel`:%u,"
    [AStr (clit ETH_DEVICE_ID); AInt (g_adc_ch0 (t_flame t)); AInt (g_adc_ch1 (t_flame t));
     AInt (g_adc_ch3 (t_flame t)); AInt (g_adc_ch4 (t_flame t)); AInt (g_adc_ch5 (t_flame t));
     AInt (g_methane_ppm (t_methane t)); AInt (g_methane_lel (t_methane t))]) in
  do! fl "voltage_a"%string (fget (Voltage (t_mb t)) 0) in do! sep in
  do! fl "voltage_b"%string (fget (Voltage (t_mb t)) 1) in do! sep in
  do! fl "voltage_c"%string (fget (Voltage (t_mb t)) 2) in do! sep in
  do! fl "current_a"%string (fget (Current (t_mb t)) 0) in do! sep in
  do! fl "current_b"%string (fget (Current (t_mb t)) 1) in do! sep in
  do! fl "current_c"%string (fget (Current (t_mb t)) 2) in do! sep in
  do! fl "flow"%string (Flow_ (t_mb t)) in do! sep in
  do! fl "temperature"%string (g_temperature_c (t_sht30 t)) in do! sep in
  do! fl "humidity"%string (g_humidity_rh (t_sht30 t)) in do! sep in
  do! fl "o2"%string (g_o2_concentration t) in do! sep in
  do! fl "displacement"%string (Displacement_ (t_mb t)) in do! sep in
  do! fl "stress"%string (g_stress_value_n (g_stress (t_mb t))) in
  do! add (put_text ",`flame`:%d}}\n" [AInt (Flame_ (t_flame t))]) in
  getM (fun s => (j_pos s, s)).

(* ------------------------------------------------------------------ *)
(** ** The cloud report *)

Definition CLOUD_JSON_SIZE : Z := 600.
Definition SERVICE_ID_SENSOR : string := "Smarthome".

(** The JSON of step 7; [json_buf] is at [json_buf], the result is [json_len]. *)
Definition build_cloud_json (json_buf : Z) (t : telemetry) : M jstate Z :=
  let add := pos_add json_buf CLOUD_JSON_SIZE in
  let fl (key : string) v := add (fun m b n => append_float_field m b n key v) in
  let sep := add (put_text "," []) in
  do! add (put_text "{`services`:[{`service_id`:`%s`,`properties`:{`ch0`:%u,`ch1`:%u,`ch3`:%u,`ch4`:%u,`ch5`:%u,`methane_ppm`:%u,`methane_lel`:%u,"
    [AStr (clit SERVICE_ID_SENSOR); AInt (g_adc_ch0 (t_flame t)); AInt (g_adc_ch1 (t_flame t));
     AInt (g_adc_ch3 (t_flame t)); AInt (g_adc_ch4 (t_flame t)); AInt (g_adc_ch5 (t_flame t));
     AInt (g_methane_ppm (t_methane t)); AInt (g_methane_lel (t_methane t))]) in
  do! fl "voltage_a"%string (fget (Voltage (t_mb t)) 0) in do! sep in
  do! fl "voltage_b"%string (fget (Voltage (t_mb t)) 1) in do! sep in
  do! fl "voltage_c"%string (fget (Voltage (t_mb t)) 2) in do! sep in
  do! fl "current_a"%string (fget (Current (t_mb t)) 0) in do! sep in
  do! fl "current_b"%string (fget (Current (t_mb t)) 1) in do! sep in
  do! fl "current_c"%string (fget (Current (t_mb t)) 2) in do! sep in
  do! fl "flow"%string (Flow_ (t_mb t)) in do! sep in
  do! fl "temperature"%string (g_temperature_c (t_sht30 t)) in do! sep in
  do! fl "humidity"%string (g_humidity_rh (t_sht30 t)) in do! sep in
  do! fl "o2"%string (g_o2_concentration t) in do! sep in
  do! fl "displacement"%string (Displacement_ (t_mb t)) in do! sep in
  do! fl "stress"%string (g_stress_value_n (g_stress (t_mb t))) in do! sep in
  do! add (put_text "`flame`:%d" [AInt (Flame_ (t_flame t))]) in
  do! add (put_text "}}]}" []) in
  getM (fun s => (j_pos s, s)).

(* ------------------------------------------------------------------ *)
(** ** The LoRa text *)

Definition LORA_TEXT_BUF_SIZE : Z := 256.

Definition lora_build_text (m : memory) (buf size : Z) (t : telemetry) : option (Z * memory) :=
  let voltage_a_int := f32_to_int (fget (Voltage (t_mb t)) 0) in
  let voltage_b_int := f32_to_int (fget (Voltage (t_mb t)) 1) in
  let voltage_c_int := f32_to_int (fget (Voltage (t_mb t)) 2) in
  let current_a_int := f32_to_int (fget (Current (t_mb t)) 0) in
  let current_b_int := f32_to_int (fget (Current (t_mb t)) 1) in
  let current_c_int := f32_to_int (fget (Current (t_mb t)) 2) in
  let flow_int := f32_to_int (Flow_ (t_mb t)) in
  rt_snprintf m buf size
    (clit "Flame: %u,%u,%u,%u,%u\r\ngas: ppm: %u , level: %u%%\r\nvoltage_a: %dV,voltage_b: %dV,voltage_c: %dV\r\ncurrent_a: %dA,current_b: %dA,current_c: %dA\r\nflow: %d m^3/h\r\n")
    [AInt (g_adc_ch0 (t_flame t)); AInt (g_adc_ch1 (t_flame t)); AInt (g_adc_ch3 (t_flame t));
     AInt (g_adc_ch4 (t_flame t)); AInt (g_adc_ch5 (t_flame t));
     AInt (g_methane_ppm (t_methane t)); AInt (g_methane_lel (t_methane t));
     AInt voltage_a_int; AInt voltage_b_int; AInt voltage_c_int;
     AInt current_a_int; AInt current_b_int; AInt current_c_int; AInt flow_int].

(** The C string at [a] of a buffer of [n] bytes. *)
Definition mem_str (m : memory) (a : Z) (n : nat) : list Z := cstr (mem_read m a n).

(* ------------------------------------------------------------------ *)
(** ** The texts the reports mean *)

(** ["key":int.dd] *)
Definition field (key : string) (v : f32) : list Z :=
  34 :: clit key ++ [34; 58] ++ dec (int_part v) ++ 46 :: frac 2 (dec_part v 100).

Definition counter (key : string) (n : Z) : list Z := 34 :: clit key ++ [34; 58] ++ udec n.

Definition readings (t : telemetry) : list (string * f32) :=
  [("voltage_a", fget (Voltage (t_mb t)) 0); ("voltage_b", fget (Voltage (t_mb t)) 1);
   ("voltage_c", fget (Voltage (t_mb t)) 2); ("current_a", fget (Current (t_mb t)) 0);
   ("current_b", fget (Current (t_mb t)) 1); ("current_c", fget (Current (t_mb t)) 2);
   ("flow", Flow_ (t_mb t)); ("temperature", g_temperature_c (t_sht30 t));
   ("humidity", g_humidity_rh (t_sht30 t)); ("o2", g_o2_concentration t);
   ("displacement", Displacement_ (t_mb t)); ("stress", g_stress_value_n (g_stress (t_mb t)))]%string.

Definition counters (t : telemetry) : list (string * Z) :=
  [("ch0", g_adc_ch0 (t_flame t)); ("ch1", g_adc_ch1 (t_flame t)); ("ch3", g_adc_ch3 (t_flame t));
   ("ch4", g_adc_ch4 (t_flame t)); ("ch5", g_adc_ch5 (t_flame t));
   ("methane_ppm", g_methane_ppm (t_methane t)); ("methane_lel", g_methane_lel (t_methane t))]%string.

(** The twenty properties of a report. *)
Definition properties (t : telemetry) : list Z :=
  concat (map (fun '(k, n) => counter k n ++ [44]) (counters t)) ++
  concat (map (fun '(k, v) => field k v ++ [44]) (readings t)) ++
  clit "`flame`:" ++ dec (Flame_ (t_flame t)).

Definition eth_text (t : telemetry) : list Z :=
  clit "{`device_id`:`pipe_gallery_node_01`,`data`:{" ++ properties t ++ clit "}}\n".

Definition cloud_text (t : telemetry) : list Z :=
  clit "{`services`:[{`service_id`:`Smarthome`,`properties`:{" ++ properties t ++ clit "}}]}".

(** The ranges of the globals' C types. *)
Record telemetry_ok (t : telemetry) : Prop := {
  tk_ch : Forall (fun kn => is_u32 (snd kn)) (firstn 5 (counters t));
  tk_ppm : is_u16 (g_methane_ppm (t_methane t));
  tk_lel : is_u8 (g_methane_lel (t_methane t));
  tk_flame : 0 <= Flame_ (t_flame t) <= 1 }.

(** Readings that are binary32 values whose conversion to [int] does not
    saturate. *)
Definition readings_ok (t : telemetry) : Prop :=
  Forall (fun kv => valid_binary 24 128 (snd kv) = true /\ f32_in_int (snd kv) = true) (readings t).

(* ------------------------------------------------------------------ *)
(** ** A sequence of [pos +=] calls *)

Fixpoint append_all (arr size : Z) (ps : list (list Z * list carg)) : M jstate Z :=
  match ps with
  | [] => getM (fun s => (j_pos s, s))
  | (fmt, args) :: r =>
      do! pos_add arr size (fun m b n => rt_snprintf m b n fmt args) in append_all arr size r
  end.

Fixpoint pieces_text (ps : list (list Z * list carg)) : option (list Z) :=
  match ps with
  | [] => Some []
  | (fmt, args) :: r =>
      match sformat fmt args, pieces_text r with
      | Some l, Some t => Some (l ++ t)
      | _, _ => None
      end
  end.

Section Append.
Context (arr size : Z) (Harr : 0 <= arr) (Hsize : 0 < size < 2 ^ 30) (Htop : arr + size < 2 ^ 32).

(** The buffer holds [acc], everything else is as in [m0]. *)
Record jholds (m0 : memory) (acc : list Z) (s : jstate) : Prop := {
  jh_pos : j_pos s = Z.of_nat (length acc);
  jh_text : mem_read (j_mem s) arr (length acc) = acc;
  jh_nul : acc = [] \/ j_mem s (arr + Z.of_nat (length acc)) = 0;
  jh_rest : forall x, x < arr \/ arr + size <= x -> j_mem s x = m0 x }.

Lemma pos_add_holds m0 acc s fmt args l : jholds m0 acc s -> sformat fmt args = Some l ->
  Z.of_nat (length (acc ++ l)) < size ->
  exists s', pos_add arr size (fun m b n => rt_snprintf m b n fmt args) s = Some (tt, s') /\
    jholds m0 (acc ++ l) s'.
Proof.
  intros [P T N R] Hl Hs. rewrite length_app in Hs. unfold pos_add. rewrite P.
  rewrite !u32_small by (unfold is_u32; lia).
  destruct (rt_vsnprintf_text (j_mem s) (arr + Z.of_nat (length acc)) (size - Z.of_nat (length acc))
              fmt args l Hl ltac:(lia) ltac:(lia) ltac:(lia) ltac:(lia)) as (m' & E & W).
  unfold rt_snprintf. rewrite E. eexists. split; [reflexivity|].
  split; cbn [j_pos j_mem]; rewrite ?length_app.
  - rewrite s32_small by (unfold is_s32; lia). lia.
  - rewrite mem_read_app. f_equal.
    + rewrite (mem_read_ext _ (j_mem s)); [done|]. intros x Hx. rewrite W. unfold written.
      rewrite (proj2 (Z.leb_gt _ _)), (proj2 (Z.eqb_neq _ _)) by lia. done.
    + rewrite (mem_read_ext _ (written (j_mem s) (arr + Z.of_nat (length acc)) (size - Z.of_nat (length acc)) l))
        by (intros; apply W). apply mem_read_written; lia.
  - right. rewrite W. unfold written. rewrite Z.min_l by lia.
    replace (arr + Z.of_nat (length acc + length l)) with (arr + Z.of_nat (length acc) + Z.of_nat (length l)) by lia.
    by rewrite Z.ltb_irrefl, andb_false_r, Z.eqb_refl.
  - intros x Hx. rewrite W. unfold written. rewrite Z.min_l, <- R by lia.
    destruct (Z.leb_spec (arr + Z.of_nat (length acc)) x), (Z.ltb_spec x (arr + Z.of_nat (length acc) + Z.of_nat (length l)));
      cbn [andb]; try lia; rewrite (proj2 (Z.eqb_neq _ _)) by lia; done.
Qed.

Lemma append_all_holds m0 ps acc s t : jholds m0 acc s -> pieces_text ps = Some t ->
  Z.of_nat (length (acc ++ t)) < size ->
  exists s', append_all arr size ps s = Some (Z.of_nat (length (acc ++ t)), s') /\ jholds m0 (acc ++ t) s'.
Proof.
  revert acc s t. induction ps as [|[fmt args] ps IH]; intros acc s t Hh Ht Hs; cbn [pieces_text append_all] in *.
  - injection Ht as <-. rewrite app_nil_r. exists s. split; [|done]. unfold getM. by rewrite (jh_pos _ _ _ Hh).
  - destruct (sformat fmt args) as [l|] eqn:Hl; [|done]. destruct (pieces_text ps) as [t'|] eqn:Hp; [|done].
    injection Ht as <-. rewrite app_assoc in *.
    destruct (pos_add_holds m0 acc s fmt args l Hh Hl) as (s1 & E & H1).
    { rewrite length_app in Hs. lia. }
    rewrite (bindM_some _ _ _ _ _ E). by apply IH.
Qed.
End Append.

(* ------------------------------------------------------------------ *)
(** ** The texts of the pieces *)

Definition float_piece (kv : string * f32) : list Z * list carg :=
  (clit "`%s`:%d.%02d", [AStr (clit (fst kv)); AInt (int_part (snd kv)); AInt (dec_part (snd kv) 100)]).

Definition counter_args (t : telemetry) : list carg := map (fun kn => AInt (snd kn)) (counters t).

Definition comma : list Z * list carg := (clit ",", []).

Lemma dec_part_range v k : is_s32 (dec_part v k).
Proof. unfold dec_part. destruct (_ <? 0); [apply s32_range | apply f32_to_int_range]. Qed.

Lemma int_part_range v : is_s32 (int_part v).
Proof. apply f32_to_int_range. Qed.
#[export] Hint Resolve dec_part_range int_part_range : cint.

Lemma sformat_field key i d : is_s32 i -> is_s32 d ->
  sformat (clit "`%s`:%d.%02d") [AStr key; AInt i; AInt d]
  = Some (34 :: key ++ [34; 58] ++ dec i ++ 46 :: frac 2 d).
Proof. intros. fmt_eval. rewrite !s32_small by done. done. Qed.

Lemma float_piece_text kv :
  sformat (fst (float_piece kv)) (snd (float_piece kv)) = Some (field (fst kv) (snd kv)).
Proof. apply sformat_field; auto with cint. Qed.

(** A piece list of fields, each followed by a comma. *)
Lemma readings_text l r t : pieces_text r = Some t ->
  pieces_text (concat (map (fun kv => [float_piece kv; comma]) l) ++ r)
  = Some (concat (map (fun '(k, v) => field k v ++ [44]) l) ++ t).
Proof.
  intros Hr. induction l as [|[k v] l IH]; [done|].
  cbn [map concat app]. unfold float_piece at 1, comma at 1. cbn [pieces_text fst snd].
  rewrite sformat_field by auto with cint. rewrite IH.
  change (sformat (clit ",") []) with (Some [44]). cbn [app]. f_equal. unfold field. cbn [app].
  by rewrite <- !app_assoc.
Qed.

Definition eth_pieces (t : telemetry) : list (list Z * list carg) :=
  (clit "{`device_id`:`%s`,`data`:{`ch0`:%u,`ch1`:%u,`ch3`:%u,`ch4`:%u,`ch5`:%u,`methane_ppm`:%u,`methane_lel`:%u,",
   AStr (clit ETH_DEVICE_ID) :: counter_args t) ::
  concat (map (fun kv => [float_piece kv; comma]) (firstn 11 (readings t))) ++
  concat (map (fun kv => [float_piece kv]) (skipn 11 (readings t))) ++
  [(clit ",`flame`:%d}}\n", [AInt (Flame_ (t_flame t))])].

Definition cloud_pieces (t : telemetry) : list (list Z * list carg) :=
  (clit "{`services`:[{`service_id`:`%s`,`properties`:{`ch0`:%u,`ch1`:%u,`ch3`:%u,`ch4`:%u,`ch5`:%u,`methane_ppm`:%u,`methane_lel`:%u,",
   AStr (clit SERVICE_ID_SENSOR) :: counter_args t) ::
  concat (map (fun kv => [float_piece kv; comma]) (readings t)) ++
  [(clit "`flame`:%d", [AInt (Flame_ (t_flame t))]); (clit "}}]}", [])].

Lemma build_sensor_json_pieces buf t :
  build_sensor_json buf t = append_all buf ETH_JSON_SIZE (eth_pieces t).
Proof. reflexivity. Qed.

Lemma build_cloud_json_pieces buf t :
  build_cloud_json buf t = append_all buf CLOUD_JSON_SIZE (cloud_pieces t).
Proof. reflexivity. Qed.

Lemma sformat_eth_head id a b c d e f g :
  is_u32 a -> is_u32 b -> is_u32 c -> is_u32 d -> is_u32 e -> is_u32 f -> is_u32 g ->
  sformat (clit "{`device_id`:`%s`,`data`:{`ch0`:%u,`ch1`:%u,`ch3`:%u,`ch4`:%u,`ch5`:%u,`methane_ppm`:%u,`methane_lel`:%u,")
    [AStr id; AInt a; AInt b; AInt c; AInt d; AInt e; AInt f; AInt g]
  = Some (clit "{`device_id`:`" ++ id ++ clit "`,`data`:{" ++
      concat (map (fun '(k, n) => counter k n ++ [44])
        [("ch0", a); ("ch1", b); ("ch3", c); ("ch4", d); ("ch5", e); ("methane_ppm", f); ("methane_lel", g)]%string)).
Proof. intros. fmt_eval. rewrite !u32_s32, !u32_small by done. reflexivity. Qed.

Lemma sformat_cloud_head id a b c d e f g :
  is_u32 a -> is_u32 b -> is_u32 c -> is_u32 d -> is_u32 e -> is_u32 f -> is_u32 g ->
  sformat (clit "{`services`:[{`service_id`:`%s`,`properties`:{`ch0`:%u,`ch1`:%u,`ch3`:%u,`ch4`:%u,`ch5`:%u,`methane_ppm`:%u,`methane_lel`:%u,")
    [AStr id; AInt a; AInt b; AInt c; AInt d; AInt e; AInt f; AInt g]
  = Some (clit "{`services`:[{`service_id`:`" ++ id ++ clit "`,`properties`:{" ++
      concat (map (fun '(k, n) => counter k n ++ [44])
        [("ch0", a); ("ch1", b); ("ch3", c); ("ch4", d); ("ch5", e); ("methane_ppm", f); ("methane_lel", g)]%string)).
Proof. intros. fmt_eval. rewrite !u32_s32, !u32_small by done. reflexivity. Qed.

Lemma sformat_flame_eth z : is_s32 z ->
  sformat (clit ",`flame`:%d}}\n") [AInt z] = Some (44 :: clit "`flame`:" ++ dec z ++ clit "}}\n").
Proof. intros. fmt_eval. by rewrite s32_small. Qed.

Lemma sformat_flame z : is_s32 z -> sformat (clit "`flame`:%d") [AInt z] = Some (clit "`flame`:" ++ dec z).
Proof. intros. fmt_eval. by rewrite s32_small. Qed.

Lemma counters_u32 t : telemetry_ok t -> Forall (fun kn => is_u32 (snd kn)) (counters t).
Proof.
  intros [H P L _]. unfold counters in *. cbn [firstn] in H.
  repeat match goal with H : Forall _ (_ :: _) |- _ => apply Forall_cons in H as [? H] end.
  unfold is_u32, is_u16, is_u8 in *. repeat constructor; cbn in *; lia.
Qed.

Lemma eth_pieces_text t : telemetry_ok t -> pieces_text (eth_pieces t) = Some (eth_text t).
Proof.
  intros Hok. pose proof (counters_u32 t Hok) as Hc. assert (is_s32 (Flame_ (t_flame t))) by (pose proof (tk_flame t Hok); unfold is_s32; lia).
  unfold eth_pieces, counter_args. cbn [pieces_text]. unfold counters in *. cbn [map snd].
  repeat match goal with H : Forall _ (_ :: _) |- _ => apply Forall_cons in H as [? H] end.
  rewrite sformat_eth_head by done.
  rewrite (readings_text _ _ (field "stress" (g_stress_value_n (g_stress (t_mb t))) ++
     44 :: clit "`flame`:" ++ dec (Flame_ (t_flame t)) ++ clit "}}\n")).
  - unfold eth_text, properties. f_equal. unfold readings. cbn [firstn map concat counters].
    rewrite <- ?app_assoc. reflexivity.
  - cbn [skipn readings map concat app]. unfold float_piece. cbn [pieces_text fst snd].
    rewrite sformat_field, sformat_flame_eth by auto with cint. unfold field.
    rewrite app_nil_r. reflexivity.
Qed.

Lemma cloud_pieces_text t : telemetry_ok t -> pieces_text (cloud_pieces t) = Some (cloud_text t).
Proof.
  intros Hok. pose proof (counters_u32 t Hok) as Hc. assert (is_s32 (Flame_ (t_flame t))) by (pose proof (tk_flame t Hok); unfold is_s32; lia).
  unfold cloud_pieces, counter_args. cbn [pieces_text]. unfold counters in *. cbn [map snd].
  repeat match goal with H : Forall _ (_ :: _) |- _ => apply Forall_cons in H as [? H] end.
  rewrite sformat_cloud_head by done.
  rewrite (readings_text _ _ (clit "`flame`:" ++ dec (Flame_ (t_flame t)) ++ clit "}}]}")).
  - unfold cloud_text, properties. f_equal. cbn [counters map concat].
    rewrite <- ?app_assoc. reflexivity.
  - cbn [pieces_text]. rewrite sformat_flame by done.
    change (sformat (clit "}}]}") []) with (Some (clit "}}]}")). reflexivity.
Qed.

(* ------------------------------------------------------------------ *)
(** ** Their lengths *)

(** A reading that does not saturate has at most 128 hundredths: the rounding
    of the subtraction and of the product stays below the next power of two. *)
Lemma dec_part_small v : valid_binary 24 128 v = true -> f32_in_int v = true -> 0 <= dec_part v 100 <= 128.
Proof.
  intros Hv Hi. pose proof (sub_int_small v Hv Hi) as Hs. unfold dec_part, int_part.
  change (f32_of_Z 100) with (S754_finite false 13107200 (-17)).
  pose proof (small_scaled _ 13107200 (-17) 7 Hs ltac:(lia) ltac:(lia) ltac:(done)) as B.
  change (2 ^ 7) with 128 in B. destruct (Z.ltb_spec (f32_to_int (f32_mul (f32_sub v (f32_of_Z (f32_to_int v))) (S754_finite false 13107200 (-17)))) 0); [|lia].
  rewrite s32_small by (unfold is_s32; lia). lia.
Qed.

Lemma dec_length z : (length (dec z) <= 11)%nat.
Proof.
  unfold dec, udec. destruct (z <? 0); cbn [length]; rewrite length_rev;
    [pose proof (udigits_length 10 (- z)) | pose proof (udigits_length 10 z)]; lia.
Qed.

Lemma udec_length n : (length (udec n) <= 10)%nat.
Proof. unfold udec. rewrite length_rev. apply udigits_length. Qed.

Lemma frac_length d : 0 <= d <= 128 -> (length (frac 2 d) <= 3)%nat.
Proof.
  intros H. unfold frac, num_field. rewrite (proj2 (Z.ltb_ge _ _)), Z.abs_eq by lia.
  pose proof (udec_length_le d 3 ltac:(lia) ltac:(lia)). cbn [app length].
  rewrite !length_app, repeat_length. lia.
Qed.

Lemma field_length k v : valid_binary 24 128 v = true -> f32_in_int v = true ->
  (length (field k v) <= length (clit k) + 18)%nat.
Proof.
  intros Hv Hi. unfold field. pose proof (dec_length (int_part v)).
  pose proof (frac_length _ (dec_part_small v Hv Hi)).
  cbn [length]. rewrite !length_app. cbn [length]. rewrite ?length_app. cbn [length]. lia.
Qed.

Lemma counter_length key n k : (0 < k <= 10)%nat -> 0 <= n < 10 ^ Z.of_nat k ->
  (length (counter key n ++ [44%Z]) <= length (clit key) + 4 + k)%nat.
Proof.
  intros Hk Hn. unfold counter. pose proof (udec_length_le n k Hk Hn).
  cbn [length]. rewrite !length_app. cbn [length]. rewrite !length_app. cbn [length]. lia.
Qed.

Lemma counter_u32_length key n : is_u32 n -> (length (counter key n ++ [44%Z]) <= length (clit key) + 14)%nat.
Proof. unfold is_u32. intros H. pose proof (counter_length key n 10 ltac:(lia) ltac:(lia)). lia. Qed.

Lemma concat_length {A} (f : A -> list Z) (w : A -> nat) (l : list A) :
  Forall (fun x => (length (f x) <= w x)%nat) l ->
  (length (concat (map f l)) <= sum_list_with w l)%nat.
Proof. induction 1; cbn; [lia|]. rewrite length_app. lia. Qed.

Lemma counters_length t : telemetry_ok t ->
  (length (concat (map (fun '(k, n) => counter k n ++ [44%Z]) (counters t))) <= 123)%nat.
Proof.
  intros Hok. pose proof (counters_u32 t Hok) as Hc. destruct Hok as [_ P L _].
  unfold is_u16, is_u8 in *. unfold counters in *.
  repeat match goal with
  | H : Forall _ (_ :: _) |- _ => apply Forall_cons in H as [? H]
  | H : is_u32 (snd (?k, ?n)) |- _ => apply (counter_u32_length k n) in H
  end.
  pose proof (counter_length "methane_ppm" _ 5 ltac:(lia) (conj (proj1 P) (Z.lt_trans _ _ 100000 (proj2 P) eq_refl))).
  pose proof (counter_length "methane_lel" _ 3 ltac:(lia) (conj (proj1 L) (Z.lt_trans _ _ 1000 (proj2 L) eq_refl))).
  cbn [clit length] in *. cbn [map concat]. rewrite !length_app. rewrite !length_app in *. cbn [length] in *. lia.
Qed.

Lemma properties_length t : telemetry_ok t -> readings_ok t -> (length (properties t) <= 457)%nat.
Proof.
  intros Hok Hr. unfold properties. rewrite !length_app. pose proof (counters_length t Hok) as C.
  assert (Forall (fun kv => (length ((fun '(k, v) => field k v ++ [44%Z]) kv) <= length (clit (fst kv)) + 19)%nat)
            (readings t)) as F.
  { eapply Forall_impl; [exact Hr|]. intros [k v] [Hv Hi]. rewrite length_app.
    pose proof (field_length k v Hv Hi). cbn [length fst] in *. lia. }
  apply concat_length in F. change (sum_list_with _ (readings t)) with 325%nat in F.
  assert (length (dec (Flame_ (t_flame t))) <= 1)%nat.
  { pose proof (tk_flame t Hok). unfold dec. rewrite (proj2 (Z.ltb_ge _ _)) by lia.
    apply (udec_length_le _ 1); lia. }
  change (length (clit "`flame`:")) with 8%nat. lia.
Qed.

Lemma eth_text_length t : telemetry_ok t -> readings_ok t -> (length (eth_text t) <= 504)%nat.
Proof.
  intros Hok Hr. unfold eth_text. rewrite !length_app. pose proof (properties_length t Hok Hr).
  change (length (clit "{`device_id`:`pipe_gallery_node_01`,`data`:{")) with 44%nat.
  change (length (clit "}}\n")) with 3%nat. lia.
Qed.

Lemma cloud_text_length t : telemetry_ok t -> readings_ok t -> (length (cloud_text t) <= 514)%nat.
Proof.
  intros Hok Hr. unfold cloud_text. rewrite !length_app. pose proof (properties_length t Hok Hr).
  change (length (clit "{`services`:[{`service_id`:`Smarthome`,`properties`:{")) with 53%nat.
  change (length (clit "}}]}")) with 4%nat. lia.
Qed.

Lemma build_spec arr size ps m text : 0 <= arr -> 0 < size < 2 ^ 30 -> arr + size < 2 ^ 32 ->
  pieces_text ps = Some text -> text <> [] -> Z.of_nat (length text) < size ->
  exists m', append_all arr size ps (J 0 m)
    = Some (Z.of_nat (length text), J (Z.of_nat (length text)) m') /\
    mem_read m' arr (length text) = text /\ m' (arr + Z.of_nat (length text)) = 0 /\
    (forall x, x < arr \/ arr + size <= x -> m' x = m x).
Proof.
  intros H0 Hs Hw Ht Hne Hl.
  destruct (append_all_holds arr size H0 Hs Hw m ps [] (J 0 m) text)
    as ([p m'] & E & [Hp Htx Hn Hx]); [by split; auto | done | done |].
  cbn [app j_pos j_mem] in *. subst p. exists m'. split_and!; try done. by destruct Hn.
Qed.

Lemma build_sensor_json_spec buf m t : telemetry_ok t -> readings_ok t -> 0 <= buf -> buf + ETH_JSON_SIZE < 2 ^ 32 ->
  exists m', build_sensor_json buf t (J 0 m)
    = Some (Z.of_nat (length (eth_text t)), J (Z.of_nat (length (eth_text t))) m') /\
    mem_read m' buf (length (eth_text t)) = eth_text t /\ m' (buf + Z.of_nat (length (eth_text t))) = 0 /\
    (forall x, x < buf \/ buf + ETH_JSON_SIZE <= x -> m' x = m x).
Proof.
  intros Hok Hr H0 Hw. rewrite build_sensor_json_pieces. pose proof (eth_text_length t Hok Hr).
  apply build_spec; try done; [by apply eth_pieces_text | unfold ETH_JSON_SIZE; lia].
Qed.

Lemma build_cloud_json_spec buf m t : telemetry_ok t -> readings_ok t -> 0 <= buf -> buf + CLOUD_JSON_SIZE < 2 ^ 32 ->
  exists m', build_cloud_json buf t (J 0 m)
    = Some (Z.of_nat (length (cloud_text t)), J (Z.of_nat (length (cloud_text t))) m') /\
    mem_read m' buf (length (cloud_text t)) = cloud_text t /\ m' (buf + Z.of_nat (length (cloud_text t))) = 0 /\
    (forall x, x < buf \/ buf + CLOUD_JSON_SIZE <= x -> m' x = m x).
Proof.
  intros Hok Hr H0 Hw. rewrite build_cloud_json_pieces. pose proof (cloud_text_length t Hok Hr).
  apply build_spec; try done; [by apply cloud_pieces_text | unfold CLOUD_JSON_SIZE; lia].
Qed.

(* ------------------------------------------------------------------ *)
(** ** Properties *)

(** C30: [build_sensor_json] is memory safe and builds the documented report:
    for readings that do not saturate a conversion to [int] the buffer holds,
    NUL terminated, the JSON object of the device and its twenty properties,
    its length is returned, and no byte outside the buffer changes. *)
Theorem build_sensor_json_text eth_json_buf m t :
  telemetry_ok t -> readings_ok t -> 0 <= eth_json_buf -> eth_json_buf + ETH_JSON_SIZE < 2 ^ 32 ->
  exists m', build_sensor_json eth_json_buf t (J 0 m)
    = Some (Z.of_nat (length (eth_text t)), J (Z.of_nat (length (eth_text t))) m') /\
    mem_read m' eth_json_buf (length (eth_text t)) = eth_text t /\
    m' (eth_json_buf + Z.of_nat (length (eth_text t))) = 0 /\
    (forall x, x < eth_json_buf \/ eth_json_buf + ETH_JSON_SIZE <= x -> m' x = m x).
Proof. apply build_sensor_json_spec. Qed.

(** The same for the JSON of the cloud report in its 600 byte buffer. *)
Theorem build_cloud_json_text json_buf m t :
  telemetry_ok t -> readings_ok t -> 0 <= json_buf -> json_buf + CLOUD_JSON_SIZE < 2 ^ 32 ->
  exists m', build_cloud_json json_buf t (J 0 m)
    = Some (Z.of_nat (length (cloud_text t)), J (Z.of_nat (length (cloud_text t))) m') /\
    mem_read m' json_buf (length (cloud_text t)) = cloud_text t /\
    m' (json_buf + Z.of_nat (length (cloud_text t))) = 0 /\
    (forall x, x < json_buf \/ json_buf + CLOUD_JSON_SIZE <= x -> m' x = m x).
Proof. apply build_cloud_json_spec. Qed.

Definition sample_telemetry : telemetry :=
  Telemetry (FlameData 1204 65535 0 17 60001 1 node0) (Methane 1530 3 170 true 12 0)
    (MbData [f32_of_Z 230; f32_lit 2315 10; f32_of_Z (-2147483)] [f32_lit 105 100; f32_lit (-1) 4; f32_of_Z 0]
       (f32_lit 12345 100) (f32_lit 775 1000) (f32_lit 775 1000) true
       (Stress (f32_lit (-98) 10) (-1) 1 4 1 true true) node0)
    (Sht30Data (f32_lit (-125) 10) (f32_lit 605 10)) (f32_lit 209 10).

Lemma sample_telemetry_ok : telemetry_ok sample_telemetry /\ readings_ok sample_telemetry.
Proof.
  split; [split; cbn; unfold is_u16, is_u8; try lia; repeat constructor; cbn; lia|].
  unfold readings_ok. repeat constructor; vm_compute; reflexivity.
Qed.

Lemma build_sensor_json_text_witness :
  exists m', build_sensor_json 0x20000000 sample_telemetry (J 0 (fun _ => 85))
    = Some (Z.of_nat (length (eth_text sample_telemetry)), J (Z.of_nat (length (eth_text sample_telemetry))) m') /\
    mem_read m' 0x20000000 (length (eth_text sample_telemetry)) = eth_text sample_telemetry /\
    m' (0x20000000 + Z.of_nat (length (eth_text sample_telemetry))) = 0 /\
    (forall x, x < 0x20000000 \/ 0x20000000 + ETH_JSON_SIZE <= x -> m' x = 85).
Proof.
  apply (build_sensor_json_text 0x20000000 (fun _ => 85) sample_telemetry);
    [apply sample_telemetry_ok | apply sample_telemetry_ok | lia | reflexivity].
Defined.

Lemma build_cloud_json_text_witness :
  exists m', build_cloud_json 0x20000000 sample_telemetry (J 0 (fun _ => 85))
    = Some (Z.of_nat (length (cloud_text sample_telemetry)), J (Z.of_nat (length (cloud_text sample_telemetry))) m') /\
    mem_read m' 0x20000000 (length (cloud_text sample_telemetry)) = cloud_text sample_telemetry /\
    m' (0x20000000 + Z.of_nat (length (cloud_text sample_telemetry))) = 0 /\
    (forall x, x < 0x20000000 \/ 0x20000000 + CLOUD_JSON_SIZE <= x -> m' x = 85).
Proof.
  apply (build_cloud_json_text 0x20000000 (fun _ => 85) sample_telemetry);
    [apply sample_telemetry_ok | apply sample_telemetry_ok | lia | reflexivity].
Defined.

Example eth_text_sample : firstn 62 (eth_text sample_telemetry)
  = clit "{`device_id`:`pipe_gallery_node_01`,`data`:{`ch0`:1204,`ch1`:6".
Proof. reflexivity. Qed.

(** The bound on the readings is needed: twelve saturated readings overrun the
    Ethernet buffer, since [sizeof - pos] wraps once [pos] is past the end. *)
Definition saturated_telemetry : telemetry :=
  let v := f32_of_Z (-1000000000000) in
  Telemetry (t_flame sample_telemetry) (t_methane sample_telemetry)
    (MbData [v; v; v] [v; v; v] v v v true (Stress v 0 0 4 0 true true) node0)
    (Sht30Data v v) v.

Example saturated_overrun :
  match build_sensor_json 0x20000000 saturated_telemetry (J 0 (fun _ => 0)) with
  | Some (n, s) => (ETH_JSON_SIZE <? n) = true /\ j_mem s (0x20000000 + n - 1) = 10
  | None => False
  end.
Proof. vm_compute. done. Qed.

(** The sign of a value between -1 and 1. *)
Lemma binary_round_aux_opp s m e l :
  binary_round_aux 24 128 (negb s) m e l = SFopp (binary_round_aux 24 128 s m e l).
Proof.
  unfold binary_round_aux. destruct (shr_fexp _ _ m e l) as [mrs e'].
  destruct (shr_fexp _ _ _ e' loc_Exact) as [mrs' e'']. destruct (shr_m mrs'); cbn; try done.
  by destruct (e'' <=? 128 - 24).
Qed.

Lemma f32_mul_opp v w : f32_mul (SFopp v) w = SFopp (f32_mul v w).
Proof.
  destruct v as [s|s| |s m e], w as [s'|s'| |s' m' e']; cbn; try done; rewrite <- ?negb_xorb_l; try done.
  apply binary_round_aux_opp.
Qed.

Lemma f32_to_int_opp v k : Z.abs (f32_to_int v) <= 2 ^ k -> 0 <= k <= 30 ->
  f32_to_int (SFopp v) = - f32_to_int v.
Proof.
  intros Hb Hk. assert (2 ^ k <= 2 ^ 30) by (apply Z.pow_le_mono_r; lia).
  destruct v as [s|s| |s m e]; cbn -[Z.pow] in *; try done; [destruct s; lia|].
  unfold sat_s32 in *. destruct s; cbn [negb] in *; lia.
Qed.

(** The reports lose the sign of a value between -1 and 1: such a reading
    and its opposite are appended with the same text, as the sign is printed
    with the integer part, which is 0. *)
Theorem append_float_loses_sign m buf size key v :
  valid_binary 24 128 v = true -> f32_in_int v = true -> int_part v = 0 ->
  append_float m buf size key (SFopp v) = append_float m buf size key v.
Proof.
  intros Hv Hi H0. unfold append_float.
  assert (int_part (SFopp v) = 0) as H0'
    by (unfold int_part in *; rewrite (f32_to_int_opp v 0); rewrite ?H0; cbn; lia).
  rewrite H0, H0'. do 4 f_equal. unfold dec_part. rewrite H0, H0'.
  pose proof (sub_int_small v Hv Hi) as Hs. unfold int_part in H0. rewrite H0 in Hs.
  change (f32_of_Z 100) with (S754_finite false 13107200 (-17)).
  pose proof (small_scaled _ 13107200 (-17) 7 Hs ltac:(lia) ltac:(lia) ltac:(done)) as B.
  destruct v as [s|s| |s mm e]; try done; [by destruct s|].
  change (f32_sub (SFopp (S754_finite s mm e)) (f32_of_Z 0)) with (SFopp (S754_finite s mm e)).
  change (f32_sub (S754_finite s mm e) (f32_of_Z 0)) with (S754_finite s mm e) in *.
  rewrite f32_mul_opp, (f32_to_int_opp _ 7 B) by lia. change (2 ^ 7) with 128 in B.
  set (d := f32_to_int (f32_mul _ _)) in *. clearbody d.
  f_equal. destruct (Z.ltb_spec d 0), (Z.ltb_spec (- d) 0); try lia; rewrite ?s32_small by (unfold is_s32; lia); lia.
Qed.

Lemma append_float_loses_sign_witness :
  append_float (fun _ => 0) 0x20000000 64 "temperature" (SFopp (f32_lit 1 2))
  = append_float (fun _ => 0) 0x20000000 64 "temperature" (f32_lit 1 2).
Proof. apply (append_float_loses_sign (fun _ => 0) 0x20000000 64 "temperature" (f32_lit 1 2)); vm_compute; reflexivity. Defined.

(** The LoRa text of a telemetry. *)
Definition lora_text (t : telemetry) : list Z :=
  let u n := udec n in
  let d v := dec (f32_to_int v) in
  clit "Flame: " ++ u (g_adc_ch0 (t_flame t)) ++ [44] ++ u (g_adc_ch1 (t_flame t)) ++ [44] ++
  u (g_adc_ch3 (t_flame t)) ++ [44] ++ u (g_adc_ch4 (t_flame t)) ++ [44] ++ u (g_adc_ch5 (t_flame t)) ++
  clit "\r\ngas: ppm: " ++ u (g_methane_ppm (t_methane t)) ++ clit " , level: " ++ u (g_methane_lel (t_methane t)) ++
  clit "%\r\nvoltage_a: " ++ d (fget (Voltage (t_mb t)) 0) ++ clit "V,voltage_b: " ++ d (fget (Voltage (t_mb t)) 1) ++
  clit "V,voltage_c: " ++ d (fget (Voltage (t_mb t)) 2) ++ clit "V\r\ncurrent_a: " ++ d (fget (Current (t_mb t)) 0) ++
  clit "A,current_b: " ++ d (fget (Current (t_mb t)) 1) ++ clit "A,current_c: " ++ d (fget (Current (t_mb t)) 2) ++
  clit "A\r\nflow: " ++ d (Flow_ (t_mb t)) ++ clit " m^3/h\r\n".

Lemma sformat_lora a b c d e f g va vb vc ia ib ic fl :
  is_u32 a -> is_u32 b -> is_u32 c -> is_u32 d -> is_u32 e -> is_u32 f -> is_u32 g ->
  is_s32 va -> is_s32 vb -> is_s32 vc -> is_s32 ia -> is_s32 ib -> is_s32 ic -> is_s32 fl ->
  sformat (clit "Flame: %u,%u,%u,%u,%u\r\ngas: ppm: %u , level: %u%%\r\nvoltage_a: %dV,voltage_b: %dV,voltage_c: %dV\r\ncurrent_a: %dA,current_b: %dA,current_c: %dA\r\nflow: %d m^3/h\r\n")
    [AInt a; AInt b; AInt c; AInt d; AInt e; AInt f; AInt g;
     AInt va; AInt vb; AInt vc; AInt ia; AInt ib; AInt ic; AInt fl]
  = Some (clit "Flame: " ++ udec a ++ [44] ++ udec b ++ [44] ++ udec c ++ [44] ++ udec d ++ [44] ++ udec e ++
      clit "\r\ngas: ppm: " ++ udec f ++ clit " , level: " ++ udec g ++
      clit "%\r\nvoltage_a: " ++ dec va ++ clit "V,voltage_b: " ++ dec vb ++ clit "V,voltage_c: " ++ dec vc ++
      clit "V\r\ncurrent_a: " ++ dec ia ++ clit "A,current_b: " ++ dec ib ++ clit "A,current_c: " ++ dec ic ++
      clit "A\r\nflow: " ++ dec fl ++ clit " m^3/h\r\n").
Proof. intros. fmt_eval. rewrite !u32_s32, !u32_small, !s32_small by done. reflexivity. Qed.

Lemma lora_text_length t : telemetry_ok t -> Forall (fun kn => is_u16 (snd kn)) (counters t) ->
  (length (lora_text t) <= 240)%nat.
Proof.
  intros Hok Hc. unfold counters in Hc. destruct Hok as [_ P L _].
  repeat match goal with
  | H : Forall _ (_ :: _) |- _ => apply Forall_cons in H as [? H]
  end. cbn [snd] in *.
  assert (forall n, is_u16 n -> (length (udec n) <= 5)%nat) as L5
    by (unfold is_u16; intros; apply udec_length_le; lia).
  assert (length (udec (g_methane_lel (t_methane t))) <= 3)%nat
    by (unfold is_u8 in L; apply udec_length_le; lia).
  repeat match goal with H : is_u16 _ |- _ => apply L5 in H end.
  unfold lora_text. cbn zeta. rewrite !length_app.
  pose proof (fun v => dec_length (f32_to_int v)) as D.
  pose proof (D (fget (Voltage (t_mb t)) 0)). pose proof (D (fget (Voltage (t_mb t)) 1)).
  pose proof (D (fget (Voltage (t_mb t)) 2)). pose proof (D (fget (Current (t_mb t)) 0)).
  pose proof (D (fget (Current (t_mb t)) 1)). pose proof (D (fget (Current (t_mb t)) 2)).
  pose proof (D (Flow_ (t_mb t))). cbn [clit length]. lia.
Qed.

(** Whatever the readings, the LoRa text of 16-bit flame channels is
    complete in its 256 byte buffer: [lora_build_text] leaves exactly the text
    of the five lines, NUL terminated, and touches nothing else. *)
Theorem lora_text_complete m buf t :
  telemetry_ok t -> Forall (fun kn => is_u16 (snd kn)) (counters t) ->
  0 <= buf -> buf + LORA_TEXT_BUF_SIZE < 2 ^ 32 ->
  exists m', lora_build_text m buf LORA_TEXT_BUF_SIZE t = Some (Z.of_nat (length (lora_text t)), m') /\
    mem_read m' buf (length (lora_text t)) = lora_text t /\
    m' (buf + Z.of_nat (length (lora_text t))) = 0 /\
    (forall x, x < buf \/ buf + LORA_TEXT_BUF_SIZE <= x -> m' x = m x).
Proof.
  intros Hok Hc H0 Hw. pose proof (lora_text_length t Hok Hc) as Hl.
  assert (sformat (clit "Flame: %u,%u,%u,%u,%u\r\ngas: ppm: %u , level: %u%%\r\nvoltage_a: %dV,voltage_b: %dV,voltage_c: %dV\r\ncurrent_a: %dA,current_b: %dA,current_c: %dA\r\nflow: %d m^3/h\r\n")
    [AInt (g_adc_ch0 (t_flame t)); AInt (g_adc_ch1 (t_flame t)); AInt (g_adc_ch3 (t_flame t));
     AInt (g_adc_ch4 (t_flame t)); AInt (g_adc_ch5 (t_flame t));
     AInt (g_methane_ppm (t_methane t)); AInt (g_methane_lel (t_methane t));
     AInt (f32_to_int (fget (Voltage (t_mb t)) 0)); AInt (f32_to_int (fget (Voltage (t_mb t)) 1));
     AInt (f32_to_int (fget (Voltage (t_mb t)) 2)); AInt (f32_to_int (fget (Current (t_mb t)) 0));
     AInt (f32_to_int (fget (Current (t_mb t)) 1)); AInt (f32_to_int (fget (Current (t_mb t)) 2));
     AInt (f32_to_int (Flow_ (t_mb t)))] = Some (lora_text t)) as Hf.
  { pose proof (counters_u32 t Hok) as Hu. unfold counters in Hu.
    repeat match goal with H : Forall _ (_ :: _) |- _ => apply Forall_cons in H as [? H] end. cbn [snd] in *.
    rewrite sformat_lora by auto with cint. reflexivity. }
  unfold LORA_TEXT_BUF_SIZE in *.
  destruct (rt_vsnprintf_text m buf 256 _ _ _ Hf H0 ltac:(lia) Hw ltac:(lia)) as (m' & E & W).
  exists m'. split; [exact E|]. split_and!.
  - rewrite (mem_read_ext _ (written m buf 256 (lora_text t))) by (intros; apply W).
    apply mem_read_written; lia.
  - rewrite W. unfold written. rewrite Z.min_l by lia.
    by rewrite Z.ltb_irrefl, andb_false_r, Z.eqb_refl.
  - intros x Hx. rewrite W. unfold written. rewrite Z.min_l by lia.
    destruct (Z.leb_spec buf x), (Z.ltb_spec x (buf + Z.of_nat (length (lora_text t))));
      cbn [andb]; try lia; rewrite (proj2 (Z.eqb_neq _ _)) by lia; done.
Qed.

Lemma lora_text_complete_witness :
  exists m', lora_build_text (fun _ => 85) 0x24000000 LORA_TEXT_BUF_SIZE sample_telemetry
      = Some (Z.of_nat (length (lora_text sample_telemetry)), m') /\
    mem_read m' 0x24000000 (length (lora_text sample_telemetry)) = lora_text sample_telemetry /\
    m' (0x24000000 + Z.of_nat (length (lora_text sample_telemetry))) = 0 /\
    (forall x, x < 0x24000000 \/ 0x24000000 + LORA_TEXT_BUF_SIZE <= x -> m' x = 85).
Proof.
  apply (lora_text_complete (fun _ => 85) 0x24000000 sample_telemetry);
    [apply sample_telemetry_ok | unfold is_u16; repeat constructor; cbn; lia | lia | reflexivity].
Defined.
