(* ===== verification/Cloud.v ===== *)
(** * The cloud uplink: AT commands to the ESP8266 and the connection machine

    applications/huaweiCloudApp.c over the receive buffer of uartApp.c (Uart.v),
    the JSON of Report.v and the kernel's ticks (Clock.v).

    The modem is a parameter: the bytes it sends, and the lateness of a delay,
    are a function of everything it was sent and of the moment.  The receive
    thread of UART4 has the higher priority, so whatever has arrived is stored
    before this thread goes on, byte by byte ([Uart.store], which
    [Uart.uart_receive_stores] derives from the steps of the receive thread).
    The bytes of a moment are those the receive ring did not lose.  A moment comes before every access of this thread to the buffer: before
    each cell [uart4_buffer_clear] zeroes, before it resets the index, before
    each search of the text; and in each delay.  What arrives while a command is
    built or written counts to the next moment: nothing reads the buffer in
    between.  Ticks pass in the delays.  Log output is left out. *)

From Stdlib Require Import ZArith Lia String.
From stdpp Require Import base numbers list.
From S2P Require Import Prelude Memory Printf Clock Report Uart.
Open Scope c_scope.

(** What a moment brings: ticks beyond those asked for, and received bytes. *)
Definition modem := list (list Z) -> nat -> Z * list Z.

(** [w_buf]: the cells of [uart4_recived_data] and [uart4_recived_data_index]. *)
Record world := World {
  w_tick : Z; w_moment : nat; w_buf : list Z * Z; w_sent : list (list Z); w_mem : memory }.

Definition CLOUD_REPORT_INTERVAL : Z := 3000.

(** HUAWEI_CLOUD_CONFIG: the strings of huaweiCloudApp.h. *)
Definition HW_WIFI_SSID : list Z := clit "dmail".
Definition HW_WIFI_PASSWORD : list Z := clit "edqn8272".
Definition HW_MQTT_HOST : list Z := clit "2f49ff4f87.st1.iotda-device.cn-east-3.myhuaweicloud.com".
Definition HW_MQTT_PORT : list Z := clit "1883".
Definition HW_MQTT_CLIENT_ID : list Z := clit "6abf5210e094d61592745069_1776006881_0_0_2026100206".
Definition HW_MQTT_USERNAME : list Z := clit "6abf5210e094d61592745069_1776006881".
Definition HW_MQTT_PASSWORD : list Z := clit "4c5f30d1439aac277d128a2902f20df4df38636004840eb4a1e3e6a792061916".
Definition HW_MQTT_TOPIC_REPORT : list Z := clit "$oc/devices/6abf5210e094d61592745069_1776006881/sys/properties/report".

Section Cloud.
Context (esp : modem) (at_cmd_buf json_buf : Z).

Definition rt_tick_get : M world Z := getM (fun w => (w_tick w, w)).
Definition set_buf (f : list Z * Z -> list Z * Z) (w : world) : world :=
  World (w_tick w) (w_moment w) (f (w_buf w)) (w_sent w) (w_mem w).

(** A moment: what has arrived is stored. *)
Definition arrive : M world unit := doM (fun w =>
  World (w_tick w) (S (w_moment w)) (fold_left (store UART4_RECIVED_DATA_SIZE) (snd (esp (w_sent w) (w_moment w))) (w_buf w))
        (w_sent w) (w_mem w)).

(** [strstr(uart4_recived_data, text) != RT_NULL]: the text only grows during
    the search, so it finds what is there at one of its moments. *)
Definition recived_has (text : list Z) : M world bool :=
  do! arrive in getM (fun w => (contains text (cstr (fst (w_buf w))), w)).

(** [uart4_buffer_clear]: the [memset], cells [k] to [k + n - 1], then the index. *)
Fixpoint buffer_memset (n k : nat) : M world unit :=
  match n with
  | O => retM tt
  | S n => do! arrive in do! doM (set_buf (fun b => (<[k := 0]> (fst b), snd b))) in buffer_memset n (S k)
  end.

Definition uart4_buffer_clear : M world unit :=
  do! buffer_memset UART4_RECIVED_DATA_SIZE 0 in
  do! arrive in
  doM (set_buf (fun b => (fst b, 0))).

Definition uart4_send (data : list Z) : M world unit :=
  doM (fun w => World (w_tick w) (w_moment w) (w_buf w) (w_sent w ++ [data]) (w_mem w)).
Definition rt_thread_mdelay (ms : Z) : M world unit := doM (fun w =>
  let '(late, bytes) := esp (w_sent w) (w_moment w) in
  World (w_tick w +u32 (rt_tick_from_millisecond ms + late)) (S (w_moment w))
        (fold_left (store UART4_RECIVED_DATA_SIZE) bytes (w_buf w)) (w_sent w) (w_mem w)).

(** [rt_snprintf(buf, size, fmt, ...)] and the C string of a buffer. *)
Definition snprintf (buf size : Z) (fmt : string) (args : list carg) : M world Z := fun w =>
  match rt_snprintf (w_mem w) buf size (clit fmt) args with
  | None => None
  | Some (n, m) => Some (n, World (w_tick w) (w_moment w) (w_buf w) (w_sent w) m)
  end.
Definition str_at (buf : Z) (size : nat) : M world (list Z) :=
  getM (fun w => (cstr (mem_read (w_mem w) buf size), w)).

(** The polls of [send_at_cmd]: [None] is fuel that ran out. *)
Fixpoint send_at_cmd_poll (fuel : nat) (start_tick : Z) (expect : list Z) (timeout : Z) : M world Z :=
  match fuel with
  | O => failM
  | S k =>
      let! now := rt_tick_get in
      if (now -u32 start_tick) <? rt_tick_from_millisecond timeout then
        do! rt_thread_mdelay 100 in
        let! found := recived_has expect in
        if found then retM 1
        else
          let! error := recived_has (clit "ERROR") in
          if error then retM 0 else send_at_cmd_poll k start_tick expect timeout
      else retM 0
  end.

Fixpoint wait_response_poll (fuel : nat) (start_tick : Z) (expect : list Z) (timeout : Z) : M world Z :=
  match fuel with
  | O => failM
  | S k =>
      let! now := rt_tick_get in
      if (now -u32 start_tick) <? rt_tick_from_millisecond timeout then
        do! rt_thread_mdelay 100 in
        let! found := recived_has expect in
        if found then retM 1
        else wait_response_poll k start_tick expect timeout
      else retM 0
  end.

(** Each poll takes 100 ticks or more: polls enough for any timeout. *)
Definition poll_fuel (timeout : Z) : nat := S (S (Z.to_nat (timeout / 100))).

Definition send_at_cmd (cmd expect : list Z) (timeout : Z) : M world Z :=
  do! uart4_buffer_clear in
  do! uart4_send cmd in
  do! uart4_send (clit "\r\n") in
  let! start_tick := rt_tick_get in
  send_at_cmd_poll (poll_fuel timeout) start_tick expect timeout.

Definition wait_response (expect : list Z) (timeout : Z) : M world Z :=
  let! start_tick := rt_tick_get in
  wait_response_poll (poll_fuel timeout) start_tick expect timeout.

(** A command formatted into [at_cmd_buf] and sent after a clear. *)
Definition AT_CMD_SIZE : Z := 256.
Definition at_cmd : M world (list Z) := str_at at_cmd_buf 256.

(** Step 7 from the wait for the prompt on: the report is sent at the prompt. *)
Definition cloud_publish (prompt : Z) : M world Z :=
  let! next :=
    (if negb (prompt =? 0) then
       let! json := str_at json_buf 600 in
       do! uart4_send json in
       let! ok := wait_response (clit "+MQTTPUB:OK") 5000 in
       if negb (ok =? 0) then retM 7
       else
         let! lost := recived_has (clit "MQTTDISCONNECTED") in
         retM (if lost then 3 else 7)
     else
       let! lost := recived_has (clit "MQTTDISCONNECTED") in
       retM (if lost then 3 else 7)) in
  do! rt_thread_mdelay CLOUD_REPORT_INTERVAL in
  retM next.

(** Step 7: build the report, announce its length, wait for the prompt. *)
Definition cloud_report (t : telemetry) : M world Z :=
  let! json_len := (fun w =>
    match build_cloud_json json_buf t (J 0 (w_mem w)) with
    | None => None
    | Some (n, s) => Some (n, World (w_tick w) (w_moment w) (w_buf w) (w_sent w) (j_mem s))
    end) in
  do! snprintf at_cmd_buf AT_CMD_SIZE "AT+MQTTPUBRAW=0,`%s`,%d,0,0" [AStr HW_MQTT_TOPIC_REPORT; AInt json_len] in
  do! uart4_buffer_clear in
  let! cmd := at_cmd in
  do! uart4_send cmd in
  do! uart4_send (clit "\r\n") in
  let! prompt := wait_response (clit ">") 3000 in
  cloud_publish prompt.

(** One turn of [huawei_cloud_thread_entry]: the next [cloud_task_step]. *)
Definition cloud_turn (t : telemetry) (cloud_task_step : Z) : M world Z :=
  match cloud_task_step with
  | 0 =>
      let! ok := send_at_cmd (clit "AT") (clit "OK") 2000 in
      if negb (ok =? 0) then retM 1 else do! rt_thread_mdelay 3000 in retM 0
  | 1 =>
      let! ok := send_at_cmd (clit "AT+CWMODE=1") (clit "OK") 2000 in
      if negb (ok =? 0) then retM 2 else do! rt_thread_mdelay 1000 in retM 1
  | 2 =>
      do! snprintf at_cmd_buf AT_CMD_SIZE "AT+CWJAP=`%s`,`%s`" [AStr HW_WIFI_SSID; AStr HW_WIFI_PASSWORD] in
      do! uart4_buffer_clear in
      let! cmd := at_cmd in
      do! uart4_send cmd in
      do! uart4_send (clit "\r\n") in
      let! ok := wait_response (clit "WIFI GOT IP") 15000 in
      if negb (ok =? 0) then retM 3 else do! rt_thread_mdelay 3000 in retM 2
  | 3 =>
      do! send_at_cmd (clit "AT+MQTTCLEAN=0") (clit "OK") 2000 in
      do! rt_thread_mdelay 1000 in
      retM 4
  | 4 =>
      do! snprintf at_cmd_buf AT_CMD_SIZE "AT+MQTTUSERCFG=0,1,`NULL`,`%s`,`%s`,0,0,``"
        [AStr HW_MQTT_USERNAME; AStr HW_MQTT_PASSWORD] in
      let! cmd := at_cmd in
      let! ok := send_at_cmd cmd (clit "OK") 3000 in
      if negb (ok =? 0) then retM 5 else do! rt_thread_mdelay 1000 in retM 4
  | 5 =>
      do! snprintf at_cmd_buf AT_CMD_SIZE "AT+MQTTCLIENTID=0,`%s`" [AStr HW_MQTT_CLIENT_ID] in
      let! cmd := at_cmd in
      let! ok := send_at_cmd cmd (clit "OK") 2000 in
      if negb (ok =? 0) then retM 6 else do! rt_thread_mdelay 2000 in retM 3
  | 6 =>
      do! snprintf at_cmd_buf AT_CMD_SIZE "AT+MQTTCONN=0,`%s`,%s,1" [AStr HW_MQTT_HOST; AStr HW_MQTT_PORT] in
      do! uart4_buffer_clear in
      let! cmd := at_cmd in
      do! uart4_send cmd in
      do! uart4_send (clit "\r\n") in
      let! ok := wait_response (clit "MQTTCONNECTED") 10000 in
      if negb (ok =? 0) then retM 7 else do! rt_thread_mdelay 3000 in retM 3
  | 7 => cloud_report t
  | _ => retM 0
  end.

(** The thread: the telemetry each turn reads, in order. *)
Fixpoint cloud_turns (ts : list telemetry) (cloud_task_step : Z) : M world Z :=
  match ts with
  | [] => retM cloud_task_step
  | t :: r => let! step := cloud_turn t cloud_task_step in cloud_turns r step
  end.

Definition huawei_cloud_thread_entry (ts : list telemetry) : M world Z :=
  do! rt_thread_mdelay 1000 in cloud_turns ts 0.

(** [huawei_cloud_init]: its result and whether the thread was started. *)
Definition huawei_cloud_init (created : bool) : Z * bool :=
  if created then (RT_EOK, true) else (- RT_ERROR, false).

(** The shell commands [huawei_upload_test] and [huawei_upload]; their array
    [cmd] is at [at_cmd_buf]. *)
Definition upload (fmt : string) (args : list carg) : M world unit :=
  do! snprintf json_buf CLOUD_JSON_SIZE fmt args in
  let! json := str_at json_buf 600 in
  do! snprintf at_cmd_buf AT_CMD_SIZE "AT+MQTTPUBRAW=0,`%s`,%d,0,0\r\n"
    [AStr HW_MQTT_TOPIC_REPORT; AInt (Z.of_nat (length json))] in
  let! cmd := at_cmd in
  do! uart4_send cmd in
  do! rt_thread_mdelay 500 in
  let! json := str_at json_buf 600 in
  do! uart4_send json in
  rt_thread_mdelay 1000.

Definition huawei_upload_test : M world unit :=
  upload "{`services`:[{`service_id`:`%s`,`properties`:{`ch0`:1234,`ch1`:5678,`methane_ppm`:100,`temperature`:25.5,`humidity`:60.0}}]}"
    [AStr (clit SERVICE_ID_SENSOR)].

Definition huawei_upload (ch0 ch1 methane temp humi : Z) : M world unit :=
  upload "{`services`:[{`service_id`:`%s`,`properties`:{`ch0`:%d,`ch1`:%d,`methane_ppm`:%d,`temperature`:%d,`humidity`:%d}}]}"
    [AStr (clit SERVICE_ID_SENSOR); AInt ch0; AInt ch1; AInt methane; AInt temp; AInt humi].
End Cloud.

(* ------------------------------------------------------------------ *)
(** ** Strings in buffers *)

Lemma cstr_app_tail s r : Forall (fun c => c <> 0) s -> cstr (s ++ r) = s ++ cstr r.
Proof.
  induction 1 as [|c s Hc _ IH]; cbn; [done|]. destruct (Z.eqb_spec c 0); [done|]. by rewrite IH.
Qed.

(** A NUL terminated text in a buffer is the C string there. *)
Lemma cstr_mem_read m a n l : Forall (fun c => c <> 0) l -> (length l < n)%nat ->
  mem_read m a (length l) = l -> m (a + Z.of_nat (length l)) = 0 -> cstr (mem_read m a n) = l.
Proof.
  intros Hl Hn Hr H0. replace n with (length l + (1 + (n - length l - 1)))%nat by lia.
  rewrite !mem_read_app, Hr, cstr_app_tail by done. unfold mem_read at 1. cbn [seq map].
  rewrite Z.add_0_r, H0. cbn. apply app_nil_r.
Qed.

Lemma udec_no_nul n : 0 <= n -> Forall (fun c => c <> 0) (udec n).
Proof. intros H. eapply Forall_impl; [by apply udec_digits|]. cbn. lia. Qed.

Lemma dec_no_nul z : Forall (fun c => c <> 0) (dec z).
Proof.
  unfold dec. destruct (Z.ltb_spec z 0); [constructor; [done|]|]; apply udec_no_nul; lia.
Qed.

Definition no_nul (l : list Z) : bool := forallb (fun c => negb (c =? 0)) l.

Lemma no_nul_spec l : no_nul l = true -> Forall (fun c => c <> 0) l.
Proof.
  intros H. apply List.Forall_forall. intros c Hc.
  unfold no_nul in H. rewrite forallb_forall in H. apply H in Hc. breflect. done.
Qed.

Lemma frac_no_nul k d : Forall (fun c => c <> 0) (frac k d).
Proof.
  unfold frac, num_field. apply Forall_app; split; [destruct (d <? 0); by repeat constructor|].
  apply Forall_app; split; [|apply udec_no_nul; lia].
  apply List.Forall_forall. intros x Hx. apply repeat_spec in Hx. by subst.
Qed.

Lemma field_no_nul k v : no_nul (clit k) = true -> Forall (fun c => c <> 0) (field k v).
Proof.
  intros Hk. unfold field. constructor; [done|].
  repeat (apply Forall_app; split); [by apply no_nul_spec | by repeat constructor | apply dec_no_nul|].
  constructor; [done | apply frac_no_nul].
Qed.

Lemma counter_no_nul k n : no_nul (clit k) = true -> 0 <= n -> Forall (fun c => c <> 0) (counter k n).
Proof.
  intros Hk Hn. unfold counter. constructor; [done|].
  repeat (apply Forall_app; split); [by apply no_nul_spec | by repeat constructor | by apply udec_no_nul].
Qed.

Lemma concat_no_nul {A} (f : A -> list Z) l : Forall (fun x => Forall (fun c => c <> 0) (f x)) l ->
  Forall (fun c => c <> 0) (concat (map f l)).
Proof. induction 1; cbn; [constructor|]. by apply Forall_app. Qed.

Lemma cloud_text_no_nul t : telemetry_ok t -> Forall (fun c => c <> 0) (cloud_text t).
Proof.
  intros Hok. unfold cloud_text, properties.
  apply Forall_app; split; [by apply no_nul_spec|]. apply Forall_app; split; [|by apply no_nul_spec].
  apply Forall_app; split; [|apply Forall_app; split; [|apply Forall_app; split;
    [by apply no_nul_spec | apply dec_no_nul]]].
  - apply concat_no_nul. assert (forallb (fun kn => no_nul (clit (fst kn))) (counters t) = true) as Hk by done.
    rewrite forallb_forall in Hk. pose proof (counters_u32 t Hok) as Hc. rewrite List.Forall_forall in *.
    intros [k n] Hin. specialize (Hk _ Hin). specialize (Hc _ Hin). unfold is_u32 in Hc. cbn [snd fst] in *.
    apply Forall_app; split; [apply counter_no_nul; [done|lia] | by repeat constructor].
  - apply concat_no_nul. assert (forallb (fun kn => no_nul (clit (fst kn))) (readings t) = true) as Hk by done.
    rewrite forallb_forall in Hk. apply List.Forall_forall. intros [k v] Hin. specialize (Hk _ Hin).
    apply Forall_app; split; [by apply field_no_nul | by repeat constructor].
Qed.

Lemma contains_cstr_app l a b : contains l (cstr a) = true -> contains l (cstr (a ++ b)) = true.
Proof.
  rewrite !contains_spec. intros (x & y & E). assert (exists z, cstr (a ++ b) = cstr a ++ z) as [z ->].
  { clear. induction a as [|c a [z IH]]; [by exists (cstr b)|]. cbn. destruct (c =? 0); [by exists []|]. exists z. by rewrite IH. }
  exists x, (y ++ z). by rewrite E, <- !app_assoc.
Qed.

Lemma cstr_incl l c : In c (cstr l) -> In c l.
Proof. induction l as [|x l IH]; cbn; [done|]. destruct (x =? 0); cbn; [done|]. intros [->|H]; auto. Qed.

Lemma cstr_app_zero a z : Forall (fun c => c = 0) z -> cstr (a ++ z) = cstr a.
Proof.
  intros Hz. induction a as [|x a IH]; cbn; [|destruct (x =? 0); [done|by rewrite IH]]. by destruct Hz as [|c z -> _].
Qed.

(* ------------------------------------------------------------------ *)
(** ** Commands and their answers *)

Section Steps.
Context (esp : modem) (at_cmd_buf json_buf : Z).

(** A delay is late by less than half the range of the tick counter. *)
Definition timely : Prop := forall s n, 0 <= fst (esp s n) < 2 ^ 31.

Definition text (w : world) : list Z := cstr (fst (w_buf w)).
Definition stored : list Z -> list Z * Z -> list Z * Z := fold_left (store UART4_RECIVED_DATA_SIZE).

(** The bytes of [k] moments from the [n]th on, nothing sent meanwhile. *)
Definition arrivals (sent : list (list Z)) (n k : nat) : list Z :=
  concat (map (fun i => snd (esp sent i)) (seq n k)).

(** [w'] is [w] after [n] moments. *)
Definition waited (n : nat) (w w' : world) : Prop :=
  w_moment w' = (w_moment w + n)%nat /\ w_sent w' = w_sent w /\ w_mem w' = w_mem w /\
  w_buf w' = stored (arrivals (w_sent w) (w_moment w) n) (w_buf w).

Lemma waited_refl w : waited 0 w w.
Proof. unfold waited. by rewrite Nat.add_0_r. Qed.

Lemma arrivals_add sent n k1 k2 : arrivals sent n (k1 + k2) = arrivals sent n k1 ++ arrivals sent (n + k1) k2.
Proof. unfold arrivals. by rewrite seq_app, map_app, concat_app. Qed.

Lemma waited_trans n1 n2 w w1 w2 : waited n1 w w1 -> waited n2 w1 w2 -> waited (n1 + n2) w w2.
Proof.
  intros (D1 & S1 & M1 & B1) (D2 & S2 & M2 & B2). unfold waited. rewrite D2, D1, S2, S1, M2, M1.
  split_and!; try done; try lia. by rewrite B2, B1, S1, D1, arrivals_add; unfold stored; rewrite fold_left_app.
Qed.

Definition receive (w : world) : world := snd (default (tt, w) (arrive esp w)).
Definition delay (ms : Z) (w : world) : world := snd (default (tt, w) (rt_thread_mdelay esp ms w)).

Lemma arrive_eq w : arrive esp w = Some (tt, receive w).
Proof. done. Qed.

Lemma mdelay_eq ms w : rt_thread_mdelay esp ms w = Some (tt, delay ms w).
Proof. unfold delay, rt_thread_mdelay, doM. by destruct (esp _ _). Qed.

Lemma receive_waited w : waited 1 w (receive w).
Proof. unfold waited, arrivals. cbn [seq map concat receive arrive doM default snd fst option_map]. rewrite app_nil_r. split_and!; try done; cbn; lia. Qed.

Lemma delay_waited ms w : waited 1 w (delay ms w).
Proof.
  unfold delay, rt_thread_mdelay, doM, waited, arrivals. cbn [seq map concat]. rewrite app_nil_r.
  destruct (esp _ _) as [j b]. cbn. split_and!; try done; lia.
Qed.

Lemma recived_has_eq l w : recived_has esp l w = Some (contains l (text (receive w)), receive w).
Proof. done. Qed.

Lemma delay_tick ms w : w_tick (delay ms w) = u32 (w_tick w + (rt_tick_from_millisecond ms + fst (esp (w_sent w) (w_moment w)))).
Proof. unfold delay, rt_thread_mdelay, doM. by destruct (esp _ _). Qed.

(** What a wait answers: whether its last search for the answer found it; when
    it did not, either the time was up or (for the polls that give up on it,
    [err]) ERROR was found in the search that followed. *)
Definition verdict (err : bool) (expect : list Z) (timeout elapsed : Z) (r : Z) (w : world) : Prop :=
  (r = 1 /\ contains expect (text w) = true) \/
  (r = 0 /\ timeout <= elapsed /\ err = false /\ contains expect (text w) = false) \/
  (r = 0 /\ err = true /\ exists w1, w = receive w1 /\ contains expect (text w1) = false /\
    (contains (clit "ERROR") (text w) = true \/ timeout <= elapsed)).

Definition poll (err : bool) := if err then send_at_cmd_poll esp else wait_response_poll esp.

Lemma poll_S err k start expect timeout w :
  poll err (S k) start expect timeout w =
    if u32 (w_tick w - start) <? rt_tick_from_millisecond timeout then
      let w1 := receive (delay 100 w) in
      if contains expect (text w1) then Some (1, w1)
      else if err then
        let w2 := receive w1 in
        if contains (clit "ERROR") (text w2) then Some (0, w2) else poll err k start expect timeout w2
      else poll err k start expect timeout w1
    else Some (0, w).
Proof.
  destruct err; cbn [poll send_at_cmd_poll wait_response_poll]; unfold rt_tick_get;
    rewrite bindM_getM; cbn [fst snd]; destruct (_ <? _); try done;
    rewrite (bindM_some _ _ _ _ _ (mdelay_eq 100 w)), (bindM_some _ _ _ _ _ (recived_has_eq _ _)); cbn zeta;
    destruct (contains expect _); try done. rewrite (bindM_some _ _ _ _ _ (recived_has_eq _ _)). by destruct (contains _ _).
Qed.

(** The last search of a wait so far, when it goes on: it found nothing. *)
Definition missed (err : bool) (expect : list Z) (w : world) : Prop :=
  if err then exists w1, w = receive w1 /\ contains expect (text w1) = false else contains expect (text w) = false.

(** A wait terminates within its fuel and gives its verdict. *)
Lemma poll_spec err k start expect timeout d w : timely -> 0 < timeout < 2 ^ 30 ->
  0 <= start -> 0 <= d < timeout + 2 ^ 31 + 100 -> w_tick w = u32 (start + d) -> timeout <= d + 100 * (Z.of_nat k - 1) ->
  (0 < k)%nat -> d < timeout \/ missed err expect w ->
  exists n r d' w', poll err k start expect timeout w = Some (r, w') /\ (n <= 3 * k)%nat /\
    waited n w w' /\ w_tick w' = u32 (start + d') /\ d <= d' /\
    verdict err expect timeout d' r w'.
Proof.
  intros Ht Hto Hs. revert d w. induction k as [|k IH]; intros d w Hd Hw Hk H0 Hc; [lia|].
  rewrite poll_S, Hw, tick_from_millisecond, u32_diff_add by lia.
  destruct (Z.ltb_spec d timeout) as [Hlt|Hge].
  - cbn zeta. pose proof (waited_trans _ _ _ _ _ (delay_waited 100 w) (receive_waited (delay 100 w))) as W. pose proof (delay_tick 100 w) as T.
    pose proof (Ht (w_sent w) (w_moment w)) as J. set (j := fst (esp (w_sent w) (w_moment w))) in *.
    rewrite tick_from_millisecond, Hw in T by lia.
    assert (w_tick (delay 100 w) = u32 (start + (d + 100 + j))) as T'
      by (rewrite T; unfold wrapu; rewrite Zplus_mod_idemp_l; f_equal; lia).
    change (w_tick (delay 100 w)) with (w_tick (receive (delay 100 w))) in T'. clear T Hw Hc.
    set (w1 := receive (delay 100 w)) in *. clearbody w1 j.
    destruct (contains expect (text w1)) eqn:E1; [exists 2%nat, 1, (d + 100 + j), w1; split_and!; try done; try lia; by left|].
    destruct err.
    + pose proof (waited_trans _ _ _ _ _ W (receive_waited w1)) as W2. change (w_tick w1) with (w_tick (receive w1)) in T'.
      assert (missed true expect (receive w1)) as Hm by (by exists w1). destruct (contains (clit "ERROR") _) eqn:E2.
      { exists 3%nat, 0, (d + 100 + j), (receive w1). split_and!; try done; try lia. right. right. split_and!; try done. exists w1. auto. }
      destruct k as [|k]; [lia|]. destruct (IH (d + 100 + j) (receive w1)) as (n & r & d' & w' & -> & Hn & W' & T2 & Hd' & V); try done; try lia; [by right|].
      exists (2 + 1 + n)%nat, r, d', w'. split_and!; try done; try lia. by eapply waited_trans.
    + destruct k as [|k]; [lia|]. destruct (IH (d + 100 + j) w1) as (n & r & d' & w' & -> & Hn & W' & T2 & Hd' & V); try done; try lia; [by right|].
      exists (2 + n)%nat, r, d', w'. split_and!; try done; try lia. by eapply waited_trans.
  - destruct Hc as [|Hc]; [lia|]. exists 0%nat, 0, d, w. split_and!; try done; try lia; try apply waited_refl.
    right. destruct err; [right|by left]. destruct Hc as (w1 & ? & ?). split_and!; try done. exists w1. auto.
Qed.

(** A wait whose first delay brings the answer succeeds. *)
Lemma poll_answered err k start expect timeout w : 0 < timeout < 2 ^ 31 -> w_tick w = u32 start ->
  contains expect (text (receive (delay 100 w))) = true -> 0 <= start ->
  poll err (S k) start expect timeout w = Some (1, receive (delay 100 w)).
Proof.
  intros Ht Hw Hc Hs. rewrite poll_S, Hw. rewrite <- (Z.add_0_r start) at 1.
  rewrite tick_from_millisecond, u32_diff_add by lia.
  rewrite (proj2 (Z.ltb_lt _ _)) by lia. cbn zeta. by rewrite Hc.
Qed.

(** Worlds whose tick counter and receive buffer are in range. *)
Definition buf_ok (b : list Z * Z) : Prop := length (fst b) = UART4_RECIVED_DATA_SIZE /\ 0 <= snd b <= 255.
Definition world_ok (w : world) : Prop := is_u32 (w_tick w) /\ buf_ok (w_buf w).

(** What [stored] does: the bytes go behind the index, the rest stays. *)
Lemma store_ok c b : buf_ok b -> buf_ok (store UART4_RECIVED_DATA_SIZE b c).
Proof.
  intros [Hl Hi]. destruct b as [l i]. unfold store. cbn [fst snd] in *. unfold UART4_RECIVED_DATA_SIZE in *.
  destruct (Z.ltb_spec i (Z.of_nat 256 - 1)); unfold buf_ok; cbn [fst snd]; rewrite ?length_insert; unfold UART4_RECIVED_DATA_SIZE; lia.
Qed.

Lemma stored_ok bs : forall b, buf_ok b -> buf_ok (stored bs b).
Proof. induction bs as [|c bs IH]; intros b Hb; [done|]. by apply IH, store_ok. Qed.

Lemma stored_front bs : forall b, buf_ok b ->
  let new := firstn (255 - Z.to_nat (snd b)) bs in
  fst (stored bs b) = firstn (Z.to_nat (snd b)) (fst b) ++ new ++ skipn (Z.to_nat (snd b) + length new) (fst b).
Proof.
  induction bs as [|c bs IH]; intros b Hb; cbn zeta.
  { rewrite firstn_nil. cbn [app stored fold_left length]. rewrite Nat.add_0_r. symmetry. apply take_drop. }
  change (stored (c :: bs) b) with (stored bs (store UART4_RECIVED_DATA_SIZE b c)). rewrite (IH _ (store_ok c b Hb)).
  destruct Hb as [Hl Hi]. destruct b as [l i]. unfold store. cbn [fst snd] in *. unfold UART4_RECIVED_DATA_SIZE in *.
  destruct (Z.ltb_spec i (Z.of_nat 256 - 1)); cbn [fst snd].
  - replace (Z.to_nat (i + 1)) with (S (Z.to_nat i)) by lia. rewrite (take_S_r _ _ c) by (apply list_lookup_insert_eq; lia).
    rewrite take_insert_ge, drop_insert_lt by lia. replace (255 - Z.to_nat i)%nat with (S (255 - S (Z.to_nat i))) by lia. cbn [firstn length app].
    rewrite <- !app_assoc. cbn [app]. by rewrite Nat.add_succ_r.
  - by replace (255 - Z.to_nat i)%nat with 0%nat by lia.
Qed.

Lemma stored_lookup bs j c : forall b, fst (stored bs b) !! j = Some c -> fst b !! j = Some c \/ In c bs.
Proof.
  induction bs as [|x bs IH]; intros b H; [by left|]. apply IH in H as [H|H]; [|by right; right].
  destruct b as [l i]. unfold store in H. cbn [fst] in *. destruct (i <? _); [|by left]. cbn [fst] in H.
  apply list_lookup_insert_Some in H as [(_ & <- & _)|[_ H]]; [by right; left|by left].
Qed.

Lemma waited_ok n w w' t : waited n w w' -> buf_ok (w_buf w) -> w_tick w' = u32 t -> world_ok w'.
Proof. intros (_ & _ & _ & B) Hb T. split; [rewrite T; apply u32_range|]. rewrite B. by apply stored_ok. Qed.

Lemma delay_ok ms w : buf_ok (w_buf w) -> world_ok (delay ms w).
Proof. intros Hb. eapply waited_ok; [apply delay_waited | done | apply delay_tick]. Qed.

Lemma receive_ok w : world_ok w -> world_ok (receive w).
Proof. intros [Ht Hb]. split; [done|]. destruct (receive_waited w) as (_ & _ & _ & ->). by apply stored_ok. Qed.

(** [elapsed] ticks passed from [w] to [w']. *)
Definition elapses (elapsed : Z) (w w' : world) : Prop := 0 <= elapsed /\ w_tick w' = u32 (w_tick w + elapsed).

Definition answer (err : bool) (expect : list Z) (timeout : Z) (w w' : world) (r : Z) : Prop :=
  exists n elapsed, (n <= 3 * poll_fuel timeout)%nat /\ waited n w w' /\ elapses elapsed w w' /\
    verdict err expect timeout elapsed r w'.

Lemma poll_answer err expect timeout w : timely -> 0 < timeout < 2 ^ 30 -> world_ok w ->
  exists r w', poll err (poll_fuel timeout) (w_tick w) expect timeout w = Some (r, w') /\
    answer err expect timeout w w' r.
Proof.
  intros Ht Hto [Hw Hl]. pose proof (Z.div_mod timeout 100 ltac:(lia)). pose proof (Z.mod_pos_bound timeout 100 ltac:(lia)).
  pose proof (Z.div_pos timeout 100 ltac:(lia) ltac:(lia)).
  destruct (poll_spec err (poll_fuel timeout) (w_tick w) expect timeout 0 w Ht Hto)
    as (n & r & d & w' & E & Hn & W & T & Hd & V); try done; try lia; unfold poll_fuel in *; try lia.
  - unfold is_u32 in Hw. lia.
  - rewrite Z.add_0_r, u32_small by done. done.
  - exists r, w'. split; [exact E|]. exists n, d. unfold poll_fuel. split_and!; try done; try lia.
Qed.

Lemma wait_response_answer expect timeout w : timely -> 0 < timeout < 2 ^ 30 -> world_ok w ->
  exists r w', wait_response esp expect timeout w = Some (r, w') /\ answer false expect timeout w w' r.
Proof.
  intros Ht Hto Hw. unfold wait_response, rt_tick_get. rewrite bindM_getM. by apply (poll_answer false).
Qed.

Definition cleared_def (w : world) : world := snd (default (tt, w) (uart4_buffer_clear esp w)).
Definition cleared_aux : seal cleared_def.
Proof. by eexists. Qed.
Definition cleared := unseal cleared_aux.
Lemma cleared_eq w : cleared w = cleared_def w.
Proof. unfold cleared. by rewrite (seal_eq cleared_aux). Qed.

Definition sending (ls : list (list Z)) (w : world) : world :=
  World (w_tick w) (w_moment w) (w_buf w) (w_sent w ++ ls) (w_mem w).
Definition with_mem (m : memory) (w : world) : world :=
  World (w_tick w) (w_moment w) (w_buf w) (w_sent w) m.

Definition CLEAR_MOMENTS : nat := S UART4_RECIVED_DATA_SIZE.

(** What a clear leaves, [bs] the bytes that arrive during it: the index is
    reset; a cell is NUL or one of these bytes. *)
Record is_cleared (w w' : world) : Prop := {
  ic_tick : w_tick w' = w_tick w; ic_sent : w_sent w' = w_sent w; ic_mem : w_mem w' = w_mem w;
  ic_moment : w_moment w' = (w_moment w + CLEAR_MOMENTS)%nat;
  ic_len : length (fst (w_buf w')) = UART4_RECIVED_DATA_SIZE; ic_idx : snd (w_buf w') = 0;
  ic_cells : Forall (fun c => c = 0 \/ In c (arrivals (w_sent w) (w_moment w) CLEAR_MOMENTS)) (fst (w_buf w')) }.

(** The first [k] cells are NUL or hold one of the bytes [D]. *)
Definition zeroed (k : nat) (D l : list Z) : Prop := forall j c, (j < k)%nat -> l !! j = Some c -> c = 0 \/ In c D.

Lemma receive_buf w : w_buf (receive w) = stored (arrivals (w_sent w) (w_moment w) 1) (w_buf w).
Proof. apply receive_waited. Qed.

Lemma zeroed_receive k D w : zeroed k D (fst (w_buf w)) ->
  zeroed k (D ++ arrivals (w_sent w) (w_moment w) 1) (fst (w_buf (receive w))).
Proof.
  intros H j c Hj Hc. rewrite receive_buf in Hc. apply stored_lookup in Hc as [Hc|Hc]; [|right; apply in_app_iff; by right].
  destruct (H j c Hj Hc); [by left|]. right. apply in_app_iff. by left.
Qed.

Lemma memset_spec n : forall k D w, buf_ok (w_buf w) -> zeroed k D (fst (w_buf w)) ->
  exists w', buffer_memset esp n k w = Some (tt, w') /\ w_tick w' = w_tick w /\ w_sent w' = w_sent w /\ w_mem w' = w_mem w /\
    w_moment w' = (w_moment w + n)%nat /\ buf_ok (w_buf w') /\
    zeroed (k + n) (D ++ arrivals (w_sent w) (w_moment w) n) (fst (w_buf w')).
Proof.
  induction n as [|n IH]; intros k D w Hb Hz; cbn [buffer_memset].
  { exists w. rewrite !Nat.add_0_r. unfold arrivals. cbn [seq map concat]. by rewrite app_nil_r. }
  rewrite (bindM_some _ _ _ _ _ (arrive_eq w)), bindM_doM. set (w1 := set_buf _ _).
  assert (buf_ok (w_buf (receive w))) as Hb1 by (rewrite receive_buf; by apply stored_ok).
  destruct (IH (S k) (D ++ arrivals (w_sent w) (w_moment w) 1) w1) as (w' & E & H1 & H2 & H3 & H4 & H5 & H6).
  - destruct Hb1. split; [|done]. unfold w1. cbn [set_buf w_buf fst]. by rewrite length_insert.
  - intros j c Hj Hc. unfold w1 in Hc. cbn [set_buf w_buf fst] in Hc. apply list_lookup_insert_Some in Hc as [(_ & <- & _)|[Hn Hc]]; [by left|].
    apply (zeroed_receive k D w Hz j c); [lia|done].
  - exists w'. rewrite E, H1, H2, H3, H4. unfold w1 in *. cbn [set_buf w_moment w_sent] in *. split_and!; try done.
    + cbn. lia.
    + replace (S n) with (1 + n)%nat by lia. rewrite arrivals_add, app_assoc. replace (k + (1 + n))%nat with (S k + n)%nat by lia.
      replace (w_moment w + 1)%nat with (w_moment (receive w)) by (cbn; lia). exact H6.
Qed.

Lemma clear_spec w : buf_ok (w_buf w) -> uart4_buffer_clear esp w = Some (tt, cleared w) /\ is_cleared w (cleared w).
Proof.
  intros Hb. destruct (memset_spec UART4_RECIVED_DATA_SIZE 0 [] w Hb) as (w1 & E & H1 & H2 & H3 & H4 & H5 & H6); [intros ? ? ?; lia|].
  assert (uart4_buffer_clear esp w = Some (tt, set_buf (fun b => (fst b, 0)) (receive w1))) as Ec.
  { unfold uart4_buffer_clear. by rewrite (bindM_some _ _ _ _ _ E), (bindM_some _ _ _ _ _ (arrive_eq w1)). }
  rewrite cleared_eq. unfold cleared_def. rewrite Ec. split; [done|]. cbn [default id snd]. assert (buf_ok (w_buf (receive w1))) as [Hl _] by (rewrite receive_buf; by apply stored_ok).
  split; cbn [set_buf w_tick w_sent w_mem w_moment w_buf fst snd]; try done.
  - change (w_moment (receive w1)) with (S (w_moment w1)). rewrite H4. unfold CLEAR_MOMENTS. lia.
  - apply List.Forall_forall. intros c Hc. apply list_elem_of_In, list_elem_of_lookup_1 in Hc as [j Hj].
    apply (zeroed_receive _ _ _ H6 j c) in Hj as [?|Hj]; [by left| |apply lookup_lt_Some in Hj; lia].
    right. rewrite H2, H4 in Hj. unfold CLEAR_MOMENTS. replace (S UART4_RECIVED_DATA_SIZE) with (UART4_RECIVED_DATA_SIZE + 1)%nat by lia. by rewrite arrivals_add.
Qed.

(** The start of an exchange: the buffer cleared, the command line sent. *)
Definition asking (cmd : list Z) (w : world) : world := sending [cmd; clit "\r\n"] (cleared w).

Lemma asking_ok cmd w : world_ok w -> world_ok (asking cmd w).
Proof.
  intros [Hw Hb]. destruct (clear_spec w Hb) as [_ H]. unfold world_ok, buf_ok, asking, sending. cbn [w_tick w_buf].
  rewrite (ic_tick _ _ H), (ic_len _ _ H), (ic_idx _ _ H). split; [exact Hw|]. split; [reflexivity|lia].
Qed.

Lemma asking_tick cmd w : buf_ok (w_buf w) -> w_tick (asking cmd w) = w_tick w.
Proof. intros Hb. exact (ic_tick _ _ (proj2 (clear_spec w Hb))). Qed.

Lemma asking_mem cmd w : buf_ok (w_buf w) -> w_mem (asking cmd w) = w_mem w.
Proof. intros Hb. exact (ic_mem _ _ (proj2 (clear_spec w Hb))). Qed.

Lemma asking_sent cmd w : buf_ok (w_buf w) -> w_sent (asking cmd w) = w_sent w ++ [cmd; clit "\r\n"].
Proof. intros Hb. unfold asking, sending. cbn [w_sent]. by rewrite (ic_sent _ _ (proj2 (clear_spec w Hb))). Qed.

Lemma clear_bind {B} (k : unit -> M world B) w : buf_ok (w_buf w) -> bindM (uart4_buffer_clear esp) k w = k tt (cleared w).
Proof. intros Hb. apply bindM_some. by apply clear_spec. Qed.

Lemma send_at_cmd_eq cmd expect timeout w : buf_ok (w_buf w) ->
  send_at_cmd esp cmd expect timeout w
  = poll true (poll_fuel timeout) (w_tick w) expect timeout (asking cmd w).
Proof.
  intros Hb. unfold send_at_cmd. rewrite clear_bind by done. unfold uart4_send, rt_tick_get. rewrite !bindM_doM, bindM_getM.
  unfold asking, sending, poll. cbn [fst snd w_tick w_moment w_buf w_sent w_mem]. rewrite <- app_assoc. cbn [app].
  by rewrite (ic_tick _ _ (proj2 (clear_spec w Hb))).
Qed.

(** A formatted string and the buffer it is in. *)
Lemma snprintf_str buf fmt args l w : sformat (clit fmt) args = Some l -> Forall (fun c => c <> 0) l ->
  (length l < 256)%nat -> 0 <= buf -> buf + 256 < 2 ^ 32 ->
  exists m', snprintf buf AT_CMD_SIZE fmt args w = Some (Z.of_nat (length l), with_mem m' w) /\
    cstr (mem_read m' buf 256) = l /\
    (forall x, x < buf \/ buf + 256 <= x -> m' x = w_mem w x).
Proof.
  intros Hf Hn Hl H0 Hw.
  destruct (rt_vsnprintf_text (w_mem w) buf 256 _ _ _ Hf H0 ltac:(lia) Hw ltac:(lia)) as (m' & E & W).
  exists m'. unfold snprintf, rt_snprintf, AT_CMD_SIZE. rewrite E. split; [done|]. split.
  - apply cstr_mem_read; try done.
    + rewrite (mem_read_ext _ (written (w_mem w) buf 256 l)) by (intros; apply W). apply mem_read_written; lia.
    + rewrite W. unfold written. rewrite Z.min_l by lia. by rewrite Z.ltb_irrefl, andb_false_r, Z.eqb_refl.
  - intros x Hx. rewrite W. unfold written. rewrite Z.min_l by lia.
    destruct (Z.leb_spec buf x), (Z.ltb_spec x (buf + Z.of_nat (length l)));
      cbn [andb]; try lia; rewrite (proj2 (Z.eqb_neq _ _)) by lia; done.
Qed.

(** The exchanges of steps 0 to 6: command, expected answer, timeout, whether
    ERROR ends the wait, next step. *)
Definition step_cmd (step : Z) : list Z :=
  match step with
  | 0 => clit "AT"
  | 1 => clit "AT+CWMODE=1"
  | 2 => clit "AT+CWJAP=`dmail`,`edqn8272`"
  | 3 => clit "AT+MQTTCLEAN=0"
  | 4 => clit "AT+MQTTUSERCFG=0,1,`NULL`,`6abf5210e094d61592745069_1776006881`,`4c5f30d1439aac277d128a2902f20df4df38636004840eb4a1e3e6a792061916`,0,0,``"
  | 5 => clit "AT+MQTTCLIENTID=0,`6abf5210e094d61592745069_1776006881_0_0_2026100206`"
  | _ => clit "AT+MQTTCONN=0,`2f49ff4f87.st1.iotda-device.cn-east-3.myhuaweicloud.com`,1883,1"
  end.

Definition step_expect (step : Z) : list Z :=
  match step with 2 => clit "WIFI GOT IP" | 6 => clit "MQTTCONNECTED" | _ => clit "OK" end.

Definition step_timeout (step : Z) : Z :=
  match step with 2 => 15000 | 4 => 3000 | 6 => 10000 | _ => 2000 end.

Definition step_err (step : Z) : bool := match step with 2 | 6 => false | _ => true end.

Definition next_step (step : Z) (ok : bool) : Z :=
  match step with
  | 3 => 4
  | 5 | 6 => if ok then step + 1 else 3
  | _ => if ok then step + 1 else step
  end.

Context (Hcmd : 0 <= at_cmd_buf) (Hcmd' : at_cmd_buf + 256 < 2 ^ 32).

(** The exchange of a step from [w]: the wait's result decides. *)
Definition exchanged (step : Z) (w : world) (k : Z -> M world Z) (result : option (Z * world)) : Prop :=
  exists m', (forall x, x < at_cmd_buf \/ at_cmd_buf + 256 <= x -> m' x = w_mem w x) /\
    result = match poll (step_err step) (poll_fuel (step_timeout step)) (w_tick w) (step_expect step)
                     (step_timeout step) (asking (step_cmd step) (with_mem m' w)) with
             | None => None
             | Some (r, w1) => k r w1
             end.

Lemma with_mem_id w : with_mem (w_mem w) w = w.
Proof. by destruct w. Qed.

Lemma exchange_plain step w k : buf_ok (w_buf w) -> step_err step = true ->
  exchanged step w k (bindM (send_at_cmd esp (step_cmd step) (step_expect step) (step_timeout step)) k w).
Proof.
  intros Hb E. exists (w_mem w). split; [done|]. unfold bindM. by rewrite send_at_cmd_eq, E, with_mem_id.
Qed.

(** A formatted command, sent after a clear. *)
Lemma announce buf fmt args cmd w : buf_ok (w_buf w) -> 0 <= buf -> buf + 256 < 2 ^ 32 ->
  sformat (clit fmt) args = Some cmd -> Forall (fun c => c <> 0) cmd -> (length cmd < 256)%nat ->
  exists m', (forall x, x < buf \/ buf + 256 <= x -> m' x = w_mem w x) /\
    forall k : unit -> M world Z, bindM (snprintf buf AT_CMD_SIZE fmt args) (fun _ => bindM (uart4_buffer_clear esp) (fun _ => bindM (at_cmd buf) (fun cmd =>
      bindM (uart4_send cmd) (fun _ => bindM (uart4_send (clit "\r\n")) k)))) w = k tt (asking cmd (with_mem m' w)).
Proof.
  intros Hb H0 Hw Hf Hn Hl. destruct (snprintf_str buf fmt args _ w Hf Hn Hl H0 Hw) as (m' & Es & Hs & Hx).
  exists m'. split; [done|]. intros k. rewrite (bindM_some _ _ _ _ _ Es), clear_bind by done.
  unfold uart4_send, at_cmd, str_at. rewrite bindM_getM, !bindM_doM. cbn [fst snd].
  rewrite (ic_mem _ _ (proj2 (clear_spec (with_mem m' w) Hb))). cbn [w_mem with_mem]. rewrite Hs.
  unfold asking, sending. cbn [w_mem w_tick w_moment w_buf w_sent]. rewrite <- app_assoc. cbn [app].
  by rewrite (ic_mem _ _ (proj2 (clear_spec (with_mem m' w) Hb))).
Qed.

Lemma exchange_formatted step fmt args w k : buf_ok (w_buf w) -> step_err step = false ->
  sformat (clit fmt) args = Some (step_cmd step) -> no_nul (step_cmd step) = true ->
  (length (step_cmd step) < 256)%nat ->
  exchanged step w k
    (bindM (snprintf at_cmd_buf AT_CMD_SIZE fmt args) (fun _ =>
     bindM (uart4_buffer_clear esp) (fun _ => bindM (at_cmd at_cmd_buf) (fun cmd =>
     bindM (uart4_send cmd) (fun _ => bindM (uart4_send (clit "\r\n")) (fun _ =>
     bindM (wait_response esp (step_expect step) (step_timeout step)) k))))) w).
Proof.
  intros Hb E Hf Hn Hl. destruct (announce at_cmd_buf fmt args _
    w Hb Hcmd Hcmd' Hf (no_nul_spec _ Hn) Hl) as (m' & Hx & Ea).
  exists m'. split; [done|]. rewrite Ea. unfold wait_response, rt_tick_get. unfold bindM at 1. rewrite bindM_getM. cbn [fst snd]. rewrite E.
  unfold poll. by rewrite (asking_tick _ (with_mem m' w) Hb).
Qed.

Lemma exchange_formatted_err step fmt args w k : buf_ok (w_buf w) -> step_err step = true ->
  sformat (clit fmt) args = Some (step_cmd step) -> no_nul (step_cmd step) = true ->
  (length (step_cmd step) < 256)%nat ->
  exchanged step w k
    (bindM (snprintf at_cmd_buf AT_CMD_SIZE fmt args) (fun _ =>
     bindM (at_cmd at_cmd_buf) (fun cmd =>
     bindM (send_at_cmd esp cmd (step_expect step) (step_timeout step)) k)) w).
Proof.
  intros Hb E Hf Hn Hl. destruct (snprintf_str at_cmd_buf fmt args _ w Hf (no_nul_spec _ Hn) Hl Hcmd Hcmd') as (m' & Es & Hs & Hx).
  exists m'. split; [done|]. rewrite (bindM_some _ _ _ _ _ Es).
  unfold at_cmd, str_at. rewrite bindM_getM. cbn [fst snd w_mem with_mem]. rewrite Hs.
  unfold bindM. by rewrite send_at_cmd_eq, E.
Qed.

(** What a turn does after the exchange of its step. *)
Definition after (step : Z) (r : Z) : M world Z :=
  let pause ms next := bindM (rt_thread_mdelay esp ms) (fun _ => retM next) in
  match step with
  | 3 => pause 1000 4
  | _ => if negb (r =? 0) then retM (step + 1)
         else pause (match step with 0 | 2 | 6 => 3000 | 5 => 2000 | _ => 1000 end) (next_step step false)
  end.

Lemma cloud_turn_exchange t step w : buf_ok (w_buf w) -> 0 <= step <= 6 ->
  exchanged step w (after step) (cloud_turn esp at_cmd_buf json_buf t step w).
Proof.
  intros Hb Hs. assert (step = 0 \/ step = 1 \/ step = 2 \/ step = 3 \/ step = 4 \/ step = 5 \/ step = 6) as D by lia.
  destruct D as [->|[->|[->|[->|[->|[->| ->]]]]]].
  - by apply (exchange_plain 0).
  - by apply (exchange_plain 1).
  - apply (exchange_formatted 2); [done..|cbn; lia].
  - by apply (exchange_plain 3).
  - apply (exchange_formatted_err 4); [done..|cbn; lia].
  - apply (exchange_formatted_err 5); [done..|cbn; lia].
  - apply (exchange_formatted 6); [done..|cbn; lia].
Qed.

Lemma after_next step r w : 0 <= step <= 6 -> r = 0 \/ r = 1 -> world_ok w ->
  exists w' n, after step r w = Some (next_step step (negb (r =? 0)), w') /\ waited n w w' /\ world_ok w'.
Proof.
  intros Hs Hr [Ht Hl]. unfold after.
  assert (step = 0 \/ step = 1 \/ step = 2 \/ step = 3 \/ step = 4 \/ step = 5 \/ step = 6) as D by lia.
  destruct D as [->|[->|[->|[->|[->|[->| ->]]]]]], Hr as [-> | ->]; cbn [Z.eqb negb];
    (lazymatch goal with
     | |- context [bindM (rt_thread_mdelay esp ?ms)] =>
         exists (delay ms w), 1%nat;
         rewrite (bindM_some _ _ _ _ _ (mdelay_eq ms w)); split; [done|]; split; [apply delay_waited | by apply delay_ok]
     | _ => exists w, 0%nat; split; [done|]; split; [apply waited_refl | done]
     end).
Qed.

Lemma answer_bool err expect timeout w w' r : answer err expect timeout w w' r -> r = 0 \/ r = 1.
Proof. intros (n & d & _ & _ & _ & [[-> _]|[[-> _]|[-> _]]]); auto. Qed.

(** Without ERROR the result tells whether the answer is there. *)
Lemma answer_found expect timeout w w' r : answer false expect timeout w w' r -> negb (r =? 0) = contains expect (text w').
Proof. intros (n & d & _ & _ & _ & [[-> ->]|[(-> & _ & _ & ->)|(_ & ? & _)]]); done. Qed.

Lemma answer_ok err expect timeout w w' r : answer err expect timeout w w' r -> world_ok w -> world_ok w'.
Proof. intros (n & d & _ & W & [_ T] & _) [_ Hb]. by eapply waited_ok. Qed.

Lemma answer_sent err expect timeout w w' r : answer err expect timeout w w' r -> w_sent w' = w_sent w /\ w_mem w' = w_mem w.
Proof. by intros (n & d & _ & (_ & S & M & _) & _). Qed.

Lemma step_timeout_range step : 0 < step_timeout step < 2 ^ 30.
Proof. unfold step_timeout. repeat case_match; lia. Qed.

(** A modem that answers each command in the first 100 ms. *)
Definition responsive : Prop := forall sent n step, 0 <= step <= 6 ->
  contains (step_expect step) (cstr (firstn 255 (snd (esp (sent ++ [step_cmd step; clit "\r\n"]) n)))) = true.

Lemma next_step_ok step : 0 <= step <= 6 -> next_step step (negb (1 =? 0)) = step + 1.
Proof.
  intros Hs. assert (step = 0 \/ step = 1 \/ step = 2 \/ step = 3 \/ step = 4 \/ step = 5 \/ step = 6) as D by lia.
  by destruct D as [->|[->|[->|[->|[->|[->| ->]]]]]].
Qed.

(** The text after a clear: what arrived since, up to what the buffer holds,
    and behind it what the clear left. *)
Lemma text_since cmd w n w' : buf_ok (w_buf w) -> waited n (asking cmd w) w' ->
  let since := firstn 255 (arrivals (w_sent (asking cmd w)) (w_moment (asking cmd w)) n) in
  text w' = cstr (since ++ skipn (length since) (fst (w_buf (cleared w)))).
Proof.
  intros Hb (_ & _ & _ & B). unfold text. rewrite B. set (bs := arrivals _ _ _).
  destruct (clear_spec w Hb) as [_ H]. change (w_buf (asking cmd w)) with (w_buf (cleared w)).
  assert (buf_ok (w_buf (cleared w))) as Hb' by (split; [apply H|]; rewrite (ic_idx _ _ H); lia).
  rewrite (stored_front bs _ Hb'), (ic_idx _ _ H). change (255 - Z.to_nat 0)%nat with 255%nat. change (Z.to_nat 0) with 0%nat. by rewrite take_0.
Qed.

Lemma since_clear l cmd w n w' : buf_ok (w_buf w) -> waited n (asking cmd w) w' ->
  contains l (cstr (firstn 255 (arrivals (w_sent (asking cmd w)) (w_moment (asking cmd w)) n))) = true -> contains l (text w') = true.
Proof. intros Hb Hw. rewrite (text_since cmd w n w' Hb Hw). apply contains_cstr_app. Qed.

(** A byte of the text arrived during the clear or since. *)
Lemma text_arrived c cmd w n w' : buf_ok (w_buf w) -> waited n (asking cmd w) w' -> c <> 0 -> contains [c] (text w') = true ->
  In c (arrivals (w_sent w) (w_moment w) CLEAR_MOMENTS ++ arrivals (w_sent (asking cmd w)) (w_moment (asking cmd w)) n).
Proof.
  intros Hb Hw Hc Ht. rewrite (text_since cmd w n w' Hb Hw) in Ht. apply contains_spec in Ht as (x & y & E).
  assert (In c (cstr (firstn 255 (arrivals (w_sent (asking cmd w)) (w_moment (asking cmd w)) n) ++
    skipn (length (firstn 255 (arrivals (w_sent (asking cmd w)) (w_moment (asking cmd w)) n))) (fst (w_buf (cleared w)))))) as Hi
    by (rewrite E; apply in_app_iff; right; by left).
  apply cstr_incl, in_app_iff in Hi as [Hi|Hi]; apply in_app_iff; [right|left].
  - rewrite <- (take_drop 255). apply in_app_iff. by left.
  - pose proof (ic_cells _ _ (proj2 (clear_spec w Hb))) as Hz. rewrite List.Forall_forall in Hz.
    destruct (Hz c); [|done|done]. rewrite <- (take_drop (length (firstn 255 (arrivals (w_sent (asking cmd w)) (w_moment (asking cmd w)) n)))).
    apply in_app_iff. by right.
Qed.

(** Nothing arrives during the clear: the text is what arrived since. *)
Lemma text_quiet cmd w n w' : buf_ok (w_buf w) -> waited n (asking cmd w) w' -> arrivals (w_sent w) (w_moment w) CLEAR_MOMENTS = [] ->
  text w' = cstr (firstn 255 (arrivals (w_sent (asking cmd w)) (w_moment (asking cmd w)) n)).
Proof.
  intros Hb Hw Hq. rewrite (text_since cmd w n w' Hb Hw). set (new := firstn 255 _).
  pose proof (ic_cells _ _ (proj2 (clear_spec w Hb))) as Hz. rewrite Hq in Hz.
  apply cstr_app_zero. apply Forall_drop. eapply Forall_impl; [exact Hz|]. intros c [?|[]]. done.
Qed.

Lemma cloud_turn_responsive t step w : responsive -> 0 <= step <= 6 -> world_ok w ->
  exists w', cloud_turn esp at_cmd_buf json_buf t step w = Some (step + 1, w') /\ world_ok w' /\
    w_sent w' = w_sent w ++ [step_cmd step; clit "\r\n"].
Proof.
  intros Hr Hs Hw. destruct (cloud_turn_exchange t step w (proj2 Hw) Hs) as (m' & _ & ->).
  set (w0 := asking (step_cmd step) (with_mem m' w)). unfold poll_fuel.
  pose proof (asking_ok (step_cmd step) (with_mem m' w) Hw) as Hw0. pose proof (asking_tick (step_cmd step) (with_mem m' w) (proj2 Hw)) as T0.
  pose proof (asking_sent (step_cmd step) (with_mem m' w) (proj2 Hw)) as S0. fold w0 in Hw0, T0, S0. cbn [with_mem w_sent w_tick] in S0, T0.
  pose proof (waited_trans _ _ _ _ _ (delay_waited 100 w0) (receive_waited (delay 100 w0))) as W.
  assert (world_ok (receive (delay 100 w0))) as Hw1 by (apply receive_ok, delay_ok, Hw0).
  rewrite (poll_answered (step_err step) _ (w_tick w) (step_expect step) (step_timeout step) w0).
  - destruct (after_next step 1 _ Hs ltac:(auto) Hw1) as (w' & n & -> & (_ & S & _) & Ok).
    exists w'. rewrite next_step_ok by done. split; [done|]. split; [done|]. rewrite S. destruct W as (_ & -> & _). exact S0.
  - pose proof (step_timeout_range step). lia.
  - rewrite T0, u32_small; [done|apply Hw].
  - apply (since_clear _ (step_cmd step) (with_mem m' w) (1 + 1) _ (proj2 Hw)); [exact W|]. fold w0. rewrite arrivals_add, firstn_app.
    apply contains_cstr_app. unfold arrivals. cbn [seq map concat]. rewrite app_nil_r, S0. by apply Hr.
  - destruct Hw as [Hw _]. unfold is_u32 in Hw. lia.
Qed.

Definition pub_cmd (len : Z) : list Z :=
  clit "AT+MQTTPUBRAW=0,`$oc/devices/6abf5210e094d61592745069_1776006881/sys/properties/report`," ++ dec len ++ clit ",0,0".

Lemma sformat_pub z : is_s32 z ->
  sformat (clit "AT+MQTTPUBRAW=0,`%s`,%d,0,0") [AStr HW_MQTT_TOPIC_REPORT; AInt z] = Some (pub_cmd z).
Proof.
  intros. assert (forall topic, sformat (clit "AT+MQTTPUBRAW=0,`%s`,%d,0,0") [AStr topic; AInt z]
    = Some (clit "AT+MQTTPUBRAW=0,`" ++ topic ++ clit "`," ++ dec z ++ clit ",0,0")) as E
    by (intros topic; fmt_eval; by rewrite s32_small).
  rewrite E. reflexivity.
Qed.

Definition DISCONNECTED : list Z := clit "MQTTDISCONNECTED".

Context (Hjson : 0 <= json_buf) (Hjson' : json_buf + CLOUD_JSON_SIZE < 2 ^ 32)
        (Hdisj : json_buf + CLOUD_JSON_SIZE <= at_cmd_buf \/ at_cmd_buf + 256 <= json_buf).

(** The report built and announced: where the wait for the prompt starts. *)
Lemma cloud_report_announce t w : buf_ok (w_buf w) -> telemetry_ok t -> readings_ok t ->
  exists m', cstr (mem_read m' json_buf 600) = cloud_text t /\
    forall k : Z -> M world Z,
    bindM (fun w =>
      match build_cloud_json json_buf t (J 0 (w_mem w)) with
      | None => None
      | Some (n, s) => Some (n, World (w_tick w) (w_moment w) (w_buf w) (w_sent w) (j_mem s))
      end) (fun json_len =>
    bindM (snprintf at_cmd_buf AT_CMD_SIZE "AT+MQTTPUBRAW=0,`%s`,%d,0,0" [AStr HW_MQTT_TOPIC_REPORT; AInt json_len]) (fun _ =>
    bindM (uart4_buffer_clear esp) (fun _ => bindM (at_cmd at_cmd_buf) (fun cmd =>
    bindM (uart4_send cmd) (fun _ => bindM (uart4_send (clit "\r\n")) (fun _ =>
    bindM (wait_response esp (clit ">") 3000) k)))))) w
    = bindM (wait_response esp (clit ">") 3000) k
        (asking (pub_cmd (Z.of_nat (length (cloud_text t)))) (with_mem m' w)).
Proof.
  intros Hb Hok Hr. pose proof (cloud_text_length t Hok Hr) as Hl.
  destruct (build_cloud_json_spec json_buf (w_mem w) t Hok Hr Hjson Hjson') as (mj & Ej & Tj & Nj & _).
  set (n := length (cloud_text t)) in *. unfold CLOUD_JSON_SIZE in *.
  destruct (announce at_cmd_buf "AT+MQTTPUBRAW=0,`%s`,%d,0,0" [AStr HW_MQTT_TOPIC_REPORT; AInt (Z.of_nat n)]
    (pub_cmd (Z.of_nat n)) (with_mem mj w)) as (m' & Hx & Ea); try done.
  { apply sformat_pub. unfold is_s32. lia. }
  { unfold pub_cmd. apply Forall_app; split; [by apply no_nul_spec|].
    apply Forall_app; split; [apply dec_no_nul | by apply no_nul_spec]. }
  { unfold pub_cmd. pose proof (dec_length (Z.of_nat n)). rewrite !length_app.
    change (length (clit "AT+MQTTPUBRAW=0,`$oc/devices/6abf5210e094d61592745069_1776006881/sys/properties/report`,")) with 88%nat.
    change (length (clit ",0,0")) with 4%nat. lia. }
  exists m'. split.
  - cbn [w_mem with_mem] in Hx. apply cstr_mem_read; [by apply cloud_text_no_nul | lia | |].
    + rewrite (mem_read_ext _ mj); [done|]. intros x Hin. apply Hx. fold n in Hin. lia.
    + fold n. rewrite Hx by lia. done.
  - intros k. unfold bindM at 1. rewrite Ej. cbn [j_mem]. fold (with_mem mj w). by rewrite Ea.
Qed.
End Steps.

(* ------------------------------------------------------------------ *)
(** ** Properties *)

(** The state in which the wait of an exchange starts, its buffer cleared and
    its command sent. *)
Definition started (cmd : list Z) (w w0 : world) : Prop :=
  w_tick w0 = w_tick w /\ w_sent w0 = w_sent w ++ [cmd; clit "\r\n"] /\
  w_moment w0 = (w_moment w + CLEAR_MOMENTS)%nat /\ snd (w_buf w0) = 0.

Lemma asking_started esp cmd w : buf_ok (w_buf w) -> started cmd w (asking esp cmd w).
Proof.
  intros Hb. destruct (clear_spec esp w Hb) as [_ H]. unfold started. rewrite asking_tick, asking_sent by done.
  split_and!; try done; apply H.
Qed.

(** Every turn of the connection steps 0 to 6 ends, sends exactly its
    command, waits for its answer until it comes, ERROR comes where that
    counts, or the time is up, and goes to the step the answer decides. *)
Theorem cloud_connect_step esp at_cmd_buf json_buf t step w :
  timely esp -> 0 <= at_cmd_buf -> at_cmd_buf + 256 < 2 ^ 32 -> 0 <= step <= 6 -> world_ok w ->
  exists r w0 w1 w',
    started (step_cmd step) w w0 /\
    answer esp (step_err step) (step_expect step) (step_timeout step) w0 w1 r /\
    cloud_turn esp at_cmd_buf json_buf t step w = Some (next_step step (negb (r =? 0)), w') /\
    w_sent w' = w_sent w0 /\ world_ok w'.
Proof.
  intros Ht H0 H1 Hs Hw. destruct (cloud_turn_exchange esp at_cmd_buf json_buf H0 H1 t step w (proj2 Hw) Hs) as (m' & _ & E).
  pose proof (asking_ok esp (step_cmd step) (with_mem m' w) Hw) as Hw0.
  pose proof (asking_started esp (step_cmd step) (with_mem m' w) (proj2 Hw)) as St.
  set (w0 := asking esp (step_cmd step) (with_mem m' w)) in *.
  destruct (poll_answer esp (step_err step) (step_expect step) (step_timeout step) w0 Ht (step_timeout_range step) Hw0) as (r & w1 & Ep & A).
  assert (w_tick w0 = w_tick w) as T by apply St. rewrite T in Ep. rewrite Ep in E.
  destruct (after_next esp step r w1 Hs (answer_bool _ _ _ _ _ _ _ A) (answer_ok _ _ _ _ _ _ _ A Hw0)) as (w' & n & Ea & (_ & S & _) & Ok).
  exists r, w0, w1, w'. rewrite E, Ea, S. split; [exact St|]. split; [done|]. split; [done|]. split; [apply (answer_sent _ _ _ _ _ _ _ A)|done].
Qed.

Definition world0 : world := World 4294967000 0 (repeat 0 256, 0) [] (fun _ => 0).

Lemma world0_ok : world_ok world0.
Proof. split; [unfold is_u32; cbn; lia|]. split; [reflexivity|cbn; lia]. Qed.

Lemma cloud_connect_step_witness :
  exists r w0 w1 w',
    started (step_cmd 5) world0 w0 /\
    answer (fun _ _ => (3, [])) (step_err 5) (step_expect 5) (step_timeout 5) w0 w1 r /\
    cloud_turn (fun _ _ => (3, [])) 0x20000000 0x20001000 sample_telemetry 5 world0 = Some (next_step 5 (negb (r =? 0)), w') /\
    w_sent w' = w_sent w0 /\ world_ok w'.
Proof.
  apply (cloud_connect_step (fun _ _ => (3, [])) 0x20000000 0x20001000 sample_telemetry 5 world0);
    [intros ? ?; cbn; lia | lia | reflexivity | lia | apply world0_ok].
Defined.

(** C34: from start-up the node gets online: with a modem that answers each
    command promptly, seven turns of the thread take it to the reporting step,
    having sent exactly the seven connection commands in order. *)
Theorem cloud_goes_online esp at_cmd_buf json_buf ts w :
  responsive esp -> 0 <= at_cmd_buf -> at_cmd_buf + 256 < 2 ^ 32 -> length ts = 7%nat -> buf_ok (w_buf w) ->
  exists w', huawei_cloud_thread_entry esp at_cmd_buf json_buf ts w = Some (7, w') /\ world_ok w' /\
    w_sent w' = w_sent w ++ concat (map (fun step => [step_cmd step; clit "\r\n"]) [0; 1; 2; 3; 4; 5; 6]).
Proof.
  intros Hr H0 H1 Hl Hb. unfold huawei_cloud_thread_entry. rewrite (bindM_some _ _ _ _ _ (mdelay_eq esp 1000 w)).
  pose proof (delay_ok esp 1000 w Hb) as Hw. destruct (delay_waited esp 1000 w) as (_ & S0 & _).
  rewrite <- S0. revert Hw. generalize (delay esp 1000 w) as w0. clear S0 Hb w. intros w0 Hw.
  do 7 (destruct ts as [|? ts]; [done|]). destruct ts; [|done]. clear Hl. cbn [cloud_turns].
  destruct (cloud_turn_responsive esp at_cmd_buf json_buf H0 H1 t 0 w0 Hr ltac:(lia) Hw) as (w1 & E1 & Hw1 & S1).
  destruct (cloud_turn_responsive esp at_cmd_buf json_buf H0 H1 t0 1 w1 Hr ltac:(lia) Hw1) as (w2 & E2 & Hw2 & S2).
  destruct (cloud_turn_responsive esp at_cmd_buf json_buf H0 H1 t1 2 w2 Hr ltac:(lia) Hw2) as (w3 & E3 & Hw3 & S3).
  destruct (cloud_turn_responsive esp at_cmd_buf json_buf H0 H1 t2 3 w3 Hr ltac:(lia) Hw3) as (w4 & E4 & Hw4 & S4).
  destruct (cloud_turn_responsive esp at_cmd_buf json_buf H0 H1 t3 4 w4 Hr ltac:(lia) Hw4) as (w5 & E5 & Hw5 & S5).
  destruct (cloud_turn_responsive esp at_cmd_buf json_buf H0 H1 t4 5 w5 Hr ltac:(lia) Hw5) as (w6 & E6 & Hw6 & S6).
  destruct (cloud_turn_responsive esp at_cmd_buf json_buf H0 H1 t5 6 w6 Hr ltac:(lia) Hw6) as (w7 & E7 & Hw7 & S7).
  exists w7. rewrite (bindM_some _ _ _ _ _ E1), (bindM_some _ _ _ _ _ E2), (bindM_some _ _ _ _ _ E3),
    (bindM_some _ _ _ _ _ E4), (bindM_some _ _ _ _ _ E5), (bindM_some _ _ _ _ _ E6), (bindM_some _ _ _ _ _ E7).
  split_and!; try done. rewrite S7, S6, S5, S4, S3, S2, S1. by rewrite <- !app_assoc.
Qed.

(** A modem that says everything the steps wait for. *)
Definition chatty : modem := fun _ _ => (0, clit "OK\r\nWIFI GOT IP\r\nMQTTCONNECTED\r\n").

Lemma cloud_goes_online_witness :
  exists w', huawei_cloud_thread_entry chatty 0x20000000 0x20001000 (repeat sample_telemetry 7) world0 = Some (7, w') /\
    world_ok w' /\
    w_sent w' = w_sent world0 ++ concat (map (fun step => [step_cmd step; clit "\r\n"]) [0; 1; 2; 3; 4; 5; 6]).
Proof.
  apply (cloud_goes_online chatty 0x20000000 0x20001000 (repeat sample_telemetry 7) world0);
    [|lia | reflexivity | reflexivity | apply world0_ok].
  intros sent n step Hs. unfold step_expect. repeat case_match; try lia; reflexivity.
Defined.

(** The bytes that arrive during a clear that starts in [w], and between the
    moments of [w0] and [w1], nothing sent between them. *)
Definition during_clear (esp : modem) (w : world) : list Z := arrivals esp (w_sent w) (w_moment w) CLEAR_MOMENTS.
Definition since (esp : modem) (w0 w1 : world) : list Z := arrivals esp (w_sent w0) (w_moment w0) (w_moment w1 - w_moment w0).

Definition PROMPT : Z := 62.

(** What the wait for the prompt found, [w0] its start and [w1] its end. *)
Lemma prompt_found esp cmd w w1 r : buf_ok (w_buf w) -> answer esp false [PROMPT] 3000 (asking esp cmd w) w1 r ->
  let prompt := negb (r =? 0) in let since := since esp (asking esp cmd w) w1 in
  (contains [PROMPT] (cstr (firstn 255 since)) = true -> prompt = true) /\
  (prompt = true -> In PROMPT (during_clear esp w ++ since)) /\
  (during_clear esp w = [] -> prompt = contains [PROMPT] (cstr (firstn 255 since))).
Proof.
  intros Hb A. cbn zeta. rewrite (answer_found _ _ _ _ _ _ A). destruct A as (n & d & _ & W & _).
  assert (since esp (asking esp cmd w) w1 = arrivals esp (w_sent (asking esp cmd w)) (w_moment (asking esp cmd w)) n) as ->.
  { unfold since. destruct W as (-> & _). f_equal. lia. }
  split; [by apply since_clear|]. split; [by apply text_arrived|]. intros Hq. by rewrite (text_quiet esp cmd w n w1 Hb W Hq).
Qed.

(** What a turn of step 7 does after the wait for the prompt. *)
Lemma cloud_publish_spec esp json_buf t r w : timely esp -> world_ok w -> cstr (mem_read (w_mem w) json_buf 600) = cloud_text t ->
  exists next w2 w', cloud_publish esp json_buf r w = Some (next, w') /\
    w_sent w' = w_sent w ++ (if negb (r =? 0) then [cloud_text t] else []) /\
    (next = 7 \/ (next = 3 /\ contains DISCONNECTED (text w2) = true)) /\ waited esp 1 w2 w' /\ world_ok w'.
Proof.
  intros Ht Hw Hj. unfold cloud_publish.
  assert (forall next w2, world_ok w2 -> (next = 7 \/ (next = 3 /\ contains DISCONNECTED (text w2) = true)) ->
    exists next' w2' w', bindM (rt_thread_mdelay esp CLOUD_REPORT_INTERVAL) (fun _ => retM next) w2 = Some (next', w') /\ w_sent w' = w_sent w2 /\
      (next' = 7 \/ (next' = 3 /\ contains DISCONNECTED (text w2') = true)) /\ waited esp 1 w2' w' /\ world_ok w') as Hend.
  { intros next w2 Hw2 Hn. exists next, w2, (delay esp CLOUD_REPORT_INTERVAL w2). rewrite (bindM_some _ _ _ _ _ (mdelay_eq esp _ w2)).
    split; [done|]. split; [apply delay_waited|]. split; [done|]. split; [apply delay_waited|]. apply delay_ok, Hw2. }
  assert (forall w2, world_ok w2 -> exists next w2' w',
    bindM (bindM (recived_has esp (clit "MQTTDISCONNECTED")) (fun lost : bool => retM (if lost then 3 else 7)))
      (fun next => bindM (rt_thread_mdelay esp CLOUD_REPORT_INTERVAL) (fun _ => retM next)) w2 = Some (next, w') /\ w_sent w' = w_sent w2 /\
      (next = 7 \/ (next = 3 /\ contains DISCONNECTED (text w2') = true)) /\ waited esp 1 w2' w' /\ world_ok w') as Hlost.
  { intros w2 Hw2. rewrite bindM_assoc, (bindM_some _ _ _ _ _ (recived_has_eq esp _ w2)), bindM_retM.
    apply (Hend _ (receive esp w2)); [by apply receive_ok|]. change (clit "MQTTDISCONNECTED") with DISCONNECTED.
    destruct (contains DISCONNECTED (text (receive esp w2))); auto. }
  destruct (negb (r =? 0)); [|rewrite app_nil_r; by apply Hlost].
  unfold str_at. rewrite bindM_assoc, bindM_getM. cbn [fst snd]. rewrite Hj. unfold uart4_send. rewrite bindM_assoc, bindM_doM.
  set (w1 := World _ _ _ _ _). assert (world_ok w1) as Hw1 by done.
  destruct (wait_response_answer esp (clit "+MQTTPUB:OK") 5000 w1 Ht ltac:(lia) Hw1) as (r2 & w2 & E2 & A2).
  rewrite bindM_assoc, (bindM_some _ _ _ _ _ E2). pose proof (answer_ok _ _ _ _ _ _ _ A2 Hw1) as Hw2.
  change (w_sent w ++ [cloud_text t]) with (w_sent w1). rewrite <- (proj1 (answer_sent _ _ _ _ _ _ _ A2)).
  destruct (negb (r2 =? 0)); [|by apply Hlost]. rewrite bindM_retM. apply Hend; auto.
Qed.

(** C3: a report is published as announced: its command carries the exact
    length of the report; the report itself follows if the prompt is in the text
    received since the buffer was cleared for the command, and only if a prompt
    was received since or during that clear ([uart4_buffer_clear] zeroes 256 cells and then
    resets the index, without a lock, and a byte stored in between survives: cf.
    [Uart.uart_clear_race_false_ok]), so that it is "if and only if" whenever
    nothing arrives during the clear; without it the wait lasts its 3000 ms; and
    the machine leaves the reporting step only after a disconnection message. *)
Theorem cloud_report_published esp at_cmd_buf json_buf t w :
  timely esp -> telemetry_ok t -> readings_ok t -> world_ok w ->
  0 <= at_cmd_buf -> at_cmd_buf + 256 < 2 ^ 32 -> 0 <= json_buf -> json_buf + CLOUD_JSON_SIZE < 2 ^ 32 ->
  json_buf + CLOUD_JSON_SIZE <= at_cmd_buf \/ at_cmd_buf + 256 <= json_buf ->
  exists r w0 w1 w2 next w', let prompt := negb (r =? 0) in
    started (pub_cmd (Z.of_nat (length (cloud_text t)))) w w0 /\
    answer esp false [PROMPT] 3000 w0 w1 r /\
    cloud_report esp at_cmd_buf json_buf t w = Some (next, w') /\
    w_sent w' = w_sent w0 ++ (if prompt then [cloud_text t] else []) /\
    (contains [PROMPT] (cstr (firstn 255 (since esp w0 w1))) = true -> prompt = true) /\
    (prompt = true -> In PROMPT (during_clear esp w ++ since esp w0 w1)) /\
    (during_clear esp w = [] -> prompt = contains [PROMPT] (cstr (firstn 255 (since esp w0 w1)))) /\
    (next = 7 \/ (next = 3 /\ contains DISCONNECTED (text w2) = true)) /\
    waited esp 1 w2 w' /\ world_ok w'.
Proof.
  intros Ht Hok Hr Hw A0 A1 J0 J1 D.
  destruct (cloud_report_announce esp at_cmd_buf json_buf A0 A1 J0 J1 D t w (proj2 Hw) Hok Hr) as (m' & Hj & E).
  unfold cloud_report. rewrite E. clear E.
  pose proof (asking_ok esp (pub_cmd (Z.of_nat (length (cloud_text t)))) (with_mem m' w) Hw) as Hw0.
  pose proof (asking_started esp (pub_cmd (Z.of_nat (length (cloud_text t)))) (with_mem m' w) (proj2 Hw)) as St.
  destruct (wait_response_answer esp (clit ">") 3000 _ Ht ltac:(lia) Hw0) as (r & w1 & E1 & A).
  rewrite (bindM_some _ _ _ _ _ E1). destruct (answer_sent _ _ _ _ _ _ _ A) as [S1 M1].
  destruct (cloud_publish_spec esp json_buf t r w1 Ht (answer_ok _ _ _ _ _ _ _ A Hw0)) as (next & w2 & w' & E2 & S2 & Hn & W & Ok); [by rewrite M1, asking_mem by apply Hw|].
  destruct (prompt_found esp _ (with_mem m' w) w1 r (proj2 Hw) A) as (P1 & P2 & P3).
  exists r, (asking esp (pub_cmd (Z.of_nat (length (cloud_text t)))) (with_mem m' w)), w1, w2, next, w'. cbn zeta.
  split; [exact St|]. split; [exact A|]. split; [exact E2|]. split; [by rewrite S2, S1|]. auto 10.
Qed.

Lemma cloud_report_published_witness :
  exists r w0 w1 w2 next w',
    started (pub_cmd (Z.of_nat (length (cloud_text sample_telemetry)))) world0 w0 /\
    cloud_report (fun sent _ => (0, match sent with [] => [] | _ => clit ">" end)) 0x20000000 0x20001000 sample_telemetry world0 = Some (next, w') /\
    w_sent w' = w_sent w0 ++ (if negb (r =? 0) then [cloud_text sample_telemetry] else []) /\
    negb (r =? 0) = contains [PROMPT] (cstr (firstn 255 (since (fun sent _ => (0, match sent with [] => [] | _ => clit ">" end)) w0 w1))) /\
    (next = 7 \/ (next = 3 /\ contains DISCONNECTED (text w2) = true)).
Proof.
  destruct (cloud_report_published (fun sent _ => (0, match sent with [] => [] | _ => clit ">" end)) 0x20000000 0x20001000 sample_telemetry world0)
    as (r & w0 & w1 & w2 & next & w' & H1 & _ & H3 & H4 & _ & _ & H7 & H8 & _);
    try (apply sample_telemetry_ok); try apply world0_ok; try reflexivity; try lia.
  - intros ? ?. cbn. lia.
  - exists r, w0, w1, w2, next, w'. split; [exact H1|]. split; [exact H3|]. split; [exact H4|]. split; [|exact H8]. apply H7. vm_compute. reflexivity.
Defined.

(** The window of the clear is real: a prompt that arrives between the last
    cell and the reset of the index, the modem silent from then on, and the
    report is sent. *)
Definition late_prompt : modem := fun _ n => (0, if (n =? UART4_RECIVED_DATA_SIZE)%nat then [PROMPT] else []).

Theorem stale_prompt_publishes : exists w',
  cloud_report late_prompt 0x20000000 0x20001000 sample_telemetry world0 = Some (7, w') /\
  w_sent w' = [pub_cmd (Z.of_nat (length (cloud_text sample_telemetry))); clit "\r\n"; cloud_text sample_telemetry].
Proof. eexists. split; [vm_compute; reflexivity|vm_compute; reflexivity]. Qed.
