(* ===== verification/EthApp.v ===== *)
(** * The Ethernet uplink: the TCP client thread

    applications/ethApp.c: the connection to the server, the report every three
    seconds and the reconnection after three failed sends, over the report
    builder of Report.v.

    The network is a parameter: the reply to a socket call is a function of the
    calls made so far, with their replies, and of the call itself.  A run leaves
    the log of its calls; delays are entries of the log too. *)

From Stdlib Require Import ZArith Lia String.
From stdpp Require Import base numbers list.
From S2P Require Import Prelude Memory Printf Report.
Open Scope c_scope.

Definition ETH_SERVER_IP : list Z := clit "192.168.3.10".
Definition ETH_SERVER_PORT : Z := 19008.
Definition ETH_REPORT_INTERVAL : Z := 3000.
Definition ETH_RECONNECT_DELAY : Z := 5000.

(** <sys/socket.h> *)
Definition AF_INET : Z := 2.
Definition SOCK_STREAM : Z := 1.
Definition htons (x : Z) : Z := Z.lor (Z.shiftl (Z.land x 0xff) 8) (Z.shiftr (Z.land x 0xff00) 8).

Record sockaddr_in := SockaddrIn { sin_family : Z; sin_port : Z; sin_addr : Z }.

Inductive call :=
  | CSocket (domain type protocol : Z)
  | CConnect (sock : Z) (addr : sockaddr_in)
  | CSend (sock : Z) (data : list Z)
  | CClosesocket (sock : Z)
  | CDelay (ms : Z).

Definition log := list (call * Z).

(** The globals of ethApp.c, the counter of its thread, the memory. *)
Record eth := Eth { e_log : log; eth_sock : Z; fail_count : Z; e_mem : memory }.

Section Eth.
Context (net : log -> call -> Z) (inet_addr : list Z -> Z) (eth_json_buf : Z).

Definition syscall (c : call) : M eth Z := fun s =>
  let r := net (e_log s) c in
  Some (r, Eth (e_log s ++ [(c, r)]) (eth_sock s) (fail_count s) (e_mem s)).

Definition set_sock (fd : Z) : M eth unit := doM (fun s => Eth (e_log s) fd (fail_count s) (e_mem s)).
Definition set_fails (n : Z) : M eth unit := doM (fun s => Eth (e_log s) (eth_sock s) n (e_mem s)).

Definition eth_tcp_connect : M eth Z :=
  let! sock := syscall (CSocket AF_INET SOCK_STREAM 0) in
  if sock <? 0 then retM (-1)
  else
    let server_addr := SockaddrIn AF_INET (htons ETH_SERVER_PORT) (inet_addr ETH_SERVER_IP) in
    let! r := syscall (CConnect sock server_addr) in
    if r <? 0 then
      do! syscall (CClosesocket sock) in
      retM (-1)
    else retM sock.

(** The report of the readings [t] in [eth_json_buf]: its length. *)
Definition build (t : telemetry) : M eth Z := fun s =>
  match build_sensor_json eth_json_buf t (J 0 (e_mem s)) with
  | None => None
  | Some (n, j) => Some (n, Eth (e_log s) (eth_sock s) (fail_count s) (j_mem j))
  end.

Definition json_bytes (len : Z) : M eth (list Z) :=
  getM (fun s => (mem_read (e_mem s) eth_json_buf (Z.to_nat len), s)).

(** Report and count the failures, for a socket that is open. *)
Definition eth_report (t : telemetry) : M eth unit :=
  let! len := build t in
  let! data := json_bytes len in
  let! sock := getM (fun s => (eth_sock s, s)) in
  let! ret := syscall (CSend sock data) in
  do! (if ret <=? 0 then
         let! n := getM (fun s => (fail_count s, s)) in
         do! set_fails (n + 1) in
         if 3 <=? n + 1 then
           do! syscall (CClosesocket sock) in
           set_sock (-1)
         else retM tt
       else set_fails 0) in
  do! syscall (CDelay ETH_REPORT_INTERVAL) in
  retM tt.

(** A turn of the loop of [eth_client_thread_entry]. *)
Definition eth_turn (t : telemetry) : M eth unit :=
  let! sock := getM (fun s => (eth_sock s, s)) in
  if sock <? 0 then
    let! fd := eth_tcp_connect in
    do! set_sock fd in
    if fd <? 0 then
      do! syscall (CDelay ETH_RECONNECT_DELAY) in
      retM tt
    else
      do! set_fails 0 in
      eth_report t
  else eth_report t.

Fixpoint eth_turns (ts : list telemetry) : M eth unit :=
  match ts with
  | [] => retM tt
  | t :: r => do! eth_turn t in eth_turns r
  end.

(** [ts] are the readings at the successive turns. *)
Definition eth_client_thread_entry (ts : list telemetry) : M eth unit :=
  do! syscall (CDelay 8000) in
  eth_turns ts.
End Eth.

(** The state the loader leaves: no socket. *)
Definition eth_start (m : memory) : eth := Eth [] (-1) 0 m.

(** [eth_app_init]: its result and whether the thread was started. *)
Definition eth_app_init (created : bool) : Z * bool :=
  if created then (RT_EOK, true) else (- RT_ERROR, false).

(* ------------------------------------------------------------------ *)
(** ** What a log means *)

(** The sockets open after a log. *)
Definition open_step (fds : list Z) (e : call * Z) : list Z :=
  match e with
  | (CSocket _ _ _, r) => if r <? 0 then fds else r :: fds
  | (CClosesocket fd, _) => List.filter (fun x => negb (x =? fd)) fds
  | _ => fds
  end.

Definition open_sockets (l : log) : list Z := fold_left open_step l [].

(** The sockets connected after a log: a successful connect, not closed since. *)
Definition connected_step (fds : list Z) (e : call * Z) : list Z :=
  match e with
  | (CConnect fd _, r) => if r <? 0 then fds else fd :: fds
  | (CClosesocket fd, _) => List.filter (fun x => negb (x =? fd)) fds
  | _ => fds
  end.

Definition connected (l : log) : list Z := fold_left connected_step l [].

(** Every send of a log is on a socket that is connected at that point. *)
Definition sends_connected (l : log) : Prop := forall l1 l2 fd data r,
  l = l1 ++ (CSend fd data, r) :: l2 -> In fd (connected l1).

(** What the network took, send by send ([send] returns how many of the bytes),
    and the milliseconds a log spent in delays. *)
Definition delivered_step (e : call * Z) : list (list Z) :=
  match e with (CSend _ data, r) => if r <=? 0 then [] else [take (Z.to_nat r) data] | _ => [] end.
Definition delivered (l : log) : list (list Z) := flat_map delivered_step l.

Definition waited_ms (l : log) : Z :=
  fold_right (fun e a => match fst e with CDelay ms => ms + a | _ => a end) 0 l.

(* ------------------------------------------------------------------ *)
(** ** Logs grow at their end *)

Lemma open_sockets_app l l' : open_sockets (l ++ l') = fold_left open_step l' (open_sockets l).
Proof. apply fold_left_app. Qed.

Lemma connected_app l l' : connected (l ++ l') = fold_left connected_step l' (connected l).
Proof. apply fold_left_app. Qed.

Lemma delivered_app l1 l2 : delivered (l1 ++ l2) = delivered l1 ++ delivered l2.
Proof. apply flat_map_app. Qed.

Lemma waited_ms_app l1 l2 : waited_ms (l1 ++ l2) = waited_ms l1 + waited_ms l2.
Proof.
  induction l1 as [|[c r] l IH]; [done|].
  cbn [app waited_ms fold_right fst]. fold (waited_ms l) (waited_ms (l ++ l2)). rewrite IH.
  destruct c; lia.
Qed.

(** The sends of a piece of a log, from the sockets connected before it. *)
Fixpoint sends_from (fds : list Z) (l : log) : Prop :=
  match l with
  | [] => True
  | e :: r => match e with (CSend fd _, _) => In fd fds | _ => True end /\ sends_from (connected_step fds e) r
  end.

Lemma sends_connected_app l new : sends_connected l -> sends_from (connected l) new -> sends_connected (l ++ new).
Proof.
  revert l. induction new as [|e r IH]; intros l Hl H; [by rewrite app_nil_r|].
  rewrite cons_middle, app_assoc. destruct H as [He Hr]. apply IH; [|by rewrite connected_app].
  intros l1 l2 fd data ret E. destruct l2 as [|x l2 _] using rev_ind.
  - apply app_inj_tail in E as [<- ->]. done.
  - rewrite app_comm_cons, app_assoc in E. apply app_inj_tail in E as [-> _]. by eapply Hl.
Qed.

Lemma filter_self fd : List.filter (fun x => negb (x =? fd)) [fd] = [].
Proof. cbn. by rewrite Z.eqb_refl. Qed.

(** A turn of the thread, call by call. *)
Section Turns.
Context (net : log -> call -> Z) (inet_addr : list Z -> Z) (eth_json_buf : Z).
Context (Hbuf : 0 <= eth_json_buf) (Hbuf' : eth_json_buf + ETH_JSON_SIZE < 2 ^ 32).

Abbreviation turn := (eth_turn net inet_addr eth_json_buf).
Abbreviation turns := (eth_turns net inet_addr eth_json_buf).
Abbreviation report := (eth_report net eth_json_buf).
Abbreviation addr := (SockaddrIn AF_INET (htons ETH_SERVER_PORT) (inet_addr ETH_SERVER_IP)).

Lemma bind_syscall {A} c (k : Z -> M eth A) s : bindM (syscall net c) k s
  = k (net (e_log s) c)
      (Eth (e_log s ++ [(c, net (e_log s) c)]) (eth_sock s) (fail_count s) (e_mem s)).
Proof. done. Qed.

Lemma bind_build {A} t (k : list Z -> M eth A) s : telemetry_ok t -> readings_ok t ->
  exists m', bindM (build eth_json_buf t) (fun len => bindM (json_bytes eth_json_buf len) (fun data => k data)) s
    = k (eth_text t) (Eth (e_log s) (eth_sock s) (fail_count s) m').
Proof.
  intros Hok Hr. destruct (build_sensor_json_spec eth_json_buf (e_mem s) t Hok Hr Hbuf Hbuf') as (m' & E & T & _).
  exists m'. unfold bindM at 1, build. rewrite E. unfold json_bytes. rewrite bindM_getM.
  cbn [fst snd j_mem e_mem]. by rewrite Nat2Z.id, T.
Qed.

(** The calls of a report and where it leaves the socket. *)
Inductive reported (fd : Z) (text : list Z) (l : log) (fails : Z) : Z -> Z -> log -> Prop :=
  | Reported r d : 0 < r -> net l (CSend fd text) = r ->
      reported fd text l fails fd 0 [(CSend fd text, r); (CDelay ETH_REPORT_INTERVAL, d)]
  | Unsent r d : r <= 0 -> net l (CSend fd text) = r -> fails < 2 ->
      reported fd text l fails fd (fails + 1) [(CSend fd text, r); (CDelay ETH_REPORT_INTERVAL, d)]
  | Dropped r c d : r <= 0 -> net l (CSend fd text) = r -> 2 <= fails ->
      reported fd text l fails (-1) (fails + 1)
        [(CSend fd text, r); (CClosesocket fd, c); (CDelay ETH_REPORT_INTERVAL, d)].

Lemma eth_report_spec t s : telemetry_ok t -> readings_ok t ->
  exists m' fd n new, report t s = Some (tt, Eth (e_log s ++ new) fd n m') /\
    reported (eth_sock s) (eth_text t) (e_log s) (fail_count s) fd n new.
Proof.
  intros Hok Hr. unfold eth_report.
  destruct (bind_build t (fun data =>
    bindM (getM (fun s => (eth_sock s, s))) (fun sock =>
    bindM (syscall net (CSend sock data)) (fun ret =>
    bindM (if ret <=? 0 then
         let! n := getM (fun s => (fail_count s, s)) in
         do! set_fails (n + 1) in
         if 3 <=? n + 1 then
           do! syscall net (CClosesocket sock) in
           set_sock (-1)
         else retM tt
       else set_fails 0) (fun _ =>
    bindM (syscall net (CDelay ETH_REPORT_INTERVAL)) (fun _ => retM tt))))) s Hok Hr) as (m' & E).
  rewrite E. clear E. rewrite bindM_getM, bind_syscall. cbn [fst snd e_log eth_sock fail_count e_mem].
  destruct (Z.leb_spec (net (e_log s) (CSend (eth_sock s) (eth_text t))) 0) as [Hle|Hgt].
  - rewrite bindM_assoc, bindM_getM, bindM_assoc. unfold set_fails at 1. rewrite bindM_doM.
    cbn [fst snd e_log eth_sock fail_count e_mem].
    destruct (Z.leb_spec 3 (fail_count s + 1)).
    + rewrite bindM_assoc, bind_syscall. unfold set_sock. rewrite bindM_doM, bind_syscall.
      cbn [e_log eth_sock fail_count e_mem]. rewrite <- !app_assoc. cbn [app].
      eexists _, _, _, _. split; [reflexivity|]. apply Dropped; [done..|lia].
    + unfold bindM at 1, retM at 1. rewrite bind_syscall. cbn [e_log eth_sock fail_count e_mem].
      rewrite <- !app_assoc. cbn [app]. eexists _, _, _, _. split; [reflexivity|]. apply Unsent; [done..|lia].
  - unfold set_fails. rewrite bindM_doM, bind_syscall. cbn [e_log eth_sock fail_count e_mem].
    rewrite <- !app_assoc. cbn [app]. eexists _, _, _, _. split; [reflexivity|]. by apply Reported.
Qed.

(** The calls of a turn without a socket, up to the report. *)
Lemma eth_turn_connects t s : eth_sock s < 0 ->
  let sk := net (e_log s) (CSocket AF_INET SOCK_STREAM 0) in
  let l1 := e_log s ++ [(CSocket AF_INET SOCK_STREAM 0, sk)] in
  let c := net l1 (CConnect sk addr) in
  let l2 := l1 ++ [(CConnect sk addr, c)] in
  turn t s =
    if sk <? 0 then
      Some (tt, Eth (l1 ++ [(CDelay ETH_RECONNECT_DELAY, net l1 (CDelay ETH_RECONNECT_DELAY))]) (-1) (fail_count s) (e_mem s))
    else if c <? 0 then
      let l3 := l2 ++ [(CClosesocket sk, net l2 (CClosesocket sk))] in
      Some (tt, Eth (l3 ++ [(CDelay ETH_RECONNECT_DELAY, net l3 (CDelay ETH_RECONNECT_DELAY))]) (-1) (fail_count s) (e_mem s))
    else report t (Eth l2 sk 0 (e_mem s)).
Proof.
  intros Hs sk l1 c l2. unfold eth_turn. rewrite bindM_getM. cbn [fst snd].
  rewrite (proj2 (Z.ltb_lt _ _)) by done. unfold eth_tcp_connect. rewrite bindM_assoc, bind_syscall.
  fold sk l1. destruct (Z.ltb_spec sk 0) as [Hk|Hk].
  - unfold bindM at 1, retM at 1. unfold set_sock. rewrite bindM_doM. reflexivity.
  - rewrite bindM_assoc, bind_syscall. cbn [e_log eth_sock fail_count e_mem]. fold c l2.
    destruct (Z.ltb_spec c 0) as [Hc|Hc].
    + rewrite bindM_assoc, bind_syscall. unfold bindM at 1, retM at 1. reflexivity.
    + unfold bindM at 1, retM at 1, set_sock, set_fails. rewrite bindM_doM.
      rewrite (proj2 (Z.ltb_ge _ _)) by done. by rewrite bindM_doM.
Qed.

Lemma eth_turn_connected t s : 0 <= eth_sock s -> turn t s = report t s.
Proof.
  intros Hs. unfold eth_turn. rewrite bindM_getM. cbn [fst snd]. by rewrite (proj2 (Z.ltb_ge _ _)).
Qed.

(* ------------------------------------------------------------------ *)
(** ** One socket at most *)

Record eth_inv (s : eth) : Prop := {
  ei_open : open_sockets (e_log s) = if eth_sock s <? 0 then [] else [eth_sock s];
  ei_conn : connected (e_log s) = if eth_sock s <? 0 then [] else [eth_sock s];
  ei_sends : sends_connected (e_log s);
  ei_fails : 0 <= fail_count s <= (if eth_sock s <? 0 then 3 else 2) }.

Lemma eth_inv_app s new fd n m' : eth_inv s -> let s' := Eth (e_log s ++ new) fd n m' in
  fold_left open_step new (open_sockets (e_log s)) = (if fd <? 0 then [] else [fd]) ->
  fold_left connected_step new (connected (e_log s)) = (if fd <? 0 then [] else [fd]) ->
  sends_from (connected (e_log s)) new -> 0 <= n <= (if fd <? 0 then 3 else 2) -> eth_inv s'.
Proof.
  intros [Ho Hc Hl Hf] s' H1 H2 H3 H4. split; cbn [s' e_log eth_sock fail_count]; try done.
  - by rewrite open_sockets_app.
  - by rewrite connected_app.
  - by apply sends_connected_app.
Qed.

Lemma reported_inv s m' text fd n new : eth_inv s -> 0 <= eth_sock s ->
  reported (eth_sock s) text (e_log s) (fail_count s) fd n new -> eth_inv (Eth (e_log s ++ new) fd n m').
Proof.
  intros Hi Hs H. pose proof (ei_open _ Hi) as Ho. pose proof (ei_conn _ Hi) as Hc. pose proof (ei_fails _ Hi) as Hf.
  assert ((eth_sock s <? 0) = false) as N by (apply Z.ltb_ge; done). rewrite N in *.
  destruct H; apply (eth_inv_app s); try done; cbn [fold_left open_step connected_step sends_from];
    rewrite ?Ho, ?Hc, ?N, ?filter_self; cbn; auto; lia.
Qed.

Lemma eth_turn_inv t s : telemetry_ok t -> readings_ok t -> eth_inv s ->
  exists s', turn t s = Some (tt, s') /\ eth_inv s'.
Proof.
  intros Hok Hr Hi. destruct (Z.lt_ge_cases (eth_sock s) 0) as [Hs|Hs].
  - pose proof (ei_open _ Hi) as Ho. pose proof (ei_conn _ Hi) as Hc. pose proof (ei_fails _ Hi) as Hf.
    assert ((eth_sock s <? 0) = true) as N by (apply Z.ltb_lt; done). rewrite N in *.
    rewrite eth_turn_connects by done. cbv zeta. set (sk := net _ _). set (l1 := e_log s ++ _).
    set (c := net l1 (CConnect sk addr)).
    destruct (Z.ltb_spec sk 0) as [Hk|Hk]; [|destruct (Z.ltb_spec c 0) as [Hc'|Hc']].
    + eexists. split; [reflexivity|]. unfold l1. rewrite <- app_assoc. apply (eth_inv_app s); try done;
        cbn [fold_left open_step connected_step sends_from app]; rewrite ?Ho, ?Hc; try done.
      by rewrite (proj2 (Z.ltb_lt _ _)).
    + eexists. split; [reflexivity|]. unfold l1. rewrite <- !app_assoc. apply (eth_inv_app s); try done;
        cbn [fold_left open_step connected_step sends_from app]; rewrite ?Ho, ?Hc; try done.
      * by rewrite (proj2 (Z.ltb_ge _ _)), filter_self by done.
      * fold l1. fold c. by rewrite (proj2 (Z.ltb_lt _ _)).
    + set (s2 := Eth _ _ _ _).
      assert (eth_inv s2) as Hi2.
      { unfold s2, l1. rewrite <- !app_assoc. apply (eth_inv_app s); try done;
          cbn [fold_left open_step connected_step sends_from app]; rewrite ?Ho, ?Hc; fold l1; fold c;
          rewrite ?(proj2 (Z.ltb_ge sk 0)), ?(proj2 (Z.ltb_ge c 0)) by done; done || lia. }
      destruct (eth_report_spec t s2 Hok Hr) as (m' & fd & n & new & E & R).
      eexists. split; [exact E|]. by eapply reported_inv.
  - rewrite eth_turn_connected by done. destruct (eth_report_spec t s Hok Hr) as (m' & fd & n & new & E & R).
    eexists. split; [exact E|]. by eapply reported_inv.
Qed.

Lemma eth_turns_inv ts s : Forall (fun t => telemetry_ok t /\ readings_ok t) ts -> eth_inv s ->
  exists s', turns ts s = Some (tt, s') /\ eth_inv s'.
Proof.
  intros Hts. revert s. induction Hts as [|t ts [Hok Hr] _ IH]; intros s Hi; [by exists s|].
  destruct (eth_turn_inv t s Hok Hr Hi) as (s1 & E & Hi1). destruct (IH s1 Hi1) as (s' & E' & Hi').
  exists s'. split; [|done]. cbn [eth_turns]. by rewrite (bindM_some _ _ _ _ _ E).
Qed.

Lemma eth_start_inv m : eth_inv (eth_start m).
Proof.
  split; try done. intros l1 l2 fd data r E. by destruct l1.
Qed.

Lemma eth_entry_inv ts m : Forall (fun t => telemetry_ok t /\ readings_ok t) ts ->
  exists s, eth_client_thread_entry net inet_addr eth_json_buf ts (eth_start m) = Some (tt, s) /\ eth_inv s.
Proof.
  intros Hts. unfold eth_client_thread_entry. rewrite bind_syscall. apply eth_turns_inv; [done|].
  apply (eth_inv_app (eth_start m)); try done. apply eth_start_inv.
Qed.

(* ------------------------------------------------------------------ *)
(** ** Recovery *)

(** From the log [l0] on the server accepts connections, and a socket that
    was connected since takes every report whole. *)
Definition healthy (l0 : log) : Prop := forall new,
  0 <= net (l0 ++ new) (CSocket AF_INET SOCK_STREAM 0) /\
  (forall fd, 0 <= net (l0 ++ new) (CConnect fd addr)) /\
  (forall fd data, In fd (connected new) -> net (l0 ++ new) (CSend fd data) = Z.of_nat (length data)).

(** The socket [fd] is dead: sends on it fail until it is connected anew. *)
Definition dead (l0 : log) (fd : Z) : Prop := forall new data,
  ~ In fd (connected new) -> net (l0 ++ new) (CSend fd data) <= 0.

Lemma eth_text_nonempty t : (0 < length (eth_text t))%nat.
Proof. unfold eth_text. rewrite length_app. cbn. lia. Qed.

(** Turns that deliver every report, one per interval. *)
Definition delivers (ts : list telemetry) (s : eth) (lost : nat) : Prop :=
  exists s' new, turns ts s = Some (tt, s') /\ e_log s' = e_log s ++ new /\
    delivered new = map eth_text (skipn lost ts) /\
    waited_ms new = ETH_REPORT_INTERVAL * Z.of_nat (length ts).

Definition ts_ok : list telemetry -> Prop := Forall (fun t => telemetry_ok t /\ readings_ok t).

(** A turn in front of turns that deliver. *)
Lemma delivers_cons t ts s s1 new (lost : nat) : turn t s = Some (tt, s1) -> e_log s1 = e_log s ++ new ->
  delivered new = map eth_text (skipn lost [t]) -> waited_ms new = ETH_REPORT_INTERVAL ->
  delivers ts s1 (lost - 1) -> delivers (t :: ts) s lost.
Proof.
  intros E L D W (s' & new' & E' & L' & D' & W'). exists s', (new ++ new').
  split_and!.
  - cbn [eth_turns]. by rewrite (bindM_some _ _ _ _ _ E).
  - by rewrite L', L, app_assoc.
  - rewrite delivered_app, D, D'. destruct lost as [|n]; [done|]. cbn [skipn]. rewrite skipn_nil.
    cbn [map app]. by rewrite Nat.sub_succ, Nat.sub_0_r.
  - rewrite waited_ms_app, W, W'. cbn [length]. lia.
Qed.

Lemma delivers_connected l0 ts : healthy l0 -> ts_ok ts -> forall s mid, e_log s = l0 ++ mid ->
  0 <= eth_sock s -> In (eth_sock s) (connected mid) -> delivers ts s 0.
Proof.
  intros Hh Hts. induction Hts as [|t ts [Hok Hr] _ IH]; intros s mid L Hs Hin.
  - exists s, []. by rewrite app_nil_r.
  - destruct (eth_report_spec t s Hok Hr) as (m' & fd & n & new & E & R).
    assert (net (e_log s) (CSend (eth_sock s) (eth_text t)) = Z.of_nat (length (eth_text t))) as Hall by (rewrite L; by apply Hh).
    pose proof (eth_text_nonempty t) as Hpos. destruct R as [r d Hr0 Er|r d Hr0 Er|r c d Hr0 Er]; [|lia..].
    eapply delivers_cons; [by rewrite eth_turn_connected | done | | done |].
    + cbn. rewrite (proj2 (Z.leb_gt _ _)) by done. by rewrite <- Er, Hall, Nat2Z.id, firstn_all.
    + eapply (IH _ (mid ++ [(CSend (eth_sock s) (eth_text t), r); (CDelay ETH_REPORT_INTERVAL, d)]));
        cbn [e_log eth_sock]; [by rewrite L, app_assoc | done | by rewrite connected_app].
Qed.

Lemma delivers_reconnect l0 t ts s mid : healthy l0 -> ts_ok (t :: ts) -> e_log s = l0 ++ mid ->
  eth_sock s < 0 -> delivers (t :: ts) s 0.
Proof.
  intros Hh Hts L Hs. apply Forall_cons in Hts as [[Hok Hr] Hts].
  pose proof (eth_turn_connects t s Hs) as E. cbv zeta in E.
  set (sk := net (e_log s) _) in *. set (l1 := e_log s ++ [_]) in *. set (c := net l1 (CConnect sk addr)) in *.
  assert (0 <= sk) as Hk by (unfold sk; rewrite L; apply Hh).
  assert (0 <= c) as Hc by (unfold c, l1; rewrite L, <- app_assoc; apply Hh).
  rewrite !(proj2 (Z.ltb_ge _ _)) in E by done. set (s2 := Eth _ _ _ _) in E.
  assert (e_log s2 = l0 ++ mid ++ [(CSocket AF_INET SOCK_STREAM 0, sk); (CConnect sk addr, c)]) as L2
    by (unfold s2, l1; cbn [e_log]; by rewrite L, <- !app_assoc).
  assert (In sk (connected (mid ++ [(CSocket AF_INET SOCK_STREAM 0, sk); (CConnect sk addr, c)]))) as Hin.
  { rewrite connected_app. cbn. rewrite (proj2 (Z.ltb_ge _ _)) by done. by left. }
  destruct (delivers_connected l0 (t :: ts) Hh ltac:(by constructor) s2 _ L2 Hk Hin) as (s' & new & E' & Ln & D & W).
  exists s', ([(CSocket AF_INET SOCK_STREAM 0, sk); (CConnect sk addr, c)] ++ new). split_and!.
  - rewrite <- E'. cbn [eth_turns]. unfold bindM. by rewrite E, (eth_turn_connected t s2).
  - by rewrite Ln, L2, L, <- !app_assoc.
  - by rewrite delivered_app, D.
  - by rewrite waited_ms_app, W.
Qed.

(** The reports lost before the thread gives its socket up. *)
Definition lost_reports (s : eth) : nat := if eth_sock s <? 0 then 0 else Z.to_nat (3 - fail_count s).

Lemma delivers_dead l0 ts : healthy l0 -> ts_ok ts -> forall s mid, eth_inv s -> e_log s = l0 ++ mid ->
  connected mid = [] -> (0 <= eth_sock s -> dead l0 (eth_sock s)) -> delivers ts s (lost_reports s).
Proof.
  intros Hh Hts. induction Hts as [|t ts [Hok Hr] Hts IH]; intros s mid Hi L Hm Hd.
  - exists s, []. by rewrite app_nil_r, skipn_nil.
  - destruct (Z.lt_ge_cases (eth_sock s) 0) as [Hs|Hs].
    { unfold lost_reports. rewrite (proj2 (Z.ltb_lt _ _)) by done.
      eapply delivers_reconnect; [done | by constructor | done | done]. }
    destruct (eth_report_spec t s Hok Hr) as (m' & fd & n & new & E & R).
    pose proof (reported_inv s m' _ _ _ _ Hi Hs R) as Hi'.
    assert (net (e_log s) (CSend (eth_sock s) (eth_text t)) <= 0) as Hneg
      by (rewrite L; apply (Hd Hs); rewrite Hm; intros []).
    unfold lost_reports. rewrite (proj2 (Z.ltb_ge _ _)) by done. pose proof (ei_fails _ Hi) as Hf.
    rewrite (proj2 (Z.ltb_ge _ _)) in Hf by done.
    destruct R as [r d Hr0 Er|r d Hr0 Er Hlt|r c d Hr0 Er Hge]; [lia| |].
    + eapply delivers_cons; [by rewrite eth_turn_connected | done | | done |].
      * destruct (Z.to_nat (3 - fail_count s)) eqn:En; [lia|]. cbn [skipn]. rewrite skipn_nil.
        cbn. by rewrite (proj2 (Z.leb_le _ _)).
      * replace (Z.to_nat (3 - fail_count s) - 1)%nat with (Z.to_nat (3 - (fail_count s + 1))) by lia.
        specialize (IH _ (mid ++ [(CSend (eth_sock s) (eth_text t), r); (CDelay ETH_REPORT_INTERVAL, d)]) Hi').
        unfold lost_reports in IH. cbn [eth_sock fail_count e_log] in IH.
        rewrite (proj2 (Z.ltb_ge _ _)) in IH by done. apply IH; [by rewrite L, app_assoc | | done].
        by rewrite connected_app, Hm.
    + assert (fail_count s = 2) as -> by lia.
      eapply delivers_cons; [by rewrite eth_turn_connected | done | | done |].
      * cbn. by rewrite (proj2 (Z.leb_le _ _)).
      * destruct Hts as [|t' ts H Hts]; [eexists _, []; split_and!; [done | by rewrite app_nil_r | done | done]|].
        eapply (delivers_reconnect l0 t' ts); [done | by constructor | cbn [e_log]; by rewrite L, <- app_assoc | done].
Qed.
End Turns.

(* ------------------------------------------------------------------ *)
(** ** Properties *)

(** C18: the thread never leaks a socket and never sends on a socket that is not
    connected: whatever the network answers, and with readings in the ranges in
    which a report fits its buffer ([ts_ok]), after any number of turns the
    sockets opened and not closed are none or exactly [eth_sock], a send is
    always on a connected socket, and the failure counter stays below three
    while the socket is open. *)
Theorem eth_no_socket_leak net inet_addr eth_json_buf ts m :
  0 <= eth_json_buf -> eth_json_buf + ETH_JSON_SIZE < 2 ^ 32 -> ts_ok ts ->
  exists s, eth_client_thread_entry net inet_addr eth_json_buf ts (eth_start m) = Some (tt, s) /\
    open_sockets (e_log s) = (if eth_sock s <? 0 then [] else [eth_sock s]) /\
    connected (e_log s) = (if eth_sock s <? 0 then [] else [eth_sock s]) /\
    sends_connected (e_log s) /\ 0 <= fail_count s <= (if eth_sock s <? 0 then 3 else 2).
Proof.
  intros H0 Hb Hts. destruct (eth_entry_inv net inet_addr eth_json_buf H0 Hb ts m Hts) as (s & E & [Ho Hc Hs Hf]).
  exists s. split_and!; done || lia.
Qed.

(** A network that answers with socket 5, whose peer dies after one report,
    and with socket 7 afterwards. *)
Definition demo_net (l : log) (c : call) : Z :=
  match c with
  | CSocket _ _ _ => if (length l <? 5)%nat then 5 else 7
  | CSend fd data => if (length l <? 5)%nat || existsb (Z.eqb fd) (connected (skipn 5 l)) then Z.of_nat (length data) else -1
  | _ => 0
  end.

Lemma sample_ts_ok n : ts_ok (repeat sample_telemetry n).
Proof. apply Forall_forall. intros t H%list_elem_of_In%repeat_spec. subst t. apply sample_telemetry_ok. Qed.

Lemma eth_no_socket_leak_witness :
  exists s, eth_client_thread_entry demo_net (fun _ => 0) 0x20000000 (repeat sample_telemetry 5) (eth_start (fun _ => 0)) = Some (tt, s) /\
    open_sockets (e_log s) = (if eth_sock s <? 0 then [] else [eth_sock s]) /\
    connected (e_log s) = (if eth_sock s <? 0 then [] else [eth_sock s]) /\
    sends_connected (e_log s) /\ 0 <= fail_count s <= (if eth_sock s <? 0 then 3 else 2).
Proof.
  apply (eth_no_socket_leak demo_net (fun _ => 0) 0x20000000 (repeat sample_telemetry 5) (fun _ => 0));
    [lia | done | apply (sample_ts_ok 5)].
Defined.

(** C19: the uplink recovers from a dead connection: in any reachable state, if
    the peer of the open socket is gone for good while the server accepts new
    connections and their sockets take every report whole, at most the reports
    up to the third failure are lost, and every byte of every later report is
    delivered.  Each turn takes the report interval of three seconds, the one
    that connects again too: after the third failure the code waits
    [ETH_REPORT_INTERVAL], not the [ETH_RECONNECT_DELAY] of five seconds its
    specification asks for. *)
Theorem eth_recovers net inet_addr eth_json_buf ts0 ts m s :
  0 <= eth_json_buf -> eth_json_buf + ETH_JSON_SIZE < 2 ^ 32 -> ts_ok ts0 -> ts_ok ts ->
  eth_client_thread_entry net inet_addr eth_json_buf ts0 (eth_start m) = Some (tt, s) ->
  healthy net inet_addr (e_log s) -> (0 <= eth_sock s -> dead net (e_log s) (eth_sock s)) ->
  (lost_reports s <= 3)%nat /\
  exists s' new, eth_turns net inet_addr eth_json_buf ts s = Some (tt, s') /\ e_log s' = e_log s ++ new /\
    delivered new = map eth_text (skipn (lost_reports s) ts) /\
    waited_ms new = ETH_REPORT_INTERVAL * Z.of_nat (length ts).
Proof.
  intros H0 Hb Hts0 Hts E Hh Hd.
  destruct (eth_entry_inv net inet_addr eth_json_buf H0 Hb ts0 m Hts0) as (s0 & E0 & Hi).
  rewrite E in E0. injection E0 as <-. split.
  - unfold lost_reports. pose proof (ei_fails _ Hi). destruct (Z.ltb_spec (eth_sock s) 0); lia.
  - apply (delivers_dead net inet_addr eth_json_buf H0 Hb (e_log s)) with (mid := []); try done. by rewrite app_nil_r.
Qed.

Definition demo_state : eth :=
  match eth_client_thread_entry demo_net (fun _ => 0) 0x20000000 (repeat sample_telemetry 1) (eth_start (fun _ => 0)) with
  | Some (_, s) => s
  | None => eth_start (fun _ => 0)
  end.

Lemma eth_recovers_witness :
  eth_sock demo_state = 5 /\
  (lost_reports demo_state <= 3)%nat /\
  exists s' new, eth_turns demo_net (fun _ => 0) 0x20000000 (repeat sample_telemetry 6) demo_state = Some (tt, s') /\
    e_log s' = e_log demo_state ++ new /\
    delivered new = map eth_text (skipn (lost_reports demo_state) (repeat sample_telemetry 6)) /\
    waited_ms new = ETH_REPORT_INTERVAL * Z.of_nat (length (repeat sample_telemetry 6)).
Proof.
  split; [vm_compute; reflexivity|].
  assert (length (e_log demo_state) = 5%nat) as L by (vm_compute; reflexivity).
  apply (eth_recovers demo_net (fun _ => 0) 0x20000000 (repeat sample_telemetry 1) (repeat sample_telemetry 6) (fun _ => 0));
    [lia | done | apply (sample_ts_ok 1) | apply (sample_ts_ok 6) | vm_compute; reflexivity | |].
  - intros new. assert ((length (e_log demo_state ++ new) <? 5)%nat = false) as N by (apply Nat.ltb_ge; rewrite length_app; lia).
    assert (skipn 5 (e_log demo_state ++ new) = new) as S by (rewrite <- L; apply drop_app_length).
    split_and!; [cbn [demo_net]; by rewrite N | done |]. intros fd data Hin. cbn [demo_net]. rewrite S, N.
    rewrite (proj2 (existsb_exists _ _)); [by rewrite orb_true_r|]. exists fd. split; [done | apply Z.eqb_refl].
  - intros _ new data Hn. cbn [demo_net]. rewrite (proj2 (Nat.ltb_ge _ _)) by (rewrite length_app; lia).
    assert (skipn 5 (e_log demo_state ++ new) = new) as -> by (rewrite <- L; apply drop_app_length).
    destruct (existsb _ _) eqn:Ex; [|done].
    apply existsb_exists in Ex as (x & Hx & E%Z.eqb_eq). destruct Hn. by rewrite E.
Defined.

(** A send that takes only a part of the report counts as a success: the rest is
    not sent again, and the failures counted so far are forgotten. *)
Theorem eth_short_send net inet_addr eth_json_buf t s r :
  0 <= eth_json_buf -> eth_json_buf + ETH_JSON_SIZE < 2 ^ 32 -> telemetry_ok t -> readings_ok t -> 0 <= eth_sock s ->
  net (e_log s) (CSend (eth_sock s) (eth_text t)) = r -> 0 < r < Z.of_nat (length (eth_text t)) ->
  exists s' new, eth_turn net inet_addr eth_json_buf t s = Some (tt, s') /\ e_log s' = e_log s ++ new /\
    delivered new = [take (Z.to_nat r) (eth_text t)] /\ fail_count s' = 0 /\ eth_sock s' = eth_sock s.
Proof.
  intros H0 Hb Hok Hr Hs En Hp. rewrite eth_turn_connected by done.
  destruct (eth_report_spec net eth_json_buf H0 Hb t s Hok Hr) as (m' & fd & n & new & E & R).
  exists (Eth (e_log s ++ new) fd n m'), new. split; [exact E|]. cbn [e_log fail_count eth_sock].
  destruct R as [r' d Hr0 Er|r' d Hr0 Er|r' c d Hr0 Er]; [|lia..]. split_and!; try done.
  cbn. rewrite En in Er. subst r'. by rewrite (proj2 (Z.leb_gt _ _)) by done.
Qed.

Lemma eth_short_send_witness :
  exists s' new, eth_turn (fun _ _ => 10) (fun _ => 0) 0x20000000 sample_telemetry (Eth [] 4 2 (fun _ => 0)) = Some (tt, s') /\
    e_log s' = new /\ delivered new = [take 10 (eth_text sample_telemetry)] /\ fail_count s' = 0 /\ eth_sock s' = 4.
Proof.
  apply (eth_short_send (fun _ _ => 10) (fun _ => 0) 0x20000000 sample_telemetry (Eth [] 4 2 (fun _ => 0)) 10);
    [lia|done|apply sample_telemetry_ok|apply sample_telemetry_ok|done|done|vm_compute; done].
Defined.
