(* ===== verification/Lora.v ===== *)
(** * The LoRa uplink

    applications/loraApp.c: the thread that builds the text of Report.v in its
    256 byte array and sends it through UART5 (uartApp.c, over Serial.v) every
    five seconds.  The thread is a sequence of steps, [uart5_init] statement by
    statement ([start_step] of Uart.v) and the polled transmission byte by byte;
    the receive interrupts of UART5 come between any two of them.  The receive
    thread of UART5 is not started by this firmware, so what arrives stays in
    the ring of the device. *)

From Stdlib Require Import ZArith Lia String.
From stdpp Require Import base numbers list.
From S2P Require Import Prelude Memory Printf Serial Node Report Uart Cloud.
Open Scope c_scope.

Definition LORA_SEND_INTERVAL : Z := 5000.

(** Where the thread is: in [uart5_init], in the delay after it, before
    [lora_build_text], inside [uart5_send] with the bytes [todo] to write, in
    the delay of a turn. *)
Inductive lpc := LInit (p : spc) | LWait | LBuild | LSend (todo : list Z) | LSleep.

(** The memory with the array; [uart5_device] with its semaphore, [None] while it
    is NULL; where the thread is; the milliseconds it slept. *)
Record lora := Lora { l_mem : memory; uart5 : option ustate; l_pc : lpc; l_ms : Z }.

Inductive lora_act := LStep (t : telemetry) | LIrq (bytes : list Z).

Section Lora.
Context (malloc : Z -> bool) (text_buf : Z).
(** The device [rt_device_find] gives. *)
Context (found : option (serial wire)).

Definition goto (p : lpc) (s : lora) : lora := Lora (l_mem s) (uart5 s) p (l_ms s).
Definition with_uart5 (u : ustate) (s : lora) : lora := Lora (l_mem s) (Some u) (l_pc s) (l_ms s).
Definition mdelay (ms : Z) (s : lora) : lora := Lora (l_mem s) (uart5 s) (l_pc s) (l_ms s + ms).

(** UART5 before [uart5_init]. *)
Definition uart5_boot (d : serial wire) : ustate := U d (Sem 0 false) RRead CIdle (repeat 0 UART5_RECIVED_DATA_SIZE) 0.

(** A statement of [uart5_init]; a device that is not found ends it. *)
Definition uart5_init (p : spc) (s : lora) : option lora :=
  match (match p with SOpen => option_map uart5_boot found | _ => uart5 s end) with
  | None => Some (goto LWait s)
  | Some u =>
      match start_step malloc [] p u with
      | None => None
      | Some (Some (SHello _), u) | Some (None, u) => Some (goto LWait (with_uart5 u s))
      | Some (Some q, u) => Some (goto (LInit q) (with_uart5 u s))
      end
  end.

(** [lora_build_text] and the C string [uart5_send] then measures: nobody else
    has the array. *)
Definition build (t : telemetry) (s : lora) : option lora :=
  match lora_build_text (l_mem s) text_buf LORA_TEXT_BUF_SIZE t with
  | None => None
  | Some (_, m) => Some (Lora m (uart5 s) (LSend (mem_str m text_buf 256)) (l_ms s))
  end.

(** Inside [uart5_send]: [rt_device_write] asserts that the device is not NULL
    and writes byte by byte. *)
Definition uart5_send (todo : list Z) (s : lora) : option lora :=
  match uart5 s, todo with
  | None, _ => None
  | Some u, [] => Some (goto LSleep s)
  | Some u, c :: r =>
      match uart_send [c] (u_dev u) with
      | None => None
      | Some d => Some (goto (LSend r) (with_uart5 (with_dev d u) s))
      end
  end.

(** A step of [lora_thread_entry]; [t] are the globals if it builds a text. *)
Definition lora_step (t : telemetry) (s : lora) : option lora :=
  match l_pc s with
  | LInit p => uart5_init p s
  | LWait => Some (goto LBuild (mdelay 3000 s))
  | LBuild => build t s
  | LSend todo => uart5_send todo s
  | LSleep => Some (goto LBuild (mdelay LORA_SEND_INTERVAL s))
  end.

(** The receive interrupt of UART5. *)
Definition uart5_irq (bytes : list Z) (s : lora) : option lora :=
  match l_pc s, uart5 s, found with
  | LInit SOpen, _, Some d => option_map (fun u => with_uart5 u s) (start_irq SOpen bytes (uart5_boot d))
  | LInit p, Some u, _ => option_map (fun u => with_uart5 u s) (start_irq p bytes u)
  | _, Some u, _ => option_map (fun u => with_uart5 u s) (irq_step bytes u)
  | _, None, _ => Some s
  end.

Definition lora_act_step (a : lora_act) (s : lora) : option lora :=
  match a with LStep t => lora_step t s | LIrq bytes => uart5_irq bytes s end.

Fixpoint lora_thread_entry (acts : list lora_act) (s : lora) : option lora :=
  match acts with
  | [] => Some s
  | a :: r => match lora_act_step a s with Some s => lora_thread_entry r s | None => None end
  end.

(** The thread at its first statement. *)
Definition lora_boot (m : memory) : lora := Lora m None (LInit SOpen) 0.
End Lora.

(* ------------------------------------------------------------------ *)
(** ** Lemmas *)

Lemma lora_text_no_nul t : telemetry_ok t -> Forall (fun c => c <> 0) (lora_text t).
Proof.
  intros Hok. pose proof (counters_u32 t Hok) as Hu. unfold counters in Hu.
  repeat match goal with H : Forall _ (_ :: _) |- _ => apply Forall_cons in H as [? H] end. cbn [snd] in *. unfold is_u32 in *.
  unfold lora_text. cbn zeta.
  repeat (apply Forall_app; split); try (by apply no_nul_spec); try apply dec_no_nul; apply udec_no_nul; lia.
Qed.

Definition act_ok (a : lora_act) : Prop :=
  match a with
  | LStep t => telemetry_ok t /\ Forall (fun kn => is_u16 (snd kn)) (counters t)
  | LIrq bytes => Forall is_u8 bytes /\ bytes <> []
  end.

(** The schedule as Uart.v has it. *)
Definition as_actor (a : lora_act) : actor := match a with LStep _ => AReader | LIrq bytes => AIrq bytes end.
Definition start_of (p : lpc) : option spc := match p with LInit p => Some p | _ => None end.

(** The bytes of the current text still to write, and the steps to the next build. *)
Definition unsent (p : lpc) : list Z := match p with LSend todo => todo | _ => [] end.
Definition ahead (p : lpc) : nat :=
  match p with
  | LInit SOpen => 4 | LInit SIndicate => 3 | LInit SSemInit => 2 | LInit (SHello _) | LWait => 1
  | LBuild => 0 | LSend todo => length todo + 2 | LSleep => 1
  end%nat.

(** The readings a schedule builds texts from, the first after [k] more steps:
    a turn takes a step for the build, one for each byte and two for the end of
    the write and the delay. *)
Fixpoint taken (k : nat) (acts : list lora_act) : list telemetry :=
  match acts with
  | [] => []
  | LIrq _ :: r => taken k r
  | LStep t :: r => match k with O => t :: taken (length (lora_text t) + 2) r | S k => taken k r end
  end.

(** The milliseconds slept at [p], [n] texts built. *)
Definition slept (p : lpc) (n : nat) : Z :=
  match p with
  | LInit _ | LWait => 0
  | LBuild => 3000 + LORA_SEND_INTERVAL * Z.of_nat n
  | LSend _ | LSleep => 3000 + LORA_SEND_INTERVAL * (Z.of_nat n - 1)
  end.

Section Spec.
Context (malloc : Z -> bool) (text_buf : Z) (cfg : serial_configure) (m0 : memory).
Context (Hmem : malloc (RX_FIFO_SIZE + 256) = true) (H0 : 0 <= text_buf) (Hw : text_buf + LORA_TEXT_BUF_SIZE < 2 ^ 32).

Abbreviation SIZE := UART5_RECIVED_DATA_SIZE.
Abbreviation step := (lora_step malloc text_buf (Some (registered cfg))).
Abbreviation irq := (uart5_irq (Some (registered cfg))).

Lemma HSIZE : (2 <= SIZE)%nat.
Proof. unfold SIZE. lia. Qed.

(** The device at each place: what it sent are the texts of the readings [log]
    but for the rest of the last one. *)
Definition device_ok (log : list telemetry) (s : lora) : Prop :=
  match l_pc s, uart5 s with
  | LInit SOpen, o => o = None /\ log = []
  | LInit (SHello _), _ | _, None => False
  | LInit p, Some u => sinv SIZE p u /\ sent (s_hw (u_dev u)) = [] /\ log = []
  | p, Some u => sinv SIZE (SHello []) u /\ sent (s_hw (u_dev u)) ++ unsent p = concat (map lora_text log)
  end.

Record linv (log : list telemetry) (s : lora) : Prop := {
  li_dev : device_ok log s;
  li_ms : l_ms s = slept (l_pc s) (length log);
  li_wait : l_pc s = LWait -> log = [];
  li_mem : forall x, x < text_buf \/ text_buf + LORA_TEXT_BUF_SIZE <= x -> l_mem s x = m0 x }.

Lemma boot_sinv : sinv SIZE SOpen (uart5_boot (registered cfg)).
Proof. apply (boot_tinv SIZE HSIZE cfg). Qed.

(** [uart5_init]. *)
Lemma init_step p s t : linv [] s -> l_pc s = LInit p -> exists s', step t s = Some s' /\ linv [] s' /\
  S (ahead (l_pc s')) = ahead (LInit p) /\ forall r, quiet_start (Some p) (AReader :: r) = quiet_start (start_of (l_pc s')) r.
Proof.
  intros [Hd Hms _ Hm] Hp. unfold device_ok in Hd. unfold lora_step, uart5_init. rewrite Hp in *.
  assert (exists u, (match p with SOpen => option_map uart5_boot (Some (registered cfg)) | _ => uart5 s end) = Some u /\
    sinv SIZE p u /\ sent (s_hw (u_dev u)) = [] /\ match p with SHello _ => False | _ => True end) as (u & -> & Hs & Es & Hn).
  { destruct p; [by exists (uart5_boot (registered cfg)); split_and!; [|apply boot_sinv| |]| | |done];
      destruct (uart5 s) as [u|]; try done; by exists u; destruct Hd as (? & ? & _). }
  destruct (start_step_inv SIZE HSIZE malloc [] Hmem p u Hs) as (p' & u' & E & Hi & _ & _ & _ & Es'). rewrite E.
  assert (sent (s_hw (u_dev u')) = []) as Ee by (rewrite Es', Es; by destruct p).
  destruct p; [| | |done]; cbn [start_step] in E.
  - destruct (rt_device_open _ _ _) as [[? ?]|]; [|done]. injection E as <- <-. eexists. split; [reflexivity|]. split; [|done].
    by split.
  - injection E as <- <-. eexists. split; [reflexivity|]. split; [|done]. by split.
  - injection E as <- <-. eexists. split; [reflexivity|]. split; [|split; [done|]; intros r; by rewrite quiet_loop].
    split; [|done|done|done]. split; [exact Hi|]. cbn [goto with_uart5 l_pc unsent]. by rewrite Ee.
Qed.

(** A byte of [uart5_send]. *)
Lemma byte_step c u : sinv SIZE (SHello []) u -> exists d, uart_send [c] (u_dev u) = Some d /\
  sinv SIZE (SHello []) (with_dev d u) /\ sent (s_hw d) = sent (s_hw (u_dev u)) ++ [c].
Proof.
  intros [S1 S2 S3 S4 S5 S6]. destruct (S6) as (D1 & D2 & D3 & D4). rewrite uart_send_open by done.
  eexists. split; [reflexivity|]. split; [|done]. split; try done. by apply opened_set_hw.
Qed.

(** The rest of the thread. *)
Lemma loop_step log s t : linv log s -> act_ok (LStep t) -> start_of (l_pc s) = None -> exists s', step t s = Some s' /\
  linv (log ++ match ahead (l_pc s) with O => [t] | _ => [] end) s' /\ start_of (l_pc s') = None /\
  ahead (l_pc s') = match ahead (l_pc s) with O => length (lora_text t) + 2 | S k => k end%nat.
Proof.
  intros [Hd Hms Hwt Hm] [Ht Hc] Hp. unfold device_ok in Hd. unfold lora_step. destruct (l_pc s) as [p| | |todo|]; [done| | | |].
  - destruct (uart5 s) as [u|] eqn:Eu; [|done]. eexists. split; [reflexivity|]. split; [|done]. rewrite app_nil_r.
    split; [|cbn; rewrite Hms, Hwt by done; done|done|done]. unfold device_ok. cbn [goto mdelay l_pc uart5]. by rewrite Eu.
  - destruct (uart5 s) as [u|] eqn:Eu; [|done]. destruct Hd as [Hs He]. unfold build.
    destruct (lora_text_complete (l_mem s) text_buf t Ht Hc H0 Hw) as (m1 & -> & Hr & Hz & Hx).
    assert (mem_str m1 text_buf 256 = lora_text t) as ->.
    { apply cstr_mem_read; [by apply lora_text_no_nul| |done|done]. pose proof (lora_text_length t Ht Hc). lia. }
    eexists. split; [reflexivity|]. split; [|done]. split; [| |done|].
    + unfold device_ok. cbn [l_pc uart5 unsent]. rewrite Eu. split; [done|]. rewrite map_app, concat_app. cbn [ahead map concat unsent] in *.
      rewrite app_nil_r in *. by rewrite He.
    + cbn [ahead l_ms l_pc slept]. rewrite length_app, Hms. cbn [slept length]. lia.
    + intros x Hxx. cbn [l_mem]. by rewrite Hx, Hm.
  - destruct (uart5 s) as [u|] eqn:Eu; [|done]. destruct Hd as [Hs He]. unfold uart5_send. rewrite Eu.
    destruct todo as [|c r].
    + eexists. split; [reflexivity|]. split; [|done]. rewrite app_nil_r. split; [|done|done|done]. unfold device_ok. cbn [goto l_pc uart5]. by rewrite Eu.
    + destruct (byte_step c u Hs) as (d & -> & Hs' & Es). eexists. split; [reflexivity|]. split; [|done]. rewrite app_nil_r.
      split; [|done|done|done]. unfold device_ok. cbn [goto with_uart5 l_pc uart5 with_dev u_dev unsent] in *. by rewrite Es, <- app_assoc.
  - destruct (uart5 s) as [u|] eqn:Eu; [|done]. eexists. split; [reflexivity|]. split; [|done]. rewrite app_nil_r.
    split; [|cbn [goto mdelay l_ms l_pc slept]; rewrite Hms; unfold slept; lia|done|done]. unfold device_ok. cbn [goto mdelay l_pc uart5]. by rewrite Eu.
Qed.

(** A receive interrupt, where it may come: past the start it always may. *)
Lemma start_irq_keeps p u bs : sinv SIZE p u -> Forall is_u8 bs -> bs <> [] ->
  match p with
  | SOpen | SSemInit => start_irq p bs u = None
  | _ => exists u', start_irq p bs u = Some u' /\ sinv SIZE p u' /\ sent (s_hw (u_dev u')) = sent (s_hw (u_dev u))
  end.
Proof.
  intros Hs Hb Hne. pose proof (start_irq_inv SIZE HSIZE p bs u Hs Hb Hne) as Hi.
  destruct p; try done; destruct Hi as (u' & E & Hs'); exists u'; split_and!; try done; exact (start_irq_sent SIZE _ bs u u' Hs Hb E).
Qed.

Lemma idle_irq log s bs : linv log s -> start_of (l_pc s) = None -> Forall is_u8 bs -> bs <> [] ->
  exists s', irq bs s = Some s' /\ linv log s' /\ l_pc s' = l_pc s.
Proof.
  intros [Hd Hms Hwt Hm] Hp Hb Hne. unfold device_ok in Hd.
  assert (exists u, uart5 s = Some u /\ sinv SIZE (SHello []) u /\ sent (s_hw (u_dev u)) ++ unsent (l_pc s) = concat (map lora_text log)) as (u & Eu & Hs & He)
    by (destruct (l_pc s), (uart5 s) as [u|]; try done; exists u; by destruct Hd).
  destruct (start_irq_keeps (SHello []) u bs Hs Hb Hne) as (u' & E & Hs' & Es). rewrite start_irq_hello in E.
  exists (with_uart5 u' s). split; [|split; [|done]].
  - unfold uart5_irq. rewrite Eu. destruct (l_pc s); [done|by rewrite E..].
  - split; try done. unfold device_ok. cbn [with_uart5 l_pc uart5]. rewrite Es. by destruct (l_pc s).
Qed.

Lemma init_irq p s bs : linv [] s -> l_pc s = LInit p -> Forall is_u8 bs -> bs <> [] ->
  match p with
  | SOpen | SSemInit => irq bs s = None
  | _ => exists s', irq bs s = Some s' /\ linv [] s' /\ l_pc s' = l_pc s
  end.
Proof.
  intros [Hd Hms Hwt Hm] Hp Hb Hne. unfold device_ok in Hd. unfold uart5_irq. rewrite Hp in *. destruct p; [| | |done].
  - rewrite (start_irq_keeps SOpen _ bs boot_sinv Hb Hne). by destruct (uart5 s).
  - destruct (uart5 s) as [u|]; [|done]. destruct Hd as (Hs & He & _).
    destruct (start_irq_keeps SIndicate u bs Hs Hb Hne) as (u' & -> & Hs' & Es). eexists. split; [reflexivity|]. split; [|done].
    split; cbn [with_uart5 l_pc l_ms]; rewrite ?Hp; try done. unfold device_ok. cbn [with_uart5 l_pc uart5]. by rewrite Hp, Es.
  - destruct (uart5 s) as [u|]; [|done]. destruct Hd as (Hs & He & _). by rewrite (start_irq_keeps SSemInit u bs Hs Hb Hne).
Qed.

Lemma init_log log p s : linv log s -> l_pc s = LInit p -> log = [].
Proof. intros [Hd _ _ _] Hp. unfold device_ok in Hd. rewrite Hp in Hd. by destruct p, (uart5 s); destruct_and? Hd. Qed.

Lemma start_of_init p q : start_of p = Some q -> p = LInit q.
Proof. destruct p; by intros [= ->]. Qed.

(** A schedule. *)
Lemma lora_run acts : Forall act_ok acts -> forall log s, linv log s ->
  if quiet_start (start_of (l_pc s)) (map as_actor acts) then
    exists s', lora_thread_entry malloc text_buf (Some (registered cfg)) acts s = Some s' /\ linv (log ++ taken (ahead (l_pc s)) acts) s'
  else lora_thread_entry malloc text_buf (Some (registered cfg)) acts s = None.
Proof.
  induction 1 as [|a acts Ha _ IH]; intros log s Hs; cbn [lora_thread_entry map].
  { destruct (start_of (l_pc s)) as [p|]; [destruct p|]; exists s; cbn; by rewrite app_nil_r. }
  destruct a as [t|bs]; cbn [lora_act_step as_actor taken].
  - destruct (start_of (l_pc s)) as [p|] eqn:Ep.
    + apply start_of_init in Ep as El. assert (log = []) as -> by exact (init_log _ _ _ Hs El).
      destruct (init_step p s t Hs El) as (s' & -> & Hs' & Ea & Eq). rewrite Eq, El, <- Ea. by apply IH.
    + destruct (loop_step log s t Hs Ha Ep) as (s' & -> & Hs' & Ep' & Ea). specialize (IH _ s' Hs'). rewrite Ep', quiet_loop, Ea in IH.
      cbn [quiet_start]. destruct IH as (s2 & E2 & H2). exists s2. split; [done|].
      destruct (ahead (l_pc s)); [by rewrite <- app_assoc in H2|by rewrite app_nil_r in H2].
  - destruct Ha as [Hb Hne]. destruct (start_of (l_pc s)) as [p|] eqn:Ep; cbn [quiet_start].
    + apply start_of_init in Ep as El. assert (log = []) as -> by exact (init_log _ _ _ Hs El).
      pose proof (init_irq p s bs Hs El Hb Hne) as Hi. destruct p as [| | |todo]; [by rewrite Hi| |by rewrite Hi|];
        destruct Hi as (s' & -> & Hs' & Ep'); rewrite <- Ep' in *; rewrite El in *.
      * specialize (IH _ s' Hs'). by rewrite El in IH.
      * specialize (IH _ s' Hs'). rewrite El in IH. cbn [start_of] in IH. by rewrite quiet_hello in IH.
    + destruct (idle_irq log s bs Hs Ep Hb Hne) as (s' & -> & Hs' & Ep'). specialize (IH _ s' Hs'). by rewrite Ep', Ep, quiet_loop in IH.
Qed.

Lemma device_sent log s : device_ok log s ->
  match uart5 s with
  | None => log = []
  | Some u => sent (s_hw (u_dev u)) ++ unsent (l_pc s) = concat (map lora_text log) /\ 0 <= sem_value (u_sem u) <= RT_SEM_VALUE_MAX
  end.
Proof.
  unfold device_ok. destruct (l_pc s) as [[| | |]| | | |], (uart5 s) as [u|]; intros H; destruct_and? H; try done.
  all: match goal with Hs : sinv _ _ _ |- _ => pose proof (proj1 (si_sem _ _ _ Hs)) end; subst; split; try done. 
  all: match goal with Hs : sent _ = [] |- _ => by rewrite Hs end.
Qed.
End Spec.

(* ------------------------------------------------------------------ *)
(** ** Properties *)

(** C26: the LoRa thread sends what it means to.  From its first statement on a
    UART5 that is found (and memory for its receive queue), whatever the
    readings and whatever UART5 receives between any two of its steps (the
    statements of [uart5_init], each byte of a text, the delays): no assertion
    fails, every turn builds the complete text of the telemetry of that moment
    and hands it to the module, byte by byte, before the next, so that the line
    carries the texts one after the other and nothing else; it has slept its
    three seconds and five seconds for each finished turn, and no byte outside
    the array is written.  The exception is exact: an interrupt before the
    device is open, or between [rt_device_set_rx_indicate] and [rt_sem_init],
    fails an assertion. *)
Theorem lora_sends_reports malloc text_buf cfg acts m :
  malloc (RX_FIFO_SIZE + 256) = true -> 0 <= text_buf -> text_buf + LORA_TEXT_BUF_SIZE < 2 ^ 32 -> Forall act_ok acts ->
  if quiet_start (Some SOpen) (map as_actor acts) then
    exists s, lora_thread_entry malloc text_buf (Some (registered cfg)) acts (lora_boot m) = Some s /\
      match uart5 s with
      | None => taken 4 acts = []
      | Some u => sent (s_hw (u_dev u)) ++ unsent (l_pc s) = concat (map lora_text (taken 4 acts)) /\
          0 <= sem_value (u_sem u) <= RT_SEM_VALUE_MAX
      end /\
      l_ms s = slept (l_pc s) (length (taken 4 acts)) /\
      (forall x, x < text_buf \/ text_buf + LORA_TEXT_BUF_SIZE <= x -> l_mem s x = m x)
  else lora_thread_entry malloc text_buf (Some (registered cfg)) acts (lora_boot m) = None.
Proof.
  intros Hm H0 Hw Ha. assert (linv text_buf m [] (lora_boot m)) as Hb by by split.
  pose proof (lora_run malloc text_buf cfg m Hm H0 Hw acts Ha [] (lora_boot m) Hb) as H. cbn [lora_boot l_pc start_of ahead app] in H.
  destruct (quiet_start _ _); [|exact H]. destruct H as (s & E & Hs). exists s. split; [done|].
  split; [by apply (device_sent _ s), Hs|split; apply Hs].
Qed.

Definition lora_acts : list lora_act :=
  [LStep sample_telemetry; LStep sample_telemetry; LStep sample_telemetry; LIrq [79; 75]; LStep sample_telemetry] ++
  LStep sample_telemetry :: repeat (LStep sample_telemetry) 5 ++ LIrq [13; 10] :: repeat (LStep sample_telemetry) 300.

Lemma lora_sends_reports_witness :
  (exists s u, lora_thread_entry (fun _ => true) 0x24000000 (Some (registered RT_SERIAL_CONFIG_DEFAULT)) lora_acts (lora_boot (fun _ => 85)) = Some s /\
    uart5 s = Some u /\ l_ms s = slept (l_pc s) 2 /\
    sent (s_hw (u_dev u)) ++ unsent (l_pc s) = lora_text sample_telemetry ++ lora_text sample_telemetry) /\
  lora_thread_entry (fun _ => true) 0x24000000 (Some (registered RT_SERIAL_CONFIG_DEFAULT)) [LStep sample_telemetry; LStep sample_telemetry; LIrq [79]] (lora_boot (fun _ => 85)) = None.
Proof.
  split.
  - assert (Forall act_ok lora_acts) as Ha by (repeat constructor; cbn; unfold is_u8, is_u16; try lia; try done; try apply sample_telemetry_ok).
    pose proof (lora_sends_reports (fun _ => true) 0x24000000 RT_SERIAL_CONFIG_DEFAULT lora_acts (fun _ => 85) eq_refl ltac:(lia) eq_refl Ha) as H.
    assert (quiet_start (Some SOpen) (map as_actor lora_acts) = true) as Eq by (vm_compute; reflexivity). rewrite Eq in H.
    assert (taken 4 lora_acts = [sample_telemetry; sample_telemetry]) as Et by (vm_compute; reflexivity). rewrite Et in H.
    destruct H as (s & E & Hu & Hms & _). destruct (uart5 s) as [u|] eqn:Eu; [|discriminate Hu]. exists s, u.
    split; [exact E|]. split; [exact Eu|]. split; [exact Hms|]. destruct Hu as [Hu _]. rewrite Hu. cbn [map concat]. by rewrite app_nil_r.
  - apply (lora_sends_reports (fun _ => true) 0x24000000 RT_SERIAL_CONFIG_DEFAULT [LStep sample_telemetry; LStep sample_telemetry; LIrq [79]] (fun _ => 85));
      [done | lia | reflexivity |]. repeat constructor; cbn; unfold is_u8, is_u16; try lia; try done; try apply sample_telemetry_ok.
Defined.

(** The other way: a UART5 that is not found is not an error for [uart5_init],
    and the first text then fails the assertion of [rt_device_write]. *)
Theorem lora_needs_device malloc text_buf acts m t1 t2 t3 t4 :
  lora_thread_entry malloc text_buf None (LStep t1 :: LStep t2 :: LStep t3 :: LStep t4 :: acts) (lora_boot m) = None.
Proof. cbn [lora_thread_entry lora_act_step lora_step lora_boot l_pc uart5_init option_map goto mdelay]. unfold build. by destruct (lora_build_text _ _ _ _) as [[? ?]|]. Qed.
