(* ===== verification/Heap.v ===== *)
(** * The kernel heap: the small memory allocator

    rt-thread/src/mem.c in the configuration of rtconfig.h (32 bit,
    RT_MEM_STATS, no RT_USING_MEMTRACE, RT_DEBUG on).  The block headers live in
    the memory the clients write to, as bytes; a failed RT_ASSERT, a wait for a
    semaphore nobody can release and fuel that runs out are [None].  Left out:
    the allocation hooks, which nothing installs, and the debug log. *)

From Stdlib Require Import ZArith Lia.
From stdpp Require Import base numbers list.
From S2P Require Import Prelude Memory.
Open Scope c_scope.

Definition HEAP_MAGIC : Z := 0x1ea0.
Definition RT_ALIGN_SIZE : Z := 4.
Definition RT_ALIGN (size align : Z) : Z := Z.land (size +u32 (align - 1)) (u32 (Z.lnot (align - 1))).
Definition RT_ALIGN_DOWN (size align : Z) : Z := Z.land size (u32 (Z.lnot (align - 1))).
Definition MIN_SIZE : Z := 12.
Definition MIN_SIZE_ALIGNED : Z := RT_ALIGN MIN_SIZE RT_ALIGN_SIZE.
Definition SIZEOF_STRUCT_MEM : Z := RT_ALIGN 12 RT_ALIGN_SIZE.

(** The fields of the [struct heap_mem] at an address. *)
Definition magic (m : memory) (mem : Z) : Z := load 2 m mem.
Definition used (m : memory) (mem : Z) : Z := load 2 m (mem + 2).
Definition next (m : memory) (mem : Z) : Z := load 4 m (mem + 4).
Definition prev (m : memory) (mem : Z) : Z := load 4 m (mem + 8).
Definition set_magic (mem v : Z) (m : memory) : memory := store 2 m mem v.
Definition set_used (mem v : Z) (m : memory) : memory := store 2 m (mem + 2) v.
Definition set_next (mem v : Z) (m : memory) : memory := store 4 m (mem + 4) v.
Definition set_prev (mem v : Z) (m : memory) : memory := store 4 m (mem + 8) v.

(** The globals of mem.c, the pointers as addresses. *)
Record heap := Heap {
  h_mem : memory; heap_ptr : Z; heap_end : Z; lfree : Z; mem_size_aligned : Z; heap_sem : Z;
  used_mem : Z; max_mem : Z }.

Definition with_mem (m : memory) (h : heap) : heap :=
  Heap m (heap_ptr h) (heap_end h) (lfree h) (mem_size_aligned h) (heap_sem h) (used_mem h) (max_mem h).
Definition with_lfree (p : Z) (h : heap) : heap :=
  Heap (h_mem h) (heap_ptr h) (heap_end h) p (mem_size_aligned h) (heap_sem h) (used_mem h) (max_mem h).
Definition with_sem (n : Z) (h : heap) : heap :=
  Heap (h_mem h) (heap_ptr h) (heap_end h) (lfree h) (mem_size_aligned h) n (used_mem h) (max_mem h).
Definition with_stats (u mx : Z) (h : heap) : heap :=
  Heap (h_mem h) (heap_ptr h) (heap_end h) (lfree h) (mem_size_aligned h) (heap_sem h) u mx.

(** The statistics: [n] more bytes in use, or fewer. *)
Definition count (n : Z) (h : heap) : heap :=
  let u := used_mem h +u32 n in with_stats u (if max_mem h <? u then u else max_mem h) h.
Definition discount (n : Z) (h : heap) : heap := with_stats (used_mem h -u32 n) (max_mem h) h.

(** [rt_sem_take(&heap_sem, RT_WAITING_FOREVER)] and [rt_sem_release] around the
    code of one thread. *)
Definition sem_take (h : heap) : option heap :=
  if 0 <? heap_sem h then Some (with_sem (heap_sem h - 1) h) else None.
Definition sem_release (h : heap) : heap := with_sem (heap_sem h + 1) h.

(** The bound of the loops: a block takes at least 12 bytes. *)
Definition heap_fuel (h : heap) : nat := S (S (Z.to_nat (mem_size_aligned h / 12))).

(* ------------------------------------------------------------------ *)
(** ** The code *)

Definition plug_next (mem : Z) (h : heap) : heap :=
  let m := h_mem h in
  let nmem := heap_ptr h + next m mem in
  if negb (mem =? nmem) && (used m nmem =? 0) && negb (nmem =? heap_end h) then
    let h := if lfree h =? nmem then with_lfree mem h else h in
    let m := set_next mem (next m nmem) m in
    with_mem (set_prev (heap_ptr h + next m nmem) (mem - heap_ptr h) m) h
  else h.

Definition plug_prev (mem : Z) (h : heap) : heap :=
  let m := h_mem h in
  let pmem := heap_ptr h + prev m mem in
  if negb (pmem =? mem) && (used m pmem =? 0) then
    let h := if lfree h =? mem then with_lfree pmem h else h in
    let m := set_next pmem (next m mem) m in
    with_mem (set_prev (heap_ptr h + next m mem) (pmem - heap_ptr h) m) h
  else h.

Definition plug_holes (mem : Z) (h : heap) : option heap :=
  if (heap_ptr h <=? mem) && (mem <? heap_end h) && (used (h_mem h) mem =? 0)
  then Some (plug_prev mem (plug_next mem h))
  else None.

Definition rt_system_heap_init (begin_addr end_addr : Z) (h : heap) : heap :=
  let begin_align := RT_ALIGN begin_addr RT_ALIGN_SIZE in
  let end_align := RT_ALIGN_DOWN end_addr RT_ALIGN_SIZE in
  if (2 * SIZEOF_STRUCT_MEM <? end_align) && (begin_align <=? end_align - 2 * SIZEOF_STRUCT_MEM) then
    let size := end_align -u32 begin_align -u32 2 * SIZEOF_STRUCT_MEM in
    let hp := begin_align in
    let e := size +u32 SIZEOF_STRUCT_MEM in
    let m := set_magic hp HEAP_MAGIC (h_mem h) in
    let m := set_used hp 0 (set_prev hp 0 (set_next hp e m)) in
    let hend := hp + next m hp in
    let m := set_used hend 1 (set_magic hend HEAP_MAGIC m) in
    let m := set_prev hend e (set_next hend e m) in
    Heap m hp hend hp size 1 (used_mem h) (max_mem h)
  else h.

(** [while (lfree->used && lfree != heap_end)]: the next [lfree]. *)
Fixpoint next_free (fuel : nat) (h : heap) (p : Z) : option Z :=
  match fuel with
  | O => None
  | S k => if negb (used (h_mem h) p =? 0) && negb (p =? heap_end h)
           then next_free k h (heap_ptr h + next (h_mem h) p)
           else Some p
  end.

(** The body of the loop of [rt_malloc] for the block that fits. *)
Definition malloc_block (ptr size : Z) (h : heap) : option (Z * heap) :=
  let hp := heap_ptr h in
  let m := h_mem h in
  let mem := hp + ptr in
  let split := size +u32 SIZEOF_STRUCT_MEM +u32 MIN_SIZE_ALIGNED <=? next m mem -u32 (ptr +u32 SIZEOF_STRUCT_MEM) in
  let h := count (if split then size +u32 SIZEOF_STRUCT_MEM else next m mem -u32 ptr) h in
  let m :=
    if split then
      let ptr2 := ptr +u32 SIZEOF_STRUCT_MEM +u32 size in
      let mem2 := hp + ptr2 in
      let m := set_used mem2 0 (set_magic mem2 HEAP_MAGIC m) in
      let m := set_prev mem2 ptr (set_next mem2 (next m mem) m) in
      let m := set_used mem 1 (set_next mem ptr2 m) in
      if next m mem2 =? mem_size_aligned h +u32 SIZEOF_STRUCT_MEM then m
      else set_prev (hp + next m mem2) ptr2 m
    else set_used mem 1 m in
  let h := with_mem (set_magic mem HEAP_MAGIC m) h in
  match (if mem =? lfree h then
           match next_free (heap_fuel h) h (lfree h) with
           | None => None
           | Some p => if (p =? heap_end h) || (used (h_mem h) p =? 0) then Some (with_lfree p h) else None
           end
         else Some h) with
  | None => None
  | Some h =>
      let h := sem_release h in
      if (mem + SIZEOF_STRUCT_MEM + size <=? heap_end h) &&
         ((mem + SIZEOF_STRUCT_MEM) mod RT_ALIGN_SIZE =? 0) &&
         (Z.land mem (RT_ALIGN_SIZE - 1) =? 0)
      then Some (mem + SIZEOF_STRUCT_MEM, h) else None
  end.

Fixpoint malloc_loop (fuel : nat) (ptr size : Z) (h : heap) : option (Z * heap) :=
  match fuel with
  | O => None
  | S k =>
      if ptr <? mem_size_aligned h -u32 size then
        let mem := heap_ptr h + ptr in
        if (used (h_mem h) mem =? 0) && (size <=? next (h_mem h) mem -u32 (ptr +u32 SIZEOF_STRUCT_MEM))
        then malloc_block ptr size h
        else malloc_loop k (next (h_mem h) mem) size h
      else Some (0, sem_release h)
  end.

Definition rt_malloc (size : Z) (h : heap) : option (Z * heap) :=
  if size =? 0 then Some (0, h)
  else
    let size := RT_ALIGN size RT_ALIGN_SIZE in
    if mem_size_aligned h <? size then Some (0, h)
    else
      let size := if size <? MIN_SIZE_ALIGNED then MIN_SIZE_ALIGNED else size in
      match sem_take h with
      | None => None
      | Some h => malloc_loop (heap_fuel h) (lfree h - heap_ptr h) size h
      end.

Definition rt_free (rmem : Z) (h : heap) : option heap :=
  if rmem =? 0 then Some h
  else if negb (Z.land rmem (RT_ALIGN_SIZE - 1) =? 0) then None
  else if negb ((heap_ptr h <=? rmem) && (rmem <? heap_end h)) then None
  else
    let mem := rmem - SIZEOF_STRUCT_MEM in
    match sem_take h with
    | None => None
    | Some h =>
        let m := h_mem h in
        if (used m mem =? 0) || negb (magic m mem =? HEAP_MAGIC) then None
        else
          let h := with_mem (set_magic mem HEAP_MAGIC (set_used mem 0 m)) h in
          let h := if mem <? lfree h then with_lfree mem h else h in
          let h := discount (next (h_mem h) mem -u32 (mem - heap_ptr h)) h in
          match plug_holes mem h with
          | None => None
          | Some h => Some (sem_release h)
          end
    end.

Definition rt_realloc (rmem newsize : Z) (h : heap) : option (Z * heap) :=
  let newsize := RT_ALIGN newsize RT_ALIGN_SIZE in
  if mem_size_aligned h <? newsize then Some (0, h)
  else if newsize =? 0 then match rt_free rmem h with None => None | Some h => Some (0, h) end
  else if rmem =? 0 then rt_malloc newsize h
  else
    match sem_take h with
    | None => None
    | Some h =>
        if (rmem <? heap_ptr h) || (heap_end h <=? rmem) then Some (rmem, sem_release h)
        else
          let mem := rmem - SIZEOF_STRUCT_MEM in
          let ptr := mem - heap_ptr h in
          let size := next (h_mem h) mem -u32 ptr -u32 SIZEOF_STRUCT_MEM in
          if size =? newsize then Some (rmem, sem_release h)
          else if newsize +u32 SIZEOF_STRUCT_MEM +u32 MIN_SIZE <? size then
            let h := discount (size -u32 newsize) h in
            let m := h_mem h in
            let ptr2 := ptr +u32 SIZEOF_STRUCT_MEM +u32 newsize in
            let mem2 := heap_ptr h + ptr2 in
            let m := set_used mem2 0 (set_magic mem2 HEAP_MAGIC m) in
            let m := set_prev mem2 ptr (set_next mem2 (next m mem) m) in
            let m := set_next mem ptr2 m in
            let m := if next m mem2 =? mem_size_aligned h +u32 SIZEOF_STRUCT_MEM then m
                     else set_prev (heap_ptr h + next m mem2) ptr2 m in
            let h := with_mem m h in
            let h := if mem2 <? lfree h then with_lfree mem2 h else h in
            match plug_holes mem2 h with
            | None => None
            | Some h => Some (rmem, sem_release h)
            end
          else
            match rt_malloc newsize (sem_release h) with
            | None => None
            | Some (nmem, h) =>
                if nmem =? 0 then Some (nmem, h)
                else
                  let h := with_mem (rt_memcpy (h_mem h) nmem rmem (if size <? newsize then size else newsize)) h in
                  match rt_free rmem h with None => None | Some h => Some (nmem, h) end
            end
    end.

Definition rt_calloc (count size : Z) (h : heap) : option (Z * heap) :=
  match rt_malloc (wrapu 32 (count * size)) h with
  | None => None
  | Some (p, h) =>
      Some (p, if p =? 0 then h else with_mem (rt_memset (h_mem h) p 0 (wrapu 32 (count * size))) h)
  end.

(** Total, used and maximum used. *)
Definition rt_memory_info (h : heap) : Z * Z * Z := (mem_size_aligned h, used_mem h, max_mem h).

(** The state before the initialisation. *)
Definition heap_reset (m : memory) : heap := Heap m 0 0 0 0 0 0 0.

(* ------------------------------------------------------------------ *)
(** ** Blocks

    The heap as the list of its blocks in address order; offsets are relative
    to [heap_ptr], a block takes its 12 byte header and [b_len] bytes. *)

Record blk := Blk { b_len : Z; b_used : bool }.

Definition flag (b : bool) : Z := if b then 1 else 0.

(** Where the blocks [bs] that start at [p] end. *)
Fixpoint stop (p : Z) (bs : list blk) : Z :=
  match bs with
  | [] => p
  | b :: r => stop (p + 12 + b_len b) r
  end.

(** The offset of the last block, or [pp] when there is none. *)
Fixpoint lasto (pp p : Z) (bs : list blk) : Z :=
  match bs with
  | [] => pp
  | b :: r => lasto p (p + 12 + b_len b) r
  end.

(** The headers of [bs] in the memory, from offset [p], behind block [pp]. *)
Fixpoint chain (m : memory) (hp pp p : Z) (bs : list blk) : Prop :=
  match bs with
  | [] => True
  | b :: r =>
      magic m (hp + p) = HEAP_MAGIC /\ used m (hp + p) = flag (b_used b) /\
      next m (hp + p) = p + 12 + b_len b /\ prev m (hp + p) = pp /\
      chain m hp p (p + 12 + b_len b) r
  end.

(** The first free block. *)
Fixpoint first_free (p : Z) (bs : list blk) : Z :=
  match bs with
  | [] => p
  | b :: r => if b_used b then first_free (p + 12 + b_len b) r else p
  end.

(** The user data of the blocks in use: address and length. *)
Fixpoint live (hp p : Z) (bs : list blk) : list (Z * Z) :=
  match bs with
  | [] => []
  | b :: r => (if b_used b then [(hp + p + 12, b_len b)] else []) ++ live hp (p + 12 + b_len b) r
  end.

(** What the statistics count: the blocks in use with their headers. *)
Fixpoint charge (L : list (Z * Z)) : Z :=
  match L with [] => 0 | al :: r => snd al + 12 + charge r end.

(** No two neighbours are free. *)
Fixpoint coalesced (bs : list blk) : Prop :=
  match bs with
  | [] => True
  | b :: r => match r with c :: _ => b_used b = true \/ b_used c = true | [] => True end /\ coalesced r
  end.

Definition blk_ok (b : blk) : Prop := 4 <= b_len b /\ (4 | b_len b).

Record heap_wf (h : heap) (bs : list blk) : Prop := {
  hw_ptr : 0 < heap_ptr h; hw_align : (4 | heap_ptr h);
  hw_size : 12 <= mem_size_aligned h; hw_mult : (4 | mem_size_aligned h);
  hw_top : heap_ptr h + mem_size_aligned h + 24 <= 2 ^ 32;
  hw_end : heap_end h = heap_ptr h + mem_size_aligned h + 12;
  hw_stop : stop 0 bs = mem_size_aligned h + 12;
  hw_blks : Forall blk_ok bs;
  hw_chain : chain (h_mem h) (heap_ptr h) 0 0 bs;
  hw_emagic : magic (h_mem h) (heap_end h) = HEAP_MAGIC;
  hw_eused : used (h_mem h) (heap_end h) = 1;
  hw_enext : next (h_mem h) (heap_end h) = mem_size_aligned h + 12;
  hw_lfree : lfree h = heap_ptr h + first_free 0 bs }.

(** The heap between two calls: no one holds it, no two neighbours are free,
    the statistics are exact. *)
Record heap_ok (h : heap) (bs : list blk) : Prop := {
  ho_wf : heap_wf h bs; ho_coal : coalesced bs; ho_sem : heap_sem h = 1;
  ho_used : used_mem h = charge (live (heap_ptr h) 0 bs); ho_max : used_mem h <= max_mem h }.

(* ------------------------------------------------------------------ *)
(** ** Lists of blocks *)

Lemma stop_app p l1 l2 : stop p (l1 ++ l2) = stop (stop p l1) l2.
Proof. revert p; induction l1; intros; cbn; auto. Qed.

Lemma lasto_app pp p l1 l2 : lasto pp p (l1 ++ l2) = lasto (lasto pp p l1) (stop p l1) l2.
Proof. revert pp p; induction l1; intros; cbn; auto. Qed.

Lemma live_app hp p l1 l2 : live hp p (l1 ++ l2) = live hp p l1 ++ live hp (stop p l1) l2.
Proof. revert p; induction l1; intros; cbn; [done|]. by rewrite <- app_assoc, IHl1. Qed.

Lemma chain_app m hp pp p l1 l2 :
  chain m hp pp p (l1 ++ l2) <-> chain m hp pp p l1 /\ chain m hp (lasto pp p l1) (stop p l1) l2.
Proof. revert pp p; induction l1 as [|b r IH]; intros; cbn; [tauto|]. rewrite IH. tauto. Qed.

Lemma stop_le p bs : Forall blk_ok bs -> p + 16 * Z.of_nat (length bs) <= stop p bs.
Proof.
  intros H. revert p. induction H as [|b r [Hb _] _ IH]; intros p; cbn [stop length]; [lia|].
  specialize (IH (p + 12 + b_len b)). lia.
Qed.

Lemma stop_shift p bs : stop p bs = p + stop 0 bs.
Proof.
  revert p. induction bs as [|b r IH]; intros p; cbn [stop]; [lia|].
  rewrite IH, (IH (0 + 12 + b_len b)). lia.
Qed.

Lemma stop_mult p bs : Forall blk_ok bs -> (4 | p) -> (4 | stop p bs).
Proof.
  intros H. revert p. induction H as [|b r [_ Hb] _ IH]; intros p Hp; cbn [stop]; [done|].
  apply IH. repeat apply Z.divide_add_r; try done. by exists 3.
Qed.

Lemma lasto_range pp p bs : Forall blk_ok bs -> bs <> [] -> p <= lasto pp p bs <= stop p bs - 16.
Proof.
  intros H. revert pp p. induction H as [|b r [Hb _] H IH]; intros pp p Hne; [done|]. cbn [lasto stop].
  destruct r as [|c r]; [cbn; lia|]. specialize (IH p (p + 12 + b_len b) ltac:(done)). lia.
Qed.

Lemma first_free_range p bs : Forall blk_ok bs -> p <= first_free p bs <= stop p bs.
Proof.
  intros H. revert p. induction H as [|b r [Hb _] H IH]; intros p; cbn [first_free stop]; [lia|].
  specialize (IH (p + 12 + b_len b)). pose proof (stop_le (p + 12 + b_len b) r H). destruct (b_used b); lia.
Qed.

Lemma first_free_app p l1 l2 : Forall (fun b => b_used b = true) l1 ->
  first_free p (l1 ++ l2) = first_free (stop p l1) l2.
Proof. intros H. revert p. induction H as [|b r Hb _ IH]; intros p; cbn; [done|]. by rewrite Hb, IH. Qed.

Lemma first_free_split p bs : exists l1 l2, bs = l1 ++ l2 /\ Forall (fun b => b_used b = true) l1 /\
  first_free p bs = stop p l1 /\ match l2 with b :: _ => b_used b = false | [] => True end.
Proof.
  revert p. induction bs as [|b r IH]; intros p; [by exists [], []|]. cbn [first_free].
  destruct (b_used b) eqn:E; [|by exists [], (b :: r)].
  destruct (IH (p + 12 + b_len b)) as (l1 & l2 & -> & F & S & H). exists (b :: l1), l2.
  split_and!; try done. by constructor.
Qed.

Lemma coalesced_app l1 l2 : coalesced (l1 ++ l2) <-> coalesced l1 /\ coalesced l2 /\
  match last l1, l2 with Some b, c :: _ => b_used b = true \/ b_used c = true | _, _ => True end.
Proof.
  induction l1 as [|b [|c r] IH].
  - cbn. tauto.
  - cbn. destruct l2; tauto.
  - change (last (b :: c :: r)) with (last (c :: r)). cbn [app] in *.
    change (coalesced (b :: c :: r)) with ((b_used b = true \/ b_used c = true) /\ coalesced (c :: r)).
    change (coalesced (b :: c :: r ++ l2)) with ((b_used b = true \/ b_used c = true) /\ coalesced (c :: r ++ l2)).
    rewrite IH. tauto.
Qed.

(** Live data lies between the headers. *)
Lemma live_range hp p bs a l : Forall blk_ok bs -> In (a, l) (live hp p bs) ->
  hp + p + 12 <= a /\ a + l <= hp + stop p bs /\ 4 <= l.
Proof.
  intros H. revert p. induction H as [|b r [Hb _] H IH]; intros p Hin; [done|]. cbn [live stop] in *.
  pose proof (stop_le (p + 12 + b_len b) r H).
  apply in_app_or in Hin as [Hin|Hin]; [|specialize (IH _ Hin); lia].
  destruct (b_used b); [|done]. destruct Hin as [[= <- <-]|[]]. lia.
Qed.

Lemma live_in hp p bs a l : In (a, l) (live hp p bs) ->
  exists l1 l2, bs = l1 ++ Blk l true :: l2 /\ a = hp + stop p l1 + 12.
Proof.
  revert p. induction bs as [|[n u] r IH]; intros p Hin; [done|]. cbn [live b_len b_used] in Hin.
  apply in_app_or in Hin as [Hin|Hin].
  - destruct u; [|done]. destruct Hin as [[= <- <-]|[]]. by exists [], r.
  - destruct (IH _ Hin) as (l1 & l2 & -> & ->). by exists (Blk n u :: l1), l2.
Qed.

(* ------------------------------------------------------------------ *)
(** ** The memory of the blocks *)

Lemma RT_ALIGN_4 x : 0 <= x <= 4294967292 -> RT_ALIGN x 4 = (x + 3) / 4 * 4.
Proof.
  intros Hx. unfold RT_ALIGN. change (4 - 1) with 3. rewrite wrapu_small by lia.
  change (u32 (Z.lnot 3)) with (Z.shiftl (Z.ones 30) 2). rewrite <- (Z.shiftl_mul_pow2 _ 2), <- (Z.shiftr_div_pow2 _ 2) by lia.
  apply Z.bits_inj'. intros n Hn. rewrite Z.land_spec, !Z.shiftl_spec by done.
  destruct (Z.ltb_spec n 2).
  - by rewrite !(Z.testbit_neg_r _ (n - 2)), andb_false_r by lia.
  - rewrite Z.shiftr_spec, Z.sub_add by lia.
    destruct (Z.lt_ge_cases n 32).
    + rewrite Z.ones_spec_low by lia. apply andb_true_r.
    + rewrite Z.ones_spec_high, andb_false_r by lia. symmetry.
      apply (Z.bits_above_log2 (x + 3) n); [lia|]. destruct (Z.eq_dec (x + 3) 0) as [->|]; [cbn; lia|].
      apply Z.log2_lt_pow2; [lia|]. apply Z.lt_le_trans with (2 ^ 32); [lia|]. apply Z.pow_le_mono_r; lia.
Qed.

Lemma RT_ALIGN_DOWN_4 x : is_u32 x -> RT_ALIGN_DOWN x 4 = x / 4 * 4.
Proof.
  intros Hx. unfold is_u32 in Hx. unfold RT_ALIGN_DOWN. change (4 - 1) with 3.
  change (u32 (Z.lnot 3)) with (Z.shiftl (Z.ones 30) 2). rewrite <- (Z.shiftl_mul_pow2 _ 2), <- (Z.shiftr_div_pow2 _ 2) by lia.
  apply Z.bits_inj'. intros n Hn. rewrite Z.land_spec, !Z.shiftl_spec by done.
  destruct (Z.ltb_spec n 2).
  - by rewrite !(Z.testbit_neg_r _ (n - 2)), andb_false_r by lia.
  - rewrite Z.shiftr_spec, Z.sub_add by lia.
    destruct (Z.lt_ge_cases n 32).
    + rewrite Z.ones_spec_low by lia. apply andb_true_r.
    + rewrite Z.ones_spec_high, andb_false_r by lia. symmetry.
      apply (Z.bits_above_log2 x n); [lia|]. destruct (Z.eq_dec x 0) as [->|]; [cbn; lia|].
      apply Z.log2_lt_pow2; [lia|]. apply Z.lt_le_trans with (2 ^ 32); [lia|]. apply Z.pow_le_mono_r; lia.
Qed.

Definition same (m m' : memory) (lo hi : Z) : Prop := forall x, lo <= x < hi -> m' x = m x.

Lemma magic_same m m' a : same m m' a (a + 2) -> magic m' a = magic m a.
Proof. intros H. apply load_ext. intros x Hx. apply H. lia. Qed.
Lemma used_same m m' a : same m m' (a + 2) (a + 4) -> used m' a = used m a.
Proof. intros H. apply load_ext. intros x Hx. apply H. lia. Qed.
Lemma next_same m m' a : same m m' (a + 4) (a + 8) -> next m' a = next m a.
Proof. intros H. apply load_ext. intros x Hx. apply H. lia. Qed.
Lemma prev_same m m' a : same m m' (a + 8) (a + 12) -> prev m' a = prev m a.
Proof. intros H. apply load_ext. intros x Hx. apply H. lia. Qed.

Lemma chain_same m m' hp pp p bs : Forall blk_ok bs -> same m m' (hp + p) (hp + stop p bs) ->
  chain m hp pp p bs -> chain m' hp pp p bs.
Proof.
  intros H. revert pp p. induction H as [|b r [Hb _] H IH]; intros pp p Hs Hc; [done|].
  cbn [chain stop] in *. destruct Hc as (H1 & H2 & H3 & H4 & Hc). pose proof (stop_le (p + 12 + b_len b) r H).
  split_and!.
  - rewrite (magic_same m); [done|]. intros x Hx. apply Hs. lia.
  - rewrite (used_same m); [done|]. intros x Hx. apply Hs. lia.
  - rewrite (next_same m); [done|]. intros x Hx. apply Hs. lia.
  - rewrite (prev_same m); [done|]. intros x Hx. apply Hs. lia.
  - apply IH; [|done]. intros x Hx. apply Hs. lia.
Qed.

(** The blocks after a change that only writes the [prev] of the first. *)
Lemma chain_same_prev m m' hp pp pp' p bs : Forall blk_ok bs ->
  same m m' (hp + p) (hp + p + 8) -> same m m' (hp + p + 12) (hp + stop p bs) ->
  (bs <> [] -> prev m' (hp + p) = pp') -> chain m hp pp p bs -> chain m' hp pp' p bs.
Proof.
  intros H. destruct H as [|b r [Hb _] H]; intros Hs1 Hs2 Hp Hc; [done|].
  cbn [chain stop] in *. destruct Hc as (H1 & H2 & H3 & H4 & Hc). pose proof (stop_le (p + 12 + b_len b) r H).
  split_and!.
  - rewrite (magic_same m); [done|]. intros x Hx. apply Hs1. lia.
  - rewrite (used_same m); [done|]. intros x Hx. apply Hs1. lia.
  - rewrite (next_same m); [done|]. intros x Hx. apply Hs1. lia.
  - by apply Hp.
  - eapply chain_same; [done| |done]. intros x Hx. apply Hs2. lia.
Qed.

(** The bytes a call leaves alone when it rebuilds the blocks between offsets
    [lo] and [hi] and the link back from [hi]. *)
Definition outside (hp lo hi x : Z) : Prop :=
  x < hp + lo \/ hp + hi <= x < hp + hi + 8 \/ hp + hi + 12 <= x.

Lemma wf_replace h h' l1 mid mid' l2 : heap_wf h (l1 ++ mid ++ l2) ->
  let lo := stop 0 l1 in let hi := stop lo mid in
  heap_ptr h' = heap_ptr h -> heap_end h' = heap_end h -> mem_size_aligned h' = mem_size_aligned h ->
  (forall x, outside (heap_ptr h) lo hi x -> h_mem h' x = h_mem h x) ->
  stop lo mid' = hi -> Forall blk_ok mid' ->
  chain (h_mem h') (heap_ptr h) (lasto 0 0 l1) lo mid' ->
  (l2 <> [] -> prev (h_mem h') (heap_ptr h + hi) = lasto (lasto 0 0 l1) lo mid') ->
  lfree h' = heap_ptr h + first_free 0 (l1 ++ mid' ++ l2) ->
  heap_wf h' (l1 ++ mid' ++ l2).
Proof.
  intros [W1 W2 W3 W4 W5 W6 W7 W8 W9 W10 W11 W12 W13] lo hi Ep Ee Es Hm Hstop Hb' Hc' Hp Hl.
  apply Forall_app in W8 as [B1 B2]. apply Forall_app in B2 as [B2 B3].
  rewrite !chain_app in W9. fold lo hi in W9. destruct W9 as (C1 & _ & C3).
  rewrite !stop_app in W7. fold lo hi in W7.
  assert (0 <= lo) by (pose proof (stop_le 0 l1 B1); unfold lo; lia).
  assert (lo <= hi) by (pose proof (stop_le lo mid B2); unfold hi; lia).
  assert (hi <= mem_size_aligned h + 12) by (pose proof (stop_le hi l2 B3); lia).
  assert (forall x, outside (heap_ptr h) lo hi x -> h_mem h' x = h_mem h x) as Hm' by done. unfold outside in Hm'.
  assert (same (h_mem h) (h_mem h') (heap_end h) (heap_end h + 8)) as Hend.
  { intros x Hx. apply Hm'. rewrite W6 in Hx. destruct l2 as [|c l2]; [cbn in W7; lia|].
    apply Forall_cons in B3 as [[Hc _] B3]. cbn [stop] in W7.
    pose proof (stop_le (hi + 12 + b_len c) l2 B3). lia. }
  split; rewrite ?Ep, ?Ee, ?Es; try done.
  - rewrite !stop_app. fold lo. by rewrite Hstop.
  - rewrite !Forall_app. done.
  - rewrite !chain_app. fold lo. rewrite Hstop. split_and!; [|done|].
    + eapply chain_same; [done| |done]. intros x Hx. apply Hm'. fold lo in Hx. lia.
    + eapply chain_same_prev; [done| | |exact Hp|exact C3]; intros x Hx; apply Hm'; lia.
  - rewrite (magic_same (h_mem h)); [done|]. intros x Hx. apply Hend. lia.
  - rewrite (used_same (h_mem h)); [done|]. intros x Hx. apply Hend. lia.
  - rewrite (next_same (h_mem h)); [done|]. intros x Hx. apply Hend. lia.
Qed.

(** Live data of the other blocks, and memory outside the heap, is left alone. *)
Definition elsewhere (h : heap) (x : Z) : Prop :=
  x < heap_ptr h \/ heap_ptr h + mem_size_aligned h + 24 <= x.

Lemma outside_live h l1 mid l2 a l x : heap_wf h (l1 ++ mid ++ l2) ->
  In (a, l) (live (heap_ptr h) 0 l1 ++ live (heap_ptr h) (stop (stop 0 l1) mid) l2) -> a <= x < a + l ->
  outside (heap_ptr h) (stop 0 l1) (stop (stop 0 l1) mid) x.
Proof.
  intros W Hin Hx. pose proof (hw_blks _ _ W) as B. apply Forall_app in B as [B1 B2]. apply Forall_app in B2 as [B2 B3].
  unfold outside. apply in_app_or in Hin as [Hin|Hin].
  - apply live_range in Hin; [lia|done].
  - apply live_range in Hin; [lia|done].
Qed.

Lemma outside_elsewhere h l1 mid l2 x : heap_wf h (l1 ++ mid ++ l2) -> elsewhere h x ->
  outside (heap_ptr h) (stop 0 l1) (stop (stop 0 l1) mid) x.
Proof.
  intros W Hx. pose proof (hw_blks _ _ W) as B. apply Forall_app in B as [B1 B2]. apply Forall_app in B2 as [B2 B3].
  pose proof (hw_stop _ _ W) as S. rewrite !stop_app in S.
  pose proof (stop_le 0 l1 B1). pose proof (stop_le (stop 0 l1) mid B2).
  pose proof (stop_le (stop (stop 0 l1) mid) l2 B3). unfold outside, elsewhere in *. lia.
Qed.

(* ------------------------------------------------------------------ *)
(** ** Headers of a well-formed heap *)


(** Reads a field through the stores of other fields. *)
Ltac field_ne := rewrite load_store_ne by (cbn [Z.of_nat Pos.of_succ_nat Pos.succ]; lia).
Ltac field_eq := rewrite load_store_eq by (cbn [Z.of_nat Pos.of_succ_nat Pos.succ]; lia).
Ltac fields := unfold HEAP_MAGIC, magic, used, next, prev, set_magic, set_used, set_next, set_prev;
  repeat first [field_ne | field_eq].

Section Wf.
Context (h : heap) (bs : list blk) (W : heap_wf h bs).
Abbreviation hp := (heap_ptr h).
Abbreviation m := (h_mem h).

Lemma wf_split l1 l2 : bs = l1 ++ l2 -> Forall blk_ok l1 /\ Forall blk_ok l2 /\
  0 <= stop 0 l1 /\ (4 | stop 0 l1) /\ stop (stop 0 l1) l2 = mem_size_aligned h + 12.
Proof.
  intros ->. pose proof (hw_blks _ _ W) as B. apply Forall_app in B as [B1 B2].
  pose proof (stop_le 0 l1 B1). split_and!; try done; try lia.
  - apply stop_mult; [done | by exists 0].
  - rewrite <- stop_app. apply W.
Qed.

Lemma wf_block l1 b l2 : bs = l1 ++ b :: l2 ->
  let off := stop 0 l1 in
  magic m (hp + off) = HEAP_MAGIC /\ used m (hp + off) = flag (b_used b) /\
  next m (hp + off) = off + 12 + b_len b /\ prev m (hp + off) = lasto 0 0 l1 /\
  0 <= off /\ 4 <= b_len b /\ off + 12 + b_len b + 16 * Z.of_nat (length l2) <= mem_size_aligned h + 12.
Proof.
  intros E off. pose proof (hw_chain _ _ W) as C. rewrite E in C. apply chain_app in C as [_ (C1 & C2 & C3 & C4 & _)].
  destruct (wf_split l1 (b :: l2) E) as (_ & B & H0 & _ & S). apply Forall_cons in B as [[Hb _] B].
  cbn [stop] in S. pose proof (stop_le (stop 0 l1 + 12 + b_len b) l2 B). split_and!; try done; unfold off; lia.
Qed.

Lemma wf_next l1 b l2 : bs = l1 ++ b :: l2 ->
  used m (hp + (stop 0 l1 + 12 + b_len b)) = match l2 with c :: _ => flag (b_used c) | [] => 1 end.
Proof.
  intros E. destruct l2 as [|c l2].
  - destruct (wf_split l1 [b] E) as (_ & _ & _ & _ & S). cbn [stop] in S.
    rewrite S. rewrite Z.add_assoc, <- (hw_end _ _ W). apply W.
  - replace (stop 0 l1 + 12 + b_len b) with (stop 0 (l1 ++ [b])) by (rewrite stop_app; done).
    apply (wf_block (l1 ++ [b]) c l2). by rewrite <- app_assoc.
Qed.
End Wf.

Lemma flag_0 b : (flag b =? 0) = negb b.
Proof. by destruct b. Qed.

Lemma first_free_free p l1 a b r r' :
  first_free p (l1 ++ Blk a false :: r) = first_free p (l1 ++ Blk b false :: r').
Proof. revert p. induction l1 as [|c l1 IH]; intros p; cbn; [done|]. by rewrite IH. Qed.

Lemma first_free_le p l1 a r : Forall blk_ok l1 -> first_free p (l1 ++ Blk a false :: r) <= stop p l1.
Proof.
  intros H. revert p. induction H as [|c l1 [Hc _] H IH]; intros p; cbn; [lia|].
  pose proof (stop_le (p + 12 + b_len c) l1 H). destruct (b_used c); [apply IH|lia].
Qed.

(** What a call keeps: the geometry of the heap, the bytes of the live blocks
    [L] and those outside the heap. *)
Record kept (h h' : heap) (L : list (Z * Z)) : Prop := {
  k_ptr : heap_ptr h' = heap_ptr h; k_end : heap_end h' = heap_end h;
  k_size : mem_size_aligned h' = mem_size_aligned h; k_sem : heap_sem h' = heap_sem h;
  k_live : forall a l x, In (a, l) L -> a <= x < a + l -> h_mem h' x = h_mem h x;
  k_out : forall x, elsewhere h x -> h_mem h' x = h_mem h x }.

Lemma kept_refl h L : kept h h L.
Proof. by split. Qed.

Lemma kept_trans h1 h2 h3 L : kept h1 h2 L -> kept h2 h3 L -> kept h1 h3 L.
Proof.
  intros [A1 A2 A3 A4 A5 A6] [B1 B2 B3 B4 B5 B6]. split; try congruence.
  - intros a l x Hin Hx. rewrite (B5 a l x Hin Hx). by apply (A5 a l x).
  - intros x Hx. rewrite B6; [by apply A6|]. unfold elsewhere in *. by rewrite A1, A3.
Qed.

Lemma kept_incl h h' L L' : kept h h' L -> (forall x, In x L' -> In x L) -> kept h h' L'.
Proof. intros [A1 A2 A3 A4 A5 A6] H. split; try done. intros a l x Hin. apply A5. by apply H. Qed.

(** A call that rebuilds [mid]. *)
Lemma kept_replace h h' l1 mid l2 : heap_wf h (l1 ++ mid ++ l2) ->
  heap_ptr h' = heap_ptr h -> heap_end h' = heap_end h -> mem_size_aligned h' = mem_size_aligned h ->
  heap_sem h' = heap_sem h ->
  (forall x, outside (heap_ptr h) (stop 0 l1) (stop (stop 0 l1) mid) x -> h_mem h' x = h_mem h x) ->
  kept h h' (live (heap_ptr h) 0 l1 ++ live (heap_ptr h) (stop (stop 0 l1) mid) l2).
Proof.
  intros W E1 E2 E3 E4 Hm. split; try done.
  - intros a l x Hin Hx. apply Hm. by eapply outside_live.
  - intros x Hx. apply Hm. by eapply outside_elsewhere.
Qed.

(* ------------------------------------------------------------------ *)
(** ** [plug_holes] *)

Definition free_head (l : list blk) : bool :=
  match l with Blk _ u :: _ => negb u | [] => false end.

(** The merge with the block behind, when there is a free one. *)
Lemma plug_next_spec h l1 a l2 : heap_wf h (l1 ++ Blk a false :: l2) -> coalesced l2 ->
  exists h' a' l2', plug_next (heap_ptr h + stop 0 l1) h = h' /\
    heap_wf h' (l1 ++ Blk a' false :: l2') /\ coalesced l2' /\ free_head l2' = false /\
    live (heap_ptr h) 0 (l1 ++ Blk a' false :: l2') = live (heap_ptr h) 0 (l1 ++ Blk a false :: l2) /\
    kept h h' (live (heap_ptr h) 0 (l1 ++ Blk a false :: l2)).
Proof.
  intros W Hc. destruct (wf_block h _ W l1 (Blk a false) l2 eq_refl) as (_ & _ & Hn & _ & H0 & Ha & Htop).
  pose proof (wf_next h _ W l1 (Blk a false) l2 eq_refl) as Hu. cbn [b_len b_used] in *.
  set (off := stop 0 l1) in *. unfold plug_next. rewrite Hn, Hu.
  rewrite (proj2 (Z.eqb_neq (heap_ptr h + off) _)) by lia.
  destruct l2 as [|[b [|]] l2]; cbn [flag b_used Z.eqb andb negb Pos.eqb].
  { exists h, a, []. done. }
  { exists h, a, (Blk b true :: l2). done. }
  pose proof (wf_block h _ W (l1 ++ [Blk a false]) (Blk b false) l2 ltac:(by rewrite <- app_assoc)) as B.
  rewrite stop_app in B. cbn [stop b_len b_used length] in B. fold off in B.
  destruct B as (_ & _ & Bn & _ & _ & Hb & Htop2). cbn [length] in Htop.
  pose proof (hw_end _ _ W) as He. pose proof (hw_top _ _ W) as Ht. pose proof (hw_ptr _ _ W) as Hp.
  rewrite (proj2 (Z.eqb_neq _ (heap_end h))) by lia. cbn [negb].
  pose proof (hw_blks _ _ W) as Bk. apply Forall_app in Bk as [Bk1 Bk]. apply Forall_cons in Bk as [Bka Bk].
  apply Forall_cons in Bk as [Bkb Bk2].
  pose proof (first_free_le 0 l1 a (Blk b false :: l2) Bk1) as Hf. fold off in Hf.
  rewrite (proj2 (Z.eqb_neq (lfree h) _)) by (rewrite (hw_lfree _ _ W); lia).
  set (e := off + 12 + a + 12 + b) in *.
  cbv zeta. rewrite Bn. assert (next (set_next (heap_ptr h + off) e (h_mem h)) (heap_ptr h + (off + 12 + a)) = e) as ->
    by (rewrite <- Bn; fields; done).
  eexists _, (a + 12 + b), l2. split; [reflexivity|].
  assert (heap_wf h (l1 ++ [Blk a false; Blk b false] ++ l2)) as W' by done.
  assert (forall x, outside (heap_ptr h) (stop 0 l1) (stop (stop 0 l1) [Blk a false; Blk b false]) x ->
    set_prev (heap_ptr h + e) (heap_ptr h + off - heap_ptr h) (set_next (heap_ptr h + off) e (h_mem h)) x = h_mem h x) as Hm.
  { intros x. unfold outside. cbn [stop b_len]. fold off. intros Hx. unfold set_prev, set_next.
    rewrite !store_outside by (cbn [Z.of_nat Pos.of_succ_nat Pos.succ]; lia). done. }
  split_and!.
  - apply (wf_replace h _ l1 [Blk a false; Blk b false] [Blk (a + 12 + b) false] l2); try done.
    + cbn [stop b_len]. lia.
    + constructor; [|constructor]. destruct Bka as [? ?], Bkb as [? ?]. cbn [b_len] in *. split; cbn [b_len]; [lia|].
      repeat apply Z.divide_add_r; try done. by exists 3.
    + destruct (wf_block h _ W l1 (Blk a false) (Blk b false :: l2) eq_refl) as (Bm & Bu & _ & Bp & _).
      fold off in Bm, Bu, Bp |- *. cbn [chain h_mem with_mem b_len b_used flag] in *. split_and!; [..|done].
      * revert Bm. fields. done.
      * revert Bu. fields. done.
      * fields. unfold e. lia.
      * revert Bp. fields. done.
    + intros _. cbn [stop lasto b_len h_mem with_mem]. fold off e. fields. lia.
    + cbn [lfree with_mem]. rewrite (hw_lfree _ _ W). f_equal. apply first_free_free.
  - by destruct Hc.
  - destruct Hc as [Hc _]. destruct l2 as [|[n [|]] l2]; [done..|]. by destruct Hc.
  - rewrite !live_app. cbn [live b_used b_len app]. do 2 f_equal. lia.
  - eapply kept_incl; [by apply (kept_replace h _ l1 [Blk a false; Blk b false] l2)|].
    intros x. rewrite live_app. cbn [live b_used b_len app stop]. fold off. done.
Qed.

Lemma coalesced_free l1 a l2 : coalesced l1 -> coalesced l2 -> free_head l2 = false ->
  match last l1 with Some b => b_used b = true | None => True end -> coalesced (l1 ++ Blk a false :: l2).
Proof.
  intros C1 C2 F L. apply coalesced_app. split_and!; try done.
  - destruct l2 as [|[n [|]] l2]; [done|split; auto|done].
  - destruct (last l1); auto.
Qed.

(** The merge with the block in front, when it is free. *)
Lemma plug_prev_spec h l1 a l2 : heap_wf h (l1 ++ Blk a false :: l2) ->
  coalesced l1 -> coalesced l2 -> free_head l2 = false ->
  exists h' bs', plug_prev (heap_ptr h + stop 0 l1) h = h' /\ heap_wf h' bs' /\ coalesced bs' /\
    live (heap_ptr h) 0 bs' = live (heap_ptr h) 0 (l1 ++ Blk a false :: l2) /\
    kept h h' (live (heap_ptr h) 0 (l1 ++ Blk a false :: l2)).
Proof.
  intros W C1 C2 F. destruct (wf_block h _ W l1 (Blk a false) l2 eq_refl) as (_ & _ & Hn & Hpv & H0 & Ha & Htop).
  cbn [b_len b_used] in *. unfold plug_prev. rewrite Hn, Hpv.
  destruct l1 as [|[p u] l1 _] using rev_ind.
  { cbn [lasto stop]. rewrite Z.eqb_refl. eexists h, (Blk a false :: l2).
    split_and!; try done. by apply (coalesced_free []). }
  pose proof (wf_block h _ W l1 (Blk p u) (Blk a false :: l2) ltac:(by rewrite <- app_assoc)) as (_ & Bu & Bn & Bp & Hp0 & Hp4 & _).
  rewrite lasto_app. cbn [lasto b_len b_used] in *. rewrite Bu, flag_0. rewrite stop_app in *. cbn [stop b_len] in *.
  set (off := stop 0 l1) in *. rewrite (proj2 (Z.eqb_neq _ (heap_ptr h + (off + 12 + p)))) by lia.
  destruct u; cbn [negb andb].
  { eexists h, _. split; [reflexivity|]. split; [exact W|]. split_and!; try done.
    apply coalesced_free; try done. by rewrite last_snoc. }
  rewrite <- app_assoc in W. cbn [app] in W.
  pose proof (hw_end _ _ W) as He. pose proof (hw_top _ _ W) as Ht. pose proof (hw_ptr _ _ W) as Hp.
  pose proof (hw_blks _ _ W) as Bk. apply Forall_app in Bk as [Bk1 Bk]. apply Forall_cons in Bk as [Bkp Bk].
  apply Forall_cons in Bk as [Bka Bk2].
  pose proof (first_free_le 0 l1 p (Blk a false :: l2) Bk1) as Hf. fold off in Hf.
  rewrite (proj2 (Z.eqb_neq (lfree h) _)) by (rewrite (hw_lfree _ _ W); lia).
  cbv zeta. set (e := off + 12 + p + 12 + a) in *.
  assert (next (set_next (heap_ptr h + off) e (h_mem h)) (heap_ptr h + (off + 12 + p)) = e) as ->
    by (rewrite <- Hn; fields; done).
  eexists _, (l1 ++ Blk (p + 12 + a) false :: l2). split; [reflexivity|].
  assert (heap_wf h (l1 ++ [Blk p false; Blk a false] ++ l2)) as W' by done.
  assert (forall x, outside (heap_ptr h) (stop 0 l1) (stop (stop 0 l1) [Blk p false; Blk a false]) x ->
    set_prev (heap_ptr h + e) (heap_ptr h + off - heap_ptr h) (set_next (heap_ptr h + off) e (h_mem h)) x = h_mem h x) as Hm.
  { intros x. unfold outside. cbn [stop b_len]. fold off. intros Hx. unfold set_prev, set_next.
    rewrite !store_outside by (cbn [Z.of_nat Pos.of_succ_nat Pos.succ]; lia). done. }
  split_and!.
  - apply (wf_replace h _ l1 [Blk p false; Blk a false] [Blk (p + 12 + a) false] l2); try done.
    + cbn [stop b_len]. lia.
    + constructor; [|constructor]. destruct Bka as [? ?], Bkp as [? ?]. cbn [b_len] in *. split; cbn [b_len]; [lia|].
      repeat apply Z.divide_add_r; try done. by exists 3.
    + destruct (wf_block h _ W l1 (Blk p false) (Blk a false :: l2) eq_refl) as (Bm & _).
      fold off in Bm |- *. cbn [chain h_mem with_mem b_len b_used flag] in *. split_and!; [..|done].
      * revert Bm. fields. done.
      * revert Bu. fields. done.
      * fields. unfold e. lia.
      * revert Bp. fields. done.
    + intros _. cbn [stop lasto b_len h_mem with_mem]. fold off e. fields. lia.
    + cbn [lfree with_mem]. rewrite (hw_lfree _ _ W). f_equal. apply first_free_free.
  - apply coalesced_app in C1 as (C1 & _ & L). apply coalesced_free; try done.
    destruct (last l1); [|done]. by destruct L.
  - rewrite <- app_assoc, !live_app. cbn [live b_used b_len app stop]. do 2 f_equal. lia.
  - eapply kept_incl; [by apply (kept_replace h _ l1 [Blk p false; Blk a false] l2)|].
    intros x. rewrite <- app_assoc, live_app. cbn [live b_used b_len app stop]. fold off. done.
Qed.

Lemma plug_holes_spec h l1 a l2 : heap_wf h (l1 ++ Blk a false :: l2) -> coalesced l1 -> coalesced l2 ->
  exists h' bs', plug_holes (heap_ptr h + stop 0 l1) h = Some h' /\ heap_wf h' bs' /\ coalesced bs' /\
    live (heap_ptr h) 0 bs' = live (heap_ptr h) 0 (l1 ++ Blk a false :: l2) /\
    kept h h' (live (heap_ptr h) 0 (l1 ++ Blk a false :: l2)).
Proof.
  intros W C1 C2. destruct (wf_block h _ W l1 (Blk a false) l2 eq_refl) as (_ & Hu & _ & _ & H0 & Ha & Htop).
  cbn [b_len b_used flag] in *. unfold plug_holes. rewrite Hu, (hw_end _ _ W).
  rewrite (proj2 (Z.leb_le _ _)), (proj2 (Z.ltb_lt _ _)) by lia. cbn [andb Z.eqb].
  destruct (plug_next_spec h l1 a l2 W C2) as (h1 & a' & l2' & -> & W1 & C2' & F & L1 & K1).
  destruct (plug_prev_spec h1 l1 a' l2' W1 C1 C2' F) as (h2 & bs' & E & W2 & C & L2 & K2).
  rewrite (k_ptr _ _ _ K1) in *. rewrite E, L1 in *. exists h2, bs'. split_and!; try done.
  by eapply kept_trans.
Qed.

(* ------------------------------------------------------------------ *)
(** ** [rt_free] *)

Lemma charge_app L1 L2 : charge (L1 ++ L2) = charge L1 + charge L2.
Proof. induction L1 as [|al L1 IH]; cbn [app charge]; lia. Qed.

Lemma charge_range hp p bs : Forall blk_ok bs -> 0 <= charge (live hp p bs) <= stop p bs - p.
Proof.
  intros H. revert p. induction H as [|[n u] bs [Hb _] H IH]; intros p; cbn [live stop charge b_len b_used] in *; [lia|].
  specialize (IH (p + 12 + n)). destruct u; cbn [app charge snd]; lia.
Qed.

Lemma wf_charge h bs : heap_wf h bs -> 0 <= charge (live (heap_ptr h) 0 bs) < 2 ^ 32.
Proof.
  intros W. pose proof (charge_range (heap_ptr h) 0 bs (hw_blks _ _ W)) as H. rewrite (hw_stop _ _ W) in H.
  pose proof (hw_top _ _ W). pose proof (hw_ptr _ _ W). lia.
Qed.

Lemma plug_stats mem h h' : plug_holes mem h = Some h' -> used_mem h' = used_mem h /\ max_mem h' = max_mem h.
Proof.
  unfold plug_holes, plug_prev, plug_next. destruct (_ && _); [|done]. intros [= <-].
  repeat case_match; done.
Qed.

Lemma kept_stats h h2 L u mx : kept h h2 L -> kept h (with_stats u mx h2) L.
Proof. intros []. by split. Qed.

Lemma wf_stats h bs u mx : heap_wf h bs -> heap_wf (with_stats u mx h) bs.
Proof. intros []. by split. Qed.

Lemma wf_sem h bs n : heap_wf h bs -> heap_wf (with_sem n h) bs.
Proof. intros []. by split. Qed.

(** Around the code that holds the semaphore. *)
Lemma kept_locked h h2 L : heap_sem h = 1 -> kept (with_sem 0 h) h2 L -> kept h (sem_release h2) L.
Proof.
  intros E [A1 A2 A3 A4 A5 A6]. split; try done. cbn in *. rewrite A4, E. done.
Qed.

Lemma ok_locked h h2 L bs : heap_sem h = 1 -> kept (with_sem 0 h) h2 L -> heap_wf h2 bs -> coalesced bs ->
  used_mem h2 = charge (live (heap_ptr h2) 0 bs) -> used_mem h2 <= max_mem h2 -> heap_ok (sem_release h2) bs.
Proof.
  intros E K W C U M. split; [by apply wf_sem | done | | done..]. cbn. by rewrite (k_sem _ _ _ K).
Qed.

Lemma take_free h : heap_sem h = 1 -> sem_take h = Some (with_sem 0 h).
Proof. intros E. unfold sem_take. by rewrite E. Qed.

Lemma blk_split_live hp l1 l l2 : Forall blk_ok (l1 ++ Blk l true :: l2) ->
  live hp 0 (l1 ++ Blk l true :: l2)
    = live hp 0 l1 ++ (hp + stop 0 l1 + 12, l) :: live hp (stop 0 l1 + 12 + l) l2 /\
  forall x n, In (x, n) (live hp 0 l1 ++ live hp (stop 0 l1 + 12 + l) l2) <->
    In (x, n) (live hp 0 (l1 ++ Blk l true :: l2)) /\ x <> hp + stop 0 l1 + 12.
Proof.
  intros B. assert (live hp 0 (l1 ++ Blk l true :: l2)
    = live hp 0 l1 ++ (hp + stop 0 l1 + 12, l) :: live hp (stop 0 l1 + 12 + l) l2) as E
    by (by rewrite live_app).
  split; [done|]. intros x n. rewrite E, !in_app_iff. cbn [In].
  apply Forall_app in B as [B1 B2]. apply Forall_cons in B2 as [[Hb _] B2]. cbn [b_len] in Hb. split.
  - intros [Hin|Hin]; (split; [auto|]); apply live_range in Hin; try done; lia.
  - intros [[Hin|[[= -> ->]|Hin]] Hne]; [auto|done|auto].
Qed.

Lemma land3 x : (4 | x) -> Z.land x (RT_ALIGN_SIZE - 1) = 0.
Proof.
  intros [k ->]. change (RT_ALIGN_SIZE - 1) with (Z.ones 2). rewrite Z.land_ones by lia. apply Z.mod_mul. lia.
Qed.

Lemma divide_sum a b c : (4 | a) -> (4 | b) -> (4 | c) -> (4 | a + b + c).
Proof. intros. by repeat apply Z.divide_add_r. Qed.

(** Where the first free block is once a block of the list is freed. *)
Lemma first_free_freed l1 l l2 : Forall blk_ok (l1 ++ Blk l true :: l2) ->
  first_free 0 (l1 ++ Blk l false :: l2)
    = Z.min (first_free 0 (l1 ++ Blk l true :: l2)) (stop 0 l1).
Proof.
  generalize 0. induction l1 as [|[n u] l1 IH]; intros p B; cbn [app first_free b_used b_len stop].
  - apply Forall_cons in B as [[Hb _] B]. cbn [b_len] in Hb.
    pose proof (first_free_range (p + 12 + l) l2 B). lia.
  - cbn [app] in B. apply Forall_cons in B as [[Hb _] B]. cbn [b_len] in Hb. destruct u; [by apply IH|].
    apply Forall_app in B as [B _]. pose proof (stop_le (p + 12 + n) l1 B). lia.
Qed.

Lemma rt_free_spec h bs a l : heap_ok h bs -> In (a, l) (live (heap_ptr h) 0 bs) ->
  exists h' bs', rt_free a h = Some h' /\ heap_ok h' bs' /\
    (forall x n, In (x, n) (live (heap_ptr h) 0 bs') <-> In (x, n) (live (heap_ptr h) 0 bs) /\ x <> a) /\
    kept h h' (live (heap_ptr h) 0 bs').
Proof.
  intros [W C S U M] Hin. apply live_in in Hin as (l1 & l2 & -> & ->). set (hp := heap_ptr h) in *.
  destruct (wf_block h _ W l1 (Blk l true) l2 eq_refl) as (Bm & Bu & Bn & Bp & H0 & Hl & Htop).
  destruct (wf_split h _ W l1 (Blk l true :: l2) eq_refl) as (_ & _ & _ & D & _).
  pose proof (hw_ptr _ _ W). pose proof (hw_end _ _ W) as He. pose proof (hw_align _ _ W) as Da.
  pose proof (hw_top _ _ W) as Ht. pose proof (hw_lfree _ _ W) as Hlf. pose proof (hw_blks _ _ W) as Bk.
  fold hp in Bm, Bu, Bn, Bp, He, Da, Hlf, Ht, H. cbn [b_len b_used flag] in *. set (off := stop 0 l1) in *.
  unfold rt_free. rewrite (proj2 (Z.eqb_neq _ 0)) by lia.
  rewrite land3 by (apply divide_sum; [done..|by exists 3]). cbn [Z.eqb negb]. fold hp.
  rewrite (proj2 (Z.leb_le hp _)), (proj2 (Z.ltb_lt _ (heap_end h))) by lia. cbn [andb negb].
  change SIZEOF_STRUCT_MEM with 12. rewrite Z.add_simpl_r, take_free by done.
  cbn [h_mem with_sem]. rewrite Bu, Bm, Z.eqb_refl. cbn [Z.eqb orb negb Pos.eqb].
  set (h1 := with_mem _ (with_sem 0 h)). set (h2 := if _ <? lfree h1 then _ else h1).
  assert (lfree h2 = hp + first_free 0 (l1 ++ Blk l false :: l2)) as Hlf2.
  { rewrite first_free_freed by done. fold off. unfold h2. change (lfree h1) with (lfree h). rewrite Hlf.
    destruct (Z.ltb_spec (hp + off) (hp + first_free 0 (l1 ++ Blk l true :: l2))); cbn [lfree with_lfree]; [lia|].
    change (lfree h1) with (lfree h). lia. }
  assert (h_mem h2 = h_mem h1 /\ heap_ptr h2 = hp /\ heap_end h2 = heap_end h /\
    mem_size_aligned h2 = mem_size_aligned h /\ heap_sem h2 = 0) as (Q1 & Q2 & Q3 & Q4 & Q5)
    by (unfold h2; by destruct (_ <? _)).
  assert (forall x, outside hp off (stop off [Blk l true]) x -> h_mem h2 x = h_mem h x) as Hm.
  { intros x. unfold outside. cbn [stop b_len]. intros Hx. rewrite Q1. unfold h1. cbn [h_mem with_mem].
    unfold set_magic, set_used. rewrite !store_outside by (cbn [Z.of_nat Pos.of_succ_nat Pos.succ]; lia). done. }
  assert (heap_wf h2 (l1 ++ [Blk l false] ++ l2)) as W2.
  { apply (wf_replace (with_sem 0 h) _ l1 [Blk l true] [Blk l false] l2); try done.
    - by apply wf_sem.
    - constructor; [|constructor]. apply Forall_app in Bk as [_ Bk]. by apply Forall_cons in Bk as [? _].
    - cbn [chain b_len b_used flag heap_ptr with_sem]. fold hp off. rewrite Q1. unfold h1. cbn [h_mem with_mem].
      split_and!; [..|done].
      + fields. done.
      + fields. done.
      + rewrite <- Bn. fields. done.
      + rewrite <- Bp. fields. done.
    - intros Hne. cbn [stop lasto b_len heap_ptr with_sem]. fold hp off. rewrite Q1. unfold h1. cbn [h_mem with_mem].
      destruct l2 as [|c l2]; [done|].
      destruct (wf_block h _ W (l1 ++ [Blk l true]) c l2 ltac:(by rewrite <- app_assoc)) as (_ & _ & _ & Pc & _).
      rewrite stop_app, lasto_app in Pc. cbn [stop lasto b_len] in Pc. fold hp off in Pc.
      transitivity (prev (h_mem h) (hp + (off + 12 + l))); [fields; done | exact Pc]. }
  assert (kept (with_sem 0 h) h2 (live hp 0 (l1 ++ Blk l false :: l2))) as K.
  { eapply kept_incl; [by apply (kept_replace (with_sem 0 h) h2 l1 [Blk l true] l2); try apply wf_sem|].
    intros x. by rewrite live_app. }
  apply coalesced_app in C as (C1 & [_ C2] & _).
  destruct (wf_block h2 _ W2 l1 (Blk l false) l2 eq_refl) as (_ & _ & Bn2 & _).
  rewrite Q2 in Bn2. cbn [b_len] in Bn2. fold off in Bn2. rewrite Q2, Bn2.
  replace (hp + off - hp) with off by lia. rewrite (u32_small (off + 12 + l - off)) by (unfold is_u32; lia).
  set (h2s := discount (off + 12 + l - off) h2).
  destruct (plug_holes_spec h2s l1 l l2 (wf_stats _ _ _ _ W2) C1 C2) as (h3 & bs' & E & W3 & C3 & L3 & K3).
  change (heap_ptr h2s) with (heap_ptr h2) in E, L3, K3.
  rewrite Q2 in E, L3, K3. fold off in E. rewrite E. exists (sem_release h3), bs'. split; [done|].
  pose proof (kept_trans _ _ _ _ (kept_stats _ _ _ _ _ K) K3) as K4.
  assert (used_mem h3 = charge (live hp 0 bs') /\ used_mem h3 <= max_mem h3) as [U3 M3].
  { destruct (plug_stats _ _ _ E) as [-> ->]. rewrite L3.
    assert (used_mem h2 = used_mem h /\ max_mem h2 = max_mem h) as [U2 M2] by (unfold h2; by destruct (_ <? _)).
    unfold h2s. cbn [discount used_mem max_mem with_stats]. rewrite U2, M2, U.
    rewrite U in M. pose proof (wf_charge _ _ W) as Hc. fold hp in Hc, M |- *.
    rewrite (proj1 (blk_split_live hp l1 l l2 Bk)), charge_app in Hc, M |- *. cbn [charge snd] in Hc, M |- *. fold off in Hc, M |- *.
    rewrite live_app, charge_app. cbn [live b_used b_len app]. fold off.
    apply Forall_app in Bk as [Bk1 Bk2]. apply Forall_cons in Bk2 as [_ Bk2].
    pose proof (charge_range hp 0 l1 Bk1). pose proof (charge_range hp (off + 12 + l) l2 Bk2).
    rewrite u32_small by (unfold is_u32; lia). lia. }
  split_and!.
  - eapply ok_locked; try done. by rewrite (k_ptr _ _ _ K4).
  - intros x n. rewrite L3, live_app. apply (blk_split_live hp l1 l l2 Bk).
  - rewrite L3. by apply kept_locked.
Qed.

(* ------------------------------------------------------------------ *)
(** ** [rt_malloc] *)

Lemma next_free_spec h : used (h_mem h) (heap_end h) = 1 -> forall bs fuel pp p,
  chain (h_mem h) (heap_ptr h) pp p bs -> heap_ptr h + stop p bs = heap_end h ->
  Forall blk_ok bs -> (length bs < fuel)%nat ->
  next_free fuel h (heap_ptr h + p) = Some (heap_ptr h + first_free p bs).
Proof.
  intros He. induction bs as [|b bs IH]; intros fuel pp p Hc Hs Hb Hf; (destruct fuel as [|k]; [cbn in Hf; lia|]);
    cbn [next_free first_free stop chain length] in *.
  - by rewrite Hs, Z.eqb_refl, andb_false_r.
  - destruct Hc as (_ & Hu & Hn & _ & Hc). apply Forall_cons in Hb as [[Hb _] Hbs].
    pose proof (stop_le (p + 12 + b_len b) bs Hbs).
    rewrite Hu, flag_0, Hn, negb_involutive. destruct (b_used b); cbn [andb]; [|done].
    rewrite (proj2 (Z.eqb_neq _ _)) by lia. cbn [negb]. apply (IH _ p); done || lia.
Qed.

Lemma wf_fuel h bs l1 l2 : heap_wf h bs -> bs = l1 ++ l2 -> (length l2 < heap_fuel h)%nat.
Proof.
  intros W ->. pose proof (hw_stop _ _ W). pose proof (hw_blks _ _ W) as B. pose proof (stop_le 0 _ B) as L.
  rewrite length_app in L. unfold heap_fuel. pose proof (hw_size _ _ W).
  assert (Z.of_nat (length l2) < mem_size_aligned h / 12 + 2); [|lia].
  apply Z.lt_le_trans with (mem_size_aligned h / 12 + 1 + 1); [|lia].
  enough (Z.of_nat (length l2) <= mem_size_aligned h / 12 + 1) by lia.
  rewrite <- (Z.div_add _ 1 12) by lia. apply Z.div_le_lower_bound; lia.
Qed.

Lemma mod4 x : (4 | x) -> x mod RT_ALIGN_SIZE = 0.
Proof. intros. by apply Z.mod_divide. Qed.

(** The block given out and what follows it. *)
Definition given (n size : Z) (l2 : list blk) : list blk :=
  if size + 24 <=? n then Blk size true :: Blk (n - size - 12) false :: l2 else Blk n true :: l2.
Definition given_len (n size : Z) : Z := if size + 24 <=? n then size else n.

Lemma blk_ok_divide n u : blk_ok (Blk n u) -> (4 | n).
Proof. by intros [_ H]. Qed.

Lemma given_eq n size l2 : given n size l2 = given n size [] ++ l2.
Proof. unfold given. by destruct (_ <=? _). Qed.

Lemma stop_given p n size : stop p (given n size []) = p + 12 + n.
Proof. unfold given. destruct (_ <=? _); cbn [stop b_len]; lia. Qed.

Lemma live_given hp p n size l2 :
  live hp p (given n size l2) = (hp + p + 12, given_len n size) :: live hp (p + 12 + n) l2.
Proof.
  unfold given, given_len. destruct (_ <=? _); cbn [live b_used b_len app]; [|done].
  do 2 f_equal. lia.
Qed.

(** The headers written by [malloc_block]. *)
Definition malloc_mem (h : heap) (ptr n size : Z) (last : bool) : memory :=
  let hp := heap_ptr h in let mem := hp + ptr in
  set_magic mem HEAP_MAGIC
    (if size + 24 <=? n then
       let ptr2 := ptr + 12 + size in let mem2 := hp + ptr2 in
       let m := set_used mem 1 (set_next mem ptr2 (set_prev mem2 ptr (set_next mem2 (ptr + 12 + n)
         (set_used mem2 0 (set_magic mem2 HEAP_MAGIC (h_mem h)))))) in
       if last then m else set_prev (hp + (ptr + 12 + n)) ptr2 m
     else set_used mem 1 (h_mem h)).

Lemma malloc_mem_wf h l1 n l2 size h' : heap_wf h (l1 ++ Blk n false :: l2) ->
  12 <= size -> size <= n -> (4 | size) ->
  heap_ptr h' = heap_ptr h -> heap_end h' = heap_end h -> mem_size_aligned h' = mem_size_aligned h ->
  h_mem h' = malloc_mem h (stop 0 l1) n size (match l2 with [] => true | _ => false end) ->
  (forall x, outside (heap_ptr h) (stop 0 l1) (stop (stop 0 l1) [Blk n false]) x -> h_mem h' x = h_mem h x) /\
  (lfree h' = heap_ptr h + first_free 0 (l1 ++ given n size l2) -> heap_wf h' (l1 ++ given n size l2)) /\
  chain (h_mem h') (heap_ptr h) (lasto 0 0 l1) (stop 0 l1) (given n size l2).
Proof.
  intros W H12 Hle Hd E1 E2 E3 E4.
  destruct (wf_block h _ W l1 (Blk n false) l2 eq_refl) as (Bm & Bu & Bn & Bp & H0 & Hl & Htop).
  pose proof (hw_ptr _ _ W). pose proof (hw_top _ _ W) as Ht. pose proof (hw_blks _ _ W) as Bk.
  cbn [b_len b_used flag] in *. set (off := stop 0 l1) in *. set (hp := heap_ptr h) in *.
  apply Forall_app in Bk as [_ Bk]. apply Forall_cons in Bk as [Bkn Bk2]. pose proof (blk_ok_divide _ _ Bkn) as Dn.
  assert (forall x, outside hp off (stop off [Blk n false]) x -> h_mem h' x = h_mem h x) as Hm.
  { intros x. unfold outside. cbn [stop b_len]. intros Hx. rewrite E4. unfold malloc_mem, set_magic, set_used, set_next, set_prev.
    fold hp. destruct (Z.leb_spec (size + 24) n), l2;
      rewrite !store_outside by (cbn [Z.of_nat Pos.of_succ_nat Pos.succ]; lia); done. }
  assert (chain (h_mem h') hp (lasto 0 0 l1) off (given n size [])) as Hch.
  { rewrite E4. unfold malloc_mem, given. fold hp.
    destruct (Z.leb_spec (size + 24) n), l2; cbn [chain b_len b_used flag]; split_and!; try done.
    all: try (rewrite <- Bp; fields; done). all: try (rewrite <- Bn; fields; done).
    all: fields; lia || done. }
  assert (l2 <> [] -> prev (h_mem h') (hp + stop off [Blk n false]) = lasto (lasto 0 0 l1) off (given n size [])) as Hpv.
  { intros Hne. cbn [stop b_len]. rewrite E4. unfold malloc_mem, given. fold hp. destruct l2 as [|c l2]; [done|].
    destruct (wf_block h _ W (l1 ++ [Blk n false]) c l2 ltac:(by rewrite <- app_assoc)) as (_ & _ & _ & Pc & _).
    rewrite stop_app, lasto_app in Pc. cbn [stop lasto b_len] in Pc. fold hp off in Pc.
    destruct (Z.leb_spec (size + 24) n); cbn [lasto b_len]; [fields; done|].
    transitivity (prev (h_mem h) (hp + (off + 12 + n))); [fields; done | exact Pc]. }
  assert (Forall blk_ok (given n size [])) as Hbk.
  { unfold given. destruct (Z.leb_spec (size + 24) n); repeat constructor; cbn [b_len]; try lia; try done.
    replace (n - size - 12) with (n + - size + - 12) by lia. apply divide_sum; [done|by apply Z.divide_opp_r|by exists (-3)]. }
  rewrite given_eq. split_and!; [exact Hm| |].
  - intros Hlf. apply (wf_replace h h' l1 [Blk n false] (given n size []) l2); try done.
    rewrite stop_given. done.
  - apply chain_app. split; [done|]. rewrite stop_given.
    pose proof (hw_chain _ _ W) as C. apply chain_app in C as [_ (_ & _ & _ & _ & C)]. fold off hp in C. cbn [b_len] in C.
    eapply chain_same_prev; [done| | |exact Hpv|exact C]; intros x Hx; apply Hm; unfold outside; cbn [stop b_len]; lia.
Qed.

Lemma first_free_cases p l1 : Forall blk_ok l1 ->
  (Forall (fun b => b_used b = true) l1 /\ forall X, first_free p (l1 ++ X) = first_free (stop p l1) X) \/
  (first_free p l1 < stop p l1 /\ forall X, first_free p (l1 ++ X) = first_free p l1).
Proof.
  intros H. revert p. induction H as [|[n u] l1 [Hb _] H IH]; intros p; [left; by split|].
  cbn [app first_free stop b_used b_len] in *. destruct u.
  - destruct (IH (p + 12 + n)) as [[F X]|[L X]]; [left; split; [by constructor|done]|right; done].
  - right. split; [|done]. pose proof (stop_le (p + 12 + n) l1 H). lia.
Qed.

Lemma first_free_end h pp p bs : chain (h_mem h) (heap_ptr h) pp p bs ->
  heap_ptr h + stop p bs = heap_end h ->
  (heap_ptr h + first_free p bs =? heap_end h) || (used (h_mem h) (heap_ptr h + first_free p bs) =? 0) = true.
Proof.
  revert pp p. induction bs as [|[n u] bs IH]; intros pp p Hc Hs; cbn [chain stop first_free b_used b_len] in *.
  - by rewrite Hs, Z.eqb_refl.
  - destruct Hc as (_ & Hu & _ & _ & Hc). destruct u; [by eapply IH|]. rewrite Hu. cbn. apply orb_true_r.
Qed.

Lemma malloc_block_spec h l1 n l2 size : heap_wf h (l1 ++ Blk n false :: l2) ->
  12 <= size -> size <= n -> (4 | size) ->
  exists h', malloc_block (stop 0 l1) size h = Some (heap_ptr h + stop 0 l1 + 12, sem_release h') /\
    heap_wf h' (l1 ++ given n size l2) /\ kept h h' (live (heap_ptr h) 0 (l1 ++ Blk n false :: l2)) /\
    used_mem h' = used_mem h +u32 (given_len n size + 12) /\
    max_mem h' = if max_mem h <? used_mem h' then used_mem h' else max_mem h.
Proof.
  intros W H12 Hle Hd.
  destruct (wf_block h _ W l1 (Blk n false) l2 eq_refl) as (Bm & Bu & Bn & Bp & H0 & Hl & Htop).
  destruct (wf_split h _ W l1 (Blk n false :: l2) eq_refl) as (B1 & B2 & _ & Doff & Stop).
  pose proof (hw_ptr _ _ W) as Hp. pose proof (hw_top _ _ W) as Ht. pose proof (hw_end _ _ W) as He.
  pose proof (hw_size _ _ W) as Hsz. pose proof (hw_align _ _ W) as Dp.
  cbn [b_len b_used flag stop] in *. set (off := stop 0 l1) in *. set (hp := heap_ptr h) in *.
  set (last := match l2 with [] => true | _ => false end).
  assert ((off + 12 + n =? mem_size_aligned h + 12) = last) as Hlast.
  { destruct l2 as [|c l2]; [apply Z.eqb_eq; exact Stop|]. apply Z.eqb_neq. cbn [length] in Htop. lia. }
  unfold malloc_block. fold hp. change SIZEOF_STRUCT_MEM with 12. change MIN_SIZE_ALIGNED with 12. cbv zeta.
  rewrite (u32_small (size + 12)) by (unfold is_u32; lia). rewrite (u32_small (size + 12 + 12)) by (unfold is_u32; lia).
  rewrite (u32_small (off + 12)) by (unfold is_u32; lia). rewrite (u32_small (off + 12 + size)) by (unfold is_u32; lia).
  set (hs := count _ h). change (mem_size_aligned hs) with (mem_size_aligned h). change (h_mem hs) with (h_mem h).
  assert (used_mem hs = used_mem h +u32 (given_len n size + 12) /\
    max_mem hs = if max_mem h <? used_mem hs then used_mem hs else max_mem h) as Hst0.
  { split; [|done]. unfold hs, given_len. cbn [count used_mem with_stats]. rewrite Bn.
    rewrite (u32_small (off + 12 + n - (off + 12))), (u32_small (off + 12 + n - off)) by (unfold is_u32; lia).
    replace (off + 12 + n - (off + 12)) with n by lia. replace (size + 12 + 12) with (size + 24) by lia.
    replace (off + 12 + n - off) with (n + 12) by lia. by destruct (size + 24 <=? n). }
  rewrite (u32_small (mem_size_aligned h + 12)), Bn, u32_small by (unfold is_u32; lia).
  set (mem2 := hp + (off + 12 + size)).
  set (m0 := set_used mem2 0 (set_magic mem2 HEAP_MAGIC (h_mem h))).
  replace (off + 12 + n - (off + 12)) with n by lia. replace (size + 12 + 12) with (size + 24) by lia.
  set (m1 := if size + 24 <=? n then _ else _).
  assert (set_magic (hp + off) HEAP_MAGIC m1 = malloc_mem h off n size last) as Em.
  { unfold m1, malloc_mem. fold hp. f_equal. destruct (Z.leb_spec (size + 24) n); [|done].
    assert (next m0 (hp + off) = off + 12 + n) as -> by (rewrite <- Bn; unfold m0, mem2; fields; done).
    set (m2 := set_used (hp + off) 1 _). assert (next m2 mem2 = off + 12 + n) as -> by (unfold m2, mem2; fields; done).
    by rewrite Hlast. }
  rewrite Em. set (h1 := with_mem (malloc_mem h off n size last) hs).
  destruct (malloc_mem_wf h l1 n l2 size h1 W H12 Hle Hd eq_refl eq_refl eq_refl eq_refl) as (Hm & _ & Hch).
  fold off hp in Hm, Hch.
  assert (Forall blk_ok (given n size l2)) as Hbk.
  { unfold given. apply Forall_cons in B2 as [Bkn Bk2]. pose proof (blk_ok_divide _ _ Bkn).
    destruct (Z.leb_spec (size + 24) n); repeat constructor; cbn [b_len]; try lia; try done.
    replace (n - size - 12) with (n + - size + - 12) by lia. apply divide_sum; [done|by apply Z.divide_opp_r|by exists (-3)]. }
  assert (heap_ptr h1 + stop off (given n size l2) = heap_end h1) as Hst.
  { rewrite given_eq, stop_app, stop_given. change (hp + stop (off + 12 + n) l2 = heap_end h). rewrite Stop. lia. }
  assert (exists h2, (if hp + off =? lfree h then
      match next_free (heap_fuel h1) h1 (lfree h1) with
      | None => None
      | Some p => if (p =? heap_end h1) || (used (h_mem h1) p =? 0) then Some (with_lfree p h1) else None
      end else Some h1) = Some h2 /\
    h2 = with_lfree (hp + first_free 0 (l1 ++ given n size l2)) h1) as (h2 & E2 & Eh2).
  { destruct (first_free_cases 0 l1 B1) as [[F X]|[L X]]; rewrite (hw_lfree _ _ W), X, X; fold off.
    - cbn [first_free b_used]. fold hp. rewrite Z.eqb_refl.
      change (lfree h1) with (lfree h). rewrite (hw_lfree _ _ W), X. cbn [first_free b_used]. fold off hp.
      rewrite (next_free_spec h1) with (pp := lasto 0 0 l1) (bs := given n size l2); try done.
      + rewrite (first_free_end h1 (lasto 0 0 l1)) by done. by eexists.
      + change (heap_end h1) with (heap_end h). rewrite (used_same (h_mem h)); [apply W|].
        intros x Hx'. apply Hm. unfold outside. cbn [stop b_len].
        destruct l2 as [|c l2]; [cbn in Stop; lia|]. cbn [length] in Htop. lia.
      + pose proof (stop_le off _ Hbk) as Lf. rewrite given_eq, stop_app, stop_given, Stop in Lf.
        rewrite <- given_eq in Lf. unfold heap_fuel. change (mem_size_aligned h1) with (mem_size_aligned h).
        enough (Z.of_nat (length (given n size l2)) <= mem_size_aligned h / 12 + 1) by lia.
        rewrite <- (Z.div_add _ 1 12) by lia. apply Z.div_le_lower_bound; lia.
    - fold hp. rewrite (proj2 (Z.eqb_neq _ _)) by lia. eexists. split; [reflexivity|].
      unfold h1, with_lfree, with_mem. cbn. f_equal. rewrite (hw_lfree _ _ W), X. done. }
  change (lfree h1) with (lfree h) in E2 |- *. rewrite E2. exists h2. split; [|split; [|split]].
  - assert (heap_end (sem_release h2) = heap_end h) as -> by (by rewrite Eh2).
    rewrite (proj2 (Z.leb_le _ _)) by lia. rewrite mod4, land3; [done| |].
    + by apply Z.divide_add_r.
    + apply divide_sum; [done..|by exists 3].
  - destruct (malloc_mem_wf h l1 n l2 size h2 W H12 Hle Hd) as (_ & W2 & _); try (by rewrite Eh2).
    apply W2. by rewrite Eh2.
  - eapply kept_incl; [by apply (kept_replace h h2 l1 [Blk n false] l2); try done; rewrite Eh2|].
    intros x. by rewrite live_app.
  - by rewrite Eh2.
Qed.

(** No free block of [bs], from offset [p], takes [size] bytes; a block that
    would end exactly at the end of the heap is never taken. *)
Definition no_fit (h : heap) (p : Z) (bs : list blk) (size : Z) : Prop := forall l1 n l2,
  bs = l1 ++ Blk n false :: l2 -> size <= n -> stop p l1 = mem_size_aligned h - size.

Lemma malloc_loop_spec h size : 12 <= size -> size <= mem_size_aligned h -> (4 | size) ->
  forall l2 l1 fuel, heap_wf h (l1 ++ l2) -> (length l2 < fuel)%nat ->
  (malloc_loop fuel (stop 0 l1) size h = Some (0, sem_release h) /\ no_fit h (stop 0 l1) l2 size) \/
  (exists x n y, l2 = x ++ Blk n false :: y /\ size <= n /\
    malloc_loop fuel (stop 0 l1) size h = malloc_block (stop 0 (l1 ++ x)) size h).
Proof.
  intros H12 Hmax Hd. induction l2 as [|[n u] l2 IH]; intros l1 fuel W Hf; (destruct fuel as [|k]; [cbn in Hf; lia|]);
    cbn [malloc_loop].
  all: pose proof (hw_size _ _ W) as Hs; pose proof (hw_top _ _ W) as Ht; pose proof (hw_ptr _ _ W) as Hp.
  - left. pose proof (hw_stop _ _ W) as S. rewrite app_nil_r in S.
    rewrite u32_small by (unfold is_u32; lia). rewrite (proj2 (Z.ltb_ge _ _)) by lia.
    split; [done|]. intros x m y E. by destruct x.
  - destruct (wf_block h _ W l1 (Blk n u) l2 eq_refl) as (_ & Bu & Bn & _ & H0 & Hl & Htop).
    destruct (wf_split h _ W l1 (Blk n u :: l2) eq_refl) as (_ & B2 & _). apply Forall_cons in B2 as [_ B2].
    cbn [b_len b_used length] in *. set (off := stop 0 l1) in *.
    rewrite (u32_small (mem_size_aligned h - size)) by (unfold is_u32; lia).
    destruct (Z.ltb_spec off (mem_size_aligned h - size)) as [Hlt|Hge].
    + change SIZEOF_STRUCT_MEM with 12. rewrite Bu, Bn, flag_0, (u32_small (off + 12)), u32_small by (unfold is_u32; lia).
      replace (off + 12 + n - (off + 12)) with n by lia.
      destruct (negb u && (size <=? n)) eqn:E.
      * right. apply andb_true_iff in E as [->%negb_true_iff Hle%Z.leb_le]. exists [], n, l2.
        by rewrite app_nil_r.
      * assert (stop 0 (l1 ++ [Blk n u]) = off + 12 + n) as Eo by (by rewrite stop_app).
        rewrite <- Eo. destruct (IH (l1 ++ [Blk n u]) k) as [[E1 N]|(x & m & y & -> & Hle & E1)];
          [by rewrite <- app_assoc | cbn in Hf; lia | left; split; [done|] |].
        -- intros x m y Ex Hle. destruct x as [|b x]; cbn [app] in Ex.
           ++ injection Ex as -> -> ->. cbn in E. apply Z.leb_gt in E. lia.
           ++ injection Ex as <- ->. rewrite Eo in N. by apply (N x m y).
        -- right. exists (Blk n u :: x), m, y. by rewrite E1, <- app_assoc.
    + left. split; [done|]. intros x m y Ex Hle. fold off in Ex |- *.
      destruct x as [|b x]; cbn [app] in Ex.
      * injection Ex as -> -> ->. cbn [stop]. lia.
      * injection Ex as <- ->. cbn [stop b_len]. exfalso.
        pose proof (wf_block h _ W (l1 ++ Blk n u :: x) (Blk m false) y ltac:(by rewrite <- app_assoc)) as (_ & _ & _ & _ & _ & _ & Hx).
        rewrite stop_app in Hx. cbn [stop b_len] in Hx. fold off in Hx.
        apply Forall_app in B2 as [B2 _]. pose proof (stop_le (off + 12 + n) x B2). lia.
Qed.

Lemma coalesced_given l1 n l2 size : coalesced (l1 ++ Blk n false :: l2) -> coalesced (l1 ++ given n size l2).
Proof.
  intros (C1 & C2 & L)%coalesced_app.
  assert (coalesced l2 /\ free_head l2 = false) as [C3 F].
  { destruct C2 as [C2 C3]. split; [done|]. destruct l2 as [|[k [|]] l2]; [done..|]. by destruct C2. }
  apply coalesced_app. unfold given. destruct (_ <=? _); cbn [coalesced].
  - split_and!; try done; auto; destruct l2 as [|[k [|]] l2], (last l1); cbn in *; auto.
  - split_and!; try done; destruct l2, (last l1); cbn; auto.
Qed.

Definition request (size : Z) : Z := Z.max 12 ((size + 3) / 4 * 4).

Lemma request_div size : (4 | request size).
Proof. unfold request. destruct (Z.max_spec 12 ((size + 3) / 4 * 4)) as [[_ ->]|[_ ->]]; [by eexists|by exists 3]. Qed.

(** What [rt_malloc] does to the blocks, and to nothing else. *)
Lemma rt_malloc_spec h bs size : heap_ok h bs -> 0 < size <= 2 ^ 32 - 4 ->
  (exists h', rt_malloc size h = Some (0, h') /\ heap_ok h' bs /\
    kept h h' (live (heap_ptr h) 0 bs) /\ no_fit h 0 bs (request size)) \/
  (exists p len h' bs', rt_malloc size h = Some (p, h') /\ p <> 0 /\ (4 | p) /\ request size <= len /\ heap_ok h' bs' /\
    (exists L1 L2, live (heap_ptr h) 0 bs = L1 ++ L2 /\ live (heap_ptr h) 0 bs' = L1 ++ (p, len) :: L2) /\
    kept h h' (live (heap_ptr h) 0 bs)).
Proof.
  intros [W C S U M] Hsz. unfold rt_malloc. rewrite (proj2 (Z.eqb_neq _ 0)) by lia.
  change RT_ALIGN_SIZE with 4. rewrite RT_ALIGN_4 by lia.
  pose proof (hw_size _ _ W) as Hs. pose proof (hw_ptr _ _ W) as Hp. pose proof (hw_align _ _ W) as Da.
  destruct (Z.ltb_spec (mem_size_aligned h) ((size + 3) / 4 * 4)) as [Hbig|Hfit].
  { left. exists h. split_and!; try done.
    intros l1 n l2 E Hle. destruct (wf_block h _ W l1 (Blk n false) l2 E) as (_ & _ & _ & _ & H0 & _ & Htop).
    cbn [b_len] in Htop. unfold request in Hle. lia. }
  change MIN_SIZE_ALIGNED with 12.
  replace (if (size + 3) / 4 * 4 <? 12 then 12 else (size + 3) / 4 * 4) with (request size)
    by (unfold request; destruct (Z.ltb_spec ((size + 3) / 4 * 4) 12); lia).
  rewrite take_free by done. set (h0 := with_sem 0 h).
  assert (12 <= request size <= mem_size_aligned h) as [Hr1 Hr2] by (unfold request; lia).
  assert (heap_wf h0 bs) as W0 by (by apply wf_sem).
  destruct (first_free_split 0 bs) as (l1 & l2 & E & F & Ef & _).
  assert (lfree h0 - heap_ptr h0 = stop 0 l1) as -> by (rewrite (hw_lfree _ _ W0), Ef; lia). subst bs.
  destruct (malloc_loop_spec h0 (request size) Hr1 Hr2 (request_div size) l2 l1 (heap_fuel h0) W0)
    as [[E N]|(x & n & y & -> & Hle & E)]; [by eapply wf_fuel | |].
  - left. exists (sem_release h0). rewrite E. split_and!; try done.
    + by apply (ok_locked h h0 [] _ S (kept_refl h0 [])).
    + intros a n b Eb Hle. change (mem_size_aligned h) with (mem_size_aligned h0).
      assert (exists a', a = l1 ++ a') as [a' ->].
      { clear - Eb F. revert a Eb. induction F as [|c l1 Hc F IH]; intros a Eb; [by exists a|].
        destruct a as [|d a]; cbn in Eb; injection Eb as -> Eb; [done|].
        destruct (IH a Eb) as [a' ->]. by exists a'. }
      rewrite <- app_assoc in Eb. apply app_inv_head in Eb. rewrite stop_app. by eapply N.
  - right. rewrite app_assoc in W0, C |- *.
    destruct (malloc_block_spec h0 (l1 ++ x) n y (request size) W0 Hr1 Hle (request_div size)) as (h' & E' & W' & K & Us & Ms).
    exists (heap_ptr h + stop 0 (l1 ++ x) + 12), (given_len n (request size)), (sem_release h'), ((l1 ++ x) ++ given n (request size) y).
    destruct (wf_split h0 _ W0 (l1 ++ x) (Blk n false :: y) eq_refl) as (_ & _ & H0 & D0 & _).
    split_and!.
    + rewrite E, E'. done.
    + lia.
    + apply divide_sum; [done..|by exists 3].
    + unfold given_len. destruct (_ <=? _); lia.
    + apply (ok_locked h h' _ _ S K W'); [by apply coalesced_given| |rewrite Ms; destruct (Z.ltb_spec (max_mem h0) (used_mem h')); lia].
      pose proof (wf_charge _ _ W') as Hc. rewrite Us. change (used_mem h0) with (used_mem h). rewrite U.
      rewrite (k_ptr _ _ _ K) in Hc |- *. change (heap_ptr h0) with (heap_ptr h) in Hc |- *.
      rewrite app_assoc, !(live_app _ _ (l1 ++ x)), !charge_app, live_given in *. cbn [live charge snd b_used b_len app] in *.
      rewrite u32_small by (unfold is_u32; lia). lia.
    + exists (live (heap_ptr h) 0 (l1 ++ x)), (live (heap_ptr h) (stop 0 (l1 ++ x) + 12 + n) y).
      rewrite !(live_app _ _ (l1 ++ x)), live_given. cbn [live b_used b_len app]. done.
    + by apply kept_locked.
Qed.

(* ------------------------------------------------------------------ *)
(** ** [rt_realloc] *)

(** Two live blocks are the same or apart. *)
Lemma live_apart hp p bs a l b k : Forall blk_ok bs -> In (a, l) (live hp p bs) -> In (b, k) (live hp p bs) ->
  (a = b /\ l = k) \/ a + l + 12 <= b \/ b + k + 12 <= a.
Proof.
  intros H. revert p. induction H as [|[n u] r [Hb _] H IH]; intros p Ha Hb'; [done|].
  cbn [live b_used b_len] in *. apply in_app_or in Ha, Hb'.
  assert (forall x y, In (x, y) (if u then [(hp + p + 12, n)] else []) -> x = hp + p + 12 /\ y = n) as Hu.
  { intros x y Hin. destruct u; [|done]. by destruct Hin as [[= <- <-]|[]]. }
  destruct Ha as [[-> ->]%Hu|Ha], Hb' as [[-> ->]%Hu|Hb'].
  - by left.
  - apply live_range in Hb'; [lia|done].
  - apply live_range in Ha; [lia|done].
  - by eapply IH.
Qed.

Lemma live_NoDup hp p bs : Forall blk_ok bs -> NoDup (map fst (live hp p bs)).
Proof.
  intros H. revert p. induction H as [|[n u] r [Hb _] H IH]; intros p; cbn [live b_used b_len]; [constructor|].
  destruct u; cbn [map app fst]; [|apply IH]. constructor; [|apply IH].
  intros ([x k] & E & Hin)%list_elem_of_In%in_map_iff. cbn [fst] in E. subst x. apply live_range in Hin; [|done].
  cbn [b_len] in Hb. lia.
Qed.

Lemma live_fresh hp p bs L1 L2 a l : Forall blk_ok bs -> live hp p bs = L1 ++ (a, l) :: L2 ->
  forall x k, In (x, k) (L1 ++ L2) -> x <> a.
Proof.
  intros H E x k Hin ->. pose proof (live_NoDup hp p bs H) as N. rewrite E, map_app in N.
  apply NoDup_ListNoDup in N. apply List.NoDup_remove_2 in N. apply N. rewrite <- map_app. by apply (in_map fst _ (a, k)).
Qed.

(** A block in use cut in two: what is kept and the free rest, before the rest
    is merged with what follows. *)
Lemma shrink_spec h l1 l l2 n : heap_wf h (l1 ++ Blk l true :: l2) ->
  4 <= n -> (4 | n) -> n + 24 < l ->
  let hp := heap_ptr h in let off := stop 0 l1 in
  let mem := hp + off in let ptr2 := off + 12 + n in let mem2 := hp + ptr2 in
  let m := set_used mem2 0 (set_magic mem2 HEAP_MAGIC (h_mem h)) in
  let m := set_prev mem2 off (set_next mem2 (off + 12 + l) m) in
  let m := set_next mem ptr2 m in
  let m := match l2 with [] => m | _ => set_prev (hp + (off + 12 + l)) ptr2 m end in
  let h1 := with_mem m h in
  let h2 := if mem2 <? lfree h1 then with_lfree mem2 h1 else h1 in
  heap_wf h2 ((l1 ++ [Blk n true]) ++ Blk (l - n - 12) false :: l2) /\
  kept h h2 ((hp + off + 12, n) :: live hp 0 l1 ++ live hp (off + 12 + l) l2).
Proof.
  intros W Hn Dn Hlt. cbv zeta. set (off := stop 0 l1). set (hp := heap_ptr h).
  set (m1 := match l2 with [] => _ | _ => _ end). set (h1 := with_mem m1 h). set (h2 := if _ <? lfree h1 then _ else h1).
  destruct (wf_block h _ W l1 (Blk l true) l2 eq_refl) as (Bm & Bu & Bn & Bp & H0 & Hl & Htop).
  pose proof (hw_ptr _ _ W) as Hp. pose proof (hw_top _ _ W) as Ht. pose proof (hw_blks _ _ W) as Bk.
  pose proof (hw_lfree _ _ W) as Hlf. cbn [b_len b_used flag] in *. fold hp off in Bm, Bu, Bn, Bp, H0, Htop, Hp, Ht, Hlf.
  assert (lfree h2 = hp + first_free 0 (l1 ++ [Blk n true; Blk (l - n - 12) false] ++ l2)) as Hlf2.
  { unfold h2. change (lfree h1) with (lfree h). rewrite Hlf. apply Forall_app in Bk as [B1 Bk]. apply Forall_cons in Bk as [_ B2].
    destruct (first_free_cases 0 l1 B1) as [[_ X]|[L X]]; rewrite !X; fold off; cbn [app first_free b_used b_len].
    - pose proof (first_free_range (off + 12 + l) l2 B2).
      rewrite (proj2 (Z.ltb_lt _ _)) by lia. done.
    - fold off in L. rewrite (proj2 (Z.ltb_ge _ _)) by lia. change (lfree h1) with (lfree h). rewrite Hlf, X. done. }
  assert (h_mem h2 = m1 /\ heap_ptr h2 = hp /\ heap_end h2 = heap_end h /\
    mem_size_aligned h2 = mem_size_aligned h /\ heap_sem h2 = heap_sem h) as (Q1 & Q2 & Q3 & Q4 & Q5)
    by (unfold h2; by destruct (_ <? _)).
  assert (forall x, outside hp off (stop off [Blk l true]) x \/ hp + off + 12 <= x < hp + off + 12 + n -> h_mem h2 x = h_mem h x) as Hm.
  { intros x. unfold outside. cbn [stop b_len]. intros Hx. rewrite Q1. unfold m1, set_magic, set_used, set_next, set_prev.
    destruct l2; rewrite !store_outside by (cbn [Z.of_nat Pos.of_succ_nat Pos.succ]; lia); done. }
  split.
  - rewrite <- app_assoc. apply (wf_replace h h2 l1 [Blk l true] [Blk n true; Blk (l - n - 12) false] l2); try done.
    + intros x Hx. apply Hm. by left.
    + cbn [stop b_len]. lia.
    + apply Forall_app in Bk as [_ Bk]. apply Forall_cons in Bk as [Bl _]. pose proof (blk_ok_divide _ _ Bl) as Dl.
      repeat constructor; cbn [b_len]; try lia; try done.
      replace (l - n - 12) with (l + - n + - 12) by lia. apply divide_sum; [done|by apply Z.divide_opp_r|by exists (-3)].
    + cbn [chain b_len b_used flag]. fold hp off. rewrite Q1. unfold m1.
      destruct l2; split_and!; try done.
      all: try (rewrite <- Bm; fields; done). all: try (rewrite <- Bu; fields; done). all: try (rewrite <- Bp; fields; done).
      all: fields; lia || done.
    + intros Hne. cbn [stop lasto b_len]. fold hp off. rewrite Q1. unfold m1. destruct l2; [done|]. fields. done.
  - split; try done.
    + intros a k x [[= <- <-]|Hin] Hx; apply Hm; [by right|left].
      by eapply (outside_live h l1 [Blk l true] l2).
    + intros x Hx. apply Hm. left. by apply (outside_elsewhere h l1 [Blk l true] l2).
Qed.

Lemma align_range n : 0 < n <= 2 ^ 32 - 4 ->
  let a := (n + 3) / 4 * 4 in n <= a /\ 4 <= a <= 2 ^ 32 - 4 /\ (4 | a) /\ RT_ALIGN n 4 = a.
Proof.
  intros Hn. cbv zeta. rewrite RT_ALIGN_4 by lia.
  pose proof (Z.div_mod (n + 3) 4). pose proof (Z.mod_pos_bound (n + 3) 4). split_and!; [lia|lia|lia|by exists ((n + 3) / 4)|done].
Qed.

(** What a reallocation leaves: the block at [p], the others as they were. *)
Record moved (h h' : heap) (L L' : list (Z * Z)) (a l p len newsize : Z) : Prop := {
  mv_nonnull : p <> 0; mv_align : (4 | p); mv_len : newsize <= len;
  mv_new : In (p, len) L';
  mv_others : forall x k, x <> p -> In (x, k) L' <-> In (x, k) L /\ x <> a;
  mv_same : forall x k, In (x, k) L -> x = p -> x = a;
  mv_kept : forall b k x, In (b, k) L -> b <> a -> b <= x < b + k -> h_mem h' x = h_mem h x;
  mv_data : forall i, 0 <= i < Z.min l newsize -> h_mem h' (p + i) = h_mem h (a + i);
  mv_out : forall x, elsewhere h x -> h_mem h' x = h_mem h x;
  mv_ptr : heap_ptr h' = heap_ptr h; mv_end : heap_end h' = heap_end h;
  mv_size : mem_size_aligned h' = mem_size_aligned h }.

Lemma with_sem_id h : heap_sem h = 1 -> sem_release (with_sem 0 h) = h.
Proof. intros E. unfold sem_release, with_sem. destruct h. cbn in *. by subst. Qed.

(** [rt_realloc] that cuts the block. *)
Lemma realloc_shrink h l1 l l2 n : heap_ok h (l1 ++ Blk l true :: l2) -> 4 <= n -> (4 | n) -> n + 24 < l ->
  RT_ALIGN n 4 = n ->
  exists h' bs', rt_realloc (heap_ptr h + stop 0 l1 + 12) n h = Some (heap_ptr h + stop 0 l1 + 12, h') /\
    heap_ok h' bs' /\ live (heap_ptr h) 0 bs'
      = live (heap_ptr h) 0 l1 ++ (heap_ptr h + stop 0 l1 + 12, n) :: live (heap_ptr h) (stop 0 l1 + 12 + l) l2 /\
    kept h h' (live (heap_ptr h) 0 bs').
Proof.
  intros [W C S U M] Hn Dn Hlt Ha.
  destruct (wf_block h _ W l1 (Blk l true) l2 eq_refl) as (Bm & Bu & Bn & Bp & H0 & Hl & Htop).
  destruct (wf_split h _ W l1 (Blk l true :: l2) eq_refl) as (_ & _ & _ & _ & Stop).
  pose proof (hw_ptr _ _ W) as Hp. pose proof (hw_top _ _ W) as Ht. pose proof (hw_end _ _ W) as He.
  set (hs := discount (l -u32 n) (with_sem 0 h)).
  pose proof (shrink_spec hs l1 l l2 n (wf_stats _ _ _ _ (wf_sem _ _ 0 W)) Hn Dn Hlt) as P. cbv zeta in P.
  change (heap_ptr hs) with (heap_ptr h) in P. change (h_mem hs) with (h_mem h) in P.
  cbn [b_len b_used flag stop] in *. set (off := stop 0 l1) in *. set (hp := heap_ptr h) in *.
  unfold rt_realloc. change RT_ALIGN_SIZE with 4. rewrite Ha.
  rewrite (proj2 (Z.ltb_ge (mem_size_aligned h) n)), (proj2 (Z.eqb_neq n 0)), (proj2 (Z.eqb_neq _ 0)) by lia.
  rewrite take_free by done.
  change (heap_ptr (with_sem 0 h)) with hp. change (heap_end (with_sem 0 h)) with (heap_end h).
  rewrite (proj2 (Z.ltb_ge _ hp)), (proj2 (Z.leb_gt (heap_end h) _)) by lia. cbn [orb].
  change SIZEOF_STRUCT_MEM with 12. change MIN_SIZE with 12. rewrite Z.add_simpl_r.
  replace (hp + off - hp) with off by lia. change (h_mem (with_sem 0 h)) with (h_mem h). rewrite Bn.
  rewrite (u32_small (off + 12 + l - off)) by (unfold is_u32; lia). rewrite u32_small by (unfold is_u32; lia).
  replace (off + 12 + l - off - 12) with l by lia.
  rewrite (proj2 (Z.eqb_neq l n)) by lia. rewrite (u32_small (n + 12)) by (unfold is_u32; lia).
  rewrite (u32_small (n + 12 + 12)) by (unfold is_u32; lia). rewrite (proj2 (Z.ltb_lt (n + 12 + 12) l)) by lia.
  change (discount (l -u32 n) (with_sem 0 h)) with hs. change (heap_ptr hs) with hp. change (h_mem hs) with (h_mem h).
  change (mem_size_aligned hs) with (mem_size_aligned h).
  rewrite (u32_small (off + 12)) by (unfold is_u32; lia). rewrite (u32_small (off + 12 + n)) by (unfold is_u32; lia). cbv zeta.
  change (mem_size_aligned (with_sem 0 h)) with (mem_size_aligned h).
  rewrite (u32_small (mem_size_aligned h + 12)) by (unfold is_u32; lia).
  set (mem2 := hp + (off + 12 + n)) in *. set (m0 := set_used mem2 0 _) in *.
  assert (next m0 (hp + off) = off + 12 + l) as -> by (rewrite <- Bn; unfold m0, mem2; fields; done).
  set (m2 := set_next (hp + off) (off + 12 + n) _) in *.
  assert (next m2 mem2 = off + 12 + l) as -> by (unfold m2, mem2; fields; done).
  match goal with |- context [if ?c then m2 else ?e] =>
    assert ((if c then m2 else e) = match l2 with [] => m2 | _ => e end) as -> end.
  { destruct l2 as [|c l2]; [cbn [stop] in Stop; by rewrite Stop, Z.eqb_refl|]. cbn [length] in Htop.
    by rewrite (proj2 (Z.eqb_neq _ _)) by lia. }
  set (h1 := with_mem _ hs) in *. set (h2 := if mem2 <? lfree h1 then _ else h1) in *.
  destruct P as [W2 K2]. apply coalesced_app in C as (C1 & [C2' C2] & _).
  assert (coalesced (l1 ++ [Blk n true])) as C1'.
  { apply coalesced_app. split_and!; try done. destruct (last l1); auto. }
  destruct (plug_holes_spec h2 (l1 ++ [Blk n true]) (l - n - 12) l2 W2 C1' C2) as (h3 & bs' & E & W3 & C3 & L3 & K3).
  assert (heap_ptr h2 = hp) as Eh2 by (unfold h2; by destruct (_ <? _)).
  rewrite stop_app in E. cbn [stop b_len] in E. fold off in E. rewrite Eh2 in E, L3, K3.
  change (hp + (off + 12 + n)) with mem2 in E. rewrite E. exists (sem_release h3), bs'. split; [done|].
  assert (live hp 0 bs' = live hp 0 l1 ++ (hp + off + 12, n) :: live hp (off + 12 + l) l2) as EL.
  { rewrite L3, <- app_assoc, live_app. cbn [live b_used b_len app]. fold off. do 3 f_equal. lia. }
  assert (kept (with_sem 0 h) h3 (live hp 0 bs')) as K.
  { eapply kept_trans; [|rewrite L3; exact K3]. eapply (kept_incl _ _ ((hp + off + 12, n) :: live hp 0 l1 ++ live hp (off + 12 + l) l2)); [by destruct K2; split|]. intros x. rewrite EL, in_app_iff. cbn [In].
    rewrite in_app_iff. tauto. }
  assert (used_mem h3 = charge (live hp 0 bs') /\ used_mem h3 <= max_mem h3) as [U3 M3].
  { destruct (plug_stats _ _ _ E) as [-> ->]. pose proof (wf_charge _ _ W) as Hc. fold hp in U, Hc.
    assert (used_mem h2 = used_mem h -u32 (l -u32 n) /\ max_mem h2 = max_mem h) as [-> ->] by (unfold h2; by destruct (_ <? _)).
    rewrite U in *. pose proof (hw_blks _ _ W) as Bk. rewrite (proj1 (blk_split_live hp l1 l l2 Bk)), EL, !charge_app in *.
    cbn [charge snd] in *. fold off in Hc, M |- *. apply Forall_app in Bk as [Bk1 Bk2]. apply Forall_cons in Bk2 as [_ Bk2].
    pose proof (charge_range hp 0 l1 Bk1). pose proof (charge_range hp (off + 12 + l) l2 Bk2).
    rewrite (u32_small (l - n)), u32_small by (unfold is_u32; lia). lia. }
  split_and!; [eapply ok_locked; try done; by rewrite (k_ptr _ _ _ K) | done | by apply kept_locked].
Qed.

(** A client that writes to live data only. *)
Lemma ok_write h h' bs : heap_ok h bs -> heap_ptr h' = heap_ptr h -> heap_end h' = heap_end h ->
  mem_size_aligned h' = mem_size_aligned h -> heap_sem h' = heap_sem h -> lfree h' = lfree h ->
  used_mem h' = used_mem h -> max_mem h' = max_mem h ->
  (forall x, (forall a l, In (a, l) (live (heap_ptr h) 0 bs) -> ~ (a <= x < a + l)) -> h_mem h' x = h_mem h x) ->
  heap_ok h' bs.
Proof.
  intros [W C S U M] E1 E2 E3 E4 E5 E6 E7 Hm. split; [|done|by rewrite E4|by rewrite E6, E1|by rewrite E6, E7].
  pose proof W as [W1 W2 W3 W4 W5 W6 W7 W8 W9 W10 W11 W12 W13].
  assert (forall x lo hi, (forall a l, In (a, l) (live (heap_ptr h) 0 bs) -> a + l <= lo \/ hi <= a) ->
    lo <= x < hi -> h_mem h' x = h_mem h x) as Hs.
  { intros x lo hi H Hx. apply Hm. intros a l Hin. specialize (H a l Hin). lia. }
  assert (same (h_mem h) (h_mem h') (heap_end h) (heap_end h + 12)) as Hend.
  { intros x Hx. apply (Hs x (heap_end h) (heap_end h + 12)); [|done]. intros a l Hin.
    apply live_range in Hin; [|done]. lia. }
  split; rewrite ?E1, ?E2, ?E3, ?E5; try done.
  - assert (forall l2 l1, bs = l1 ++ l2 -> chain (h_mem h') (heap_ptr h) (lasto 0 0 l1) (stop 0 l1) l2) as Hc.
    { induction l2 as [|b l2 IH]; intros l1 Eb; [done|].
      pose proof W9 as C9. rewrite Eb in C9. apply chain_app in C9 as [_ (C1 & C2 & C3 & C4 & _)].
      assert (same (h_mem h) (h_mem h') (heap_ptr h + stop 0 l1) (heap_ptr h + stop 0 l1 + 12)) as Hh.
      { intros x Hx. eapply Hs; [|exact Hx]. intros a l Hin. rewrite Eb in W8, Hin.
        apply Forall_app in W8 as [B1 B2]. apply Forall_cons in B2 as [[Hb _] B2].
        rewrite live_app in Hin. apply in_app_iff in Hin as [Hin|Hin]; [apply live_range in Hin; [lia|done]|].
        cbn [live] in Hin. apply in_app_iff in Hin as [Hin|Hin]; [|apply live_range in Hin; [lia|done]].
        destruct (b_used b); [|done]. destruct Hin as [[= <- <-]|[]]. lia. }
      cbn [chain]. split_and!.
      - rewrite (magic_same (h_mem h)); [done|]. intros x Hx. apply Hh. lia.
      - rewrite (used_same (h_mem h)); [done|]. intros x Hx. apply Hh. lia.
      - rewrite (next_same (h_mem h)); [done|]. intros x Hx. apply Hh. lia.
      - rewrite (prev_same (h_mem h)); [done|]. intros x Hx. apply Hh. lia.
      - specialize (IH (l1 ++ [b]) ltac:(by rewrite <- app_assoc)). by rewrite stop_app, lasto_app in IH. }
    by apply (Hc bs []).
  - rewrite (magic_same (h_mem h)); [done|]. intros x Hx. apply Hend. lia.
  - rewrite (used_same (h_mem h)); [done|]. intros x Hx. apply Hend. lia.
  - rewrite (next_same (h_mem h)); [done|]. intros x Hx. apply Hend. lia.
Qed.

Lemma rt_realloc_spec h bs a l newsize : heap_ok h bs -> In (a, l) (live (heap_ptr h) 0 bs) ->
  0 < newsize <= 2 ^ 32 - 4 ->
  (exists h', rt_realloc a newsize h = Some (0, h') /\ heap_ok h' bs /\ kept h h' (live (heap_ptr h) 0 bs)) \/
  (exists p len h' bs', rt_realloc a newsize h = Some (p, h') /\ heap_ok h' bs' /\
    moved h h' (live (heap_ptr h) 0 bs) (live (heap_ptr h) 0 bs') a l p len newsize).
Proof.
  intros Hok Hin Hsz. destruct (align_range newsize Hsz) as (R1 & R2 & R3 & R4).
  set (n := (newsize + 3) / 4 * 4) in *.
  assert (RT_ALIGN n 4 = n) as R5.
  { rewrite RT_ALIGN_4 by lia. destruct R3 as [k Ek]. rewrite Ek, Z.add_comm, Z.div_add by lia. done. }
  assert (rt_realloc a newsize h = rt_realloc a n h) as Ern.
  { unfold rt_realloc. change RT_ALIGN_SIZE with 4. by rewrite R4, R5. }
  rewrite Ern. clear Ern. pose proof Hok as [W C S U M]. pose proof (hw_blks _ _ W) as Bk.
  pose proof (hw_ptr _ _ W) as Hp. pose proof (hw_end _ _ W) as He. pose proof (hw_top _ _ W) as Ht.
  pose proof (live_range _ _ _ _ _ Bk Hin) as Hr. rewrite (hw_stop _ _ W) in Hr.
  pose proof Hin as Hin'. apply live_in in Hin' as (l1 & l2 & -> & Ea).
  destruct (wf_block h _ W l1 (Blk l true) l2 eq_refl) as (_ & _ & Bn & _ & H0 & Hl & Htop).
  destruct (wf_split h _ W l1 (Blk l true :: l2) eq_refl) as (_ & _ & _ & D0 & _).
  assert (4 | a) as Da by (rewrite Ea; apply divide_sum; [apply W|done|by exists 3]).
  cbn [b_len] in *. set (hp := heap_ptr h) in *. set (off := stop 0 l1) in *.
  destruct (Z_lt_le_dec (mem_size_aligned h) n) as [Hbig|Hfit].
  { left. exists h. unfold rt_realloc. change RT_ALIGN_SIZE with 4. rewrite R5, (proj2 (Z.ltb_lt _ _)) by done. done. }
  destruct (Z_lt_le_dec (n + 24) l) as [Hcut|Hgrow].
  { right. rewrite Ea. destruct (realloc_shrink h l1 l l2 n Hok ltac:(lia) R3 Hcut R5) as (h' & bs' & E & Hok' & EL & [K1 K2 K3 K4 K5 K6]).
    exists (hp + off + 12), n, h', bs'. split_and!; [done..|]. fold hp off in EL. fold hp in K5.
    pose proof (proj2 (blk_split_live hp l1 l l2 Bk)) as Eold. fold off in Eold.
    split; try done; try lia.
    - by rewrite <- Ea.
    - rewrite EL. apply in_elt.
    - intros x k Hx. rewrite EL, <- Eold, !in_app_iff. cbn [In]. split; [|tauto].
      intros [?|[[= <- <-]|?]]; [by left|done|by right].
    - intros b k x Hb Hne Hx. apply (K5 b k); [|done]. rewrite EL. apply in_app_iff. cbn [In].
      assert (In (b, k) (live hp 0 l1 ++ live hp (off + 12 + l) l2)) as H by (by apply Eold). apply in_app_iff in H. tauto.
    - intros i Hi. apply (K5 (hp + off + 12) n); [rewrite EL; apply in_elt|lia]. }
  (* the same block, or a new one *)
  assert (rt_realloc a n h = if l =? n then Some (a, h) else
    match rt_malloc n h with
    | None => None
    | Some (nmem, h) => if nmem =? 0 then Some (nmem, h) else
        let h := with_mem (rt_memcpy (h_mem h) nmem a (if l <? n then l else n)) h in
        match rt_free a h with None => None | Some h => Some (nmem, h) end
    end) as ->.
  { unfold rt_realloc. change RT_ALIGN_SIZE with 4. rewrite R5.
    rewrite (proj2 (Z.ltb_ge (mem_size_aligned h) n)), (proj2 (Z.eqb_neq n 0)), (proj2 (Z.eqb_neq _ 0)) by lia.
    rewrite take_free by done.
    change (heap_ptr (with_sem 0 h)) with hp. change (heap_end (with_sem 0 h)) with (heap_end h).
    rewrite (proj2 (Z.ltb_ge _ hp)), (proj2 (Z.leb_gt (heap_end h) _)) by lia. cbn [orb].
    change SIZEOF_STRUCT_MEM with 12. change MIN_SIZE with 12. change (h_mem (with_sem 0 h)) with (h_mem h).
    replace (a - 12) with (hp + off) by lia. rewrite Bn. replace (hp + off - hp) with off by lia.
    rewrite (u32_small (off + 12 + l - off)) by (unfold is_u32; lia). rewrite u32_small by (unfold is_u32; lia).
    replace (off + 12 + l - off - 12) with l by lia. rewrite with_sem_id by done.
    destruct (l =? n); [done|]. rewrite (u32_small (n + 12)) by (unfold is_u32; lia).
    rewrite u32_small by (unfold is_u32; lia). by rewrite (proj2 (Z.ltb_ge (n + 12 + 12) l)) by lia. }
  destruct (Z.eqb_spec l n) as [->|Hne].
  { right. exists a, n, h, (l1 ++ Blk n true :: l2). split_and!; [done..|]. split; try done; try lia.
    intros x k Hx. tauto. }
  assert (0 < n <= 2 ^ 32 - 4) as Hn by lia.
  destruct (rt_malloc_spec h _ n Hok Hn) as [(h' & -> & Hok' & K & _)|(p & len & h1 & bs1 & -> & Hp0 & Dp & Hlen & Hok1 & (L1 & L2 & EL & EL1) & K)].
  { left. exists h'. done. }
  right. rewrite (proj2 (Z.eqb_neq p 0)) by done. cbv zeta. fold hp in EL, EL1, K.
  set (h2 := with_mem _ h1). destruct K as [K1 K2 K3 K4 K5 K6]. fold hp in K1.
  pose proof (hw_blks _ _ (ho_wf _ _ Hok1)) as Bk1.
  assert (In (a, l) (live hp 0 bs1)) as Hin1.
  { rewrite EL1. rewrite EL in Hin. apply in_app_iff in Hin. apply in_app_iff. cbn [In]. tauto. }
  assert (In (p, len) (live hp 0 bs1)) as Hnew by (rewrite EL1; apply in_elt).
  assert (forall x k, In (x, k) (live hp 0 bs1) <-> (x = p /\ k = len) \/ In (x, k) (live hp 0 (l1 ++ Blk l true :: l2))) as Hmem.
  { intros x k. rewrite EL, EL1, !in_app_iff. cbn [In]. split; [|intros [[-> ->]|?]; tauto].
    intros [?|[[= <- <-]|?]]; tauto. }
  assert (n <= len) as Hnl by (pose proof (align_range n Hn) as (? & _); unfold request in Hlen; lia).
  pose proof (live_fresh hp 0 bs1 L1 L2 p len Bk1 EL1) as Hfresh. rewrite <- EL in Hfresh.
  assert (a <> p) as Hpa by (by eapply Hfresh).
  assert (heap_ok h2 bs1) as Hok2.
  { apply (ok_write h1); try done. intros x Hx. unfold h2. cbn [h_mem with_mem]. unfold rt_memcpy.
    destruct (Z.leb_spec p x), (Z.ltb_spec x (p + (if l <? n then l else n))); try done. exfalso.
    apply (Hx p len); [by rewrite K1|]. destruct (Z.ltb_spec l n); lia. }
  assert (heap_ptr h2 = hp) as K1' by done.
  destruct (rt_free_spec h2 bs1 a l Hok2) as (h' & bs' & E & Hok' & HL & [F1 F2 F3 F4 F5 F6]); [by rewrite K1'|].
  rewrite K1' in *. exists p, len, h', bs'. rewrite E. split_and!; [done..|].
  assert (forall x, ~ (p <= x < p + len) -> h_mem h2 x = h_mem h1 x) as Hout.
  { intros x Hx. unfold h2. cbn [h_mem with_mem]. unfold rt_memcpy.
    destruct (Z.leb_spec p x), (Z.ltb_spec x (p + (if l <? n then l else n))); try done. exfalso.
    destruct (Z.ltb_spec l n); lia. }
  split; try done; try congruence; try lia.
  - apply HL. split; [done|congruence].
  - intros x k Hx. rewrite HL, Hmem. split; [intros [[[-> _]|?] ?]; done|tauto].
  - intros x k Hx ->. by destruct (Hfresh _ _ Hx).
  - intros b k x Hb Hba Hx. assert (In (b, k) (live hp 0 bs1)) as Hb1 by (apply Hmem; by right).
    rewrite (F5 b k x); [|apply HL; done|done]. rewrite Hout; [by eapply K5|].
    destruct (live_apart hp 0 bs1 b k p len Bk1 Hb1 Hnew) as [[-> _]|]; [|lia]. by destruct (Hfresh _ _ Hb).
  - intros i Hi. rewrite (F5 p len); [|apply HL; split; [done|congruence]|lia].
    unfold h2. cbn [h_mem with_mem]. unfold rt_memcpy.
    rewrite (proj2 (Z.leb_le p _)), (proj2 (Z.ltb_lt (p + i) _)) by (destruct (Z.ltb_spec l n); lia). cbn [andb].
    replace (a + (p + i - p)) with (a + i) by lia. apply (K5 a l); [done|lia].
  - intros x Hx. rewrite F6; [|unfold elsewhere in *; change (mem_size_aligned h2) with (mem_size_aligned h1); by rewrite K1', K3]. rewrite Hout; [by apply K6|].
    pose proof (live_range _ _ _ _ _ Bk1 Hnew) as Rp. rewrite (hw_stop _ _ (ho_wf _ _ Hok1)), K3 in Rp.
    unfold elsewhere in Hx. fold hp in Hx. lia.
  - by rewrite F2.
  - by rewrite F3.
Qed.
