(* ===== verification/HeapSpec.v ===== *)
(** * The kernel heap against its contract

    What clients of [rt_malloc], [rt_calloc], [rt_realloc] and [rt_free] may
    rely on, as an abstract allocator: a finite map from the addresses of the
    live blocks to their bytes.  Clients are trees of calls, each choosing the
    next one from the result; [hrun] runs them on the allocator of Heap.v,
    [arun] on the abstract one, and [heap_refines_allocator] connects the two. *)

From Stdlib Require Import ZArith Lia.
From stdpp Require Import base numbers list gmap.
From S2P Require Import Prelude Memory Heap.
Open Scope c_scope.

(* ------------------------------------------------------------------ *)
(** ** Clients *)

Inductive hop :=
  | HMalloc (size : Z) | HCalloc (count size : Z) | HRealloc (rmem newsize : Z)
  | HFree (rmem : Z) | HLoad (a : Z) | HStore (a v : Z).

Inductive client := Done | Call (op : hop) (k : Z -> client).

(** One call, or one access to memory, on the allocator of Heap.v. *)
Definition hstep (op : hop) (h : heap) : option (Z * heap) :=
  match op with
  | HMalloc n => rt_malloc n h
  | HCalloc c n => rt_calloc c n h
  | HRealloc p n => rt_realloc p n h
  | HFree p => match rt_free p h with Some h => Some (0, h) | None => None end
  | HLoad a => Some (h_mem h a, h)
  | HStore a v => Some (0, with_mem (mem_set (h_mem h) a v) h)
  end.

Fixpoint hrun (c : client) (h : heap) : option (list Z * heap) :=
  match c with
  | Done => Some ([], h)
  | Call op k =>
      match hstep op h with
      | None => None
      | Some (r, h) => match hrun (k r) h with None => None | Some (rs, h) => Some (r :: rs, h) end
      end
  end.

(* ------------------------------------------------------------------ *)
(** ** The abstract allocator *)

Abbreviation astore := (gmap Z (list Z)).

(** A new block at [p] with contents [c]: a non-null multiple of four between
    [lo] and [hi], apart from every live block. *)
Definition fresh (lo hi : Z) (s : astore) (p : Z) (c : list Z) : Prop :=
  p <> 0 /\ (4 | p) /\ lo <= p /\ p + Z.of_nat (length c) <= hi /\ s !! p = None /\
  forall q d, s !! q = Some d -> p + Z.of_nat (length c) <= q \/ q + Z.of_nat (length d) <= p.

Section Spec.
Context (lo hi : Z).

(** What an allocation of [n] bytes may answer; [init] is what it promises of
    the contents. *)
Inductive allocs (n : Z) (init : list Z) (s : astore) : Z -> astore -> Prop :=
  | AllocNull : allocs n init s 0 s
  | AllocNew p c : fresh lo hi s p c -> n <= Z.of_nat (length c) -> 0 < n ->
      firstn (length init) c = init -> allocs n init s p (<[p := c]> s).

Inductive astep : hop -> astore -> Z -> astore -> Prop :=
  | AMalloc n s r s' : allocs n [] s r s' -> astep (HMalloc n) s r s'
  | ACalloc c n s r s' : allocs (c * n) (replicate (Z.to_nat (c * n)) 0) s r s' -> astep (HCalloc c n) s r s'
  | AReallocNew n s r s' : allocs n [] s r s' -> astep (HRealloc 0 n) s r s'
  | AReallocFree p c s : s !! p = Some c -> astep (HRealloc p 0) s 0 (delete p s)
  | AReallocFail p n s : 0 < n -> astep (HRealloc p n) s 0 s
  | ARealloc p c q d n s : 0 < n -> s !! p = Some c -> fresh lo hi (delete p s) q d ->
      n <= Z.of_nat (length d) ->
      firstn (Nat.min (length c) (Z.to_nat n)) d = firstn (Nat.min (length c) (Z.to_nat n)) c ->
      astep (HRealloc p n) s q (<[q := d]> (delete p s))
  | AFreeNull s : astep (HFree 0) s 0 s
  | AFree p c s : s !! p = Some c -> astep (HFree p) s 0 (delete p s)
  | ALoad p c i v s : s !! p = Some c -> c !! i = Some v -> astep (HLoad (p + Z.of_nat i)) s v s
  | AStore p c i v s : s !! p = Some c -> (i < length c)%nat ->
      astep (HStore (p + Z.of_nat i) v) s 0 (<[p := <[i := v]> c]> s).

(** What a client owes: sizes that do not wrap, live blocks to free and to
    reallocate, accesses inside live blocks. *)
Definition op_ok (op : hop) (s : astore) : Prop :=
  match op with
  | HMalloc n => 0 <= n <= 2 ^ 32 - 4
  | HCalloc c n => 0 <= c * n <= 2 ^ 32 - 4
  | HRealloc p n => 0 <= n <= 2 ^ 32 - 4 /\ (p = 0 \/ is_Some (s !! p))
  | HFree p => p = 0 \/ is_Some (s !! p)
  | HLoad a => exists p c, s !! p = Some c /\ p <= a < p + Z.of_nat (length c)
  | HStore a v => exists p c, s !! p = Some c /\ p <= a < p + Z.of_nat (length c)
  end.

Inductive arun : client -> astore -> list Z -> astore -> Prop :=
  | ARunDone s : arun Done s [] s
  | ARunCall op k s r s' rs s'' : astep op s r s' -> arun (k r) s' rs s'' ->
      arun (Call op k) s (r :: rs) s''.

(** A client that is correct against the abstract allocator. *)
Fixpoint safe (c : client) (s : astore) : Prop :=
  match c with
  | Done => True
  | Call op k => op_ok op s /\ forall r s', astep op s r s' -> safe (k r) s'
  end.

(** The abstract blocks are the live blocks with their bytes. *)
Definition contents (s : astore) (h : heap) (bs : list blk) : Prop := forall a c, s !! a = Some c <->
  exists l, In (a, l) (live (heap_ptr h) 0 bs) /\ c = mem_read (h_mem h) a (Z.to_nat l).

(** The heap [h] holds the blocks [s] between [lo] and [hi], and the memory
    outside is [m0]. *)
Definition rel (m0 : memory) (h : heap) (s : astore) : Prop :=
  exists bs, heap_ok h bs /\ lo = heap_ptr h + 12 /\ hi = heap_end h /\
    (forall x, x < lo - 12 \/ hi + 12 <= x -> h_mem h x = m0 x) /\
    contents s h bs.
End Spec.

(* ------------------------------------------------------------------ *)
(** ** Memory and contents *)

Lemma mem_read_lookup m a n i : (i < n)%nat -> mem_read m a n !! i = Some (m (a + Z.of_nat i)).
Proof.
  intros Hi. unfold mem_read. rewrite list_lookup_fmap, lookup_seq_lt by done. done.
Qed.

Lemma mem_read_set m a p n v : p <= a < p + Z.of_nat n ->
  mem_read (mem_set m a v) p n = <[Z.to_nat (a - p) := v]> (mem_read m p n).
Proof.
  intros Ha. apply list_eq. intros i. destruct (decide (i < n)%nat) as [Hi|Hi].
  - rewrite mem_read_lookup by done. destruct (decide (i = Z.to_nat (a - p))) as [->|Hne].
    + rewrite list_lookup_insert_eq by (rewrite mem_read_length; lia). unfold mem_set.
      by rewrite Z2Nat.id, (proj2 (Z.eqb_eq _ _)) by lia.
    + rewrite list_lookup_insert_ne, mem_read_lookup, mem_set_ne by lia. done.
  - rewrite !lookup_ge_None_2; [done|rewrite length_insert, mem_read_length; lia|rewrite mem_read_length; lia].
Qed.

Lemma mem_read_firstn m a n k : (k <= n)%nat -> firstn k (mem_read m a n) = mem_read m a k.
Proof.
  intros Hk. replace n with (k + (n - k))%nat by lia. rewrite mem_read_app.
  rewrite take_app_le by (rewrite mem_read_length; lia). apply take_ge. by rewrite mem_read_length.
Qed.

Section Rel.
Context (lo hi : Z) (m0 : memory).
Abbreviation R := (rel lo hi m0).

Lemma rel_len h bs s a c l : contents s h bs ->
  heap_ok h bs -> In (a, l) (live (heap_ptr h) 0 bs) -> s !! a = Some c ->
  c = mem_read (h_mem h) a (Z.to_nat l) /\ Z.of_nat (length c) = l.
Proof.
  intros Hs [W _ _] Hin Hc. pose proof (hw_blks _ _ W) as Bk.
  destruct (live_range _ _ _ _ _ Bk Hin) as (_ & _ & H4).
  assert (c = mem_read (h_mem h) a (Z.to_nat l)) as ->.
  { apply Hs in Hc as (l' & Hin' & ->).
    destruct (live_apart _ _ _ _ _ _ _ Bk Hin Hin') as [[_ ->]|]; [done|].
    destruct (live_range _ _ _ _ _ Bk Hin') as (_ & _ & ?). lia. }
  split; [done|]. rewrite mem_read_length. lia.
Qed.

(** A new block of the concrete heap is fresh in the abstract one. *)
Lemma rel_fresh h bs (s : astore) p len : heap_ok h bs -> lo = heap_ptr h + 12 -> hi = heap_end h ->
  (forall a c, s !! a = Some c -> a <> p /\ In (a, Z.of_nat (length c)) (live (heap_ptr h) 0 bs)) ->
  p <> 0 -> (4 | p) -> In (p, len) (live (heap_ptr h) 0 bs) ->
  fresh lo hi s p (mem_read (h_mem h) p (Z.to_nat len)).
Proof.
  intros [W _ _] El Eh Hs Hp0 Dp Hin. pose proof (hw_blks _ _ W) as Bk.
  destruct (live_range _ _ _ _ _ Bk Hin) as (R1 & R2 & R3). rewrite (hw_stop _ _ W) in R2.
  pose proof (hw_end _ _ W) as He. unfold fresh. rewrite mem_read_length, Z2Nat.id by lia.
  split_and!; try done; try lia.
  - destruct (s !! p) as [c|] eqn:E; [|done]. by destruct (Hs _ _ E).
  - intros q d Hq. destruct (Hs _ _ Hq) as [Hne Hl].
    destruct (live_apart _ _ _ _ _ _ _ Bk Hin Hl) as [[<- _]|]; [done|lia].
Qed.

Lemma contents_len (s : astore) h bs a c : heap_ok h bs -> contents s h bs -> s !! a = Some c ->
  exists l, In (a, l) (live (heap_ptr h) 0 bs) /\ Z.of_nat (length c) = l.
Proof.
  intros Hok Hs Hc. destruct (proj1 (Hs a c) Hc) as (l & Hin & _). exists l. split; [done|].
  by destruct (rel_len h bs s a c l Hs Hok Hin Hc).
Qed.

Lemma live_read (h h' : heap) L a l : kept h h' L -> In (a, l) L -> 4 <= l ->
  mem_read (h_mem h') a (Z.to_nat l) = mem_read (h_mem h) a (Z.to_nat l).
Proof. intros K Hin H4. apply mem_read_ext. intros x Hx. apply (k_live _ _ _ K a l); [done|lia]. Qed.

(** Memory outside the heap, through a call. *)
Lemma kept_m0 h h' L : lo = heap_ptr h + 12 -> hi = heap_end h -> heap_end h = heap_ptr h + mem_size_aligned h + 12 ->
  (forall x, x < lo - 12 \/ hi + 12 <= x -> h_mem h x = m0 x) -> kept h h' L ->
  forall x, x < lo - 12 \/ hi + 12 <= x -> h_mem h' x = m0 x.
Proof.
  intros El Eh He Hm K x Hx. rewrite <- Hm by done. apply (k_out _ _ _ K). unfold elsewhere. lia.
Qed.

Lemma malloc_rel h s n : R h s -> 0 <= n <= 2 ^ 32 - 4 ->
  exists r h', rt_malloc n h = Some (r, h') /\
    ((r = 0 /\ R h' s) \/
     (r <> 0 /\ 0 < n /\ exists c, fresh lo hi s r c /\ n <= Z.of_nat (length c) /\ R h' (<[r := c]> s))).
Proof.
  intros (bs & Hok & El & Eh & Hm & Hs) Hn. pose proof (hw_end _ _ (ho_wf _ _ Hok)) as He.
  destruct (Z.eq_dec n 0) as [->|Hn0]; [exists 0, h; split; [done|left; split; [done|]]; by exists bs|].
  destruct (rt_malloc_spec h bs n Hok ltac:(lia)) as [(h' & E & Hok' & K & _)|(p & len & h' & bs' & E & Hp0 & Dp & Hlen & Hok' & (L1 & L2 & EL & EL') & K)].
  - exists 0, h'. split; [done|]. left. split; [done|]. pose proof K as [K1 K2 _ _ _ _]. exists bs.
    split_and!; try done; try congruence; [by eapply kept_m0|].
    intros a c. rewrite (Hs a c), K1. split; intros (l & Hin & ->); exists l; (split; [done|]);
      pose proof (live_range _ _ _ _ _ (hw_blks _ _ (ho_wf _ _ Hok)) Hin) as (_ & _ & H4); by rewrite (live_read h h' _ a l K).
  - exists p, h'. split; [done|]. right. split_and!; try done; try lia.
    pose proof K as [K1 K2 K3 K4 K5 K6]. pose proof (hw_blks _ _ (ho_wf _ _ Hok')) as Bk'.
    assert (In (p, len) (live (heap_ptr h) 0 bs')) as Hin by (rewrite EL'; apply in_elt).
    destruct (live_range _ _ _ _ _ Bk' Hin) as (_ & _ & H4).
    assert (forall x k, In (x, k) (live (heap_ptr h) 0 bs) -> x <> p /\ In (x, k) (live (heap_ptr h) 0 bs')) as Hold.
    { intros x k Hk. rewrite EL in Hk. split; [by eapply (live_fresh _ _ bs')|]. rewrite EL'. apply in_app_iff in Hk.
      apply in_app_iff. cbn [In]. tauto. }
    exists (mem_read (h_mem h') p (Z.to_nat len)). split; [|split].
    + apply (rel_fresh h' bs'); rewrite ?K1; try done; try congruence.
      intros a c Hc. destruct (contents_len s h bs a c Hok Hs Hc) as (l & Hl & ->). by apply Hold.
    + rewrite mem_read_length. pose proof (align_range n ltac:(lia)) as (? & _). unfold request in Hlen. lia.
    + exists bs'. split_and!; try done; try congruence; [by eapply kept_m0|].
      intros a c. rewrite K1. destruct (decide (a = p)) as [->|Hne].
      * rewrite lookup_insert_eq. split; [intros [= <-]; by exists len|]. intros (l & Hl & ->).
        destruct (live_apart _ _ _ _ _ _ _ Bk' Hin Hl) as [[_ ->]|]; [done|].
        destruct (live_range _ _ _ _ _ Bk' Hl) as (_ & _ & ?). lia.
      * rewrite lookup_insert_ne, (Hs a c) by done. split.
        -- intros (l & Hl & ->). exists l. split; [by apply Hold|].
           destruct (live_range _ _ _ _ _ (hw_blks _ _ (ho_wf _ _ Hok)) Hl) as (_ & _ & ?). by rewrite (live_read h h' _ a l K).
        -- intros (l & Hl & ->). rewrite EL' in Hl. apply in_app_iff in Hl.
           assert (In (a, l) (live (heap_ptr h) 0 bs)) as Hl'.
           { rewrite EL. apply in_app_iff. destruct Hl as [?|[[= -> ->]|?]]; [by left|done|by right]. }
           exists l. split; [done|].
           destruct (live_range _ _ _ _ _ (hw_blks _ _ (ho_wf _ _ Hok)) Hl') as (_ & _ & ?). by rewrite (live_read h h' _ a l K).
Qed.

(** Bytes written inside a live block. *)
Lemma write_rel h s p c m' : R h s -> s !! p = Some c ->
  (forall x, ~ (p <= x < p + Z.of_nat (length c)) -> m' x = h_mem h x) ->
  R (with_mem m' h) (<[p := mem_read m' p (length c)]> s).
Proof.
  intros (bs & Hok & El & Eh & Hm & Hs) Hc Hm'. pose proof (hw_blks _ _ (ho_wf _ _ Hok)) as Bk.
  destruct (contents_len s h bs p c Hok Hs Hc) as (l & Hin & Hl).
  destruct (live_range _ _ _ _ _ Bk Hin) as (R1 & R2 & R3). rewrite (hw_stop _ _ (ho_wf _ _ Hok)) in R2.
  pose proof (hw_end _ _ (ho_wf _ _ Hok)) as He.
  exists bs. split_and!; try done.
  - apply (ok_write h); try done. intros x Hx. cbn [h_mem with_mem]. apply Hm'. rewrite Hl. by apply Hx.
  - intros x Hx. cbn [h_mem with_mem]. rewrite Hm' by lia. by apply Hm.
  - intros a d. cbn [heap_ptr h_mem with_mem]. destruct (decide (a = p)) as [->|Hne].
    + rewrite lookup_insert_eq. split.
      * intros [= <-]. exists l. split; [done|]. f_equal. lia.
      * intros (k & Hk & ->). destruct (live_apart _ _ _ _ _ _ _ Bk Hin Hk) as [[_ <-]|].
        -- do 2 f_equal. lia.
        -- destruct (live_range _ _ _ _ _ Bk Hk) as (_ & _ & ?). lia.
    + rewrite lookup_insert_ne, (Hs a d) by done. apply exist_proper. intros k. split; intros [Hk ->]; (split; [done|]);
        destruct (live_apart _ _ _ _ _ _ _ Bk Hin Hk) as [[? _]|Hap]; try congruence;
        apply mem_read_ext; intros x Hx; [symmetry|]; apply Hm'; lia.
Qed.

Lemma free_rel h s p c : R h s -> s !! p = Some c ->
  exists h', rt_free p h = Some h' /\ R h' (delete p s).
Proof.
  intros (bs & Hok & El & Eh & Hm & Hs) Hc. pose proof (hw_blks _ _ (ho_wf _ _ Hok)) as Bk.
  pose proof (hw_end _ _ (ho_wf _ _ Hok)) as He.
  destruct (contents_len s h bs p c Hok Hs Hc) as (l & Hin & _).
  destruct (rt_free_spec h bs p l Hok Hin) as (h' & bs' & E & Hok' & HL & K). pose proof K as [K1 K2 _ _ _ _].
  exists h'. split; [done|]. exists bs'. split_and!; try done; try congruence; [by eapply kept_m0|].
  intros a d. rewrite K1. destruct (decide (a = p)) as [->|Hne].
  - rewrite lookup_delete_eq. split; [done|]. intros (k & Hk & _). apply HL in Hk. tauto.
  - rewrite lookup_delete_ne, (Hs a d) by done. split; intros (k & Hk & ->); exists k.
    + assert (In (a, k) (live (heap_ptr h) 0 bs')) as Hk' by (by apply HL). split; [done|].
      destruct (live_range _ _ _ _ _ Bk Hk) as (_ & _ & ?). by rewrite (live_read h h' _ a k K).
    + pose proof (proj1 (HL _ _) Hk) as [Hk' _]. split; [done|].
      destruct (live_range _ _ _ _ _ Bk Hk') as (_ & _ & ?). by rewrite (live_read h h' _ a k K).
Qed.

Lemma rel_ok h s : R h s -> exists bs, heap_ok h bs.
Proof. intros (bs & Hok & _). by exists bs. Qed.

Lemma realloc_0 h n : heap_sem h = 1 -> 0 < n <= 2 ^ 32 - 4 ->
  rt_realloc 0 n h = Some (0, h) \/ rt_realloc 0 n h = rt_malloc (RT_ALIGN n 4) h.
Proof.
  intros S Hn. destruct (align_range n Hn) as (_ & H4 & _ & E). unfold rt_realloc. change RT_ALIGN_SIZE with 4.
  destruct (mem_size_aligned h <? RT_ALIGN n 4); [by left|right]. rewrite E.
  by rewrite (proj2 (Z.eqb_neq _ 0)) by lia.
Qed.

Lemma realloc_rel h s p c n : R h s -> s !! p = Some c -> 0 < n <= 2 ^ 32 - 4 ->
  exists r h' s', rt_realloc p n h = Some (r, h') /\ astep lo hi (HRealloc p n) s r s' /\ R h' s'.
Proof.
  intros (bs & Hok & El & Eh & Hm & Hs) Hc Hn. pose proof (hw_blks _ _ (ho_wf _ _ Hok)) as Bk.
  pose proof (hw_end _ _ (ho_wf _ _ Hok)) as He.
  destruct (contents_len s h bs p c Hok Hs Hc) as (l & Hin & Hl).
  destruct (rel_len h bs s p c l Hs Hok Hin Hc) as [Ec _].
  destruct (rt_realloc_spec h bs p l n Hok Hin Hn) as [(h' & E & Hok' & K)|(q & len & h' & bs' & E & Hok' & M)].
  - exists 0, h', s. split_and!; [done|constructor; lia|]. pose proof K as [K1 K2 _ _ _ _].
    exists bs. split_and!; try done; try congruence; [by eapply kept_m0|].
    intros a d. rewrite (Hs a d), K1. split; intros (k & Hk & ->); exists k; (split; [done|]);
      destruct (live_range _ _ _ _ _ Bk Hk) as (_ & _ & ?); by rewrite (live_read h h' _ a k K).
  - destruct M as [M1 M2 M3 M4 M5 M6 M7 M8 M9 M10 M11 M12].
    pose proof (hw_blks _ _ (ho_wf _ _ Hok')) as Bk'.
    destruct (live_range _ _ _ _ _ Bk' M4) as (_ & _ & H4).
    destruct (live_range _ _ _ _ _ Bk Hin) as (_ & _ & H4l).
    set (d := mem_read (h_mem h') q (Z.to_nat len)).
    assert (forall a k, In (a, k) (live (heap_ptr h) 0 bs) -> a <> p ->
      a <> q /\ mem_read (h_mem h') a (Z.to_nat k) = mem_read (h_mem h) a (Z.to_nat k)) as Hothers.
    { intros a k Hk Hne. destruct (live_range _ _ _ _ _ Bk Hk) as (_ & _ & ?). split.
      - intros ->. by apply M6 in Hk.
      - apply mem_read_ext. intros x Hx. apply (M7 a k); [done..|lia]. }
    assert (forall a k, In (a, k) (live (heap_ptr h) 0 bs') -> a <> q -> In (a, k) (live (heap_ptr h) 0 bs) /\ a <> p) as Hback
      by (intros a k Hk Hne; by apply M5).
    assert (Z.of_nat (length d) = len) as Ed by (unfold d; rewrite mem_read_length; lia).
    exists q, h', (<[q := d]> (delete p s)). split_and!; [done| |].
    + apply (ARealloc _ _ p c q d n s); try done; try lia.
      * apply (rel_fresh h' bs'); rewrite ?M10; try done; try congruence.
        intros a e Ha. apply lookup_delete_Some in Ha as [Hne Ha].
        destruct (contents_len s h bs a e Hok Hs Ha) as (k & Hk & ->).
        destruct (Hothers _ _ Hk ltac:(done)) as [Hq _]. split; [done|]. by apply M5.
      * set (k := Nat.min (length c) (Z.to_nat n)). assert (k <= length c /\ k <= Z.to_nat n)%nat by lia.
        unfold d. rewrite Ec, !mem_read_firstn by lia. apply list_eq. intros i.
        destruct (decide (i < k)%nat) as [Hi|Hi].
        -- rewrite !mem_read_lookup by done. f_equal. apply M8. lia.
        -- rewrite !lookup_ge_None_2 by (rewrite mem_read_length; lia). done.
    + exists bs'. split_and!; try done; try congruence.
      * intros x Hx. rewrite M9; [by apply Hm|]. unfold elsewhere. lia.
      * intros a e. rewrite M10. destruct (decide (a = q)) as [->|Hne].
        -- rewrite lookup_insert_eq. split; [intros [= <-]; by exists len|]. intros (k & Hk & ->).
           destruct (live_apart _ _ _ _ _ _ _ Bk' M4 Hk) as [[_ <-]|]; [done|].
           destruct (live_range _ _ _ _ _ Bk' Hk) as (_ & _ & ?). lia.
        -- rewrite lookup_insert_ne, lookup_delete_Some, (Hs a e) by done. split.
           ++ intros (Hpa & k & Hk & ->). destruct (Hothers a k Hk ltac:(done)) as [_ Er].
              exists k. split; [by apply M5|done].
           ++ intros (k & Hk & ->). destruct (Hback a k Hk Hne) as [Hk' Hpa]. split; [done|].
              exists k. split; [done|]. by apply Hothers.
Qed.

Lemma step_rel h s op : R h s -> op_ok op s ->
  exists r h' s', hstep op h = Some (r, h') /\ astep lo hi op s r s' /\ R h' s'.
Proof.
  intros HR Hop. destruct op as [n|cnt n|p n|p|a|a v]; cbn [op_ok hstep] in *.
  - destruct (malloc_rel h s n HR Hop) as (r & h' & E & [[-> HR']|(Hr & Hn & c & Hf & Hl & HR')]).
    + exists 0, h', s. split_and!; try done. constructor. constructor.
    + exists r, h', (<[r := c]> s). split_and!; try done. constructor. by apply AllocNew.
  - unfold rt_calloc. rewrite wrapu_small by lia.
    destruct (malloc_rel h s (cnt * n) HR Hop) as (r & h' & -> & [[-> HR']|(Hr & Hn & c & Hf & Hl & HR')]).
    + exists 0, h', s. split_and!; try done. constructor. constructor.
    + rewrite (proj2 (Z.eqb_neq r 0)) by done. set (m' := rt_memset (h_mem h') r 0 (cnt * n)).
      exists r, (with_mem m' h'), (<[r := mem_read m' r (length c)]> s). split_and!; try done.
      * constructor. destruct Hf as (F1 & F2 & F3 & F4 & F5 & F6).
        apply AllocNew; try done; [by unfold fresh; rewrite mem_read_length | by rewrite mem_read_length|].
        rewrite length_replicate, mem_read_firstn by lia. apply list_eq. intros i.
        destruct (decide (i < Z.to_nat (cnt * n))%nat) as [Hi|Hi].
        -- rewrite mem_read_lookup, lookup_replicate_2 by done. f_equal. unfold m', rt_memset.
           by rewrite (proj2 (Z.leb_le _ _)), (proj2 (Z.ltb_lt _ _)) by lia.
        -- rewrite !lookup_ge_None_2; [done|rewrite length_replicate; lia|rewrite mem_read_length; lia].
      * pose proof (write_rel h' (<[r := c]> s) r c m' HR') as W. rewrite lookup_insert_eq, insert_insert_eq in W.
        apply W; [done|]. intros x Hx. unfold m', rt_memset.
        destruct (Z.leb_spec r x), (Z.ltb_spec x (r + cnt * n)); try done. lia.
  - destruct Hop as [Hn Hp]. destruct (rel_ok h s HR) as [bs Hok].
    destruct (Z.eq_dec n 0) as [->|Hn0].
    + assert (rt_realloc p 0 h = match rt_free p h with None => None | Some h => Some (0, h) end) as ->.
      { unfold rt_realloc. change (RT_ALIGN 0 RT_ALIGN_SIZE) with 0.
        pose proof (hw_size _ _ (ho_wf _ _ Hok)). by rewrite (proj2 (Z.ltb_ge _ 0)) by lia. }
      destruct Hp as [->|[c Hc]].
      * exists 0, h, s. split_and!; try done. apply AReallocNew. constructor.
      * destruct (free_rel h s p c HR Hc) as (h' & -> & HR'). exists 0, h', (delete p s).
        split_and!; try done. by eapply AReallocFree.
    + destruct Hp as [->|[c Hc]]; [|by eapply realloc_rel; [..|lia]].
      destruct (realloc_0 h n (ho_sem _ _ Hok) ltac:(lia)) as [->| ->].
      * exists 0, h, s. split_and!; try done. apply AReallocNew. constructor.
      * destruct (align_range n ltac:(lia)) as (H1 & H2 & _ & ->).
        destruct (malloc_rel h s _ HR ltac:(split; [|apply H2]; lia)) as (r & h' & -> & [[-> HR']|(Hr & _ & c & Hf & Hl & HR')]).
        -- exists 0, h', s. split_and!; try done. apply AReallocNew. constructor.
        -- exists r, h', (<[r := c]> s). split_and!; try done. apply AReallocNew. apply AllocNew; done || lia.
  - destruct Hop as [->|[c Hc]].
    + exists 0, h, s. split_and!; try done. constructor.
    + destruct (free_rel h s p c HR Hc) as (h' & -> & HR'). exists 0, h', (delete p s).
      split_and!; try done. by eapply AFree.
  - destruct Hop as (p & c & Hc & Ha). exists (h_mem h a), h, s. split_and!; try done.
    pose proof HR as (bs & Hok & _ & _ & _ & Hs). destruct (contents_len s h bs p c Hok Hs Hc) as (l & Hin & Hl).
    destruct (rel_len h bs s p c l Hs Hok Hin Hc) as [Ec _].
    replace a with (p + Z.of_nat (Z.to_nat (a - p))) at 1 by lia. eapply ALoad; [done|].
    rewrite Ec, mem_read_lookup by lia. do 2 f_equal. lia.
  - destruct Hop as (p & c & Hc & Ha). set (i := Z.to_nat (a - p)).
    exists 0, (with_mem (mem_set (h_mem h) a v) h), (<[p := <[i := v]> c]> s). split_and!; try done.
    + replace a with (p + Z.of_nat i) by lia. apply AStore; [done|lia].
    + pose proof HR as (bs & Hok & _ & _ & _ & Hs). destruct (contents_len s h bs p c Hok Hs Hc) as (l & Hin & Hl).
      destruct (rel_len h bs s p c l Hs Hok Hin Hc) as [Ec _].
      pose proof (write_rel h s p c (mem_set (h_mem h) a v) HR Hc) as W.
      rewrite mem_read_set in W by done. assert (mem_read (h_mem h) p (length c) = c) as Er by (rewrite <- Hl, Nat2Z.id in Ec; done).
      rewrite Er in W.
      apply W. intros x Hx. apply mem_set_ne. lia.
Qed.

Lemma run_rel c : forall h s, R h s -> safe lo hi c s ->
  exists rs h' s', hrun c h = Some (rs, h') /\ arun lo hi c s rs s' /\ R h' s'.
Proof.
  induction c as [|op k IH]; intros h s HR Hs; cbn [safe hrun] in *.
  - exists [], h, s. split_and!; try done. constructor.
  - destruct Hs as [Hop Hk]. destruct (step_rel h s op HR Hop) as (r & h1 & s1 & -> & A & HR1).
    destruct (IH r h1 s1 HR1 (Hk _ _ A)) as (rs & h' & s' & -> & A' & HR'). exists (r :: rs), h', s'.
    split_and!; try done. by econstructor.
Qed.
End Rel.

(* ------------------------------------------------------------------ *)
(** ** The heap after its initialisation *)

(** The region the board gives the heap: aligned bounds and room for a block. *)
Record region (begin_addr end_addr : Z) : Prop := {
  rg_begin : 0 < begin_addr <= 2 ^ 32 - 4; rg_end : is_u32 end_addr;
  rg_room : (begin_addr + 3) / 4 * 4 + 36 <= end_addr / 4 * 4 }.

Definition capacity (begin_addr end_addr : Z) : Z := end_addr / 4 * 4 - (begin_addr + 3) / 4 * 4 - 24.

Lemma heap_init_ok b e m : region b e -> let h := rt_system_heap_init b e (heap_reset m) in
  heap_ok h [Blk (capacity b e) false] /\ heap_ptr h = (b + 3) / 4 * 4 /\ mem_size_aligned h = capacity b e /\
  (forall x, x < heap_ptr h \/ heap_end h + 12 <= x -> h_mem h x = m x).
Proof.
  intros [Hb He Hr]. unfold is_u32 in He. destruct (align_range b Hb) as (A1 & A2 & A3 & A4).
  pose proof (Z.div_mod e 4 ltac:(lia)). pose proof (Z.mod_pos_bound e 4 ltac:(lia)).
  assert (4 | e / 4 * 4) as De by (by exists (e / 4)).
  unfold rt_system_heap_init. change RT_ALIGN_SIZE with 4. rewrite A4, RT_ALIGN_DOWN_4 by (unfold is_u32; lia).
  unfold capacity. set (hp := (b + 3) / 4 * 4) in *. set (et := e / 4 * 4) in *. change SIZEOF_STRUCT_MEM with 12.
  rewrite (proj2 (Z.ltb_lt _ _)), (proj2 (Z.leb_le _ _)) by lia. cbn [andb]. cbv zeta.
  rewrite (u32_small (et - hp)) by (unfold is_u32; lia). rewrite (u32_small (et - hp - 2 * 12)) by (unfold is_u32; lia).
  rewrite (u32_small (et - hp - 2 * 12 + 12)) by (unfold is_u32; lia).
  set (sz := et - hp - 2 * 12) in *. set (m1 := set_used hp 0 _).
  assert (next m1 hp = sz + 12) as -> by (unfold m1; fields; done).
  set (hend := hp + (sz + 12)). set (m2 := set_prev hend _ _).
  assert (4 | sz) as Dsz.
  { unfold sz. replace (et - hp - 2 * 12) with (et + - hp + - 24) by lia. apply divide_sum; [done|by apply Z.divide_opp_r|by exists (-6)]. }
  split_and!; [|done|cbn; lia|].
  - split; [|split; done|done|done|done]. split; cbn [heap_ptr h_mem heap_end mem_size_aligned lfree stop b_len chain first_free b_used flag lasto];
      try done; try lia.
    + constructor; [|constructor]. split; cbn [b_len]; [lia|]. by replace (et - hp - 24) with sz by (unfold sz; lia).
    + rewrite Z.add_0_r. unfold m2, m1, hend. split_and!; try done; fields; lia || done.
    + unfold m2, m1, hend. fields. done.
    + unfold m2, m1, hend. fields. done.
    + unfold m2, m1, hend. fields. done.
  - cbn [heap_ptr h_mem heap_end]. intros x Hx. unfold m2, m1, hend, set_magic, set_used, set_next, set_prev in *.
    rewrite !store_outside by (cbn [Z.of_nat Pos.of_succ_nat Pos.succ]; lia). done.
Qed.

Lemma rel_init b e m : region b e -> let h := rt_system_heap_init b e (heap_reset m) in
  rel (heap_ptr h + 12) (heap_end h) m h ∅.
Proof.
  intros Hr h. destruct (heap_init_ok b e m Hr) as (Hok & _ & _ & Hm). fold h in Hok, Hm.
  exists [Blk (capacity b e) false]. split_and!; try done.
  - intros x Hx. apply Hm. lia.
  - intros a c. rewrite lookup_empty. split; [done|]. intros (l & [] & _).
Qed.

(** A heap without live blocks is one free block. *)
Lemma rel_empty lo hi m0 h : rel lo hi m0 h ∅ -> heap_ok h [Blk (mem_size_aligned h) false].
Proof.
  intros (bs & Hok & _ & _ & _ & Hs). pose proof Hok as [W C _ U M]. pose proof (hw_stop _ _ W) as S.
  assert (live (heap_ptr h) 0 bs = []) as E.
  { destruct (live (heap_ptr h) 0 bs) as [|[a l] L] eqn:E; [done|].
    assert (@lookup Z (list Z) astore _ a ∅ = Some (mem_read (h_mem h) a (Z.to_nat l))) as Hc
      by (apply Hs; exists l; rewrite E; split; [by left|done]).
    by rewrite lookup_empty in Hc. }
  pose proof (hw_size _ _ W). destruct bs as [|[n [|]] bs]; [cbn in S; lia|by cbn in E|].
  destruct bs as [|[k [|]] bs]; [|by cbn in E|cbn in C; by destruct C as [[]]].
  cbn [stop b_len] in S. by replace (mem_size_aligned h) with n by lia.
Qed.

(* ------------------------------------------------------------------ *)
(** ** Properties *)

(** C2: the heap refines the abstract allocator.  Any client that is correct
    against the abstract allocator, whatever addresses it is given, runs on the
    heap without a failed assertion, deadlock or endless search; the results it
    sees are ones the abstract allocator may give, its blocks keep their bytes
    and lie apart inside the region, and no byte outside the region changes. *)
Theorem heap_refines_allocator begin_addr end_addr m c :
  region begin_addr end_addr ->
  let h0 := rt_system_heap_init begin_addr end_addr (heap_reset m) in
  safe (heap_ptr h0 + 12) (heap_end h0) c ∅ ->
  exists rs h s, hrun c h0 = Some (rs, h) /\ arun (heap_ptr h0 + 12) (heap_end h0) c ∅ rs s /\
    rel (heap_ptr h0 + 12) (heap_end h0) m h s.
Proof. intros Hr h0 Hs. apply run_rel; [by apply rel_init|done]. Qed.

(** A client that stores to a block, reads it back and frees it. *)
Definition demo_client : client :=
  Call (HMalloc 10) (fun p => if p =? 0 then Done else
  Call (HStore (p + 3) 7) (fun _ => Call (HLoad (p + 3)) (fun _ => Call (HFree p) (fun _ => Done)))).

Lemma astep_malloc lo hi n s r s' : astep lo hi (HMalloc n) s r s' -> allocs lo hi n [] s r s'.
Proof. by inversion 1. Qed.

Lemma astep_store lo hi a v s r s' : astep lo hi (HStore a v) s r s' -> exists p c i,
  a = p + Z.of_nat i /\ s !! p = Some c /\ (i < length c)%nat /\ s' = <[p := <[i := v]> c]> s.
Proof. inversion 1; subst. by eexists _, _, _. Qed.

Lemma astep_load lo hi a s r s' : astep lo hi (HLoad a) s r s' -> s' = s.
Proof. by inversion 1. Qed.

Lemma astep_free lo hi p s r s' : p <> 0 -> astep lo hi (HFree p) s r s' -> s' = delete p s.
Proof. by inversion 2. Qed.

(** The only way through [demo_client] once it has its block. *)
Lemma demo_store lo hi p c r s' : astep lo hi (HStore (p + 3) 7) {[p := c]} r s' ->
  exists d, s' = {[p := d]} /\ length d = length c.
Proof.
  intros (q & d & i & _ & Hq & _ & ->)%astep_store. apply lookup_singleton_Some in Hq as [<- <-].
  exists (<[i := 7]> c). by rewrite insert_singleton_eq, length_insert.
Qed.

Lemma demo_safe lo hi : safe lo hi demo_client ∅.
Proof.
  split; [cbn; lia|]. intros r0 s1 [|p c (Hp & _) Hl _ _]%astep_malloc; [done|].
  rewrite (proj2 (Z.eqb_neq p 0)), insert_empty by done. split.
  { exists p, c. rewrite lookup_singleton_eq. split; [done|lia]. }
  intros r s2 (d & -> & Hd)%demo_store. split.
  { exists p, d. rewrite lookup_singleton_eq, Hd. split; [done|lia]. }
  intros r2 s3 ->%astep_load. split; [|done]. right. rewrite lookup_singleton_eq. by eexists.
Qed.

Lemma demo_region : region 0x20000001 0x20000200.
Proof. split; [lia|unfold is_u32; lia|vm_compute; discriminate]. Qed.

Lemma heap_refines_allocator_witness :
  let h0 := rt_system_heap_init 0x20000001 0x20000200 (heap_reset (fun _ => 0x55)) in
  exists rs h s, hrun demo_client h0 = Some (rs, h) /\ arun (heap_ptr h0 + 12) (heap_end h0) demo_client ∅ rs s /\
    rel (heap_ptr h0 + 12) (heap_end h0) (fun _ => 0x55) h s.
Proof. exact (heap_refines_allocator 0x20000001 0x20000200 (fun _ => 0x55) demo_client demo_region (demo_safe _ _)). Defined.

(** C35: memory that is freed is usable again without fragmentation: after a
    client that frees every block it was given the statistics report nothing in
    use, and every request below the size of the heap succeeds, as on the
    fresh heap. *)
Theorem heap_reusable begin_addr end_addr m c :
  region begin_addr end_addr ->
  let h0 := rt_system_heap_init begin_addr end_addr (heap_reset m) in
  safe (heap_ptr h0 + 12) (heap_end h0) c ∅ ->
  (forall rs s, arun (heap_ptr h0 + 12) (heap_end h0) c ∅ rs s -> s = ∅) ->
  exists rs h, hrun c h0 = Some (rs, h) /\ fst (rt_memory_info h) = (capacity begin_addr end_addr, 0) /\
    forall n, 0 < n -> request n < capacity begin_addr end_addr ->
    exists p h', rt_malloc n h = Some (p, h') /\ p <> 0.
Proof.
  intros Hr h0 Hs Hall. destruct (run_rel _ _ m c h0 ∅ (rel_init _ _ m Hr) Hs) as (rs & h & s & E & A & HR).
  pose proof (Hall rs s A) as ->. exists rs, h. split; [done|].
  destruct (heap_init_ok _ _ m Hr) as (Hok0 & Hp0 & Hm0 & _). fold h0 in Hok0, Hp0, Hm0.
  pose proof HR as (bs & Hok & El & Eh & _). apply rel_empty in HR. fold h0 in El, Eh.
  assert (mem_size_aligned h = capacity begin_addr end_addr) as Hm.
  { pose proof (hw_end _ _ (ho_wf _ _ Hok)). pose proof (hw_end _ _ (ho_wf _ _ Hok0)). lia. }
  split; [unfold rt_memory_info; cbn [fst]; rewrite Hm, (ho_used _ _ HR); done|]. intros n Hn Hc.
  destruct (rt_malloc_spec h _ n HR) as [(h' & E' & _ & _ & N)|(p & len & h' & bs' & E' & Hp & _)].
  - pose proof (hw_top _ _ (ho_wf _ _ HR)). pose proof (hw_ptr _ _ (ho_wf _ _ HR)).
    unfold request in Hc. pose proof (Z.div_mod (n + 3) 4 ltac:(lia)). pose proof (Z.mod_pos_bound (n + 3) 4 ltac:(lia)). lia.
  - specialize (N [] (mem_size_aligned h) [] eq_refl). cbn [stop] in N. lia.
  - by exists p, h'.
Qed.

Lemma arun_call lo hi op k s rs s' : arun lo hi (Call op k) s rs s' -> exists r s1 rs',
  astep lo hi op s r s1 /\ arun lo hi (k r) s1 rs' s' /\ rs = r :: rs'.
Proof. inversion 1; subst. by eexists _, _, _. Qed.

Lemma arun_done lo hi s rs s' : arun lo hi Done s rs s' -> s' = s.
Proof. by inversion 1. Qed.

Lemma demo_frees lo hi rs s : arun lo hi demo_client ∅ rs s -> s = ∅.
Proof.
  intros (p & s1 & rs1 & [|p' c (Hp & _) _ _ _]%astep_malloc & A & _)%arun_call; [by apply arun_done in A|].
  rewrite (proj2 (Z.eqb_neq p' 0)), insert_empty in A by done.
  apply arun_call in A as (r & s2 & rs2 & (d & -> & _)%demo_store & A & _).
  apply arun_call in A as (r3 & s3 & rs3 & ->%astep_load & A & _).
  apply arun_call in A as (r4 & s4 & rs4 & H & ->%arun_done & _). apply astep_free in H as ->; [|done].
  apply delete_singleton_eq.
Qed.

Lemma heap_reusable_witness :
  let h0 := rt_system_heap_init 0x20000001 0x20000200 (heap_reset (fun _ => 0x55)) in
  exists rs h, hrun demo_client h0 = Some (rs, h) /\ fst (rt_memory_info h) = (capacity 0x20000001 0x20000200, 0) /\
    forall n, 0 < n -> request n < capacity 0x20000001 0x20000200 ->
    exists p h', rt_malloc n h = Some (p, h') /\ p <> 0.
Proof.
  exact (heap_reusable 0x20000001 0x20000200 (fun _ => 0x55) demo_client demo_region (demo_safe _ _)
    (fun rs s => demo_frees _ _ rs s)).
Defined.

(** A request within three bytes of 2^32 wraps to zero when it is aligned,
    so it is served as the smallest one: the caller gets a block of twelve
    bytes for four gigabytes, not NULL; [rt_calloc] wraps its product the same
    way. *)
Theorem rt_malloc_wraps h bs size : heap_ok h bs -> 2 ^ 32 - 4 < size < 2 ^ 32 ->
  rt_malloc size h = rt_malloc 12 h /\ forall count, rt_calloc count 0x40000000 h = rt_calloc (count + 4) 0x40000000 h.
Proof.
  intros [W _ _ _ _] Hs. split.
  - unfold rt_malloc. rewrite (proj2 (Z.eqb_neq size 0)) by lia. cbn [Z.eqb].
    assert (RT_ALIGN size RT_ALIGN_SIZE = 0) as ->.
    { assert (size = 4294967293 \/ size = 4294967294 \/ size = 4294967295) as [->|[->| ->]] by lia; reflexivity. }
    change (RT_ALIGN 12 RT_ALIGN_SIZE) with 12. pose proof (hw_size _ _ W).
    by rewrite !(proj2 (Z.ltb_ge (mem_size_aligned h) _)) by lia.
  - intros count. unfold rt_calloc. replace (wrapu 32 ((count + 4) * 0x40000000)) with (wrapu 32 (count * 0x40000000)); [done|].
    unfold wrapu. rewrite Z.mul_add_distr_r. change (4 * 0x40000000) with (1 * 2 ^ 32). by rewrite Z_mod_plus_full.
Qed.

Lemma rt_malloc_wraps_witness :
  let h0 := rt_system_heap_init 0x20000001 0x20000200 (heap_reset (fun _ => 0x55)) in
  (rt_malloc 0xffffffff h0 = rt_malloc 12 h0 /\
   forall count, rt_calloc count 0x40000000 h0 = rt_calloc (count + 4) 0x40000000 h0) /\
  match rt_malloc 0xffffffff h0 with Some (p, _) => p =? heap_ptr h0 + 12 | None => false end = true.
Proof.
  intros h0. split; [|vm_compute; reflexivity].
  apply (rt_malloc_wraps h0 [Blk (capacity 0x20000001 0x20000200) false] 0xffffffff); [|lia].
  apply (heap_init_ok 0x20000001 0x20000200 (fun _ => 0x55) demo_region).
Defined.
