(* ===== verification/Timer.v ===== *)
(** * Kernel timers

    rt-thread/src/timer.c: the hard timers checked in the tick interrupt and
    the soft timers checked by the timer thread, with one row per list
    (RT_TIMER_SKIP_LIST_LEVEL is 1).  A linked list is the list of its timers;
    a timer is on one of the two lists, on the temporary list of a check, or on
    none.  Timeout functions are a parameter: the calls to this file that the
    function of each timer makes.  [fired] records the calls of timeout
    functions with their tick.  Left out: hooks, the debug log, objects' names. *)

From Stdlib Require Import ZArith Lia.
From stdpp Require Import base numbers list gmap sorting.
From S2P Require Import Prelude.
Open Scope c_scope.

Definition RT_TICK_MAX : Z := 0xffffffff.
Definition RT_TIMER_FLAG_ACTIVATED : Z := 0x1.
Definition RT_TIMER_FLAG_PERIODIC : Z := 0x2.
Definition RT_TIMER_FLAG_SOFT_TIMER : Z := 0x4.

Record timer := Timer { t_flag : Z; init_tick : Z; timeout_tick : Z }.

Definition with_flag (f : Z) (t : timer) : timer := Timer f (init_tick t) (timeout_tick t).
Definition set_flag (f : Z) (t : timer) : timer := with_flag (Z.lor (t_flag t) f) t.
Definition clear_flag (f : Z) (t : timer) : timer := with_flag (Z.ldiff (t_flag t) f) t.
Definition has_flag (f : Z) (t : timer) : bool := tst (t_flag t) f.

(** The globals of timer.c and the tick of clock.c.  [tmp] is the local list [list]
    of a running [rt_timer_check], [soft_tmp] that of [rt_soft_timer_check]; [soft_idle] is [soft_timer_status], [suspended] the
    state of the timer thread. *)
Record tstate := TState {
  rt_tick : Z; timers : gmap Z timer; hard : list Z; soft : list Z; tmp : list Z; soft_tmp : list Z;
  soft_idle : bool; suspended : bool; fired : list (Z * Z) }.

Definition with_timer (x : Z) (t : timer) (s : tstate) : tstate :=
  TState (rt_tick s) (<[x := t]> (timers s)) (hard s) (soft s) (tmp s) (soft_tmp s) (soft_idle s) (suspended s) (fired s).
Definition with_hard (l : list Z) (s : tstate) : tstate :=
  TState (rt_tick s) (timers s) l (soft s) (tmp s) (soft_tmp s) (soft_idle s) (suspended s) (fired s).
Definition with_soft (l : list Z) (s : tstate) : tstate :=
  TState (rt_tick s) (timers s) (hard s) l (tmp s) (soft_tmp s) (soft_idle s) (suspended s) (fired s).
Definition with_tmp (l : list Z) (s : tstate) : tstate :=
  TState (rt_tick s) (timers s) (hard s) (soft s) l (soft_tmp s) (soft_idle s) (suspended s) (fired s).
Definition with_soft_tmp (l : list Z) (s : tstate) : tstate :=
  TState (rt_tick s) (timers s) (hard s) (soft s) (tmp s) l (soft_idle s) (suspended s) (fired s).
Definition with_idle (b : bool) (s : tstate) : tstate :=
  TState (rt_tick s) (timers s) (hard s) (soft s) (tmp s) (soft_tmp s) b (suspended s) (fired s).
Definition with_suspended (b : bool) (s : tstate) : tstate :=
  TState (rt_tick s) (timers s) (hard s) (soft s) (tmp s) (soft_tmp s) (soft_idle s) b (fired s).
Definition with_tick (n : Z) (s : tstate) : tstate :=
  TState n (timers s) (hard s) (soft s) (tmp s) (soft_tmp s) (soft_idle s) (suspended s) (fired s).
Definition call (x : Z) (s : tstate) : tstate :=
  TState (rt_tick s) (timers s) (hard s) (soft s) (tmp s) (soft_tmp s) (soft_idle s) (suspended s) (fired s ++ [(x, rt_tick s)]).

(* ------------------------------------------------------------------ *)
(** ** The calls *)

(** [_rt_timer_init] with the fields of [rt_timer_init]; [None] timers are not
    objects. *)
Definition rt_timer_init (x time flag : Z) (s : tstate) : tstate :=
  with_timer x (clear_flag RT_TIMER_FLAG_ACTIVATED (Timer (u8 flag) time 0)) s.

Definition _rt_timer_remove (x : Z) (s : tstate) : tstate :=
  with_hard (unlink x (hard s)) (with_soft (unlink x (soft s)) (with_tmp (unlink x (tmp s)) (with_soft_tmp (unlink x (soft_tmp s)) s))).

Definition tick_of (s : tstate) (y : Z) : Z :=
  match timers s !! y with Some t => timeout_tick t | None => 0 end.

(** The walk of [rt_timer_start] along a row: behind the timers that are due
    no later. *)
Fixpoint row_insert (due : Z -> Z) (x timeout : Z) (l : list Z) : list Z :=
  match l with
  | [] => [x]
  | y :: r =>
      if due y -u32 timeout =? 0 then y :: row_insert due x timeout r
      else if due y -u32 timeout <? RT_TICK_MAX / 2 then x :: y :: r
      else y :: row_insert due x timeout r
  end.

(** [None] is a failed RT_ASSERT. *)
Definition rt_timer_start (x : Z) (s : tstate) : option (Z * tstate) :=
  match timers s !! x with
  | None => None
  | Some t =>
      let s := _rt_timer_remove x s in
      let t := clear_flag RT_TIMER_FLAG_ACTIVATED t in
      if init_tick t <? RT_TICK_MAX / 2 then
        let timeout := rt_tick s +u32 init_tick t in
        let s := if has_flag RT_TIMER_FLAG_SOFT_TIMER t
                 then with_soft (row_insert (tick_of s) x timeout (soft s)) s
                 else with_hard (row_insert (tick_of s) x timeout (hard s)) s in
        let t := set_flag RT_TIMER_FLAG_ACTIVATED (Timer (t_flag t) (init_tick t) timeout) in
        let s := with_timer x t s in
        Some (RT_EOK, if has_flag RT_TIMER_FLAG_SOFT_TIMER t && soft_idle s && suspended s
                      then with_suspended false s else s)
      else None
  end.

Definition rt_timer_stop (x : Z) (s : tstate) : option (Z * tstate) :=
  match timers s !! x with
  | None => None
  | Some t =>
      if negb (has_flag RT_TIMER_FLAG_ACTIVATED t) then Some (- RT_ERROR, s)
      else Some (RT_EOK, with_timer x (clear_flag RT_TIMER_FLAG_ACTIVATED t) (_rt_timer_remove x s))
  end.

(** [rt_timer_detach] and [rt_timer_delete]: the timer is no object afterwards. *)
Definition rt_timer_detach (x : Z) (s : tstate) : option (Z * tstate) :=
  match timers s !! x with
  | None => None
  | Some t =>
      let s := _rt_timer_remove x s in
      Some (RT_EOK, TState (rt_tick s) (delete x (timers s)) (hard s) (soft s) (tmp s) (soft_tmp s) (soft_idle s) (suspended s) (fired s))
  end.

Inductive control := SetTime (time : Z) | GetTime | SetOneshot | SetPeriodic | GetState.

(** [rt_timer_control]: the value stored through [arg], if any. *)
Definition rt_timer_control (x : Z) (cmd : control) (s : tstate) : option (option Z * tstate) :=
  match timers s !! x with
  | None => None
  | Some t =>
      Some (match cmd with
            | SetTime time => (None, with_timer x (Timer (t_flag t) time (timeout_tick t)) s)
            | GetTime => (Some (init_tick t), s)
            | SetOneshot => (None, with_timer x (clear_flag RT_TIMER_FLAG_PERIODIC t) s)
            | SetPeriodic => (None, with_timer x (set_flag RT_TIMER_FLAG_PERIODIC t) s)
            | GetState => (Some (if has_flag RT_TIMER_FLAG_ACTIVATED t then RT_TIMER_FLAG_ACTIVATED else 0), s)
            end)
  end.

Definition rt_timer_list_next_timeout (s : tstate) (l : list Z) : Z :=
  match l with y :: _ => tick_of s y | [] => RT_TICK_MAX end.
Definition rt_timer_next_timeout_tick (s : tstate) : Z := rt_timer_list_next_timeout s (hard s).

(** A call a timeout function, or a thread, makes. *)
Inductive top := TStart (x : Z) | TStop (x : Z) | TControl (x : Z) (cmd : control).

Definition run_top (o : top) (s : tstate) : option tstate :=
  match o with
  | TStart x => option_map snd (rt_timer_start x s)
  | TStop x => option_map snd (rt_timer_stop x s)
  | TControl x cmd => option_map snd (rt_timer_control x cmd s)
  end.

Fixpoint run_tops (os : list top) (s : tstate) : option tstate :=
  match os with
  | [] => Some s
  | o :: r => match run_top o s with None => None | Some s => run_tops r s end
  end.

Section Timers.
(** The calls of the timeout function of each timer. *)
Context (timeout_func : Z -> list top).

(** The temporary list of a check of the soft, or the hard, timers. *)
Definition busy (soft : bool) (s : tstate) : list Z := if soft then soft_tmp s else tmp s.
Definition with_busy (soft : bool) (l : list Z) (s : tstate) : tstate :=
  if soft then with_soft_tmp l s else with_tmp l s.

(** After the timeout function of [t]: out of the temporary list and started
    again when it is periodic. *)
Definition after_timeout (soft : bool) (x : Z) (s : tstate) : option tstate :=
  match busy soft s with
  | [] => Some s
  | _ =>
      let s := _rt_timer_remove x s in
      match timers s !! x with
      | None => None
      | Some t =>
          if has_flag RT_TIMER_FLAG_PERIODIC t && has_flag RT_TIMER_FLAG_ACTIVATED t
          then option_map snd (rt_timer_start x (with_timer x (clear_flag RT_TIMER_FLAG_ACTIVATED t) s))
          else Some s
      end
  end.

(** Off its list, on the temporary one, and no longer active unless periodic. *)
Definition take_timer (soft : bool) (x : Z) (t : timer) (s : tstate) : tstate :=
  let s := _rt_timer_remove x s in
  let s := if has_flag RT_TIMER_FLAG_PERIODIC t then s
           else with_timer x (clear_flag RT_TIMER_FLAG_ACTIVATED t) s in
  with_busy soft (x :: busy soft s) s.

(** The loop of [rt_timer_check]. *)
Fixpoint check_loop (fuel : nat) (current_tick : Z) (s : tstate) : option tstate :=
  match fuel with
  | O => None
  | S k =>
      match hard s with
      | [] => Some s
      | x :: _ =>
          match timers s !! x with
          | None => None
          | Some t =>
              if current_tick -u32 timeout_tick t <? RT_TICK_MAX / 2 then
                match run_tops (timeout_func x) (call x (take_timer false x t s)) with
                | None => None
                | Some s =>
                    match after_timeout false x s with
                    | None => None
                    | Some s => check_loop k (rt_tick s) s
                    end
                end
              else Some s
          end
      end
  end.

(** A check can only start the loop again for a timer that is due. *)
Definition rt_timer_check (s : tstate) : option tstate := check_loop (S (length (hard s))) (rt_tick s) s.

(** The timer's part of [rt_tick_increase]. *)
Definition rt_tick_increase (s : tstate) : option tstate := rt_timer_check (with_tick (rt_tick s +u32 1) s).

(** What happens to the timers: a tick, or a call from a thread. *)
Inductive tevent := Tick | Op (o : top).

Definition run_event (e : tevent) (s : tstate) : option tstate :=
  match e with Tick => rt_tick_increase s | Op o => run_top o s end.

Fixpoint run_events (es : list tevent) (s : tstate) : option tstate :=
  match es with
  | [] => Some s
  | e :: r => match run_event e s with None => None | Some s => run_events r s end
  end.

(** The timer thread, one step between two points where it can be preempted.
    [TNext], [TDecide] and [TSleep] are [rt_thread_timer_entry] before the read
    of the next time-out, before the test of it and before the delay; [TCheck]
    is the head of the loop of [rt_soft_timer_check] and [TRun] a timeout
    function with the calls it still has to make. *)
Inductive tpc := TNext | TDecide (next_timeout : Z) | TSleep (delay : Z) | TCheck | TRun (x : Z) (os : list top).

(** [wake] is the time-out of the thread's own timer while it runs. *)
Record tsys := TSys { ts : tstate; pc : tpc; wake : option Z }.

Definition thread_step (y : tsys) : option tsys :=
  let 'TSys s p w := y in
  if suspended s then Some y else
  match p with
  | TNext => Some (TSys s (TDecide (rt_timer_list_next_timeout s (soft s))) w)
  | TDecide next_timeout =>
      Some (if next_timeout =? RT_TICK_MAX then TSys (with_suspended true s) TCheck None
            else if next_timeout -u32 rt_tick s <? RT_TICK_MAX / 2
                 then TSys s (TSleep (next_timeout -u32 rt_tick s)) w
                 else TSys s TCheck w)
  | TSleep d => Some (TSys (with_suspended true s) TCheck (Some (rt_tick s +u32 d)))
  | TCheck =>
      match soft s with
      | [] => Some (TSys s TNext w)
      | x :: _ =>
          match timers s !! x with
          | None => None
          | Some t =>
              Some (if rt_tick s -u32 timeout_tick t <? RT_TICK_MAX / 2
                    then TSys (call x (with_idle false (take_timer true x t s))) (TRun x (timeout_func x)) w
                    else TSys s TNext w)
          end
      end
  | TRun x (o :: os) => option_map (fun s => TSys s (TRun x os) w) (run_top o s)
  | TRun x [] => option_map (fun s => TSys s TCheck w) (after_timeout true x (with_idle true s))
  end.

(** The thread's timer stops when it is resumed, and resumes it when it is due. *)
Definition tick_wake (y : tsys) : tsys :=
  match wake y with
  | Some w => if suspended (ts y) && (rt_tick (ts y) -u32 w <? RT_TICK_MAX / 2)
              then TSys (with_suspended false (ts y)) (pc y) None else y
  | None => y
  end.

Definition sys_event (e : tevent) (y : tsys) : option tsys :=
  match run_event e (ts y) with
  | None => None
  | Some s =>
      let y := TSys s (pc y) (if suspended s then wake y else None) in
      Some (match e with Tick => tick_wake y | Op _ => y end)
  end.

(** [None] is a step of the timer thread. *)
Definition sys_step (e : option tevent) (y : tsys) : option tsys :=
  match e with None => thread_step y | Some e => sys_event e y end.

Fixpoint sys_run (es : list (option tevent)) (y : tsys) : option tsys :=
  match es with
  | [] => Some y
  | e :: r => match sys_step e y with None => None | Some y => sys_run r y end
  end.
End Timers.

(** [rt_system_timer_init] and [rt_system_timer_thread_init]. *)
Definition rt_system_timer_init (tick : Z) : tstate := TState tick ∅ [] [] [] [] true false [].
Definition rt_system_timer_thread_init (s : tstate) : tsys := TSys (with_soft [] s) TNext None.

(** The timers of the system: each with its time and its flags. *)
Definition timers_init (cfg : list (Z * (Z * Z))) (s : tstate) : tstate :=
  fold_left (fun s c => rt_timer_init (fst c) (fst (snd c)) (snd (snd c)) s) cfg s.

(* ------------------------------------------------------------------ *)
(** ** The queue of pending timers

    The abstraction of the hard list: the timers with the ticks they still
    have, in the order they are due. *)

Definition queue := list (Z * Z).
Definition LIMIT : Z := 2 ^ 31 - 2.

(** A timer with [n] ticks goes behind those due no later. *)
Fixpoint enqueue (x n : Z) (q : queue) : queue :=
  match q with
  | [] => [(x, n)]
  | (y, d) :: r => if d <=? n then (y, d) :: enqueue x n r else (x, n) :: (y, d) :: r
  end.

Definition dequeue (x : Z) (q : queue) : queue := List.filter (fun yd => negb (fst yd =? x)) q.

(** The timers due at once. *)
Definition due_now (q : queue) : nat := length (List.filter (fun yd => snd yd =? 0) q).

Abbreviation sorted := (StronglySorted (fun a b : Z * Z => snd a <= snd b)).

Lemma in_enqueue x n q e : In e (enqueue x n q) <-> e = (x, n) \/ In e q.
Proof.
  induction q as [|[y d] q IH]; cbn [enqueue In]; [intuition congruence|].
  destruct (d <=? n); cbn [In]; rewrite ?IH; intuition congruence.
Qed.

Lemma sorted_enqueue x n q : sorted q -> sorted (enqueue x n q).
Proof.
  induction 1 as [|[y d] q H IH F]; cbn [enqueue]; [repeat constructor|].
  destruct (Z.leb_spec d n) as [Hle|Hlt].
  - constructor; [done|]. apply List.Forall_forall. intros e [->|Hin]%in_enqueue; [done|].
    by apply (proj1 (List.Forall_forall _ _) F).
  - repeat constructor; try done; cbn [snd]; [lia|]. apply List.Forall_forall. intros e Hin.
    apply (proj1 (List.Forall_forall _ _) F) in Hin. cbn [snd] in *. lia.
Qed.

Lemma in_dequeue x q y d : In (y, d) (dequeue x q) <-> In (y, d) q /\ y <> x.
Proof.
  unfold dequeue. rewrite filter_In. cbn [fst]. rewrite negb_true_iff, Z.eqb_neq. done.
Qed.

Lemma sorted_filter (f : Z * Z -> bool) q : sorted q -> sorted (List.filter f q).
Proof.
  induction 1 as [|e q H IH F]; cbn [List.filter]; [constructor|]. destruct (f e); [|done].
  constructor; [done|]. apply List.Forall_forall. intros e' [Hin _]%filter_In.
  by apply (proj1 (List.Forall_forall _ _) F).
Qed.

Lemma unlink_map x q : unlink x (map fst q) = map fst (dequeue x q).
Proof.
  induction q as [|[y d] q IH]; [done|]. unfold unlink, dequeue in *. cbn [map List.filter fst].
  destruct (negb (y =? x)); cbn [map fst]; [by rewrite IH|done].
Qed.

Lemma dequeue_notin x q : ~ In x (map fst q) -> dequeue x q = q.
Proof.
  induction q as [|[y d] q IH]; [done|]. intros Hn. unfold dequeue in *. cbn [List.filter fst].
  rewrite (proj2 (Z.eqb_neq y x)) by (intros ->; apply Hn; by left). cbn [negb].
  f_equal. apply IH. intros Hin. apply Hn. by right.
Qed.

Lemma NoDup_dequeue x q : List.NoDup (map fst q) -> List.NoDup (map fst (dequeue x q)) /\ ~ In x (map fst (dequeue x q)).
Proof.
  intros H. rewrite <- unlink_map. split; [by apply List.NoDup_filter|].
  intros [_ Hn]%filter_In. rewrite Z.eqb_refl in Hn. done.
Qed.

Lemma NoDup_enqueue x n q : List.NoDup (map fst q) -> ~ In x (map fst q) -> List.NoDup (map fst (enqueue x n q)).
Proof.
  induction q as [|[y d] q IH]; cbn [enqueue map fst]; intros H Hn; [by repeat constructor|].
  inversion H as [|a l Hy Hq]; subst. cbn [In] in Hn. destruct (d <=? n); cbn [map fst].
  - constructor; [|apply IH; tauto]. intros ([z e] & E & Hin)%in_map_iff. cbn [fst] in E. subst z.
    apply in_enqueue in Hin as [[= -> _]|Hin]; [tauto|]. apply Hy. by apply (in_map fst _ (y, e)).
  - constructor; [cbn [In]; tauto|done].
Qed.

Lemma due_now_enqueue x n q : 1 <= n -> due_now (enqueue x n q) = due_now q.
Proof.
  intros Hn. unfold due_now. induction q as [|[y d] q IH]; cbn [enqueue List.filter snd length].
  - by rewrite (proj2 (Z.eqb_neq n 0)) by lia.
  - destruct (d <=? n); cbn [List.filter snd]; [destruct (d =? 0); cbn [length]; by rewrite IH|].
    by rewrite (proj2 (Z.eqb_neq n 0)) by lia.
Qed.

Lemma due_now_dequeue x q : (due_now (dequeue x q) <= due_now q)%nat.
Proof.
  unfold due_now, dequeue. induction q as [|[y d] q IH]; cbn [List.filter fst snd]; [lia|].
  destruct (negb (y =? x)); cbn [List.filter snd]; destruct (d =? 0); cbn [length]; lia.
Qed.

(* ------------------------------------------------------------------ *)
(** ** The invariant *)

Record tinv (ids : Z -> Prop) (lo : Z) (s : tstate) (q : queue) : Prop := {
  ti_hard : hard s = map fst q;
  ti_nodup : List.NoDup (map fst q);
  ti_sorted : sorted q;
  ti_due : forall y d, In (y, d) q -> lo <= d <= LIMIT /\ exists t, timers s !! y = Some t /\
    timeout_tick t = rt_tick s +u32 d /\ has_flag RT_TIMER_FLAG_SOFT_TIMER t = false;
  ti_in : forall y d, In (y, d) q -> ids y;
  ti_ids : forall x, ids x -> exists t, timers s !! x = Some t /\ 1 <= init_tick t <= LIMIT;
  ti_tick : is_u32 (rt_tick s) }.

Lemma u32_diff a d n : 0 <= d <= LIMIT -> 0 <= n <= LIMIT ->
  (a +u32 d) -u32 (a +u32 n) = if n <=? d then d - n else 2 ^ 32 + d - n.
Proof.
  unfold LIMIT, wrapu. intros Hd Hn. rewrite <- Zminus_mod. replace (a + d - (a + n)) with (d - n) by lia.
  destruct (Z.leb_spec n d); [apply Z.mod_small; lia|].
  rewrite <- (Z_mod_plus_full _ 1), Z.mod_small by lia. lia.
Qed.

(** Walking the row is inserting into the queue. *)
Lemma row_insert_spec tick (due : Z -> Z) x n q : 0 <= n <= LIMIT ->
  (forall y d, In (y, d) q -> 0 <= d <= LIMIT /\ due y = tick +u32 d) ->
  row_insert due x (tick +u32 n) (map fst q) = map fst (enqueue x n q).
Proof.
  intros Hn. induction q as [|[y d] q IH]; intros Hq; [done|]. cbn [map fst row_insert enqueue].
  destruct (Hq y d ltac:(by left)) as [Hd ->]. rewrite u32_diff by done. change (RT_TICK_MAX / 2) with (2 ^ 31 - 1).
  unfold LIMIT in *. destruct (Z.leb_spec n d), (Z.leb_spec d n); try lia.
  - rewrite (proj2 (Z.eqb_eq (d - n) 0)) by lia. cbn [map fst]. f_equal. apply IH. intros; apply Hq; by right.
  - rewrite (proj2 (Z.eqb_neq (d - n) 0)), (proj2 (Z.ltb_lt _ _)) by lia. done.
  - rewrite (proj2 (Z.eqb_neq _ 0)), (proj2 (Z.ltb_ge _ _)) by lia. cbn [map fst]. f_equal.
    apply IH. intros; apply Hq; by right.
Qed.

Lemma has_set f g t : has_flag f (set_flag g t) = tst (Z.lor (t_flag t) g) f.
Proof. done. Qed.

Lemma flag_set k j t : 0 <= k -> 0 <= j -> has_flag (2 ^ k) (set_flag (2 ^ j) t) = (has_flag (2 ^ k) t || (j =? k))%bool.
Proof.
  intros Hk Hj. unfold has_flag, set_flag, with_flag. cbn [t_flag].
  rewrite (tst_lor k) by done. f_equal. rewrite tst_bit by done. by apply Z.pow2_bits_eqb.
Qed.

Lemma flag_clear k j t : 0 <= k -> 0 <= j -> has_flag (2 ^ k) (clear_flag (2 ^ j) t) = (has_flag (2 ^ k) t && negb (j =? k))%bool.
Proof.
  intros Hk Hj. unfold has_flag, clear_flag, with_flag. cbn [t_flag].
  rewrite (tst_ldiff k) by done. do 2 f_equal. rewrite tst_bit by done. by apply Z.pow2_bits_eqb.
Qed.

Lemma periodic_clear t : has_flag RT_TIMER_FLAG_PERIODIC (clear_flag RT_TIMER_FLAG_ACTIVATED t) = has_flag RT_TIMER_FLAG_PERIODIC t.
Proof. rewrite (flag_clear 1 0) by done. apply andb_true_r. Qed.

Lemma soft_clear t : has_flag RT_TIMER_FLAG_SOFT_TIMER (clear_flag RT_TIMER_FLAG_ACTIVATED t) = has_flag RT_TIMER_FLAG_SOFT_TIMER t.
Proof. rewrite (flag_clear 2 0) by done. apply andb_true_r. Qed.

(* ------------------------------------------------------------------ *)
(** ** Every call keeps it *)

Definition top_timer (o : top) : Z :=
  match o with TStart x => x | TStop x => x | TControl x _ => x end.

(** Calls on timers, with times a timer may have. *)
Definition top_ok (ids : Z -> Prop) (o : top) : Prop :=
  ids (top_timer o) /\ match o with TControl _ (SetTime n) => 1 <= n <= LIMIT | _ => True end.

(** What calls that leave the timers [P] alone keep. *)
Record frame (P : Z -> Prop) (s s' : tstate) (q q' : queue) : Prop := {
  fr_tick : rt_tick s' = rt_tick s; fr_fired : fired s' = fired s;
  fr_due : (due_now q' <= due_now q)%nat;
  fr_timers : forall y, P y -> timers s' !! y = timers s !! y;
  fr_queue : forall y d, P y -> In (y, d) q' <-> In (y, d) q;
  fr_tmp : forall y, P y -> In y (tmp s') <-> In y (tmp s);
  fr_tmp1 : forall x, tmp s = [x] -> tmp s' = [x] \/ tmp s' = [];
  fr_tmp0 : tmp s = [] -> tmp s' = [] }.

Lemma frame_refl P s q : frame P s s q q.
Proof. split; try done. intros x ->. by left. Qed.

Lemma frame_trans P s1 s2 s3 q1 q2 q3 : frame P s1 s2 q1 q2 -> frame P s2 s3 q2 q3 -> frame P s1 s3 q1 q3.
Proof.
  intros [A1 A2 A3 A4 A5 A6 A7 A8] [B1 B2 B3 B4 B5 B6 B7 B8]. split; try congruence; try lia.
  - intros y Hy. by rewrite B4, A4.
  - intros y d Hy. by rewrite B5, A5.
  - intros y Hy. by rewrite B6, A6.
  - intros x Hx. destruct (A7 x Hx) as [E|E]; [by apply B7|right; by apply B8].
  - auto.
Qed.

Lemma frame_weaken (P Q : Z -> Prop) s s' q q' : (forall y, Q y -> P y) -> frame P s s' q q' -> frame Q s s' q q'.
Proof. intros H []. split; auto. Qed.

Lemma unlink_single x z : unlink z [x] = [x] \/ unlink z [x] = [].
Proof. unfold unlink. cbn. destruct (negb (x =? z)); auto. Qed.

(** The frame of a call that takes [z] off its lists and changes it. *)
Lemma frame_unlink z s s' q q' : rt_tick s' = rt_tick s -> fired s' = fired s -> (due_now q' <= due_now q)%nat ->
  (forall y, y <> z -> timers s' !! y = timers s !! y) ->
  (forall y d, y <> z -> In (y, d) q' <-> In (y, d) q) ->
  tmp s' = tmp s \/ tmp s' = unlink z (tmp s) -> frame (fun y => y <> z) s s' q q'.
Proof.
  intros H1 H2 H3 H4 H5 H6. split; try done.
  - intros y Hy. destruct H6 as [->| ->]; [done|]. rewrite in_unlink. tauto.
  - intros x Hx. rewrite Hx in H6. destruct H6 as [->| ->]; [by left|apply unlink_single].
  - intros Hx. rewrite Hx in H6. by destruct H6 as [->| ->].
Qed.

Section Ops.
Context (ids : Z -> Prop) (lo : Z) (Hlo : 0 <= lo <= 1).

Lemma tinv_in s q y : tinv ids lo s q -> In y (hard s) -> exists d, In (y, d) q.
Proof.
  intros [H _ _ _ _ _ _]. rewrite H. intros ([z d] & <- & Hin)%in_map_iff. by exists d.
Qed.

(** A timer whose fields other than its time-out change. *)
Lemma tinv_with_timer s q x t : tinv ids lo s q ->
  (forall d, In (x, d) q -> timeout_tick t = rt_tick s +u32 d /\ has_flag RT_TIMER_FLAG_SOFT_TIMER t = false) ->
  (ids x -> 1 <= init_tick t <= LIMIT) -> tinv ids lo (with_timer x t s) q.
Proof.
  intros [H1 H2 H3 H4 Hin5 H5 H6] Hd Hi. split; try done; cbn [timers with_timer rt_tick].
  - intros y d Hin. destruct (H4 y d Hin) as [Hr Ht]. split; [done|].
    destruct (decide (y = x)) as [->|Hne]; [|by rewrite lookup_insert_ne].
    rewrite lookup_insert_eq. exists t. split; [done|]. by apply Hd.
  - intros y Hy. destruct (decide (y = x)) as [->|Hne]; [|rewrite lookup_insert_ne; auto].
    rewrite lookup_insert_eq. exists t. auto.
Qed.

Lemma tinv_remove s q x : tinv ids lo s q -> tinv ids lo (_rt_timer_remove x s) (dequeue x q).
Proof.
  intros [H1 H2 H3 H4 Hn5 H5 H6]. split; try done; cbn [hard _rt_timer_remove with_hard].
  - by rewrite H1, unlink_map.
  - by apply NoDup_dequeue.
  - by apply sorted_filter.
  - intros y d [Hin _]%in_dequeue. by apply H4.
  - intros y d [Hin _]%in_dequeue. by eapply Hn5.
Qed.

(** A started timer: its flags, its period, its time-out. *)
Definition started (tick : Z) (t : timer) : timer :=
  set_flag RT_TIMER_FLAG_ACTIVATED
    (Timer (t_flag (clear_flag RT_TIMER_FLAG_ACTIVATED t)) (init_tick t) (tick +u32 init_tick t)).

Lemma started_flags tick t :
  has_flag RT_TIMER_FLAG_ACTIVATED (started tick t) = true /\
  has_flag RT_TIMER_FLAG_PERIODIC (started tick t) = has_flag RT_TIMER_FLAG_PERIODIC t /\
  has_flag RT_TIMER_FLAG_SOFT_TIMER (started tick t) = has_flag RT_TIMER_FLAG_SOFT_TIMER t.
Proof.
  unfold started. set (t1 := Timer _ _ _).
  assert (forall f, has_flag f t1 = has_flag f (clear_flag RT_TIMER_FLAG_ACTIVATED t)) as E by done.
  split_and!.
  - rewrite (flag_set 0 0) by done. apply orb_true_r.
  - rewrite (flag_set 1 0), orb_false_r, E, (flag_clear 1 0), andb_true_r by done. done.
  - rewrite (flag_set 2 0), orb_false_r, E, (flag_clear 2 0), andb_true_r by done. done.
Qed.

Lemma start_spec s q x t : tinv ids lo s q -> ids x -> timers s !! x = Some t -> 1 <= init_tick t <= LIMIT ->
  let q' := if has_flag RT_TIMER_FLAG_SOFT_TIMER t then dequeue x q else enqueue x (init_tick t) (dequeue x q) in
  exists s', rt_timer_start x s = Some (RT_EOK, s') /\ tinv ids lo s' q' /\
    timers s' = <[x := started (rt_tick s) t]> (timers s) /\ tmp s' = unlink x (tmp s) /\
    rt_tick s' = rt_tick s /\ fired s' = fired s /\ soft_idle s' = soft_idle s.
Proof.
  intros Hi Hx Ht Hn q'. pose proof (tinv_remove s q x Hi) as Hr. unfold rt_timer_start. rewrite Ht.
  change (init_tick (clear_flag RT_TIMER_FLAG_ACTIVATED t)) with (init_tick t).
  rewrite (proj2 (Z.ltb_lt _ _)) by (unfold LIMIT in Hn; change (RT_TICK_MAX / 2) with (2 ^ 31 - 1); lia).
  set (s1 := _rt_timer_remove x s) in *. set (n := init_tick t) in *.
  assert (has_flag RT_TIMER_FLAG_SOFT_TIMER (clear_flag RT_TIMER_FLAG_ACTIVATED t) = has_flag RT_TIMER_FLAG_SOFT_TIMER t) as ->
    by apply soft_clear.
  set (s2 := if has_flag RT_TIMER_FLAG_SOFT_TIMER t then _ else _).
  change (set_flag RT_TIMER_FLAG_ACTIVATED _) with (started (rt_tick s) t).
  destruct (started_flags (rt_tick s) t) as (_ & _ & Fs).
  assert (tinv ids lo (with_timer x (started (rt_tick s) t) s2) q') as Hi'.
  { pose proof Hr as [R1 R2 R3 R4 Ri R5 R6]. unfold s2, q'. destruct (has_flag RT_TIMER_FLAG_SOFT_TIMER t) eqn:Es.
    - apply tinv_with_timer; [by split|intros d [_ Hne]%in_dequeue; done|done].
    - change (rt_tick s1) with (rt_tick s). rewrite R1, row_insert_spec with (q := dequeue x q).
      + destruct (NoDup_dequeue x q (ti_nodup _ _ _ _ Hi)) as [_ Hxq].
        split; try done; cbn [hard with_timer with_hard timers rt_tick].
        * by apply NoDup_enqueue.
        * by apply sorted_enqueue.
        * intros y d [[= -> ->]|Hin]%in_enqueue.
          -- split; [lia|]. rewrite lookup_insert_eq. by eexists.
          -- destruct (R4 y d Hin) as [Hd Ht']. split; [done|]. rewrite lookup_insert_ne; [done|].
             intros ->. by apply in_dequeue in Hin as [_ ?].
        * intros y d [[= -> ->]|Hin]%in_enqueue; [done|by eapply Ri].
        * intros y Hy. destruct (decide (y = x)) as [->|Hne]; [|rewrite lookup_insert_ne; auto].
          rewrite lookup_insert_eq. by eexists.
      + unfold n. lia.
      + intros y d Hin. destruct (R4 y d Hin) as [Hd (t' & Et & Eo & _)]. split; [lia|].
        unfold tick_of. by rewrite Et, Eo. }
  eexists. split; [reflexivity|].
  assert (rt_tick s2 = rt_tick s /\ timers s2 = timers s /\ tmp s2 = unlink x (tmp s) /\ fired s2 = fired s /\ soft_idle s2 = soft_idle s)
    as (E1 & E2 & E3 & E4 & E5) by (unfold s2; by destruct (has_flag _ _)).
  destruct (_ && _ && _); (split; [destruct Hi' as [? ? ? ? ? ? ?]; by split|]); cbn; rewrite ?E1, ?E2, ?E3, ?E4, ?E5; done.
Qed.

Lemma run_top_spec s q o : tinv ids lo s q -> top_ok ids o ->
  exists s' q', run_top o s = Some s' /\ tinv ids lo s' q' /\ frame (fun y => y <> top_timer o) s s' q q'.
Proof.
  intros Hi [Hx Hv]. destruct (ti_ids _ _ _ _ Hi _ Hx) as (t & Ht & Hn).
  destruct o as [x|x|x cmd]; cbn [top_timer run_top] in *.
  - destruct (start_spec s q x t Hi Hx Ht Hn) as (s' & E & Hi' & E1 & E2 & E3 & E4 & _). rewrite E.
    eexists s', _. split; [done|]. split; [exact Hi'|]. apply frame_unlink; auto.
    + pose proof (due_now_dequeue x q). destruct (has_flag _ _); [done|]. by rewrite due_now_enqueue by lia.
    + intros y Hy. by rewrite E1, lookup_insert_ne.
    + intros y d Hy. destruct (has_flag _ _); rewrite ?in_enqueue, in_dequeue; intuition congruence.
  - unfold rt_timer_stop. rewrite Ht. destruct (negb _); cbn [option_map snd].
    + exists s, q. split_and!; try done. apply frame_refl.
    + eexists _, (dequeue x q). split; [done|]. split.
      * apply tinv_with_timer; [by apply tinv_remove|intros d [_ ?]%in_dequeue; done|done].
      * apply frame_unlink; try done; auto.
        -- apply due_now_dequeue.
        -- intros y Hy. cbn. by rewrite lookup_insert_ne.
        -- intros y d Hy. rewrite in_dequeue. tauto.
  - unfold rt_timer_control. rewrite Ht. cbn [option_map snd].
    assert (forall t', timeout_tick t' = timeout_tick t ->
      has_flag RT_TIMER_FLAG_SOFT_TIMER t' = has_flag RT_TIMER_FLAG_SOFT_TIMER t -> 1 <= init_tick t' <= LIMIT ->
      tinv ids lo (with_timer x t' s) q /\ frame (fun y => y <> x) s (with_timer x t' s) q q) as Hset.
    { intros t' Eo Es En. split.
      - apply tinv_with_timer; [done| |done]. intros d Hd. destruct (ti_due _ _ _ _ Hi x d Hd) as (_ & t0 & E0 & H0).
        rewrite Ht in E0. injection E0 as <-. by rewrite Eo, Es.
      - apply frame_unlink; try done; auto. intros y Hy. cbn. by rewrite lookup_insert_ne. }
    destruct cmd; cbn [snd].
    + eexists _, q. split; [done|]. by apply Hset.
    + exists s, q. split_and!; try done. apply frame_refl.
    + eexists _, q. split; [done|]. apply Hset; [done| |done]. by rewrite (flag_clear 2 1), andb_true_r.
    + eexists _, q. split; [done|]. apply Hset; [done| |done]. by rewrite (flag_set 2 1), orb_false_r.
    + exists s, q. split_and!; try done. apply frame_refl.
Qed.

Lemma run_tops_spec os : forall s q, tinv ids lo s q -> Forall (top_ok ids) os ->
  exists s' q', run_tops os s = Some s' /\ tinv ids lo s' q' /\
    frame (fun y => Forall (fun o => top_timer o <> y) os) s s' q q'.
Proof.
  induction os as [|o os IH]; intros s q Hi Hos; cbn [run_tops].
  - exists s, q. split_and!; try done. apply frame_refl.
  - apply Forall_cons in Hos as [Ho Hos]. destruct (run_top_spec s q o Hi Ho) as (s1 & q1 & -> & Hi1 & F1).
    destruct (IH s1 q1 Hi1 Hos) as (s2 & q2 & -> & Hi2 & F2). exists s2, q2. split_and!; try done.
    eapply frame_trans; [eapply frame_weaken; [|exact F1]|eapply frame_weaken; [|exact F2]].
    + intros y Hy. apply Forall_cons in Hy as [Hy _]. congruence.
    + intros y Hy. by apply Forall_cons in Hy as [_ Hy].
Qed.
End Ops.

(* ------------------------------------------------------------------ *)
(** ** A check fires the timers that are due, and only those *)

Definition fired_of (y : Z) (s : tstate) : list (Z * Z) := List.filter (fun e => fst e =? y) (fired s).

(** The lists of a check: the lowest remaining time rises from 0 to 1. *)
Lemma tinv_raise ids s q : tinv ids 0 s q -> (forall y, ~ In (y, 0) q) -> tinv ids 1 s q.
Proof.
  intros [H1 H2 H3 H4 Hn5 H5 H6] Hz. split; try done. intros y d Hin. destruct (H4 y d Hin) as [Hd Ht].
  split; [|done]. destruct (Z.eq_dec d 0) as [->|]; [by destruct (Hz y)|lia].
Qed.

Lemma due_now_cons x q : due_now ((x, 0) :: q) = S (due_now q).
Proof. done. Qed.

Section Check.
Context (ids : Z -> Prop) (timeout_func : Z -> list top)
        (Hcb : forall x, Forall (top_ok ids) (timeout_func x)).

(** The timer [y] is left alone by every timeout function. *)
Definition untouched (y : Z) : Prop := forall x, Forall (fun o => top_timer o <> y) (timeout_func x).

Lemma take_spec s q x t : tinv ids 0 s ((x, 0) :: q) -> timers s !! x = Some t -> ids x -> tmp s = [] ->
  let s1 := call x (take_timer false x t s) in
  tinv ids 0 s1 q /\ tmp s1 = [x] /\ rt_tick s1 = rt_tick s /\ fired s1 = fired s ++ [(x, rt_tick s)] /\
  timers s1 = (if has_flag RT_TIMER_FLAG_PERIODIC t then timers s
               else <[x := clear_flag RT_TIMER_FLAG_ACTIVATED t]> (timers s)).
Proof.
  intros Hi Ht Hx Htmp s1. pose proof (tinv_remove ids 0 s _ x Hi) as Hr.
  pose proof (ti_nodup _ _ _ _ Hi) as N. cbn [map fst] in N. inversion N as [|a l Hnx Nq]; subst a l.
  assert (dequeue x ((x, 0) :: q) = q) as Eq.
  { unfold dequeue. cbn [List.filter fst]. rewrite Z.eqb_refl. by apply dequeue_notin. }
  rewrite Eq in Hr.
  assert (tinv ids 0 (if has_flag RT_TIMER_FLAG_PERIODIC t then _rt_timer_remove x s
    else with_timer x (clear_flag RT_TIMER_FLAG_ACTIVATED t) (_rt_timer_remove x s)) q) as Hi1.
  { destruct (has_flag _ t); [done|]. apply tinv_with_timer; [done| |].
    - intros d Hd. destruct Hnx. by apply (in_map fst _ (x, d)).
    - intros _. destruct (ti_ids _ _ _ _ Hi x Hx) as (t' & Et & Hn). rewrite Ht in Et. by injection Et as <-. }
  unfold s1, take_timer. split_and!.
  - destruct (has_flag _ t); destruct Hi1 as [? ? ? ? ? ? ?]; by split.
  - destruct (has_flag _ t); cbn; by rewrite Htmp.
  - by destruct (has_flag _ t).
  - by destruct (has_flag _ t).
  - by destruct (has_flag _ t).
Qed.

(** The timers another one's turn leaves alone. *)
Definition alone (y : Z) (s s' : tstate) (q q' : queue) : Prop :=
  timers s' !! y = timers s !! y /\ fired_of y s' = fired_of y s /\ forall d, In (y, d) q' <-> In (y, d) q.

(** What a turn does to its own timer. *)
Definition turned (x : Z) (t : timer) (s s' : tstate) (q' : queue) : Prop :=
  fired_of x s' = fired_of x s ++ [(x, rt_tick s)] /\
  if has_flag RT_TIMER_FLAG_PERIODIC t && has_flag RT_TIMER_FLAG_ACTIVATED t
  then In (x, init_tick t) q' /\ timers s' !! x = Some (started (rt_tick s) (clear_flag RT_TIMER_FLAG_ACTIVATED t))
  else (forall d, ~ In (x, d) q') /\
       timers s' !! x = Some (if has_flag RT_TIMER_FLAG_PERIODIC t then t else clear_flag RT_TIMER_FLAG_ACTIVATED t).

Lemma fired_snoc y x k s : List.filter (fun e => fst e =? y) (fired s ++ [(x, k)])
  = fired_of y s ++ (if x =? y then [(x, k)] else []).
Proof. unfold fired_of. rewrite List.filter_app. cbn. by destruct (x =? y). Qed.

Lemma turn_spec s q x t : tinv ids 0 s ((x, 0) :: q) -> timers s !! x = Some t -> ids x -> tmp s = [] ->
  exists s2 s' q', run_tops (timeout_func x) (call x (take_timer false x t s)) = Some s2 /\
    after_timeout false x s2 = Some s' /\ tinv ids 0 s' q' /\ rt_tick s' = rt_tick s /\ tmp s' = [] /\
    (due_now q' <= due_now q)%nat /\
    (forall y, y <> x -> untouched y -> alone y s s' ((x, 0) :: q) q') /\
    (untouched x -> turned x t s s' q').
Proof.
  intros Hi Ht Hx Htmp. destruct (take_spec s q x t Hi Ht Hx Htmp) as (Hi1 & T1 & K1 & F1 & M1).
  set (s1 := call x (take_timer false x t s)) in *.
  pose proof (ti_nodup _ _ _ _ Hi) as N. cbn [map fst] in N. inversion N as [|a l Hnx Nq]; subst a l.
  destruct (run_tops_spec ids 0 ltac:(lia) (timeout_func x) s1 q Hi1 (Hcb x)) as (s2 & q2 & E2 & Hi2 & Fr).
  exists s2. pose proof Fr as [G1 G2 G3 G4 G5 G6 G7 G8].
  assert (forall y, y <> x -> timers s1 !! y = timers s !! y) as M1'.
  { intros y Hy. rewrite M1. destruct (has_flag _ t); [done|]. by rewrite lookup_insert_ne. }
  assert (forall y, fired_of y s2 = fired_of y s ++ (if x =? y then [(x, rt_tick s)] else [])) as Fo
    by (intros y; unfold fired_of at 1; by rewrite G2, F1, fired_snoc).
  assert (forall y, y <> x -> untouched y -> alone y s s2 ((x, 0) :: q) q2) as Al2.
  { intros y Hy Hu. split_and!.
    - by rewrite G4, M1'.
    - by rewrite Fo, (proj2 (Z.eqb_neq x y)), app_nil_r by congruence.
    - intros d. rewrite G5 by done. cbn [In]. intuition congruence. }
  destruct (G7 x T1) as [T2|T2].
  2: { exists s2, q2. unfold after_timeout, busy. rewrite T2. split_and!; try done; [congruence|].
       intros Hu. assert (In x (tmp s2)) as Hin by (apply G6; [done|rewrite T1; by left]). by rewrite T2 in Hin. }
  unfold after_timeout, busy. rewrite T2. pose proof (tinv_remove ids 0 s2 q2 x Hi2) as Hr2.
  set (s3 := _rt_timer_remove x s2) in *.
  destruct (ti_ids _ _ _ _ Hi2 x Hx) as (t2 & Et2 & Hn2). change (timers s3) with (timers s2). rewrite Et2.
  assert (tmp s3 = []) as T3 by (change (unlink x (tmp s2) = []); rewrite T2; unfold unlink; cbn; by rewrite Z.eqb_refl).
  assert (untouched x -> t2 = if has_flag RT_TIMER_FLAG_PERIODIC t then t else clear_flag RT_TIMER_FLAG_ACTIVATED t) as Et.
  { intros Hu. rewrite G4, M1 in Et2 by done. destruct (has_flag _ t); [congruence|].
    rewrite lookup_insert_eq in Et2. by injection Et2 as <-. }
  destruct (has_flag RT_TIMER_FLAG_PERIODIC t2 && has_flag RT_TIMER_FLAG_ACTIVATED t2) eqn:Eflags.
  - set (s4 := with_timer x (clear_flag RT_TIMER_FLAG_ACTIVATED t2) s3).
    assert (tinv ids 0 s4 (dequeue x q2)) as Hi4 by (apply tinv_with_timer; [done|intros d [_ ?]%in_dequeue; done|done]).
    assert (timers s4 !! x = Some (clear_flag RT_TIMER_FLAG_ACTIVATED t2)) as Et4 by (cbn; by rewrite lookup_insert_eq).
    destruct (start_spec ids 0 ltac:(lia) s4 _ x _ Hi4 Hx Et4 Hn2) as (s' & E & Hi' & H1 & H2 & H3 & H4 & _).
    rewrite E. cbn [option_map snd]. rewrite (dequeue_notin x (dequeue x q2)) in Hi'
      by (apply NoDup_dequeue; apply (ti_nodup _ _ _ _ Hi2)).
    change (init_tick (clear_flag RT_TIMER_FLAG_ACTIVATED t2)) with (init_tick t2) in *.
    assert (has_flag RT_TIMER_FLAG_SOFT_TIMER (clear_flag RT_TIMER_FLAG_ACTIVATED t2) = has_flag RT_TIMER_FLAG_SOFT_TIMER t2) as Es
      by apply soft_clear.
    rewrite Es in Hi'. pose proof (due_now_dequeue x q2) as Hdd.
    eexists s', _. split_and!; [done|done|exact Hi'|rewrite H3; change (rt_tick s4) with (rt_tick s2); congruence| | | |].
    + rewrite H2. change (unlink x (tmp s3) = []). by rewrite T3.
    + destruct (has_flag RT_TIMER_FLAG_SOFT_TIMER t2); [lia|]. rewrite due_now_enqueue by lia. lia.
    + intros y Hy Hu. destruct (Al2 y Hy Hu) as (A1 & A2 & A3). split_and!.
      * rewrite H1, lookup_insert_ne by done. cbn. by rewrite lookup_insert_ne.
      * unfold fired_of. by rewrite H4.
      * intros d. rewrite <- A3. destruct (has_flag RT_TIMER_FLAG_SOFT_TIMER t2);
          rewrite ?in_enqueue, in_dequeue; intuition congruence.
    + intros Hu. specialize (Et Hu). assert (has_flag RT_TIMER_FLAG_PERIODIC t = true) as Ep.
      { rewrite Et in Eflags. destruct (has_flag RT_TIMER_FLAG_PERIODIC t) eqn:Ep; [done|].
        by rewrite periodic_clear, Ep in Eflags. }
      rewrite Ep in Et. subst t2. split.
      * unfold fired_of at 1. rewrite H4. change (fired_of x s2 = fired_of x s ++ [(x, rt_tick s)]). by rewrite Fo, Z.eqb_refl.
      * rewrite Eflags, H1, lookup_insert_eq. change (rt_tick s4) with (rt_tick s2). rewrite G1, K1. split; [|done].
        assert (has_flag RT_TIMER_FLAG_SOFT_TIMER t = false) as ->.
        { destruct (ti_due _ _ _ _ Hi x 0 ltac:(by left)) as (_ & t' & Et' & _ & ?). rewrite Ht in Et'. by injection Et' as <-. }
        apply in_enqueue. by left.
  - exists s3, (dequeue x q2). pose proof (due_now_dequeue x q2). split_and!; try done; [change (rt_tick s2 = rt_tick s); congruence|lia| |].
    + intros y Hy Hu. destruct (Al2 y Hy Hu) as (A1 & A2 & A3). split_and!; [done|done|].
      intros d. rewrite in_dequeue, A3. tauto.
    + intros Hu. specialize (Et Hu). split; [change (fired_of x s2 = fired_of x s ++ [(x, rt_tick s)]); by rewrite Fo, Z.eqb_refl|].
      assert (has_flag RT_TIMER_FLAG_PERIODIC t && has_flag RT_TIMER_FLAG_ACTIVATED t = false) as ->.
      { rewrite Et in Eflags. destruct (has_flag RT_TIMER_FLAG_PERIODIC t) eqn:Ep; [by rewrite Ep in Eflags|done]. }
      split; [intros d [_ ?]%in_dequeue; done|]. change (timers s2 !! x = Some (if has_flag RT_TIMER_FLAG_PERIODIC t then t else clear_flag RT_TIMER_FLAG_ACTIVATED t)).
      by rewrite Et2, Et.
Qed.

(** What a check does to a timer no timeout function touches. *)
Record checked (y : Z) (t : timer) (s s' : tstate) (q q' : queue) : Prop := {
  ck_later : forall d, In (y, d) q -> d <> 0 ->
    In (y, d) q' /\ timers s' !! y = Some t /\ fired_of y s' = fired_of y s;
  ck_idle : (forall d, ~ In (y, d) q) ->
    (forall d, ~ In (y, d) q') /\ timers s' !! y = Some t /\ fired_of y s' = fired_of y s;
  ck_due : In (y, 0) q -> turned y t s s' q' }.

Lemma check_loop_spec :
  forall fuel s q, tinv ids 0 s q -> tmp s = [] -> (due_now q < fuel)%nat ->
  exists s' q', check_loop timeout_func fuel (rt_tick s) s = Some s' /\ tinv ids 1 s' q' /\
    rt_tick s' = rt_tick s /\ tmp s' = [] /\
    forall y t, untouched y -> timers s !! y = Some t -> checked y t s s' q q'.
Proof.
  induction fuel as [|k IH]; intros s q Hi Htmp Hf; [lia|]. cbn [check_loop]. pose proof (ti_hard _ _ _ _ Hi) as Hh.
  destruct q as [|[x d] q]; cbn [map fst] in Hh; rewrite Hh.
  { exists s, []. split_and!; try done. apply tinv_raise; [done|intros ? []]. }
  destruct (ti_due _ _ _ _ Hi x d ltac:(by left)) as (Hd & t & Et & Eo & Es). rewrite Et, Eo.
  pose proof (ti_tick _ _ _ _ Hi) as Hk.
  assert (rt_tick s = rt_tick s +u32 0) as Ek by (by rewrite Z.add_0_r, u32_small).
  assert (rt_tick s -u32 (rt_tick s +u32 d) = if d <=? 0 then 0 - d else 2 ^ 32 + 0 - d) as Ediff.
  { rewrite Ek at 1. apply u32_diff; unfold LIMIT in *; lia. }
  destruct (Z.eq_dec d 0) as [->|Hne].
  - rewrite Ediff. cbn [Z.leb Z.compare Z.ltb]. change (0 - 0 <? RT_TICK_MAX / 2) with true. cbn iota.
    assert (ids x) as Hx by (eapply (ti_in _ _ _ _ Hi); by left).
    destruct (turn_spec s q x t Hi Et Hx Htmp) as (s2 & s3 & q3 & -> & -> & Hi3 & K3 & T3 & D3 & Al & Tu).
    rewrite due_now_cons in Hf. destruct (IH s3 q3 Hi3 T3 ltac:(lia)) as (s' & q' & E & Hi' & K' & T' & Ck).
    exists s', q'. split_and!; [done|done|congruence|done|].
    intros y ty Hu Ety. pose proof (ti_nodup _ _ _ _ Hi) as N. cbn [map fst] in N. inversion N as [|a l Hnx Nq]; subst a l.
    destruct (decide (y = x)) as [->|Hyx].
    + rewrite Et in Ety. injection Ety as <-. specialize (Tu Hu). split.
      * intros e [[= <-]|Hin] He; [done|]. destruct Hnx. by apply (in_map fst _ (x, e)).
      * intros Hno. by destruct (Hno 0); left.
      * intros _. destruct Tu as [F Tu]. split.
        -- destruct (has_flag _ _ && has_flag _ _).
           ++ destruct Tu as [Hin Hl]. destruct (ck_later _ _ _ _ _ _ (Ck x _ Hu Hl) (init_tick t) Hin) as (_ & _ & ->); [|done].
              destruct (ti_ids _ _ _ _ Hi x Hx) as (t' & Et' & ?). rewrite Et in Et'. injection Et' as <-. lia.
           ++ destruct Tu as [Hno Hl]. by destruct (ck_idle _ _ _ _ _ _ (Ck x _ Hu Hl) Hno) as (_ & _ & ->).
        -- destruct (has_flag _ _ && has_flag _ _).
           ++ destruct Tu as [Hin Hl]. destruct (ck_later _ _ _ _ _ _ (Ck x _ Hu Hl) (init_tick t) Hin) as (H1 & H2 & _); [|done].
              destruct (ti_ids _ _ _ _ Hi x Hx) as (t' & Et' & ?). rewrite Et in Et'. injection Et' as <-. lia.
           ++ destruct Tu as [Hno Hl]. destruct (ck_idle _ _ _ _ _ _ (Ck x _ Hu Hl) Hno) as (H1 & H2 & _). done.
    + destruct (Al y Hyx Hu) as (A1 & A2 & A3). rewrite Ety in A1. destruct (Ck y ty Hu A1) as [C1 C2 C3]. split.
      * intros e He Hne. rewrite <- A2. apply C1; [by apply A3|done].
      * intros Hno. rewrite <- A2. apply C2. intros e He. by apply (Hno e), A3.
      * intros Hin. apply A3 in Hin. specialize (C3 Hin). unfold turned in *. by rewrite A2, K3 in C3.
  - rewrite Ediff. rewrite (proj2 (Z.leb_gt d 0)) by lia. change (RT_TICK_MAX / 2) with (2 ^ 31 - 1).
    rewrite (proj2 (Z.ltb_ge _ _)) by (unfold LIMIT in *; lia).
    assert (forall y, ~ In (y, 0) ((x, d) :: q)) as Hz.
    { intros y [[= _ ->]|Hin]; [done|]. pose proof (ti_sorted _ _ _ _ Hi) as S. inversion S as [|e l _ F]; subst.
      apply (proj1 (List.Forall_forall _ _) F) in Hin. cbn [snd] in Hin. lia. }
    exists s, ((x, d) :: q). split_and!; try done; [by apply tinv_raise|]. intros y ty Hu Ety.
    split; [done|done|]. intros Hin. by destruct (Hz y).
Qed.

Lemma due_now_le q : (due_now q <= length q)%nat.
Proof.
  unfold due_now. induction q as [|[y d] q IH]; cbn [List.filter snd length]; [lia|].
  destruct (d =? 0); cbn [length]; lia.
Qed.

(** The remaining times of the queue after a tick. *)
Definition elapse (q : queue) : queue := map (fun yd => (fst yd, snd yd - 1)) q.

Lemma in_elapse y d q : In (y, d) (elapse q) <-> In (y, d + 1) q.
Proof.
  unfold elapse. rewrite in_map_iff. split.
  - intros ([z e] & [= <- <-] & Hin). cbn [fst snd] in *. by rewrite Z.sub_add.
  - intros Hin. exists (y, d + 1). cbn [fst snd]. split; [f_equal; lia|done].
Qed.

Lemma tinv_tick s q : tinv ids 1 s q -> tinv ids 0 (with_tick (rt_tick s +u32 1) s) (elapse q).
Proof.
  intros [H1 H2 H3 H4 Hn5 H5 H6]. assert (map fst (elapse q) = map fst q) as Em by (unfold elapse; rewrite map_map; done).
  split; cbn [hard with_tick timers rt_tick]; try done.
  - by rewrite Em.
  - by rewrite Em.
  - clear - H3. induction H3 as [|e q H IH F]; [constructor|]. cbn [elapse map]. constructor; [done|].
    apply List.Forall_forall. intros [z c] Hin. apply (in_elapse z c q) in Hin.
    apply (proj1 (List.Forall_forall _ _) F) in Hin. cbn [snd] in *. lia.
  - intros y d Hin. apply in_elapse in Hin. destruct (H4 y _ Hin) as (Hd & t & Et & Eo & Es). split; [lia|].
    exists t. split_and!; try done. rewrite Eo. unfold wrapu. rewrite Zplus_mod_idemp_l. f_equal. lia.
  - intros y d Hin%in_elapse. by eapply Hn5.
  - apply wrapu_range. lia.
Qed.

Lemma tick_spec s q : tinv ids 1 s q -> tmp s = [] ->
  exists s' q', rt_tick_increase timeout_func s = Some s' /\ tinv ids 1 s' q' /\ tmp s' = [] /\
    rt_tick s' = rt_tick s +u32 1 /\
    forall y t, untouched y -> timers s !! y = Some t -> checked y t (with_tick (rt_tick s +u32 1) s) s' (elapse q) q'.
Proof.
  intros Hi Ht. pose proof (tinv_tick s q Hi) as Hi0. unfold rt_tick_increase, rt_timer_check.
  set (s0 := with_tick _ s) in *.
  destruct (check_loop_spec (S (length (hard s0))) s0 (elapse q) Hi0 Ht) as (s' & q' & E & Hi' & K & T & Ck).
  { rewrite (ti_hard _ _ _ _ Hi0), length_map. pose proof (due_now_le (elapse q)). lia. }
  exists s', q'. split_and!; try done.
Qed.

Definition event_ok (e : tevent) : Prop := match e with Op o => top_ok ids o | Tick => True end.
Definition event_spares (x : Z) (e : tevent) : Prop := match e with Op o => top_timer o <> x | Tick => True end.

(** Ticks and calls run: no assertion fails, every check ends. *)
Lemma events_run es : Forall event_ok es -> forall s q, tinv ids 1 s q -> tmp s = [] ->
  exists s' q', run_events timeout_func es s = Some s' /\ tinv ids 1 s' q' /\ tmp s' = [].
Proof.
  induction 1 as [|e es He _ IH]; intros s q Hi Ht; cbn [run_events]; [by exists s, q|].
  destruct e as [|o]; cbn [run_event].
  - destruct (tick_spec s q Hi Ht) as (s1 & q1 & -> & Hi1 & T1 & _). by apply (IH s1 q1).
  - destruct (run_top_spec ids 1 ltac:(lia) s q o Hi He) as (s1 & q1 & -> & Hi1 & F).
    apply (IH s1 q1); [done|]. by apply (fr_tmp0 _ _ _ _ _ F).
Qed.

(** When a timer with period [n] started at tick [T] fires in the next [k]
    ticks. *)
Definition schedule (periodic : bool) (x T n k : Z) : list (Z * Z) :=
  if periodic then map (fun i => (x, T +u32 (Z.of_nat i * n))) (seq 1 (Z.to_nat (k / n)))
  else if n <=? k then [(x, T +u32 n)] else [].

Record tracked (p : bool) (x T n k : Z) (old : list (Z * Z)) (s : tstate) (q : queue) : Prop := {
  tr_tick : rt_tick s = T +u32 k;
  tr_fired : fired_of x s = old ++ schedule p x T n k;
  tr_state : exists t, timers s !! x = Some t /\
    if p then In (x, n - k mod n) q /\ has_flag RT_TIMER_FLAG_PERIODIC t = true /\
              has_flag RT_TIMER_FLAG_ACTIVATED t = true /\ init_tick t = n
    else has_flag RT_TIMER_FLAG_PERIODIC t = false /\
         if k <? n then In (x, n - k) q else forall d, ~ In (x, d) q }.

Lemma schedule_next p x T n k : 1 <= n -> 0 <= k ->
  schedule p x T n (k + 1) = schedule p x T n k ++
    (if (if p then (k + 1) mod n =? 0 else k + 1 =? n) then [(x, T +u32 (k + 1))] else []).
Proof.
  intros Hn Hk. unfold schedule. destruct p.
  - pose proof (Z.div_mod (k + 1) n ltac:(lia)) as E1. pose proof (Z.mod_pos_bound (k + 1) n ltac:(lia)).
    pose proof (Z.div_mod k n ltac:(lia)) as E0. pose proof (Z.mod_pos_bound k n ltac:(lia)).
    assert (0 <= k / n) by (apply Z.div_pos; lia).
    destruct (Z.eqb_spec ((k + 1) mod n) 0) as [Hz|Hz].
    + assert ((k + 1) / n = k / n + 1) as Eq by nia. rewrite Eq in *.
      replace (Z.to_nat (k / n + 1)) with (S (Z.to_nat (k / n))) by lia.
      rewrite seq_S, map_app. cbn [map]. do 2 f_equal. f_equal. f_equal. f_equal.
      rewrite Nat2Z.inj_add, Z2Nat.id by lia. clear - E1 Hz. lia.
    + assert ((k + 1) / n = k / n) as -> by nia. by rewrite app_nil_r.
  - destruct (Z.leb_spec n (k + 1)), (Z.leb_spec n k), (Z.eqb_spec (k + 1) n); try lia; try done.
    by subst n.
Qed.

Lemma mod_next n k : 1 <= n -> 0 <= k ->
  (k + 1) mod n = if k mod n =? n - 1 then 0 else k mod n + 1.
Proof.
  intros Hn Hk. pose proof (Z.div_mod k n ltac:(lia)) as E. pose proof (Z.mod_pos_bound k n ltac:(lia)).
  destruct (Z.eqb_spec (k mod n) (n - 1)); symmetry.
  - apply (Z.mod_unique_pos _ _ (k / n + 1)); nia.
  - apply (Z.mod_unique_pos _ _ (k / n)); nia.
Qed.

Lemma tracked_tick p x T n k old s q : untouched x -> 1 <= n <= LIMIT -> 0 <= k ->
  tinv ids 1 s q -> tmp s = [] -> tracked p x T n k old s q ->
  exists s' q', rt_tick_increase timeout_func s = Some s' /\ tinv ids 1 s' q' /\ tmp s' = [] /\
    tracked p x T n (k + 1) old s' q'.
Proof.
  intros Hu Hn Hk Hi Ht [K F (t & Et & Hs)]. destruct (tick_spec s q Hi Ht) as (s' & q' & E & Hi' & T' & K' & Ck).
  exists s', q'. split_and!; try done. destruct (Ck x t Hu Et) as [C1 C2 C3].
  assert (rt_tick s +u32 1 = T +u32 (k + 1)) as Ek.
  { rewrite K. unfold wrapu. rewrite Zplus_mod_idemp_l. f_equal. lia. }
  change (fired_of x (with_tick (rt_tick s +u32 1) s)) with (fired_of x s) in C1, C2.
  unfold turned in C3. change (fired_of x (with_tick (rt_tick s +u32 1) s)) with (fired_of x s) in C3.
  change (rt_tick (with_tick (rt_tick s +u32 1) s)) with (rt_tick s +u32 1) in C3.
  rewrite Ek in K', C3. rewrite F in C1, C2, C3. split; [done|rewrite schedule_next by lia|].
  - destruct p.
    + destruct Hs as (Hin & _). rewrite mod_next by lia. pose proof (Z.mod_pos_bound k n ltac:(lia)).
      replace (n - k mod n) with (n - k mod n - 1 + 1) in Hin by lia. apply (in_elapse x) in Hin.
      destruct (Z.eqb_spec (k mod n) (n - 1)) as [Em|Em].
      * cbn. rewrite app_assoc. apply C3. by replace 0 with (n - k mod n - 1) by lia.
      * rewrite (proj2 (Z.eqb_neq (k mod n + 1) 0)), app_nil_r by lia. apply (C1 _ Hin). lia.
    + destruct Hs as (_ & Hin). destruct (Z.ltb_spec k n).
      * replace (n - k) with (n - k - 1 + 1) in Hin by lia. apply (in_elapse x) in Hin.
        destruct (Z.eqb_spec (k + 1) n).
        -- rewrite app_assoc. apply C3. by replace 0 with (n - k - 1) by lia.
        -- rewrite app_nil_r. apply (C1 _ Hin). lia.
      * rewrite (proj2 (Z.eqb_neq (k + 1) n)), app_nil_r by lia. apply C2. intros d Hd%in_elapse. by apply (Hin (d + 1)).
  - destruct p.
    + destruct Hs as (Hin & Hp & Ha & Hni). rewrite mod_next by lia. pose proof (Z.mod_pos_bound k n ltac:(lia)).
      replace (n - k mod n) with (n - k mod n - 1 + 1) in Hin by lia. apply (in_elapse x) in Hin.
      destruct (Z.eqb_spec (k mod n) (n - 1)) as [Em|Em].
      * destruct C3 as [_ C3]; [by replace 0 with (n - k mod n - 1) by lia|]. rewrite Hp, Ha in C3. cbn [andb] in C3.
        destruct C3 as [Hin' Et']. rewrite Hni in Hin'. eexists. split; [exact Et'|]. rewrite Z.sub_0_r.
        destruct (started_flags (T +u32 (k + 1)) (clear_flag RT_TIMER_FLAG_ACTIVATED t)) as (S1 & S2 & _).
        rewrite S1, S2, periodic_clear. done.
      * destruct (C1 _ Hin ltac:(lia)) as (Hin' & Et' & _). exists t. split_and!; try done.
        by replace (n - (k mod n + 1)) with (n - k mod n - 1) by lia.
    + destruct Hs as (Hp & Hin). destruct (Z.ltb_spec k n).
      * replace (n - k) with (n - k - 1 + 1) in Hin by lia. apply (in_elapse x) in Hin.
        destruct (Z.ltb_spec (k + 1) n).
        -- destruct (C1 _ Hin ltac:(lia)) as (Hin' & Et' & _). exists t. split_and!; try done.
           by replace (n - (k + 1)) with (n - k - 1) by lia.
        -- destruct C3 as [_ C3]; [by replace 0 with (n - k - 1) by lia|]. rewrite Hp in C3. cbn [andb] in C3.
           destruct C3 as [Hno Et']. eexists. split; [exact Et'|]. by rewrite periodic_clear.
      * rewrite (proj2 (Z.ltb_ge _ _)) by lia. destruct C2 as (Hno & Et' & _); [intros d Hd%in_elapse; by apply (Hin (d + 1))|].
        by exists t.
Qed.

(** The ticks among events. *)
Definition ticks (es : list tevent) : Z := Z.of_nat (length (List.filter (fun e => match e with Tick => true | _ => false end) es)).

Lemma tracked_run p x T n old es : untouched x -> 1 <= n <= LIMIT -> Forall event_ok es -> Forall (event_spares x) es ->
  forall k s q, 0 <= k -> tinv ids 1 s q -> tmp s = [] -> tracked p x T n k old s q ->
  exists s' q', run_events timeout_func es s = Some s' /\ tinv ids 1 s' q' /\ tmp s' = [] /\
    tracked p x T n (k + ticks es) old s' q'.
Proof.
  intros Hu Hn. induction es as [|e es IH]; intros Hok Hsp k s q Hk Hi Ht Htr; cbn [run_events].
  { exists s, q. unfold ticks. cbn. by rewrite Z.add_0_r. }
  apply Forall_cons in Hok as [He Hok]. apply Forall_cons in Hsp as [Hs Hsp]. destruct e as [|o]; cbn [run_event].
  - destruct (tracked_tick p x T n k old s q Hu Hn Hk Hi Ht Htr) as (s1 & q1 & -> & Hi1 & T1 & Htr1).
    destruct (IH Hok Hsp (k + 1) s1 q1 ltac:(lia) Hi1 T1 Htr1) as (s' & q' & E & Hi' & T' & Htr').
    exists s', q'. split_and!; try done. unfold ticks in *. cbn [List.filter length].
    by replace (k + Z.of_nat (S _)) with (k + 1 + Z.of_nat (length (List.filter (fun e => match e with Tick => true | _ => false end) es))) by lia.
  - destruct (run_top_spec ids 1 ltac:(lia) s q o Hi He) as (s1 & q1 & -> & Hi1 & [G1 G2 G3 G4 G5 G6 G7 G8]).
    apply (IH Hok Hsp k s1 q1); auto. cbn [event_spares] in Hs. destruct Htr as [K F (t & Et & St)]. split.
    + by rewrite G1.
    + unfold fired_of. by rewrite G2.
    + exists t. rewrite G4 by congruence. split; [done|]. destruct p; [rewrite G5 by congruence; done|].
      destruct St as [Hp St]. split; [done|]. destruct (k <? n); [rewrite G5 by congruence; done|].
      intros d. rewrite G5 by congruence. apply St.
Qed.
End Check.

(* ------------------------------------------------------------------ *)
(** ** From the start of the system *)

Section Boot.
Context (timeout_func : Z -> list top) (cfg : list (Z * (Z * Z))) (tick : Z).

Definition configured (x : Z) : Prop := In x (map fst cfg).

(** Times a timer may have, calls on the configured timers only. *)
Definition timers_ok : Prop :=
  is_u32 tick /\ Forall (fun c => 1 <= fst (snd c) <= LIMIT) cfg /\
  forall x, Forall (top_ok configured) (timeout_func x).

Definition timers_boot : tstate := timers_init cfg (rt_system_timer_init tick).

Lemma timers_init_spec c : forall s (P : Z -> Prop),
  (forall x, P x -> exists t, timers s !! x = Some t /\ 1 <= init_tick t <= LIMIT) ->
  Forall (fun c => 1 <= fst (snd c) <= LIMIT) c ->
  let s' := timers_init c s in
  rt_tick s' = rt_tick s /\ hard s' = hard s /\ tmp s' = tmp s /\ fired s' = fired s /\
  forall x, P x \/ In x (map fst c) -> exists t, timers s' !! x = Some t /\ 1 <= init_tick t <= LIMIT.
Proof.
  induction c as [|[x [n f]] c IH]; intros s P HP Hc; cbn [timers_init fold_left].
  { split_and!; try done. intros x [Hx|[]]. auto. }
  apply Forall_cons in Hc as [Hn Hc]. cbn [fst snd] in Hn.
  destruct (IH (rt_timer_init x n f s) (fun y => P y \/ y = x)) as (E1 & E2 & E3 & E4 & E5); [|done|].
  { intros y Hy. unfold rt_timer_init. cbn [timers with_timer]. destruct (decide (y = x)) as [->|Hne].
    - rewrite lookup_insert_eq. by eexists.
    - rewrite lookup_insert_ne by done. apply HP. tauto. }
  unfold timers_init in *. cbn [fst snd]. split_and!; try done.
  intros y Hy. apply E5. cbn [map fst In] in Hy. intuition congruence.
Qed.

Lemma boot_inv : timers_ok -> tinv configured 1 timers_boot [] /\ tmp timers_boot = [].
Proof.
  intros (Ht & Hc & _). destruct (timers_init_spec cfg (rt_system_timer_init tick) (fun _ => False)) as (E1 & E2 & E3 & E4 & E5); try done.
  split; [|done]. split; try done.
  - constructor.
  - constructor.
  - intros x Hx. apply E5. by right.
  - unfold timers_boot. by rewrite E1.
Qed.
End Boot.

(* ------------------------------------------------------------------ *)
(** ** Properties *)

(** C14: from the start of the system, whatever ticks pass and however threads
    and timeout functions start, stop and control the configured timers, with
    times of 1 to 2^31 - 2 ticks: no assertion of timer.c fails, every check in
    the tick interrupt ends, its temporary list is empty again, and the timers
    on the hard list are distinct, in the order they are due, none of them due
    already, each with the time-out the timer itself records.  The bounds on the
    times are needed: see [zero_period_hangs] and [long_time_asserts]. *)
Theorem timers_safe timeout_func cfg tick es :
  timers_ok timeout_func cfg tick -> Forall (event_ok (configured cfg)) es ->
  exists s q, run_events timeout_func es (timers_boot cfg tick) = Some s /\ tmp s = [] /\
    hard s = map fst q /\ List.NoDup (map fst q) /\ sorted q /\
    forall y d, In (y, d) q -> 1 <= d <= LIMIT /\ exists t, timers s !! y = Some t /\ timeout_tick t = rt_tick s +u32 d.
Proof.
  intros Hok He. pose proof Hok as (_ & _ & Hcb). destruct (boot_inv timeout_func cfg tick Hok) as [Hi Ht].
  destruct (events_run _ timeout_func Hcb es He _ _ Hi Ht) as (s & q & E & Hi' & Ht').
  exists s, q. destruct Hi' as [H1 H2 H3 H4 _ _ _]. split_and!; try done.
  intros y d Hin. destruct (H4 y d Hin) as (Hd & t & Et & Eo & _). eauto.
Qed.

(** Two timers: a periodic one, and a one-shot one whose timeout function
    stops the first and starts its own timer again. *)
Definition sample_timers : list (Z * (Z * Z)) := [(1, (10, RT_TIMER_FLAG_PERIODIC)); (2, (25, 0))].
Definition sample_func (x : Z) : list top := if x =? 2 then [TStop 1; TStart 2] else [].

Ltac forall_ok := cbn [app repeat]; repeat (apply Forall_cons; split); try apply Forall_nil;
  first [exact I|done|split; [cbn; auto|exact I]].

Lemma timers_safe_witness :
  timers_ok sample_func sample_timers 0xfffffff0 /\
  exists s q, run_events sample_func ([Op (TStart 1); Op (TStart 2)] ++ repeat Tick 30) (timers_boot sample_timers 0xfffffff0) = Some s /\
    tmp s = [] /\ hard s = map fst q /\ List.NoDup (map fst q) /\ sorted q /\
    forall y d, In (y, d) q -> 1 <= d <= LIMIT /\ exists t, timers s !! y = Some t /\ timeout_tick t = rt_tick s +u32 d.
Proof.
  assert (timers_ok sample_func sample_timers 0xfffffff0) as Hok.
  { split; [by split|]. split; [repeat constructor; done|]. intros x. unfold sample_func.
    destruct (x =? 2); forall_ok. }
  split; [done|]. apply (timers_safe _ _ _ _ Hok). forall_ok.
Defined.

(** [rt_timer_control] stores any time.  A periodic timer whose time is 0 is due
    again as soon as it was put back: the check in the tick interrupt never
    ends, whatever the fuel. *)
Theorem zero_period_hangs timeout_func x fuel : timeout_func x = [] -> forall s t,
  timers s !! x = Some t -> init_tick t = 0 -> has_flag RT_TIMER_FLAG_PERIODIC t = true ->
  has_flag RT_TIMER_FLAG_ACTIVATED t = true -> has_flag RT_TIMER_FLAG_SOFT_TIMER t = false ->
  is_u32 (rt_tick s) -> hard s = [x] -> tmp s = [] -> timeout_tick t = rt_tick s ->
  check_loop timeout_func fuel (rt_tick s) s = None.
Proof.
  intros Hf. induction fuel as [|k IH]; intros [tick tm h sf tp stp si su fi] t E H0 Hp Ha Hs Ht Eh Em Et; [done|].
  cbn [rt_tick timers hard tmp] in *. subst h tp. cbn [check_loop hard timers rt_tick]. rewrite E, Et, Z.sub_diag, Hf.
  assert ((wrapu 32 0 <? RT_TICK_MAX / 2) = true) as -> by done.
  assert (forall tm h sf tp stp fi, _rt_timer_remove x (TState tick tm h sf tp stp si su fi)
    = TState tick tm (unlink x h) (unlink x sf) (unlink x tp) (unlink x stp) si su fi) as Hrm by done.
  assert (unlink x [x] = []) as U by (cbn; by rewrite Z.eqb_refl).
  unfold take_timer. rewrite Hp, Hrm, U. cbn [run_tops with_busy busy with_tmp tmp hard timers rt_tick soft soft_tmp soft_idle suspended fired].
  change (unlink x []) with (@nil Z). cbn [with_tmp].
  set (s1 := call x _). assert (s1 = TState tick tm [] (unlink x sf) [x] (unlink x stp) si su (fi ++ [(x, tick)])) as -> by done.
  unfold after_timeout. cbn [busy tmp]. rewrite Hrm, U. change (unlink x []) with (@nil Z). cbn [timers]. rewrite E, Hp, Ha. cbn [andb].
  set (t1 := clear_flag RT_TIMER_FLAG_ACTIVATED t). set (s2 := with_timer x t1 _).
  assert (s2 = TState tick (<[x:=t1]> tm) [] (unlink x (unlink x sf)) [] (unlink x (unlink x stp)) si su (fi ++ [(x, tick)])) as -> by done.
  unfold rt_timer_start. cbn [timers]. rewrite lookup_insert_eq, Hrm.
  change (unlink x []) with (@nil Z). change (init_tick (clear_flag _ t1)) with (init_tick t). rewrite H0.
  assert ((0 <? RT_TICK_MAX / 2) = true) as -> by done.
  assert (has_flag RT_TIMER_FLAG_SOFT_TIMER t1 = false) as Hs1 by (unfold t1; by rewrite soft_clear).
  rewrite soft_clear, Hs1. cbn [rt_tick]. rewrite Z.add_0_r, u32_small by done.
  assert (set_flag RT_TIMER_FLAG_ACTIVATED (Timer (t_flag (clear_flag RT_TIMER_FLAG_ACTIVATED t1)) 0 tick) = started tick t1) as ->
    by (unfold started; change (init_tick t1) with (init_tick t); by rewrite H0, Z.add_0_r, u32_small).
  destruct (started_flags tick t1) as (A1 & A2 & A3). rewrite A3, Hs1. cbn [andb option_map snd hard with_hard row_insert].
  apply (IH _ (started tick t1)); cbn [timers with_timer rt_tick hard tmp with_hard]; try done.
  - by rewrite lookup_insert_eq.
  - rewrite A2. unfold t1. etransitivity; [apply (flag_clear 1 0); done|]. by apply andb_true_iff.
  - by rewrite A3.
  - unfold started. cbn [timeout_tick set_flag with_flag]. change (init_tick t1) with (init_tick t). by rewrite H0, Z.add_0_r, u32_small.
Qed.

Lemma zero_period_hangs_witness : forall fuel,
  exists s, run_events (fun _ => []) [Op (TControl 1 (SetTime 0)); Op (TStart 1)] (timers_boot [(1, (10, RT_TIMER_FLAG_PERIODIC))] 7) = Some s /\
    check_loop (fun _ => []) fuel (rt_tick s) s = None.
Proof.
  intros fuel. eexists. split; [vm_compute; reflexivity|].
  by apply (zero_period_hangs (fun _ => []) 1 fuel eq_refl _ (Timer 3 0 7)).
Defined.

(** A time of [RT_TICK_MAX / 2] or more fails the assertion of the next start. *)
Theorem long_time_asserts x n t s : timers s !! x = Some t -> RT_TICK_MAX / 2 <= n ->
  run_tops [TControl x (SetTime n); TStart x] s = None.
Proof.
  intros E Hn. cbn [run_tops run_top]. unfold rt_timer_control. rewrite E. cbn [option_map snd]. unfold rt_timer_start.
  cbn [timers with_timer]. rewrite lookup_insert_eq. change (init_tick (clear_flag _ _)) with n. by rewrite (proj2 (Z.ltb_ge _ _) Hn).
Qed.

Lemma long_time_asserts_witness :
  run_tops [TControl 1 (SetTime 0x80000000); TStart 1] (timers_boot [(1, (10, 0))] 7) = None.
Proof. apply (long_time_asserts 1 0x80000000 (Timer 0 10 0)); [vm_compute; reflexivity|discriminate]. Defined.

(** C12: a hard timer fires on time and only then.  Whatever happened before, a
    timer started at tick [T] with time [n], that other calls leave alone
    afterwards, has fired after any further events with [k] ticks among them
    exactly at [T + n], [T + 2n], ... up to [T + k] if it is periodic, and
    exactly once, at [T + n], if it is not and [n <= k]: modulo 2^32, no
    firing is lost, late, early or doubled, also over the wrap of the tick. *)
Theorem timer_fires_exactly timeout_func cfg tick before after x s t :
  timers_ok timeout_func cfg tick -> Forall (event_ok (configured cfg)) before ->
  run_events timeout_func before (timers_boot cfg tick) = Some s ->
  configured cfg x -> untouched timeout_func x -> timers s !! x = Some t ->
  has_flag RT_TIMER_FLAG_SOFT_TIMER t = false ->
  Forall (event_ok (configured cfg)) after -> Forall (event_spares x) after ->
  exists s', run_events timeout_func (Op (TStart x) :: after) s = Some s' /\
    fired_of x s' = fired_of x s ++
      schedule (has_flag RT_TIMER_FLAG_PERIODIC t) x (rt_tick s) (init_tick t) (ticks after).
Proof.
  intros Hok Hb Es Hx Hu Et Ef Ha Hsp. pose proof Hok as (_ & _ & Hcb).
  destruct (boot_inv timeout_func cfg tick Hok) as [Hi Ht].
  destruct (events_run _ timeout_func Hcb before Hb _ _ Hi Ht) as (s0 & q & E & Hi' & Ht').
  rewrite Es in E. injection E as <-. destruct (ti_ids _ _ _ _ Hi' x Hx) as (t0 & Et0 & Hn).
  rewrite Et in Et0. injection Et0 as <-.
  destruct (start_spec _ 1 ltac:(lia) s q x t Hi' Hx Et Hn) as (s1 & E1 & Hi1 & M1 & T1 & K1 & F1 & _).
  rewrite Ht' in T1. rewrite Ef in Hi1. cbn [run_events run_event run_top]. rewrite E1. cbn [option_map snd].
  destruct (tracked_run _ timeout_func Hcb (has_flag RT_TIMER_FLAG_PERIODIC t) x (rt_tick s) (init_tick t)
              (fired_of x s) after Hu Hn Ha Hsp 0 s1 _ ltac:(lia) Hi1 T1) as (s' & q' & E' & _ & _ & [_ F' _]).
  - split.
    + rewrite K1. symmetry. rewrite Z.add_0_r. apply u32_small, (ti_tick _ _ _ _ Hi').
    + unfold fired_of. rewrite F1. unfold schedule. destruct (has_flag RT_TIMER_FLAG_PERIODIC t).
      * rewrite Z.div_0_l by lia. symmetry. apply app_nil_r.
      * rewrite (proj2 (Z.leb_gt _ _)) by lia. symmetry. apply app_nil_r.
    + exists (started (rt_tick s) t). rewrite M1, lookup_insert_eq. split; [done|].
      destruct (started_flags (rt_tick s) t) as (A1 & A2 & _). rewrite A1, A2.
      destruct (has_flag RT_TIMER_FLAG_PERIODIC t) eqn:Ep.
      * rewrite Z.mod_0_l, Z.sub_0_r by lia. split_and!; try done. apply in_enqueue. by left.
      * split; [done|]. rewrite (proj2 (Z.ltb_lt _ _)), Z.sub_0_r by lia. apply in_enqueue. by left.
  - exists s'. rewrite Z.add_0_l in F'. done.
Qed.

(** 40 ticks of a timer with period 10, started eight ticks before the tick wraps. *)
Lemma timer_fires_exactly_witness :
  exists s', run_events (fun _ => []) (Op (TStart 1) :: repeat Tick 8 ++ [Op (TStart 2)] ++ repeat Tick 32)
      (timers_boot sample_timers 0xfffffff8) = Some s' /\
    fired_of 1 s' = [(1, 2); (1, 12); (1, 22); (1, 32)].
Proof.
  destruct (timer_fires_exactly (fun _ => []) sample_timers 0xfffffff8 [] (repeat Tick 8 ++ [Op (TStart 2)] ++ repeat Tick 32)
    1 (timers_boot sample_timers 0xfffffff8) (Timer RT_TIMER_FLAG_PERIODIC 10 0)) as (s' & E & F).
  - split; [by split|]. split; [repeat constructor; done|]. intros x. constructor.
  - constructor.
  - reflexivity.
  - by left.
  - intros x. constructor.
  - reflexivity.
  - reflexivity.
  - forall_ok.
  - cbn [app repeat]. repeat (apply Forall_cons; split); try apply Forall_nil; done.
  - exists s'. split; [exact E|]. rewrite F. vm_compute. reflexivity.
Defined.

(** The timer thread can miss a soft timer.  A soft timer started between
    the thread's read of the next time-out, which found none, and its
    suspension does not resume the thread, which is not suspended yet: the
    thread then suspends itself for good, and whatever ticks pass the timer
    stays active on its list and never fires. *)
Theorem soft_timer_lost timeout_func x n tick es :
  1 <= n <= LIMIT -> Forall (fun e => e = None \/ e = Some Tick) es ->
  exists y t, sys_run timeout_func (None :: Some (Op (TStart x)) :: None :: es)
      (rt_system_timer_thread_init (timers_boot [(x, (n, RT_TIMER_FLAG_SOFT_TIMER))] tick)) = Some y /\
    suspended (ts y) = true /\ wake y = None /\ soft (ts y) = [x] /\ fired (ts y) = [] /\
    timers (ts y) !! x = Some t /\ has_flag RT_TIMER_FLAG_ACTIVATED t = true /\ timeout_tick t = tick +u32 n.
Proof.
  intros Hn Hes. set (t0 := Timer RT_TIMER_FLAG_SOFT_TIMER n 0).
  set (s0 := timers_boot _ tick).
  assert (s0 = TState tick (<[x := t0]> ∅) [] [] [] [] true false []) as -> by done.
  set (s1 := TState tick (<[x := started tick t0]> (<[x := t0]> ∅)) [] [x] [] [] true true []).
  assert (rt_timer_start x (TState tick (<[x := t0]> ∅) [] [] [] [] true false []) = Some (RT_EOK, with_suspended false s1)) as Es.
  { unfold rt_timer_start. cbn [timers]. rewrite lookup_insert_eq.
    change (init_tick (clear_flag RT_TIMER_FLAG_ACTIVATED t0)) with n.
    rewrite (proj2 (Z.ltb_lt _ _)) by (unfold LIMIT in Hn; change (RT_TICK_MAX / 2) with (2 ^ 31 - 1); lia). done. }
  assert (forall es, Forall (fun e => e = None \/ e = Some Tick) es -> forall k,
    exists k', sys_run timeout_func es (TSys (with_tick k s1) TCheck None) = Some (TSys (with_tick k' s1) TCheck None)) as Hrun.
  { clear. induction 1 as [|e es [->| ->] _ IH]; intros k; [by exists k| |]; cbn [sys_run sys_step]; apply IH. }
  destruct (Hrun es Hes tick) as [k E]. eexists _, (started tick t0). split.
  - cbn [sys_run sys_step]. unfold thread_step at 1. cbn [suspended rt_system_timer_thread_init with_soft].
    unfold sys_event. cbn [run_event run_top ts]. change (with_soft [] ?s) with s.
    rewrite Es. exact E.
  - cbn. rewrite lookup_insert_eq. split_and!; try done.
Qed.

Lemma soft_timer_lost_witness :
  1 <= 5 <= LIMIT /\ Forall (fun e => e = None \/ e = Some Tick) (repeat (Some Tick) 1000) /\
  exists y, sys_run (fun _ => []) (None :: Some (Op (TStart 7)) :: None :: repeat (Some Tick) 1000)
      (rt_system_timer_thread_init (timers_boot [(7, (5, RT_TIMER_FLAG_SOFT_TIMER))] 0)) = Some y /\
    suspended (ts y) = true /\ soft (ts y) = [7] /\ fired (ts y) = [].
Proof.
  assert (1 <= 5 <= LIMIT) as Hn by done.
  assert (Forall (fun e => e = None \/ e = Some Tick) (repeat (Some Tick) 1000)) as He.
  { apply List.Forall_forall. intros e ->%repeat_spec. by right. }
  split; [done|]. split; [done|].
  destruct (soft_timer_lost (fun _ => []) 7 5 0 _ Hn He) as (y & t & E & H1 & H2 & H3 & H4 & H5 & H6 & H7).
  exists y. split; [exact E|]. split; [exact H1|]. split; [exact H3|exact H4].
Defined.
