(* ===== verification/Kernel.v ===== *)
(** * Threads and the scheduler

    rt-thread/src/scheduler.c and thread.c in the configuration of rtconfig.h:
    one core, 32 priorities, no signals.  The thread objects, the ready rows
    with their bitmap, the wait lists of the other kernel objects, the current
    thread.  A kernel list is the list of its threads.  The thread's own timer
    is the flag [timer_on]; when it expires is the matter of Timer.v, here it
    may expire at any moment while it runs.  Left out: stacks and context
    switches, hooks, names, cleanup functions, the debug log. *)

From Stdlib Require Import ZArith Lia.
From stdpp Require Import base numbers list gmap.
From S2P Require Import Prelude.
Open Scope c_scope.

Definition RT_THREAD_PRIORITY_MAX : Z := 32.
Definition RT_THREAD_INIT : Z := 0x00.
Definition RT_THREAD_READY : Z := 0x01.
Definition RT_THREAD_SUSPEND : Z := 0x02.
Definition RT_THREAD_RUNNING : Z := 0x03.
Definition RT_THREAD_CLOSE : Z := 0x04.
Definition RT_THREAD_STAT_MASK : Z := 0x07.
Definition RT_THREAD_STAT_YIELD : Z := 0x08.

Record thread := Thread {
  stat : Z; current_priority : Z; init_priority : Z; number_mask : Z;
  init_tick : Z; remaining_tick : Z; error : Z; timer_on : bool }.

Definition with_stat (v : Z) (t : thread) : thread :=
  Thread v (current_priority t) (init_priority t) (number_mask t) (init_tick t) (remaining_tick t) (error t) (timer_on t).
Definition with_priority (p m : Z) (t : thread) : thread :=
  Thread (stat t) p (init_priority t) m (init_tick t) (remaining_tick t) (error t) (timer_on t).
Definition with_ticks (n : Z) (t : thread) : thread :=
  Thread (stat t) (current_priority t) (init_priority t) (number_mask t) (init_tick t) n (error t) (timer_on t).
Definition with_error (e : Z) (t : thread) : thread :=
  Thread (stat t) (current_priority t) (init_priority t) (number_mask t) (init_tick t) (remaining_tick t) e (timer_on t).
Definition with_timer (b : bool) (t : thread) : thread :=
  Thread (stat t) (current_priority t) (init_priority t) (number_mask t) (init_tick t) (remaining_tick t) (error t) b.

(** [stat & RT_THREAD_STAT_MASK] and [stat = v | (stat & ~RT_THREAD_STAT_MASK)]. *)
Definition st (t : thread) : Z := Z.land (stat t) RT_THREAD_STAT_MASK.
Definition set_st (v : Z) (t : thread) : thread := with_stat (Z.lor v (Z.ldiff (stat t) RT_THREAD_STAT_MASK)) t.
Definition yields (t : thread) : bool := tst (stat t) RT_THREAD_STAT_YIELD.
Definition set_yield (t : thread) : thread := with_stat (Z.lor (stat t) RT_THREAD_STAT_YIELD) t.
Definition clear_yield (t : thread) : thread := with_stat (Z.ldiff (stat t) RT_THREAD_STAT_YIELD) t.

(** The lists a thread can be on: a ready row, the [suspend_thread] list of the
    kernel object [o], the defunct list. *)
Inductive lid := Ready (p : Z) | Wait (o : Z) | Defunct.

#[export] Instance lid_eq_dec : EqDecision lid.
Proof. solve_decision. Defined.

Record kernel := Kernel {
  threads : gmap Z thread; lists : lid -> list Z; group : Z;
  current : option Z; rt_current_priority : Z; lock_nest : Z }.

Definition with_threads (m : gmap Z thread) (k : kernel) : kernel :=
  Kernel m (lists k) (group k) (current k) (rt_current_priority k) (lock_nest k).
Definition with_lists (l : lid -> list Z) (k : kernel) : kernel :=
  Kernel (threads k) l (group k) (current k) (rt_current_priority k) (lock_nest k).
Definition with_group (g : Z) (k : kernel) : kernel :=
  Kernel (threads k) (lists k) g (current k) (rt_current_priority k) (lock_nest k).
Definition with_current (c p : Z) (k : kernel) : kernel :=
  Kernel (threads k) (lists k) (group k) (Some c) p (lock_nest k).
Definition with_lock (n : Z) (k : kernel) : kernel :=
  Kernel (threads k) (lists k) (group k) (current k) (rt_current_priority k) n.

(** [None] is a failed RT_ASSERT or the use of a thread that is not there. *)
Definition thread_of (x : Z) : M kernel thread := fun k =>
  match threads k !! x with Some t => Some (t, k) | None => None end.
Definition upd (x : Z) (f : thread -> thread) : M kernel unit := doM (fun k => with_threads (alter f x (threads k)) k).
Definition rt_thread_self : M kernel Z := fun k => match current k with Some x => Some (x, k) | None => None end.

(** [rt_list_remove(&thread->tlist)] and [rt_list_insert_before(list, ...)]. *)
Definition list_remove (x : Z) : M kernel unit := doM (fun k => with_lists (fun i => unlink x (lists k i)) k).
Definition list_set (i : lid) (l : list Z) (k : kernel) : kernel :=
  with_lists (fun j => if decide (j = i) then l else lists k j) k.
Definition push_back (i : lid) (x : Z) : M kernel unit := doM (fun k => list_set i (lists k i ++ [x]) k).

(* ------------------------------------------------------------------ *)
(** ** scheduler.c *)

(** The number of the lowest set bit counted from 1, [__builtin_ffs]. *)
Fixpoint lowest_bit (n : nat) (i v : Z) : Z :=
  match n with
  | O => 0
  | S n => if Z.testbit v i then i + 1 else lowest_bit n (i + 1) v
  end.
Definition __rt_ffs (v : Z) : Z := lowest_bit 32 0 v.

Definition _get_highest_priority_thread : M kernel (Z * Z) := fun k =>
  let highest_ready_priority := __rt_ffs (group k) - 1 in
  match lists k (Ready highest_ready_priority) with
  | [] => None
  | x :: _ => Some ((x, highest_ready_priority), k)
  end.

Definition rt_schedule_insert_thread (x : Z) : M kernel unit :=
  let! t := thread_of x in
  let! c := getM (fun k => (current k, k)) in
  if bool_decide (c = Some x) then upd x (set_st RT_THREAD_RUNNING)
  else
    do! upd x (set_st RT_THREAD_READY) in
    do! push_back (Ready (current_priority t)) x in
    doM (fun k => with_group (Z.lor (group k) (number_mask t)) k).

Definition rt_schedule_remove_thread (x : Z) : M kernel unit :=
  let! t := thread_of x in
  do! list_remove x in
  let! row := getM (fun k => (lists k (Ready (current_priority t)), k)) in
  match row with
  | [] => doM (fun k => with_group (Z.ldiff (group k) (number_mask t)) k)
  | _ => retM tt
  end.

Definition rt_system_scheduler_init : kernel := Kernel ∅ (fun _ => []) 0 None 0 0.

Definition rt_system_scheduler_start : M kernel unit :=
  let! p := _get_highest_priority_thread in
  do! doM (with_current (fst p) 0) in
  do! rt_schedule_remove_thread (fst p) in
  upd (fst p) (with_stat RT_THREAD_RUNNING).

(** The choice between the running thread [c] and the first ready one. *)
Definition keeps (c : thread) (highest_ready_priority : Z) : bool :=
  (current_priority c <? highest_ready_priority) ||
  ((current_priority c =? highest_ready_priority) && negb (yields c)).

Definition rt_schedule : M kernel unit := fun k =>
  if negb (lock_nest k =? 0) then Some (tt, k)
  else if group k =? 0 then Some (tt, k)
  else
    (let! p := _get_highest_priority_thread in
     let! from := rt_thread_self in
     let! c := thread_of from in
     let running := st c =? RT_THREAD_RUNNING in
     let to := if running && keeps c (snd p) then from else fst p in
     let need_insert_from_thread := running && negb (keeps c (snd p)) in
     do! (if running then upd from clear_yield else retM tt) in
     if negb (to =? from) then
       do! doM (with_current to (u8 (snd p))) in
       do! (if need_insert_from_thread then rt_schedule_insert_thread from else retM tt) in
       do! rt_schedule_remove_thread to in
       upd to (set_st RT_THREAD_RUNNING)
     else
       do! rt_schedule_remove_thread from in
       upd from (set_st RT_THREAD_RUNNING)) k.

Definition rt_enter_critical : M kernel unit := doM (fun k => with_lock (s16 (lock_nest k + 1)) k).

Definition rt_exit_critical : M kernel unit := fun k =>
  let n := s16 (lock_nest k - 1) in
  if n <=? 0 then
    let k := with_lock 0 k in
    match current k with Some _ => rt_schedule k | None => Some (tt, k) end
  else Some (tt, with_lock n k).

(* ------------------------------------------------------------------ *)
(** ** thread.c *)

(** The mask of a priority, [1L << p] in 32 bits. *)
Definition mask_of (p : Z) : Z := u32 (Z.shiftl 1 p).

Definition _rt_thread_init (x priority tick : Z) : M kernel Z := fun k =>
  if priority <? RT_THREAD_PRIORITY_MAX then
    Some (RT_EOK, with_threads (<[x := Thread RT_THREAD_INIT priority priority 0 tick tick RT_EOK false]> (threads k)) k)
  else None.

Definition rt_thread_suspend (x : Z) : M kernel Z :=
  let! t := thread_of x in
  let s := st t in
  if negb (s =? RT_THREAD_READY) && negb (s =? RT_THREAD_RUNNING) then retM (- RT_ERROR)
  else
    let! c := getM (fun k => (current k, k)) in
    if (s =? RT_THREAD_RUNNING) && negb (bool_decide (c = Some x)) then failM
    else
      do! rt_schedule_remove_thread x in
      do! upd x (set_st RT_THREAD_SUSPEND) in
      do! upd x (with_timer false) in
      retM RT_EOK.

Definition rt_thread_resume (x : Z) : M kernel Z :=
  let! t := thread_of x in
  if negb (st t =? RT_THREAD_SUSPEND) then retM (- RT_ERROR)
  else
    do! list_remove x in
    do! upd x (with_timer false) in
    do! rt_schedule_insert_thread x in
    retM RT_EOK.

Definition rt_thread_startup (x : Z) : M kernel Z :=
  let! t := thread_of x in
  if negb (st t =? RT_THREAD_INIT) then failM
  else
    do! upd x (with_priority (init_priority t) (mask_of (init_priority t))) in
    do! upd x (with_stat RT_THREAD_SUSPEND) in
    do! rt_thread_resume x in
    let! c := getM (fun k => (current k, k)) in
    do! match c with Some _ => rt_schedule | None => retM tt end in
    retM RT_EOK.

Definition rt_thread_yield : M kernel Z :=
  let! x := rt_thread_self in
  do! upd x (fun t => set_yield (with_ticks (init_tick t) t)) in
  do! rt_schedule in
  retM RT_EOK.

(** [rt_thread_sleep] up to the schedule, and what it does when the thread runs
    again. *)
Definition sleep_enter : M kernel unit :=
  let! x := rt_thread_self in
  do! rt_thread_suspend x in
  upd x (with_timer true).

Definition sleep_exit : M kernel unit :=
  let! x := rt_thread_self in
  upd x (fun t => if error t =? - RT_ETIMEOUT then with_error RT_EOK t else t).

Definition rt_thread_timeout (x : Z) : M kernel unit :=
  let! t := thread_of x in
  if negb (st t =? RT_THREAD_SUSPEND) then failM
  else
    do! upd x (with_error (- RT_ETIMEOUT)) in
    do! list_remove x in
    do! rt_schedule_insert_thread x in
    rt_schedule.

(** [rt_thread_control] with [RT_THREAD_CTRL_CHANGE_PRIORITY]. *)
Definition change_priority (x p : Z) : M kernel unit :=
  let! t := thread_of x in
  if st t =? RT_THREAD_READY then
    do! rt_schedule_remove_thread x in
    do! upd x (with_priority p (mask_of p)) in
    rt_schedule_insert_thread x
  else upd x (with_priority p (mask_of p)).

(** The end of a thread that was created dynamically. *)
Definition rt_thread_exit : M kernel unit :=
  let! x := rt_thread_self in
  do! rt_schedule_remove_thread x in
  do! upd x (with_stat RT_THREAD_CLOSE) in
  do! upd x (with_timer false) in
  do! doM (fun k => list_set Defunct (x :: lists k Defunct) k) in
  rt_schedule.

Definition rt_thread_delete (x : Z) : M kernel Z :=
  let! t := thread_of x in
  if st t =? RT_THREAD_CLOSE then retM RT_EOK
  else
    do! (if st t =? RT_THREAD_INIT then retM tt else rt_schedule_remove_thread x) in
    do! upd x (with_timer false) in
    do! upd x (with_stat RT_THREAD_CLOSE) in
    do! doM (fun k => list_set Defunct (x :: lists k Defunct) k) in
    retM RT_EOK.

(** The time slice of [rt_tick_increase]. *)
Definition tick_slice : M kernel unit :=
  let! x := rt_thread_self in
  let! t := thread_of x in
  let n := remaining_tick t -u32 1 in
  do! upd x (with_ticks n) in
  if n =? 0 then
    do! upd x (fun t => set_yield (with_ticks (init_tick t) t)) in
    rt_schedule
  else retM tt.

(** What can happen to the threads: the calls of the running thread
    ([KYield], [KSleep], [KSleepExit], [KExit]), calls anybody makes, the
    interrupts ([KTimeout] is the expiry of a thread's own timer, [KTick] the
    time slice).  [KSchedule] is a call of [rt_schedule], which comes after the
    others and which an interrupt can make at any moment. *)
Inductive kop :=
  | KSchedule | KYield | KSleep | KSleepExit | KExit | KTick | KEnter | KLeave
  | KInit (x priority tick : Z) | KStartup (x : Z) | KPriority (x p : Z)
  | KSuspend (x : Z) | KResume (x : Z) | KDelete (x : Z) | KTimeout (x : Z).

Definition ignore {A} (m : M kernel A) : M kernel unit := let! _ := m in retM tt.

Definition run_kop (op : kop) : M kernel unit :=
  match op with
  | KSchedule => rt_schedule
  | KYield => ignore rt_thread_yield
  | KSleep => sleep_enter
  | KSleepExit => sleep_exit
  | KExit => rt_thread_exit
  | KTick => tick_slice
  | KEnter => rt_enter_critical
  | KLeave => rt_exit_critical
  | KInit x p n => ignore (_rt_thread_init x p n)
  | KStartup x => ignore (rt_thread_startup x)
  | KPriority x p => change_priority x p
  | KSuspend x => ignore (rt_thread_suspend x)
  | KResume x => ignore (rt_thread_resume x)
  | KDelete x => ignore (rt_thread_delete x)
  | KTimeout x => do! upd x (with_timer false) in rt_thread_timeout x
  end.

Fixpoint run_kops (ops : list kop) : M kernel unit :=
  match ops with
  | [] => retM tt
  | op :: r => do! run_kop op in run_kops r
  end.

(** The start of the system: the threads [cfg], each with its priority and its
    time slice, then the scheduler. *)
Fixpoint start_threads (cfg : list (Z * (Z * Z))) : M kernel unit :=
  match cfg with
  | [] => retM tt
  | (x, (p, n)) :: r =>
      do! _rt_thread_init x p n in
      do! rt_thread_startup x in
      start_threads r
  end.

Definition kernel_boot (cfg : list (Z * (Z * Z))) : option kernel :=
  option_map snd ((do! start_threads cfg in rt_system_scheduler_start) rt_system_scheduler_init).

(* ------------------------------------------------------------------ *)
(** ** Bits *)

Lemma stat_mask_bits n : 0 <= n -> Z.testbit RT_THREAD_STAT_MASK n = (n <? 3).
Proof.
  intros Hn. change RT_THREAD_STAT_MASK with (Z.ones 3). rewrite Z.testbit_ones by lia.
  by rewrite (proj2 (Z.leb_le 0 n)).
Qed.

Lemma st_set v t : 0 <= v < 8 -> st (set_st v t) = v.
Proof.
  intros Hv. unfold st, set_st, with_stat. cbn [stat]. rewrite Z.land_lor_distr_l.
  assert (Z.land (Z.ldiff (stat t) RT_THREAD_STAT_MASK) RT_THREAD_STAT_MASK = 0) as ->.
  { apply Z.bits_inj'. intros n Hn. rewrite Z.land_spec, Z.ldiff_spec, Z.testbit_0_l.
    destruct (Z.testbit RT_THREAD_STAT_MASK n); by rewrite ?andb_false_r. }
  rewrite Z.lor_0_r. change RT_THREAD_STAT_MASK with (Z.ones 3). rewrite Z.land_ones by lia. apply Z.mod_small. lia.
Qed.

Lemma st_stat v t : 0 <= v < 8 -> st (with_stat v t) = v.
Proof.
  intros Hv. unfold st. cbn [stat with_stat]. change RT_THREAD_STAT_MASK with (Z.ones 3).
  rewrite Z.land_ones by lia. apply Z.mod_small. lia.
Qed.

Lemma yield_bits n : 0 <= n -> Z.testbit RT_THREAD_STAT_YIELD n = (n =? 3).
Proof.
  intros Hn. change RT_THREAD_STAT_YIELD with (2 ^ 3). rewrite Z.pow2_bits_eqb by lia. apply Z.eqb_sym.
Qed.

Lemma st_clear_yield t : st (clear_yield t) = st t.
Proof.
  unfold st, clear_yield. cbn [stat with_stat]. apply Z.bits_inj'. intros n Hn.
  rewrite !Z.land_spec, Z.ldiff_spec, stat_mask_bits, yield_bits by done.
  destruct (Z.ltb_spec n 3), (Z.eqb_spec n 3); try lia; by rewrite ?andb_true_r, ?andb_false_r.
Qed.

Lemma st_set_yield t : st (set_yield t) = st t.
Proof.
  unfold st, set_yield. cbn [stat with_stat]. apply Z.bits_inj'. intros n Hn.
  rewrite !Z.land_spec, Z.lor_spec, stat_mask_bits, yield_bits by done.
  destruct (Z.ltb_spec n 3), (Z.eqb_spec n 3); try lia; by rewrite ?orb_false_r, ?andb_false_r.
Qed.

Lemma mask_of_pow p : 0 <= p < 32 -> mask_of p = 2 ^ p.
Proof.
  intros Hp. unfold mask_of. rewrite Z.shiftl_mul_pow2, Z.mul_1_l by lia. apply u32_small. split; [lia|].
  change 4294967296 with (2 ^ 32). apply Z.pow_lt_mono_r; lia.
Qed.

Lemma lowest_bit_spec v n : forall i, 0 <= i -> (exists j, i <= j < i + Z.of_nat n /\ Z.testbit v j = true) ->
  exists p, i <= p < i + Z.of_nat n /\ lowest_bit n i v = p + 1 /\ Z.testbit v p = true /\
    forall q, i <= q < p -> Z.testbit v q = false.
Proof.
  induction n as [|n IH]; intros i Hi (j & Hj & Ej); [lia|]. cbn [lowest_bit].
  destruct (Z.testbit v i) eqn:E.
  - exists i. split_and!; try done; lia.
  - assert (j <> i) by congruence.
    destruct (IH (i + 1) ltac:(lia)) as (p & Hp & El & Ep & Hq); [exists j; split; [lia|done]|].
    exists p. split_and!; try done; try lia. intros q Hq'. destruct (Z.eq_dec q i) as [->|]; [done|]. apply Hq. lia.
Qed.

Lemma u32_bits_high v n : is_u32 v -> 32 <= n -> Z.testbit v n = false.
Proof.
  intros Hv Hn. unfold is_u32 in Hv. rewrite <- (Z.mod_small v (2 ^ 32)) by lia. by rewrite Z.mod_pow2_bits_high by lia.
Qed.

Lemma bits_lt a n : 0 <= n -> (forall m, n <= m -> Z.testbit a m = false) -> a < 2 ^ n.
Proof.
  intros Hn H. destruct (Z.lt_ge_cases a (2 ^ n)) as [|Hge]; [done|]. exfalso.
  assert (0 < a) as Ha by (pose proof (Z.pow_pos_nonneg 2 n ltac:(lia) Hn); lia).
  pose proof (proj1 (Z.log2_le_pow2 a n Ha) Hge) as Hl. specialize (H (Z.log2 a) Hl). by rewrite Z.bit_log2 in H.
Qed.

Lemma __rt_ffs_spec v : is_u32 v -> v <> 0 ->
  exists p, 0 <= p < 32 /\ __rt_ffs v = p + 1 /\ Z.testbit v p = true /\ forall q, 0 <= q < p -> Z.testbit v q = false.
Proof.
  intros Hv Hne. apply (lowest_bit_spec v 32 0); [lia|].
  exists (Z.log2 v). pose proof (Z.log2_nonneg v). unfold is_u32 in Hv. split; [|apply Z.bit_log2; lia].
  split; [done|]. apply Z.log2_lt_pow2; lia.
Qed.

(* ------------------------------------------------------------------ *)
(** ** The invariant

    [own x] tells whether the record of [x] counts: the threads off every list
    are in the middle of a change.  [c] is the thread that runs as far as the
    records tell, the current one between two changes. *)

Abbreviation live t := (st t <> RT_THREAD_INIT /\ st t <> RT_THREAD_CLOSE).

Definition valid (t : thread) : Prop :=
  0 <= current_priority t < 32 /\ 0 <= init_priority t < 32 /\ (live t -> number_mask t = 2 ^ current_priority t).

Record kwfx (own : Z -> Prop) (c : option Z) (k : kernel) : Prop := {
  kw_row : forall p x, In x (lists k (Ready p)) -> own x /\ c <> Some x /\
    exists t, threads k !! x = Some t /\ st t = RT_THREAD_READY /\ current_priority t = p;
  kw_ready : forall x t, own x -> threads k !! x = Some t -> st t = RT_THREAD_READY ->
    In x (lists k (Ready (current_priority t)));
  kw_wait : forall o x, In x (lists k (Wait o)) -> own x /\
    exists t, threads k !! x = Some t /\ st t = RT_THREAD_SUSPEND;
  kw_wait1 : forall o o' x, In x (lists k (Wait o)) -> In x (lists k (Wait o')) -> o = o';
  kw_nodup : forall i, i <> Defunct -> List.NoDup (lists k i);
  kw_group : forall p, 0 <= p < 32 -> Z.testbit (group k) p = true <-> lists k (Ready p) <> [];
  kw_u32 : is_u32 (group k);
  kw_valid : forall x t, threads k !! x = Some t -> valid t;
  kw_run : forall x t, own x -> threads k !! x = Some t -> st t = RT_THREAD_RUNNING -> c = Some x }.

Definition kwf (k : kernel) : Prop := kwfx (fun _ => True) (current k) k.
Abbreviation koff x := (kwfx (fun y => y <> x)).

Lemma threads_alter f x k y : threads (with_threads (alter f x (threads k)) k) !! y
  = if decide (y = x) then f <$> threads k !! x else threads k !! y.
Proof.
  cbn [threads with_threads]. destruct (decide (y = x)) as [->|Hne].
  - by rewrite lookup_alter_eq.
  - by rewrite lookup_alter_ne by congruence.
Qed.

(** A change of a thread that keeps what the lists say about it. *)
Lemma kwfx_alter own c x f k : kwfx own c k ->
  (forall t, threads k !! x = Some t -> valid (f t) /\
     (own x -> st (f t) = st t /\ (st t = RT_THREAD_READY -> current_priority (f t) = current_priority t))) ->
  kwfx own c (with_threads (alter f x (threads k)) k).
Proof.
  intros [A1 A2 A3 A4 A5 A6 A7 A8 A9] Hf. split; try done.
  - intros p y Hin. destruct (A1 p y Hin) as (Ho & Hc & t & Et & Es & Ep). split; [done|]. split; [done|].
    rewrite threads_alter. destruct (decide (y = x)) as [->|]; [|by exists t]. rewrite Et. exists (f t).
    destruct (Hf t Et) as [_ Hs]. destruct (Hs Ho) as [-> Hp]. split_and!; [done|done|]. by rewrite Hp.
  - intros y t Ho. rewrite threads_alter. destruct (decide (y = x)) as [->|]; [|by apply A2].
    destruct (threads k !! x) as [t0|] eqn:E; [|done]. intros [= <-] Hr. destruct (Hf t0 eq_refl) as [_ Hs].
    destruct (Hs Ho) as [Es Hp]. rewrite Es in Hr. rewrite Hp by done. by apply A2.
  - intros o y Hin. destruct (A3 o y Hin) as (Ho & t & Et & Es). split; [done|]. rewrite threads_alter.
    destruct (decide (y = x)) as [->|]; [|by exists t]. rewrite Et. exists (f t). split; [done|].
    destruct (Hf t Et) as [_ Hs]. by rewrite (proj1 (Hs Ho)).
  - intros y t. rewrite threads_alter. destruct (decide (y = x)) as [->|]; [|by apply A8].
    destruct (threads k !! x) as [t0|] eqn:E; [|done]. intros [= <-]. by apply (Hf t0).
  - intros y t Ho. rewrite threads_alter. destruct (decide (y = x)) as [->|]; [|by apply A9].
    destruct (threads k !! x) as [t0|] eqn:E; [|done]. intros [= <-] Hr. destruct (Hf t0 eq_refl) as [_ Hs].
    rewrite (proj1 (Hs Ho)) in Hr. by apply (A9 x t0).
Qed.

(** A thread off the lists whose state says so belongs again. *)
Lemma koff_own x t c k : koff x c k -> threads k !! x = Some t ->
  st t <> RT_THREAD_READY -> (st t = RT_THREAD_RUNNING -> c = Some x) -> kwfx (fun _ => True) c k.
Proof.
  intros [A1 A2 A3 A4 A5 A6 A7 A8 A9] Et Hr Hc. split; try done.
  - intros p y Hin. by destruct (A1 p y Hin) as [_ ?].
  - intros y ty _ Ey Hy. destruct (decide (y = x)) as [->|]; [congruence|]. by apply A2.
  - intros o y Hin. by destruct (A3 o y Hin) as [_ ?].
  - intros y ty _ Ey Hy. destruct (decide (y = x)) as [->|]; [|by apply (A9 y ty)]. apply Hc. congruence.
Qed.

Lemma koff_notin x c k i : koff x c k -> i <> Defunct -> ~ In x (lists k i).
Proof.
  intros H Hi Hin. destruct i as [p|o|]; [|..|done].
  - by destruct (kw_row _ _ _ H p x Hin) as [? _].
  - by destruct (kw_wait _ _ _ H o x Hin) as [? _].
Qed.

(** Whose turn it is does not matter when no record runs. *)
Lemma koff_cur x c c' k : koff x c k -> c = Some x \/ c = None -> c' = Some x \/ c' = None -> koff x c' k.
Proof.
  intros [A1 A2 A3 A4 A5 A6 A7 A8 A9] Hc Hc'. split; try done.
  - intros p y Hin. destruct (A1 p y Hin) as (Ho & _ & Ht). split_and!; try done. destruct Hc' as [->| ->]; congruence.
  - intros y t Ho Et Er. specialize (A9 y t Ho Et Er). destruct Hc; congruence.
Qed.

Lemma with_current_wf own c k x p : kwfx own c k -> kwfx own c (with_current x p k).
Proof. intros []. by split. Qed.

(* ------------------------------------------------------------------ *)
(** ** The list operations *)

Lemma insert_current x t k : threads k !! x = Some t -> current k = Some x ->
  rt_schedule_insert_thread x k = Some (tt, with_threads (alter (set_st RT_THREAD_RUNNING) x (threads k)) k).
Proof.
  intros E C. unfold rt_schedule_insert_thread, bindM, thread_of, getM, upd, doM. rewrite E, C.
  by rewrite bool_decide_eq_true_2.
Qed.

Definition inserted (x : Z) (t : thread) (k : kernel) : kernel :=
  let k1 := with_threads (alter (set_st RT_THREAD_READY) x (threads k)) k in
  with_group (Z.lor (group k) (number_mask t))
    (list_set (Ready (current_priority t)) (lists k (Ready (current_priority t)) ++ [x]) k1).

Lemma insert_ready x t k : threads k !! x = Some t -> current k <> Some x ->
  rt_schedule_insert_thread x k = Some (tt, inserted x t k).
Proof.
  intros E C. unfold rt_schedule_insert_thread, bindM, thread_of, getM, upd, push_back, doM. rewrite E.
  by rewrite bool_decide_eq_false_2.
Qed.

Lemma inserted_wf x t c k : koff x c k -> threads k !! x = Some t -> live t -> c <> Some x ->
  kwfx (fun _ => True) c (inserted x t k).
Proof.
  intros W E Hi Hc. destruct (kw_valid _ _ _ W x t E) as (Hp & Hp0 & Hm). specialize (Hm Hi).
  pose proof (kw_u32 _ _ _ W) as Hu. set (p := current_priority t) in *.
  assert (forall y, threads (inserted x t k) !! y = if decide (y = x) then Some (set_st RT_THREAD_READY t) else threads k !! y) as Ht.
  { intros y. unfold inserted. cbn [threads with_group list_set with_lists]. rewrite threads_alter, E. done. }
  assert (forall i, lists (inserted x t k) i = if decide (i = Ready p) then lists k (Ready p) ++ [x] else lists k i) as Hl.
  { done. }
  assert (~ In x (lists k (Ready p))) as Hx by (by apply (koff_notin x c k)).
  split.
  - intros q y. rewrite Hl, Ht. intros Hin. assert (y = x /\ q = p \/ y <> x /\ In y (lists k (Ready q))) as [[-> ->]|[Hne Hy]].
    { destruct (decide (y = x)) as [->|Hne].
      - left. split; [done|]. destruct (decide (Ready q = Ready p)) as [[= ->]|]; [done|].
        by destruct (koff_notin x c k (Ready q) W ltac:(done)).
      - right. split; [done|]. destruct (decide (Ready q = Ready p)) as [[= ->]|]; [|done].
        apply in_app_iff in Hin as [?|[->|[]]]; done. }
    + rewrite decide_True by done. split_and!; try done. eexists. split_and!; [done|by apply st_set|done].
    + rewrite decide_False by done. destruct (kw_row _ _ _ W q y Hy) as (_ & ? & ?). done.
  - intros y ty _. rewrite Ht, Hl. destruct (decide (y = x)) as [->|Hne].
    + intros [= <-] _. cbn [set_st with_stat current_priority]. rewrite decide_True by done. apply in_app_iff. right. by left.
    + intros Ey Er. pose proof (kw_ready _ _ _ W y ty Hne Ey Er) as Hin.
      destruct (decide (Ready (current_priority ty) = Ready p)) as [[= E']|]; [|done].
      apply in_app_iff. left. by rewrite <- E'.
  - intros o y. rewrite Hl, Ht. cbn. intros Hin. destruct (kw_wait _ _ _ W o y Hin) as (Hne & Hy). by rewrite decide_False by done.
  - intros o o' y. rewrite !Hl. apply (kw_wait1 _ _ _ W).
  - intros i Hi'. rewrite Hl. pose proof (kw_nodup _ _ _ W i Hi') as N. destruct (decide (i = Ready p)) as [->|]; [|done].
    apply NoDup_ListNoDup. apply NoDup_app. apply NoDup_ListNoDup in N. split_and!; [done| |apply NoDup_singleton].
    intros y Hy ->%list_elem_of_singleton. by apply Hx, list_elem_of_In.
  - intros q Hq. change (group (inserted x t k)) with (Z.lor (group k) (number_mask t)). rewrite Hl, Hm, Z.lor_spec.
    rewrite Z.pow2_bits_eqb by lia. fold p. destruct (decide (Ready q = Ready p)) as [[= ->]|Hne].
    + rewrite Z.eqb_refl, orb_true_r. split; [|done]. intros _ [_ ?]%app_eq_nil. done.
    + rewrite (proj2 (Z.eqb_neq p q)) by congruence. rewrite orb_false_r. by apply (kw_group _ _ _ W).
  - change (group (inserted x t k)) with (Z.lor (group k) (number_mask t)). rewrite Hm. unfold is_u32 in *.
    split; [apply Z.lor_nonneg; split; [lia|apply Z.pow_nonneg; lia]|].
    change 4294967296 with (2 ^ 32). apply bits_lt; [lia|]. intros n Hn. rewrite Z.lor_spec, u32_bits_high, Z.pow2_bits_false by (done || lia). done.
  - intros y ty. rewrite Ht. destruct (decide (y = x)); [|by apply (kw_valid _ _ _ W)]. intros [= <-].
    split_and!; cbn; try lia. intros _. done.
  - intros y ty _. rewrite Ht. destruct (decide (y = x)) as [->|Hne]; [|by apply (kw_run _ _ _ W)].
    intros [= <-] Er. by rewrite st_set in Er.
Qed.

(** The state after [rt_schedule_remove_thread]. *)
Definition removed (x : Z) (t : thread) (k : kernel) : kernel :=
  let k1 := with_lists (fun i => unlink x (lists k i)) k in
  match unlink x (lists k (Ready (current_priority t))) with
  | [] => with_group (Z.ldiff (group k) (number_mask t)) k1
  | _ => k1
  end.

Lemma remove_eq x t k : threads k !! x = Some t -> rt_schedule_remove_thread x k = Some (tt, removed x t k).
Proof.
  intros E. unfold rt_schedule_remove_thread, removed, bindM, thread_of, list_remove, getM, doM, retM. rewrite E.
  cbn [lists with_lists group]. by destruct (unlink x _).
Qed.

Lemma removed_fields x t k : threads (removed x t k) = threads k /\ current (removed x t k) = current k /\
  lock_nest (removed x t k) = lock_nest k /\ forall i, lists (removed x t k) i = unlink x (lists k i).
Proof. unfold removed. by destruct (unlink x _). Qed.

Lemma unlink_wf own c x k : kwfx own c k ->
  (forall t, threads k !! x = Some t -> own x -> st t <> RT_THREAD_READY) ->
  kwfx (fun y => own y /\ y <> x) c (with_lists (fun i => unlink x (lists k i)) k).
Proof.
  intros [A1 A2 A3 A4 A5 A6 A7 A8 A9] Hr. assert (forall p, unlink x (lists k (Ready p)) = lists k (Ready p)) as Hp.
  { intros p. apply unlink_notin. intros Hin. destruct (A1 p x Hin) as (Ho & _ & t & Et & Er & _). by eapply Hr. }
  split; cbn [lists with_lists threads group].
  - intros p y. rewrite Hp. intros Hin. destruct (A1 p y Hin) as (Ho & Hc & t & Et & Er & Ep). split_and!; try done; [|by exists t].
    intros ->. by eapply Hr.
  - intros y t [Ho Hy] Et Er. rewrite Hp. by apply A2.
  - intros o y [Hin Hy]%in_unlink. destruct (A3 o y Hin) as (Ho & ?). done.
  - intros o o' y [Hin _]%in_unlink [Hin' _]%in_unlink. by apply (A4 o o' y).
  - intros i Hi. by apply NoDup_unlink, A5.
  - intros p. rewrite Hp. apply A6.
  - done.
  - done.
  - intros y t [Ho _]. by apply A9.
Qed.

Lemma removed_wf c x t k : kwfx (fun _ => True) c k -> threads k !! x = Some t -> live t ->
  koff x c (removed x t k).
Proof.
  intros W E Hi. pose proof W as [A1 A2 A3 A4 A5 A6 A7 A8 A9].
  destruct (removed_fields x t k) as (F1 & F2 & F3 & F4).
  destruct (A8 x t E) as (Hp & _ & Hm). specialize (Hm Hi). set (p := current_priority t) in *.
  assert (forall q, q <> p -> unlink x (lists k (Ready q)) = lists k (Ready q)) as Hq.
  { intros q Hq. apply unlink_notin. intros Hin. destruct (A1 q x Hin) as (_ & _ & t' & Et & _ & Ep).
    rewrite E in Et. injection Et as <-. by apply Hq. }
  split; rewrite ?F1.
  - intros q y. rewrite F4. intros [Hin Hy]%in_unlink. destruct (A1 q y Hin) as (_ & Hc & Ht). done.
  - intros y ty Hy Ey Er. rewrite F4. apply in_unlink. split; [|done]. by apply A2.
  - intros o y. rewrite F4. intros [Hin Hy]%in_unlink. by destruct (A3 o y Hin) as [_ ?].
  - intros o o' y. rewrite !F4. intros [Hin _]%in_unlink [Hin' _]%in_unlink. by apply (A4 o o' y).
  - intros i Hi'. rewrite F4. by apply NoDup_unlink, A5.
  - intros q Hq0. rewrite F4. unfold removed. fold p. destruct (unlink x (lists k (Ready p))) as [|z r] eqn:El; cbn [group with_group with_lists].
    + rewrite Hm, Z.ldiff_spec, Z.pow2_bits_eqb by lia. fold p. destruct (Z.eqb_spec p q) as [<-|Hne].
      * rewrite El, andb_false_r. done.
      * rewrite Hq, andb_true_r by congruence. by apply A6.
    + destruct (Z.eq_dec q p) as [->|Hne]; [|rewrite Hq by done; by apply A6]. rewrite El.
      split; [done|]. intros _. apply A6; [done|]. intros En. rewrite En in El. done.
  - unfold removed. destruct (unlink x _); [|done]. cbn [group with_group with_lists]. unfold is_u32 in *.
    split; [apply Z.ldiff_nonneg; left; lia|]. change 4294967296 with (2 ^ 32). apply bits_lt; [lia|]. intros n Hn.
    rewrite Z.ldiff_spec, u32_bits_high by done. done.
  - done.
  - intros y ty _. by apply A9.
Qed.

(** A thread that changes its priority while it is off the lists. *)
Lemma koff_alter x f c k : koff x c k -> (forall t, threads k !! x = Some t -> valid (f t)) ->
  koff x c (with_threads (alter f x (threads k)) k).
Proof. intros W Hf. apply kwfx_alter; [done|]. intros t Et. split; [auto|done]. Qed.

Lemma valid_st v t : 0 < v < 8 -> valid t -> live t -> valid (set_st v t).
Proof. intros Hv (H1 & H2 & H3) Hi. split_and!; cbn; auto; lia. Qed.

(** Putting a suspended thread on the list of an object. *)
Lemma wait_insert c k o x t l1 l2 : kwfx (fun _ => True) c k -> threads k !! x = Some t -> st t = RT_THREAD_SUSPEND ->
  (forall i, i <> Defunct -> ~ In x (lists k i)) -> lists k (Wait o) = l1 ++ l2 ->
  kwfx (fun _ => True) c (list_set (Wait o) (l1 ++ x :: l2) k).
Proof.
  intros [A1 A2 A3 A4 A5 A6 A7 A8 A9] Et Es Hno El.
  assert (forall p, lists (list_set (Wait o) (l1 ++ x :: l2) k) (Ready p) = lists k (Ready p)) as Hp by done.
  assert (forall o' y, In y (lists (list_set (Wait o) (l1 ++ x :: l2) k) (Wait o')) ->
    y = x /\ o' = o \/ In y (lists k (Wait o'))) as Hw.
  { intros o' y. cbn. destruct (decide (Wait o' = Wait o)) as [[= ->]|]; [|auto]. rewrite El, !in_app_iff. cbn [In]. intuition congruence. }
  split; try done.
  - intros o' y [[-> ->]|Hin]%Hw; [split; [done|by exists t]|by apply (A3 o')].
  - intros o1 o2 y [[-> ->]|H1]%Hw [[E ->]|H2]%Hw; try done.
    + by destruct (Hno (Wait o2)).
    + subst. by destruct (Hno (Wait o1)).
    + by apply (A4 o1 o2 y).
  - intros i Hi. cbn. destruct (decide (i = Wait o)) as [->|]; [|by apply A5].
    apply NoDup_ListNoDup. specialize (A5 (Wait o) ltac:(done)). apply NoDup_ListNoDup in A5. rewrite El in A5.
    rewrite <- (Permutation_middle l1 l2 x). constructor; [|done]. rewrite <- El, list_elem_of_In. by apply Hno.
Qed.

(** The defunct list holds anything. *)
Lemma defunct_wf own c k l : kwfx own c k -> kwfx own c (list_set Defunct l k).
Proof. intros [? ? ? ? N ? ? ? ?]. split; try done. intros i Hi. cbn. rewrite decide_False by done. by apply N. Qed.

(* ------------------------------------------------------------------ *)
(** ** The operations keep the invariant *)

(** What every operation keeps of the threads that exist. *)
Definition same_ids (k k' : kernel) : Prop := forall x, is_Some (threads k !! x) <-> is_Some (threads k' !! x).

Record kstep_ok (k k' : kernel) : Prop := {
  ks_wf : kwf k'; ks_ids : same_ids k k'; ks_cur : is_Some (current k) -> is_Some (current k') }.

Lemma same_ids_alter f x k k' : same_ids k k' -> same_ids k (with_threads (alter f x (threads k')) k').
Proof.
  intros H y. rewrite threads_alter, (H y). destruct (decide (y = x)) as [->|]; [|done]. by rewrite fmap_is_Some.
Qed.

Lemma same_ids_eq k k' : threads k' = threads k -> same_ids k k'.
Proof. by intros E y; rewrite E. Qed.

Lemma same_ids_trans k1 k2 k3 : same_ids k1 k2 -> same_ids k2 k3 -> same_ids k1 k3.
Proof. intros A B x. by rewrite (A x), (B x). Qed.

(** The ready threads are those of the rows; the highest is at the head of the
    row the bitmap names. *)
Lemma highest_spec c k : kwfx (fun _ => True) c k -> group k <> 0 ->
  exists x r p t, 0 <= p < 32 /\ _get_highest_priority_thread k = Some ((x, p), k) /\ lists k (Ready p) = x :: r /\
    threads k !! x = Some t /\ st t = RT_THREAD_READY /\ current_priority t = p /\ c <> Some x /\
    forall q, 0 <= q < p -> lists k (Ready q) = [].
Proof.
  intros W Hg. destruct (__rt_ffs_spec (group k) (kw_u32 _ _ _ W) Hg) as (p & Hp & Ef & Eb & Hq).
  unfold _get_highest_priority_thread. rewrite Ef. replace (p + 1 - 1) with p by lia.
  destruct (lists k (Ready p)) as [|x r] eqn:El; [by apply (kw_group _ _ _ W p Hp) in Eb|].
  destruct (kw_row _ _ _ W p x) as (_ & Hc & t & Et & Es & Ep); [rewrite El; by left|].
  exists x, r, p, t. split_and!; try done; try lia. intros q Hq'.
  destruct (lists k (Ready q)) as [|z l] eqn:Eq; [done|]. specialize (Hq q Hq').
  assert (Z.testbit (group k) q = true) as H by (apply (kw_group _ _ _ W); [lia|by rewrite Eq]). congruence.
Qed.

Lemma group_zero c k : kwfx (fun _ => True) c k -> group k = 0 -> forall x t, threads k !! x = Some t -> st t <> RT_THREAD_READY.
Proof.
  intros W Hg x t Et Er. pose proof (kw_ready _ _ _ W x t I Et Er) as Hin. destruct (kw_valid _ _ _ W x t Et) as (Hp & _).
  assert (Z.testbit (group k) (current_priority t) = true) as H.
  { apply (kw_group _ _ _ W); [done|]. intros E. by rewrite E in Hin. }
  by rewrite Hg, Z.testbit_0_l in H.
Qed.

Lemma own_off x c k : kwfx (fun _ => True) c k -> (forall i, i <> Defunct -> ~ In x (lists k i)) -> koff x c k.
Proof.
  intros [A1 A2 A3 A4 A5 A6 A7 A8 A9] Hno. split; try done.
  - intros p y Hin. destruct (A1 p y Hin) as (_ & ? & ?). split_and!; try done. intros ->. by apply (Hno (Ready p)).
  - intros y t _. by apply A2.
  - intros o y Hin. destruct (A3 o y Hin) as (_ & ?). split; [|done]. intros ->. by apply (Hno (Wait o)).
  - intros y t _. by apply A9.
Qed.

Lemma off_lists x t c k : kwfx (fun _ => True) c k -> threads k !! x = Some t ->
  st t <> RT_THREAD_READY -> st t <> RT_THREAD_SUSPEND -> forall i, i <> Defunct -> ~ In x (lists k i).
Proof.
  intros W E Hr Hs i Hi Hin. destruct i as [p|o|]; [| |done].
  - destruct (kw_row _ _ _ W p x Hin) as (_ & _ & t' & E' & ? & _). congruence.
  - destruct (kw_wait _ _ _ W o x Hin) as (_ & t' & E' & ?). congruence.
Qed.

Lemma cur_none c k : kwfx (fun _ => True) c k -> (forall x t, c = Some x -> threads k !! x = Some t -> st t <> RT_THREAD_RUNNING) ->
  kwfx (fun _ => True) None k.
Proof.
  intros W Hc. pose proof W as [A1 A2 A3 A4 A5 A6 A7 A8 A9]. split; try done.
  - intros p y Hin. by destruct (A1 p y Hin) as (_ & _ & ?).
  - intros y t _ Et Er. specialize (A9 y t I Et Er). by destruct (Hc y t).
Qed.

(** The rows after the thread at the head of row [p] got the processor from
    [from], which ran at priority [q]. *)
Definition switched_rows (k : kernel) (p : Z) (r : list Z) (from : option (Z * Z)) (i : Z) : list Z :=
  (if i =? p then r else lists k (Ready i)) ++
  match from with Some (x, q) => if i =? q then [x] else [] | None => [] end.

Definition runnable (t : thread) : Prop := st t = RT_THREAD_READY \/ st t = RT_THREAD_RUNNING.

(** What a thread keeps when its state byte changes. *)
Definition alike (t t' : thread) : Prop :=
  current_priority t' = current_priority t /\ error t' = error t /\ timer_on t' = timer_on t /\
  init_priority t' = init_priority t.

Lemma alike_trans t1 t2 t3 : alike t1 t2 -> alike t2 t3 -> alike t1 t3.
Proof. intros (A1 & A2 & A3 & A4) (B1 & B2 & B3 & B4). split_and!; congruence. Qed.

Record scheduled (k k' : kernel) (cur : Z) (tc : thread) : Prop := {
  sd_ok : kstep_ok k k'; sd_lock : lock_nest k' = lock_nest k;
  sd_run : exists x t, current k' = Some x /\ threads k' !! x = Some t /\ st t = RT_THREAD_RUNNING /\
    (forall y ty, threads k' !! y = Some ty -> st ty = RT_THREAD_READY -> current_priority t <= current_priority ty) /\
    (x = cur /\ (forall i, i <> Defunct -> lists k' i = lists k i) \/
     x <> cur /\ exists r, lists k (Ready (current_priority t)) = x :: r /\
       (forall p, lists k' (Ready p) = switched_rows k (current_priority t) r
          (if st tc =? RT_THREAD_RUNNING then Some (cur, current_priority tc) else None) p) /\
       (forall o, lists k' (Wait o) = lists k (Wait o)) /\
       (st tc = RT_THREAD_RUNNING -> current_priority t < current_priority tc \/
          current_priority t = current_priority tc /\ yields tc = true));
  sd_same : forall y ty, threads k !! y = Some ty -> exists ty', threads k' !! y = Some ty' /\
    alike ty ty' /\ (~ runnable ty -> st ty' = st ty) /\ (runnable ty -> runnable ty') }.

(** The thread [to] at the head of row [p] takes the processor: [k2] is the
    state in which [from] is off it. *)
Lemma switch_spec k2 to r p t : kwfx (fun _ => True) None k2 -> current k2 = Some to -> threads k2 !! to = Some t ->
  st t = RT_THREAD_READY -> current_priority t = p -> (exists s, lists k2 (Ready p) = to :: r ++ s) ->
  let k3 := removed to t k2 in
  let k4 := with_threads (alter (set_st RT_THREAD_RUNNING) to (threads k3)) k3 in
  kwf k4 /\ same_ids k2 k4 /\ lists k4 (Ready p) = tail (lists k2 (Ready p)) /\
  forall i, i <> Ready p -> i <> Defunct -> lists k4 i = lists k2 i.
Proof.
  intros W Ec Et Er Ep [s El] k3 k4. destruct (removed_fields to t k2) as (F1 & F2 & F3 & F4). fold k3 in F1, F2, F3, F4.
  assert (koff to None k3) as W3 by (apply removed_wf; [done|done|by rewrite Er]).
  split_and!.
  - apply (koff_own to (set_st RT_THREAD_RUNNING t)).
    + apply koff_alter; [|intros t' E'; apply valid_st; [done|apply (kw_valid _ _ _ W3 to t' E')|]].
      * apply (koff_cur to None); [done|by right|left]. by rewrite <- Ec, <- F2.
      * rewrite F1, Et in E'. injection E' as <-. by rewrite Er.
    + unfold k4. rewrite threads_alter, decide_True, F1, Et by done. done.
    + by rewrite st_set.
    + intros _. unfold k4. cbn [current with_threads]. by rewrite F2.
  - apply same_ids_alter, same_ids_eq. done.
  - unfold k4. cbn [lists with_threads]. rewrite F4, El. cbn [tail].
    pose proof (kw_nodup _ _ _ W (Ready p) ltac:(done)) as N. rewrite El in N. inversion N as [|a l Hn _]; subst a l.
    unfold unlink. cbn [List.filter]. rewrite Z.eqb_refl. cbn [negb]. by apply unlink_notin.
  - intros i Hi Hd. unfold k4. cbn [lists with_threads]. rewrite F4. apply unlink_notin. intros Hin.
    destruct i as [q|o|]; [| |done].
    + destruct (kw_row _ _ _ W q to Hin) as (_ & _ & t' & E' & _ & Eq). rewrite Et in E'. injection E' as <-. congruence.
    + destruct (kw_wait _ _ _ W o to Hin) as (_ & t' & E' & Es). rewrite Et in E'. injection E' as <-. by rewrite Er in Es.
Qed.

Lemma upd_eq x f k : upd x f k = Some (tt, with_threads (alter f x (threads k)) k).
Proof. done. Qed.

(** The part of [rt_schedule] that switches. *)
Lemma switch_eq k0 from to r p t tc (b : bool) : kwfx (fun _ => True) (Some from) k0 -> to <> from ->
  lists k0 (Ready p) = to :: r -> threads k0 !! to = Some t -> st t = RT_THREAD_READY -> current_priority t = p ->
  threads k0 !! from = Some tc -> (st tc =? RT_THREAD_RUNNING) = b ->
  exists k', (do! doM (with_current to (u8 p)) in
     do! (if b then rt_schedule_insert_thread from else retM tt) in
     do! rt_schedule_remove_thread to in upd to (set_st RT_THREAD_RUNNING)) k0 = Some (tt, k') /\
    kwf k' /\ same_ids k0 k' /\ lock_nest k' = lock_nest k0 /\ current k' = Some to /\
    (forall i, lists k' (Ready i) = switched_rows k0 p r (if b then Some (from, current_priority tc) else None) i) /\
    (forall o, lists k' (Wait o) = lists k0 (Wait o)) /\ lists k' Defunct = unlink to (lists k0 Defunct) /\
    threads k' = alter (set_st RT_THREAD_RUNNING) to (if b then alter (set_st RT_THREAD_READY) from (threads k0) else threads k0).
Proof.
  intros W Hne El Et Er Ep Ef Hb. set (k1 := with_current to (u8 p) k0).
  assert (exists k2, (if b then rt_schedule_insert_thread from else retM tt) k1 = Some (tt, k2) /\
    kwfx (fun _ => True) None k2 /\ same_ids k0 k2 /\ lock_nest k2 = lock_nest k0 /\ current k2 = Some to /\
    threads k2 = (if b then alter (set_st RT_THREAD_READY) from (threads k0) else threads k0) /\
    (forall i, lists k2 (Ready i) = lists k0 (Ready i) ++ (if b then if i =? current_priority tc then [from] else [] else [])) /\
    forall i, (forall p, i <> Ready p) -> lists k2 i = lists k0 i) as (k2 & E2 & W2 & I2 & L2 & C2 & T2 & R2 & O2).
  { destruct b.
    - apply Z.eqb_eq in Hb. rewrite (insert_ready from tc) by (done || by intros [= ->]).
      exists (inserted from tc k1). split; [done|]. split.
      { apply inserted_wf; [|done|by rewrite Hb|done]. apply (koff_cur from (Some from)); [|by left|by right].
        apply with_current_wf. apply own_off; [done|]. apply (off_lists from tc (Some from)); try done; by rewrite Hb. }
      split_and!; try done.
      + intros y. change (is_Some (threads k0 !! y) <-> is_Some (alter (set_st RT_THREAD_READY) from (threads k0) !! y)).
        destruct (decide (y = from)) as [->|]; [|by rewrite lookup_alter_ne by congruence]. by rewrite lookup_alter_eq, fmap_is_Some.
      + intros i. cbn. destruct (decide (Ready i = Ready (current_priority tc))) as [[= ->]|Hi].
        * by rewrite Z.eqb_refl.
        * by rewrite (proj2 (Z.eqb_neq i _)), app_nil_r by congruence.
      + intros i Hi. cbn. by rewrite decide_False by done.
    - exists k1. split_and!; try done.
      + apply with_current_wf, (cur_none (Some from)); [done|]. intros y ty [= ->] Ey. rewrite Ef in Ey. injection Ey as <-.
        by apply Z.eqb_neq.
      + intros i. by rewrite app_nil_r. }
  assert (threads k2 !! to = Some t) as Et2.
  { rewrite T2. destruct b; [|done]. by rewrite lookup_alter_ne by congruence. }
  destruct (switch_spec k2 to r p t W2 C2 Et2 Er Ep) as (W4 & I4 & R4 & O4).
  { rewrite R2, El. eexists. cbn [app]. done. }
  destruct (removed_fields to t k2) as (F1 & F2 & F3 & F4).
  eexists. rewrite bindM_doM. fold k1. rewrite (bindM_some _ _ k1 tt k2 E2).
  rewrite (bindM_some _ _ k2 tt (removed to t k2)) by (by apply remove_eq). split; [apply upd_eq|].
  split_and!; try done.
  - by eapply same_ids_trans.
  - cbn [lock_nest with_threads]. by rewrite F3.
  - cbn [current with_threads]. by rewrite F2.
  - intros i. unfold switched_rows. destruct (Z.eqb_spec i p) as [->|Hi].
    + rewrite R4, R2, El. cbn [app tail]. by destruct b.
    + rewrite O4, R2 by (done || congruence). by destruct b.
  - intros o. rewrite O4, O2 by done. done.
  - cbn [lists with_threads]. rewrite F4, O2 by done. done.
  - cbn [threads with_threads]. by rewrite F1, T2.
Qed.

Lemma keep_eq k0 from tc : kwfx (fun _ => True) (Some from) k0 -> threads k0 !! from = Some tc ->
  st tc = RT_THREAD_RUNNING -> current k0 = Some from ->
  exists k', (do! rt_schedule_remove_thread from in upd from (set_st RT_THREAD_RUNNING)) k0 = Some (tt, k') /\
    kwf k' /\ same_ids k0 k' /\ lock_nest k' = lock_nest k0 /\ current k' = Some from /\
    (forall i, i <> Defunct -> lists k' i = lists k0 i) /\
    threads k' = alter (set_st RT_THREAD_RUNNING) from (threads k0).
Proof.
  intros W Ef Hr Hc. destruct (removed_fields from tc k0) as (F1 & F2 & F3 & F4).
  assert (koff from (Some from) (removed from tc k0)) as W1 by (apply removed_wf; [done|done|by rewrite Hr]).
  rewrite (bindM_some _ _ k0 tt (removed from tc k0)) by (by apply remove_eq).
  eexists. split; [apply upd_eq|]. split_and!.
  - unfold kwf. cbn [current with_threads]. rewrite F2, Hc. apply (koff_own from (set_st RT_THREAD_RUNNING tc)).
    + apply koff_alter; [done|]. intros t' E'. apply valid_st; [done|by apply (kw_valid _ _ _ W1 from)|].
      rewrite F1, Ef in E'. injection E' as <-. by rewrite Hr.
    + by rewrite threads_alter, decide_True, F1, Ef by done.
    + by rewrite st_set.
    + done.
  - apply same_ids_alter, same_ids_eq. done.
  - done.
  - cbn [current with_threads]. by rewrite F2.
  - intros i Hi. cbn [lists with_threads]. rewrite F4. apply unlink_notin.
    apply (off_lists from tc (Some from) k0); try done; by rewrite Hr.
  - cbn [threads with_threads]. by rewrite F1.
Qed.

(** A new thread. *)
Lemma kwfx_insert c k x t : kwfx (fun _ => True) c k -> threads k !! x = None -> valid t ->
  koff x c (with_threads (<[x := t]> (threads k)) k).
Proof.
  intros [A1 A2 A3 A4 A5 A6 A7 A8 A9] E Hv.
  assert (forall y ty, threads k !! y = Some ty -> y <> x /\ <[x := t]> (threads k) !! y = Some ty) as H.
  { intros y ty Ey. assert (y <> x) by congruence. by rewrite lookup_insert_ne. }
  split; try done; cbn [threads with_threads].
  - intros p y Hin. destruct (A1 p y Hin) as (_ & Hc & ty & Ey & Hs). destruct (H y ty Ey). split_and!; try done. by exists ty.
  - intros y ty Hy. rewrite lookup_insert_ne by done. by apply A2.
  - intros o y Hin. destruct (A3 o y Hin) as (_ & ty & Ey & Hs). destruct (H y ty Ey). split; [done|]. by exists ty.
  - intros y ty. destruct (decide (y = x)) as [->|Hne]; [rewrite lookup_insert_eq; by intros [= <-]|].
    rewrite lookup_insert_ne by done. by apply A8.
  - intros y ty Hy. rewrite lookup_insert_ne by done. by apply A9.
Qed.

Lemma alter_alike (f : thread -> thread) (m : gmap Z thread) x y t : (forall t, alike t (f t)) -> m !! y = Some t ->
  exists t', alter f x m !! y = Some t' /\ alike t t' /\ (y <> x -> t' = t).
Proof.
  intros Hf E. destruct (decide (y = x)) as [->|Hne].
  - rewrite lookup_alter_eq, E. exists (f t). split_and!; [done|apply Hf|done].
  - rewrite lookup_alter_ne by congruence. exists t. done.
Qed.

Lemma switched_scheduled k k' cur x r p t tc : kwf k -> current k = Some cur -> threads k !! cur = Some tc ->
  lists k (Ready p) = x :: r -> threads k !! x = Some t -> st t = RT_THREAD_READY -> current_priority t = p -> x <> cur ->
  (forall q, 0 <= q < p -> lists k (Ready q) = []) ->
  (st tc = RT_THREAD_RUNNING -> keeps tc p = false) ->
  kwf k' -> same_ids k k' -> lock_nest k' = lock_nest k -> current k' = Some x ->
  (forall i, lists k' (Ready i) = switched_rows k p r (if st tc =? RT_THREAD_RUNNING then Some (cur, current_priority tc) else None) i) ->
  (forall o, lists k' (Wait o) = lists k (Wait o)) ->
  threads k' = alter (set_st RT_THREAD_RUNNING) x
    (if st tc =? RT_THREAD_RUNNING then alter (set_st RT_THREAD_READY) cur (alter clear_yield cur (threads k)) else threads k) ->
  scheduled k k' cur tc.
Proof.
  intros W Ec Etc El Et Er Ep Hne Hq Hk W' I' L' C' R' O' T'.
  assert (forall y ty, threads k !! y = Some ty -> exists ty', threads k' !! y = Some ty' /\ alike ty ty' /\
    (y <> x -> y <> cur \/ st tc <> RT_THREAD_RUNNING -> ty' = ty)) as Hsame.
  { intros y ty Ey. rewrite T'. destruct (Z.eqb_spec (st tc) RT_THREAD_RUNNING) as [Hr|Hr].
    - destruct (alter_alike clear_yield (threads k) cur y ty ltac:(done) Ey) as (t1 & E1 & A1 & B1).
      destruct (alter_alike (set_st RT_THREAD_READY) _ cur y t1 ltac:(done) E1) as (t2 & E2 & A2 & B2).
      destruct (alter_alike (set_st RT_THREAD_RUNNING) _ x y t2 ltac:(done) E2) as (t3 & E3 & A3 & B3).
      exists t3. split; [done|]. split; [by eapply alike_trans, A3; eapply alike_trans|].
      intros H1 [H2|]; [|done]. by rewrite B3, B2, B1.
    - destruct (alter_alike (set_st RT_THREAD_RUNNING) (threads k) x y ty ltac:(done) Ey) as (t3 & E3 & A3 & B3).
      exists t3. split_and!; try done. intros H1 _. by apply B3. }
  destruct (Hsame x t Et) as (tx & Etx & (Epx & _) & _).
  assert (st tx = RT_THREAD_RUNNING) as Hrx.
  { rewrite T' in Etx. rewrite lookup_alter_eq in Etx. apply fmap_Some in Etx as (t0 & _ & ->). by apply st_set. }
  split; [by split|done| |].
  - exists x, tx. split_and!; try done.
    + intros y ty Ey Eyr. pose proof (kw_ready _ _ _ W' y ty I Ey Eyr) as Hin. destruct (kw_valid _ _ _ W' y ty Ey) as (Hv & _).
      rewrite Epx, Ep. apply Z.nlt_ge. intros Hlt. rewrite R' in Hin. unfold switched_rows in Hin.
      rewrite (proj2 (Z.eqb_neq _ p)), Hq in Hin by lia. cbn [app] in Hin.
      destruct (Z.eqb_spec (st tc) RT_THREAD_RUNNING) as [Hr|]; [|done]. specialize (Hk Hr).
      destruct (Z.eqb_spec (current_priority ty) (current_priority tc)); [|done].
      unfold keeps in Hk. apply orb_false_iff in Hk as [Hk%Z.ltb_ge _]. lia.
    + right. split; [done|]. exists r. rewrite Epx, Ep. split_and!; try done. intros Hr. specialize (Hk Hr).
      unfold keeps in Hk. apply orb_false_iff in Hk as [Hk1%Z.ltb_ge Hk2].
      destruct (Z.eqb_spec (current_priority tc) p); [|left; lia]. right. split; [done|]. by apply negb_false_iff in Hk2.
  - intros y ty Ey. destruct (Hsame y ty Ey) as (ty' & Ey' & A & B). exists ty'. split_and!; [done|done|..].
    + intros Hs. rewrite B; [done| |].
      * intros ->. rewrite Et in Ey. injection Ey as <-. destruct Hs. by left.
      * destruct (decide (y = cur)) as [->|]; [|by left]. right. rewrite Etc in Ey. injection Ey as <-. intros Hr. destruct Hs. by right.
    + intros Hs. destruct (decide (y = x)) as [->|Hyx]; [right; congruence|].
      destruct (decide (y = cur)) as [->|Hyc]; [|rewrite B by auto; done].
      destruct (Z.eqb_spec (st tc) RT_THREAD_RUNNING) as [Hr|Hr]; [|rewrite B by auto; done].
      left. rewrite T', lookup_alter_ne in Ey' by congruence. rewrite lookup_alter_eq in Ey'.
      apply fmap_Some in Ey' as (t0 & _ & ->). by apply st_set.
Qed.

Lemma rt_schedule_spec k cur tc : kwf k -> current k = Some cur -> threads k !! cur = Some tc -> lock_nest k = 0 ->
  st tc = RT_THREAD_RUNNING \/ group k <> 0 ->
  exists k', rt_schedule k = Some (tt, k') /\ scheduled k k' cur tc.
Proof.
  intros W Ec Et Hl Hrun. unfold rt_schedule. rewrite Hl. cbn [Z.eqb negb].
  unfold kwf in W. rewrite Ec in W.
  destruct (Z.eqb_spec (group k) 0) as [Hg|Hg].
  { destruct Hrun as [Hrun|]; [|done]. exists k. split; [done|]. split; [|done| |].
    - split; [by unfold kwf; rewrite Ec|done|done].
    - exists cur, tc. split_and!; try done; [|by left].
      intros y ty Ey Er. by destruct (group_zero _ _ W Hg y ty Ey).
    - intros y ty Ey. exists ty. done. }
  destruct (highest_spec _ _ W Hg) as (x & r & p & t & Hp & Eh & El & Ex & Er & Epx & Hcx & Hq).
  rewrite (bindM_some _ _ k _ k Eh). cbn [fst snd].
  rewrite (bindM_some _ _ k cur k) by (unfold rt_thread_self; by rewrite Ec).
  rewrite (bindM_some _ _ k tc k) by (unfold thread_of; by rewrite Et).
  assert (x <> cur) as Hne by congruence. assert (kwf k) as Wk by (unfold kwf; by rewrite Ec).
  destruct (Z.eqb_spec (st tc) RT_THREAD_RUNNING) as [Hr|Hr]; cbn [andb].
  2: { unfold bindM at 1, retM at 1. rewrite (proj2 (Z.eqb_neq x cur)) by done. cbn [negb].
       destruct (switch_eq k cur x r p t tc false W Hne El Ex Er Epx Et ltac:(by apply Z.eqb_neq))
         as (k' & E & W' & I' & L' & C' & R' & O' & D' & T').
       exists k'. split; [exact E|].
       eapply (switched_scheduled k k' cur x r p t tc); try done; by rewrite (proj2 (Z.eqb_neq _ _) Hr). }
  rewrite (bindM_some _ _ k tt _ (upd_eq cur clear_yield k)). set (k1 := with_threads _ k).
  assert (kwfx (fun _ => True) (Some cur) k1) as W1.
  { apply kwfx_alter; [done|]. intros t' E'. rewrite Et in E'. injection E' as <-. split; [|by rewrite st_clear_yield].
    destruct (kw_valid _ _ _ W cur tc Et) as (V1 & V2 & V3). split_and!; cbn; try lia. by rewrite st_clear_yield. }
  assert (threads k1 !! cur = Some (clear_yield tc)) as Et1 by (unfold k1; by rewrite threads_alter, decide_True, Et).
  assert (threads k1 !! x = Some t) as Ex1 by (unfold k1; by rewrite threads_alter, decide_False).
  destruct (keeps tc p) eqn:Hk.
  - rewrite Z.eqb_refl. cbn [negb].
    destruct (keep_eq k1 cur (clear_yield tc) W1 Et1) as (k' & E & W' & I' & L' & C' & R' & T'); [by rewrite st_clear_yield|done|].
    exists k'. split; [exact E|].
    assert (same_ids k k1) as I1 by (by apply same_ids_alter, same_ids_eq).
    assert (forall y ty, threads k !! y = Some ty -> exists ty', threads k' !! y = Some ty' /\ alike ty ty' /\ (y <> cur -> ty' = ty)) as Hsame.
    { intros y ty Ey. rewrite T'. destruct (alter_alike clear_yield (threads k) cur y ty ltac:(done) Ey) as (t1 & E1 & A1 & B1).
      destruct (alter_alike (set_st RT_THREAD_RUNNING) _ cur y t1 ltac:(done) E1) as (t2 & E2 & A2 & B2).
      exists t2. split; [done|]. split; [by eapply alike_trans|]. intros H1. by rewrite B2, B1. }
    destruct (Hsame cur tc Et) as (tc' & Etc' & (Ap & _) & _).
    split; [split; [done|by eapply same_ids_trans|done]|done| |].
    + exists cur, tc'. split_and!; try done.
      * rewrite T', lookup_alter_eq, Et1 in Etc'. injection Etc' as <-. by apply st_set.
      * intros y ty Ey Ey'. rewrite Ap. pose proof (kw_ready _ _ _ W' y ty I Ey Ey') as Hin. rewrite R' in Hin by done.
        change (lists k1) with (lists k) in Hin. destruct (kw_valid _ _ _ W' y ty Ey) as (Hv & _).
        assert (p <= current_priority ty).
        { apply Z.nlt_ge. intros Hlt. rewrite Hq in Hin by lia. done. }
        unfold keeps in Hk. apply orb_true_iff in Hk as [Hk%Z.ltb_lt|[Hk%Z.eqb_eq _]%andb_true_iff]; lia.
      * left. split; [done|]. intros i Hi. by rewrite R'.
    + intros y ty Ey. destruct (Hsame y ty Ey) as (ty' & Ey' & A & B). exists ty'. split_and!; [done|done|..].
      * intros Hs. rewrite B; [done|]. intros ->. rewrite Et in Ey. injection Ey as <-. destruct Hs. by right.
      * intros Hs. destruct (decide (y = cur)) as [->|Hyc]; [|by rewrite B]. right.
        rewrite T', lookup_alter_eq in Ey'. apply fmap_Some in Ey' as (t0 & _ & ->). by apply st_set.
  - rewrite (proj2 (Z.eqb_neq x cur)) by done. cbn [negb].
    destruct (switch_eq k1 cur x r p t (clear_yield tc) true W1 Hne El Ex1 Er Epx Et1) as (k' & E & W' & I' & L' & C' & R' & O' & D' & T').
    { by rewrite st_clear_yield, Hr. }
    exists k'. split; [exact E|].
    eapply (switched_scheduled k k' cur x r p t tc); try done; [|by rewrite Hr..].
    eapply same_ids_trans; [|exact I']. by apply same_ids_alter, same_ids_eq.
Qed.

(* ------------------------------------------------------------------ *)
(** ** Suspending and resuming *)

Lemma kwfx_ext (own own' : Z -> Prop) c k : (forall x, own x <-> own' x) -> kwfx own c k -> kwfx own' c k.
Proof.
  intros H [A1 A2 A3 A4 A5 A6 A7 A8 A9]. split; try done.
  - intros p x Hin. rewrite <- H. by apply A1.
  - intros x t Ho. apply A2. by apply H.
  - intros o x Hin. rewrite <- H. by apply (A3 o).
  - intros x t Ho. apply A9. by apply H.
Qed.

(** Only the thread [x] changes. *)
Definition others (x : Z) (k k' : kernel) : Prop := forall y, y <> x -> threads k' !! y = threads k !! y.

Record off_cpu (x : Z) (t t' : thread) (k k' : kernel) : Prop := {
  oc_wf : kwf k'; oc_cur : current k' = current k; oc_lock : lock_nest k' = lock_nest k;
  oc_lists : forall i, lists k' i = unlink x (lists k i);
  oc_thread : threads k' !! x = Some t'; oc_others : others x k k' }.

Lemma suspend_spec k x t : kwf k -> threads k !! x = Some t -> runnable t ->
  exists k' t', rt_thread_suspend x k = Some (RT_EOK, k') /\ off_cpu x t t' k k' /\
    st t' = RT_THREAD_SUSPEND /\ timer_on t' = false /\ error t' = error t /\ current_priority t' = current_priority t /\
    init_priority t' = init_priority t.
Proof.
  intros W E Hr. unfold rt_thread_suspend. rewrite (bindM_some _ _ k t k) by (unfold thread_of; by rewrite E).
  assert (negb (st t =? RT_THREAD_READY) && negb (st t =? RT_THREAD_RUNNING) = false) as ->.
  { destruct Hr as [-> | ->]; done. }
  rewrite bindM_getM. cbn [fst snd].
  assert ((st t =? RT_THREAD_RUNNING) && negb (bool_decide (current k = Some x)) = false) as ->.
  { destruct (Z.eqb_spec (st t) RT_THREAD_RUNNING) as [E'|]; [|done]. rewrite bool_decide_eq_true_2; [done|].
    by apply (kw_run _ _ _ W x t). }
  rewrite (bindM_some _ _ k tt _ (remove_eq x t k E)). destruct (removed_fields x t k) as (F1 & F2 & F3 & F4).
  assert (live t) as Hi by (by destruct Hr as [-> | ->]).
  pose proof (removed_wf (current k) x t k W E Hi) as W1. set (k1 := removed x t k) in *.
  eexists _, (with_timer false (set_st RT_THREAD_SUSPEND t)). split; [reflexivity|].
  set (k2 := with_threads (alter (set_st RT_THREAD_SUSPEND) x (threads k1)) k1).
  assert (threads k2 !! x = Some (set_st RT_THREAD_SUSPEND t)) as E2 by (unfold k2; by rewrite threads_alter, decide_True, F1, E).
  assert (koff x (current k) k2) as W2.
  { apply koff_alter; [done|]. intros t' E'. rewrite F1, E in E'. injection E' as <-.
    apply valid_st; [done|by apply (kw_valid _ _ _ W x)|done]. }
  assert (st (set_st RT_THREAD_SUSPEND t) = RT_THREAD_SUSPEND) as Es by (by apply st_set).
  assert (st (with_timer false (set_st RT_THREAD_SUSPEND t)) = RT_THREAD_SUSPEND) as Es' by exact Es.
  split_and!; try done. split; try done.
  - unfold kwf. cbn [current with_threads]. change (current k2) with (current k1). rewrite F2.
    apply kwfx_alter; [apply (koff_own x _ (current k) k2 W2 E2); by rewrite Es|].
    intros t' E'. split; [exact (kw_valid _ _ _ W2 x t' E')|done].
  - by rewrite (threads_alter _ x k2), decide_True, E2.
  - intros y Hy. rewrite (threads_alter _ x k2), decide_False by done. unfold k2. by rewrite threads_alter, decide_False, F1.
Qed.

Lemma suspend_refused k x t : threads k !! x = Some t -> ~ runnable t -> rt_thread_suspend x k = Some (- RT_ERROR, k).
Proof.
  intros E Hr. unfold rt_thread_suspend. rewrite (bindM_some _ _ k t k) by (unfold thread_of; by rewrite E).
  destruct (Z.eqb_spec (st t) RT_THREAD_READY); [by destruct Hr; left|].
  destruct (Z.eqb_spec (st t) RT_THREAD_RUNNING); [by destruct Hr; right|]. done.
Qed.

(** [t'] is the resumed thread: its place is the end of its row, or the
    processor when it did not leave it yet. *)
Record resumed (x : Z) (t t' : thread) (k k' : kernel) : Prop := {
  rs_wf : kwf k'; rs_cur : current k' = current k; rs_lock : lock_nest k' = lock_nest k;
  rs_ready : forall p, lists k' (Ready p) = lists k (Ready p) ++
    (if bool_decide (current k = Some x) then [] else if p =? current_priority t then [x] else []);
  rs_wait : forall o, lists k' (Wait o) = unlink x (lists k (Wait o));
  rs_thread : threads k' !! x = Some t'; rs_others : others x k k';
  rs_runnable : runnable t'; rs_prio : current_priority t' = current_priority t; rs_init : init_priority t' = init_priority t }.

(** A suspended thread off its list goes back to the ready ones. *)
Lemma reinsert_spec k x t t1 f : kwf k -> threads k !! x = Some t -> st t = RT_THREAD_SUSPEND -> t1 = f t ->
  stat t1 = stat t -> current_priority t1 = current_priority t -> init_priority t1 = init_priority t -> number_mask t1 = number_mask t ->
  let k1 := with_lists (fun i => unlink x (lists k i)) k in
  let k2 := with_threads (alter f x (threads k1)) k1 in
  exists k' t', rt_schedule_insert_thread x k2 = Some (tt, k') /\ resumed x t t' k k' /\
    error t' = error t1 /\ timer_on t' = timer_on t1.
Proof.
  intros W E Es Ef S1 S2 S3 S4 k1 k2. assert (threads k2 !! x = Some t1) as E2.
  { unfold k2. rewrite threads_alter, decide_True by done. change (threads k1) with (threads k). by rewrite E, Ef. }
  assert (valid t1) as Hv.
  { destruct (kw_valid _ _ _ W x t E) as (V1 & V2 & V3). unfold valid, st. rewrite S1, S2, S3, S4. done. }
  assert (st t1 = RT_THREAD_SUSPEND) as Es1 by (unfold st; by rewrite S1).
  assert (koff x (current k) k2) as W2.
  { apply koff_alter.
    - eapply kwfx_ext; [|apply (unlink_wf _ _ x k W)]; [intros y; tauto|]. intros t' E' _. rewrite E in E'. injection E' as <-. by rewrite Es.
    - intros t' E'. change (threads k1) with (threads k) in E'. rewrite E in E'. injection E' as <-. by rewrite <- Ef. }
  assert (forall p, unlink x (lists k (Ready p)) = lists k (Ready p)) as Hp.
  { intros p. apply unlink_notin. intros Hin. destruct (kw_row _ _ _ W p x Hin) as (_ & _ & t' & E' & Er & _).
    rewrite E in E'. injection E' as <-. by rewrite Er in Es. }
  destruct (decide (current k = Some x)) as [Hc|Hc].
  - rewrite (insert_current x t1) by done. eexists _, (set_st RT_THREAD_RUNNING t1). split; [done|].
    assert (threads (with_threads (alter (set_st RT_THREAD_RUNNING) x (threads k2)) k2) !! x = Some (set_st RT_THREAD_RUNNING t1)) as E3
      by (by rewrite (threads_alter _ x k2), decide_True, E2).
    split_and!; try done. split; try done.
    + apply (koff_own x _ _ _) with (2 := E3).
      * apply koff_alter; [done|]. intros t' E'. rewrite E2 in E'. injection E' as <-. apply valid_st; [done|done|by rewrite Es1].
      * by rewrite st_set.
      * done.
    + intros p. rewrite bool_decide_eq_true_2, app_nil_r by done. apply Hp.
    + intros y Hy. rewrite (threads_alter _ x k2), decide_False by done. unfold k2. by rewrite threads_alter, decide_False.
    + right. by apply st_set.
  - rewrite (insert_ready x t1) by done. eexists _, (set_st RT_THREAD_READY t1). split; [done|].
    assert (threads (inserted x t1 k2) !! x = Some (set_st RT_THREAD_READY t1)) as E3.
    { unfold inserted. cbn [threads with_group list_set with_lists]. by rewrite (threads_alter _ x k2), decide_True, E2. }
    split_and!; try done. split; try done.
    + apply inserted_wf; [done|done|by rewrite Es1|done].
    + intros p. rewrite bool_decide_eq_false_2 by done. cbn [lists inserted with_group list_set with_lists]. rewrite S2.
      destruct (decide (Ready p = Ready (current_priority t))) as [[= ->]|Hne].
      * rewrite Z.eqb_refl. cbn. by rewrite Hp.
      * rewrite (proj2 (Z.eqb_neq p _)), app_nil_r by congruence. apply Hp.
    + intros y Hy. unfold inserted. cbn [threads with_group list_set with_lists]. rewrite (threads_alter _ x k2), decide_False by done.
      unfold k2. by rewrite threads_alter, decide_False.
    + left. by apply st_set.
Qed.

Lemma resume_spec k x t : kwf k -> threads k !! x = Some t -> st t = RT_THREAD_SUSPEND ->
  exists k' t', rt_thread_resume x k = Some (RT_EOK, k') /\ resumed x t t' k k' /\ error t' = error t /\ timer_on t' = false.
Proof.
  intros W E Es. unfold rt_thread_resume. rewrite (bindM_some _ _ k t k) by (unfold thread_of; by rewrite E).
  rewrite Es, Z.eqb_refl. cbn [negb].
  destruct (reinsert_spec k x t (with_timer false t) (with_timer false) W E Es eq_refl eq_refl eq_refl eq_refl eq_refl)
    as (k' & t' & E' & R & Ee & Et).
  exists k', t'. split; [|done]. unfold list_remove, upd. rewrite !bindM_doM. by rewrite (bindM_some _ _ _ tt k' E').
Qed.

Lemma resume_refused k x t : threads k !! x = Some t -> st t <> RT_THREAD_SUSPEND -> rt_thread_resume x k = Some (- RT_ERROR, k).
Proof.
  intros E Hs. unfold rt_thread_resume. rewrite (bindM_some _ _ k t k) by (unfold thread_of; by rewrite E).
  by rewrite (proj2 (Z.eqb_neq _ _) Hs).
Qed.

(** ** Priorities, time-outs *)

Record repriced (x p : Z) (t : thread) (k k' : kernel) : Prop := {
  rp_wf : kwf k'; rp_cur : current k' = current k; rp_lock : lock_nest k' = lock_nest k;
  rp_others : others x k k'; rp_wait : forall o, lists k' (Wait o) = lists k (Wait o);
  rp_thread : exists t', threads k' !! x = Some t' /\ current_priority t' = p /\ st t' = st t /\
    init_priority t' = init_priority t /\ error t' = error t /\ timer_on t' = timer_on t }.

Lemma change_priority_spec k x p t : kwf k -> threads k !! x = Some t -> 0 <= p < 32 ->
  exists k', change_priority x p k = Some (tt, k') /\ repriced x p t k k'.
Proof.
  intros W E Hp. unfold change_priority. rewrite (bindM_some _ _ k t k) by (unfold thread_of; by rewrite E).
  pose proof (kw_valid _ _ _ W x t E) as (V1 & V2 & V3).
  assert (valid (with_priority p (mask_of p) t)) as Hv by (split_and!; cbn; try lia; intros _; by apply mask_of_pow).
  destruct (Z.eqb_spec (st t) RT_THREAD_READY) as [Er|Er].
  - rewrite (bindM_some _ _ k tt _ (remove_eq x t k E)). destruct (removed_fields x t k) as (F1 & F2 & F3 & F4).
    assert (koff x (current k) (removed x t k)) as W1 by (apply removed_wf; [done|done|by rewrite Er]).
    set (k1 := removed x t k) in *. unfold upd. rewrite bindM_doM.
    set (k2 := with_threads (alter (with_priority p (mask_of p)) x (threads k1)) k1).
    assert (threads k2 !! x = Some (with_priority p (mask_of p) t)) as E2
      by (unfold k2; by rewrite threads_alter, decide_True, F1, E).
    assert (koff x (current k) k2) as W2.
    { apply koff_alter; [done|]. intros t' E'. rewrite F1, E in E'. by injection E' as <-. }
    assert (current k <> Some x) as Hc.
    { pose proof (kw_ready _ _ _ W x t I E Er) as Hin. by destruct (kw_row _ _ _ W _ x Hin) as (_ & ? & _). }
    rewrite (insert_ready x _ k2 E2) by (change (current k2) with (current k1); by rewrite F2).
    eexists. split; [reflexivity|]. split; try done.
    + unfold kwf. change (kwfx (fun _ => True) (current k1) (inserted x (with_priority p (mask_of p) t) k2)). rewrite F2.
      apply inserted_wf; [done|done| |done]. unfold st. cbn [stat with_priority]. fold (st t). by rewrite Er.
    + intros y Hy. unfold inserted. cbn [threads with_group list_set with_lists]. rewrite (threads_alter _ x k2), decide_False by done.
      unfold k2. by rewrite threads_alter, decide_False, F1.
    + intros o. cbn. rewrite decide_False, F4 by done. apply unlink_notin. intros Hin. destruct (kw_wait _ _ _ W o x Hin) as (_ & t' & E' & Es').
      rewrite E in E'. injection E' as <-. by rewrite Er in Es'.
    + exists (set_st RT_THREAD_READY (with_priority p (mask_of p) t)). split_and!; try done.
      * unfold inserted. cbn [threads with_group list_set with_lists]. by rewrite (threads_alter _ x k2), decide_True, E2.
      * by rewrite st_set.
  - eexists. split; [reflexivity|]. split; try done.
    + apply kwfx_alter; [done|]. intros t' E'. rewrite E in E'. injection E' as <-. split; [done|]. intros _. split; [done|]. by intros Er'.
    + intros y Hy. by rewrite threads_alter, decide_False.
    + exists (with_priority p (mask_of p) t). by rewrite threads_alter, decide_True, E.
Qed.

(** [rt_thread_timeout] up to its schedule. *)
Lemma timeout_spec k x t : kwf k -> threads k !! x = Some t -> st t = RT_THREAD_SUSPEND ->
  exists k' t', rt_thread_timeout x k = rt_schedule k' /\ resumed x t t' k k' /\
    error t' = - RT_ETIMEOUT /\ timer_on t' = timer_on t.
Proof.
  intros W E Es. unfold rt_thread_timeout. rewrite (bindM_some _ _ k t k) by (unfold thread_of; by rewrite E).
  rewrite Es, Z.eqb_refl. cbn [negb].
  destruct (reinsert_spec k x t (with_error (- RT_ETIMEOUT) t) (with_error (- RT_ETIMEOUT)) W E Es eq_refl eq_refl eq_refl eq_refl eq_refl)
    as (k' & t' & E' & R & Ee & Et).
  exists k', t'. split; [|done]. unfold list_remove, upd. rewrite !bindM_doM.
  change (with_lists _ (with_threads ?m k)) with (with_threads m (with_lists (fun i => unlink x (lists k i)) k)).
  by rewrite (bindM_some _ _ _ tt k' E').
Qed.

(* ------------------------------------------------------------------ *)
(** ** What the other threads see

    An operation takes at most the thread [w] off the wait lists and changes
    at most the thread [x]; the others may only be switched. *)

Definition stays (t t' : thread) : Prop := alike t t' /\ (~ runnable t -> st t' = st t) /\ (runnable t -> runnable t').

Definition drop_waiter (w : option Z) (l : list Z) : list Z := match w with Some x => unlink x l | None => l end.

Record kframe (w x : option Z) (k k' : kernel) : Prop := {
  kf_wait : forall o, lists k' (Wait o) = drop_waiter w (lists k (Wait o));
  kf_same : forall y t, x <> Some y -> threads k !! y = Some t -> exists t', threads k' !! y = Some t' /\ stays t t';
  kf_init : forall y t, threads k !! y = Some t -> exists t', threads k' !! y = Some t' /\
    init_priority t' = init_priority t /\ (st t <> RT_THREAD_INIT -> st t' <> RT_THREAD_INIT) }.

Lemma stays_refl t : stays t t.
Proof. done. Qed.

Lemma stays_st t t' : alike t t' -> st t' = st t -> stays t t'.
Proof. intros A E. split_and!; [done|done|]. unfold runnable. by rewrite E. Qed.

Lemma stays_trans t1 t2 t3 : stays t1 t2 -> stays t2 t3 -> stays t1 t3.
Proof.
  intros (A1 & A2 & A3) (B1 & B2 & B3). split; [by eapply alike_trans|]. split; [|auto].
  intros H. rewrite <- (A2 H). apply B2. unfold runnable. by rewrite (A2 H).
Qed.

Lemma stays_init t t' : stays t t' -> st t <> RT_THREAD_INIT -> st t' <> RT_THREAD_INIT.
Proof.
  intros (_ & H1 & H2) Hi. destruct (decide (st t = RT_THREAD_READY \/ st t = RT_THREAD_RUNNING)) as [Hr|Hr].
  - by destruct (H2 Hr) as [-> | ->].
  - by rewrite H1.
Qed.

Lemma kframe_refl x k : kframe None x k k.
Proof. split; [done| |]; intros y t; [intros _|]; intros E; exists t; auto using stays_refl. Qed.

(** A schedule, or another change without a subject, in the end. *)
Lemma kframe_then w x k k1 k2 : kframe w x k k1 -> kframe None None k1 k2 -> kframe w x k k2.
Proof.
  intros [A1 A2 A3] [B1 B2 B3]. split.
  - intros o. by rewrite B1, A1.
  - intros y t Hy E. destruct (A2 y t Hy E) as (t1 & E1 & S1). destruct (B2 y t1 ltac:(done) E1) as (t2 & E2 & S2).
    exists t2. split; [done|]. by eapply stays_trans.
  - intros y t E. destruct (A3 y t E) as (t1 & E1 & I1 & S1). destruct (B3 y t1 E1) as (t2 & E2 & I2 & S2).
    exists t2. split_and!; [done|congruence|auto].
Qed.

Lemma kframe_scheduled k k' c t : scheduled k k' c t -> kframe None None k k'.
Proof.
  intros [_ _ (x & tx & _ & _ & _ & _ & Hw) Hs]. split.
  - intros o. destruct Hw as [[_ ->]|(_ & r & _ & _ & -> & _)]; done.
  - intros y ty _ E. destruct (Hs y ty E) as (ty' & E' & H). by exists ty'.
  - intros y ty E. destruct (Hs y ty E) as (ty' & E' & H). exists ty'. split_and!; [done|apply H|]. by apply stays_init.
Qed.

(** One thread changed. *)
Lemma kframe_one w x k k' t t' : (forall o, lists k' (Wait o) = drop_waiter w (lists k (Wait o))) -> others x k k' ->
  threads k !! x = Some t -> threads k' !! x = Some t' -> init_priority t' = init_priority t ->
  (st t <> RT_THREAD_INIT -> st t' <> RT_THREAD_INIT) -> kframe w (Some x) k k'.
Proof.
  intros Hw Ho E E' Hi Hs. split; [done| |].
  - intros y ty Hy Ey. exists ty. rewrite Ho by congruence. auto using stays_refl.
  - intros y ty Ey. destruct (decide (y = x)) as [->|Hne].
    + rewrite E in Ey. injection Ey as <-. by exists t'.
    + exists ty. by rewrite Ho.
Qed.

Lemma kframe_alter x f k t : threads k !! x = Some t -> init_priority (f t) = init_priority t ->
  (st t <> RT_THREAD_INIT -> st (f t) <> RT_THREAD_INIT) -> kframe None (Some x) k (with_threads (alter f x (threads k)) k).
Proof.
  intros E Hi Hs. apply (kframe_one None x _ _ t (f t)); try done.
  - intros y Hy. by rewrite threads_alter, decide_False.
  - by rewrite threads_alter, decide_True, E.
Qed.

Lemma kframe_drop w x k k' : kframe (Some w) x k k' -> (forall o, ~ In w (lists k (Wait o))) -> kframe None x k k'.
Proof. intros [A1 A2 A3] H. split; [|done|done]. intros o. rewrite A1. exact (unlink_notin _ _ (H o)). Qed.

Lemma kframe_keep w x k k' : kframe None x k k' -> (forall o, ~ In w (lists k (Wait o))) -> kframe (Some w) x k k'.
Proof. intros [A1 A2 A3] H. split; [|done|done]. intros o. rewrite A1. symmetry. exact (unlink_notin _ _ (H o)). Qed.

Lemma kframe_defunct w x l k k' : kframe w x k k' -> kframe w x k (list_set Defunct l k').
Proof. intros [A1 A2 A3]. by split. Qed.

(** Two changes of the same thread. *)
Lemma kframe_trans w1 w2 x k k1 k2 : kframe w1 x k k1 -> kframe w2 x k1 k2 -> w1 = None \/ w2 = None ->
  kframe (if w1 is Some _ then w1 else w2) x k k2.
Proof.
  intros [A1 A2 A3] [B1 B2 B3] Hw. split.
  - intros o. rewrite B1, A1. by destruct w1, w2, Hw.
  - intros y ty Hy Ey. destruct (A2 y ty Hy Ey) as (t1 & E1 & S1). destruct (B2 y t1 Hy E1) as (t2 & E2 & S2).
    exists t2. split; [done|]. by eapply stays_trans.
  - intros y ty Ey. destruct (A3 y ty Ey) as (t1 & E1 & I1 & S1). destruct (B3 y t1 E1) as (t2 & E2 & I2 & S2).
    exists t2. split_and!; [done|congruence|auto].
Qed.

Lemma kframe_again w x f k k1 t : kframe w (Some x) k k1 -> threads k1 !! x = Some t -> init_priority (f t) = init_priority t ->
  (st t <> RT_THREAD_INIT -> st (f t) <> RT_THREAD_INIT) -> kframe w (Some x) k (with_threads (alter f x (threads k1)) k1).
Proof.
  intros F E Hi Hs. pose proof (kframe_trans w None _ _ _ _ F (kframe_alter x f k1 t E Hi Hs) ltac:(by right)). by destruct w.
Qed.

(** A change that the other threads cannot tell from a switch. *)
Lemma kframe_stays x f k t : threads k !! x = Some t -> stays t (f t) -> kframe None None k (with_threads (alter f x (threads k)) k).
Proof.
  intros E Hs. assert (kframe None (Some x) k (with_threads (alter f x (threads k)) k)) as [A1 A2 A3].
  { apply (kframe_alter x f k t); [done|apply Hs|by apply stays_init]. }
  split; try done. intros y ty _ Ey. destruct (decide (y = x)) as [->|Hne]; [|by apply A2; congruence].
  rewrite E in Ey. injection Ey as <-. exists (f t). by rewrite threads_alter, decide_True, E.
Qed.

Lemma kframe_lists w x k k' : threads k' = threads k -> (forall o, lists k' (Wait o) = drop_waiter w (lists k (Wait o))) -> kframe w x k k'.
Proof. intros E Hw. split; [done| |]; intros y t; [intros _|]; intros Ey; exists t; rewrite E; auto using stays_refl. Qed.

(** A thread that does not wait is on no wait list. *)
Lemma not_waiting own c k x t o : kwfx own c k -> threads k !! x = Some t -> st t <> RT_THREAD_SUSPEND -> ~ In x (lists k (Wait o)).
Proof. intros W E Hs Hin. destruct (kw_wait _ _ _ W o x Hin) as (_ & t' & E' & Es). congruence. Qed.

(* ------------------------------------------------------------------ *)
(** ** The running system *)

Section System.
Context (idle : Z).

(** The invariant of the started system: there is a current thread, and the
    idle thread is never taken off the processor but by others. *)
Record kinv (k : kernel) : Prop := {
  ki_wf : kwf k; ki_cur : exists c t, current k = Some c /\ threads k !! c = Some t;
  ki_idle : exists t, threads k !! idle = Some t /\ runnable t;
  ki_lock : 0 <= lock_nest k;
  ki_timer : forall x t, threads k !! x = Some t -> timer_on t = true -> st t = RT_THREAD_SUSPEND }.

Lemma kinv_can_run k c t : kinv k -> current k = Some c -> threads k !! c = Some t ->
  st t = RT_THREAD_RUNNING \/ group k <> 0.
Proof.
  intros [W _ (ti & Ei & [Hr|Hr]) _ _] Ec Et.
  - right. intros Hg. by destruct (group_zero _ _ W Hg idle ti Ei).
  - left. pose proof (kw_run _ _ _ W idle ti I Ei Hr) as E. rewrite Ec in E. injection E as ->. congruence.
Qed.

Lemma kinv_schedule k : kinv k -> exists k', rt_schedule k = Some (tt, k') /\ kinv k' /\ same_ids k k' /\
  (lock_nest k = 0 -> exists c t, current k = Some c /\ threads k !! c = Some t /\ scheduled k k' c t) /\
  (lock_nest k <> 0 -> k' = k).
Proof.
  intros Hk. pose proof Hk as [W (c & t & Ec & Et) (ti & Ei & Hri) Hl Ht]. destruct (Z.eq_dec (lock_nest k) 0) as [E0|Hne].
  - destruct (rt_schedule_spec k c t W Ec Et E0 (kinv_can_run k c t Hk Ec Et)) as (k' & E & Hs).
    pose proof Hs as [[W' I' C'] L' (x & tx & Ex & Etx & _) Hsame]. exists k'. split_and!; try done.
    + split; [done|by exists x, tx| |lia|].
      * destruct (Hsame idle ti Ei) as (ti' & Ei' & _ & _ & Hr). exists ti'. auto.
      * intros y ty' Ey' Hy. destruct (proj2 (I' y) ltac:(by eexists)) as [ty Ey].
        destruct (Hsame y ty Ey) as (ty2 & Ey2 & (_ & _ & Hti & _) & Hsu & _). rewrite Ey' in Ey2. injection Ey2 as <-.
        pose proof (Ht y ty Ey ltac:(congruence)) as Es. rewrite Hsu; [done|]. intros [E'|E']; by rewrite Es in E'.
    + intros _. by exists c, t.
  - exists k. unfold rt_schedule. rewrite (proj2 (Z.eqb_neq _ _) Hne). done.
Qed.

(** One thread changed, and it is still right. *)
Lemma kinv_one k k' x t t' : kinv k -> kwf k' -> current k' = current k -> 0 <= lock_nest k' -> others x k k' ->
  threads k !! x = Some t -> threads k' !! x = Some t' -> (x = idle -> runnable t') ->
  (timer_on t' = true -> st t' = RT_THREAD_SUSPEND) -> kinv k' /\ same_ids k k'.
Proof.
  intros [W (c & tc & Ec & Etc) (ti & Ei & Hri) Hl Ht] W' Hc Hl' Ho E E' Hx Htx. split.
  - split; try done.
    + rewrite Hc. destruct (decide (c = x)) as [->|Hne]; [by exists x, t'|]. exists c, tc. split; [done|]. by rewrite Ho.
    + destruct (decide (idle = x)) as [->|Hne]; [exists t'; auto|]. exists ti. by rewrite Ho.
    + intros y ty Ey. destruct (decide (y = x)) as [->|Hne]; [|rewrite Ho in Ey by done; by apply (Ht y)].
      rewrite E' in Ey. by injection Ey as <-.
  - intros y. destruct (decide (y = x)) as [->|Hne]; [rewrite E, E'; split; by eexists|by rewrite Ho].
Qed.

Lemma kinv_alter k x f t : kinv k -> threads k !! x = Some t -> valid (f t) -> st (f t) = st t ->
  current_priority (f t) = current_priority t -> (timer_on (f t) = true -> timer_on t = true \/ st t = RT_THREAD_SUSPEND) ->
  kinv (with_threads (alter f x (threads k)) k) /\ same_ids k (with_threads (alter f x (threads k)) k).
Proof.
  intros Hk E Hv Hs Hp Ht. pose proof Hk as [W _ (ti & Ei & Hri) Hl Htt].
  apply (kinv_one k _ x t (f t)); try done.
  - apply kwfx_alter; [done|]. intros t' E'. rewrite E in E'. injection E' as <-. done.
  - intros y Hy. by rewrite threads_alter, decide_False.
  - by rewrite threads_alter, decide_True, E.
  - intros ->. rewrite E in Ei. injection Ei as <-. unfold runnable in *. by rewrite Hs.
  - intros H. rewrite Hs. destruct (Ht H) as [H'|]; [by apply (Htt x)|done].
Qed.

Lemma kinv_lock k n : kinv k -> 0 <= n -> kinv (with_lock n k) /\ same_ids k (with_lock n k).
Proof. intros [W ? ? ? ?] Hn. split; [split; try done; by destruct W; split|done]. Qed.

Lemma kinv_suspend k x t : kinv k -> threads k !! x = Some t -> x <> idle ->
  exists r k' t', rt_thread_suspend x k = Some (r, k') /\ kinv k' /\ same_ids k k' /\ threads k' !! x = Some t' /\
    current k' = current k /\ lock_nest k' = lock_nest k /\ (runnable t -> st t' = RT_THREAD_SUSPEND) /\
    kframe None (Some x) k k'.
Proof.
  intros Hk E Hx. pose proof Hk as [W _ _ Hl Ht]. destruct (decide (st t = RT_THREAD_READY \/ st t = RT_THREAD_RUNNING)) as [Hr|Hr].
  - destruct (suspend_spec k x t W E Hr) as (k' & t' & E' & [O1 O2 O3 O4 O5 O6] & Hs & Hti & _ & _ & Hini).
    exists RT_EOK, k', t'. destruct (kinv_one k k' x t t') as [Hk' Hi]; try done; [by rewrite O3|].
    split_and!; try done. apply (kframe_one None x k k' t t'); try done; [|by rewrite Hs].
    intros o. rewrite O4. apply unlink_notin, (not_waiting _ _ k x t o W E). by destruct Hr as [-> | ->].
  - exists (- RT_ERROR), k, t. rewrite (suspend_refused k x t) by done. split_and!; try done. apply kframe_refl.
Qed.

Lemma kinv_resumed k k' x t t' : kinv k -> threads k !! x = Some t -> resumed x t t' k k' -> timer_on t' = false ->
  kinv k' /\ same_ids k k'.
Proof.
  intros Hk E [R1 R2 R3 R4 R5 R6 R7 R8 R9 R10] Ht. apply (kinv_one k k' x t t'); try done; [|congruence].
  rewrite R3. by apply ki_lock.
Qed.

Lemma kinv_off k x t t' : kinv k -> threads k !! x = Some t -> x <> idle -> live t -> st t' = RT_THREAD_CLOSE ->
  valid t' -> timer_on t' = false -> let k1 := removed x t k in
  kinv (with_threads (<[x := t']> (threads k1)) k1) /\
  (init_priority t' = init_priority t -> kframe (Some x) (Some x) k (with_threads (<[x := t']> (threads k1)) k1)).
Proof.
  intros Hk E Hx Hi Hs Hv Ht k1. pose proof Hk as [W _ _ Hl _]. destruct (removed_fields x t k) as (F1 & F2 & F3 & F4). fold k1 in F1, F2, F3, F4.
  assert (<[x := t']> (threads k1) = alter (fun _ => t') x (threads k1)) as Ea.
  { apply map_eq. intros y. destruct (decide (y = x)) as [->|Hne].
    - by rewrite lookup_insert_eq, lookup_alter_eq, F1, E.
    - by rewrite lookup_insert_ne, lookup_alter_ne by congruence. }
  rewrite Ea. assert (others x k (with_threads (alter (fun _ => t') x (threads k1)) k1)) as Ho.
  { intros y Hy. by rewrite threads_alter, decide_False, F1. }
  assert (threads (with_threads (alter (fun _ => t') x (threads k1)) k1) !! x = Some t') as E'.
  { by rewrite threads_alter, decide_True, F1, E. }
  split; [|intros Hini; apply (kframe_one _ x _ _ t t'); try done; [intros o; apply F4|by rewrite Hs]].
  apply (kinv_one k _ x t t'); try done.
  - unfold kwf. cbn [current with_threads]. rewrite F2. apply (koff_own x t').
    + apply koff_alter; [by apply removed_wf|done].
    + by rewrite threads_alter, decide_True, F1, E.
    + by rewrite Hs.
    + by rewrite Hs.
  - cbn [lock_nest with_threads]. by rewrite F3.
  - congruence.
Qed.

(** The rules of use: the idle thread never waits nor ends; a thread that is
    not running makes no calls; a thread's timer expires while it runs. *)
Definition running (k : kernel) (x : Z) : Prop :=
  exists t, current k = Some x /\ threads k !! x = Some t /\ st t = RT_THREAD_RUNNING.

Definition kop_ok (op : kop) (k : kernel) : Prop :=
  match op with
  | KSchedule | KTick | KLeave => True
  | KEnter => lock_nest k < 32767
  | KYield | KSleepExit => exists x, running k x
  | KSleep | KExit => exists x, running k x /\ x <> idle
  | KInit x p n => threads k !! x = None /\ 0 <= p < 32
  | KStartup x => exists t, threads k !! x = Some t /\ st t = RT_THREAD_INIT
  | KPriority x p => is_Some (threads k !! x) /\ 0 <= p < 32
  | KSuspend x | KDelete x => is_Some (threads k !! x) /\ x <> idle
  | KResume x => is_Some (threads k !! x)
  | KTimeout x => exists t, threads k !! x = Some t /\ timer_on t = true
  end.

Fixpoint kops_ok (ops : list kop) (k : kernel) : Prop :=
  match ops with
  | [] => True
  | op :: r => kop_ok op k /\ match run_kop op k with Some (_, k') => kops_ok r k' | None => True end
  end.

(** The thread an operation takes off a wait list, and the thread it is about. *)
Definition leaves (op : kop) : option Z :=
  match op with KResume x | KDelete x | KTimeout x => Some x | _ => None end.

Definition about (op : kop) (k : kernel) : option Z :=
  match op with
  | KSleep | KSleepExit | KExit => current k
  | KInit x _ _ | KStartup x | KPriority x _ | KSuspend x | KResume x | KDelete x | KTimeout x => Some x
  | _ => None
  end.

Lemma schedule_frame k k' : kinv k -> rt_schedule k = Some (tt, k') -> kframe None None k k'.
Proof.
  intros Hk E. destruct (kinv_schedule k Hk) as (k2 & E2 & _ & _ & H0 & H1). rewrite E in E2. injection E2 as <-.
  destruct (Z.eq_dec (lock_nest k) 0) as [El|El]; [|rewrite (H1 El); apply kframe_refl].
  destruct (H0 El) as (c & t & _ & _ & Hs). by eapply kframe_scheduled.
Qed.

Lemma kframe_resumed k k' x t t' : kinv k -> threads k !! x = Some t -> resumed x t t' k k' -> kframe (Some x) (Some x) k k'.
Proof.
  intros Hk E [R1 R2 R3 R4 R5 R6 R7 R8 R9 R10]. apply (kframe_one _ x k k' t t'); try done. intros _.
  by destruct R8 as [-> | ->].
Qed.

(** The outcome of an operation: it ends, or calls [rt_schedule], in a state of
    the same current thread. *)
Abbreviation kdone op k := (exists k', run_kop op k = Some (tt, k') /\ kinv k' /\ kframe (leaves op) (about op k) k k').
Abbreviation kshape op k := (exists k1, (run_kop op k = Some (tt, k1) \/ run_kop op k = rt_schedule k1) /\
  kinv k1 /\ current k1 = current k /\ kframe (leaves op) (about op k) k k1).

Lemma then_tt {A} (a : A) k : (do! (do! rt_schedule in retM a) in retM tt) k = rt_schedule k.
Proof. unfold bindM, retM. by destruct (rt_schedule k) as [[[] k']|]. Qed.

(** A step that ends in [rt_schedule]. *)
Lemma then_schedule r w x k k1 : r = rt_schedule k1 -> kinv k1 -> kframe w x k k1 ->
  exists k', r = Some (tt, k') /\ kinv k' /\ kframe w x k k'.
Proof.
  intros E Hk F. destruct (kinv_schedule k1 Hk) as (k' & E' & Hk' & _). exists k'. rewrite E. split_and!; [done|done|].
  eapply kframe_then; [exact F|]. by apply schedule_frame.
Qed.

Lemma kinv_cur k c : kinv k -> current k = Some c -> exists t, threads k !! c = Some t.
Proof. intros [_ (c' & t & Ec & Et) _ _ _] E. rewrite E in Ec. injection Ec as <-. by exists t. Qed.

Lemma self_eq {A} k x (f : Z -> M kernel A) : current k = Some x -> bindM rt_thread_self f k = f x k.
Proof. intros E. unfold bindM, rt_thread_self. by rewrite E. Qed.

Lemma of_eq {A} k x t (f : thread -> M kernel A) : threads k !! x = Some t -> bindM (thread_of x) f k = f t k.
Proof. intros E. unfold bindM, thread_of. by rewrite E. Qed.

Lemma upd_bind {A} k x f (g : unit -> M kernel A) : bindM (upd x f) g k = g tt (with_threads (alter f x (threads k)) k).
Proof. done. Qed.

Lemma valid_yield t n : valid t -> valid (set_yield (with_ticks n t)).
Proof. intros (V1 & V2 & V3). split_and!; cbn; try lia. rewrite st_set_yield. exact V3. Qed.

Lemma stays_yield t n : stays t (set_yield (with_ticks n t)).
Proof. apply stays_st; [done|]. by rewrite st_set_yield. Qed.

Lemma kop_yield k : kinv k -> kop_ok KYield k -> kshape KYield k.
Proof.
  intros Hk (x & t & Ec & Et & Es). cbn [run_kop]. unfold ignore, rt_thread_yield.
  rewrite bindM_assoc, (self_eq k x) by done. rewrite bindM_assoc, upd_bind.
  destruct (kinv_alter k x (fun t => set_yield (with_ticks (init_tick t) t)) t Hk Et) as [Hk1 _].
  { apply valid_yield. by apply (kw_valid _ _ _ (ki_wf _ Hk) x). } { by rewrite st_set_yield. } { done. } { cbn. auto. }
  set (k1 := with_threads _ k) in *. exists k1. split; [right; apply then_tt|]. split_and!; [done|done|].
  apply (kframe_stays x _ k t); [done|apply stays_yield].
Qed.

Lemma kop_tick k : kinv k -> kshape KTick k.
Proof.
  intros Hk. destruct (ki_cur _ Hk) as (x & t & Ec & Et). cbn [run_kop]. unfold tick_slice.
  rewrite (self_eq k x), (of_eq k x t), upd_bind by done.
  destruct (kinv_alter k x (with_ticks (remaining_tick t -u32 1)) t Hk Et) as [Hk1 _]; try done; [|by auto|].
  { exact (kw_valid _ _ _ (ki_wf _ Hk) x t Et). }
  pose proof (kframe_stays x (with_ticks (remaining_tick t -u32 1)) k t Et (stays_st _ _ ltac:(done) eq_refl)) as F1.
  set (k1 := with_threads _ k) in *. destruct (_ =? 0); [|exists k1; by split_and!; [left|..]].
  rewrite upd_bind. assert (threads k1 !! x = Some (with_ticks (remaining_tick t -u32 1) t)) as E1
    by (unfold k1; by rewrite threads_alter, decide_True, Et).
  destruct (kinv_alter k1 x (fun t => set_yield (with_ticks (init_tick t) t)) _ Hk1 E1) as [Hk2 _].
  { apply valid_yield. exact (kw_valid _ _ _ (ki_wf _ Hk1) x _ E1). } { by rewrite st_set_yield. } { done. } { cbn. auto. }
  eexists. split; [by right|]. split_and!; [exact Hk2|done|]. eapply kframe_then; [exact F1|].
  eapply kframe_stays; [exact E1|apply stays_yield].
Qed.

Lemma kop_sleep k : kinv k -> kop_ok KSleep k -> kshape KSleep k.
Proof.
  intros Hk (x & (t & Ec & Et & Es) & Hx). cbn [run_kop]. unfold sleep_enter. rewrite (self_eq k x) by done.
  destruct (kinv_suspend k x t Hk Et Hx) as (r & k1 & t1 & E & Hk1 & _ & E1 & Hc & _ & Hs & F).
  rewrite (bindM_some _ _ _ _ _ E). eexists. split; [left; apply upd_eq|]. cbn [leaves about]. rewrite Ec. split; [|split; [by rewrite <- Ec, <- Hc|]].
  - eapply (kinv_alter k1 x (with_timer true) t1); try done.
    + exact (kw_valid _ _ _ (ki_wf _ Hk1) x _ E1).
    + intros _. right. apply Hs. by right.
  - by apply (kframe_again _ x (with_timer true) k k1 t1 F).
Qed.

Lemma kinv_defunct k l : kinv k -> kinv (list_set Defunct l k).
Proof. intros [W ? ? ? ?]. split; try done. by apply defunct_wf. Qed.

Lemma alter_alter_insert (f g : thread -> thread) x t (m : gmap Z thread) : m !! x = Some t ->
  alter g x (alter f x m) = <[x := g (f t)]> m.
Proof.
  intros E. apply map_eq. intros y. destruct (decide (y = x)) as [->|Hne].
  - by rewrite lookup_insert_eq, !lookup_alter_eq, E.
  - by rewrite lookup_insert_ne, !lookup_alter_ne by congruence.
Qed.

(** A thread off every list that becomes suspended or closed. *)
Lemma kinv_stop k x t t' : kinv k -> threads k !! x = Some t -> x <> idle -> st t = RT_THREAD_INIT -> valid t' ->
  st t' = RT_THREAD_SUSPEND \/ st t' = RT_THREAD_CLOSE -> timer_on t' = false ->
  kinv (with_threads (<[x := t']> (threads k)) k).
Proof.
  intros Hk E Hx Hi Hv Hs Ht. pose proof Hk as [W _ _ Hl _].
  assert (<[x := t']> (threads k) = alter (fun _ => t') x (threads k)) as ->.
  { apply map_eq. intros y. destruct (decide (y = x)) as [->|Hne]; [by rewrite lookup_insert_eq, lookup_alter_eq, E|].
    by rewrite lookup_insert_ne, lookup_alter_ne by congruence. }
  apply (kinv_one k _ x t t'); try done; [| | |congruence].
  - apply (koff_own x t').
    + apply koff_alter; [|done]. apply own_off; [done|]. apply (off_lists x t (current k)); try done; by rewrite Hi.
    + by rewrite threads_alter, decide_True, E.
    + by destruct Hs as [-> | ->].
    + by destruct Hs as [-> | ->].
  - intros y Hy. by rewrite threads_alter, decide_False.
  - by rewrite threads_alter, decide_True, E.
Qed.

Lemma kop_exit k : kinv k -> kop_ok KExit k -> kshape KExit k.
Proof.
  intros Hk (x & (t & Ec & Et & Es) & Hx). cbn [run_kop]. unfold rt_thread_exit. rewrite (self_eq k x) by done.
  rewrite (bindM_some _ _ _ _ _ (remove_eq x t k Et)), !upd_bind, bindM_doM. cbn [threads with_threads].
  destruct (removed_fields x t k) as (F1 & F2 & _ & _).
  rewrite (alter_alter_insert _ _ x t) by (by rewrite F1).
  destruct (kinv_off k x t (with_timer false (with_stat RT_THREAD_CLOSE t))) as [Hk1 F]; try done.
  3: { cbn [leaves about]. rewrite Ec. eexists. split; [by right|]. split; [by apply kinv_defunct|]. split; [by rewrite <- Ec, <- F2|].
       apply kframe_defunct. apply (kframe_drop x); [by apply F|]. intros o. apply (not_waiting _ _ k x t o (ki_wf _ Hk) Et). by rewrite Es. }
  - by rewrite Es.
  - destruct (kw_valid _ _ _ (ki_wf _ Hk) x t Et) as (V1 & V2 & V3). split_and!; cbn; try lia. by intros [_ []].
Qed.

Lemma kop_delete k x : kinv k -> kop_ok (KDelete x) k -> kshape (KDelete x) k.
Proof.
  intros Hk ([t Et] & Hx). cbn [run_kop]. unfold ignore, rt_thread_delete. rewrite bindM_assoc, (of_eq k x t) by done.
  destruct (Z.eqb_spec (st t) RT_THREAD_CLOSE) as [Hc|Hc].
  { exists k. split_and!; [by left|done|done|]. apply (kframe_keep x); [apply kframe_refl|]. intros o. apply (not_waiting _ _ k x t o (ki_wf _ Hk) Et). by rewrite Hc. }
  destruct (kw_valid _ _ _ (ki_wf _ Hk) x t Et) as (V1 & V2 & V3).
  rewrite bindM_assoc. destruct (Z.eqb_spec (st t) RT_THREAD_INIT) as [Hi|Hi].
  - unfold bindM at 1, retM at 1. rewrite !bindM_assoc, upd_bind, bindM_assoc, upd_bind, bindM_assoc, bindM_doM. cbn [threads with_threads].
    rewrite (alter_alter_insert _ _ x t) by done. eexists. split; [left; reflexivity|].
    set (t' := with_stat RT_THREAD_CLOSE (with_timer false t)). split; [apply kinv_defunct|split; [done|apply kframe_defunct]].
    + apply (kinv_stop k x t); try done; [|by right]. split_and!; cbn; try lia. by intros [_ []].
    + apply (kframe_keep x); [|intros o; apply (not_waiting _ _ k x t o (ki_wf _ Hk) Et); by rewrite Hi].
      apply (kframe_one None x _ _ t t'); try done; [|cbn; by rewrite lookup_insert_eq].
      intros y Hy. cbn. by rewrite lookup_insert_ne by congruence.
  - rewrite (bindM_some _ _ _ _ _ (remove_eq x t k Et)), !bindM_assoc, upd_bind, bindM_assoc, upd_bind, bindM_assoc, bindM_doM.
    cbn [threads with_threads]. destruct (removed_fields x t k) as (F1 & F2 & _ & _).
    rewrite (alter_alter_insert _ _ x t) by (by rewrite F1). eexists. split; [left; reflexivity|].
    destruct (kinv_off k x t (with_stat RT_THREAD_CLOSE (with_timer false t))) as [Hk1 F]; try done.
    + split_and!; cbn; lia.
    + split; [by apply kinv_defunct|]. split; [exact F2|]. apply kframe_defunct. by apply F.
Qed.

(** A started thread is ready, at its initial priority, when the schedule comes. *)
Lemma startup_spec k x t : kinv k -> threads k !! x = Some t -> st t = RT_THREAD_INIT ->
  exists k1 t1, run_kop (KStartup x) k = rt_schedule k1 /\ kinv k1 /\ current k1 = current k /\ kframe None (Some x) k k1 /\
    threads k1 !! x = Some t1 /\ runnable t1 /\ current_priority t1 = init_priority t.
Proof.
  intros Hk Et Hi. cbn [run_kop]. unfold ignore, rt_thread_startup. rewrite bindM_assoc, (of_eq k x t) by done.
  rewrite Hi, Z.eqb_refl. cbn [negb]. rewrite bindM_assoc, upd_bind, bindM_assoc, upd_bind. cbn [threads with_threads].
  rewrite (alter_alter_insert _ _ x t) by done. set (t1 := with_stat RT_THREAD_SUSPEND _). set (k1 := with_threads _ _).
  destruct (kw_valid _ _ _ (ki_wf _ Hk) x t Et) as (V1 & V2 & V3).
  assert (x <> idle) as Hx.
  { intros ->. destruct (ki_idle _ Hk) as (ti & Ei & Hr). rewrite Et in Ei. injection Ei as <-. destruct Hr as [Hr|Hr]; by rewrite Hi in Hr. }
  assert (kinv (with_threads (<[x := with_timer false t1]> (threads k)) k)) as Hk0.
  { apply (kinv_stop k x t); try done; [|by left]. split_and!; cbn; try lia. intros _. by apply mask_of_pow. }
  assert (timer_on t = false) as Ht.
  { destruct (timer_on t) eqn:E; [|done]. pose proof (ki_timer _ Hk x t Et E) as E'. by rewrite Hi in E'. }
  assert (with_timer false t1 = t1) as Ew by (unfold t1, with_timer; cbn; by rewrite <- Ht).
  rewrite Ew in Hk0. pose proof (Hk0 : kinv k1) as Hk1.
  assert (threads k1 !! x = Some t1) as E1 by (unfold k1; cbn; by rewrite lookup_insert_eq).
  destruct (resume_spec k1 x t1 (ki_wf _ Hk1) E1 eq_refl) as (k2 & t2 & E2 & R2 & _ & Ht2).
  rewrite bindM_assoc, (bindM_some _ _ _ _ _ E2). destruct (kinv_resumed k1 k2 x t1 t2 Hk1 E1 R2 Ht2) as [Hk2 _].
  destruct (ki_cur _ Hk2) as (c & tc & Ec & _). rewrite bindM_assoc, bindM_getM. cbn [fst snd]. rewrite Ec, bindM_assoc.
  exists k2, t2. split; [unfold bindM, retM; by destruct (rt_schedule k2) as [[[] ?]|]|]. split; [done|]. split; [exact (rs_cur _ _ _ _ _ R2)|].
  assert (threads k2 !! x = Some t2 /\ runnable t2 /\ current_priority t2 = init_priority t) as Ht2x
    by (split_and!; [apply R2|apply R2|by rewrite (rs_prio _ _ _ _ _ R2)]).
  split; [|done].
  assert (kframe None (Some x) k k1) as F1.
  { apply (kframe_one None x k k1 t t1); try done. intros y Hy. cbn. by rewrite lookup_insert_ne by congruence. }
  assert (forall o, ~ In x (lists k1 (Wait o))) as Hn by (intros o; apply (not_waiting _ _ k x t o (ki_wf _ Hk) Et); by rewrite Hi).
  apply (kframe_trans None None (Some x) k k1 k2); [done| |by left]. apply (kframe_drop x); [|done]. by apply (kframe_resumed k1 k2 x t1 t2).
Qed.

Lemma kop_startup k x : kinv k -> kop_ok (KStartup x) k -> kshape (KStartup x) k.
Proof. intros Hk (t & Et & Hi). destruct (startup_spec k x t Hk Et Hi) as (k1 & t1 & E & Hk1 & Hc & F & _). exists k1. split_and!; [by right|done..]. Qed.

Lemma kop_timeout k x : kinv k -> kop_ok (KTimeout x) k -> kshape (KTimeout x) k.
Proof.
  intros Hk (t & Et & Ht). cbn [run_kop]. rewrite upd_bind. pose proof (ki_timer _ Hk x t Et Ht) as Es.
  destruct (kinv_alter k x (with_timer false) t Hk Et) as [Hk1 _]; try done; [exact (kw_valid _ _ _ (ki_wf _ Hk) x t Et)|].
  set (k1 := with_threads _ k) in *. assert (threads k1 !! x = Some (with_timer false t)) as E1 by (unfold k1; by rewrite threads_alter, decide_True, Et).
  destruct (timeout_spec k1 x _ (ki_wf _ Hk1) E1 Es) as (k2 & t2 & E2 & R2 & _ & Ht2).
  destruct (kinv_resumed k1 k2 x _ t2 Hk1 E1 R2 Ht2) as [Hk2 _].
  exists k2. split; [by right|]. split; [done|]. split; [exact (rs_cur _ _ _ _ _ R2)|]. apply (kframe_trans None (Some x) (Some x) k k1 k2).
  - by apply (kframe_alter x _ k t).
  - by apply (kframe_resumed k1 k2 x (with_timer false t) t2).
  - by left.
Qed.

Lemma kinv_priority k x p t : kinv k -> threads k !! x = Some t -> 0 <= p < 32 ->
  exists k', change_priority x p k = Some (tt, k') /\ kinv k' /\ repriced x p t k k' /\ kframe None (Some x) k k'.
Proof.
  intros Hk Et Hp. destruct (change_priority_spec k x p t (ki_wf _ Hk) Et Hp) as (k' & E & P).
  pose proof P as [P1 P2 P3 P4 P5 (t' & Et' & Q1 & Q2 & Q3 & _ & Q5)]. exists k'. split; [done|]. split; [|split; [done|]].
  - apply (kinv_one k k' x t t'); try done.
    + rewrite P3. by apply ki_lock.
    + intros ->. destruct (ki_idle _ Hk) as (ti & Ei & Hr). rewrite Et in Ei. injection Ei as <-. unfold runnable in *. by rewrite Q2.
    + rewrite Q2, Q5. by apply (ki_timer _ Hk x).
  - apply (kframe_one None x k k' t t'); try done. by rewrite Q2.
Qed.

Lemma kop_init k x p n : kinv k -> kop_ok (KInit x p n) k -> kshape (KInit x p n) k.
Proof.
  intros Hk (Ex & Hp). cbn [run_kop]. unfold ignore, _rt_thread_init. unfold bindM, retM.
  rewrite (proj2 (Z.ltb_lt p _)) by (unfold RT_THREAD_PRIORITY_MAX; lia). eexists. split; [left; reflexivity|].
  pose proof Hk as [W (c & tc & Ec & Etc) (ti & Ei & Hri) Hl Ht].
  set (t := Thread _ _ _ _ _ _ _ _). split.
  2: { split; [done|]. split; try done; intros y ty; [intros Hy|]; intros Ey; exists ty; cbn; rewrite lookup_insert_ne by congruence; auto using stays_refl. }
  split; try done.
  - apply (koff_own x t); [|by cbn; rewrite lookup_insert_eq|done|done].
    apply kwfx_insert; [exact W|done|]. split_and!; cbn; try lia. by intros [[] _].
  - exists c, tc. cbn. rewrite lookup_insert_ne by congruence. done.
  - exists ti. cbn. rewrite lookup_insert_ne by congruence. done.
  - intros y ty. cbn. destruct (decide (y = x)) as [->|Hne]; [rewrite lookup_insert_eq; by intros [= <-]|].
    rewrite lookup_insert_ne by done. by apply Ht.
Qed.

Lemma kop_shape op k : kinv k -> kop_ok op k -> kshape op k.
Proof.
  intros Hk Ho. destruct op as [| | | | | | | |x p n|x|x p|x|x|x|x]; cbn [kop_ok] in Ho.
  - exists k. split_and!; [by right|done|done|apply kframe_refl].
  - by apply kop_yield.
  - by apply kop_sleep.
  - destruct Ho as (x & t & Ec & Et & Es). cbn [run_kop leaves about]. unfold sleep_exit. rewrite (self_eq k x), Ec by done.
    eexists. split; [left; apply upd_eq|]. pose proof (kw_valid _ _ _ (ki_wf _ Hk) x t Et) as Hv. split; [|split; [done|]].
    + eapply (kinv_alter k x _ t); try done; destruct (error t =? - RT_ETIMEOUT); try done; cbn; auto.
    + apply (kframe_alter x _ k t); [done|by destruct (error t =? _)..].
  - by apply kop_exit.
  - by apply kop_tick.
  - eexists. split; [by left|]. split; [|split; [done|by apply kframe_lists]]. apply kinv_lock; [done|]. pose proof (ki_lock _ Hk).
    unfold wraps. rewrite Z.mod_small; lia.
  - cbn [run_kop]. unfold rt_exit_critical. pose proof (ki_lock _ Hk). destruct (ki_cur _ Hk) as (c & t & Ec & Et).
    destruct (Z.leb_spec (s16 (lock_nest k - 1)) 0).
    + cbn [current with_lock]. rewrite Ec. exists (with_lock 0 k). split; [by right|]. split; [by apply kinv_lock|]. split; [done|by apply kframe_lists].
    + eexists. split; [by left|]. split; [apply kinv_lock; [done|lia]|]. split; [done|by apply kframe_lists].
  - by apply kop_init.
  - by apply kop_startup.
  - destruct Ho as ([t Et] & Hp). destruct (kinv_priority k x p t Hk Et Hp) as (k' & E & Hk' & R & F). exists k'. split_and!; [by left|done|apply R|done].
  - destruct Ho as ([t Et] & Hx). destruct (kinv_suspend k x t Hk Et Hx) as (r & k' & t' & E & Hk' & _ & _ & Hc & _ & _ & F). exists k'.
    split; [|done]. left. cbn [run_kop]. unfold ignore. by rewrite (bindM_some _ _ _ _ _ E).
  - destruct Ho as [t Et]. cbn [run_kop]. unfold ignore. destruct (Z.eq_dec (st t) RT_THREAD_SUSPEND) as [Es|Es].
    + destruct (resume_spec k x t (ki_wf _ Hk) Et Es) as (k' & t' & E & R & _ & Ht). exists k'.
      rewrite (bindM_some _ _ _ _ _ E). split; [by left|]. split; [by apply (kinv_resumed k k' x t t')|]. split; [apply R|by apply (kframe_resumed k k' x t t')].
    + exists k. rewrite (bindM_some _ _ _ _ _ (resume_refused k x t Et Es)). split_and!; [by left|done|done|].
      apply (kframe_keep x); [apply kframe_refl|]. intros o. by apply (not_waiting _ _ k x t o (ki_wf _ Hk) Et).
  - by apply kop_delete.
  - by apply kop_timeout.
Qed.

(** Every operation used by the rules succeeds and keeps the invariant. *)
Lemma kop_spec op k : kinv k -> kop_ok op k -> kdone op k.
Proof.
  intros Hk Ho. destruct (kop_shape op k Hk Ho) as (k1 & [E|E] & Hk1 & _ & F); [by exists k1|]. by apply (then_schedule _ _ _ k k1 E).
Qed.

(** It leaves the processor where it is, or to a thread that no ready thread
    exceeds. *)
Definition handed_over (k k' : kernel) : Prop := current k' = current k \/
  exists x t, current k' = Some x /\ threads k' !! x = Some t /\ st t = RT_THREAD_RUNNING /\
    forall y ty, threads k' !! y = Some ty -> st ty = RT_THREAD_READY -> current_priority t <= current_priority ty.

Lemma kop_current op k k' : kinv k -> kop_ok op k -> run_kop op k = Some (tt, k') -> handed_over k k'.
Proof.
  intros Hk Ho E. destruct (kop_shape op k Hk Ho) as (k1 & Er & Hk1 & Hc & _). rewrite E in Er. destruct Er as [[= <-]|Er]; [by left|].
  destruct (kinv_schedule k1 Hk1) as (k2 & E2 & _ & _ & Hs & Hn). rewrite E2 in Er. injection Er as ->.
  destruct (Z.eq_dec (lock_nest k1) 0) as [El|El]; [|left; by rewrite (Hn El)]. right.
  destruct (Hs El) as (c & tc & _ & _ & [_ _ (x & t & Ex & Et & Hr & Hq & _) _]). by exists x, t.
Qed.

(** Threads come only from [KInit]. *)
Definition adds {A} (P : Z -> Prop) (m : M kernel A) : Prop :=
  forall k a k', m k = Some (a, k') -> forall y, ~ P y -> threads k !! y = None -> threads k' !! y = None.

Lemma adds_same {A} P (m : M kernel A) : (forall k a k', m k = Some (a, k') -> threads k' = threads k) -> adds P m.
Proof. intros H k a k' E y _ Ey. by rewrite (H k a k' E). Qed.

Lemma adds_bind {A B} P (m : M kernel A) (f : A -> M kernel B) : adds P m -> (forall a, adds P (f a)) -> adds P (bindM m f).
Proof. intros H1 H2 k b k' E y Hy Ey. apply bindM_inv in E as (a & k1 & E1 & E2). exact (H2 a _ _ _ E2 y Hy (H1 _ _ _ E1 y Hy Ey)). Qed.

Lemma adds_upd P x f : adds P (upd x f).
Proof.
  intros k a k' [= _ <-] y _ Ey. rewrite threads_alter. destruct (decide (y = x)) as [->|]; [|done]. by rewrite Ey.
Qed.

Lemma adds_of P x : adds P (thread_of x).
Proof. apply adds_same. intros k a k'. unfold thread_of. by destruct (threads k !! x); intros [= <- <-]. Qed.
Lemma adds_self P : adds P rt_thread_self.
Proof. apply adds_same. intros k a k'. unfold rt_thread_self. by destruct (current k); intros [= <- <-]. Qed.
Lemma adds_highest P : adds P _get_highest_priority_thread.
Proof. apply adds_same. intros k a k'. unfold _get_highest_priority_thread. by destruct (lists k _); intros [= <- <-]. Qed.

Ltac adds := repeat first
  [ apply adds_upd | apply adds_of | apply adds_self | apply adds_highest | apply adds_bind; [|intros ?]
  | by (apply adds_same; intros ? ? ? [= <- <-]) | by (apply adds_same; intros ? ? ? ?)
  | match goal with |- adds _ (if ?e then _ else _) => destruct e | |- adds _ (match ?e with _ => _ end) => destruct e end ].

Lemma adds_insert P x : adds P (rt_schedule_insert_thread x).
Proof. unfold rt_schedule_insert_thread, push_back. adds. Qed.
Lemma adds_remove P x : adds P (rt_schedule_remove_thread x).
Proof. unfold rt_schedule_remove_thread, list_remove. adds. Qed.

Lemma adds_schedule P : adds P rt_schedule.
Proof.
  intros k a k'. unfold rt_schedule. destruct (negb _); [by intros [= <- <-]|]. destruct (_ =? 0); [by intros [= <- <-]|].
  revert k a k'. change (adds P ?m) with (adds P m).
  match goal with |- forall k a k', ?m k = _ -> _ => change (adds P m) end.
  adds; auto using adds_insert, adds_remove.
Qed.

Lemma kop_adds op : adds (fun y => exists p n, op = KInit y p n) (run_kop op).
Proof.
  destruct op as [| | | | | | | |x p n|x|x p|x|x|x|x]; cbn [run_kop]; unfold ignore, rt_thread_yield, sleep_enter, sleep_exit, rt_thread_exit,
    tick_slice, rt_thread_startup, change_priority, rt_thread_suspend, rt_thread_resume, rt_thread_delete, rt_thread_timeout, list_remove;
    try (adds; auto using adds_insert, adds_remove, adds_schedule; fail).
  - intros k a k'. unfold rt_exit_critical. destruct (_ <=? 0); [|by intros [= <- <-]].
    destruct (current (with_lock 0 k)); [|by intros [= <- <-]]. apply (adds_schedule _ (with_lock 0 k)).
  - intros k a k' E y Hy Ey. apply bindM_inv in E as (r & k1 & E & [= _ <-]). unfold _rt_thread_init in E.
    destruct (p <? _); [|done]. injection E as _ <-. cbn. rewrite lookup_insert_ne; [done|]. intros ->. apply Hy. by exists p, n.
Qed.

Lemma kops_spec ops : forall k, kinv k -> kops_ok ops k -> exists k', run_kops ops k = Some (tt, k') /\ kinv k'.
Proof.
  induction ops as [|op ops IH]; intros k Hk Ho; cbn [run_kops kops_ok] in *; [by exists k|].
  destruct Ho as [Ho Hr]. destruct (kop_spec op k Hk Ho) as (k1 & E & Hk1 & _). rewrite E in Hr.
  destruct (IH k1 Hk1 Hr) as (k' & E' & Hk'). exists k'. by rewrite (bindM_some _ _ _ _ _ E).
Qed.
End System.

(* ------------------------------------------------------------------ *)
(** ** The start of the system *)

(** Before the scheduler starts: every thread ready, none current. *)
Record kpre (k : kernel) : Prop := {
  kp_wf : kwf k; kp_cur : current k = None; kp_lock : lock_nest k = 0;
  kp_ready : forall x t, threads k !! x = Some t -> st t = RT_THREAD_READY /\ timer_on t = false /\
    current_priority t = init_priority t }.

Lemma start_one k x p n : kpre k -> threads k !! x = None -> 0 <= p < 32 ->
  exists k', (do! _rt_thread_init x p n in ignore (rt_thread_startup x)) k = Some (tt, k') /\ kpre k' /\
    is_Some (threads k' !! x) /\ others x k k'.
Proof.
  intros [W Hc Hl Hr] Ex Hp. unfold bindM at 1, _rt_thread_init.
  rewrite (proj2 (Z.ltb_lt p _)) by (unfold RT_THREAD_PRIORITY_MAX; lia).
  set (t0 := Thread RT_THREAD_INIT p p 0 n n RT_EOK false). set (k0 := with_threads _ k).
  assert (threads k0 !! x = Some t0) as E0 by (cbn; by rewrite lookup_insert_eq).
  assert (koff x (current k) k0) as W0 by (apply kwfx_insert; [done|done|]; split_and!; cbn; try lia; by intros [[] _]).
  unfold ignore, rt_thread_startup. rewrite bindM_assoc, (of_eq k0 x t0) by done.
  change (negb (st t0 =? RT_THREAD_INIT)) with false. cbn iota.
  rewrite bindM_assoc, upd_bind, bindM_assoc, upd_bind. cbn [threads with_threads].
  set (t1 := with_stat RT_THREAD_SUSPEND (with_priority (init_priority t0) (mask_of (init_priority t0)) t0)).
  set (k1 := with_threads _ (with_threads _ k0)).
  assert (threads k1 !! x = Some t1) as E1.
  { unfold k1. cbn [threads with_threads]. rewrite (alter_alter_insert _ _ x t0) by done. by rewrite lookup_insert_eq. }
  assert (kwf k1) as W1.
  { set (ka := with_threads (alter (with_priority p (mask_of p)) x (threads k0)) k0).
    apply (koff_own x t1); [|done|done|done].
    apply (koff_alter x (with_stat RT_THREAD_SUSPEND) _ ka); [apply (koff_alter x _ _ k0); [done|]|].
    - intros t. rewrite E0. intros [= <-]. split_and!; cbn; try lia. by intros [[] _].
    - intros t. unfold ka. rewrite threads_alter, decide_True, E0 by done. intros [= <-]. split_and!; cbn; try lia.
      intros _. by apply mask_of_pow. }
  destruct (resume_spec k1 x t1 W1 E1 eq_refl) as (k2 & t2 & E2 & [R1 R2 R3 R4 R5 R6 R7 R8 R9 R10] & _ & Ht2).
  rewrite bindM_assoc, (bindM_some _ _ _ _ _ E2), bindM_assoc, bindM_getM. cbn [fst snd].
  assert (current k2 = None) as Hc2 by (by rewrite R2). rewrite Hc2. eexists. split; [reflexivity|].
  assert (others x k k2) as Ho.
  { intros y Hy. rewrite R7 by done. unfold k1, k0. cbn [threads with_threads].
    by rewrite !lookup_alter_ne, lookup_insert_ne by congruence. }
  split_and!; [|by eexists|done]. split; [done|done|by rewrite R3|]. intros y ty Ey.
  destruct (decide (y = x)) as [->|Hne]; [|rewrite Ho in Ey by done; by apply (Hr y)].
  rewrite R6 in Ey. injection Ey as <-. split; [|split; [done|by rewrite R9, R10]]. destruct R8 as [|Hrun]; [done|].
  pose proof (kw_run _ _ _ R1 x t2 I R6 Hrun). congruence.
Qed.

Lemma start_threads_spec cfg : List.NoDup (map fst cfg) -> Forall (fun c => 0 <= fst (snd c) < 32) cfg ->
  forall k, kpre k -> (forall x, In x (map fst cfg) -> threads k !! x = None) ->
  exists k', start_threads cfg k = Some (tt, k') /\ kpre k' /\
    forall x, is_Some (threads k' !! x) <-> is_Some (threads k !! x) \/ In x (map fst cfg).
Proof.
  induction cfg as [|[x [p n]] cfg IH]; intros N F k Hk Hf; cbn [start_threads map fst In] in *.
  { exists k. split_and!; try done. tauto. }
  inversion N as [|a l Hx N']; subst a l. apply Forall_cons in F as [Hp F]. cbn [fst snd] in Hp.
  destruct (start_one k x p n Hk (Hf x ltac:(by left)) Hp) as (k1 & E1 & Hk1 & Sx & Ho).
  destruct (IH N' F k1 Hk1) as (k' & E' & Hk' & Hi).
  { intros y Hy. rewrite Ho; [apply Hf; by right|]. intros ->. done. }
  exists k'. split_and!; [|done|].
  - unfold ignore in E1. apply bindM_inv in E1 as (r & ka & Ea & E1). apply bindM_inv in E1 as (r' & kb & Eb & [= <-]).
    rewrite (bindM_some _ _ _ _ _ Ea), (bindM_some _ _ _ _ _ Eb). done.
  - intros y. rewrite Hi. destruct (decide (y = x)) as [->|Hne]; [split; [tauto|by left]|].
    rewrite Ho by done. intuition congruence.
Qed.

Definition boot_ok (idle : Z) (cfg : list (Z * (Z * Z))) : Prop :=
  List.NoDup (map fst cfg) /\ Forall (fun c => 0 <= fst (snd c) < 32) cfg /\ In idle (map fst cfg).

Lemma kernel_boot_spec idle cfg : boot_ok idle cfg ->
  exists k, kernel_boot cfg = Some k /\ kinv idle k /\ lock_nest k = 0 /\
    (forall x, is_Some (threads k !! x) <-> In x (map fst cfg)) /\
    (forall x t, threads k !! x = Some t -> runnable t /\ current_priority t = init_priority t).
Proof.
  intros (N & F & Hin). assert (kpre rt_system_scheduler_init) as H0.
  { split; try done. split; try done.
    - intros i _. constructor.
    - intros p Hp. by rewrite Z.testbit_0_l. }
  destruct (start_threads_spec cfg N F _ H0 ltac:(done)) as (k & E & [W Hc Hl Hr] & Hi).
  assert (forall x, is_Some (threads k !! x) <-> In x (map fst cfg)) as Hids.
  { intros x. rewrite Hi. cbn. split; [intros [[? ?]|]; done|by right]. }
  destruct (proj2 (Hids idle) Hin) as [ti Ei].
  assert (group k <> 0) as Hg.
  { intros Hg. apply (group_zero _ _ W Hg idle ti Ei). by apply (Hr idle). }
  unfold kwf in W. rewrite Hc in W.
  destruct (highest_spec _ _ W Hg) as (x & r & p & t & Hp & Eh & El & Ex & Er & Epx & _ & Hq).
  unfold kernel_boot. rewrite (bindM_some _ _ _ _ _ E). unfold rt_system_scheduler_start.
  rewrite (bindM_some _ _ _ _ _ Eh). cbn [fst]. rewrite bindM_doM. set (k1 := with_current x 0 k).
  assert (threads k1 !! x = Some t) as E1 by done. rewrite (bindM_some _ _ _ _ _ (remove_eq x t k1 E1)), upd_eq.
  cbn [option_map snd]. eexists. split; [reflexivity|]. destruct (removed_fields x t k1) as (F1 & F2 & F3 & F4).
  assert (koff x None (removed x t k1)) as W1 by (apply removed_wf; [by apply with_current_wf|done|by rewrite Er]).
  set (k2 := removed x t k1) in *. split_and!.
  - split.
    + apply (koff_own x (with_stat RT_THREAD_RUNNING t)).
      * apply koff_alter; [|intros t' E'; rewrite F1, E1 in E'; injection E' as <-].
        -- apply (koff_cur x None); [done|by right|left]. cbn [current with_threads]. by rewrite F2.
        -- destruct (kw_valid _ _ _ W x t Ex) as (V1 & V2 & V3). split_and!; cbn; try lia. intros _. apply V3. by rewrite Er.
      * by rewrite (threads_alter _ x k2), decide_True, F1, E1.
      * done.
      * intros _. cbn [current with_threads]. by rewrite F2.
    + exists x, (with_stat RT_THREAD_RUNNING t). cbn [current with_threads]. rewrite F2. split; [done|].
      by rewrite (threads_alter _ x k2), decide_True, F1, E1.
    + rewrite (threads_alter _ x k2). destruct (decide (idle = x)) as [->|Hne].
      * rewrite F1, E1. exists (with_stat RT_THREAD_RUNNING t). split; [done|]. by right.
      * exists ti. rewrite F1. split; [done|]. left. by apply (Hr idle).
    + cbn [lock_nest with_threads]. rewrite F3. cbn. by rewrite Hl.
    + intros y ty. rewrite (threads_alter _ x k2), F1. change (threads k1) with (threads k). destruct (decide (y = x)) as [->|Hne].
      * rewrite Ex. intros [= <-]. cbn. destruct (Hr x t Ex) as (_ & -> & _). done.
      * intros Ey Hy. destruct (Hr y ty Ey) as (_ & ? & _). congruence.
  - cbn [lock_nest with_threads]. rewrite F3. done.
  - intros y. rewrite (threads_alter _ x k2), F1. change (threads k1) with (threads k). rewrite <- Hids.
    destruct (decide (y = x)) as [->|]; [|done]. by rewrite fmap_is_Some.
  - intros y ty. rewrite (threads_alter _ x k2), F1. change (threads k1) with (threads k). destruct (decide (y = x)) as [->|Hne].
    + rewrite Ex. intros [= <-]. split; [by right|]. exact (proj2 (proj2 (Hr x t Ex))).
    + intros Ey. destruct (Hr y ty Ey) as (? & _ & ?). split; [by left|done].
Qed.

(** The rules of use, decided. *)
Definition runningb (k : kernel) (x : Z) : bool :=
  match current k, threads k !! x with
  | Some c, Some t => (c =? x) && (st t =? RT_THREAD_RUNNING)
  | _, _ => false
  end.

Definition kop_okb (idle : Z) (op : kop) (k : kernel) : bool :=
  let has x := match threads k !! x with Some _ => true | None => false end in
  match op with
  | KSchedule | KTick | KLeave => true
  | KEnter => lock_nest k <? 32767
  | KYield | KSleepExit => match current k with Some x => runningb k x | None => false end
  | KSleep | KExit => match current k with Some x => runningb k x && negb (x =? idle) | None => false end
  | KInit x p n => negb (has x) && (0 <=? p) && (p <? 32)
  | KStartup x => match threads k !! x with Some t => st t =? RT_THREAD_INIT | None => false end
  | KPriority x p => has x && (0 <=? p) && (p <? 32)
  | KSuspend x | KDelete x => has x && negb (x =? idle)
  | KResume x => has x
  | KTimeout x => match threads k !! x with Some t => timer_on t | None => false end
  end.

Fixpoint kops_okb (idle : Z) (ops : list kop) (k : kernel) : bool :=
  match ops with
  | [] => true
  | op :: r => kop_okb idle op k && match run_kop op k with Some (_, k') => kops_okb idle r k' | None => true end
  end.

Lemma runningb_spec k x : runningb k x = true -> running k x.
Proof.
  unfold runningb. destruct (current k) as [c|] eqn:Ec; [|done]. destruct (threads k !! x) as [t|] eqn:Et; [|done].
  intros [->%Z.eqb_eq ?%Z.eqb_eq]%andb_true_iff. by exists t.
Qed.

Lemma kop_okb_spec idle op k : kop_okb idle op k = true -> kop_ok idle op k.
Proof.
  destruct op as [| | | | | | | |x p n|x|x p|x|x|x|x]; cbn [kop_ok kop_okb]; try done.
  1-4: destruct (current k) as [c|]; [|done]; intros H; exists c; breflect; auto using runningb_spec.
  { apply Z.ltb_lt. }
  all: destruct (threads k !! x) as [t|] eqn:Et; cbn; intros H; try done; breflect; eauto.
Qed.

Lemma kops_okb_spec idle ops : forall k, kops_okb idle ops k = true -> kops_ok idle ops k.
Proof.
  induction ops as [|op ops IH]; intros k; cbn [kops_ok kops_okb]; [done|]. intros [H1 H2]%andb_true_iff.
  split; [by apply kop_okb_spec|]. destruct (run_kop op k) as [[[] k']|]; [by apply IH|done].
Qed.

(* ------------------------------------------------------------------ *)
(** ** Properties *)

(** C9: the bookkeeping of the scheduler is exact in every reachable state.
    From any start of the system, whatever the threads and the interrupts do
    within the rules: no assertion fails and no thread is lost; a thread is
    ready exactly when it is on the row of its own priority, a waiting one is
    suspended, none is on two lists or twice on one, only the current thread
    runs, and bit [p] of the bitmap is set exactly when row [p] has a thread. *)
Theorem scheduler_invariant idle cfg k0 ops :
  boot_ok idle cfg -> kernel_boot cfg = Some k0 -> kops_ok idle ops k0 ->
  exists k, run_kops ops k0 = Some (tt, k) /\
    (exists c t, current k = Some c /\ threads k !! c = Some t) /\
    (forall x t, threads k !! x = Some t ->
       (st t = RT_THREAD_READY <-> In x (lists k (Ready (current_priority t)))) /\
       (forall o, In x (lists k (Wait o)) -> st t = RT_THREAD_SUSPEND) /\
       (forall i j, i <> Defunct -> j <> Defunct -> In x (lists k i) -> In x (lists k j) -> i = j) /\
       (st t = RT_THREAD_RUNNING -> current k = Some x)) /\
    (forall i, i <> Defunct -> List.NoDup (lists k i)) /\
    (forall p, 0 <= p < 32 -> Z.testbit (group k) p = true <-> lists k (Ready p) <> []).
Proof.
  intros Hb E Ho. destruct (kernel_boot_spec idle cfg Hb) as (k1 & E1 & Hk & _). rewrite E in E1. injection E1 as <-.
  destruct (kops_spec idle ops k0 Hk Ho) as (k & Er & [W Hc _ _ _]). exists k. split; [done|]. split; [done|].
  split; [|split; [apply W|apply W]]. intros x t Et.
  assert (forall p, In x (lists k (Ready p)) -> st t = RT_THREAD_READY /\ current_priority t = p) as Hrow.
  { intros p Hin. destruct (kw_row _ _ _ W p x Hin) as (_ & _ & t' & E' & ?). rewrite Et in E'. by injection E' as <-. }
  assert (forall o, In x (lists k (Wait o)) -> st t = RT_THREAD_SUSPEND) as Hw.
  { intros o Hin. destruct (kw_wait _ _ _ W o x Hin) as (_ & t' & E' & ?). rewrite Et in E'. by injection E' as <-. }
  split_and!; [|done| |by apply (kw_run _ _ _ W)].
  - split; [by apply (kw_ready _ _ _ W)|]. intros Hin. by apply Hrow in Hin as [? _].
  - intros [p|o|] [q|o'|] Hi Hj H1 H2; try done.
    + destruct (Hrow p H1), (Hrow q H2). congruence.
    + destruct (Hrow p H1) as [Hs _]. by rewrite (Hw o' H2) in Hs.
    + destruct (Hrow q H2) as [Hs _]. by rewrite (Hw o H1) in Hs.
    + f_equal. by apply (kw_wait1 _ _ _ W o o' x).
Qed.

(** The idle thread 0, a thread 3 of high priority, two of the same priority. *)
Definition sample_threads : list (Z * (Z * Z)) := [(0, (31, 32)); (1, (10, 2)); (2, (10, 2)); (3, (5, 10))].
Definition sample_kernel : kernel := match kernel_boot sample_threads with Some k => k | None => rt_system_scheduler_init end.
Definition sample_ops : list kop :=
  [KSleep; KSchedule; KTick; KTick; KSleep; KSchedule; KPriority 1 7; KTimeout 3; KYield; KSleep; KEnter; KSchedule; KLeave].

Lemma sample_boot_ok : boot_ok 0 sample_threads.
Proof.
  split_and!; [|repeat constructor; cbn; lia|by left].
  apply NoDup_ListNoDup. by apply (bool_decide_unpack _).
Qed.

Lemma sample_boot : kernel_boot sample_threads = Some sample_kernel.
Proof. destruct (kernel_boot_spec 0 _ sample_boot_ok) as (k & E & _). unfold sample_kernel. by rewrite E. Qed.

Lemma scheduler_invariant_witness :
  exists k, run_kops sample_ops sample_kernel = Some (tt, k) /\
    forall p, 0 <= p < 32 -> Z.testbit (group k) p = true <-> lists k (Ready p) <> [].
Proof.
  destruct (scheduler_invariant 0 sample_threads sample_kernel sample_ops) as (k & E & _ & _ & _ & H).
  - exact sample_boot_ok.
  - exact sample_boot.
  - apply kops_okb_spec. vm_compute. reflexivity.
  - exists k. split; [exact E|exact H].
Defined.

(** C10: the scheduler runs the thread it should.  In every reachable state with
    the scheduler unlocked, [rt_schedule] succeeds and leaves a running thread
    of a priority no ready thread exceeds.  It keeps the processor where it is
    unless it must not: on a switch the new thread was the first of its row,
    and either the old one no longer runs, or it is of lower priority, or of
    the same one and has used up its slice or yielded; in the last two cases
    it goes behind the others of its row, and no other row changes. *)
Theorem schedule_runs_highest idle cfg k0 ops k :
  boot_ok idle cfg -> kernel_boot cfg = Some k0 -> kops_ok idle ops k0 ->
  run_kops ops k0 = Some (tt, k) -> lock_nest k = 0 ->
  exists k' x t c tc, rt_schedule k = Some (tt, k') /\
    current k' = Some x /\ threads k' !! x = Some t /\ st t = RT_THREAD_RUNNING /\
    (forall y ty, threads k' !! y = Some ty -> st ty = RT_THREAD_READY -> current_priority t <= current_priority ty) /\
    current k = Some c /\ threads k !! c = Some tc /\
    (x = c \/ exists r, lists k (Ready (current_priority t)) = x :: r /\
       (st tc = RT_THREAD_RUNNING -> current_priority t < current_priority tc \/
          current_priority t = current_priority tc /\ yields tc = true) /\
       forall p, lists k' (Ready p) = (if p =? current_priority t then r else lists k (Ready p)) ++
         (if (st tc =? RT_THREAD_RUNNING) && (p =? current_priority tc) then [c] else [])).
Proof.
  intros Hb E Ho Er Hl. destruct (kernel_boot_spec idle cfg Hb) as (k1 & E1 & Hk & _). rewrite E in E1. injection E1 as <-.
  destruct (kops_spec idle ops k0 Hk Ho) as (k2 & Er' & Hk2). rewrite Er in Er'. injection Er' as <-.
  destruct (kinv_schedule idle k Hk2) as (k' & Es & _ & _ & Hs & _).
  destruct (Hs Hl) as (c & tc & Ec & Etc & [_ _ (x & t & Ex & Et & Hr & Hhi & Hsw) _]).
  exists k', x, t, c, tc. split_and!; try done. destruct Hsw as [[-> _]|(_ & r & El & Hrows & _ & Hwhy)]; [by left|].
  right. exists r. split_and!; try done. intros p. rewrite Hrows. unfold switched_rows. f_equal.
  by destruct (st tc =? RT_THREAD_RUNNING).
Qed.

(** Thread 3 sleeps and thread 1 runs; when its slice is over, thread 2 of the
    same priority takes its turn.  In the state below thread 1 has still a tick. *)
Definition switch_ops : list kop := [KSleep; KSchedule; KTick].
Definition sample_switch : option (unit * kernel) := run_kops switch_ops sample_kernel.

Lemma switch_ok : kops_okb 0 switch_ops sample_kernel = true.
Proof. vm_compute. reflexivity. Qed.

Lemma schedule_runs_highest_witness :
  exists k k', run_kops switch_ops sample_kernel = Some (tt, k) /\ rt_schedule k = Some (tt, k') /\
    exists x t, current k' = Some x /\ threads k' !! x = Some t /\
      forall y ty, threads k' !! y = Some ty -> st ty = RT_THREAD_READY -> current_priority t <= current_priority ty.
Proof.
  assert (match sample_switch with Some (_, k) => lock_nest k =? 0 | None => false end = true) as H by (vm_compute; reflexivity).
  destruct sample_switch as [[[] k]|] eqn:E; [|discriminate H]. apply Z.eqb_eq in H.
  destruct (schedule_runs_highest 0 sample_threads sample_kernel switch_ops k sample_boot_ok sample_boot
    (kops_okb_spec 0 switch_ops sample_kernel switch_ok) E H) as (k' & x & t & _ & _ & E' & Ex & Et & _ & Hq & _).
  exists k, k'. split; [exact E|]. split; [exact E'|]. exists x, t. split; [exact Ex|]. split; [exact Et|exact Hq].
Defined.
