(* ===== verification/Ipc.v ===== *)
(** * Semaphores and mutexes

    rt-thread/src/ipc.c on top of the threads of Kernel.v: rt_sem_* and
    rt_mutex_*, with the lists of waiting threads, the time-outs and the
    priority inheritance.  A blocking call is modelled up to the point where
    the interrupts are enabled again ([.._begin]); what follows is a call of
    [rt_schedule], in front of which an interrupt may come, and, when the thread
    runs again, the reading of its error code ([take_result]).  Mailboxes are in
    Mailbox.v, events in Event.v.  Left out: message queues, which the firmware
    itself does not use, object names, hooks, the allocation of objects. *)

From Stdlib Require Import ZArith Lia.
From stdpp Require Import base numbers list gmap.
From S2P Require Import Prelude Kernel.
Open Scope c_scope.

Definition RT_IPC_FLAG_FIFO : Z := 0x00.
Definition RT_IPC_FLAG_PRIO : Z := 0x01.
Definition RT_IPC_CMD_RESET : Z := 0x01.
Definition RT_SEM_VALUE_MAX : Z := 0xffff.
Definition RT_MUTEX_VALUE_MAX : Z := 0xffff.
Definition RT_MUTEX_HOLD_MAX : Z := 0xff.

Record sem := Sem { value : Z; s_flag : Z }.
Record mutex := Mutex { m_value : Z; original_priority : Z; hold : Z; owner : option Z; m_flag : Z }.

(** The objects by their number; the list [Wait o] of the kernel is the
    [suspend_thread] of the object [o]. *)
Inductive obj := OSem (s : sem) | OMutex (m : mutex).
Record ipc := Ipc { kern : kernel; objs : gmap Z obj }.

Definition with_kern (k : kernel) (s : ipc) : ipc := Ipc k (objs s).
Definition with_objs (b : gmap Z obj) (s : ipc) : ipc := Ipc (kern s) b.

Definition on_kern {A} (m : M kernel A) : M ipc A := fun s =>
  match m (kern s) with Some (a, k) => Some (a, with_kern k s) | None => None end.

(** The type check of the operations: RT_ASSERT(rt_object_get_type(...) == ...). *)
Definition sem_of (o : Z) : M ipc sem := fun s =>
  match objs s !! o with Some (OSem b) => Some (b, s) | _ => None end.
Definition mutex_of (o : Z) : M ipc mutex := fun s =>
  match objs s !! o with Some (OMutex b) => Some (b, s) | _ => None end.
Definition put (o : Z) (b : obj) : M ipc unit := doM (fun s => with_objs (<[o := b]> (objs s)) s).

(* ------------------------------------------------------------------ *)
(** ** The lists of waiting threads *)

(** The loop that finds the place of a thread of priority [p]. *)
Fixpoint prio_place (k : kernel) (x p : Z) (l : list Z) : option (list Z) :=
  match l with
  | [] => Some [x]
  | y :: r =>
      match threads k !! y with
      | None => None
      | Some t => if p <? current_priority t then Some (x :: y :: r) else option_map (cons y) (prio_place k x p r)
      end
  end.

Definition rt_ipc_list_suspend (o x flag : Z) : M kernel unit :=
  do! ignore (rt_thread_suspend x) in
  if flag =? RT_IPC_FLAG_FIFO then push_back (Wait o) x
  else if flag =? RT_IPC_FLAG_PRIO then
    let! t := thread_of x in
    fun k => match prio_place k x (current_priority t) (lists k (Wait o)) with
             | Some l => Some (tt, list_set (Wait o) l k)
             | None => None
             end
  else retM tt.

Definition rt_ipc_list_resume (o : Z) : M kernel unit := fun k =>
  match lists k (Wait o) with
  | [] => None
  | x :: _ => ignore (rt_thread_resume x) k
  end.

(** One turn for every thread on the list; the code loops until it is empty. *)
Fixpoint resume_all (fuel : nat) (o : Z) : M kernel unit := fun k =>
  match lists k (Wait o), fuel with
  | [], _ => Some (tt, k)
  | _, O => None
  | x :: _, S n => (do! upd x (with_error (- RT_ERROR)) in do! ignore (rt_thread_resume x) in resume_all n o) k
  end.

Definition rt_ipc_list_resume_all (o : Z) : M kernel unit := fun k => resume_all (length (lists k (Wait o))) o k.

(* ------------------------------------------------------------------ *)
(** ** Semaphores *)

Definition rt_sem_init (o value flag : Z) : M ipc unit := fun s =>
  if value <? 0x10000 then (do! on_kern (doM (list_set (Wait o) [])) in put o (OSem (Sem (u16 value) flag))) s else None.

Definition rt_sem_detach (o : Z) : M ipc unit :=
  let! _ := sem_of o in
  do! on_kern (rt_ipc_list_resume_all o) in
  doM (fun s => with_objs (delete o (objs s)) s).

(** [None]: the thread is suspended. *)
Definition rt_sem_take_begin (o time : Z) : M ipc (option Z) :=
  let! b := sem_of o in
  if 0 <? value b then
    do! put o (OSem (Sem (u16 (value b - 1)) (s_flag b))) in
    retM (Some RT_EOK)
  else if time =? 0 then retM (Some (- RT_ETIMEOUT))
  else
    let! x := on_kern rt_thread_self in
    do! on_kern (upd x (with_error RT_EOK)) in
    do! on_kern (rt_ipc_list_suspend o x (s_flag b)) in
    do! (if 0 <? time then on_kern (upd x (with_timer true)) else retM tt) in
    retM None.

(** What the thread [x] returns when it runs again. *)
Definition take_result (x : Z) : M ipc Z := let! t := on_kern (thread_of x) in retM (error t).

Definition rt_sem_take (o time : Z) : M ipc (option Z) :=
  let! r := rt_sem_take_begin o time in
  match r with
  | Some e => retM (Some e)
  | None => do! on_kern rt_schedule in retM None
  end.

(** The result and [need_schedule]. *)
Definition rt_sem_release_begin (o : Z) : M ipc (Z * bool) :=
  let! b := sem_of o in
  let! l := getM (fun s => (lists (kern s) (Wait o), s)) in
  match l with
  | _ :: _ => do! on_kern (rt_ipc_list_resume o) in retM (RT_EOK, true)
  | [] =>
      if value b <? RT_SEM_VALUE_MAX then
        do! put o (OSem (Sem (u16 (value b + 1)) (s_flag b))) in
        retM (RT_EOK, false)
      else retM (- RT_EFULL, false)
  end.

Definition rt_sem_release (o : Z) : M ipc Z :=
  let! r := rt_sem_release_begin o in
  do! (if snd r : bool then on_kern rt_schedule else retM tt) in
  retM (fst r).

(** [rt_sem_control] up to its schedule. *)
Definition rt_sem_reset_begin (o v : Z) : M ipc unit :=
  let! b := sem_of o in
  do! on_kern (rt_ipc_list_resume_all o) in
  put o (OSem (Sem (u16 v) (s_flag b))).

Definition rt_sem_control (o cmd v : Z) : M ipc Z :=
  let! _ := sem_of o in
  if cmd =? RT_IPC_CMD_RESET then
    do! rt_sem_reset_begin o v in
    do! on_kern rt_schedule in
    retM RT_EOK
  else retM (- RT_ERROR).

(* ------------------------------------------------------------------ *)
(** ** Mutexes *)

Definition rt_mutex_init (o flag : Z) : M ipc unit :=
  do! on_kern (doM (list_set (Wait o) [])) in
  put o (OMutex (Mutex 1 0xFF 0 None flag)).

Definition rt_mutex_detach (o : Z) : M ipc unit :=
  let! _ := mutex_of o in
  do! on_kern (rt_ipc_list_resume_all o) in
  doM (fun s => with_objs (delete o (objs s)) s).

(** The owner gets the priority of the thread that waits for it. *)
Definition inherit (x y : Z) : M kernel unit :=
  let! t := thread_of x in
  let! u := thread_of y in
  if current_priority t <? current_priority u then change_priority y (current_priority t) else retM tt.

Definition rt_mutex_take_begin (o time : Z) : M ipc (option Z) :=
  let! b := mutex_of o in
  let! x := on_kern rt_thread_self in
  do! on_kern (upd x (with_error RT_EOK)) in
  if bool_decide (owner b = Some x) then
    if hold b <? RT_MUTEX_HOLD_MAX then
      do! put o (OMutex (Mutex (m_value b) (original_priority b) (u8 (hold b + 1)) (owner b) (m_flag b))) in
      retM (Some RT_EOK)
    else retM (Some (- RT_EFULL))
  else if 0 <? m_value b then
    let! t := on_kern (thread_of x) in
    let v := u16 (m_value b - 1) in
    if hold b <? RT_MUTEX_HOLD_MAX then
      do! put o (OMutex (Mutex v (current_priority t) (u8 (hold b + 1)) (Some x) (m_flag b))) in
      retM (Some RT_EOK)
    else
      do! put o (OMutex (Mutex v (current_priority t) (hold b) (Some x) (m_flag b))) in
      retM (Some (- RT_EFULL))
  else if time =? 0 then
    do! on_kern (upd x (with_error (- RT_ETIMEOUT))) in
    retM (Some (- RT_ETIMEOUT))
  else
    match owner b with
    | None => failM
    | Some y =>
        do! on_kern (inherit x y) in
        do! on_kern (rt_ipc_list_suspend o x (m_flag b)) in
        do! (if 0 <? time then on_kern (upd x (with_timer true)) else retM tt) in
        retM None
    end.

Definition rt_mutex_take (o time : Z) : M ipc (option Z) :=
  let! r := rt_mutex_take_begin o time in
  match r with
  | Some e => retM (Some e)
  | None => do! on_kern rt_schedule in retM None
  end.

(** The last release of [o] by its owner [x]: [b] with the hold count zero. *)
Definition mutex_give_up (o x : Z) (b : mutex) : M ipc (Z * bool) :=
  let! t := on_kern (thread_of x) in
  do! (if negb (original_priority b =? current_priority t)
       then on_kern (change_priority x (original_priority b)) else retM tt) in
  let! l := getM (fun s => (lists (kern s) (Wait o), s)) in
  match l with
  | y :: _ =>
      let! u := on_kern (thread_of y) in
      if hold b <? RT_MUTEX_HOLD_MAX then
        do! put o (OMutex (Mutex (m_value b) (current_priority u) (u8 (hold b + 1)) (Some y) (m_flag b))) in
        do! on_kern (rt_ipc_list_resume o) in
        retM (RT_EOK, true)
      else
        do! put o (OMutex (Mutex (m_value b) (current_priority u) (hold b) (Some y) (m_flag b))) in
        retM (- RT_EFULL, false)
  | [] =>
      if m_value b <? RT_MUTEX_VALUE_MAX then
        do! put o (OMutex (Mutex (u16 (m_value b + 1)) 0xff (hold b) None (m_flag b))) in
        retM (RT_EOK, false)
      else
        do! put o (OMutex b) in
        retM (- RT_EFULL, false)
  end.

Definition rt_mutex_release_begin (o : Z) : M ipc (Z * bool) :=
  let! b := mutex_of o in
  let! x := on_kern rt_thread_self in
  if negb (bool_decide (owner b = Some x)) then
    do! on_kern (upd x (with_error (- RT_ERROR))) in
    retM (- RT_ERROR, false)
  else
    let b1 := Mutex (m_value b) (original_priority b) (u8 (hold b - 1)) (owner b) (m_flag b) in
    if hold b1 =? 0 then mutex_give_up o x b1
    else
      do! put o (OMutex b1) in
      retM (RT_EOK, false).

Definition rt_mutex_release (o : Z) : M ipc Z :=
  let! r := rt_mutex_release_begin o in
  do! (if snd r : bool then on_kern rt_schedule else retM tt) in
  retM (fst r).

(* ------------------------------------------------------------------ *)
(** ** Runs

    The calls are atomic up to [rt_schedule]; any operation of the kernel may
    come between two of them.  Each leaves an event: who called, what was
    returned ([None]: suspended), which thread was handed the object. *)

Inductive iop :=
  | IKernel (op : kop)
  | ISemInit (o v flag : Z) | ISemTake (o time : Z) | ISemRelease (o : Z) | ISemReset (o v : Z) | ISemDetach (o : Z)
  | IMutexInit (o flag : Z) | IMutexTake (o time : Z) | IMutexRelease (o : Z) | IMutexDetach (o : Z).

Inductive event :=
  | ENone
  | ELeave (x : Z)
  | ETake (o x : Z) (r : option Z)
  | ERelease (o : Z) (woken : option Z) (r : Z)
  | EReset (o v : Z)
  | EMTake (o x : Z) (r : option Z)
  | EMRelease (o x : Z) (heir : option Z) (r : Z).

Definition first_waiter (o : Z) (s : ipc) : option Z := head (lists (kern s) (Wait o)).

Definition run_iop (op : iop) : M ipc event :=
  match op with
  | IKernel op => do! on_kern (run_kop op) in retM (match leaves op with Some x => ELeave x | None => ENone end)
  | ISemInit o v flag => do! rt_sem_init o v flag in retM ENone
  | ISemTake o time =>
      let! x := on_kern rt_thread_self in
      let! r := rt_sem_take_begin o time in
      retM (ETake o x r)
  | ISemRelease o =>
      let! y := getM (fun s => (first_waiter o s, s)) in
      let! r := rt_sem_release_begin o in
      retM (ERelease o y (fst r))
  | ISemReset o v => do! rt_sem_reset_begin o v in retM (EReset o v)
  | ISemDetach o => do! rt_sem_detach o in retM ENone
  | IMutexInit o flag => do! rt_mutex_init o flag in retM ENone
  | IMutexTake o time =>
      let! x := on_kern rt_thread_self in
      let! r := rt_mutex_take_begin o time in
      retM (EMTake o x r)
  | IMutexRelease o =>
      let! x := on_kern rt_thread_self in
      let! y := getM (fun s => (first_waiter o s, s)) in
      let! r := rt_mutex_release_begin o in
      retM (EMRelease o x (if snd r : bool then y else None) (fst r))
  | IMutexDetach o => do! rt_mutex_detach o in retM ENone
  end.

Fixpoint run_iops (ops : list iop) : M ipc (list event) :=
  match ops with
  | [] => retM []
  | op :: r => let! e := run_iop op in let! tr := run_iops r in retM (e :: tr)
  end.

(* ------------------------------------------------------------------ *)
(** ** Wait lists in the invariant of the kernel *)

Lemma on_kern_some {A} (m : M kernel A) s a k : m (kern s) = Some (a, k) -> on_kern m s = Some (a, with_kern k s).
Proof. intros E. unfold on_kern. by rewrite E. Qed.

Lemma kern_bind {A B} (m : M kernel A) (f : A -> M ipc B) s a k : m (kern s) = Some (a, k) ->
  bindM (on_kern m) f s = f a (with_kern k s).
Proof. intros E. by rewrite (bindM_some _ _ _ _ _ (on_kern_some _ _ _ _ E)). Qed.

(** A suspended thread on no list joins the list of [o]. *)
Lemma join_wf c o x t l1 l2 k : kwfx (fun _ => True) c k -> threads k !! x = Some t -> st t = RT_THREAD_SUSPEND ->
  (forall o, ~ In x (lists k (Wait o))) -> lists k (Wait o) = l1 ++ l2 ->
  kwfx (fun _ => True) c (list_set (Wait o) (l1 ++ x :: l2) k).
Proof.
  intros W E Es Hx El. pose proof W as [A1 A2 A3 A4 A5 A6 A7 A8 A9].
  assert (forall o' y, In y (lists (list_set (Wait o) (l1 ++ x :: l2) k) (Wait o')) ->
    (o' = o /\ y = x) \/ In y (lists k (Wait o'))) as Hin.
  { intros o' y. cbn. destruct (decide (Wait o' = Wait o)) as [[= ->]|]; [|by right]. rewrite El, !in_app_iff. cbn.
    intros [?|[->|?]]; tauto. }
  split; try done.
  - intros o' y H. apply Hin in H as [[-> ->]|H]; [|exact (A3 _ y H)]. split; [done|by exists t].
  - intros o1 o2 y H1 H2. apply Hin in H1 as [[-> ->]|H1], H2 as [[-> Hy]|H2]; try done.
    + by destruct (Hx o2).
    + rewrite Hy in H1. by destruct (Hx o1).
    + by apply (A4 _ _ y).
  - intros i Hi. cbn. destruct (decide (i = Wait o)) as [->|]; [|by apply A5].
    pose proof (A5 (Wait o) Hi) as N. rewrite El in N. apply NoDup_ListNoDup in N. apply NoDup_ListNoDup.
    apply (NoDup_Permutation_proper _ (x :: l1 ++ l2)); [by rewrite Permutation_middle|]. constructor; [|done].
    rewrite list_elem_of_In, <- El. apply Hx.
Qed.

Lemma kinv_join idle o x t l1 l2 k : kinv idle k -> threads k !! x = Some t -> st t = RT_THREAD_SUSPEND ->
  (forall o, ~ In x (lists k (Wait o))) -> lists k (Wait o) = l1 ++ l2 -> kinv idle (list_set (Wait o) (l1 ++ x :: l2) k).
Proof. intros [W ? ? ? ?] E Es Hx El. split; try done. by apply (join_wf _ o x t). Qed.

(** The place of a thread: behind those that are not of lower priority. *)
Lemma prio_place_spec k x p l : (forall y, In y l -> is_Some (threads k !! y)) ->
  exists l1 l2, l = l1 ++ l2 /\ prio_place k x p l = Some (l1 ++ x :: l2) /\
    (forall y t, In y l1 -> threads k !! y = Some t -> current_priority t <= p) /\
    (forall y r t, l2 = y :: r -> threads k !! y = Some t -> p < current_priority t).
Proof.
  induction l as [|y r IH]; intros H; cbn [prio_place].
  - exists [], []. split_and!; try done; by intros.
  - destruct (H y ltac:(by left)) as [t Et]. rewrite Et. destruct (Z.ltb_spec p (current_priority t)).
    + exists [], (y :: r). split_and!; [done|done|done|]. intros y' r' t' [= <- <-] E'. congruence.
    + destruct IH as (l1 & l2 & -> & E & H1 & H2); [intros z Hz; apply H; by right|]. exists (y :: l1), l2. rewrite E.
      split_and!; [done|done| |done]. intros z tz [->|Hz] Ez; [congruence|by apply (H1 z)].
Qed.

(** The running thread goes to sleep on the list of [o]. *)
Record asleep (idle o x flag : Z) (t t' : thread) (k k' : kernel) : Prop := {
  as_kinv : kinv idle k'; as_ids : same_ids k k'; as_others : others x k k';
  as_cur : current k' = current k; as_thread : threads k' !! x = Some t';
  as_st : st t' = RT_THREAD_SUSPEND; as_error : error t' = error t; as_timer : timer_on t' = false;
  as_prio : current_priority t' = current_priority t; as_init : init_priority t' = init_priority t;
  as_wait : forall o', o' <> o -> lists k' (Wait o') = lists k (Wait o');
  as_place : exists l1 l2, lists k (Wait o) = l1 ++ l2 /\ lists k' (Wait o) = l1 ++ x :: l2 /\
    (flag = RT_IPC_FLAG_FIFO -> l2 = []) /\
    (flag = RT_IPC_FLAG_PRIO -> (forall y ty, In y l1 -> threads k !! y = Some ty -> current_priority ty <= current_priority t) /\
       (forall y r ty, l2 = y :: r -> threads k !! y = Some ty -> current_priority t < current_priority ty)) }.

Lemma list_suspend_spec idle o x t flag k : kinv idle k -> threads k !! x = Some t -> runnable t -> x <> idle ->
  flag = RT_IPC_FLAG_FIFO \/ flag = RT_IPC_FLAG_PRIO ->
  exists k' t', rt_ipc_list_suspend o x flag k = Some (tt, k') /\ asleep idle o x flag t t' k k'.
Proof.
  intros Hk E Hr Hx Hf. destruct (suspend_spec k x t (ki_wf _ _ Hk) E Hr) as (k1 & t1 & E1 & [O1 O2 O3 O4 O5 O6] & S1 & S2 & S3 & S4 & S5).
  destruct (kinv_suspend idle k x t Hk E Hx) as (r & k2 & t2 & E2 & Hk1 & Hi & _). rewrite E1 in E2. injection E2 as _ <-.
  assert (forall o', lists k1 (Wait o') = lists k (Wait o')) as Hw.
  { intros o'. rewrite O4. apply unlink_notin, (not_waiting _ _ k x t o' (ki_wf _ _ Hk) E). by destruct Hr as [-> | ->]. }
  assert (forall o', ~ In x (lists k1 (Wait o'))) as Hn by (intros o' Hin; rewrite O4 in Hin; by apply in_unlink in Hin as [_ []]).
  assert (forall l1 l2, lists k (Wait o) = l1 ++ l2 -> (flag = RT_IPC_FLAG_FIFO -> l2 = []) ->
    (flag = RT_IPC_FLAG_PRIO -> (forall y ty, In y l1 -> threads k !! y = Some ty -> current_priority ty <= current_priority t) /\
       (forall y r ty, l2 = y :: r -> threads k !! y = Some ty -> current_priority t < current_priority ty)) ->
    asleep idle o x flag t t1 k (list_set (Wait o) (l1 ++ x :: l2) k1)) as Hdone.
  { intros l1 l2 El P1 P2. split; try done.
    - apply (kinv_join idle o x t1); [done|done|done|done|]. by rewrite Hw.
    - intros o' Ho. cbn. rewrite decide_False by congruence. apply Hw.
    - exists l1, l2. split_and!; try done. cbn. by rewrite decide_True. }
  unfold rt_ipc_list_suspend, ignore. rewrite bindM_assoc, (bindM_some _ _ _ _ _ E1), bindM_retM.
  destruct Hf as [-> | ->].
  - rewrite Z.eqb_refl. eexists _, t1. split; [reflexivity|]. rewrite Hw. apply (Hdone (lists k (Wait o)) []); [by rewrite app_nil_r|done|done].
  - change (RT_IPC_FLAG_PRIO =? RT_IPC_FLAG_FIFO) with false. rewrite Z.eqb_refl. cbn iota.
    rewrite (of_eq k1 x t1) by done. rewrite S4, Hw.
    destruct (prio_place_spec k1 x (current_priority t) (lists k (Wait o))) as (l1 & l2 & El & Ep & P1 & P2).
    { intros y Hy. rewrite <- Hw in Hy. destruct (kw_wait _ _ _ O1 o y Hy) as (_ & ty & Ey & _). by exists ty. }
    rewrite Ep. eexists _, t1. split; [reflexivity|]. apply (Hdone l1 l2); [done|done|].
    assert (forall y, In y (lists k (Wait o)) -> y <> x) as Hne by (intros y Hy ->; rewrite <- Hw in Hy; by apply (Hn o)).
    intros _. split.
    + intros y ty Hy Ey. apply (P1 y ty Hy). rewrite O6; [done|]. apply Hne. rewrite El. apply in_app_iff. by left.
    + intros y r0 ty -> Ey. apply (P2 y r0 ty eq_refl). rewrite O6; [done|]. apply Hne. rewrite El. apply in_app_iff. right. by left.
Qed.

(** The first thread of a list is resumed. *)
Lemma resume_head idle o x q k : kinv idle k -> lists k (Wait o) = x :: q ->
  exists k' t t', rt_ipc_list_resume o k = Some (tt, k') /\ kinv idle k' /\ same_ids k k' /\ threads k !! x = Some t /\
    resumed x t t' k k' /\ error t' = error t /\ kframe (Some x) (Some x) k k' /\ lists k' (Wait o) = q /\
    (forall o', o' <> o -> lists k' (Wait o') = lists k (Wait o')).
Proof.
  intros Hk El. assert (In x (lists k (Wait o))) as Hin by (rewrite El; by left).
  destruct (kw_wait _ _ _ (ki_wf _ _ Hk) o x Hin) as (_ & t & Et & Es).
  destruct (resume_spec k x t (ki_wf _ _ Hk) Et Es) as (k' & t' & E & R & Ee & Ht).
  destruct (kinv_resumed idle k k' x t t' Hk Et R Ht) as [Hk' Hi]. exists k', t, t'.
  unfold rt_ipc_list_resume. rewrite El. unfold ignore. rewrite (bindM_some _ _ _ _ _ E).
  pose proof (kw_nodup _ _ _ (ki_wf _ _ Hk) (Wait o) ltac:(done)) as N. rewrite El in N. apply List.NoDup_cons_iff in N as [Hx N'].
  split_and!; try done.
  - by apply (kframe_resumed idle k k' x t t').
  - rewrite (rs_wait _ _ _ _ _ R), El. cbn [unlink List.filter]. rewrite Z.eqb_refl. cbn [negb]. by apply unlink_notin.
  - intros o' Ho. rewrite (rs_wait _ _ _ _ _ R). apply unlink_notin. intros Hin'.
    apply Ho. symmetry. by apply (kw_wait1 _ _ _ (ki_wf _ _ Hk) o o' x).
Qed.

(** Everybody on the list of [o] was sent away with an error. *)
Record flushed (o : Z) (k k' : kernel) : Prop := {
  fl_ids : same_ids k k'; fl_cur : current k' = current k; fl_empty : lists k' (Wait o) = [];
  fl_wait : forall o', o' <> o -> lists k' (Wait o') = lists k (Wait o');
  fl_others : forall y, ~ In y (lists k (Wait o)) -> threads k' !! y = threads k !! y;
  fl_woken : forall y t, In y (lists k (Wait o)) -> threads k !! y = Some t -> exists t', threads k' !! y = Some t' /\
    runnable t' /\ error t' = - RT_ERROR /\ current_priority t' = current_priority t /\ init_priority t' = init_priority t }.

Lemma resume_all_spec idle o n : forall k, kinv idle k -> length (lists k (Wait o)) = n ->
  exists k', resume_all n o k = Some (tt, k') /\ kinv idle k' /\ flushed o k k'.
Proof.
  induction n as [|n IH]; intros k Hk Hn; cbn [resume_all].
  - destruct (lists k (Wait o)) as [|x q] eqn:El; [|done]. exists k. split_and!; [done|done|]. split; try done. by rewrite El.
  - destruct (lists k (Wait o)) as [|x q] eqn:El; [done|]. cbn in Hn. injection Hn as Hn.
    assert (In x (lists k (Wait o))) as Hin by (rewrite El; by left).
    destruct (kw_wait _ _ _ (ki_wf _ _ Hk) o x Hin) as (_ & t & Et & Es).
    destruct (kinv_alter idle k x (with_error (- RT_ERROR)) t Hk Et) as [Hk1 Hi1]; try done; [exact (kw_valid _ _ _ (ki_wf _ _ Hk) x t Et)|by left|].
    rewrite upd_bind. set (k1 := with_threads _ k) in *.
    destruct (resume_head idle o x q k1 Hk1 El) as (k2 & t1 & t2 & E2 & Hk2 & Hi2 & Et1 & R & Ee & _ & Hq & Ho).
    unfold rt_ipc_list_resume in E2. change (lists k1) with (lists k) in E2. rewrite El in E2. rewrite (bindM_some _ _ _ _ _ E2).
    unfold k1 in Et1. rewrite threads_alter, decide_True, Et in Et1 by done. injection Et1 as <-.
    destruct (IH k2 Hk2) as (k' & E' & Hk' & [G1 G2 G3 G4 G5 G6]); [by rewrite Hq|]. exists k'. split_and!; [done|done|].
    pose proof (kw_nodup _ _ _ (ki_wf _ _ Hk) (Wait o) ltac:(done)) as N. rewrite El in N. apply List.NoDup_cons_iff in N as [Hx N'].
    assert (forall y, y <> x -> threads k2 !! y = threads k !! y) as Hy.
    { intros y Hy. rewrite (rs_others _ _ _ _ _ R y Hy). unfold k1. by rewrite threads_alter, decide_False. }
    split; try done.
    + eapply same_ids_trans; [exact Hi1|]. by eapply same_ids_trans.
    + rewrite G2. by rewrite (rs_cur _ _ _ _ _ R).
    + intros o' Ho'. rewrite G4 by done. by rewrite Ho.
    + intros y Hny. rewrite El in Hny. cbn in Hny. rewrite G5, Hy; [done| |by rewrite Hq; tauto]. intros ->. tauto.
    + intros y ty Hin' Ey. rewrite El in Hin'. destruct (decide (y = x)) as [->|Hne].
      * rewrite Et in Ey. injection Ey as <-. exists t2. rewrite G5 by (by rewrite Hq). pose proof R as [_ _ _ _ _ R6 _ R8 R9 R10].
        by split_and!.
      * destruct Hin' as [?|Hin']; [congruence|]. apply (G6 y ty); [by rewrite Hq|by rewrite Hy].
Qed.

Lemma list_resume_all_spec idle o k : kinv idle k ->
  exists k', rt_ipc_list_resume_all o k = Some (tt, k') /\ kinv idle k' /\ flushed o k k'.
Proof. intros Hk. unfold rt_ipc_list_resume_all. by apply (resume_all_spec idle o _ k). Qed.

(* ------------------------------------------------------------------ *)
(** ** The invariant *)

(** A change of the kernel that no object of [P] minds: no thread joins the
    list of such an object, none on it gets an error, and no thread is set back
    before its start. *)
Record calm (P : Z -> Prop) (k k' : kernel) : Prop := {
  ca_wait : forall o y, P o -> In y (lists k' (Wait o)) -> In y (lists k (Wait o));
  ca_error : forall o y t', P o -> In y (lists k' (Wait o)) -> threads k' !! y = Some t' ->
    exists t, threads k !! y = Some t /\ error t' = error t;
  ca_init : forall y t, threads k !! y = Some t -> st t <> RT_THREAD_INIT ->
    exists t', threads k' !! y = Some t' /\ st t' <> RT_THREAD_INIT }.

Abbreviation any := (fun _ : Z => True).

(** The state of an object: a semaphore with a positive value has no waiting
    thread; a mutex is free, or its owner holds it and does not wait for it. *)
Definition flag_ok (f : Z) : Prop := f = RT_IPC_FLAG_FIFO \/ f = RT_IPC_FLAG_PRIO.

Definition obj_ok (k : kernel) (o : Z) (b : option obj) : Prop :=
  match b with
  | None => lists k (Wait o) = []
  | Some (OSem b) => is_u16 (value b) /\ (0 < value b -> lists k (Wait o) = []) /\ flag_ok (s_flag b)
  | Some (OMutex b) => flag_ok (m_flag b) /\
      match owner b with
      | None => m_value b = 1 /\ hold b = 0 /\ lists k (Wait o) = []
      | Some x => m_value b = 0 /\ 1 <= hold b <= 255 /\ 0 <= original_priority b < 32 /\ ~ In x (lists k (Wait o)) /\
          exists t, threads k !! x = Some t /\ st t <> RT_THREAD_INIT
      end
  end.

Lemma calm_nil P k k' o : calm P k k' -> P o -> lists k (Wait o) = [] -> lists k' (Wait o) = [].
Proof.
  intros H Ho E. destruct (lists k' (Wait o)) as [|y l] eqn:E'; [done|].
  pose proof (ca_wait _ _ _ H o y Ho) as Hin. rewrite E', E in Hin. by destruct Hin; left.
Qed.

Lemma obj_calm P k k' o b : calm P k k' -> P o -> obj_ok k o b -> obj_ok k' o b.
Proof.
  intros H Ho. destruct b as [[b|b]|]; cbn [obj_ok].
  - intros (? & Hn & ?). split_and!; try done. intros Hv. eapply calm_nil; eauto.
  - intros (? & Hb). split; [done|]. destruct (owner b) as [x|].
    + destruct Hb as (? & ? & ? & Hx & t & Et & Es). split_and!; try done; try lia.
      * intros Hin. by apply Hx, (ca_wait _ _ _ H).
      * by apply (ca_init _ _ _ H x t).
    + destruct Hb as (? & ? & ?). split_and!; try done. eapply calm_nil; eauto.
  - intros E. eapply calm_nil; eauto.
Qed.

Lemma calm_weaken (P Q : Z -> Prop) k k' : (forall o, Q o -> P o) -> calm P k k' -> calm Q k k'.
Proof. intros H [A1 A2 A3]. split; eauto. Qed.

Lemma calm_refl P k : calm P k k.
Proof. split; eauto. Qed.

Lemma calm_trans P k1 k2 k3 : calm P k1 k2 -> calm P k2 k3 -> calm P k1 k3.
Proof.
  intros [A1 A2 A3] [B1 B2 B3]. split; eauto.
  - intros o y t' Ho Hin E. destruct (B2 o y t' Ho Hin E) as (t2 & E2 & ->). eauto.
  - intros y t E Hs. destruct (A3 y t E Hs) as (t2 & E2 & Hs2). eauto.
Qed.

(** Nothing but the threads on the list of [o] changes. *)
Lemma calm_flushed o k k' : flushed o k k' -> kwf k -> calm any k k'.
Proof.
  intros [G1 G2 G3 G4 G5 G6] W.
  assert (forall o' y, In y (lists k' (Wait o')) -> o' <> o /\ In y (lists k (Wait o'))) as Hw.
  { intros o' y Hin. destruct (decide (o' = o)) as [->|Hne]; [by rewrite G3 in Hin|]. by rewrite G4 in Hin. }
  split.
  - intros o' y _ Hin. by apply Hw in Hin as [_ ?].
  - intros o' y t' _ Hin E. apply Hw in Hin as [Hne Hin]. exists t'. rewrite G5 in E; [done|]. intros Hin'.
    apply Hne. by apply (kw_wait1 _ _ _ W o' o y).
  - intros y t E Hs. destruct (In_dec Z.eq_dec y (lists k (Wait o))) as [Hin|Hin].
    + destruct (G6 y t Hin E) as (t' & E' & [Hr|Hr] & _); exists t'; by rewrite Hr.
    + exists t. by rewrite G5.
Qed.

Lemma in_drop w y l : In y (drop_waiter w l) -> In y l /\ w <> Some y.
Proof. destruct w as [x|]; cbn; [|done]. intros [? ?]%in_unlink. split; [done|]. congruence. Qed.

(** The operations of the kernel leave a thread that goes on waiting alone, but
    for its priority. *)
Lemma waiter_kept idle op k k' o y t : kinv idle k -> kop_ok idle op k -> run_kop op k = Some (tt, k') ->
  In y (lists k' (Wait o)) -> threads k !! y = Some t -> exists t', threads k' !! y = Some t' /\ error t' = error t /\
    ((forall p, op <> KPriority y p) -> current_priority t' = current_priority t).
Proof.
  intros Hk Ho E Hin Et. destruct (kop_spec idle op k Hk Ho) as (k2 & E2 & _ & F). rewrite E in E2. injection E2 as <-.
  rewrite (kf_wait _ _ _ _ F) in Hin. apply in_drop in Hin as [Hin Hl].
  destruct (kw_wait _ _ _ (ki_wf _ _ Hk) o y Hin) as (_ & t0 & E0 & Es). rewrite Et in E0. injection E0 as <-.
  assert (forall x, running k x -> x <> y) as Hrun by (intros x (tx & _ & Ex & Er) ->; rewrite Et in Ex; injection Ex as <-; by rewrite Er in Es).
  destruct (decide (about op k = Some y)) as [Ha|Ha].
  2: { destruct (kf_same _ _ _ _ F y t Ha Et) as (t' & E' & (A1 & A2 & _) & _). by exists t'. }
  destruct op as [| | | | | | | |x p n|x|x p|x|x|x|x]; cbn [about leaves kop_ok run_kop] in *; try done.
  - destruct Ho as (x & Hr & _). destruct (Hrun x Hr). destruct Hr as (tx & Ec & _). congruence.
  - destruct Ho as (x & Hr). destruct (Hrun x Hr). destruct Hr as (tx & Ec & _). congruence.
  - destruct Ho as (x & Hr & _). destruct (Hrun x Hr). destruct Hr as (tx & Ec & _). congruence.
  - injection Ha as ->. destruct Ho. congruence.
  - injection Ha as ->. destruct Ho as (t' & E' & Hi). rewrite Et in E'. injection E' as <-. by rewrite Hi in Es.
  - injection Ha as ->. destruct Ho as (_ & Hp). destruct (change_priority_spec k y p t (ki_wf _ _ Hk) Et Hp) as (k3 & E3 & [_ _ _ _ _ (t' & E' & _ & _ & _ & Q & _)]).
    rewrite E in E3. injection E3 as <-. exists t'. split_and!; [done|done|]. intros H. by destruct (H p).
  - injection Ha as ->. unfold ignore in E. rewrite (bindM_some _ _ _ _ _ (suspend_refused k y t Et ltac:(by intros [Hr|Hr]; rewrite Hr in Es))) in E.
    injection E as <-. by exists t.
Qed.

Lemma kop_calm idle op k k' : kinv idle k -> kop_ok idle op k -> run_kop op k = Some (tt, k') -> calm any k k'.
Proof.
  intros Hk Ho E. destruct (kop_spec idle op k Hk Ho) as (k2 & E2 & Hk' & F). rewrite E in E2. injection E2 as <-.
  split.
  - intros o y _. rewrite (kf_wait _ _ _ _ F). by intros [? _]%in_drop.
  - intros o y t' _ Hin E'. assert (In y (lists k (Wait o))) as Hin0 by (rewrite (kf_wait _ _ _ _ F) in Hin; by apply in_drop in Hin as [? _]).
    destruct (kw_wait _ _ _ (ki_wf _ _ Hk) o y Hin0) as (_ & t & Et & _). exists t. split; [done|].
    destruct (waiter_kept idle op k k' o y t Hk Ho E Hin Et) as (t2 & Et2 & He & _). congruence.
  - intros y t Et Hs. destruct (kf_init _ _ _ _ F y t Et) as (t' & E' & _ & Hs'). exists t'. auto.
Qed.

Section Ipc.
Context (idle : Z).

Record iinv (s : ipc) : Prop := {
  ii_kern : kinv idle (kern s);
  ii_obj : forall o, obj_ok (kern s) o (objs s !! o);
  ii_error : forall o x t, In x (lists (kern s) (Wait o)) -> threads (kern s) !! x = Some t -> error t = RT_EOK }.

(** Only the object [o] and the kernel change. *)
Lemma iinv_change o s k b : iinv s -> kinv idle k -> calm (fun o' => o' <> o) (kern s) k ->
  obj_ok k o (b !! o) -> (forall o', o' <> o -> b !! o' = objs s !! o') ->
  (forall x t, In x (lists k (Wait o)) -> threads k !! x = Some t -> error t = RT_EOK) -> iinv (Ipc k b).
Proof.
  intros [Hk Ho He] Hk' C Hob Hb Hex. split; [done| |]; cbn [kern objs].
  - intros o'. destruct (decide (o' = o)) as [->|Hne]; [done|]. rewrite Hb by done.
    by apply (obj_calm (fun o' => o' <> o) (kern s)).
  - intros o' x t Hin Et. destruct (decide (o' = o)) as [->|Hne]; [by apply (Hex x)|].
    destruct (ca_error _ _ _ C o' x t Hne Hin Et) as (t0 & E0 & ->). apply (He o' x t0); [|done]. by apply (ca_wait _ _ _ C).
Qed.

(** Only the kernel changes, and no object minds. *)
Lemma iinv_kern s k : iinv s -> kinv idle k -> calm any (kern s) k -> iinv (with_kern k s).
Proof.
  intros [Hk Ho He] Hk' C. split; [done| |]; cbn [kern with_kern objs].
  - intros o. by apply (obj_calm any (kern s)).
  - intros o x t Hin Et. destruct (ca_error _ _ _ C o x t I Hin Et) as (t0 & E0 & ->). apply (He o x t0); [|done]. by apply (ca_wait _ _ _ C).
Qed.

(** ... or one object without the kernel. *)
Lemma iinv_put o b s : iinv s -> obj_ok (kern s) o (Some b) -> iinv (with_objs (<[o := b]> (objs s)) s).
Proof.
  intros Hs Hb. apply (iinv_change o s); [done|apply Hs|apply calm_refl|by rewrite lookup_insert_eq| |].
  - intros o' Ho. by rewrite lookup_insert_ne by congruence.
  - apply (ii_error _ Hs).
Qed.

Definition is_sem (o : Z) (s : ipc) : Prop := exists b, objs s !! o = Some (OSem b).
Definition is_mutex (o : Z) (s : ipc) : Prop := exists b, objs s !! o = Some (OMutex b).
Definition can_wait (s : ipc) : Prop := exists x, running (kern s) x /\ x <> idle.

(** The rules of use: a call that may block or that is about a mutex is made by
    a running thread, not the idle thread; an object is initialised once. *)
Definition iop_ok (op : iop) (s : ipc) : Prop :=
  match op with
  | IKernel op => kop_ok idle op (kern s)
  | ISemInit o v flag => objs s !! o = None /\ 0 <= v < 0x10000 /\ flag_ok flag
  | ISemTake o time => is_sem o s /\ (time = 0 \/ can_wait s)
  | ISemRelease o | ISemReset o _ | ISemDetach o => is_sem o s
  | IMutexInit o flag => objs s !! o = None /\ flag_ok flag
  | IMutexTake o _ => is_mutex o s /\ can_wait s
  | IMutexRelease o => is_mutex o s /\ exists x, running (kern s) x
  | IMutexDetach o => is_mutex o s
  end.

Fixpoint iops_ok (ops : list iop) (s : ipc) : Prop :=
  match ops with
  | [] => True
  | op :: r => iop_ok op s /\ match run_iop op s with Some (_, s') => iops_ok r s' | None => True end
  end.

(* ------------------------------------------------------------------ *)
(** ** What each call does

    [parked]: the running thread went to sleep on the list of an object, with
    or without a time-out.  [handed]: the first thread of a list became
    runnable again.  [noted]: the error code of a running thread changed. *)

Record parked (o x flag : Z) (k k' : kernel) : Prop := {
  pk_cur : current k' = current k; pk_others : others x k k';
  pk_thread : exists t t', threads k !! x = Some t /\ threads k' !! x = Some t' /\ st t' = RT_THREAD_SUSPEND /\
    error t' = error t /\ current_priority t' = current_priority t /\ init_priority t' = init_priority t;
  pk_wait : forall o', o' <> o -> lists k' (Wait o') = lists k (Wait o');
  pk_place : exists l1 l2, lists k (Wait o) = l1 ++ l2 /\ lists k' (Wait o) = l1 ++ x :: l2 /\
    ~ In x (l1 ++ l2) /\ (flag = RT_IPC_FLAG_FIFO -> l2 = []) /\
    (flag = RT_IPC_FLAG_PRIO -> forall t, threads k !! x = Some t ->
       (forall y ty, In y l1 -> threads k !! y = Some ty -> current_priority ty <= current_priority t) /\
       (forall y r ty, l2 = y :: r -> threads k !! y = Some ty -> current_priority t < current_priority ty)) }.

Definition park (o x flag time : Z) : M ipc unit :=
  do! on_kern (rt_ipc_list_suspend o x flag) in
  if 0 <? time then on_kern (upd x (with_timer true)) else retM tt.

Lemma park_spec o x flag time s : kinv idle (kern s) -> running (kern s) x -> x <> idle -> flag_ok flag ->
  exists k, park o x flag time s = Some (tt, with_kern k s) /\ kinv idle k /\ parked o x flag (kern s) k.
Proof.
  intros Hk (t & Ec & Et & Er) Hx Hf.
  destruct (list_suspend_spec idle o x t flag (kern s) Hk Et) as (k1 & t1 & E1 & [A1 A2 A3 A4 A5 A6 A7 A8 A9 A10 A11 A12]); [by right|done|done|].
  assert (parked o x flag (kern s) k1) as P.
  { split; try done; [by exists t, t1|]. destruct A12 as (l1 & l2 & El & El' & F1 & F2). exists l1, l2. split_and!; try done.
    - rewrite <- El. apply (not_waiting _ _ (kern s) x t o (ki_wf _ _ Hk) Et). by rewrite Er.
    - intros Hp t' Et'. rewrite Et in Et'. injection Et' as <-. by apply F2. }
  unfold park. rewrite (kern_bind _ _ s tt k1 E1). destruct (0 <? time).
  - exists (with_threads (alter (with_timer true) x (threads k1)) k1). split; [done|].
    destruct (kinv_alter idle k1 x (with_timer true) t1 A1 A5) as [Hk2 _]; try done; [exact (kw_valid _ _ _ (ki_wf _ _ A1) x t1 A5)|by right|].
    split; [done|]. destruct P as [P1 P2 P3 P4 P5]. split; try done.
    + intros y Hy. rewrite threads_alter, decide_False by done. by apply P2.
    + exists t, (with_timer true t1). by rewrite threads_alter, decide_True, A5.
  - exists k1. done.
Qed.

Record handed (o y : Z) (q : list Z) (k k' : kernel) : Prop := {
  hd_cur : current k' = current k; hd_others : others y k k'; hd_wait : lists k (Wait o) = y :: q;
  hd_rest : lists k' (Wait o) = q; hd_else : forall o', o' <> o -> lists k' (Wait o') = lists k (Wait o');
  hd_thread : exists t t', threads k !! y = Some t /\ threads k' !! y = Some t' /\ runnable t' /\
    error t' = error t /\ current_priority t' = current_priority t /\ init_priority t' = init_priority t }.

Lemma hand_spec o y q k : kinv idle k -> lists k (Wait o) = y :: q ->
  exists k', rt_ipc_list_resume o k = Some (tt, k') /\ kinv idle k' /\ handed o y q k k'.
Proof.
  intros Hk El. destruct (resume_head idle o y q k Hk El) as (k' & t & t' & E & Hk' & _ & Et & [R1 R2 R3 R4 R5 R6 R7 R8 R9 R10] & Ee & _ & Hq & Ho).
  exists k'. split_and!; [done|done|]. split; try done. by exists t, t'.
Qed.

Record noted (x e : Z) (k k' : kernel) : Prop := {
  nt_cur : current k' = current k; nt_others : others x k k'; nt_lists : lists k' = lists k;
  nt_thread : exists t t', threads k !! x = Some t /\ threads k' !! x = Some t' /\ st t' = st t /\ error t' = e /\
    current_priority t' = current_priority t /\ init_priority t' = init_priority t }.

Lemma note_spec x e k : kinv idle k -> is_Some (threads k !! x) ->
  exists k', upd x (with_error e) k = Some (tt, k') /\ kinv idle k' /\ noted x e k k'.
Proof.
  intros Hk [t Et]. eexists. split; [reflexivity|]. destruct (kinv_alter idle k x (with_error e) t Hk Et) as [Hk1 _]; try done;
    [exact (kw_valid _ _ _ (ki_wf _ _ Hk) x t Et)|by left|].
  split; [done|]. split; try done.
  - intros y Hy. by rewrite threads_alter, decide_False.
  - exists t, (with_error e t). by rewrite threads_alter, decide_True, Et.
Qed.

Lemma running_noted x e k k' : noted x e k k' -> running k x -> running k' x.
Proof.
  intros [N1 _ _ (t0 & t' & E1 & E2 & E3 & _)] (t & Ec & Et & Es). rewrite Et in E1. injection E1 as <-. exists t'.
  split_and!; congruence.
Qed.

Lemma calm_noted x e k k' : kinv idle k -> running k x -> noted x e k k' -> calm any k k'.
Proof.
  intros Hk (t & _ & Et & Er) [N1 N2 N3 (t0 & t' & E0 & E' & Hs & _)]. rewrite Et in E0. injection E0 as <-. split.
  - intros o y _. by rewrite N3.
  - intros o y ty _ Hin Ey. rewrite N3 in Hin. exists ty. rewrite N2 in Ey; [done|]. intros ->.
    destruct (kw_wait _ _ _ (ki_wf _ _ Hk) o x Hin) as (_ & t2 & E2 & Es). rewrite Et in E2. injection E2 as <-. by rewrite Er in Es.
  - intros y ty Ey Hy. destruct (decide (y = x)) as [->|Hne]; [|exists ty; by rewrite N2].
    exists t'. rewrite Et in Ey. injection Ey as <-. by rewrite Hs.
Qed.

Lemma calm_parked o x flag k k' : parked o x flag k k' -> calm (fun o' => o' <> o) k k'.
Proof.
  intros [P1 P2 (t & t' & Et & Et' & Hs & He & _) P4 P5]. split.
  - intros o' y Ho. by rewrite P4.
  - intros o' y ty Ho Hin Ey. destruct (decide (y = x)) as [->|Hne]; [|exists ty; by rewrite <- P2].
    exists t. rewrite Et' in Ey. by injection Ey as <-.
  - intros y ty Ey Hy. destruct (decide (y = x)) as [->|Hne]; [exists t'; by rewrite Hs|]. exists ty. by rewrite P2.
Qed.

Lemma calm_handed o y q k k' : handed o y q k k' -> calm any k k'.
Proof.
  intros [H1 H2 H3 H4 H5 (t & t' & Et & Et' & Hr & He & _)].
  split.
  - intros o' z _. destruct (decide (o' = o)) as [->|Hne]; [rewrite H3, H4; by right|by rewrite H5].
  - intros o' z tz _ Hin Ez. destruct (decide (z = y)) as [->|Hne]; [|exists tz; by rewrite <- H2].
    exists t. rewrite Et' in Ez. by injection Ez as <-.
  - intros z tz Ez Hz. destruct (decide (z = y)) as [->|Hne]; [|exists tz; by rewrite H2].
    exists t'. split; [done|]. by destruct Hr as [-> | ->].
Qed.

Lemma calm_repriced y p t k k' : threads k !! y = Some t -> repriced y p t k k' -> calm any k k'.
Proof.
  intros Et [R1 R2 R3 R4 R5 (t' & Et' & Q1 & Q2 & Q3 & Q4 & Q5)]. split.
  - intros o z _. by rewrite R5.
  - intros o z tz _ Hin Ez. destruct (decide (z = y)) as [->|Hne]; [|exists tz; by rewrite <- R4].
    exists t. rewrite Et' in Ez. by injection Ez as <-.
  - intros z tz Ez Hz. destruct (decide (z = y)) as [->|Hne]; [|exists tz; by rewrite R4].
    exists t'. rewrite Et in Ez. injection Ez as <-. by rewrite Q2.
Qed.

Inductive outcome : iop -> ipc -> event -> ipc -> Prop :=
  | oc_kern op s k : kop_ok idle op (kern s) -> run_kop op (kern s) = Some (tt, k) ->
      outcome (IKernel op) s (match leaves op with Some x => ELeave x | None => ENone end) (with_kern k s)
  | oc_init op o b s : op = (match b with OSem b => ISemInit o (value b) (s_flag b) | OMutex b => IMutexInit o (m_flag b) end) ->
      match b with OSem b => is_u16 (value b) | OMutex b => b = Mutex 1 0xFF 0 None (m_flag b) end ->
      objs s !! o = None -> outcome op s ENone (Ipc (list_set (Wait o) [] (kern s)) (<[o := b]> (objs s)))
  | oc_detach op o s k : (op = ISemDetach o /\ is_sem o s) \/ (op = IMutexDetach o /\ is_mutex o s) -> flushed o (kern s) k ->
      outcome op s ENone (Ipc k (delete o (objs s)))
  | oc_take o time s b x : objs s !! o = Some (OSem b) -> 0 < value b -> current (kern s) = Some x ->
      outcome (ISemTake o time) s (ETake o x (Some RT_EOK)) (with_objs (<[o := OSem (Sem (value b - 1) (s_flag b))]> (objs s)) s)
  | oc_refuse o s b x : objs s !! o = Some (OSem b) -> value b = 0 -> current (kern s) = Some x ->
      outcome (ISemTake o 0) s (ETake o x (Some (- RT_ETIMEOUT))) s
  | oc_block o time s b x k0 k : objs s !! o = Some (OSem b) -> value b = 0 -> running (kern s) x ->
      noted x RT_EOK (kern s) k0 -> parked o x (s_flag b) k0 k -> outcome (ISemTake o time) s (ETake o x None) (with_kern k s)
  | oc_wake o s b y q k : objs s !! o = Some (OSem b) -> value b = 0 -> handed o y q (kern s) k ->
      outcome (ISemRelease o) s (ERelease o (Some y) RT_EOK) (with_kern k s)
  | oc_raise o s b : objs s !! o = Some (OSem b) -> lists (kern s) (Wait o) = [] -> value b < 0xffff ->
      outcome (ISemRelease o) s (ERelease o None RT_EOK) (with_objs (<[o := OSem (Sem (value b + 1) (s_flag b))]> (objs s)) s)
  | oc_full o s b : objs s !! o = Some (OSem b) -> lists (kern s) (Wait o) = [] -> value b = 0xffff ->
      outcome (ISemRelease o) s (ERelease o None (- RT_EFULL)) s
  | oc_reset o v s b k : objs s !! o = Some (OSem b) -> flushed o (kern s) k ->
      outcome (ISemReset o v) s (EReset o v) (Ipc k (<[o := OSem (Sem (u16 v) (s_flag b))]> (objs s)))
  | oc_again o time s b x k : objs s !! o = Some (OMutex b) -> owner b = Some x -> hold b < 255 -> noted x RT_EOK (kern s) k ->
      outcome (IMutexTake o time) s (EMTake o x (Some RT_EOK))
        (Ipc k (<[o := OMutex (Mutex 0 (original_priority b) (hold b + 1) (Some x) (m_flag b))]> (objs s)))
  | oc_nested_full o time s b x k : objs s !! o = Some (OMutex b) -> owner b = Some x -> hold b = 255 -> noted x RT_EOK (kern s) k ->
      outcome (IMutexTake o time) s (EMTake o x (Some (- RT_EFULL))) (with_kern k s)
  | oc_lock o time s b x k t : objs s !! o = Some (OMutex b) -> owner b = None -> noted x RT_EOK (kern s) k -> threads k !! x = Some t ->
      outcome (IMutexTake o time) s (EMTake o x (Some RT_EOK))
        (Ipc k (<[o := OMutex (Mutex 0 (current_priority t) 1 (Some x) (m_flag b))]> (objs s)))
  | oc_mrefuse o s b x y k : objs s !! o = Some (OMutex b) -> owner b = Some y -> y <> x -> noted x (- RT_ETIMEOUT) (kern s) k ->
      outcome (IMutexTake o 0) s (EMTake o x (Some (- RT_ETIMEOUT))) (with_kern k s)
  | oc_mblock o time s b x y t u k0 k1 k : objs s !! o = Some (OMutex b) -> owner b = Some y -> y <> x -> running (kern s) x ->
      noted x RT_EOK (kern s) k0 -> threads k0 !! x = Some t -> threads k0 !! y = Some u ->
      repriced y (Z.min (current_priority t) (current_priority u)) u k0 k1 -> parked o x (m_flag b) k1 k ->
      outcome (IMutexTake o time) s (EMTake o x None) (with_kern k s)
  | oc_not_owner o s b x k : objs s !! o = Some (OMutex b) -> owner b <> Some x -> noted x (- RT_ERROR) (kern s) k ->
      outcome (IMutexRelease o) s (EMRelease o x None (- RT_ERROR)) (with_kern k s)
  | oc_unnest o s b x : objs s !! o = Some (OMutex b) -> owner b = Some x -> 1 < hold b ->
      outcome (IMutexRelease o) s (EMRelease o x None RT_EOK)
        (with_objs (<[o := OMutex (Mutex 0 (original_priority b) (hold b - 1) (Some x) (m_flag b))]> (objs s)) s)
  | oc_pass o s b x y q t u k1 k : objs s !! o = Some (OMutex b) -> owner b = Some x -> hold b = 1 ->
      threads (kern s) !! x = Some t -> repriced x (original_priority b) t (kern s) k1 -> threads k1 !! y = Some u -> handed o y q k1 k ->
      outcome (IMutexRelease o) s (EMRelease o x (Some y) RT_EOK)
        (Ipc k (<[o := OMutex (Mutex 0 (current_priority u) 1 (Some y) (m_flag b))]> (objs s)))
  | oc_unlock o s b x t k : objs s !! o = Some (OMutex b) -> owner b = Some x -> hold b = 1 ->
      threads (kern s) !! x = Some t -> repriced x (original_priority b) t (kern s) k -> lists k (Wait o) = [] ->
      outcome (IMutexRelease o) s (EMRelease o x None RT_EOK)
        (Ipc k (<[o := OMutex (Mutex 1 0xFF 0 None (m_flag b))]> (objs s))).

Definition done_ok (op : iop) (s : ipc) : Prop := exists e s', run_iop op s = Some (e, s') /\ iinv s' /\ outcome op s e s'.

Lemma sem_eq {A} o b s (f : sem -> M ipc A) : objs s !! o = Some (OSem b) -> bindM (sem_of o) f s = f b s.
Proof. intros E. unfold bindM, sem_of. by rewrite E. Qed.
Lemma mutex_eq {A} o b s (f : mutex -> M ipc A) : objs s !! o = Some (OMutex b) -> bindM (mutex_of o) f s = f b s.
Proof. intros E. unfold bindM, mutex_of. by rewrite E. Qed.
Lemma put_bind {A} o b s (f : unit -> M ipc A) : bindM (put o b) f s = f tt (with_objs (<[o := b]> (objs s)) s).
Proof. done. Qed.
Lemma me_eq {A} x s (f : Z -> M ipc A) : current (kern s) = Some x -> bindM (on_kern rt_thread_self) f s = f x s.
Proof. intros E. unfold bindM, on_kern, rt_thread_self. rewrite E. by destruct s. Qed.
Lemma th_eq {A} x t s (f : thread -> M ipc A) : threads (kern s) !! x = Some t -> bindM (on_kern (thread_of x)) f s = f t s.
Proof. intros E. unfold bindM, on_kern, thread_of. rewrite E. by destruct s. Qed.

Lemma iinv_cur s : iinv s -> exists x, current (kern s) = Some x.
Proof. intros Hs. destruct (ki_cur _ _ (ii_kern _ Hs)) as (x & t & E & _). by exists x. Qed.

Lemma iop_kern op s : iinv s -> iop_ok (IKernel op) s -> done_ok (IKernel op) s.
Proof.
  intros Hs Ho. destruct (kop_spec idle op (kern s) (ii_kern _ Hs) Ho) as (k & E & Hk & F).
  eexists _, (with_kern k s). cbn [run_iop]. rewrite (kern_bind _ _ s tt k E). split; [reflexivity|]. split; [|by constructor].
  apply iinv_kern; [done|done|]. exact (kop_calm idle op _ _ (ii_kern _ Hs) Ho E).
Qed.

Lemma list_set_nil o k : lists k (Wait o) = [] -> forall i, lists (list_set (Wait o) [] k) i = lists k i.
Proof. intros E i. cbn. by destruct (decide (i = Wait o)) as [->|]. Qed.

Lemma kinv_list_nil o k : kinv idle k -> lists k (Wait o) = [] -> kinv idle (list_set (Wait o) [] k).
Proof.
  intros [W ? ? ? ?] E. split; try done. pose proof (list_set_nil o k E) as Hl. destruct W as [A1 A2 A3 A4 A5 A6 A7 A8 A9].
  split; try done.
  - intros o' x. rewrite Hl. apply A3.
  - intros o1 o2 x. rewrite !Hl. apply A4.
  - intros i. rewrite Hl. apply A5.
Qed.

Lemma iop_init op o b s : iinv s -> objs s !! o = None ->
  op = (match b with OSem b => ISemInit o (value b) (s_flag b) | OMutex b => IMutexInit o (m_flag b) end) ->
  match b with OSem b => is_u16 (value b) /\ flag_ok (s_flag b) | OMutex b => b = Mutex 1 0xFF 0 None (m_flag b) /\ flag_ok (m_flag b) end ->
  done_ok op s.
Proof.
  intros Hs En -> Hb. pose proof (ii_obj _ Hs o) as El. rewrite En in El. cbn in El.
  exists ENone, (Ipc (list_set (Wait o) [] (kern s)) (<[o := b]> (objs s))). split_and!.
  - destruct b as [[v f]|b]; cbn [run_iop value s_flag].
    + destruct Hb as [Hb _]. unfold is_u16 in Hb. cbn in Hb. unfold rt_sem_init, bindM at 1. rewrite (proj2 (Z.ltb_lt v 0x10000)) by lia.
      by rewrite u16_small.
    + destruct Hb as [-> _]. done.
  - apply (iinv_change o s); [done|by apply kinv_list_nil; [apply Hs|]| | | |].
    + split; [|intros o' y t' _ Hin E; by exists t'|intros y t E Hy; by exists t]. intros o' y _. by rewrite list_set_nil.
    + rewrite lookup_insert_eq. destruct b as [b|b].
      * destruct Hb as [Hb Hf]. split_and!; [apply Hb..|by rewrite list_set_nil|done].
      * destruct Hb as [-> Hf]. split; [done|]. split_and!; [done|done|by rewrite list_set_nil].
    + intros o' Ho. by rewrite lookup_insert_ne by congruence.
    + intros x t. by rewrite list_set_nil, El.
  - apply (oc_init _ o b s); [by destruct b| |done]. destruct b; apply Hb.
Qed.

Lemma iop_detach op o s : iinv s -> (op = ISemDetach o /\ is_sem o s) \/ (op = IMutexDetach o /\ is_mutex o s) -> done_ok op s.
Proof.
  intros Hs Hop. destruct (list_resume_all_spec idle o (kern s) (ii_kern _ Hs)) as (k & E & Hk & F).
  exists ENone, (Ipc k (delete o (objs s))). split_and!.
  - destruct Hop as [[-> [b Eb]]|[-> [b Eb]]]; cbn [run_iop]; unfold rt_sem_detach, rt_mutex_detach;
      rewrite bindM_assoc, ?(sem_eq o b), ?(mutex_eq o b) by done; by rewrite bindM_assoc, (kern_bind _ _ s tt k E).
  - apply (iinv_change o s); [done|done| | | |].
    + apply (calm_weaken any); [done|]. apply (calm_flushed o); [done|apply Hs].
    + rewrite lookup_delete_eq. apply F.
    + intros o' Ho. by rewrite lookup_delete_ne by congruence.
    + intros x t. by rewrite (fl_empty _ _ _ F).
  - by apply oc_detach.
Qed.

Lemma iop_sem_take o time s : iinv s -> iop_ok (ISemTake o time) s -> done_ok (ISemTake o time) s.
Proof.
  intros Hs [[b Eb] Hw]. destruct (iinv_cur s Hs) as [x Ec]. pose proof (ii_obj _ Hs o) as Hb. rewrite Eb in Hb.
  destruct Hb as (Hv & Hn & Hf). unfold is_u16 in Hv. unfold done_ok. cbn [run_iop]. rewrite (me_eq x) by done.
  unfold rt_sem_take_begin. rewrite bindM_assoc, (sem_eq o b) by done. destruct (Z.ltb_spec 0 (value b)) as [Hp|Hp].
  { rewrite bindM_assoc, put_bind, bindM_retM. eexists _, _. split; [reflexivity|]. rewrite u16_small by (unfold is_u16; lia).
    split; [|by constructor]. apply iinv_put; [done|]. split_and!; cbn; [unfold is_u16; lia..|intros _; by apply Hn|done]. }
  assert (value b = 0) as E0 by lia. destruct (Z.eqb_spec time 0) as [->|Ht].
  { rewrite bindM_retM. eexists _, s. split; [reflexivity|]. split; [done|]. by apply (oc_refuse o s b). }
  destruct Hw as [?|(x' & Hr & Hx)]; [done|]. assert (x' = x) as -> by (destruct Hr as (? & ? & _); congruence).
  rewrite bindM_assoc, (me_eq x) by done.
  destruct (note_spec x RT_EOK (kern s) (ii_kern _ Hs)) as (k0 & E & Hk0 & N); [destruct Hr as (t & _ & Et & _); by exists t|].
  rewrite bindM_assoc, (kern_bind _ _ s tt k0 E).
  pose proof (running_noted _ _ _ _ N Hr) as Hr0.
  destruct (park_spec o x (s_flag b) time (with_kern k0 s) Hk0 Hr0 Hx Hf) as (k & Ep & Hk & P).
  unfold park in Ep. apply bindM_inv in Ep as ([] & s1 & Ep1 & Ep2).
  rewrite bindM_assoc, (bindM_some _ _ _ _ _ Ep1), bindM_assoc, (bindM_some _ _ _ _ _ Ep2), bindM_retM.
  eexists _, (with_kern k s). split; [reflexivity|]. split.
  - apply (iinv_change o s); [done|done| | |done|].
    + eapply calm_trans; [|by eapply calm_parked]. eapply calm_weaken; [|by eapply calm_noted; [apply Hs| |]]. done.
    + rewrite Eb. split_and!; [unfold is_u16; lia..|lia|done].
    + intros y t Hin Et. destruct P as [_ P2 (t0 & t' & E1 & E2 & _ & He & _) _ (l1 & l2 & El & El' & _)].
      destruct (decide (y = x)) as [->|Hne].
      * rewrite E2 in Et. injection Et as <-. rewrite He. destruct N as [_ _ _ (? & t2 & _ & E3 & _ & He2 & _)].
        cbn in E1. rewrite E3 in E1. by injection E1 as <-.
      * rewrite P2 in Et by done. cbn in Et. destruct N as [_ N2 N3 _]. rewrite N2 in Et by done.
        apply (ii_error _ Hs o y t); [|done]. rewrite <- N3. cbn in El. rewrite El. rewrite El' in Hin. apply in_app_iff in Hin. apply in_app_iff.
        destruct Hin as [|[->|]]; [by left|done|by right].
  - by apply (oc_block o time s b x k0 k).
Qed.

Lemma iop_sem_release o s : iinv s -> iop_ok (ISemRelease o) s -> done_ok (ISemRelease o) s.
Proof.
  intros Hs [b Eb]. pose proof (ii_obj _ Hs o) as Hb. rewrite Eb in Hb. destruct Hb as (Hv & Hn & Hf). unfold is_u16 in Hv.
  unfold done_ok. cbn [run_iop]. rewrite bindM_getM. cbn [fst snd]. unfold first_waiter, rt_sem_release_begin.
  rewrite bindM_assoc, (sem_eq o b), bindM_assoc, bindM_getM by done. cbn [fst snd].
  destruct (lists (kern s) (Wait o)) as [|y q] eqn:El; cbn [head].
  - destruct (Z.ltb_spec (value b) RT_SEM_VALUE_MAX) as [Hlt|Hge]; unfold RT_SEM_VALUE_MAX in *.
    + rewrite bindM_assoc, put_bind, bindM_retM. eexists _, _. split; [reflexivity|]. rewrite u16_small by (unfold is_u16; lia).
      split; [|by constructor]. apply iinv_put; [done|]. split_and!; cbn; [unfold is_u16; lia..|done|done].
    + rewrite bindM_retM. eexists _, s. split; [reflexivity|]. split; [done|]. apply (oc_full o s b); [done|done|lia].
  - destruct (hand_spec o y q (kern s) (ii_kern _ Hs) El) as (k & E & Hk & H).
    rewrite bindM_assoc, (kern_bind _ _ s tt k E), bindM_retM. eexists _, (with_kern k s). split; [reflexivity|].
    split; [apply iinv_kern; [done|done|by eapply calm_handed]|]. apply (oc_wake o s b y q k); [done| |done].
    destruct (Z.eq_dec (value b) 0) as [|Hne]; [done|]. by specialize (Hn ltac:(lia)).
Qed.

Lemma iop_sem_reset o v s : iinv s -> iop_ok (ISemReset o v) s -> done_ok (ISemReset o v) s.
Proof.
  intros Hs [b Eb]. pose proof (ii_obj _ Hs o) as Hb. rewrite Eb in Hb. destruct Hb as (_ & _ & Hf).
  destruct (list_resume_all_spec idle o (kern s) (ii_kern _ Hs)) as (k & E & Hk & F).
  exists (EReset o v), (Ipc k (<[o := OSem (Sem (u16 v) (s_flag b))]> (objs s))). split_and!.
  - cbn [run_iop]. unfold rt_sem_reset_begin. by rewrite bindM_assoc, (sem_eq o b), bindM_assoc, (kern_bind _ _ s tt k E) by done.
  - apply (iinv_change o s); [done|done| | | |].
    + apply (calm_weaken any); [done|]. apply (calm_flushed o); [done|apply Hs].
    + rewrite lookup_insert_eq. split_and!; cbn; [apply u16_range..|intros _; apply F|done].
    + intros o' Ho. by rewrite lookup_insert_ne by congruence.
    + intros x t. by rewrite (fl_empty _ _ _ F).
  - by apply oc_reset.
Qed.

(** The new state of a mutex beside a change of the kernel no object minds. *)
Lemma iinv_mutex o s k b : iinv s -> kinv idle k -> calm any (kern s) k -> obj_ok k o (Some (OMutex b)) ->
  iinv (Ipc k (<[o := OMutex b]> (objs s))).
Proof.
  intros Hs Hk C Hb. pose proof (iinv_kern s k Hs Hk C) as Hs1. by apply (iinv_put o (OMutex b) (with_kern k s)).
Qed.

Lemma noted_again x e1 e2 k k1 k2 : noted x e1 k k1 -> noted x e2 k1 k2 -> noted x e2 k k2.
Proof.
  intros [A1 A2 A3 (t & t1 & A4 & A5 & A6 & A7 & A8 & A9)] [B1 B2 B3 (t1' & t2 & B4 & B5 & B6 & B7 & B8 & B9)].
  rewrite A5 in B4. injection B4 as <-. split; try congruence.
  - intros y Hy. rewrite B2 by done. by apply A2.
  - exists t, t2. split_and!; congruence.
Qed.

(** The inherited priority. *)
Lemma inherit_spec x y t u k : kinv idle k -> threads k !! x = Some t -> threads k !! y = Some u ->
  exists k', inherit x y k = Some (tt, k') /\ kinv idle k' /\ repriced y (Z.min (current_priority t) (current_priority u)) u k k'.
Proof.
  intros Hk Et Eu. unfold inherit. rewrite (of_eq k x t), (of_eq k y u) by done.
  pose proof (kw_valid _ _ _ (ki_wf _ _ Hk) x t Et) as [Vt _].
  destruct (Z.ltb_spec (current_priority t) (current_priority u)).
  - destruct (kinv_priority idle k y (current_priority t) u Hk Eu Vt) as (k' & E & Hk' & R & _). exists k'. by rewrite Z.min_l by lia.
  - exists k. split_and!; [done|done|]. rewrite Z.min_r by lia. split; try done; [apply Hk|]. by exists u.
Qed.

Lemma restore_spec x p t k : kinv idle k -> threads k !! x = Some t -> 0 <= p < 32 ->
  exists k', (if negb (p =? current_priority t) then change_priority x p else retM tt) k = Some (tt, k') /\ kinv idle k' /\
    repriced x p t k k'.
Proof.
  intros Hk Et Hp. destruct (Z.eqb_spec p (current_priority t)) as [->|Hne]; cbn [negb].
  - exists k. split_and!; [done|done|]. split; try done; [apply Hk|]. by exists t.
  - destruct (kinv_priority idle k x p t Hk Et Hp) as (k' & E & Hk' & R & _). by exists k'.
Qed.

(** A mutex whose owner is [x]. *)
Lemma mutex_owned o s b x : iinv s -> objs s !! o = Some (OMutex b) -> owner b = Some x ->
  flag_ok (m_flag b) /\ m_value b = 0 /\ 1 <= hold b <= 255 /\ 0 <= original_priority b < 32 /\
  ~ In x (lists (kern s) (Wait o)) /\ exists t, threads (kern s) !! x = Some t /\ st t <> RT_THREAD_INIT.
Proof. intros Hs Eb Eo. pose proof (ii_obj _ Hs o) as H. rewrite Eb in H. cbn in H. rewrite Eo in H. tauto. Qed.

Lemma obj_ok_owned o k k' x v p h f : calm any k k' -> v = 0 -> 1 <= h <= 255 -> 0 <= p < 32 -> flag_ok f ->
  ~ In x (lists k (Wait o)) -> (exists t, threads k !! x = Some t /\ st t <> RT_THREAD_INIT) ->
  obj_ok k' o (Some (OMutex (Mutex v p h (Some x) f))).
Proof.
  intros C -> Hh Hp Hf Hx Ht. apply (obj_calm any k); [done|done|]. split; [done|]. cbn. auto.
Qed.

Lemma prio_range k x t : kinv idle k -> threads k !! x = Some t -> 0 <= current_priority t < 32.
Proof. intros Hk Et. by destruct (kw_valid _ _ _ (ki_wf _ _ Hk) x t Et) as [? _]. Qed.

Lemma iop_mutex_take o time s : iinv s -> iop_ok (IMutexTake o time) s -> done_ok (IMutexTake o time) s.
Proof.
  intros Hs ([b Eb] & x & Hr & Hx). pose proof Hr as (t & Ec & Et & Er). pose proof (ii_obj _ Hs o) as Hb. rewrite Eb in Hb.
  destruct Hb as (Hf & Hb). unfold done_ok. cbn [run_iop]. rewrite (me_eq x) by done.
  unfold rt_mutex_take_begin. rewrite bindM_assoc, (mutex_eq o b), bindM_assoc, (me_eq x) by done.
  destruct (note_spec x RT_EOK (kern s) (ii_kern _ Hs)) as (k0 & E & Hk0 & N); [by exists t|].
  rewrite bindM_assoc, (kern_bind _ _ s tt k0 E). pose proof (calm_noted _ _ _ _ (ii_kern _ Hs) Hr N) as C0.
  pose proof (running_noted _ _ _ _ N Hr) as Hr0. pose proof Hr0 as (t0 & Ec0 & Et0 & Er0).
  destruct (owner b) as [y|] eqn:Eo.
  2: { rewrite bool_decide_eq_false_2 by done. destruct Hb as (Hv & Hh & Hl). rewrite Hv, Hh. cbn [Z.ltb Z.compare].
       change (0 <? RT_MUTEX_HOLD_MAX) with true. cbn iota. rewrite bindM_assoc, (th_eq x t0) by done.
       rewrite bindM_assoc, put_bind, bindM_retM. eexists _, (Ipc k0 _). split; [reflexivity|].
       change (u16 (1 - 1)) with 0. change (u8 (0 + 1)) with 1. cbn [objs with_kern]. split.
       - apply (iinv_mutex o s); [done|done|done|].
         apply (obj_ok_owned o k0); [apply calm_refl|done|done| |done| |].
         + by apply (prio_range k0 x).
         + rewrite (nt_lists _ _ _ _ N), Hl. by intros [].
         + exists t0. by rewrite Er0.
       - by apply oc_lock. }
  destruct Hb as (Hv & Hh & Hp & Hy & Hyt). destruct (decide (y = x)) as [->|Hne].
  - rewrite bool_decide_eq_true_2 by done. destruct (Z.ltb_spec (hold b) RT_MUTEX_HOLD_MAX) as [Hlt|Hge]; unfold RT_MUTEX_HOLD_MAX in *.
    + rewrite bindM_assoc, put_bind, bindM_retM. eexists _, (Ipc k0 _). split; [reflexivity|]. rewrite Hv, u8_small by (unfold is_u8; lia).
      cbn [objs with_kern]. split; [|by apply oc_again]. apply (iinv_mutex o s); [done|done|done|]. by apply (obj_ok_owned o (kern s)); [..|lia|done|done|done|done].
    + rewrite bindM_retM. eexists _, (with_kern k0 s). split; [reflexivity|]. split; [by apply iinv_kern|].
      apply (oc_nested_full o time s b); try done. lia.
  - rewrite bool_decide_eq_false_2 by congruence. rewrite Hv. cbn [Z.ltb Z.compare]. destruct (Z.eqb_spec time 0) as [->|Ht].
    + destruct (note_spec x (- RT_ETIMEOUT) k0 Hk0) as (k1 & E1 & Hk1 & N1); [by exists t0|].
      rewrite bindM_assoc, (kern_bind _ _ (with_kern k0 s) tt k1 E1), bindM_retM. eexists _, (with_kern k1 s). split; [reflexivity|].
      split; [|by apply (oc_mrefuse o s b x y k1); [| | |by apply (noted_again x RT_EOK _ _ k0)]].
      apply iinv_kern; [done|done|]. eapply calm_trans; [exact C0|]. by apply (calm_noted x (- RT_ETIMEOUT)).
    + destruct Hyt as (u0 & Eu0 & Hu0). destruct (ca_init _ _ _ C0 y u0 Eu0 Hu0) as (u & Eu & Hu).
      destruct (inherit_spec x y t0 u k0 Hk0 Et0 Eu) as (k1 & E1 & Hk1 & R1).
      pose proof (calm_repriced y _ u k0 k1 Eu R1) as C1.
      assert (running k1 x) as Hr1.
      { exists t0. rewrite (rp_cur _ _ _ _ _ R1), (rp_others _ _ _ _ _ R1 x) by congruence. done. }
      destruct (park_spec o x (m_flag b) time (with_kern k1 s) Hk1 Hr1 Hx Hf) as (k & Ep & Hk & P).
      rewrite bindM_assoc, (kern_bind _ _ (with_kern k0 s) tt k1 E1). unfold park in Ep. apply bindM_inv in Ep as ([] & s1 & Ep1 & Ep2).
      rewrite bindM_assoc, (bindM_some _ _ _ _ _ Ep1), bindM_assoc, (bindM_some _ _ _ _ _ Ep2), bindM_retM.
      eexists _, (with_kern k s). split; [reflexivity|]. split; [|by apply (oc_mblock o time s b x y t0 u k0 k1 k)].
      assert (calm any (kern s) k1) as C by (by eapply calm_trans).
      apply (iinv_change o s); [done|done| | |done|].
      * eapply calm_trans; [|by eapply calm_parked]. by apply (calm_weaken any).
      * rewrite Eb. split; [done|]. rewrite Eo. split_and!; try done; try lia.
        -- intros Hin. destruct P as [_ _ _ _ (l1 & l2 & El & El' & _)]. rewrite El' in Hin. apply in_app_iff in Hin. apply Hy.
           apply (ca_wait _ _ _ C o y I). cbn in El. rewrite El. apply in_app_iff. destruct Hin as [?|[?|?]]; [by left|congruence|by right].
        -- destruct (ca_init _ _ _ C y u0 Eu0 Hu0) as (u1 & Eu1 & Hu1). exists u1. by rewrite (pk_others _ _ _ _ _ P).
      * intros z tz Hin Ez. destruct P as [_ P2 (ta & tb & E2 & E3 & _ & He & _) _ (l1 & l2 & El & El' & _)].
        destruct (decide (z = x)) as [->|Hz].
        -- rewrite E3 in Ez. injection Ez as <-. rewrite He. cbn in E2. rewrite (rp_others _ _ _ _ _ R1 x), Et0 in E2 by congruence.
           injection E2 as <-. destruct N as [_ _ _ (? & t2 & _ & E4 & _ & He2 & _)]. rewrite Et0 in E4. by injection E4 as <-.
        -- rewrite P2 in Ez by done. cbn in Ez, El. assert (In z (lists k1 (Wait o))) as Hin1.
           { rewrite El. rewrite El' in Hin. apply in_app_iff in Hin. apply in_app_iff. destruct Hin as [|[->|]]; [by left|done|by right]. }
           destruct (ca_error _ _ _ C o z tz I Hin1 Ez) as (tz0 & Ez0 & ->). apply (ii_error _ Hs o z tz0); [|done]. by apply (ca_wait _ _ _ C).
Qed.

Lemma iop_mutex_release o s : iinv s -> iop_ok (IMutexRelease o) s -> done_ok (IMutexRelease o) s.
Proof.
  intros Hs ([b Eb] & x & Hr). pose proof Hr as (t & Ec & Et & Er).
  unfold done_ok. cbn [run_iop]. rewrite (me_eq x), bindM_getM by done. cbn [fst snd].
  unfold rt_mutex_release_begin. rewrite bindM_assoc, (mutex_eq o b), bindM_assoc, (me_eq x) by done.
  destruct (decide (owner b = Some x)) as [Eo|Eo].
  2: { rewrite bool_decide_eq_false_2 by done. cbn [negb].
       destruct (note_spec x (- RT_ERROR) (kern s) (ii_kern _ Hs)) as (k & E & Hk & N); [by exists t|].
       rewrite bindM_assoc, (kern_bind _ _ s tt k E), bindM_retM. eexists _, (with_kern k s). split; [reflexivity|].
       split; [|by apply (oc_not_owner o s b)]. apply iinv_kern; [done|done|]. apply (calm_noted x (- RT_ERROR)); [apply Hs|done|done]. }
  rewrite bool_decide_eq_true_2 by done. cbn [negb hold]. destruct (mutex_owned o s b x Hs Eb Eo) as (Hf & Hv & Hh & Hp & Hx & Hxt).
  rewrite u8_small by (unfold is_u8; lia). destruct (Z.eqb_spec (hold b - 1) 0) as [Hz|Hz].
  2: { rewrite bindM_assoc, put_bind, bindM_retM. eexists _, _. split; [reflexivity|]. rewrite Hv, Eo. split; [|apply oc_unnest; [done|done|lia]].
       apply iinv_put; [done|]. apply (obj_ok_owned o (kern s)); [apply calm_refl|done|lia|done..]. }
  rewrite Hz. unfold mutex_give_up. cbn [original_priority hold m_value m_flag]. rewrite bindM_assoc, (th_eq x t) by done.
  destruct (restore_spec x (original_priority b) t (kern s) (ii_kern _ Hs) Et Hp) as (k1 & E1 & Hk1 & R1).
  pose proof (calm_repriced x _ t (kern s) k1 Et R1) as C1.
  assert ((if negb (original_priority b =? current_priority t) then on_kern (change_priority x (original_priority b)) else retM tt) s
    = Some (tt, with_kern k1 s)) as E1'.
  { destruct (negb _); [by apply on_kern_some|]. injection E1 as <-. by destruct s. }
  rewrite bindM_assoc, (bindM_some _ _ _ _ _ E1'), bindM_assoc, bindM_getM. cbn [fst snd kern with_kern].
  unfold first_waiter. rewrite (rp_wait _ _ _ _ _ R1). destruct (lists (kern s) (Wait o)) as [|y q] eqn:El; cbn [head].
  - rewrite Hv. change (0 <? RT_MUTEX_VALUE_MAX) with true. cbn iota. rewrite bindM_assoc, put_bind, bindM_retM.
    eexists _, (Ipc k1 _). split; [reflexivity|]. split.
    + apply (iinv_mutex o s); [done|done|done|]. split; [done|]. cbn. split_and!; [done|done|]. by rewrite (rp_wait _ _ _ _ _ R1).
    + apply (oc_unlock o s b x t); try done; [lia|]. by rewrite (rp_wait _ _ _ _ _ R1).
  - assert (lists k1 (Wait o) = y :: q) as El1 by (by rewrite (rp_wait _ _ _ _ _ R1)).
    destruct (hand_spec o y q k1 Hk1 El1) as (k & E & Hk & H). pose proof (calm_handed _ _ _ _ _ H) as C.
    pose proof H as [H1 H2 H3 H4 H5 (u & u' & Eu & Eu' & Hru & _)].
    rewrite bindM_assoc, (th_eq y u) by done. change (0 <? RT_MUTEX_HOLD_MAX) with true. cbn iota.
    rewrite bindM_assoc, put_bind. cbn [objs with_kern]. change (with_objs ?m (with_kern k1 s)) with (Ipc k1 m).
    rewrite bindM_assoc, (kern_bind _ _ (Ipc k1 _) tt k) by done. rewrite bindM_retM. rewrite Hv.
    eexists _, (Ipc k _). split; [reflexivity|]. split; [|by apply (oc_pass o s b x y q t u k1); [| |lia|..]].
    apply (iinv_mutex o s); [done|done|by eapply calm_trans|].
    apply (obj_ok_owned o k); [apply calm_refl|done|done| |done| |].
    + by apply (prio_range k1 y).
    + rewrite H4. pose proof (kw_nodup _ _ _ (ki_wf _ _ Hk1) (Wait o) ltac:(done)) as Nd. rewrite El1 in Nd.
      by apply List.NoDup_cons_iff in Nd as [? _].
    + exists u'. split; [done|]. by destruct Hru as [-> | ->].
Qed.

(** Every call within the rules succeeds, keeps the invariant and does what
    [outcome] says. *)
Lemma iop_spec op s : iinv s -> iop_ok op s -> done_ok op s.
Proof.
  intros Hs Ho. destruct op as [op|o v f|o t|o|o v|o|o f|o t|o|o].
  - by apply iop_kern.
  - destruct Ho as (En & Hv & Hf). apply (iop_init _ o (OSem (Sem v f))); try done.
  - by apply iop_sem_take.
  - by apply iop_sem_release.
  - by apply iop_sem_reset.
  - apply (iop_detach _ o); [done|by left].
  - destruct Ho as (En & Hf). by apply (iop_init _ o (OMutex (Mutex 1 0xFF 0 None f))).
  - by apply iop_mutex_take.
  - by apply iop_mutex_release.
  - apply (iop_detach _ o); [done|by right].
Qed.

(** The steps of a run. *)
Inductive trace : list iop -> ipc -> list event -> ipc -> Prop :=
  | tr_nil s : trace [] s [] s
  | tr_step op r s e s1 tr s2 : iinv s -> iinv s1 -> outcome op s e s1 -> trace r s1 tr s2 -> trace (op :: r) s (e :: tr) s2.

Lemma iops_spec ops : forall s, iinv s -> iops_ok ops s ->
  exists tr s', run_iops ops s = Some (tr, s') /\ iinv s' /\ trace ops s tr s'.
Proof.
  induction ops as [|op ops IH]; intros s Hs Ho; cbn [run_iops iops_ok] in *.
  - exists [], s. split_and!; [done|done|constructor].
  - destruct Ho as [Ho Hr]. destruct (iop_spec op s Hs Ho) as (e & s1 & E & Hs1 & Hoc). rewrite E in Hr.
    destruct (IH s1 Hs1 Hr) as (tr & s2 & E2 & Hs2 & Ht). exists (e :: tr), s2.
    rewrite (bindM_some _ _ _ _ _ E), (bindM_some _ _ _ _ _ E2). split_and!; [done|done|by apply (tr_step op ops s e s1 tr s2)].
Qed.

(** The system after its start, without objects. *)
Lemma boot_iinv cfg k : boot_ok idle cfg -> kernel_boot cfg = Some k -> iinv (Ipc k ∅).
Proof.
  intros Hb E. destruct (kernel_boot_spec idle cfg Hb) as (k1 & E1 & Hk & _ & _ & Hr). rewrite E in E1. injection E1 as <-.
  assert (forall o x, ~ In x (lists k (Wait o))) as Hn.
  { intros o x Hin. destruct (kw_wait _ _ _ (ki_wf _ _ Hk) o x Hin) as (_ & t & Et & Es).
    destruct (Hr x t Et) as [[Hs|Hs] _]; by rewrite Hs in Es. }
  split; cbn [kern objs]; [done| |].
  - intros o. rewrite lookup_empty. cbn. destruct (lists k (Wait o)) as [|x l] eqn:El; [done|].
    destruct (Hn o x). rewrite El. by left.
  - intros o x t Hin. by destruct (Hn o x).
Qed.
End Ipc.
