(* ===== verification/IpcSpec.v ===== *)
(** * Semaphores and mutexes against their contracts

    What the runs of Ipc.v guarantee: a semaphore refines an abstract counter
    ([Counter], [semaphore_refines_counter]); a mutex has one holder
    ([mutex_exclusive]); with one mutex served by priority nobody waits behind a
    thread of lower priority ([priority_inheritance]), which nested mutexes and
    mutexes in order of arrival do not give. *)

From Stdlib Require Import ZArith Lia Sorting.Sorted.
From stdpp Require Import base numbers list gmap.
From S2P Require Import Prelude Kernel Ipc.
Open Scope c_scope.

(* ------------------------------------------------------------------ *)
(** ** Semaphores against their contract *)

(** The contract: a count of units and the queue of the threads that wait for
    one, without kernel, states or priorities.  A queue in order of arrival is
    [fifo]; otherwise a thread may pass others. *)
Module Counter.

Definition state : Type := Z * list Z.

(** What a thread or an interrupt sees of a call: [Take x None] is the
    beginning of a wait, [Release (Some y)] hands the unit to [y]. *)
Inductive label :=
  | Take (x : Z) (r : option Z)
  | Release (woken : option Z) (r : Z)
  | Reset (v : Z)
  | Leave (x : Z).

Inductive step (fifo : bool) : label -> state -> state -> Prop :=
  | st_take n q x : 0 < n -> step fifo (Take x (Some RT_EOK)) (n, q) (n - 1, q)
  | st_refuse q x : step fifo (Take x (Some (- RT_ETIMEOUT))) (0, q) (0, q)
  | st_wait q1 q2 x : ~ In x (q1 ++ q2) -> (fifo = true -> q2 = []) ->
      step fifo (Take x None) (0, q1 ++ q2) (0, q1 ++ x :: q2)
  | st_hand x q : step fifo (Release (Some x) RT_EOK) (0, x :: q) (0, q)
  | st_raise n : n < 0xffff -> step fifo (Release None RT_EOK) (n, []) (n + 1, [])
  | st_full : step fifo (Release None (- RT_EFULL)) (0xffff, []) (0xffff, [])
  | st_reset n q v : step fifo (Reset v) (n, q) (u16 v, [])
  | st_leave n q x : step fifo (Leave x) (n, q) (n, unlink x q).

Inductive run (fifo : bool) : list label -> state -> state -> Prop :=
  | run_nil a : run fifo [] a a
  | run_cons l r a b c : step fifo l a b -> run fifo r b c -> run fifo (l :: r) a c.

(** Units handed out, units given back. *)
Definition granted (l : label) : Z :=
  match l with Take _ (Some r) => if r =? RT_EOK then 1 else 0 | Release (Some _) _ => 1 | _ => 0 end.
Definition returned (l : label) : Z := match l with Release _ r => if r =? RT_EOK then 1 else 0 | _ => 0 end.
Definition total (f : label -> Z) (tr : list label) : Z := fold_right (fun l n => f l + n) 0 tr.
Definition no_reset (l : label) : Prop := match l with Reset _ => False | _ => True end.

Lemma conserved fifo tr a b : run fifo tr a b -> Forall no_reset tr -> fst b + total granted tr = fst a + total returned tr.
Proof.
  induction 1 as [a|l r a b c S R IH]; intros F; [done|]. apply Forall_cons in F as [Fl F]. specialize (IH F).
  unfold total in *. cbn [fold_right]. destruct S; cbn in *; lia || done.
Qed.

End Counter.

(** A semaphore as the contract sees it, with its order. *)
Definition sem_view (o : Z) (s : ipc) : option (bool * Counter.state) :=
  match objs s !! o with
  | Some (OSem b) => Some (s_flag b =? RT_IPC_FLAG_FIFO, (value b, lists (kern s) (Wait o)))
  | _ => None
  end.

(** What an event is for the semaphore [o]. *)
Definition sem_label (o : Z) (e : event) : list Counter.label :=
  match e with
  | ETake o' x r => if o' =? o then [Counter.Take x r] else []
  | ERelease o' y r => if o' =? o then [Counter.Release y r] else []
  | EReset o' v => if o' =? o then [Counter.Reset v] else []
  | ELeave x => [Counter.Leave x]
  | _ => []
  end.

Lemma sem_view_same o s s' : objs s' !! o = objs s !! o -> lists (kern s') (Wait o) = lists (kern s) (Wait o) ->
  sem_view o s' = sem_view o s.
Proof. intros E1 E2. unfold sem_view. by rewrite E1, E2. Qed.

Lemma sem_view_put o v f k b : sem_view o (Ipc k (<[o := OSem (Sem v f)]> b)) = Some (f =? RT_IPC_FLAG_FIFO, (v, lists k (Wait o))).
Proof. unfold sem_view. cbn [objs]. by rewrite lookup_insert_eq. Qed.

Lemma noted_wait x e k k' o : noted x e k k' -> lists k' (Wait o) = lists k (Wait o).
Proof. intros N. by rewrite (nt_lists _ _ _ _ N). Qed.

(** The step [s], [e], [s'] of the system on the semaphore [o] in its state [a]. *)
Definition counts_as (o : Z) (s : ipc) (e : event) (s' : ipc) (fifo : bool) (a : Counter.state) : Prop :=
  exists a', sem_view o s' = Some (fifo, a') /\ Counter.run fifo (sem_label o e) a a'.

Lemma counts_same o s e s' ff a : sem_view o s = Some (ff, a) -> objs s' !! o = objs s !! o ->
  lists (kern s') (Wait o) = lists (kern s) (Wait o) -> sem_label o e = [] -> counts_as o s e s' ff a.
Proof. intros Hv E1 E2 El. exists a. rewrite El, (sem_view_same o s) by done. split; [done|constructor]. Qed.

Lemma counts_one o s e s' ff a a' l : sem_view o s' = Some (ff, a') -> sem_label o e = [l] -> Counter.step ff l a a' ->
  counts_as o s e s' ff a.
Proof. intros Hv El S. exists a'. rewrite El. split; [done|]. by eapply Counter.run_cons; [exact S|constructor]. Qed.

(** A mutex is another object than a semaphore. *)
Lemma counts_mutex o s e o1 b b' k ff a : sem_view o s = Some (ff, a) -> objs s !! o1 = Some (OMutex b) ->
  lists k (Wait o) = lists (kern s) (Wait o) -> sem_label o e = [] -> counts_as o s e (Ipc k (<[o1 := OMutex b']> (objs s))) ff a.
Proof.
  intros Hv E1 E2 El. apply counts_same; try done. cbn [objs]. rewrite lookup_insert_ne; [done|]. intros <-.
  unfold sem_view in Hv. by rewrite E1 in Hv.
Qed.

Lemma sem_view_inv o s ff a : sem_view o s = Some (ff, a) -> exists b, objs s !! o = Some (OSem b) /\
  ff = (s_flag b =? RT_IPC_FLAG_FIFO) /\ a = (value b, lists (kern s) (Wait o)).
Proof. unfold sem_view. destruct (objs s !! o) as [[b|b]|]; try done. intros [= <- <-]. by exists b. Qed.

Lemma sem_view_other o o1 s k b : o1 <> o -> lists k (Wait o) = lists (kern s) (Wait o) ->
  sem_view o (Ipc k (<[o1 := b]> (objs s))) = sem_view o s.
Proof. intros Hne E. apply sem_view_same; [|done]. cbn. by rewrite lookup_insert_ne. Qed.

Lemma label_other o o1 : o1 <> o -> (forall x r, sem_label o (ETake o1 x r) = []) /\
  (forall y r, sem_label o (ERelease o1 y r) = []) /\ (forall v, sem_label o (EReset o1 v) = []).
Proof. intros Hne. cbn. by rewrite (proj2 (Z.eqb_neq o1 o)). Qed.

Lemma label_self o : (forall x r, sem_label o (ETake o x r) = [Counter.Take x r]) /\
  (forall y r, sem_label o (ERelease o y r) = [Counter.Release y r]) /\ (forall v, sem_label o (EReset o v) = [Counter.Reset v]).
Proof. cbn. by rewrite Z.eqb_refl. Qed.

(** One step of the system is at most one step of the contract. *)
Lemma outcome_counts idle o op s e s' ff a : iinv idle s -> outcome idle op s e s' -> op <> ISemDetach o ->
  sem_view o s = Some (ff, a) -> counts_as o s e s' ff a.
Proof.
  intros Hs Hoc Hd Hv. destruct (sem_view_inv o s ff a Hv) as (b0 & Eo & Ef & Ea).
  destruct (label_self o) as (LT & LR & LZ).
  destruct Hoc as [op s k Hk E|op o1 b s Hop Hb En|op o1 s k Hop F|o1 time s b x Eb Hp Ec|o1 s b x Eb Hz Ec|o1 time s b x k0 k Eb Hz Hr N P|
    o1 s b y q k Eb Hz H|o1 s b Eb El Hlt|o1 s b Eb El Hf|o1 v s b k Eb F|o1 time s b x k Eb Ew Hh N|o1 time s b x k Eb Ew Hh N|
    o1 time s b x k t Eb Ew N Et|o1 s b x y k Eb Ew Hne N|o1 time s b x y t u k0 k1 k Eb Ew Hne Hr N Et Eu R P|o1 s b x k Eb Ew N|o1 s b x Eb Ew Hh|
    o1 s b x y q t u k1 k Eb Ew Hh Et R Eu H|o1 s b x t k Eb Ew Hh Et R El].
  - destruct (kop_spec idle op (kern s) (ii_kern _ _ Hs) Hk) as (k2 & E2 & _ & Fr). rewrite E in E2. injection E2 as <-.
    pose proof (kf_wait _ _ _ _ Fr o) as Hw. destruct (leaves op) as [x|]; cbn [drop_waiter sem_label] in *.
    + eapply counts_one; [|done|subst a; apply Counter.st_leave]. unfold sem_view. cbn [objs with_kern kern]. by rewrite Eo, Hw, Ef.
    + by apply counts_same.
  - assert (o1 <> o) by congruence. apply counts_same; try done; cbn; [by rewrite lookup_insert_ne|by rewrite decide_False by congruence].
  - assert (o1 <> o) as Hne by (destruct Hop as [[-> _]|[-> [b Eb]]]; congruence).
    apply counts_same; try done; cbn; [by rewrite lookup_delete_ne|]. apply (fl_wait _ _ _ F). congruence.
  - destruct (decide (o1 = o)) as [->|Hne]; [|destruct (label_other o o1 Hne) as (L1 & _); apply counts_same; try done; cbn; by rewrite lookup_insert_ne].
    rewrite Eo in Eb. injection Eb as <-. eapply counts_one; [by rewrite Ef; apply sem_view_put|apply LT|]. subst a. by apply Counter.st_take.
  - destruct (decide (o1 = o)) as [->|Hne]; [|destruct (label_other o o1 Hne) as (L1 & _); by apply counts_same].
    rewrite Eo in Eb. injection Eb as <-. eapply counts_one; [exact Hv|apply LT|]. subst a. rewrite Hz. by apply Counter.st_refuse.
  - destruct P as [_ _ _ P4 (l1 & l2 & El & El' & Hx & P5 & _)]. destruct (decide (o1 = o)) as [->|Hne].
    2: { destruct (label_other o o1 Hne) as (L1 & _). apply counts_same; try done. cbn. by rewrite P4, (noted_wait _ _ _ _ _ N) by congruence. }
    rewrite Eo in Eb. injection Eb as <-. eapply counts_one; [|apply LT|].
    + unfold sem_view. cbn [objs with_kern kern]. by rewrite Eo, El', Hz, Ef.
    + subst a. rewrite Hz, <- (noted_wait _ _ _ _ _ N), El. apply Counter.st_wait; [done|]. subst ff. intros Hf%Z.eqb_eq. by apply P5.
  - destruct (decide (o1 = o)) as [->|Hne].
    2: { destruct (label_other o o1 Hne) as (_ & L1 & _). apply counts_same; try done. cbn. by rewrite (hd_else _ _ _ _ _ H) by congruence. }
    rewrite Eo in Eb. injection Eb as <-. eapply counts_one; [|apply LR|].
    + unfold sem_view. cbn [objs with_kern kern]. by rewrite Eo, (hd_rest _ _ _ _ _ H), Hz, Ef.
    + subst a. rewrite Hz, (hd_wait _ _ _ _ _ H). apply Counter.st_hand.
  - destruct (decide (o1 = o)) as [->|Hne]; [|destruct (label_other o o1 Hne) as (_ & L1 & _); apply counts_same; try done; cbn; by rewrite lookup_insert_ne].
    rewrite Eo in Eb. injection Eb as <-. eapply counts_one; [by rewrite Ef; apply sem_view_put|apply LR|]. subst a. cbn [kern with_objs]. rewrite El. by apply Counter.st_raise.
  - destruct (decide (o1 = o)) as [->|Hne]; [|destruct (label_other o o1 Hne) as (_ & L1 & _); by apply counts_same].
    rewrite Eo in Eb. injection Eb as <-. eapply counts_one; [exact Hv|apply LR|]. subst a. rewrite El, Hf. apply Counter.st_full.
  - destruct (decide (o1 = o)) as [->|Hne].
    2: { destruct (label_other o o1 Hne) as (_ & _ & L1). apply counts_same; try done; cbn; [by rewrite lookup_insert_ne|]. apply (fl_wait _ _ _ F). congruence. }
    rewrite Eo in Eb. injection Eb as <-. eapply counts_one; [by rewrite Ef; apply sem_view_put|apply LZ|]. subst a. rewrite (fl_empty _ _ _ F). apply Counter.st_reset.
  - eapply counts_mutex; try done. by apply (noted_wait x RT_EOK).
  - apply counts_same; try done. cbn. by apply (noted_wait x RT_EOK).
  - eapply counts_mutex; try done. by apply (noted_wait x RT_EOK).
  - apply counts_same; try done. cbn. by apply (noted_wait x (- RT_ETIMEOUT)).
  - assert (o1 <> o) by congruence. apply counts_same; try done. cbn.
    by rewrite (pk_wait _ _ _ _ _ P), (rp_wait _ _ _ _ _ R), (noted_wait _ _ _ _ _ N) by congruence.
  - apply counts_same; try done. cbn. by apply (noted_wait x (- RT_ERROR)).
  - by eapply counts_mutex.
  - assert (o1 <> o) by congruence. eapply counts_mutex; try done. by rewrite (hd_else _ _ _ _ _ H), (rp_wait _ _ _ _ _ R) by congruence.
  - eapply counts_mutex; try done. apply (rp_wait _ _ _ _ _ R).
Qed.

Definition sem_labels (o : Z) (tr : list event) : list Counter.label := flat_map (sem_label o) tr.

Lemma counter_run_app ff l1 l2 a b c : Counter.run ff l1 a b -> Counter.run ff l2 b c -> Counter.run ff (l1 ++ l2) a c.
Proof. induction 1 as [d|l r d e f St Rn IH]; intros R2; [done|]. cbn. eapply Counter.run_cons; [exact St|]. by apply IH. Qed.

Lemma trace_counts idle o ops s tr s' : trace idle ops s tr s' -> ~ In (ISemDetach o) ops -> forall ff a, sem_view o s = Some (ff, a) ->
  exists a', sem_view o s' = Some (ff, a') /\ Counter.run ff (sem_labels o tr) a a'.
Proof.
  induction 1 as [s|op ops s e s1 tr s' Hs Hs1 Hoc _ IH]; intros Hd ff a Hv.
  - exists a. split; [done|constructor].
  - assert (op <> ISemDetach o) as Hop by (intros ->; apply Hd; by left).
    destruct (outcome_counts idle o op s e s1 ff a Hs Hoc Hop Hv) as (a1 & Hv1 & R1).
    destruct (IH ltac:(intros Hin; apply Hd; by right) ff a1 Hv1) as (a' & Hv' & R). exists a'. split; [done|].
    cbn. by eapply counter_run_app.
Qed.

(* ------------------------------------------------------------------ *)
(** ** Who holds a mutex *)

(** The owner's count, and what an event adds to the count of [x]. *)
Definition owned (o x : Z) (s : ipc) : Z :=
  match objs s !! o with Some (OMutex b) => if bool_decide (owner b = Some x) then hold b else 0 | _ => 0 end.

Definition holds (o x : Z) (e : event) : Z :=
  match e with
  | EMTake o' y (Some r) => if (o' =? o) && (y =? x) && (r =? RT_EOK) then 1 else 0
  | EMRelease o' y heir r =>
      (if (o' =? o) && bool_decide (heir = Some x) then 1 else 0) - (if (o' =? o) && (y =? x) && (r =? RT_EOK) then 1 else 0)
  | _ => 0
  end.
Definition total_holds (o x : Z) (tr : list event) : Z := fold_right (fun e n => holds o x e + n) 0 tr.

Lemma owned_put o o1 x k b m : owned o x (Ipc k (<[o1 := b]> m)) =
  if decide (o1 = o) then match b with OMutex b => if bool_decide (owner b = Some x) then hold b else 0 | _ => 0 end else owned o x (Ipc k m).
Proof.
  unfold owned. cbn [objs]. destruct (decide (o1 = o)) as [->|Hne]; [by rewrite lookup_insert_eq|by rewrite lookup_insert_ne].
Qed.

Lemma owned_is o x s b : objs s !! o = Some (OMutex b) -> owned o x s = if bool_decide (owner b = Some x) then hold b else 0.
Proof. intros E. unfold owned. by rewrite E. Qed.

Lemma owned_sem o x s b : objs s !! o = Some (OSem b) -> owned o x s = 0.
Proof. intros E. unfold owned. by rewrite E. Qed.

Lemma owned_kern o x s k : owned o x (Ipc k (objs s)) = owned o x s.
Proof. done. Qed.

Lemma some_eqb (x y : Z) : bool_decide (Some x = Some y) = (x =? y).
Proof. destruct (Z.eqb_spec x y) as [->|Hne]; [by apply bool_decide_eq_true_2|]. apply bool_decide_eq_false_2. congruence. Qed.

Lemma outcome_owned idle o x op s e s' : iinv idle s -> outcome idle op s e s' -> op <> IMutexDetach o ->
  owned o x s' = owned o x s + holds o x e.
Proof.
  intros Hs Hoc Hd.
  destruct Hoc as [op s k Hk E|op o1 b s Hop Hb En|op o1 s k Hop F|o1 time s b z Eb Hp Ec|o1 s b z Eb Hz Ec|o1 time s b z k0 k Eb Hz Hr N P|
    o1 s b y q k Eb Hz H|o1 s b Eb El Hlt|o1 s b Eb El Hf|o1 v s b k Eb F|o1 time s b z k Eb Ew Hh N|o1 time s b z k Eb Ew Hh N|
    o1 time s b z k t Eb Ew N Et|o1 s b z y k Eb Ew Hne N|o1 time s b z y t u k0 k1 k Eb Ew Hne Hr N Et Eu R P|o1 s b z k Eb Ew N|o1 s b z Eb Ew Hh|
    o1 s b z y q t u k1 k Eb Ew Hh Et R Eu H|o1 s b z t k Eb Ew Hh Et R El]; cbn [holds]; unfold with_kern, with_objs;
    rewrite ?owned_put, ?owned_kern; try destruct (decide (o1 = o)) as [->|Ho1];
    rewrite ?Z.eqb_refl, ?(proj2 (Z.eqb_neq _ _) Ho1); cbn [andb]; rewrite ?owned_kern, ?Z.add_0_r, ?Z.sub_0_r; try done.
  all: try (rewrite (owned_sem o x s b) by done; done).
  all: try (rewrite (owned_is o x s b Eb), Ew); cbn [owner hold]; rewrite ?some_eqb.
  - destruct (leaves op); cbn [holds]; lia.
  - unfold owned. rewrite En. destruct b as [b|b]; [done|]. by rewrite Hb.
  - destruct Hop as [[_ [b Eb]]|[-> _]]; [|done]. rewrite (owned_sem o x s b) by done. unfold owned. cbn [objs]. by rewrite lookup_delete_eq.
  - unfold owned. cbn [objs]. by rewrite lookup_delete_ne.
  - destruct (z =? x); cbn; lia.
  - change (- RT_EFULL =? RT_EOK) with false. destruct (z =? x); cbn; lia.
  - rewrite bool_decide_eq_false_2 by done. destruct (z =? x); cbn; lia.
  - try change (- RT_ETIMEOUT =? RT_EOK) with false. destruct (z =? x), (y =? x); cbn; lia.
  - change (- RT_ERROR =? RT_EOK) with false. rewrite bool_decide_eq_false_2, andb_false_r by done. lia.
  - rewrite bool_decide_eq_false_2 by done. destruct (z =? x); cbn; lia.
  - rewrite Hh. destruct (z =? x), (y =? x); cbn; lia.
  - rewrite Hh, !bool_decide_eq_false_2 by done. destruct (z =? x); cbn; lia.
Qed.

Lemma trace_owned idle o x ops s tr s' : trace idle ops s tr s' -> ~ In (IMutexDetach o) ops ->
  owned o x s' = owned o x s + total_holds o x tr.
Proof.
  induction 1 as [s|op ops s e s1 tr s' Hs Hs1 Hoc _ IH]; intros Hd; cbn; [lia|].
  rewrite IH by (intros Hin; apply Hd; by right).
  rewrite (outcome_owned idle o x op s e s1) by (done || (intros ->; apply Hd; by left)). unfold total_holds. lia.
Qed.

Lemma owned_range idle o x s : iinv idle s -> 0 <= owned o x s <= 255.
Proof.
  intros Hs. unfold owned. destruct (objs s !! o) as [[b|b]|] eqn:Eb; try lia. destruct (decide (owner b = Some x)) as [Eo|Eo].
  - rewrite bool_decide_eq_true_2 by done. pose proof (mutex_owned idle o s b x Hs Eb Eo). lia.
  - rewrite bool_decide_eq_false_2 by done. lia.
Qed.

Lemma owned_pos o x s : 0 < owned o x s -> exists b, objs s !! o = Some (OMutex b) /\ owner b = Some x.
Proof.
  unfold owned. destruct (objs s !! o) as [[b|b]|]; try lia. destruct (decide (owner b = Some x)) as [Eo|Eo]; [by exists b|].
  rewrite bool_decide_eq_false_2 by done. lia.
Qed.

(* ------------------------------------------------------------------ *)
(** ** Priorities

    The current and the initial priority of a thread; what most operations of
    the kernel leave as they are. *)

Definition prios (k : kernel) (y : Z) : option (Z * Z) :=
  (fun t => (current_priority t, init_priority t)) <$> (threads k !! y).

Definition prio_safe {A} (m : M kernel A) : Prop := forall k a k', m k = Some (a, k') -> forall y, prios k' y = prios k y.

Create HintDb prio.

Lemma safe_bind {A B} (m : M kernel A) (f : A -> M kernel B) : prio_safe m -> (forall a, prio_safe (f a)) -> prio_safe (bindM m f).
Proof. intros Hm Hf k b k' (a & k1 & E1 & E2)%bindM_inv y. rewrite (Hf a k1 b k' E2). by apply (Hm k a k1). Qed.

Lemma safe_ret {A} (a : A) : prio_safe (retM a).
Proof. by intros k b k' [= <- <-]. Qed.

Lemma safe_fail {A} : prio_safe (failM (A := A)).
Proof. done. Qed.

Lemma safe_do f : (forall k, threads (f k) = threads k) -> prio_safe (doM f).
Proof. intros H k a k' [= <- <-] y. unfold prios. by rewrite H. Qed.

Lemma safe_get {A} (f : kernel -> A) : prio_safe (getM (fun k => (f k, k))).
Proof. by intros k a k' [= <- <-]. Qed.

Lemma safe_self : prio_safe rt_thread_self.
Proof. intros k a k'. unfold rt_thread_self. destruct (current k); [|done]. by intros [= <- <-]. Qed.

Lemma safe_of x : prio_safe (thread_of x).
Proof. intros k a k'. unfold thread_of. destruct (threads k !! x); [|done]. by intros [= <- <-]. Qed.

Lemma safe_highest : prio_safe _get_highest_priority_thread.
Proof. intros k a k'. unfold _get_highest_priority_thread. destruct (lists k _); [done|]. by intros [= <- <-]. Qed.

Lemma safe_upd x f : (forall t, current_priority (f t) = current_priority t /\ init_priority (f t) = init_priority t) -> prio_safe (upd x f).
Proof.
  intros Hf k a k' [= <- <-] y. unfold prios. rewrite threads_alter. destruct (decide (y = x)) as [->|]; [|done].
  destruct (threads k !! x) as [t|]; [|done]. cbn. by destruct (Hf t) as [-> ->].
Qed.

Lemma safe_if {A} (b : bool) (m1 m2 : M kernel A) : prio_safe m1 -> prio_safe m2 -> prio_safe (if b then m1 else m2).
Proof. by destruct b. Qed.

Lemma safe_remove x : prio_safe (list_remove x).
Proof. by apply safe_do. Qed.

Lemma safe_push i x : prio_safe (push_back i x).
Proof. by apply safe_do. Qed.

#[local] Hint Resolve safe_bind safe_ret safe_fail safe_get safe_self safe_of safe_highest safe_if safe_remove safe_push : prio.
#[local] Hint Extern 2 (prio_safe (doM _)) => (apply safe_do; done) : prio.
#[local] Hint Extern 2 (prio_safe (upd _ _)) => (apply safe_upd; let t := fresh in intros t; try destruct (error t =? _); done) : prio.
#[local] Hint Extern 3 (prio_safe (match ?l with _ => _ end)) => (destruct l) : prio.

Lemma safe_insert_thread x : prio_safe (rt_schedule_insert_thread x).
Proof. unfold rt_schedule_insert_thread. auto 9 with prio. Qed.

Lemma safe_remove_thread x : prio_safe (rt_schedule_remove_thread x).
Proof. unfold rt_schedule_remove_thread. auto 9 with prio. Qed.
#[local] Hint Resolve safe_insert_thread safe_remove_thread : prio.

Lemma safe_schedule : prio_safe rt_schedule.
Proof.
  intros k a k'. unfold rt_schedule. destruct (negb (lock_nest k =? 0)); [by intros [= <- <-]|].
  destruct (group k =? 0); [by intros [= <- <-]|]. apply safe_bind; auto 12 with prio.
Qed.
#[local] Hint Resolve safe_schedule : prio.

Lemma safe_suspend x : prio_safe (rt_thread_suspend x).
Proof. unfold rt_thread_suspend. auto 20 with prio. Qed.

Lemma safe_resume x : prio_safe (rt_thread_resume x).
Proof. unfold rt_thread_resume. auto 20 with prio. Qed.
#[local] Hint Resolve safe_suspend safe_resume : prio.

Lemma safe_ignore {A} (m : M kernel A) : prio_safe m -> prio_safe (ignore m).
Proof. unfold ignore. auto with prio. Qed.
#[local] Hint Resolve safe_ignore : prio.

Lemma safe_exit_critical : prio_safe rt_exit_critical.
Proof.
  intros k a k'. unfold rt_exit_critical. destruct (_ <=? 0); [|by intros [= <- <-]].
  destruct (current _); [|by intros [= <- <-]]. intros E y. by rewrite (safe_schedule _ _ _ E).
Qed.

(** The operations that set a priority. *)
Definition sets_prio (op : kop) : Prop :=
  match op with KInit _ _ _ | KStartup _ | KPriority _ _ => True | _ => False end.

Lemma safe_kop op : ~ sets_prio op -> prio_safe (run_kop op).
Proof.
  intros Ho. destruct op; try by destruct Ho.
  all: cbn [run_kop]; unfold rt_thread_yield, sleep_enter, sleep_exit, rt_thread_exit, tick_slice, rt_enter_critical, rt_thread_delete, rt_thread_timeout.
  all: auto 30 using safe_exit_critical with prio.
Qed.

Lemma prios_some k y t : threads k !! y = Some t -> prios k y = Some (current_priority t, init_priority t).
Proof. intros E. unfold prios. by rewrite E. Qed.

(** What the kernel operations do to priorities: a thread keeps its own, but a
    new or a started one gets its initial priority. *)
Lemma kop_prios idle op k k' y : kinv idle k -> kop_ok idle op k -> (forall x p, op <> KPriority x p) -> run_kop op k = Some (tt, k') ->
  prios k' y = prios k y \/ (exists p, prios k' y = Some (p, p)) /\ (forall t, threads k !! y = Some t -> st t = RT_THREAD_INIT /\
     prios k' y = Some (init_priority t, init_priority t)).
Proof.
  intros Hk Ho Hp E. destruct op as [| | | | | | | |x p n|x|x p|x|x|x|x]; try (left; eapply safe_kop, E; by intros []).
  - destruct Ho as [Ex _]. cbn [run_kop] in E. apply bindM_inv in E as (r & k1 & E1 & [= <-]). unfold _rt_thread_init in E1.
    destruct (p <? _); [|done]. injection E1 as _ <-. destruct (decide (y = x)) as [->|Hne].
    + right. split; [|intros t Et; congruence]. exists p. unfold prios. cbn. by rewrite lookup_insert_eq.
    + left. unfold prios. cbn. by rewrite lookup_insert_ne by congruence.
  - destruct Ho as (t & Et & Ei). cbn [run_kop] in E. unfold ignore, rt_thread_startup in E. rewrite bindM_assoc, (of_eq k x t), Ei in E by done.
    rewrite Z.eqb_refl in E. cbn [negb] in E. rewrite bindM_assoc, upd_bind in E. set (k1 := with_threads _ k) in E.
    assert (prios k' y = prios k1 y) as ->.
    { match type of E with ?m k1 = _ => assert (prio_safe m) as Hm by auto 20 with prio end. exact (Hm _ _ _ E y). }
    destruct (decide (y = x)) as [->|Hne]; [|left; unfold prios, k1; by rewrite threads_alter, decide_False].
    right. assert (prios k1 x = Some (init_priority t, init_priority t)) as ->.
    { unfold prios, k1. by rewrite threads_alter, decide_True, Et. }
    split; [by exists (init_priority t)|]. intros t' Et'. rewrite Et in Et'. by injection Et' as <-.
  - by destruct (Hp x p).
Qed.

Lemma prios_others x k k' : others x k k' -> prios k' x = prios k x -> forall y, prios k' y = prios k y.
Proof. intros Ho Hx y. destruct (decide (y = x)) as [->|Hne]; [done|]. unfold prios. by rewrite Ho. Qed.

Lemma prios_alike x k k' t t' : others x k k' -> threads k !! x = Some t -> threads k' !! x = Some t' ->
  current_priority t' = current_priority t -> init_priority t' = init_priority t -> forall y, prios k' y = prios k y.
Proof. intros Ho E E' Ep Ei. apply (prios_others x); [done|]. unfold prios. rewrite E, E'. cbn. by rewrite Ep, Ei. Qed.

Lemma prios_noted x e k k' : noted x e k k' -> forall y, prios k' y = prios k y.
Proof. intros [_ Ho _ (t & t' & E & E' & _ & _ & Ep & Ei)]. by eapply prios_alike. Qed.

Lemma prios_parked o x f k k' : parked o x f k k' -> forall y, prios k' y = prios k y.
Proof. intros [_ Ho (t & t' & E & E' & _ & _ & Ep & Ei) _ _]. by eapply prios_alike. Qed.

Lemma prios_handed o x q k k' : handed o x q k k' -> forall y, prios k' y = prios k y.
Proof. intros [_ Ho _ _ _ (t & t' & E & E' & _ & _ & Ep & Ei)]. by eapply prios_alike. Qed.

Lemma prios_flushed o k k' : kwf k -> flushed o k k' -> forall y, prios k' y = prios k y.
Proof.
  intros W F y. unfold prios. destruct (In_dec Z.eq_dec y (lists k (Wait o))) as [Hin|Hin].
  - destruct (kw_wait _ _ _ W o y Hin) as (_ & t & Et & _).
    destruct (fl_woken _ _ _ F y t Hin Et) as (t' & Et' & _ & _ & Ep & Ei). rewrite Et, Et'. cbn. by rewrite Ep, Ei.
  - by rewrite (fl_others _ _ _ F).
Qed.

Lemma prios_repriced y p u k k' z : threads k !! y = Some u -> repriced y p u k k' ->
  prios k' z = if decide (z = y) then Some (p, init_priority u) else prios k z.
Proof.
  intros Eu R. destruct (decide (z = y)) as [->|Hne]; unfold prios; [|by rewrite (rp_others _ _ _ _ _ R)].
  destruct (rp_thread _ _ _ _ _ R) as (u' & E' & Ep & _ & Ei & _). rewrite E'. cbn. by rewrite Ep, Ei.
Qed.

(** [w] may stand before [v] in a list in order of priority. *)
Definition before (k : kernel) (w v : Z) : Prop :=
  forall cw iw cv iv, prios k w = Some (cw, iw) -> prios k v = Some (cv, iv) -> iw <= iv.

Lemma sorted_drop (R R' : Z -> Z -> Prop) w l : StronglySorted R l -> (forall x y, In x l -> In y l -> R x y -> R' x y) ->
  StronglySorted R' (drop_waiter w l).
Proof.
  intros S H. assert (forall l0, StronglySorted R l0 -> (forall x, In x l0 -> In x l) -> StronglySorted R' (drop_waiter w l0)) as Hg.
  2: { apply Hg; auto. }
  induction 1 as [|a l0 S0 IH F]; intros Hin; [destruct w; constructor|].
  assert (StronglySorted R' (a :: drop_waiter w l0)) as Hc.
  { constructor; [apply IH; intros x Hx; apply Hin; by right|]. apply List.Forall_forall. intros y [Hy _]%in_drop.
    apply H; [apply Hin; by left|apply Hin; by right|]. by apply (proj1 (List.Forall_forall _ _) F). }
  destruct w as [x|]; cbn in *; [|done]. destruct (negb (a =? x)); [done|]. by inversion Hc.
Qed.

Lemma sorted_insert (R : Z -> Z -> Prop) x l1 l2 : StronglySorted R (l1 ++ l2) -> (forall y, In y l1 -> R y x) ->
  (forall y, In y l2 -> R x y) -> StronglySorted R (l1 ++ x :: l2).
Proof.
  induction l1 as [|a l1 IH]; cbn; intros S H1 H2.
  - constructor; [done|]. by apply List.Forall_forall.
  - inversion S as [|? ? S' F]; subst. constructor; [apply IH; auto|]. apply List.Forall_forall. intros y Hy.
    pose proof (proj1 (List.Forall_forall _ _) F) as Fa. apply in_app_iff in Hy as [Hy|[<-|Hy]].
    + apply Fa, in_app_iff. by left.
    + by apply H1; left.
    + apply Fa, in_app_iff. by right.
Qed.

Definition owner_of (o : Z) (s : ipc) : option Z := match objs s !! o with Some (OMutex b) => owner b | _ => None end.

(** One mutex, in order of priority: everybody but its owner runs at the
    initial priority, the owner at one no waiting thread exceeds. *)
Record pinv (o : Z) (s : ipc) : Prop := {
  pv_one : forall o' b, objs s !! o' = Some (OMutex b) -> o' = o /\ m_flag b = RT_IPC_FLAG_PRIO;
  pv_base : forall y c i, prios (kern s) y = Some (c, i) -> owner_of o s <> Some y -> c = i;
  pv_owner : forall b x c i, objs s !! o = Some (OMutex b) -> owner b = Some x -> prios (kern s) x = Some (c, i) ->
    original_priority b = i /\ c <= i /\
    forall w cw iw, In w (lists (kern s) (Wait o)) -> prios (kern s) w = Some (cw, iw) -> c <= iw;
  pv_sorted : is_mutex o s -> StronglySorted (before (kern s)) (lists (kern s) (Wait o)) }.

(** The mutexes stay, with their owners. *)
Definition same_owners (s : ipc) (m : gmap Z obj) : Prop := forall o' b', m !! o' = Some (OMutex b') ->
  exists b, objs s !! o' = Some (OMutex b) /\ owner b' = owner b /\ original_priority b' = original_priority b /\ m_flag b' = m_flag b.

Lemma pinv_change o s k m : pinv o s -> same_owners s m -> owner_of o (Ipc k m) = owner_of o s ->
  (forall y, prios k y = prios (kern s) y \/ (exists p, prios k y = Some (p, p)) /\ owner_of o s <> Some y /\ ~ In y (lists (kern s) (Wait o))) ->
  (is_mutex o (Ipc k m) -> exists w, lists k (Wait o) = drop_waiter w (lists (kern s) (Wait o))) -> pinv o (Ipc k m).
Proof.
  intros [A1 A2 A3 A4] Hm Hown Hp Hl.
  assert (forall y, In y (lists (kern s) (Wait o)) -> prios k y = prios (kern s) y) as Hw.
  { intros y Hy. by destruct (Hp y) as [?|(_ & _ & ?)]. }
  split; cbn [kern objs].
  - intros o' b' E. destruct (Hm o' b' E) as (b & Eb & _ & _ & ->). by apply A1.
  - intros y c i Ey Hy. rewrite Hown in Hy. destruct (Hp y) as [E|([p E] & _)]; rewrite E in Ey; [by apply (A2 y)|congruence].
  - intros b' x c i E Ex Ec. destruct (Hm o b' E) as (b & Eb & Ho & -> & _). rewrite Ho in Ex.
    assert (prios k x = prios (kern s) x) as Epx.
    { destruct (Hp x) as [?|(_ & Hne & _)]; [done|]. destruct Hne. unfold owner_of. by rewrite Eb. }
    rewrite Epx in Ec. destruct (A3 b x c i Eb Ex Ec) as (H1 & H2 & H3). split_and!; try done.
    intros w cw iw Hin Ew. destruct (Hl ltac:(by exists b')) as [v Ev]. rewrite Ev in Hin. apply in_drop in Hin as [Hin _].
    rewrite Hw in Ew by done. by apply (H3 w cw).
  - intros [b' E]. destruct (Hm o b' E) as (b & Eb & _). destruct (Hl ltac:(by exists b')) as [v ->].
    apply (sorted_drop (before (kern s))); [apply A4; by exists b|]. intros w1 w2 H1 H2 Hb. unfold before. by rewrite !Hw.
Qed.

(** The usual case: nobody's priority changes. *)
Lemma pinv_same o s k m : pinv o s -> same_owners s m -> owner_of o (Ipc k m) = owner_of o s ->
  (forall y, prios k y = prios (kern s) y) -> (is_mutex o (Ipc k m) -> lists k (Wait o) = lists (kern s) (Wait o)) -> pinv o (Ipc k m).
Proof.
  intros H Hm Ho Hp Hl. apply (pinv_change o s); [done|done|done|by left; apply Hp|]. intros Hi. exists None. by apply Hl.
Qed.

Lemma same_owners_refl s : same_owners s (objs s).
Proof. intros o' b' E. by exists b'. Qed.

Lemma same_owners_sem s o1 b : same_owners s (<[o1 := OSem b]> (objs s)).
Proof. intros o' b' E. destruct (decide (o' = o1)) as [->|Hne]; [by rewrite lookup_insert_eq in E|]. rewrite lookup_insert_ne in E by congruence. by exists b'. Qed.

Lemma owner_of_sem o s o1 b k : (forall b', objs s !! o1 <> Some (OMutex b')) -> owner_of o (Ipc k (<[o1 := OSem b]> (objs s))) = owner_of o s.
Proof.
  intros H. unfold owner_of. cbn [objs]. destruct (decide (o1 = o)) as [->|Hne]; [|by rewrite lookup_insert_ne].
  rewrite lookup_insert_eq. destruct (objs s !! o) as [[b'|b']|] eqn:E; try done. by destruct (H b').
Qed.

Lemma is_mutex_sem o s o1 b k : is_mutex o (Ipc k (<[o1 := OSem b]> (objs s))) -> o1 <> o.
Proof. intros [b' E] ->. cbn in E. by rewrite lookup_insert_eq in E. Qed.

(** Runs in which [o] is the only mutex, it serves by priority, and nobody sets
    a priority by hand. *)
Definition plain (o : Z) (op : iop) : Prop :=
  match op with
  | IKernel (KPriority _ _) | IMutexDetach _ => False
  | IMutexInit o' flag => o' = o /\ flag = RT_IPC_FLAG_PRIO
  | _ => True
  end.

(** Nobody waits for a mutex that is not held, the owner does not wait for it. *)
Lemma waiter_not_owner idle o s y : iinv idle s -> is_mutex o s -> In y (lists (kern s) (Wait o)) -> owner_of o s <> Some y.
Proof.
  intros Hs [b Eb] Hin Ho. unfold owner_of in Ho. rewrite Eb in Ho. by destruct (mutex_owned idle o s b y Hs Eb Ho) as (_ & _ & _ & _ & ? & _).
Qed.

Lemma pinv_kern idle o op s k : iinv idle s -> kop_ok idle op (kern s) -> plain o (IKernel op) -> run_kop op (kern s) = Some (tt, k) ->
  pinv o s -> pinv o (with_kern k s).
Proof.
  intros Hs Ho Hpl E H. apply (pinv_change o s); [done|apply same_owners_refl|done| |].
  - intros y. destruct (kop_prios idle op (kern s) k y (ii_kern _ _ Hs) Ho) as [?|[Hp Hi]]; [|done|by left|].
    { intros x p ->. done. }
    right. split; [done|]. split.
    + unfold owner_of. destruct (objs s !! o) as [[b|b]|] eqn:Eb; try done. intros Eo.
      destruct (mutex_owned idle o s b y Hs Eb Eo) as (_ & _ & _ & _ & _ & t & Et & Est). by destruct (Hi t Et).
    + intros Hin. destruct (kw_wait _ _ _ (ki_wf _ _ (ii_kern _ _ Hs)) o y Hin) as (_ & t & Et & Est). destruct (Hi t Et) as [Hst _].
      by rewrite Hst in Est.
  - intros _. destruct (kop_spec idle op (kern s) (ii_kern _ _ Hs) Ho) as (k2 & E2 & _ & F). rewrite E in E2. injection E2 as <-.
    exists (leaves op). apply F.
Qed.

Lemma owner_of_is o s b : objs s !! o = Some (OMutex b) -> owner_of o s = owner b.
Proof. intros E. unfold owner_of. by rewrite E. Qed.

Lemma owner_of_put o k b m : owner_of o (Ipc k (<[o := OMutex b]> m)) = owner b.
Proof. unfold owner_of. cbn [objs]. by rewrite lookup_insert_eq. Qed.

(** A mutex whose owner stays the same. *)
Lemma pinv_put o o1 s k b b' : pinv o s -> objs s !! o1 = Some (OMutex b) -> owner b' = owner b ->
  original_priority b' = original_priority b -> m_flag b' = m_flag b -> (forall y, prios k y = prios (kern s) y) ->
  lists k (Wait o) = lists (kern s) (Wait o) -> pinv o (Ipc k (<[o1 := OMutex b']> (objs s))).
Proof.
  intros H Eb E1 E2 E3 Hp Hl. destruct (pv_one _ _ H o1 b Eb) as [-> _]. apply (pinv_same o s); try done.
  - intros o' b2 E. destruct (decide (o' = o)) as [->|Hne]; [|rewrite lookup_insert_ne in E by congruence; by exists b2].
    rewrite lookup_insert_eq in E. injection E as <-. by exists b.
  - by rewrite owner_of_put, (owner_of_is o s b).
Qed.

Lemma pinv_sem o s k o1 b b' : pinv o s -> objs s !! o1 = Some (OSem b) -> (forall y, prios k y = prios (kern s) y) ->
  (forall o', o' <> o1 -> lists k (Wait o') = lists (kern s) (Wait o')) -> pinv o (Ipc k (<[o1 := OSem b']> (objs s))).
Proof.
  intros H Eb Hp Hl. apply (pinv_same o s); [done|apply same_owners_sem| |done|].
  - apply owner_of_sem. intros b2. by rewrite Eb.
  - intros Hi. apply is_mutex_sem in Hi. apply Hl. congruence.
Qed.

(** Only the kernel changes. *)
Lemma pinv_only o s k : pinv o s -> (forall y, prios k y = prios (kern s) y) ->
  (is_mutex o s -> lists k (Wait o) = lists (kern s) (Wait o)) -> pinv o (with_kern k s).
Proof. intros H Hp Hl. apply (pinv_same o s); [done|apply same_owners_refl|done|done|exact Hl]. Qed.

Lemma sem_not_mutex o o1 s b : objs s !! o1 = Some (OSem b) -> is_mutex o s -> o <> o1.
Proof. intros E [b' E'] ->. congruence. Qed.

Lemma pinv_lock idle o s b x k t : iinv idle s -> pinv o s -> objs s !! o = Some (OMutex b) -> owner b = None ->
  noted x RT_EOK (kern s) k -> threads k !! x = Some t ->
  pinv o (Ipc k (<[o := OMutex (Mutex 0 (current_priority t) 1 (Some x) (m_flag b))]> (objs s))).
Proof.
  intros Hs H Eb Ew N Et. pose proof H as [A1 A2 A3 A4]. pose proof (prios_noted _ _ _ _ N) as Hp.
  assert (lists k (Wait o) = []) as Hl.
  { rewrite (noted_wait _ _ _ _ _ N). pose proof (ii_obj _ _ Hs o) as Ho. rewrite Eb in Ho. destruct Ho as [_ Ho]. rewrite Ew in Ho. apply Ho. }
  assert (current_priority t = init_priority t) as Ec.
  { apply (A2 x); [by rewrite <- Hp, (prios_some k x t)|]. by rewrite (owner_of_is o s b), Ew. }
  split; cbn [kern objs].
  - intros o' b' E. destruct (decide (o' = o)) as [->|Hne]; [|rewrite lookup_insert_ne in E by congruence; by apply A1].
    rewrite lookup_insert_eq in E. injection E as <-. split; [done|]. by apply (A1 o b).
  - intros y c i Ey _. rewrite Hp in Ey. apply (A2 y c i Ey). by rewrite (owner_of_is o s b), Ew.
  - intros b' z c i E Ez Ep. rewrite lookup_insert_eq in E. injection E as <-. cbn in Ez. injection Ez as <-.
    rewrite (prios_some k x t Et) in Ep. injection Ep as <- <-. split_and!; [done|lia|]. rewrite Hl. by intros w cw iw [].
  - intros _. rewrite Hl. constructor.
Qed.

Lemma pinv_unlock idle o s b x t k : iinv idle s -> pinv o s -> objs s !! o = Some (OMutex b) -> owner b = Some x ->
  threads (kern s) !! x = Some t -> repriced x (original_priority b) t (kern s) k -> lists k (Wait o) = [] ->
  pinv o (Ipc k (<[o := OMutex (Mutex 1 0xFF 0 None (m_flag b))]> (objs s))).
Proof.
  intros Hs [A1 A2 A3 A4] Eb Ew Et R Hl.
  destruct (A3 b x _ _ Eb Ew (prios_some _ _ _ Et)) as (Eo & _ & _). split; cbn [kern objs].
  - intros o' b' E. destruct (decide (o' = o)) as [->|Hne]; [|rewrite lookup_insert_ne in E by congruence; by apply A1].
    rewrite lookup_insert_eq in E. injection E as <-. split; [done|]. by apply (A1 o b).
  - intros y c i Ey _. rewrite (prios_repriced x _ t (kern s) k) in Ey by done. destruct (decide (y = x)) as [->|Hne]; [congruence|].
    apply (A2 y c i Ey). rewrite (owner_of_is o s b), Ew by done. congruence.
  - intros b' z c i E Ez. rewrite lookup_insert_eq in E. by injection E as <-.
  - intros _. rewrite Hl. constructor.
Qed.

Lemma pinv_pass idle o s b x y q t u k1 k : iinv idle s -> pinv o s -> objs s !! o = Some (OMutex b) -> owner b = Some x ->
  threads (kern s) !! x = Some t -> repriced x (original_priority b) t (kern s) k1 -> threads k1 !! y = Some u -> handed o y q k1 k ->
  pinv o (Ipc k (<[o := OMutex (Mutex 0 (current_priority u) 1 (Some y) (m_flag b))]> (objs s))).
Proof.
  intros Hs [A1 A2 A3 A4] Eb Ew Et R Eu Hd. destruct (A3 b x _ _ Eb Ew (prios_some _ _ _ Et)) as (Eo & _ & _).
  assert (lists (kern s) (Wait o) = y :: q) as El by (by rewrite <- (rp_wait _ _ _ _ _ R); apply (hd_wait _ _ _ _ _ Hd)).
  assert (forall z, prios k z = if decide (z = x) then Some (original_priority b, init_priority t) else prios (kern s) z) as Hp.
  { intros z. by rewrite (prios_handed _ _ _ _ _ Hd), (prios_repriced x (original_priority b) t (kern s) k1 z Et R). }
  assert (is_mutex o s) as Hm by (by exists b).
  assert (forall w, In w (y :: q) -> w <> x) as Hne.
  { intros w Hw ->. rewrite <- El in Hw. apply (waiter_not_owner idle o s x Hs Hm Hw). by rewrite (owner_of_is o s b). }
  assert (forall w, In w (y :: q) -> prios k w = prios (kern s) w) as Hpw.
  { intros w Hw. rewrite Hp, decide_False; [done|]. by apply Hne. }
  assert (forall z c i, prios k z = Some (c, i) -> c = i) as Hbase.
  { intros z c i Ez. rewrite Hp in Ez. destruct (decide (z = x)) as [->|Hz]; [congruence|]. apply (A2 z c i Ez). rewrite (owner_of_is o s b), Ew by done. congruence. }
  pose proof (A4 Hm) as S. rewrite El in S. inversion S as [|? ? S' F]; subst.
  assert (prios k y = Some (current_priority u, init_priority u)) as Epy by (by rewrite (prios_handed _ _ _ _ _ Hd), (prios_some k1 y u)).
  split; cbn [kern objs].
  - intros o' b' E. destruct (decide (o' = o)) as [->|Hz]; [|rewrite lookup_insert_ne in E by congruence; by apply A1].
    rewrite lookup_insert_eq in E. injection E as <-. split; [done|]. by apply (A1 o b).
  - intros z c i Ez _. by apply (Hbase z).
  - intros b' z c i E Ez Ep. rewrite lookup_insert_eq in E. injection E as <-. cbn in Ez. injection Ez as <-.
    rewrite Epy in Ep. injection Ep as <- <-. pose proof (Hbase y _ _ Epy) as Ec. cbn [original_priority]. split_and!; [done|lia|].
    rewrite (hd_rest _ _ _ _ _ Hd). intros w cw iw Hw Epw. rewrite Ec.
    apply (proj1 (List.Forall_forall _ _) F w Hw (current_priority u) (init_priority u) cw iw).
    + by rewrite <- Hpw by (by left).
    + by rewrite <- Hpw by (by right).
  - intros _. rewrite (hd_rest _ _ _ _ _ Hd). apply (sorted_drop (before (kern s)) _ None); [done|].
    intros w1 w2 H1 H2 Hb. unfold before. by rewrite !Hpw by (by right).
Qed.

Lemma sorted_app_r {A} (R : A -> A -> Prop) l1 l2 : StronglySorted R (l1 ++ l2) -> StronglySorted R l2.
Proof. induction l1 as [|a l1 IH]; cbn; [done|]. inversion 1; subst. by apply IH. Qed.

Lemma pinv_block idle o s b x y t u k0 k1 k : iinv idle s -> pinv o s -> objs s !! o = Some (OMutex b) -> owner b = Some y -> y <> x ->
  noted x RT_EOK (kern s) k0 -> threads k0 !! x = Some t -> threads k0 !! y = Some u ->
  repriced y (Z.min (current_priority t) (current_priority u)) u k0 k1 -> parked o x (m_flag b) k1 k -> pinv o (with_kern k s).
Proof.
  intros Hs [A1 A2 A3 A4] Eb Ew Hne N Et Eu R P. set (c := Z.min (current_priority t) (current_priority u)) in *.
  pose proof (prios_noted _ _ _ _ N) as Hp0. assert (is_mutex o s) as Hm by (by exists b).
  assert (prios (kern s) x = Some (current_priority t, init_priority t)) as Epx by (by rewrite <- Hp0, (prios_some k0 x t)).
  assert (prios (kern s) y = Some (current_priority u, init_priority u)) as Epy by (by rewrite <- Hp0, (prios_some k0 y u)).
  assert (current_priority t = init_priority t) as Ect by (apply (A2 x); [done|]; rewrite (owner_of_is o s b), Ew by done; congruence).
  destruct (A3 b y _ _ Eb Ew Epy) as (Eo & Hcu & Hw).
  assert (forall z, prios k z = if decide (z = y) then Some (c, init_priority u) else prios (kern s) z) as Hp.
  { intros z. by rewrite (prios_parked _ _ _ _ _ P), (prios_repriced y c u k0 k1 z Eu R), Hp0. }
  destruct P as [_ P2 _ _ (l1 & l2 & El1 & El & Hx & _ & Hpr)].
  assert (lists (kern s) (Wait o) = l1 ++ l2) as Els by (by rewrite <- El1, (rp_wait _ _ _ _ _ R), (noted_wait _ _ _ _ _ N)).
  assert (forall w, In w (l1 ++ l2) -> w <> y) as Hwy.
  { intros w Hin ->. rewrite <- Els in Hin. apply (waiter_not_owner idle o s y Hs Hm Hin). by rewrite (owner_of_is o s b). }
  assert (prios k x = Some (current_priority t, init_priority t)) as Epx' by (by rewrite Hp, decide_False by congruence).
  assert (forall w cw iw, In w (l1 ++ l2) -> prios k w = Some (cw, iw) -> prios (kern s) w = Some (cw, iw) /\ cw = iw /\ c <= iw /\
    exists tw, threads k1 !! w = Some tw /\ current_priority tw = iw) as Hmem.
  { intros w cw iw Hin Ep. rewrite Hp, decide_False in Ep by (by apply Hwy). assert (cw = iw) as Ec.
    { apply (A2 w cw iw Ep). rewrite (owner_of_is o s b), Ew by done. intros [= ->]. by apply (Hwy w). }
    split_and!; try done.
    - rewrite <- Els in Hin. pose proof (Hw w cw iw Hin Ep). lia.
    - assert (w <> y) as Hz by (by apply Hwy). rewrite <- Hp0 in Ep. assert (prios k1 w = Some (cw, iw)) as E1.
      { by rewrite (prios_repriced y c u k0 k1 w Eu R), decide_False. }
      unfold prios in E1. destruct (threads k1 !! w) as [tw|]; [|done]. injection E1 as <- <-. by exists tw. }
  assert (threads k1 !! x = Some t) as Etx by (by rewrite (rp_others _ _ _ _ _ R) by congruence).
  destruct (Hpr (proj2 (A1 o b Eb)) t Etx) as [Hpr1 Hpr2].
  split; cbn [kern objs with_kern].
  - apply A1.
  - intros z cz iz Ez Hz. rewrite Hp in Ez. destruct (decide (z = y)) as [->|Hzy]; [|by apply (A2 z)].
    destruct Hz. change (owner_of o s = Some y). by rewrite (owner_of_is o s b).
  - intros b' z cz iz E Ez Ep. rewrite Eb in E. injection E as <-. rewrite Ew in Ez. injection Ez as <-.
    rewrite Hp, decide_True in Ep by done. injection Ep as <- <-. split_and!; [done|lia|].
    rewrite El. intros w cw iw Hin Epw. apply in_app_iff in Hin as [Hin|[<-|Hin]].
    + apply (Hmem w cw iw); [apply in_app_iff; by left|done].
    + rewrite Epx' in Epw. injection Epw as <- <-. lia.
    + apply (Hmem w cw iw); [apply in_app_iff; by right|done].
  - intros _. rewrite El. pose proof (A4 Hm) as S. rewrite Els in S.
    assert (StronglySorted (before k) (l1 ++ l2)) as S'.
    { apply (sorted_drop (before (kern s)) _ None); [done|]. intros w1 w2 H1 H2 Hb. unfold before. by rewrite !Hp, !decide_False by (by apply Hwy). }
    apply sorted_insert; [done| |].
    + intros w Hin cw iw cx ix Ep Epx2. rewrite Epx' in Epx2. injection Epx2 as <- <-.
      destruct (Hmem w cw iw ltac:(apply in_app_iff; by left) Ep) as (_ & _ & _ & tw & Etw & <-). rewrite <- Ect. by apply (Hpr1 w tw).
    + intros w Hin cx ix cw iw Epx2 Ep. rewrite Epx' in Epx2. injection Epx2 as <- <-. destruct l2 as [|h r]; [done|].
      assert (In h (l1 ++ h :: r)) as Hh by (apply in_app_iff; right; by left).
      destruct (kw_wait _ _ _ (ki_wf _ _ (ii_kern _ _ Hs)) o h) as (_ & t0 & E0 & _); [by rewrite Els|].
      assert (prios k h = Some (current_priority t0, init_priority t0)) as Eph by (rewrite Hp, decide_False by (by apply Hwy); by apply prios_some).
      destruct (Hmem h _ _ Hh Eph) as (_ & _ & _ & th & Eth & Ech). pose proof (Hpr2 h r th eq_refl Eth) as Hlt.
      assert (init_priority t0 <= iw) as Hle; [|lia]. destruct Hin as [<-|Hin]; [rewrite Eph in Ep; injection Ep as _ <-; lia|].
      apply (sorted_app_r _ l1) in S'. inversion S' as [|? ? _ F]; subst. by apply (proj1 (List.Forall_forall _ _) F w Hin (current_priority t0) _ cw).
Qed.

Lemma outcome_pinv idle o op s e s' : iinv idle s -> outcome idle op s e s' -> plain o op -> pinv o s -> pinv o s'.
Proof.
  intros Hs Hoc Hpl H. pose proof (ki_wf _ _ (ii_kern _ _ Hs)) as W.
  destruct Hoc as [op s k Hk E|op o1 b s Hop Hb En|op o1 s k Hop F|o1 time s b z Eb Hp Ec|o1 s b z Eb Hz Ec|o1 time s b z k0 k Eb Hz Hr N P|
    o1 s b y q k Eb Hz Hd|o1 s b Eb El Hlt|o1 s b Eb El Hf|o1 v s b k Eb F|o1 time s b z k Eb Ew Hh N|o1 time s b z k Eb Ew Hh N|
    o1 time s b z k t Eb Ew N Et|o1 s b z y k Eb Ew Hne N|o1 time s b z y t u k0 k1 k Eb Ew Hne Hr N Et Eu R P|o1 s b z k Eb Ew N|o1 s b z Eb Ew Hh|
    o1 s b z y q t u k1 k Eb Ew Hh Et R Eu Hd|o1 s b z t k Eb Ew Hh Et R El]; try (destruct (pv_one _ _ H o1 b Eb) as [-> _]).
  - by apply (pinv_kern idle o op).
  - destruct b as [b|b]; subst op.
    + apply (pinv_same o s); [done|apply same_owners_sem|apply owner_of_sem; intros b'; by rewrite En|done|].
      intros Hi. apply is_mutex_sem in Hi. cbn. by rewrite decide_False by congruence.
    + destruct Hpl as [-> Hf]. rewrite Hb. cbn [m_flag]. rewrite Hf. destruct H as [A1 A2 A3 A4]. split; cbn [kern objs].
      * intros o' b' E. destruct (decide (o' = o)) as [->|Hne]; [|rewrite lookup_insert_ne in E by congruence; by apply A1].
        rewrite lookup_insert_eq in E. by injection E as <-.
      * intros y c i Ey _. apply (A2 y c i Ey). unfold owner_of. by rewrite En.
      * intros b' x c i E Ex. rewrite lookup_insert_eq in E. by injection E as <-.
      * intros _. cbn. rewrite decide_True by done. constructor.
  - assert (is_sem o1 s) as [b Eb] by (destruct Hop as [[_ ?]|[-> _]]; done).
    apply (pinv_same o s); [done| | |by apply (prios_flushed o1)|].
    + intros o' b' E. destruct (decide (o' = o1)) as [->|Hne]; [by rewrite lookup_delete_eq in E|]. rewrite lookup_delete_ne in E by congruence. by exists b'.
    + unfold owner_of. cbn [objs]. destruct (decide (o1 = o)) as [->|Hne]; [by rewrite lookup_delete_eq, Eb|by rewrite lookup_delete_ne].
    + intros [b' E]. cbn in E. apply (fl_wait _ _ _ F). intros ->. by rewrite lookup_delete_eq in E.
  - by apply (pinv_sem o s (kern s) o1 b).
  - done.
  - apply pinv_only; [done| |].
    + intros y. by rewrite (prios_parked _ _ _ _ _ P), (prios_noted _ _ _ _ N).
    + intros Hm. pose proof (sem_not_mutex o o1 s b Eb Hm) as Hne. by rewrite (pk_wait _ _ _ _ _ P), (noted_wait _ _ _ _ _ N).
  - apply pinv_only; [done|apply (prios_handed _ _ _ _ _ Hd)|].
    intros Hm. pose proof (sem_not_mutex o o1 s b Eb Hm) as Hne. by apply (hd_else _ _ _ _ _ Hd).
  - by apply (pinv_sem o s (kern s) o1 b).
  - done.
  - apply (pinv_sem o s k o1 b); [done|done|by apply (prios_flushed o1)|]. apply F.
  - apply (pinv_put o o s k b); try done; [by apply (prios_noted z RT_EOK)|by apply (noted_wait z RT_EOK)].
  - apply pinv_only; [done|by apply (prios_noted z RT_EOK)|]. intros _. by apply (noted_wait z RT_EOK).
  - by apply (pinv_lock idle o s b z k t).
  - apply pinv_only; [done|by apply (prios_noted z (- RT_ETIMEOUT))|]. intros _. by apply (noted_wait z (- RT_ETIMEOUT)).
  - by apply (pinv_block idle o s b z y t u k0 k1 k).
  - apply pinv_only; [done|by apply (prios_noted z (- RT_ERROR))|]. intros _. by apply (noted_wait z (- RT_ERROR)).
  - by apply (pinv_put o o s (kern s) b).
  - by apply (pinv_pass idle o s b z y q t u k1 k).
  - by apply (pinv_unlock idle o s b z t k).
Qed.

Lemma trace_pinv idle o ops s tr s' : trace idle ops s tr s' -> Forall (plain o) ops -> pinv o s -> pinv o s'.
Proof.
  induction 1 as [s|op ops s e s1 tr s' Hs Hs1 Hoc _ IH]; intros F H; [done|]. apply Forall_cons in F as [Fo F].
  apply IH; [done|]. by apply (outcome_pinv idle o op s e s1).
Qed.

(* ------------------------------------------------------------------ *)
(** ** The rules of use, decided *)

Definition flag_okb (f : Z) : bool := (f =? RT_IPC_FLAG_FIFO) || (f =? RT_IPC_FLAG_PRIO).
Definition kind_of (o : Z) (s : ipc) : Z := match objs s !! o with None => 0 | Some (OSem _) => 1 | Some (OMutex _) => 2 end.
Definition can_waitb (idle : Z) (s : ipc) : bool :=
  match current (kern s) with Some x => runningb (kern s) x && negb (x =? idle) | None => false end.
Definition is_runningb (s : ipc) : bool := match current (kern s) with Some x => runningb (kern s) x | None => false end.

Definition iop_okb (idle : Z) (op : iop) (s : ipc) : bool :=
  match op with
  | IKernel op => kop_okb idle op (kern s)
  | ISemInit o v flag => (kind_of o s =? 0) && (0 <=? v) && (v <? 0x10000) && flag_okb flag
  | ISemTake o time => (kind_of o s =? 1) && ((time =? 0) || can_waitb idle s)
  | ISemRelease o | ISemReset o _ | ISemDetach o => kind_of o s =? 1
  | IMutexInit o flag => (kind_of o s =? 0) && flag_okb flag
  | IMutexTake o _ => (kind_of o s =? 2) && can_waitb idle s
  | IMutexRelease o => (kind_of o s =? 2) && is_runningb s
  | IMutexDetach o => kind_of o s =? 2
  end.

Fixpoint iops_okb (idle : Z) (ops : list iop) (s : ipc) : bool :=
  match ops with
  | [] => true
  | op :: r => iop_okb idle op s && match run_iop op s with Some (_, s') => iops_okb idle r s' | None => true end
  end.

Lemma flag_okb_spec f : flag_okb f = true -> flag_ok f.
Proof. unfold flag_okb. intros [H|H]%orb_true_iff; apply Z.eqb_eq in H; [by left|by right]. Qed.

Lemma can_waitb_spec idle s : can_waitb idle s = true -> can_wait idle s.
Proof.
  unfold can_waitb. destruct (current (kern s)) as [x|]; [|done]. intros [H1 H2]%andb_true_iff. exists x.
  split; [by apply runningb_spec|]. by apply negb_true_iff, Z.eqb_neq in H2.
Qed.

Lemma kind_spec o s : (kind_of o s = 0 -> objs s !! o = None) /\ (kind_of o s = 1 -> is_sem o s) /\ (kind_of o s = 2 -> is_mutex o s).
Proof. unfold kind_of, is_sem, is_mutex. destruct (objs s !! o) as [[b|b]|]; split_and!; try done; intros _; by exists b. Qed.

Lemma iop_okb_spec idle op s : iop_okb idle op s = true -> iop_ok idle op s.
Proof.
  destruct op as [op|o v f|o t|o|o v|o|o f|o t|o|o]; cbn [iop_ok iop_okb]; [apply kop_okb_spec|..];
    destruct (kind_spec o s) as (K0 & K1 & K2); intros H; breflect; auto using flag_okb_spec, can_waitb_spec.
  - split; [auto|]. match goal with H : (_ || _) = true |- _ => apply orb_true_iff in H as [->%Z.eqb_eq|H] end; [by left|right]. by apply can_waitb_spec.
  - split; [auto|]. match goal with H : is_runningb s = true |- _ => unfold is_runningb in H end.
    destruct (current (kern s)) as [x|]; [|done]. exists x. by apply runningb_spec.
Qed.

Lemma iops_okb_spec idle ops : forall s, iops_okb idle ops s = true -> iops_ok idle ops s.
Proof.
  induction ops as [|op ops IH]; intros s; cbn [iops_ok iops_okb]; [done|]. intros [H1 H2]%andb_true_iff.
  split; [by apply iop_okb_spec|]. destruct (run_iop op s) as [[e s']|]; [by apply IH|done].
Qed.

(* ------------------------------------------------------------------ *)
(** ** Properties *)

(** A state the system reaches from its start. *)
Definition ireachable (idle : Z) (s : ipc) : Prop := exists cfg k ops tr,
  boot_ok idle cfg /\ kernel_boot cfg = Some k /\ iops_ok idle ops (Ipc k ∅) /\ run_iops ops (Ipc k ∅) = Some (tr, s).

Lemma reachable_iinv idle s : ireachable idle s -> iinv idle s.
Proof.
  intros (cfg & k & ops & tr & Hb & E & Ho & Er). destruct (iops_spec idle ops (Ipc k ∅) (boot_iinv idle cfg k Hb E) Ho) as (tr' & s' & Er' & Hs & _).
  rewrite Er in Er'. by injection Er' as _ <-.
Qed.

(** C4: a semaphore of the kernel is a counting semaphore.  Whatever threads
    and interrupts do to it and to the rest of the system, its value and the
    list of its waiting threads go through the steps of the abstract counter,
    with the results the callers were given: no unit is lost or invented, a
    free unit and a waiting thread never coexist (no lost wake-up), in arrival
    order the queue only grows at its end, and a thread that waits is suspended
    with no error, so that the one a release takes from the queue returns RT_EOK. *)
Theorem semaphore_refines_counter idle s ops o fifo a :
  ireachable idle s -> sem_view o s = Some (fifo, a) -> iops_ok idle ops s -> ~ In (ISemDetach o) ops ->
  exists tr s' a', run_iops ops s = Some (tr, s') /\ sem_view o s' = Some (fifo, a') /\
    Counter.run fifo (sem_labels o tr) a a' /\
    0 <= fst a' <= 0xffff /\ (0 < fst a' -> snd a' = []) /\
    (forall x, In x (snd a') -> exists t, threads (kern s') !! x = Some t /\ st t = RT_THREAD_SUSPEND /\ error t = RT_EOK) /\
    (Forall Counter.no_reset (sem_labels o tr) ->
      fst a' + Counter.total Counter.granted (sem_labels o tr) = fst a + Counter.total Counter.returned (sem_labels o tr)).
Proof.
  intros Hr Hv Ho Hd. destruct (iops_spec idle ops s (reachable_iinv idle s Hr) Ho) as (tr & s' & E & Hs' & Ht).
  destruct (trace_counts idle o ops s tr s' Ht Hd fifo a Hv) as (a' & Hv' & R). exists tr, s', a'.
  destruct (sem_view_inv o s' fifo a' Hv') as (b & Eb & _ & ->). pose proof (ii_obj _ _ Hs' o) as Hb. rewrite Eb in Hb.
  destruct Hb as (Hu & Hn & _). unfold is_u16 in Hu. split_and!; try done; cbn [fst snd]; try lia.
  - intros x Hin. destruct (kw_wait _ _ _ (ki_wf _ _ (ii_kern _ _ Hs')) o x Hin) as (_ & t & Et & Es). exists t.
    split_and!; [done|done|]. by apply (ii_error _ _ Hs' o x).
  - intros F. exact (Counter.conserved fifo _ _ _ R F).
Qed.

(** Idle thread 0, threads 1, 2 and 3 of priority 20, 15 and 5. *)
Definition ipc_threads : list (Z * (Z * Z)) := [(0, (31, 32)); (1, (20, 10)); (2, (15, 10)); (3, (5, 10))].
Definition ipc_start : ipc := match kernel_boot ipc_threads with Some k => Ipc k ∅ | None => Ipc rt_system_scheduler_init ∅ end.

Lemma ipc_boot_ok : boot_ok 0 ipc_threads.
Proof.
  split_and!; [|repeat constructor; cbn; lia|by left].
  apply NoDup_ListNoDup. by apply (bool_decide_unpack _).
Qed.

Lemma ipc_boot : kernel_boot ipc_threads = Some (kern ipc_start) /\ ipc_start = Ipc (kern ipc_start) ∅.
Proof. destruct (kernel_boot_spec 0 _ ipc_boot_ok) as (k & E & _). unfold ipc_start. by rewrite E. Qed.

Lemma sample_reachable ops tr s : iops_okb 0 ops ipc_start = true -> run_iops ops ipc_start = Some (tr, s) -> ireachable 0 s.
Proof.
  intros Ho E. destruct ipc_boot as [Eb Es]. exists ipc_threads, (kern ipc_start), ops, tr. rewrite <- Es.
  split_and!; [exact ipc_boot_ok|exact Eb|by apply iops_okb_spec|exact E].
Qed.

(** The threads 3, 2 and 1 take in turn the semaphore 7, of no units; an
    interrupt releases it, thread 2 times out, thread 1 tries without waiting. *)
Definition sem_prefix : list iop := [ISemInit 7 0 RT_IPC_FLAG_FIFO].
Definition sem_ops : list iop :=
  [ISemTake 7 (-1); IKernel KSchedule; ISemTake 7 10; IKernel KSchedule; ISemRelease 7; IKernel (KTimeout 2); IKernel KSchedule;
   ISemRelease 7; ISemRelease 7; ISemTake 7 0].
Definition sem_start : ipc := match run_iops sem_prefix ipc_start with Some (_, s) => s | None => ipc_start end.

Lemma sem_start_view : sem_view 7 sem_start = Some (true, (0, [])).
Proof. vm_compute. reflexivity. Qed.

Lemma sem_ops_ok : iops_okb 0 sem_prefix ipc_start = true /\ iops_okb 0 sem_ops sem_start = true.
Proof. split; vm_compute; reflexivity. Qed.

Lemma sem_start_reachable : ireachable 0 sem_start.
Proof.
  destruct (iops_spec 0 sem_prefix (Ipc (kern ipc_start) ∅)) as (tr & s & E & _).
  - apply (boot_iinv 0 ipc_threads); [exact ipc_boot_ok|apply ipc_boot].
  - rewrite <- (proj2 ipc_boot). apply iops_okb_spec, sem_ops_ok.
  - rewrite <- (proj2 ipc_boot) in E. apply (sample_reachable sem_prefix tr); [apply sem_ops_ok|]. unfold sem_start. by rewrite E.
Qed.

Lemma semaphore_refines_counter_witness :
  exists tr s' a', run_iops sem_ops sem_start = Some (tr, s') /\ sem_view 7 s' = Some (true, a') /\
    Counter.run true (sem_labels 7 tr) (0, []) a' /\ (0 < fst a' -> snd a' = []).
Proof.
  destruct (semaphore_refines_counter 0 sem_start sem_ops 7 true (0, []) sem_start_reachable sem_start_view
    (iops_okb_spec 0 sem_ops sem_start (proj2 sem_ops_ok)) ltac:(cbn; intuition congruence)) as (tr & s' & a' & E & Hv & R & _ & Hn & _).
  exists tr, s', a'. split; [exact E|]. split; [exact Hv|]. split; [exact R|exact Hn].
Defined.

(** C15: a mutex has at most one holder.  Count for every thread the takes of
    the mutex that returned RT_EOK and the releases that handed it over, less the
    releases the thread made: whatever happens in a run from the start of the
    system, with nested takes, time-outs and threads that wait, the count is
    between 0 and 255, no two threads have a positive one, and while nobody has,
    nobody waits. *)
Theorem mutex_exclusive idle cfg k ops o :
  boot_ok idle cfg -> kernel_boot cfg = Some k -> iops_ok idle ops (Ipc k ∅) -> ~ In (IMutexDetach o) ops ->
  exists tr s, run_iops ops (Ipc k ∅) = Some (tr, s) /\
    (forall x, 0 <= total_holds o x tr <= 255) /\
    (forall x y, 0 < total_holds o x tr -> 0 < total_holds o y tr -> x = y) /\
    (is_mutex o s -> (forall x, total_holds o x tr = 0) -> lists (kern s) (Wait o) = []).
Proof.
  intros Hb E Ho Hd. destruct (iops_spec idle ops _ (boot_iinv idle cfg k Hb E) Ho) as (tr & s & Er & Hs & Ht). exists tr, s.
  assert (forall x, total_holds o x tr = owned o x s) as Hh.
  { intros x. rewrite (trace_owned idle o x _ _ _ _ Ht Hd). done. }
  split; [done|]. split; [intros x; rewrite Hh; by apply (owned_range idle)|]. split.
  - intros x y. rewrite !Hh. intros (b & Eb & Ex)%owned_pos (b' & Eb' & Ey)%owned_pos. congruence.
  - intros [b Eb] H0. pose proof (ii_obj _ _ Hs o) as Hob. rewrite Eb in Hob. destruct Hob as [_ Hob].
    destruct (owner b) as [x|] eqn:Ex; [|by apply Hob]. destruct Hob as (_ & Hr & _). specialize (H0 x).
    rewrite Hh, (owned_is o x s b Eb), Ex, bool_decide_eq_true_2 in H0 by done. lia.
Qed.

(** Thread 3 takes the mutex 8 twice and sleeps, 2 waits for it, 1 tries it; 3
    releases it twice, which hands it to 2. *)
Definition mutex_ops (flag : Z) : list iop :=
  [IMutexInit 8 flag; IMutexTake 8 (-1); IMutexTake 8 (-1); IKernel KSleep; IKernel KSchedule;
   IMutexTake 8 (-1); IKernel KSchedule; IMutexTake 8 0; IMutexRelease 8; IKernel (KTimeout 3); IMutexRelease 8; IMutexRelease 8].

Lemma mutex_ops_ok : iops_okb 0 (mutex_ops RT_IPC_FLAG_PRIO) (Ipc (kern ipc_start) ∅) = true.
Proof. rewrite <- (proj2 ipc_boot). vm_compute. reflexivity. Qed.

Lemma mutex_exclusive_witness :
  exists tr s, run_iops (mutex_ops RT_IPC_FLAG_PRIO) (Ipc (kern ipc_start) ∅) = Some (tr, s) /\
    (forall x, 0 <= total_holds 8 x tr <= 255) /\ (forall x y, 0 < total_holds 8 x tr -> 0 < total_holds 8 y tr -> x = y).
Proof.
  destruct (mutex_exclusive 0 ipc_threads (kern ipc_start) (mutex_ops RT_IPC_FLAG_PRIO) 8 ipc_boot_ok (proj1 ipc_boot)
    (iops_okb_spec 0 (mutex_ops RT_IPC_FLAG_PRIO) (Ipc (kern ipc_start) ∅) mutex_ops_ok) ltac:(cbn; intuition congruence)) as (tr & s & E & H1 & H2 & _).
  exists tr, s. split; [exact E|]. split; [exact H1|exact H2].
Defined.

(** C16: no thread waits for a mutex behind one of lower priority.  With one
    mutex, served by priority, and priorities that nobody sets by hand: in every
    state of a run from the start the owner of the mutex runs at its initial
    priority or at a higher one, at least that of every thread that waits for
    the mutex, and every other thread runs at its initial priority: what was
    inherited is given back. *)
Theorem priority_inheritance idle cfg k ops o :
  boot_ok idle cfg -> kernel_boot cfg = Some k -> iops_ok idle ops (Ipc k ∅) -> Forall (plain o) ops ->
  exists tr s, run_iops ops (Ipc k ∅) = Some (tr, s) /\
    forall x t, threads (kern s) !! x = Some t ->
      if bool_decide (owner_of o s = Some x)
      then current_priority t <= init_priority t /\
        forall w tw, In w (lists (kern s) (Wait o)) -> threads (kern s) !! w = Some tw -> current_priority t <= current_priority tw
      else current_priority t = init_priority t.
Proof.
  intros Hb E Ho Hp. destruct (iops_spec idle ops _ (boot_iinv idle cfg k Hb E) Ho) as (tr & s & Er & Hs & Ht). exists tr, s. split; [done|].
  destruct (kernel_boot_spec idle cfg Hb) as (k1 & E1 & _ & _ & _ & Hr). rewrite E in E1. injection E1 as <-.
  destruct (trace_pinv idle o ops _ tr s Ht Hp) as [A1 A2 A3 A4].
  { split; cbn [objs kern]; [done| |done|by intros [b Eb]]. intros y c i Ey _. unfold prios in Ey. destruct (threads k !! y) as [t|] eqn:Et; [|done].
    injection Ey as <- <-. by apply (Hr y). }
  intros x t Et. pose proof (prios_some _ _ _ Et) as Ep. destruct (decide (owner_of o s = Some x)) as [Eo|Eo].
  - rewrite bool_decide_eq_true_2 by done. unfold owner_of in Eo. destruct (objs s !! o) as [[b|b]|] eqn:Eb; try done.
    destruct (A3 b x _ _ eq_refl Eo Ep) as (_ & Hi & Hw). split; [done|]. intros w tw Hin Etw.
    assert (current_priority tw = init_priority tw) as ->; [|by eapply Hw, prios_some].
    apply (A2 w); [by apply prios_some|]. apply (waiter_not_owner idle); [done|by exists b|done].
  - rewrite bool_decide_eq_false_2 by done. by apply (A2 x).
Qed.

(** Thread 1 takes the mutex while the others sleep, 2 and 3 wait for it. *)
Definition inherit_ops (flag : Z) : list iop :=
  [IMutexInit 8 flag; IKernel KSleep; IKernel KSchedule; IKernel KSleep; IKernel KSchedule; IMutexTake 8 (-1);
   IKernel (KTimeout 2); IMutexTake 8 (-1); IKernel KSchedule; IKernel (KTimeout 3); IMutexTake 8 (-1); IKernel KSchedule].

Lemma inherit_ops_ok : iops_okb 0 (inherit_ops RT_IPC_FLAG_PRIO) (Ipc (kern ipc_start) ∅) = true.
Proof. rewrite <- (proj2 ipc_boot). vm_compute. reflexivity. Qed.

Lemma priority_inheritance_witness :
  exists tr s, run_iops (inherit_ops RT_IPC_FLAG_PRIO) (Ipc (kern ipc_start) ∅) = Some (tr, s) /\
    forall x t, threads (kern s) !! x = Some t -> if bool_decide (owner_of 8 s = Some x)
      then current_priority t <= init_priority t /\
        forall w tw, In w (lists (kern s) (Wait 8)) -> threads (kern s) !! w = Some tw -> current_priority t <= current_priority tw
      else current_priority t = init_priority t.
Proof.
  assert (Forall (plain 8) (inherit_ops RT_IPC_FLAG_PRIO)) as Hp by (repeat constructor).
  exact (priority_inheritance 0 ipc_threads (kern ipc_start) (inherit_ops RT_IPC_FLAG_PRIO) 8 ipc_boot_ok (proj1 ipc_boot)
    (iops_okb_spec 0 (inherit_ops RT_IPC_FLAG_PRIO) (Ipc (kern ipc_start) ∅) inherit_ops_ok) Hp).
Defined.

(** The state of a run as the observers below see it: the owner of a mutex, its
    waiting threads, the current thread, the priorities of the threads 1, 2, 3. *)
Definition seen (ops : list iop) (o : Z) : option (option Z * list Z * option Z * list (option (Z * Z))) :=
  match run_iops ops ipc_start with
  | Some (_, s) => Some (owner_of o s, lists (kern s) (Wait o), current (kern s), map (prios (kern s)) [1; 2; 3])
  | None => None
  end.

(** A thread that holds two mutexes can keep an inherited priority for
    ever: [rt_mutex_take] notes the priority the thread has at that moment as the
    one to go back to, also when it is inherited.  Thread 1, of priority 20,
    holds the mutex 8 when thread 3, of priority 5, comes to wait for it; then
    it takes the mutex 9 and releases both, the 8 first.  In the end no mutex is
    held, and thread 1 runs at priority 5. *)
Theorem nested_mutex_keeps_priority :
  let ops := [IMutexInit 8 RT_IPC_FLAG_PRIO; IMutexInit 9 RT_IPC_FLAG_PRIO; IKernel KSleep; IKernel KSchedule; IKernel KSleep; IKernel KSchedule;
    IMutexTake 8 (-1); IKernel (KTimeout 3); IMutexTake 8 (-1); IKernel KSchedule; IMutexTake 9 (-1);
    IMutexRelease 8; IKernel KSchedule; IMutexRelease 8; IKernel KSleep; IKernel KSchedule; IMutexRelease 9] in
  iops_okb 0 ops ipc_start = true /\
  seen ops 8 = Some (None, [], Some 1, [Some (5, 20); Some (15, 15); Some (5, 5)]) /\
  seen ops 9 = Some (None, [], Some 1, [Some (5, 20); Some (15, 15); Some (5, 5)]).
Proof. vm_compute. auto. Qed.

(** A mutex in order of arrival (the lock of an I2C bus is one) is handed to the
    first that came, at the priority it has: here thread 2 owns it at priority
    15 while thread 3, of priority 5, waits for it, and threads of priority 6
    to 14 would go before both. *)
Theorem fifo_mutex_inversion :
  let ops := inherit_ops RT_IPC_FLAG_FIFO ++ [IMutexRelease 8; IKernel KSchedule] in
  iops_okb 0 ops ipc_start = true /\ seen ops 8 = Some (Some 2, [3], Some 2, [Some (20, 20); Some (15, 15); Some (5, 5)]).
Proof. vm_compute. auto. Qed.
