(* ===== verification/Calls.v ===== *)
(** * Threads inside a blocking call

    What the kernel objects on which a thread can wait share: a thread that
    called a blocking function of ipc.c sleeps on the list of the object and is
    inside the call until it runs again.  [fated] says what a change of the kernel
    did to such threads, [cinv] what holds of them at any time.  Mailbox.v and
    Event.v use it. *)

From Stdlib Require Import ZArith Lia.
From stdpp Require Import base numbers list gmap.
From S2P Require Import Prelude Kernel Ipc.
Open Scope c_scope.

Definition waits (k : kernel) (x : Z) : Prop := exists i, In x (lists k (Wait i)).

(** A change of the kernel as the threads [x] with a call that waits on the
    list [i] ([C x i]) see it: those of [W] were woken, those of [E] were sent
    away with an error, the others saw nothing; nobody joins a list. *)
Record fated (C : Z -> Z -> Prop) (W E : Z -> Prop) (k k' : kernel) : Prop := {
  fa_wait : forall i x, In x (lists k' (Wait i)) -> In x (lists k (Wait i));
  fa_thread : forall x i t, C x i -> threads k !! x = Some t -> live t -> exists t', threads k' !! x = Some t' /\ live t' /\
    (W x -> In x (lists k (Wait i)) /\ ~ In x (lists k' (Wait i)) /\ error t' = error t /\ timer_on t' = false) /\
    (E x -> In x (lists k (Wait i)) /\ ~ In x (lists k' (Wait i)) /\ error t' <> RT_EOK /\ timer_on t' = false) /\
    (~ W x -> ~ E x -> (In x (lists k' (Wait i)) <-> In x (lists k (Wait i))) /\ error t' = error t /\
       (timer_on t = false -> timer_on t' = false)) }.

Lemma stays_live t t' : stays t t' -> live t -> live t'.
Proof.
  intros (_ & H1 & H2) [Hi Hc]. destruct (decide (st t = RT_THREAD_READY \/ st t = RT_THREAD_RUNNING)) as [Hr|Hr].
  - by destruct (H2 Hr) as [-> | ->].
  - by rewrite H1.
Qed.

Abbreviation nobody := (fun _ : Z => False).

(** The change concerns no thread with a call. *)
Lemma fated_others C k k' : (forall i, lists k' (Wait i) = lists k (Wait i)) ->
  (forall x i, C x i -> threads k' !! x = threads k !! x) -> fated C nobody nobody k k'.
Proof.
  intros Hl Ht. split; [by intros i x; rewrite Hl|]. intros x i t Hc Et Hv. exists t. rewrite (Ht x i), Hl by done. done.
Qed.

(** The first thread of the list [i] was resumed. *)
Lemma fated_handed C i y q k k' : handed i y q k k' -> (forall x j, C x j -> x = y -> j = i) -> List.NoDup (y :: q) ->
  (forall t', threads k' !! y = Some t' -> timer_on t' = false) -> fated C (eq y) nobody k k'.
Proof.
  intros [H1 H2 H3 H4 H5 (t0 & t0' & Et0 & Et0' & Hr & He & _)] Hc N Ht. apply List.NoDup_cons_iff in N as [Hy _]. split.
  - intros j x. destruct (decide (j = i)) as [->|Hne]; [rewrite H3, H4; by right|by rewrite H5].
  - intros x j t HC Et Hv. destruct (decide (x = y)) as [->|Hne].
    + specialize (Hc y j HC eq_refl) as ->. exists t0'. rewrite Et in Et0. injection Et0 as <-. split; [done|]. split; [by destruct Hr as [-> | ->]|].
      split_and!; try done. intros _. split; [rewrite H3; by left|]. rewrite H4. auto.
    + exists t. rewrite H2 by done. split; [done|]. split; [done|]. split_and!; [by intros ->|done|]. intros _ _. split; [|done].
      destruct (decide (j = i)) as [->|Hj]; [|by rewrite H5]. rewrite H3, H4. cbn. split; [by right|]. by intros [->|?].
Qed.

(** All the threads of the list [i] were sent away. *)
Lemma fated_flushed idle C i k k' : kinv idle k' -> flushed i k k' -> (forall x j, C x j -> In x (lists k (Wait i)) -> j = i) ->
  fated C nobody (fun x => In x (lists k (Wait i))) k k'.
Proof.
  intros Hk' [G1 G2 G3 G4 G5 G6] Hc. split.
  - intros j x. destruct (decide (j = i)) as [->|Hne]; [by rewrite G3|by rewrite G4].
  - intros x j t HC Et Hv. destruct (In_dec Z.eq_dec x (lists k (Wait i))) as [Hin|Hin].
    + specialize (Hc x j HC Hin) as ->. destruct (G6 x t Hin Et) as (t' & Et' & Hr & He & _). exists t'.
      split; [done|]. split; [by destruct Hr as [-> | ->]|]. split_and!; try done. intros _. rewrite G3, He. split_and!; try done; [by intros []|].
      destruct (timer_on t') eqn:Etm; [|done]. pose proof (ki_timer _ _ Hk' x t' Et' Etm) as Hs. by destruct Hr as [Hr|Hr]; rewrite Hr in Hs.
    + exists t. rewrite G5 by done. split; [done|]. split; [done|]. split; [done|]. split; [done|]. intros _ _. split; [|done].
      destruct (decide (j = i)) as [->|Hj]; [rewrite G3; split; [by intros []|done]|by rewrite G4].
Qed.

(** An operation of the kernel, when it is not a call of a thread with a call
    nor the end of one. *)
Definition kop_free (C : Z -> Z -> Prop) (op : kop) (k : kernel) : Prop :=
  forall x i, C x i -> match op with
    | KSleep | KSleepExit | KExit => current k <> Some x
    | KDelete y => y <> x
    | _ => True
    end.

Lemma timed_out idle k k' x t : kinv idle k -> threads k !! x = Some t -> timer_on t = true -> run_kop (KTimeout x) k = Some (tt, k') ->
  exists t', threads k' !! x = Some t' /\ runnable t' /\ error t' = - RT_ETIMEOUT /\ timer_on t' = false.
Proof.
  intros Hk Et Ht. cbn [run_kop]. rewrite upd_bind. pose proof (ki_timer _ _ Hk x t Et Ht) as Es.
  destruct (kinv_alter idle k x (with_timer false) t Hk Et) as [Hk1 _]; try done; [exact (kw_valid _ _ _ (ki_wf _ _ Hk) x t Et)|].
  set (k1 := with_threads _ k) in *. assert (threads k1 !! x = Some (with_timer false t)) as E1 by (unfold k1; by rewrite threads_alter, decide_True, Et).
  destruct (timeout_spec k1 x _ (ki_wf _ _ Hk1) E1 Es) as (k2 & t2 & -> & R & He & Ht2). intros E.
  destruct (kinv_resumed idle k1 k2 x _ t2 Hk1 E1 R Ht2) as [Hk2 _].
  destruct (kf_same _ _ _ _ (schedule_frame idle k2 k' Hk2 E) x t2 ltac:(done) (rs_thread _ _ _ _ _ R)) as (t' & Et' & (_ & S1 & S2 & _) & _ & S3).
  exists t'. split; [done|]. split; [apply S3, R|]. rewrite S1, S2, He, Ht2. done.
Qed.

Definition resumes (op : kop) (k : kernel) (x : Z) : Prop := op = KResume x /\ waits k x.
Definition expires (op : kop) (x : Z) : Prop := op = KTimeout x.

Lemma fated_kop idle C op k k' : kinv idle k -> kop_ok idle op k -> run_kop op k = Some (tt, k') -> kop_free C op k ->
  (forall x i, C x i -> (forall j, In x (lists k (Wait j)) -> j = i) /\
     forall t, threads k !! x = Some t -> ~ In x (lists k (Wait i)) -> timer_on t = false) ->
  fated C (resumes op k) (expires op) k k'.
Proof.
  intros Hk Ho E Hfree HC. destruct (kop_spec idle op k Hk Ho) as (k2 & E2 & Hk' & F). rewrite E in E2. injection E2 as <-.
  pose proof (kf_wait _ _ _ _ F) as Hw. split.
  { intros i x. rewrite Hw. by intros [? _]%in_drop. }
  intros x i t Hc Et Hv. destruct (HC x i Hc) as [H1 Htm]. specialize (Htm t Et). specialize (Hfree x i Hc).
  destruct (decide (about op k = Some x)) as [Ha|Ha].
  2: { destruct (kf_same _ _ _ _ F x t Ha Et) as (t' & Et' & S). exists t'. split; [done|]. split; [by eapply stays_live|].
       assert (leaves op <> Some x) as Hl by (intros El; apply Ha; destruct op; try done).
       destruct S as ((_ & S1 & S2 & _) & _). split; [intros [-> _]; done|]. split; [intros Hx; red in Hx; by subst op|]. intros _ _.
       rewrite Hw, S1, S2. split; [|done]. split; [by intros [? _]%in_drop|]. intros Hin. destruct (leaves op) as [y|]; [|done]. cbn. apply in_unlink.
       split; [done|]. congruence. }
  destruct op as [| | | | | | | |y p n|y|y p|y|y|y|y]; cbn [about leaves kop_ok run_kop] in *; try done.
  - injection Ha as ->. destruct Ho. congruence.
  - injection Ha as ->. destruct Ho as (t' & E' & Hi). rewrite Et in E'. injection E' as <-. by destruct Hv.
  - injection Ha as ->. destruct Ho as (_ & Hp). destruct (change_priority_spec k x p t (ki_wf _ _ Hk) Et Hp) as (k3 & E3 & [_ _ _ _ _ (t' & E' & _ & Q1 & _ & Q2 & Q3)]).
    rewrite E in E3. injection E3 as <-. exists t'. split; [done|]. rewrite Q1. split; [done|]. split; [by intros [? _]|]. split; [by intros [=]|]. intros _ _. rewrite Hw, Q2, Q3. done.
  - injection Ha as ->. unfold ignore in E. destruct (decide (st t = RT_THREAD_READY \/ st t = RT_THREAD_RUNNING)) as [Hr|Hr].
    + destruct (suspend_spec k x t (ki_wf _ _ Hk) Et Hr) as (k3 & t' & E3 & [_ _ _ _ O5 _] & S1 & S2 & S3 & _).
      rewrite (bindM_some _ _ _ _ _ E3) in E. injection E as <-. exists t'. rewrite S1. split; [done|]. split; [done|].
      split; [by intros [? _]|]. split; [by intros [=]|]. intros _ _. rewrite Hw. done.
    + rewrite (bindM_some _ _ _ _ _ (suspend_refused k x t Et Hr)) in E. injection E as <-. exists t.
      split; [done|]. split; [done|]. split; [by intros [? _]|]. split; [by intros [=]|done].
  - injection Ha as ->. unfold ignore in E. destruct (Z.eq_dec (st t) RT_THREAD_SUSPEND) as [Es|Es].
    + destruct (resume_spec k x t (ki_wf _ _ Hk) Et Es) as (k3 & t' & E3 & R & Ee & Ht). rewrite (bindM_some _ _ _ _ _ E3) in E. injection E as <-.
      assert (~ In x (lists k3 (Wait i))) as Hn by (rewrite Hw; cbn; by intros [_ ?]%in_unlink).
      exists t'. split; [apply R|]. split; [destruct (rs_runnable _ _ _ _ _ R) as [-> | ->]; done|].
      split; [intros [_ [j Hj]]; pose proof (H1 j Hj) as ->; split_and!; done|]. split; [by intros [=]|].
       intros Hnw _. split; [|done]. split; [done|]. intros Hin. destruct Hnw. split; [done|]. by exists i.
    + rewrite (bindM_some _ _ _ _ _ (resume_refused k x t Et Es)) in E. injection E as <-. exists t.
      split; [done|]. split; [done|]. split; [|split; [by intros [=]|done]]. intros [_ [j Hj]]. by destruct (not_waiting _ _ k x t j (ki_wf _ _ Hk) Et Es).
  - by injection Ha as ->.
  - injection Ha as ->. destruct Ho as (t' & E' & Hti). rewrite Et in E'. injection E' as <-.
    assert (In x (lists k (Wait i))) as Hin by (destruct (In_dec Z.eq_dec x (lists k (Wait i))) as [|Hn]; [done|by rewrite Htm in Hti]).
    pose proof (ki_timer _ _ Hk x t Et Hti) as Es.
    destruct (timed_out idle k k' x t Hk Et Hti E) as (t' & Et' & Hr & He & Ht). exists t'. split; [done|].
    split; [by destruct Hr as [-> | ->]|]. split; [by intros [? _]|]. split; [|by intros _ []].
    intros _. split; [done|]. rewrite He, Hw. cbn. split_and!; try done. by intros [_ ?]%in_unlink.
Qed.

(** The running thread falls asleep on a list. *)
Lemma park_kernel idle i x flag time k : kinv idle k -> running k x -> x <> idle -> flag_ok flag -> exists k1 k2,
  rt_ipc_list_suspend i x flag k = Some (tt, k1) /\ (if 0 <? time then upd x (with_timer true) else retM tt) k1 = Some (tt, k2) /\
  kinv idle k2 /\ parked i x flag k k2.
Proof.
  intros Hk Hr Hx Hf. destruct (park_spec idle i x flag time (Ipc.Ipc k ∅) Hk Hr Hx Hf) as (k2 & E & Hk2 & P).
  unfold park, bindM, Ipc.on_kern in E. cbn [Ipc.kern] in E. destruct (rt_ipc_list_suspend i x flag k) as [[[] k1]|]; [|done].
  exists k1, k2. split; [done|]. destruct (0 <? time); cbn in E; by injection E as <-.
Qed.

Lemma expires_dec op x : expires op x \/ ~ expires op x.
Proof.
  destruct op as [| | | | | | | |y p n|y|y p|y|y|y|y]; try (right; by intros [=]).
  destruct (Z.eq_dec y x) as [->|Hne]; [by left|right]. by intros [= ->].
Qed.

Lemma nobody_dec : forall x, nobody x \/ ~ nobody x.
Proof. intros x. cbn. tauto. Qed.

Lemma eq_dec_or (y x : Z) : y = x \/ y <> x.
Proof. destruct (Z.eq_dec y x); auto. Qed.

(* ------------------------------------------------------------------ *)
(** ** The invariant of the threads inside a call

    [C x i]: the thread [x] is inside a call that waits on the list [i]. *)
Section Calls.
Context (idle : Z).

Record cinv (C : Z -> Z -> Prop) (k : kernel) : Prop := {
  ci_kern : kinv idle k;
  ci_wait : forall i x, In x (lists k (Wait i)) -> C x i;
  ci_one : forall x i j, C x i -> C x j -> i = j;
  ci_call : forall x i, C x i -> x <> idle /\ exists t, threads k !! x = Some t /\ live t /\
    (In x (lists k (Wait i)) -> error t = RT_EOK) /\ (~ In x (lists k (Wait i)) -> timer_on t = false) }.

(** The thread [x] has left the list [i] without an error and has not run since. *)
Definition left_well (k : kernel) (i x : Z) : Prop :=
  ~ In x (lists k (Wait i)) /\ exists t, threads k !! x = Some t /\ error t = RT_EOK.

Lemma cinv_fated C W E k k' : cinv C k -> kinv idle k' -> fated C W E k k' ->
  (forall x i, C x i -> W x \/ ~ W x) -> (forall x, E x \/ ~ E x) -> cinv C k' /\
  forall x i, C x i -> left_well k' i x <-> left_well k i x \/ W x /\ In x (lists k (Wait i)).
Proof.
  intros [A1 A2 A3 A4] Hk [F1 F2] DW DE. split.
  - split; [done|by eauto|done|]. intros x i Hc. destruct (A4 x i Hc) as (Hx & t & Et & Hv & H1 & H2). split; [done|].
    destruct (F2 x i t Hc Et Hv) as (t' & Et' & Hv' & FW & FE & FS). exists t'. split; [done|]. split; [done|].
    destruct (DW x i Hc) as [HW|HW]; [|destruct (DE x) as [HE|HE]].
    + destruct (FW HW) as (B1 & B2 & B3 & B4). by rewrite B3.
    + destruct (FE HE) as (B1 & B2 & B3 & B4). done.
    + destruct (FS HW HE) as (B1 & B2 & B3). rewrite B1, B2. auto.
  - intros x i Hc. destruct (A4 x i Hc) as (Hx & t & Et & Hv & H1 & H2).
    destruct (F2 x i t Hc Et Hv) as (t' & Et' & Hv' & FW & FE & FS). unfold left_well.
    assert (forall k0 t0, threads k0 !! x = Some t0 -> (exists t1, threads k0 !! x = Some t1 /\ error t1 = RT_EOK) <-> error t0 = RT_EOK) as X.
    { intros k0 t0 E0. rewrite E0. split; [by intros (? & [= <-] & ?)|by exists t0]. }
    rewrite (X k' t' Et'), (X k t Et).
    destruct (DW x i Hc) as [HW|HW]; [|destruct (DE x) as [HE|HE]].
    + destruct (FW HW) as (B1 & B2 & B3 & B4). rewrite B3. tauto.
    + destruct (FE HE) as (B1 & B2 & B3 & B4). tauto.
    + destruct (FS HW HE) as (B1 & B2 & B3). rewrite B1, B2. tauto.
Qed.

(** A running thread waits nowhere. *)
Lemma running_not_waiting C k x i : cinv C k -> running k x -> ~ In x (lists k (Wait i)).
Proof. intros Hc (t & _ & Et & Er). apply (not_waiting _ _ k x t i (ki_wf _ _ (ci_kern _ _ Hc)) Et). by rewrite Er. Qed.

Lemma cinv_current C k : cinv C k -> exists x, current k = Some x /\ is_Some (threads k !! x).
Proof. intros Hc. destruct (ki_cur _ _ (ci_kern _ _ Hc)) as (x & t & E & Et). exists x. by rewrite Et. Qed.

(** The operations of the kernel. *)
Lemma cinv_kop C op k : cinv C k -> kop_ok idle op k -> kop_free C op k ->
  exists k', run_kop op k = Some (tt, k') /\ cinv C k' /\
    (forall i, lists k' (Wait i) = drop_waiter (leaves op) (lists k (Wait i))) /\
    forall x i, C x i -> left_well k' i x <-> left_well k i x \/ op = KResume x /\ In x (lists k (Wait i)).
Proof.
  intros Hc Ho Hf. pose proof (ci_kern _ _ Hc) as Hk. destruct (kop_spec idle op k Hk Ho) as (k' & E & Hk' & F). exists k'.
  assert (fated C (resumes op k) (expires op) k k') as Fa.
  { apply (fated_kop idle); [done..|]. intros x i Hx. split.
    - intros j Hj. apply (ci_one _ _ Hc x); [by apply (ci_wait _ _ Hc)|done].
    - intros t Et Hn. destruct (ci_call _ _ Hc x i Hx) as (_ & t' & Et' & _ & _ & H). rewrite Et in Et'. injection Et' as <-. by apply H. }
  assert (forall x i, C x i -> resumes op k x <-> op = KResume x /\ In x (lists k (Wait i))) as Hr.
  { intros x i Hx. split; [intros [? [j Hj]]|intros [? Hi]; split; [done|by exists i]]. split; [done|].
    by rewrite (ci_one _ _ Hc x i j Hx (ci_wait _ _ Hc j x Hj)). }
  destruct (cinv_fated C _ _ k k' Hc Hk' Fa) as [Hc' Hw]; [|apply expires_dec|].
  { intros x i Hx. rewrite (Hr x i Hx). destruct (In_dec Z.eq_dec x (lists k (Wait i))) as [Hi|Hi]; [|right; by intros [_ ?]].
    destruct op as [| | | | | | | |y p n|y|y p|y|y|y|y]; try (right; intros [[=] _]; done).
    destruct (Z.eq_dec y x) as [->|Hne]; [by left|right]. by intros [[= ->] _]. }
  split; [done|]. split; [done|]. split; [apply F|]. intros x i Hx. rewrite (Hw x i Hx), (Hr x i Hx). tauto.
Qed.

(** A thread is resumed. *)
Lemma cinv_resume C x k : cinv C k -> is_Some (threads k !! x) ->
  exists k', ignore (rt_thread_resume x) k = Some (tt, k') /\ cinv C k' /\ current k' = current k /\
    (forall i, lists k' (Wait i) = unlink x (lists k (Wait i))) /\
    forall y i, C y i -> left_well k' i y <-> left_well k i y \/ y = x /\ In x (lists k (Wait i)).
Proof.
  intros Hc Hx. destruct (cinv_kop C (KResume x) k Hc Hx ltac:(by intros ? ? ?)) as (k' & E & Hc' & Hl & Hw).
  exists k'. split; [exact E|]. split; [done|]. split; [|split; [exact Hl|]].
  - destruct Hx as [t Et]. cbn [run_kop] in E. unfold ignore in E. destruct (Z.eq_dec (st t) RT_THREAD_SUSPEND) as [Es|Es].
    + destruct (resume_spec k x t (ki_wf _ _ (ci_kern _ _ Hc)) Et Es) as (k3 & t' & E3 & R & _).
      rewrite (bindM_some _ _ _ _ _ E3) in E. injection E as <-. apply R.
    + rewrite (bindM_some _ _ _ _ _ (resume_refused k x t Et Es)) in E. by injection E as <-.
  - intros y i Hy. rewrite (Hw y i Hy). split; (intros [?|[H ?]]; [by left|right]); [by injection H as ->|by subst y].
Qed.

(** All the threads of a list are sent away. *)
Lemma cinv_flush C i k : cinv C k -> exists k', rt_ipc_list_resume_all i k = Some (tt, k') /\ cinv C k' /\
  current k' = current k /\ (forall j, lists k' (Wait j) = if decide (j = i) then [] else lists k (Wait j)) /\
  forall x j, C x j -> left_well k' j x <-> left_well k j x.
Proof.
  intros Hc. destruct (list_resume_all_spec idle i k (ci_kern _ _ Hc)) as (k' & E & Hk' & F). exists k'. split; [done|].
  assert (fated C nobody (fun x => In x (lists k (Wait i))) k k') as Fa.
  { apply (fated_flushed idle); [done|done|]. intros x j Hx Hin. apply (ci_one _ _ Hc x); [done|by apply (ci_wait _ _ Hc)]. }
  destruct (cinv_fated C _ _ k k' Hc Hk' Fa) as [Hc' Hw]; [by auto|intros x; destruct (In_dec Z.eq_dec x (lists k (Wait i))); auto|].
  split; [done|]. split; [apply F|]. split.
  - intros j. destruct (decide (j = i)) as [->|Hne]; [apply F|]. by apply (fl_wait _ _ _ F).
  - intros x j Hx. rewrite (Hw x j Hx). tauto.
Qed.

(** A thread in no call gets an error code. *)
Lemma cinv_note C x e k : cinv C k -> is_Some (threads k !! x) -> (forall i, ~ C x i) ->
  exists k', upd x (with_error e) k = Some (tt, k') /\ cinv C k' /\ noted x e k k' /\
    forall y i, C y i -> left_well k' i y <-> left_well k i y.
Proof.
  intros Hc Ht Hx. destruct (note_spec idle x e k (ci_kern _ _ Hc) Ht) as (k' & E & Hk & N). exists k'.
  assert (fated C nobody nobody k k') as F.
  { apply fated_others; [by rewrite (nt_lists _ _ _ _ N)|]. intros y i Hy. apply (nt_others _ _ _ _ N). intros ->. by destruct (Hx i). }
  destruct (cinv_fated C _ _ k k' Hc Hk F) as [Hc' Hw]; [by auto|apply nobody_dec|].
  split; [done|]. split; [done|]. split; [done|]. intros y i Hy. rewrite (Hw y i Hy). tauto.
Qed.

(** The running thread begins a call and falls asleep. *)
Lemma cinv_park C i x flag time k t : cinv C k -> running k x -> x <> idle -> flag_ok flag -> (forall j, ~ C x j) ->
  threads k !! x = Some t -> error t = RT_EOK -> exists k1 k2,
  rt_ipc_list_suspend i x flag k = Some (tt, k1) /\ (if 0 <? time then upd x (with_timer true) else retM tt) k1 = Some (tt, k2) /\
  cinv (fun y j => C y j \/ y = x /\ j = i) k2 /\ parked i x flag k k2 /\ ~ left_well k2 i x /\
  forall y j, C y j -> left_well k2 j y <-> left_well k j y.
Proof.
  intros Hc Hr Hx Hf Hn Et He. destruct (park_kernel idle i x flag time k (ci_kern _ _ Hc) Hr Hx Hf) as (k1 & k2 & E1 & E2 & Hk2 & P).
  exists k1, k2. split; [done|]. split; [done|].
  pose proof P as [P1 P2 (t0 & t' & Et0 & Et' & Hst & Het & _) P4 (l1 & l2 & El & El' & Hnx & _)].
  rewrite Et in Et0. injection Et0 as <-.
  assert (In x (lists k2 (Wait i))) as Hin by (rewrite El'; apply in_app_iff; right; by left).
  assert (forall j y, y <> x -> In y (lists k2 (Wait j)) <-> In y (lists k (Wait j))) as Hl.
  { intros j y Hy. destruct (decide (j = i)) as [->|Hj]; [|by rewrite P4]. rewrite El, El', !in_app_iff. cbn. split; [|tauto].
    intros [?|[?|?]]; auto. congruence. }
  destruct Hc as [A1 A2 A3 A4]. split; [|split; [done|split]].
  - split; [done| | |].
    + intros j y Hy. destruct (decide (y = x)) as [->|Hne]; [right; split; [done|]|left; by apply A2, Hl].
      by apply (kw_wait1 _ _ _ (ki_wf _ _ Hk2) _ _ x).
    + intros y j j' [H|[Hy Hj]] [H'|[Hy' Hj']]; subst; [by apply (A3 y)|by destruct (Hn j)|by destruct (Hn j')|done].
    + intros y j [Hy|[-> ->]].
      * assert (y <> x) as Hne by (intros ->; by destruct (Hn j)). destruct (A4 y j Hy) as (Hyi & ty & Ety & Hv & H1 & H2).
        split; [done|]. exists ty. rewrite P2, Hl by done. done.
      * split; [done|]. exists t'. rewrite Het, Et'. split; [done|]. split; [by rewrite Hst|done].
  - intros [? _]. done.
  - intros y j Hy. assert (y <> x) as Hne by (intros ->; by destruct (Hn j)). unfold left_well. by rewrite Hl, P2.
Qed.

(** The running thread ends its call. *)
Lemma cinv_leave C x k : cinv C k -> running k x -> cinv (fun y i => C y i /\ y <> x) k.
Proof.
  intros Hc Hr. pose proof (fun i => running_not_waiting C k x i Hc Hr) as Hn. destruct Hc as [A1 A2 A3 A4]. split; [done| | |].
  - intros i y Hy. split; [by apply A2|]. intros ->. by apply (Hn i).
  - intros y i j [H _] [H' _]. by apply (A3 y).
  - intros y i [H _]. by apply A4.
Qed.

(** Calls are known by what they say of each thread. *)
Lemma cinv_ext C C' k : (forall x i, C x i <-> C' x i) -> cinv C k -> cinv C' k.
Proof.
  intros H [A1 A2 A3 A4]. split; [done| | |].
  - intros i x Hx. by apply H, A2.
  - intros x i j Hi Hj. apply (A3 x); by apply H.
  - intros x i Hi. by apply A4, H.
Qed.
End Calls.
