(* ===== verification/Mailbox.v ===== *)
(** * Mailboxes

    rt-thread/src/ipc.c, rt_mb_*: a ring of mails with two lists of waiting
    threads, the receivers and the senders, on the threads of Kernel.v and the
    wait lists of Ipc.v.  As there, a call is modelled up to its [rt_schedule];
    a thread that waits has its call recorded ([calls]) and goes on with it when
    it runs again ([mb_resume]).  Left out: object names, hooks, the allocation
    of a mailbox on the heap.

    The contract ([Box]) is a bounded queue in which sleeping and woken threads
    are told apart; from it follows that no wake-up is lost. *)

From Stdlib Require Import ZArith Lia.
From stdpp Require Import base numbers list gmap.
From S2P Require Import Prelude Kernel Ipc Calls.
Open Scope c_scope.

Definition RT_MB_ENTRY_MAX : Z := 0xffff.

Record mailbox := Mailbox {
  msg_pool : list Z; size : Z; entry : Z; in_offset : Z; out_offset : Z; mb_flag : Z }.

(** What a thread inside [rt_mb_send_wait] or [rt_mb_recv] has in its
    variables while it waits: the mail, [timeout] and [tick_delta]. *)
Inductive call := Sending (o v timeout tick_delta : Z) | Receiving (o timeout tick_delta : Z).

(** The lists of the mailbox [o]: [parent.suspend_thread] and
    [suspend_sender_thread]. *)
Definition receivers (o : Z) : Z := 2 * o.
Definition senders (o : Z) : Z := 2 * o + 1.

Record mstate := MState { kern : kernel; boxes : gmap Z mailbox; calls : gmap Z call; rt_tick : Z }.

Definition with_kern (k : kernel) (s : mstate) : mstate := MState k (boxes s) (calls s) (rt_tick s).
Definition with_boxes (b : gmap Z mailbox) (s : mstate) : mstate := MState (kern s) b (calls s) (rt_tick s).
Definition with_calls (c : gmap Z call) (s : mstate) : mstate := MState (kern s) (boxes s) c (rt_tick s).
Definition with_tick (n : Z) (s : mstate) : mstate := MState (kern s) (boxes s) (calls s) n.

Definition on_kern {A} (m : M kernel A) : M mstate A := fun s =>
  match m (kern s) with Some (a, k) => Some (a, with_kern k s) | None => None end.
Definition box_of (o : Z) : M mstate mailbox := fun s =>
  match boxes s !! o with Some b => Some (b, s) | None => None end.
Definition put_box (o : Z) (b : mailbox) : M mstate unit := doM (fun s => with_boxes (<[o := b]> (boxes s)) s).
Definition waiting (i : Z) : M mstate (list Z) := getM (fun s => (lists (kern s) (Wait i), s)).

(* ------------------------------------------------------------------ *)
(** ** The operations *)

Definition rt_mb_init (o : Z) (msgpool : list Z) (sz flag : Z) : M mstate unit :=
  do! on_kern (doM (list_set (Wait (receivers o)) [])) in
  do! put_box o (Mailbox msgpool (u16 sz) 0 0 0 flag) in
  on_kern (doM (list_set (Wait (senders o)) [])).

Definition rt_mb_detach (o : Z) : M mstate unit :=
  let! _ := box_of o in
  do! on_kern (rt_ipc_list_resume_all (receivers o)) in
  do! on_kern (rt_ipc_list_resume_all (senders o)) in
  doM (fun s => with_boxes (delete o (boxes s)) s).

(** [++ offset; if (offset >= size) offset = 0;] *)
Definition advance (offset size : Z) : Z :=
  let offset := u16 (offset + 1) in if size <=? offset then 0 else offset.

(** The first thread of a list, if any, is resumed: [need_schedule]. *)
Definition wake_one (i : Z) : M mstate bool :=
  let! l := waiting i in
  match l with
  | [] => retM false
  | _ :: _ => do! on_kern (rt_ipc_list_resume i) in retM true
  end.

(** The end of a send, the mailbox not full; an access outside the pool has no
    result. *)
Definition mb_store (o v : Z) : M mstate Z :=
  let! b := box_of o in
  let i := Z.to_nat (in_offset b) in
  if negb (i <? length (msg_pool b))%nat then failM
  else
    let pool := <[i := v]> (msg_pool b) in
    let inn := advance (in_offset b) (size b) in
    if entry b <? RT_MB_ENTRY_MAX then
      do! put_box o (Mailbox pool (size b) (u16 (entry b + 1)) inn (out_offset b) (mb_flag b)) in
      let! _s := wake_one (receivers o) in
      retM RT_EOK
    else
      do! put_box o (Mailbox pool (size b) (entry b) inn (out_offset b) (mb_flag b)) in
      retM (- RT_EFULL).

(** The running thread goes to sleep on the list [i] inside the call [c]. *)
Definition mb_wait (i x flag timeout : Z) (c : call) : M mstate unit :=
  do! on_kern (rt_ipc_list_suspend i x flag) in
  do! (if 0 <? timeout then on_kern (upd x (with_timer true)) else retM tt) in
  doM (fun s => with_calls (<[x := c]> (calls s)) s).

(** [tick_delta]: the tick at which a limited wait begins. *)
Definition wait_start (timeout : Z) : M mstate Z :=
  getM (fun s => (if 0 <? timeout then rt_tick s else 0, s)).

(** One turn of [while (mb->entry == mb->size)] with what follows it; [None]:
    the thread sleeps. *)
Definition mb_send_turn (o v timeout : Z) : M mstate (option Z) :=
  let! b := box_of o in
  if entry b =? size b then
    let! x := on_kern rt_thread_self in
    do! on_kern (upd x (with_error RT_EOK)) in
    if timeout =? 0 then retM (Some (- RT_EFULL))
    else
      let! n := wait_start timeout in
      do! mb_wait (senders o) x (mb_flag b) timeout (Sending o v timeout n) in
      retM None
  else let! r := mb_store o v in retM (Some r).

Definition rt_mb_send_wait (o v timeout : Z) : M mstate (option Z) :=
  let! b := box_of o in
  if (entry b =? size b) && (timeout =? 0) then retM (Some (- RT_EFULL))
  else mb_send_turn o v timeout.

Definition rt_mb_send (o v : Z) : M mstate (option Z) := rt_mb_send_wait o v 0.

(** The end of a receive, the mailbox not empty: [*value]. *)
Definition mb_fetch (o : Z) : M mstate Z :=
  let! b := box_of o in
  match msg_pool b !! Z.to_nat (out_offset b) with
  | None => failM
  | Some v =>
      let out := advance (out_offset b) (size b) in
      let n := if 0 <? entry b then u16 (entry b - 1) else entry b in
      do! put_box o (Mailbox (msg_pool b) (size b) n (in_offset b) out (mb_flag b)) in
      let! _s := wake_one (senders o) in
      retM v
  end.

(** The result and [*value]. *)
Definition mb_recv_turn (o timeout : Z) : M mstate (option (Z * option Z)) :=
  let! b := box_of o in
  if entry b =? 0 then
    let! x := on_kern rt_thread_self in
    do! on_kern (upd x (with_error RT_EOK)) in
    if timeout =? 0 then
      do! on_kern (upd x (with_error (- RT_ETIMEOUT))) in
      retM (Some (- RT_ETIMEOUT, None))
    else
      let! n := wait_start timeout in
      do! mb_wait (receivers o) x (mb_flag b) timeout (Receiving o timeout n) in
      retM None
  else let! v := mb_fetch o in retM (Some (RT_EOK, Some v)).

Definition rt_mb_recv (o timeout : Z) : M mstate (option (Z * option Z)) :=
  let! b := box_of o in
  if (entry b =? 0) && (timeout =? 0) then retM (Some (- RT_ETIMEOUT, None))
  else mb_recv_turn o timeout.

(** [rt_mb_control] up to its schedule. *)
Definition rt_mb_reset_begin (o : Z) : M mstate unit :=
  let! b := box_of o in
  do! on_kern (rt_ipc_list_resume_all (receivers o)) in
  do! on_kern (rt_ipc_list_resume_all (senders o)) in
  put_box o (Mailbox (msg_pool b) (size b) 0 0 0 (mb_flag b)).

(** What is left of [timeout] after a wait. *)
Definition time_left (timeout tick_delta now : Z) : Z :=
  if 0 <? timeout then
    let timeout := s32 (timeout - (now -u32 tick_delta)) in if timeout <? 0 then 0 else timeout
  else timeout.

Inductive result := Sent (o v : Z) (r : option Z) | Got (o : Z) (r : option (Z * option Z)).

(** The running thread goes on with its call. *)
Definition mb_resume (x : Z) : M mstate result := fun s =>
  match calls s !! x with
  | None => None
  | Some c =>
      (let! t := on_kern (thread_of x) in
       do! doM (fun s => with_calls (delete x (calls s)) s) in
       match c with
       | Sending o v timeout d =>
           if negb (error t =? RT_EOK) then retM (Sent o v (Some (error t)))
           else let! r := mb_send_turn o v (time_left timeout d (rt_tick s)) in retM (Sent o v r)
       | Receiving o timeout d =>
           if negb (error t =? RT_EOK) then retM (Got o (Some (error t, None)))
           else let! r := mb_recv_turn o (time_left timeout d (rt_tick s)) in retM (Got o r)
       end) s
  end.

(* ------------------------------------------------------------------ *)
(** ** Runs *)

Inductive mop :=
  | MKernel (op : kop) | MInit (o : Z) (pool : list Z) (sz flag : Z) | MSend (o v timeout : Z) | MRecv (o timeout : Z)
  | MResume | MReset (o : Z) | MDetach (o : Z).

(** [again]: a thread went on after a wait. *)
Inductive event :=
  | ENone
  | EWake (x : Z) | EExpire (x : Z)
  | EDone (x : Z) (again : bool) (r : result)
  | EReset (o : Z).

Definition kernel_event (op : kop) : event :=
  match op with KResume x => EWake x | KTimeout x => EExpire x | _ => ENone end.

Definition run_mop (op : mop) : M mstate event :=
  match op with
  | MKernel op =>
      do! on_kern (run_kop op) in
      do! (match op with KTick => doM (fun s => with_tick (rt_tick s +u32 1) s) | _ => retM tt end) in
      retM (kernel_event op)
  | MInit o pool sz flag => do! rt_mb_init o pool sz flag in retM ENone
  | MSend o v timeout =>
      let! x := on_kern rt_thread_self in
      let! r := rt_mb_send_wait o v timeout in retM (EDone x false (Sent o v r))
  | MRecv o timeout =>
      let! x := on_kern rt_thread_self in
      let! r := rt_mb_recv o timeout in retM (EDone x false (Got o r))
  | MResume =>
      let! x := on_kern rt_thread_self in
      let! r := mb_resume x in retM (EDone x true r)
  | MReset o => do! rt_mb_reset_begin o in retM (EReset o)
  | MDetach o => do! rt_mb_detach o in retM ENone
  end.

Fixpoint run_mops (ops : list mop) : M mstate (list event) :=
  match ops with
  | [] => retM []
  | op :: r => let! e := run_mop op in let! tr := run_mops r in retM (e :: tr)
  end.

(* ------------------------------------------------------------------ *)
(** ** The contract

    A queue of mails; the threads that sleep on it as receivers and as senders
    ([rx], [tx]); those of them that were woken and have not run since ([rw],
    [tw]); the mail of each thread that is inside a send. *)
Module Box.

Record state := State {
  q : list Z; rx : list Z; rw : gset Z; tx : list Z; tw : gset Z; asked : Z -> option Z }.

Definition ask (x : Z) (v : option Z) (f : Z -> option Z) : Z -> option Z := fun y => if decide (y = x) then v else f y.

Inductive label :=
  | Post (x : Z) (again : bool) (v : Z) (r : option Z)
  | Get (x : Z) (again : bool) (r : option (Z * option Z))
  | Wake (x : Z) | Expire (x : Z) | Reset.

(** A call begins, or a woken thread goes on with it. *)
Inductive enter_post (x v : Z) : bool -> state -> state -> Prop :=
  | ep_first c : enter_post x v false c c
  | ep_again c : x ∈ tw c -> asked c x = Some v ->
      enter_post x v true c (State (q c) (rx c) (rw c) (tx c) (tw c ∖ {[x]}) (ask x None (asked c))).
Inductive enter_get (x : Z) : bool -> state -> state -> Prop :=
  | eg_first c : enter_get x false c c
  | eg_again c : x ∈ rw c -> enter_get x true c (State (q c) (rx c) (rw c ∖ {[x]}) (tx c) (tw c) (asked c)).

(** The head of a list of sleeping threads joins the woken ones. *)
Definition rest (l : list Z) : list Z := match l with [] => [] | _ :: r => r end.
Definition woke (l : list Z) (w : gset Z) : gset Z := match l with [] => w | y :: _ => {[y]} ∪ w end.
Definition moved (x : Z) (l : list Z) (w : gset Z) : gset Z := if In_dec Z.eq_dec x l then {[x]} ∪ w else w.

Definition outside (x : Z) (c : state) : Prop :=
  ~ In x (rx c) /\ ~ In x (tx c) /\ x ∉ rw c /\ x ∉ tw c.

(** [n]: the capacity; [fifo]: the lists are in order of arrival. *)
Inductive step (n : Z) (fifo : bool) : label -> state -> state -> Prop :=
  | st_post x again v c c0 : enter_post x v again c c0 -> Z.of_nat (length (q c0)) < n ->
      step n fifo (Post x again v (Some RT_EOK)) c
        (State (q c0 ++ [v]) (rest (rx c0)) (woke (rx c0) (rw c0)) (tx c0) (tw c0) (asked c0))
  | st_full x again v c c0 : enter_post x v again c c0 -> Z.of_nat (length (q c0)) = n ->
      step n fifo (Post x again v (Some (- RT_EFULL))) c c0
  | st_wait_post x again v c c0 l1 l2 : enter_post x v again c c0 -> Z.of_nat (length (q c0)) = n ->
      outside x c0 -> tx c0 = l1 ++ l2 -> (fifo = true -> l2 = []) ->
      step n fifo (Post x again v None) c (State (q c0) (rx c0) (rw c0) (l1 ++ x :: l2) (tw c0) (ask x (Some v) (asked c0)))
  | st_post_error x v e c : outside x c -> asked c x = Some v -> e <> RT_EOK ->
      step n fifo (Post x true v (Some e)) c (State (q c) (rx c) (rw c) (tx c) (tw c) (ask x None (asked c)))
  | st_get x again v l c c0 : enter_get x again c c0 -> q c0 = v :: l ->
      step n fifo (Get x again (Some (RT_EOK, Some v))) c
        (State l (rx c0) (rw c0) (rest (tx c0)) (woke (tx c0) (tw c0)) (asked c0))
  | st_empty x again c c0 : enter_get x again c c0 -> q c0 = [] ->
      step n fifo (Get x again (Some (- RT_ETIMEOUT, None))) c c0
  | st_wait_get x again c c0 l1 l2 : enter_get x again c c0 -> q c0 = [] -> outside x c0 -> rx c0 = l1 ++ l2 ->
      (fifo = true -> l2 = []) ->
      step n fifo (Get x again None) c (State (q c0) (l1 ++ x :: l2) (rw c0) (tx c0) (tw c0) (asked c0))
  | st_get_error x e c : outside x c -> e <> RT_EOK -> step n fifo (Get x true (Some (e, None))) c c
  | st_wake x c : step n fifo (Wake x) c
      (State (q c) (unlink x (rx c)) (moved x (rx c) (rw c)) (unlink x (tx c)) (moved x (tx c) (tw c)) (asked c))
  | st_expire x c : step n fifo (Expire x) c (State (q c) (unlink x (rx c)) (rw c) (unlink x (tx c)) (tw c) (asked c))
  | st_reset c : step n fifo Reset c (State [] [] (rw c) [] (tw c) (asked c)).

Inductive run (n : Z) (fifo : bool) : list label -> state -> state -> Prop :=
  | run_nil a : run n fifo [] a a
  | run_cons l r a b c : step n fifo l a b -> run n fifo r b c -> run n fifo (l :: r) a c.

(** No wake-up is lost: while a receiver sleeps there are woken receivers for
    all the mails, while a sender sleeps woken senders for all the free places. *)
Record inv (n : Z) (c : state) : Prop := {
  iv_len : Z.of_nat (length (q c)) <= n;
  iv_rx : List.NoDup (rx c) /\ forall x, In x (rx c) -> x ∉ rw c;
  iv_tx : List.NoDup (tx c) /\ forall x, In x (tx c) -> x ∉ tw c;
  iv_receive : rx c <> [] -> Z.of_nat (length (q c)) <= Z.of_nat (base.size (rw c));
  iv_send : tx c <> [] -> n - Z.of_nat (length (q c)) <= Z.of_nat (base.size (tw c)) }.

Lemma size_add (x : Z) (w : gset Z) : x ∉ w -> base.size ({[x]} ∪ w) = S (base.size w).
Proof. intros Hx. rewrite size_union by set_solver. by rewrite size_singleton. Qed.

Lemma size_drop (x : Z) (w : gset Z) : x ∈ w -> base.size w = S (base.size (w ∖ {[x]})).
Proof. intros Hx. rewrite <- (size_add x) by set_solver. f_equal. apply set_eq. intros y. destruct (decide (y = x)); set_solver. Qed.

(** A list of sleeping threads disjoint from the woken ones, when its head or
    any of its threads is woken, and when a thread joins it. *)
Definition apart (l : list Z) (w : gset Z) : Prop := List.NoDup l /\ forall x, In x l -> x ∉ w.

Lemma apart_woke l w : apart l w -> apart (rest l) (woke l w).
Proof.
  intros [N D]. destruct l as [|y l]; cbn; [done|]. apply List.NoDup_cons_iff in N as [Hy N]. split; [done|].
  intros x Hx. cbn in D. apply not_elem_of_union. split; [|by apply D; right]. intros ->%elem_of_singleton. done.
Qed.

Lemma size_woke l w : apart l w -> l <> [] -> base.size (woke l w) = S (base.size w).
Proof. intros [_ D] Hl. destruct l as [|y l]; [done|]. cbn. apply size_add, D. by left. Qed.

Lemma apart_moved x l w : apart l w -> apart (unlink x l) (moved x l w).
Proof.
  intros [N D]. split; [by apply NoDup_unlink|]. intros y [Hy Hne]%in_unlink. unfold moved.
  destruct (In_dec Z.eq_dec x l); [|by apply D]. apply not_elem_of_union. split; [by intros ->%elem_of_singleton|by apply D].
Qed.

Lemma size_moved x l w : (base.size w <= base.size (moved x l w))%nat.
Proof. unfold moved. destruct (In_dec Z.eq_dec x l); [|done]. apply subseteq_size. set_solver. Qed.

Lemma apart_unlink x l w : apart l w -> apart (unlink x l) w.
Proof. intros [N D]. split; [by apply NoDup_unlink|]. intros y [Hy _]%in_unlink. by apply D. Qed.

Lemma apart_drop x l w : apart l w -> apart l (w ∖ {[x]}).
Proof. intros [N D]. split; [done|]. intros y Hy. specialize (D y Hy). set_solver. Qed.

Lemma apart_insert x l1 l2 w : apart (l1 ++ l2) w -> ~ In x (l1 ++ l2) -> x ∉ w -> apart (l1 ++ x :: l2) w.
Proof.
  intros [N D] Hx Hw. split; [by apply List.NoDup_Add with (a := x) (l := l1 ++ l2); [apply Add_app|]|].
  intros y Hy. apply in_app_iff in Hy as [Hy|[<-|Hy]]; [apply D, in_app_iff; by left|done|apply D, in_app_iff; by right].
Qed.

(** What is left of the bounds while a woken thread is running. *)
Lemma enter_post_inv n x v again c c0 : inv n c -> enter_post x v again c c0 ->
  q c0 = q c /\ rx c0 = rx c /\ rw c0 = rw c /\ tx c0 = tx c /\ apart (tx c) (tw c0) /\
  (tx c <> [] -> n - Z.of_nat (length (q c)) <= Z.of_nat (base.size (tw c0)) + 1).
Proof.
  intros [A1 A2 A3 A4 A5] H. destruct H as [|c Hx Ha]; cbn; split_and!; try done.
  - intros Ht. specialize (A5 Ht). lia.
  - by apply apart_drop.
  - intros Ht. specialize (A5 Ht). rewrite (size_drop x (tw c) Hx) in A5. lia.
Qed.

Lemma enter_get_inv n x again c c0 : inv n c -> enter_get x again c c0 ->
  q c0 = q c /\ rx c0 = rx c /\ tx c0 = tx c /\ tw c0 = tw c /\ apart (rx c) (rw c0) /\
  (rx c <> [] -> Z.of_nat (length (q c)) <= Z.of_nat (base.size (rw c0)) + 1).
Proof.
  intros [A1 A2 A3 A4 A5] H. destruct H as [|c Hx]; cbn; split_and!; try done.
  - intros Ht. specialize (A4 Ht). lia.
  - by apply apart_drop.
  - intros Ht. specialize (A4 Ht). rewrite (size_drop x (rw c) Hx) in A4. lia.
Qed.

Lemma unlink_nonempty x l : unlink x l <> [] -> l <> [].
Proof. by intros H ->. Qed.

Lemma step_inv n fifo l c c' : step n fifo l c c' -> inv n c -> inv n c'.
Proof.
  intros S H. pose proof H as [A1 A2 A3 A4 A5].
  destruct S as [x again v c c0 E Hn|x again v c c0 E Hn|x again v c c0 l1 l2 E Hn (O1 & O2 & O3 & O4) El Hf|x v e c Ho Ha He|
    x again v l c c0 E Eq|x again c c0 E Eq|x again c c0 l1 l2 E Eq (O1 & O2 & O3 & O4) El Hf|x e c Ho He|x c|x c|c];
  try (destruct (enter_post_inv n x v again c c0 H E) as (E1 & E2 & E3 & E4 & E5 & E6));
  try (destruct (enter_get_inv n x again c c0 H E) as (E1 & E2 & E3 & E4 & E5 & E6)); try done.
  - split; cbn [q rx rw tx tw]; rewrite ?length_app, ?E1, ?E2, ?E3, ?E4 in *; cbn [length]; try lia; try done.
    + by apply apart_woke.
    + intros Hr. assert (rx c <> []) as Hr' by (by destruct (rx c)). specialize (A4 Hr'). rewrite size_woke by done. lia.
    + intros Ht. specialize (E6 Ht). lia.
  - split; rewrite ?E1, ?E2, ?E3, ?E4 in *; try done. intros Ht. lia.
  - rewrite E4 in *. split; cbn [q rx rw tx tw]; rewrite ?E1, ?E2, ?E3 in *; try done; [|lia].
    rewrite El in *. by apply apart_insert.
  - rewrite E1 in Eq. rewrite Eq in *. cbn [length] in *.
    split; cbn [q rx rw tx tw]; rewrite ?E2, ?E3, ?E4 in *; try lia; try done.
    + by apply apart_woke.
    + intros Hr. specialize (E6 Hr). lia.
    + intros Hr. assert (tx c <> []) as Hr' by (by destruct (tx c)). specialize (A5 Hr'). rewrite size_woke by done. lia.
  - rewrite E1 in Eq. rewrite Eq in *. split; rewrite ?E1, ?E2, ?E3, ?E4, ?Eq in *; try done. cbn [length]. lia.
  - rewrite E2 in *. rewrite E1 in *. rewrite Eq in *. split; cbn [q rx rw tx tw]; rewrite ?E3, ?E4, ?Eq in *; try done; [|cbn [length]; lia].
    rewrite El in *. by apply apart_insert.
  - split; cbn [q rx rw tx tw]; try done; [by apply apart_moved..| |]; intros Hl%unlink_nonempty.
    + specialize (A4 Hl). pose proof (size_moved x (rx c) (rw c)). lia.
    + specialize (A5 Hl). pose proof (size_moved x (tx c) (tw c)). lia.
  - split; cbn [q rx rw tx tw]; try done; [by apply apart_unlink..| |]; intros Hl%unlink_nonempty; auto.
  - split; cbn [q rx rw tx tw length]; try done; [lia|split; [constructor|by intros x []]..].
Qed.

(** The mails posted and received, in order. *)
Definition posted (l : label) : list Z := match l with Post _ _ v (Some r) => if r =? RT_EOK then [v] else [] | _ => [] end.
Definition gotten (l : label) : list Z := match l with Get _ _ (Some (r, Some v)) => if r =? RT_EOK then [v] else [] | _ => [] end.
Definition no_reset (l : label) : Prop := match l with Reset => False | _ => True end.

Lemma in_order n fifo tr a b : run n fifo tr a b -> Forall no_reset tr ->
  q a ++ flat_map posted tr = flat_map gotten tr ++ q b.
Proof.
  induction 1 as [a|l r a b c S R IH]; intros F; cbn [flat_map]; [by rewrite app_nil_r|].
  apply Forall_cons in F as [Fl F]. specialize (IH F).
  assert (q a ++ posted l = gotten l ++ q b) as E; [|by rewrite app_assoc, E, <- !app_assoc, IH].
  assert (forall x v again c c0, enter_post x v again c c0 -> q c0 = q c) as Hp by (by intros ????? []).
  assert (forall x again c c0, enter_get x again c c0 -> q c0 = q c) as Hg by (by intros ???? []).
  destruct S as [x again v c0 c1 E Hn|x again v c0 c1 E Hn|x again v c0 c1 l1 l2 E Hn _ _ _|x v e c0 Ho Ha He|
    x again v l c0 c1 E Eq|x again c0 c1 E Eq|x again c0 c1 l1 l2 E Eq _ _ _|x e c0 Ho He|x c0|x c0|c0]; cbn in *;
    try (rewrite (Hp _ _ _ _ _ E) in * ); try (rewrite (Hg _ _ _ _ E) in * ); rewrite ?app_nil_r; try done.
  by rewrite (proj2 (Z.eqb_neq _ _) He), app_nil_r.
Qed.

End Box.

(* ------------------------------------------------------------------ *)
(** ** The ring *)

(** The mails of a mailbox, the oldest first. *)
Record ring (b : mailbox) (q : list Z) : Prop := {
  rg_pool : size b <= Z.of_nat (length (msg_pool b)); rg_size : is_u16 (size b);
  rg_entry : entry b = Z.of_nat (length q); rg_len : entry b <= size b;
  rg_out : 0 <= out_offset b < Z.max 1 (size b); rg_in : 0 <= in_offset b < Z.max 1 (size b);
  rg_in_out : 0 < size b -> in_offset b = (out_offset b + entry b) mod size b;
  rg_mails : forall i, (i < length q)%nat ->
    msg_pool b !! Z.to_nat ((out_offset b + Z.of_nat i) mod size b) = q !! i }.

Lemma ring_empty pool sz f : u16 sz <= Z.of_nat (length pool) -> ring (Mailbox pool (u16 sz) 0 0 0 f) [].
Proof.
  intros H. pose proof (u16_range sz) as Hu. split; cbn; unfold is_u16 in *; try lia.
  intros Hs. by rewrite Z.mod_0_l by lia.
Qed.

Lemma advance_spec o n : 0 <= o < n -> is_u16 n -> advance o n = (o + 1) mod n /\ 0 <= advance o n < n.
Proof.
  intros Ho Hn. unfold is_u16 in Hn. unfold advance. rewrite u16_small by (unfold is_u16; lia).
  destruct (Z.leb_spec n (o + 1)).
  - replace (o + 1) with n by lia. rewrite Z.mod_same by lia. lia.
  - rewrite Z.mod_small by lia. lia.
Qed.

Definition ring_push (v : Z) (b : mailbox) : mailbox :=
  Mailbox (<[Z.to_nat (in_offset b) := v]> (msg_pool b)) (size b) (u16 (entry b + 1)) (advance (in_offset b) (size b))
    (out_offset b) (mb_flag b).

Lemma ring_push_spec b q v : ring b q -> entry b < size b ->
  (Z.to_nat (in_offset b) < length (msg_pool b))%nat /\ entry b < RT_MB_ENTRY_MAX /\ ring (ring_push v b) (q ++ [v]).
Proof.
  intros [R1 R2 R3 R4 R5 R6 R7 R8] Hlt. unfold is_u16, RT_MB_ENTRY_MAX in *. pose proof R7 as R7'. specialize (R7' ltac:(lia)).
  destruct (advance_spec (in_offset b) (size b)) as [Ea Hr]; [lia|unfold is_u16; lia|].
  split; [lia|]. split; [lia|]. split; cbn [ring_push msg_pool size entry in_offset out_offset];
    rewrite ?length_insert, ?length_app, ?u16_small by (unfold is_u16; lia); cbn [length]; unfold is_u16; try lia.
  - intros _. rewrite Ea, R7', Z.add_mod_idemp_l by lia. f_equal. lia.
  - intros i Hi. destruct (decide (i = length q)) as [->|Hne].
    + rewrite <- R3, <- R7', list_lookup_insert_eq by lia. rewrite lookup_app_r by lia. by rewrite Nat.sub_diag.
    + rewrite list_lookup_insert_ne; [rewrite lookup_app_l by lia; apply R8; lia|]. rewrite R7'.
      intros E. apply Z2Nat.inj in E; try (apply Z.mod_pos_bound; lia).
      assert (0 <= Z.of_nat i < entry b) by lia.
      destruct (Z.lt_ge_cases (out_offset b + entry b) (size b)), (Z.lt_ge_cases (out_offset b + Z.of_nat i) (size b));
        rewrite ?(Z.mod_small (out_offset b + entry b)), ?(Z.mod_small (out_offset b + Z.of_nat i)) in E by lia; try lia;
        rewrite <- ?(Z_mod_plus_full (out_offset b + entry b) (-1)), <- ?(Z_mod_plus_full (out_offset b + Z.of_nat i) (-1)) in E;
        rewrite ?(Z.mod_small (out_offset b + entry b + -1 * size b)), ?(Z.mod_small (out_offset b + Z.of_nat i + -1 * size b)) in E by lia;
        rewrite ?(Z.mod_small (out_offset b + entry b)), ?(Z.mod_small (out_offset b + Z.of_nat i)) in E by lia; lia.
Qed.

Definition ring_pop (b : mailbox) : mailbox :=
  Mailbox (msg_pool b) (size b) (u16 (entry b - 1)) (in_offset b) (advance (out_offset b) (size b)) (mb_flag b).

Lemma ring_pop_spec b v q : ring b (v :: q) ->
  msg_pool b !! Z.to_nat (out_offset b) = Some v /\ 0 < entry b /\ ring (ring_pop b) q.
Proof.
  intros [R1 R2 R3 R4 R5 R6 R7 R8]. cbn [length] in *. unfold is_u16 in *. assert (0 < size b) as Hs by lia. specialize (R7 Hs).
  destruct (advance_spec (out_offset b) (size b)) as [Ea Hr]; [lia|unfold is_u16; lia|].
  pose proof (R8 0%nat ltac:(lia)) as R0. rewrite Z.add_0_r, Z.mod_small in R0 by lia.
  split; [done|]. split; [lia|]. split; cbn [ring_pop msg_pool size entry in_offset out_offset];
    rewrite ?u16_small by (unfold is_u16; lia); unfold is_u16; try lia.
  - intros _. rewrite Ea, Z.add_mod_idemp_l, R7 by lia. f_equal. lia.
  - intros i Hi. pose proof (R8 (S i) ltac:(lia)) as Ri. change ((v :: q) !! S i) with (q !! i) in Ri.
    rewrite Ea, Z.add_mod_idemp_l by lia. rewrite <- Ri. do 3 f_equal. lia.
Qed.

Lemma ring_nil b q : ring b q -> entry b = 0 -> q = [].
Proof. intros R E. rewrite (rg_entry _ _ R) in E. destruct q; [done|cbn in E; lia]. Qed.

Lemma ring_cons b q : ring b q -> entry b <> 0 -> exists v r, q = v :: r.
Proof. intros R E. rewrite (rg_entry _ _ R) in E. destruct q as [|v r]; [done|]. by exists v, r. Qed.

(* ------------------------------------------------------------------ *)
(** ** What happens to the threads inside a call *)

Definition call_list (c : call) : Z := match c with Sending o _ _ _ => senders o | Receiving o _ _ => receivers o end.
Definition call_obj (c : call) : Z := match c with Sending o _ _ _ | Receiving o _ _ => o end.

(* ------------------------------------------------------------------ *)
(** ** The invariant and the contract's view of the state *)

Lemma list_obj c c' : call_list c = call_list c' -> call_obj c = call_obj c'.
Proof. destruct c, c'; cbn; unfold receivers, senders; lia. Qed.

(** A thread inside the call [c]. *)
Definition inside (idle : Z) (s : mstate) (x : Z) (c : call) : Prop :=
  x <> idle /\ exists t, threads (kern s) !! x = Some t /\ live t /\
    (In x (lists (kern s) (Wait (call_list c))) -> error t = RT_EOK) /\
    (~ In x (lists (kern s) (Wait (call_list c))) -> timer_on t = false) /\
    (error t = RT_EOK -> is_Some (boxes s !! call_obj c)).

Record minv (idle : Z) (s : mstate) : Prop := {
  mi_kern : kinv idle (kern s);
  mi_box : forall o b, boxes s !! o = Some b -> flag_ok (mb_flag b) /\ exists q, ring b q;
  mi_wait : forall i x, In x (lists (kern s) (Wait i)) -> exists c, calls s !! x = Some c /\ call_list c = i;
  mi_call : forall x c, calls s !! x = Some c -> inside idle s x c }.

(** The thread [x] was woken from the list [i] and has not run since. *)
Definition woken (s : mstate) (i x : Z) : Prop :=
  (exists c, calls s !! x = Some c /\ call_list c = i) /\ ~ In x (lists (kern s) (Wait i)) /\
  exists t, threads (kern s) !! x = Some t /\ error t = RT_EOK.

(** The mail the thread [x] is sending to [o]. *)
Definition asking (s : mstate) (o x : Z) : option Z :=
  match calls s !! x with Some (Sending o' v _ _) => if o' =? o then Some v else None | _ => None end.

Record view (o : Z) (s : mstate) (c : Box.state) : Prop := {
  vw_ring : exists b, boxes s !! o = Some b /\ ring b (Box.q c);
  vw_rx : lists (kern s) (Wait (receivers o)) = Box.rx c; vw_tx : lists (kern s) (Wait (senders o)) = Box.tx c;
  vw_rw : forall x, x ∈ Box.rw c <-> woken s (receivers o) x; vw_tw : forall x, x ∈ Box.tw c <-> woken s (senders o) x;
  vw_asked : forall x, Box.asked c x = asking s o x }.

(** Only the kernel changes. *)
Definition in_call (s : mstate) (x i : Z) : Prop := exists c, calls s !! x = Some c /\ call_list c = i.

Lemma minv_fated idle W E s k : minv idle s -> kinv idle k -> fated (in_call s) W E (kern s) k ->
  (forall x, W x \/ ~ W x) -> (forall x, E x \/ ~ E x) -> minv idle (with_kern k s).
Proof.
  intros [A1 A2 A3 A4] Hk [F1 F2] DW DE. split; cbn [kern boxes calls with_kern]; try done; [by eauto|].
  intros x c Ec. destruct (A4 x c Ec) as (Hx & t & Et & Hv & H1 & H2 & H3). split; [done|].
  destruct (F2 x (call_list c) t ltac:(by exists c) Et Hv) as (t' & Et' & Hv' & FW & FE & FS). exists t'. split; [done|]. split; [done|].
  cbn [kern boxes with_kern]. destruct (DW x) as [HW|HW]; [|destruct (DE x) as [HE|HE]].
  - destruct (FW HW) as (B1 & B2 & B3 & B4). rewrite B3. by split_and!.
  - destruct (FE HE) as (B1 & B2 & B3 & B4). by split_and!.
  - destruct (FS HW HE) as (B1 & B2 & B3). rewrite B1, B2. split_and!; auto.
Qed.

(** ... as the mailbox [o] sees it. *)
Lemma woken_fated idle W E s k i x : minv idle s -> fated (in_call s) W E (kern s) k ->
  (forall x, W x \/ ~ W x) -> (forall x, E x \/ ~ E x) ->
  woken (with_kern k s) i x <-> woken s i x \/ W x /\ In x (lists (kern s) (Wait i)).
Proof.
  intros [A1 A2 A3 A4] [F1 F2] DW DE. unfold woken. cbn [kern calls with_kern].
  assert (forall c, calls s !! x = Some c -> call_list c = i ->
    (~ In x (lists k (Wait i)) /\ (exists t, threads k !! x = Some t /\ error t = RT_EOK)) <->
    (~ In x (lists (kern s) (Wait i)) /\ (exists t, threads (kern s) !! x = Some t /\ error t = RT_EOK)) \/ W x /\ In x (lists (kern s) (Wait i))) as Hc.
  { intros c Ec <-. destruct (A4 x c Ec) as (Hx & t & Et & Hv & H1 & H2 & H3).
    destruct (F2 x (call_list c) t ltac:(by exists c) Et Hv) as (t' & Et' & Hv' & FW & FE & FS).
    assert (forall P : Z -> Prop, (exists t0, threads k !! x = Some t0 /\ P (error t0)) <-> P (error t')) as X1.
    { intros P. split; [intros (t0 & E0 & ?); rewrite Et' in E0; by injection E0 as <-|by exists t']. }
    assert (forall P : Z -> Prop, (exists t0, threads (kern s) !! x = Some t0 /\ P (error t0)) <-> P (error t)) as X2.
    { intros P. split; [intros (t0 & E0 & ?); rewrite Et in E0; by injection E0 as <-|by exists t]. }
    rewrite (X1 (fun e => e = RT_EOK)), (X2 (fun e => e = RT_EOK)).
    destruct (DW x) as [HW|HW]; [|destruct (DE x) as [HE|HE]].
    - destruct (FW HW) as (B1 & B2 & B3 & B4). rewrite B3. tauto.
    - destruct (FE HE) as (B1 & B2 & B3 & B4). tauto.
    - destruct (FS HW HE) as (B1 & B2 & B3). rewrite B1, B2. tauto. }
  split.
  - intros ((c & Ec & El) & H). rewrite (Hc c Ec El) in H. destruct H as [H|H]; [left|by right]. split; [by exists c|done].
  - intros [((c & Ec & El) & H)|[HW Hin]].
    + split; [by exists c|]. apply (Hc c Ec El). by left.
    + destruct (A3 i x Hin) as (c & Ec & El). split; [by exists c|]. apply (Hc c Ec El). by right.
Qed.

Lemma view_fated idle W E s k o c rw tw : minv idle s -> view o s c -> fated (in_call s) W E (kern s) k ->
  (forall x, W x \/ ~ W x) -> (forall x, E x \/ ~ E x) ->
  (forall x, x ∈ rw <-> x ∈ Box.rw c \/ W x /\ In x (Box.rx c)) -> (forall x, x ∈ tw <-> x ∈ Box.tw c \/ W x /\ In x (Box.tx c)) ->
  view o (with_kern k s) (Box.State (Box.q c) (lists k (Wait (receivers o))) rw (lists k (Wait (senders o))) tw (Box.asked c)).
Proof.
  intros Hs [V1 V2 V3 V4 V5 V6] F DW DE Hr Ht. split; cbn [Box.q Box.rx Box.rw Box.tx Box.tw Box.asked kern boxes with_kern]; try done.
  - intros x. rewrite Hr, V4, <- V2. symmetry. by apply (woken_fated idle W E).
  - intros x. rewrite Ht, V5, <- V3. symmetry. by apply (woken_fated idle W E).
Qed.

Lemma receivers_senders o o' : receivers o <> senders o'.
Proof. unfold receivers, senders. lia. Qed.

(** Nobody is concerned: the view stays. *)
Lemma view_calm idle s k o c : minv idle s -> view o s c -> fated (in_call s) nobody nobody (kern s) k ->
  (forall i, lists k (Wait i) = lists (kern s) (Wait i)) -> view o (with_kern k s) c.
Proof.
  intros Hs V F Hl. pose proof (view_fated idle nobody nobody s k o c (Box.rw c) (Box.tw c) Hs V F nobody_dec nobody_dec) as H.
  rewrite !Hl, (vw_rx _ _ _ V), (vw_tx _ _ _ V) in H. destruct c as [q rx rw tx tw asked]. apply H; cbn; tauto.
Qed.

(* ------------------------------------------------------------------ *)
(** ** The parts of an operation *)

Lemma with_kern_id s : with_kern (kern s) s = s.
Proof. by destruct s. Qed.

Lemma box_kern_bind {A B} (m : M kernel A) (f : A -> M mstate B) s a k : m (kern s) = Some (a, k) ->
  bindM (on_kern m) f s = f a (with_kern k s).
Proof. intros E. unfold bindM, on_kern. by rewrite E. Qed.
Lemma box_eq {A} o b s (f : mailbox -> M mstate A) : boxes s !! o = Some b -> bindM (box_of o) f s = f b s.
Proof. intros E. unfold bindM, box_of. by rewrite E. Qed.
Lemma box_put_bind {A} o b s (f : unit -> M mstate A) : bindM (put_box o b) f s = f tt (with_boxes (<[o := b]> (boxes s)) s).
Proof. done. Qed.
Lemma box_me_eq {A} x s (f : Z -> M mstate A) : current (kern s) = Some x -> bindM (on_kern rt_thread_self) f s = f x s.
Proof. intros E. unfold bindM, on_kern, rt_thread_self. rewrite E. by destruct s. Qed.
Lemma box_th_eq {A} x t s (f : thread -> M mstate A) : threads (kern s) !! x = Some t -> bindM (on_kern (thread_of x)) f s = f t s.
Proof. intros E. unfold bindM, on_kern, thread_of. rewrite E. by destruct s. Qed.

(** The mailbox [o] when the head of the list [i] was woken. *)
Definition woke_at (i o : Z) (c : Box.state) : Box.state :=
  if decide (i = receivers o) then Box.State (Box.q c) (Box.rest (Box.rx c)) (Box.woke (Box.rx c) (Box.rw c)) (Box.tx c) (Box.tw c) (Box.asked c)
  else if decide (i = senders o) then Box.State (Box.q c) (Box.rx c) (Box.rw c) (Box.rest (Box.tx c)) (Box.woke (Box.tx c) (Box.tw c)) (Box.asked c)
  else c.

Lemma woke_at_nil i o s c : view o s c -> lists (kern s) (Wait i) = [] -> woke_at i o c = c.
Proof.
  intros V El. unfold woke_at. destruct (decide (i = receivers o)) as [->|]; [|destruct (decide (i = senders o)) as [->|]; [|done]].
  - rewrite (vw_rx _ _ _ V) in El. destruct c as [q rx rw tx tw asked]. cbn in *. by rewrite El.
  - rewrite (vw_tx _ _ _ V) in El. destruct c as [q rx rw tx tw asked]. cbn in *. by rewrite El.
Qed.

Section Ops.
Context (idle : Z).

Lemma wake_one_spec i s : minv idle s -> exists m k, wake_one i s = Some (m, with_kern k s) /\ minv idle (with_kern k s) /\
  current k = current (kern s) /\ forall o c, view o s c -> view o (with_kern k s) (woke_at i o c).
Proof.
  intros Hs. unfold wake_one, waiting. rewrite bindM_getM. cbn [fst snd]. destruct (lists (kern s) (Wait i)) as [|y q] eqn:El.
  { exists false, (kern s). rewrite with_kern_id. split_and!; try done. intros o c V. by rewrite (woke_at_nil i o s). }
  pose proof (mi_kern _ _ Hs) as Hk. destruct (hand_spec idle i y q (kern s) Hk El) as (k & E & Hk' & H).
  exists true, k. rewrite (box_kern_bind _ _ s tt k E). split; [done|].
  assert (In y (lists (kern s) (Wait i))) as Hy by (rewrite El; by left).
  assert (fated (in_call s) (eq y) nobody (kern s) k) as F.
  { apply (fated_handed _ i y q); [done| | |].
    - intros x j (c & Ec & <-) ->. destruct (mi_wait _ _ Hs i y Hy) as (c' & Ec' & <-). congruence.
    - rewrite <- El. by apply (kw_nodup _ _ _ (ki_wf _ _ Hk)).
    - intros t' Et'. destruct H as [_ _ _ _ _ (t & t2 & _ & Et2 & Hr & _)]. rewrite Et' in Et2. injection Et2 as <-.
      destruct (timer_on t') eqn:Et; [|done]. pose proof (ki_timer _ _ Hk' y t' Et' Et) as Hsu. by destruct Hr as [Hr|Hr]; rewrite Hr in Hsu. }
  split; [by apply (minv_fated idle (eq y) nobody); [..|apply eq_dec_or|apply nobody_dec]|]. split; [apply H|].
  intros o c V. assert (forall j, j <> i -> ~ In y (lists (kern s) (Wait j))) as Hne.
  { intros j Hj Hin. by apply Hj, (kw_wait1 _ _ _ (ki_wf _ _ Hk) j i y). }
  pose proof (fun rw tw => view_fated idle (eq y) nobody s k o c rw tw Hs V F (eq_dec_or y) nobody_dec) as Hv.
  unfold woke_at. destruct (decide (i = receivers o)) as [->|Hr]; [|destruct (decide (i = senders o)) as [->|Ht]].
  - rewrite (vw_rx _ _ _ V) in El. specialize (Hne (senders o) ltac:(intros ?; by apply (receivers_senders o o))).
    rewrite (hd_rest _ _ _ _ _ H), (hd_else _ _ _ _ _ H), (vw_tx _ _ _ V) in Hv by (intros ?; by apply (receivers_senders o o)).
    rewrite (vw_tx _ _ _ V) in Hne. rewrite El. cbn [Box.rest Box.woke]. apply Hv.
    + intros x. rewrite El, elem_of_union, elem_of_singleton. cbn. split; [intros [->|?]; auto|]. intros [?|[-> ?]]; auto.
    + intros x. split; [auto|]. by intros [?|[<- ?]].
  - rewrite (vw_tx _ _ _ V) in El. specialize (Hne (receivers o) ltac:(done)).
    rewrite (hd_rest _ _ _ _ _ H), (hd_else _ _ _ _ _ H), (vw_rx _ _ _ V) in Hv by done.
    rewrite (vw_rx _ _ _ V) in Hne. rewrite El. cbn [Box.rest Box.woke]. apply Hv.
    + intros x. split; [auto|]. by intros [?|[<- ?]].
    + intros x. rewrite El, elem_of_union, elem_of_singleton. cbn. split; [intros [->|?]; auto|]. intros [?|[-> ?]]; auto.
  - rewrite !(hd_else _ _ _ _ _ H), (vw_rx _ _ _ V), (vw_tx _ _ _ V) in Hv by done.
    specialize (Hv (Box.rw c) (Box.tw c)). destruct c as [q0 rx rw tx tw asked]. apply Hv; cbn.
    + intros x. split; [auto|]. intros [?|[<- ?]]; [done|]. destruct (Hne (receivers o) ltac:(done)). by rewrite (vw_rx _ _ _ V).
    + intros x. split; [auto|]. intros [?|[<- ?]]; [done|]. destruct (Hne (senders o) ltac:(done)). by rewrite (vw_tx _ _ _ V).
Qed.

(** The ring of [o] changes. *)
Definition requeue (q : list Z) (c : Box.state) : Box.state :=
  Box.State q (Box.rx c) (Box.rw c) (Box.tx c) (Box.tw c) (Box.asked c).

Lemma inside_boxes s b x c : (forall o, is_Some (boxes s !! o) -> is_Some (b !! o)) -> inside idle s x c -> inside idle (with_boxes b s) x c.
Proof. intros H (Hx & t & Et & Hv & H1 & H2 & H3). split; [done|]. exists t. do 4 (split; [done|]). intros He. apply H, H3, He. Qed.

Lemma put_spec o b' q s : minv idle s -> flag_ok (mb_flag b') -> ring b' q ->
  let s' := with_boxes (<[o := b']> (boxes s)) s in
  minv idle s' /\ (forall c, view o s c -> view o s' (requeue q c)) /\ (forall o' c, o' <> o -> view o' s c -> view o' s' c).
Proof.
  intros [A1 A2 A3 A4] Hf Hr s'. split_and!.
  - split; try done.
    + intros o' b. unfold s'. cbn [boxes with_boxes]. destruct (decide (o' = o)) as [->|Hne].
      * rewrite lookup_insert_eq. intros [= <-]. split; [done|]. by exists q.
      * rewrite lookup_insert_ne by done. apply A2.
    + intros x c Ec. apply (inside_boxes s); [|by apply A4]. intros o' [b0 E0]. destruct (decide (o' = o)) as [->|Hne].
      * rewrite lookup_insert_eq. by eexists.
      * rewrite lookup_insert_ne by done. by eexists.
  - intros c [V1 V2 V3 V4 V5 V6]. split; try done. exists b'. unfold s'. cbn [boxes with_boxes requeue Box.q]. by rewrite lookup_insert_eq.
  - intros o' c Ho [V1 V2 V3 V4 V5 V6]. split; try done. unfold s'. cbn [boxes with_boxes]. by rewrite lookup_insert_ne.
Qed.

(** The running thread, which is in no call, gets an error code. *)
Lemma set_error_spec x e s : minv idle s -> is_Some (threads (kern s) !! x) -> calls s !! x = None ->
  exists k, upd x (with_error e) (kern s) = Some (tt, k) /\ minv idle (with_kern k s) /\ noted x e (kern s) k /\
    forall o c, view o s c -> view o (with_kern k s) c.
Proof.
  intros Hs Ht Hc. destruct (note_spec idle x e (kern s) (mi_kern _ _ Hs) Ht) as (k & E & Hk & N). exists k.
  assert (fated (in_call s) nobody nobody (kern s) k) as F.
  { apply fated_others; [by rewrite (nt_lists _ _ _ _ N)|]. intros y i (c & Ec & _). apply (nt_others _ _ _ _ N). congruence. }
  split; [done|]. split; [by apply (minv_fated idle nobody nobody); [..|apply nobody_dec|apply nobody_dec]|]. split; [done|].
  intros o c V. apply (view_calm idle); [done|done|done|]. by rewrite (nt_lists _ _ _ _ N).
Qed.
Lemma running_outside x s o c : minv idle s -> running (kern s) x -> calls s !! x = None -> view o s c -> Box.outside x c.
Proof.
  intros Hs (t & _ & Et & Er) Hc V.
  assert (forall i, ~ In x (lists (kern s) (Wait i))) as Hn.
  { intros i. apply (not_waiting _ _ (kern s) x t i (ki_wf _ _ (mi_kern _ _ Hs)) Et). by rewrite Er. }
  split; [rewrite <- (vw_rx _ _ _ V); apply Hn|]. split; [rewrite <- (vw_tx _ _ _ V); apply Hn|].
  split; [rewrite (vw_rw _ _ _ V)|rewrite (vw_tw _ _ _ V)]; intros ((c' & Ec & _) & _); congruence.
Qed.

Definition entered (x : Z) (cl : call) (k : kernel) (s : mstate) : mstate := MState k (boxes s) (<[x := cl]> (calls s)) (rt_tick s).

Lemma woken_parked s k x cl flag j y : calls s !! x = None -> parked (call_list cl) x flag (kern s) k ->
  woken (entered x cl k s) j y <-> woken s j y.
Proof.
  intros Hc [P1 P2 P3 P4 (l1 & l2 & El & El' & Hx & _)]. unfold woken. cbn [calls kern entered].
  destruct (decide (y = x)) as [->|Hne].
  - rewrite lookup_insert_eq, Hc. split; intros ((c & Ec & Ej) & Hn & _); [|done]. injection Ec as <-. destruct Hn. rewrite <- Ej, El'.
    apply in_app_iff. right. by left.
  - rewrite lookup_insert_ne, P2 by done. assert (In y (lists k (Wait j)) <-> In y (lists (kern s) (Wait j))) as ->; [|done].
    destruct (decide (j = call_list cl)) as [->|Hj]; [|by rewrite P4]. rewrite El, El', !in_app_iff. cbn. split; [|tauto].
    intros [?|[?|?]]; auto. congruence.
Qed.

Lemma mb_wait_spec x flag time cl s t : minv idle s -> running (kern s) x -> x <> idle -> calls s !! x = None ->
  threads (kern s) !! x = Some t -> error t = RT_EOK -> flag_ok flag -> is_Some (boxes s !! call_obj cl) ->
  exists k, mb_wait (call_list cl) x flag time cl s = Some (tt, entered x cl k s) /\ minv idle (entered x cl k s) /\
    parked (call_list cl) x flag (kern s) k.
Proof.
  intros Hs Hr Hx Hc Et He Hf Hb.
  destruct (park_kernel idle (call_list cl) x flag time (kern s) (mi_kern _ _ Hs) Hr Hx Hf) as (k1 & k & E1 & E2 & Hk & P).
  exists k. unfold mb_wait. rewrite (box_kern_bind _ _ s tt k1 E1). split.
  { destruct (0 <? time); [rewrite (box_kern_bind _ _ (with_kern k1 s) tt k E2); by destruct s|].
    rewrite bindM_retM. cbn in E2. injection E2 as <-. by destruct s. }
  split; [|done]. destruct Hs as [A1 A2 A3 A4]. pose proof P as [P1 P2 (t0 & t' & Et0 & Et' & Hst & Het & _) P4 (l1 & l2 & El & El' & Hnx & _)].
  assert (In x (lists k (Wait (call_list cl)))) as Hin by (rewrite El'; apply in_app_iff; right; by left).
  assert (forall i y, y <> x -> In y (lists k (Wait i)) <-> In y (lists (kern s) (Wait i))) as Hl.
  { intros i y Hy. destruct (decide (i = call_list cl)) as [->|Hj]; [|by rewrite P4]. rewrite El, El', !in_app_iff. cbn. split; [|tauto].
    intros [?|[?|?]]; auto. congruence. }
  split; cbn [kern boxes calls entered]; try done.
  - intros i y Hiy. destruct (decide (y = x)) as [->|Hne].
    + exists cl. rewrite lookup_insert_eq. split; [done|]. by apply (kw_wait1 _ _ _ (ki_wf _ _ Hk) _ _ x).
    + rewrite lookup_insert_ne by done. apply A3. by apply Hl.
  - intros y c Ec. destruct (decide (y = x)) as [->|Hne].
    + rewrite lookup_insert_eq in Ec. injection Ec as <-. split; [done|]. exists t'. cbn [kern boxes entered]. split; [done|].
      split; [by rewrite Hst|]. rewrite Het. rewrite Et in Et0. injection Et0 as <-. split_and!; try done.
    + rewrite lookup_insert_ne in Ec by done. destruct (A4 y c Ec) as (Hy & ty & Ety & Hv & H1 & H2 & H3). split; [done|].
      exists ty. cbn [kern boxes entered]. rewrite P2, Hl by done. done.
Qed.

(** ... as the mailboxes see it. *)
Lemma view_entered x flag cl s k o c : minv idle s -> calls s !! x = None -> parked (call_list cl) x flag (kern s) k -> view o s c ->
  o <> call_obj cl -> view o (entered x cl k s) c.
Proof.
  intros Hs Hc P [V1 V2 V3 V4 V5 V6] Ho. pose proof (pk_wait _ _ _ _ _ P) as Hw.
  split; cbn [kern boxes entered]; try done.
  - rewrite Hw; [done|]. destruct cl; cbn in *; unfold receivers, senders; lia.
  - rewrite Hw; [done|]. destruct cl; cbn in *; unfold receivers, senders; lia.
  - intros y. by rewrite V4, (woken_parked s k x cl flag).
  - intros y. by rewrite V5, (woken_parked s k x cl flag).
  - intros y. rewrite V6. unfold asking. cbn [calls entered]. destruct (decide (y = x)) as [->|Hne]; [|by rewrite lookup_insert_ne].
    rewrite lookup_insert_eq, Hc. destruct cl; cbn in Ho; [|done]. by rewrite (proj2 (Z.eqb_neq _ _)) by congruence.
Qed.

Lemma view_receiving x flag o time d s k c : minv idle s -> calls s !! x = None -> parked (receivers o) x flag (kern s) k -> view o s c ->
  exists l1 l2, Box.rx c = l1 ++ l2 /\ (flag = RT_IPC_FLAG_FIFO -> l2 = []) /\
    view o (entered x (Receiving o time d) k s) (Box.State (Box.q c) (l1 ++ x :: l2) (Box.rw c) (Box.tx c) (Box.tw c) (Box.asked c)).
Proof.
  intros Hs Hc P [V1 V2 V3 V4 V5 V6]. pose proof P as [_ _ _ P4 (l1 & l2 & El & El' & Hnx & Hf & _)].
  exists l1, l2. rewrite <- V2. split_and!; [done|done|]. split; cbn [kern boxes entered Box.q Box.rx Box.rw Box.tx Box.tw Box.asked]; try done.
  - rewrite P4; [done|]. intros ?. by apply (receivers_senders o o).
  - intros y. by rewrite V4, (woken_parked s k x (Receiving o time d) flag).
  - intros y. by rewrite V5, (woken_parked s k x (Receiving o time d) flag).
  - intros y. rewrite V6. unfold asking. cbn [calls entered]. destruct (decide (y = x)) as [->|Hne]; [|by rewrite lookup_insert_ne].
    by rewrite lookup_insert_eq, Hc.
Qed.

Lemma view_sending x flag o v time d s k c : minv idle s -> calls s !! x = None -> parked (senders o) x flag (kern s) k -> view o s c ->
  exists l1 l2, Box.tx c = l1 ++ l2 /\ (flag = RT_IPC_FLAG_FIFO -> l2 = []) /\
    view o (entered x (Sending o v time d) k s)
      (Box.State (Box.q c) (Box.rx c) (Box.rw c) (l1 ++ x :: l2) (Box.tw c) (Box.ask x (Some v) (Box.asked c))).
Proof.
  intros Hs Hc P [V1 V2 V3 V4 V5 V6]. pose proof P as [_ _ _ P4 (l1 & l2 & El & El' & Hnx & Hf & _)].
  exists l1, l2. rewrite <- V3. split_and!; [done|done|]. split; cbn [kern boxes entered Box.q Box.rx Box.rw Box.tx Box.tw Box.asked]; try done.
  - rewrite P4; [done|apply receivers_senders].
  - intros y. by rewrite V4, (woken_parked s k x (Sending o v time d) flag).
  - intros y. by rewrite V5, (woken_parked s k x (Sending o v time d) flag).
  - intros y. unfold Box.ask, asking. cbn [calls entered]. destruct (decide (y = x)) as [->|Hne].
    + by rewrite lookup_insert_eq, Z.eqb_refl.
    + rewrite lookup_insert_ne by done. apply V6.
Qed.
(** *** Sending and receiving *)

(** The mailboxes keep their size and their order. *)
Definition same_box (b b' : mailbox) : Prop := size b' = size b /\ mb_flag b' = mb_flag b.

Definition kept (s s' : mstate) : Prop := forall o, match boxes s !! o with
  | Some b => exists b', boxes s' !! o = Some b' /\ same_box b b'
  | None => boxes s' !! o = None
  end.

Lemma box_kept_refl s s' : boxes s' = boxes s -> kept s s'.
Proof. intros E o. rewrite E. destruct (boxes s !! o) as [b|]; [by exists b|done]. Qed.

Lemma box_kept_trans s1 s2 s3 : kept s1 s2 -> kept s2 s3 -> kept s1 s3.
Proof.
  intros H1 H2 o. specialize (H1 o). specialize (H2 o). destruct (boxes s1 !! o) as [b|]; [|by rewrite H1 in H2].
  destruct H1 as (b1 & E1 & S1 & F1). rewrite E1 in H2. destruct H2 as (b2 & E2 & S2 & F2). exists b2. split; [done|]. split; congruence.
Qed.

Lemma kept_put o b b' s : boxes s !! o = Some b -> same_box b b' -> kept s (with_boxes (<[o := b']> (boxes s)) s).
Proof.
  intros Eb Hb o'. cbn [boxes with_boxes]. destruct (decide (o' = o)) as [->|Hne].
  - rewrite Eb, lookup_insert_eq. by exists b'.
  - rewrite lookup_insert_ne by done. destruct (boxes s !! o') as [b0|]; [by exists b0|done].
Qed.

Lemma view_ring o s c b : view o s c -> boxes s !! o = Some b -> ring b (Box.q c).
Proof. intros [(b' & E & R) _ _ _ _ _] Eb. rewrite Eb in E. by injection E as <-. Qed.

(** The other mailboxes see nothing. *)
Definition unseen (o : Z) (s s' : mstate) : Prop := forall o' c, o' <> o -> view o' s c -> view o' s' c.

(** The outcome of the part of a send or receive that begins in [s], for the
    thread [x]. *)
Definition send_done (o v x : Z) (r : option Z) (s s' : mstate) : Prop :=
  minv idle s' /\ kept s s' /\ unseen o s s' /\
  forall b again c c0, boxes s !! o = Some b -> view o s c0 -> Box.enter_post x v again c c0 ->
    exists c', Box.step (size b) (mb_flag b =? RT_IPC_FLAG_FIFO) (Box.Post x again v r) c c' /\ view o s' c'.

Definition recv_done (o x : Z) (r : option (Z * option Z)) (s s' : mstate) : Prop :=
  minv idle s' /\ kept s s' /\ unseen o s s' /\
  forall b again c c0, boxes s !! o = Some b -> view o s c0 -> Box.enter_get x again c c0 ->
    exists c', Box.step (size b) (mb_flag b =? RT_IPC_FLAG_FIFO) (Box.Get x again r) c c' /\ view o s' c'.

Lemma woke_at_other i o o' c : i = receivers o \/ i = senders o -> o' <> o -> woke_at i o' c = c.
Proof.
  intros Hi Ho. unfold woke_at. rewrite !decide_False; [done| |]; destruct Hi as [-> | ->]; unfold receivers, senders; lia.
Qed.

Lemma mb_store_spec o v x s b : minv idle s -> boxes s !! o = Some b -> entry b <> size b ->
  exists s', mb_store o v s = Some (RT_EOK, s') /\ send_done o v x (Some RT_EOK) s s'.
Proof.
  intros Hs Eb Hne. destruct (mi_box _ _ Hs o b Eb) as (Hf & q & R). pose proof (rg_len _ _ R).
  destruct (ring_push_spec b q v R ltac:(lia)) as (Hi & He & R'). unfold mb_store.
  rewrite (box_eq o b), (proj2 (Nat.ltb_lt _ _) Hi), (proj2 (Z.ltb_lt _ _) He) by done. cbn [negb]. rewrite box_put_bind. fold (ring_push v b).
  set (s1 := with_boxes (<[o := ring_push v b]> (boxes s)) s). destruct (put_spec o (ring_push v b) (q ++ [v]) s Hs Hf R') as (Hs1 & _ & Ho).
  destruct (wake_one_spec (receivers o) s1 Hs1) as (m & k & E & Hs2 & _ & Hv). rewrite (bindM_some _ _ _ _ _ E).
  eexists. split; [reflexivity|]. split; [done|]. split; [by apply (kept_put o b)|]. split.
  - intros o' c Hne' V. rewrite <- (woke_at_other (receivers o) o o' c) by auto. apply Hv. by apply Ho.
  - intros b0 again c c0 E0 V Hent. rewrite Eb in E0. injection E0 as <-. pose proof (view_ring o s c0 b V Eb) as R0.
    pose proof (rg_entry _ _ R0). eexists. split; [apply Box.st_post with (c0 := c0); [done|lia]|].
    destruct (put_spec o (ring_push v b) (Box.q c0 ++ [v]) s Hs Hf) as (_ & Hp & _); [by apply ring_push_spec; [|lia]|].
    specialize (Hv o _ (Hp c0 V)). unfold woke_at in Hv. by rewrite decide_True in Hv.
Qed.

Lemma mb_fetch_spec o x s b : minv idle s -> boxes s !! o = Some b -> entry b <> 0 ->
  exists v s', mb_fetch o s = Some (v, s') /\ recv_done o x (Some (RT_EOK, Some v)) s s'.
Proof.
  intros Hs Eb Hne. destruct (mi_box _ _ Hs o b Eb) as (Hf & q & R).
  destruct (ring_cons b q R Hne) as (v & r & ->). destruct (ring_pop_spec b v r R) as (Hv0 & He & R'). unfold mb_fetch.
  rewrite (box_eq o b), Hv0, (proj2 (Z.ltb_lt _ _) He) by done. rewrite box_put_bind. fold (ring_pop b).
  set (s1 := with_boxes (<[o := ring_pop b]> (boxes s)) s). destruct (put_spec o (ring_pop b) r s Hs Hf R') as (Hs1 & _ & Ho).
  destruct (wake_one_spec (senders o) s1 Hs1) as (m & k & E & Hs2 & _ & Hv). rewrite (bindM_some _ _ _ _ _ E).
  exists v. eexists. split; [reflexivity|]. split; [done|]. split; [by apply (kept_put o b)|]. split.
  - intros o' c Hne' V. rewrite <- (woke_at_other (senders o) o o' c) by auto. apply Hv. by apply Ho.
  - intros b0 again c c0 E0 V Hent. rewrite Eb in E0. injection E0 as <-. pose proof (view_ring o s c0 b V Eb) as R0.
    destruct (ring_cons b _ R0 Hne) as (v' & r' & Eq). rewrite Eq in R0. destruct (ring_pop_spec b v' r' R0) as (Hv' & _ & R2).
    rewrite Hv0 in Hv'. injection Hv' as <-. eexists. split; [by apply Box.st_get with (c0 := c0)|].
    destruct (put_spec o (ring_pop b) r' s Hs Hf R2) as (_ & Hp & _). specialize (Hv o _ (Hp c0 V)). unfold woke_at in Hv.
    rewrite decide_False, decide_True in Hv; [done|done|]. intros ?. by apply (receivers_senders o o).
Qed.

(** A thread that may wait: running, not the idle thread, in no call. *)
Definition can_wait (x : Z) (s : mstate) : Prop := running (kern s) x /\ x <> idle /\ calls s !! x = None.

Lemma running_after x e s k : running (kern s) x -> noted x e (kern s) k -> running k x /\ exists t, threads k !! x = Some t /\ error t = e.
Proof.
  intros Hr N. split; [by eapply running_noted|]. destruct (nt_thread _ _ _ _ N) as (_ & t & _ & Et & _ & He & _). by exists t.
Qed.

Lemma wait_start_eq {A} time s (f : Z -> M mstate A) : bindM (wait_start time) f s = f (if 0 <? time then rt_tick s else 0) s.
Proof. done. Qed.

Lemma mb_send_turn_spec o v time x s b : minv idle s -> boxes s !! o = Some b -> can_wait x s ->
  exists r s', mb_send_turn o v time s = Some (r, s') /\ send_done o v x r s s'.
Proof.
  intros Hs Eb (Hr & Hx & Hc). unfold mb_send_turn. rewrite (box_eq o b) by done. destruct (Z.eqb_spec (entry b) (size b)) as [Ef|Ef].
  2: { destruct (mb_store_spec o v x s b Hs Eb Ef) as (s' & E & H). exists (Some RT_EOK), s'. by rewrite (bindM_some _ _ _ _ _ E). }
  pose proof Hr as (t & Ec & Et & _). rewrite (box_me_eq x) by done.
  destruct (set_error_spec x RT_EOK s Hs ltac:(by exists t) Hc) as (k0 & E0 & Hs0 & N & Hv0). rewrite (box_kern_bind _ _ s tt k0 E0).
  assert (forall b0 c0, boxes s !! o = Some b0 -> view o s c0 -> Z.of_nat (length (Box.q c0)) = size b0) as Hfull.
  { intros b0 c0 E V. rewrite Eb in E. injection E as <-. pose proof (view_ring o s c0 b V Eb) as R. rewrite <- (rg_entry _ _ R). done. }
  destruct (Z.eqb_spec time 0) as [->|Ht].
  - eexists _, _. split; [reflexivity|]. split; [done|]. split; [by apply box_kept_refl|]. split; [by intros o' c _ V; apply Hv0|].
    intros b0 again c c0 E V Hent. exists c0. split; [|by apply Hv0]. apply Box.st_full; [done|by apply Hfull].
  - destruct (running_after x RT_EOK s k0 Hr N) as (Hr0 & t0 & Et0 & He0). destruct (mi_box _ _ Hs o b Eb) as (Hf & _).
    rewrite wait_start_eq. set (d := if 0 <? time then _ else 0). set (cl := Sending o v time d).
    destruct (mb_wait_spec x (mb_flag b) time cl (with_kern k0 s) t0 Hs0 Hr0 Hx Hc Et0 He0 Hf ltac:(by exists b)) as (k & E & Hs' & P).
    change (call_list cl) with (senders o) in E. rewrite (bindM_some _ _ _ _ _ E). eexists _, _. split; [reflexivity|].
    split; [done|]. split; [by apply box_kept_refl|]. split; [intros o' c Ho V; eapply view_entered; [done|done|exact P|by apply Hv0|done]|].
    intros b0 again c c0 Eb0 V Hent. pose proof (Hfull b0 c0 Eb0 V) as Hl. rewrite Eb in Eb0. injection Eb0 as <-.
    destruct (view_sending x (mb_flag b) o v time d (with_kern k0 s) k c0 Hs0 Hc P (Hv0 _ _ V)) as (l1 & l2 & El & Hl2 & V').
    eexists. split; [|exact V']. apply Box.st_wait_post with (l2 := l2); try done; [by apply (running_outside x s o)|].
    intros Hfi%Z.eqb_eq. by apply Hl2.
Qed.

Lemma mb_recv_turn_spec o time x s b : minv idle s -> boxes s !! o = Some b -> can_wait x s ->
  exists r s', mb_recv_turn o time s = Some (r, s') /\ recv_done o x r s s'.
Proof.
  intros Hs Eb (Hr & Hx & Hc). unfold mb_recv_turn. rewrite (box_eq o b) by done. destruct (Z.eqb_spec (entry b) 0) as [Ef|Ef].
  2: { destruct (mb_fetch_spec o x s b Hs Eb Ef) as (v & s' & E & H). exists (Some (RT_EOK, Some v)), s'. by rewrite (bindM_some _ _ _ _ _ E). }
  pose proof Hr as (t & Ec & Et & _). rewrite (box_me_eq x) by done.
  destruct (set_error_spec x RT_EOK s Hs ltac:(by exists t) Hc) as (k0 & E0 & Hs0 & N & Hv0). rewrite (box_kern_bind _ _ s tt k0 E0).
  assert (forall c0, view o s c0 -> Box.q c0 = []) as Hempty.
  { intros c0 V. apply (ring_nil b); [by apply (view_ring o s)|done]. }
  destruct (running_after x RT_EOK s k0 Hr N) as (Hr0 & t0 & Et0 & He0).
  destruct (Z.eqb_spec time 0) as [->|Ht].
  - destruct (set_error_spec x (- RT_ETIMEOUT) (with_kern k0 s) Hs0 ltac:(by exists t0) Hc) as (k1 & E1 & Hs1 & _ & Hv1).
    rewrite (box_kern_bind _ _ (with_kern k0 s) tt k1 E1). eexists _, _. split; [reflexivity|]. split; [done|]. split; [by apply box_kept_refl|].
    split; [by intros o' c _ V; apply Hv1, Hv0|]. intros b0 again c c0 E V Hent. exists c0. split; [|by apply Hv1, Hv0].
    apply Box.st_empty; [done|by apply Hempty].
  - destruct (mi_box _ _ Hs o b Eb) as (Hf & _). rewrite wait_start_eq. set (d := if 0 <? time then _ else 0). set (cl := Receiving o time d).
    destruct (mb_wait_spec x (mb_flag b) time cl (with_kern k0 s) t0 Hs0 Hr0 Hx Hc Et0 He0 Hf ltac:(by exists b)) as (k & E & Hs' & P).
    change (call_list cl) with (receivers o) in E. rewrite (bindM_some _ _ _ _ _ E). eexists _, _. split; [reflexivity|].
    split; [done|]. split; [by apply box_kept_refl|]. split; [intros o' c Ho V; eapply view_entered; [done|done|exact P|by apply Hv0|done]|].
    intros b0 again c c0 Eb0 V Hent. rewrite Eb in Eb0. injection Eb0 as <-.
    destruct (view_receiving x (mb_flag b) o time d (with_kern k0 s) k c0 Hs0 Hc P (Hv0 _ _ V)) as (l1 & l2 & El & Hl2 & V').
    eexists. split; [|exact V']. apply Box.st_wait_get with (l2 := l2); try done; [by apply Hempty|by apply (running_outside x s o)|].
    intros Hfi%Z.eqb_eq. by apply Hl2.
Qed.
(** *** A thread goes on with its call *)

Definition gone_on (x : Z) (s : mstate) : mstate := with_calls (delete x (calls s)) s.

Lemma woken_left x s j y : woken (gone_on x s) j y <-> y <> x /\ woken s j y.
Proof.
  unfold woken, gone_on. cbn [calls kern with_calls]. destruct (decide (y = x)) as [->|Hne].
  - rewrite lookup_delete_eq. split; [by intros ((c & Ec & _) & _)|by intros [? _]].
  - rewrite lookup_delete_ne by done. tauto.
Qed.

Lemma minv_left x s : minv idle s -> running (kern s) x -> minv idle (gone_on x s).
Proof.
  intros [A1 A2 A3 A4] (t & _ & Et & Er). split; try done.
  - intros i y Hin. destruct (decide (y = x)) as [->|Hne].
    + destruct (not_waiting _ _ (kern s) x t i (ki_wf _ _ A1) Et ltac:(by rewrite Er) Hin).
    + unfold gone_on. cbn [calls with_calls]. rewrite lookup_delete_ne by done. by apply A3.
  - intros y c Ec. unfold gone_on in Ec. cbn [calls with_calls] in Ec. destruct (decide (y = x)) as [->|Hne]; [by rewrite lookup_delete_eq in Ec|].
    rewrite lookup_delete_ne in Ec by done. by destruct (A4 y c Ec) as (? & ?).
Qed.

Lemma asking_left x s o y : asking (gone_on x s) o y = if decide (y = x) then None else asking s o y.
Proof.
  unfold asking, gone_on. cbn [calls with_calls]. destruct (decide (y = x)) as [->|Hne]; [by rewrite lookup_delete_eq|by rewrite lookup_delete_ne].
Qed.

Lemma unseen_left x s cl : calls s !! x = Some cl -> unseen (call_obj cl) s (gone_on x s).
Proof.
  intros Ec o c Ho [V1 V2 V3 V4 V5 V6].
  assert (forall j, j = receivers o \/ j = senders o -> ~ woken s j x) as Hn.
  { intros j Hj ((c' & Ec' & El) & _). rewrite Ec in Ec'. injection Ec' as <-. apply Ho. destruct cl; cbn in *; unfold receivers, senders in *; lia. }
  split; try done.
  - intros y. rewrite V4, woken_left. split; [|tauto]. intros H. split; [|done]. intros ->. destruct (Hn (receivers o)); auto.
  - intros y. rewrite V5, woken_left. split; [|tauto]. intros H. split; [|done]. intros ->. destruct (Hn (senders o)); auto.
  - intros y. rewrite V6, asking_left. destruct (decide (y = x)) as [->|]; [|done]. unfold asking. rewrite Ec.
    destruct cl as [o' v t d|]; [|done]. cbn in Ho. by rewrite (proj2 (Z.eqb_neq _ _)) by congruence.
Qed.

(** The mailbox of a sender and of a receiver that goes on. *)
Lemma left_sender x s o v time d c : minv idle s -> running (kern s) x -> calls s !! x = Some (Sending o v time d) -> view o s c ->
  (forall t, threads (kern s) !! x = Some t -> error t = RT_EOK -> x ∈ Box.tw c) /\
  (forall t, threads (kern s) !! x = Some t -> error t <> RT_EOK -> Box.outside x c) /\
  Box.asked c x = Some v /\ view o (gone_on x s)
    (Box.State (Box.q c) (Box.rx c) (Box.rw c) (Box.tx c) (Box.tw c ∖ {[x]}) (Box.ask x None (Box.asked c))).
Proof.
  intros Hs (t0 & _ & Et0 & Er) Ec V. pose proof V as [V1 V2 V3 V4 V5 V6].
  assert (forall i, ~ In x (lists (kern s) (Wait i))) as Hn.
  { intros i. apply (not_waiting _ _ (kern s) x t0 i (ki_wf _ _ (mi_kern _ _ Hs)) Et0). by rewrite Er. }
  assert (~ woken s (receivers o) x) as Hr.
  { intros ((c' & Ec' & El) & _). rewrite Ec in Ec'. injection Ec' as <-. cbn in El. by apply (receivers_senders o o). }
  split_and!.
  - intros t Et He. apply V5. split; [by exists (Sending o v time d)|]. split; [apply Hn|]. by exists t.
  - intros t Et He. split; [rewrite <- V2; apply Hn|]. split; [rewrite <- V3; apply Hn|]. split; [by rewrite V4|].
    rewrite V5. intros (_ & _ & t' & Et' & He'). congruence.
  - rewrite V6. unfold asking. by rewrite Ec, Z.eqb_refl.
  - split; cbn [Box.q Box.rx Box.rw Box.tx Box.tw Box.asked]; try done.
    + intros y. rewrite V4, woken_left. split; [|tauto]. intros H. split; [|done]. by intros ->.
    + intros y. rewrite elem_of_difference, not_elem_of_singleton, V5, woken_left. tauto.
    + intros y. rewrite asking_left. unfold Box.ask. by destruct (decide (y = x)).
Qed.

Lemma left_receiver x s o time d c : minv idle s -> running (kern s) x -> calls s !! x = Some (Receiving o time d) -> view o s c ->
  (forall t, threads (kern s) !! x = Some t -> error t = RT_EOK -> x ∈ Box.rw c) /\
  (forall t, threads (kern s) !! x = Some t -> error t <> RT_EOK -> Box.outside x c) /\
  view o (gone_on x s) (Box.State (Box.q c) (Box.rx c) (Box.rw c ∖ {[x]}) (Box.tx c) (Box.tw c) (Box.asked c)).
Proof.
  intros Hs (t0 & _ & Et0 & Er) Ec V. pose proof V as [V1 V2 V3 V4 V5 V6].
  assert (forall i, ~ In x (lists (kern s) (Wait i))) as Hn.
  { intros i. apply (not_waiting _ _ (kern s) x t0 i (ki_wf _ _ (mi_kern _ _ Hs)) Et0). by rewrite Er. }
  assert (~ woken s (senders o) x) as Hr.
  { intros ((c' & Ec' & El) & _). rewrite Ec in Ec'. injection Ec' as <-. cbn in El. by apply (receivers_senders o o). }
  split_and!.
  - intros t Et He. apply V4. split; [by exists (Receiving o time d)|]. split; [apply Hn|]. by exists t.
  - intros t Et He. split; [rewrite <- V2; apply Hn|]. split; [rewrite <- V3; apply Hn|]. split; [|by rewrite V5].
    rewrite V4. intros (_ & _ & t' & Et' & He'). congruence.
  - split; cbn [Box.q Box.rx Box.rw Box.tx Box.tw Box.asked]; try done.
    + intros y. rewrite elem_of_difference, not_elem_of_singleton, V4, woken_left. tauto.
    + intros y. rewrite V5, woken_left. split; [|tauto]. intros H. split; [|done]. by intros ->.
    + intros y. rewrite asking_left, V6. destruct (decide (y = x)) as [->|]; [|done]. unfold asking. by rewrite Ec.
Qed.

(** Without a thread among the woken ones, taking it out changes nothing. *)
Lemma drop_none (x : Z) (w : gset Z) : x ∉ w -> w ∖ {[x]} = w.
Proof. set_solver. Qed.

Lemma unseen_trans o s1 s2 s3 : unseen o s1 s2 -> unseen o s2 s3 -> unseen o s1 s3.
Proof. intros H1 H2 o' c Ho V. apply H2; [done|]. by apply H1. Qed.

(** The contract's labels of an event. *)
Definition labels (o : Z) (e : event) : list Box.label :=
  match e with
  | EWake x => [Box.Wake x]
  | EExpire x => [Box.Expire x]
  | EDone x again (Sent o' v r) => if o' =? o then [Box.Post x again v r] else []
  | EDone x again (Got o' r) => if o' =? o then [Box.Get x again r] else []
  | EReset o' => if o' =? o then [Box.Reset] else []
  | ENone => []
  end.

(** What the mailboxes see of the step [s], [e], [s']. *)
Definition seen (s : mstate) (e : event) (s' : mstate) (o : Z) : Prop := forall b c, boxes s !! o = Some b -> view o s c ->
  exists c', view o s' c' /\ Box.run (size b) (mb_flag b =? RT_IPC_FLAG_FIFO) (labels o e) c c'.

Lemma seen_one s e s' o b c c' l : boxes s !! o = Some b -> view o s' c' -> labels o e = [l] ->
  Box.step (size b) (mb_flag b =? RT_IPC_FLAG_FIFO) l c c' ->
  exists c', view o s' c' /\ Box.run (size b) (mb_flag b =? RT_IPC_FLAG_FIFO) (labels o e) c c'.
Proof. intros Eb V El S. exists c'. rewrite El. split; [done|]. by eapply Box.run_cons; [exact S|constructor]. Qed.

Lemma seen_none s e s' o : labels o e = [] -> (forall c, view o s c -> view o s' c) -> seen s e s' o.
Proof. intros El H b c _ V. exists c. rewrite El. split; [by apply H|constructor]. Qed.

(** The outcomes of sends and receives as steps. *)
Lemma sent_seen o v x r s s1 s' again : kept s s1 -> unseen o s s1 -> send_done o v x r s1 s' ->
  (forall b c, boxes s !! o = Some b -> view o s c -> boxes s1 !! o = Some b /\ exists c0, view o s1 c0 /\ Box.enter_post x v again c c0) ->
  forall o', seen s (EDone x again (Sent o v r)) s' o'.
Proof.
  intros K U (Hs' & K' & U' & H) Hent o'. destruct (decide (o' = o)) as [->|Hne].
  - intros b c Eb V. destruct (Hent b c Eb V) as (Eb1 & c0 & V0 & E). destruct (H b again c c0 Eb1 V0 E) as (c' & S & V').
    eapply seen_one; [done|exact V'|cbn; by rewrite Z.eqb_refl|done].
  - apply seen_none; [cbn; by rewrite (proj2 (Z.eqb_neq _ _)) by congruence|]. intros c V. apply U'; [done|]. by apply U.
Qed.

Lemma got_seen o x r s s1 s' again : kept s s1 -> unseen o s s1 -> recv_done o x r s1 s' ->
  (forall b c, boxes s !! o = Some b -> view o s c -> boxes s1 !! o = Some b /\ exists c0, view o s1 c0 /\ Box.enter_get x again c c0) ->
  forall o', seen s (EDone x again (Got o r)) s' o'.
Proof.
  intros K U (Hs' & K' & U' & H) Hent o'. destruct (decide (o' = o)) as [->|Hne].
  - intros b c Eb V. destruct (Hent b c Eb V) as (Eb1 & c0 & V0 & E). destruct (H b again c c0 Eb1 V0 E) as (c' & S & V').
    eapply seen_one; [done|exact V'|cbn; by rewrite Z.eqb_refl|done].
  - apply seen_none; [cbn; by rewrite (proj2 (Z.eqb_neq _ _)) by congruence|]. intros c V. apply U'; [done|]. by apply U.
Qed.

Definition step_ok (op : mop) (s : mstate) : Prop := exists e s', run_mop op s = Some (e, s') /\ minv idle s' /\ kept s s' /\
  forall o, seen s e s' o.

Lemma mop_resume s x cl : minv idle s -> running (kern s) x -> calls s !! x = Some cl -> step_ok MResume s.
Proof.
  intros Hs Hr Ec. pose proof Hr as (t & Ecur & Et & _). destruct (mi_call _ _ Hs x cl Ec) as (Hx & t' & Et' & _ & _ & _ & Hb).
  rewrite Et in Et'. injection Et' as <-. pose proof (minv_left x s Hs Hr) as Hs1. pose proof (unseen_left x s cl Ec) as U.
  assert (kept s (gone_on x s)) as K by (by apply box_kept_refl).
  assert (can_wait x (gone_on x s)) as Hw by (split_and!; [done|done|apply lookup_delete_eq]).
  unfold step_ok. cbn [run_mop]. rewrite (box_me_eq x) by done. unfold mb_resume, bindM at 1. rewrite Ec. rewrite (box_th_eq x t) by done. rewrite bindM_doM.
  fold (gone_on x s). destruct cl as [o v time d|o time d]; cbn [call_obj] in *; destruct (Z.eqb_spec (error t) RT_EOK) as [He|He]; cbn [negb].
  - destruct (Hb He) as [b Eb]. destruct (mb_send_turn_spec o v (time_left time d (rt_tick s)) x (gone_on x s) b Hs1 Eb Hw) as (r & s' & E & D).
    rewrite (bindM_some _ _ _ _ _ E). cbn [retM]. eexists _, s'. split; [reflexivity|]. split; [apply D|]. split; [eapply box_kept_trans; [exact K|apply D]|].
    apply (sent_seen o v x r s (gone_on x s) s' true K U D). intros b0 c Eb0 V. split; [done|].
    destruct (left_sender x s o v time d c Hs Hr Ec V) as (L1 & _ & L3 & L4). eexists. split; [exact L4|]. constructor; [by apply (L1 t)|done].
  - cbn [retM]. eexists _, (gone_on x s). split; [reflexivity|]. split; [done|]. split; [done|]. intros o'. destruct (decide (o' = o)) as [->|Hne].
    2: { apply seen_none; [cbn; by rewrite (proj2 (Z.eqb_neq _ _)) by congruence|]. intros c V. by apply U. }
    intros b c Eb V. destruct (left_sender x s o v time d c Hs Hr Ec V) as (_ & L2 & L3 & L4). pose proof (L2 t Et He) as Ho.
    rewrite (drop_none x (Box.tw c)) in L4 by apply Ho. eapply seen_one; [done|exact L4|cbn; by rewrite Z.eqb_refl|]. by apply Box.st_post_error.
  - destruct (Hb He) as [b Eb]. destruct (mb_recv_turn_spec o (time_left time d (rt_tick s)) x (gone_on x s) b Hs1 Eb Hw) as (r & s' & E & D).
    rewrite (bindM_some _ _ _ _ _ E). cbn [retM]. eexists _, s'. split; [reflexivity|]. split; [apply D|]. split; [eapply box_kept_trans; [exact K|apply D]|].
    apply (got_seen o x r s (gone_on x s) s' true K U D). intros b0 c Eb0 V. split; [done|].
    destruct (left_receiver x s o time d c Hs Hr Ec V) as (L1 & _ & L4). eexists. split; [exact L4|]. constructor. by apply (L1 t).
  - cbn [retM]. eexists _, (gone_on x s). split; [reflexivity|]. split; [done|]. split; [done|]. intros o'. destruct (decide (o' = o)) as [->|Hne].
    2: { apply seen_none; [cbn; by rewrite (proj2 (Z.eqb_neq _ _)) by congruence|]. intros c V. by apply U. }
    intros b c Eb V. destruct (left_receiver x s o time d c Hs Hr Ec V) as (_ & L2 & L4). pose proof (L2 t Et He) as Ho.
    rewrite (drop_none x (Box.rw c)) in L4 by apply Ho. destruct c as [q rx rw tx tw asked].
    eapply seen_one; [done|exact L4|cbn; by rewrite Z.eqb_refl|]. by apply Box.st_get_error.
Qed.
(** *** The other operations *)

Lemma waits_dec s x : minv idle s -> waits (kern s) x \/ ~ waits (kern s) x.
Proof.
  intros Hs. destruct (calls s !! x) as [c|] eqn:Ec.
  - destruct (In_dec Z.eq_dec x (lists (kern s) (Wait (call_list c)))) as [H|H]; [left; by eexists|right].
    intros [i Hi]. destruct (mi_wait _ _ Hs i x Hi) as (c' & Ec' & <-). rewrite Ec in Ec'. by injection Ec' as <-.
  - right. intros [i Hi]. destruct (mi_wait _ _ Hs i x Hi) as (c' & Ec' & _). congruence.
Qed.

Lemma resumes_dec op s : minv idle s -> forall x, resumes op (kern s) x \/ ~ resumes op (kern s) x.
Proof.
  intros Hs x. destruct (waits_dec s x Hs) as [H|H]; [|right; by intros [_ ?]].
  destruct op as [| | | | | | | |y p n|y|y p|y|y|y|y]; try (right; intros [? _]; done).
  destruct (Z.eq_dec y x) as [->|Hne]; [by left|right]. intros [[= ->] _]. done.
Qed.

Lemma in_call_list s x i : minv idle s -> in_call s x i -> (forall j, In x (lists (kern s) (Wait j)) -> j = i) /\
  forall t, threads (kern s) !! x = Some t -> ~ In x (lists (kern s) (Wait i)) -> timer_on t = false.
Proof.
  intros Hs (c & Ec & <-). split.
  - intros j Hj. destruct (mi_wait _ _ Hs j x Hj) as (c' & Ec' & <-). congruence.
  - intros t Et Hn. destruct (mi_call _ _ Hs x c Ec) as (_ & t' & Et' & _ & _ & H & _). rewrite Et in Et'. injection Et' as <-. by apply H.
Qed.

(** The time goes by. *)
Lemma minv_tick n s : minv idle s -> minv idle (with_tick n s).
Proof. by intros [A1 A2 A3 A4]. Qed.

Lemma view_tick n s o c : view o s c -> view o (with_tick n s) c.
Proof. intros [V1 V2 V3 V4 V5 V6]. by split. Qed.

Definition after_kop (op : kop) (k : kernel) (s : mstate) : mstate :=
  match op with KTick => with_tick (rt_tick s +u32 1) (with_kern k s) | _ => with_kern k s end.

Lemma run_kop_eq op k s : run_kop op (kern s) = Some (tt, k) -> run_mop (MKernel op) s = Some (kernel_event op, after_kop op k s).
Proof. intros E. cbn [run_mop]. rewrite (box_kern_bind _ _ s tt k E). by destruct op. Qed.

Lemma elem_moved (x y : Z) l w : y ∈ Box.moved x l w <-> y ∈ w \/ y = x /\ In y l.
Proof.
  unfold Box.moved. destruct (In_dec Z.eq_dec x l) as [H|H].
  - rewrite elem_of_union, elem_of_singleton. split; [intros [->|?]; auto|]. intros [?|[-> ?]]; auto.
  - split; [auto|]. by intros [?|[-> ?]].
Qed.

Lemma mop_kernel op s : minv idle s -> kop_ok idle op (kern s) -> kop_free (in_call s) op (kern s) -> step_ok (MKernel op) s.
Proof.
  intros Hs Ho Hf. pose proof (mi_kern _ _ Hs) as Hk. destruct (kop_spec idle op (kern s) Hk Ho) as (k & E & Hk' & F).
  pose proof (fated_kop idle (in_call s) op (kern s) k Hk Ho E Hf (fun x i => in_call_list s x i Hs)) as Fa.
  pose proof (minv_fated idle _ _ s k Hs Hk' Fa (resumes_dec op s Hs) (expires_dec op)) as Hs'.
  exists (kernel_event op), (after_kop op k s). split; [by apply run_kop_eq|]. split; [destruct op; try done; by apply minv_tick|].
  split; [apply box_kept_refl; by destruct op|].
  pose proof (fun o c rw tw V => view_fated idle _ _ s k o c rw tw Hs V Fa (resumes_dec op s Hs) (expires_dec op)) as Hv.
  pose proof (kf_wait _ _ _ _ F) as Hw.
  assert (forall o c, view o s c -> (forall x, ~ resumes op (kern s) x) -> (forall i, lists k (Wait i) = lists (kern s) (Wait i)) ->
    view o (with_kern k s) c) as Hsame.
  { intros o c V Hr Hl. specialize (Hv o c (Box.rw c) (Box.tw c) V). rewrite !Hl, (vw_rx _ _ _ V), (vw_tx _ _ _ V) in Hv.
    destruct c as [q rx rw tx tw asked]. apply Hv; cbn; intros x; (split; [auto|]); by intros [?|[HW%Hr _]]. }
  assert ((forall x, ~ resumes op (kern s) x) /\ (forall x, ~ expires op x) /\ kernel_event op = ENone /\
    (forall i, lists k (Wait i) = lists (kern s) (Wait i)) \/ (exists x, op = KResume x) \/ exists x, op = KTimeout x) as [H|[[x ->]|[x ->]]].
  { destruct op as [| | | | | | | |y p n|y|y p|y|y|y|y]; try (left; split_and!; [by intros x [? _]|by intros x [=]|done|exact Hw]); [eauto..| |eauto].
    left. split_and!; [by intros x [? _]|by intros x [=]|done|]. intros i. rewrite Hw. cbn. apply unlink_notin. intros Hin.
    destruct (mi_wait _ _ Hs i y Hin) as (c & Ec & El). by apply (Hf y i); [exists c|]. }
  - destruct H as (H1 & H2 & H3 & H4). intros o. apply seen_none; [by rewrite H3|]. intros c V.
    pose proof (Hsame o c V H1 H4) as V'. destruct op; try done. by apply view_tick.
  - intros o b c Eb V. eapply seen_one; [done| |done|apply Box.st_wake]. specialize (Hv o c (Box.moved x (Box.rx c) (Box.rw c)) (Box.moved x (Box.tx c) (Box.tw c)) V).
    rewrite !Hw, (vw_rx _ _ _ V), (vw_tx _ _ _ V) in Hv. apply Hv.
    + intros y. rewrite elem_moved. split; [|by intros [?|[[[= ->] _] ?]]; auto]. intros [?|[-> Hin]]; [by left|right].
      split; [|done]. split; [done|]. exists (receivers o). by rewrite (vw_rx _ _ _ V).
    + intros y. rewrite elem_moved. split; [|by intros [?|[[[= ->] _] ?]]; auto]. intros [?|[-> Hin]]; [by left|right].
      split; [|done]. split; [done|]. exists (senders o). by rewrite (vw_tx _ _ _ V).
  - intros o b c Eb V. eapply seen_one; [done| |done|apply Box.st_expire]. specialize (Hv o c (Box.rw c) (Box.tw c) V).
    rewrite !Hw, (vw_rx _ _ _ V), (vw_tx _ _ _ V) in Hv. apply Hv; intros y; (split; [auto|]); by intros [?|[[? _] _]].
Qed.

(** All the threads of a list are sent away. *)
Definition emptied (i o : Z) (c : Box.state) : Box.state :=
  Box.State (Box.q c) (if decide (i = receivers o) then [] else Box.rx c) (Box.rw c) (if decide (i = senders o) then [] else Box.tx c)
    (Box.tw c) (Box.asked c).

Lemma flush_spec i s : minv idle s -> exists k, rt_ipc_list_resume_all i (kern s) = Some (tt, k) /\ minv idle (with_kern k s) /\
  flushed i (kern s) k /\ fated (in_call s) nobody (fun x => In x (lists (kern s) (Wait i))) (kern s) k /\
  forall o c, view o s c -> view o (with_kern k s) (emptied i o c).
Proof.
  intros Hs. pose proof (mi_kern _ _ Hs) as Hk. destruct (list_resume_all_spec idle i (kern s) Hk) as (k & E & Hk' & F). exists k.
  assert (fated (in_call s) nobody (fun x => In x (lists (kern s) (Wait i))) (kern s) k) as Fa.
  { apply (fated_flushed idle); [done|done|]. intros x j Hc Hin. symmetry. by apply (in_call_list s x j Hs Hc). }
  assert (forall x, In x (lists (kern s) (Wait i)) \/ ~ In x (lists (kern s) (Wait i))) as D.
  { intros x. destruct (In_dec Z.eq_dec x (lists (kern s) (Wait i))); auto. }
  split; [done|]. split; [by apply (minv_fated idle nobody _ s k Hs Hk' Fa nobody_dec D)|]. split; [done|]. split; [done|].
  intros o c V. pose proof (view_fated idle nobody _ s k o c (Box.rw c) (Box.tw c) Hs V Fa nobody_dec D) as Hv. unfold emptied.
  assert (forall j, lists k (Wait j) = if decide (i = j) then [] else lists (kern s) (Wait j)) as Hl.
  { intros j. destruct (decide (i = j)) as [->|Hne]; [apply F|]. apply (fl_wait _ _ _ F). congruence. }
  rewrite !Hl, (vw_rx _ _ _ V), (vw_tx _ _ _ V) in Hv. apply Hv; intros x; tauto.
Qed.

Lemma emptied_other i o o' c : i = receivers o \/ i = senders o -> o' <> o -> emptied i o' c = c.
Proof.
  intros Hi Ho. unfold emptied. rewrite !decide_False; [by destruct c| |]; destruct Hi as [-> | ->]; unfold receivers, senders; lia.
Qed.

Lemma mop_reset o s : minv idle s -> is_Some (boxes s !! o) -> step_ok (MReset o) s.
Proof.
  intros Hs [b Eb]. destruct (mi_box _ _ Hs o b Eb) as (Hf & q & R).
  destruct (flush_spec (receivers o) s Hs) as (k1 & E1 & Hs1 & _ & _ & V1).
  destruct (flush_spec (senders o) _ Hs1) as (k2 & E2 & Hs2 & _ & _ & V2). set (s2 := with_kern k2 (with_kern k1 s)) in *.
  set (b' := Mailbox (msg_pool b) (size b) 0 0 0 (mb_flag b)).
  assert (ring b' []) as R'.
  { pose proof R as [R1 R2 R3 R4 R5 R6 R7 R8]. split; cbn; unfold is_u16 in *; try lia. intros H. by rewrite Z.mod_0_l by lia. }
  destruct (put_spec o b' [] s2 Hs2 Hf R') as (Hs3 & P1 & P2).
  exists (EReset o). eexists. split.
  { cbn [run_mop]. unfold rt_mb_reset_begin. rewrite bindM_assoc, (box_eq o b) by done.
    rewrite bindM_assoc, (box_kern_bind _ _ s tt k1 E1), bindM_assoc, (box_kern_bind _ _ _ tt k2 E2). reflexivity. }
  split; [exact Hs3|]. split; [by apply (kept_put o b b' s2)|].
  intros o'. destruct (decide (o' = o)) as [->|Hne].
  - intros b0 c Eb0 V. eapply seen_one; [done| |cbn; by rewrite Z.eqb_refl|apply Box.st_reset].
    specialize (P1 _ (V2 o _ (V1 o c V))). unfold requeue, emptied in P1. cbn [Box.q Box.rx Box.rw Box.tx Box.tw Box.asked] in P1.
    rewrite (decide_True (P := receivers o = receivers o)), (decide_True (P := senders o = senders o)) in P1 by done.
    destruct (decide (senders o = receivers o)), (decide (receivers o = senders o)); exact P1.
  - apply seen_none; [cbn; by rewrite (proj2 (Z.eqb_neq _ _)) by congruence|]. intros c V. apply P2; [done|].
    rewrite <- (emptied_other (senders o) o o' c), <- (emptied_other (receivers o) o o' c) by auto. apply V2, V1, V.
Qed.
Lemma unused_lists o s : minv idle s -> boxes s !! o = None -> forall i,
  i = receivers o \/ i = senders o -> lists (kern s) (Wait i) = [].
Proof.
  intros Hs En i Hi. destruct (lists (kern s) (Wait i)) as [|x l] eqn:El; [done|]. exfalso.
  assert (In x (lists (kern s) (Wait i))) as Hin by (rewrite El; by left).
  destruct (mi_wait _ _ Hs i x Hin) as (c & Ec & Ei). destruct (mi_call _ _ Hs x c Ec) as (_ & t & _ & _ & H1 & _ & H3).
  rewrite Ei in H1. destruct (H3 (H1 Hin)) as [b Eb]. assert (call_obj c = o) as Ho.
  { destruct c; cbn in *; destruct Hi as [-> | ->]; unfold receivers, senders in *; lia. }
  congruence.
Qed.

(** *** Beginning and end of a mailbox *)

(** A thread is in a state of the contract, and no wake-up is lost. *)
Definition fine (s : mstate) (o : Z) : Prop := forall b, boxes s !! o = Some b -> exists c, view o s c /\ Box.inv (size b) c.

Lemma not_woken s o i x : minv idle s -> boxes s !! o = None -> i = receivers o \/ i = senders o -> ~ woken s i x.
Proof.
  intros Hs En Hi ((c & Ec & El) & _ & t & Et & He). destruct (mi_call _ _ Hs x c Ec) as (_ & t' & Et' & _ & _ & _ & H3).
  rewrite Et in Et'. injection Et' as <-. destruct (H3 He) as [b Eb]. assert (call_obj c = o) as Ho.
  { destruct c; cbn in *; destruct Hi as [-> | ->]; unfold receivers, senders in *; lia. }
  congruence.
Qed.

Lemma mop_init o pool sz flag s : minv idle s -> boxes s !! o = None -> flag_ok flag -> u16 sz <= Z.of_nat (length pool) ->
  exists s', run_mop (MInit o pool sz flag) s = Some (ENone, s') /\ minv idle s' /\ boxes s' = <[o := Mailbox pool (u16 sz) 0 0 0 flag]> (boxes s) /\
    unseen o s s' /\ fine s' o.
Proof.
  intros Hs En Hf Hsz. pose proof (unused_lists o s Hs En) as Hl. pose proof (mi_kern _ _ Hs) as Hk.
  set (k1 := list_set (Wait (receivers o)) [] (kern s)). set (k2 := list_set (Wait (senders o)) [] k1).
  pose proof (list_set_nil (receivers o) (kern s) (Hl _ (or_introl eq_refl))) as L1.
  pose proof (list_set_nil (senders o) k1 ltac:(unfold k1; rewrite L1; auto)) as L2.
  assert (kinv idle k2) as Hk2.
  { apply kinv_list_nil; [apply kinv_list_nil; [done|auto]|]. fold k1. unfold k1. rewrite L1. auto. }
  assert (forall i, lists k2 (Wait i) = lists (kern s) (Wait i)) as Hw by (intros i; unfold k2; rewrite L2; unfold k1; by rewrite L1).
  assert (fated (in_call s) nobody nobody (kern s) k2) as F by (by apply fated_others).
  pose proof (minv_fated idle _ _ s k2 Hs Hk2 F nobody_dec nobody_dec) as Hs1.
  set (b := Mailbox pool (u16 sz) 0 0 0 flag). destruct (put_spec o b [] (with_kern k2 s) Hs1 Hf (ring_empty pool sz flag Hsz)) as (Hs2 & _ & Hu).
  exists (with_boxes (<[o := b]> (boxes s)) (with_kern k2 s)). split; [reflexivity|]. split; [exact Hs2|]. split; [done|]. split.
  { intros o' c Hne V. apply Hu; [done|]. by apply (view_calm idle). }
  intros b0 E0. cbn [boxes with_boxes] in E0. rewrite lookup_insert_eq in E0. injection E0 as <-.
  set (s2 := with_boxes _ _). assert (forall i x, i = receivers o \/ i = senders o -> ~ woken s2 i x) as Hnw.
  { intros i x Hi Hwk. apply (not_woken (with_kern k2 s) o i x Hs1 En Hi). exact Hwk. }
  exists (Box.State [] [] ∅ [] ∅ (asking s2 o)). split.
  - split; cbn [Box.q Box.rx Box.rw Box.tx Box.tw Box.asked]; try done.
    + exists b. split; [apply lookup_insert_eq|by apply ring_empty].
    + change (kern s2) with k2. rewrite Hw. auto.
    + change (kern s2) with k2. rewrite Hw. auto.
    + intros x. split; [set_solver|]. intros H. by destruct (Hnw (receivers o) x (or_introl eq_refl)).
    + intros x. split; [set_solver|]. intros H. by destruct (Hnw (senders o) x (or_intror eq_refl)).
  - pose proof (u16_range sz) as Hr. unfold is_u16 in Hr. split; cbn; try done; try lia; (split; [constructor|by intros x []]).
Qed.

(** A mailbox may be detached when no woken thread is about to use it. *)
Definition unused (o : Z) (s : mstate) : Prop := forall x c t, calls s !! x = Some c -> call_obj c = o ->
  threads (kern s) !! x = Some t -> In x (lists (kern s) (Wait (call_list c))) \/ error t <> RT_EOK.

Lemma unused_flush o s k i : minv idle s -> unused o s -> fated (in_call s) nobody (fun x => In x (lists (kern s) (Wait i))) (kern s) k ->
  unused o (with_kern k s).
Proof.
  intros Hs Hu [F1 F2] x c t Ec Ho Et. cbn [kern calls with_kern] in *. destruct (mi_call _ _ Hs x c Ec) as (_ & t0 & Et0 & Hv & _).
  destruct (F2 x (call_list c) t0 ltac:(by exists c) Et0 Hv) as (t' & Et' & _ & _ & FE & FS). rewrite Et in Et'. injection Et' as <-.
  destruct (In_dec Z.eq_dec x (lists (kern s) (Wait i))) as [Hin|Hin]; [right; by apply FE|].
  destruct (FS (fun H => H) Hin) as (B1 & B2 & _). rewrite B1, B2. by apply (Hu x c t0).
Qed.

Lemma mop_detach o s : minv idle s -> is_Some (boxes s !! o) -> unused o s ->
  exists s', run_mop (MDetach o) s = Some (ENone, s') /\ minv idle s' /\ boxes s' = delete o (boxes s) /\ unseen o s s'.
Proof.
  intros Hs [b Eb] Hu.
  destruct (flush_spec (receivers o) s Hs) as (k1 & E1 & Hs1 & F1 & Fa1 & V1). pose proof (unused_flush o s k1 _ Hs Hu Fa1) as Hu1.
  destruct (flush_spec (senders o) _ Hs1) as (k2 & E2 & Hs2 & F2 & Fa2 & V2). pose proof (unused_flush o _ k2 _ Hs1 Hu1 Fa2) as Hu2.
  set (s2 := with_kern k2 (with_kern k1 s)) in *. exists (with_boxes (delete o (boxes s)) s2).
  split.
  { cbn [run_mop]. unfold rt_mb_detach. rewrite bindM_assoc, (box_eq o b) by done.
    by rewrite bindM_assoc, (box_kern_bind _ _ s tt k1 E1), bindM_assoc, (box_kern_bind _ _ _ tt k2 E2). }
  assert (forall i, i = receivers o \/ i = senders o -> lists k2 (Wait i) = []) as Hl.
  { intros i [-> | ->]; [|apply F2]. rewrite (fl_wait _ _ _ F2) by (intros ?; by apply (receivers_senders o o)). apply F1. }
  split; [|split; [done|]].
  - destruct Hs2 as [A1 A2 A3 A4]. split; try done.
    + intros o' b' E'. cbn [boxes with_boxes] in E'. apply lookup_delete_Some in E' as [_ E']. by apply (A2 o').
    + intros x c Ec. destruct (A4 x c Ec) as (Hx & t & Et & Hv & H1 & H2 & H3). split; [done|]. exists t. do 4 (split; [done|]).
      intros He. cbn [boxes with_boxes]. destruct (decide (call_obj c = o)) as [Ho|Ho]; [|rewrite lookup_delete_ne by done; by apply H3].
      destruct (Hu2 x c t Ec Ho Et) as [Hin|?]; [|done]. exfalso. change (kern s2) with k2 in Hin. rewrite Hl in Hin; [done|].
      destruct c; cbn in *; subst; auto.
  - intros o' c Hne V. rewrite <- (emptied_other (senders o) o o' c), <- (emptied_other (receivers o) o o' c) by auto.
    pose proof (V2 o' _ (V1 o' c V)) as [W1 W2 W3 W4 W5 W6]. split; try done. cbn [boxes with_boxes]. by rewrite lookup_delete_ne.
Qed.

(** *** Sends and receives *)

Lemma unseen_refl o s : unseen o s s.
Proof. by intros ?. Qed.

Lemma current_of s : minv idle s -> exists x, current (kern s) = Some x.
Proof. intros Hs. destruct (ki_cur _ _ (mi_kern _ _ Hs)) as (x & t & E & _). by exists x. Qed.

Lemma sent_step o v time s b x r s' : minv idle s -> boxes s !! o = Some b -> current (kern s) = Some x ->
  rt_mb_send_wait o v time s = Some (r, s') -> send_done o v x r s s' -> step_ok (MSend o v time) s.
Proof.
  intros Hs Eb Ec E D. exists (EDone x false (Sent o v r)), s'. cbn [run_mop]. rewrite (box_me_eq x), (bindM_some _ _ _ _ _ E) by done.
  split; [done|]. split; [apply D|]. split; [apply D|]. apply (sent_seen o v x r s s s' false); [by apply box_kept_refl|apply unseen_refl|done|].
  intros b0 c E0 V. split; [done|]. exists c. split; [done|constructor].
Qed.

Lemma mop_send o v time s : minv idle s -> is_Some (boxes s !! o) -> time = 0 \/ (exists x, can_wait x s) -> step_ok (MSend o v time) s.
Proof.
  intros Hs [b Eb] Hw. destruct (current_of s Hs) as [x Ec].
  assert (rt_mb_send_wait o v time s = if (entry b =? size b) && (time =? 0) then Some (Some (- RT_EFULL), s) else mb_send_turn o v time s) as E.
  { unfold rt_mb_send_wait. rewrite (box_eq o b) by done. by destruct (_ && _). }
  destruct (Z.eqb_spec (entry b) (size b)) as [Ef|Ef]; cbn [andb] in E; [destruct (Z.eqb_spec time 0) as [->|Ht]|].
  - apply (sent_step o v 0 s b x _ _ Hs Eb Ec E). split; [done|]. split; [by apply box_kept_refl|]. split; [apply unseen_refl|].
    intros b0 again c c0 E0 V Hent. rewrite Eb in E0. injection E0 as <-. exists c0. split; [|done].
    apply Box.st_full; [done|]. by rewrite <- (rg_entry _ _ (view_ring o s c0 b V Eb)).
  - destruct Hw as [?|(y & Hw)]; [done|]. assert (y = x) as -> by (destruct Hw as ((? & ? & _) & _); congruence).
    destruct (mb_send_turn_spec o v time x s b Hs Eb Hw) as (r & s' & E1 & D). rewrite E1 in E. by apply (sent_step o v time s b x r s').
  - destruct (mb_store_spec o v x s b Hs Eb Ef) as (s' & E1 & D). apply (sent_step o v time s b x (Some RT_EOK) s' Hs Eb Ec); [|done].
    rewrite E. unfold mb_send_turn. rewrite (box_eq o b), (proj2 (Z.eqb_neq _ _) Ef) by done. by rewrite (bindM_some _ _ _ _ _ E1).
Qed.

Lemma got_step o time s b x r s' : minv idle s -> boxes s !! o = Some b -> current (kern s) = Some x ->
  rt_mb_recv o time s = Some (r, s') -> recv_done o x r s s' -> step_ok (MRecv o time) s.
Proof.
  intros Hs Eb Ec E D. exists (EDone x false (Got o r)), s'. cbn [run_mop]. rewrite (box_me_eq x), (bindM_some _ _ _ _ _ E) by done.
  split; [done|]. split; [apply D|]. split; [apply D|]. apply (got_seen o x r s s s' false); [by apply box_kept_refl|apply unseen_refl|done|].
  intros b0 c E0 V. split; [done|]. exists c. split; [done|constructor].
Qed.

Lemma mop_recv o time s : minv idle s -> is_Some (boxes s !! o) -> time = 0 \/ (exists x, can_wait x s) -> step_ok (MRecv o time) s.
Proof.
  intros Hs [b Eb] Hw. destruct (current_of s Hs) as [x Ec].
  assert (rt_mb_recv o time s = if (entry b =? 0) && (time =? 0) then Some (Some (- RT_ETIMEOUT, None), s) else mb_recv_turn o time s) as E.
  { unfold rt_mb_recv. rewrite (box_eq o b) by done. by destruct (_ && _). }
  destruct (Z.eqb_spec (entry b) 0) as [Ef|Ef]; cbn [andb] in E; [destruct (Z.eqb_spec time 0) as [->|Ht]|].
  - apply (got_step o 0 s b x _ _ Hs Eb Ec E). split; [done|]. split; [by apply box_kept_refl|]. split; [apply unseen_refl|].
    intros b0 again c c0 E0 V Hent. exists c0. split; [|done]. apply Box.st_empty; [done|]. apply (ring_nil b); [by apply (view_ring o s)|done].
  - destruct Hw as [?|(y & Hw)]; [done|]. assert (y = x) as -> by (destruct Hw as ((? & ? & _) & _); congruence).
    destruct (mb_recv_turn_spec o time x s b Hs Eb Hw) as (r & s' & E1 & D). rewrite E1 in E. by apply (got_step o time s b x r s').
  - destruct (mb_fetch_spec o x s b Hs Eb Ef) as (v & s' & E1 & D). apply (got_step o time s b x (Some (RT_EOK, Some v)) s' Hs Eb Ec); [|done].
    rewrite E. unfold mb_recv_turn. rewrite (box_eq o b), (proj2 (Z.eqb_neq _ _) Ef) by done. by rewrite (bindM_some _ _ _ _ _ E1).
Qed.

(* ------------------------------------------------------------------ *)
(** ** Runs *)

(** The rules of use.  The kernel's: those of Kernel.v, and a thread inside a
    call neither makes another nor is deleted.  A mailbox is initialised once,
    its pool has room for its mails; a call that may wait is made by a running
    thread other than the idle thread; a thread goes on with its call when it
    runs. *)
Definition mop_ok (op : mop) (s : mstate) : Prop :=
  match op with
  | MKernel op => kop_ok idle op (kern s) /\ kop_free (in_call s) op (kern s)
  | MInit o pool sz flag => boxes s !! o = None /\ flag_ok flag /\ u16 sz <= Z.of_nat (length pool)
  | MSend o _ time | MRecv o time => is_Some (boxes s !! o) /\ (time = 0 \/ exists x, can_wait x s)
  | MResume => exists x cl, running (kern s) x /\ calls s !! x = Some cl
  | MReset o => is_Some (boxes s !! o)
  | MDetach o => is_Some (boxes s !! o) /\ unused o s
  end.

Fixpoint mops_ok (ops : list mop) (s : mstate) : Prop :=
  match ops with
  | [] => True
  | op :: r => mop_ok op s /\ match run_mop op s with Some (_, s') => mops_ok r s' | None => True end
  end.

Definition all_fine (s : mstate) : Prop := minv idle s /\ forall o, fine s o.

Lemma run_inv n fifo tr c c' : Box.run n fifo tr c c' -> Box.inv n c -> Box.inv n c'.
Proof. induction 1 as [|l r a b c S R IH]; [done|]. intros H. apply IH. by eapply Box.step_inv. Qed.

(** A mailbox that stays as it is the next one's business. *)
Definition follows (s : mstate) (e : event) (s' : mstate) (o : Z) : Prop := forall b, boxes s !! o = Some b ->
  (exists b', boxes s' !! o = Some b' /\ same_box b b') /\ seen s e s' o.

Lemma step_ok_fine op s : all_fine s -> step_ok op s ->
  exists e s', run_mop op s = Some (e, s') /\ all_fine s' /\ forall o, follows s e s' o.
Proof.
  intros [Hs Hf] (e & s' & E & Hs' & K & S). exists e, s'. split; [done|]. split; [split; [done|]|].
  - intros o b' Eb'. specialize (K o). destruct (boxes s !! o) as [b|] eqn:Eb; [|by rewrite K in Eb'].
    destruct K as (b2 & E2 & Hb). rewrite Eb' in E2. injection E2 as <-. destruct (Hf o b Eb) as (c & V & I).
    destruct (S o b c Eb V) as (c' & V' & R). exists c'. split; [done|]. rewrite (proj1 Hb). by apply (run_inv _ _ _ _ _ R).
  - intros o b Eb. split; [|by apply S]. specialize (K o). by rewrite Eb in K.
Qed.

Lemma unseen_fine o o' s s' : unseen o s s' -> o' <> o -> boxes s' !! o' = boxes s !! o' -> fine s o' -> fine s' o'.
Proof. intros U Hne Eb F b E. rewrite Eb in E. destruct (F b E) as (c & V & I). exists c. split; [by apply U|done]. Qed.

Lemma unseen_follows o o' s s' : unseen o s s' -> o' <> o -> boxes s' !! o' = boxes s !! o' -> follows s ENone s' o'.
Proof.
  intros U Hne E b Eb. split; [exists b; by rewrite E|]. apply seen_none; [done|]. intros c V. by apply U.
Qed.

Lemma mop_spec op s : all_fine s -> mop_ok op s ->
  exists e s', run_mop op s = Some (e, s') /\ all_fine s' /\ forall o, op <> MDetach o -> follows s e s' o.
Proof.
  intros Hg Ho. pose proof Hg as [Hs Hf].
  assert (step_ok op s -> exists e s', run_mop op s = Some (e, s') /\ all_fine s' /\ forall o, op <> MDetach o -> follows s e s' o) as Hst.
  { intros H. destruct (step_ok_fine op s Hg H) as (e & s' & E & G & F). exists e, s'. auto. }
  destruct op as [op|o pool sz flag|o v time|o time| |o|o]; cbn [mop_ok] in Ho.
  - destruct Ho as [Ho1 Ho2]. apply Hst. by apply mop_kernel.
  - destruct Ho as (En & Hfl & Hsz). destruct (mop_init o pool sz flag s Hs En Hfl Hsz) as (s' & E & Hs' & Eb & U & F).
    exists ENone, s'. split; [done|]. split; [split; [done|]|].
    + intros o'. destruct (decide (o' = o)) as [->|Hne]; [done|]. apply (unseen_fine o o' s s' U Hne); [|done]. by rewrite Eb, lookup_insert_ne.
    + intros o' _. destruct (decide (o' = o)) as [->|Hne]; [intros b Eb'; congruence|]. apply (unseen_follows o o' s s' U Hne). by rewrite Eb, lookup_insert_ne.
  - destruct Ho as [Ho1 Ho2]. apply Hst. by apply mop_send.
  - destruct Ho as [Ho1 Ho2]. apply Hst. by apply mop_recv.
  - destruct Ho as (x & cl & Hr & Ec). apply Hst. by apply (mop_resume s x cl).
  - apply Hst. by apply mop_reset.
  - destruct Ho as (Hb & Hu). destruct (mop_detach o s Hs Hb Hu) as (s' & E & Hs' & Eb & U). exists ENone, s'.
    split; [done|]. split; [split; [done|]|].
    + intros o'. destruct (decide (o' = o)) as [->|Hne]; [intros b Eb'; by rewrite Eb, lookup_delete_eq in Eb'|].
      apply (unseen_fine o o' s s' U Hne); [|done]. by rewrite Eb, lookup_delete_ne.
    + intros o' Hne'. assert (o' <> o) as Hne by congruence. apply (unseen_follows o o' s s' U Hne). by rewrite Eb, lookup_delete_ne.
Qed.

Lemma box_run_app n fifo l1 l2 a b c : Box.run n fifo l1 a b -> Box.run n fifo l2 b c -> Box.run n fifo (l1 ++ l2) a c.
Proof. induction 1 as [d|l r d e f St Rn IH]; intros R2; [done|]. cbn. eapply Box.run_cons; [exact St|]. by apply IH. Qed.

Lemma mops_fine ops : forall s, all_fine s -> mops_ok ops s -> exists tr s', run_mops ops s = Some (tr, s') /\ all_fine s' /\
  forall o b c, ~ In (MDetach o) ops -> boxes s !! o = Some b -> view o s c ->
    exists b' c', boxes s' !! o = Some b' /\ same_box b b' /\ view o s' c' /\
      Box.run (size b) (mb_flag b =? RT_IPC_FLAG_FIFO) (flat_map (labels o) tr) c c'.
Proof.
  induction ops as [|op ops IH]; intros s Hg Ho; cbn [run_mops mops_ok] in *.
  - exists [], s. split; [done|]. split; [done|]. intros o b c _ Eb V. exists b, c. split_and!; try done. constructor.
  - destruct Ho as [Ho Hr]. destruct (mop_spec op s Hg Ho) as (e & s1 & E & Hg1 & F). rewrite E in Hr.
    destruct (IH s1 Hg1 Hr) as (tr & s' & E' & Hg' & H). exists (e :: tr), s'.
    rewrite (bindM_some _ _ _ _ _ E), (bindM_some _ _ _ _ _ E'). split; [done|]. split; [done|].
    intros o b c Hd Eb V. cbn in Hd. destruct (F o ltac:(intros ->; apply Hd; by left) b Eb) as ((b1 & Eb1 & Hb1) & S).
    destruct (S b c Eb V) as (c1 & V1 & R1).
    destruct (H o b1 c1 ltac:(intros Hin; apply Hd; by right) Eb1 V1) as (b' & c' & Eb' & Hb' & V' & R'). exists b', c'.
    destruct Hb1 as [S1 F1], Hb' as [S2 F2]. rewrite S1, F1 in R'. split; [done|]. split; [split; congruence|]. split; [done|].
    cbn [flat_map]. by eapply box_run_app.
Qed.

Lemma boot_fine cfg k : boot_ok idle cfg -> kernel_boot cfg = Some k -> all_fine (MState k ∅ ∅ 0).
Proof.
  intros Hb E. pose proof (boot_iinv idle cfg k Hb E) as [Hk Ho _]. split.
  - split; cbn [kern boxes calls]; [done|by intros o b Eb; rewrite lookup_empty in Eb| |by intros x c Ec; rewrite lookup_empty in Ec].
    intros i x Hin. specialize (Ho i). cbn in Ho. rewrite lookup_empty in Ho. cbn in Ho. by rewrite Ho in Hin.
  - intros o b Eb. cbn [boxes] in Eb. by rewrite lookup_empty in Eb.
Qed.
End Ops.

(* ------------------------------------------------------------------ *)
(** ** The rules of use, decided *)

Definition inside_callb (x : Z) (s : mstate) : bool := match calls s !! x with Some _ => true | None => false end.

Definition kop_freeb (op : kop) (s : mstate) : bool :=
  match op with
  | KSleep | KSleepExit | KExit => match current (kern s) with Some x => negb (inside_callb x s) | None => true end
  | KDelete y => negb (inside_callb y s)
  | _ => true
  end.

Definition can_waitb (idle : Z) (s : mstate) : bool :=
  match current (kern s) with
  | Some x => runningb (kern s) x && negb (x =? idle) && negb (inside_callb x s)
  | None => false
  end.

Definition has_box (o : Z) (s : mstate) : bool := match boxes s !! o with Some _ => true | None => false end.

Definition unusedb (o : Z) (s : mstate) : bool :=
  forallb (fun '(x, c) =>
    negb (call_obj c =? o) ||
    (if In_dec Z.eq_dec x (lists (kern s) (Wait (call_list c))) then true
     else match threads (kern s) !! x with Some t => negb (error t =? RT_EOK) | None => true end)) (map_to_list (calls s)).

Definition mop_okb (idle : Z) (op : mop) (s : mstate) : bool :=
  match op with
  | MKernel op => kop_okb idle op (kern s) && kop_freeb op s
  | MInit o pool sz flag => negb (has_box o s) && ((flag =? RT_IPC_FLAG_FIFO) || (flag =? RT_IPC_FLAG_PRIO)) && (u16 sz <=? Z.of_nat (length pool))
  | MSend o _ time | MRecv o time => has_box o s && ((time =? 0) || can_waitb idle s)
  | MResume => match current (kern s) with Some x => runningb (kern s) x && inside_callb x s | None => false end
  | MReset o => has_box o s
  | MDetach o => has_box o s && unusedb o s
  end.

Fixpoint mops_okb (idle : Z) (ops : list mop) (s : mstate) : bool :=
  match ops with
  | [] => true
  | op :: r => mop_okb idle op s && match run_mop op s with Some (_, s') => mops_okb idle r s' | None => true end
  end.

Lemma inside_callb_spec x s : reflect (is_Some (calls s !! x)) (inside_callb x s).
Proof. unfold inside_callb. destruct (calls s !! x) as [c|]; constructor; [by exists c|by intros [c ?]]. Qed.

Lemma kop_freeb_spec op s : kop_freeb op s = true -> kop_free (in_call s) op (kern s).
Proof.
  intros H x i (c & Ec & _). destruct op as [| | | | | | | |y p n|y|y p|y|y|y|y]; cbn in *; try done;
    [..|destruct (inside_callb_spec y s) as [|Hn]; [done|intros ->; apply Hn; by exists c]];
    intros Ex; rewrite Ex in H; destruct (inside_callb_spec x s) as [|Hn]; try done; apply Hn; by exists c.
Qed.

Lemma can_call_spec idle s : can_waitb idle s = true -> exists x, can_wait idle x s.
Proof.
  unfold can_waitb. destruct (current (kern s)) as [x|]; [|done]. intros [[H1 H2]%andb_true_iff H3]%andb_true_iff. exists x.
  split; [by apply runningb_spec|]. split; [by apply negb_true_iff, Z.eqb_neq in H2|].
  destruct (calls s !! x) as [c|] eqn:Ec; [|done]. unfold inside_callb in H3. by rewrite Ec in H3.
Qed.

Lemma has_box_spec o s : has_box o s = true -> is_Some (boxes s !! o).
Proof. unfold has_box. destruct (boxes s !! o) as [b|]; [by exists b|done]. Qed.

Lemma unusedb_spec o s : unusedb o s = true -> unused o s.
Proof.
  unfold unusedb. rewrite forallb_forall. intros H x c t Ec Ho Et.
  specialize (H (x, c)). cbn in H. rewrite <- list_elem_of_In, elem_of_map_to_list in H. specialize (H Ec).
  rewrite (proj2 (Z.eqb_eq _ _) Ho) in H. cbn in H. destruct (In_dec Z.eq_dec x _) as [Hi|Hi]; [by left|right].
  rewrite Et in H. by apply negb_true_iff, Z.eqb_neq in H.
Qed.

Lemma mop_okb_spec idle op s : mop_okb idle op s = true -> mop_ok idle op s.
Proof.
  destruct op as [op|o pool sz f|o v time|o time| |o|o]; cbn [mop_ok mop_okb]; intros H; breflect; auto using kop_okb_spec, kop_freeb_spec, has_box_spec, unusedb_spec.
  - unfold has_box in *. split_and!; [by destruct (boxes s !! o)| |lia].
    match goal with H : (_ || _) = true |- _ => apply orb_true_iff in H as [H|H]; apply Z.eqb_eq in H; subst f end; [by left|by right].
  - split; [by apply has_box_spec|]. match goal with H : (_ || _) = true |- _ => apply orb_true_iff in H as [H|H] end; [left; lia|right; by apply can_call_spec].
  - split; [by apply has_box_spec|]. match goal with H : (_ || _) = true |- _ => apply orb_true_iff in H as [H|H] end; [left; lia|right; by apply can_call_spec].
  - destruct (current (kern s)) as [x|]; [|done]. breflect. destruct (inside_callb_spec x s) as [[c Ec]|]; [|done].
    exists x, c. split; [by apply runningb_spec|done].
Qed.

Lemma mops_okb_spec idle ops : forall s, mops_okb idle ops s = true -> mops_ok idle ops s.
Proof.
  induction ops as [|op ops IH]; intros s; cbn [mops_ok mops_okb]; [done|]. intros [H1 H2]%andb_true_iff.
  split; [by apply mop_okb_spec|]. destruct (run_mop op s) as [[e s']|]; [by apply IH|done].
Qed.

(* ------------------------------------------------------------------ *)
(** ** Properties *)

(** A state the system reaches from its start, without mailboxes. *)
Definition mreachable (idle : Z) (s : mstate) : Prop := exists cfg k ops tr,
  boot_ok idle cfg /\ kernel_boot cfg = Some k /\ mops_ok idle ops (MState k ∅ ∅ 0) /\ run_mops ops (MState k ∅ ∅ 0) = Some (tr, s).

Lemma reachable_fine idle s : mreachable idle s -> all_fine idle s.
Proof.
  intros (cfg & k & ops & tr & Hb & E & Ho & Er).
  destruct (mops_fine idle ops _ (boot_fine idle cfg k Hb E) Ho) as (tr' & s' & Er' & Hs & _). rewrite Er in Er'. by injection Er' as _ <-.
Qed.

(** C5: a mailbox of the kernel is a bounded first-in first-out queue.
    Whatever threads and interrupts do to it and to the rest of the system, no
    call fails an assertion or leaves the pool, and the mails in the ring, the
    threads that sleep on its two lists and those woken from them go through the
    steps of the abstract queue, with the results the callers were given; until
    it is reset, the mails received are the mails sent, in the order of the sends,
    none twice and none lost, and never more than the capacity is in it. *)
Theorem mailbox_refines_queue idle s ops o b c :
  mreachable idle s -> boxes s !! o = Some b -> view o s c -> mops_ok idle ops s -> ~ In (MDetach o) ops ->
  exists tr s' b' c', run_mops ops s = Some (tr, s') /\ boxes s' !! o = Some b' /\ view o s' c' /\
    Box.run (size b) (mb_flag b =? RT_IPC_FLAG_FIFO) (flat_map (labels o) tr) c c' /\
    entry b' = Z.of_nat (length (Box.q c')) /\ entry b' <= size b /\
    (Forall Box.no_reset (flat_map (labels o) tr) ->
      Box.q c ++ flat_map Box.posted (flat_map (labels o) tr) = flat_map Box.gotten (flat_map (labels o) tr) ++ Box.q c').
Proof.
  intros Hr Eb V Ho Hd. destruct (mops_fine idle ops s (reachable_fine idle s Hr) Ho) as (tr & s' & E & _ & H).
  destruct (H o b c Hd Eb V) as (b' & c' & Eb' & [Hsz _] & V' & R). exists tr, s', b', c'.
  pose proof (vw_ring _ _ _ V') as (b2 & Eb2 & G). rewrite Eb' in Eb2. injection Eb2 as <-.
  split_and!; try done; [apply G|rewrite <- Hsz; apply G|]. intros F. exact (Box.in_order _ _ _ _ _ R F).
Qed.

(** The mailbox 7, of two mails.  Threads 3 and 1 wait for a mail, thread 2
    sends two, fails to send a third and waits for room; 3 takes both mails, so
    that 1, woken for the second, waits again, and gets the one 2 sends last. *)
Definition box_prefix : list mop := [MInit 7 [0; 0] 2 RT_IPC_FLAG_FIFO].
Definition box_ops : list mop :=
  [MRecv 7 (-1); MKernel KSchedule; MRecv 7 10; MKernel KSchedule; MSend 7 11 0; MSend 7 12 0; MSend 7 13 0; MSend 7 13 (-1);
   MKernel KSchedule; MResume; MRecv 7 0; MKernel KSleep; MKernel KSchedule; MResume; MKernel KSchedule; MResume;
   MKernel KSleep; MKernel KSchedule; MResume].
Definition after (ops : list mop) : mstate :=
  match run_mops ops (MState sample_kernel ∅ ∅ 0) with Some (_, s) => s | None => MState sample_kernel ∅ ∅ 0 end.
Definition box_start : mstate := after box_prefix.

Lemma after_reachable ops : mops_okb 0 ops (MState sample_kernel ∅ ∅ 0) = true -> mreachable 0 (after ops).
Proof.
  intros Ho. apply mops_okb_spec in Ho.
  destruct (mops_fine 0 ops _ (boot_fine 0 sample_threads sample_kernel sample_boot_ok sample_boot) Ho) as (tr & s & E & _).
  exists sample_threads, sample_kernel, ops, tr. unfold after. rewrite E.
  split_and!; [exact sample_boot_ok|exact sample_boot|done|done].
Qed.

Lemma box_start_ok : mops_okb 0 box_prefix (MState sample_kernel ∅ ∅ 0) = true /\ mops_okb 0 box_ops box_start = true /\
  boxes box_start !! 7 = Some (Mailbox [0; 0] 2 0 0 0 RT_IPC_FLAG_FIFO).
Proof. split_and!; vm_compute; reflexivity. Qed.

Definition empty_box : Box.state := Box.State [] [] ∅ [] ∅ (fun _ => None).

Lemma box_start_view : view 7 box_start empty_box.
Proof.
  assert (calls box_start = ∅) as E by (vm_compute; reflexivity).
  assert (forall i x, ~ woken box_start i x) as H by (intros i x ((c & Ec & _) & _); by rewrite E, lookup_empty in Ec).
  split; cbn [empty_box Box.q Box.rx Box.rw Box.tx Box.tw Box.asked]; try (vm_compute; reflexivity).
  - exists (Mailbox [0; 0] 2 0 0 0 RT_IPC_FLAG_FIFO). split; [exact (proj2 (proj2 box_start_ok))|]. apply (ring_empty [0; 0] 2). vm_compute. discriminate.
  - intros x. split; [by intros ?%not_elem_of_empty|by intros ?%H].
  - intros x. split; [by intros ?%not_elem_of_empty|by intros ?%H].
Qed.

Lemma mailbox_refines_queue_witness :
  exists tr s' b' c', run_mops box_ops box_start = Some (tr, s') /\ boxes s' !! 7 = Some b' /\
    Box.run 2 true (flat_map (labels 7) tr) empty_box c' /\ entry b' = Z.of_nat (length (Box.q c')).
Proof.
  destruct (mailbox_refines_queue 0 box_start box_ops 7 _ empty_box (after_reachable box_prefix (proj1 box_start_ok))
    (proj2 (proj2 box_start_ok)) box_start_view (mops_okb_spec 0 box_ops box_start (proj1 (proj2 box_start_ok)))
    ltac:(cbn; intuition congruence)) as (tr & s' & b' & c' & E & Eb & _ & R & En & _).
  exists tr, s', b', c'. split; [exact E|]. split; [exact Eb|]. split; [exact R|exact En].
Defined.

(** C6: a mailbox loses no wake-up.  In every reachable state, while a thread
    sleeps for a mail, at least as many receivers as there are mails have been
    woken and have yet to run, and while a thread sleeps for room, at least as
    many senders as there are free places: nobody sleeps on a mailbox that
    could serve it without somebody on the way to take the mail or the place. *)
Theorem mailbox_no_lost_wakeup idle s o b :
  mreachable idle s -> boxes s !! o = Some b ->
  exists rw tw : gset Z,
    (forall x, x ∈ rw -> woken s (receivers o) x /\ exists t, threads (kern s) !! x = Some t /\ live t /\ timer_on t = false) /\
    (forall x, x ∈ tw -> woken s (senders o) x /\ exists t, threads (kern s) !! x = Some t /\ live t /\ timer_on t = false) /\
    (lists (kern s) (Wait (receivers o)) <> [] -> entry b <= Z.of_nat (base.size rw)) /\
    (lists (kern s) (Wait (senders o)) <> [] -> size b - entry b <= Z.of_nat (base.size tw)).
Proof.
  intros Hr Eb. destruct (reachable_fine idle s Hr) as [Hs Hf]. destruct (Hf o b Eb) as (c & V & [_ _ _ I1 I2]).
  assert (forall i x, woken s i x -> woken s i x /\ exists t, threads (kern s) !! x = Some t /\ live t /\ timer_on t = false) as Hw.
  { intros i x W. split; [done|]. destruct W as ((cl & Ec & El) & Hn & _). destruct (mi_call _ _ Hs x cl Ec) as (_ & t & Et & Hv & _ & Ht & _).
    exists t. rewrite El in Ht. auto. }
  destruct (vw_ring _ _ _ V) as (b2 & Eb2 & G). rewrite Eb in Eb2. injection Eb2 as <-. pose proof (rg_entry _ _ G) as En.
  exists (Box.rw c), (Box.tw c). rewrite (vw_rx _ _ _ V), (vw_tx _ _ _ V), En. split_and!; auto.
  - intros x Hx. by apply Hw, (vw_rw _ _ _ V).
  - intros x Hx. by apply Hw, (vw_tw _ _ _ V).
Qed.

(** Threads 3 and 1 wait, one mail was sent. *)
Definition one_mail : list mop := box_prefix ++ take 5 box_ops.

Lemma one_mail_ok : mops_okb 0 one_mail (MState sample_kernel ∅ ∅ 0) = true /\
  boxes (after one_mail) !! 7 = Some (Mailbox [11; 0] 2 1 1 0 RT_IPC_FLAG_FIFO) /\
  lists (kern (after one_mail)) (Wait (receivers 7)) = [1].
Proof. split_and!; vm_compute; reflexivity. Qed.

Lemma mailbox_no_lost_wakeup_witness :
  exists rw : gset Z, (forall x, x ∈ rw -> woken (after one_mail) (receivers 7) x) /\ 1 <= Z.of_nat (base.size rw).
Proof.
  destruct one_mail_ok as (H1 & H2 & H3).
  destruct (mailbox_no_lost_wakeup 0 (after one_mail) 7 _ (after_reachable one_mail H1) H2) as (rw & tw & W & _ & H & _).
  exists rw. split; [intros x Hx; apply (W x Hx)|]. apply H. rewrite H3. discriminate.
Defined.
