(* ===== verification/Event.v ===== *)
(** * Events

    rt-thread/src/ipc.c, rt_event_*: 32 flags and a list of threads that wait
    for all or for some of a set of them, on the threads of Kernel.v and the wait
    lists of Ipc.v.  As there, a call is modelled up to its [rt_schedule]; a
    thread that waits has the event recorded ([calls]) and goes on with its
    receive when it runs again ([event_resume]).  Left out: object names, hooks,
    the allocation of an event on the heap.

    The contract ([Flags]) speaks of sets of flags instead of bits; from it follow
    that no thread sleeps although its flags are there and that a flag that is
    cleared on receipt is received once for each time it is sent. *)

From Stdlib Require Import ZArith Lia.
From stdpp Require Import base numbers list gmap.
From S2P Require Import Prelude Kernel Ipc Calls.
Open Scope c_scope.

Definition RT_EINVAL : Z := 10.
Definition RT_EVENT_FLAG_AND : Z := 0x01.
Definition RT_EVENT_FLAG_OR : Z := 0x02.
Definition RT_EVENT_FLAG_CLEAR : Z := 0x04.

Record event := Event { flag_set : Z; e_flag : Z }.

(** [event_set] and [event_info] are fields of each thread; [calls]: the event
    whose [rt_event_recv] the thread is inside. *)
Record estate := EState {
  kern : kernel; events : gmap Z event; event_set : Z -> Z; event_info : Z -> Z; calls : gmap Z Z }.

Definition with_kern (k : kernel) (s : estate) : estate := EState k (events s) (event_set s) (event_info s) (calls s).
Definition with_events (b : gmap Z event) (s : estate) : estate := EState (kern s) b (event_set s) (event_info s) (calls s).
Definition with_calls (c : gmap Z Z) (s : estate) : estate := EState (kern s) (events s) (event_set s) (event_info s) c.

Definition at_thread (x v : Z) (f : Z -> Z) : Z -> Z := fun y => if decide (y = x) then v else f y.

Definition on_kern {A} (m : M kernel A) : M estate A := fun s =>
  match m (kern s) with Some (a, k) => Some (a, with_kern k s) | None => None end.
Definition event_of (o : Z) : M estate event := fun s =>
  match events s !! o with Some e => Some (e, s) | None => None end.
Definition put_event (o : Z) (e : event) : M estate unit := doM (fun s => with_events (<[o := e]> (events s)) s).
(** [thread->event_set = v] and [thread->event_info = v]. *)
Definition put_set (x v : Z) : M estate unit :=
  doM (fun s => EState (kern s) (events s) (at_thread x v (event_set s)) (event_info s) (calls s)).
Definition put_info (x v : Z) : M estate unit :=
  doM (fun s => EState (kern s) (events s) (event_set s) (at_thread x v (event_info s)) (calls s)).

(* ------------------------------------------------------------------ *)
(** ** The operations *)

Definition rt_event_init (o flag : Z) : M estate unit :=
  do! on_kern (doM (list_set (Wait o) [])) in
  put_event o (Event 0 flag).

Definition rt_event_detach (o : Z) : M estate unit :=
  let! _ := event_of o in
  do! on_kern (rt_ipc_list_resume_all o) in
  doM (fun s => with_events (delete o (events s)) s).

(** Whether the flags [have] answer a request; [None]: it has neither AND nor OR. *)
Definition received (have set opt : Z) : option bool :=
  if tst opt RT_EVENT_FLAG_AND then Some (Z.land set have =? set)
  else if tst opt RT_EVENT_FLAG_OR then Some (negb (Z.land set have =? 0))
  else None.

(** One turn of the loop of [rt_event_send] for the waiting thread [x]; the
    result is whether it was resumed, [None] for the return of -RT_EINVAL. *)
Definition event_turn (o x : Z) : M estate (option bool) :=
  let! e := event_of o in
  let! w := getM (fun s => ((event_set s x, event_info s x), s)) in
  match received (flag_set e) (fst w) (snd w) with
  | None => retM None
  | Some false => retM (Some false)
  | Some true =>
      let got := if tst (snd w) RT_EVENT_FLAG_AND then fst w else Z.land (fst w) (flag_set e) in
      do! put_set x got in
      do! (if tst (snd w) RT_EVENT_FLAG_CLEAR then put_event o (Event (Z.ldiff (flag_set e) got) (e_flag e)) else retM tt) in
      do! on_kern (ignore (rt_thread_resume x)) in
      retM (Some true)
  end.

(** [n] moves to the next node before the thread leaves the list, so the loop
    visits the threads that were on it at the start. *)
Fixpoint event_loop (o : Z) (l : list Z) (need_schedule : bool) : M estate (option bool) :=
  match l with
  | [] => retM (Some need_schedule)
  | x :: r =>
      let! b := event_turn o x in
      match b with
      | None => retM None
      | Some b => event_loop o r (need_schedule || b)
      end
  end.

(** The result and [need_schedule]. *)
Definition rt_event_send_begin (o set : Z) : M estate (Z * bool) :=
  let! e := event_of o in
  if set =? 0 then retM (- RT_ERROR, false)
  else
    do! put_event o (Event (Z.lor (flag_set e) set) (e_flag e)) in
    let! l := getM (fun s => (lists (kern s) (Wait o), s)) in
    let! need_schedule := event_loop o l false in
    match need_schedule with
    | None => retM (- RT_EINVAL, false)
    | Some b => retM (RT_EOK, b)
    end.

Definition rt_event_send (o set : Z) : M estate Z :=
  let! r := rt_event_send_begin o set in
  do! (if snd r : bool then on_kern rt_schedule else retM tt) in
  retM (fst r).

(** The flags are there: the result and [*recved]. *)
Definition recv_at_once (o x set opt : Z) (e : event) : M estate (option (Z * option Z)) :=
  let got := Z.land (flag_set e) set in
  do! put_set x got in
  do! put_info x opt in
  do! (if tst opt RT_EVENT_FLAG_CLEAR then put_event o (Event (Z.ldiff (flag_set e) set) (e_flag e)) else retM tt) in
  let! t := on_kern (thread_of x) in
  retM (Some (error t, Some got)).

(** They are not; [None]: the thread sleeps. *)
Definition recv_wait (o x set opt timeout : Z) (e : event) : M estate (option (Z * option Z)) :=
  if timeout =? 0 then
    do! on_kern (upd x (with_error (- RT_ETIMEOUT))) in
    retM (Some (- RT_ETIMEOUT, None))
  else
    do! put_set x set in
    do! put_info x opt in
    do! on_kern (rt_ipc_list_suspend o x (e_flag e)) in
    do! (if 0 <? timeout then on_kern (upd x (with_timer true)) else retM tt) in
    do! doM (fun s => with_calls (<[x := o]> (calls s)) s) in
    retM None.

Definition rt_event_recv_begin (o set opt timeout : Z) : M estate (option (Z * option Z)) :=
  let! e := event_of o in
  if set =? 0 then retM (Some (- RT_ERROR, None))
  else
    let! x := on_kern rt_thread_self in
    do! on_kern (upd x (with_error RT_EOK)) in
    match received (flag_set e) set opt with
    | None => failM
    | Some true => recv_at_once o x set opt e
    | Some false => recv_wait o x set opt timeout e
    end.

(** The running thread goes on with its receive. *)
Definition event_resume (x : Z) : M estate (Z * option Z) := fun s =>
  match calls s !! x with
  | None => None
  | Some _ =>
      (let! t := on_kern (thread_of x) in
       do! doM (fun s => with_calls (delete x (calls s)) s) in
       if negb (error t =? RT_EOK) then retM (error t, None)
       else let! got := getM (fun s => (event_set s x, s)) in retM (error t, Some got)) s
  end.

Definition rt_event_recv (o set opt timeout : Z) : M estate (option (Z * option Z)) :=
  let! r := rt_event_recv_begin o set opt timeout in
  match r with
  | Some r => retM (Some r)
  | None => do! on_kern rt_schedule in retM None
  end.

(** [rt_event_control] up to its schedule. *)
Definition rt_event_reset_begin (o : Z) : M estate unit :=
  let! e := event_of o in
  do! on_kern (rt_ipc_list_resume_all o) in
  put_event o (Event 0 (e_flag e)).

Definition rt_event_control (o cmd : Z) : M estate Z :=
  let! _ := event_of o in
  if cmd =? RT_IPC_CMD_RESET then
    do! rt_event_reset_begin o in
    do! on_kern rt_schedule in
    retM RT_EOK
  else retM (- RT_ERROR).

(* ------------------------------------------------------------------ *)
(** ** Runs *)

Inductive eop :=
  | EKernel (op : kop) | EInit (o flag : Z) | ESend (o set : Z) | ERecv (o set opt timeout : Z) | EResume
  | EReset (o : Z) | EDetach (o : Z).

(** What an operation shows: who called, what it was given and what it got. *)
Inductive report :=
  | RNone
  | RWake (x : Z) | RExpire (x : Z)
  | RSend (o set r : Z)
  | RAsk (o x set opt : Z) (r : option (Z * option Z))
  | RBack (o x opt : Z) (r : Z * option Z)
  | RReset (o : Z).

Definition kernel_report (op : kop) : report :=
  match op with KResume x => RWake x | KTimeout x => RExpire x | _ => RNone end.

Definition run_eop (op : eop) : M estate report :=
  match op with
  | EKernel op => do! on_kern (run_kop op) in retM (kernel_report op)
  | EInit o flag => do! rt_event_init o flag in retM RNone
  | ESend o set => let! r := rt_event_send_begin o set in retM (RSend o set (fst r))
  | ERecv o set opt timeout =>
      let! x := on_kern rt_thread_self in
      let! r := rt_event_recv_begin o set opt timeout in
      retM (RAsk o x set opt r)
  | EResume =>
      let! x := on_kern rt_thread_self in
      let! o := getM (fun s => (default 0 (calls s !! x), s)) in
      let! i := getM (fun s => (event_info s x, s)) in
      let! r := event_resume x in
      retM (RBack o x i r)
  | EReset o => do! rt_event_reset_begin o in retM (RReset o)
  | EDetach o => do! rt_event_detach o in retM RNone
  end.

Fixpoint run_eops (ops : list eop) : M estate (list report) :=
  match ops with
  | [] => retM []
  | op :: r => let! e := run_eop op in let! tr := run_eops r in retM (e :: tr)
  end.

(* ------------------------------------------------------------------ *)
(** ** The contract

    The pending flags, the threads that sleep with what they ask for, and what
    was granted to those that were woken and have not run since. *)
Module Flags.

Record request := Request { all : bool; clear : bool; mask : gset Z }.
Record state := State { flags : gset Z; sleeping : list (Z * request); granted : gmap Z (bool * gset Z) }.

(** The flags [f] answer a request; what its thread gets; what is left. *)
Definition answers (f : gset Z) (w : request) : Prop := if all w then mask w ⊆ f else mask w ∩ f ≠ ∅.
Definition gets (f : gset Z) (w : request) : gset Z := mask w ∩ f.
Definition after (f : gset Z) (w : request) : gset Z := if clear w then f ∖ mask w else f.

Definition names (c : state) : list Z := map fst (sleeping c).
Definition drop (x : Z) (l : list (Z * request)) : list (Z * request) := List.filter (fun e => negb (fst e =? x)) l.

(** Flags offered to the sleeping threads one after the other. *)
Inductive serve : gset Z -> list (Z * request) -> gmap Z (bool * gset Z) ->
    gset Z -> list (Z * request) -> gmap Z (bool * gset Z) -> Prop :=
  | sv_nil f m : serve f [] m f [] m
  | sv_skip f x w l m f' l' m' : ~ answers f w -> serve f l m f' l' m' -> serve f ((x, w) :: l) m f' ((x, w) :: l') m'
  | sv_grant f x w l m f' l' m' : answers f w -> serve (after f w) l (<[x := (clear w, gets f w)]> m) f' l' m' ->
      serve f ((x, w) :: l) m f' l' m'.

Inductive label :=
  | Send (f : gset Z)
  | Ask (x : Z) (w : request) (r : option (Z * option (gset Z)))
  | Back (x : Z) (clears : bool) (r : Z * option (gset Z))
  | Wake (x : Z) | Expire (x : Z) | Reset.

(** [fifo]: the threads wait in order of arrival. *)
Inductive step (fifo : bool) : label -> state -> state -> Prop :=
  | st_send f c f' l' m' : f ≠ ∅ -> serve (flags c ∪ f) (sleeping c) (granted c) f' l' m' ->
      step fifo (Send f) c (State f' l' m')
  | st_take x w c : answers (flags c) w ->
      step fifo (Ask x w (Some (RT_EOK, Some (gets (flags c) w)))) c (State (after (flags c) w) (sleeping c) (granted c))
  | st_refuse x w c : ~ answers (flags c) w -> step fifo (Ask x w (Some (- RT_ETIMEOUT, None))) c c
  | st_sleep x w c l1 l2 : ~ answers (flags c) w -> ~ In x (names c) -> granted c !! x = None -> sleeping c = l1 ++ l2 ->
      (fifo = true -> l2 = []) -> step fifo (Ask x w None) c (State (flags c) (l1 ++ (x, w) :: l2) (granted c))
  | st_back x b got c : granted c !! x = Some (b, got) ->
      step fifo (Back x b (RT_EOK, Some got)) c (State (flags c) (sleeping c) (delete x (granted c)))
  | st_back_error x b e c : granted c !! x = None -> ~ In x (names c) -> e <> RT_EOK -> step fifo (Back x b (e, None)) c c
  | st_wake x w c : In (x, w) (sleeping c) ->
      step fifo (Wake x) c (State (flags c) (drop x (sleeping c)) (<[x := (clear w, mask w)]> (granted c)))
  | st_wake_other x c : ~ In x (names c) -> step fifo (Wake x) c c
  | st_expire x c : step fifo (Expire x) c (State (flags c) (drop x (sleeping c)) (granted c))
  | st_reset c : step fifo Reset c (State ∅ [] (granted c)).

Inductive run (fifo : bool) : list label -> state -> state -> Prop :=
  | run_nil a : run fifo [] a a
  | run_cons l r a b c : step fifo l a b -> run fifo r b c -> run fifo (l :: r) a c.

(** Nobody sleeps although its flags are there; a thread sleeps once, and not
    with something granted. *)
Record inv (c : state) : Prop := {
  iv_asleep : forall x w, In (x, w) (sleeping c) -> ~ answers (flags c) w;
  iv_names : List.NoDup (names c);
  iv_apart : forall x, In x (names c) -> granted c !! x = None }.

Lemma answers_less f f' w : f' ⊆ f -> answers f' w -> answers f w.
Proof. unfold answers. destruct (all w); set_solver. Qed.

Lemma after_less f w : after f w ⊆ f.
Proof. unfold after. destruct (clear w); set_solver. Qed.

Lemma in_drop_request x e l : In e (drop x l) <-> In e l /\ fst e <> x.
Proof. unfold drop. rewrite filter_In, negb_true_iff, Z.eqb_neq. done. Qed.

Lemma in_names x c : In x (names c) <-> exists w, In (x, w) (sleeping c).
Proof.
  unfold names. rewrite in_map_iff. split; [intros ([y w] & <- & H); by exists w|intros [w H]; by exists (x, w)].
Qed.

Lemma names_drop x l : map fst (drop x l) = unlink x (map fst l).
Proof.
  unfold drop, unlink. induction l as [|[y w] l IH]; cbn; [done|]. destruct (y =? x); cbn; [exact IH|]. by f_equal.
Qed.

(** What serving leaves: a thread of [l] keeps sleeping unanswered, or has been
    granted its flags. *)
Record served (f : gset Z) (l : list (Z * request)) (m : gmap Z (bool * gset Z)) (f' : gset Z) (l' : list (Z * request))
    (m' : gmap Z (bool * gset Z)) : Prop := {
  sd_less : f' ⊆ f;
  sd_in : forall e, In e l' -> In e l;
  sd_nodup : List.NoDup (map fst l');
  sd_asleep : forall x w, In (x, w) l' -> ~ answers f' w;
  sd_apart : forall x, In x (map fst l') -> m' !! x = None;
  sd_other : forall x, ~ In x (map fst l) -> m' !! x = m !! x }.

Lemma serve_spec f l m f' l' m' : serve f l m f' l' m' -> List.NoDup (map fst l) ->
  (forall x, In x (map fst l) -> m !! x = None) -> served f l m f' l' m'.
Proof.
  induction 1 as [f m|f x w l m f' l' m' Hn Hs IH|f x w l m f' l' m' Ha Hs IH]; cbn [map fst]; intros N Hm.
  - by split.
  - apply List.NoDup_cons_iff in N as [Hx N]. destruct (IH N ltac:(intros y Hy; apply Hm; by right)) as [A1 A2 A3 A4 A5 A6].
    assert (~ In x (map fst l')) as Hx'.
    { rewrite in_map_iff. intros (e & <- & He). apply Hx, in_map, A2, He. }
    split; [done| | | | |].
    + intros e [->|He]; [by left|right; auto].
    + cbn. by constructor.
    + intros y v [[= <- <-]|Hy]; [|by eauto]. intros Ha. by apply Hn, (answers_less f f').
    + intros y [<-|Hy]; [|auto]. rewrite A6 by done. apply Hm. by left.
    + intros y Hy. apply A6. intros ?. apply Hy. by right.
  - apply List.NoDup_cons_iff in N as [Hx N]. destruct (IH N) as [A1 A2 A3 A4 A5 A6].
    { intros y Hy. rewrite lookup_insert_ne by (intros <-; done). apply Hm. by right. }
    split; try done.
    + pose proof (after_less f w). set_solver.
    + intros e He. right. auto.
    + intros y Hy. rewrite A6, lookup_insert_ne; [done|..]; [intros ->|intros ?]; apply Hy; [by left|by right].
Qed.

Lemma inv_sub c f l m : inv c -> f ⊆ flags c -> (forall e, In e l -> In e (sleeping c)) -> List.NoDup (map fst l) ->
  (forall x, In x (map fst l) -> m !! x = granted c !! x) -> inv (State f l m).
Proof.
  intros [A1 A2 A3] Hf Hl N Hm. split; cbn [flags sleeping granted]; [|done|].
  - intros x w Hx Ha. apply (A1 x w); [by apply Hl|by apply (answers_less _ f)].
  - intros x Hx. change (names _) with (map fst l) in Hx. rewrite Hm by done. apply A3. apply in_map_iff in Hx as (e & <- & He). by apply in_map, Hl.
Qed.

Lemma flags_step_inv fifo l c c' : step fifo l c c' -> inv c -> inv c'.
Proof.
  intros St Hi. pose proof Hi as [A1 A2 A3].
  assert (forall x, List.NoDup (map fst (drop x (sleeping c)))) as Hnd by (intros x; rewrite names_drop; by apply NoDup_unlink).
  destruct St as [f c f' l' m' Hf Hs|x w c Ha|x w c Ha|x w c l1 l2 Ha Hx Hg El Hl|x b got c Hg|x b e c Hg Hx He|x w c Hw|x c Hx|x c|c]; try done.
  - destruct (serve_spec _ _ _ _ _ _ Hs A2 A3). by split.
  - apply (inv_sub c); [done|apply after_less|done..].
  - unfold names in *. rewrite El, map_app in *. split; unfold names; cbn [flags sleeping granted]; rewrite ?map_app.
    + intros y v. rewrite in_app_iff. cbn. intros [H|[[= <- <-]|H]]; [|done|]; apply (A1 y); apply in_app_iff; auto.
    + cbn. apply NoDup_ListNoDup. apply NoDup_ListNoDup in A2. rewrite <- Permutation_middle. constructor; [|done].
      by rewrite list_elem_of_In.
    + intros y. cbn. rewrite in_app_iff. cbn. intros [H|[<-|H]]; [|done|]; apply A3; apply in_app_iff; auto.
  - apply (inv_sub c); [done..|]. intros y Hy. destruct (decide (y = x)) as [->|Hne]; [|by rewrite lookup_delete_ne].
    rewrite A3 in Hg by done. done.
  - apply (inv_sub c); [done|done|by intros e [? _]%in_drop_request|done|]. intros y. rewrite in_map_iff. intros (e & <- & [_ He]%in_drop_request).
    by rewrite lookup_insert_ne.
  - apply (inv_sub c); [done|done|by intros e [? _]%in_drop_request|done|done].
  - apply (inv_sub c); cbn; try done. constructor.
Qed.

Lemma flags_run_inv fifo tr c c' : run fifo tr c c' -> inv c -> inv c'.
Proof. induction 1 as [a|l r a b c St R IH]; [done|]. intros Hi. by eapply IH, flags_step_inv. Qed.

(** *** A flag that is cleared on receipt is received once

    [promised]: the flag [b] was granted to a thread that clears it. *)
Definition promised (b : Z) (e : Z * (bool * gset Z)) : Prop := fst (snd e) = true /\ b ∈ snd (snd e).
Definition held (b : Z) (m : gmap Z (bool * gset Z)) : nat := size (filter (promised b) m).
Definition has (b : Z) (f : gset Z) : nat := if decide (b ∈ f) then 1 else 0.
Definition stock (b : Z) (c : state) : nat := has b (flags c) + held b (granted c).

Definition sent (b : Z) (l : label) : nat := match l with Send f => has b f | _ => 0 end.
Definition consumed (b : Z) (l : label) : nat :=
  match l with
  | Ask _ w (Some (r, Some got)) => if clear w then has b got else 0
  | Back _ true (r, Some got) => has b got
  | _ => 0
  end.
Definition no_wake (l : label) : Prop := match l with Wake _ => False | _ => True end.

Lemma held_insert b x (cl : bool) (got : gset Z) (m : gmap Z (bool * gset Z)) : m !! x = None ->
  held b (<[x := (cl, got)]> m) = ((if cl then has b got else 0) + held b m)%nat.
Proof.
  intros Hm. unfold held, has. rewrite map_filter_insert. unfold promised at 1. cbn [fst snd].
  assert (filter (promised b) m !! x = None) as Hf by (apply map_lookup_filter_None; by left).
  destruct (decide (cl = true /\ b ∈ got)) as [[-> Hb]|Hn].
  - rewrite map_size_insert_None, decide_True by done. done.
  - rewrite delete_id by done. destruct cl; [|done]. rewrite decide_False; [done|tauto].
Qed.

Lemma held_delete b x (cl : bool) (got : gset Z) (m : gmap Z (bool * gset Z)) : m !! x = Some (cl, got) ->
  held b m = ((if cl then has b got else 0) + held b (delete x m))%nat.
Proof.
  intros Hm. rewrite <- (held_insert b x); [|by rewrite lookup_delete_eq]. by rewrite insert_delete_eq, insert_id.
Qed.

(** What a request takes out it leaves no more. *)
Lemma has_after b f w : has b f = ((if clear w then has b (gets f w) else 0) + has b (after f w))%nat.
Proof.
  unfold has, after, gets. destruct (clear w); [|done].
  destruct (decide (b ∈ f)), (decide (b ∈ mask w ∩ f)), (decide (b ∈ f ∖ mask w)); set_solver.
Qed.

Lemma serve_stock b f l m f' l' m' : serve f l m f' l' m' -> List.NoDup (map fst l) ->
  (forall x, In x (map fst l) -> m !! x = None) -> (has b f' + held b m' = has b f + held b m)%nat.
Proof.
  induction 1 as [f m|f x w l m f' l' m' Hn Hs IH|f x w l m f' l' m' Ha Hs IH]; cbn [map fst]; intros N Hm; [done|..];
    apply List.NoDup_cons_iff in N as [Hx N].
  - apply IH; [done|]. intros y Hy. apply Hm. by right.
  - rewrite IH; [|done|].
    + rewrite held_insert by (apply Hm; by left). rewrite (has_after b f w). lia.
    + intros y Hy. rewrite lookup_insert_ne by (intros <-; done). apply Hm. by right.
Qed.

Lemma step_stock b fifo l c c' : step fifo l c c' -> inv c -> no_wake l -> (consumed b l + stock b c' <= sent b l + stock b c)%nat.
Proof.
  intros St [A1 A2 A3] Hw. unfold stock.
  destruct St as [f c f' l' m' Hf Hs|x w c Ha|x w c Ha|x w c l1 l2 Ha Hx Hg El Hl|x b0 got c Hg|x b0 e c Hg Hx He|x w c Hin|x c Hx|x c|c];
    cbn [consumed sent flags granted]; try done; try lia.
  - pose proof (serve_stock b _ _ _ _ _ _ Hs A2 A3). unfold has in *.
    destruct (decide (b ∈ flags c ∪ f)), (decide (b ∈ flags c)), (decide (b ∈ f)); try lia. set_solver.
  - rewrite (has_after b (flags c) w). lia.
  - rewrite (held_delete b x b0 got (granted c)) by done. destruct b0; lia.
  - destruct b0; lia.
  - assert (has b ∅ = 0%nat) as -> by (unfold has; by rewrite decide_False by set_solver). lia.
Qed.

Lemma run_stock b fifo tr c c' : run fifo tr c c' -> inv c -> Forall no_wake tr ->
  (list_sum (map (consumed b) tr) + stock b c' <= list_sum (map (sent b) tr) + stock b c)%nat.
Proof.
  induction 1 as [a|l r a b' c St R IH]; intros Hi Hw; [cbn; lia|]. apply Forall_cons in Hw as [Hl Hw].
  pose proof (step_stock b fifo l a b' St Hi Hl). specialize (IH (flags_step_inv _ _ _ _ St Hi) Hw).
  unfold list_sum in *. cbn [map fold_right]. lia.
Qed.

Lemma run_app fifo l1 l2 a b c : run fifo l1 a b -> run fifo l2 b c -> run fifo (l1 ++ l2) a c.
Proof. induction 1 as [d|l r d e f St Rn IH]; intros R2; [done|]. cbn. eapply run_cons; [exact St|]. by apply IH. Qed.
End Flags.

(* ------------------------------------------------------------------ *)
(** ** Bits as sets *)

Definition bits (v : Z) : gset Z := list_to_set (base.filter (fun i => Z.testbit v i = true) (seqZ 0 32)).

Lemma elem_of_bits v i : i ∈ bits v <-> 0 <= i < 32 /\ Z.testbit v i = true.
Proof. unfold bits. rewrite elem_of_list_to_set, list_elem_of_filter, elem_of_seqZ. intuition lia. Qed.

Lemma u32_high v i : is_u32 v -> 32 <= i -> Z.testbit v i = false.
Proof.
  intros Hv Hi. rewrite Z.testbit_eqb by lia. rewrite Z.div_small; [done|]. unfold is_u32 in Hv.
  pose proof (Z.pow_le_mono_r 2 32 i ltac:(lia) ltac:(lia)) as H. change (2 ^ 32) with 4294967296 in H. lia.
Qed.

Lemma u32_eq v w : is_u32 v -> is_u32 w -> (forall i, 0 <= i < 32 -> Z.testbit v i = Z.testbit w i) -> v = w.
Proof.
  intros Hv Hw H. apply Z.bits_inj'. intros i Hi. destruct (Z_lt_le_dec i 32); [by apply H|]. by rewrite !u32_high.
Qed.

Lemma u32_bits v : is_u32 v <-> 0 <= v /\ forall i, 32 <= i -> Z.testbit v i = false.
Proof.
  split; [intros Hv; split; [apply Hv|intros i; by apply u32_high]|]. intros [H0 H]. split; [done|].
  assert (v = v mod 2 ^ 32) as ->; [|pose proof (Z.mod_pos_bound v (2 ^ 32)); lia].
  apply Z.bits_inj'. intros i Hi. destruct (Z_lt_le_dec i 32); [by rewrite Z.mod_pow2_bits_low by lia|].
  rewrite Z.mod_pow2_bits_high by lia. by apply H.
Qed.

Lemma u32_land v w : is_u32 v -> is_u32 w -> is_u32 (Z.land v w).
Proof.
  rewrite !u32_bits. intros [H1 H2] [H3 H4]. split; [by apply Z.land_nonneg; left|]. intros i Hi. by rewrite Z.land_spec, H2.
Qed.
Lemma u32_lor v w : is_u32 v -> is_u32 w -> is_u32 (Z.lor v w).
Proof.
  rewrite !u32_bits. intros [H1 H2] [H3 H4]. split; [by apply Z.lor_nonneg|]. intros i Hi. by rewrite Z.lor_spec, H2, H4.
Qed.
Lemma u32_ldiff v w : is_u32 v -> is_u32 w -> is_u32 (Z.ldiff v w).
Proof.
  rewrite !u32_bits. intros [H1 H2] [H3 H4]. split; [by apply Z.ldiff_nonneg; left|]. intros i Hi. by rewrite Z.ldiff_spec, H2.
Qed.

Lemma bits_land v w : bits (Z.land v w) = bits v ∩ bits w.
Proof.
  apply set_eq. intros i. rewrite elem_of_intersection, !elem_of_bits, Z.land_spec, andb_true_iff. tauto.
Qed.
Lemma bits_lor v w : bits (Z.lor v w) = bits v ∪ bits w.
Proof. apply set_eq. intros i. rewrite elem_of_union, !elem_of_bits, Z.lor_spec, orb_true_iff. tauto. Qed.
Lemma bits_ldiff v w : bits (Z.ldiff v w) = bits v ∖ bits w.
Proof.
  apply set_eq. intros i. rewrite elem_of_difference, !elem_of_bits, Z.ldiff_spec, andb_true_iff, negb_true_iff.
  destruct (Z.testbit w i); intuition congruence.
Qed.

Lemma bits_eq v w : is_u32 v -> is_u32 w -> bits v = bits w <-> v = w.
Proof.
  intros Hv Hw. split; [|by intros ->]. intros E. apply u32_eq; [done..|]. intros i Hi. rewrite set_eq in E.
  specialize (E i). rewrite !elem_of_bits in E. destruct (Z.testbit v i), (Z.testbit w i); intuition congruence.
Qed.

Lemma bits_0 : bits 0 = ∅.
Proof. vm_compute. reflexivity. Qed.

(** What a thread asks for, as the contract sees it. *)
Definition request_of (set opt : Z) : Flags.request :=
  Flags.Request (tst opt RT_EVENT_FLAG_AND) (tst opt RT_EVENT_FLAG_CLEAR) (bits set).
Definition opt_ok (opt : Z) : Prop := tst opt RT_EVENT_FLAG_AND || tst opt RT_EVENT_FLAG_OR = true.

Lemma received_spec have set opt : is_u32 have -> is_u32 set -> opt_ok opt -> exists b, received have set opt = Some b /\
  (b = true <-> Flags.answers (bits have) (request_of set opt)).
Proof.
  intros Hh Hs Ho. unfold received, Flags.answers, request_of. cbn [Flags.all Flags.mask]. rewrite <- bits_land.
  pose proof (u32_land set have Hs Hh) as Hl. unfold opt_ok in Ho. destruct (tst opt RT_EVENT_FLAG_AND).
  - eexists. split; [reflexivity|]. rewrite Z.eqb_eq, <- (bits_eq _ _ Hl Hs), bits_land. set_solver.
  - cbn in Ho. rewrite Ho. eexists. split; [reflexivity|]. rewrite negb_true_iff, Z.eqb_neq, <- bits_0.
    rewrite (bits_eq (Z.land set have) 0); [done|done|]. unfold is_u32. lia.
Qed.

(* ------------------------------------------------------------------ *)
(** ** The invariant and the contract's view of the state *)

Definition in_call (s : estate) (x o : Z) : Prop := calls s !! x = Some o.

Definition left_wellb (k : kernel) (o x : Z) : bool :=
  if In_dec Z.eq_dec x (lists k (Wait o)) then false
  else match threads k !! x with Some t => error t =? RT_EOK | None => false end.

(** What the thread [x], inside a receive of [o'], was granted by [o]. *)
Definition granted_by (s : estate) (o x o' : Z) : option (bool * gset Z) :=
  if (o' =? o) && left_wellb (kern s) o x then Some (tst (event_info s x) RT_EVENT_FLAG_CLEAR, bits (event_set s x)) else None.

Definition asks (s : estate) (x : Z) : Z * Flags.request := (x, request_of (event_set s x) (event_info s x)).
Definition pending (o : Z) (s : estate) : gset Z := match events s !! o with Some e => bits (flag_set e) | None => ∅ end.

Definition view (o : Z) (s : estate) : Flags.state :=
  Flags.State (pending o s) (map (asks s) (lists (kern s) (Wait o))) (map_imap (granted_by s o) (calls s)).

Lemma left_wellb_spec k o x : left_wellb k o x = true <-> left_well k o x.
Proof.
  unfold left_wellb, left_well. destruct (In_dec Z.eq_dec x (lists k (Wait o))) as [H|H]; [split; [done|by intros [? _]]|].
  destruct (threads k !! x) as [t|]; [|split; [done|by intros (_ & ? & [=] & _)]].
  rewrite Z.eqb_eq. split; [intros He; split; [done|by exists t]|]. by intros (_ & ? & [= <-] & ?).
Qed.

(** What was granted: the calls of [o] that were left well. *)
Definition promise (s : estate) (x : Z) : bool * gset Z := (tst (event_info s x) RT_EVENT_FLAG_CLEAR, bits (event_set s x)).

Lemma granted_spec o s x v : Flags.granted (view o s) !! x = Some v <-> in_call s x o /\ left_well (kern s) o x /\ v = promise s x.
Proof.
  unfold in_call, promise. cbn [view Flags.granted]. rewrite map_lookup_imap. unfold granted_by. destruct (calls s !! x) as [o'|]; cbn.
  2: { split; [done|by intros ([=] & _)]. }
  rewrite <- left_wellb_spec. destruct (Z.eqb_spec o' o) as [->|Hne]; cbn.
  - destruct (left_wellb (kern s) o x); [|by split; [|intros (_ & [=] & _)]].
    split; [by intros [= <-]|by intros (_ & _ & ->)].
  - split; [done|]. intros ([= ?] & _). done.
Qed.

Lemma view_is o s f l m : pending o s = f -> map (asks s) (lists (kern s) (Wait o)) = l ->
  (forall x v, m !! x = Some v <-> in_call s x o /\ left_well (kern s) o x /\ v = promise s x) -> view o s = Flags.State f l m.
Proof.
  intros Hf Hl Hm. unfold view. rewrite Hf, Hl. f_equal. apply map_eq. intros x. apply option_eq. intros v. rewrite Hm. apply granted_spec.
Qed.

(** Nothing that concerns the event [o] has changed. *)
Lemma view_same o s s' : pending o s' = pending o s -> lists (kern s') (Wait o) = lists (kern s) (Wait o) ->
  (forall x, in_call s' x o /\ left_well (kern s') o x <-> in_call s x o /\ left_well (kern s) o x) ->
  (forall x, In x (lists (kern s) (Wait o)) \/ in_call s x o -> event_set s' x = event_set s x /\ event_info s' x = event_info s x) ->
  view o s' = view o s.
Proof.
  intros Hp Hl Hw Hf. apply view_is; [done| |].
  - rewrite Hl. apply map_ext_in. intros x Hx. unfold asks. destruct (Hf x (or_introl Hx)) as [-> ->]. done.
  - intros x v. change (map_imap _ _) with (Flags.granted (view o s)). rewrite granted_spec. split; intros (H1 & H2 & ->).
    + destruct (proj2 (Hw x) (conj H1 H2)) as [H3 H4]. destruct (Hf x (or_intror H1)) as [E1 E2].
      unfold promise. by rewrite E1, E2.
    + destruct (proj1 (Hw x) (conj H1 H2)) as [H3 H4]. destruct (Hf x (or_intror H3)) as [E1 E2].
      unfold promise. by rewrite E1, E2.
Qed.

Lemma map_asks_drop s x l : map (asks s) (unlink x l) = Flags.drop x (map (asks s) l).
Proof.
  unfold unlink, Flags.drop. induction l as [|y l IH]; cbn; [done|]. destruct (y =? x); cbn; [done|by f_equal].
Qed.

Lemma names_view o s : Flags.names (view o s) = lists (kern s) (Wait o).
Proof. unfold Flags.names, view. cbn [Flags.sleeping]. rewrite map_map. apply map_id. Qed.

Lemma event_kern_bind {A B} (m : M kernel A) (f : A -> M estate B) s a k : m (kern s) = Some (a, k) ->
  bindM (on_kern m) f s = f a (with_kern k s).
Proof. intros E. unfold bindM, on_kern. by rewrite E. Qed.
Lemma event_eq {A} o e s (f : event -> M estate A) : events s !! o = Some e -> bindM (event_of o) f s = f e s.
Proof. intros E. unfold bindM, event_of. by rewrite E. Qed.
Lemma event_me_eq {A} x s (f : Z -> M estate A) : current (kern s) = Some x -> bindM (on_kern rt_thread_self) f s = f x s.
Proof. intros E. unfold bindM, on_kern, rt_thread_self. rewrite E. by destruct s. Qed.
Lemma event_th_eq {A} x t s (f : thread -> M estate A) : threads (kern s) !! x = Some t -> bindM (on_kern (thread_of x)) f s = f t s.
Proof. intros E. unfold bindM, on_kern, thread_of. rewrite E. by destruct s. Qed.

Section Ops.
Context (idle : Z).

Record einv (s : estate) : Prop := {
  ei_calls : cinv idle (in_call s) (kern s);
  ei_event : forall o e, events s !! o = Some e -> flag_ok (e_flag e) /\ is_u32 (flag_set e);
  ei_wait : forall o x, In x (lists (kern s) (Wait o)) -> is_Some (events s !! o) /\ opt_ok (event_info s x) /\ is_u32 (event_set s x) }.

(** The kernel changes and nobody joins a list. *)
Lemma einv_kern k s : einv s -> cinv idle (in_call s) k -> (forall o x, In x (lists k (Wait o)) -> In x (lists (kern s) (Wait o))) ->
  einv (with_kern k s).
Proof. intros [A1 A2 A3] Hc Hl. split; [done|done|]. intros o x Hx. by apply A3, Hl. Qed.

(** An event changes. *)
Lemma einv_put o e s : einv s -> flag_ok (e_flag e) -> is_u32 (flag_set e) -> einv (with_events (<[o := e]> (events s)) s).
Proof.
  intros [A1 A2 A3] Hf Hs. split; [done| |].
  - intros o' e'. cbn [events with_events]. destruct (decide (o' = o)) as [->|Hne]; [rewrite lookup_insert_eq; by intros [= <-]|].
    rewrite lookup_insert_ne by done. apply A2.
  - intros o' x Hx. destruct (A3 o' x Hx) as (H1 & H2). split; [|done]. cbn [events with_events].
    destruct (decide (o' = o)) as [->|Hne]; [rewrite lookup_insert_eq; by eexists|by rewrite lookup_insert_ne].
Qed.

Lemma waiter_in_call s o x : einv s -> In x (lists (kern s) (Wait o)) -> in_call s x o.
Proof. intros Hs. apply (ci_wait _ _ _ (ei_calls _ Hs)). Qed.

(** What an operation on the event [o] leaves to the others. *)
Record apart (o : Z) (s s' : estate) : Prop := {
  ap_inv : einv s'; ap_cur : current (kern s') = current (kern s);
  ap_flag : forall o' e, events s !! o' = Some e -> exists e', events s' !! o' = Some e' /\ e_flag e' = e_flag e;
  ap_none : forall o', events s !! o' = None -> events s' !! o' = None;
  ap_view : forall o', o' <> o -> view o' s' = view o' s }.

Lemma apart_refl o s : einv s -> apart o s s.
Proof. intros Hs. split; try done. intros o' e E. by exists e. Qed.

Lemma apart_trans o s1 s2 s3 : apart o s1 s2 -> apart o s2 s3 -> apart o s1 s3.
Proof.
  intros [A1 A2 A3 A4 A5] [B1 B2 B3 B4 B5]. split; [done|congruence| |auto|].
  - intros o' e E. destruct (A3 o' e E) as (e2 & E2 & F2). destruct (B3 o' e2 E2) as (e3 & E3 & F3). exists e3. split; [done|congruence].
  - intros o' Ho. by rewrite B5, A5.
Qed.

(* ------------------------------------------------------------------ *)
(** ** The operations on the contract *)

Definition labels (o : Z) (e : report) : list Flags.label :=
  match e with
  | RWake x => [Flags.Wake x]
  | RExpire x => [Flags.Expire x]
  | RSend o' set _ => if (o' =? o) && negb (set =? 0) then [Flags.Send (bits set)] else []
  | RAsk o' x set opt r =>
      if (o' =? o) && negb (set =? 0)
      then [Flags.Ask x (request_of set opt) (option_map (fun r => (fst r, option_map bits (snd r))) r)] else []
  | RBack o' x opt r => if o' =? o then [Flags.Back x (tst opt RT_EVENT_FLAG_CLEAR) (fst r, option_map bits (snd r))] else []
  | RReset o' => if o' =? o then [Flags.Reset] else []
  | RNone => []
  end.

(** An operation goes through steps of the contract, event by event. *)
Definition follows (e : report) (s s' : estate) (o : Z) : Prop := forall ev, events s !! o = Some ev ->
  Flags.run (e_flag ev =? RT_IPC_FLAG_FIFO) (labels o e) (view o s) (view o s').

Definition step_ok (op : eop) (s : estate) : Prop := exists e s', run_eop op s = Some (e, s') /\ einv s' /\
  (forall o ev, events s !! o = Some ev -> exists ev', events s' !! o = Some ev' /\ e_flag ev' = e_flag ev) /\
  (forall o, events s !! o = None -> events s' !! o = None) /\ forall o, follows e s s' o.

Lemma run_one fifo l a b : Flags.step fifo l a b -> Flags.run fifo [l] a b.
Proof. intros St. eapply Flags.run_cons; [exact St|constructor]. Qed.

Lemma follows_same e s s' o : labels o e = [] -> view o s' = view o s -> follows e s s' o.
Proof. intros E V ev _. rewrite E, V. constructor. Qed.

(** An operation on one event. *)
Lemma apart_ok op o e s s' : run_eop op s = Some (e, s') -> apart o s s' -> (forall o', o' <> o -> labels o' e = []) ->
  follows e s s' o -> step_ok op s.
Proof.
  intros E [A1 A2 A3 A4 A5] Hl Hf. exists e, s'. split_and!; try done. intros o'.
  destruct (decide (o' = o)) as [->|Hne]; [done|]. apply follows_same; auto.
Qed.

(** The kernel: the waits that end. *)
Lemma view_kernel o k s : (forall x, in_call s x o -> left_well k o x <-> left_well (kern s) o x) ->
  lists k (Wait o) = lists (kern s) (Wait o) -> view o (with_kern k s) = view o s.
Proof.
  intros Hw Hl. apply view_same; [done|done| |done]. intros x. cbn [kern with_kern]. unfold in_call. cbn [calls with_kern].
  specialize (Hw x). unfold in_call in Hw. tauto.
Qed.

Lemma view_drop o x k s m : lists k (Wait o) = unlink x (lists (kern s) (Wait o)) ->
  (forall y v, m !! y = Some v <-> in_call s y o /\ left_well k o y /\ v = promise s y) ->
  view o (with_kern k s) = Flags.State (Flags.flags (view o s)) (Flags.drop x (Flags.sleeping (view o s))) m.
Proof.
  intros Hl Hm. apply view_is; [done| |done]. cbn [kern with_kern]. rewrite Hl. by rewrite map_asks_drop.
Qed.

Lemma eop_kernel op s : einv s -> kop_ok idle op (kern s) -> kop_free (in_call s) op (kern s) -> step_ok (EKernel op) s.
Proof.
  intros Hs Ho Hf. pose proof (ei_calls _ Hs) as Hc. destruct (cinv_kop idle (in_call s) op (kern s) Hc Ho Hf) as (k & E & Hc' & Hl & Hw).
  exists (kernel_report op), (with_kern k s). split; [cbn [run_eop]; by rewrite (event_kern_bind _ _ s tt k E)|].
  split. { apply einv_kern; [done..|]. intros o x. rewrite Hl. by intros [? _]%in_drop. }
  split; [intros o ev Ev; by exists ev|]. split; [done|]. intros o ev Ev.
  assert ((forall x, op <> KResume x) -> lists k (Wait o) = lists (kern s) (Wait o) -> view o (with_kern k s) = view o s) as Hsame.
  { intros Hr El. apply view_kernel; [|done]. intros x Hx. rewrite (Hw x o Hx). split; [intros [?|[? _]]; [done|by destruct (Hr x)]|by left]. }
  destruct op as [| | | | | | | |y p n|y|y p|y|x|y|x]; cbn [kernel_report labels leaves drop_waiter] in *;
    try (rewrite Hsame by done; constructor).
  - destruct (In_dec Z.eq_dec x (lists (kern s) (Wait o))) as [Hx|Hx].
    + rewrite (view_drop o x k s (<[x := (Flags.clear (request_of (event_set s x) (event_info s x)), bits (event_set s x))]> (Flags.granted (view o s))) (Hl o)).
      * apply run_one, (Flags.st_wake _ x (request_of (event_set s x) (event_info s x))). cbn [view Flags.sleeping]. by apply in_map_iff; exists x.
      * intros y v. rewrite lookup_insert_Some, granted_spec. destruct (decide (x = y)) as [<-|Hne].
        -- pose proof (waiter_in_call s o x Hs Hx) as Hi. rewrite (Hw x o Hi). unfold promise. cbn. intuition congruence.
        -- split.
           ++ intros [[? _]|(_ & Hi & H1 & ->)]; [done|]. rewrite (Hw y o Hi). auto.
           ++ intros (Hi & H1 & ->). rewrite (Hw y o Hi) in H1. destruct H1 as [H1|[[= ->] _]]; [|done]. right. done.
    + rewrite view_kernel; [|intros y Hy; rewrite (Hw y o Hy); split; [intros [?|[[= ->] ?]]; done|by left]|by rewrite Hl, unlink_notin].
      apply run_one, Flags.st_wake_other. by rewrite names_view.
  - rewrite Hsame; [constructor|done|]. rewrite Hl. apply unlink_notin. intros Hy.
    by apply (Hf y o (waiter_in_call s o y Hs Hy)).
  - rewrite (view_drop o x k s (Flags.granted (view o s)) (Hl o)); [apply run_one, Flags.st_expire|].
    intros y v. rewrite granted_spec. split; intros (Hi & H1 & ->); specialize (Hw y o Hi); intuition congruence.
Qed.

(** Everybody on the list of [o] is sent away. *)
Lemma event_flush_spec o s : einv s -> exists k, rt_ipc_list_resume_all o (kern s) = Some (tt, k) /\ apart o s (with_kern k s) /\
  lists k (Wait o) = [] /\
  view o (with_kern k s) = Flags.State (Flags.flags (view o s)) [] (Flags.granted (view o s)).
Proof.
  intros Hs. destruct (cinv_flush idle (in_call s) o (kern s) (ei_calls _ Hs)) as (k & E & Hc & Ec & Hl & Hw).
  assert (lists k (Wait o) = []) as He by (by rewrite Hl, decide_True).
  exists k. split; [done|]. split; [split|split; [done|]]; try done.
  - apply einv_kern; [done..|]. intros j x. rewrite Hl. by destruct (decide (j = o)).
  - intros o' e Ee. by exists e.
  - intros o' Hne. apply view_kernel; [intros x; by apply Hw|by rewrite Hl, decide_False].
  - apply view_is; [done|cbn [kern with_kern]; by rewrite He|]. intros y v. rewrite granted_spec.
    split; intros (Hi & H1 & ->); specialize (Hw y o Hi); intuition congruence.
Qed.

(** The event itself changes. *)
Lemma put_apart o e e' s : einv s -> events s !! o = Some e -> e_flag e' = e_flag e -> is_u32 (flag_set e') ->
  apart o s (with_events (<[o := e']> (events s)) s) /\
  view o (with_events (<[o := e']> (events s)) s) = Flags.State (bits (flag_set e')) (Flags.sleeping (view o s)) (Flags.granted (view o s)).
Proof.
  intros Hs E Hf Hu. split; [split|]; cbn [kern events with_events]; try done.
  - apply einv_put; [done| |done]. rewrite Hf. by apply (ei_event _ Hs o).
  - intros o' e0 E0. destruct (decide (o' = o)) as [->|Hne]; [exists e'; rewrite lookup_insert_eq; split; [done|congruence]|].
    rewrite lookup_insert_ne by done. by exists e0.
  - intros o' E0. rewrite lookup_insert_ne by congruence. done.
  - intros o' Hne. apply view_same; try done. unfold pending. cbn [events with_events]. by rewrite lookup_insert_ne.
  - apply view_is; [|done|intros y v; exact (granted_spec o s y v)]. unfold pending. cbn [events with_events]. by rewrite lookup_insert_eq.
Qed.

Lemma eop_reset o s : einv s -> is_Some (events s !! o) -> step_ok (EReset o) s.
Proof.
  intros Hs [e Ee]. destruct (event_flush_spec o s Hs) as (k & E & A & _ & V).
  destruct (put_apart o e (Event 0 (e_flag e)) (with_kern k s) (ap_inv _ _ _ A) Ee eq_refl) as [A2 V2]; [cbn; unfold is_u32; lia|].
  apply (apart_ok (EReset o) o (RReset o) s (with_events (<[o := Event 0 (e_flag e)]> (events s)) (with_kern k s))).
  - cbn [run_eop]. unfold rt_event_reset_begin. by rewrite bindM_assoc, (event_eq o e), bindM_assoc, (event_kern_bind _ _ s tt k E) by done.
  - by eapply apart_trans.
  - intros o' Hne. cbn. by rewrite (proj2 (Z.eqb_neq _ _)) by congruence.
  - intros ev _. cbn [labels]. rewrite Z.eqb_refl. apply run_one. cbn [events with_kern] in V2. rewrite V2, V. cbn [flag_set].
    rewrite bits_0. exact (Flags.st_reset _ (view o s)).
Qed.

Lemma eop_detach o s : einv s -> is_Some (events s !! o) -> exists s', run_eop (EDetach o) s = Some (RNone, s') /\ einv s' /\
  events s' = delete o (events s) /\ forall o', o' <> o -> view o' s' = view o' s.
Proof.
  intros Hs [e Ee]. destruct (event_flush_spec o s Hs) as (k & E & A & El & _).
  exists (with_events (delete o (events s)) (with_kern k s)). split; [|split; [|split; [done|]]].
  - cbn [run_eop]. unfold rt_event_detach. by rewrite bindM_assoc, (event_eq o e), bindM_assoc, (event_kern_bind _ _ s tt k E) by done.
  - destruct (ap_inv _ _ _ A) as [A1 A2 A3]. split; [done| |].
    + intros o' e'. cbn [events with_events]. intros [_ E']%lookup_delete_Some. by apply (A2 o').
    + intros o' x Hx. destruct (A3 o' x Hx) as (H1 & H2). split; [|done]. cbn [events with_events].
      rewrite lookup_delete_ne; [done|]. intros <-. cbn [kern with_events with_kern] in Hx. by rewrite El in Hx.
  - intros o' Hne. rewrite <- (ap_view _ _ _ A o' Hne). apply view_same; try done. unfold pending. cbn [events with_events].
    by rewrite lookup_delete_ne.
Qed.

Lemma eop_init o flag s : einv s -> events s !! o = None -> flag_ok flag -> exists s', run_eop (EInit o flag) s = Some (RNone, s') /\
  einv s' /\ events s' = <[o := Event 0 flag]> (events s) /\ Flags.inv (view o s') /\ forall o', o' <> o -> view o' s' = view o' s.
Proof.
  intros Hs En Hf.
  assert (lists (kern s) (Wait o) = []) as El.
  { destruct (lists (kern s) (Wait o)) as [|x l] eqn:El; [done|]. destruct (ei_wait _ Hs o x) as ((e & E) & _); [rewrite El; by left|congruence]. }
  pose proof (list_set_nil o (kern s) El) as Hl. pose proof (ei_calls _ Hs) as Hc.
  set (k := list_set (Wait o) [] (kern s)) in *. assert (cinv idle (in_call s) k) as Hc'.
  { destruct Hc as [A1 A2 A3 A4]. split; [by apply kinv_list_nil| | |]; [intros i x; rewrite Hl; apply A2|done|].
    intros x i Hx. rewrite Hl. by apply A4. }
  assert (einv (with_kern k s)) as Hs1 by (apply einv_kern; [done..|]; intros i x; by rewrite Hl).
  exists (with_events (<[o := Event 0 flag]> (events s)) (with_kern k s)). split; [reflexivity|].
  split; [apply (einv_put o (Event 0 flag) (with_kern k s)); [done..|cbn; unfold is_u32; lia]|]. split; [done|].
  assert (lists k (Wait o) = []) as E0 by (by rewrite Hl). split.
  - split; unfold Flags.names, view; cbn [kern with_events with_kern Flags.sleeping]; rewrite E0; cbn; [by intros ? ? []|constructor|by intros ? []].
  - intros o' Hne. apply view_same; try done.
    + unfold pending. cbn [events with_events]. by rewrite lookup_insert_ne.
    + intros x. cbn [kern with_kern with_events]. unfold left_well. rewrite Hl. done.
Qed.

(** *** Sending *)

Definition set_of (x v : Z) (s : estate) : estate := EState (kern s) (events s) (at_thread x v (event_set s)) (event_info s) (calls s).
Definition info_of (x v : Z) (s : estate) : estate := EState (kern s) (events s) (event_set s) (at_thread x v (event_info s)) (calls s).

Lemma at_same x v f : at_thread x v f x = v.
Proof. unfold at_thread. by rewrite decide_True. Qed.
Lemma at_other x v f y : y <> x -> at_thread x v f y = f y.
Proof. intros H. unfold at_thread. by rewrite decide_False. Qed.

Lemma einv_set x v s : einv s -> is_u32 v -> einv (set_of x v s).
Proof.
  intros [A1 A2 A3] Hv. split; [done|done|]. intros o y Hy. destruct (A3 o y Hy) as (H1 & H2 & H3). split; [done|]. split; [done|].
  cbn [event_set set_of]. destruct (decide (y = x)) as [->|Hne]; [by rewrite at_same|by rewrite at_other].
Qed.

(** The waiting thread [x] of [o] is served from the flags of [e]. *)
Record granting (o x : Z) (e : event) (s s' : estate) : Prop := {
  gr_apart : apart o s s';
  gr_lists : lists (kern s') (Wait o) = unlink x (lists (kern s) (Wait o));
  gr_event : exists e', events s' !! o = Some e' /\ bits (flag_set e') = Flags.after (bits (flag_set e)) (snd (asks s x));
  gr_granted : Flags.granted (view o s') =
    <[x := (Flags.clear (snd (asks s x)), Flags.gets (bits (flag_set e)) (snd (asks s x)))]> (Flags.granted (view o s));
  gr_asks : forall y, y <> x -> asks s' y = asks s y }.

Definition served_event (opt got : Z) (e : event) : event :=
  if tst opt RT_EVENT_FLAG_CLEAR then Event (Z.ldiff (flag_set e) got) (e_flag e) else e.

Lemma served_event_put {A} o opt got e s (f : unit -> M estate A) : events s !! o = Some e ->
  bindM (if tst opt RT_EVENT_FLAG_CLEAR then put_event o (Event (Z.ldiff (flag_set e) got) (e_flag e)) else retM tt) f s =
  f tt (with_events (<[o := served_event opt got e]> (events s)) s).
Proof.
  intros E. unfold served_event. destruct (tst opt RT_EVENT_FLAG_CLEAR); [done|]. rewrite bindM_retM, insert_id by done. by destruct s.
Qed.

Lemma served_event_spec opt got e : is_u32 (flag_set e) -> is_u32 got -> is_u32 (flag_set (served_event opt got e)) /\
  e_flag (served_event opt got e) = e_flag e /\
  forall set, bits (flag_set e) ∖ bits got = bits (flag_set e) ∖ bits set ->
    bits (flag_set (served_event opt got e)) = Flags.after (bits (flag_set e)) (request_of set opt).
Proof.
  intros He Hg. unfold served_event, Flags.after, request_of. cbn [Flags.clear Flags.mask].
  destruct (tst opt RT_EVENT_FLAG_CLEAR); [|done]. cbn [flag_set e_flag]. split; [by apply u32_ldiff|]. split; [done|].
  intros set E. by rewrite bits_ldiff.
Qed.

(** The flags the thread gets. *)
Lemma got_spec have set opt : is_u32 have -> is_u32 set -> Flags.answers (bits have) (request_of set opt) ->
  let got := if tst opt RT_EVENT_FLAG_AND then set else Z.land set have in
  is_u32 got /\ bits got = Flags.gets (bits have) (request_of set opt) /\ bits have ∖ bits got = bits have ∖ bits set.
Proof.
  intros Hh Hs Ha. unfold Flags.answers, Flags.gets, request_of in *. cbn [Flags.all Flags.mask] in *.
  destruct (tst opt RT_EVENT_FLAG_AND); cbn zeta.
  - split; [done|]. split; [|done]. set_solver.
  - split; [by apply u32_land|]. rewrite bits_land. split; [done|]. apply set_eq. intros i. rewrite !elem_of_difference, elem_of_intersection. tauto.
Qed.

(** The state after a turn that served [x]. *)
Definition turned (o x got : Z) (e : event) (k : kernel) (s : estate) : estate :=
  let s1 := set_of x got s in with_kern k (with_events (<[o := e]> (events s1)) s1).

Lemma turned_other o x got e k s o' : einv s -> In x (lists (kern s) (Wait o)) -> o' <> o ->
  lists k (Wait o') = unlink x (lists (kern s) (Wait o')) ->
  (forall y i, in_call s y i -> left_well k i y <-> left_well (kern s) i y \/ y = x /\ In x (lists (kern s) (Wait i))) ->
  view o' (turned o x got e k s) = view o' s.
Proof.
  intros Hs Hx Hne Hl Hw. assert (forall y, In y (lists (kern s) (Wait o')) \/ in_call s y o' -> y <> x) as Hxy.
  { intros y [Hy|Hy] ->; apply Hne; apply (ci_one _ _ _ (ei_calls _ Hs) x); [by apply waiter_in_call|by apply waiter_in_call|done|by apply waiter_in_call]. }
  apply view_same.
  - unfold pending, turned. cbn [events with_kern with_events set_of]. by rewrite lookup_insert_ne.
  - cbn [turned kern with_kern]. rewrite Hl. apply unlink_notin. intros Hy. by apply (Hxy x); [left|].
  - intros y. unfold in_call. cbn [turned kern with_kern calls with_events set_of].
    split; intros [Hy H1]; (split; [done|]); [|apply (Hw y o' Hy); by left]. apply (Hw y o' Hy) in H1 as [H1|[-> _]]; [done|].
    by destruct (Hxy x (or_intror Hy)).
  - intros y Hy. cbn [turned event_set event_info with_kern with_events set_of]. by rewrite at_other by (by apply Hxy).
Qed.

Lemma turned_granted o x got e k s : einv s -> In x (lists (kern s) (Wait o)) ->
  (forall y i, in_call s y i -> left_well k i y <-> left_well (kern s) i y \/ y = x /\ In x (lists (kern s) (Wait i))) ->
  Flags.granted (view o (turned o x got e k s)) = <[x := (Flags.clear (snd (asks s x)), bits got)]> (Flags.granted (view o s)).
Proof.
  intros Hs Hx Hw. pose proof (waiter_in_call s o x Hs Hx) as Hic. apply map_eq. intros y. apply option_eq. intros v.
  rewrite lookup_insert_Some, !granted_spec. unfold in_call, promise.
  cbn [turned kern calls event_info event_set with_kern with_events set_of]. destruct (decide (x = y)) as [<-|Hne].
  - rewrite at_same, (Hw x o Hic). unfold in_call in Hic. change (Flags.clear (snd (asks s x))) with (tst (event_info s x) RT_EVENT_FLAG_CLEAR).
    split; [intros (_ & _ & ->); by left|]. intros [[_ <-]|[? _]]; [|done]. split_and!; auto.
  - rewrite at_other by done. split.
    + intros (Hy & H1 & ->). apply (Hw y o Hy) in H1 as [H1|[-> _]]; [|done]. right. done.
    + intros [[? _]|(_ & Hy & H1 & ->)]; [done|]. rewrite (Hw y o Hy). auto.
Qed.

Lemma event_turn_spec o x e s : einv s -> events s !! o = Some e -> In x (lists (kern s) (Wait o)) ->
  (event_turn o x s = Some (Some false, s) /\ ~ Flags.answers (bits (flag_set e)) (snd (asks s x))) \/
  exists s', event_turn o x s = Some (Some true, s') /\ Flags.answers (bits (flag_set e)) (snd (asks s x)) /\ granting o x e s s'.
Proof.
  intros Hs Ee Hx. destruct (ei_event _ Hs o e Ee) as [Hf Hu]. destruct (ei_wait _ Hs o x Hx) as (_ & Ho & Hw).
  destruct (received_spec (flag_set e) (event_set s x) (event_info s x) Hu Hw Ho) as (b & Er & Hb). cbn [asks snd].
  unfold event_turn. rewrite (event_eq o e), bindM_getM by done. cbn [fst snd]. rewrite Er.
  destruct b; [right|left; split; [done|]; intros Ha; by apply Hb in Ha]. pose proof (proj1 Hb eq_refl) as Ha.
  set (set := event_set s x) in *. set (opt := event_info s x) in *.
  destruct (got_spec _ _ _ Hu Hw Ha) as (Gu & Gb & Gd). set (got := if tst opt RT_EVENT_FLAG_AND then set else _) in *.
  destruct (served_event_spec opt got e Hu Gu) as (Su & Sf & Sb). specialize (Sb set Gd).
  destruct (kw_wait _ _ _ (ki_wf _ _ (ci_kern _ _ _ (ei_calls _ Hs))) o x Hx) as (_ & t & Et & _).
  destruct (cinv_resume idle (in_call s) x (kern s) (ei_calls _ Hs) ltac:(by exists t)) as (k & E & Hc & Ec & Hl & Hlw).
  set (s1 := set_of x got s). set (s2 := with_events (<[o := served_event opt got e]> (events s1)) s1).
  exists (turned o x got (served_event opt got e) k s). split; [|split; [done|]].
  { unfold put_set. rewrite bindM_doM. change (EState _ _ _ _ _) with s1. rewrite (served_event_put o opt got e s1) by done.
    by rewrite (event_kern_bind _ _ s2 tt k E). }
  split.
  - split; try done.
    + apply (einv_kern k s2); [apply einv_put; [by apply einv_set|by rewrite Sf|done]|done|]. intros j y. rewrite Hl. by intros [? _]%in_unlink.
    + intros o' e0 E0. cbn [turned events with_kern with_events set_of]. destruct (decide (o' = o)) as [->|Hne].
      * rewrite lookup_insert_eq. eexists. split; [done|]. congruence.
      * rewrite lookup_insert_ne by done. by exists e0.
    + intros o' E0. cbn [turned events with_kern with_events set_of]. rewrite lookup_insert_ne by congruence. done.
    + intros o' Hne. by apply turned_other.
  - cbn [turned kern with_kern]. apply Hl.
  - eexists. cbn [turned events with_kern with_events set_of]. rewrite lookup_insert_eq. done.
  - rewrite turned_granted by done. by rewrite Gb.
  - intros y Hy. unfold asks. cbn [turned event_set event_info with_kern with_events set_of]. by rewrite at_other.
Qed.

Lemma event_loop_spec o l : forall seen need s e, einv s -> events s !! o = Some e -> lists (kern s) (Wait o) = seen ++ l ->
  exists b s' l', event_loop o l need s = Some (Some b, s') /\ apart o s s' /\ lists (kern s') (Wait o) = seen ++ l' /\
    (forall y, In y seen -> asks s' y = asks s y) /\
    Flags.serve (bits (flag_set e)) (map (asks s) l) (Flags.granted (view o s))
      (pending o s') (map (asks s') l') (Flags.granted (view o s')).
Proof.
  induction l as [|x l IH]; intros seen need s e Hs Ee El; cbn [event_loop].
  - exists need, s, []. split; [done|]. split; [by apply apart_refl|]. split; [done|]. split; [done|]. unfold pending. rewrite Ee. constructor.
  - assert (In x (lists (kern s) (Wait o))) as Hx by (rewrite El; apply in_app_iff; right; by left).
    pose proof (kw_nodup _ _ _ (ki_wf _ _ (ci_kern _ _ _ (ei_calls _ Hs))) (Wait o) ltac:(done)) as N. rewrite El in N.
    pose proof (NoDup_remove_2 _ _ _ N) as Hnx. rewrite in_app_iff in Hnx.
    destruct (event_turn_spec o x e s Hs Ee Hx) as [(E & Hn)|(s1 & E & Ha & [G1 G2 (e1 & Ee1 & G3) G4 G5])]; rewrite (bindM_some _ _ _ _ _ E).
    + destruct (IH (seen ++ [x]) (need || false) s e Hs Ee) as (b & s' & l' & E' & A & El' & Hk & Sv); [by rewrite <- app_assoc|].
      exists b, s', (x :: l'). split; [done|]. split; [done|]. rewrite <- app_assoc in El'. split; [done|]. split.
      * intros y Hy. apply Hk. apply in_app_iff. by left.
      * cbn [map]. rewrite (Hk x) by (apply in_app_iff; right; by left). by apply (Flags.sv_skip _ x (snd (asks s x))).
    + assert (lists (kern s1) (Wait o) = seen ++ l) as El1.
      { rewrite G2, El. rewrite unlink_app. cbn [unlink List.filter]. rewrite Z.eqb_refl. cbn [negb].
        fold (unlink x l). rewrite !unlink_notin by tauto. done. }
      destruct (IH seen (need || true) s1 e1 (ap_inv _ _ _ G1) Ee1 El1) as (b & s' & l' & E' & A & El' & Hk & Sv).
      exists b, s', l'. split; [done|]. split; [by eapply apart_trans|]. split; [done|]. split.
      * intros y Hy. rewrite Hk by done. apply G5. intros ->. tauto.
      * rewrite G3, G4 in Sv. cbn [map]. apply (Flags.sv_grant _ x (snd (asks s x))); [done|].
        assert (map (asks s1) l = map (asks s) l) as <-; [|done]. apply map_ext_in. intros y Hy. apply G5. intros ->. tauto.
Qed.

Lemma eop_send o set s : einv s -> is_Some (events s !! o) -> is_u32 set -> step_ok (ESend o set) s.
Proof.
  intros Hs [e Ee] Hu. destruct (ei_event _ Hs o e Ee) as [Hf Hue].
  assert (forall r o', o' <> o -> labels o' (RSend o set r) = []) as Hlo.
  { intros r o' Hne. cbn. by rewrite (proj2 (Z.eqb_neq _ _)) by congruence. }
  destruct (Z.eqb_spec set 0) as [->|H0].
  { apply (apart_ok _ o (RSend o 0 (- RT_ERROR)) s s); [|by apply apart_refl|apply Hlo|].
    - cbn [run_eop]. unfold rt_event_send_begin. by rewrite bindM_assoc, (event_eq o e) by done.
    - apply follows_same; [|done]. cbn. by rewrite andb_false_r. }
  set (e1 := Event (Z.lor (flag_set e) set) (e_flag e)). set (s1 := with_events (<[o := e1]> (events s)) s).
  destruct (put_apart o e e1 s Hs Ee eq_refl ltac:(by apply u32_lor)) as [A1 V1]. fold s1 in A1, V1.
  destruct (event_loop_spec o (lists (kern s1) (Wait o)) [] false s1 e1 (ap_inv _ _ _ A1)) as (b & s' & l' & E & A & El' & _ & Sv);
    [by apply lookup_insert_eq|done|].
  apply (apart_ok _ o (RSend o set RT_EOK) s s'); [|by eapply apart_trans|apply Hlo|].
  - cbn [run_eop]. unfold rt_event_send_begin. rewrite bindM_assoc, (event_eq o e), (proj2 (Z.eqb_neq _ _) H0) by done.
    unfold put_event. rewrite bindM_assoc, bindM_doM, bindM_assoc, bindM_getM. cbn [fst snd]. by rewrite bindM_assoc, (bindM_some _ _ _ _ _ E).
  - intros ev Ev. cbn [labels]. rewrite Z.eqb_refl, (proj2 (Z.eqb_neq _ _) H0). apply run_one. cbn [andb negb].
    unfold view at 2. rewrite El'. cbn [app]. apply Flags.st_send.
    + rewrite <- bits_0. intros H. apply bits_eq in H; [done|done|]. unfold is_u32. lia.
    + change (map (asks s1) _) with (Flags.sleeping (view o s)) in Sv. rewrite V1 in Sv. cbn [Flags.granted] in Sv.
      cbn [e1 flag_set] in Sv. rewrite bits_lor in Sv. cbn [view Flags.flags]. unfold pending at 1. rewrite Ee. exact Sv.
Qed.

(** *** Receiving *)

Definition can_wait (x : Z) (s : estate) : Prop := running (kern s) x /\ x <> idle /\ calls s !! x = None.

(** A thread in no call changes its own fields. *)
Lemma fields_apart o x set opt s : einv s -> calls s !! x = None ->
  apart o s (info_of x opt (set_of x set s)) /\ view o (info_of x opt (set_of x set s)) = view o s.
Proof.
  intros Hs Hc. assert (forall o' y, In y (lists (kern s) (Wait o')) \/ in_call s y o' -> y <> x) as Hne.
  { intros o' y Hy ->. assert (in_call s x o') as E by (destruct Hy as [Hy|Hy]; [by apply waiter_in_call|done]). unfold in_call in E. congruence. }
  assert (forall o', view o' (info_of x opt (set_of x set s)) = view o' s) as V.
  { intros o'. apply view_same; try done. intros y Hy. cbn [event_set event_info info_of set_of].
    by rewrite !at_other by (by apply (Hne o')). }
  split; [|apply V]. split; [|done| |done|intros o' _; apply V].
  - destruct Hs as [A1 A2 A3]. split; [done|done|]. intros o' y Hy. cbn [event_set event_info info_of set_of].
    rewrite !at_other by (apply (Hne o'); by left). by apply A3.
  - intros o' e E. by exists e.
Qed.

Lemma note_apart o x e s : einv s -> is_Some (threads (kern s) !! x) -> calls s !! x = None ->
  exists k, upd x (with_error e) (kern s) = Some (tt, k) /\ apart o s (with_kern k s) /\ view o (with_kern k s) = view o s /\
    noted x e (kern s) k.
Proof.
  intros Hs Ht Hc. destruct (cinv_note idle (in_call s) x e (kern s) (ei_calls _ Hs) Ht) as (k & E & Hk & N & Hw).
  { intros i Hi. unfold in_call in Hi. congruence. }
  assert (forall o', view o' (with_kern k s) = view o' s) as V.
  { intros o'. apply view_kernel; [intros y; apply Hw|by rewrite (nt_lists _ _ _ _ N)]. }
  exists k. split; [done|]. split; [|done]. split; [|apply N| |done|intros o' _; apply V].
  - apply einv_kern; [done..|]. intros j y. by rewrite (nt_lists _ _ _ _ N).
  - intros o' e' E'. by exists e'.
Qed.

Lemma noted_running x e k k' : running k x -> noted x e k k' -> running k' x /\ exists t, threads k' !! x = Some t /\ error t = e.
Proof.
  intros (t & Ec & Et & Er) [N1 N2 N3 (t0 & t' & Et0 & Et' & Hs & He & _)]. rewrite Et in Et0. injection Et0 as <-.
  split; [|by exists t']. exists t'. rewrite N1, Hs. done.
Qed.

(** The thread [x] falls asleep on [o]. *)
Definition entered (x o : Z) (k : kernel) (s : estate) : estate := EState k (events s) (event_set s) (event_info s) (<[x := o]> (calls s)).

Lemma sleep_spec o x e time s t : einv s -> can_wait x s -> events s !! o = Some e -> threads (kern s) !! x = Some t -> error t = RT_EOK ->
  opt_ok (event_info s x) -> is_u32 (event_set s x) -> exists k1 k2,
  rt_ipc_list_suspend o x (e_flag e) (kern s) = Some (tt, k1) /\ (if 0 <? time then upd x (with_timer true) else retM tt) k1 = Some (tt, k2) /\
  apart o s (entered x o k2 s) /\ exists l1 l2, Flags.sleeping (view o s) = l1 ++ l2 /\ (e_flag e = RT_IPC_FLAG_FIFO -> l2 = []) /\
    view o (entered x o k2 s) = Flags.State (Flags.flags (view o s)) (l1 ++ asks s x :: l2) (Flags.granted (view o s)).
Proof.
  intros Hs (Hr & Hx & Hc) Ee Et He Ho Hu. destruct (ei_event _ Hs o e Ee) as [Hf _].
  assert (forall j, ~ in_call s x j) as Hn by (intros j Hj; unfold in_call in Hj; congruence).
  destruct (cinv_park idle (in_call s) o x (e_flag e) time (kern s) t (ei_calls _ Hs) Hr Hx Hf Hn Et He)
    as (k1 & k2 & E1 & E2 & Hk & P & Hnl & Hw).
  exists k1, k2. split; [done|]. split; [done|]. pose proof P as [P1 P2 _ P4 (l1 & l2 & El & El' & _ & Hfi & _)].
  assert (forall y j, in_call (entered x o k2 s) y j <-> in_call s y j \/ y = x /\ j = o) as Hi.
  { intros y j. unfold in_call. cbn [calls entered]. destruct (decide (y = x)) as [->|Hne].
    - rewrite lookup_insert_eq, Hc. intuition congruence.
    - rewrite lookup_insert_ne by done. intuition congruence. }
  split; [split|]; try done.
  - split; cbn [kern events event_info event_set entered]; [by apply (cinv_ext idle _ _ k2 (fun y j => iff_sym (Hi y j)))|apply (ei_event _ Hs)|].
    intros j y Hy. destruct (decide (y = x)) as [->|Hne].
    + split; [|done]. assert (j = o) as ->; [|by exists e]. apply (kw_wait1 _ _ _ (ki_wf _ _ (ci_kern _ _ _ Hk)) _ _ x); [done|].
      rewrite El'. apply in_app_iff. right. by left.
    + apply (ei_wait _ Hs). destruct (decide (j = o)) as [->|Hj]; [|by rewrite <- P4]. rewrite El. rewrite El' in Hy.
      apply in_app_iff in Hy as [?|[?|?]]; [apply in_app_iff; by left|congruence|apply in_app_iff; by right].
  - intros o' e' E'. by exists e'.
  - intros o' Hne. apply view_same; [done|by apply P4| |done]. intros y. rewrite Hi. cbn [kern entered].
    split; [intros [[Hy|[_ ?]] H1]; [|done]|intros [Hy H1]; split; [by left|]; by apply (Hw y o' Hy)]. split; [done|by apply (Hw y o' Hy)].
  - exists (map (asks s) l1), (map (asks s) l2). cbn [view Flags.sleeping]. rewrite El, map_app. split; [done|]. split; [intros H; by rewrite (Hfi H)|].
    apply view_is; [done|cbn [kern entered]; rewrite El'; by rewrite map_app|]. intros y v.
    change (map_imap _ _) with (Flags.granted (view o s)). rewrite granted_spec, Hi. cbn [kern entered].
    split; [intros (Hy & H1 & ->); rewrite (Hw y o Hy); auto|]. intros ([Hy|[-> _]] & H1 & ->); [|done]. rewrite (Hw y o Hy) in H1. done.
Qed.

Lemma idle_thread_outside o x s : einv s -> calls s !! x = None ->
  ~ In x (Flags.names (view o s)) /\ Flags.granted (view o s) !! x = None.
Proof.
  intros Hs Hc. split.
  - rewrite names_view. intros Hx. pose proof (waiter_in_call s o x Hs Hx) as H. unfold in_call in H. congruence.
  - destruct (Flags.granted (view o s) !! x) as [v|] eqn:E; [|done]. apply granted_spec in E as (H & _). unfold in_call in H. congruence.
Qed.

(** What [rt_event_recv] leaves: the state and the step of the contract. *)
Definition recv_done (o x set opt : Z) (e : event) (r : option (Z * option Z)) (s s' : estate) : Prop :=
  apart o s s' /\ Flags.step (e_flag e =? RT_IPC_FLAG_FIFO)
    (Flags.Ask x (request_of set opt) (option_map (fun r => (fst r, option_map bits (snd r))) r)) (view o s) (view o s').

Lemma recv_take o x set opt e s : einv s -> events s !! o = Some e -> can_wait x s -> is_u32 set ->
  Flags.answers (bits (flag_set e)) (request_of set opt) ->
  (exists t, threads (kern s) !! x = Some t /\ error t = RT_EOK) ->
  exists r s', recv_at_once o x set opt e s = Some (r, s') /\ recv_done o x set opt e r s s'.
Proof.
  intros Hs Ee (_ & _ & Hc) Hu Ha (t & Et & He). set (got := Z.land (flag_set e) set). destruct (ei_event _ Hs o e Ee) as [Hf Hue].
  destruct (fields_apart o x got opt s Hs Hc) as [A1 V1]. set (s1 := info_of x opt (set_of x got s)) in *.
  destruct (served_event_spec opt set e Hue Hu) as (Su & Sf & Sb).
  destruct (put_apart o e (served_event opt set e) s1 (ap_inv _ _ _ A1) Ee Sf Su) as [A2 V2].
  exists (Some (RT_EOK, Some got)), (with_events (<[o := served_event opt set e]> (events s1)) s1). split; [|split; [by eapply apart_trans|]].
  - unfold recv_at_once. fold got. unfold put_set, put_info. rewrite !bindM_doM. change (EState _ _ _ _ _) with s1. rewrite (served_event_put o opt set e s1) by done.
    rewrite (event_th_eq x t) by done. by rewrite He.
  - rewrite V2, V1, (Sb set eq_refl). cbn [option_map fst snd].
    assert (bits got = Flags.gets (bits (flag_set e)) (request_of set opt)) as ->.
    { unfold got, Flags.gets. rewrite bits_land. cbn [Flags.mask request_of]. apply intersection_comm_L. }
    assert (bits (flag_set e) = Flags.flags (view o s)) as Ef by (cbn [view Flags.flags]; unfold pending; by rewrite Ee).
    rewrite Ef in *. by apply Flags.st_take.
Qed.

Lemma recv_sleep o x set opt time e s : einv s -> events s !! o = Some e -> can_wait x s -> is_u32 set -> opt_ok opt ->
  ~ Flags.answers (bits (flag_set e)) (request_of set opt) ->
  (exists t, threads (kern s) !! x = Some t /\ error t = RT_EOK) ->
  exists r s', recv_wait o x set opt time e s = Some (r, s') /\ recv_done o x set opt e r s s'.
Proof.
  intros Hs Ee Hw Hu Ho Hna (t & Et & He). pose proof Hw as (_ & _ & Hc). unfold recv_wait.
  assert (bits (flag_set e) = Flags.flags (view o s)) as Ef by (cbn [view Flags.flags]; unfold pending; by rewrite Ee).
  rewrite Ef in Hna. destruct (Z.eqb_spec time 0) as [->|Ht].
  - destruct (note_apart o x (- RT_ETIMEOUT) s Hs ltac:(by eexists) Hc) as (k & E & A & V & _).
    exists (Some (- RT_ETIMEOUT, None)), (with_kern k s). rewrite (event_kern_bind _ _ s tt k E). split; [done|].
    split; [done|]. rewrite V. by apply Flags.st_refuse.
  - destruct (fields_apart o x set opt s Hs Hc) as [A1 V1]. set (s1 := info_of x opt (set_of x set s)) in *.
    destruct (sleep_spec o x e time s1 t (ap_inv _ _ _ A1) Hw Ee Et He) as (k1 & k2 & E1 & E2 & A2 & l1 & l2 & El & Hfi & V2);
      [cbn; by rewrite at_same..|].
    exists None, (entered x o k2 s1). split.
    + unfold put_set, put_info. rewrite !bindM_doM. change (EState _ _ _ _ _) with s1.
      rewrite (event_kern_bind _ _ s1 tt k1 E1). destruct (0 <? time); [by rewrite (event_kern_bind _ _ (with_kern k1 s1) tt k2 E2)|].
      injection E2 as ->. done.
    + split; [by eapply apart_trans|]. rewrite V2. rewrite V1 in *. destruct (idle_thread_outside o x s Hs Hc) as [O1 O2].
      assert (asks s1 x = (x, request_of set opt)) as -> by (unfold asks; cbn [event_set event_info s1 info_of set_of]; by rewrite !at_same).
      apply Flags.st_sleep; [done..|]. intros Hfl%Z.eqb_eq. by rewrite (Hfi Hfl).
Qed.

Lemma eop_recv o set opt time s x : einv s -> is_Some (events s !! o) -> is_u32 set -> opt_ok opt -> can_wait x s ->
  step_ok (ERecv o set opt time) s.
Proof.
  intros Hs [e Ee] Hu Ho Hw. pose proof Hw as ((t & Ec & Et & Er) & Hx & Hc). destruct (ei_event _ Hs o e Ee) as [Hf Hue].
  assert (forall r o', o' <> o -> labels o' (RAsk o x set opt r) = []) as Hlo.
  { intros r o' Hne. cbn. by rewrite (proj2 (Z.eqb_neq _ _)) by congruence. }
  assert (forall r s', rt_event_recv_begin o set opt time s = Some (r, s') -> run_eop (ERecv o set opt time) s = Some (RAsk o x set opt r, s')) as Hrun.
  { intros r s' E. cbn [run_eop]. by rewrite (event_me_eq x), (bindM_some _ _ _ _ _ E) by done. }
  destruct (Z.eqb_spec set 0) as [->|H0].
  { apply (apart_ok _ o (RAsk o x 0 opt (Some (- RT_ERROR, None))) s s); [|by apply apart_refl|apply Hlo|].
    - apply Hrun. unfold rt_event_recv_begin. by rewrite (event_eq o e) by done.
    - apply follows_same; [|done]. cbn. by rewrite andb_false_r. }
  destruct (note_apart o x RT_EOK s Hs ltac:(by eexists) Hc) as (k1 & E1 & A1 & V1 & N1). set (s1 := with_kern k1 s) in *.
  destruct (noted_running x RT_EOK (kern s) k1 ltac:(by exists t) N1) as (Hr1 & t1 & Et1 & He1).
  pose proof (ap_inv _ _ _ A1) as Hs1. assert (can_wait x s1) as Hw1 by done.
  destruct (received_spec (flag_set e) set opt Hue Hu Ho) as (b & Eb & Hb).
  assert (exists r s', (if b then recv_at_once o x set opt e else recv_wait o x set opt time e) s1 = Some (r, s') /\
    recv_done o x set opt e r s1 s') as (r & s' & E & A & St).
  { destruct b; [apply recv_take|apply recv_sleep]; try done; [by apply Hb|by exists t1|intros Ha; by apply Hb in Ha|by exists t1]. }
  apply (apart_ok _ o (RAsk o x set opt r) s s'); [apply Hrun|by eapply apart_trans|apply Hlo|].
  - unfold rt_event_recv_begin.
    rewrite (event_eq o e), (proj2 (Z.eqb_neq _ _) H0), (event_me_eq x), (event_kern_bind _ _ s tt k1 E1), Eb by done. by destruct b.
  - intros ev Ev. rewrite Ee in Ev. injection Ev as <-. cbn [labels]. rewrite Z.eqb_refl, (proj2 (Z.eqb_neq _ _) H0). rewrite V1 in St. by apply run_one.
Qed.

(** A thread goes on. *)
Lemma eop_resume s x o : einv s -> running (kern s) x -> calls s !! x = Some o -> step_ok EResume s.
Proof.
  intros Hs Hr Hc. pose proof Hr as (t & Ec & Et & Er). pose proof (ei_calls _ Hs) as Hci.
  pose proof (fun i => running_not_waiting idle _ _ x i Hci Hr) as Hnx.
  set (s' := with_calls (delete x (calls s)) s).
  assert (forall y j, in_call s' y j <-> in_call s y j /\ y <> x) as Hi.
  { intros y j. unfold in_call. cbn [calls s' with_calls]. rewrite lookup_delete_Some. intuition congruence. }
  assert (einv s') as Hs'.
  { split; [|apply (ei_event _ Hs)|apply (ei_wait _ Hs)]. apply (cinv_ext idle _ _ _ (fun y j => iff_sym (Hi y j))). by apply cinv_leave. }
  set (r := if negb (error t =? RT_EOK) then (error t, None) else (error t, Some (event_set s x))).
  assert (event_resume x s = Some (r, s')) as E.
  { unfold event_resume. rewrite Hc, (event_th_eq x t), bindM_doM by done. unfold r. by destruct (negb _). }
  apply (apart_ok _ o (RBack o x (event_info s x) r) s s').
  - cbn [run_eop]. rewrite (event_me_eq x), !bindM_getM by done. cbn [fst snd]. rewrite Hc, (bindM_some _ _ _ _ _ E). done.
  - split; try done; [intros o' e E'; by exists e|]. intros o' Hne. apply view_same; try done. intros y. rewrite Hi. cbn [kern s' with_calls].
    split; [tauto|]. intros [Hy H1]. split_and!; try done. intros ->. unfold in_call in Hy. congruence.
  - intros o' Hne. cbn. by rewrite (proj2 (Z.eqb_neq _ _)) by congruence.
  - intros ev _. cbn [labels]. rewrite Z.eqb_refl. apply run_one. unfold r.
    assert (forall v, Flags.granted (view o s) !! x = Some v <-> error t = RT_EOK /\ v = promise s x) as Hg.
    { intros v. rewrite granted_spec. split.
      - intros (_ & (_ & t' & Et' & He) & ->). split; [congruence|done].
      - intros [He ->]. split; [done|]. split; [split; [apply Hnx|by exists t]|done]. }
    destruct (Z.eqb_spec (error t) RT_EOK) as [He|He]; cbn [negb fst snd option_map].
    + rewrite He. replace (view o s') with (Flags.State (Flags.flags (view o s)) (Flags.sleeping (view o s)) (delete x (Flags.granted (view o s)))).
      * apply Flags.st_back. by apply Hg.
      * symmetry. apply view_is; [done|done|]. intros y v. rewrite lookup_delete_Some, granted_spec, Hi. cbn [kern s' with_calls]. intuition congruence.
    + replace (view o s') with (view o s).
      * apply Flags.st_back_error; [|rewrite names_view; apply Hnx|done].
        destruct (Flags.granted (view o s) !! x) as [v|] eqn:Ev; [|done]. by destruct (proj1 (Hg v) eq_refl).
      * symmetry. apply view_same; [done|done| |done]. intros y. rewrite Hi. cbn [kern s' with_calls].
        split; [tauto|]. intros [Hy (H1 & ty & Ey & Hey)]. split; [split; [done|]|by split; [|exists ty]]. intros ->. congruence.
Qed.

(* ------------------------------------------------------------------ *)
(** ** Runs *)

(** The rules of use: an event is initialised once, a thread waits in one call
    at a time and asks for all or for some of its flags. *)
Definition eop_ok (op : eop) (s : estate) : Prop :=
  match op with
  | EKernel op => kop_ok idle op (kern s) /\ kop_free (in_call s) op (kern s)
  | EInit o flag => events s !! o = None /\ flag_ok flag
  | ESend o set => is_Some (events s !! o) /\ is_u32 set
  | ERecv o set opt _ => is_Some (events s !! o) /\ is_u32 set /\ opt_ok opt /\ exists x, can_wait x s
  | EResume => exists x o, running (kern s) x /\ calls s !! x = Some o
  | EReset o | EDetach o => is_Some (events s !! o)
  end.

Fixpoint eops_ok (ops : list eop) (s : estate) : Prop :=
  match ops with
  | [] => True
  | op :: r => eop_ok op s /\ match run_eop op s with Some (_, s') => eops_ok r s' | None => True end
  end.

(** The invariant, and no event has a thread asleep that it could serve. *)
Definition fine (s : estate) : Prop := einv s /\ forall o, is_Some (events s !! o) -> Flags.inv (view o s).

Lemma eop_spec op s : fine s -> eop_ok op s -> exists e s', run_eop op s = Some (e, s') /\ fine s' /\
  forall o ev, op <> EDetach o -> events s !! o = Some ev ->
    (exists ev', events s' !! o = Some ev' /\ e_flag ev' = e_flag ev) /\
    Flags.run (e_flag ev =? RT_IPC_FLAG_FIFO) (labels o e) (view o s) (view o s').
Proof.
  intros [Hs Hf] Ho.
  assert (step_ok op s -> exists e s', run_eop op s = Some (e, s') /\ fine s' /\
    forall o ev, op <> EDetach o -> events s !! o = Some ev ->
      (exists ev', events s' !! o = Some ev' /\ e_flag ev' = e_flag ev) /\
      Flags.run (e_flag ev =? RT_IPC_FLAG_FIFO) (labels o e) (view o s) (view o s')) as Hst.
  { intros (e & s' & E & Hs' & Hk & Hn & F). exists e, s'. split; [done|]. split; [split; [done|]|].
    - intros o [ev' Ev']. destruct (events s !! o) as [ev|] eqn:Ev; [|by rewrite Hn in Ev']. 
      exact (Flags.flags_run_inv _ _ _ _ (F o ev Ev) (Hf o ltac:(by exists ev))).
    - intros o ev _ Ev. split; [by apply Hk|]. by apply F. }
  destruct op as [op|o flag|o set|o set opt time| |o|o]; cbn [eop_ok] in Ho.
  - apply Hst. destruct Ho. by apply eop_kernel.
  - destruct Ho as [En Hfl]. destruct (eop_init o flag s Hs En Hfl) as (s' & E & Hs' & Ev & Hi & V). exists RNone, s'.
    split; [done|]. split; [split; [done|]|].
    + intros o' Ho'. destruct (decide (o' = o)) as [->|Hne]; [done|]. rewrite V by done. apply Hf. by rewrite Ev, lookup_insert_ne in Ho'.
    + intros o' ev _ Ev'. assert (o' <> o) as Hne by congruence. rewrite V by done. split; [|constructor].
      exists ev. by rewrite Ev, lookup_insert_ne.
  - apply Hst. destruct Ho. by apply eop_send.
  - apply Hst. destruct Ho as (H1 & H2 & H3 & x & H4). by apply (eop_recv o set opt time s x).
  - apply Hst. destruct Ho as (x & o & H1 & H2). by apply (eop_resume s x o).
  - apply Hst. by apply eop_reset.
  - destruct (eop_detach o s Hs Ho) as (s' & E & Hs' & Ev & V). exists RNone, s'. split; [done|]. split; [split; [done|]|].
    + intros o' Ho'. rewrite Ev in Ho'. destruct (decide (o' = o)) as [->|Hne]; [rewrite lookup_delete_eq in Ho'; by destruct Ho'|].
      rewrite V by done. apply Hf. by rewrite lookup_delete_ne in Ho'.
    + intros o' ev Hne' Ev'. assert (o' <> o) as Hne by congruence. rewrite V by done. split; [|constructor].
      exists ev. by rewrite Ev, lookup_delete_ne.
Qed.

Lemma eops_spec ops : forall s, fine s -> eops_ok ops s -> exists tr s', run_eops ops s = Some (tr, s') /\ fine s' /\
  forall o ev, ~ In (EDetach o) ops -> events s !! o = Some ev ->
    (exists ev', events s' !! o = Some ev' /\ e_flag ev' = e_flag ev) /\
    Flags.run (e_flag ev =? RT_IPC_FLAG_FIFO) (flat_map (labels o) tr) (view o s) (view o s').
Proof.
  induction ops as [|op ops IH]; intros s Hf Ho; cbn [run_eops eops_ok] in *.
  - exists [], s. split; [done|]. split; [done|]. intros o ev _ Ev. split; [by exists ev|constructor].
  - destruct Ho as [Ho Hr]. destruct (eop_spec op s Hf Ho) as (e & s1 & E & Hf1 & F). rewrite E in Hr.
    destruct (IH s1 Hf1 Hr) as (tr & s' & E' & Hf' & H). exists (e :: tr), s'.
    rewrite (bindM_some _ _ _ _ _ E), (bindM_some _ _ _ _ _ E'). split; [done|]. split; [done|].
    intros o ev Hd Ev. cbn in Hd. destruct (F o ev ltac:(tauto) Ev) as ((ev1 & Ev1 & Fl1) & R1).
    destruct (H o ev1 ltac:(tauto) Ev1) as ((ev' & Ev' & Fl') & R'). rewrite Fl1 in *. split; [by exists ev'|]. cbn [flat_map]. by eapply Flags.run_app.
Qed.

(** The state at the start of the system, without events. *)
Definition start (k : kernel) : estate := EState k ∅ (fun _ => 0) (fun _ => 0) ∅.

Lemma event_boot_fine cfg k : boot_ok idle cfg -> kernel_boot cfg = Some k -> fine (start k).
Proof.
  intros Hb E. pose proof (boot_iinv idle cfg k Hb E) as [Hk Ho _].
  assert (forall i, lists k (Wait i) = []) as Hl by (intros i; specialize (Ho i); cbn in Ho; by rewrite lookup_empty in Ho).
  split; [split|]; cbn [kern events calls start].
  - split; [done| |done|].
    + intros i x. by rewrite Hl.
    + intros x i H. unfold in_call in H. cbn [calls start] in H. by rewrite lookup_empty in H.
  - intros o e He. by rewrite lookup_empty in He.
  - intros o x. by rewrite Hl.
  - intros o [e He]. by rewrite lookup_empty in He.
Qed.
End Ops.

(* ------------------------------------------------------------------ *)
(** ** The rules of use, decided *)

Definition has_event (o : Z) (s : estate) : bool := match events s !! o with Some _ => true | None => false end.
Definition u32b (v : Z) : bool := (0 <=? v) && (v <? 4294967296).

(** No call of the kernel by, and no end of, a thread inside a receive. *)
Definition kop_freeb (op : kop) (s : estate) : bool :=
  let idle_call y := match calls s !! y with Some _ => false | None => true end in
  match op with
  | KSleep | KSleepExit | KExit => match current (kern s) with Some x => idle_call x | None => true end
  | KDelete y => idle_call y
  | _ => true
  end.

Definition eop_okb (idle : Z) (op : eop) (s : estate) : bool :=
  match op with
  | EKernel op => kop_okb idle op (kern s) && kop_freeb op s
  | EInit o flag => negb (has_event o s) && ((flag =? RT_IPC_FLAG_FIFO) || (flag =? RT_IPC_FLAG_PRIO))
  | ESend o set => has_event o s && u32b set
  | ERecv o set opt _ =>
      has_event o s && u32b set && (tst opt RT_EVENT_FLAG_AND || tst opt RT_EVENT_FLAG_OR) &&
      match current (kern s) with
      | Some x => runningb (kern s) x && negb (x =? idle) && match calls s !! x with Some _ => false | None => true end
      | None => false
      end
  | EResume => match current (kern s) with
               | Some x => runningb (kern s) x && match calls s !! x with Some _ => true | None => false end
               | None => false
               end
  | EReset o | EDetach o => has_event o s
  end.

Fixpoint eops_okb (idle : Z) (ops : list eop) (s : estate) : bool :=
  match ops with
  | [] => true
  | op :: r => eop_okb idle op s && match run_eop op s with Some (_, s') => eops_okb idle r s' | None => true end
  end.

Lemma has_event_spec o s : has_event o s = true -> is_Some (events s !! o).
Proof. unfold has_event. destruct (events s !! o) as [e|]; [by exists e|done]. Qed.

Lemma u32b_spec v : u32b v = true -> is_u32 v.
Proof. unfold u32b, is_u32. intros [H1 H2]%andb_true_iff. lia. Qed.

Lemma event_freeb_spec op s : kop_freeb op s = true -> kop_free (in_call s) op (kern s).
Proof.
  intros H x i Hx. unfold in_call in Hx. destruct op as [| | | | | | | |y p n|y|y p|y|y|y|y]; cbn in *; try done;
    [..|intros ->; by rewrite Hx in H]; intros Ex; by rewrite Ex, Hx in H.
Qed.

Lemma eop_okb_spec idle op s : eop_okb idle op s = true -> eop_ok idle op s.
Proof.
  destruct op as [op|o f|o set|o set opt time| |o|o]; cbn [eop_ok eop_okb]; intros H; breflect;
    auto using kop_okb_spec, event_freeb_spec, has_event_spec, u32b_spec.
  - unfold has_event in *. split; [by destruct (events s !! o)|].
    match goal with H : (_ || _) = true |- _ => apply orb_true_iff in H as [H|H]; apply Z.eqb_eq in H; subst f end; [by left|by right].
  - split; [by apply has_event_spec|]. split; [by apply u32b_spec|]. split; [done|]. destruct (current (kern s)) as [x|]; [|done].
    breflect. exists x. split; [by apply runningb_spec|]. split; [lia|]. by destruct (calls s !! x).
  - destruct (current (kern s)) as [x|]; [|done]. breflect. destruct (calls s !! x) as [o|] eqn:Ec; [|done].
    exists x, o. split; [by apply runningb_spec|done].
Qed.

Lemma eops_okb_spec idle ops : forall s, eops_okb idle ops s = true -> eops_ok idle ops s.
Proof.
  induction ops as [|op ops IH]; intros s; cbn [eops_ok eops_okb]; [done|]. intros [H1 H2]%andb_true_iff.
  split; [by apply eop_okb_spec|]. destruct (run_eop op s) as [[e s']|]; [by apply IH|done].
Qed.

(* ------------------------------------------------------------------ *)
(** ** Properties *)

(** A state the system reaches from its start. *)
Definition ereachable (idle : Z) (s : estate) : Prop := exists cfg k ops tr,
  boot_ok idle cfg /\ kernel_boot cfg = Some k /\ eops_ok idle ops (start k) /\ run_eops ops (start k) = Some (tr, s).

Lemma ereachable_fine idle s : ereachable idle s -> fine idle s.
Proof.
  intros (cfg & k & ops & tr & Hb & E & Ho & Er).
  destruct (eops_spec idle ops _ (event_boot_fine idle cfg k Hb E) Ho) as (tr' & s' & Er' & Hs & _). rewrite Er in Er'. by injection Er' as _ <-.
Qed.

(** C7: an event of the kernel is a set of flags that threads wait for.
    Whatever threads and interrupts do to it and to the rest of the system, no
    call fails an assertion, and the pending flags, the sleeping threads with
    their requests and what was granted to woken ones go through the steps of the
    abstract flags, with the results the callers were given; as long as nobody
    resumes a waiting thread from outside, a flag is received by threads that
    clear it at most as often as it was sent, counting once what was pending at
    the beginning. *)
Theorem event_refines_flags idle s ops o ev b :
  ereachable idle s -> events s !! o = Some ev -> eops_ok idle ops s -> ~ In (EDetach o) ops ->
  exists tr s', run_eops ops s = Some (tr, s') /\
    Flags.run (e_flag ev =? RT_IPC_FLAG_FIFO) (flat_map (labels o) tr) (view o s) (view o s') /\
    (Forall Flags.no_wake (flat_map (labels o) tr) ->
      (list_sum (map (Flags.consumed b) (flat_map (labels o) tr)) + Flags.stock b (view o s') <=
       list_sum (map (Flags.sent b) (flat_map (labels o) tr)) + Flags.stock b (view o s))%nat).
Proof.
  intros Hr Ev Ho Hd. pose proof (ereachable_fine idle s Hr) as [Hs Hi].
  destruct (eops_spec idle ops s (conj Hs Hi) Ho) as (tr & s' & E & _ & H). destruct (H o ev Hd Ev) as [_ R].
  exists tr, s'. split; [done|]. split; [done|]. intros Hw. eapply Flags.run_stock; [exact R|apply Hi; by exists ev|done].
Qed.

(** The event 7.  Thread 3 waits for the flags 0 and 1, thread 1 for the flag 1
    for 10 ticks; thread 2 sends the flag 0, which answers nobody, then 1: thread
    3, first in the list, takes and clears both; sent again, the flag 1 is for
    thread 1. *)
Definition event_prefix : list eop := [EInit 7 RT_IPC_FLAG_FIFO].
Definition event_ops : list eop :=
  [ERecv 7 3 5 (-1); EKernel KSchedule; ERecv 7 2 6 10; EKernel KSchedule; ESend 7 0; ESend 7 1; ESend 7 2;
   EKernel KSchedule; EResume; ERecv 7 3 5 0; EKernel KSleep; EKernel KSchedule; ESend 7 2; EKernel KSleep; EKernel KSchedule; EResume].
Definition event_after (ops : list eop) : estate :=
  match run_eops ops (start sample_kernel) with Some (_, s) => s | None => start sample_kernel end.
Definition event_trace (ops : list eop) (s : estate) : list report :=
  match run_eops ops s with Some (tr, _) => tr | None => [] end.

Example event_trace_eq : event_trace event_ops (event_after event_prefix) =
  [RAsk 7 3 3 5 None; RNone; RAsk 7 1 2 6 None; RNone; RSend 7 0 (- RT_ERROR); RSend 7 1 RT_EOK; RSend 7 2 RT_EOK;
   RNone; RBack 7 3 5 (RT_EOK, Some 3); RAsk 7 3 3 5 (Some (- RT_ETIMEOUT, None)); RNone; RNone; RSend 7 2 RT_EOK; RNone; RNone;
   RBack 7 1 6 (RT_EOK, Some 2)].
Proof. vm_compute. reflexivity. Qed.

Lemma event_after_reachable ops : eops_okb 0 ops (start sample_kernel) = true -> ereachable 0 (event_after ops).
Proof.
  intros Ho. apply eops_okb_spec in Ho.
  destruct (eops_spec 0 ops _ (event_boot_fine 0 sample_threads sample_kernel sample_boot_ok sample_boot) Ho) as (tr & s & E & _).
  exists sample_threads, sample_kernel, ops, tr. unfold event_after. rewrite E.
  split_and!; [exact sample_boot_ok|exact sample_boot|done|done].
Qed.

Lemma event_start_ok : eops_okb 0 event_prefix (start sample_kernel) = true /\
  eops_okb 0 event_ops (event_after event_prefix) = true /\
  events (event_after event_prefix) !! 7 = Some (Event 0 RT_IPC_FLAG_FIFO).
Proof. split_and!; vm_compute; reflexivity. Qed.

Lemma event_refines_flags_witness :
  exists tr s', run_eops event_ops (event_after event_prefix) = Some (tr, s') /\
    Flags.run true (flat_map (labels 7) tr) (view 7 (event_after event_prefix)) (view 7 s') /\
    (list_sum (map (Flags.consumed 1) (flat_map (labels 7) tr)) <= 2)%nat.
Proof.
  destruct (event_refines_flags 0 (event_after event_prefix) event_ops 7 _ 1 (event_after_reachable event_prefix (proj1 event_start_ok))
    (proj2 (proj2 event_start_ok)) (eops_okb_spec 0 event_ops _ (proj1 (proj2 event_start_ok))) ltac:(cbn; intuition congruence))
    as (tr & s' & E & R & H). exists tr, s'. split; [exact E|]. split; [exact R|].
  assert (tr = event_trace event_ops (event_after event_prefix)) as Et by (unfold event_trace; by rewrite E). rewrite event_trace_eq in Et.
  rewrite Et in *. specialize (H ltac:(cbn; repeat constructor)).
  assert (Flags.stock 1 (view 7 (event_after event_prefix)) = 0%nat) as E0 by (vm_compute; reflexivity). rewrite E0 in H.
  etransitivity; [|exact (Nat.le_trans _ _ _ (Nat.le_add_r _ _) H)]. apply Nat.le_refl.
Defined.

(** C8: no thread sleeps on an event that could serve it.  In every reachable
    state a thread on the list of an event is inside a receive of it and waits
    for some of its flags or for all, and the flags that are pending do not answer
    it: every send has looked at every thread that waits, every receive at every
    flag that is pending. *)
Theorem event_no_lost_wakeup idle s o x :
  ereachable idle s -> In x (lists (kern s) (Wait o)) ->
  exists ev t, events s !! o = Some ev /\ calls s !! x = Some o /\
    threads (kern s) !! x = Some t /\ st t = RT_THREAD_SUSPEND /\ error t = RT_EOK /\
    received (flag_set ev) (event_set s x) (event_info s x) = Some false.
Proof.
  intros Hr Hx. destruct (ereachable_fine idle s Hr) as [Hs Hi]. destruct (ei_wait _ _ Hs o x Hx) as ([ev Ev] & Ho & Hu).
  destruct (ei_event _ _ Hs o ev Ev) as [_ Hue]. pose proof (ei_calls _ _ Hs) as Hc. pose proof (waiter_in_call idle s o x Hs Hx) as Hic.
  destruct (ci_call _ _ _ Hc x o Hic) as (_ & t & Et & _ & He & _).
  destruct (kw_wait _ _ _ (ki_wf _ _ (ci_kern _ _ _ Hc)) o x Hx) as (_ & t' & Et' & Est). rewrite Et in Et'. injection Et' as <-.
  exists ev, t. split_and!; try done; [by apply He|]. destruct (received_spec _ _ _ Hue Hu Ho) as (b & Er & Hb). rewrite Er.
  destruct b; [|done]. destruct (Flags.iv_asleep _ (Hi o ltac:(by exists ev)) x (snd (asks s x))).
  - cbn [view Flags.sleeping]. apply in_map_iff. by exists x.
  - cbn [view Flags.flags]. unfold pending. rewrite Ev. by apply Hb.
Qed.

(** Threads 3 and 1 wait, the flags 0 and 1 were sent: 3 was served, 1 waits. *)
Definition both_sent : list eop := event_prefix ++ take 7 event_ops.

Lemma both_sent_ok : eops_okb 0 both_sent (start sample_kernel) = true /\
  lists (kern (event_after both_sent)) (Wait 7) = [1].
Proof. split; vm_compute; reflexivity. Qed.

Lemma event_no_lost_wakeup_witness : exists ev, events (event_after both_sent) !! 7 = Some ev /\
  received (flag_set ev) (event_set (event_after both_sent) 1) (event_info (event_after both_sent) 1) = Some false.
Proof.
  destruct both_sent_ok as [H1 H2].
  destruct (event_no_lost_wakeup 0 (event_after both_sent) 7 1 (event_after_reachable both_sent H1)) as (ev & t & Ev & _ & _ & _ & _ & H);
    [rewrite H2; by left|].
  exists ev. split; [exact Ev|exact H].
Defined.
