(* ===== verification/Object.v ===== *)
(** * Kernel objects

    rt-thread/src/object.c, the container that every thread, semaphore, timer and
    device is entered in: a list of objects per class, names of eight bytes;
    the string functions of kservice.c it uses; its clients in device.c
    ([rt_device_register] ..) and thread.c ([rt_thread_find]).  The contract
    ([Registry]) is one list of named objects.  Left out: hooks (none is set in
    this firmware) and the locks around the walks over the lists; the allocator
    is the argument [got], the address it returns. *)

From Stdlib Require Import ZArith Lia String.
From stdpp Require Import base numbers list gmap.
From S2P Require Import Prelude.
Open Scope c_scope.

Definition RT_NAME_MAX : nat := 8.

Definition RT_Object_Class_Null : Z := 0x00.
Definition RT_Object_Class_Thread : Z := 0x01.
Definition RT_Object_Class_Semaphore : Z := 0x02.
Definition RT_Object_Class_Mutex : Z := 0x03.
Definition RT_Object_Class_Event : Z := 0x04.
Definition RT_Object_Class_MailBox : Z := 0x05.
Definition RT_Object_Class_MessageQueue : Z := 0x06.
Definition RT_Object_Class_MemPool : Z := 0x08.
Definition RT_Object_Class_Device : Z := 0x09.
Definition RT_Object_Class_Timer : Z := 0x0a.
Definition RT_Object_Class_Static : Z := 0x80.

(** The classes of [rt_object_container] as rtconfig.h enables them. *)
Definition rt_object_container : list Z :=
  [ RT_Object_Class_Thread; RT_Object_Class_Semaphore; RT_Object_Class_Mutex; RT_Object_Class_Event; RT_Object_Class_MailBox;
    RT_Object_Class_MessageQueue; RT_Object_Class_MemPool; RT_Object_Class_Device; RT_Object_Class_Timer ].

Record rt_object := RtObject { name : list Z; type : Z; flag : Z }.

(** The fields of [struct rt_device] that registration sets. *)
Record device := Device { d_flag : Z; ref_count : Z; open_flag : Z }.

(** The objects by their address, the list of each element of the container,
    the devices. *)
Record ostate := OState { objects : gmap Z rt_object; object_list : nat -> list Z; devices : gmap Z device }.

(* ------------------------------------------------------------------ *)
(** ** Strings (kservice.c) *)

(** What [rt_strncpy(dst, src, n)] writes to [dst]. *)
Fixpoint rt_strncpy (src : list Z) (n : nat) : list Z :=
  match n with
  | O => []
  | S k => match src with
           | [] => 0 :: repeat 0 k
           | c :: r => c :: rt_strncpy r k
           end
  end.

(** The end of a string reads as its NUL. *)
Fixpoint rt_strncmp (cs ct : list Z) (count : nat) : Z :=
  match count with
  | O => 0
  | S k =>
      let __res := wraps 8 (hd 0 cs - hd 0 ct) in
      if negb (__res =? 0) || (hd 0 cs =? 0) then __res else rt_strncmp (tl cs) (tl ct) k
  end.

(* ------------------------------------------------------------------ *)
(** ** object.c *)

Definition object_of (x : Z) : M ostate rt_object := fun s =>
  match objects s !! x with Some o => Some (o, s) | None => None end.
Definition put_object (x : Z) (o : rt_object) : M ostate unit :=
  doM (fun s => OState (<[x := o]> (objects s)) (object_list s) (devices s)).
Definition free_object (x : Z) : M ostate unit :=
  doM (fun s => OState (delete x (objects s)) (object_list s) (devices s)).
(** [rt_list_insert_after(&information->object_list, &object->list)], and
    [rt_list_remove(&object->list)]. *)
Definition insert_after (i : nat) (x : Z) : M ostate unit :=
  doM (fun s => OState (objects s) (fun j => if decide (j = i) then x :: object_list s i else object_list s j) (devices s)).
Definition list_remove (x : Z) : M ostate unit :=
  doM (fun s => OState (objects s) (fun j => unlink x (object_list s j)) (devices s)).

(** The index of the first element of the container of this type. *)
Fixpoint find_type (cs : list Z) (index : nat) (t : Z) : option nat :=
  match cs with
  | [] => None
  | c :: r => if c =? t then Some index else find_type r (S index) t
  end.
Definition rt_object_get_information (t : Z) : option nat := find_type rt_object_container 0 t.

Definition info (t : Z) : M ostate nat := fun s =>
  match rt_object_get_information t with Some i => Some (i, s) | None => None end.

Definition rt_object_get_length (t : Z) : M ostate Z := fun s =>
  match rt_object_get_information t with
  | None => Some (0, s)
  | Some i => Some (Z.of_nat (length (object_list s i)), s)
  end.

(** The pointers it writes. *)
Fixpoint copy_pointers (l : list Z) (index maxlen : Z) : list Z :=
  match l with
  | [] => []
  | x :: r => x :: (if maxlen <=? index + 1 then [] else copy_pointers r (index + 1) maxlen)
  end.
Definition rt_object_get_pointers (t maxlen : Z) : M ostate (list Z) := fun s =>
  if maxlen <=? 0 then Some ([], s)
  else match rt_object_get_information t with
       | None => Some ([], s)
       | Some i => Some (copy_pointers (object_list s i) 0 maxlen, s)
       end.

(** Whether an object is on the list of an element of the container. *)
Definition linked (x : Z) (s : ostate) : bool :=
  existsb (fun i => existsb (Z.eqb x) (object_list s i)) (seq 0 (length rt_object_container)).

(** The memory of a static object may hold anything: its flag stays.  An object
    on the list of its class fails the assertion; one on another list breaks
    that list, and there is no result either. *)
Definition rt_object_init (x t : Z) (nm : list Z) : M ostate unit :=
  let! i := info t in
  let! on := getM (fun s => (linked x s, s)) in
  if on then failM
  else
    let! f := getM (fun s => (match objects s !! x with Some o => flag o | None => 0 end, s)) in
    do! put_object x (RtObject (rt_strncpy nm RT_NAME_MAX) (u8 (Z.lor t RT_Object_Class_Static)) f) in
    insert_after i x.

Definition rt_object_detach (x : Z) : M ostate unit :=
  let! o := object_of x in
  do! put_object x (RtObject (name o) 0 (flag o)) in
  list_remove x.

Definition rt_object_allocate (got : option Z) (t : Z) (nm : list Z) : M ostate (option Z) :=
  let! i := info t in
  match got with
  | None => retM None
  | Some x =>
      do! put_object x (RtObject (rt_strncpy nm RT_NAME_MAX) (u8 t) 0) in
      do! insert_after i x in
      retM (Some x)
  end.

Definition rt_object_is_systemobject (x : Z) : M ostate bool :=
  let! o := object_of x in retM (tst (type o) RT_Object_Class_Static).

Definition rt_object_get_type (x : Z) : M ostate Z :=
  let! o := object_of x in retM (Z.ldiff (type o) RT_Object_Class_Static).

Definition rt_object_delete (x : Z) : M ostate unit :=
  let! sys := rt_object_is_systemobject x in
  if sys then failM
  else
    let! o := object_of x in
    do! put_object x (RtObject (name o) RT_Object_Class_Null (flag o)) in
    do! list_remove x in
    free_object x.

(** The walk over the list of a class. *)
Fixpoint find_name (l : list Z) (nm : list Z) : M ostate (option Z) :=
  match l with
  | [] => retM None
  | x :: r =>
      let! o := object_of x in
      if rt_strncmp (name o) nm RT_NAME_MAX =? 0 then retM (Some x) else find_name r nm
  end.

Definition rt_object_find (nm : option (list Z)) (t : Z) : M ostate (option Z) :=
  match nm, rt_object_get_information t with
  | Some nm, Some i => let! l := getM (fun s => (object_list s i, s)) in find_name l nm
  | _, _ => retM None
  end.

(* ------------------------------------------------------------------ *)
(** ** Its clients (device.c, thread.c) *)

Definition rt_device_find (nm : option (list Z)) : M ostate (option Z) := rt_object_find nm RT_Object_Class_Device.
Definition rt_thread_find (nm : option (list Z)) : M ostate (option Z) := rt_object_find nm RT_Object_Class_Thread.

Definition rt_device_register (dev : option Z) (nm : list Z) (flags : Z) : M ostate Z :=
  match dev with
  | None => retM (- RT_ERROR)
  | Some x =>
      let! d := rt_device_find (Some nm) in
      match d with
      | Some _ => retM (- RT_ERROR)
      | None =>
          do! rt_object_init x RT_Object_Class_Device nm in
          do! doM (fun s => OState (objects s) (object_list s) (<[x := Device (u16 flags) 0 0]> (devices s))) in
          retM RT_EOK
      end
  end.

Definition rt_device_unregister (x : Z) : M ostate Z :=
  let! t := rt_object_get_type x in
  let! sys := rt_object_is_systemobject x in
  if negb (t =? RT_Object_Class_Device) || negb sys then failM
  else do! rt_object_detach x in retM RT_EOK.

(* ------------------------------------------------------------------ *)
(** ** What its callers do *)

Inductive oop :=
  | OInit (x t : Z) (nm : list Z) | ODetach (x : Z) | OAllocate (got : option Z) (t : Z) (nm : list Z) | ODelete (x : Z)
  | OFind (nm : option (list Z)) (t : Z) | OType (x : Z) | OSystem (x : Z) | OLength (t : Z) | OPointers (t maxlen : Z)
  | ORegister (dev : option Z) (nm : list Z) (flags : Z) | OUnregister (x : Z).

Inductive ores := RUnit | RPtr (x : option Z) | RInt (n : Z) | RPtrs (l : list Z).

Definition run_oop (op : oop) : M ostate ores :=
  match op with
  | OInit x t nm => do! rt_object_init x t nm in retM RUnit
  | ODetach x => do! rt_object_detach x in retM RUnit
  | OAllocate got t nm => let! r := rt_object_allocate got t nm in retM (RPtr r)
  | ODelete x => do! rt_object_delete x in retM RUnit
  | OFind nm t => let! r := rt_object_find nm t in retM (RPtr r)
  | OType x => let! r := rt_object_get_type x in retM (RInt r)
  | OSystem x => let! r := rt_object_is_systemobject x in retM (RInt (if r : bool then 1 else 0))
  | OLength t => let! r := rt_object_get_length t in retM (RInt r)
  | OPointers t maxlen => let! r := rt_object_get_pointers t maxlen in retM (RPtrs r)
  | ORegister dev nm flags => let! r := rt_device_register dev nm flags in retM (RInt r)
  | OUnregister x => let! r := rt_device_unregister x in retM (RInt r)
  end.

Fixpoint run_oops (ops : list oop) : M ostate (list ores) :=
  match ops with
  | [] => retM []
  | op :: r => let! a := run_oop op in let! l := run_oops r in retM (a :: l)
  end.

(** The container as the compiler initialises it. *)
Definition object_start : ostate := OState ∅ (fun _ => []) ∅.

(* ------------------------------------------------------------------ *)
(** ** The contract

    One list of entries, the newest first: address, class, what is left of the
    name, whether the object is static. *)
Module Registry.

Record entry := Entry { addr : Z; class : Z; key : list Z; static : bool }.

Definition named (t : Z) (nm : list Z) (e : entry) : bool := (class e =? t) && bool_decide (key e = take RT_NAME_MAX nm).

Definition lookup (nm : list Z) (t : Z) (reg : list entry) : option Z :=
  match List.filter (named t nm) reg with [] => None | e :: _ => Some (addr e) end.
Definition entry_at (x : Z) (reg : list entry) : option entry := List.find (fun e => addr e =? x) reg.
Definition drop (x : Z) (reg : list entry) : list entry := List.filter (fun e => negb (addr e =? x)) reg.
Definition of_class (t : Z) (reg : list entry) : list Z := map addr (List.filter (fun e => class e =? t) reg).

Definition step (op : oop) (reg : list entry) : ores * list entry :=
  match op with
  | OInit x t nm => (RUnit, Entry x t (take RT_NAME_MAX nm) true :: reg)
  | ODetach x | ODelete x => (RUnit, drop x reg)
  | OAllocate None t nm => (RPtr None, reg)
  | OAllocate (Some x) t nm => (RPtr (Some x), Entry x t (take RT_NAME_MAX nm) false :: reg)
  | OFind None t => (RPtr None, reg)
  | OFind (Some nm) t => (RPtr (lookup nm t reg), reg)
  | OType x => (RInt (match entry_at x reg with Some e => class e | None => 0 end), reg)
  | OSystem x => (RInt (match entry_at x reg with Some e => if static e then 1 else 0 | None => 0 end), reg)
  | OLength t => (RInt (Z.of_nat (length (of_class t reg))), reg)
  | OPointers t n => (RPtrs (take (Z.to_nat n) (of_class t reg)), reg)
  | ORegister None nm flags => (RInt (- RT_ERROR), reg)
  | ORegister (Some x) nm flags =>
      match lookup nm RT_Object_Class_Device reg with
      | Some _ => (RInt (- RT_ERROR), reg)
      | None => (RInt RT_EOK, Entry x RT_Object_Class_Device (take RT_NAME_MAX nm) true :: reg)
      end
  | OUnregister x => (RInt RT_EOK, drop x reg)
  end.

Fixpoint run (ops : list oop) (reg : list entry) : list ores * list entry :=
  match ops with
  | [] => ([], reg)
  | op :: r => let '(a, reg) := step op reg in let '(l, reg) := run r reg in (a :: l, reg)
  end.

(** The rules of use: a name is a C string of bytes, an object is entered once, what is taken out
    or asked for is there, only what was allocated is deleted, only a device
    unregistered; the allocator gives an address of its own. *)
Definition known (t : Z) : Prop := In t rt_object_container.
Definition fresh (x : Z) (reg : list entry) : Prop := ~ In x (map addr reg).
Definition cstring (nm : list Z) : Prop := Forall (fun c => 0 < c < 256) nm.

Definition ok (op : oop) (reg : list entry) : Prop :=
  match op with
  | OInit x t nm => known t /\ fresh x reg /\ cstring nm
  | OAllocate got t nm => known t /\ cstring nm /\ forall x, got = Some x -> fresh x reg
  | ODetach x | OType x | OSystem x => is_Some (entry_at x reg)
  | ODelete x => exists e, entry_at x reg = Some e /\ static e = false
  | OFind nm t => forall n, nm = Some n -> cstring n
  | OLength _ | OPointers _ _ => True
  | ORegister dev nm flags => cstring nm /\ forall x, dev = Some x -> fresh x reg
  | OUnregister x => exists e, entry_at x reg = Some e /\ static e = true /\ class e = RT_Object_Class_Device
  end.

Fixpoint all_ok (ops : list oop) (reg : list entry) : Prop :=
  match ops with [] => True | op :: r => ok op reg /\ all_ok r (snd (step op reg)) end.

(** Entries have addresses of their own and known classes, and the names of
    registered devices differ. *)
Record wf (reg : list entry) : Prop := {
  wf_addr : List.NoDup (map addr reg);
  wf_class : forall e, In e reg -> known (class e) }.
End Registry.
Import Registry.

(* ------------------------------------------------------------------ *)
(** ** Names *)

Lemma rt_strncpy_length src n : length (rt_strncpy src n) = n.
Proof. revert src; induction n as [|n IH]; intros [|c r]; cbn; rewrite ?repeat_length, ?IH; done. Qed.

Lemma rt_strncpy_pad src n : rt_strncpy src n = take n src ++ repeat 0 (n - length src).
Proof. revert src; induction n as [|n IH]; intros [|c r]; cbn [rt_strncpy take length Nat.sub app repeat]; rewrite ?IH; done. Qed.

Lemma wraps8_zero a b : 0 <= a < 256 -> 0 <= b < 256 -> (wraps 8 (a - b) =? 0) = (a =? b).
Proof.
  intros Ha Hb. apply eq_true_iff_eq. rewrite !Z.eqb_eq. unfold wraps. change (2 ^ (8 - 1)) with 128. change (2 ^ 8) with 256. split; [|intros ->; by rewrite Z.sub_diag].
  intros E. destruct (Z.lt_ge_cases (a - b) (-128)), (Z.lt_ge_cases (a - b) 128); try lia.
  - rewrite <- (Z_mod_plus_full _ 1), Z.mod_small in E by lia. lia.
  - rewrite Z.mod_small in E by lia. lia.
  - rewrite <- (Z_mod_plus_full _ (-1)), Z.mod_small in E by lia. lia.
Qed.

(** A stored name is found by the names that agree with it in eight bytes. *)
Lemma stored_name_found n : forall a b, cstring a -> cstring b ->
  (rt_strncmp (rt_strncpy a n) b n =? 0) = bool_decide (take n a = take n b).
Proof.
  induction n as [|n IH]; intros a b Ha Hb; [done|]. cbn [rt_strncmp].
  assert (0 <= hd 0 b < 256) as Hhb by (destruct Hb as [|c b Hc Hb]; cbn; lia).
  destruct Ha as [|c a Hc Ha]; cbn [rt_strncpy hd tl].
  - rewrite orb_true_r, wraps8_zero by lia. destruct Hb as [|d b Hd Hb]; cbn [hd take]; [done|].
    rewrite bool_decide_eq_false_2 by done. apply Z.eqb_neq. lia.
  - rewrite (proj2 (Z.eqb_neq c 0)) by lia. rewrite orb_false_r. destruct Hb as [|d b Hd Hb]; cbn [hd tl take] in *.
    + rewrite wraps8_zero by lia. rewrite bool_decide_eq_false_2 by done. rewrite (proj2 (Z.eqb_neq c 0)) by lia. cbn [negb].
      rewrite wraps8_zero by lia. apply Z.eqb_neq. lia.
    + rewrite wraps8_zero by lia. destruct (Z.eqb_spec c d) as [->|Hne]; cbn [negb].
      * rewrite IH by done. apply bool_decide_ext. split; [by intros ->|by intros [= ->]].
      * rewrite wraps8_zero by lia. rewrite bool_decide_eq_false_2 by congruence. by apply Z.eqb_neq.
Qed.

(* ------------------------------------------------------------------ *)
(** ** The container represents the registry *)

Record rep (s : ostate) (reg : list entry) : Prop := {
  rp_wf : wf reg;
  rp_list : forall i t, rt_object_container !! i = Some t -> object_list s i = of_class t reg;
  rp_obj : forall e, In e reg -> exists o nm, objects s !! addr e = Some o /\ name o = rt_strncpy nm RT_NAME_MAX /\
    key e = take RT_NAME_MAX nm /\ cstring nm /\ type o = if static e then Z.lor (class e) RT_Object_Class_Static else class e }.

Lemma info_known t : known t -> exists i, rt_object_get_information t = Some i /\ rt_object_container !! i = Some t.
Proof. unfold known, rt_object_container. cbn [In]. intros H. repeat destruct H as [<-|H]; try (eexists; split; reflexivity). done. Qed.

Lemma info_unknown t : ~ known t -> rt_object_get_information t = None.
Proof.
  unfold known, rt_object_get_information. generalize 0%nat. generalize rt_object_container. intros cs. induction cs as [|c cs IH]; intros i Hn; [done|].
  cbn in *. destruct (Z.eqb_spec c t) as [->|]; [destruct Hn; by left|]. apply IH. tauto.
Qed.

Lemma known_dec t : known t \/ ~ known t.
Proof. unfold known. destruct (In_dec Z.eq_dec t rt_object_container); auto. Qed.

Lemma class_inj i j t : rt_object_container !! i = Some t -> rt_object_container !! j = Some t -> i = j.
Proof.
  assert (NoDup rt_object_container) as N by (by apply (bool_decide_unpack _)). intros H1 H2. by apply (NoDup_lookup _ _ _ t N).
Qed.

Lemma known_bits t : known t -> u8 t = t /\ u8 (Z.lor t RT_Object_Class_Static) = Z.lor t RT_Object_Class_Static /\
  tst t RT_Object_Class_Static = false /\ tst (Z.lor t RT_Object_Class_Static) RT_Object_Class_Static = true /\
  Z.ldiff t RT_Object_Class_Static = t /\ Z.ldiff (Z.lor t RT_Object_Class_Static) RT_Object_Class_Static = t.
Proof. unfold known, rt_object_container. cbn [In]. intros H. repeat destruct H as [<-|H]; try done. Qed.

Lemma of_class_unknown t reg : wf reg -> ~ known t -> of_class t reg = [].
Proof.
  intros [_ H] Hn. unfold of_class. induction reg as [|e reg IH]; [done|]. cbn. destruct (Z.eqb_spec (class e) t) as [<-|].
  - destruct Hn. apply H. by left.
  - apply IH. intros e' He. apply H. by right.
Qed.

Lemma in_of_class t x reg : In x (of_class t reg) -> In x (map addr reg).
Proof. unfold of_class. rewrite !in_map_iff. intros (e & <- & [He _]%filter_In). by exists e. Qed.

Lemma of_class_drop t x reg : of_class t (drop x reg) = unlink x (of_class t reg).
Proof.
  unfold of_class, drop, unlink. induction reg as [|e reg IH]; [done|]. cbn. destruct (addr e =? x) eqn:Ex; cbn;
    destruct (class e =? t); cbn; rewrite ?Ex; cbn; rewrite ?IH; done.
Qed.

Lemma entry_at_spec x reg e : entry_at x reg = Some e -> In e reg /\ addr e = x.
Proof. intros H. apply List.find_some in H as [H E]. by apply Z.eqb_eq in E. Qed.

Lemma wf_drop x reg : wf reg -> wf (drop x reg).
Proof.
  intros [N H]. split.
  - unfold drop. induction reg as [|e reg IH]; [constructor|]. cbn in *. apply List.NoDup_cons_iff in N as [He N].
    assert (List.NoDup (map addr (List.filter (fun e => negb (addr e =? x)) reg))) as N' by (apply IH; auto).
    destruct (addr e =? x); cbn; [done|]. constructor; [|done]. intros Hin. apply He. rewrite in_map_iff in *.
    destruct Hin as (e' & E & [Hin _]%filter_In). by exists e'.
  - intros e [He _]%filter_In. by apply H.
Qed.

(** The first named entry is the first of its class with that name. *)
Lemma lookup_filter nm t reg : lookup nm t reg =
  match List.filter (fun e => bool_decide (key e = take RT_NAME_MAX nm)) (List.filter (fun e => class e =? t) reg) with [] => None | e :: _ => Some (addr e) end.
Proof.
  unfold lookup. induction reg as [|e reg IH]; [done|]. cbn [List.filter]. unfold named at 1. destruct (class e =? t); cbn [andb List.filter]; [|done].
  by destruct (bool_decide _).
Qed.

Lemma find_name_spec s es nm : cstring nm ->
  (forall e, In e es -> exists o n, objects s !! addr e = Some o /\ name o = rt_strncpy n RT_NAME_MAX /\ key e = take RT_NAME_MAX n /\ cstring n) ->
  find_name (map addr es) nm s = Some (match List.filter (fun e => bool_decide (key e = take RT_NAME_MAX nm)) es with [] => None | e :: _ => Some (addr e) end, s).
Proof.
  intros Hnm. induction es as [|e es IH]; intros H; [done|]. cbn [map find_name List.filter].
  destruct (H e ltac:(by left)) as (o & n & Eo & En & Ek & Hn). erewrite bindM_some by (unfold object_of; rewrite Eo; reflexivity).
  rewrite En, stored_name_found, Ek by done. destruct (bool_decide _); [done|]. apply IH. intros e' He. apply H. by right.
Qed.

Lemma find_spec s reg nm t : rep s reg -> (forall n, nm = Some n -> cstring n) ->
  rt_object_find nm t s = Some (match nm with Some n => lookup n t reg | None => None end, s).
Proof.
  intros [W L O] Hn. unfold rt_object_find. destruct nm as [nm|]; [|done]. specialize (Hn nm eq_refl). destruct (known_dec t) as [Ht|Ht].
  - destruct (info_known t Ht) as (i & -> & Ei). rewrite bindM_getM. cbn [fst snd]. rewrite (L i t Ei), lookup_filter. apply find_name_spec; [done|].
    intros e [He _]%filter_In. destruct (O e He) as (o & n & E1 & E2 & E3 & E4 & _). by exists o, n.
  - rewrite info_unknown by done. rewrite lookup_filter. pose proof (of_class_unknown t reg W Ht) as E. unfold of_class in E. by apply map_eq_nil in E as ->.
Qed.

Lemma fresh_unlinked s reg x : rep s reg -> fresh x reg -> linked x s = false.
Proof.
  intros [W L _] Hf. unfold linked. apply not_true_is_false. rewrite existsb_exists. intros (i & Hi%in_seq & H). apply existsb_exists in H as (y & Hy & ->%Z.eqb_eq).
  destruct (lookup_lt_is_Some_2 rt_object_container i) as [t Et]; [lia|]. rewrite (L i t Et) in Hy. by apply Hf, (in_of_class t).
Qed.

(** A new entry. *)
Lemma rep_add s reg e o i nm : rep s reg -> known (class e) -> fresh (addr e) reg -> rt_object_container !! i = Some (class e) ->
  name o = rt_strncpy nm RT_NAME_MAX -> key e = take RT_NAME_MAX nm -> cstring nm ->
  type o = (if static e then Z.lor (class e) RT_Object_Class_Static else class e) ->
  forall s', objects s' = <[addr e := o]> (objects s) -> (forall j, object_list s' j = if decide (j = i) then addr e :: object_list s i else object_list s j) ->
  rep s' (e :: reg).
Proof.
  intros [[N C] L O] Hk Hf Ei En Ek Hn Et s' Eo El. split.
  - split; [by constructor|]. by intros e' [<-|He]; [|apply C].
  - intros j t Ej. rewrite El. unfold of_class. cbn [List.filter]. destruct (decide (j = i)) as [->|Hne].
    + rewrite Ei in Ej. injection Ej as <-. rewrite Z.eqb_refl. cbn. f_equal. by apply L.
    + rewrite (proj2 (Z.eqb_neq _ _)); [by apply L|]. intros <-. apply Hne. by apply (class_inj j i (class e)).
  - intros e' [<-|He]; rewrite Eo.
    + exists o, nm. rewrite lookup_insert_eq. done.
    + rewrite lookup_insert_ne; [by apply O|]. intros E. apply Hf. rewrite E. by apply in_map.
Qed.

(** An entry goes; what is in its memory then does not matter. *)
Lemma rep_drop s reg x : rep s reg -> forall s', (forall y, y <> x -> objects s' !! y = objects s !! y) ->
  (forall j, object_list s' j = unlink x (object_list s j)) -> rep s' (drop x reg).
Proof.
  intros [W L O] s' Eo El. split; [by apply wf_drop| |].
  - intros j t Ej. rewrite El, (L j t Ej). by rewrite of_class_drop.
  - intros e [He Hx]%filter_In. rewrite Eo; [by apply O|]. by apply negb_true_iff, Z.eqb_neq in Hx.
Qed.

(* ------------------------------------------------------------------ *)
(** ** Every operation *)

Abbreviation refines op s reg := (exists s', run_oop op s = Some (fst (step op reg), s') /\ rep s' (snd (step op reg))).

Lemma init_spec x t nm s reg : rep s reg -> known t -> fresh x reg -> cstring nm ->
  exists s', rt_object_init x t nm s = Some (tt, s') /\ rep s' (Entry x t (take RT_NAME_MAX nm) true :: reg) /\ devices s' = devices s.
Proof.
  intros R Ht Hf Hn. destruct (info_known t Ht) as (i & Ei & Hi). destruct (known_bits t Ht) as (_ & Eu & _). unfold rt_object_init.
  erewrite bindM_some by (unfold info; rewrite Ei; reflexivity). rewrite bindM_getM. cbn [fst snd]. rewrite (fresh_unlinked s reg x R Hf).
  rewrite bindM_getM. cbn [fst snd]. unfold put_object, insert_after. rewrite bindM_doM. eexists. split; [reflexivity|]. split; [|done].
  eapply (rep_add s reg (Entry x t (take RT_NAME_MAX nm) true) _ i nm R); try done; [done|exact Eu].
Qed.

Lemma allocate_spec x t nm s reg : rep s reg -> known t -> fresh x reg -> cstring nm ->
  exists s', rt_object_allocate (Some x) t nm s = Some (Some x, s') /\ rep s' (Entry x t (take RT_NAME_MAX nm) false :: reg).
Proof.
  intros R Ht Hf Hn. destruct (info_known t Ht) as (i & Ei & Hi). destruct (known_bits t Ht) as (Eu & _). unfold rt_object_allocate.
  erewrite bindM_some by (unfold info; rewrite Ei; reflexivity). unfold put_object, insert_after. rewrite !bindM_doM. eexists. split; [reflexivity|].
  eapply (rep_add s reg (Entry x t (take RT_NAME_MAX nm) false) _ i nm R); try done; [done|exact Eu].
Qed.

(** The object of an entry. *)
Lemma entry_object x s reg e : rep s reg -> entry_at x reg = Some e -> exists o, objects s !! x = Some o /\ known (class e) /\
  Z.ldiff (type o) RT_Object_Class_Static = class e /\ tst (type o) RT_Object_Class_Static = static e.
Proof.
  intros [[N C] _ O] E. apply entry_at_spec in E as [He <-]. destruct (O e He) as (o & nm & Eo & _ & _ & _ & Et). exists o.
  pose proof (C e He) as Hk. destruct (known_bits _ Hk) as (_ & _ & B1 & B2 & B3 & B4). rewrite Et. by destruct (static e).
Qed.

Lemma object_eq {A} x o s (f : rt_object -> M ostate A) : objects s !! x = Some o -> bindM (object_of x) f s = f o s.
Proof. intros E. unfold bindM, object_of. by rewrite E. Qed.

Lemma type_spec x s reg e : rep s reg -> entry_at x reg = Some e -> rt_object_get_type x s = Some (class e, s).
Proof. intros R E. destruct (entry_object x s reg e R E) as (o & Eo & _ & Et & _). unfold rt_object_get_type. by rewrite (object_eq x o), Et. Qed.

Lemma system_spec x s reg e : rep s reg -> entry_at x reg = Some e -> rt_object_is_systemobject x s = Some (static e, s).
Proof. intros R E. destruct (entry_object x s reg e R E) as (o & Eo & _ & _ & Et). unfold rt_object_is_systemobject. by rewrite (object_eq x o), Et. Qed.

Lemma detach_spec x s reg e : rep s reg -> entry_at x reg = Some e ->
  exists s', rt_object_detach x s = Some (tt, s') /\ rep s' (drop x reg).
Proof.
  intros R E. destruct (entry_object x s reg e R E) as (o & Eo & _). unfold rt_object_detach. rewrite (object_eq x o) by done.
  unfold put_object, list_remove. rewrite bindM_doM. eexists. split; [reflexivity|]. apply (rep_drop s reg x R); [|done].
  intros y Hy. cbn. by rewrite lookup_insert_ne.
Qed.

Lemma delete_spec x s reg e : rep s reg -> entry_at x reg = Some e -> static e = false ->
  exists s', rt_object_delete x s = Some (tt, s') /\ rep s' (drop x reg).
Proof.
  intros R E Hs. destruct (entry_object x s reg e R E) as (o & Eo & _). unfold rt_object_delete.
  rewrite (bindM_some _ _ _ _ _ (system_spec x s reg e R E)), Hs, (object_eq x o) by done.
  unfold put_object, list_remove, free_object. rewrite !bindM_doM. eexists. split; [reflexivity|]. apply (rep_drop s reg x R); [|done].
  intros y Hy. cbn. by rewrite lookup_delete_ne, lookup_insert_ne.
Qed.

Lemma copy_take l : forall i n, 0 <= i < n -> copy_pointers l i n = take (Z.to_nat (n - i)) l.
Proof.
  induction l as [|x l IH]; intros i n Hi; [by rewrite take_nil|]. cbn [copy_pointers].
  replace (Z.to_nat (n - i)) with (S (Z.to_nat (n - (i + 1)))) by lia. cbn [take]. f_equal. destruct (Z.leb_spec n (i + 1)).
  - by replace (Z.to_nat (n - (i + 1))) with 0%nat by lia.
  - by apply IH; lia.
Qed.

Lemma oop_refines op s reg : rep s reg -> ok op reg -> refines op s reg.
Proof.
  intros R Ho. pose proof R as [W L O].
  destruct op as [x t nm|x|got t nm|x|nm t|x|x|t|t n|dev nm fl|x]; cbn [ok run_oop step] in *.
  - destruct Ho as (Ht & Hf & Hn). destruct (init_spec x t nm s reg R Ht Hf Hn) as (s' & E & R' & _). exists s'. by rewrite (bindM_some _ _ _ _ _ E).
  - destruct Ho as [e Ee]. destruct (detach_spec x s reg e R Ee) as (s' & E & R'). exists s'. by rewrite (bindM_some _ _ _ _ _ E).
  - destruct Ho as (Ht & Hn & Hf). destruct got as [x|].
    + destruct (allocate_spec x t nm s reg R Ht (Hf x eq_refl) Hn) as (s' & E & R'). exists s'. by rewrite (bindM_some _ _ _ _ _ E).
    + destruct (info_known t Ht) as (i & Ei & _). exists s. split; [|done].
      assert (rt_object_allocate None t nm s = Some (None, s)) as E by (unfold rt_object_allocate; erewrite bindM_some by (unfold info; rewrite Ei; reflexivity); done).
      by rewrite (bindM_some _ _ _ _ _ E).
  - destruct Ho as (e & Ee & Hs). destruct (delete_spec x s reg e R Ee Hs) as (s' & E & R'). exists s'. by rewrite (bindM_some _ _ _ _ _ E).
  - exists s. rewrite (bindM_some _ _ _ _ _ (find_spec s reg nm t R Ho)). by destruct nm.
  - destruct Ho as [e Ee]. exists s. by rewrite (bindM_some _ _ _ _ _ (type_spec x s reg e R Ee)), Ee.
  - destruct Ho as [e Ee]. exists s. by rewrite (bindM_some _ _ _ _ _ (system_spec x s reg e R Ee)), Ee.
  - exists s. split; [|done]. unfold rt_object_get_length, bindM at 1. destruct (known_dec t) as [Ht|Ht].
    + destruct (info_known t Ht) as (i & -> & Ei). by rewrite (L i t Ei).
    + by rewrite info_unknown, of_class_unknown by done.
  - exists s. split; [|done]. unfold rt_object_get_pointers, bindM at 1. destruct (Z.leb_spec n 0).
    { by replace (Z.to_nat n) with 0%nat by lia. }
    destruct (known_dec t) as [Ht|Ht].
    + destruct (info_known t Ht) as (i & -> & Ei). rewrite (L i t Ei), copy_take by lia. by rewrite Z.sub_0_r.
    + by rewrite info_unknown, of_class_unknown, take_nil by done.
  - destruct Ho as (Hn & Hf). destruct dev as [x|]; [|by exists s]. specialize (Hf x eq_refl). unfold rt_device_register.
    assert (rt_device_find (Some nm) s = Some (lookup nm RT_Object_Class_Device reg, s)) as E by (apply (find_spec s reg (Some nm)); [done|by intros n [= <-]]).
    rewrite bindM_assoc, (bindM_some _ _ _ _ _ E). destruct (lookup nm RT_Object_Class_Device reg) as [y|]; [by exists s|].
    destruct (init_spec x RT_Object_Class_Device nm s reg R ltac:(cbn; tauto) Hf Hn) as (s1 & E1 & R1 & _).
    rewrite bindM_assoc, (bindM_some _ _ _ _ _ E1), bindM_assoc, bindM_doM. eexists. split; [reflexivity|]. by destruct R1.
  - destruct Ho as (e & Ee & Hs & Hc). unfold rt_device_unregister.
    rewrite bindM_assoc, (bindM_some _ _ _ _ _ (type_spec x s reg e R Ee)), bindM_assoc, (bindM_some _ _ _ _ _ (system_spec x s reg e R Ee)), Hs, Hc.
    destruct (detach_spec x s reg e R Ee) as (s' & E & R'). exists s'. rewrite Z.eqb_refl. cbn [negb orb].
    by rewrite bindM_assoc, (bindM_some _ _ _ _ _ E).
Qed.

Lemma oops_refine ops : forall s reg, rep s reg -> all_ok ops reg ->
  exists s', run_oops ops s = Some (fst (run ops reg), s') /\ rep s' (snd (run ops reg)).
Proof.
  induction ops as [|op ops IH]; intros s reg R Ho; cbn [run_oops run all_ok] in *; [by exists s|]. destruct Ho as [Ho Hr].
  destruct (oop_refines op s reg R Ho) as (s1 & E1 & R1). destruct (step op reg) as [a reg1] eqn:Es. cbn [fst snd] in *.
  destruct (IH s1 reg1 R1 Hr) as (s' & E & R'). destruct (run ops reg1) as [l reg']. exists s'. cbn [fst snd] in *.
  by rewrite (bindM_some _ _ _ _ _ E1), (bindM_some _ _ _ _ _ E).
Qed.

Lemma start_rep : rep object_start [].
Proof. split; [|done|done]. split; [constructor|done]. Qed.

(* ------------------------------------------------------------------ *)
(** ** Properties *)

(** C20: the container is a registry.  Whatever objects the system enters,
    removes, allocates, deletes, looks up and counts, within the rules: no
    assertion fails, every answer is the one of the abstract list of entries
    (the newest first), and what is on the lists of the container afterwards is
    what is in that list. *)
Theorem container_refines_registry ops : all_ok ops [] ->
  exists s, run_oops ops object_start = Some (fst (run ops []), s) /\
    forall i t, rt_object_container !! i = Some t -> object_list s i = of_class t (snd (run ops [])).
Proof. intros Ho. destruct (oops_refine ops object_start [] start_rep Ho) as (s & E & R). exists s. split; [done|]. apply R. Qed.

(** The boards's UARTs, the semaphore and the thread of the first, with names
    of 12 and 9 letters; a second "uart4" is refused; a thread is allocated and
    deleted, a device unregistered. *)
Definition uart4 : list Z := clit "uart4".
Definition sample_ops : list oop :=
  [ ORegister (Some 16) uart4 0x103; ORegister (Some 32) (clit "uart5") 0x103; ORegister (Some 48) uart4 0;
    OInit 64 RT_Object_Class_Semaphore (clit "rx_uart4_sem"); OAllocate (Some 80) RT_Object_Class_Thread (clit "md_m_poll");
    OFind (Some (clit "md_m_poll")) RT_Object_Class_Thread; OFind (Some (clit "md_m_pol")) RT_Object_Class_Thread; OType 64; OSystem 80;
    ODelete 80; OFind (Some (clit "md_m_poll")) RT_Object_Class_Thread; OUnregister 32; OLength RT_Object_Class_Device; OPointers RT_Object_Class_Device 4 ].

Ltac use_rules := repeat match goal with
  | |- _ /\ _ => split
  | |- True => exact I
  | |- cstring _ => repeat constructor; cbn; lia
  | |- known _ => cbn; tauto
  | |- fresh _ _ => vm_compute; intuition discriminate
  | |- is_Some _ => eexists; reflexivity
  | |- forall _, _ => intros ? [= <-]
  | |- exists _, _ => eexists; split; [reflexivity|]
  | |- _ = _ => reflexivity
  end.

Lemma sample_ops_ok : all_ok sample_ops [].
Proof. unfold sample_ops. cbn [all_ok step snd ok]. use_rules. Qed.

Lemma container_refines_registry_witness :
  exists s, run_oops sample_ops object_start =
    Some ([RInt 0; RInt 0; RInt (-1); RUnit; RPtr (Some 80); RPtr (Some 80); RPtr (Some 80); RInt RT_Object_Class_Semaphore; RInt 0;
           RUnit; RPtr None; RInt 0; RInt 1; RPtrs [16]], s) /\ object_list s 7%nat = [16].
Proof.
  destruct (container_refines_registry sample_ops sample_ops_ok) as (s & E & H). exists s. split; [exact E|]. exact (H 7%nat _ eq_refl).
Defined.

(** How an object was entered: the class it was given, and whether its memory is
    the caller's ([rt_object_init], [rt_device_register]) or was allocated. *)
Definition entry_of (op : oop) (r : ores) : option (Z * (Z * bool)) :=
  match op, r with
  | OInit x t _, _ => Some (x, (t, true))
  | OAllocate _ t _, RPtr (Some x) => Some (x, (t, false))
  | ORegister (Some x) _ _, RInt 0 => Some (x, (RT_Object_Class_Device, true))
  | _, _ => None
  end.

(** The last time the object [x] was entered, from the operations and their
    results; [last] is what happened before. *)
Fixpoint last_entry (x : Z) (ops : list oop) (l : list ores) (last : option (Z * bool)) : option (Z * bool) :=
  match ops, l with
  | op :: ops, r :: l =>
      last_entry x ops l (match entry_of op r with Some (y, how) => if y =? x then Some how else last | None => last end)
  | _, _ => last
  end.

Lemma step_entries op reg e : ok op reg -> In e (snd (step op reg)) ->
  (In e reg /\ forall how, entry_of op (fst (step op reg)) <> Some (addr e, how)) \/
  entry_of op (fst (step op reg)) = Some (addr e, (class e, static e)).
Proof.
  assert (forall x, fresh x reg -> In e reg -> x <> addr e) as Hf by (intros x Hx Hin ->; by apply Hx, in_map).
  assert (forall x, In e (drop x reg) -> In e reg) as Hd by (intros x [H _]%filter_In; done).
  destruct op as [x t nm|x|[x|] t nm|x|[nm|] t|x|x|t|t n|[x|] nm fl|x]; cbn [ok step fst snd entry_of]; intros Ho Hin; auto;
    try (left; split; [eauto|done]).
  - destruct Hin as [<-|Hin]; [by right|left]. split; [done|]. intros how [= E _]. exact (Hf x (proj1 (proj2 Ho)) Hin E).
  - destruct Hin as [<-|Hin]; [by right|left]. split; [done|]. intros how [= E _]. exact (Hf x (proj2 (proj2 Ho) x eq_refl) Hin E).
  - destruct (lookup nm RT_Object_Class_Device reg); cbn [fst snd] in *; [by left|].
    destruct Hin as [<-|Hin]; [by right|left]. split; [done|]. intros how [= E _]. exact (Hf x (proj2 Ho x eq_refl) Hin E).
Qed.

Lemma last_entry_run ops : forall reg h, all_ok ops reg -> (forall e, In e reg -> h (addr e) = Some (class e, static e)) ->
  forall e, In e (snd (run ops reg)) -> last_entry (addr e) ops (fst (run ops reg)) (h (addr e)) = Some (class e, static e).
Proof.
  induction ops as [|op ops IH]; intros reg h Ho Hh e He; [by apply Hh|]. cbn [all_ok run] in *. destruct Ho as [Ho Hr].
  pose proof (fun e => step_entries op reg e Ho) as Hs. destruct (step op reg) as [a reg1]. cbn [fst snd] in *.
  specialize (IH reg1 (fun x => match entry_of op a with Some (y, how) => if y =? x then Some how else h x | None => h x end) Hr).
  destruct (run ops reg1) as [l reg2]. cbn [fst snd last_entry] in *. apply IH; [|done]. intros e1 H1.
  destruct (Hs e1 H1) as [[Hin Hn]| ->]; [|by rewrite Z.eqb_refl]. destruct (entry_of op a) as [[y how]|]; [|by apply Hh].
  destruct (Z.eqb_spec y (addr e1)) as [->|]; [by destruct (Hn how)|by apply Hh].
Qed.

(** C22: the container is well typed.  In every state the system reaches, an
    object on the list of a class was last entered under this class and has it
    as its type, with the static bit exactly when that entry was
    [rt_object_init] or [rt_device_register] and not [rt_object_allocate]; it is
    on no other list and not twice on its own, has a name of exactly eight
    bytes, and [rt_object_get_type] says its class. *)
Theorem container_typed ops : all_ok ops [] ->
  exists l s, run_oops ops object_start = Some (l, s) /\
    forall i t x, rt_object_container !! i = Some t -> In x (object_list s i) ->
      exists o callers, objects s !! x = Some o /\ last_entry x ops l None = Some (t, callers) /\
        type o = (if callers : bool then Z.lor t RT_Object_Class_Static else t) /\
        length (name o) = RT_NAME_MAX /\ rt_object_get_type x s = Some (t, s) /\ List.NoDup (object_list s i) /\
        forall j u, rt_object_container !! j = Some u -> In x (object_list s j) -> j = i.
Proof.
  intros Ho. pose proof (last_entry_run ops [] (fun _ => None) Ho ltac:(done)) as Hl.
  destruct (oops_refine ops object_start [] start_rep Ho) as (s & E & R). set (reg := snd (run ops [])) in *. exists (fst (run ops [])), s. split; [done|].
  pose proof R as [[N C] L O]. assert (forall t y, In y (of_class t reg) -> exists e, In e reg /\ addr e = y /\ class e = t) as Hin.
  { intros t y H. unfold of_class in H. apply in_map_iff in H as (e & <- & [He Hc%Z.eqb_eq]%filter_In). by exists e. }
  assert (forall e e', In e reg -> In e' reg -> addr e = addr e' -> e = e') as Hinj.
  { clear -N. induction reg as [|e0 reg IH]; [done|]. cbn in N. apply List.NoDup_cons_iff in N as [Hn N].
    intros e e' [<-|H1] [<-|H2] Ea; auto; destruct Hn; [rewrite Ea|rewrite <- Ea]; by apply in_map. }
  intros i t x Ei Hx. rewrite (L i t Ei) in *. destruct (Hin t x Hx) as (e & He & <- & <-). destruct (O e He) as (o & nm & Eo & En & _ & _ & Et). exists o, (static e).
  split_and!; try done.
  - exact (Hl e He).
  - rewrite En. apply rt_strncpy_length.
  - unfold rt_object_get_type. rewrite (object_eq _ o) by done. destruct (known_bits _ (C e He)) as (_ & _ & _ & _ & B3 & B4). rewrite Et. by destruct (static e); rewrite ?B3, ?B4.
  - clear -N. unfold of_class. induction reg as [|e0 reg IH]; [constructor|]. cbn in *. apply List.NoDup_cons_iff in N as [Hn N]. destruct (_ =? _); [|by apply IH].
    cbn. constructor; [|by apply IH]. intros H. apply Hn. by apply (in_of_class (class e)).
  - intros j u Ej Hj. rewrite (L j u Ej) in Hj. destruct (Hin u _ Hj) as (e' & He' & Ea & <-). rewrite (Hinj e' e He' He Ea) in Ej. by apply (class_inj j i (class e)).
Qed.

Lemma sample_devices : match run_oops sample_ops object_start with Some (_, s) => object_list s 7%nat | None => [] end = [16].
Proof. vm_compute. reflexivity. Qed.

Lemma container_typed_witness :
  exists l s, run_oops sample_ops object_start = Some (l, s) /\ rt_object_get_type 16 s = Some (RT_Object_Class_Device, s).
Proof.
  destruct (container_typed sample_ops sample_ops_ok) as (l & s & E & H). exists l, s. split; [exact E|].
  pose proof sample_devices as Hd. rewrite E in Hd.
  destruct (H 7%nat RT_Object_Class_Device 16 eq_refl) as (o & c & _ & _ & _ & _ & Ht & _); [rewrite Hd; left; reflexivity|exact Ht].
Defined.

(** Devices are entered by [rt_device_register] only. *)
Definition by_register (op : oop) : Prop :=
  match op with OInit _ t _ | OAllocate _ t _ => t <> RT_Object_Class_Device | _ => True end.

Definition device_keys (reg : list entry) : list (list Z) := map key (List.filter (fun e => class e =? RT_Object_Class_Device) reg).

Lemma device_keys_drop x reg : List.NoDup (device_keys reg) -> List.NoDup (device_keys (drop x reg)).
Proof.
  unfold device_keys, drop. induction reg as [|e reg IH]; [done|]. cbn [List.filter]. destruct (class e =? RT_Object_Class_Device) eqn:Ec.
  - cbn. intros [Hn N]%List.NoDup_cons_iff. destruct (addr e =? x); cbn [negb List.filter]; [by apply IH|]. rewrite Ec. cbn. constructor; [|by apply IH].
    intros H. apply Hn. rewrite in_map_iff in *. destruct H as (e' & Ek & [[H _]%filter_In Hc]%filter_In). exists e'. split; [done|]. by apply filter_In.
  - intros N. destruct (addr e =? x); cbn [negb List.filter]; [by apply IH|]. rewrite Ec. by apply IH.
Qed.

Lemma lookup_none nm t reg : lookup nm t reg = None <-> forall e, In e reg -> class e = t -> key e <> take RT_NAME_MAX nm.
Proof.
  unfold lookup. split.
  - intros H e He Hc Hk. destruct (List.filter (named t nm) reg) as [|e' r] eqn:E; [|done]. assert (In e (List.filter (named t nm) reg)) as Hin.
    { apply filter_In. split; [done|]. unfold named. by rewrite Hc, Z.eqb_refl, Hk, bool_decide_eq_true_2. }
    by rewrite E in Hin.
  - intros H. destruct (List.filter (named t nm) reg) as [|e r] eqn:E; [done|]. assert (In e (List.filter (named t nm) reg)) as Hin by (rewrite E; by left).
    apply filter_In in Hin as [He Hn]. unfold named in Hn. apply andb_true_iff in Hn as [Hc%Z.eqb_eq Hk%bool_decide_eq_true]. by destruct (H e He Hc).
Qed.

Lemma device_keys_run ops : forall reg, Forall by_register ops -> List.NoDup (device_keys reg) -> List.NoDup (device_keys (snd (run ops reg))).
Proof.
  induction ops as [|op ops IH]; intros reg F N; [done|]. apply Forall_cons in F as [Fo F]. cbn [run]. destruct (step op reg) as [a reg1] eqn:E.
  assert (List.NoDup (device_keys reg1)) as N1; [|specialize (IH reg1 F N1); by destruct (run ops reg1)].
  destruct op as [x t nm|x|[x|] t nm|x|[nm|] t|x|x|t|t n|[x|] nm fl|x]; cbn [step by_register] in *; try (injection E as _ <-); auto using device_keys_drop.
  - unfold device_keys. cbn [List.filter class]. by rewrite (proj2 (Z.eqb_neq _ _) Fo).
  - unfold device_keys. cbn [List.filter class]. by rewrite (proj2 (Z.eqb_neq _ _) Fo).
  - destruct (lookup nm RT_Object_Class_Device reg) as [y|] eqn:El; injection E as _ <-; [done|]. unfold device_keys. cbn. constructor; [|done].
    intros H. apply in_map_iff in H as (e & Ek & [He Hc%Z.eqb_eq]%filter_In). by apply (proj1 (lookup_none _ _ _) El e He Hc).
Qed.

(** C21: a device is found under its name, and only there.  With devices entered
    by [rt_device_register] only: in every state the system reaches, no two
    registered devices have names that agree in eight bytes, so that
    [rt_device_find] gives exactly the device registered under a name that
    agrees with the one asked for, and NULL when there is none; and exactly in
    the last case a registration under that name is accepted. *)
Theorem device_found_by_name ops nm : all_ok ops [] -> Forall by_register ops -> cstring nm ->
  exists l s r, run_oops ops object_start = Some (l, s) /\ rt_device_find (Some nm) s = Some (r, s) /\
    (forall x, r = Some x <-> exists e, In e (snd (run ops [])) /\ addr e = x /\ class e = RT_Object_Class_Device /\ key e = take RT_NAME_MAX nm) /\
    (forall x fl, fresh x (snd (run ops [])) -> exists v s', rt_device_register (Some x) nm fl s = Some (v, s') /\ (v = RT_EOK <-> r = None)).
Proof.
  intros Ho F Hn. destruct (oops_refine ops object_start [] start_rep Ho) as (s & E & R). set (reg := snd (run ops [])) in *.
  assert (List.NoDup (device_keys reg)) as N by (apply device_keys_run; [done|constructor]).
  exists (fst (run ops [])), s, (lookup nm RT_Object_Class_Device reg). split; [done|]. split; [apply (find_spec s reg (Some nm)); [done|by intros n [= <-]]|]. split.
  - intros x. destruct (lookup nm RT_Object_Class_Device reg) as [y|] eqn:El.
    + assert (exists e, In e reg /\ addr e = y /\ class e = RT_Object_Class_Device /\ key e = take RT_NAME_MAX nm) as (e & He & Ha & Hc & Hk).
      { unfold lookup in El. destruct (List.filter _ reg) as [|e r] eqn:Ef; [done|]. injection El as <-. exists e.
        assert (In e (List.filter (named RT_Object_Class_Device nm) reg)) as [Hi Hm]%filter_In by (rewrite Ef; by left).
        unfold named in Hm. apply andb_true_iff in Hm as [Hc%Z.eqb_eq Hk%bool_decide_eq_true]. done. }
      split; [intros [= ->]; by exists e|]. intros (e' & He' & <- & Hc' & Hk'). f_equal. rewrite <- Ha. f_equal.
      assert (forall l, List.NoDup (map key l) -> forall a b, In a l -> In b l -> key a = key b -> a = b) as Hinj.
      { clear. induction l as [|c l IH]; [done|]. cbn. intros [Hc N]%List.NoDup_cons_iff a b [<-|H1] [<-|H2] Ek; auto; destruct Hc; [rewrite Ek|rewrite <- Ek]; by apply in_map. }
      apply (Hinj _ N); [apply filter_In; split; [done|by rewrite Hc]|apply filter_In; split; [done|by rewrite Hc']|congruence].
    + split; [done|]. intros (e & He & _ & Hc & Hk). by apply (proj1 (lookup_none _ _ _) El e He Hc) in Hk.
  - intros x fl Hf. destruct (oop_refines (ORegister (Some x) nm fl) s reg R) as (s' & Er & _).
    { split; [done|]. by intros y [= <-]. }
    cbn [run_oop step] in Er. apply bindM_inv in Er as (v & s1 & Er & E1). exists v, s1. split; [done|].
    destruct (lookup nm RT_Object_Class_Device reg); cbn in E1; injection E1 as -> _; done.
Qed.

Lemma device_found_by_name_witness :
  exists l s, run_oops sample_ops object_start = Some (l, s) /\ rt_device_find (Some uart4) s = Some (Some 16, s).
Proof.
  destruct (device_found_by_name sample_ops uart4 sample_ops_ok) as (l & s & r & E & Ef & Hr & _).
  - unfold sample_ops. repeat (apply List.Forall_cons; [first [exact I|discriminate]|]). apply List.Forall_nil.
  - use_rules.
  - exists l, s. split; [exact E|]. rewrite Ef. f_equal. f_equal. apply Hr. exists (Entry 16 RT_Object_Class_Device uart4 true).
    split; [|split; [reflexivity|split; reflexivity]]. right. left. vm_compute. reflexivity.
Defined.
