(* ===== verification/Idle.v ===== *)
(** * The life of a thread

    rt-thread/src/thread.c and idle.c: how a thread object and its stack are
    allocated and entered in the container of Object.v, how a thread ends, and how
    the idle thread gives its memory back; the start of the system in components.c.
    The threads themselves are those of Kernel.v.  The allocator (Heap.v) is an
    argument: the address a call gets; [blocks] are the addresses that were given
    and not freed, and freeing another one has no result.  Left out: what is
    written on a stack, the container's entry of a thread's own timer, cleanup
    functions (nobody sets one). *)

From Stdlib Require Import ZArith Lia String.
From stdpp Require Import base numbers list gmap.
From S2P Require Import Prelude Kernel Object.
Import Object.Registry.
Open Scope c_scope.

Definition RT_IDLE_HOOK_LIST_SIZE : nat := 4.
Definition RT_TIMER_THREAD_PRIO : Z := 4.
Definition RT_MAIN_THREAD_PRIORITY : Z := 10.

(** [stacks]: the field [stack_addr] of each thread. *)
Record system := System {
  kern : kernel; objs : ostate; stacks : gmap Z Z; blocks : gset Z; idle_hook_list : list (option Z) }.

Definition with_kern (k : kernel) (s : system) : system := System k (objs s) (stacks s) (blocks s) (idle_hook_list s).
Definition with_objs (o : ostate) (s : system) : system := System (kern s) o (stacks s) (blocks s) (idle_hook_list s).
Definition with_stacks (a : gmap Z Z) (s : system) : system := System (kern s) (objs s) a (blocks s) (idle_hook_list s).
Definition with_blocks (b : gset Z) (s : system) : system := System (kern s) (objs s) (stacks s) b (idle_hook_list s).
Definition with_hooks (h : list (option Z)) (s : system) : system := System (kern s) (objs s) (stacks s) (blocks s) h.

Definition on_kern {A} (m : M kernel A) : M system A := fun s =>
  match m (kern s) with Some (a, k) => Some (a, with_kern k s) | None => None end.
Definition on_objs {A} (m : M ostate A) : M system A := fun s =>
  match m (objs s) with Some (a, o) => Some (a, with_objs o s) | None => None end.

(* ------------------------------------------------------------------ *)
(** ** Memory *)

Definition RT_KERNEL_MALLOC (got : option Z) : M system (option Z) := fun s =>
  Some (got, match got with Some p => with_blocks ({[p]} ∪ blocks s) s | None => s end).

Definition RT_KERNEL_FREE (p : Z) : M system unit := fun s =>
  if decide (p ∈ blocks s) then Some (tt, with_blocks (blocks s ∖ {[p]}) s) else None.

(** [rt_object_allocate] and [rt_object_delete] on a thread, with the memory. *)
Definition new_object (got : option Z) (nm : list Z) : M system (option Z) :=
  let! p := RT_KERNEL_MALLOC got in
  on_objs (rt_object_allocate p RT_Object_Class_Thread nm).

Definition drop_object (x : Z) : M system unit :=
  do! on_objs (rt_object_delete x) in
  do! on_kern (doM (fun k => with_threads (delete x (threads k)) k)) in
  RT_KERNEL_FREE x.

(* ------------------------------------------------------------------ *)
(** ** thread.c *)

(** [_rt_thread_init] with the stack. *)
Definition thread_init (x stack_start priority tick : Z) : M system unit :=
  do! on_kern (ignore (_rt_thread_init x priority tick)) in
  doM (fun s => with_stacks (<[x := stack_start]> (stacks s)) s).

Definition rt_thread_init (x : Z) (nm : list Z) (stack_start priority tick : Z) : M system Z :=
  do! on_objs (rt_object_init x RT_Object_Class_Thread nm) in
  do! thread_init x stack_start priority tick in
  retM RT_EOK.

Definition rt_thread_create (got_object got_stack : option Z) (nm : list Z) (priority tick : Z) : M system (option Z) :=
  let! thread := new_object got_object nm in
  match thread with
  | None => retM None
  | Some x =>
      let! stack_start := RT_KERNEL_MALLOC got_stack in
      match stack_start with
      | None => do! drop_object x in retM None
      | Some a => do! thread_init x a priority tick in retM (Some x)
      end
  end.

(** [rt_list_insert_after(&rt_thread_defunct, &(thread->tlist))]. *)
Definition insert_defunct (x : Z) : M kernel unit := doM (fun k => list_set Defunct (x :: lists k Defunct) k).

(** A static thread leaves the container, a dynamic one waits for the idle
    thread. *)
Definition put_away (x : Z) : M system unit :=
  let! sys := on_objs (rt_object_is_systemobject x) in
  if sys : bool then on_objs (rt_object_detach x) else on_kern (insert_defunct x).

Definition rt_thread_exit : M system unit :=
  let! x := on_kern rt_thread_self in
  do! on_kern (rt_schedule_remove_thread x) in
  do! on_kern (upd x (with_stat RT_THREAD_CLOSE)) in
  do! on_kern (upd x (with_timer false)) in
  do! put_away x in
  on_kern rt_schedule.

(** The checks of [rt_thread_detach] and [rt_thread_delete]. *)
Definition is_thread (x : Z) (static : bool) : M system bool :=
  let! t := on_objs (rt_object_get_type x) in
  let! sys := on_objs (rt_object_is_systemobject x) in
  retM ((t =? RT_Object_Class_Thread) && eqb sys static).

Definition rt_thread_detach (x : Z) : M system Z :=
  let! good := is_thread x true in
  if negb good then failM
  else
    let! t := on_kern (thread_of x) in
    if st t =? RT_THREAD_CLOSE then retM RT_EOK
    else
      do! on_kern (if st t =? RT_THREAD_INIT then retM tt else rt_schedule_remove_thread x) in
      do! on_kern (upd x (with_timer false)) in
      do! on_kern (upd x (with_stat RT_THREAD_CLOSE)) in
      do! put_away x in
      retM RT_EOK.

Definition rt_thread_delete (x : Z) : M system Z :=
  let! good := is_thread x false in
  if negb good then failM else on_kern (Kernel.rt_thread_delete x).

(* ------------------------------------------------------------------ *)
(** ** idle.c *)

(** The first free place takes the hook; the first place with it is cleared. *)
Fixpoint set_first (f : option Z -> bool) (v : option Z) (l : list (option Z)) : option (list (option Z)) :=
  match l with
  | [] => None
  | h :: r => if f h then Some (v :: r) else option_map (cons h) (set_first f v r)
  end.
Definition no_hook (h : option Z) : bool := match h with None => true | Some _ => false end.
Definition is_hook (x : Z) (h : option Z) : bool := match h with None => false | Some y => x =? y end.

Definition rt_thread_idle_sethook (hook : Z) : M system Z := fun s =>
  match set_first no_hook (Some hook) (idle_hook_list s) with
  | Some l => Some (RT_EOK, with_hooks l s)
  | None => Some (- RT_EFULL, s)
  end.
Definition rt_thread_idle_delhook (hook : Z) : M system Z := fun s =>
  match set_first (is_hook hook) None (idle_hook_list s) with
  | Some l => Some (RT_EOK, with_hooks l s)
  | None => Some (- RT_ENOSYS, s)
  end.

(** One turn of the loop, with interrupts off; [false]: no ended thread is left. *)
Definition reap : M system bool :=
  let! l := getM (fun s => (lists (kern s) Defunct, s)) in
  match l with
  | [] => retM false
  | x :: _ =>
      do! on_kern (Kernel.list_remove x) in
      let! a := getM (fun s => (stacks s !! x, s)) in
      match a with
      | None => failM
      | Some a => do! RT_KERNEL_FREE a in do! drop_object x in retM true
      end
  end.

Fixpoint idle_loop (fuel : nat) : M system unit :=
  match fuel with
  | O => failM
  | S n => let! more := reap in if more : bool then idle_loop n else retM tt
  end.

Definition rt_thread_idle_excute : M system unit := fun s => idle_loop (S (length (lists (kern s) Defunct))) s.

(** A turn of [rt_thread_idle_entry]: the hooks it calls. *)
Definition idle_turn : M system (list Z) :=
  let! l := getM (fun s => (omap id (idle_hook_list s), s)) in
  do! rt_thread_idle_excute in
  retM l.

(* ------------------------------------------------------------------ *)
(** ** The start (components.c, timer.c, idle.c) *)

Definition started (x : Z) : M system unit := on_kern (ignore (rt_thread_startup x)).

Section Start.
(** The addresses of the static threads and of their stacks. *)
Context (timer_thread timer_stack idle idle_stack : Z).

Definition rt_application_init (got_object got_stack : option Z) : M system unit :=
  let! tid := rt_thread_create got_object got_stack (clit "main") RT_MAIN_THREAD_PRIORITY 20 in
  match tid with None => failM | Some x => started x end.

Definition rt_system_timer_thread_init : M system unit :=
  do! rt_thread_init timer_thread (clit "timer") timer_stack RT_TIMER_THREAD_PRIO 10 in started timer_thread.

(** The name is what [rt_sprintf(tidle_name, "tidle%d", 0)] writes. *)
Definition rt_thread_idle_init : M system unit :=
  do! rt_thread_init idle (clit "tidle0") idle_stack (RT_THREAD_PRIORITY_MAX - 1) 32 in started idle.

Definition rtthread_startup (got_object got_stack : option Z) : M system unit :=
  do! rt_application_init got_object got_stack in
  do! rt_system_timer_thread_init in
  do! rt_thread_idle_init in
  on_kern rt_system_scheduler_start.
End Start.

(** The memory before the start: no object, no block, no hook. *)
Definition reset_state : system :=
  System rt_system_scheduler_init object_start ∅ ∅ (repeat None RT_IDLE_HOOK_LIST_SIZE).

(* ------------------------------------------------------------------ *)
(** ** Runs *)

(** [LKernel] is anything of Kernel.v but the operations that create or end a
    thread; [LReap] one turn of the idle thread's loop, after which it can be
    interrupted. *)
Inductive lop :=
  | LKernel (op : kop) | LInit (x : Z) (nm : list Z) (stack_start priority tick : Z)
  | LCreate (got_object got_stack : option Z) (nm : list Z) (priority tick : Z)
  | LExit | LDetach (x : Z) | LDelete (x : Z) | LReap.

Definition forget {A} (m : M system A) : M system unit := let! _ := m in retM tt.

Definition run_lop (op : lop) : M system unit :=
  match op with
  | LKernel op => on_kern (run_kop op)
  | LInit x nm a p n => forget (rt_thread_init x nm a p n)
  | LCreate o a nm p n => forget (rt_thread_create o a nm p n)
  | LExit => rt_thread_exit
  | LDetach x => forget (rt_thread_detach x)
  | LDelete x => forget (rt_thread_delete x)
  | LReap => forget reap
  end.

Fixpoint run_lops (ops : list lop) : M system unit :=
  match ops with
  | [] => retM tt
  | op :: r => do! run_lop op in run_lops r
  end.

Definition closed (k : kernel) (x : Z) : Prop := exists t, threads k !! x = Some t /\ st t = RT_THREAD_CLOSE.

(** A thread the container knows, with its static bit. *)
Definition member (x : Z) (static : bool) (s : system) : Prop :=
  In x (object_list (objs s) 0) /\ exists o, objects (objs s) !! x = Some o /\ tst (type o) RT_Object_Class_Static = static.

Definition quiet (op : kop) : Prop := match op with KInit _ _ _ | KExit | KDelete _ => False | _ => True end.

Section Rules.
Context (idle : Z).

(** The rules of use, over those of Kernel.v: a static thread is initialised
    once; the allocator gives addresses that are not in use, and no thread is
    there; a thread that is deleted or detached is in the container as a
    dynamic or static one; the idle thread does not end, and cleans up when it
    runs. *)
Definition lop_ok (op : lop) (s : system) : Prop :=
  match op with
  | LKernel op => quiet op /\ kop_ok idle op (kern s)
  | LInit x nm a p n => cstring nm /\ 0 <= p < 32 /\ threads (kern s) !! x = None
  | LCreate o a nm p n => cstring nm /\ 0 <= p < 32 /\ (forall x, o = Some x -> (x ∉ blocks s) /\ threads (kern s) !! x = None) /\
      (forall b, a = Some b -> (b ∉ blocks s) /\ o <> Some b)
  | LExit => kop_ok idle KExit (kern s)
  | LDetach x => member x true s /\ x <> idle
  | LDelete x => member x false s /\ x <> idle
  | LReap => running (kern s) idle
  end.

Fixpoint lops_ok (ops : list lop) (s : system) : Prop :=
  match ops with
  | [] => True
  | op :: r => lop_ok op s /\ match run_lop op s with Some (_, s') => lops_ok r s' | None => True end
  end.
End Rules.

(* ------------------------------------------------------------------ *)
(** ** Ended threads stay where they are

    [mild P m]: the defunct list does not grow nor get doubles, no thread ends,
    and an ended thread outside [P] stays on that list. *)

Definition mild {A} (P : Z -> Prop) (m : M kernel A) : Prop := forall k a k', m k = Some (a, k') ->
  (List.NoDup (lists k Defunct) -> List.NoDup (lists k' Defunct)) /\
  (forall y, In y (lists k' Defunct) -> In y (lists k Defunct)) /\
  forall y, ~ P y -> closed k' y -> closed k y /\ (In y (lists k Defunct) -> In y (lists k' Defunct)).

Create HintDb mild.

Abbreviation none := (fun _ : Z => False).

Lemma mild_same {A} P (m : M kernel A) : (forall k a k', m k = Some (a, k') -> threads k' = threads k /\ lists k' Defunct = lists k Defunct) -> mild P m.
Proof. intros H k a k' E. destruct (H k a k' E) as [Et El]. unfold closed. rewrite Et, El. tauto. Qed.

Lemma mild_bind {A B} P (m : M kernel A) (f : A -> M kernel B) : mild P m -> (forall a, mild P (f a)) -> mild P (bindM m f).
Proof.
  intros H1 H2 k b k' E. apply bindM_inv in E as (a & k1 & E1 & E2). destruct (H1 _ _ _ E1) as (N1 & S1 & C1), (H2 a _ _ _ E2) as (N2 & S2 & C2).
  split_and!; [auto..|]. intros y Hy Hc. destruct (C2 y Hy Hc) as [Hc1 I2]. destruct (C1 y Hy Hc1) as [Hc0 I1]. auto.
Qed.

Lemma mild_more {A} P (m : M kernel A) : mild none m -> mild P m.
Proof. intros H k a k' E. destruct (H k a k' E) as (N & S & C). split_and!; [done..|]. intros y _. apply C. tauto. Qed.

Lemma mild_upd P x f : (forall t, st (f t) = RT_THREAD_CLOSE -> st t = RT_THREAD_CLOSE) -> mild P (upd x f).
Proof.
  intros Hf k a k' [= _ <-]. split_and!; [done..|]. intros y _ (t & Et & Es). split; [|done]. rewrite threads_alter in Et.
  destruct (decide (y = x)) as [->|]; [|by exists t]. destruct (threads k !! x) as [t0|] eqn:E; [|done]. injection Et as <-. exists t0. auto.
Qed.

Lemma mild_remove x : mild (eq x) (Kernel.list_remove x).
Proof.
  intros k a k' [= _ <-]. split_and!; [apply NoDup_unlink|by intros y [H _]%in_unlink|]. intros y Hy Hc. split; [done|].
  intros H. apply in_unlink. auto.
Qed.

(** What is done to [x] in the middle does not matter if it is not ended after. *)
Lemma mild_back {A} x (m : M kernel A) : mild (eq x) m -> (forall k a k', m k = Some (a, k') -> ~ closed k' x) -> mild none m.
Proof.
  intros H Hn k a k' E. destruct (H k a k' E) as (N & S & C). split_and!; [done..|]. intros y _ Hc. apply C; [|done].
  intros ->. by apply (Hn _ _ _ E).
Qed.

(** [m] does not leave [x] ended. *)
Definition off {A} (x : Z) (m : M kernel A) : Prop := forall k a k', m k = Some (a, k') -> ~ closed k' x.

Lemma off_last {A B} x (m : M kernel A) (f : A -> M kernel B) : (forall a, off x (f a)) -> off x (bindM m f).
Proof. intros H k b k' E. apply bindM_inv in E as (a & k1 & _ & E2). exact (H a _ _ _ E2). Qed.

Lemma off_then {A B} x (m : M kernel A) (f : A -> M kernel B) : off x m -> (forall a, mild none (f a)) -> off x (bindM m f).
Proof.
  intros H Hf k b k' E Hc. apply bindM_inv in E as (a & k1 & E1 & E2). apply (H _ _ _ E1).
  destruct (Hf a _ _ _ E2) as (_ & _ & C). by destruct (C x ltac:(tauto) Hc).
Qed.

Lemma off_upd x f : (forall t, st (f t) <> RT_THREAD_CLOSE) -> off x (upd x f).
Proof.
  intros Hf k a k' [= _ <-] (t & Et & Es). rewrite threads_alter, decide_True in Et by done.
  apply fmap_Some in Et as (t0 & _ & ->). by apply (Hf t0).
Qed.

Lemma mild_of P x : mild P (thread_of x).
Proof. apply mild_same. intros k a k'. unfold thread_of. by destruct (threads k !! x); intros [= _ <-]. Qed.
Lemma mild_self P : mild P rt_thread_self.
Proof. apply mild_same. intros k a k'. unfold rt_thread_self. by destruct (current k); intros [= _ <-]. Qed.
Lemma mild_highest P : mild P _get_highest_priority_thread.
Proof. apply mild_same. intros k a k'. unfold _get_highest_priority_thread. by destruct (lists k _); intros [= _ <-]. Qed.

#[local] Hint Extern 0 (mild _ (Kernel.list_remove _)) => apply mild_remove : mild.
#[local] Hint Extern 0 (mild _ (thread_of _)) => apply mild_of : mild.
#[local] Hint Extern 0 (mild _ rt_thread_self) => apply mild_self : mild.
#[local] Hint Extern 0 (mild _ _get_highest_priority_thread) => apply mild_highest : mild.

Lemma st_set_close v t : 0 <= v < 4 -> st (set_st v t) <> RT_THREAD_CLOSE.
Proof. intros Hv. rewrite st_set by lia. unfold RT_THREAD_CLOSE. lia. Qed.

Ltac mild := repeat first
  [ solve [auto 2 with mild nocore] | match goal with |- mild _ (bindM _ _) => apply mild_bind; [|intros ?] end
  | apply mild_upd; intros ?; first [done | by rewrite st_clear_yield | by rewrite st_set_yield | by (intros ?%st_set_close) | by destruct (_ =? _)]
  | by (apply mild_same; intros ? ? ? [= _ <-]) | by (apply mild_same; intros ? ? ? ?)
  | match goal with |- mild _ (if ?e then _ else _) => destruct e | |- mild _ (match ?e with _ => _ end) => destruct e end ].

Lemma mild_insert P x : mild P (rt_schedule_insert_thread x).
Proof. unfold rt_schedule_insert_thread, push_back. mild. Qed.

Lemma off_insert x : off x (rt_schedule_insert_thread x).
Proof.
  unfold rt_schedule_insert_thread. do 2 (apply off_last; intros ?). destruct (bool_decide _).
  - apply off_upd. intros t. by apply st_set_close.
  - apply off_then; [apply off_upd; intros t; by apply st_set_close|]. intros ?. unfold push_back. mild.
Qed.

Lemma mild_schedule_remove x : mild (eq x) (rt_schedule_remove_thread x).
Proof. unfold rt_schedule_remove_thread. mild. Qed.

#[local] Hint Extern 0 (mild _ (rt_schedule_insert_thread _)) => apply mild_insert : mild.
#[local] Hint Extern 0 (mild _ (rt_schedule_remove_thread _)) => apply mild_schedule_remove : mild.

Lemma mild_runs x : mild none (do! rt_schedule_remove_thread x in upd x (set_st RT_THREAD_RUNNING)).
Proof.
  apply (mild_back x); [mild|]. apply off_last. intros _. apply off_upd. intros t. by apply st_set_close.
Qed.

Lemma mild_schedule : mild none rt_schedule.
Proof.
  intros k a k'. unfold rt_schedule. destruct (negb _); [by intros [= _ <-]|]. destruct (_ =? 0); [by intros [= _ <-]|].
  revert k a k'. match goal with |- forall k a k', ?m k = _ -> _ => change (mild none m) end.
  do 3 (apply mild_bind; [mild|intros ?]). apply mild_bind; [mild|intros _]. destruct (negb _); [|apply mild_runs].
  apply mild_bind; [mild|intros _]. apply mild_bind; [mild|intros _]. apply mild_runs.
Qed.

#[local] Hint Extern 0 (mild _ rt_schedule) => apply mild_more, mild_schedule : mild.

Lemma mild_suspend x : mild none (rt_thread_suspend x).
Proof.
  unfold rt_thread_suspend. apply mild_bind; [mild|intros t]. destruct (_ && _); [mild|]. apply mild_bind; [mild|intros c].
  destruct (_ && _); [mild|]. apply (mild_back x); [mild|].
  apply off_last. intros _. apply off_then; [apply off_upd; intros ?; by apply st_set_close|intros _; mild].
Qed.

Lemma mild_resume x : mild none (rt_thread_resume x).
Proof.
  unfold rt_thread_resume. apply mild_bind; [mild|intros t]. destruct (negb _); [mild|].
  apply (mild_back x); [mild|]. do 2 (apply off_last; intros _). apply off_then; [apply off_insert|intros _; mild].
Qed.

Lemma mild_timeout x : mild none (rt_thread_timeout x).
Proof.
  unfold rt_thread_timeout. apply mild_bind; [mild|intros t]. destruct (negb _); [mild|]. apply mild_bind; [mild|intros _].
  apply (mild_back x).
  - mild.
  - apply off_last. intros _. apply off_then; [apply off_insert|intros _; apply mild_schedule].
Qed.

Lemma mild_priority x p : mild none (change_priority x p).
Proof.
  unfold change_priority. apply mild_bind; [mild|intros t]. destruct (_ =? _); [|mild].
  apply (mild_back x); [mild|]. do 2 (apply off_last; intros _). apply off_insert.
Qed.

Lemma mild_quiet op : quiet op -> mild none (run_kop op).
Proof.
  destruct op as [| | | | | | | |x p n|x|x p|x|x|x|x]; cbn [quiet run_kop]; intros Hq; try done;
    unfold ignore, rt_thread_yield, sleep_enter, sleep_exit, tick_slice, rt_thread_startup;
    try (mild; auto using mild_schedule, mild_suspend, mild_resume, mild_timeout, mild_priority; fail).
  intros k a k'. unfold rt_exit_critical. destruct (_ <=? 0); [|by intros [= _ <-]].
  destruct (current (with_lock 0 k)); [|by intros [= _ <-]]. apply (mild_schedule (with_lock 0 k)).
Qed.

(* ------------------------------------------------------------------ *)
(** ** The kernel under the threads' life *)

Section Kernel.
Context (idle : Z).
Abbreviation kinv := (Kernel.kinv idle).

(** An ended thread is not started, woken nor put to sleep by anybody. *)
Lemma closed_stays op k k' y : kinv k -> quiet op -> kop_ok idle op k -> run_kop op k = Some (tt, k') -> closed k y -> closed k' y.
Proof.
  intros Hk Hq Ho E (t & Et & Es). destruct (kop_spec idle op k Hk Ho) as (k1 & E1 & _ & F). rewrite E in E1. injection E1 as <-.
  destruct (decide (about op k = Some y)) as [Ha|Ha].
  2: { destruct (kf_same _ _ _ _ F y t Ha Et) as (t' & Et' & _ & Hs & _). exists t'. split; [done|]. rewrite Hs; [done|]. intros [Hr|Hr]; by rewrite Es in Hr. }
  destruct op as [| | | | | | | |x p n|x|x p|x|x|x|x]; cbn [about kop_ok] in *; try done; try (injection Ha as ->).
  - destruct Ho as (x & (t0 & Ec & Et0 & Es0) & _). rewrite Ec in Ha. injection Ha as ->. by rewrite Et in Et0; injection Et0 as <-; rewrite Es in Es0.
  - destruct Ho as (x & t0 & Ec & Et0 & Es0). rewrite Ec in Ha. injection Ha as ->. by rewrite Et in Et0; injection Et0 as <-; rewrite Es in Es0.
  - destruct Ho as (t0 & Et0 & Es0). by rewrite Et in Et0; injection Et0 as <-; rewrite Es in Es0.
  - destruct Ho as [_ Hp]. destruct (change_priority_spec k y p t (ki_wf _ _ Hk) Et Hp) as (k1 & E1 & R). cbn [run_kop] in E. rewrite E in E1. injection E1 as <-.
    destruct (rp_thread _ _ _ _ _ R) as (t' & Et' & _ & Es' & _). exists t'. by rewrite Es'.
  - cbn [run_kop] in E. unfold ignore in E. rewrite (bindM_some _ _ _ _ _ (suspend_refused k y t Et ltac:(intros [Hr|Hr]; by rewrite Es in Hr))) in E. injection E as <-. by exists t.
  - cbn [run_kop] in E. unfold ignore in E. rewrite (bindM_some _ _ _ _ _ (resume_refused k y t Et ltac:(by rewrite Es))) in E. injection E as <-. by exists t.
  - destruct Ho as (t0 & Et0 & Ht). rewrite Et in Et0. injection Et0 as <-. pose proof (ki_timer _ _ Hk y t Et Ht) as Es0. by rewrite Es in Es0.
Qed.

(** What the life of the threads sees of the kernel: the threads there are, the
    ended ones, the defunct list. *)
Record same_life (k k' : kernel) : Prop := {
  sl_ids : same_ids k k'; sl_closed : forall y, closed k y <-> closed k' y;
  sl_nodup : List.NoDup (lists k Defunct) -> List.NoDup (lists k' Defunct);
  sl_defunct : (forall y, In y (lists k Defunct) -> closed k y) -> forall y, In y (lists k Defunct) <-> In y (lists k' Defunct) }.

Lemma mild_life {A} (m : M kernel A) k a k' : mild none m -> m k = Some (a, k') -> same_ids k k' ->
  (forall y, closed k y -> closed k' y) -> same_life k k'.
Proof.
  intros H E I C. destruct (H _ _ _ E) as (N & S & J). assert (forall y, closed k' y -> closed k y /\ (In y (lists k Defunct) -> In y (lists k' Defunct))) as J' by (intros y; apply J; tauto).
  split; [done|..|done|].
  - intros y. split; [apply C|]. intros Hc. by destruct (J' y Hc).
  - intros Hd y. split; [|apply S]. intros Hy. destruct (J' y (C y (Hd y Hy))) as [_ H']. by apply H'.
Qed.

Lemma kframe_ids op k k' : kinv k -> quiet op -> kop_ok idle op k -> run_kop op k = Some (tt, k') -> same_ids k k'.
Proof.
  intros Hk Hq Ho E x. destruct (kop_spec idle op k Hk Ho) as (k1 & E1 & _ & F). rewrite E in E1. injection E1 as <-. split.
  - intros [t Et]. destruct (kf_init _ _ _ _ F x t Et) as (t' & Et' & _). by exists t'.
  - intros [t' Et']. destruct (threads k !! x) as [t|] eqn:Et; [by exists t|]. rewrite (kop_adds op k tt k' E x) in Et'; [done| |done].
    intros (p & n & ->). by destruct Hq.
Qed.

Lemma quiet_spec op k : kinv k -> quiet op -> kop_ok idle op k ->
  exists k', run_kop op k = Some (tt, k') /\ kinv k' /\ same_life k k'.
Proof.
  intros Hk Hq Ho. destruct (kop_spec idle op k Hk Ho) as (k' & E & Hk' & _). exists k'. split; [done|]. split; [done|].
  apply (mild_life (run_kop op) k tt k'); [by apply mild_quiet|done|by apply (kframe_ids op)|]. intros y. by apply (closed_stays op).
Qed.

Lemma schedule_life k : kinv k -> exists k', rt_schedule k = Some (tt, k') /\ kinv k' /\ same_life k k'.
Proof. intros Hk. by apply (quiet_spec KSchedule). Qed.

(** A thread that exists and is not on the defunct list ends. *)
Definition ended (x : Z) (k k' : kernel) : Prop :=
  closed k' x /\ others x k k' /\ lists k' Defunct = lists k Defunct /\ current k' = current k.

Lemma ended_at x t t' k : threads k !! x = Some t -> st t' = RT_THREAD_CLOSE -> ~ In x (lists k Defunct) ->
  ended x k (with_threads (<[x := t']> (threads (removed x t k))) (removed x t k)) /\ ended x k (with_threads (<[x := t']> (threads k)) k).
Proof.
  intros E Hs Hn. destruct (removed_fields x t k) as (F1 & F2 & F3 & F4).
  split; (split; [exists t'; cbn; by rewrite lookup_insert_eq|]); (split; [intros y Hy; cbn; rewrite lookup_insert_ne by congruence; by rewrite ?F1|]);
    (split; [|done]); cbn; [|done]. rewrite F4. by apply unlink_notin.
Qed.

Lemma exit_spec k x : kinv k -> running k x -> x <> idle -> ~ In x (lists k Defunct) ->
  exists k', (do! rt_schedule_remove_thread x in do! upd x (with_stat RT_THREAD_CLOSE) in upd x (with_timer false)) k = Some (tt, k') /\
    kinv k' /\ ended x k k'.
Proof.
  intros Hk (t & Ec & Et & Es) Hx Hn. rewrite (bindM_some _ _ _ _ _ (remove_eq x t k Et)), upd_bind, upd_eq. cbn [threads with_threads].
  destruct (removed_fields x t k) as (F1 & _). rewrite (alter_alter_insert _ _ x t) by (by rewrite F1).
  set (t' := with_timer false (with_stat RT_THREAD_CLOSE t)). eexists. split; [reflexivity|]. split; [|by apply (ended_at x t t')].
  apply (kinv_off idle k x t t'); try done; [by rewrite Es|].
  destruct (kw_valid _ _ _ (ki_wf _ _ Hk) x t Et) as (V1 & V2 & V3). split_and!; cbn; try lia. by intros [_ []].
Qed.

Lemma end_spec k x t : kinv k -> threads k !! x = Some t -> st t <> RT_THREAD_CLOSE -> x <> idle -> ~ In x (lists k Defunct) ->
  exists k', (do! (if st t =? RT_THREAD_INIT then retM tt else rt_schedule_remove_thread x) in
     do! upd x (with_timer false) in upd x (with_stat RT_THREAD_CLOSE)) k = Some (tt, k') /\ kinv k' /\ ended x k k'.
Proof.
  intros Hk Et Hc Hx Hn. destruct (kw_valid _ _ _ (ki_wf _ _ Hk) x t Et) as (V1 & V2 & V3). set (t' := with_stat RT_THREAD_CLOSE (with_timer false t)).
  assert (valid t') as Hv by (split_and!; cbn; try lia; by intros [_ []]).
  destruct (Z.eqb_spec (st t) RT_THREAD_INIT) as [Hi|Hi].
  - unfold bindM at 1, retM at 1. rewrite upd_bind, upd_eq. cbn [threads with_threads]. rewrite (alter_alter_insert _ _ x t) by done.
    eexists. split; [reflexivity|]. split; [|exact (proj2 (ended_at x t t' k Et eq_refl Hn))]. apply (kinv_stop idle k x t t'); try done. by right.
  - rewrite (bindM_some _ _ _ _ _ (remove_eq x t k Et)), upd_bind, upd_eq. cbn [threads with_threads].
    destruct (removed_fields x t k) as (F1 & _). rewrite (alter_alter_insert _ _ x t) by (by rewrite F1).
    eexists. split; [reflexivity|]. split; [|by apply (ended_at x t t')]. by apply (kinv_off idle k x t t').
Qed.

(** The memory of an ended thread is given back. *)
Lemma reap_kinv k x : kinv k -> closed k x -> current k <> Some x ->
  kinv (with_threads (delete x (threads k)) (with_lists (fun i => unlink x (lists k i)) k)).
Proof.
  intros [[A1 A2 A3 A4 A5 A6 A7 A8 A9] (c & tc & Ec & Etc) (ti & Ei & Hri) Hl Ht] (t & Et & Es) Hc.
  assert (forall i, i <> Defunct -> unlink x (lists k i) = lists k i) as Hno.
  { intros i Hi. apply unlink_notin. intros Hin. destruct i as [p|o|]; [..|done].
    - destruct (A1 p x Hin) as (_ & _ & t' & E' & Es' & _). rewrite Et in E'. injection E' as <-. by rewrite Es in Es'.
    - destruct (A3 o x Hin) as (_ & t' & E' & Es'). rewrite Et in E'. injection E' as <-. by rewrite Es in Es'. }
  assert (forall y ty, threads k !! y = Some ty -> st ty <> RT_THREAD_CLOSE -> delete x (threads k) !! y = Some ty) as Hd.
  { intros y ty Ey Hy. rewrite lookup_delete_ne; [done|]. intros ->. congruence. }
  assert (forall y ty, delete x (threads k) !! y = Some ty -> threads k !! y = Some ty) as Hd'.
  { intros y ty. destruct (decide (y = x)) as [->|]; [by rewrite lookup_delete_eq|by rewrite lookup_delete_ne by congruence]. }
  split; cbn; [split; cbn|..].
  - intros p y. rewrite Hno by done. intros Hin. destruct (A1 p y Hin) as (? & ? & ty & Ey & Esy & Hp). split_and!; try done. exists ty. split_and!; [apply Hd; [done|by rewrite Esy]|done..].
  - intros y ty _ Ey Hy. rewrite Hno by done. apply A2; auto.
  - intros o y. rewrite Hno by done. intros Hin. destruct (A3 o y Hin) as (? & ty & Ey & Esy). split; [done|]. exists ty. split; [apply Hd; [done|by rewrite Esy]|done].
  - intros o o' y. rewrite !Hno by done. apply A4.
  - intros i Hi. rewrite Hno by done. by apply A5.
  - intros p Hp. rewrite Hno by done. by apply A6.
  - done.
  - intros y ty Ey. by apply (A8 y), Hd'.
  - intros y ty _ Ey. apply A9; auto.
  - exists c, tc. split; [done|]. rewrite lookup_delete_ne; [done|congruence].
  - exists ti. split; [|done]. apply Hd; [done|]. destruct Hri as [-> | ->]; done.
  - done.
  - intros y ty Ey. by apply (Ht y), Hd'.
Qed.
End Kernel.

(* ------------------------------------------------------------------ *)
(** ** Who owns what

    [reg] lists the threads in the container.  The blocks in use are the object
    and the stack of each dynamic one. *)

Definition pair (stk : gmap Z Z) (e : entry) : list Z := if static e then [] else [addr e; default 0 (stk !! addr e)].
Definition owned (stk : gmap Z Z) (reg : list entry) : list Z := concat (map (pair stk) reg).

Record lres (s : system) (reg : list entry) : Prop := {
  lr_rep : rep (objs s) reg;
  lr_class : forall e, In e reg -> class e = RT_Object_Class_Thread;
  lr_thread : forall e, In e reg -> is_Some (threads (kern s) !! addr e) /\ (static e = true -> ~ closed (kern s) (addr e));
  lr_stack : forall x, is_Some (threads (kern s) !! x) -> is_Some (stacks s !! x);
  lr_nodup : List.NoDup (lists (kern s) Defunct);
  lr_defunct : forall x, In x (lists (kern s) Defunct) <-> closed (kern s) x /\ exists e, In e reg /\ addr e = x /\ static e = false;
  lr_owned : List.NoDup (owned (stacks s) reg);
  lr_blocks : forall b, b ∈ blocks s <-> In b (owned (stacks s) reg);
  lr_entry : forall x, is_Some (threads (kern s) !! x) -> closed (kern s) x \/ exists e, In e reg /\ addr e = x }.

Lemma owned_cons stk e reg : owned stk (e :: reg) = pair stk e ++ owned stk reg.
Proof. done. Qed.

Lemma owned_ext stk stk' reg : (forall e, In e reg -> stk !! addr e = stk' !! addr e) -> owned stk reg = owned stk' reg.
Proof.
  induction reg as [|e reg IH]; intros H; [done|]. rewrite !owned_cons, IH by (intros e' He; apply H; by right).
  unfold pair. by rewrite (H e) by (by left).
Qed.

Lemma in_owned stk reg b : In b (owned stk reg) <-> exists e, In e reg /\ static e = false /\ (b = addr e \/ b = default 0 (stk !! addr e)).
Proof.
  induction reg as [|e reg IH]; [split; [done|by intros (? & [] & _)]|]. rewrite owned_cons, in_app_iff, IH. unfold pair. split.
  - intros [H|(e' & He & H)]; [|exists e'; split; [by right|done]]. destruct (static e) eqn:Es; [done|]. exists e. split; [by left|].
    cbn in H. split; [done|]. intuition congruence.
  - intros (e' & [<-|He] & Es & H); [left; rewrite Es; cbn; intuition congruence|right; by exists e'].
Qed.

Lemma drop_absent x reg : ~ In x (map addr reg) -> drop x reg = reg.
Proof.
  unfold drop. induction reg as [|e reg IH]; [done|]. cbn. intros H. destruct (Z.eqb_spec (addr e) x) as [E|]; [destruct H; by left|]. cbn. f_equal. tauto.
Qed.

(** An entry goes: what is owned is what it owned and the rest. *)
Lemma owned_drop stk reg e : List.NoDup (map addr reg) -> In e reg ->
  Permutation (owned stk reg) (pair stk e ++ owned stk (drop (addr e) reg)).
Proof.
  induction reg as [|e' reg IH]; [done|]. cbn [map]. intros [Hn N]%List.NoDup_cons_iff [->|He].
  - rewrite owned_cons. unfold drop. cbn [List.filter]. rewrite Z.eqb_refl. cbn [negb]. fold (drop (addr e) reg). by rewrite drop_absent.
  - rewrite owned_cons, (IH N He). unfold drop at 2. cbn [List.filter]. destruct (Z.eqb_spec (addr e') (addr e)) as [E|].
    { destruct Hn. rewrite E. by apply in_map. }
    cbn [negb]. fold (drop (addr e) reg). rewrite owned_cons, !app_assoc. apply Permutation_app_tail, Permutation_app_comm.
Qed.

Lemma in_registry_drop x reg e : In e (drop x reg) <-> In e reg /\ addr e <> x.
Proof. unfold drop. rewrite filter_In, negb_true_iff, Z.eqb_neq. done. Qed.

Lemma addr_inj reg e e' : List.NoDup (map addr reg) -> In e reg -> In e' reg -> addr e = addr e' -> e = e'.
Proof.
  induction reg as [|e0 reg IH]; [done|]. cbn [map]. intros [Hn N]%List.NoDup_cons_iff [<-|H1] [<-|H2] E; auto; destruct Hn; [rewrite E|rewrite <- E]; by apply in_map.
Qed.

Lemma entry_at_in reg e : List.NoDup (map addr reg) -> In e reg -> entry_at (addr e) reg = Some e.
Proof.
  intros N He. unfold entry_at. destruct (List.find (fun e' => addr e' =? addr e) reg) as [e'|] eqn:E.
  - f_equal. apply List.find_some in E as [H' E%Z.eqb_eq]. by apply (addr_inj reg).
  - pose proof (List.find_none _ _ E e He) as H. cbn in H. by rewrite Z.eqb_refl in H.
Qed.

Lemma lres_addr s reg : lres s reg -> List.NoDup (map addr reg).
Proof. intros L. apply (rp_wf _ _ (lr_rep _ _ L)). Qed.

Lemma closed_life k k' x : ended x k k' -> forall y, y <> x -> closed k' y <-> closed k y.
Proof. intros (_ & Ho & _) y Hy. unfold closed. by rewrite Ho. Qed.

Lemma is_some_life k k' x y : ended x k k' -> is_Some (threads k !! x) -> is_Some (threads k' !! y) <-> is_Some (threads k !! y).
Proof.
  intros ((t & E & _) & Ho & _) Hx. destruct (decide (y = x)) as [->|Hy]; [|by rewrite Ho]. rewrite E. split; [done|by eexists].
Qed.

Lemma lres_defunct_closed s reg : lres s reg -> forall y, In y (lists (kern s) Defunct) -> closed (kern s) y.
Proof. intros L y Hy. by apply (lr_defunct _ _ L) in Hy as [? _]. Qed.

(** What is not the business of the threads' life. *)
Lemma lres_life s reg k' : lres s reg -> same_life (kern s) k' -> lres (with_kern k' s) reg.
Proof.
  intros L [I C N D]. pose proof L as [A1 A2 A3 A4 A5 A6 A7 A8 A9]. specialize (D (lres_defunct_closed s reg L)). split; try done; cbn.
  - intros e He. destruct (A3 e He) as [Hs Hc]. split; [by apply I|]. intros Es Hc'. by apply (Hc Es), C.
  - intros x Hx. by apply A4, I.
  - by apply N.
  - intros x. by rewrite <- D, A6, C.
  - intros x Hx. rewrite <- C. by apply A9, I.
Qed.

(** A thread of the container has ended and is put away. *)
Lemma put_away_spec s reg e k1 idle : lres s reg -> In e reg -> ended (addr e) (kern s) k1 -> ~ closed (kern s) (addr e) -> Kernel.kinv idle k1 ->
  exists s' reg', put_away (addr e) (with_kern k1 s) = Some (tt, s') /\ Kernel.kinv idle (kern s') /\ lres s' reg' /\
    current (kern s') = current (kern s).
Proof.
  intros L He Hd Hnc Hk. pose proof L as [A1 A2 A3 A4 A5 A6 A7 A8 A9]. pose proof (lres_addr _ _ L) as N. pose proof (entry_at_in reg e N He) as Ee.
  pose proof Hd as (Hc & Ho & Hl & Hcur). destruct (A3 e He) as [Hse _]. unfold put_away.
  rewrite (bindM_some _ _ _ (static e) (with_kern k1 s)) by (unfold on_objs; cbn; by rewrite (system_spec _ _ reg e A1 Ee)).
  destruct (static e) eqn:Es.
  - destruct (detach_spec _ _ reg e A1 Ee) as (o & E & R). unfold on_objs. cbn [objs with_kern]. rewrite E.
    eexists _, (drop (addr e) reg). split; [reflexivity|]. split; [done|]. split; [|done].
    pose proof (owned_drop (stacks s) reg e N He) as P. unfold pair in P. rewrite Es in P. cbn [app] in P.
    split; cbn; [done|..].
    + intros e' [He' _]%in_registry_drop. by apply A2.
    + intros e' [He' Hne]%in_registry_drop. rewrite (is_some_life _ _ _ _ Hd Hse), (closed_life _ _ _ Hd _ Hne). by apply A3.
    + intros x Hx. by apply A4, (is_some_life _ _ _ _ Hd Hse).
    + by rewrite Hl.
    + intros x. rewrite Hl, A6. split.
      * intros (Hcx & e' & He' & <- & Es'). assert (addr e' <> addr e) as Hne by (intros E'; apply Hnc; by rewrite <- E').
        rewrite (closed_life _ _ _ Hd _ Hne). split; [done|]. exists e'. by rewrite in_registry_drop.
      * intros (Hcx & e' & [He' Hne]%in_registry_drop & <- & Es'). rewrite (closed_life _ _ _ Hd _ Hne) in Hcx. split; [done|by exists e'].
    + by rewrite <- P.
    + intros b. rewrite A8. split; apply Permutation_in; [done|by symmetry].
    + intros x Hx%(is_some_life _ _ _ _ Hd Hse). destruct (decide (x = addr e)) as [->|Hne]; [by left|]. rewrite (closed_life _ _ _ Hd _ Hne).
      destruct (A9 x Hx) as [|(e' & He' & <-)]; [by left|right]. exists e'. by rewrite in_registry_drop.
  - unfold on_kern, insert_defunct, doM. cbn [kern with_kern]. eexists _, reg. split; [reflexivity|]. split; [by apply kinv_defunct|]. split; [|done].
    assert (~ In (addr e) (lists (kern s) Defunct)) as Hn by (intros [Hc' _]%A6; by apply Hnc).
    split; cbn; try done.
    + intros e' He'. rewrite (is_some_life _ _ _ _ Hd Hse). split; [by apply A3|]. intros Es'.
      assert (addr e' <> addr e) as Hne by (intros E'; by rewrite (addr_inj reg e' e N He' He E'), Es in Es').
      change (~ closed k1 (addr e')). rewrite (closed_life _ _ _ Hd _ Hne). by apply A3.
    + intros x Hx. by apply A4, (is_some_life _ _ _ _ Hd Hse).
    + rewrite Hl. by constructor.
    + intros x. rewrite Hl. change (closed (list_set Defunct (addr e :: lists (kern s) Defunct) k1) x) with (closed k1 x). rewrite decide_True by done. cbn [In]. destruct (decide (x = addr e)) as [->|Hne].
      * split; [intros _; split; [done|by exists e]|by left].
      * rewrite A6, (closed_life _ _ _ Hd _ Hne). intuition congruence.
    + intros x Hx%(is_some_life _ _ _ _ Hd Hse). change (closed (list_set Defunct (addr e :: lists (kern s) Defunct) k1) x) with (closed k1 x).
      destruct (decide (x = addr e)) as [->|Hne]; [by left|]. rewrite (closed_life _ _ _ Hd _ Hne). by apply A9.
Qed.

Lemma on_kern_bind {A B} (m : M kernel A) (f : A -> M system B) s a k' : m (kern s) = Some (a, k') -> bindM (on_kern m) f s = f a (with_kern k' s).
Proof. intros E. unfold bindM, on_kern. by rewrite E. Qed.

Lemma on_objs_bind {A B} (m : M ostate A) (f : A -> M system B) s a o : m (objs s) = Some (a, o) -> bindM (on_objs m) f s = f a (with_objs o s).
Proof. intros E. unfold bindM, on_objs. by rewrite E. Qed.

Lemma on_kern_join3 {A B C D} (m : M kernel A) (n : M kernel B) (r : M kernel C) (f : M system D) s :
  (do! on_kern m in do! on_kern n in do! on_kern r in f) s = (do! on_kern (do! m in do! n in r) in f) s.
Proof.
  unfold bindM, on_kern. destruct (m (kern s)) as [[a k1]|]; [|done]. cbn [kern with_kern]. destruct (n k1) as [[b k2]|]; [|done]. cbn [kern with_kern].
  by destruct (r k2) as [[c k3]|].
Qed.

(** A thread enters the container with its memory. *)
Lemma lres_new s reg e o a t blk : lres s reg -> threads (kern s) !! addr e = None -> class e = RT_Object_Class_Thread ->
  rep o (e :: reg) -> st t <> RT_THREAD_CLOSE -> List.NoDup (pair {[addr e := a]} e) -> (forall b, In b (pair {[addr e := a]} e) -> b ∉ blocks s) ->
  (forall b, b ∈ blk <-> In b (pair {[addr e := a]} e) \/ b ∈ blocks s) ->
  lres (System (with_threads (<[addr e := t]> (threads (kern s))) (kern s)) o (<[addr e := a]> (stacks s)) blk (idle_hook_list s)) (e :: reg).
Proof.
  intros L Ex Hcl R Ht Nd Hd Hb. pose proof L as [A1 A2 A3 A4 A5 A6 A7 A8 A9].
  assert (forall e', In e' reg -> addr e' <> addr e) as Hne.
  { intros e' He' E. destruct (A3 e' He') as [[t' Et'] _]. congruence. }
  assert (pair (<[addr e := a]> (stacks s)) e = pair {[addr e := a]} e) as Ep by (unfold pair; by rewrite lookup_insert_eq, lookup_singleton_eq).
  assert (owned (<[addr e := a]> (stacks s)) reg = owned (stacks s) reg) as Eo.
  { apply owned_ext. intros e' He'. rewrite lookup_insert_ne; [done|]. intros E. by apply (Hne e'). }
  assert (closed (with_threads (<[addr e := t]> (threads (kern s))) (kern s)) (addr e) -> False) as Hx.
  { intros (t' & E & Es). cbn in E. rewrite lookup_insert_eq in E. by injection E as <-. }
  assert (forall y, y <> addr e -> closed (with_threads (<[addr e := t]> (threads (kern s))) (kern s)) y <-> closed (kern s) y) as Hy.
  { intros y Hy. unfold closed. cbn. by rewrite lookup_insert_ne by congruence. }
  assert (~ closed (kern s) (addr e)) as Hx0 by (intros (t' & E & _); congruence).
  split; cbn [kern objs stacks blocks]; [done|..].
  - intros e' [<-|He']; auto.
  - intros e' [<-|He'].
    + split; [cbn; rewrite lookup_insert_eq; by eexists|]. intros _. exact Hx.
    + rewrite Hy by auto. cbn. rewrite lookup_insert_ne by (apply not_eq_sym; auto). auto.
  - intros x. cbn. destruct (decide (x = addr e)) as [->|Hn]; [rewrite !lookup_insert_eq; by eexists|]. rewrite !lookup_insert_ne by congruence. apply A4.
  - done.
  - intros x. cbn [lists with_threads]. rewrite A6. destruct (decide (x = addr e)) as [->|Hn].
    + split; [by intros [? _]|by intros [[]%Hx _]].
    + rewrite Hy by done. split; intros (Hc & e' & He' & E & Es); (split; [done|]); exists e'; [by split; [right|]|]. destruct He' as [->|He']; [congruence|done].
  - rewrite owned_cons, Ep, Eo. apply NoDup_ListNoDup, NoDup_app. rewrite !NoDup_ListNoDup. split; [done|]. split; [|done].
    intros b Hp%list_elem_of_In Ho%list_elem_of_In. apply (Hd b Hp). by apply A8.
  - intros b. rewrite owned_cons, Ep, Eo, in_app_iff, Hb, A8. done.
  - intros x. destruct (decide (x = addr e)) as [->|Hn]; [right; exists e; by split; [left|]|]. cbn. rewrite lookup_insert_ne by congruence.
    rewrite Hy by done. intros Hx'. destruct (A9 x Hx') as [|(e' & He' & E)]; [by left|right]. exists e'. by split; [right|].
Qed.

Lemma lres_objs s reg o : lres s reg -> rep o reg -> lres (with_objs o s) reg.
Proof. intros []. by split. Qed.

Section Life.
Context (idle : Z).
Abbreviation kinv := (Kernel.kinv idle).

Definition linv (s : system) : Prop := kinv (kern s) /\ exists reg, lres s reg.

Abbreviation good op s := (exists s', run_lop op s = Some (tt, s') /\ linv s').

Lemma init_eq x p n k : 0 <= p < 32 -> ignore (_rt_thread_init x p n) k =
  Some (tt, with_threads (<[x := Thread RT_THREAD_INIT p p 0 n n RT_EOK false]> (threads k)) k).
Proof. intros Hp. unfold ignore, bindM, _rt_thread_init. by rewrite (proj2 (Z.ltb_lt p _)) by (unfold RT_THREAD_PRIORITY_MAX; lia). Qed.

Lemma thread_init_eq x a p n s : 0 <= p < 32 -> thread_init x a p n s =
  Some (tt, System (with_threads (<[x := Thread RT_THREAD_INIT p p 0 n n RT_EOK false]> (threads (kern s))) (kern s)) (objs s) (<[x := a]> (stacks s)) (blocks s) (idle_hook_list s)).
Proof. intros Hp. unfold thread_init. by rewrite (on_kern_bind _ _ _ _ _ (init_eq x p n (kern s) Hp)). Qed.

Lemma fresh_thread s reg x : lres s reg -> threads (kern s) !! x = None -> fresh x reg.
Proof. intros L Ex H. apply in_map_iff in H as (e & <- & He). destruct (lr_thread _ _ L e He) as [[t Et] _]. congruence. Qed.

Lemma init_good s reg x nm a p n : lres s reg -> cstring nm -> 0 <= p < 32 -> threads (kern s) !! x = None ->
  exists s' e, rt_thread_init x nm a p n s = Some (RT_EOK, s') /\ lres s' (e :: reg) /\ addr e = x /\ static e = true /\
    kern s' = with_threads (<[x := Thread RT_THREAD_INIT p p 0 n n RT_EOK false]> (threads (kern s))) (kern s).
Proof.
  intros L Hn Hp Ex. destruct (init_spec x RT_Object_Class_Thread nm _ reg (lr_rep _ _ L) ltac:(cbn; tauto) (fresh_thread s reg x L Ex) Hn) as (o & E & R & _).
  unfold rt_thread_init. rewrite (on_objs_bind _ _ _ _ _ E), (bindM_some _ _ _ _ _ (thread_init_eq x a p n _ Hp)).
  eexists _, (Entry x RT_Object_Class_Thread (take RT_NAME_MAX nm) true). split; [reflexivity|]. split; [|done].
  refine (lres_new s reg (Entry x RT_Object_Class_Thread (take RT_NAME_MAX nm) true) o a _ (blocks s) L Ex eq_refl R _ _ _ _); try done.
  - constructor.
  - intros b. cbn. tauto.
Qed.

(** The object of a thread whose stack could not be allocated is deleted. *)
Lemma create_good s reg o a nm p n : lres s reg -> lop_ok idle (LCreate o a nm p n) s ->
  exists r s' reg', rt_thread_create o a nm p n s = Some (r, s') /\ lres s' reg' /\
    match r with
    | None => kern s' = kern s /\ (o = None \/ a = None)
    | Some x => o = Some x /\ (exists e, reg' = e :: reg /\ addr e = x /\ static e = false) /\
        kern s' = with_threads (<[x := Thread RT_THREAD_INIT p p 0 n n RT_EOK false]> (threads (kern s))) (kern s)
    end.
Proof.
  intros L (Hn & Hp & Ho & Ha). unfold rt_thread_create, new_object. rewrite bindM_assoc. unfold bindM at 1, RT_KERNEL_MALLOC at 1.
  destruct o as [x|].
  2: { assert (rt_object_allocate None RT_Object_Class_Thread nm (objs s) = Some (None, objs s)) as E by done.
       rewrite (on_objs_bind _ _ _ _ _ E). exists None, (with_objs (objs s) s), reg. split; [done|]. split; [by apply lres_objs, L|by split; [|left]]. }
  destruct (Ho x eq_refl) as [Hxb Ex]. set (s1 := with_blocks _ s).
  destruct (allocate_spec x RT_Object_Class_Thread nm _ reg (lr_rep _ _ L) ltac:(cbn; tauto) (fresh_thread s reg x L Ex) Hn) as (o1 & E & R).
  rewrite (on_objs_bind _ _ s1 (Some x) o1 E). unfold bindM at 1, RT_KERNEL_MALLOC at 1. set (e := Entry x _ _ false) in R. destruct a as [b|].
  - destruct (Ha b eq_refl) as [Hbb Hxne]. rewrite (bindM_some _ _ _ _ _ (thread_init_eq x b p n _ Hp)).
    exists (Some x). eexists _, (e :: reg). split; [reflexivity|]. split; [|split; [done|split; [by exists e|done]]].
    refine (lres_new s reg e o1 b _ _ L Ex eq_refl R _ _ _ _); [done|..]; unfold pair; cbn [static addr e]; rewrite lookup_singleton_eq; cbn [default].
    + repeat constructor; cbn; [|tauto]. intros [E'|[]]. apply Hxne. congruence.
    + intros c [<-|[<-|[]]]; done.
    + intros c. cbn. set_solver.
  - set (s2 := with_objs o1 s1). assert (entry_at x (e :: reg) = Some e) as Ee by (unfold entry_at; cbn; by rewrite Z.eqb_refl).
    destruct (delete_spec x o1 (e :: reg) e R Ee eq_refl) as (o2 & E2 & R2).
    assert (drop x (e :: reg) = reg) as Ed.
    { unfold drop. cbn. rewrite Z.eqb_refl. cbn. apply (drop_absent x reg). by apply (fresh_thread s). }
    rewrite Ed in R2. unfold drop_object. rewrite bindM_assoc, (on_objs_bind _ _ s2 tt o2 E2), bindM_assoc.
    rewrite (on_kern_bind _ _ _ tt (with_threads (delete x (threads (kern s))) (kern s))) by done.
    unfold bindM at 1, RT_KERNEL_FREE at 1. cbn [blocks with_kern with_objs s2 s1 with_blocks]. rewrite decide_True by set_solver.
    exists None. eexists _, reg. split; [reflexivity|].
    assert (with_threads (delete x (threads (kern s))) (kern s) = kern s) as -> by (rewrite delete_id by done; by destruct (kern s)).
    assert (({[x]} ∪ blocks s) ∖ {[x]} = blocks s) as Eb by (apply set_eq; set_solver).
    split; [|split; [done|by right]]. cbn. unfold with_blocks, with_kern, with_objs. cbn. rewrite Eb. by apply (lres_objs s).
Qed.

Lemma reap_none s : lists (kern s) Defunct = [] -> reap s = Some (false, s).
Proof. intros E. unfold reap. rewrite bindM_getM. cbn [fst snd]. by rewrite E. Qed.

(** The kernel without the ended thread [x]. *)
Definition without (x : Z) (k : kernel) : kernel :=
  with_threads (delete x (threads k)) (with_lists (fun i => unlink x (lists k i)) k).

Lemma without_closed x k y : y <> x -> closed (without x k) y <-> closed k y.
Proof. intros Hy. unfold closed. cbn. by rewrite lookup_delete_ne by congruence. Qed.

(** The first ended thread: its stack and its object are given back. *)
Lemma reap_some s reg x l : kinv (kern s) -> lres s reg -> lists (kern s) Defunct = x :: l -> current (kern s) <> Some x ->
  exists s', reap s = Some (true, s') /\ kinv (kern s') /\ lres s' (drop x reg) /\ kern s' = without x (kern s) /\
    lists (kern s') Defunct = l /\ stacks s' = stacks s.
Proof.
  intros Hk L El Hc. pose proof L as [A1 A2 A3 A4 A5 A6 A7 A8 A9]. pose proof (lres_addr _ _ L) as N.
  destruct (proj1 (A6 x) ltac:(rewrite El; by left)) as (Hcx & e & He & <- & Es). set (x := addr e) in *.
  destruct (A4 x (proj1 (A3 e He))) as [a Ea]. assert (pair (stacks s) e = [x; a]) as Ep by (unfold pair; rewrite Es; fold x; by rewrite Ea).
  pose proof (owned_drop (stacks s) reg e N He) as P. rewrite Ep in P. cbn [app] in P. fold x in P.
  assert (List.NoDup (x :: a :: owned (stacks s) (drop x reg))) as Nd by (by rewrite <- P).
  apply List.NoDup_cons_iff in Nd as [Hx Nd]. apply List.NoDup_cons_iff in Nd as [Ha Nd]. cbn in Hx.
  assert (forall b, b ∈ blocks s <-> b = x \/ b = a \/ In b (owned (stacks s) (drop x reg))) as Hb.
  { intros b. rewrite A8. split; [intros Hb; apply (Permutation_in _ P) in Hb; cbn in Hb; intuition congruence|].
    intros Hb. apply (Permutation_in b (Permutation_sym P)). cbn. intuition congruence. }
  unfold reap. rewrite bindM_getM. cbn [fst snd]. rewrite El.
  rewrite (on_kern_bind _ _ s tt (with_lists (fun i => unlink x (lists (kern s) i)) (kern s))) by done. rewrite bindM_getM. cbn [fst snd with_kern stacks]. rewrite Ea.
  unfold bindM at 1, RT_KERNEL_FREE at 1. cbn [blocks with_kern]. rewrite decide_True by (apply Hb; auto).
  destruct (delete_spec x (objs s) reg e A1 (entry_at_in reg e N He) Es) as (o & E & R).
  unfold drop_object. rewrite bindM_assoc, (on_objs_bind _ _ _ tt o) by (exact E). rewrite bindM_assoc.
  rewrite (on_kern_bind _ _ _ tt (without x (kern s))) by done.
  unfold bindM at 1, RT_KERNEL_FREE at 1. cbn [blocks with_kern with_objs with_blocks]. rewrite decide_True.
  2: { apply elem_of_difference. split; [apply Hb; auto|]. rewrite elem_of_singleton. intuition congruence. }
  assert (lists (without x (kern s)) Defunct = l) as El'.
  { cbn. rewrite El. unfold unlink. cbn [List.filter]. rewrite Z.eqb_refl. cbn [negb]. apply unlink_notin. rewrite El in A5. by apply List.NoDup_cons_iff in A5 as [? _]. }
  eexists. split; [reflexivity|]. split; [by apply reap_kinv|]. split; [|done].
  split; cbn [kern objs stacks blocks with_kern with_objs with_blocks]; [done|..].
  - intros e' [He' _]%in_registry_drop. by apply A2.
  - intros e' [He' Hne]%in_registry_drop. rewrite without_closed by done. cbn. rewrite lookup_delete_ne by congruence. by apply A3.
  - intros y. cbn. destruct (decide (y = x)) as [->|Hne]; [rewrite lookup_delete_eq; by intros []|]. rewrite lookup_delete_ne by congruence. apply A4.
  - rewrite El'. rewrite El in A5. by apply List.NoDup_cons_iff in A5 as [_ ?].
  - intros y. rewrite El'. assert (~ In x l) as Hxl by (rewrite El in A5; by apply List.NoDup_cons_iff in A5 as [? _]).
    pose proof (A6 y) as Hy. rewrite El in Hy. cbn in Hy. split.
    + intros Hin. destruct (proj1 Hy ltac:(by right)) as (Hcy & e' & He' & <- & Es'). assert (addr e' <> x) as Hne by congruence.
      rewrite without_closed by done. split; [done|]. exists e'. by rewrite in_registry_drop.
    + intros (Hcy & e' & [He' Hne]%in_registry_drop & <- & Es'). rewrite without_closed in Hcy by done. destruct (proj2 Hy ltac:(eauto)) as [E'|]; [congruence|done].
  - done.
  - intros b. rewrite !elem_of_difference, !elem_of_singleton, Hb. split; [tauto|]. intros Hin. split; [split; [auto|]|]; intros ->; tauto.
  - intros y. cbn. destruct (decide (y = x)) as [->|Hne]; [rewrite lookup_delete_eq; by intros []|]. rewrite lookup_delete_ne by congruence.
    rewrite without_closed by done. intros Hy. destruct (A9 y Hy) as [|(e' & He' & E')]; [by left|right]. exists e'. rewrite in_registry_drop. split; [|done]. split; [done|congruence].
Qed.

Lemma running_eq k x c : running k x -> current k = Some c -> c = x.
Proof. intros (t & E & _). congruence. Qed.

(** The idle thread has not ended. *)
Lemma idle_live k : kinv k -> ~ closed k idle.
Proof. intros Hk (t & Et & Es). destruct (ki_idle _ _ Hk) as (t' & Et' & Hr). rewrite Et in Et'. injection Et' as <-. destruct Hr as [Hr|Hr]; by rewrite Es in Hr. Qed.

Lemma member_entry s reg x b : lres s reg -> member x b s -> exists e, In e reg /\ addr e = x /\ static e = b.
Proof.
  intros L (Hin & o & Eo & Hb). pose proof (lr_rep _ _ L) as R. rewrite (rp_list _ _ R 0%nat RT_Object_Class_Thread eq_refl) in Hin.
  unfold of_class in Hin. apply in_map_iff in Hin as (e & <- & [He _]%filter_In). exists e. split_and!; [done..|].
  destruct (entry_object _ _ _ _ R (entry_at_in reg e (lres_addr _ _ L) He)) as (o' & Eo' & _ & _ & <-). rewrite Eo in Eo'. by injection Eo' as <-.
Qed.

Lemma entry_member s reg e : lres s reg -> In e reg -> member (addr e) (static e) s.
Proof.
  intros L He. pose proof (lr_rep _ _ L) as R. split.
  - rewrite (rp_list _ _ R 0%nat RT_Object_Class_Thread eq_refl). apply in_map, filter_In. split; [done|]. by rewrite (lr_class _ _ L e He).
  - destruct (entry_object _ _ _ _ R (entry_at_in reg e (lres_addr _ _ L) He)) as (o & Eo & _ & _ & E). by exists o.
Qed.

Lemma with_objs_same s : with_objs (objs s) s = s.
Proof. by destruct s. Qed.
Lemma with_kern_same s : with_kern (kern s) s = s.
Proof. by destruct s. Qed.

Lemma is_thread_eq {A} s reg e b (f : bool -> M system A) : lres s reg -> In e reg -> static e = b -> bindM (is_thread (addr e) b) f s = f true s.
Proof.
  intros L He Es. pose proof (entry_at_in reg e (lres_addr _ _ L) He) as Ee. unfold is_thread. rewrite bindM_assoc.
  rewrite (on_objs_bind _ _ _ _ _ (type_spec _ _ _ _ (lr_rep _ _ L) Ee)), with_objs_same, bindM_assoc.
  rewrite (on_objs_bind _ _ _ _ _ (system_spec _ _ _ _ (lr_rep _ _ L) Ee)), with_objs_same.
  rewrite (lr_class _ _ L e He), Es. unfold bindM, retM. by destruct b.
Qed.

(** What follows a change of the threads. *)
Lemma linv_life s k' : linv s -> kinv k' -> same_life (kern s) k' -> linv (with_kern k' s).
Proof. intros (_ & reg & L) Hk S. split; [done|]. exists reg. by apply lres_life. Qed.

Lemma not_defunct s reg x : lres s reg -> ~ closed (kern s) x -> ~ In x (lists (kern s) Defunct).
Proof. intros L H Hin. by apply H, (lres_defunct_closed s reg L). Qed.

Lemma exit_good s : linv s -> lop_ok idle LExit s -> good LExit s.
Proof.
  intros (Hk & reg & L) (x & Hr & Hx). pose proof Hr as (t & Ec & Et & Es).
  assert (~ closed (kern s) x) as Hnc by (intros (t' & Et' & Es'); rewrite Et in Et'; injection Et' as <-; by rewrite Es in Es').
  destruct (lr_entry _ _ L x ltac:(by eexists)) as [|(e & He & <-)]; [done|].
  destruct (exit_spec idle (kern s) (addr e) Hk Hr Hx (not_defunct s reg _ L Hnc)) as (k1 & E1 & Hk1 & Hd).
  cbn [run_lop]. unfold rt_thread_exit. rewrite (on_kern_bind _ _ s (addr e) (kern s)) by (unfold rt_thread_self; by rewrite Ec).
  rewrite with_kern_same, on_kern_join3, (on_kern_bind _ _ s tt k1) by done.
  destruct (put_away_spec s reg e k1 idle L He Hd Hnc Hk1) as (s2 & reg2 & E2 & Hk2 & L2 & _). rewrite (bindM_some _ _ _ _ _ E2).
  destruct (schedule_life idle (kern s2) Hk2) as (k3 & E3 & Hk3 & S3). unfold on_kern. rewrite E3. eexists. split; [reflexivity|].
  apply linv_life; [by split; [|exists reg2]|done..].
Qed.

Lemma detach_good s x : linv s -> lop_ok idle (LDetach x) s -> good (LDetach x) s.
Proof.
  intros (Hk & reg & L) (Hm & Hx). destruct (member_entry s reg x true L Hm) as (e & He & <- & Es).
  destruct (lr_thread _ _ L e He) as [[t Et] Hnc]. specialize (Hnc Es).
  assert (st t <> RT_THREAD_CLOSE) as Hc by (intros Hc; apply Hnc; by exists t).
  destruct (end_spec idle (kern s) (addr e) t Hk Et Hc Hx (not_defunct s reg _ L Hnc)) as (k1 & E1 & Hk1 & Hd).
  destruct (put_away_spec s reg e k1 idle L He Hd Hnc Hk1) as (s2 & reg2 & E2 & Hk2 & L2 & _).
  cbn [run_lop]. unfold forget, rt_thread_detach. rewrite bindM_assoc, (is_thread_eq s reg e true) by done. cbn [negb].
  rewrite bindM_assoc, (on_kern_bind _ _ s t (kern s)) by (unfold thread_of; by rewrite Et). rewrite with_kern_same, (proj2 (Z.eqb_neq _ _) Hc).
  rewrite (bindM_some _ _ s RT_EOK s2); [by exists s2; split; [|split; [|exists reg2]]|].
  by rewrite on_kern_join3, (on_kern_bind _ _ s tt k1), (bindM_some _ _ _ _ _ E2).
Qed.

Lemma delete_good s x : linv s -> lop_ok idle (LDelete x) s -> good (LDelete x) s.
Proof.
  intros (Hk & reg & L) (Hm & Hx). destruct (member_entry s reg x false L Hm) as (e & He & <- & Es).
  destruct (lr_thread _ _ L e He) as [[t Et] _].
  cbn [run_lop]. unfold forget, rt_thread_delete. rewrite bindM_assoc, (is_thread_eq s reg e false) by done. cbn [negb].
  unfold Kernel.rt_thread_delete. destruct (Z.eq_dec (st t) RT_THREAD_CLOSE) as [Hc|Hc].
  { rewrite (on_kern_bind _ _ s RT_EOK (kern s)); [rewrite with_kern_same; by exists s; split; [|split; [|exists reg]]|]. by rewrite (of_eq _ _ t), Hc. }
  assert (~ closed (kern s) (addr e)) as Hnc by (intros (t' & Et' & Es'); rewrite Et in Et'; by injection Et' as <-).
  destruct (end_spec idle (kern s) (addr e) t Hk Et Hc Hx (not_defunct s reg _ L Hnc)) as (k1 & E1 & Hk1 & Hd).
  destruct (put_away_spec s reg e k1 idle L He Hd Hnc Hk1) as (s2 & reg2 & E2 & Hk2 & L2 & _).
  unfold put_away in E2. rewrite (on_objs_bind _ _ (with_kern k1 s) _ _ (system_spec _ _ _ _ (lr_rep _ _ L) (entry_at_in reg e (lres_addr _ _ L) He))), Es in E2.
  unfold insert_defunct, on_kern, doM in E2. cbn [kern with_kern with_objs objs] in E2. injection E2 as <-.
  rewrite (on_kern_bind _ _ s RT_EOK (list_set Defunct (addr e :: lists k1 Defunct) k1)).
  { eexists. split; [reflexivity|]. split; [exact Hk2|]. exists reg2. cbn in L2. by destruct s. }
  rewrite (of_eq _ _ t), (proj2 (Z.eqb_neq _ _) Hc) by done.
  apply bindM_inv in E1 as (u & ka & Ea & E1). rewrite (bindM_some _ _ _ _ _ Ea). apply bindM_inv in E1 as (u' & kb & Eb & E1).
  rewrite (bindM_some _ _ _ _ _ Eb), (bindM_some _ _ _ _ _ E1). done.
Qed.

Lemma reap_good s : linv s -> running (kern s) idle -> exists b s', reap s = Some (b, s') /\ linv s'.
Proof.
  intros (Hk & reg & L) Hr. destruct (lists (kern s) Defunct) as [|x l] eqn:El.
  - exists false, s. split; [by apply reap_none|]. split; [done|by exists reg].
  - assert (current (kern s) <> Some x) as Hc.
    { intros E. assert (x = idle) as -> by (by apply (running_eq (kern s))). apply (idle_live _ Hk), (lres_defunct_closed s reg L). rewrite El. by left. }
    destruct (reap_some s reg x l Hk L El Hc) as (s' & E & Hk' & L' & _). exists true, s'. split; [done|]. split; [done|]. by eexists.
Qed.

Lemma lop_spec op s : linv s -> lop_ok idle op s -> good op s.
Proof.
  intros Hi Ho. pose proof Hi as (Hk & reg & L). destruct op as [op|x nm a p n|o a nm p n| |x|x|]; auto using exit_good, detach_good, delete_good.
  - destruct Ho as [Hq Ho]. destruct (quiet_spec idle op (kern s) Hk Hq Ho) as (k' & E & Hk' & S). cbn [run_lop]. unfold on_kern. rewrite E.
    eexists. split; [reflexivity|]. by apply linv_life.
  - destruct Ho as (Hn & Hp & Ex). destruct (init_good s reg x nm a p n L Hn Hp Ex) as (s' & e & E & L' & _ & _ & Ek).
    cbn [run_lop]. unfold forget. rewrite (bindM_some _ _ _ _ _ E). exists s'. split; [done|]. split; [|by eexists]. rewrite Ek.
    destruct (kop_spec idle (KInit x p n) (kern s) Hk ltac:(done)) as (k' & E' & Hk' & _). cbn [run_kop] in E'. rewrite init_eq in E' by done. by injection E' as <-.
  - destruct (create_good s reg o a nm p n L Ho) as (r & s' & reg' & E & L' & Hr). cbn [run_lop]. unfold forget. rewrite (bindM_some _ _ _ _ _ E).
    exists s'. split; [done|]. split; [|by exists reg']. destruct r as [x|]; [|by destruct Hr as [-> _]]. destruct Hr as (-> & _ & ->). destruct Ho as (_ & Hp & Ho & _).
    destruct (kop_spec idle (KInit x p n) (kern s) Hk) as (k' & E' & Hk' & _); [by split; [apply Ho|]|]. cbn [run_kop] in E'. rewrite init_eq in E' by done. by injection E' as <-.
  - destruct (reap_good s Hi Ho) as (b & s' & E & Hi'). exists s'. cbn [run_lop]. unfold forget. by rewrite (bindM_some _ _ _ _ _ E).
Qed.

Lemma lops_spec ops : forall s, linv s -> lops_ok idle ops s -> exists s', run_lops ops s = Some (tt, s') /\ linv s'.
Proof.
  induction ops as [|op ops IH]; intros s Hi Ho; cbn [run_lops lops_ok] in *; [by exists s|]. destruct Ho as [Ho Hr].
  destruct (lop_spec op s Hi Ho) as (s1 & E & Hi1). rewrite E in Hr. destruct (IH s1 Hi1 Hr) as (s' & E' & Hi'). exists s'. by rewrite (bindM_some _ _ _ _ _ E).
Qed.

Lemma member_iff s reg x b : lres s reg -> member x b s <-> exists e, In e reg /\ addr e = x /\ static e = b.
Proof.
  intros L. split; [by apply member_entry|]. intros (e & He & <- & <-). by apply (entry_member s reg).
Qed.

(** Enough turns give back every ended thread; nothing else changes. *)
Record reaped (l : list Z) (s s' : system) : Prop := {
  re_inv : linv s'; re_empty : lists (kern s') Defunct = []; re_run : running (kern s') idle; re_stack : stacks s' = stacks s;
  re_gone : forall x, In x l -> threads (kern s') !! x = None;
  re_same : forall x, ~ In x l -> threads (kern s') !! x = threads (kern s) !! x;
  re_member : forall x b, member x b s' <-> member x b s /\ ~ In x l;
  re_lists : forall i, i <> Defunct -> forall x, In x (lists (kern s') i) <-> In x (lists (kern s) i) /\ ~ In x l }.

Lemma idle_loop_spec l : forall s fuel, linv s -> running (kern s) idle -> lists (kern s) Defunct = l -> (length l < fuel)%nat ->
  exists s', idle_loop fuel s = Some (tt, s') /\ reaped l s s'.
Proof.
  induction l as [|x l IH]; intros s [|fuel] Hi Hr El Hf; cbn [length idle_loop] in *; try lia.
  { rewrite (bindM_some _ _ _ _ _ (reap_none s El)). exists s. split; [done|]. split; try done; intros; cbn; tauto. }
  pose proof Hi as (Hk & reg & L).
  assert (x <> idle) as Hx by (intros ->; apply (idle_live _ Hk), (lres_defunct_closed s reg L); rewrite El; by left).
  assert (current (kern s) <> Some x) as Hc by (intros E; by apply Hx, (running_eq (kern s))).
  destruct (reap_some s reg x l Hk L El Hc) as (s1 & E1 & Hk1 & L1 & Ek & El1 & Est). rewrite (bindM_some _ _ _ _ _ E1).
  assert (forall y, y <> x -> threads (kern s1) !! y = threads (kern s) !! y) as Hy by (intros y Hy; rewrite Ek; cbn; by rewrite lookup_delete_ne by congruence).
  assert (threads (kern s1) !! x = None) as Hxn by (rewrite Ek; cbn; by rewrite lookup_delete_eq).
  assert (running (kern s1) idle) as Hr1.
  { destruct Hr as (t & Ec & Et & Es). exists t. rewrite Hy by congruence. split; [|done]. by rewrite Ek. }
  assert (~ In x l) as Hxl by (pose proof (lr_nodup _ _ L) as N; rewrite El in N; by apply List.NoDup_cons_iff in N as [? _]).
  destruct (IH s1 fuel ltac:(split; [done|by eexists]) Hr1 El1 ltac:(lia)) as (s' & E' & [R1 R2 R3 R4 R5 R6 R7 R8]). exists s'. split; [done|].
  split; [done..| | | | |].
  - by rewrite R4.
  - intros y [<-|Hin]; [by rewrite R6|auto].
  - intros y Hn. cbn in Hn. rewrite R6 by tauto. apply Hy. intuition congruence.
  - intros y b. rewrite R7, (member_iff s reg y b L), (member_iff s1 _ y b L1). cbn [In]. split.
    + intros ((e & [He Hne]%in_registry_drop & <- & Es) & Hn). split; [by exists e|]. intuition congruence.
    + intros ((e & He & <- & Es) & Hn). split; [|tauto]. exists e. rewrite in_registry_drop. split; [|done]. split; [done|]. intuition congruence.
  - intros i Hn y. rewrite (R8 i Hn), Ek. cbn [lists without with_threads with_lists In]. rewrite in_unlink. intuition congruence.
Qed.
End Life.

(* ------------------------------------------------------------------ *)
(** ** The start *)

Lemma kpre_closed k x : kpre k -> ~ closed k x.
Proof. intros Hp (t & Et & Es). destruct (kp_ready _ Hp x t Et) as (Er & _). by rewrite Er in Es. Qed.

(** A thread that was just initialised is started. *)
Lemma started_spec s s1 reg x p n : kpre (kern s) -> threads (kern s) !! x = None -> 0 <= p < 32 -> lres s1 reg ->
  kern s1 = with_threads (<[x := Thread RT_THREAD_INIT p p 0 n n RT_EOK false]> (threads (kern s))) (kern s) ->
  exists k', started x s1 = Some (tt, with_kern k' s1) /\ kpre k' /\ lres (with_kern k' s1) reg /\ others x (kern s) k' /\
    (forall r, start_threads ((x, (p, n)) :: r) (kern s) = start_threads r k').
Proof.
  intros Hp Ex Hr L Ek. destruct (start_one (kern s) x p n Hp Ex Hr) as (k' & E & Hp' & Hx & Ho).
  pose proof E as E0. unfold ignore in E0. apply bindM_inv in E0 as (v & k1 & E1 & E0). apply bindM_inv in E0 as (v' & k2 & E2 & [= <-]).
  assert (k1 = kern s1) as ->.
  { rewrite Ek. pose proof (init_eq x p n (kern s) Hr) as Ei. unfold ignore in Ei. rewrite (bindM_some _ _ _ _ _ E1) in Ei. by injection Ei. }
  assert (ignore (rt_thread_startup x) (kern s1) = Some (tt, k2)) as Es by (unfold ignore; by rewrite (bindM_some _ _ _ _ _ E2)).
  exists k2. unfold started, on_kern. rewrite Es. split; [done|]. split; [done|]. split; [|split; [done|]].
  - apply lres_life; [done|]. apply (mild_life (run_kop (KStartup x)) _ tt); [by apply mild_quiet|exact Es| |].
    + intros y. destruct (decide (y = x)) as [->|Hy].
      * rewrite Ek. cbn. rewrite lookup_insert_eq. split; [done|by eexists].
      * rewrite (Ho y Hy), Ek. cbn. by rewrite lookup_insert_ne by congruence.
    + intros y (t & Et & Ec). rewrite Ek in Et. cbn in Et. destruct (decide (y = x)) as [->|Hy].
      * rewrite lookup_insert_eq in Et. by injection Et as <-.
      * rewrite lookup_insert_ne in Et by congruence. destruct (kpre_closed (kern s) y Hp). by exists t.
  - intros r. cbn [start_threads]. by rewrite (bindM_some _ _ _ _ _ E1), (bindM_some _ _ _ _ _ E2).
Qed.

Lemma mild_start : mild none rt_system_scheduler_start.
Proof.
  unfold rt_system_scheduler_start. apply mild_bind; [mild|intros [x p]]. cbn [fst]. apply mild_bind; [mild|intros _].
  apply (mild_back x); [mild|].
  - apply off_last. intros _. apply off_upd. done.
Qed.

Definition boot_threads (main timer_thread idle : Z) : list (Z * (Z * Z)) :=
  [(main, (RT_MAIN_THREAD_PRIORITY, 20)); (timer_thread, (RT_TIMER_THREAD_PRIO, 10)); (idle, (RT_THREAD_PRIORITY_MAX - 1, 32))].

Lemma reset_lres : lres reset_state [].
Proof.
  assert (forall x, is_Some (threads (kern reset_state) !! x) -> False) as H by (intros x [t E]; cbn in E; by rewrite lookup_empty in E).
  split; cbn.
  - apply start_rep.
  - done.
  - done.
  - intros x Hx. by destruct (H x Hx).
  - constructor.
  - intros x. split; [done|]. by intros (_ & e & [] & _).
  - constructor.
  - intros b. set_solver.
  - intros x Hx. by destruct (H x Hx).
Qed.

Lemma startup_good tm ts idle ist x a : List.NoDup [x; tm; idle] -> a <> x ->
  exists s, rtthread_startup tm ts idle ist (Some x) (Some a) reset_state = Some (tt, s) /\ linv idle s /\
    kernel_boot (boot_threads x tm idle) = Some (kern s).
Proof.
  intros N Ha. assert (Kernel.boot_ok idle (boot_threads x tm idle)) as Hb.
  { split_and!; [done| |cbn; auto]. unfold boot_threads. do 3 (apply List.Forall_cons; [cbn; unfold RT_MAIN_THREAD_PRIORITY, RT_TIMER_THREAD_PRIO, RT_THREAD_PRIORITY_MAX; lia|]). apply List.Forall_nil. }
  destruct (kernel_boot_spec idle _ Hb) as (kf & Ef & Hkf & _ & Hids & Hrun).
  assert (x <> tm /\ x <> idle /\ tm <> idle) as (N1 & N2 & N3).
  { apply List.NoDup_cons_iff in N as [H1 N]. apply List.NoDup_cons_iff in N as [H2 _]. cbn in *. intuition congruence. }
  assert (kpre (kern reset_state)) as P0.
  { split; try done. split; try done; cbn; [intros; constructor|intros p Hp; by rewrite Z.testbit_0_l]. }
  assert (forall nm, {nm = "main"%string} + {nm = "timer"%string} + {nm = "tidle0"%string} -> cstring (clit nm)) as Hn.
  { intros nm [[->| ->]| ->]; repeat constructor; cbn; lia. }
  unfold rtthread_startup, rt_application_init. rewrite bindM_assoc.
  destruct (create_good idle reset_state [] (Some x) (Some a) (clit "main") RT_MAIN_THREAD_PRIORITY 20 reset_lres) as (r & s1 & reg1 & E1 & L1 & Hr).
  { split; [auto|]. split; [done|]. split; [by intros y [= <-]|]. intros b [= <-]. split; [done|congruence]. }
  destruct r as [y|]; [|by destruct Hr as (_ & [?|?])]. destruct Hr as ([= <-] & _ & Ek1). rewrite (bindM_some _ _ _ _ _ E1).
  destruct (started_spec reset_state s1 reg1 x RT_MAIN_THREAD_PRIORITY 20 P0 eq_refl ltac:(done) L1 Ek1) as (k1 & E2 & P1 & L2 & O1 & S1).
  rewrite (bindM_some _ _ _ _ _ E2). set (s2 := with_kern k1 s1) in *.
  assert (threads k1 !! tm = None) as Et by (by rewrite O1 by congruence).
  destruct (init_good s2 reg1 tm (clit "timer") ts RT_TIMER_THREAD_PRIO 10 L2 ltac:(auto) ltac:(done) Et) as (s3 & e3 & E3 & L3 & _ & _ & Ek3).
  unfold rt_system_timer_thread_init. rewrite bindM_assoc, (bindM_some _ _ _ _ _ E3).
  destruct (started_spec s2 s3 (e3 :: reg1) tm RT_TIMER_THREAD_PRIO 10 P1 Et ltac:(done) L3 Ek3) as (k2 & E4 & P2 & L4 & O2 & S2).
  rewrite (bindM_some _ _ _ _ _ E4). set (s4 := with_kern k2 s3) in *.
  assert (threads k2 !! idle = None) as Ei by (rewrite O2 by congruence; cbn; by rewrite O1 by congruence).
  destruct (init_good s4 (e3 :: reg1) idle (clit "tidle0") ist (RT_THREAD_PRIORITY_MAX - 1) 32 L4 ltac:(auto) ltac:(done) Ei) as (s5 & e5 & E5 & L5 & _ & _ & Ek5).
  unfold rt_thread_idle_init. rewrite bindM_assoc, (bindM_some _ _ _ _ _ E5).
  destruct (started_spec s4 s5 (e5 :: e3 :: reg1) idle (RT_THREAD_PRIORITY_MAX - 1) 32 P2 Ei ltac:(done) L5 Ek5) as (k3 & E6 & P3 & L6 & O3 & S3).
  rewrite (bindM_some _ _ _ _ _ E6). set (s6 := with_kern k3 s5) in *.
  pose proof Ef as Eb. unfold kernel_boot, boot_threads in Eb. change rt_system_scheduler_init with (kern reset_state) in Eb.
  unfold bindM at 1 in Eb. rewrite S1, (S2 [_] : start_threads _ k1 = _), (S3 [] : start_threads _ k2 = _) in Eb. cbn [start_threads retM] in Eb.
  destruct (rt_system_scheduler_start k3) as [[[] k4]|] eqn:E7; [|done]. injection Eb as <-.
  exists (with_kern k4 s6). unfold on_kern. cbn [kern s6 with_kern]. rewrite E7. split; [done|]. split; [|done]. split; [done|]. exists (e5 :: e3 :: reg1).
  apply lres_life; [done|]. apply (mild_life _ _ _ _ mild_start E7).
  - intros y. rewrite Hids. cbn [kern s6 with_kern].
    destruct (start_threads_spec (boot_threads x tm idle) N (proj1 (proj2 Hb)) (kern reset_state) P0 ltac:(done)) as (k3' & E3' & _ & Hi).
    unfold boot_threads in E3'. rewrite S1, (S2 [_] : start_threads _ k1 = _), (S3 [] : start_threads _ k2 = _) in E3'. injection E3' as <-.
    rewrite Hi. cbn. split; [intros [[? ?]|]; done|by right].
  - intros y Hc. by destruct (kpre_closed k3 y P3).
Qed.

(** What is in use, from the invariant. *)
Lemma lres_in_use s reg b : lres s reg -> b ∈ blocks s <-> exists y, member y false s /\ (b = y \/ stacks s !! y = Some b).
Proof.
  intros L. rewrite (lr_blocks _ _ L), in_owned. split.
  - intros (e & He & Es & Hb). exists (addr e). split; [apply (member_iff s reg); [done|by exists e]|]. destruct Hb as [->| ->]; [by left|right].
    destruct (lr_stack _ _ L _ (proj1 (lr_thread _ _ L e He))) as [c ->]. done.
  - intros (y & (e & He & <- & Es)%(member_iff s reg _ _ L) & Hb). exists e. split; [done|]. split; [done|]. destruct Hb as [|Hb]; [by left|right]. by rewrite Hb.
Qed.

(** Two threads share no memory. *)
Lemma lres_apart s reg y b z : lres s reg -> member y false s -> stacks s !! y = Some b -> member z false s ->
  b <> z /\ (stacks s !! z = Some b -> z = y).
Proof.
  intros L (e & He & <- & Es)%(member_iff s reg _ _ L) Hb (e' & He' & <- & Es')%(member_iff s reg _ _ L). pose proof (lres_addr _ _ L) as N.
  pose proof (lr_owned _ _ L) as Nd. pose proof (owned_drop (stacks s) reg e N He) as P. rewrite P in Nd. unfold pair in Nd. rewrite Es, Hb in Nd. cbn [default app] in Nd.
  apply List.NoDup_cons_iff in Nd as [H1 Nd]. apply List.NoDup_cons_iff in Nd as [H2 _]. destruct (decide (addr e' = addr e)) as [E|Hne].
  - rewrite E. split; [|done]. intros ->. apply H1. by left.
  - assert (forall c, c = addr e' \/ c = default 0 (stacks s !! addr e') -> In c (owned (stacks s) (drop (addr e) reg))) as Hin.
    { intros c Hc. apply in_owned. exists e'. rewrite in_registry_drop. done. }
    split; [intros ->; apply H2, Hin; by left|]. intros E. destruct H2. apply Hin. right. by rewrite E.
Qed.

Lemma lres_ended s reg y : lres s reg -> In y (lists (kern s) Defunct) <-> closed (kern s) y /\ member y false s.
Proof. intros L. by rewrite (lr_defunct _ _ L), (member_iff s reg _ _ L). Qed.

(* ------------------------------------------------------------------ *)
(** ** Properties *)

(** C23: no memory of a thread is lost, freed twice or used after it was freed.
    The start of the system succeeds, and whatever threads are created, end, are
    deleted or detached after it, run, sleep and are woken, with the idle thread
    cleaning up a turn at a time between: no assertion and no free fails; the
    blocks in use are exactly the object and the stack of each dynamic thread in
    the container, all different; and the ended ones of these, no others, are on
    the list the idle thread works off. *)
Theorem threads_no_leak tm ts idle ist main stack : List.NoDup [main; tm; idle] -> stack <> main ->
  exists s0, rtthread_startup tm ts idle ist (Some main) (Some stack) reset_state = Some (tt, s0) /\ forall ops, lops_ok idle ops s0 ->
    exists s, run_lops ops s0 = Some (tt, s) /\
      (forall b, b ∈ blocks s <-> exists y, member y false s /\ (b = y \/ stacks s !! y = Some b)) /\
      (forall y z b, member y false s -> member z false s -> stacks s !! y = Some b -> b <> z /\ (stacks s !! z = Some b -> z = y)) /\
      (forall y, In y (lists (kern s) Defunct) <-> closed (kern s) y /\ member y false s) /\ List.NoDup (lists (kern s) Defunct).
Proof.
  intros N Ha. destruct (startup_good tm ts idle ist main stack N Ha) as (s0 & E0 & Hi0 & _). exists s0. split; [done|]. intros ops Ho.
  destruct (lops_spec idle ops s0 Hi0 Ho) as (s & E & _ & reg & L). exists s. split; [done|]. split; [intros b; by apply (lres_in_use s reg)|].
  split; [intros y z b Hy Hz Hb; by apply (lres_apart s reg)|]. split; [intros y; by apply (lres_ended s reg)|apply L].
Qed.

(** C24: the idle thread gives back all that ended.  In every such state in which
    it runs, one call of [rt_thread_idle_excute] returns; after it no ended
    dynamic thread is left, in the container or anywhere, the blocks in use are
    those of the dynamic threads that had not ended, and no other thread
    changed. *)
Theorem idle_frees_ended tm ts idle ist main stack : List.NoDup [main; tm; idle] -> stack <> main ->
  exists s0, rtthread_startup tm ts idle ist (Some main) (Some stack) reset_state = Some (tt, s0) /\ forall ops, lops_ok idle ops s0 ->
    exists s, run_lops ops s0 = Some (tt, s) /\ (running (kern s) idle -> exists s', rt_thread_idle_excute s = Some (tt, s') /\
      lists (kern s') Defunct = [] /\ running (kern s') idle /\
      (forall y b, member y b s' <-> member y b s /\ ~ (b = false /\ closed (kern s) y)) /\
      (forall b, b ∈ blocks s' <-> exists y, member y false s /\ ~ closed (kern s) y /\ (b = y \/ stacks s !! y = Some b)) /\
      (forall y t, threads (kern s) !! y = Some t -> threads (kern s') !! y = Some t \/ st t = RT_THREAD_CLOSE /\ member y false s)).
Proof.
  intros N Ha. destruct (startup_good tm ts idle ist main stack N Ha) as (s0 & E0 & Hi0 & _). exists s0. split; [done|]. intros ops Ho.
  destruct (lops_spec idle ops s0 Hi0 Ho) as (s & E & Hi). exists s. split; [done|]. intros Hr. pose proof Hi as (Hk & reg & L).
  destruct (idle_loop_spec idle (lists (kern s) Defunct) s (S (length (lists (kern s) Defunct))) Hi Hr eq_refl ltac:(lia)) as (s' & E' & [(_ & reg' & L') R2 R3 R4 R5 R6 R7 _]).
  assert (forall y b, member y b s -> In y (lists (kern s) Defunct) <-> b = false /\ closed (kern s) y) as Hd.
  { intros y b Hm. rewrite (lres_ended s reg y L). split.
    - intros [Hc (_ & o & Eo & Es)]. split; [|done]. destruct Hm as (_ & o' & Eo' & <-). rewrite Eo in Eo'. by injection Eo' as <-.
    - intros [-> Hc]. done. }
  exists s'. split; [exact E'|]. split; [done|]. split; [done|]. split_and!.
  - intros y b. rewrite R7. split; intros [Hm Hn]; (split; [done|]); by rewrite (Hd y b Hm) in *.
  - intros b. rewrite (lres_in_use s' reg' b L'), R4. split.
    + intros (y & [Hm Hn]%R7 & Hb). exists y. split; [done|]. split; [|done]. intros Hc. apply Hn. by apply (Hd y false).
    + intros (y & Hm & Hn & Hb). exists y. split; [|done]. apply R7. split; [done|]. rewrite (Hd y false Hm). tauto.
  - intros y t Ey. destruct (In_dec Z.eq_dec y (lists (kern s) Defunct)) as [Hin|Hin]; [right|left; by rewrite R6].
    destruct (proj1 (lres_ended s reg y L) Hin) as ((t' & Et' & Es) & Hm). rewrite Ey in Et'. by injection Et' as <-.
Qed.

(** The rules, decided. *)
Section Decide.
Context (idle : Z).

Definition memberb (x : Z) (static : bool) (s : system) : bool :=
  existsb (Z.eqb x) (object_list (objs s) 0) &&
  match objects (objs s) !! x with Some o => eqb (tst (type o) RT_Object_Class_Static) static | None => false end.

Definition quietb (op : kop) : bool := match op with KInit _ _ _ | KExit | KDelete _ => false | _ => true end.

Definition cstringb (nm : list Z) : bool := forallb (fun c => (0 <? c) && (c <? 256)) nm.

Definition lop_okb (op : lop) (s : system) : bool :=
  let free x := negb (bool_decide (x ∈ blocks s)) in
  match op with
  | LKernel op => quietb op && kop_okb idle op (kern s)
  | LInit x nm a p n => cstringb nm && (0 <=? p) && (p <? 32) && match threads (kern s) !! x with None => true | Some _ => false end
  | LCreate o a nm p n => cstringb nm && (0 <=? p) && (p <? 32) &&
      match o with None => true | Some x => free x && match threads (kern s) !! x with None => true | Some _ => false end end &&
      match a with None => true | Some b => free b && negb (bool_decide (o = Some b)) end
  | LExit => kop_okb idle KExit (kern s)
  | LDetach x => memberb x true s && negb (x =? idle)
  | LDelete x => memberb x false s && negb (x =? idle)
  | LReap => runningb (kern s) idle
  end.

Fixpoint lops_okb (ops : list lop) (s : system) : bool :=
  match ops with
  | [] => true
  | op :: r => lop_okb op s && match run_lop op s with Some (_, s') => lops_okb r s' | None => true end
  end.

Lemma memberb_spec x b s : memberb x b s = true -> member x b s.
Proof.
  unfold memberb. intros [H1 H2]%andb_true_iff. apply existsb_exists in H1 as (y & Hy & ->%Z.eqb_eq). split; [done|].
  destruct (objects (objs s) !! y) as [o|]; [|done]. exists o. split; [done|]. by apply eqb_prop.
Qed.

Lemma cstringb_spec nm : cstringb nm = true -> cstring nm.
Proof.
  unfold cstringb, cstring. rewrite forallb_forall. intros H. apply List.Forall_forall. intros c Hc. specialize (H c Hc).
  apply andb_true_iff in H as [?%Z.ltb_lt ?%Z.ltb_lt]. done.
Qed.

Lemma lop_okb_spec op s : lop_okb op s = true -> lop_ok idle op s.
Proof.
  destruct op as [op|x nm a p n|o a nm p n| |x|x|]; cbn [lop_okb lop_ok]; intros H; breflect.
  - split; [|by apply kop_okb_spec]. by destruct op.
  - split_and!; [by apply cstringb_spec|done..|]. by destruct (threads (kern s) !! x).
  - split_and!; [by apply cstringb_spec|done..| |].
    + intros x ->. breflect. split; [by eapply bool_decide_eq_false_1|]. by destruct (threads (kern s) !! x).
    + intros b ->. breflect. split; by eapply bool_decide_eq_false_1.
  - by apply (kop_okb_spec idle KExit).
  - split; [by apply memberb_spec|done].
  - split; [by apply memberb_spec|done].
  - by apply runningb_spec.
Qed.

Lemma lops_okb_spec ops : forall s, lops_okb ops s = true -> lops_ok idle ops s.
Proof.
  induction ops as [|op ops IH]; intros s; cbn [lops_ok lops_okb]; [done|]. intros [H1 H2]%andb_true_iff.
  split; [by apply lop_okb_spec|]. destruct (run_lop op s) as [[[] s']|]; [by apply IH|done].
Qed.
End Decide.

(** The timer thread sleeps; the main thread creates a thread, cannot create
    another for want of a stack, starts a static one and ends; the created one
    is deleted, the static one ends; the idle thread takes one turn. *)
Definition sample_start : system :=
  match rtthread_startup 16 17 32 33 (Some 1000) (Some 2000) reset_state with Some (_, s) => s | None => reset_state end.
Definition sample_life : list lop :=
  [ LKernel KSleep; LKernel KSchedule; LCreate (Some 3000) (Some 3100) (clit "md_m_poll") 10 10; LKernel (KStartup 3000);
    LCreate (Some 4000) None (clit "hw_cloud") 26 10; LInit 64 (clit "uart4_rx") 65 25 10; LKernel (KStartup 64); LExit;
    LDelete 3000; LKernel KSchedule; LExit; LReap ].

Lemma sample_starts s : rtthread_startup 16 17 32 33 (Some 1000) (Some 2000) reset_state = Some (tt, s) -> s = sample_start.
Proof. intros E. unfold sample_start. by rewrite E. Qed.

Lemma sample_threads_nodup : List.NoDup [1000; 16; 32].
Proof. repeat constructor; cbn; intuition discriminate. Qed.

Lemma sample_life_ok : lops_ok 32 sample_life sample_start.
Proof. apply lops_okb_spec. vm_compute. reflexivity. Qed.

Definition sample_end : system := match run_lops sample_life sample_start with Some (_, s) => s | None => reset_state end.
Lemma sample_ends s : run_lops sample_life sample_start = Some (tt, s) -> s = sample_end.
Proof. intros E. unfold sample_end. by rewrite E. Qed.

Lemma sample_end_eq : lists (kern sample_end) Defunct = [1000] /\ runningb (kern sample_end) 32 = true /\
  bool_decide (blocks sample_end = {[1000; 2000]}) = true.
Proof. vm_compute. done. Qed.

Lemma threads_no_leak_witness :
  exists s, run_lops sample_life sample_start = Some (tt, s) /\ closed (kern s) 1000 /\ member 1000 false s.
Proof.
  destruct (threads_no_leak 16 17 32 33 1000 2000 sample_threads_nodup) as (s0 & E0 & H); [discriminate|]. apply sample_starts in E0. subst s0.
  destruct (H sample_life sample_life_ok) as (s & E & _ & _ & Hd & _). exists s. split; [exact E|]. apply Hd.
  rewrite (sample_ends s E), (proj1 sample_end_eq). left. reflexivity.
Defined.

Lemma idle_frees_ended_witness :
  exists s', rt_thread_idle_excute sample_end = Some (tt, s') /\ lists (kern s') Defunct = [] /\ ~ member 1000 false s'.
Proof.
  destruct (idle_frees_ended 16 17 32 33 1000 2000 sample_threads_nodup) as (s0 & E0 & H); [discriminate|]. apply sample_starts in E0. subst s0.
  destruct (H sample_life sample_life_ok) as (s & E & Hr). apply sample_ends in E. subst s.
  destruct Hr as (s' & E' & El & _ & Hm & _); [apply runningb_spec; apply sample_end_eq|]. exists s'. split; [exact E'|]. split; [exact El|].
  intros Hin. apply Hm in Hin as [_ Hn]. apply Hn. split; [reflexivity|]. vm_compute. eexists. split; reflexivity.
Defined.

(* ------------------------------------------------------------------ *)
(** ** Hooks *)

Lemma set_first_spec f v l : match set_first f v l with
  | Some l' => exists l1 h l2, l = l1 ++ h :: l2 /\ Forall (fun x => f x = false) l1 /\ f h = true /\ l' = l1 ++ v :: l2
  | None => Forall (fun x => f x = false) l
  end.
Proof.
  induction l as [|h l IH]; cbn; [constructor|]. destruct (f h) eqn:E.
  - exists [], h, l. split_and!; [done|constructor|done..].
  - destruct (set_first f v l) as [l'|]; cbn; [|by constructor]. destruct IH as (l1 & h' & l2 & -> & F & Eh & ->).
    exists (h :: l1), h', l2. split_and!; [done|by constructor|done..].
Qed.

(** A hook that was set can be taken out, which leaves the hooks as they were;
    with four hooks no more is taken. *)
Lemma hook_set_and_removed hook s : Forall (fun h => is_hook hook h = false) (idle_hook_list s) ->
  (exists s1, rt_thread_idle_sethook hook s = Some (RT_EOK, s1) /\ rt_thread_idle_delhook hook s1 = Some (RT_EOK, s)) \/
  rt_thread_idle_sethook hook s = Some (- RT_EFULL, s) /\ Forall (fun h => no_hook h = false) (idle_hook_list s).
Proof.
  intros Fn. unfold rt_thread_idle_sethook. pose proof (set_first_spec no_hook (Some hook) (idle_hook_list s)) as H.
  destruct (set_first no_hook (Some hook) (idle_hook_list s)) as [l'|]; [left|by right].
  destruct H as (l1 & h & l2 & E & F & Eh & ->). eexists. split; [done|]. unfold rt_thread_idle_delhook. cbn [idle_hook_list with_hooks].
  assert (set_first (is_hook hook) None (l1 ++ Some hook :: l2) = Some (idle_hook_list s)) as ->; [|by destruct s].
  rewrite E in *. destruct h as [|]; [done|]. apply Forall_app in Fn as [F1 _]. clear -F1. induction F1 as [|h l1 Eh F1 IH]; cbn.
  - by rewrite Z.eqb_refl.
  - by rewrite Eh, IH.
Qed.
