(* ===== verification/Startup.v ===== *)
(** * The start of the applications

    applications/main.c over the threads of Kernel.v, and the [.._init]
    functions it calls: which threads it creates and starts, in which order, and
    the messages it prints.  The main thread is interrupted and preempted
    between its steps; the other threads and the interrupts do what [kop] says.
    Log macros are left out. *)

From Stdlib Require Import ZArith Lia String.
From stdpp Require Import base numbers list gmap.
From S2P Require Import Prelude Kernel Sht30 AdcSensors EthApp Cloud.
Open Scope c_scope.

Definition RT_MAIN_THREAD_PRIORITY : Z := 10.
Definition MB_POLL_THREAD_PRIORITY : Z := 10.
(** [RT_THREAD_PRIORITY_MAX - 1], not in parentheses. *)
Definition MB_SEND_THREAD_PRIORITY : Z := RT_THREAD_PRIORITY_MAX - 1.

(** The threads of the applications, by their names. *)
Inductive app_thread := Uart4Rx | HwCloud | MdPoll | MdSend | AdcRead | Sht30Rd | O2Rd | EthTcp | LoraTx | Uart2Rx.

#[export] Instance app_eq_dec : EqDecision app_thread.
Proof. solve_decision. Defined.

(** The threads of the kernel: the idle thread, the main thread, those above. *)
Definition IDLE : Z := 0.
Definition MAIN : Z := 1.
Definition tid (a : app_thread) : Z :=
  match a with
  | Uart4Rx => 101 | HwCloud => 102 | MdPoll => 103 | MdSend => 104 | AdcRead => 105
  | Sht30Rd => 106 | O2Rd => 107 | EthTcp => 108 | LoraTx => 109 | Uart2Rx => 110
  end.

(** The priority [rt_thread_create] is given. *)
Definition prio (a : app_thread) : Z :=
  match a with
  | Uart4Rx => 25 | HwCloud => 26 | MdPoll => MB_POLL_THREAD_PRIORITY | MdSend => MB_SEND_THREAD_PRIORITY - 2
  | AdcRead => 25 | Sht30Rd => 25 | O2Rd => 25 | EthTcp => 24 | LoraTx => 25 | Uart2Rx => 25
  end.

(** What the main thread meets: the creations that succeed, the devices found. *)
Record board := Board { created : app_thread -> bool; i2c1_found : bool; adc1_found : bool }.

(** What the main thread does, between two points where it can be interrupted. *)
Inductive step := SCreate (a : app_thread) | SStart (a : app_thread) | SPrint (l : list Z) | SExit.

#[export] Instance step_eq_dec : EqDecision step.
Proof. solve_decision. Defined.

(** [tid = rt_thread_create(..); if (tid != RT_NULL) rt_thread_startup(tid);] *)
Definition create_start (ok : bool) (a : app_thread) : list step := if ok then [SCreate a; SStart a] else [].

Definition report (r : Z) (fail ok : string) : list step := [SPrint (clit (if r =? RT_EOK then ok else fail))].

Section Main.
Context {HW : Type} `{AdcHal HW}.

(** [main], with the return to [main_thread_entry], which ends the thread. *)
Definition main (b : board) : M HW (list step) :=
  let cloud := huawei_cloud_init (created b HwCloud) in
  let line := line_sensor_init (created b AdcRead) in
  let sht30 := sht30_init (i2c1_found b) (created b Sht30Rd) in
  let! o2 := o2_sensor_init (adc1_found b) (created b O2Rd) in
  let eth := eth_app_init (created b EthTcp) in
  retM (
    create_start (created b Uart4Rx) Uart4Rx ++
    create_start (snd cloud) HwCloud ++
    create_start (created b MdPoll) MdPoll ++
    create_start (created b MdSend) MdSend ++
    create_start (snd line) AdcRead ++
    create_start (snd sht30) Sht30Rd ++
    report (fst sht30) "[main] E: SHT30 init failed!\n" "[main] I: SHT30 initialized on i2c1\n" ++
    create_start (snd o2) O2Rd ++
    report (fst o2) "[main] E: O2 sensor init failed!\n" "[main] I: O2 sensor initialized on adc1 ch18\n" ++
    create_start (snd eth) EthTcp ++
    report (fst eth) "[ETH] Failed to initialize Ethernet TCP client!\n" "[ETH] Ethernet TCP client initialized.\n" ++
    create_start (created b LoraTx) LoraTx ++
    create_start (created b Uart2Rx) Uart2Rx ++
    [SExit]).
End Main.

(** The kernel, what the main thread has still to do, what it printed. *)
Record startup := Startup { kern : kernel; rest : list step; out : list (list Z) }.

Definition step_op (s : step) : option kop :=
  match s with
  | SCreate a => Some (KInit (tid a) (prio a) 10)
  | SStart a => Some (KStartup (tid a))
  | SPrint _ => None
  | SExit => Some KExit
  end.

Definition main_step : M startup unit := fun s =>
  match rest s with
  | [] => None
  | x :: r =>
      match (match step_op x with Some op => run_kop op (kern s) | None => Some (tt, kern s) end) with
      | None => None
      | Some (_, k) => Some (tt, Startup k r (match x with SPrint l => out s ++ [l] | _ => out s end))
      end
  end.

Inductive act := AMain | AOther (op : kop).

Definition run_act (a : act) : M startup unit :=
  match a with
  | AMain => main_step
  | AOther op => fun s => match run_kop op (kern s) with Some (_, k) => Some (tt, Startup k (rest s) (out s)) | None => None end
  end.

Fixpoint run_acts (acts : list act) : M startup unit :=
  match acts with
  | [] => retM tt
  | a :: r => do! run_act a in run_acts r
  end.

(** The rules: the main thread runs when it takes a step; what the others do
    does not concern it nor the threads only it knows.  The Modbus poll thread,
    of its own priority, may do what it likes once it is started. *)
Definition late (a : app_thread) : bool := negb (bool_decide (a = MdPoll)).

Definition known (s : startup) (a : app_thread) : Prop :=
  late a = false /\ is_Some (threads (kern s) !! tid a) /\ ~ In (SCreate a) (rest s) /\ ~ In (SStart a) (rest s).

Definition act_ok (a : act) (s : startup) : Prop :=
  match a with
  | AMain => running (kern s) MAIN /\ rest s <> []
  | AOther op => kop_ok IDLE op (kern s) /\ rest s <> [] /\ about op (kern s) <> Some MAIN /\
      forall a, about op (kern s) = Some (tid a) -> known s a
  end.

Fixpoint acts_ok (acts : list act) (s : startup) : Prop :=
  match acts with
  | [] => True
  | a :: r => act_ok a s /\ match run_act a s with Some (_, s') => acts_ok r s' | None => True end
  end.

(* ------------------------------------------------------------------ *)
(** ** The invariant *)

Lemma tid_inj a b : tid a = tid b -> a = b.
Proof. by destruct a, b. Qed.

Lemma tid_ids a : tid a <> MAIN /\ tid a <> IDLE.
Proof. by destruct a. Qed.

Lemma app_prio_range a : 0 <= prio a < 32 /\ (late a = true -> RT_MAIN_THREAD_PRIORITY < prio a).
Proof. by destruct a. Qed.

(** What is left to do: every thread is created once, then started, and the
    end comes last. *)
Fixpoint ordered (l : list step) : Prop :=
  match l with
  | [] => True
  | SCreate a :: r => ~ In (SCreate a) r /\ In (SStart a) r /\ ordered r
  | SStart a :: r => ~ In (SCreate a) r /\ ~ In (SStart a) r /\ ordered r
  | SPrint _ :: r => ordered r
  | SExit :: r => r = []
  end.

(** The thread [a] in the kernel [k] while [r] of [all] is left. *)
Record app_ok (all r : list step) (k : kernel) (a : app_thread) : Prop := {
  ap_fresh : In (SCreate a) r \/ ~ In (SCreate a) all -> threads k !! tid a = None;
  ap_new : In (SCreate a) all -> ~ In (SCreate a) r -> In (SStart a) r ->
    exists t, threads k !! tid a = Some t /\ st t = RT_THREAD_INIT /\ init_priority t = prio a;
  ap_started : In (SCreate a) all -> ~ In (SCreate a) r -> ~ In (SStart a) r ->
    exists t, threads k !! tid a = Some t /\ st t <> RT_THREAD_INIT /\ init_priority t = prio a /\
      (late a = true -> r <> [] -> runnable t /\ current_priority t = prio a) }.

Definition main_ready (k : kernel) : Prop :=
  exists t, threads k !! MAIN = Some t /\ runnable t /\ current_priority t = RT_MAIN_THREAD_PRIORITY.

Record sinv (all : list step) (s : startup) : Prop := {
  sv_kern : kinv IDLE (kern s);
  sv_ordered : ordered (rest s);
  sv_main : rest s <> [] -> main_ready (kern s);
  sv_cur : rest s <> [] -> forall a, late a = true -> current (kern s) <> Some (tid a);
  sv_app : forall a, app_ok all (rest s) (kern s) a }.

(** A late thread does not get the processor while the main thread is ready. *)
Lemma not_overtaken k k' a : kinv IDLE k' -> handed_over k k' -> main_ready k' -> late a = true ->
  (forall t, threads k' !! tid a = Some t -> st t = RT_THREAD_INIT \/ runnable t /\ current_priority t = prio a) ->
  current k <> Some (tid a) -> current k' <> Some (tid a).
Proof.
  intros Hk [->|(x & t & Ex & Et & Hr & Hq)] (tm & Em & Hrm & Hp) Hl Ha Hc; [done|]. rewrite Ex. intros [= ->].
  destruct Hrm as [Hm|Hm].
  - specialize (Hq MAIN tm Em Hm). destruct (Ha t Et) as [Hi|[_ Hpt]]; [by rewrite Hr in Hi|].
    destruct (app_prio_range a) as [_ Hgt]. specialize (Hgt Hl). lia.
  - pose proof (kw_run _ _ _ (ki_wf _ _ Hk) MAIN tm I Em Hm) as E. rewrite Ex in E. injection E as E. by destruct (tid_ids a).
Qed.

(** What an operation about another thread leaves of an application's thread. *)
Lemma app_frame all r r' k k' op a : kinv IDLE k -> kop_ok IDLE op k -> run_kop op k = Some (tt, k') -> about op k <> Some (tid a) ->
  (In (SCreate a) r' <-> In (SCreate a) r) -> (In (SStart a) r' <-> In (SStart a) r) -> (r' <> [] -> r <> []) ->
  app_ok all r k a -> app_ok all r' k' a.
Proof.
  intros Hk Ho E Hab Hc Hs Hr [A1 A2 A3]. destruct (kop_spec IDLE op k Hk Ho) as (k2 & E2 & _ & F). rewrite E in E2. injection E2 as <-. split.
  - intros H. apply (kop_adds op k tt k' E); [|apply A1; tauto]. intros (p & n & ->). by apply Hab.
  - intros H1 H2 H3. destruct A2 as (t & Et & Hi & Hp); [done|tauto|tauto|]. destruct (kf_same _ _ _ _ F (tid a) t Hab Et) as (t' & Et' & (_ & _ & _ & Hp') & Hn & _).
    exists t'. split_and!; [done| |congruence]. rewrite Hn; [done|]. intros [Hx|Hx]; by rewrite Hi in Hx.
  - intros H1 H2 H3. destruct A3 as (t & Et & Hi & Hp & Hl); [done|tauto|tauto|].
    destruct (kf_same _ _ _ _ F (tid a) t Hab Et) as (t' & Et' & S). exists t'. split; [done|].
    split; [by apply (stays_init t)|]. destruct S as ((Hq & _ & _ & Hp') & _ & Hrun). split; [congruence|]. intros L Hne.
    destruct (Hl L (Hr Hne)) as [L1 L2]. split; [by apply Hrun|congruence].
Qed.

Lemma main_frame k k' op : kinv IDLE k -> kop_ok IDLE op k -> run_kop op k = Some (tt, k') -> about op k <> Some MAIN ->
  main_ready k -> main_ready k'.
Proof.
  intros Hk Ho E Hab (t & Et & Hr & Hp). destruct (kop_spec IDLE op k Hk Ho) as (k2 & E2 & _ & F). rewrite E in E2. injection E2 as <-.
  destruct (kf_same _ _ _ _ F MAIN t Hab Et) as (t' & Et' & (Hq & _) & _ & Hrun). exists t'. split_and!; [done|by apply Hrun|congruence].
Qed.

Definition left_dec (x : step) (l : list step) : {In x l} + {~ In x l} := In_dec step_eq_dec x l.

Lemma app_states all r k a : late a = true -> r <> [] -> app_ok all r k a ->
  forall t, threads k !! tid a = Some t -> st t = RT_THREAD_INIT \/ runnable t /\ current_priority t = prio a.
Proof.
  intros Hl Hr [A1 A2 A3] t Et. destruct (left_dec (SCreate a) all) as [Hi|Hi]; [|rewrite A1 in Et by auto; done].
  destruct (left_dec (SCreate a) r) as [Hc|Hc]; [rewrite A1 in Et by auto; done|]. destruct (left_dec (SStart a) r) as [Hs|Hs].
  - destruct (A2 Hi Hc Hs) as (t' & Et' & E & _). rewrite Et in Et'. injection Et' as <-. by left.
  - destruct (A3 Hi Hc Hs) as (t' & Et' & _ & _ & H). rewrite Et in Et'. injection Et' as <-. right. by apply H.
Qed.

(** The others' moves. *)
Lemma other_inv all op s : sinv all s -> act_ok (AOther op) s ->
  exists s', run_act (AOther op) s = Some (tt, s') /\ sinv all s' /\ rest s' = rest s /\ out s' = out s.
Proof.
  intros [I1 I2 I3 I4 I5] (Ho & Hr & Hm & Ha). destruct (kop_spec IDLE op (kern s) I1 Ho) as (k' & E & Hk' & F).
  exists (Startup k' (rest s) (out s)). cbn [run_act]. rewrite E. split; [done|]. split; [|done].
  assert (forall a, app_ok all (rest s) k' a) as Happ.
  { intros a. destruct (decide (about op (kern s) = Some (tid a))) as [Hab|Hab]; [|by apply (app_frame all (rest s) (rest s) (kern s) k' op a I1 Ho E Hab)].
    destruct (Ha a Hab) as (L & [t Et] & Hc & Hs). destruct (I5 a) as [A1 A2 A3]. split; [|done|].
    - intros [?|Hn]; [done|]. by rewrite A1 in Et by auto.
    - intros H1 _ _. destruct (A3 H1 Hc Hs) as (t0 & Et0 & Hi & Hp & _). destruct (kf_init _ _ _ _ F _ _ Et0) as (t' & Et' & Hp' & Hi').
      exists t'. split_and!; [done|auto|congruence|]. intros L'. by rewrite L in L'. }
  assert (main_ready k') as Hmain by (apply (main_frame (kern s) k' op); auto).
  split; cbn [kern rest]; auto. intros _ a Hl. apply (not_overtaken (kern s)); auto.
  - by apply (kop_current IDLE op).
  - apply (app_states all (rest s)); auto.
Qed.

(** A step of the main thread. *)
Lemma print_inv all l r s : sinv all s -> rest s = SPrint l :: r -> sinv all (Startup (kern s) r (out s ++ [l])).
Proof.
  intros [I1 I2 I3 I4 I5] Er. rewrite Er in *. split; cbn [kern rest]; [done|done|intros _; by apply I3|intros _; by apply I4|].
  - intros a. destruct (I5 a) as [A1 A2 A3]. split.
    + intros [H|H]; apply A1; [left; by right|by right].
    + intros H1 H2 H3. apply A2; [done| |by right]. by intros [?|?].
    + intros H1 H2 H3. destruct A3 as (t & Et & Hi & Hp & H); [done|by intros [?|?]|by intros [?|?]|]. exists t. split_and!; try done.
      intros L _. by apply H.
Qed.

Lemma create_inv all a r s : sinv all s -> incl (rest s) all -> running (kern s) MAIN -> rest s = SCreate a :: r ->
  exists k', run_kop (KInit (tid a) (prio a) 10) (kern s) = Some (tt, k') /\ sinv all (Startup k' r (out s)).
Proof.
  intros [I1 I2 I3 I4 I5] Hincl Hrun Er. rewrite Er in *. destruct I2 as (N1 & N2 & I2).
  assert (threads (kern s) !! tid a = None) as Ea by (apply (I5 a); left; by left).
  set (op := KInit (tid a) (prio a) 10). assert (kop_ok IDLE op (kern s)) as Ho by (split; [done|apply app_prio_range]).
  destruct (kop_spec IDLE op (kern s) I1 Ho) as (k' & E & Hk' & F). exists k'. split; [done|].
  assert (main_ready k') as Hmain.
  { apply (main_frame (kern s) k' op); try done; [|by apply I3]. cbn. intros [= H]. by destruct (tid_ids a). }
  assert (r <> []) as Hr by (intros ->; done).
  assert (forall b, app_ok all r k' b) as Happ.
  { intros b. destruct (decide (b = a)) as [->|Hne].
    - split; [intros [?|[]]; [done|apply Hincl; by left]| |by intros _ _ []]. intros _ _ _.
      cbn [run_kop op] in E. unfold ignore, _rt_thread_init, bindM, retM in E. destruct (prio a <? _); [|done]. injection E as <-.
      cbn. rewrite lookup_insert_eq. eexists. by split.
    - apply (app_frame all (SCreate a :: r) r (kern s) k' op b I1 Ho E); cbn; [|split; auto..|done|apply I5].
      + intros [= H]. by apply tid_inj in H.
      + intros [[= ->]|?]; done.
      + intros [[=]|?]; done. }
  split; cbn [kern rest]; auto. intros _ b Hl. apply (not_overtaken (kern s)); [done|by apply (kop_current IDLE op)|done|done|by apply (app_states all r)|by apply I4].
Qed.

Lemma start_inv all a r s : sinv all s -> incl (rest s) all -> running (kern s) MAIN -> rest s = SStart a :: r -> r <> [] ->
  In (SCreate a) all ->
  exists k', run_kop (KStartup (tid a)) (kern s) = Some (tt, k') /\ sinv all (Startup k' r (out s)).
Proof.
  intros [I1 I2 I3 I4 I5] Hincl Hrun Er Hr Hall. rewrite Er in *. destruct I2 as (N1 & N2 & I2).
  destruct (ap_new _ _ _ _ (I5 a) Hall ltac:(by intros [|]) ltac:(by left)) as (t & Et & Hi & Hp).
  set (op := KStartup (tid a)). assert (kop_ok IDLE op (kern s)) as Ho by (by exists t).
  destruct (startup_spec IDLE (kern s) (tid a) t I1 Et Hi) as (k1 & t1 & E1 & Hk1 & Hc & F1 & Et1 & Hrt & Hpt).
  destruct (kop_spec IDLE op (kern s) I1 Ho) as (k' & E & Hk' & F). exists k'. split; [done|].
  pose proof E as Es. unfold op in Es. rewrite E1 in Es. pose proof (schedule_frame IDLE k1 k' Hk1 Es) as F2.
  assert (main_ready k') as Hmain.
  { apply (main_frame (kern s) k' op); try done; [|by apply I3]. cbn. intros [= H]. by destruct (tid_ids a). }
  assert (forall b, app_ok all r k' b) as Happ.
  { intros b. destruct (decide (b = a)) as [->|Hne].
    - split; [intros [?|[]]; done|done|]. intros _ _ _. destruct (kf_same _ _ _ _ F2 (tid a) t1 ltac:(done) Et1) as (t' & Et' & (Hq & _ & _ & Hpi) & _ & Hrn).
      exists t'. split; [done|]. destruct (kf_init _ _ _ _ F (tid a) t Et) as (t2 & Et2 & Hp2 & _). rewrite Et' in Et2. injection Et2 as <-.
      split; [destruct (Hrn Hrt) as [-> | ->]; done|]. split; [congruence|]. intros _ _. split; [by apply Hrn|congruence].
    - apply (app_frame all (SStart a :: r) r (kern s) k' op b I1 Ho E); cbn; [|split; auto..|done|apply I5].
      + intros [= H]. by apply tid_inj in H.
      + intros [[=]|?]; done.
      + intros [[= ->]|?]; done. }
  split; cbn [kern rest]; auto. intros _ b Hl. apply (not_overtaken (kern s)); [done|by apply (kop_current IDLE op)|done|done|by apply (app_states all r)|by apply I4].
Qed.

Lemma exit_inv all s : sinv all s -> running (kern s) MAIN -> rest s = [SExit] ->
  exists k', run_kop KExit (kern s) = Some (tt, k') /\ sinv all (Startup k' [] (out s)).
Proof.
  intros [I1 I2 I3 I4 I5] Hrun Er. rewrite Er in *.
  assert (kop_ok IDLE KExit (kern s)) as Ho by (by exists MAIN).
  destruct (kop_spec IDLE KExit (kern s) I1 Ho) as (k' & E & Hk' & F). exists k'. split; [done|]. split; cbn [kern rest]; try done.
  intros a. apply (app_frame all [SExit] [] (kern s) k' KExit a I1 Ho E); cbn; [|split; [done|by intros [[=]|]]..|done|apply I5].
  destruct Hrun as (t & -> & _). intros [= H]. by destruct (tid_ids a).
Qed.

(* ------------------------------------------------------------------ *)
(** ** Runs *)

Definition prints (l : list step) : list (list Z) := flat_map (fun s => match s with SPrint x => [x] | _ => [] end) l.

(** The steps of a whole main function. *)
Record proper (all : list step) : Prop := {
  pr_ordered : ordered all; pr_matched : forall a, In (SStart a) all -> In (SCreate a) all; pr_exit : last all = Some SExit }.

Lemma last_suffix {A} (pre : list A) x : last (pre ++ [x]) = Some x.
Proof. apply last_snoc. Qed.

Record rinv (all : list step) (s : startup) : Prop := {
  rv_inv : sinv all s; rv_suffix : exists pre, all = pre ++ rest s; rv_out : out s ++ prints (rest s) = prints all }.

Lemma suffix_tail (all pre r : list step) x : all = pre ++ x :: r -> exists pre', all = pre' ++ r.
Proof. intros ->. exists (pre ++ [x]). by rewrite <- app_assoc. Qed.

Lemma main_inv all s : proper all -> rinv all s -> act_ok AMain s -> exists s', run_act AMain s = Some (tt, s') /\ rinv all s'.
Proof.
  intros [P1 P2 P3] [I [pre Es] Ho] [Hrun Hne]. cbn [run_act]. unfold main_step. destruct (rest s) as [|x r] eqn:Er; [done|].
  assert (incl (rest s) all) as Hincl by (rewrite Er; subst all; apply incl_appr, incl_refl).
  pose proof (suffix_tail all pre r x Es) as Hsuf. destruct x as [a|a|l|]; cbn [step_op prints flat_map] in *.
  - destruct (create_inv all a r s I Hincl Hrun Er) as (k' & E & I'). cbn [step_op]. rewrite E. eexists. split; [done|]. by split.
  - assert (r <> []) as Hr by (intros ->; rewrite Es, last_suffix in P3; done).
    assert (In (SCreate a) all) as Hall by (apply P2, Hincl; rewrite Er; by left).
    destruct (start_inv all a r s I Hincl Hrun Er Hr Hall) as (k' & E & I'). cbn [step_op]. rewrite E. eexists. split; [done|]. by split.
  - eexists. split; [done|]. split; [by apply print_inv|done|]. cbn [rest out]. by rewrite <- app_assoc.
  - assert (r = []) as -> by (pose proof (sv_ordered _ _ I) as H; by rewrite Er in H).
    destruct (exit_inv all s I Hrun Er) as (k' & E & I'). rewrite E. eexists. split; [done|]. by split.
Qed.

Lemma act_inv all a s : proper all -> rinv all s -> act_ok a s -> exists s', run_act a s = Some (tt, s') /\ rinv all s'.
Proof.
  intros P I Ha. destruct a as [|op]; [by apply main_inv|]. destruct I as [I Hsuf Ho].
  destruct (other_inv all op s I Ha) as (s' & E & I' & Er & Eo). exists s'. split; [done|]. split; [done|by rewrite Er|by rewrite Er, Eo].
Qed.

Lemma acts_inv all acts : proper all -> forall s, rinv all s -> acts_ok acts s ->
  exists s', run_acts acts s = Some (tt, s') /\ rinv all s'.
Proof.
  intros P. induction acts as [|a acts IH]; intros s I Ho; cbn [run_acts acts_ok] in *; [by exists s|]. destruct Ho as [Ha Hr].
  destruct (act_inv all a s P I Ha) as (s1 & E & I1). rewrite E in Hr. destruct (IH s1 I1 Hr) as (s' & E' & I').
  exists s'. by rewrite (bindM_some _ _ _ _ _ E).
Qed.

Lemma start_of_main all k : proper all -> kinv IDLE k -> running k MAIN ->
  (exists t, threads k !! MAIN = Some t /\ current_priority t = RT_MAIN_THREAD_PRIORITY) -> (forall a, threads k !! tid a = None) ->
  rinv all (Startup k all []).
Proof.
  intros P Hk (tm & Ec & Em & Hr) (t & Et & Hp) Ha. rewrite Em in Et. injection Et as <-. split; [|by exists []|done].
  split; cbn [kern rest]; [done|apply P| | |].
  - intros _. exists tm. split_and!; [done|by right|done].
  - intros _ a _. rewrite Ec. intros [= E]. by destruct (tid_ids a).
  - intros a. split; [done| |].
    + intros H1 H2. done.
    + intros H1 H2. done.
Qed.

(** The threads the board lets [main] start, and what it prints then. *)
Definition started (b : board) (a : app_thread) : bool :=
  created b a && match a with Sht30Rd => i2c1_found b | O2Rd => adc1_found b | _ => true end.

Definition messages (b : board) : list (list Z) :=
  [ clit (if started b Sht30Rd then "[main] I: SHT30 initialized on i2c1\n" else "[main] E: SHT30 init failed!\n");
    clit (if started b O2Rd then "[main] I: O2 sensor initialized on adc1 ch18\n" else "[main] E: O2 sensor init failed!\n");
    clit (if started b EthTcp then "[ETH] Ethernet TCP client initialized.\n" else "[ETH] Failed to initialize Ethernet TCP client!\n") ].

Lemma in_created b ok a r : In (SCreate b) (create_start ok a ++ r) <-> ok = true /\ b = a \/ In (SCreate b) r.
Proof. destruct ok; cbn; intuition congruence. Qed.
Lemma in_start b ok a r : In (SStart b) (create_start ok a ++ r) <-> ok = true /\ b = a \/ In (SStart b) r.
Proof. destruct ok; cbn; intuition congruence. Qed.
Lemma in_report_create b x r : In (SCreate b) (SPrint x :: r) <-> In (SCreate b) r.
Proof. cbn. intuition congruence. Qed.
Lemma in_report_start b x r : In (SStart b) (SPrint x :: r) <-> In (SStart b) r.
Proof. cbn. intuition congruence. Qed.
Lemma in_end x : In x [SExit] <-> x = SExit.
Proof. cbn. intuition congruence. Qed.

Lemma ordered_block ok a r : ~ In (SCreate a) r -> ~ In (SStart a) r -> ordered r -> ordered (create_start ok a ++ r).
Proof. intros H1 H2 H3. destruct ok; [|done]. cbn. intuition congruence. Qed.

Lemma prints_block ok a r : prints (create_start ok a ++ r) = prints r.
Proof. by destruct ok. Qed.

Lemma last_end (l r : list step) : last r = Some SExit -> last (l ++ r) = Some SExit.
Proof. intros E. by rewrite last_app, E. Qed.

Ltac membership :=
  repeat first [rewrite in_created | rewrite in_start | rewrite in_report_create | rewrite in_report_start | rewrite in_end]; intuition congruence.

Lemma o2_init_spec {HW} `{AdcHal HW} found ok h : exists h', o2_sensor_init found ok h =
  Some ((if found && ok then RT_EOK else - RT_ERROR, found && ok), h').
Proof. destruct found, ok; eexists; reflexivity. Qed.

Lemma init_results c d : huawei_cloud_init c = (if c then RT_EOK else - RT_ERROR, c) /\ line_sensor_init c = (if c then RT_EOK else - RT_ERROR, c) /\
  eth_app_init c = (if c then RT_EOK else - RT_ERROR, c) /\ sht30_init d c = (if d && c then RT_EOK else - RT_ERROR, d && c).
Proof. by destruct c, d. Qed.

Lemma report_if (c : bool) x y : report (if c then RT_EOK else - RT_ERROR) x y = [SPrint (clit (if c then y else x))].
Proof. by destruct c. Qed.

Lemma main_spec {HW} `{AdcHal HW} b h : exists all h', main b h = Some (all, h') /\ proper all /\
  (forall a, In (SCreate a) all <-> started b a = true) /\ prints all = messages b.
Proof.
  unfold main. destruct (o2_init_spec (adc1_found b) (created b O2Rd) h) as (h1 & E). rewrite (bindM_some _ _ _ _ _ E).
  eexists _, h1. split; [reflexivity|]. destruct (init_results (created b HwCloud) true) as (-> & _), (init_results (created b AdcRead) true) as (_ & -> & _),
    (init_results (created b EthTcp) true) as (_ & _ & -> & _), (init_results (created b Sht30Rd) (i2c1_found b)) as (_ & _ & _ & ->).
  cbn [fst snd]. rewrite !report_if, (andb_comm (i2c1_found b)), (andb_comm (adc1_found b)). cbn [app]. split_and!.
  - split.
    + repeat first [apply ordered_block; [membership..|] | done | progress cbn [report app ordered]].
    + intros a. membership.
    + repeat first [apply (last_end (create_start _ _)) | apply (last_end [SPrint _])]. done.
  - intros a. unfold started. destruct a; rewrite ?andb_true_r; membership.
  - unfold messages, started. rewrite andb_true_r. repeat first [rewrite prints_block | progress cbn [prints flat_map app]]. done.
Qed.

Lemma ordered_start a r : ordered r -> In (SCreate a) r -> In (SStart a) r.
Proof.
  induction r as [|x r IH]; [done|]. intros Ho Hin. destruct x as [b|b|l|]; cbn in *.
  - destruct Hin as [[= ->]|Hin]; right; [apply Ho|]. by apply IH; [apply Ho|].
  - destruct Hin as [[=]|Hin]. right. by apply IH; [apply Ho|].
  - destruct Hin as [[=]|Hin]. right. by apply IH.
  - subst r. by destruct Hin as [[=]|[]].
Qed.

(* ------------------------------------------------------------------ *)
(** ** The rules of use, decided *)

Definition apps : list app_thread := [Uart4Rx; HwCloud; MdPoll; MdSend; AdcRead; Sht30Rd; O2Rd; EthTcp; LoraTx; Uart2Rx].

Definition todo (s : startup) : bool := negb (bool_decide (rest s = [])).
Definition knownb (s : startup) (a : app_thread) : bool :=
  negb (late a) && bool_decide (is_Some (threads (kern s) !! tid a)) &&
  (if left_dec (SCreate a) (rest s) then false else true) && (if left_dec (SStart a) (rest s) then false else true).

Definition act_okb (a : act) (s : startup) : bool :=
  match a with
  | AMain => runningb (kern s) MAIN && todo s
  | AOther op => kop_okb IDLE op (kern s) && todo s && negb (bool_decide (about op (kern s) = Some MAIN)) &&
      forallb (fun a => negb (bool_decide (about op (kern s) = Some (tid a))) || knownb s a) apps
  end.

Fixpoint acts_okb (acts : list act) (s : startup) : bool :=
  match acts with
  | [] => true
  | a :: r => act_okb a s && match run_act a s with Some (_, s') => acts_okb r s' | None => true end
  end.

Lemma todo_spec s : todo s = true -> rest s <> [].
Proof. unfold todo. intros H%negb_true_iff. by apply bool_decide_eq_false in H. Qed.

Lemma act_okb_spec a s : act_okb a s = true -> act_ok a s.
Proof.
  destruct a as [|op]; cbn [act_ok act_okb].
  - intros [H1 H2]%andb_true_iff. split; [by apply runningb_spec|by apply todo_spec].
  - intros [[[H1 H2]%andb_true_iff H3]%andb_true_iff H4]%andb_true_iff. split; [by apply kop_okb_spec|]. split; [by apply todo_spec|].
    apply negb_true_iff, bool_decide_eq_false in H3. split; [done|]. intros a Ha. rewrite forallb_forall in H4.
    specialize (H4 a ltac:(destruct a; cbn; tauto)). rewrite (bool_decide_eq_true_2 _ Ha) in H4. cbn [negb orb] in H4. unfold knownb in H4.
    apply andb_true_iff in H4 as [[[K1 K2]%andb_true_iff K3]%andb_true_iff K4]. apply negb_true_iff in K1. apply bool_decide_eq_true in K2.
    by destruct (left_dec (SCreate a) (rest s)), (left_dec (SStart a) (rest s)).
Qed.

Lemma acts_okb_spec acts : forall s, acts_okb acts s = true -> acts_ok acts s.
Proof.
  induction acts as [|a acts IH]; intros s; cbn [acts_ok acts_okb]; [done|]. intros [H1 H2]%andb_true_iff.
  split; [by apply act_okb_spec|]. destruct (run_act a s) as [[u s']|]; [by apply IH|done].
Qed.

(* ------------------------------------------------------------------ *)
(** ** Properties *)

(** C25: the applications start together, and as main reports.  From any state
    the system reaches in which the main thread runs at its priority, whatever
    creations fail, whatever devices are missing, and whatever interrupts and
    other threads do between two steps of main: no assertion fails; until main
    is over, no thread of the applications but the Modbus poll thread, which has
    main's own priority, gets the processor, and each one that is started is
    ready at its priority; after it, exactly the threads the board allows exist,
    each started, at the priority it was given, and the messages say so. *)
Theorem main_starts_threads {HW} `{AdcHal HW} b h cfg k0 ops k :
  boot_ok IDLE cfg -> kernel_boot cfg = Some k0 -> kops_ok IDLE ops k0 -> run_kops ops k0 = Some (tt, k) ->
  running k MAIN -> (exists t, threads k !! MAIN = Some t /\ current_priority t = RT_MAIN_THREAD_PRIORITY) ->
  (forall a, threads k !! tid a = None) ->
  exists all h', main b h = Some (all, h') /\ forall acts, acts_ok acts (Startup k all []) ->
    exists s, run_acts acts (Startup k all []) = Some (tt, s) /\
      (rest s <> [] -> forall a, late a = true -> current (kern s) <> Some (tid a) /\
         (started b a = true -> ~ In (SStart a) (rest s) ->
            exists t, threads (kern s) !! tid a = Some t /\ st t = RT_THREAD_READY /\ current_priority t = prio a)) /\
      (rest s = [] -> out s = messages b /\
         (forall a, is_Some (threads (kern s) !! tid a) <-> started b a = true) /\
         forall a t, threads (kern s) !! tid a = Some t -> init_priority t = prio a /\ st t <> RT_THREAD_INIT).
Proof.
  intros Hb E0 Hops Eops Hrun Hp Hfree. destruct (kernel_boot_spec IDLE cfg Hb) as (k1 & E1 & Hk0 & _). rewrite E0 in E1. injection E1 as <-.
  destruct (kops_spec IDLE ops k0 Hk0 Hops) as (k2 & E2 & Hk). rewrite Eops in E2. injection E2 as <-.
  destruct (main_spec b h) as (all & h' & Em & P & Hst & Hpr). exists all, h'. split; [done|]. intros acts Ha.
  destruct (acts_inv all acts P _ (start_of_main all k P Hk Hrun Hp Hfree) Ha) as (s & Er & [[I1 I2 I3 I4 I5] _ Ho]). exists s. split; [done|]. split.
  - intros Hne a Hl. split; [by apply I4|]. intros Hs Hn. destruct (I5 a) as [_ _ A3].
    destruct A3 as (t & Et & _ & _ & H3); [by apply Hst|intros Hc; by apply Hn, ordered_start|done|]. destruct (H3 Hl Hne) as [Hr Hq]. exists t.
    split_and!; try done. destruct Hr as [|Hr]; [done|]. by destruct (I4 Hne a Hl (kw_run _ _ _ (ki_wf _ _ I1) (tid a) t I Et Hr)).
  - intros Hnil. rewrite Hnil in *. cbn [prints flat_map] in Ho. rewrite app_nil_r in Ho. split; [congruence|].
    assert (forall a, In (SCreate a) all -> exists t, threads (kern s) !! tid a = Some t /\ st t <> RT_THREAD_INIT /\ init_priority t = prio a) as Hex.
    { intros a Hin. destruct (ap_started _ _ _ _ (I5 a) Hin) as (t & Et & Hi & Hq & _); [by intros []..|]. by exists t. }
    split.
    + intros a. rewrite <- Hst. split; [|intros Hin; destruct (Hex a Hin) as (t & Et & _); by exists t].
      intros [t Et]. destruct (left_dec (SCreate a) all) as [|Hn]; [done|]. by rewrite (ap_fresh _ _ _ _ (I5 a)) in Et by (by right).
    + intros a t Et. destruct (left_dec (SCreate a) all) as [Hin|Hn]; [|by rewrite (ap_fresh _ _ _ _ (I5 a)) in Et by (by right)].
      destruct (Hex a Hin) as (t' & Et' & ? & ?). rewrite Et in Et'. by injection Et' as <-.
Qed.

(** The idle, the main and the timer thread; the timer thread goes to sleep.
    Everything is there but the converter of the oxygen sensor.  While main is
    at it, its slice ends, the Modbus poll thread runs and sleeps, and the timer
    thread is woken. *)
Definition boot_threads : list (Z * (Z * Z)) := [(IDLE, (31, 32)); (MAIN, (RT_MAIN_THREAD_PRIORITY, 20)); (2, (4, 10))].
Definition boot_kernel : kernel := match kernel_boot boot_threads with Some k => k | None => rt_system_scheduler_init end.
Definition boot_ops : list kop := [KSleep; KSchedule].
Definition main_kernel : kernel := match run_kops boot_ops boot_kernel with Some (_, k) => k | None => boot_kernel end.
Definition sample_board : board := Board (fun _ => true) true false.
Definition sample_bench : bench := Bench (fun _ => Value 0) 0 [] false 0.
Definition main_steps : list step := match main sample_board sample_bench with Some (all, _) => all | None => [] end.
Definition startup_acts : list act :=
  repeat AMain 7 ++ repeat (AOther KTick) 20 ++ [AOther KSleep; AOther KSchedule; AMain; AOther (KTimeout 2); AOther KSleep; AOther KSchedule] ++
  repeat AMain 14.

Lemma boot_threads_ok : boot_ok IDLE boot_threads.
Proof.
  split; [apply NoDup_ListNoDup; by apply (bool_decide_unpack _)|]. split; [|by left].
  apply List.Forall_forall. intros c Hc. cbn in Hc. destruct Hc as [<-|[<-|[<-|[]]]]; cbn; unfold RT_MAIN_THREAD_PRIORITY; lia.
Qed.

Lemma boot_kernel_eq : kernel_boot boot_threads = Some boot_kernel.
Proof. destruct (kernel_boot_spec IDLE _ boot_threads_ok) as (k & E & _). unfold boot_kernel. by rewrite E. Qed.

Lemma ran (o : option (unit * kernel)) d : (match o with Some _ => true | None => false end) = true ->
  o = Some (tt, match o with Some (_, k) => k | None => d end).
Proof. by destruct o as [[[] k]|]. Qed.

Lemma main_kernel_ok : kops_okb IDLE boot_ops boot_kernel = true /\
  (match run_kops boot_ops boot_kernel with Some _ => true | None => false end) = true /\ runningb main_kernel MAIN = true /\
  (match threads main_kernel !! MAIN with Some t => current_priority t =? RT_MAIN_THREAD_PRIORITY | None => false end) = true /\
  forallb (fun a => match threads main_kernel !! tid a with None => true | Some _ => false end) apps = true.
Proof. vm_compute. split_and!; reflexivity. Qed.

Definition at_end (s : startup) : bool := match rest s with [] => true | _ => false end.
Lemma startup_acts_ok : acts_okb startup_acts (Startup main_kernel main_steps []) = true /\
  (match run_acts startup_acts (Startup main_kernel main_steps []) with Some (_, s) => at_end s | None => false end) = true.
Proof. split; vm_compute; reflexivity. Qed.

Lemma main_starts_threads_witness :
  exists all h' s, main sample_board sample_bench = Some (all, h') /\ run_acts startup_acts (Startup main_kernel all []) = Some (tt, s) /\
    out s = messages sample_board /\ forall a, is_Some (threads (kern s) !! tid a) <-> started sample_board a = true.
Proof.
  destruct main_kernel_ok as (H1 & H2 & H3 & H4 & H5).
  pose proof (ran (run_kops boot_ops boot_kernel) boot_kernel H2 : run_kops boot_ops boot_kernel = Some (tt, main_kernel)) as Er.
  destruct (main_starts_threads sample_board sample_bench boot_threads boot_kernel boot_ops main_kernel boot_threads_ok boot_kernel_eq
    (kops_okb_spec IDLE boot_ops boot_kernel H1) Er (runningb_spec main_kernel MAIN H3)) as (all & h' & Em & Hall).
  - destruct (threads main_kernel !! MAIN) as [t|]; [|discriminate H4]. exists t. split; [reflexivity|]. apply Z.eqb_eq, H4.
  - intros a. rewrite forallb_forall in H5. specialize (H5 a ltac:(destruct a; cbn; tauto)). destruct (threads main_kernel !! tid a); [discriminate H5|reflexivity].
  - assert (main_steps = all) as Es by (unfold main_steps; by rewrite Em).
    destruct startup_acts_ok as [Ha He]. rewrite Es in Ha, He. destruct (Hall startup_acts (acts_okb_spec _ _ Ha)) as (s & E & _ & Hend).
    rewrite E in He. assert (rest s = []) as Hnil by (unfold at_end in He; destruct (rest s); [reflexivity|discriminate He]).
    destruct (Hend Hnil) as (Ho & Hx & _). exists all, h', s. split; [exact Em|]. split; [exact E|]. split; [exact Ho|exact Hx].
Defined.
