(* ===== verification/Msh.v ===== *)
(** * The command shell: splitting, running and completing a command line

    rt-thread/components/finsh/msh.c with the functions of
    rt-thread/src/kservice.c it uses, over the array that holds the line: a
    [char *] is an index into it, and an access outside the array is [None].
    The table of the commands (FSymTab, filled by the linker) and the commands
    themselves are parameters; a call is an entry of the console log. *)

From Stdlib Require Import ZArith Lia String.
From stdpp Require Import base numbers list.
From S2P Require Import Prelude.
Open Scope c_scope.

(** What reaches the console: a text, or the run of a command, which prints
    what it likes. *)
Inductive out := Text (s : list Z) | Call (cmd : list Z) (argv : list (list Z)).
Record console := Console { buf : list Z; log : list out }.

Definition rd (i : Z) : M console Z := fun s =>
  match aget (buf s) i with Some c => Some (c, s) | None => None end.
Definition wr (i c : Z) : M console unit := fun s =>
  match aset (buf s) i c with Some l => Some (tt, Console l (log s)) | None => None end.
Definition say (o : out) : M console unit := doM (fun s => Console (buf s) (log s ++ [o])).
Definition rt_kprintf (t : list Z) : M console unit := say (Text t).

(** The C string at an address: there must be a NUL. *)
Fixpoint str_of (l : list Z) : option (list Z) :=
  match l with
  | [] => None
  | c :: r => if c =? 0 then Some [] else option_map (cons c) (str_of r)
  end.

Definition str_at (i : Z) : M console (list Z) := fun s =>
  if i <? 0 then None else
  match str_of (drop (Z.to_nat i) (buf s)) with Some t => Some (t, s) | None => None end.

(* ------------------------------------------------------------------ *)
(** ** kservice.c *)

Fixpoint copy_up (n : nat) (tmp s : Z) : M console unit :=
  match n with
  | O => retM tt
  | S k => let! c := rd s in do! wr tmp c in copy_up k (tmp + 1) (s + 1)
  end.

Fixpoint copy_down (n : nat) (tmp s : Z) : M console unit :=
  match n with
  | O => retM tt
  | S k => let! c := rd (s - 1) in do! wr (tmp - 1) c in copy_down k (tmp - 1) (s - 1)
  end.

Definition rt_memmove (dest src n : Z) : M console unit :=
  if (src <? dest) && (dest <? src + n) then copy_down (Z.to_nat n) (dest + n) (src + n)
  else copy_up (Z.to_nat n) dest src.

Fixpoint nul_pad (n : nat) (d : Z) : M console unit :=
  match n with
  | O => retM tt
  | S k => do! wr d 0 in nul_pad k (d + 1)
  end.

(** [src] is a C string, without its NUL. *)
Fixpoint rt_strncpy (d : Z) (src : list Z) (n : nat) {struct n} : M console unit :=
  match n with
  | O => retM tt
  | S k => match src with
           | [] => nul_pad n d
           | c :: r => do! wr d c in rt_strncpy (d + 1) r k
           end
  end.

(** [strncmp(a, b, n) == 0] of two C strings. *)
Fixpoint strncmp_eq (n : nat) (a b : list Z) : bool :=
  match n with
  | O => true
  | S k => (hd 0 a =? hd 0 b) && ((hd 0 a =? 0) || strncmp_eq k (tl a) (tl b))
  end.

(* ------------------------------------------------------------------ *)
(** ** Splitting a line *)

Definition FINSH_ARG_MAX : Z := 10.
Definition is_blank (c : Z) : bool := (c =? 32) || (c =? 9).

(** The loops of [msh_split]; [cmd + position] is [ptr]. *)
Fixpoint strip (fuel : nat) (cmd length position : Z) : M console Z :=
  match fuel with
  | O => failM
  | S f =>
      let! c := rd (cmd + position) in
      if is_blank c && (position <? length) then
        do! wr (cmd + position) 0 in strip f cmd length (position + 1)
      else retM position
  end.

Fixpoint skip_string (fuel : nat) (cmd length position : Z) : M console Z :=
  match fuel with
  | O => failM
  | S f =>
      let! c := rd (cmd + position) in
      if negb (c =? 34) && (position <? length) then
        let! k := if c =? 92 then let! d := rd (cmd + position + 1) in retM (if d =? 34 then 2 else 1) else retM 1 in
        skip_string f cmd length (position + k)
      else retM position
  end.

Fixpoint skip_word (fuel : nat) (cmd length position : Z) : M console Z :=
  match fuel with
  | O => failM
  | S f =>
      let! c := rd (cmd + position) in
      if negb (is_blank c) && (position <? length) then skip_word f cmd length (position + 1)
      else retM position
  end.

Fixpoint say_args (argv : list Z) : M console unit :=
  match argv with
  | [] => retM tt
  | a :: r => let! t := str_at a in do! rt_kprintf (t ++ [32]) in say_args r
  end.

(** The outer loop; [argc] is the length of [argv]. *)
Fixpoint split_loop (fuel : nat) (cmd length position : Z) (argv : list Z) : M console (list Z) :=
  match fuel with
  | O => failM
  | S f =>
      if position <? length then
        let! position := strip fuel cmd length position in
        if FINSH_ARG_MAX <=? Z.of_nat (List.length argv) then
          do! rt_kprintf (clit "Too many args ! We only Use:\n") in
          do! say_args argv in
          do! rt_kprintf (clit "\n") in
          retM argv
        else if length <=? position then retM argv
        else
          let! c := rd (cmd + position) in
          if c =? 34 then
            let argv := argv ++ [cmd + (position + 1)] in
            let! position := skip_string fuel cmd length (position + 1) in
            if length <=? position then retM argv
            else do! wr (cmd + position) 0 in split_loop f cmd length (position + 1) argv
          else
            let argv := argv ++ [cmd + position] in
            let! position := skip_word fuel cmd length position in
            if length <=? position then retM argv
            else split_loop f cmd length position argv
      else retM argv
  end.

Definition msh_split (cmd length : Z) : M console (list Z) := fun s =>
  split_loop (S (List.length (buf s))) cmd length 0 [] s.

(* ------------------------------------------------------------------ *)
(** ** Running a line *)

(** An entry of the table: the exported name and the description. *)
Record finsh_syscall := Syscall { name : list Z; desc : list Z }.

Definition cmd_prefix : list Z := clit "__cmd_".
Definition is_cmd (c : finsh_syscall) : bool := strncmp_eq 6 (name c) cmd_prefix.
Definition cmd_name (c : finsh_syscall) : list Z := drop 6 (name c).

Section Msh.
Context (table : list finsh_syscall) (cmd_func : list Z -> list (list Z) -> Z).

Fixpoint get_cmd (tbl : list finsh_syscall) (cmd size : Z) : M console (option finsh_syscall) := fun s =>
  match tbl with
  | [] => Some (None, s)
  | c :: r =>
      if is_cmd c && strncmp_eq (Z.to_nat size) (cmd_name c) (drop (Z.to_nat cmd) (buf s)) then
        match aget (name c ++ [0]) (6 + size) with
        | None => None
        | Some e => if e =? 0 then Some (Some c, s) else get_cmd r cmd size s
        end
      else get_cmd r cmd size s
  end.

Definition msh_get_cmd (cmd size : Z) : M console (option finsh_syscall) := get_cmd table cmd size.

(** The strings of [argv], as the command sees them. *)
Fixpoint arg_strings (argv : list Z) : M console (list (list Z)) :=
  match argv with
  | [] => retM []
  | a :: r => let! t := str_at a in let! q := arg_strings r in retM (t :: q)
  end.

(** The result, and what [*retp] is set to. *)
Definition _msh_exec_cmd (cmd length : Z) : M console (Z * Z) :=
  let! cmd0_size := (fun s => skip_word (S (List.length (buf s))) cmd length 0 s) in
  if cmd0_size =? 0 then retM (- RT_ERROR, 0) else
  let! f := msh_get_cmd cmd cmd0_size in
  match f with
  | None => retM (- RT_ERROR, 0)
  | Some c =>
      let! argv := msh_split cmd length in
      if Z.of_nat (List.length argv) =? 0 then retM (- RT_ERROR, 0) else
      let! args := arg_strings argv in
      do! say (Call (cmd_name c) args) in
      retM (0, cmd_func (cmd_name c) args)
  end.

(** The blanks in front of the command. *)
Fixpoint trim (fuel : nat) (cmd length : Z) : M console (Z * Z) :=
  match fuel with
  | O => failM
  | S f => let! c := rd cmd in if is_blank c then trim f (cmd + 1) (length -u32 1) else retM (cmd, length)
  end.

Fixpoint first_space (fuel : nat) (tcmd : Z) : M console Z :=
  match fuel with
  | O => failM
  | S f => let! c := rd tcmd in if negb (c =? 32) && negb (c =? 0) then first_space f (tcmd + 1) else retM tcmd
  end.

Definition msh_exec (cmd length : Z) : M console Z :=
  let! ' (cmd, length) := (fun s => trim (S (List.length (buf s))) cmd length s) in
  if length =? 0 then retM 0 else
  let! ' (r, cmd_ret) := _msh_exec_cmd cmd length in
  if r =? 0 then retM cmd_ret else
  let! tcmd := (fun s => first_space (S (List.length (buf s))) cmd s) in
  do! wr tcmd 0 in
  let! t := str_at cmd in
  do! rt_kprintf (t ++ clit ": command not found.\n") in
  retM (-1).

(* ------------------------------------------------------------------ *)
(** ** Completing a line *)

Fixpoint str_common (str1 str2 : list Z) : Z :=
  match str1, str2 with
  | a :: r, b :: q => if a =? b then 1 + str_common r q else 0
  | _, _ => 0
  end.

(** One line of the list of commands, [%-16s - %s\n]. *)
Definition help_line (c : finsh_syscall) : list Z :=
  cmd_name c ++ repeat 32 (16 - List.length (cmd_name c)) ++ clit " - " ++ desc c ++ [10].

Fixpoint help_lines (tbl : list finsh_syscall) : M console unit :=
  match tbl with
  | [] => retM tt
  | c :: r => do! (if is_cmd c then rt_kprintf (help_line c) else retM tt) in help_lines r
  end.

Definition msh_help : M console unit :=
  do! rt_kprintf (clit "RT-Thread shell commands:\n") in
  do! help_lines table in
  rt_kprintf (clit "\n").

(** The loop over the table: [min_length] and [name_ptr]. *)
Fixpoint candidates (tbl : list finsh_syscall) (prefix : list Z) (min_length : Z) (name_ptr : option (list Z))
  : M console (Z * option (list Z)) :=
  match tbl with
  | [] => retM (min_length, name_ptr)
  | c :: r =>
      if is_cmd c && strncmp_eq (List.length prefix) prefix (cmd_name c) then
        let first := min_length =? 0 in
        let name := if first then cmd_name c else match name_ptr with Some n => n | None => [] end in
        let min_length := if first then Z.of_nat (List.length name) else min_length in
        let length := str_common name (cmd_name c) in
        let min_length := if length <? min_length then length else min_length in
        do! rt_kprintf (cmd_name c ++ [10]) in
        candidates r prefix min_length (Some name)
      else candidates r prefix min_length name_ptr
  end.

Definition msh_auto_complete (prefix : Z) : M console unit :=
  let! c := rd prefix in
  if c =? 0 then msh_help else
  let! p := str_at prefix in
  let! ' (min_length, name_ptr) := candidates table p 0 None in
  match name_ptr with
  | Some n => rt_strncpy prefix n (Z.to_nat min_length)
  | None => retM tt
  end.
End Msh.

(* ------------------------------------------------------------------ *)
(** ** Lemmas on the line array *)

Lemma aget_nat (l : list Z) (i : nat) : aget l (Z.of_nat i) = l !! i.
Proof. unfold aget. by rewrite (proj2 (Z.leb_le _ _)), Nat2Z.id by lia. Qed.

Lemma rd_at b o (i : nat) c : b !! i = Some c -> rd (Z.of_nat i) (Console b o) = Some (c, Console b o).
Proof. intros E. unfold rd. cbn [buf]. by rewrite aget_nat, E. Qed.

Lemma wr_at b o (i : nat) c : (i < length b)%nat -> wr (Z.of_nat i) c (Console b o) = Some (tt, Console (<[i := c]> b) o).
Proof. intros H. unfold wr. cbn [buf log]. by rewrite aset_in_range, Nat2Z.id by lia. Qed.

Lemma say_bind {A} o b l (f : unit -> M console A) : bindM (say o) f (Console b l) = f tt (Console b (l ++ [o])).
Proof. done. Qed.

(** A byte copied to the front or to the back of what is copied already. *)
Lemma copy_up_spec n : forall d s b o, (d <= s \/ s + n <= d)%nat -> (d + n <= length b)%nat -> (s + n <= length b)%nat ->
  exists b', copy_up n (Z.of_nat d) (Z.of_nat s) (Console b o) = Some (tt, Console b' o) /\ length b' = length b /\
    forall i, b' !! i = if decide (d <= i < d + n)%nat then b !! (s + (i - d))%nat else b !! i.
Proof.
  induction n as [|n IH]; intros d s b o H Hd Hs; cbn [copy_up].
  - exists b. split_and!; [done|done|]. intros i. by rewrite decide_False by lia.
  - destruct (lookup_lt_is_Some_2 b s ltac:(lia)) as [c Ec]. rewrite (bindM_some _ _ _ _ _ (rd_at b o s c Ec)).
    rewrite (bindM_some _ _ _ _ _ (wr_at b o d c ltac:(lia))).
    replace (Z.of_nat d + 1) with (Z.of_nat (S d)) by lia. replace (Z.of_nat s + 1) with (Z.of_nat (S s)) by lia.
    destruct (IH (S d) (S s) (<[d:=c]> b) o) as (b' & E & El & Hb'); rewrite ?length_insert; [lia..|].
    exists b'. split_and!; [done|by rewrite El, length_insert|]. intros i. rewrite Hb'. destruct (decide (i = d)) as [->|Hi].
    + rewrite decide_False, decide_True, list_lookup_insert_eq by lia. rewrite <- Ec. f_equal. lia.
    + repeat case_decide; try lia; rewrite list_lookup_insert_ne by lia; f_equal; lia.
Qed.

Lemma copy_down_spec n : forall d s b o, (s <= d)%nat -> (d + n <= length b)%nat ->
  exists b', copy_down n (Z.of_nat (d + n)) (Z.of_nat (s + n)) (Console b o) = Some (tt, Console b' o) /\ length b' = length b /\
    forall i, b' !! i = if decide (d <= i < d + n)%nat then b !! (s + (i - d))%nat else b !! i.
Proof.
  induction n as [|n IH]; intros d s b o H Hd; cbn [copy_down].
  - exists b. split_and!; [done|done|]. intros i. by rewrite decide_False by lia.
  - replace (Z.of_nat (s + S n) - 1) with (Z.of_nat (s + n)) by lia. replace (Z.of_nat (d + S n) - 1) with (Z.of_nat (d + n)) by lia.
    destruct (lookup_lt_is_Some_2 b (s + n)%nat ltac:(lia)) as [c Ec]. rewrite (bindM_some _ _ _ _ _ (rd_at b o _ c Ec)).
    rewrite (bindM_some _ _ _ _ _ (wr_at b o (d + n) c ltac:(lia))).
    destruct (IH d s (<[(d + n)%nat:=c]> b) o) as (b' & E & El & Hb'); rewrite ?length_insert; [lia..|].
    exists b'. split_and!; [done|by rewrite El, length_insert|]. intros i. rewrite Hb'. destruct (decide (i = d + n)%nat) as [->|Hi].
    + rewrite decide_False, decide_True, list_lookup_insert_eq by lia. rewrite <- Ec. f_equal. lia.
    + repeat case_decide; try lia; rewrite list_lookup_insert_ne by lia; f_equal; lia.
Qed.

(** [rt_memmove] copies a segment of an array onto another one as if through a
    copy, however the two overlap, and touches nothing else. *)
Lemma rt_memmove_spec b o d s n : 0 <= d -> 0 <= s -> 0 <= n ->
  d + n <= Z.of_nat (length b) -> s + n <= Z.of_nat (length b) ->
  rt_memmove d s n (Console b o) = Some (tt, Console
    (take (Z.to_nat d) b ++ take (Z.to_nat n) (drop (Z.to_nat s) b) ++ drop (Z.to_nat (d + n)) b) o).
Proof.
  intros Hd Hs Hn Bd Bs. unfold rt_memmove.
  assert (exists b', (if (s <? d) && (d <? s + n) then copy_down (Z.to_nat n) (d + n) (s + n) else copy_up (Z.to_nat n) d s) (Console b o)
    = Some (tt, Console b' o) /\ length b' = length b /\ forall i, b' !! i =
      if decide (Z.to_nat d <= i < Z.to_nat d + Z.to_nat n)%nat then b !! (Z.to_nat s + (i - Z.to_nat d))%nat else b !! i) as (b' & -> & El & Hb').
  { destruct (Z.ltb_spec s d), (Z.ltb_spec d (s + n)); cbn [andb].
    1: destruct (copy_down_spec (Z.to_nat n) (Z.to_nat d) (Z.to_nat s) b o) as (b' & E & H');
       [lia..|exists b'; split; [|done]; rewrite <- E; f_equal; lia].
    all: destruct (copy_up_spec (Z.to_nat n) (Z.to_nat d) (Z.to_nat s) b o) as (b' & E & H');
       [lia..|exists b'; split; [|done]; rewrite <- E; f_equal; lia]. }
  repeat f_equal. apply list_eq. intros i. rewrite Hb'.
  destruct (decide (i < Z.to_nat d)%nat).
  { rewrite decide_False, lookup_app_l by (rewrite ?length_take; lia). by rewrite lookup_take_lt by lia. }
  rewrite lookup_app_r by (rewrite length_take; lia). rewrite length_take, Nat.min_l by lia.
  destruct (decide (i < Z.to_nat d + Z.to_nat n)%nat).
  - rewrite decide_True, lookup_app_l by (rewrite ?length_take, ?length_drop; lia). rewrite lookup_take_lt, lookup_drop by lia. done.
  - rewrite decide_False, lookup_app_r by (rewrite ?length_take, ?length_drop; lia). rewrite length_take, length_drop, lookup_drop. f_equal. lia.
Qed.

(* ------------------------------------------------------------------ *)
(** ** What splitting a line means

    An argument is a run of characters that are not blank, or what stands
    between two quotes; a quote behind a backslash does not end it. *)

Fixpoint blanks (s : list Z) : list Z * list Z :=
  match s with
  | c :: r => if is_blank c then let (w, q) := blanks r in (c :: w, q) else ([], s)
  | [] => ([], [])
  end.

Fixpoint word (s : list Z) : list Z * list Z :=
  match s with
  | c :: r => if is_blank c then ([], s) else let (w, q) := word r in (c :: w, q)
  | [] => ([], [])
  end.

Fixpoint quoted (s : list Z) : list Z * list Z :=
  match s with
  | [] => ([], [])
  | c :: r =>
      if c =? 34 then ([], s) else
      match r with
      | d :: r' => if (c =? 92) && (d =? 34) then let (w, q) := quoted r' in (c :: d :: w, q)
                   else let (w, q) := quoted r in (c :: w, q)
      | [] => ([c], [])
      end
  end.

Fixpoint tokens (n : nat) (s : list Z) : list (list Z) :=
  match n with
  | O => []
  | S k =>
      match snd (blanks s) with
      | [] => []
      | c :: r => if c =? 34 then fst (quoted r) :: tokens k (tl (snd (quoted r)))
                  else fst (word (c :: r)) :: tokens k (snd (word (c :: r)))
      end
  end.

Definition args_of (s : list Z) : list (list Z) := take 10 (tokens (length s) s).

Definition no_nul (s : list Z) : Prop := Forall (fun c => c <> 0) s.

Lemma blanks_spec s : s = fst (blanks s) ++ snd (blanks s) /\ Forall (fun c => is_blank c = true) (fst (blanks s)) /\
  match snd (blanks s) with [] => True | c :: _ => is_blank c = false end.
Proof.
  induction s as [|c r (E & F & H)]; [done|]. cbn [blanks]. destruct (is_blank c) eqn:Ec; [|done].
  destruct (blanks r) as [w q]. cbn in *. split_and!; [by rewrite <- E|by constructor|done].
Qed.

Lemma word_spec s : s = fst (word s) ++ snd (word s) /\ Forall (fun c => is_blank c = false) (fst (word s)) /\
  match snd (word s) with [] => True | c :: _ => is_blank c = true end.
Proof.
  induction s as [|c r (E & F & H)]; [done|]. cbn [word]. destruct (is_blank c) eqn:Ec; [done|].
  destruct (word r) as [w q]. cbn in *. split_and!; [by rewrite <- E|by constructor|done].
Qed.

Lemma quoted_spec s : s = fst (quoted s) ++ snd (quoted s) /\ match snd (quoted s) with [] => True | c :: _ => c = 34 end.
Proof.
  induction s as [s IH] using (induction_ltof1 _ (@length Z)). unfold ltof in IH. destruct s as [|c r]; [done|]. cbn [quoted].
  destruct (Z.eqb_spec c 34) as [->|_]; [done|]. destruct r as [|d r']; [done|].
  destruct ((c =? 92) && (d =? 34)).
  - destruct (IH r' ltac:(cbn; lia)) as [E H]. destruct (quoted r') as [w q]. cbn in *. split; [by rewrite <- E|done].
  - destruct (IH (d :: r') ltac:(cbn; lia)) as [E H]. destruct (quoted (d :: r')) as [w q]. cbn [fst snd] in *. split; [by rewrite E at 1|done].
Qed.

Lemma tokens_enough n : forall m s, (length s <= n)%nat -> (length s <= m)%nat -> tokens n s = tokens m s.
Proof.
  induction n as [|n IH]; intros m s Hn Hm.
  - destruct s; [|cbn in Hn; lia]. by destruct m.
  - destruct (blanks_spec s) as (E & _ & H). cbn [tokens]. destruct m as [|m].
    { destruct s; [done|cbn in Hm; lia]. }
    cbn [tokens]. destruct (snd (blanks s)) as [|c r]; [done|].
    assert (length (fst (blanks s)) + S (length r) <= S n /\ length (fst (blanks s)) + S (length r) <= S m)%nat as [L1 L2]
      by (rewrite E, length_app in Hn, Hm; cbn in Hn, Hm; lia).
    destruct (c =? 34) eqn:Ec; f_equal; apply IH.
    1,2: destruct (quoted_spec r) as [Er _]; apply (f_equal length) in Er; rewrite length_app in Er; destruct (snd (quoted r)); cbn in *; lia.
    all: destruct (word_spec (c :: r)) as (Er & _ & _); apply (f_equal length) in Er; rewrite length_app in Er;
      cbn [word] in *; rewrite H in *; destruct (word r); cbn in *; lia.
Qed.

Lemma str_of_nul s r : no_nul s -> str_of (s ++ 0 :: r) = Some s.
Proof. induction 1 as [|c s Hc _ IH]; [done|]. cbn. rewrite (proj2 (Z.eqb_neq c 0)) by done. by rewrite IH. Qed.

Lemma str_of_some x r : exists t, str_of (x ++ 0 :: r) = Some t /\ Forall (fun c => In c x /\ c <> 0) t.
Proof.
  induction x as [|c x (t & E & Ht)]; cbn; [by exists []|]. destruct (Z.eqb_spec c 0) as [->|Hc]; [by exists []|].
  rewrite E. exists (c :: t). split; [done|]. constructor; [auto|]. eapply Forall_impl; [exact Ht|]. cbn. tauto.
Qed.

Lemma rd_app p pre c r o : p = Z.of_nat (length pre) -> rd p (Console (pre ++ c :: r) o) = Some (c, Console (pre ++ c :: r) o).
Proof. intros ->. apply rd_at. by rewrite lookup_app_r, Nat.sub_diag by lia. Qed.

Lemma wr_app p pre c c' r o : p = Z.of_nat (length pre) ->
  wr p c' (Console (pre ++ c :: r) o) = Some (tt, Console (pre ++ c' :: r) o).
Proof.
  intros ->. rewrite wr_at by (rewrite length_app; cbn [length]; lia). repeat f_equal.
  by rewrite insert_app_r_alt, Nat.sub_diag by lia.
Qed.

Lemma str_app p pre t r o : p = Z.of_nat (length pre) -> no_nul t ->
  str_at p (Console (pre ++ t ++ 0 :: r) o) = Some (t, Console (pre ++ t ++ 0 :: r) o).
Proof.
  intros -> Ht. unfold str_at. rewrite (proj2 (Z.ltb_ge _ _)) by lia. cbn [buf].
  by rewrite Nat2Z.id, drop_app_length, str_of_nul.
Qed.

Ltac same_pos := match goal with |- Some (?a, _) = Some (?b, _) => by replace b with a by lia end.

Lemma strip_spec ws : forall fuel cmd len pos pre rest post o, (length ws < fuel)%nat -> Forall (fun c => is_blank c = true) ws ->
  match rest with [] => True | c :: _ => is_blank c = false end ->
  cmd + pos = Z.of_nat (length pre) -> len = pos + Z.of_nat (length ws + length rest) ->
  strip fuel cmd len pos (Console (pre ++ ws ++ rest ++ 0 :: post) o) =
    Some (pos + Z.of_nat (length ws), Console (pre ++ repeat 0 (length ws) ++ rest ++ 0 :: post) o).
Proof.
  induction ws as [|c ws IH]; intros fuel cmd len pos pre rest post o Hf Hb Hr Hp Hl; (destruct fuel; [cbn in Hf; lia|]); cbn [strip app repeat length].
  - destruct rest as [|c rest]; cbn [app].
    + rewrite (bindM_some _ _ _ _ _ (rd_app _ pre 0 post o Hp)). cbn. by rewrite Z.add_0_r.
    + rewrite (bindM_some _ _ _ _ _ (rd_app _ pre c (rest ++ 0 :: post) o Hp)), Hr. cbn. by rewrite Z.add_0_r.
  - apply Forall_cons in Hb as [Hc Hb].
    rewrite (bindM_some _ _ _ _ _ (rd_app _ pre c (ws ++ rest ++ 0 :: post) o Hp)), Hc, (proj2 (Z.ltb_lt _ _)) by (cbn [length] in Hl; lia).
    cbn [andb]. rewrite (bindM_some _ _ _ _ _ (wr_app _ pre c 0 _ o Hp)).
    change (0 :: ws ++ rest ++ 0 :: post) with ([0] ++ ws ++ rest ++ 0 :: post). rewrite app_assoc.
    rewrite (IH fuel); [|cbn in Hf; lia|done|done|rewrite length_app; cbn; lia|cbn [length] in Hl; lia].
    rewrite <- app_assoc. cbn. same_pos.
Qed.

Lemma skip_word_spec w : forall fuel cmd len pos pre rest post o, (length w < fuel)%nat -> Forall (fun c => is_blank c = false) w ->
  match rest with [] => True | c :: _ => is_blank c = true end ->
  cmd + pos = Z.of_nat (length pre) -> len = pos + Z.of_nat (length w + length rest) ->
  skip_word fuel cmd len pos (Console (pre ++ w ++ rest ++ 0 :: post) o) =
    Some (pos + Z.of_nat (length w), Console (pre ++ w ++ rest ++ 0 :: post) o).
Proof.
  induction w as [|c w IH]; intros fuel cmd len pos pre rest post o Hf Hb Hr Hp Hl; (destruct fuel; [cbn in Hf; lia|]); cbn [skip_word app length].
  - destruct rest as [|c rest]; cbn [app].
    + rewrite (bindM_some _ _ _ _ _ (rd_app _ pre 0 post o Hp)), (proj2 (Z.ltb_ge pos len)) by (cbn in Hl; lia).
      cbn. by rewrite Z.add_0_r.
    + rewrite (bindM_some _ _ _ _ _ (rd_app _ pre c (rest ++ 0 :: post) o Hp)), Hr. cbn. by rewrite Z.add_0_r.
  - apply Forall_cons in Hb as [Hc Hb].
    rewrite (bindM_some _ _ _ _ _ (rd_app _ pre c (w ++ rest ++ 0 :: post) o Hp)), Hc, (proj2 (Z.ltb_lt _ _)) by (cbn [length] in Hl; lia).
    cbn [negb andb]. change (c :: w ++ rest ++ 0 :: post) with ([c] ++ w ++ rest ++ 0 :: post). rewrite app_assoc.
    rewrite (IH fuel); [|cbn in Hf; lia|done|done|rewrite length_app; cbn; lia|cbn [length] in Hl; lia].
    rewrite <- app_assoc. cbn. same_pos.
Qed.

Lemma skip_string_spec s : forall fuel cmd len pos pre post o, (length s < fuel)%nat -> no_nul s ->
  cmd + pos = Z.of_nat (length pre) -> len = pos + Z.of_nat (length s) ->
  skip_string fuel cmd len pos (Console (pre ++ s ++ 0 :: post) o) =
    Some (pos + Z.of_nat (length (fst (quoted s))), Console (pre ++ s ++ 0 :: post) o).
Proof.
  induction s as [s IH] using (induction_ltof1 _ (@length Z)). unfold ltof in IH.
  intros fuel cmd len pos pre post o Hf Hn Hp Hl. destruct fuel; [lia|]. cbn [skip_string].
  destruct s as [|c r]; cbn [app].
  - rewrite (bindM_some _ _ _ _ _ (rd_app _ pre 0 post o Hp)), (proj2 (Z.ltb_ge pos len)) by (cbn in Hl; lia).
    rewrite andb_false_r. cbn. by rewrite Z.add_0_r.
  - rewrite (bindM_some _ _ _ _ _ (rd_app _ pre c (r ++ 0 :: post) o Hp)), (proj2 (Z.ltb_lt pos len)) by (cbn [length] in Hl; lia).
    rewrite andb_true_r. cbn [quoted]. destruct (Z.eqb_spec c 34) as [->|Hc]; cbn [negb]; [cbn; by rewrite Z.add_0_r|].
    apply Forall_cons in Hn as [Hc0 Hn]. cbn [length] in Hf, Hl.
    assert (forall d q, r ++ 0 :: post = d :: q -> (if c =? 92 then let! d := rd (cmd + pos + 1) in retM (if d =? 34 then 2 else 1) else retM 1)
      (Console (pre ++ c :: r ++ 0 :: post) o) = Some ((if (c =? 92) && (d =? 34) then 2 else 1), Console (pre ++ c :: r ++ 0 :: post) o)) as Hd.
    { intros d q Eq. destruct (c =? 92); [|done]. rewrite Eq. change (c :: d :: q) with ([c] ++ d :: q). rewrite app_assoc.
      rewrite (bindM_some _ _ _ _ _ (rd_app (cmd + pos + 1) (pre ++ [c]) d q o ltac:(rewrite length_app; cbn; lia))). done. }
    assert (forall a b q, c :: r = a ++ b -> q = b ++ 0 :: post ->
      pre ++ c :: r ++ 0 :: post = (pre ++ a) ++ q) as Happ.
    { intros a b q E ->. rewrite <- app_assoc. f_equal. rewrite app_assoc. by rewrite <- E. }
    destruct r as [|d r'].
    + rewrite (bindM_some _ _ _ _ _ (Hd 0 post eq_refl)), andb_false_r. rewrite (Happ [c] [] (0 :: post)) by done.
      etrans; [apply (IH [] ltac:(cbn; lia) fuel cmd len (pos + 1) (pre ++ [c]) post o); [cbn; lia|constructor|rewrite length_app; cbn; lia|cbn in *; lia]|].
      cbn. same_pos.
    + rewrite (bindM_some _ _ _ _ _ (Hd d (r' ++ 0 :: post) eq_refl)). destruct ((c =? 92) && (d =? 34)).
      * rewrite (Happ [c; d] r' (r' ++ 0 :: post)) by done. apply Forall_cons in Hn as [_ Hn].
        rewrite (IH r' ltac:(cbn; lia) fuel cmd len (pos + 2) (pre ++ [c; d]) post o); [|cbn in *; lia|done|rewrite length_app; cbn; lia|cbn in *; lia].
        destruct (quoted r'). cbn. same_pos.
      * rewrite (Happ [c] (d :: r') ((d :: r') ++ 0 :: post)) by done.
        rewrite (IH (d :: r') ltac:(cbn; lia) fuel cmd len (pos + 1) (pre ++ [c]) post o); [|cbn in *; lia|done|rewrite length_app; cbn; lia|cbn in *; lia].
        destruct (quoted (d :: r')). cbn [fst length]. same_pos.
Qed.

(** The characters of a line, and what the shell prints: whole lines. *)
Definition plain (c : Z) : Prop := 32 <= c < 127.
Definition plain_out (o : out) : Prop :=
  match o with Text t => Forall (fun c => plain c \/ c = 10) t | Call _ _ => True end.
Definition ends_line (o : out) : Prop := match o with Text t => exists u, t = u ++ [10] | Call _ _ => True end.
Definition tidy (os : list out) : Prop :=
  Forall plain_out os /\ (os = [] \/ exists a o, os = a ++ [o] /\ ends_line o).
Definition plain0 (c : Z) : Prop := c = 0 \/ plain c.

Fixpoint calls (os : list out) : list (list Z * list (list Z)) :=
  match os with
  | [] => []
  | Text _ :: r => calls r
  | Call c a :: r => (c, a) :: calls r
  end.

Lemma calls_app a b : calls (a ++ b) = calls a ++ calls b.
Proof. induction a as [|[t|c v] a IH]; cbn; by rewrite ?IH. Qed.

(** A decision procedure for texts that are known. *)
Definition plainb (c : Z) : bool := ((32 <=? c) && (c <? 127)) || (c =? 10).
Lemma plainb_spec t : forallb plainb t = true -> plain_out (Text t).
Proof.
  unfold plain_out. rewrite forallb_forall, Forall_forall. intros H c Hc%list_elem_of_In%H. unfold plainb, plain in *.
  apply orb_true_iff in Hc as [Hc|Hc]; breflect; lia.
Qed.

Lemma say_args_spec body post argv : Forall (fun a => 0 <= a <= Z.of_nat (length body)) argv -> forall o,
  exists os, say_args argv (Console (body ++ 0 :: post) o) = Some (tt, Console (body ++ 0 :: post) (o ++ os)) /\ calls os = [] /\
    (Forall plain0 body -> Forall plain_out os).
Proof.
  induction 1 as [|a argv Ha _ IH]; intros o; cbn [say_args].
  - exists []. by rewrite app_nil_r.
  - destruct (str_of_some (drop (Z.to_nat a) body) post) as (t & E & Ht).
    assert (str_at a (Console (body ++ 0 :: post) o) = Some (t, Console (body ++ 0 :: post) o)) as E'.
    { unfold str_at. rewrite (proj2 (Z.ltb_ge _ _)) by lia. cbn [buf]. by rewrite drop_app_le, E by lia. }
    rewrite (bindM_some _ _ _ _ _ E'). unfold rt_kprintf. rewrite say_bind.
    destruct (IH (o ++ [Text (t ++ [32])])) as (os & E2 & Hc & Hp). exists (Text (t ++ [32]) :: os).
    rewrite E2, <- app_assoc. split_and!; [done|done|]. intros Hb. constructor; [|auto]. apply Forall_app. split.
    + eapply Forall_impl; [exact Ht|]. intros c [Hc1 Hc2]. left. rewrite Forall_forall in Hb.
      destruct (Hb c); [|done|done]. rewrite <- (take_drop (Z.to_nat a) body), elem_of_app. right. by apply list_elem_of_In.
    + constructor; [|done]. left. unfold plain. lia.
Qed.

(** An argument starts at [i]; what is left of the line is [body], from [base]. *)
Definition arg_at (base : Z) (body : list Z) (i : Z) (t : list Z) : Prop :=
  exists k, i = base + Z.of_nat k /\ str_of (drop k body) = Some t.

Lemma arg_at_shift (u : list Z) base body i t : arg_at (base + Z.of_nat (length u)) body i t -> arg_at base (u ++ body) i t.
Proof.
  intros (k & -> & E). exists (length u + k)%nat. split; [lia|]. by rewrite drop_app_ge, Nat.add_comm, Nat.add_sub by lia.
Qed.

Definition starts_blank (s : list Z) : Prop := match s with c :: _ => is_blank c = true | [] => False end.

(** The loop with [s] left, [pre] in front of it: the arguments [toks] are
    added, only the cells of [s] change, a blank at its start becomes a NUL. *)
Definition split_ok (pre s post argv : list Z) (o : list out) (toks : list (list Z)) (r : option (list Z * console)) : Prop :=
  exists s' idx os, r = Some (argv ++ idx, Console (pre ++ s' ++ 0 :: post) (o ++ os)) /\ length s' = length s /\
    (starts_blank s -> exists r, s' = 0 :: r) /\ Forall2 (arg_at (Z.of_nat (length pre)) (s' ++ 0 :: post)) idx toks /\
    calls os = [] /\ (Forall plain0 (pre ++ s) -> tidy os).

Lemma tidy_nil : tidy [].
Proof. split; [done|by left]. Qed.

Lemma split_ok_done pre s post argv o : ~ starts_blank s ->
  split_ok pre s post argv o [] (Some (argv, Console (pre ++ s ++ 0 :: post) o)).
Proof. intros Hs. exists s, [], []. rewrite !app_nil_r. split_and!; try done; intros; apply tidy_nil. Qed.

(** The last argument reaches to the end of the line. *)
Lemma split_ok_last pre u t post argv o : ~ starts_blank (u ++ t) -> no_nul t ->
  split_ok pre (u ++ t) post argv o [t]
    (Some (argv ++ [Z.of_nat (length pre) + Z.of_nat (length u)], Console (pre ++ (u ++ t) ++ 0 :: post) o)).
Proof.
  intros Hs Hn. exists (u ++ t), [Z.of_nat (length pre) + Z.of_nat (length u)], []. rewrite app_nil_r.
  split_and!; try done; [|intros; apply tidy_nil]. constructor; [|constructor]. exists (length u). split; [done|].
  rewrite <- app_assoc, drop_app_length. by apply str_of_nul.
Qed.

Lemma split_ok_blanks pre ws rest post argv o toks r : Forall (fun c => is_blank c = true) ws ->
  split_ok (pre ++ repeat 0 (length ws)) rest post argv o toks r -> split_ok pre (ws ++ rest) post argv o toks r.
Proof.
  intros Hb (s' & idx & os & -> & L & Hs & F & Hc & Ht). exists (repeat 0 (length ws) ++ s'), idx, os.
  rewrite <- !app_assoc. split_and!; [done|by rewrite !length_app, repeat_length, L| | |done|].
  - destruct ws as [|c ws]; [done|]. intros _. by eexists.
  - eapply Forall2_impl; [exact F|]. intros i t H. apply arg_at_shift. by rewrite <- Nat2Z.inj_add, <- length_app.
  - rewrite !Forall_app in *. intros (? & ? & ?). apply Ht. split_and!; [done| |done].
    apply Forall_forall. intros x Hx%list_elem_of_In%repeat_spec. by left.
Qed.

Lemma split_ok_word pre w q post argv o toks r : no_nul w -> ~ starts_blank (w ++ q) -> starts_blank q ->
  split_ok (pre ++ w) q post (argv ++ [Z.of_nat (length pre)]) o toks r -> split_ok pre (w ++ q) post argv o (w :: toks) r.
Proof.
  intros Hw Hn Hq (s' & idx & os & -> & L & Hs & F & Hc & Ht). destruct (Hs Hq) as [s2 ->].
  exists (w ++ 0 :: s2), (Z.of_nat (length pre) :: idx), os. rewrite <- !app_assoc. split_and!; try done.
  - rewrite !length_app. by rewrite L.
  - constructor.
    + exists 0%nat. split; [lia|]. rewrite drop_0. by apply str_of_nul.
    + eapply Forall2_impl; [exact F|]. intros i t H. apply arg_at_shift. by rewrite <- Nat2Z.inj_add, <- length_app.
  - rewrite app_assoc. exact Ht.
Qed.

Lemma split_ok_quote pre t q post argv o toks r : no_nul t ->
  split_ok (pre ++ 34 :: t ++ [0]) q post (argv ++ [Z.of_nat (length pre) + 1]) o toks r ->
  split_ok pre (34 :: t ++ 34 :: q) post argv o (t :: toks) r.
Proof.
  intros Hw (s' & idx & os & -> & L & Hs & F & Hc & Ht).
  exists (34 :: t ++ 0 :: s'), (Z.of_nat (length pre) + 1 :: idx), os. rewrite <- !app_assoc. cbn [app].
  rewrite <- !app_assoc. split_and!; try done.
  - cbn. rewrite !length_app. cbn. by rewrite L.
  - constructor.
    + exists 1%nat. split; [done|]. cbn. by apply str_of_nul.
    + eapply Forall2_impl; [exact F|]. intros i u H.
      replace (34 :: t ++ (0 :: s') ++ 0 :: post) with ((34 :: t ++ [0]) ++ s' ++ 0 :: post) by (cbn; by rewrite <- app_assoc).
      apply arg_at_shift. rewrite <- Nat2Z.inj_add, <- length_app. exact H.
  - rewrite !Forall_app. intros (H1 & H2). apply Ht. apply Forall_app. split; [|].
    + apply Forall_app. split; [done|]. change (34 :: t ++ [0]) with ((34 :: t) ++ [0]). apply Forall_app.
      change (34 :: t ++ 34 :: q) with ((34 :: t) ++ 34 :: q) in H2. apply Forall_app in H2 as [H2 _]. split; [done|]. constructor; [by left|done].
    + change (34 :: t ++ 34 :: q) with ((34 :: t) ++ 34 :: q) in H2. apply Forall_app in H2 as [_ H2]. by apply Forall_cons in H2 as [_ ?].
Qed.

Lemma too_many_spec body post argv o : Forall (fun a => 0 <= a <= Z.of_nat (length body)) argv ->
  exists os, (do! rt_kprintf (clit "Too many args ! We only Use:\n") in do! say_args argv in
              do! rt_kprintf (clit "\n") in retM argv) (Console (body ++ 0 :: post) o) =
      Some (argv, Console (body ++ 0 :: post) (o ++ os)) /\ calls os = [] /\ (Forall plain0 body -> tidy os).
Proof.
  intros Ha. unfold rt_kprintf. rewrite say_bind.
  destruct (say_args_spec body post argv Ha (o ++ [Text (clit "Too many args ! We only Use:\n")])) as (os & E & Hc & Hp).
  rewrite (bindM_some _ _ _ _ _ E), say_bind. eexists (Text (clit "Too many args ! We only Use:\n") :: os ++ [Text (clit "\n")]).
  rewrite <- !app_assoc. split_and!; [done|cbn; by rewrite calls_app, Hc|]. intros Hb. split.
  - constructor; [by apply plainb_spec|]. apply Forall_app. split; [auto|]. constructor; [by apply plainb_spec|done].
  - right. eexists (_ :: os), _. split; [done|]. by exists [].
Qed.

Definition argv_ok (pre argv : list Z) : Prop := Forall (fun a => 0 <= a <= Z.of_nat (length pre)) argv.

Lemma argv_more pre u argv i : argv_ok pre argv -> 0 <= i <= Z.of_nat (length (pre ++ u)) -> argv_ok (pre ++ u) (argv ++ [i]).
Proof.
  intros H Hi. apply Forall_app. split; [|by constructor]. eapply Forall_impl; [exact H|]. cbn. rewrite length_app. lia.
Qed.

(** An argument and what follows it; the rest of the loop is the continuation. *)
Definition split_from (f : nat) : Prop := forall cmd len pos pre s post argv o, (length s < f)%nat -> no_nul s ->
  argv_ok pre argv -> (length argv <= 10)%nat -> cmd + pos = Z.of_nat (length pre) -> len = pos + Z.of_nat (length s) ->
  split_ok pre s post argv o (take (10 - length argv) (tokens f s)) (split_loop f cmd len pos argv (Console (pre ++ s ++ 0 :: post) o)).

Lemma split_quoted f fuel cmd len pos pre r post argv o : split_from f -> (length r < f)%nat -> (length r < fuel)%nat ->
  no_nul r -> argv_ok pre argv -> (length argv < 10)%nat -> cmd + pos = Z.of_nat (length pre) -> len = pos + Z.of_nat (S (length r)) ->
  split_ok pre (34 :: r) post argv o (take (10 - length argv) (fst (quoted r) :: tokens f (tl (snd (quoted r)))))
    ((let! position := skip_string fuel cmd len (pos + 1) in
      if len <=? position then retM (argv ++ [cmd + (pos + 1)])
      else do! wr (cmd + position) 0 in split_loop f cmd len (position + 1) (argv ++ [cmd + (pos + 1)]))
     (Console (pre ++ (34 :: r) ++ 0 :: post) o)).
Proof.
  intros IH Hf Hfuel Hn Ha Hl Hp Hlen. replace (10 - length argv)%nat with (S (9 - length argv)) by lia. cbn [take].
  change ((34 :: r) ++ 0 :: post) with ([34] ++ r ++ 0 :: post). rewrite app_assoc.
  rewrite (bindM_some _ _ _ _ _ (skip_string_spec r fuel cmd len (pos + 1) (pre ++ [34]) post o Hfuel Hn ltac:(rewrite length_app; cbn; lia) ltac:(lia))).
  destruct (quoted_spec r) as [Er Hq]. revert Er Hq. generalize (fst (quoted r)), (snd (quoted r)). intros t q Er Hq.
  assert (no_nul t) as Hnt by (rewrite Er in Hn; by apply Forall_app in Hn as [? _]).
  apply (f_equal length) in Er as El. rewrite length_app in El.
  replace (cmd + (pos + 1)) with (Z.of_nat (length pre) + 1) by lia. rewrite <- app_assoc. cbn [app].
  destruct q as [|c q]; cbn [tl length] in *.
  - rewrite (proj2 (Z.leb_le _ _)) by lia. replace (tokens f []) with (@nil (list Z)) by (by destruct f). rewrite take_nil, Er, app_nil_r.
    by apply (split_ok_last pre [34] t).
  - subst c. rewrite (proj2 (Z.leb_gt _ _)) by lia. rewrite Er. cbn [app].
    assert (pre ++ 34 :: (t ++ 34 :: q) ++ 0 :: post = (pre ++ 34 :: t) ++ 34 :: q ++ 0 :: post) as -> by (by rewrite <- !app_assoc).
    rewrite (bindM_some _ _ _ _ _ (wr_app (cmd + (pos + 1 + Z.of_nat (length t))) (pre ++ 34 :: t) 34 0 _ o ltac:(rewrite length_app; cbn [length]; lia))).
    apply split_ok_quote; [done|].
    replace ((pre ++ 34 :: t) ++ 0 :: q ++ 0 :: post) with ((pre ++ 34 :: t ++ [0]) ++ q ++ 0 :: post) by (by rewrite <- !app_assoc; cbn; rewrite <- app_assoc).
    replace (9 - length argv)%nat with (10 - length (argv ++ [(Z.of_nat (length pre) + 1)%Z]))%nat by (rewrite length_app; cbn [length]; lia).
    apply IH; [lia| | |rewrite length_app; cbn [length]; lia| |].
    + rewrite Er in Hn. apply Forall_app in Hn as [_ Hn]. by apply Forall_cons in Hn as [_ ?].
    + apply argv_more; [done|]. rewrite length_app. cbn. lia.
    + rewrite !length_app. cbn [length]. rewrite length_app. cbn [length]. lia.
    + lia.
Qed.

Lemma split_word f fuel cmd len pos pre c r post argv o : split_from f -> (length r < f)%nat -> (S (length r) < fuel)%nat ->
  is_blank c = false -> no_nul (c :: r) -> argv_ok pre argv -> (length argv < 10)%nat -> cmd + pos = Z.of_nat (length pre) ->
  len = pos + Z.of_nat (S (length r)) ->
  split_ok pre (c :: r) post argv o (take (10 - length argv) (fst (word (c :: r)) :: tokens f (snd (word (c :: r)))))
    ((let! position := skip_word fuel cmd len pos in
      if len <=? position then retM (argv ++ [cmd + pos]) else split_loop f cmd len position (argv ++ [cmd + pos]))
     (Console (pre ++ (c :: r) ++ 0 :: post) o)).
Proof.
  intros IH Hf Hfuel Hc Hn Ha Hl Hp Hlen. replace (10 - length argv)%nat with (S (9 - length argv)) by lia. cbn [take].
  destruct (word_spec (c :: r)) as (Er & Hw & Hq).
  assert (exists w, fst (word (c :: r)) = c :: w) as [w Ew] by (cbn [word]; rewrite Hc; destruct (word r) as [w q]; by exists w).
  rewrite Ew in *. revert Er Hq. generalize (snd (word (c :: r))). intros q Er Hq.
  assert (no_nul (c :: w)) as Hnw by (rewrite Er in Hn; by apply Forall_app in Hn as [? _]).
  apply (f_equal length) in Er as El. rewrite length_app in El. cbn [length] in El.
  rewrite Er, <- app_assoc.
  rewrite (bindM_some _ _ _ _ _ (skip_word_spec (c :: w) fuel cmd len pos pre q post o ltac:(cbn [length]; lia) Hw Hq Hp ltac:(cbn [length]; lia))).
  rewrite Hp. assert (~ starts_blank ((c :: w) ++ q)) as Hsb by (cbn; by rewrite Hc). destruct q as [|b q]; cbn [length] in *.
  - rewrite (proj2 (Z.leb_le _ _)) by lia. replace (tokens f []) with (@nil (list Z)) by (by destruct f). rewrite take_nil, app_nil_r in *.
    pose proof (split_ok_last pre [] (c :: w) post argv o Hsb Hnw) as H. cbn [length app] in H. by rewrite Z.add_0_r in H.
  - rewrite (proj2 (Z.leb_gt _ _)) by lia. apply split_ok_word; [done|done|done|]. rewrite app_assoc.
    replace (9 - length argv)%nat with (10 - length (argv ++ [Z.of_nat (length pre)]))%nat by (rewrite length_app; cbn [length]; lia).
    apply IH; [cbn; lia| | |rewrite length_app; cbn [length]; lia| |].
    + rewrite Er in Hn. by apply Forall_app in Hn as [_ ?].
    + apply argv_more; [done|]. rewrite length_app. lia.
    + rewrite length_app. cbn [length]. lia.
    + cbn [length]. lia.
Qed.

Lemma split_loop_spec f : split_from f.
Proof.
  induction f as [|f IH]; intros cmd len pos pre s post argv o Hf Hn Ha Hl Hp Hlen; [lia|]. cbn [split_loop tokens].
  destruct (blanks_spec s) as (Es & Hb & Hr). revert Es Hb Hr. generalize (fst (blanks s)), (snd (blanks s)). intros ws rest Es Hb Hr.
  assert (length s = length ws + length rest)%nat as Ls by (by rewrite Es, length_app).
  destruct (Z.ltb_spec pos len) as [Hlt|Hlt].
  2: { assert (ws = [] /\ rest = []) as [-> ->] by (destruct ws, rest; cbn in Ls; [done|lia..]). rewrite take_nil, Es. by apply (split_ok_done pre []); intros []. }
  assert (pre ++ s ++ 0 :: post = pre ++ ws ++ rest ++ 0 :: post) as -> by (by rewrite Es, <- app_assoc).
  rewrite (bindM_some _ _ _ _ _ (strip_spec ws (S f) cmd len pos pre rest post o ltac:(lia) Hb Hr Hp ltac:(lia))).
  rewrite Es in Hn |- *. apply split_ok_blanks; [done|]. apply Forall_app in Hn as [_ Hn]. rewrite app_assoc.
  set (z := repeat 0 (length ws)). assert (length (pre ++ z) = length pre + length ws)%nat as Lz by (unfold z; by rewrite length_app, repeat_length).
  assert (argv_ok (pre ++ z) argv) as Ha' by (eapply Forall_impl; [exact Ha|]; cbn; rewrite Lz; lia).
  assert (~ starts_blank rest) as Hnb by (destruct rest; cbn; [auto|congruence]).
  destruct (Z.leb_spec FINSH_ARG_MAX (Z.of_nat (length argv))) as [Hm|Hm]; unfold FINSH_ARG_MAX in Hm.
  - rewrite app_assoc. destruct (too_many_spec ((pre ++ z) ++ rest) post argv o) as (os & -> & Hc & Ht).
    { eapply Forall_impl; [exact Ha'|]. intros a Hx. rewrite length_app. cbn in Hx. lia. }
    replace (10 - length argv)%nat with 0%nat by lia. exists rest, [], os. rewrite app_nil_r, <- !app_assoc.
    split_and!; [done|done|done|constructor|done|]. intros H. apply Ht. by rewrite <- app_assoc.
  - destruct rest as [|c r].
    { rewrite (proj2 (Z.leb_le _ _)) by (cbn in Ls; lia). rewrite take_nil. by apply (split_ok_done _ []); intros []. }
    cbn [length] in Ls. rewrite (proj2 (Z.leb_gt _ _)) by lia. cbn [app].
    rewrite (bindM_some _ _ _ _ _ (rd_app (cmd + (pos + Z.of_nat (length ws))) (pre ++ z) c (r ++ 0 :: post) o ltac:(lia))).
    destruct (Z.eqb_spec c 34) as [->|Hc].
    + apply Forall_cons in Hn as [_ Hn].
      apply (split_quoted f (S f) cmd len (pos + Z.of_nat (length ws)) (pre ++ z) r post argv o); [done|lia|lia|done|done|lia|lia|lia].
    + apply (split_word f (S f) cmd len (pos + Z.of_nat (length ws)) (pre ++ z) c r post argv o); [done|lia|lia|done|done|done|lia|lia|lia].
Qed.

(* ------------------------------------------------------------------ *)
(** ** What running a line means *)

Definition find_cmd (tbl : list finsh_syscall) (w : list Z) : option finsh_syscall :=
  List.find (fun c => is_cmd c && bool_decide (cmd_name c = w)) tbl.

(** The calls a line leads to: the command its first word names, if there is
    one, with the first ten arguments. *)
Definition run_line (tbl : list finsh_syscall) (s : list Z) : list (list Z * list (list Z)) :=
  match snd (blanks s) with
  | [] => []
  | t => match find_cmd tbl (fst (word t)) with
         | Some c => [(cmd_name c, args_of t)]
         | None => []
         end
  end.

(** Names and descriptions of the table are C strings a terminal can show. *)
Definition table_ok (tbl : list finsh_syscall) : Prop :=
  Forall (fun c => Forall plain (name c) /\ Forall plain (desc c)) tbl.

Lemma plain_no_nul s : Forall plain s -> no_nul s.
Proof. intros H. eapply Forall_impl; [exact H|]. unfold plain. intros c Hc. cbn. lia. Qed.

Lemma strncmp_prefix w : forall a r, no_nul w -> no_nul a ->
  strncmp_eq (length w) a (w ++ r) = true <-> exists a', a = w ++ a'.
Proof.
  induction w as [|c w IH]; intros a r Hw Ha; cbn [strncmp_eq length app hd tl].
  - split; [by exists a|done].
  - apply Forall_cons in Hw as [Hc Hw]. destruct a as [|d a]; cbn [hd tl].
    + rewrite (proj2 (Z.eqb_neq 0 c)) by congruence. cbn. split; [done|by intros (? & ?)].
    + apply Forall_cons in Ha as [Hd Ha]. rewrite andb_true_iff, orb_true_iff, (IH a r Hw Ha), !Z.eqb_eq. split.
      * intros (-> & [?|(a' & ->)]); [done|by exists a'].
      * intros (a' & [= -> ->]). split; [done|right; by exists a'].
Qed.

Lemma is_cmd_name c : no_nul (name c) -> is_cmd c = true -> name c = cmd_prefix ++ cmd_name c /\ no_nul (cmd_name c).
Proof.
  intros Hn H. unfold is_cmd in H. change 6%nat with (length cmd_prefix) in H. rewrite <- (app_nil_r cmd_prefix) in H at 2.
  apply strncmp_prefix in H as (a & E); [|repeat constructor; done|done]. unfold cmd_name. rewrite E in Hn |- *.
  apply Forall_app in Hn as [_ Hn]. by cbn.
Qed.

Lemma get_cmd_spec tbl cmd w q b o : Forall (fun c => no_nul (name c)) tbl -> no_nul w -> drop (Z.to_nat cmd) b = w ++ q ->
  get_cmd tbl cmd (Z.of_nat (length w)) (Console b o) = Some (find_cmd tbl w, Console b o).
Proof.
  intros Ht Hw Eb. induction Ht as [|c tbl Hc _ IH]; [done|]. cbn [get_cmd find_cmd List.find buf]. rewrite Eb, Nat2Z.id.
  fold (find_cmd tbl w). destruct (is_cmd c) eqn:Ei; [|exact IH]. cbn [andb]. destruct (is_cmd_name c Hc Ei) as [En Hn].
  destruct (strncmp_eq (length w) (cmd_name c) (w ++ q)) eqn:Es.
  - apply strncmp_prefix in Es as (a & Ea); [|done|done]. rewrite En, Ea.
    assert (6 + Z.of_nat (length w) = Z.of_nat (length (cmd_prefix ++ w))) as -> by (rewrite length_app; cbn; lia).
    rewrite aget_nat, <- !app_assoc, app_assoc, lookup_app_r, Nat.sub_diag by lia. destruct a as [|d a]; cbn.
    + by rewrite bool_decide_eq_true_2 by (by rewrite app_nil_r).
    + rewrite Ea in Hn. apply Forall_app in Hn as [_ Hn]. apply Forall_cons in Hn as [Hd _].
      rewrite (proj2 (Z.eqb_neq d 0)) by done. rewrite bool_decide_eq_false_2; [exact IH|].
      intros E. apply (f_equal length) in E. rewrite length_app in E. cbn in E. lia.
  - rewrite bool_decide_eq_false_2; [exact IH|]. intros E. rewrite <- not_true_iff_false in Es. apply Es.
    apply strncmp_prefix; [done|done|]. exists []. by rewrite app_nil_r.
Qed.

Lemma trim_spec ws : forall fuel pre rest post len o, (length ws < fuel)%nat -> Forall (fun c => is_blank c = true) ws ->
  match rest with [] => True | c :: _ => is_blank c = false end -> len = Z.of_nat (length ws + length rest) -> len < 2 ^ 32 ->
  trim fuel (Z.of_nat (length pre)) len (Console (pre ++ ws ++ rest ++ 0 :: post) o) =
    Some ((Z.of_nat (length (pre ++ ws)), Z.of_nat (length rest)), Console (pre ++ ws ++ rest ++ 0 :: post) o).
Proof.
  induction ws as [|c ws IH]; intros fuel pre rest post len o Hf Hb Hr Hl Hm; (destruct fuel; [cbn in Hf; lia|]); cbn [trim app].
  - rewrite app_nil_r. cbn in Hl. subst len. destruct rest as [|c rest]; cbn [app].
    + by rewrite (bindM_some _ _ _ _ _ (rd_app _ pre 0 post o eq_refl)).
    + by rewrite (bindM_some _ _ _ _ _ (rd_app _ pre c (rest ++ 0 :: post) o eq_refl)), Hr.
  - apply Forall_cons in Hb as [Hc Hb]. rewrite (bindM_some _ _ _ _ _ (rd_app _ pre c (ws ++ rest ++ 0 :: post) o eq_refl)), Hc.
    change (c :: ws ++ rest ++ 0 :: post) with ([c] ++ ws ++ rest ++ 0 :: post). rewrite app_assoc.
    replace (Z.of_nat (length pre) + 1) with (Z.of_nat (length (pre ++ [c]))) by (rewrite length_app; cbn; lia).
    rewrite (IH fuel); [|cbn in Hf; lia|done|done| |unfold wrapu; cbn [length] in *; rewrite Z.mod_small; lia].
    + rewrite <- !app_assoc. done.
    + cbn [length] in Hl. rewrite Hl in Hm |- *. rewrite wrapu_small; lia.
Qed.

Lemma first_space_spec t : forall fuel pre post o, (length t < fuel)%nat ->
  exists t1 t2, t ++ 0 :: post = t1 ++ t2 /\ (length t1 <= length t)%nat /\
    first_space fuel (Z.of_nat (length pre)) (Console (pre ++ t ++ 0 :: post) o) =
    Some (Z.of_nat (length (pre ++ t1)), Console (pre ++ t ++ 0 :: post) o).
Proof.
  induction t as [|c t IH]; intros fuel pre post o Hf; (destruct fuel; [cbn in Hf; lia|]); cbn [first_space app].
  - exists [], (0 :: post). rewrite app_nil_r. split_and!; [done|done|]. by rewrite (bindM_some _ _ _ _ _ (rd_app _ pre 0 post o eq_refl)).
  - rewrite (bindM_some _ _ _ _ _ (rd_app _ pre c (t ++ 0 :: post) o eq_refl)). destruct (negb (c =? 32) && negb (c =? 0)).
    + destruct (IH fuel (pre ++ [c]) post o) as (t1 & t2 & E & L & E2); [cbn in Hf; lia|]. exists (c :: t1), t2.
      rewrite <- app_assoc in E2. cbn [app] in E2.
      replace (Z.of_nat (length pre) + 1) with (Z.of_nat (length (pre ++ [c]))) by (rewrite length_app; cbn; lia).
      rewrite E2, <- app_assoc. split_and!; [by rewrite E|cbn; lia|done].
    + exists [], (c :: t ++ 0 :: post). rewrite app_nil_r. split_and!; [done|cbn; lia|done].
Qed.

Section Exec.
Context (table : list finsh_syscall) (cmd_func : list Z -> list (list Z) -> Z).
Hypothesis names : Forall (fun c => no_nul (name c)) table.

Lemma arg_strings_spec pre body post idx toks o : Forall2 (arg_at (Z.of_nat (length pre)) (body ++ 0 :: post)) idx toks ->
  arg_strings idx (Console (pre ++ body ++ 0 :: post) o) = Some (toks, Console (pre ++ body ++ 0 :: post) o).
Proof.
  induction 1 as [|i t idx toks (k & -> & E) _ IH]; cbn [arg_strings]; [done|].
  assert (str_at (Z.of_nat (length pre) + Z.of_nat k) (Console (pre ++ body ++ 0 :: post) o) = Some (t, Console (pre ++ body ++ 0 :: post) o)) as E'.
  { unfold str_at. rewrite (proj2 (Z.ltb_ge _ _)) by lia. cbn [buf]. rewrite <- Nat2Z.inj_add, Nat2Z.id, drop_app_ge by lia.
    replace (length pre + k - length pre)%nat with k by lia. by rewrite E. }
  by rewrite (bindM_some _ _ _ _ _ E'), (bindM_some _ _ _ _ _ IH).
Qed.

(** A call has run, and printed whole lines. *)
Definition ran {A} (v : A) (s : list Z) (o : list out) (cs : list (list Z * list (list Z))) (r : option (A * console)) : Prop :=
  exists b os, r = Some (v, Console b (o ++ os)) /\ calls os = cs /\ (Forall plain s -> tidy os).

Lemma not_found_spec pre t post o : no_nul t ->
  ran (-1) (pre ++ t) o []
    ((let! tcmd := (fun s => first_space (S (length (buf s))) (Z.of_nat (length pre)) s) in
      do! wr tcmd 0 in
      let! t := str_at (Z.of_nat (length pre)) in
      do! rt_kprintf (t ++ clit ": command not found.\n") in retM (-1)) (Console (pre ++ t ++ 0 :: post) o)).
Proof.
  intros Hn. destruct (first_space_spec t (S (length (pre ++ t ++ 0 :: post))) pre post o) as (t1 & t2 & E & L & E2).
  { rewrite !length_app. lia. }
  unfold bindM at 1. cbn [buf]. rewrite E2, E.
  assert (exists q, t = t1 ++ q) as [q Eq].
  { exists (drop (length t1) t). rewrite <- (take_drop (length t1) t) at 1. f_equal.
    apply (f_equal (take (length t1))) in E. by rewrite take_app_le, take_app_length in E by lia. }
  assert (exists d t3, t2 = d :: t3) as (d & t3 & ->).
  { destruct t2; [|by eexists _, _]. apply (f_equal length) in E. rewrite !length_app in E. cbn in E. lia. }
  rewrite app_assoc. rewrite (bindM_some _ _ _ _ _ (wr_app _ (pre ++ t1) d 0 t3 o eq_refl)), <- app_assoc.
  rewrite (bindM_some _ _ _ _ _ (str_app _ pre t1 t3 o eq_refl ltac:(by rewrite Eq in Hn; apply Forall_app in Hn as [? _]))).
  unfold rt_kprintf. rewrite say_bind. eexists _, [_]. split_and!; [reflexivity|done|]. intros Hp. split.
  - constructor; [|done]. apply Forall_app. split; [|by apply plainb_spec].
    apply Forall_app in Hp as [_ Hp]. rewrite Eq in Hp. apply Forall_app in Hp as [Hp _]. eapply Forall_impl; [exact Hp|]. cbn. tauto.
  - right. eexists [], _. split; [done|]. exists (t1 ++ clit ": command not found."). by rewrite <- app_assoc.
Qed.

Lemma found_spec pre t post o c : no_nul t -> match t with [] => False | d :: _ => is_blank d = false end ->
  ran (0, cmd_func (cmd_name c) (args_of t)) (pre ++ t) o [(cmd_name c, args_of t)]
    ((let! argv := msh_split (Z.of_nat (length pre)) (Z.of_nat (length t)) in
      if Z.of_nat (length argv) =? 0 then retM (- RT_ERROR, 0) else
      let! args := arg_strings argv in
      do! say (Call (cmd_name c) args) in
      retM (0, cmd_func (cmd_name c) args)) (Console (pre ++ t ++ 0 :: post) o)).
Proof.
  intros Hn Ht. unfold msh_split. unfold bindM at 1. cbn [buf].
  destruct (split_loop_spec (S (length (pre ++ t ++ 0 :: post))) (Z.of_nat (length pre)) (Z.of_nat (length t)) 0 pre t post [] o)
    as (s' & idx & os & -> & L & _ & F & Hc & Hp); [rewrite !length_app; lia|done|constructor|cbn; lia|lia|lia|].
  cbn [app length Nat.sub] in *. rewrite (tokens_enough _ (length t)) in F by (rewrite ?length_app; lia).
  destruct (length idx) eqn:Ei.
  { apply Forall2_length in F. rewrite Ei in F. destruct t as [|d t]; [done|]. cbn [length tokens blanks] in F.
    rewrite Ht in F. cbn in F. by destruct (d =? 34). }
  rewrite <- Ei, (proj2 (Z.eqb_neq _ _)) by lia. rewrite (bindM_some _ _ _ _ _ (arg_strings_spec pre s' post idx _ _ F)).
  rewrite say_bind. rewrite <- app_assoc. eexists _, (os ++ [_]). split_and!; [reflexivity|by rewrite calls_app, Hc|].
  intros Hpl. destruct (Hp ltac:(eapply Forall_impl; [exact Hpl|]; by right)) as [H _]. split.
  - apply Forall_app. split; [done|]. by constructor.
  - right. by eexists os, _.
Qed.

(** A line [s] is run as [run_line] says, whatever stands behind it. *)
Lemma msh_exec_spec s post o : no_nul s -> Z.of_nat (length s) < 2 ^ 32 ->
  exists v, ran v s o (run_line table s) (msh_exec table cmd_func 0 (Z.of_nat (length s)) (Console (s ++ 0 :: post) o)).
Proof.
  intros Hn Hm. destruct (blanks_spec s) as (Es & Hb & Hr). unfold run_line. revert Es Hb Hr.
  generalize (fst (blanks s)), (snd (blanks s)). intros ws t Es Hb Hr. unfold msh_exec. subst s.
  assert (no_nul t) as Hnt by (by apply Forall_app in Hn as [_ ?]).
  pose proof (trim_spec ws (S (length ((ws ++ t) ++ 0 :: post))) [] t post (Z.of_nat (length (ws ++ t))) o) as E.
  cbn [app] in E. rewrite app_assoc in E. unfold bindM at 1. cbn [buf]. change (Z.of_nat (length (@nil Z))) with 0 in E.
  rewrite E; [|rewrite !length_app; lia|done|done|by rewrite length_app, Nat2Z.inj_add|done].
  rewrite <- app_assoc. destruct (Z.eqb_spec (Z.of_nat (length t)) 0) as [H0|H0].
  { destruct t; [|done]. eexists _, _, []. rewrite app_nil_r. split_and!; [reflexivity|done|intros; apply tidy_nil]. }
  destruct t as [|d t0] eqn:Et; [done|]. rewrite <- Et in *. cbn [length].
  destruct (word_spec t) as (Ew & Hw & Hq).
  assert (exists w, fst (word t) = d :: w) as [w Ew1] by (rewrite Et; cbn [word]; rewrite Hr; destruct (word t0) as [w q]; by exists w).
  revert Ew Hw Hq Ew1. generalize (fst (word t)), (snd (word t)). intros w0 q Ew Hw Hq ->.
  unfold _msh_exec_cmd. rewrite bindM_assoc. unfold bindM at 1. cbn [buf].
  pose proof (skip_word_spec (d :: w) (S (length (ws ++ t ++ 0 :: post))) (Z.of_nat (length ws)) (Z.of_nat (length t)) 0 ws q post o) as E2.
  rewrite (app_assoc (d :: w)), <- Ew in E2. rewrite E2; [clear E2|rewrite Ew, !length_app; cbn [length]; lia|done|done|lia|rewrite Ew, length_app; lia].
  rewrite (proj2 (Z.eqb_neq (0 + _) 0)) by (cbn [length]; lia). rewrite Z.add_0_l.
  assert (no_nul (d :: w)) as Hnw by (rewrite Ew in Hnt; by apply Forall_app in Hnt as [? _]).
  rewrite bindM_assoc. unfold msh_get_cmd. rewrite (bindM_some _ _ _ _ _ (get_cmd_spec table (Z.of_nat (length ws)) (d :: w) (q ++ 0 :: post) (ws ++ t ++ 0 :: post) o names Hnw
    ltac:(by rewrite Nat2Z.id, drop_app_length, Ew, <- app_assoc))).
  destruct (find_cmd table (d :: w)) as [c|].
  - destruct (found_spec ws t post o c Hnt ltac:(by rewrite Et)) as (b & os & E3 & Hc & Hp).
    eexists _, b, os. split_and!; [|done|done]. by rewrite (bindM_some _ _ _ _ _ E3).
  - eexists. exact (not_found_spec ws t post o Hnt).
Qed.
End Exec.

(* ------------------------------------------------------------------ *)
(** ** What completing a line means

    The line becomes the longest common beginning of the commands that start
    with it. *)

Fixpoint common (a b : list Z) : list Z :=
  match a, b with
  | x :: r, y :: q => if x =? y then x :: common r q else []
  | _, _ => []
  end.

Definition matching (tbl : list finsh_syscall) (p : list Z) : list (list Z) :=
  map cmd_name (List.filter (fun c => is_cmd c && is_prefix p (cmd_name c)) tbl).

Definition complete (tbl : list finsh_syscall) (p : list Z) : list Z :=
  if bool_decide (p = []) then [] else
  match matching tbl p with
  | [] => p
  | n :: r => fold_left common r n
  end.

Lemma common_take a b : common a b = take (Z.to_nat (str_common a b)) a /\ 0 <= str_common a b <= Z.of_nat (length a).
Proof.
  revert b. induction a as [|x a IH]; intros [|y b]; cbn; try (split; [done|lia]).
  destruct (x =? y); [|cbn; split; [done|lia]]. destruct (IH b) as [-> H].
  replace (Z.to_nat (1 + str_common a b)) with (S (Z.to_nat (str_common a b))) by lia. cbn. split; [done|lia].
Qed.

(** A shorter common beginning is one of the first [m] characters. *)
Lemma common_shorter a b m : 0 <= m ->
  common (take (Z.to_nat m) a) b = take (Z.to_nat (Z.min (str_common a b) m)) a.
Proof.
  revert b m. induction a as [|x a IH]; intros b m Hm; [by rewrite !take_nil|].
  destruct (Z.eq_dec m 0) as [->|Hm0].
  { rewrite Z.min_r by apply common_take. done. }
  replace (Z.to_nat m) with (S (Z.to_nat (m - 1))) by lia. destruct b as [|y b]; cbn [take common str_common].
  { by rewrite Z.min_l by lia. }
  destruct (x =? y); [|by rewrite Z.min_l by lia]. rewrite IH by lia.
  replace (Z.to_nat (Z.min (1 + str_common a b) m)) with (S (Z.to_nat (Z.min (str_common a b) (m - 1)))); [done|].
  pose proof (proj2 (common_take a b)). lia.
Qed.

Lemma common_prefix p a b : is_prefix p a = true -> is_prefix p b = true -> is_prefix p (common a b) = true.
Proof.
  intros [r ->]%is_prefix_spec [q ->]%is_prefix_spec. induction p as [|x p IH]; cbn; [done|]. by rewrite !Z.eqb_refl.
Qed.

Lemma common_prefix_l a b : is_prefix (common a b) a = true.
Proof. destruct (common_take a b) as [-> _]. apply is_prefix_spec. eexists. symmetry. apply take_drop. Qed.

Lemma common_prefix_r a b : is_prefix (common a b) b = true.
Proof. revert b. induction a as [|x a IH]; intros [|y b]; cbn; try done. destruct (Z.eqb_spec x y) as [->|]; [|done]. cbn. by rewrite Z.eqb_refl, IH. Qed.

Lemma is_prefix_trans a b c : is_prefix a b = true -> is_prefix b c = true -> is_prefix a c = true.
Proof. intros [r ->]%is_prefix_spec [q ->]%is_prefix_spec. apply is_prefix_spec. exists (r ++ q). by rewrite app_assoc. Qed.

(** What a whole list has in common. *)
Lemma common_all r : forall n,
  (forall x, In x (n :: r) -> is_prefix (fold_left common r n) x = true) /\
  (forall q, (forall x, In x (n :: r) -> is_prefix q x = true) -> is_prefix q (fold_left common r n) = true).
Proof.
  induction r as [|y r IH]; intros n; cbn [fold_left].
  - split; [|intros q H; apply H; by left]. intros x [->|[]]. apply is_prefix_spec. exists []. by rewrite app_nil_r.
  - destruct (IH (common n y)) as [A B]. split.
    + intros x [<-|[<-|Hx]]; [..|apply A; by right].
      * eapply is_prefix_trans; [apply A; by left|apply common_prefix_l].
      * eapply is_prefix_trans; [apply A; by left|apply common_prefix_r].
    + intros q H. apply B. intros x [<-|Hx]; [|apply H; by right; right]. apply common_prefix; apply H; [by left|by right; left].
Qed.

Lemma strncmp_whole p : forall b, no_nul p -> no_nul b -> strncmp_eq (length p) p b = is_prefix p b.
Proof.
  induction p as [|c p IH]; intros b Hp Hb; cbn [strncmp_eq length is_prefix hd tl]; [done|].
  apply Forall_cons in Hp as [Hc Hp]. rewrite (proj2 (Z.eqb_neq c 0)) by done. destruct b as [|d b]; cbn [hd tl].
  - by rewrite (proj2 (Z.eqb_neq c 0)) by done.
  - apply Forall_cons in Hb as [_ Hb]. cbn. by rewrite IH.
Qed.

Section Completion.
Context (table : list finsh_syscall) (printable : table_ok table).

Lemma table_names tbl : table_ok tbl -> Forall (fun c => no_nul (name c)) tbl.
Proof. intros H. eapply Forall_impl; [exact H|]. intros c [Hc _]. by apply plain_no_nul. Qed.

Lemma name_plain tbl c : table_ok tbl -> In c tbl -> is_cmd c = true -> Forall plain (cmd_name c) /\ Forall plain (desc c).
Proof.
  intros H Hin Ei. unfold table_ok in H. rewrite Forall_forall in H. destruct (H c) as [Hn Hd]; [by apply list_elem_of_In|].
  split; [|done]. destruct (is_cmd_name c (plain_no_nul _ Hn) Ei) as [E _]. rewrite E in Hn. by apply Forall_app in Hn as [_ ?].
Qed.

Definition says (os : list out) : Prop := calls os = [] /\ tidy os.

Lemma says_nil : says [].
Proof. split; [done|apply tidy_nil]. Qed.

Lemma says_line t os : Forall plain t -> says os -> says (Text (t ++ [10]) :: os).
Proof.
  intros Ht [Hc [Hp He]]. split; [done|]. split.
  - constructor; [|done]. apply Forall_app. split; [|by repeat constructor; right]. eapply Forall_impl; [exact Ht|]. cbn. tauto.
  - right. destruct He as [->|(a & x & -> & Hx)]; [exists [], (Text (t ++ [10])); split; [done|by exists t]|]. by exists (Text (t ++ [10]) :: a), x.
Qed.

(** The loop once a first match [n] is known, and from its start. *)
Lemma candidates_more tbl p n b : forall m o, table_ok tbl -> no_nul p -> 0 < Z.of_nat (length p) <= m -> m <= Z.of_nat (length n) ->
  is_prefix p n = true ->
  exists m' os, candidates tbl p m (Some n) (Console b o) = Some ((m', Some n), Console b (o ++ os)) /\ says os /\
    0 <= m' <= Z.of_nat (length n) /\ take (Z.to_nat m') n = fold_left common (matching tbl p) (take (Z.to_nat m) n).
Proof.
  induction tbl as [|c tbl IH]; intros m o Ht Hp Hm Hn Hpn; cbn [candidates].
  - exists m, []. rewrite app_nil_r. split_and!; try done; [apply says_nil|lia].
  - unfold matching. cbn [List.filter]. pose proof (name_plain _ c Ht ltac:(by left)) as Hc. apply Forall_cons in Ht as [Hc0 Ht].
    destruct (is_cmd c) eqn:Ei; [|by apply IH]. destruct (Hc eq_refl) as [Hcn _]. cbn [andb].
    rewrite strncmp_whole by (done || by apply plain_no_nul). destruct (is_prefix p (cmd_name c)) eqn:Ep; [|by apply IH].
    rewrite (proj2 (Z.eqb_neq m 0)) by lia. cbn [map fold_left]. fold (matching tbl p). rewrite common_shorter by lia.
    replace (if str_common n (cmd_name c) <? m then str_common n (cmd_name c) else m) with (Z.min (str_common n (cmd_name c)) m)
      by (destruct (Z.ltb_spec (str_common n (cmd_name c)) m); lia).
    unfold rt_kprintf. rewrite say_bind. pose proof (common_prefix p n (cmd_name c) Hpn Ep) as Hpc.
    assert (Z.of_nat (length p) <= str_common n (cmd_name c)) as Hl.
    { apply is_prefix_spec in Hpc as [q Eq]. destruct (common_take n (cmd_name c)) as [E H]. rewrite E in Eq.
      apply (f_equal length) in Eq. rewrite length_take, length_app in Eq. lia. }
    destruct (IH (Z.min (str_common n (cmd_name c)) m) (o ++ [Text (cmd_name c ++ [10])]) Ht Hp) as (m' & os & E & Hs & Hm' & Eq);
      [lia|lia|done|]. exists m', (Text (cmd_name c ++ [10]) :: os). rewrite E, <- app_assoc. split_and!; try done; [by apply says_line|lia|lia].
Qed.

Lemma candidates_spec tbl p b : forall o, table_ok tbl -> no_nul p -> p <> [] ->
  exists m x os, candidates tbl p 0 None (Console b o) = Some ((m, x), Console b (o ++ os)) /\ says os /\
    match matching tbl p with
    | [] => x = None
    | n :: r => x = Some n /\ 0 <= m <= Z.of_nat (length n) /\ take (Z.to_nat m) n = fold_left common r n
    end.
Proof.
  induction tbl as [|c tbl IH]; intros o Ht Hp Hne; cbn [candidates].
  - exists 0, None, []. rewrite app_nil_r. by split_and!; try done; apply says_nil.
  - unfold matching. cbn [List.filter]. pose proof (name_plain _ c Ht ltac:(by left)) as Hc. apply Forall_cons in Ht as [Hc0 Ht].
    destruct (is_cmd c) eqn:Ei; [|by apply IH]. destruct (Hc eq_refl) as [Hcn _]. cbn [andb].
    rewrite strncmp_whole by (done || by apply plain_no_nul). destruct (is_prefix p (cmd_name c)) eqn:Ep; [|by apply IH].
    cbn [map]. fold (matching tbl p). set (n := cmd_name c) in *. change (0 =? 0) with true. cbn iota.
    assert (str_common n n = Z.of_nat (length n)) as En.
    { clear. induction n as [|x n IHn]; [done|]. cbn [str_common length]. rewrite Z.eqb_refl, IHn. lia. }
    rewrite En, Z.ltb_irrefl. unfold rt_kprintf. rewrite say_bind.
    apply is_prefix_spec in Ep as Eq. destruct Eq as [q Eq]. apply (f_equal length) in Eq. rewrite length_app in Eq.
    destruct p as [|d p]; [done|]. cbn [length] in Eq.
    destruct (candidates_more tbl (d :: p) n b (Z.of_nat (length n)) (o ++ [Text (n ++ [10])]) Ht Hp) as (m' & os & E & Hs & Hm' & E2);
      [cbn [length]; lia|lia|done|]. exists m', (Some n), (Text (n ++ [10]) :: os). rewrite E, <- app_assoc.
    split_and!; try done; [by apply says_line|lia|lia|]. by rewrite E2, Nat2Z.id, firstn_all.
Qed.

Lemma help_lines_spec tbl b : forall o, table_ok tbl ->
  exists os, help_lines tbl (Console b o) = Some (tt, Console b (o ++ os)) /\ says os.
Proof.
  induction tbl as [|c tbl IH]; intros o Ht; cbn [help_lines].
  - exists []. rewrite app_nil_r. split; [done|apply says_nil].
  - pose proof (name_plain _ c Ht ltac:(by left)) as Hc. apply Forall_cons in Ht as [_ Ht]. destruct (is_cmd c) eqn:Ei.
    + destruct (Hc eq_refl) as [Hn Hd]. unfold rt_kprintf. rewrite say_bind.
      destruct (IH (o ++ [Text (help_line c)]) Ht) as (os & E & Hs). exists (Text (help_line c) :: os). rewrite E, <- app_assoc.
      split; [done|]. unfold help_line. rewrite !app_assoc. apply says_line; [|done]. rewrite !Forall_app. split_and!; try done.
      * apply Forall_forall. intros x Hx%list_elem_of_In%repeat_spec. subst. unfold plain. lia.
      * by repeat constructor.
    + rewrite bindM_retM. by apply IH.
Qed.

Lemma strncpy_spec n : forall d s b o, (n <= length s)%nat -> (d + n <= length b)%nat ->
  rt_strncpy (Z.of_nat d) s n (Console b o) = Some (tt, Console (take d b ++ take n s ++ drop (d + n) b) o).
Proof.
  induction n as [|n IH]; intros d s b o Hs Hb; cbn [rt_strncpy].
  - rewrite Nat.add_0_r, take_0. cbn [app]. by rewrite take_drop.
  - destruct s as [|c s]; [cbn in Hs; lia|]. rewrite (bindM_some _ _ _ _ _ (wr_at b o d c ltac:(lia))).
    replace (Z.of_nat d + 1) with (Z.of_nat (S d)) by lia. cbn in Hs.
    rewrite IH by (rewrite ?length_insert; lia). rewrite (take_S_r _ _ c) by (by rewrite list_lookup_insert_eq by lia).
    rewrite take_insert_ge, drop_insert_lt by lia. cbn [take]. rewrite <- app_assoc. cbn. by rewrite Nat.add_succ_r.
Qed.

(** Completing the line [p]: candidates are listed, or the help for an empty
    line, and the line is replaced by its completion. *)
Lemma auto_complete_spec p (post : list Z) o : no_nul p -> (length (complete table p) <= length (p ++ 0%Z :: post))%nat ->
  exists os, msh_auto_complete table 0 (Console (p ++ 0 :: post) o) =
    Some (tt, Console (complete table p ++ drop (length (complete table p)) (p ++ 0 :: post)) (o ++ os)) /\ says os.
Proof.
  intros Hp Hl. unfold msh_auto_complete, complete in *. destruct p as [|c p].
  - rewrite bool_decide_eq_true_2 by done. cbn [app]. rewrite (bindM_some _ _ _ _ _ (rd_app 0 [] 0 post o eq_refl)). cbn iota. cbn [Z.eqb].
    unfold msh_help, rt_kprintf. rewrite say_bind.
    destruct (help_lines_spec table (0 :: post) (o ++ [Text (clit "RT-Thread shell commands:\n")]) printable) as (os & E & Hs).
    rewrite (bindM_some _ _ _ _ _ E). unfold say, doM. cbn [log]. rewrite <- !app_assoc. eexists (_ :: os ++ [_]). split; [reflexivity|].
    destruct Hs as [Hc [Hps _]]. split; [cbn; by rewrite calls_app, Hc|]. split.
    + constructor; [by apply plainb_spec|]. apply Forall_app. split; [done|]. constructor; [by apply plainb_spec|done].
    + right. eexists (_ :: os), _. split; [done|]. by exists [].
  - rewrite bool_decide_eq_false_2 in * by done. cbn [app]. rewrite (bindM_some _ _ _ _ _ (rd_app 0 [] c (p ++ 0 :: post) o eq_refl)).
    apply Forall_cons in Hp as Hp2. destruct Hp2 as [Hc _]. rewrite (proj2 (Z.eqb_neq c 0)) by done. cbn [app].
    rewrite (bindM_some _ _ _ _ _ (str_app 0 [] (c :: p) post o eq_refl Hp)). cbn [app].
    destruct (candidates_spec table (c :: p) (c :: p ++ 0 :: post) o printable Hp ltac:(done)) as (m & x & os & E & Hs & H).
    rewrite (bindM_some _ _ _ _ _ E). exists os. destruct (matching table (c :: p)) as [|n r].
    + rewrite H. change (c :: p ++ 0 :: post) with ((c :: p) ++ 0 :: post). by rewrite drop_app_length.
    + destruct H as (-> & Hm & E2). rewrite <- E2 in Hl |- *. rewrite length_take, Nat.min_l in * by lia.
      rewrite (strncpy_spec _ 0 n) by (cbn [app length] in *; lia). done.
Qed.
End Completion.

(** The condition on the table, decided. *)
Definition table_okb (table : list finsh_syscall) : bool :=
  forallb (fun c => forallb (fun x => (32 <=? x) && (x <? 127)) (name c ++ desc c)) table.

Lemma table_okb_spec table : table_okb table = true -> table_ok table.
Proof.
  unfold table_okb, table_ok. rewrite forallb_forall, Forall_forall. intros H c Hc%list_elem_of_In%H.
  rewrite forallb_app in Hc. apply andb_true_iff in Hc as [Hn Hd]. rewrite forallb_forall in Hn, Hd. rewrite !Forall_forall. unfold plain.
  split; intros x Hx%list_elem_of_In; [apply Hn in Hx|apply Hd in Hx]; breflect; lia.
Qed.

Definition sample_table : list finsh_syscall :=
  [Syscall (clit "__cmd_free") (clit "Show the memory usage in the system.");
   Syscall (clit "list_mem") (clit "list memory usage information");
   Syscall (clit "__cmd_list_thread") (clit "list thread");
   Syscall (clit "__cmd_list_timer") (clit "list timer in system");
   Syscall (clit "__cmd_disp_set_addr") (clit "Change displacement sensor slave address")].

(** C17: A tab turns a line that some command starts with into the longest line
    all the commands that start with it have in common: it extends what was
    typed, every such command starts with it, and nothing longer does; the rest
    of the buffer is not touched. *)
Theorem completion_longest table p post o : table_ok table -> Forall plain p -> p <> [] -> matching table p <> [] ->
  (forall n, In n (matching table p) -> (length n <= length p + length post)%nat) ->
  exists c os, msh_auto_complete table 0 (Console (p ++ 0 :: post) o) =
      Some (tt, Console (c ++ drop (length c) (p ++ 0 :: post)) (o ++ os)) /\
    is_prefix p c = true /\ (forall n, In n (matching table p) -> is_prefix c n = true) /\
    forall q, (forall n, In n (matching table p) -> is_prefix q n = true) -> is_prefix q c = true.
Proof.
  intros Ht Hp Hne Hm Hl. assert (complete table p = match matching table p with [] => p | n :: r => fold_left common r n end) as Ec
    by (unfold complete; by rewrite bool_decide_eq_false_2).
  assert (forall n, In n (matching table p) -> is_prefix p n = true) as Hpn.
  { intros n (c & <- & Hc)%in_map_iff. apply filter_In in Hc as [_ [_ Hx]%andb_true_iff]. done. }
  destruct (matching table p) as [|n r]; [done|].
  destruct (common_all r n) as [A B]. rewrite <- Ec in A, B.
  destruct (auto_complete_spec table Ht p post o (plain_no_nul _ Hp)) as (os & E & _).
  { pose proof (A n ltac:(by left)) as [q Eq]%is_prefix_spec. apply (f_equal length) in Eq. rewrite length_app in Eq.
    specialize (Hl n ltac:(by left)). rewrite length_app. cbn [length]. lia. }
  exists (complete table p), os. split_and!; [done|by apply B|done|done].
Qed.

Lemma completion_longest_witness : (matching sample_table (clit "li") <> []) /\
  exists c os, msh_auto_complete sample_table 0 (Console (clit "li" ++ 0 :: repeat 0 20) []) =
      Some (tt, Console (c ++ drop (length c) (clit "li" ++ 0 :: repeat 0 20)) ([] ++ os)) /\
    is_prefix (clit "li") c = true /\ (forall n, In n (matching sample_table (clit "li")) -> is_prefix c n = true) /\
    forall q, (forall n, In n (matching sample_table (clit "li")) -> is_prefix q n = true) -> is_prefix q c = true.
Proof.
  split; [done|]. apply completion_longest; [|repeat constructor; done|done|done|].
  - apply table_okb_spec. by vm_compute.
  - cbn. intros n [<-|[<-|[]]]; cbn; lia.
Defined.
