(* ===== verification/Shell.v ===== *)
(** * The command shell: the line editor

    rt-thread/components/finsh/shell.c in the configuration of rtconfig.h (the
    msh shell only, with history, no password), over Msh.v.  [finsh_key] is a
    turn of the loop of the shell thread on a character of the console; [None]
    is an access outside the arrays of the shell.  Then the promise: an editor
    with a cursor in a line, a history and a terminal that shows both. *)

From Stdlib Require Import ZArith Lia String.
From stdpp Require Import base numbers list.
From S2P Require Import Prelude Msh.
Open Scope c_scope.

Definition FINSH_CMD_SIZE : Z := 80.
Definition FINSH_HISTORY_LINES : Z := 5.

Inductive input_stat := WAIT_NORMAL | WAIT_SPEC_KEY | WAIT_FUNC_KEY.

#[export] Instance input_stat_eq_dec : EqDecision input_stat.
Proof. solve_decision. Defined.

(** [line] and the console are [con]; the prompt that may be set is
    [finsh_prompt_custom]. *)
Record finsh_shell := Shell {
  stat : input_stat; echo_mode : Z; prompt_mode : Z;
  current_history : Z; history_count : Z; cmd_history : list (list Z);
  con : console; line_position : Z; line_curpos : Z; finsh_prompt_custom : option (list Z) }.

Definition with_stat x s := Shell x (echo_mode s) (prompt_mode s) (current_history s) (history_count s) (cmd_history s)
  (con s) (line_position s) (line_curpos s) (finsh_prompt_custom s).
Definition with_history cur n h s := Shell (stat s) (echo_mode s) (prompt_mode s) cur n h
  (con s) (line_position s) (line_curpos s) (finsh_prompt_custom s).
Definition with_con c s := Shell (stat s) (echo_mode s) (prompt_mode s) (current_history s) (history_count s) (cmd_history s)
  c (line_position s) (line_curpos s) (finsh_prompt_custom s).
Definition with_pos p c s := Shell (stat s) (echo_mode s) (prompt_mode s) (current_history s) (history_count s) (cmd_history s)
  (con s) p c (finsh_prompt_custom s).
Definition with_modes e p s := Shell (stat s) e p (current_history s) (history_count s) (cmd_history s)
  (con s) (line_position s) (line_curpos s) (finsh_prompt_custom s).

Definition on_con {A} (m : M console A) : M finsh_shell A := fun s =>
  match m (con s) with Some (a, c) => Some (a, with_con c s) | None => None end.
Definition set_pos (p c : Z) : M finsh_shell unit := doM (with_pos (u16 p) (u16 c)).
Definition getS {A} (f : finsh_shell -> A) : M finsh_shell A := getM (fun s => (f s, s)).
Definition kprintf (t : list Z) : M finsh_shell unit := on_con (rt_kprintf t).
Definition kprintf_n (n : nat) (t : list Z) : M finsh_shell unit := on_con (fun s =>
  Some (tt, Console (buf s) (log s ++ repeat (Text t) n))).

(** The buffer of the prompt holds 256 characters and a NUL. *)
Definition finsh_get_prompt (s : finsh_shell) : list Z :=
  if prompt_mode s =? 0 then []
  else match finsh_prompt_custom s with
       | Some p => take 256 p
       | None => clit "msh >"
       end.

Definition say_prompt : M finsh_shell unit := fun s => kprintf (finsh_get_prompt s) s.

Definition finsh_set_prompt_mode (m : Z) (s : finsh_shell) : finsh_shell := with_modes (echo_mode s) (m mod 2) s.
Definition finsh_set_echo (e : Z) (s : finsh_shell) : finsh_shell := with_modes (u8 e mod 2) (prompt_mode s) s.

(** [memset(shell->line, 0, sizeof(shell->line))] *)
Definition clear_line : M finsh_shell unit :=
  doM (fun s => with_con (Console (repeat 0 (Z.to_nat (FINSH_CMD_SIZE + 1))) (log (con s))) s).

Section Shell.
Context (table : list finsh_syscall) (cmd_func : list Z -> list (list Z) -> Z).

Definition shell_auto_complete : M finsh_shell unit :=
  do! kprintf (clit "\n") in
  do! on_con (msh_auto_complete table 0) in
  let! t := on_con (str_at 0) in
  fun s => kprintf (finsh_get_prompt s ++ t) s.

Definition shell_handle_history : M finsh_shell unit :=
  do! kprintf (clit "\e[2K\r") in
  let! t := on_con (str_at 0) in
  fun s => kprintf (finsh_get_prompt s ++ t) s.

(** A row of the history with the first [n] characters of the line. *)
Definition history_row (n : Z) (l : list Z) : option (list Z) :=
  if n <=? FINSH_CMD_SIZE then Some (take (Z.to_nat n) l ++ repeat 0 (Z.to_nat (FINSH_CMD_SIZE - n))) else None.

Definition shell_push_history (s : finsh_shell) : option (unit * finsh_shell) :=
  let l := buf (con s) in
  let same (i : Z) := match aget (cmd_history s) i with
                      | Some r => Some (bool_decide (r = take (Z.to_nat FINSH_CMD_SIZE) l))
                      | None => None
                      end in
  let done n h := Some (tt, with_history n n h s) in
  if line_position s =? 0 then done (history_count s) (cmd_history s)
  else if FINSH_HISTORY_LINES <=? history_count s then
    match same (FINSH_HISTORY_LINES - 1), history_row (line_position s) l with
    | Some true, _ => done (history_count s) (cmd_history s)
    | Some false, Some r => done FINSH_HISTORY_LINES (drop 1 (cmd_history s) ++ [r])
    | _, _ => None
    end
  else
    match (if history_count s =? 0 then Some false else same (history_count s - 1)) with
    | Some true => done (history_count s) (cmd_history s)
    | Some false =>
        match history_row (line_position s) l with
        | Some r => match aset (cmd_history s) (history_count s) r with
                    | Some h => done (u16 (history_count s + 1)) h
                    | None => None
                    end
        | None => None
        end
    | None => None
    end.

(** The row [i] of the history becomes the line. *)
Definition recall (i : Z) : M finsh_shell unit := fun s =>
  match aget (cmd_history s) i with
  | None => None
  | Some r =>
      (do! on_con (fun c => Some (tt, Console (r ++ drop (Z.to_nat FINSH_CMD_SIZE) (buf c)) (log c))) in
       let! t := on_con (str_at 0) in
       do! set_pos (Z.of_nat (length t)) (Z.of_nat (length t)) in
       shell_handle_history) s
  end.

Definition up_key : M finsh_shell unit := fun s =>
  if 0 <? current_history s then
    let i := current_history s - 1 in recall i (with_history i (history_count s) (cmd_history s) s)
  else Some (tt, s).

Definition down_key : M finsh_shell unit := fun s =>
  if current_history s <? history_count s - 1 then
    let i := current_history s + 1 in recall i (with_history i (history_count s) (cmd_history s) s)
  else if history_count s =? 0 then Some (tt, s)
  else let i := history_count s - 1 in recall i (with_history i (history_count s) (cmd_history s) s).

Definition left_key : M finsh_shell unit :=
  let! p := getS line_position in
  let! c := getS line_curpos in
  if c =? 0 then retM tt else do! kprintf [8] in set_pos p (c - 1).

Definition right_key : M finsh_shell unit :=
  let! p := getS line_position in
  let! c := getS line_curpos in
  if c <? p then
    let! x := on_con (rd c) in
    do! kprintf [x] in
    set_pos p (c + 1)
  else retM tt.

Definition tab_key : M finsh_shell unit :=
  let! c := getS line_curpos in
  do! kprintf_n (Z.to_nat c) [8] in
  do! shell_auto_complete in
  let! t := on_con (str_at 0) in
  set_pos (Z.of_nat (length t)) (Z.of_nat (length t)).

Definition backspace_key : M finsh_shell unit :=
  let! c := getS line_curpos in
  if c =? 0 then retM tt else
  let! p := getS line_position in
  do! set_pos (p - 1) (c - 1) in
  let! p := getS line_position in
  let! c := getS line_curpos in
  if c <? p then
    do! on_con (rt_memmove c (c + 1) (p - c)) in
    do! on_con (wr p 0) in
    let! t := on_con (str_at c) in
    do! kprintf ([8] ++ t ++ clit "  " ++ [8]) in
    kprintf_n (Z.to_nat (p - c + 1)) [8]
  else
    do! kprintf [8; 32; 8] in
    on_con (wr p 0).

Definition enter_key : M finsh_shell unit :=
  do! shell_push_history in
  let! e := getS echo_mode in
  do! (if e =? 0 then retM tt else kprintf (clit "\n")) in
  let! p := getS line_position in
  do! on_con (msh_exec table cmd_func 0 p) in
  do! say_prompt in
  do! clear_line in
  set_pos 0 0.

Definition normal_key (ch : Z) : M finsh_shell unit :=
  let! p := getS line_position in
  let! c := getS line_curpos in
  let p := if FINSH_CMD_SIZE <=? p then 0 else p in
  let! e := getS echo_mode in
  do! (if c <? p then
         do! on_con (rt_memmove (c + 1) c (p - c)) in
         do! on_con (wr c ch) in
         let! t := on_con (str_at c) in
         do! (if e =? 0 then retM tt else kprintf t) in
         kprintf_n (Z.to_nat (p - c)) [8]
       else
         do! on_con (wr p ch) in
         if e =? 0 then retM tt else kprintf [ch]) in
  do! set_pos (p + 1) (c + 1) in
  let! p := getS line_position in
  if FINSH_CMD_SIZE <=? p then set_pos 0 0 else retM tt.

(** What is not part of an escape sequence. *)
Definition plain_key (ch : Z) : M finsh_shell unit :=
  if (ch =? 0) || (ch =? 0xFF) then retM tt
  else if ch =? 9 then tab_key
  else if (ch =? 0x7f) || (ch =? 0x08) then backspace_key
  else if (ch =? 13) || (ch =? 10) then enter_key
  else normal_key ch.

Definition finsh_key (ch : Z) : M finsh_shell unit :=
  let! st := getS stat in
  if ch =? 0x1b then doM (with_stat WAIT_SPEC_KEY)
  else match st with
  | WAIT_SPEC_KEY =>
      if ch =? 0x5b then doM (with_stat WAIT_FUNC_KEY)
      else do! doM (with_stat WAIT_NORMAL) in plain_key ch
  | WAIT_FUNC_KEY =>
      do! doM (with_stat WAIT_NORMAL) in
      if ch =? 0x41 then up_key
      else if ch =? 0x42 then down_key
      else if ch =? 0x44 then left_key
      else if ch =? 0x43 then right_key
      else plain_key ch
  | WAIT_NORMAL => plain_key ch
  end.

(** [rt_calloc] and [finsh_system_init], the start of the thread, its loop. *)
Definition finsh_system_init : finsh_shell :=
  finsh_set_prompt_mode 1
    (Shell WAIT_NORMAL 0 0 0 0 (repeat (repeat 0 (Z.to_nat FINSH_CMD_SIZE)) (Z.to_nat FINSH_HISTORY_LINES))
       (Console (repeat 0 (Z.to_nat (FINSH_CMD_SIZE + 1))) []) 0 0 None).

Fixpoint finsh_keys (ks : list Z) : M finsh_shell unit :=
  match ks with
  | [] => retM tt
  | ch :: r => do! finsh_key ch in finsh_keys r
  end.

Definition finsh_thread_entry (ks : list Z) : M finsh_shell unit :=
  do! doM (fun s => with_modes 1 (prompt_mode s) s) in
  do! say_prompt in
  finsh_keys ks.
End Shell.

(* ------------------------------------------------------------------ *)
(** ** What the shell promises

    A terminal: its last row, the column of the cursor, and how much of an
    escape sequence (only ESC [ .. K, which erases the row) has arrived.  A
    command is expected to end its output with a new line. *)

Record term := Term { row : list Z; col : nat; esc : nat }.

Definition put_char (t : term) (c : Z) : term :=
  match esc t with
  | O => if c =? 27 then Term (row t) (col t) 1
         else if c =? 8 then Term (row t) (col t - 1) 0
         else if c =? 13 then Term (row t) 0 0
         else if c =? 10 then Term [] 0 0
         else Term (take (col t) (row t ++ repeat 32 (col t - length (row t))) ++ c :: drop (S (col t)) (row t)) (S (col t)) 0
  | 1%nat => Term (row t) (col t) (if c =? 91 then 2 else 0)
  | _ => if c =? 75 then Term [] (col t) 0 else t
  end.

Definition show (t : term) (o : out) : term :=
  match o with
  | Text s => fold_left put_char s t
  | Call _ _ => Term [] 0 0
  end.

Definition screen (os : list out) : term := fold_left show os (Term [] 0 0).

(** The editor: the line in front of the cursor and behind it, the history, the
    line of the history shown last. *)
Record editor := Ed { e_stat : input_stat; before : list Z; after : list Z; hist : list (list Z); browse : nat }.

Definition text (e : editor) : list Z := before e ++ after e.
Definition moved (b a : list Z) (e : editor) : editor := Ed (e_stat e) b a (hist e) (browse e).
Definition normal (e : editor) : editor := Ed WAIT_NORMAL (before e) (after e) (hist e) (browse e).
Definition recalled (i : nat) (e : editor) : editor := Ed (e_stat e) (nth i (hist e) []) [] (hist e) i.

(** A line enters the history unless it is empty or the last one again; the
    history keeps five. *)
Definition push (t : list Z) (h : list (list Z)) : list (list Z) :=
  if bool_decide (t = []) || bool_decide (last h = Some t) then h else drop (length h - 4) (h ++ [t]).

Definition ed_up (e : editor) : editor := match browse e with O => e | S i => recalled i e end.
Definition ed_down (e : editor) : editor :=
  if (browse e + 1 <? length (hist e))%nat then recalled (browse e + 1) e
  else match hist e with [] => e | _ => recalled (length (hist e) - 1) e end.
Definition ed_left (e : editor) : editor :=
  match last (before e) with Some c => moved (removelast (before e)) (c :: after e) e | None => e end.
Definition ed_right (e : editor) : editor :=
  match after e with c :: r => moved (before e ++ [c]) r e | [] => e end.

Section Editor.
Context (table : list finsh_syscall).

Definition ed_plain (ch : Z) (e : editor) : editor * list (list Z) :=
  if (ch =? 0) || (ch =? 0xFF) then (e, [])
  else if ch =? 9 then (moved (complete table (text e)) [] e, [])
  else if (ch =? 0x7f) || (ch =? 0x08) then (moved (removelast (before e)) (after e) e, [])
  else if (ch =? 13) || (ch =? 10) then
    (Ed (e_stat e) [] [] (push (text e) (hist e)) (length (push (text e) (hist e))), [text e])
  else (moved (before e ++ [ch]) (after e) e, []).

(** The editor after a key, and the lines it hands over to be run. *)
Definition ed_key (ch : Z) (e : editor) : editor * list (list Z) :=
  let to st := Ed st (before e) (after e) (hist e) (browse e) in
  if ch =? 0x1b then (to WAIT_SPEC_KEY, [])
  else match e_stat e with
  | WAIT_SPEC_KEY => if ch =? 0x5b then (to WAIT_FUNC_KEY, []) else ed_plain ch (normal e)
  | WAIT_FUNC_KEY =>
      if ch =? 0x41 then (ed_up (normal e), [])
      else if ch =? 0x42 then (ed_down (normal e), [])
      else if ch =? 0x44 then (ed_left (normal e), [])
      else if ch =? 0x43 then (ed_right (normal e), [])
      else ed_plain ch (normal e)
  | WAIT_NORMAL => ed_plain ch e
  end.

Fixpoint ed_keys (ks : list Z) (e : editor) : editor * list (list Z) :=
  match ks with
  | [] => (e, [])
  | ch :: r => let (e1, l1) := ed_key ch e in let (e2, l2) := ed_keys r e1 in (e2, l1 ++ l2)
  end.

(** The keys that go into the line; the promise covers them if a terminal can
    show them and there is room (the line must not reach 80 characters). *)
Definition special (ch : Z) : bool :=
  (ch =? 0) || (ch =? 0xFF) || (ch =? 9) || (ch =? 0x7f) || (ch =? 0x08) || (ch =? 13) || (ch =? 10).
Definition inserted (ch : Z) (e : editor) : bool :=
  negb (special ch) && negb (ch =? 0x1b) &&
  match e_stat e with
  | WAIT_NORMAL => true
  | WAIT_SPEC_KEY => negb (ch =? 0x5b)
  | WAIT_FUNC_KEY => negb ((0x41 <=? ch) && (ch <=? 0x44))
  end.
Definition key_ok (ch : Z) (e : editor) : bool :=
  negb (inserted ch e) || ((32 <=? ch) && (ch <? 127) && (length (text e) <? 79)%nat).

Fixpoint keys_ok (ks : list Z) (e : editor) : bool :=
  match ks with
  | [] => true
  | ch :: r => key_ok ch e && keys_ok r (fst (ed_key ch e))
  end.
End Editor.

Definition ed_init : editor := Ed WAIT_NORMAL [] [] [] 0.

(** The shell that stands for an editor, [os] being on its console. *)
Definition pad (n : nat) (t : list Z) : list Z := t ++ repeat 0 (n - length t).
Definition rows (h : list (list Z)) : list (list Z) := map (pad 80) h ++ repeat (repeat 0 80) (5 - length h).
Definition shell_of (e : editor) (os : list out) : finsh_shell :=
  Shell (e_stat e) 1 1 (Z.of_nat (browse e)) (Z.of_nat (length (hist e))) (rows (hist e))
    (Console (pad 81 (text e)) os) (Z.of_nat (length (text e))) (Z.of_nat (length (before e))) None.

Definition prompt : list Z := clit "msh >".

(** The terminal shows the prompt, the line and blanks, with the cursor at its place. *)
Definition shows (e : editor) (t : term) : Prop :=
  exists k, t = Term (prompt ++ text e ++ repeat 32 k) (length (prompt ++ before e)) 0.

(* ------------------------------------------------------------------ *)
(** ** Lemmas on the terminal *)

Lemma drop_repeat {A} (x : A) k n : drop k (repeat x n) = repeat x (n - k).
Proof. revert k. induction n as [|n IH]; intros [|k]; cbn; [done|done|done|apply IH]. Qed.

Lemma put_text s : forall a b, Forall plain s ->
  fold_left put_char s (Term (a ++ b) (length a) 0) = Term (a ++ s ++ drop (length s) b) (length (a ++ s)) 0.
Proof.
  induction s as [|c s IH]; intros a b H; cbn [fold_left length drop].
  - by rewrite !app_nil_r.
  - apply Forall_cons in H as [Hc H]. unfold plain in Hc. unfold put_char at 2. cbn [esc row col].
    rewrite !(proj2 (Z.eqb_neq _ _)) by lia. replace (length a - length (a ++ b))%nat with 0%nat by (rewrite length_app; lia).
    cbn [repeat]. rewrite app_nil_r, take_app_length, drop_app_ge by lia. replace (S (length a) - length a)%nat with 1%nat by lia.
    replace (a ++ c :: drop 1 b) with ((a ++ [c]) ++ drop 1 b) by (by rewrite <- app_assoc).
    replace (S (length a)) with (length (a ++ [c])) by (rewrite length_app; cbn; lia).
    rewrite IH by done. rewrite drop_drop, <- !app_assoc. done.
Qed.

Lemma show_text a b s t : Forall plain s -> t = Term (a ++ b) (length a) 0 ->
  show t (Text s) = Term (a ++ s ++ drop (length s) b) (length (a ++ s)) 0.
Proof. intros Hs ->. by apply put_text. Qed.

Lemma show_app a b t : show t (Text (a ++ b)) = show (show t (Text a)) (Text b).
Proof. apply fold_left_app. Qed.

Lemma show_bs r c : show (Term r c 0) (Text [8]) = Term r (c - 1) 0.
Proof. done. Qed.

(** A character taken out on the screen: the rest of the row, and two blanks
    over what is left of it. *)
Lemma show_rub a x s k : Forall plain s ->
  show (Term (a ++ x :: s ++ repeat 32 k) (S (length a)) 0) (Text ([8] ++ s ++ clit "  " ++ [8])) =
  Term (a ++ s ++ repeat 32 (S (S (k - 1)))) (length (a ++ s) + 1) 0.
Proof.
  intros Hs. rewrite !show_app, show_bs. replace (S (length a) - 1)%nat with (length a) by lia.
  rewrite (show_text a (x :: s ++ repeat 32 k) s), (app_assoc a s) by done.
  rewrite (show_text (a ++ s) (drop (length s) (x :: s ++ repeat 32 k)) (clit "  ")) by (done || by repeat constructor).
  rewrite show_bs, drop_drop, Nat.add_comm. f_equal; [|rewrite length_app; cbn; lia].
  rewrite <- !app_assoc. do 2 f_equal. cbn. rewrite drop_app_ge, drop_repeat by lia. do 2 f_equal. do 2 f_equal. lia.
Qed.

Lemma show_back n : forall r c, fold_left show (repeat (Text [8]) n) (Term r c 0) = Term r (c - n) 0.
Proof.
  induction n as [|n IH]; intros r c; cbn [repeat fold_left]; [by rewrite Nat.sub_0_r|].
  change (show (Term r c 0) (Text [8])) with (Term r (c - 1) 0). rewrite IH. f_equal. lia.
Qed.

(** Characters a shell prints leave no escape sequence open, and a new line
    leaves an empty row. *)
Lemma put_plain_esc s : forall t, Forall (fun c => plain c \/ c = 10) s -> esc t = 0%nat -> esc (fold_left put_char s t) = 0%nat.
Proof.
  induction s as [|c s IH]; intros t H E; cbn [fold_left]; [done|]. apply Forall_cons in H as [Hc H]. apply IH; [done|].
  unfold put_char. rewrite E. destruct Hc as [Hc| ->]; [|done]. unfold plain in Hc. by rewrite !(proj2 (Z.eqb_neq _ _)) by lia.
Qed.

Lemma show_tidy os t : tidy os -> esc t = 0%nat -> fold_left show os t = if bool_decide (os = []) then t else Term [] 0 0.
Proof.
  intros [Hp He] E. destruct He as [->|(a & o & -> & Hl)]; [done|]. rewrite bool_decide_eq_false_2 by (by destruct a).
  rewrite fold_left_app. cbn [fold_left]. apply Forall_app in Hp as [Ha Ho]. apply Forall_cons in Ho as [Ho _].
  assert (forall t, esc t = 0%nat -> esc (fold_left show a t) = 0%nat) as Hesc.
  { clear -Ha. induction Ha as [|x a Hx _ IH]; intros t E; cbn [fold_left]; [done|]. apply IH. destruct x; [by apply put_plain_esc|done]. }
  destruct o as [s|]; [|done]. destruct Hl as [u ->]. cbn [show]. rewrite fold_left_app. cbn [fold_left].
  apply Forall_app in Ho as [Hu _]. unfold put_char. by rewrite put_plain_esc by auto.
Qed.

(* ------------------------------------------------------------------ *)
(** ** Lemmas on the state of the shell *)

Lemma con_bind {A B} (m : M console A) (f : A -> M finsh_shell B) s a c : m (con s) = Some (a, c) ->
  bindM (on_con m) f s = f a (with_con c s).
Proof. intros E. unfold bindM, on_con. by rewrite E. Qed.

Lemma kprintf_eq t s : kprintf t s = Some (tt, with_con (Console (buf (con s)) (log (con s) ++ [Text t])) s).
Proof. done. Qed.

Lemma pos_eq p c s : 0 <= p < 65536 -> 0 <= c < 65536 -> set_pos p c s = Some (tt, with_pos p c s).
Proof. intros Hp Hc. unfold set_pos, doM. by rewrite !u16_small. Qed.

Lemma pos_bind {B} p c (f : unit -> M finsh_shell B) s : 0 <= p < 65536 -> 0 <= c < 65536 ->
  bindM (set_pos p c) f s = f tt (with_pos p c s).
Proof. intros Hp Hc. by rewrite (bindM_some _ _ _ _ _ (pos_eq p c s Hp Hc)). Qed.

Lemma pad_nul n t : (length t < n)%nat -> pad n t = t ++ 0 :: repeat 0 (n - length t - 1).
Proof. intros H. unfold pad. destruct (n - length t)%nat eqn:E; [lia|]. cbn. by rewrite Nat.sub_0_r. Qed.

Lemma pad_length n t : (length t <= n)%nat -> length (pad n t) = n.
Proof. intros H. unfold pad. rewrite length_app, repeat_length. lia. Qed.

(** The line read from the cursor on. *)
Lemma str_pad u v o p : p = Z.of_nat (length u) -> no_nul v -> (length (u ++ v) < 81)%nat ->
  str_at p (Console (pad 81 (u ++ v)) o) = Some (v, Console (pad 81 (u ++ v)) o).
Proof. intros -> Hv Hl. rewrite pad_nul, <- app_assoc by done. by apply str_app. Qed.

(** A character taken out of the line, the rest moving up. *)
Lemma pad_delete b c a : (length (b ++ c :: a) <= 80)%nat ->
  <[length (b ++ a) := 0]> (take (length b) (pad 81 (b ++ c :: a)) ++
     take (length a) (drop (length (b ++ [c])) (pad 81 (b ++ c :: a))) ++ drop (length (b ++ a)) (pad 81 (b ++ c :: a)))
  = pad 81 (b ++ a).
Proof.
  intros Hl. rewrite length_app in Hl. cbn in Hl.
  assert (pad 81 (b ++ c :: a) = (b ++ [c]) ++ a ++ repeat 0 (80 - length (b ++ a))) as EL.
  { unfold pad. rewrite <- !app_assoc. cbn. rewrite !length_app. cbn. do 4 f_equal. lia. }
  assert (take (length b) (pad 81 (b ++ c :: a)) = b) as -> by (by rewrite EL, <- !app_assoc, take_app_length).
  assert (take (length a) (drop (length (b ++ [c])) (pad 81 (b ++ c :: a))) = a) as -> by (by rewrite EL, drop_app_length, take_app_length).
  assert (exists x, drop (length (b ++ a)) (pad 81 (b ++ c :: a)) = x :: repeat 0 (80 - length (b ++ a))) as [x ->].
  { destruct (drop (length (b ++ a)) (pad 81 (b ++ c :: a))) as [|x q] eqn:E.
    - apply (f_equal length) in E. rewrite length_drop, pad_length, length_app in E by (rewrite length_app; cbn; lia). cbn in E. lia.
    - exists x. f_equal. apply (f_equal (drop 1)) in E. rewrite drop_drop, skipn_cons, drop_0 in E. rewrite <- E, EL, app_assoc, drop_app_ge by (rewrite !length_app; cbn; lia).
      replace (length (b ++ a) + 1 - length ((b ++ [c]) ++ a))%nat with 0%nat by (rewrite !length_app; cbn; lia). apply drop_0. }
  rewrite app_assoc, insert_app_r_alt, Nat.sub_diag by lia. cbn. unfold pad. f_equal.
  by replace (81 - length (b ++ a))%nat with (S (80 - length (b ++ a))) by (rewrite length_app; lia).
Qed.

(** A character put into the line. *)
Lemma pad_insert b c a : (length (b ++ a) < 80)%nat ->
  <[length b := c]> (take (length (b ++ [c])) (pad 81 (b ++ a)) ++ take (length a) (drop (length b) (pad 81 (b ++ a))) ++
     drop (length (b ++ [c]) + length a) (pad 81 (b ++ a))) = pad 81 (b ++ c :: a).
Proof.
  intros Hl. rewrite length_app in Hl.
  assert (drop (length b) (pad 81 (b ++ a)) = a ++ repeat 0 (81 - length (b ++ a))) as D1 by (unfold pad; by rewrite <- app_assoc, drop_app_length).
  rewrite D1, take_app_length.
  assert (drop (length (b ++ [c]) + length a) (pad 81 (b ++ a)) = repeat 0 (80 - length (b ++ a))) as ->.
  { unfold pad. rewrite drop_app_ge by (rewrite !length_app; cbn; lia). rewrite drop_repeat. f_equal. rewrite !length_app. cbn. lia. }
  assert (exists x, take (length (b ++ [c])) (pad 81 (b ++ a)) = b ++ [x]) as [x ->].
  { unfold pad. replace (length (b ++ [c])) with (length b + 1)%nat by (by rewrite length_app). rewrite <- app_assoc, take_app_add.
    destruct (a ++ repeat 0 (81 - length (b ++ a))) as [|x q] eqn:E; [|by exists x].
    apply (f_equal length) in E. rewrite length_app, repeat_length, length_app in E. cbn in E. lia. }
  rewrite <- app_assoc, insert_app_r_alt, Nat.sub_diag by lia. unfold pad. rewrite <- app_assoc.
  by replace (81 - length (b ++ c :: a))%nat with (80 - length (b ++ a))%nat by (rewrite !length_app; cbn; lia).
Qed.

Lemma delete_line b x a os : (length (b ++ x :: a) <= 80)%nat -> exists l,
  rt_memmove (Z.of_nat (length b)) (Z.of_nat (length b) + 1) (Z.of_nat (length a)) (Console (pad 81 (b ++ x :: a)) os) = Some (tt, Console l os) /\
  wr (Z.of_nat (length (b ++ a))) 0 (Console l os) = Some (tt, Console (pad 81 (b ++ a)) os).
Proof.
  intros Hl. assert (length (pad 81 (b ++ x :: a)) = 81)%nat as Lp by (apply pad_length; lia).
  rewrite <- (pad_delete b x a Hl). rewrite length_app in Hl. cbn in Hl. rewrite rt_memmove_spec by (rewrite ?Lp; lia).
  eexists. split; [reflexivity|].
  replace (Z.to_nat (Z.of_nat (length b) + Z.of_nat (length a))) with (length (b ++ a)) by (rewrite length_app; lia).
  replace (Z.to_nat (Z.of_nat (length b) + 1)) with (length (b ++ [x])) by (rewrite length_app; cbn; lia). rewrite !Nat2Z.id.
  apply wr_at. repeat rewrite ?length_app, ?length_take, ?length_drop, ?Lp. cbn. lia.
Qed.

Lemma insert_line b x a os : (length (b ++ a) < 80)%nat -> exists l,
  rt_memmove (Z.of_nat (length b) + 1) (Z.of_nat (length b)) (Z.of_nat (length a)) (Console (pad 81 (b ++ a)) os) = Some (tt, Console l os) /\
  wr (Z.of_nat (length b)) x (Console l os) = Some (tt, Console (pad 81 (b ++ x :: a)) os).
Proof.
  intros Hl. assert (length (pad 81 (b ++ a)) = 81)%nat as Lp by (apply pad_length; lia).
  rewrite <- (pad_insert b x a Hl). rewrite length_app in Hl. rewrite rt_memmove_spec by (rewrite ?Lp; lia).
  eexists. split; [reflexivity|].
  replace (Z.to_nat (Z.of_nat (length b) + 1 + Z.of_nat (length a))) with (length (b ++ [x]) + length a)%nat by (rewrite length_app; cbn; lia).
  replace (Z.to_nat (Z.of_nat (length b) + 1)) with (length (b ++ [x])) by (rewrite length_app; cbn; lia). rewrite !Nat2Z.id.
  apply wr_at. repeat rewrite ?length_app, ?length_take, ?length_drop, ?Lp. cbn. lia.
Qed.

Lemma repeat_snoc {A} (x : A) n : repeat x n ++ [x] = repeat x (S n).
Proof. induction n as [|n IH]; [done|]. cbn. by rewrite IH. Qed.

Lemma append_line t x os : (length t < 80)%nat ->
  wr (Z.of_nat (length t)) x (Console (pad 81 t) os) = Some (tt, Console (pad 81 (t ++ [x])) os).
Proof.
  intros Hl. rewrite pad_nul, (wr_app _ t 0 x) by (done || lia). unfold pad. rewrite <- app_assoc. cbn [app].
  by replace (81 - length (t ++ [x]))%nat with (81 - length t - 1)%nat by (rewrite length_app; cbn; lia).
Qed.

(** The rows of the history. *)
Lemma rows_at h i : (i < length h)%nat -> aget (rows h) (Z.of_nat i) = Some (pad 80 (nth i h [])).
Proof.
  intros Hi. unfold aget. rewrite (proj2 (Z.leb_le _ _)), Nat2Z.id by lia. unfold rows.
  rewrite lookup_app_l by (by rewrite length_map). rewrite list_lookup_fmap.
  destruct (lookup_lt_is_Some_2 h i Hi) as [x Ex]. by rewrite Ex, (nth_lookup_Some _ _ _ _ Ex).
Qed.

Lemma rows_add h t : (length h < 5)%nat -> aset (rows h) (Z.of_nat (length h)) (pad 80 t) = Some (rows (h ++ [t])).
Proof.
  intros Hh. unfold aset. rewrite (proj2 (Z.leb_le _ _)), (proj2 (Z.ltb_lt _ _)), Nat2Z.id
    by (unfold rows; rewrite ?length_app, ?length_map, ?repeat_length; lia). cbn [andb]. f_equal. unfold rows.
  rewrite insert_app_r_alt, length_map, Nat.sub_diag, map_app, <- app_assoc by (rewrite length_map; lia). f_equal.
  rewrite length_app. cbn [length]. by replace (5 - length h)%nat with (S (5 - (length h + 1)))%nat by lia.
Qed.

Lemma rows_shift h t : length h = 5%nat -> drop 1 (rows h) ++ [pad 80 t] = rows (drop 1 (h ++ [t])).
Proof.
  intros Hh. unfold rows. rewrite Hh. rewrite length_drop, length_app, Hh. cbn [length Nat.add Nat.sub repeat]. rewrite !app_nil_r.
  destruct h as [|x h]; [done|]. cbn [map app]. rewrite !skipn_cons, !drop_0. by rewrite map_app.
Qed.

Lemma pad_inj n t u : no_nul t -> no_nul u -> (length t < n)%nat -> (length u < n)%nat -> pad n t = pad n u -> t = u.
Proof.
  intros Ht Hu Lt Lu E. rewrite !pad_nul in E by done. apply (f_equal str_of) in E. rewrite !str_of_nul in E by done. congruence.
Qed.

Lemma pad_81 t : (length t <= 80)%nat -> pad 81 t = pad 80 t ++ [0].
Proof. intros H. unfold pad. by rewrite <- app_assoc, repeat_snoc, Nat.sub_succ_l by lia. Qed.

Lemma row_of t : (length t < 80)%nat -> history_row (Z.of_nat (length t)) (pad 81 t) = Some (pad 80 t).
Proof.
  intros H. unfold history_row, FINSH_CMD_SIZE. rewrite (proj2 (Z.leb_le _ _)), Nat2Z.id by lia. unfold pad at 1.
  rewrite take_app_length. unfold pad. do 3 f_equal. lia.
Qed.

Lemma last_nth (h : list (list Z)) : h <> [] -> last h = Some (nth (length h - 1) h []).
Proof. intros H. destruct h as [|x h] using rev_ind; [done|]. rewrite last_snoc, length_app, app_nth2 by (cbn; lia). cbn. do 2 f_equal. by replace (length h + 1 - 1 - length h)%nat with 0%nat by lia. Qed.

(** The commands of the table fit in a line and can be shown. *)
Definition commands_ok (table : list finsh_syscall) : Prop :=
  table_ok table /\ Forall (fun c => (length (cmd_name c) < 80)%nat) table.

Record wf (e : editor) : Prop := {
  wf_text : Forall plain (text e); wf_len : (length (text e) < 80)%nat;
  wf_hist : Forall (fun h => Forall plain h /\ (length h < 80)%nat) (hist e);
  wf_count : (length (hist e) <= 5)%nat; wf_browse : (browse e <= length (hist e))%nat }.

Section Refinement.
Context (table : list finsh_syscall) (cmd_func : list Z -> list (list Z) -> Z) (Ht : commands_ok table).

(** One action of the shell against one of the editor: states, calls, screen. *)
Definition sim (m : M finsh_shell unit) (e e' : editor) (ls : list (list Z)) : Prop := forall os,
  exists new, m (shell_of e os) = Some (tt, shell_of e' (os ++ new)) /\ calls new = flat_map (run_line table) ls /\
    forall t, shows e t -> shows e' (fold_left show new t).

Lemma sim_nothing e : sim (retM tt) e e [].
Proof. intros os. exists []. rewrite app_nil_r. split_and!; [done|done|by intros]. Qed.

Lemma shows_same e e' t : before e' = before e -> text e' = text e -> shows e t -> shows e' t.
Proof. intros Eb Et [k ->]. exists k. by rewrite Eb, Et. Qed.

Lemma stat_sim st e : sim (doM (with_stat st)) e (Ed st (before e) (after e) (hist e) (browse e)) [].
Proof. intros os. exists []. rewrite app_nil_r. split_and!; [done|done|]. intros t. by apply shows_same. Qed.

Lemma sim_bind m n e e1 e2 l1 l2 : sim m e e1 l1 -> sim n e1 e2 l2 -> sim (do! m in n) e e2 (l1 ++ l2).
Proof.
  intros Hm Hn os. destruct (Hm os) as (n1 & E1 & C1 & S1). destruct (Hn (os ++ n1)) as (n2 & E2 & C2 & S2).
  exists (n1 ++ n2). rewrite (bindM_some _ _ _ _ _ E1), E2, <- app_assoc. split_and!; [done|by rewrite calls_app, C1, C2, flat_map_app|].
  intros t H. rewrite fold_left_app. auto.
Qed.

(** The state after an action, part by part. *)
Lemma shell_eq e os b p c : b = pad 81 (text e) -> p = Z.of_nat (length (text e)) -> c = Z.of_nat (length (before e)) ->
  Some (tt, Shell (e_stat e) 1 1 (Z.of_nat (browse e)) (Z.of_nat (length (hist e))) (rows (hist e)) (Console b os) p c None)
  = Some (tt, shell_of e os).
Proof. by intros -> -> ->. Qed.

Ltac parts e' := apply (shell_eq e'); cbn [con buf log shell_of with_con with_pos line_position line_curpos];
  unfold text in *; cbn [before after moved hist browse e_stat].

Lemma left_sim e : wf e -> sim left_key e (ed_left e) [].
Proof.
  intros [W1 W2 W3 W4 W5] os. unfold ed_left, left_key, getS. rewrite !bindM_getM. cbn [fst snd shell_of line_position line_curpos].
  destruct (before e) as [|x b] eqn:Eb using rev_ind; [by apply sim_nothing|clear IHb].
  rewrite last_snoc, removelast_last. unfold text in *. rewrite Eb, !length_app in *. cbn [length] in *.
  rewrite (proj2 (Z.eqb_neq _ _)) by lia. rewrite (bindM_some _ _ _ _ _ (kprintf_eq _ _)), pos_eq by lia.
  exists [Text [8]]. split_and!; [|done|].
  - parts (moved b (x :: after e) e); rewrite ?Eb, <- ?app_assoc; [done| |lia].
    rewrite !length_app. cbn. lia.
  - intros t [k ->]. exists k. unfold text, moved. cbn [before after]. rewrite Eb, <- !app_assoc.
    change (fold_left show [Text [8]] (Term ?r ?c 0)) with (Term r (c - 1) 0). f_equal. rewrite !length_app. cbn. lia.
Qed.

Lemma right_sim e : wf e -> sim right_key e (ed_right e) [].
Proof.
  intros [W1 W2 W3 W4 W5] os. unfold ed_right, right_key, getS. rewrite !bindM_getM. cbn [fst snd shell_of line_position line_curpos].
  unfold text in W1, W2. rewrite length_app in W2. destruct (after e) as [|c r] eqn:Ea.
  { unfold text. rewrite Ea, app_nil_r, Z.ltb_irrefl. by apply sim_nothing. }
  cbn [length] in W2. unfold text. rewrite Ea, length_app, (proj2 (Z.ltb_lt _ _)) by (cbn; lia).
  assert (pad 81 (text e) = before e ++ c :: r ++ repeat 0 (81 - length (text e))) as Ep by (unfold pad, text; by rewrite Ea, <- app_assoc).
  rewrite (con_bind _ _ (shell_of e os) c (Console (pad 81 (text e)) os)) by (cbn [shell_of con]; rewrite Ep; by apply rd_app).
  rewrite (bindM_some _ _ _ _ _ (kprintf_eq _ _)), pos_eq by (cbn [length]; lia).
  exists [Text [c]]. split_and!; [|done|].
  - parts (moved (before e ++ [c]) r e); rewrite ?Ea, <- ?app_assoc; [done|by rewrite !length_app|rewrite length_app; cbn; lia].
  - intros t [k ->]. exists k. unfold text, moved. cbn [before after]. rewrite Ea, <- !app_assoc. cbn [app].
    cbn [fold_left]. rewrite (show_text (prompt ++ before e) (c :: r ++ repeat 32 k)).
    + by rewrite <- !app_assoc.
    + constructor; [|done]. apply Forall_app in W1 as [_ W1]. by apply Forall_cons in W1 as [? _].
    + by rewrite <- !app_assoc.
Qed.

(** The first action of a backspace: both positions move. *)
Lemma backspace_sim e : wf e -> sim backspace_key e (moved (removelast (before e)) (after e) e) [].
Proof.
  intros [W1 W2 W3 W4 W5] os. unfold backspace_key, getS. rewrite bindM_getM. cbn [fst snd shell_of line_curpos].
  destruct (before e) as [|x b] eqn:Eb using rev_ind; [|clear IHb].
  { cbn [length Z.of_nat Z.eqb removelast]. replace (moved [] (after e) e) with e by (destruct e; cbn in *; by subst). by apply sim_nothing. }
  rewrite removelast_last. assert (text e = b ++ x :: after e) as Et by (unfold text; by rewrite Eb, <- app_assoc).
  assert (length (text e) = S (length (b ++ after e))) as El by (rewrite Et, !length_app; cbn; lia).
  assert (length (b ++ [x]) = S (length b)) as El2 by (rewrite length_app; cbn; lia). rewrite length_app in El.
  rewrite (proj2 (Z.eqb_neq _ _)) by lia. rewrite bindM_getM. cbn [fst snd shell_of line_position].
  rewrite pos_bind, !bindM_getM by lia. cbn [fst snd with_pos line_position line_curpos].
  destruct (after e) as [|y a] eqn:Ea.
  - rewrite (proj2 (Z.ltb_ge _ _)) by (cbn [length] in El; lia). rewrite (bindM_some _ _ _ _ _ (kprintf_eq _ _)).
    exists [Text [8; 32; 8]]. split_and!; [|done|].
    + unfold on_con. cbn [con with_con with_pos shell_of buf log]. cbn [length] in El.
      pose proof (wr_app (Z.of_nat (length (text e)) - 1) b x 0 (repeat 0 (81 - length (text e))) (os ++ [Text [8; 32; 8]]) ltac:(lia)) as E.
      assert (pad 81 (text e) = b ++ x :: repeat 0 (81 - length (text e))) as Ep by (unfold pad; by rewrite Et at 1; rewrite <- app_assoc).
      rewrite Ep, E. cbn [with_con with_pos stat echo_mode prompt_mode current_history history_count cmd_history line_position line_curpos finsh_prompt_custom].
      parts (moved b [] e); rewrite ?app_nil_r; [|lia|lia]. unfold pad. f_equal.
      by replace (81 - length b)%nat with (S (81 - length (before e ++ after e))) by (unfold text in El; lia).
    + intros t [k ->]. exists (S k). unfold text, moved. cbn [before after fold_left]. rewrite Eb, Ea, !app_nil_r, <- !app_assoc. cbn [app].
      change [8; 32; 8] with ([8] ++ [32] ++ [8]). rewrite !show_app, show_bs.
      rewrite (show_text (prompt ++ b) (x :: repeat 32 k) [32]); [|by repeat constructor|].
      * rewrite show_bs, <- !app_assoc. cbn. f_equal. rewrite !length_app. cbn. lia.
      * rewrite <- !app_assoc. f_equal. rewrite !length_app. cbn. lia.
  - rewrite (proj2 (Z.ltb_lt _ _)) by (cbn [length] in El; lia). revert Et El. rewrite <- Ea. intros Et El.
    destruct (delete_line b x (after e) os ltac:(rewrite <- Et; lia)) as (l & E1 & E2). rewrite <- Et in E1.
    replace (Z.of_nat (length (b ++ [x])) - 1) with (Z.of_nat (length b)) by lia.
    replace (Z.of_nat (length (text e)) - 1) with (Z.of_nat (length (b ++ after e))) by (rewrite length_app; lia).
    replace (Z.of_nat (length (b ++ after e)) - Z.of_nat (length b)) with (Z.of_nat (length (after e))) by (rewrite length_app; lia).
    erewrite con_bind; [|exact E1]. erewrite con_bind; [|exact E2].
    assert (no_nul (after e)) as Hn by (apply plain_no_nul; apply Forall_app in W1; tauto).
    erewrite con_bind; [|apply str_pad; [done|done|rewrite length_app; lia]]. rewrite (bindM_some _ _ _ _ _ (kprintf_eq _ _)).
    unfold kprintf_n, on_con. cbn [con with_con with_pos shell_of buf log]. rewrite <- app_assoc.
    replace (Z.to_nat (Z.of_nat (length (after e)) + 1)) with (S (length (after e))) by lia.
    eexists (Text _ :: repeat (Text [8]) (S (length (after e)))). split_and!.
    + by parts (moved b (after e) e).
    + cbn. clear. induction (length (after e)); cbn; auto.
    + intros t [k ->]. exists (S (S (k - 1))). unfold text, moved. cbn [before after]. rewrite Eb, <- !app_assoc. cbn [app].
      change (fold_left show (?h :: ?q) ?t) with (fold_left show q (show t h)).
      pose proof (show_rub (prompt ++ b) x (after e) k ltac:(by apply Forall_app in W1 as [_ ?])) as E.
      rewrite <- !app_assoc in E. replace (length (prompt ++ b ++ [x])) with (S (length (prompt ++ b))) by (rewrite !length_app; cbn; lia).
      cbn [app] in E. rewrite E, show_back. f_equal. rewrite !length_app. lia.
Qed.

(** The line with a new character, written and echoed. *)
Lemma put_sim e ch os : wf e -> plain ch -> (length (text e) < 79)%nat ->
  exists new, (let c := Z.of_nat (length (before e)) in let p := Z.of_nat (length (text e)) in
     if c <? p then
       do! on_con (rt_memmove (c + 1) c (p - c)) in
       do! on_con (wr c ch) in
       let! t := on_con (str_at c) in
       do! kprintf t in
       kprintf_n (Z.to_nat (p - c)) [8]
     else
       do! on_con (wr p ch) in kprintf [ch]) (shell_of e os) =
    Some (tt, with_con (Console (pad 81 (before e ++ ch :: after e)) (os ++ new)) (shell_of e os)) /\ calls new = [] /\
    forall t, shows e t -> shows (moved (before e ++ [ch]) (after e) e) (fold_left show new t).
Proof.
  intros [W1 W2 W3 W4 W5] Hc Hl. cbn zeta. unfold text in W1, Hl |- *. apply Forall_app in W1 as [Wb Wa].
  assert (Forall plain (ch :: after e)) as Wc by (by constructor).
  destruct (after e) as [|y a] eqn:Ea; rewrite ?app_nil_r in *.
  - rewrite Z.ltb_irrefl. exists [Text [ch]]. split_and!; [|done|].
    + erewrite con_bind; [|cbn [con shell_of]; unfold text; rewrite Ea, app_nil_r; apply append_line; lia]. done.
    + intros t [k ->]. exists (k - 1)%nat. unfold text, moved. cbn [before after fold_left]. rewrite Ea, !app_nil_r.
      rewrite (show_text (prompt ++ before e) (repeat 32 k) [ch]) by (done || by rewrite <- !app_assoc).
      cbn [length]. by rewrite drop_repeat, <- !app_assoc.
  - rewrite <- Ea in *. rewrite (proj2 (Z.ltb_lt _ _)) by (rewrite length_app, Ea; cbn [length]; lia).
    replace (Z.of_nat (length (before e ++ after e)) - Z.of_nat (length (before e))) with (Z.of_nat (length (after e))) by (rewrite length_app; lia).
    destruct (insert_line (before e) ch (after e) os ltac:(lia)) as (l & E1 & E2).
    erewrite con_bind; [|exact E1]. erewrite con_bind; [|exact E2].
    erewrite con_bind; [|apply str_pad; [done|by apply plain_no_nul|rewrite length_app in *; cbn [length]; lia]].
    rewrite (bindM_some _ _ _ _ _ (kprintf_eq _ _)).
    unfold kprintf_n, on_con. cbn [con with_con shell_of buf log]. rewrite <- app_assoc, Nat2Z.id.
    exists (Text (ch :: after e) :: repeat (Text [8]) (length (after e))). split_and!; [done| |].
    + cbn. clear. induction (length (after e)); cbn; auto.
    + intros t [k ->]. exists (k - 1)%nat. unfold text, moved. cbn [before after].
      change (fold_left show (?h :: ?q) ?t) with (fold_left show q (show t h)).
      rewrite (show_text (prompt ++ before e) (after e ++ repeat 32 k) (ch :: after e)) by (done || by rewrite <- !app_assoc).
      rewrite show_back. f_equal; [|rewrite !length_app; cbn; lia]. rewrite <- !app_assoc. cbn [app length]. do 4 f_equal.
      rewrite drop_app_ge, drop_repeat by lia. f_equal. lia.
Qed.

Lemma normal_sim e ch : wf e -> plain ch -> (length (text e) < 79)%nat ->
  sim (normal_key ch) e (moved (before e ++ [ch]) (after e) e) [].
Proof.
  intros He Hc Hl os. destruct (put_sim e ch os He Hc Hl) as (new & E & Cn & S). exists new. split_and!; [|done|done].
  assert (length (before e) <= length (text e))%nat as Lb by (unfold text; rewrite length_app; lia).
  unfold normal_key, getS. rewrite !bindM_getM. cbn [fst snd shell_of line_position line_curpos echo_mode].
  unfold FINSH_CMD_SIZE. rewrite (proj2 (Z.leb_gt 80 _)) by lia.
  change (1 =? 0) with false. cbn iota. rewrite (bindM_some _ _ _ _ _ E), pos_bind, bindM_getM by lia.
  cbn [fst snd with_pos line_position]. rewrite (proj2 (Z.leb_gt 80 _)) by lia. unfold retM.
  parts (moved (before e ++ [ch]) (after e) e); rewrite ?length_app in *; cbn [length]; [by rewrite <- app_assoc|lia|lia].
Qed.

Lemma hist_nth e i : wf e -> (i < length (hist e))%nat -> Forall plain (nth i (hist e) []) /\ (length (nth i (hist e) []) < 80)%nat.
Proof.
  intros He Hi. pose proof (wf_hist _ He) as H. rewrite Forall_forall in H. apply H. apply list_elem_of_In. by apply nth_In.
Qed.

(** A row of the history that becomes the line. *)
Lemma recall_sim e i os : wf e -> (i < length (hist e))%nat ->
  exists new, recall (Z.of_nat i) (with_history (Z.of_nat i) (history_count (shell_of e os)) (cmd_history (shell_of e os)) (shell_of e os)) =
      Some (tt, shell_of (recalled i e) (os ++ new)) /\ calls new = [] /\
    forall t, shows e t -> shows (recalled i e) (fold_left show new t).
Proof.
  intros He Hi. destruct (hist_nth e i He Hi) as [Hp Hl]. pose proof (wf_len _ He) as W2. unfold recall.
  cbn [with_history cmd_history shell_of]. rewrite rows_at by done. set (h := nth i (hist e) []) in *.
  assert (pad 80 h ++ drop (Z.to_nat FINSH_CMD_SIZE) (pad 81 (text e)) = pad 81 ([] ++ h)) as Eb.
  { cbn [app]. rewrite (pad_81 (text e)), (pad_81 h) by lia. change (Z.to_nat FINSH_CMD_SIZE) with 80%nat.
    by rewrite (drop_app_length' (pad 80 (text e))) by (rewrite pad_length; lia). }
  erewrite con_bind by reflexivity. cbn [con buf log with_con with_history shell_of]. rewrite Eb.
  pose proof (str_pad [] h os 0 eq_refl (plain_no_nul _ Hp) ltac:(cbn; lia)) as Es.
  erewrite con_bind; [|exact Es]. rewrite pos_bind by lia.
  unfold shell_handle_history. rewrite (bindM_some _ _ _ _ _ (kprintf_eq _ _)). cbn [con buf log with_con with_pos].
  erewrite con_bind; [|exact (str_pad [] h _ 0 eq_refl (plain_no_nul _ Hp) ltac:(cbn; lia))]. rewrite kprintf_eq. cbn [con buf log with_con with_pos].
  rewrite <- app_assoc. exists [Text (clit "\e[2K\r"); Text (prompt ++ h)]. split_and!; [|done|].
  - apply (shell_eq (recalled i e)); unfold recalled, text; cbn [before after]; rewrite ?app_nil_r; done.
  - intros t [k ->]. exists 0%nat. unfold recalled, text. cbn [before after fold_left]. fold h. rewrite !app_nil_r.
    change (show (Term ?r ?c 0) (Text (clit "\e[2K\r"))) with (Term [] 0 0).
    rewrite (show_text [] [] (prompt ++ h)) by (done || by apply Forall_app; split; [repeat constructor|]). by rewrite drop_nil, app_nil_r.
Qed.

Lemma up_sim e : wf e -> sim up_key e (ed_up e) [].
Proof.
  intros He os. unfold up_key, ed_up. cbn [shell_of current_history]. pose proof (wf_browse _ He). destruct (browse e) as [|i] eqn:Eb.
  - by apply sim_nothing.
  - rewrite (proj2 (Z.ltb_lt _ _)) by lia. replace (Z.of_nat (S i) - 1) with (Z.of_nat i) by lia.
    exact (recall_sim e i os He ltac:(lia)).
Qed.

Lemma down_sim e : wf e -> sim down_key e (ed_down e) [].
Proof.
  intros He os. unfold down_key, ed_down. cbn [shell_of current_history history_count].
  destruct (Nat.ltb_spec (browse e + 1) (length (hist e))) as [H|H].
  - rewrite (proj2 (Z.ltb_lt _ _)) by lia. replace (Z.of_nat (browse e) + 1) with (Z.of_nat (browse e + 1)) by lia.
    exact (recall_sim e (browse e + 1) os He H).
  - rewrite (proj2 (Z.ltb_ge _ _)) by lia. destruct (hist e) as [|h q] eqn:Eh; [by apply sim_nothing|]. rewrite <- Eh in *.
    assert (0 < length (hist e))%nat by (rewrite Eh; cbn; lia). rewrite (proj2 (Z.eqb_neq _ 0)) by lia.
    replace (Z.of_nat (length (hist e)) - 1) with (Z.of_nat (length (hist e) - 1)) by lia.
    exact (recall_sim e (length (hist e) - 1) os He ltac:(lia)).
Qed.

(** A completion extends the line to the beginning of a command. *)
Lemma complete_spec p : Forall plain p -> (length p < 80)%nat ->
  is_prefix p (complete table p) = true /\ Forall plain (complete table p) /\ (length (complete table p) < 80)%nat.
Proof.
  destruct Ht as [Hp Hs]. intros Wp Wl. unfold complete. destruct (decide (p = [])) as [->|Hne]; [by rewrite bool_decide_eq_true_2|].
  rewrite bool_decide_eq_false_2 by done.
  assert (forall n, In n (matching table p) -> is_prefix p n = true /\ Forall plain n /\ (length n < 80)%nat) as Hm.
  { intros n (c & <- & Hc)%in_map_iff. apply filter_In in Hc as [Hc [Hi Hx]%andb_true_iff]. split_and!; [done| |].
    - by apply (name_plain table c Hp Hc Hi).
    - rewrite Forall_forall in Hs. apply Hs. by apply list_elem_of_In. }
  destruct (matching table p) as [|n r]; [split_and!; try done; apply is_prefix_spec; exists []; by rewrite app_nil_r|].
  assert (is_prefix p n = true /\ Forall plain n /\ (length n < 80)%nat) as Hn by (apply Hm; by left).
  assert (forall x, In x r -> is_prefix p x = true) as Hr by (intros x Hx; apply Hm; by right). clear Hm. revert n Hn.
  induction r as [|x r IH]; intros n Hn; cbn [fold_left]; [done|]. apply IH; [intros y Hy; apply Hr; by right|].
  destruct Hn as (H1 & H2 & H3). split_and!; [apply common_prefix; [done|apply Hr; by left]|..].
  - destruct (common_take n x) as [-> _]. by apply Forall_take.
  - destruct (common_take n x) as [-> _]. rewrite length_take. lia.
Qed.

Lemma tab_sim e : wf e -> sim (tab_key table) e (moved (complete table (text e)) [] e) [].
Proof.
  intros He os. pose proof (wf_text _ He) as W1. pose proof (wf_len _ He) as W2. destruct (complete_spec _ W1 W2) as (Cx & Cp & Cl).
  unfold tab_key, getS. rewrite bindM_getM. cbn [fst snd shell_of line_curpos]. rewrite Nat2Z.id.
  erewrite bindM_some by reflexivity. cbn [con buf log with_con shell_of].
  unfold shell_auto_complete. rewrite bindM_assoc, (bindM_some _ _ _ _ _ (kprintf_eq _ _)), bindM_assoc. cbn [con buf log with_con].
  rewrite (pad_nul 81) by lia.
  destruct (auto_complete_spec table (proj1 Ht) (text e) (repeat 0 (81 - length (text e) - 1))
    ((os ++ repeat (Text [8]) (length (before e))) ++ [Text (clit "\n")]) (plain_no_nul _ W1)) as (new & E & Hc & Htd).
  { rewrite length_app. cbn. rewrite repeat_length. lia. }
  erewrite con_bind; [|exact E]. rewrite <- pad_nul by lia.
  assert (complete table (text e) ++ drop (length (complete table (text e))) (pad 81 (text e)) = pad 81 ([] ++ complete table (text e))) as ->.
  { cbn [app]. unfold pad at 2. f_equal. apply is_prefix_spec in Cx as [q Eq]. rewrite Eq at 1. unfold pad. rewrite length_app, drop_app_ge, drop_repeat by lia.
    f_equal. rewrite Eq, length_app. lia. }
  pose proof (plain_no_nul _ Cp) as Cn.
  rewrite bindM_assoc. erewrite con_bind; [|apply str_pad; [done|done|cbn; lia]].
  erewrite bindM_some; [|apply kprintf_eq]. cbn [con buf log with_con].
  erewrite con_bind; [|apply str_pad; [done|done|cbn; lia]]. rewrite pos_eq by lia.
  rewrite <- !app_assoc. eexists. split_and!.
  - apply (shell_eq (moved (complete table (text e)) [] e)); unfold text; cbn [before after moved]; by rewrite ?app_nil_r.
  - rewrite !calls_app, Hc. cbn. clear. induction (length (before e)); cbn; auto.
  - intros t [k ->]. exists 0%nat. set (c := complete table (text e)) in *.
    replace (text (moved c [] e)) with c by (unfold text; cbn; by rewrite app_nil_r). cbn [before moved].
    rewrite !app_nil_r, !fold_left_app, show_back. cbn [fold_left].
    change (show (Term ?r ?c 0) (Text (clit "\n"))) with (Term [] 0 0). rewrite (show_tidy new) by done.
    replace (if bool_decide (new = []) then Term [] 0 0 else Term [] 0 0) with (Term [] 0 0) by (by destruct (bool_decide _)).
    change (finsh_get_prompt _) with prompt.
    rewrite (show_text [] [] (prompt ++ c)) by (done || by apply Forall_app; split; [repeat constructor|]). by rewrite drop_nil, app_nil_r.
Qed.

Lemma push_spec e os : wf e -> let h := push (text e) (hist e) in
  shell_push_history (shell_of e os) = Some (tt, with_history (Z.of_nat (length h)) (Z.of_nat (length h)) (rows h) (shell_of e os)).
Proof.
  intros He. pose proof (wf_text _ He) as W1. pose proof (wf_len _ He) as W2. pose proof (wf_count _ He) as W4.
  unfold shell_push_history, push. cbn [shell_of con buf line_position history_count cmd_history]. cbn zeta.
  destruct (decide (text e = [])) as [E0|Hne].
  { rewrite (bool_decide_eq_true_2 (text e = [])), E0 by done. done. }
  rewrite (bool_decide_eq_false_2 (text e = [])) by done. cbn [orb].
  rewrite (proj2 (Z.eqb_neq _ 0)) by (destruct (text e); [done|cbn [length]; lia]).
  assert (take (Z.to_nat FINSH_CMD_SIZE) (pad 81 (text e)) = pad 80 (text e)) as ->.
  { rewrite pad_81 by lia. apply take_app_length'. rewrite pad_length; [done|lia]. }
  rewrite row_of by done. unfold FINSH_HISTORY_LINES.
  assert (hist e <> [] -> (match aget (rows (hist e)) (Z.of_nat (length (hist e)) - 1) with
    | Some r => Some (bool_decide (r = pad 80 (text e))) | None => None end) = Some (bool_decide (last (hist e) = Some (text e)))) as Hs.
  { intros Hh. assert (0 < length (hist e))%nat as Hlen by (destruct (hist e); [done|cbn; lia]).
    replace (Z.of_nat (length (hist e)) - 1) with (Z.of_nat (length (hist e) - 1)) by lia. rewrite rows_at, last_nth by (done || lia).
    destruct (hist_nth e (length (hist e) - 1) He ltac:(lia)) as [Hp Hl]. f_equal. apply bool_decide_ext. split; [|congruence].
    intros E. f_equal. by apply (pad_inj 80); try apply plain_no_nul. }
  destruct (Z.leb_spec 5 (Z.of_nat (length (hist e)))) as [H5|H5].
  - assert (length (hist e) = 5%nat) as L5 by lia. rewrite L5 in *. change (Z.of_nat 5) with 5 in Hs. rewrite Hs by (intros E; by rewrite E in L5).
    case_bool_decide; [by rewrite L5|]. cbn [Nat.sub]. rewrite <- rows_shift by done. rewrite length_drop, length_app, L5. done.
  - destruct (decide (hist e = [])) as [Eh|Hh].
    + rewrite Eh. cbn [length Z.of_nat Z.eqb]. rewrite bool_decide_eq_false_2 by done.
      pose proof (rows_add [] (text e) ltac:(cbn; lia)) as Ea. cbn [length Z.of_nat] in Ea. by rewrite Ea.
    + rewrite (proj2 (Z.eqb_neq _ 0)) by (destruct (hist e); [done|cbn [length]; lia]). rewrite Hs by done.
      case_bool_decide; [done|]. rewrite rows_add by lia. replace (length (hist e) - 4)%nat with 0%nat by lia. rewrite drop_0, length_app.
      cbn [length]. rewrite u16_small by (unfold is_u16; lia). by replace (Z.of_nat (length (hist e)) + 1) with (Z.of_nat (length (hist e) + 1)) by lia.
Qed.

Lemma enter_sim e : wf e ->
  sim (enter_key table cmd_func) e (Ed (e_stat e) [] [] (push (text e) (hist e)) (length (push (text e) (hist e)))) [text e].
Proof.
  intros He os. pose proof (wf_text _ He) as W1. pose proof (wf_len _ He) as W2. unfold enter_key, getS.
  rewrite (bindM_some _ _ _ _ _ (push_spec e os He)), bindM_getM. cbn [fst snd with_history shell_of echo_mode].
  change (1 =? 0) with false. cbn iota. rewrite (bindM_some _ _ _ _ _ (kprintf_eq _ _)), bindM_getM.
  cbn [fst snd with_history with_con shell_of con buf log line_position].
  destruct (msh_exec_spec table cmd_func (table_names table (proj1 Ht)) (text e) (repeat 0 (81 - length (text e) - 1)) (os ++ [Text (clit "\n")])
    (plain_no_nul _ W1) ltac:(lia)) as (v & b & new & E & Hc & Htd). rewrite <- pad_nul in E by lia.
  erewrite con_bind; [|exact E]. erewrite (bindM_some say_prompt); [|reflexivity].
  unfold clear_line. rewrite bindM_doM, pos_eq by lia. cbn [with_con with_history with_pos con buf log shell_of].
  rewrite <- !app_assoc. exists ([Text (clit "\n")] ++ new ++ [Text prompt]). split_and!.
  - done.
  - rewrite !calls_app, Hc. cbn. by rewrite app_nil_r.
  - intros t [k ->]. exists 0%nat. unfold text at 1. cbn [before after]. rewrite !fold_left_app, !app_nil_r. cbn [fold_left].
    change (show (Term ?r ?c 0) (Text (clit "\n"))) with (Term [] 0 0). rewrite show_tidy by auto.
    by destruct (bool_decide (new = [])).
Qed.

(* ------------------------------------------------------------------ *)
(** ** Every key *)

Lemma not_special ch : (ch =? 0) || (ch =? 0xFF) = false -> (ch =? 9) = false -> (ch =? 0x7f) || (ch =? 0x08) = false ->
  (ch =? 13) || (ch =? 10) = false -> special ch = false.
Proof. unfold special. rewrite !orb_false_iff. tauto. Qed.

Lemma plain_sim e ch : wf e -> (special ch = true \/ (plain ch /\ (length (text e) < 79)%nat)) ->
  sim (plain_key table cmd_func ch) e (fst (ed_plain table ch e)) (snd (ed_plain table ch e)).
Proof.
  intros He Hc. unfold plain_key, ed_plain.
  destruct ((ch =? 0) || (ch =? 0xFF)) eqn:E1; [by apply sim_nothing|].
  destruct (ch =? 9) eqn:E2; [by apply tab_sim|].
  destruct ((ch =? 0x7f) || (ch =? 0x08)) eqn:E3; [by apply backspace_sim|].
  destruct ((ch =? 13) || (ch =? 10)) eqn:E4; [by apply enter_sim|].
  destruct Hc as [Hs|[Hp Hl]]; [|by apply normal_sim]. by rewrite not_special in Hs.
Qed.

Lemma wf_moved b a e : wf e -> Forall plain (b ++ a) -> (length (b ++ a) < 80)%nat -> wf (moved b a e).
Proof. intros [_ _ W3 W4 W5] Hp Hl. by split. Qed.

Lemma wf_stat st e : wf e -> wf (Ed st (before e) (after e) (hist e) (browse e)).
Proof. intros [W1 W2 W3 W4 W5]. by split. Qed.

Lemma wf_recalled i e : wf e -> (i < length (hist e))%nat -> wf (recalled i e).
Proof.
  intros He Hi. destruct (hist_nth e i He Hi) as [Hp Hl]. destruct He as [W1 W2 W3 W4 W5].
  split; unfold text, recalled; cbn [before after hist browse]; rewrite ?app_nil_r; try done. lia.
Qed.

Lemma wf_push t e : wf e -> Forall plain t -> (length t < 80)%nat ->
  Forall (fun h => Forall plain h /\ (length h < 80)%nat) (push t (hist e)) /\ (length (push t (hist e)) <= 5)%nat.
Proof.
  intros [_ _ W3 W4 _] Hp Hl. unfold push. destruct (_ || _); [done|]. split.
  - apply Forall_drop, Forall_app. split; [done|]. by constructor.
  - rewrite length_drop, length_app. cbn. lia.
Qed.

Lemma wf_plain e ch : wf e -> (special ch = true \/ (plain ch /\ (length (text e) < 79)%nat)) -> wf (fst (ed_plain table ch e)).
Proof.
  intros He Hc. pose proof (wf_text _ He) as W1. pose proof (wf_len _ He) as W2. unfold ed_plain.
  destruct ((ch =? 0) || (ch =? 0xFF)) eqn:E1; [done|]. destruct (ch =? 9) eqn:E2; cbn [fst].
  { destruct (complete_spec (text e) W1 W2) as (_ & Hp & Hl). apply wf_moved; by rewrite ?app_nil_r. }
  unfold text in W1, W2. destruct ((ch =? 0x7f) || (ch =? 0x08)) eqn:E3; cbn [fst].
  { destruct (before e) as [|x b] eqn:Eb using rev_ind; [by apply wf_moved|clear IHb]. rewrite removelast_last.
    rewrite <- app_assoc, !Forall_app in W1. rewrite !length_app in W2. apply wf_moved; [done|apply Forall_app; tauto|rewrite length_app; lia]. }
  destruct ((ch =? 13) || (ch =? 10)) eqn:E4; cbn [fst].
  { destruct (wf_push (text e) e He W1 W2). split; cbn [text before after app hist browse length]; [constructor|lia|done|done|lia]. }
  destruct Hc as [Hs|[Hp Hl]]; [by rewrite not_special in Hs|].
  unfold text in Hl. rewrite length_app in Hl. apply wf_moved; [done| |rewrite !length_app; cbn; lia].
  rewrite Forall_app in W1. rewrite <- app_assoc, !Forall_app. split_and!; try tauto. by constructor.
Qed.

Lemma wf_cursor e : wf e -> wf (ed_up e) /\ wf (ed_down e) /\ wf (ed_left e) /\ wf (ed_right e).
Proof.
  intros He. pose proof He as [W1 W2 W3 W4 W5]. unfold text in W1, W2. split_and!.
  - unfold ed_up. destruct (browse e) as [|i] eqn:Eb; [done|]. apply wf_recalled; [done|lia].
  - unfold ed_down. destruct (Nat.ltb_spec (browse e + 1) (length (hist e))); [by apply wf_recalled|].
    destruct (hist e) as [|h q] eqn:Eh; [done|]. rewrite <- Eh in *. apply wf_recalled; [done|rewrite Eh; cbn; lia].
  - unfold ed_left. destruct (before e) as [|x b] eqn:Eb using rev_ind; [done|clear IHb]. rewrite last_snoc, removelast_last.
    rewrite <- app_assoc in W1, W2. by apply wf_moved.
  - unfold ed_right. destruct (after e) as [|x a] eqn:Ea; [done|]. apply wf_moved; by rewrite <- ?app_assoc.
Qed.

Lemma key_covered ch e : key_ok ch e = true -> inserted ch e = true \/ special ch = true ->
  special ch = true \/ (plain ch /\ (length (text e) < 79)%nat).
Proof.
  unfold key_ok. intros Hk [Hi|Hs]; [|by left]. right. rewrite Hi in Hk. cbn [negb orb] in Hk. apply andb_true_iff in Hk as [Hk Hl%Nat.ltb_lt].
  unfold plain. breflect. split; lia.
Qed.

(** Where a key ends that is no part of an escape sequence. *)
Lemma key_goes ch e : key_ok ch e = true -> (ch =? 0x1b) = false ->
  match e_stat e with WAIT_NORMAL => true | WAIT_SPEC_KEY => negb (ch =? 0x5b) | WAIT_FUNC_KEY => negb ((0x41 <=? ch) && (ch <=? 0x44)) end = true ->
  special ch = true \/ (plain ch /\ (length (text e) < 79)%nat).
Proof.
  intros Hk He Hm. apply (key_covered ch e Hk). unfold inserted. rewrite He, Hm. destruct (special ch); auto.
Qed.

Lemma key_sim ch e : wf e -> key_ok ch e = true ->
  sim (finsh_key table cmd_func ch) e (fst (ed_key table ch e)) (snd (ed_key table ch e)) /\ wf (fst (ed_key table ch e)).
Proof.
  intros He Hk. unfold ed_key. pose proof (key_goes ch e Hk) as Hg.
  assert (forall st m e' ls, sim m (Ed st (before e) (after e) (hist e) (browse e)) e' ls -> sim (do! doM (with_stat st) in m) e e' ls) as Hb.
  { intros st m e' ls H. exact (sim_bind _ _ e _ e' [] ls (stat_sim st e) H). }
  assert (forall m e' ls, (forall os, finsh_key table cmd_func ch (shell_of e os) = m (shell_of e os)) -> sim m e e' ls ->
    sim (finsh_key table cmd_func ch) e e' ls) as Hx by (intros m e' ls E H os; rewrite E; apply H).
  assert (forall os, finsh_key table cmd_func ch (shell_of e os) = (if ch =? 0x1b then doM (with_stat WAIT_SPEC_KEY) else
    match e_stat e with WAIT_SPEC_KEY => if ch =? 0x5b then doM (with_stat WAIT_FUNC_KEY)
      else do! doM (with_stat WAIT_NORMAL) in plain_key table cmd_func ch
    | WAIT_FUNC_KEY => do! doM (with_stat WAIT_NORMAL) in
      if ch =? 0x41 then up_key else if ch =? 0x42 then down_key else if ch =? 0x44 then left_key
      else if ch =? 0x43 then right_key else plain_key table cmd_func ch
    | WAIT_NORMAL => plain_key table cmd_func ch end) (shell_of e os)) as E by done.
  pose proof (wf_stat WAIT_NORMAL e He) as Hn. fold (normal e) in Hn, Hb.
  destruct (ch =? 0x1b) eqn:Ec; cbn [fst snd]; [split; [exact (Hx _ _ _ E (stat_sim _ e))|by apply wf_stat]|].
  destruct (e_stat e).
  - specialize (Hg eq_refl eq_refl). split; [exact (Hx _ _ _ E (plain_sim e ch He Hg))|by apply wf_plain].
  - destruct (ch =? 0x5b) eqn:Eb; cbn [fst snd]; [split; [exact (Hx _ _ _ E (stat_sim _ e))|by apply wf_stat]|].
    specialize (Hg eq_refl eq_refl). split; [exact (Hx _ _ _ E (Hb _ _ _ _ (plain_sim (normal e) ch Hn Hg)))|by apply wf_plain].
  - specialize (Hg eq_refl). destruct (wf_cursor (normal e) Hn) as (C1 & C2 & C3 & C4).
    pose proof (up_sim (normal e) Hn) as S1. pose proof (down_sim (normal e) Hn) as S2.
    pose proof (left_sim (normal e) Hn) as S3. pose proof (right_sim (normal e) Hn) as S4.
    destruct (ch =? 0x41) eqn:K1; cbn [fst snd]; [split; [exact (Hx _ _ _ E (Hb _ _ _ _ S1))|done]|].
    destruct (ch =? 0x42) eqn:K2; cbn [fst snd]; [split; [exact (Hx _ _ _ E (Hb _ _ _ _ S2))|done]|].
    destruct (ch =? 0x44) eqn:K3; cbn [fst snd]; [split; [exact (Hx _ _ _ E (Hb _ _ _ _ S3))|done]|].
    destruct (ch =? 0x43) eqn:K4; cbn [fst snd]; [split; [exact (Hx _ _ _ E (Hb _ _ _ _ S4))|done]|].
    assert (special ch = true \/ (plain ch /\ (length (text e) < 79)%nat)) as Hg'.
    { apply Hg. apply negb_true_iff, andb_false_iff. breflect. destruct (Z.leb_spec 0x41 ch); [right; apply Z.leb_gt; lia|by left]. }
    split; [exact (Hx _ _ _ E (Hb _ _ _ _ (plain_sim (normal e) ch Hn Hg')))|by apply wf_plain].
Qed.

Lemma keys_sim ks : forall e, wf e -> keys_ok table ks e = true ->
  sim (finsh_keys table cmd_func ks) e (fst (ed_keys table ks e)) (snd (ed_keys table ks e)).
Proof.
  induction ks as [|ch ks IH]; intros e He Hk; cbn [finsh_keys ed_keys keys_ok] in *; [by apply sim_nothing|].
  apply andb_true_iff in Hk as [H1 H2]. destruct (key_sim ch e He H1) as [S W].
  pose proof (IH _ W H2) as S2. destruct (ed_key table ch e) as [e1 l1]. cbn [fst snd] in *.
  destruct (ed_keys table ks e1) as [e2 l2]. cbn [fst snd] in *. by eapply sim_bind.
Qed.

Lemma wf_init : wf ed_init.
Proof. split; cbn; try constructor; lia. Qed.
End Refinement.

(** C13: Whatever keys arrive, as long as no line reaches 80 characters and the
    characters typed can be shown, the shell is the editor: its buffers, positions
    and history are those of the line with its cursor and of the history; the
    commands called are those of the lines entered, with their arguments split
    at blanks and quotes; and what was printed leaves the prompt and the line on
    the last row of the terminal with the cursor at its place. *)
Theorem shell_refines_editor table cmd_func ks : commands_ok table -> keys_ok table ks ed_init = true ->
  let e := fst (ed_keys table ks ed_init) in
  exists os, finsh_thread_entry table cmd_func ks finsh_system_init = Some (tt, shell_of e os) /\
    calls os = flat_map (run_line table) (snd (ed_keys table ks ed_init)) /\ shows e (screen os).
Proof.
  intros Ht Hk. destruct (keys_sim table cmd_func Ht ks ed_init wf_init Hk [Text prompt]) as (new & E & Hc & Hs).
  exists ([Text prompt] ++ new). split_and!; [exact E|done|]. unfold screen. rewrite fold_left_app. apply Hs. by exists 0%nat.
Qed.

(** The condition on the table, decided. *)
Definition commands_okb (table : list finsh_syscall) : bool :=
  table_okb table && forallb (fun c => (length (cmd_name c) <? 80)%nat) table.

Lemma commands_okb_spec table : commands_okb table = true -> commands_ok table.
Proof.
  intros [H L]%andb_true_iff. split; [by apply table_okb_spec|]. rewrite forallb_forall in L. rewrite Forall_forall.
  intros c Hc%list_elem_of_In%L. by apply Nat.ltb_lt.
Qed.

Definition ESC_LEFT : list Z := [27; 91; 68].
Definition ESC_UP : list Z := [27; 91; 65].

(** A completion, a correction in the line, a line with quotes, the history. *)
Definition sample_keys : list Z :=
  clit "lis" ++ [9] ++ clit "ah" ++ ESC_LEFT ++ [127; 9] ++ [13] ++
  clit "disp_set_addr  5 `a b`" ++ [13] ++ ESC_UP ++ ESC_UP ++ [13] ++ clit "fre".

Lemma shell_refines_editor_witness : keys_ok sample_table sample_keys ed_init = true /\
  exists os, finsh_thread_entry sample_table (fun _ _ => 0) sample_keys finsh_system_init =
      Some (tt, shell_of (Ed WAIT_NORMAL (clit "fre") [] [clit "list_thread"; clit "disp_set_addr  5 `a b`"; clit "list_thread"] 3) os) /\
    calls os = [(clit "list_thread", [clit "list_thread"]);
                (clit "disp_set_addr", [clit "disp_set_addr"; clit "5"; clit "a b"]);
                (clit "list_thread", [clit "list_thread"])] /\
    shows (Ed WAIT_NORMAL (clit "fre") [] [clit "list_thread"; clit "disp_set_addr  5 `a b`"; clit "list_thread"] 3) (screen os).
Proof.
  split; [vm_compute; reflexivity|].
  exact (shell_refines_editor sample_table (fun _ _ => 0) sample_keys
    (commands_okb_spec sample_table ltac:(vm_compute; reflexivity)) ltac:(vm_compute; reflexivity)).
Defined.

(** A line that reaches 80 characters breaks the editor.  The positions are
    set back to 0 but the text stays: after a tab, which takes the position from
    the text, a character and two backspaces write outside the line; a line that
    starts with a blank is run with a length below zero and is read past its
    end; and what stood in the line becomes part of the next arguments. *)
Theorem shell_long_line_corrupts cmd_func :
  let run ks := finsh_thread_entry sample_table cmd_func ks finsh_system_init in
  (exists s, run (repeat 97 80 ++ [9; 98; 127]) = Some (tt, s) /\ line_position s = 0 /\ line_curpos s = 80) /\
  run (repeat 97 80 ++ [9; 98; 127; 127]) = None /\
  run (clit " free" ++ repeat 32 75 ++ [13]) = None /\
  exists s, run (repeat 97 80 ++ clit "free" ++ [13]) = Some (tt, s) /\
    calls (log (con s)) = [(clit "free", [clit "free" ++ repeat 97 76])].
Proof.
  split; [eexists; split; [vm_compute; reflexivity|done]|]. split; [vm_compute; reflexivity|]. split; [vm_compute; reflexivity|].
  eexists; split; [vm_compute; reflexivity|done].
Qed.
