(* ===== verification/Debug.v ===== *)
(** * The debug commands of the shell

    applications/debugCommands.c: the commands that print what the acquisition
    threads have published.  A command leaves the messages it printed, one for
    each rt_kprintf; the console shows [console_text] of each.  Then the
    commands behind the shell of Shell.v. *)

From Stdlib Require Import ZArith Lia String SpecFloat.
From stdpp Require Import base numbers list.
From S2P Require Import Prelude Memory Float32 Printf Methane Node AdcSensors Sht30 ModbusApp Report Msh Shell.
Open Scope c_scope.

(** One [rt_kprintf]. *)
Definition rt_kprintf (fmt : string) (args : list carg) : M (list (list Z)) unit := fun out =>
  match sformat (clit fmt) args with
  | Some l => Some (tt, out ++ [l])
  | None => None
  end.

Definition line (fmt : string) : M (list (list Z)) unit := rt_kprintf fmt [].

(** [int x = (int)v], [int d = (int)((v - x) * k)], [if (d < 0) d = -d], printed. *)
Definition print_float (fmt : string) (v : f32) (k : Z) : M (list (list Z)) unit :=
  rt_kprintf fmt [AInt (int_part v); AInt (dec_part v k)].

Definition O2_LOW : f32 := f32_lit 39 2.
Definition O2_HIGH : f32 := f32_lit 47 2.

(** One channel: its reading, its state; the count goes on. *)
Definition flame_channel (fmt fire normal : string) (v : Z) (fire_count : Z) : M (list (list Z)) Z :=
  do! rt_kprintf fmt [AInt v] in
  if FIRE_LEVEL <? v then do! line fire in retM (fire_count +u8 1)
  else do! line normal in retM fire_count.

(** The three phases of a quantity of the ammeter. *)
Fixpoint print_phases (fmt : string) (vs : list f32) (i : Z) (n : nat) : M (list (list Z)) unit :=
  match n with
  | O => retM tt
  | S k =>
      let v := fget vs (Z.to_nat i) in
      do! rt_kprintf fmt [AInt i; AInt (int_part v); AInt (dec_part v 100)] in
      print_phases fmt vs (i + 1) k
  end.

Definition show_flame (t : telemetry) : M (list (list Z)) unit :=
  let f := t_flame t in
  do! line "\n========================================\n" in
  do! line "  Five-Channel Flame Sensor Status\n" in
  do! line "========================================\n" in
  do! line "  Channel  |  ADC Value  |  Status\n" in
  do! line "-----------|-------------|-------------\n" in
  let! n := flame_channel "  A1 (CH0) |    %5u    | " "FIRE!\n" "Normal\n" (g_adc_ch0 f) 0 in
  let! n := flame_channel "  A2 (CH1) |    %5u    | " "FIRE!\n" "Normal\n" (g_adc_ch1 f) n in
  let! n := flame_channel "  A3 (CH3) |    %5u    | " "FIRE!\n" "Normal\n" (g_adc_ch3 f) n in
  let! n := flame_channel "  A4 (CH4) |    %5u    | " "FIRE!\n" "Normal\n" (g_adc_ch4 f) n in
  let! n := flame_channel "  A5 (CH5) |    %5u    | " "FIRE!\n" "Normal\n" (g_adc_ch5 f) n in
  do! line "========================================\n" in
  do! rt_kprintf "  Fire Channels: %d/5\n" [AInt n] in
  do! line "  Overall Status: " in
  do! (if 4 <=? n then line "**FIRE ALARM**\n" else line "Normal\n") in
  do! line "========================================\n" in
  do! line "  ADC Range: 0-65535 (16-bit)\n" in
  do! line "  Threshold: >60000 = Fire Detected\n" in
  do! line "  Alarm Rule: >= 4 channels triggered\n" in
  line "========================================\n\n".

Definition show_all_sensors (t : telemetry) : M (list (list Z)) unit :=
  let f := t_flame t in let g := t_methane t in let s := t_sht30 t in let m := t_mb t in
  do! line "\n" in
  do! line "========================================\n" in
  do! line "  Pipe Gallery Node - Sensor Status\n" in
  do! line "========================================\n" in
  do! line "\n" in
  do! line "1. Flame Sensors (5-channel ADC):\n" in
  let! n := flame_channel "   A1 (ADC0): %5u    " "[FIRE DETECTED!]\n" "[Normal]\n" (g_adc_ch0 f) 0 in
  let! n := flame_channel "   A2 (ADC1): %5u    " "[FIRE DETECTED!]\n" "[Normal]\n" (g_adc_ch1 f) n in
  let! n := flame_channel "   A3 (ADC3): %5u    " "[FIRE DETECTED!]\n" "[Normal]\n" (g_adc_ch3 f) n in
  let! n := flame_channel "   A4 (ADC4): %5u    " "[FIRE DETECTED!]\n" "[Normal]\n" (g_adc_ch4 f) n in
  let! n := flame_channel "   A5 (ADC5): %5u    " "[FIRE DETECTED!]\n" "[Normal]\n" (g_adc_ch5 f) n in
  do! line "   >> Overall: " in
  do! (if 4 <=? n then rt_kprintf "**FIRE ALARM** (%d/5 triggered)\n" [AInt n]
       else rt_kprintf "Normal (%d/5 triggered)\n" [AInt n]) in
  do! line "\n" in
  do! line "2. SHT30 Temperature & Humidity:\n" in
  do! print_float "   Temperature: %d.%02d °C\n" (g_temperature_c s) 100 in
  do! print_float "   Humidity:    %d.%02d %%RH\n" (g_humidity_rh s) 100 in
  do! line "\n" in
  do! line "3. Methane Gas Sensor:\n" in
  do! rt_kprintf "   Concentration: %u ppm" [AInt (g_methane_ppm g)] in
  do! (if 10000 <? g_methane_ppm g then line "  [DANGER!]\n"
       else if 5000 <? g_methane_ppm g then line "  [WARNING!]\n"
       else line "  [Normal]\n") in
  do! rt_kprintf "   LEL%%:          %u %%\n" [AInt (g_methane_lel g)] in
  do! line "\n" in
  do! line "4. O2 Sensor:\n" in
  do! print_float "   O2: %d.%d %%" (g_o2_concentration t) 10 in
  do! (if f32_ltb (g_o2_concentration t) O2_LOW then line "  [LOW OXYGEN!]\n"
       else if f32_ltb O2_HIGH (g_o2_concentration t) then line "  [HIGH OXYGEN!]\n"
       else line "  [Normal]\n") in
  do! line "\n" in
  do! line "5. Displacement Sensor (Modbus):\n" in
  do! print_float "   Displacement: %d.%03d mm\n" (Displacement_ m) 1000 in
  do! line "\n" in
  do! line "6. Stress Sensor RDF-TC25/RDD-DH (Modbus):\n" in
  do! (if g_stress_sensor_online (g_stress m) && g_stress_value_valid (g_stress m) then
         print_float "   Stress: %d.%02d N  [Online]\n" (g_stress_value_n (g_stress m)) 100
       else if g_stress_sensor_online (g_stress m) then line "   Stress: invalid unit/status  [Online]\n"
       else line "   Stress: ---.-- N  [Offline]\n") in
  do! line "\n" in
  do! line "7. Ammeter (3-Phase Current):\n" in
  do! print_phases "   Phase %d Current: %d.%02d A\n" (Current m) 0 3 in
  do! line "\n" in
  do! line "8. Ammeter (3-Phase Voltage):\n" in
  do! print_phases "   Phase %d Voltage: %d.%02d V\n" (Voltage m) 0 3 in
  do! line "\n========================================\n" in
  do! line "  Use 'sensors' to refresh this display\n" in
  line "========================================\n\n".

Definition show_environment (t : telemetry) : M (list (list Z)) unit :=
  let g := t_methane t in let s := t_sht30 t in
  do! line "\n========================================\n" in
  do! line "  Environment Sensors\n" in
  do! line "========================================\n" in
  do! print_float "  Temperature: %d.%02d °C\n" (g_temperature_c s) 100 in
  do! print_float "  Humidity:    %d.%02d %%RH\n" (g_humidity_rh s) 100 in
  do! print_float "  O2:          %d.%d %%" (g_o2_concentration t) 10 in
  do! (if f32_ltb (g_o2_concentration t) O2_LOW then line "  [LOW!]\n"
       else if f32_ltb O2_HIGH (g_o2_concentration t) then line "  [HIGH!]\n"
       else line "\n") in
  do! rt_kprintf "  Methane:     %u ppm" [AInt (g_methane_ppm g)] in
  do! (if 10000 <? g_methane_ppm g then line "  [DANGER!]\n"
       else if 5000 <? g_methane_ppm g then line "  [WARNING!]\n"
       else line "\n") in
  do! rt_kprintf "  Methane LEL: %u %%\n" [AInt (g_methane_lel g)] in
  line "========================================\n\n".

Definition show_modbus (t : telemetry) : M (list (list Z)) unit :=
  let m := t_mb t in let s := g_stress m in
  do! line "\n========================================\n" in
  do! line "  Modbus RTU Devices (UART3)\n" in
  do! line "========================================\n" in
  do! line "  Baudrate: 9600\n" in
  do! line "  Parity:   None\n" in
  do! line "========================================\n\n" in
  do! line "1. Displacement Sensor:\n" in
  do! line "   Slave Address: 1\n" in
  do! print_float "   Value: %d.%03d mm\n\n" (Displacement_ m) 1000 in
  do! line "2. Stress Sensor RDF-TC25/RDD-DH:\n" in
  do! line "   Slave Address: 3\n" in
  do! (if g_stress_sensor_online s && g_stress_value_valid s then
         do! print_float "   Value: %d.%02d N\n" (g_stress_value_n s) 100 in
         line "   Status: Online\n\n"
       else if g_stress_sensor_online s then
         do! line "   Value: invalid N conversion\n" in
         do! rt_kprintf "   Raw: %d, Unit: %u, Status: 0x%04X\n"
           [AInt (g_stress_raw_value s); AInt (g_stress_unit s); AInt (g_stress_status s)] in
         line "   Status: Online\n\n"
       else
         do! line "   Value: ---.-- N\n" in
         line "   Status: Offline\n\n") in
  do! line "3. Ammeter (3-Phase):\n" in
  do! line "   Slave Address: 73\n" in
  do! line "   Voltage:\n" in
  do! print_phases "     Phase %d: %d.%02d V\n" (Voltage m) 0 3 in
  do! line "   Current:\n" in
  do! print_phases "     Phase %d: %d.%02d A\n" (Current m) 0 3 in
  do! line "\n========================================\n" in
  line "========================================\n\n".

(** The refresh interval of [monitor], from [argc] and [argv[1]]. *)
Definition monitor_interval (argv : list (list Z)) : Z :=
  if (length argv =? 2)%nat then
    let interval := s32 (atoi (nth 1 argv []) * 1000) in
    let interval := if interval <? 100 then 100 else interval in
    if 10000 <? interval then 10000 else interval
  else 1000.

Definition monitor_banner (interval : Z) : M (list (list Z)) unit :=
  do! line "\n========================================\n" in
  do! line "  Sensor Monitoring (Press Ctrl+C to stop)\n" in
  do! rt_kprintf "  Refresh interval: %d ms\n" [AInt interval] in
  line "========================================\n\n".

(** A turn of its loop, which never ends; [rt_thread_mdelay(interval)] follows. *)
Definition monitor_turn (t : telemetry) : M (list (list Z)) unit :=
  let f := t_flame t in let g := t_methane t in let s := t_sht30 t in let m := t_mb t in
  do! line "\e[2J\e[H" in
  do! line "========================================\n" in
  do! line "  Real-Time Sensor Monitoring\n" in
  do! line "========================================\n\n" in
  do! rt_kprintf "Flame: A1=%4u A2=%4u A3=%4u A4=%4u A5=%4u\n"
    [AInt (g_adc_ch0 f); AInt (g_adc_ch1 f); AInt (g_adc_ch3 f); AInt (g_adc_ch4 f); AInt (g_adc_ch5 f)] in
  do! rt_kprintf "Temp: %d.%02d°C  Humidity: %d.%02d%%RH\n"
    [AInt (int_part (g_temperature_c s)); AInt (dec_part (g_temperature_c s) 100);
     AInt (int_part (g_humidity_rh s)); AInt (dec_part (g_humidity_rh s) 100)] in
  do! rt_kprintf "O2: %d.%d%%  Methane: %uppm (%u%%LEL)\n"
    [AInt (int_part (g_o2_concentration t)); AInt (dec_part (g_o2_concentration t) 10);
     AInt (g_methane_ppm g); AInt (g_methane_lel g)] in
  do! print_float "Displacement: %d.%03dmm  " (Displacement_ m) 1000 in
  do! (if g_stress_sensor_online (g_stress m) && g_stress_value_valid (g_stress m) then
         print_float "Stress: %d.%02dN\n" (g_stress_value_n (g_stress m)) 100
       else if g_stress_sensor_online (g_stress m) then line "Stress: Invalid unit/status\n"
       else line "Stress: Offline\n") in
  do! rt_kprintf "Current: P0=%dA P1=%dA P2=%dA\n"
    [AInt (int_part (fget (Current m) 0)); AInt (int_part (fget (Current m) 1)); AInt (int_part (fget (Current m) 2))] in
  line "\n[Press Ctrl+C to stop monitoring]\n".

Definition test_usage : M (list (list Z)) unit :=
  do! line "\nUsage: test <sensor_name>\n" in
  do! line "\nAvailable sensors:\n" in
  do! line "  flame       - Five-channel flame sensor\n" in
  do! line "  sht30       - Temperature & humidity sensor\n" in
  do! line "  methane     - Methane gas sensor\n" in
  do! line "  o2          - Oxygen sensor\n" in
  do! line "  displacement - Displacement sensor\n" in
  do! line "  ammeter     - 3-phase ammeter\n" in
  line "\nExample: test flame\n\n".

Definition test_sensor (argv : list (list Z)) (t : telemetry) : M (list (list Z)) unit :=
  let g := t_methane t in let s := t_sht30 t in let m := t_mb t in
  if negb (length argv =? 2)%nat then test_usage else
  let sensor := nth 1 argv [] in
  if str_eqb sensor (clit "flame") then show_flame t
  else if str_eqb sensor (clit "sht30") then
    rt_kprintf "\n[SHT30] Temperature: %.2f°C, Humidity: %.2f%%RH\n\n" [AFloat (g_temperature_c s); AFloat (g_humidity_rh s)]
  else if str_eqb sensor (clit "methane") then
    if negb (g_methane_data_valid g) then line "\n[Methane] No valid GM-402B frame received\n\n"
    else
      rt_kprintf "\n[Methane] Concentration: %uppm, LEL: %u%%, Status: 0x%02X%s\n\n"
        [AInt (g_methane_ppm g); AInt (g_methane_lel g); AInt (g_methane_status g);
         AStr (if g_methane_status g =? 0xAA then clit " (Normal)" else clit " (Check sensor)")]
  else if str_eqb sensor (clit "o2") then
    rt_kprintf "\n[O2] Concentration: %.1f%%\n\n" [AFloat (g_o2_concentration t)]
  else if str_eqb sensor (clit "displacement") then
    if negb (g_displacement_sensor_online m) then line "\n[Displacement] Offline - no valid Modbus response\n\n"
    else print_float "\n[Displacement] Value: %d.%03dmm\n\n" (Displacement_ m) 1000
  else if str_eqb sensor (clit "ammeter") then
    do! line "\n[Ammeter]\n" in
    do! rt_kprintf "  Voltage: P0=%.2fV P1=%.2fV P2=%.2fV\n"
      [AFloat (fget (Voltage m) 0); AFloat (fget (Voltage m) 1); AFloat (fget (Voltage m) 2)] in
    rt_kprintf "  Current: P0=%.2fA P1=%.2fA P2=%.2fA\n\n"
      [AFloat (fget (Current m) 0); AFloat (fget (Current m) 1); AFloat (fget (Current m) 2)]
  else
    do! rt_kprintf "\nError: Unknown sensor '%s'\n" [AStr sensor] in
    line "Use 'test' without arguments to see available sensors.\n\n".

(* ------------------------------------------------------------------ *)
(** ** The oxygen sensor, read by the command itself *)

Section O2Debug.
Context {HW : Type} `{AdcHal HW}.

Definition on_out {A} (m : M (list (list Z)) A) : M (list (list Z) * HW) A := fun '(o, h) =>
  match m o with Some (a, o') => Some (a, (o', h)) | None => None end.
Definition on_adc {A} (m : M HW A) : M (list (list Z) * HW) A := fun '(o, h) =>
  match m h with Some (a, h') => Some (a, (o, h')) | None => None end.

(** [o2_x10] after the adjustment in air. *)
Definition o2_debug_x10 (raw : Z) : Z :=
  let o2_x10 := Z.quot (s32 (s32 (raw -u32 0) * 209)) (2410 - 0) in
  if (207 <=? o2_x10) && (o2_x10 <=? 211) then 209 else o2_x10.

Definition o2_debug_report (raw : Z) : M (list (list Z)) unit :=
  let o2_percent := f32_div (f32_of_Z (o2_debug_x10 raw)) (f32_of_Z 10) in
  do! rt_kprintf "Raw ADC Value:     %u (0-65535)\n" [AInt raw] in
  do! rt_kprintf "O2 Concentration:  %.1f %%\n" [AFloat o2_percent] in
  do! line "\n" in
  do! line "Calibration Parameters:\n" in
  do! line "  Zero Offset:     0 (ADC raw value)\n" in
  do! line "  Full Scale:      2410 (ADC raw at 20.9%% O2)\n" in
  do! line "  Stabilize Range: 20.7%% - 21.1%% -> 20.9%%\n" in
  do! line "\n" in
  do! line "Expected Values:\n" in
  do! line "  Normal Air:      ADC ~2410, O2 ~20.9%%\n" in
  do! line "  Low O2 Warning:  <19.5%%\n" in
  do! line "  High O2 Warning: >23.5%%\n" in
  do! line "\n" in
  do! (if raw <? 500 then
         do! line "WARNING: ADC value very low!\n" in
         line "  Check sensor power and connections.\n"
       else if f32_ltb o2_percent (f32_of_Z 10) || f32_ltb (f32_of_Z 30) o2_percent then
         do! line "WARNING: O2 value out of normal range!\n" in
         do! line "  Possible causes:\n" in
         do! line "  1. Sensor needs calibration (adjust O2_FULL_SCALE_ADC)\n" in
         do! line "  2. Current calibration: ADC 2410 = 20.9%% O2\n" in
         rt_kprintf "  3. Your ADC: %u -> %.1f%% O2\n" [AInt raw; AFloat o2_percent]
       else retM tt) in
  line "========================================\n\n".

(** [o2_debug]; [found]: whether [rt_device_find] knows adc1.  A conversion
    the driver refuses leaves [raw] unwritten: no result. *)
Definition o2_debug (found : bool) : M (list (list Z) * HW) unit :=
  do! on_out (line "\n========================================\n") in
  do! on_out (line "  O2 Sensor Debug (ADC1 Channel 18)\n") in
  do! on_out (line "========================================\n\n") in
  if negb found then on_out (line "ERROR: Cannot find adc1 device!\n\n")
  else
    let! _e := on_adc (rt_adc_enable 18) in
    let! raw := on_adc (rt_adc_read 18) in
    match raw with
    | None => fun _ => None
    | Some raw =>
        do! on_out (o2_debug_report raw) in
        let! _d := on_adc (rt_adc_disable 18) in
        retM tt
    end.
End O2Debug.

(** The exported commands that return, by their names in the shell. *)
Definition app_commands : list (string * (list (list Z) -> telemetry -> M (list (list Z)) unit)) :=
  [("sensors"%string, fun _ => show_all_sensors); ("flame"%string, fun _ => show_flame);
   ("env"%string, fun _ => show_environment); ("modbus"%string, fun _ => show_modbus);
   ("test"%string, test_sensor)].

(* ------------------------------------------------------------------ *)
(** ** Lemmas *)

(** *** What a number prints *)

(** A text of at most [n] characters without the capital I of the alarm. *)
Definition short (n : Z) (l : list Z) : Prop := Z.of_nat (length l) <= n /\ Forall (fun c => c <> 73) l.

Lemma short_app n m l l' : short n l -> short m l' -> short (n + m) (l ++ l').
Proof. intros [H1 F1] [H2 F2]. split; [rewrite length_app; lia|by apply Forall_app]. Qed.

Lemma repeat_plain c n : c <> 73 -> Forall (fun c => c <> 73) (repeat c n).
Proof. intros Hc. induction n; by constructor. Qed.

Lemma digit_of_plain type d : digit_of type d <> 73.
Proof.
  unfold digit_of.
  assert (forall l n, Forall (fun c => c <> 73) l -> nth n l 0 <> 73) as Hn.
  { intros l; induction l as [|c l IH]; intros [|n] Hl; cbn [nth]; try done; inversion Hl; subst; auto. }
  apply Hn. destruct (has type fl_LARGE); repeat constructor; done.
Qed.

Lemma tmp_digits_short k num base type : short (Z.of_nat k) (tmp_digits k num base type).
Proof.
  revert num; induction k as [|k IH]; intros num; cbn [tmp_digits]; [by split|].
  destruct (num =? 0); [split; [cbn; lia|constructor]|].
  destruct (divide num base) as [q r]. destruct (IH q) as [H1 H2]. split; [cbn [length]; lia|].
  constructor; [apply digit_of_plain|done].
Qed.

(** A number without precision fills its field, or takes a sign and sixteen
    digits at most. *)
Lemma print_number_emits {W} `{Sink W} (o : W) num base width type :
  exists l, print_number o num base width (-1) type = put_list l o /\ short (Z.max 17 width) l.
Proof.
  unfold print_number. set (ty := if has type fl_LEFT then _ else type).
  set (sg := if _ && (num <? 0) then 45 else _).
  set (tmp := if _ =? 0 then [48] else _).
  assert (short 16 tmp) as [Ht Hd].
  { subst tmp. destruct (_ =? 0); [split; [cbn; lia|by repeat constructor]|]. apply (tmp_digits_short 16). }
  assert (sg <> 73) as Hs by (subst sg; repeat case_match; done).
  set (i := Z.of_nat (length tmp)) in *. clearbody tmp sg.
  rewrite (proj2 (Z.ltb_lt (-1) i)) by lia. unfold pad_while. rewrite Z.sub_diag.
  change (repeat 48 (Z.to_nat 0)) with (@nil Z). cbn [put_list]. change (-1 =? 0) with false. cbn iota.
  set (c := if has ty fl_ZEROPAD then 48 else 32). assert (c <> 73) as Hc by (subst c; by case_match).
  clearbody c ty. assert (forall a, put sg a = put_list [sg] a) as Hput by done.
  destruct (negb (has ty fl_ZEROPAD || has ty fl_LEFT)), (negb (sg =? 0)), (negb (has ty fl_LEFT));
    cbn [andb snd]; rewrite ?Hput, <- ?put_list_app;
    (eexists; split; [reflexivity|]; split;
     [rewrite ?length_app, ?repeat_length, ?length_rev; cbn [length]; repeat case_match; lia|];
     rewrite ?Forall_app; split_and!; auto using Forall_rev, repeat_plain).
Qed.

(** *** What a message prints *)

(** A message that fits the console buffer and is not the alarm. *)
Definition fits (fmt : string) (args : list carg) : Prop :=
  exists l, sformat (clit fmt) args = Some l /\ short 254 l.

Ltac short_lengths := repeat progress (rewrite ?length_app, ?length_rev; cbn [length]); lia.
Ltac short_chars :=
  repeat first [apply Forall_nil; exact I | apply Forall_cons; split; [done|] | apply Forall_rev
               | apply Forall_app; split]; try assumption.

(** A literal format with at most numbers: its field widths, then each
    conversion in turn. *)
Ltac field_widths :=
  repeat match goal with
  | |- context [wraps 32 (Z.pos ?p)] =>
      let v := eval vm_compute in (wraps 32 (Z.pos p)) in lazymatch v with Z.pos _ => change (wraps 32 (Z.pos p)) with v end
  end.

Ltac fmt_fits :=
  repeat match goal with |- context [AInt ?z] => tryif is_var z then fail else generalize z; intros ? end;
  repeat match goal with |- context [AFloat ?v] => tryif is_var v then fail else generalize v; intros ? end;
  intros; unfold fits, sformat;
  lazy -[print_number put_string put_list wrapu wraps rev app short];
  try (progress field_widths; lazy -[print_number put_string put_list wrapu wraps rev app short]);
  rewrite ?put_string_plain;
  repeat match goal with
    |- context [@print_number _ ?S ?o ?z ?b ?w (-1) ?t] =>
      let l := fresh "l" in let E := fresh "E" in
      destruct (@print_number_emits _ S o z b w t) as (l & E & ? & ?); rewrite E; clear E
    end;
  rewrite ?put_list_list; eexists; split; [reflexivity|];
  split; [short_lengths | short_chars].

(** *** What a command prints *)

Definition alarm_text : list Z := clit "FIRE ALARM".
Definition warning_text : list Z := clit "WARNING".

(** A text of the screen. *)
Definition shown (w : list Z) (out : list (list Z)) : bool := existsb (contains w) out.

(** [m] returns [a]; its messages fit the console, and one of them has the
    text [w] exactly when [b]. *)
Definition prints (w : list Z) {A} (m : M (list (list Z)) A) (a : A) (b : bool) : Prop := forall out,
  exists new, m out = Some (a, out ++ new) /\ Forall (fun l => Z.of_nat (length l) <= 254) new /\
    (In 73 w -> shown w new = b).

Lemma plain_without w l : Forall (fun c => c <> 73) l -> In 73 w -> contains w l = false.
Proof.
  intros Hl Hw. destruct (contains w l) eqn:E; [|done]. exfalso.
  apply contains_spec in E as (u & v & ->). rewrite !Forall_app in Hl. destruct Hl as [_ [Hl _]].
  rewrite List.Forall_forall in Hl. by apply (Hl 73).
Qed.

Lemma prints_ret w {A} (a : A) : prints w (retM a) a false.
Proof. intros out. exists []. rewrite app_nil_r. split_and!; [done|constructor|done]. Qed.

Lemma prints_bind w {A B} (m : M (list (list Z)) A) (k : A -> M (list (list Z)) B) a c b b' :
  prints w m a b -> prints w (k a) c b' -> prints w (bindM m k) c (b || b').
Proof.
  intros Hm Hk out. destruct (Hm out) as (n1 & E1 & F1 & A1).
  destruct (Hk (out ++ n1)) as (n2 & E2 & F2 & A2). exists (n1 ++ n2).
  rewrite (bindM_some _ _ _ _ _ E1), E2, app_assoc. split_and!; [done|by apply Forall_app|].
  unfold shown in *. intros Hw. by rewrite existsb_app, A1, A2.
Qed.

Lemma prints_msg w fmt args : fits fmt args -> prints w (rt_kprintf fmt args) tt false.
Proof.
  intros (l & E & Hl & Hc) out. exists [l]. unfold rt_kprintf. rewrite E. split_and!; [done|by repeat constructor|].
  unfold shown. cbn [existsb]. intros ?. by rewrite plain_without.
Qed.

(** Whether a literal message has the text [w], [None] when it does not fit. *)
Definition line_shows (w : list Z) (fmt : string) : option bool :=
  match sformat (clit fmt) [] with
  | Some l => if Z.of_nat (length l) <=? 254 then Some (contains w l) else None
  | None => None
  end.

Lemma prints_line w fmt b : line_shows w fmt = Some b -> prints w (line fmt) tt b.
Proof.
  unfold line_shows, line, rt_kprintf. intros Hb out. destruct (sformat (clit fmt) []) as [l|]; [|done].
  destruct (Z.leb_spec (Z.of_nat (length l)) 254); [|done]. injection Hb as <-.
  exists [l]. split_and!; [done|by repeat constructor|]. unfold shown. cbn [existsb]. intros _. by rewrite orb_false_r.
Qed.

Lemma prints_if w {A} (c : bool) (m1 m2 : M (list (list Z)) A) a1 a2 b1 b2 :
  prints w m1 a1 b1 -> prints w m2 a2 b2 ->
  prints w (if c then m1 else m2) (if c then a1 else a2) (if c then b1 else b2).
Proof. by destruct c. Qed.

Lemma prints_channel w fmt fire normal v n :
  fits fmt [AInt v] -> line_shows w fire = Some false -> line_shows w normal = Some false ->
  prints w (flame_channel fmt fire normal v n) (if FIRE_LEVEL <? v then n +u8 1 else n) false.
Proof.
  intros Hv Hf Hn. unfold flame_channel.
  apply (prints_bind _ _ _ tt _ false false); [by apply prints_msg|].
  destruct (FIRE_LEVEL <? v); (eapply (prints_bind _ _ _ tt _ false false); [by apply prints_line|apply prints_ret]).
Qed.

Lemma prints_phases w fmt vs i n : (forall x y z, fits fmt [AInt x; AInt y; AInt z]) ->
  prints w (print_phases fmt vs i n) tt false.
Proof.
  intros Hf. revert i; induction n as [|n IH]; intros i; [apply prints_ret|].
  apply (prints_bind _ _ _ tt _ false false); [by apply prints_msg|apply IH].
Qed.

Lemma prints_alarm n : prints alarm_text (rt_kprintf "**FIRE ALARM** (%d/5 triggered)\n" [AInt n]) tt true.
Proof.
  assert (exists l, sformat (clit "**FIRE ALARM** (%d/5 triggered)\n") [AInt n]
    = Some (clit "**" ++ alarm_text ++ clit "** (" ++ l ++ clit "/5 triggered)\n") /\ short 17 l) as (l & E & Hl & _).
  { unfold sformat. lazy -[print_number put_list wrapu wraps rev app short].
    match goal with |- context [@print_number _ ?S ?o ?z ?b ?w (-1) ?t] =>
      destruct (@print_number_emits _ S o z b w t) as (l & E & ?); rewrite E; clear E end.
    exists l. rewrite put_list_list. split; [|done]. f_equal. cbn [rev].
    rewrite rev_app_distr, rev_involutive. cbn [rev app]. by rewrite <- ?app_assoc. }
  intros out. eexists [_]. unfold rt_kprintf. rewrite E. split_and!; [reflexivity|repeat constructor; rewrite !length_app; cbn; lia|].
  unfold shown. cbn [existsb]. intros _. rewrite orb_false_r. apply contains_spec. by eexists _, _.
Qed.

(** The commands, message by message. *)
Ltac prints_command :=
  repeat lazymatch goal with
  | |- prints _ (bindM _ _) _ _ => eapply prints_bind
  | |- prints _ (line _) _ _ => apply prints_line; vm_compute; reflexivity
  | |- prints _ (rt_kprintf "**FIRE ALARM** (%d/5 triggered)\n" _) _ _ => apply prints_alarm
  | |- prints _ (rt_kprintf _ _) _ _ => apply prints_msg; fmt_fits
  | |- prints _ (print_float _ _ _) _ _ => apply prints_msg; fmt_fits
  | |- prints _ (flame_channel _ _ _ _ _) _ _ => apply prints_channel; [fmt_fits|vm_compute; reflexivity..]
  | |- prints _ (print_phases _ _ _ _) _ _ => apply prints_phases; intros; fmt_fits
  | |- prints _ (if _ then _ else _) _ _ => eapply prints_if
  | |- prints _ (retM _) _ _ => apply prints_ret
  end.

Lemma prints_eq w {A} (m : M (list (list Z)) A) a b b' : prints w m a b -> b = b' -> prints w m a b'.
Proof. by intros ? <-. Qed.

Definition flame_channels (f : flame_data) : list Z :=
  [g_adc_ch0 f; g_adc_ch1 f; g_adc_ch3 f; g_adc_ch4 f; g_adc_ch5 f].

Lemma show_flame_prints t : prints alarm_text (show_flame t) tt (4 <=? fire_count (flame_channels (t_flame t))).
Proof.
  eapply prints_eq; [unfold show_flame; prints_command|]. unfold fire_count, flame_channels. cbn [fold_left orb].
  by destruct (4 <=? _).
Qed.

Lemma show_all_sensors_prints t :
  prints alarm_text (show_all_sensors t) tt (4 <=? fire_count (flame_channels (t_flame t))).
Proof.
  eapply prints_eq; [unfold show_all_sensors; prints_command|]. unfold fire_count, flame_channels.
  cbn [fold_left orb]. repeat case_match; done.
Qed.

Lemma show_environment_prints t : exists b, prints alarm_text (show_environment t) tt b.
Proof. eexists. unfold show_environment. prints_command. Qed.

Lemma show_modbus_prints t : exists b, prints alarm_text (show_modbus t) tt b.
Proof. eexists. unfold show_modbus. prints_command. Qed.

Lemma monitor_turn_prints t : exists b, prints alarm_text (monitor_turn t) tt b.
Proof. eexists. unfold monitor_turn. prints_command. Qed.

Lemma prints_some w fmt args l : sformat (clit fmt) args = Some l -> Z.of_nat (length l) <= 254 ->
  prints w (rt_kprintf fmt args) tt (contains w l).
Proof.
  intros E Hl out. exists [l]. unfold rt_kprintf. rewrite E. split_and!; [done|by repeat constructor|].
  unfold shown. cbn [existsb]. intros ?. by rewrite orb_false_r.
Qed.

Lemma sformat_unknown s : sformat (clit "\nError: Unknown sensor '%s'\n") [AStr s]
  = Some (clit "\nError: Unknown sensor '" ++ s ++ clit "'\n").
Proof. fmt_eval. reflexivity. Qed.

Lemma test_sensor_prints argv t : Forall (fun a => (length a <= 80)%nat) argv ->
  exists b, prints alarm_text (test_sensor argv t) tt b.
Proof.
  intros Ha. unfold test_sensor. destruct (length argv =? 2)%nat; cbn [negb].
  2: { eexists. unfold test_usage. prints_command. }
  assert (length (nth 1 argv []) <= 80)%nat as Hs.
  { destruct argv as [|a [|b r]]; cbn [nth length]; try lia. inversion Ha as [|? ? ? Hb]; by inversion Hb. }
  set (sensor := nth 1 argv []) in *. clearbody sensor.
  assert (exists l, sformat (clit "\nError: Unknown sensor '%s'\n") [AStr sensor] = Some l /\
            Z.of_nat (length l) <= 254) as (l & E & Hl).
  { rewrite sformat_unknown. eexists. split; [reflexivity|]. rewrite !length_app. cbn [length clit]. cbn. lia. }
  destruct (str_eqb sensor _); [eexists; apply show_flame_prints|].
  destruct (str_eqb sensor _); [eexists; prints_command|].
  destruct (str_eqb sensor _); [destruct (negb _); [|destruct (_ =? 0xAA)]; eexists; prints_command|].
  destruct (str_eqb sensor _); [eexists; prints_command|].
  destruct (str_eqb sensor _); [destruct (negb _); eexists; prints_command|].
  destruct (str_eqb sensor _); [eexists; prints_command|].
  eexists. eapply prints_bind; [by eapply prints_some|]. prints_command.
Qed.

(** *** The oxygen command *)

Lemma o2_debug_x10_same raw : o2_debug_x10 raw = o2_x10 raw.
Proof. done. Qed.

Definition o2_abnormal (x10 : Z) : bool :=
  let p := f32_div (f32_of_Z x10) (f32_of_Z 10) in f32_ltb p (f32_of_Z 10) || f32_ltb (f32_of_Z 30) p.

Lemma o2_abnormal_all :
  forallb (fun n => Bool.eqb (o2_abnormal (Z.of_nat n)) ((Z.of_nat n <? 100) || (300 <? Z.of_nat n)))
    (seq 0 (Z.to_nat 5684)) = true.
Proof. vm_compute. reflexivity. Qed.

Lemma o2_abnormal_spec x : 0 <= x <= 5683 -> o2_abnormal x = (x <? 100) || (300 <? x).
Proof.
  intros Hx. pose proof (proj1 (forallb_forall _ _) o2_abnormal_all (Z.to_nat x)) as Ha.
  specialize (Ha ltac:(apply in_seq; lia)). cbn beta in Ha. rewrite Z2Nat.id in Ha by lia. by apply Bool.eqb_prop in Ha.
Qed.

(** A warning below 1154 and from 3471 on. *)
Lemma o2_warning_band raw : 0 <= raw < 65536 ->
  (raw <? 500) || o2_abnormal (o2_debug_x10 raw) = (raw <? 1154) || (3471 <=? raw).
Proof.
  intros Hr. rewrite o2_debug_x10_same, (o2_x10_spec raw Hr).
  assert (0 <= raw * 209 / 2410 <= 5683) by (Z.div_mod_to_equations; lia).
  destruct (Z.leb_spec 207 (raw * 209 / 2410)), (Z.leb_spec (raw * 209 / 2410) 211); cbn [andb];
    rewrite o2_abnormal_spec by lia;
    apply Bool.eq_iff_eq_true; rewrite !orb_true_iff, !Z.ltb_lt, Z.leb_le; Z.div_mod_to_equations; lia.
Qed.

Lemma o2_report_prints raw : 0 <= raw < 65536 ->
  prints warning_text (o2_debug_report raw) tt ((raw <? 1154) || (3471 <=? raw)).
Proof.
  intros Hr. rewrite <- (o2_warning_band raw Hr). eapply prints_eq; [unfold o2_debug_report; prints_command|].
  unfold o2_abnormal. cbn [orb]. repeat case_match; done.
Qed.

Lemma on_out_prints {HW A B} w (m : M (list (list Z)) A) a b (k : A -> M (list (list Z) * HW) B) out h :
  prints w m a b -> exists new, Forall (fun l => Z.of_nat (length l) <= 254) new /\
    (In 73 w -> shown w new = b) /\ bindM (on_out m) k (out, h) = k a (out ++ new, h).
Proof.
  intros Hm. destruct (Hm out) as (new & E & F & A1). exists new. split_and!; [done..|].
  unfold bindM, on_out. by rewrite E.
Qed.

Lemma bindM_on_adc {HW A B} (m : M HW A) a (k : A -> M (list (list Z) * HW) B) out h h' :
  m h = Some (a, h') -> bindM (on_adc m) k (out, h) = k a (out, h').
Proof. intros E. unfold bindM, on_adc. by rewrite E. Qed.

(* ------------------------------------------------------------------ *)
(** ** Properties *)

(** C37: after a turn of the flame thread, the commands [flame], [test flame]
    and [sensors], which count the channels themselves, show the fire alarm
    exactly when the thread has raised it. *)
Theorem alarm_shown_agrees g b f b' t :
  adc_read_turn g b = Some (f, b') -> t_flame t = f ->
  let alarm cmd := exists out, cmd t [] = Some (tt, out) /\ shown alarm_text out = (Flame_ f =? 1) in
  alarm show_flame /\ alarm show_all_sensors /\ alarm (test_sensor [clit "test"; clit "flame"]).
Proof.
  intros E Ht alarm. destruct (adc_read_turn_bench g b) as (f' & b1 & E1 & Hc & Hf & _).
  rewrite E in E1. injection E1 as <- <-. fold (flame_channels f) in Hc. rewrite <- Hc, <- Ht in Hf.
  assert (forall cmd, prints alarm_text (cmd t) tt (4 <=? fire_count (flame_channels (t_flame t))) -> alarm cmd) as Ha.
  { intros cmd Hp. destruct (Hp []) as (out & Eo & _ & Hs). exists out. split; [done|].
    rewrite Hs by (cbn; auto). rewrite <- Ht, Hf. by destruct (4 <=? _). }
  split_and!; apply Ha; [apply show_flame_prints|apply show_all_sensors_prints|apply show_flame_prints].
Qed.

(** Whatever was published and whatever the arguments (a shell line has
    80 characters), every command of the table and every turn of the monitor
    run to their end and the console shows each of their messages in full. *)
Theorem commands_fit_console t argv :
  Forall (fun a => (length a <= 80)%nat) argv ->
  let shows m := exists out, m [] = Some (tt, out) /\ Forall (fun l => console_text l = l) out in
  Forall (fun c => shows (snd c argv t)) app_commands /\ shows (monitor_turn t) /\
  100 <= monitor_interval argv <= 10000 /\ shows (monitor_banner (monitor_interval argv)).
Proof.
  intros Ha shows.
  assert (forall m b, prints alarm_text m tt b -> shows m) as Hs.
  { intros m b Hp. destruct (Hp []) as (out & E & F & _). exists out. split; [done|].
    eapply Forall_impl; [exact F|]. cbn beta. intros l Hl. unfold console_text.
    rewrite firstn_all2, (proj2 (Nat.leb_gt 255 _)) by lia. by rewrite app_nil_r. }
  split_and!.
  - destruct (show_environment_prints t), (show_modbus_prints t), (test_sensor_prints argv t Ha).
    repeat constructor; cbn [snd]; eauto using show_flame_prints, show_all_sensors_prints.
  - destruct (monitor_turn_prints t). eauto.
  - unfold monitor_interval. destruct (_ =? 2)%nat; [|lia].
    destruct (Z.ltb_spec (s32 (atoi (nth 1 argv []) * 1000)) 100); [done|]. case_match; lia.
  - unfold monitor_interval. destruct (_ =? 2)%nat; [|lia]. repeat case_match; lia.
  - eapply Hs. unfold monitor_banner. prints_command.
Qed.

(** *** The witnesses' flame sensors: four channels on fire. *)
Definition fire_bench : bench := Bench (fun ch => Value (if ch =? 3 then 100 else 61000)) 0 [] false 0.
Definition fire_data : flame_data := FlameData 61000 61000 100 61000 61000 1 (set_Flame 1 (f_node0 (t_flame sample_telemetry))).
Definition fire_telemetry : telemetry :=
  Telemetry fire_data (t_methane sample_telemetry) (t_mb sample_telemetry) (t_sht30 sample_telemetry) (f32_of_Z 20).

Lemma alarm_shown_agrees_witness :
  let alarm cmd := exists out, cmd fire_telemetry [] = Some (tt, out) /\ shown alarm_text out = (Flame_ fire_data =? 1) in
  Flame_ fire_data = 1 /\
  alarm show_flame /\ alarm show_all_sensors /\ alarm (test_sensor [clit "test"; clit "flame"]).
Proof.
  intros alarm. split; [reflexivity|].
  refine (alarm_shown_agrees (t_flame sample_telemetry) fire_bench fire_data _ fire_telemetry _ _); [|reflexivity].
  vm_compute. reflexivity.
Defined.

Lemma commands_fit_console_witness :
  let argv := [clit "test"; clit "sht30"] in
  let shows m := exists out, m [] = Some (tt, out) /\ Forall (fun l => console_text l = l) out in
  Forall (fun c => shows (snd c argv fire_telemetry)) app_commands /\ shows (monitor_turn fire_telemetry) /\
  100 <= monitor_interval argv <= 10000 /\ shows (monitor_banner (monitor_interval argv)).
Proof. apply (commands_fit_console fire_telemetry [clit "test"; clit "sht30"]). repeat constructor; cbn; lia. Defined.

(** The texts of [test sht30], [test o2] and [test ammeter] do not depend
    on the sensors: rt_kprintf has no floating point conversions and prints
    their [%.2f] as the letters %f. *)
Theorem float_tests_blind t t' sensor :
  In sensor [clit "sht30"; clit "o2"; clit "ammeter"] ->
  exists out, test_sensor [clit "test"; sensor] t [] = Some (tt, out) /\
    test_sensor [clit "test"; sensor] t' [] = Some (tt, out) /\ shown (clit "%f") out = true.
Proof. intros [<-|[<-|[<-|[]]]]; (eexists; split; [vm_compute; reflexivity|split; vm_compute; reflexivity]). Qed.

Lemma float_tests_blind_witness :
  let t := fire_telemetry in let t' := sample_telemetry in
  g_temperature_c (t_sht30 t) <> f32_of_Z 0 /\
  exists out, test_sensor [clit "test"; clit "sht30"] t [] = Some (tt, out) /\
    test_sensor [clit "test"; clit "sht30"] t' [] = Some (tt, out) /\ shown (clit "%f") out = true.
Proof. split; [discriminate|]. apply (float_tests_blind fire_telemetry sample_telemetry). left. reflexivity. Defined.

(** [o2_debug] reads the oxygen channel once and warns exactly when the
    reading is below 1154 or above 3470 of 65535, that is outside 10 % to 30 %
    of oxygen; without the device it stops at the error message, and each
    message fits the console. *)
Theorem o2_debug_warns raw (b : bench) :
  b_conv b 18 = Value raw -> 0 <= raw < 65536 ->
  (exists out b', o2_debug true ([], b) = Some (tt, (out, b')) /\ b_running b' = false /\
    shown warning_text out = (raw <? 1154) || (3471 <=? raw) /\
    Forall (fun l => Z.of_nat (length l) <= 254) out) /\
  (exists out, o2_debug false ([], b) = Some (tt, (out, b)) /\
    shown (clit "Cannot find adc1") out = true /\ shown warning_text out = false).
Proof.
  intros Hv Hr. split.
  2: { eexists. split; [reflexivity|]. split; vm_compute; reflexivity. }
  unfold o2_debug. cbn [negb].
  destruct (rt_adc_read_bench 18 b ltac:(lia)) as (b' & E & Hrun & _). rewrite Hv in E.
  assert (prints warning_text (
    do! line "\n========================================\n" in
    do! line "  O2 Sensor Debug (ADC1 Channel 18)\n" in
    line "========================================\n\n") tt false) as Hh.
  { eapply prints_eq; [prints_command|]; reflexivity. }
  destruct (Hh []) as (head & Eh & Fh & Sh). destruct (o2_report_prints raw Hr head) as (body & Eb & Fb & Sb).
  exists (head ++ body), b'. split; [|split; [exact Hrun|split]].
  - unfold o2_debug. cbn [negb].
    unfold bindM at 1 2 3, on_out at 1 2 3. unfold bindM in Eh.
    destruct (line "\n========================================\n" []) as [[? o1]|]; [|done].
    destruct (line "  O2 Sensor Debug (ADC1 Channel 18)\n" o1) as [[? o2]|]; [|done].
    rewrite Eh. cbn [app].
    rewrite (bindM_on_adc (rt_adc_enable 18) RT_EOK _ _ b b) by reflexivity.
    rewrite (bindM_on_adc _ _ _ _ _ _ E). unfold bindM, on_out. rewrite Eb. reflexivity.
  - unfold shown in *. rewrite existsb_app, Sh, Sb by (vm_compute; tauto). reflexivity.
  - by apply Forall_app.
Qed.

Lemma o2_debug_warns_witness :
  let b := Bench (fun _ => Value 900) 0 [] false 0 in
  (exists out b', o2_debug true ([], b) = Some (tt, (out, b')) /\ b_running b' = false /\
    shown warning_text out = (900 <? 1154) || (3471 <=? 900) /\
    Forall (fun l => Z.of_nat (length l) <= 254) out) /\
  (exists out, o2_debug false ([], b) = Some (tt, (out, b)) /\
    shown (clit "Cannot find adc1") out = true /\ shown warning_text out = false).
Proof. apply (o2_debug_warns 900 (Bench (fun _ => Value 900) 0 [] false 0)); [reflexivity|lia]. Defined.
